(* ===== verification/_CoqProject ===== *)
-Q . S2P
Prelude.v
GoStr.v
GoStrProofs.v
GoTime.v
Cron.v
CronProofs.v
GoNet.v
GoNetProofs.v
GoCrypto.v
GoToken.v
GoUrl.v
GoQuote.v
Utf8Proofs.v
GoTextProofs.v
Model.v
Cache.v
World.v
Database.v
DatabaseProofs.v
GoSniff.v
Http.v
JsonProofs.v
FileSys.v
Rotate.v
RotateProofs.v
Log.v
LogProofs.v
RateLimit.v
Proxy.v
ProxyProofs.v
ConfigText.v
Config.v
ConfigProofs.v
ConfigStore.v
Csrf.v
CsrfProofs.v
Geoip.v
Headers.v
Health.v
Access.v
AccessProofs.v
Guards.v
GuardsProofs.v
Paste.v
Compat.v
Instances.v
ConfigInstances.v
ConfigStoreProofs.v
Backup.v
BackupProofs.v
AuditLog.v
Retention.v
RetentionProofs.v
BackupSpec.v
RetentionSpec.v
Download.v
Updater.v
UpdaterProofs.v
Notify.v
NotifyProofs.v
PasteProofs.v
PasteSpec.v
CompatSpec.v
Scheduler.v
Tasks.v
TasksProofs.v
Pages.v
PagesProofs.v
Mail.v
MailProofs.v
Reports.v
ReportsProofs.v
Disclosure.v
DisclosureProofs.v
AuditProofs.v
SchedulerSpec.v
Operator.v
OperatorProofs.v
Keys.v
KeysProofs.v
