(* ===== verification/Prelude.v ===== *)
(** * Pastebin server: verification library

    A model of the server and the theorems that make it correct.  The server
    (src/src/) stores pastes in an SQLite database, serves them through a native
    API, web pages and the protocols of other paste services, keeps a read cache
    in front of the database, limits the request rate per address, accepts
    security reports, and runs maintenance tasks from a scheduler.  Beside the
    server the binary has the operator's commands: backups, updates, key
    management, the records of a person.

    ** Parts and files

    Foundations:
    - this file: results ([Ok]/[Err]), computations that may panic or run out of
      fuel ([run]), 64-bit integers, the boolean filters and updates of lists
      that stand for the clauses of SQL statements, shared tactics;
    - [GoStr]: byte strings, UTF-8, and the functions of strings, strconv and
      unicode/utf8 the server calls; [GoTime]: instants, durations, time zones
      with transitions, the civil calendar, [time.Date]; [GoCrypto]: SHA-256,
      hexadecimal, base64; [GoToken]: HMAC and URL-safe base64; [GoNet]:
      addresses and networks; [GoUrl]: paths and redirects; [GoQuote]:
      strconv.Quote; [GoSniff]: [http.DetectContentType]; [Http]: requests,
      responses, JSON values and the client detection of
      common/httputil/detect.go; [FileSys]: a file system of names and inodes
      whose calls may fail.  [GoStrProofs], [GoNetProofs], [Utf8Proofs] and
      [GoTextProofs] are the lemmas about them.

    The server:
    - [Model], [Database], [DatabaseProofs]: the records of model/models.go and
      the operations of database/database.go and security_reports.go.  A table
      is the list of its rows; each operation keeps the name of its method;
    - [Cache]: cache/cache.go, the interface as the class [CacheDriver] with its
      laws [CacheLaws], the memory and no-op drivers, and the specification of a
      map whose entries have a last instant;
    - [World]: the state the handlers share (database, cache, clock, entropy,
      metrics) and the monad [M] of the computations on it;
    - [Paste], [PasteProofs], [PasteSpec], [JsonProofs]: handler/paste.go and what
      it guarantees; [JsonProofs] is the effect of the cache's JSON on a paste;
    - [Compat], [CompatSpec]: handler/compat.go, the other services' protocols;
    - [Pages], [PagesProofs]: the web pages of server/server.go that create, show,
      embed, download and remove pastes.  A page is its template with its data;
    - [Reports], [ReportsProofs]: server/security_report.go and the sealing of
      pgp_keypair.go: a report is validated, sealed, stored and announced;
      [Disclosure], [DisclosureProofs]: server/security_pages.go and the contact
      form of server.go;
    - [Mail], [MailProofs]: common/email/email.go; [Notify], [NotifyProofs]: the
      webhooks of notify/;
    - [Proxy], [ProxyProofs]: reverse proxies, the base URL, the learned domain and
      the cross-origin answers (server/server.go, domainlearn.go); here is also
      [HttpReq], the request as the middleware sees it;
    - [Csrf], [CsrfProofs]: the CSRF token, fetch metadata, captcha and submission
      ids (server/server.go, captcha.go, security_id.go);
    - [Geoip]: geoip/geoip.go; [Headers]: the security headers of
      server/server.go; [Health]: health/monitor.go and the maintenance mode;
    - [Access], [AccessProofs]: server/security_middleware.go and, from server.go,
      trailing slashes, the operator token and the request counters;
    - [Guards], [GuardsProofs]: the chain of [setupRoutes], a composition of
      middleware over an abstract handler that may panic, with
      [http.ErrAbortHandler] or another value ([PanicValue]);
    - [RateLimit]: server/ratelimit.go, as operations and as critical sections
      that interleave;
    - [Rotate], [RotateProofs]: the rotating writer of logging/rotate.go; [Log],
      [LogProofs]: the formatters and the manager of logging/; [AuditLog],
      [AuditProofs]: audit/audit.go and ulid.go.

    Tasks:
    - [Cron], [CronProofs]: the expressions of scheduler/cron.go.  [cron_Next]
      is [cronExpr.Next] with fuel, one unit per turn of its loop;
      [parseField], [parseCron] and [ParseSchedule] are the parsers;
    - [Scheduler], [SchedulerSpec]: scheduler/scheduler.go.  Each definition is
      a critical section of the scheduler's mutex; [react] runs them in any
      order, a run of a task going through the phases [Spawned], [Executing],
      [Finished];
    - [Retention], [RetentionProofs], [RetentionSpec]: the backup tasks of
      task/task.go with the checks of backup_guard.go, and what is pruned;
    - [Tasks], [TasksProofs]: the other daily tasks of task/task.go and the report
      of a run (main.go); [Download]: the downloads they make.

    Configuration and the operator's commands:
    - [ConfigText], [Config], [ConfigProofs]: config/bool.go, size.go,
      hostvalidate.go, common/secretbox, and the settings of config/config.go with
      their validation; [ConfigStore], [ConfigStoreProofs]: the file, its atomic
      replacement, the generated secrets, loading and reloading;
    - [Backup], [BackupProofs], [BackupSpec]: maintenance/maintenance.go: making,
      verifying and restoring archives;
    - [Updater], [UpdaterProofs]: updater/, with the replacement of the binary on
      Unix and on Windows;
    - [Operator], [OperatorProofs]: maintenance/authorize.go, data.go and
      compliance.go;
    - [Keys], [KeysProofs]: maintenance/pgp.go, server/pgp_keypair.go, pgp/pgp.go
      and database/security_keypair.go;
    - [Instances], [ConfigInstances]: executable instances of the interfaces, for
      the witnesses.

    ** How they interact

    The handlers ([Paste], [Compat], [Pages], [Reports], [Disclosure]) and the
    commands of [Operator] are computations of [M]: they call the operations of
    [Database], any driver of the cache that satisfies [CacheLaws], and read the
    clock and the entropy of the world.  The theorems about them are proved for
    every such driver; [Cache.memory_driver] and [Cache.noop_driver] discharge the
    laws.  What a handler does besides answering (mail, webhooks, log lines, audit
    entries) is a list of effects.  Whatever keeps files ([Rotate], [AuditLog],
    [ConfigStore], [Backup], [Retention], [Download], [Updater], [Tasks], [Keys])
    is a computation of [FileSys.D], in which any system call may fail; the
    relation [keeps] of [BackupProofs] says which files one may change, and its
    lemmas are shared.  The scheduler calls [Cron.Next] and the task operations of
    [Database].  [Guards.setupRoutes] composes the steps of [Proxy], [Csrf],
    [Headers], [Access], [Geoip] and [Health] around any handler, and writes the
    entries of [Log].

    ** Interfaces to code outside src/

    Classes stand for the libraries: [Unicode] (case tables), [JsonText] with
    [JsonLaws] (encoding/json: parsing what was rendered gives back the value with
    its strings made valid UTF-8), [JsonStream], [Net] (net/url and mime),
    [Printable] (unicode.IsPrint), [StdDuration] and [Floats] (conversions that go
    through floating point), [UrlParser] (net/url), [PublicSuffix] and [SuffixList]
    (publicsuffix), [Chi] (CleanPath), [Yaml] with [YamlLaws], [UuidParser],
    [Archives] (tar in gzip), [Gzip], [Kdf] (argon2), [AEAD] with [AEADLaws]
    (AES-GCM), [Certs] (crypto/x509), [OpenPGP] and [KeyTool] (go-crypto, hkdf),
    [TempNames] (os.CreateTemp), [MapOrder] and [Shuffle] (the order of Go's maps).
    The network, the SMTP session, html/template, chroma, the terminal and the
    machine's addresses are arguments.  A theorem that uses one of the laws has a
    witness with a concrete instance.

    ** What the theorems show

    - Pastes: creation adds exactly the requested paste or nothing; the cache
      stays coherent with the database through every sequence of creations,
      reads and deletions and every driver failure; reads answer 404, 410 (only when
      the expiry has passed) or the stored paste; deletion needs a token of that paste, through the API and the
      web form; a raw read returns what was uploaded; statuses and expiry dates
      stay in range; nothing a browser executes is shown inline.
    - Security reports: only the sealed body, the mails and nothing else depend on
      what a researcher wrote in confidence; a stored report can be read back,
      also after a rotation of the key; the status page opens for the token only,
      once a day; the link that is sent opens it; a researcher's key is fetched
      from public addresses only; the contact form sends nothing unscreened.
    - Mail: whatever visitors write, header lines are the program's own.
    - Database: well-formedness and unique keys under every sequence of
      operations; a view-limited paste is not counted past its limit; pages
      partition the listing; tokens verify exactly while live.
    - Cache: the memory driver refines the specification.
    - Scheduler: one run per task at a time, retries, restarts; cron: the first
      matching minute is found and the search terminates in zones of fixed
      offset, and does not at the end of daylight saving time.
    - Files: saving the configuration is atomic; rotation of logs loses no
      line unless the local clock is put back; the audit log only grows, by entries
      that are dated and identified; a backup restores to what was backed up when
      no disk operation fails, and a restore writes only where it may; what
      retention removes, by the calendar; an update installs only what the
      release's checksum names, and on Windows can leave the binary beside its
      place; downloads of security data replace a
      file completely or not at all.
    - Keys and operators: who may do what; the private key leaves only with
      authority and a reason; an erasure is complete, or changes nothing, or has
      failed at its last step with the paste gone and the token still valid.
    - Requests: the handlers are consulted only about requests that passed every
      check ([handlers_see_admitted]); every request is answered, counted and
      logged once ([every_request_settled]); headers of untrusted peers have no
      effect; a change needs its CSRF token, unless the server fails to make one; the
      path a handler sees is clean.
    - Departures of the code from what it means to do: the theorems whose doc
      comments say so.

    ** Bounds and fuel

    Integers are [Z]; where Go's arithmetic can overflow the wrap-around is
    written ([wrap64]).  The loop of [Next] visits at most one candidate per
    minute of the four years it searches, so [search_minutes + 1] units are
    enough in a zone of fixed offset; [loop_fuel] covers the 64 bits of a field.
    [unique_id] makes the ten attempts of the code.  One location serves for every
    instant that the scheduler uses, also for those read back from the database.  Redirections, retries and
    attempts are bounded as in the code, by the numbers that stand there.

    ** Not modelled

    What [renderTemplate] adds to a page and what html/template makes of it, the
    conversion of pages to text, pages of fixed text and API descriptions (server/,
    graphql/, swagger/), the command-line client and its terminal interface
    (client/), service installation, accounts, privileges, directories, process
    files and signals (service/, daemon/, path/, pid/, main.go), certificates, Tor
    and I2P (ssl/, tor/, i2p/), metrics exporters (metric/), banners and
    completions (common/, shell/): they mostly perform input and output or call
    libraries outside src/.  Syntax highlighting, the download of the country
    databases, the SMTP session and the redis driver only call such libraries. *)

From stdpp Require Export base tactics numbers list strings gmap fin_maps sorting.
From Stdlib Require Export ZArith Lia.
From Stdlib Require Import Ascii.

#[global] Open Scope Z_scope.

Declare Scope pb_scope.
Delimit Scope pb_scope with pb.
#[global] Open Scope pb_scope.

Create HintDb pb discriminated.

(** ** Results: a Go function returning [(T, error)] *)

(** An error value is identified with its message. *)
Inductive result (A : Type) : Type :=
  | Ok (a : A)
  | Err (msg : string).
Arguments Ok {A} _.
Arguments Err {A} _.

Definition result_map {A B} (f : A -> B) (r : result A) : result B :=
  match r with Ok a => Ok (f a) | Err e => Err e end.

Definition is_ok {A} (r : result A) : bool :=
  match r with Ok _ => true | Err _ => false end.

#[export] Instance result_ret : MRet result := @Ok.
#[export] Instance result_bind : MBind result :=
  fun A B f r => match r with Ok a => f a | Err e => Err e end.

Lemma result_bind_ok {A B} (f : A -> result B) (r : result A) (b : B) :
  r ≫= f = Ok b <-> exists a, r = Ok a /\ f a = Ok b.
Proof.
  destruct r as [a|e]; cbn; split; [eauto | | discriminate | ]; intros [a' [? ?]]; congruence.
Qed.

(** ** Computations that may panic or loop

    [Done] is a normal return, [Panicked] a run-time panic; [OutOfFuel] is only
    returned by a loop that used up the fuel it was given. *)
Inductive run (A : Type) : Type :=
  | Done (a : A)
  | Panicked
  | OutOfFuel.
Arguments Done {A} _.
Arguments Panicked {A}.
Arguments OutOfFuel {A}.

#[export] Instance run_ret : MRet run := @Done.
#[export] Instance run_bind : MBind run :=
  fun A B f r => match r with Done a => f a | Panicked => Panicked | OutOfFuel => OutOfFuel end.

Lemma run_bind_done {A B} (f : A -> run B) (r : run A) (b : B) :
  r ≫= f = Done b <-> exists a, r = Done a /\ f a = Done b.
Proof.
  destruct r; cbn; split; try (intros; done); [eauto|..]; intros (? & ? & ?); congruence.
Qed.

(** ** Machine integers

    Go's [int], [int64] and [time.Duration] are 64-bit two's complement on the
    platforms the server is built for; arithmetic wraps. *)

Definition max_int64 : Z := 2 ^ 63 - 1.
Definition min_int64 : Z := - 2 ^ 63.

Definition wrap64 (z : Z) : Z := (z + 2 ^ 63) mod 2 ^ 64 - 2 ^ 63.

Definition in_int64 (z : Z) : Prop := min_int64 <= z <= max_int64.

Lemma wrap64_range z : in_int64 (wrap64 z).
Proof.
  unfold in_int64, wrap64, min_int64, max_int64.
  pose proof (Z.mod_pos_bound (z + 2 ^ 63) (2 ^ 64) ltac:(lia)). lia.
Qed.

Lemma wrap64_id z : in_int64 z -> wrap64 z = z.
Proof.
  unfold in_int64, wrap64, min_int64, max_int64. intros H.
  rewrite Z.mod_small; lia.
Qed.

#[export] Hint Resolve wrap64_range : pb.

(** [uint64] arithmetic. *)
Definition wrapu64 (z : Z) : Z := z mod 2 ^ 64.

(** [lia] with the equations of the divisions and remainders of the goal. *)
Ltac dlia := Z.to_euclidean_division_equations; lia.

(** ** Booleans, options *)

Definition opt_bool {A} (f : A -> bool) (o : option A) : bool :=
  match o with Some a => f a | None => false end.

Definition is_some {A} (o : option A) : bool := match o with Some _ => true | None => false end.

Ltac bsplit :=
  repeat match goal with
  | H : (_ && _)%bool = true |- _ => apply andb_true_iff in H; destruct H
  | H : (_ || _)%bool = false |- _ => apply orb_false_iff in H; destruct H
  | H : negb _ = true |- _ => apply negb_true_iff in H
  | H : negb _ = false |- _ => apply negb_false_iff in H
  | |- (_ && _)%bool = true => apply andb_true_iff; split
  end.

(** Turn boolean comparisons in the context and the goal into propositions. *)
Ltac b2p :=
  bsplit;
  repeat match goal with
  | H : (_ <=? _) = true |- _ => apply Z.leb_le in H
  | H : (_ <=? _) = false |- _ => apply Z.leb_gt in H
  | H : (_ <? _) = true |- _ => apply Z.ltb_lt in H
  | H : (_ <? _) = false |- _ => apply Z.ltb_ge in H
  | H : (_ =? _) = true |- _ => apply Z.eqb_eq in H
  | H : (_ =? _) = false |- _ => apply Z.eqb_neq in H
  | H : (_ =? _)%string = true |- _ => apply String.eqb_eq in H
  | H : (_ =? _)%string = false |- _ => apply String.eqb_neq in H
  | H : bool_decide _ = true |- _ => apply bool_decide_eq_true in H
  | H : bool_decide _ = false |- _ => apply bool_decide_eq_false in H
  end.

(** Case analysis on the innermost [if]/[match] scrutinee of the goal. *)
Ltac case_goal :=
  match goal with
  | |- context [ match ?x with _ => _ end ] =>
      lazymatch x with context [ match _ with _ => _ end ] => fail | _ => destruct x eqn:? end
  end.

(** ** Lists: boolean filters as the [WHERE] clauses of the SQL statements *)

Section lists.
Context {A B : Type}.
Implicit Types (l : list A) (p q : A -> bool).

Definition keep p l : list A := List.filter p l.

Lemma keep_elem p l x : x ∈ keep p l <-> x ∈ l /\ p x = true.
Proof. unfold keep. rewrite !list_elem_of_In. apply filter_In. Qed.

Lemma keep_app p l1 l2 : keep p (l1 ++ l2) = keep p l1 ++ keep p l2.
Proof. apply List.filter_app. Qed.

Lemma keep_cons p x l : keep p (x :: l) = if p x then x :: keep p l else keep p l.
Proof. done. Qed.

Lemma keep_sublist p l : keep p l `sublist_of` l.
Proof. induction l as [|x l IH]; [done|]. rewrite keep_cons. destruct (p x); by constructor. Qed.

Lemma keep_ext p q l : (forall x, x ∈ l -> p x = q x) -> keep p l = keep q l.
Proof.
  induction l as [|x l IH]; intros H; [done|]. rewrite !keep_cons, (H x) by set_solver.
  rewrite IH; [done | set_solver].
Qed.

Lemma keep_all p l : (forall x, x ∈ l -> p x = true) -> keep p l = l.
Proof.
  induction l as [|x l IH]; intros H; [done|]. rewrite keep_cons, H by set_solver.
  f_equal. apply IH. set_solver.
Qed.

Lemma keep_none p l : (forall x, x ∈ l -> p x = false) -> keep p l = [].
Proof.
  induction l as [|x l IH]; intros H; [done|]. rewrite keep_cons, H by set_solver.
  apply IH. set_solver.
Qed.

Lemma keep_keep p q l : keep p (keep q l) = keep (fun x => p x && q x) l.
Proof.
  induction l as [|x l IH]; [done|]. rewrite !keep_cons.
  destruct (q x) eqn:Hq; rewrite ?keep_cons, ?IH, ?andb_true_r, ?andb_false_r; done.
Qed.

Lemma keep_length_le p l : (length (keep p l) <= length l)%nat.
Proof. apply List.filter_length_le. Qed.

Lemma NoDup_keep_fmap (f : A -> B) p l : NoDup (f <$> l) -> NoDup (f <$> keep p l).
Proof.
  induction l as [|x l IH]; [done|]. rewrite keep_cons, fmap_cons, NoDup_cons.
  intros [Hx Hl]. destruct (p x); [|auto]. rewrite fmap_cons. constructor; [|auto].
  intros (y & Heq & Hy)%list_elem_of_fmap. apply keep_elem in Hy as [? _].
  apply Hx, list_elem_of_fmap. eauto.
Qed.

(** [upd p f l]: the effect of [UPDATE ... SET f WHERE p]. *)
Definition upd p (f : A -> A) l : list A := (fun x => if p x then f x else x) <$> l.

Lemma upd_elem p f l x :
  x ∈ upd p f l <-> exists y, y ∈ l /\ x = if p y then f y else y.
Proof. unfold upd. rewrite list_elem_of_fmap. split; intros (y & H1 & H2); eauto. Qed.

Lemma upd_fmap_same (g : A -> B) p f l :
  (forall x, g (f x) = g x) -> g <$> upd p f l = g <$> l.
Proof.
  intros H. unfold upd. rewrite <- list_fmap_compose. apply list_fmap_ext.
  intros i x _. cbn. destruct (p x); [apply H | done].
Qed.

Lemma upd_length p f l : length (upd p f l) = length l.
Proof. apply length_fmap. Qed.

(** The first row satisfying [p]: [QueryRow]. *)
Definition first p l : option A := List.find p l.

Lemma first_Some p l x : first p l = Some x -> x ∈ l /\ p x = true.
Proof. intros H. rewrite list_elem_of_In. by apply find_some. Qed.

Lemma first_None p l : first p l = None <-> forall x, x ∈ l -> p x = false.
Proof.
  split.
  - intros H x Hx. apply (find_none _ _ H). by apply list_elem_of_In.
  - intros H. unfold first. destruct (List.find p l) eqn:E; [|done].
    apply find_some in E as [E1 E2]. apply list_elem_of_In in E1. rewrite H in E2; done.
Qed.

Lemma first_app p l1 l2 :
  first p (l1 ++ l2) = match first p l1 with Some x => Some x | None => first p l2 end.
Proof. induction l1 as [|x l1 IH]; [done|]. cbn. by destruct (p x). Qed.
End lists.

#[export] Hint Resolve keep_length_le NoDup_keep_fmap : pb.

(** Rows found through a unique key. *)
Lemma first_unique {A K} (key : A -> K) (p : A -> bool) (l : list A) x :
  NoDup (key <$> l) -> x ∈ l -> p x = true ->
  (forall y, p y = true -> key y = key x) -> first p l = Some x.
Proof.
  induction l as [|y l IH]; [set_solver|]. rewrite fmap_cons, NoDup_cons.
  intros [Hy Hl] Hx Hp Hk. cbn. destruct (p y) eqn:E.
  - f_equal. apply elem_of_cons in Hx as [->|Hx]; [done|].
    exfalso. apply Hy. rewrite (Hk y E). apply list_elem_of_fmap. eauto.
  - apply elem_of_cons in Hx as [->|Hx]; [congruence|]. by apply IH.
Qed.
