(* ===== verification/GoStr.v ===== *)
(** * Go strings

    A Go string is a sequence of bytes: [String.string].  This file gives the
    functions of the packages [strings], [unicode/utf8] and [strconv] that the
    server uses, on byte strings, with UTF-8 decoding where Go decodes runes. *)

From S2P Require Import Prelude.
From Stdlib Require Import Ascii.
From Stdlib Require DecimalString DecimalFacts DecimalPos DecimalZ.
Import DecimalString.
Export AsciiSyntax.

#[global] Open Scope string_scope.
#[global] Open Scope Z_scope.

#[global] Arguments String.append !_ _ /.

Bind Scope char_scope with ascii.

(** ** Bytes *)

Definition byte (c : ascii) : Z := Z.of_N (N_of_ascii c).
Definition chr (z : Z) : ascii := ascii_of_N (Z.to_N z).
Definition strlen (s : string) : Z := Z.of_nat (String.length s).

Definition bytes (s : string) : list Z := byte <$> String.list_ascii_of_string s.
Definition of_bytes (l : list Z) : string := String.string_of_list_ascii (chr <$> l).

Lemma byte_range c : 0 <= byte c < 256.
Proof. unfold byte. pose proof (N_ascii_bounded c). lia. Qed.

Lemma chr_byte c : chr (byte c) = c.
Proof. unfold chr, byte. rewrite N2Z.id. apply ascii_N_embedding. Qed.

Lemma byte_chr z : 0 <= z < 256 -> byte (chr z) = z.
Proof. intros. unfold chr, byte. rewrite N_ascii_embedding; lia. Qed.

Lemma of_bytes_bytes s : of_bytes (bytes s) = s.
Proof.
  unfold of_bytes, bytes. rewrite <- list_fmap_compose.
  rewrite (list_fmap_ext _ id), list_fmap_id; [apply String.string_of_list_ascii_of_string|].
  intros. apply chr_byte.
Qed.

Lemma bytes_of_bytes l : Forall (fun z => 0 <= z < 256) l -> bytes (of_bytes l) = l.
Proof.
  intros H. unfold of_bytes, bytes. rewrite String.list_ascii_of_string_of_list_ascii.
  rewrite <- list_fmap_compose. induction H; [done|]. rewrite fmap_cons. cbn [compose].
  f_equal; [by apply byte_chr | done].
Qed.

Lemma bytes_range s : Forall (fun z => 0 <= z < 256) (bytes s).
Proof. unfold bytes. apply Forall_fmap, Forall_true. intros. apply byte_range. Qed.

Lemma bytes_length s : Z.of_nat (length (bytes s)) = strlen s.
Proof.
  unfold bytes, strlen. rewrite length_fmap. f_equal.
  induction s; cbn; auto.
Qed.

(** ** Package strings: searching and cutting *)

Module Strings.

Definition HasPrefix (s p : string) : bool := String.prefix p s.

Definition HasSuffix (s suf : string) : bool :=
  (String.length suf <=? String.length s)%nat
  && String.eqb (String.substring (String.length s - String.length suf) (String.length suf) s) suf.

Definition Contains (s sub : string) : bool :=
  match String.index 0 sub s with Some _ => true | None => false end.

(** [s[n:]]; callers guard the index. *)
Definition drop (n : nat) (s : string) : string := String.substring n (String.length s - n) s.
Definition take (n : nat) (s : string) : string := String.substring 0 n s.

Definition TrimPrefix (s p : string) : string :=
  if HasPrefix s p then drop (String.length p) s else s.
Definition TrimSuffix (s suf : string) : string :=
  if HasSuffix s suf then take (String.length s - String.length suf) s else s.

Fixpoint any (f : ascii -> bool) (s : string) : bool :=
  match s with "" => false | String c r => f c || any f r end.
Fixpoint forall_byte (f : ascii -> bool) (s : string) : bool :=
  match s with "" => true | String c r => f c && forall_byte f r end.
Fixpoint map_byte (f : ascii -> ascii) (s : string) : string :=
  match s with "" => "" | String c r => String (f c) (map_byte f r) end.

Definition in_set (cs : string) (c : ascii) : bool := any (Ascii.eqb c) cs.

(** [ContainsAny s chars] for ASCII [chars]. *)
Definition ContainsAny (s chars : string) : bool := any (in_set chars) s.

(** [IndexByte]. *)
Fixpoint IndexByte (s : string) (c : ascii) : option nat :=
  match s with
  | "" => None
  | String d r => if Ascii.eqb d c then Some O else S <$> IndexByte r c
  end.

(** [LastIndex] of a one-byte separator. *)
Fixpoint LastIndexByte (s : string) (c : ascii) : option nat :=
  match s with
  | "" => None
  | String d r =>
      match LastIndexByte r c with
      | Some n => Some (S n)
      | None => if Ascii.eqb d c then Some O else None
      end
  end.

(** [Split s sep] for a one-byte separator: never empty. *)
Fixpoint Split (s : string) (c : ascii) : list string :=
  match s with
  | "" => [""]
  | String d r =>
      if Ascii.eqb d c then "" :: Split r c
      else match Split r c with
           | [] => [String d ""]
           | x :: xs => String d x :: xs
           end
  end.

(** [SplitN s sep 2] for a one-byte separator. *)
Fixpoint SplitN2 (s : string) (c : ascii) : list string :=
  match s with
  | "" => [""]
  | String d r =>
      if Ascii.eqb d c then [""; r]
      else match SplitN2 r c with
           | [] => [String d ""]
           | x :: xs => String d x :: xs
           end
  end.

Fixpoint Join (l : list string) (sep : string) : string :=
  match l with
  | [] => ""
  | [x] => x
  | x :: xs => x ++ sep ++ Join xs sep
  end.

Fixpoint Repeat (s : string) (n : nat) : string :=
  match n with O => "" | S n => s ++ Repeat s n end.

(** [ReplaceAll s old new] for a one-byte [old]. *)
Fixpoint ReplaceByte (s : string) (old : ascii) (new : string) : string :=
  match s with
  | "" => ""
  | String c r => if Ascii.eqb c old then new ++ ReplaceByte r old new
                  else String c (ReplaceByte r old new)
  end.

(** [TrimLeft]/[TrimRight]/[Trim] for an ASCII cutset. *)
(** [strings.NewReplacer(pairs...).Replace(s)] where no key is empty: at each
    position the first pair whose key is there is applied. *)
Fixpoint replace_from (pairs : list (string * string)) (s : string) (skip : nat) : string :=
  match s, skip with
  | "", _ => ""
  | String _ r, S k => replace_from pairs r k
  | String c r, O =>
      match List.find (fun kv => HasPrefix s (fst kv)) pairs with
      | Some (k, v) => v ++ replace_from pairs r (String.length k - 1)
      | None => String c (replace_from pairs r 0)
      end
  end.
Definition Replace (pairs : list (string * string)) (s : string) : string := replace_from pairs s 0.

Fixpoint TrimLeft (s cut : string) : string :=
  match s with
  | "" => ""
  | String c r => if in_set cut c then TrimLeft r cut else s
  end.
Fixpoint TrimRight (s cut : string) : string :=
  match s with
  | "" => ""
  | String c r =>
      match TrimRight r cut with
      | "" => if in_set cut c then "" else String c ""
      | r' => String c r'
      end
  end.
Definition Trim (s cut : string) : string := TrimRight (TrimLeft s cut) cut.

End Strings.

(** ** UTF-8 *)

Module Utf8.

Definition RuneError : Z := 65533.

Definition in_rng (lo hi z : Z) : bool := (lo <=? z) && (z <=? hi).
Definition cont (z : Z) : bool := in_rng 128 191 z.

(** [utf8.DecodeRuneInString] on the bytes: the rune and its width; an
    invalid or truncated sequence yields [(RuneError, 1)]. *)
Definition DecodeRune (l : list Z) : Z * nat :=
  match l with
  | [] => (RuneError, 0%nat)
  | b0 :: r =>
      if b0 <? 128 then (b0, 1%nat)
      else if in_rng 194 223 b0 then
        match r with
        | b1 :: _ => if cont b1 then (Z.lor (Z.shiftl (b0 - 192) 6) (b1 - 128), 2%nat)
                     else (RuneError, 1%nat)
        | _ => (RuneError, 1%nat)
        end
      else if in_rng 224 239 b0 then
        match r with
        | b1 :: b2 :: _ =>
            let lo := if b0 =? 224 then 160 else 128 in
            let hi := if b0 =? 237 then 159 else 191 in
            if in_rng lo hi b1 && cont b2 then
              (Z.lor (Z.shiftl (b0 - 224) 12) (Z.lor (Z.shiftl (b1 - 128) 6) (b2 - 128)), 3%nat)
            else (RuneError, 1%nat)
        | _ => (RuneError, 1%nat)
        end
      else if in_rng 240 244 b0 then
        match r with
        | b1 :: b2 :: b3 :: _ =>
            let lo := if b0 =? 240 then 144 else 128 in
            let hi := if b0 =? 244 then 143 else 191 in
            if in_rng lo hi b1 && cont b2 && cont b3 then
              (Z.lor (Z.shiftl (b0 - 240) 18)
                 (Z.lor (Z.shiftl (b1 - 128) 12)
                    (Z.lor (Z.shiftl (b2 - 128) 6) (b3 - 128))), 4%nat)
            else (RuneError, 1%nat)
        | _ => (RuneError, 1%nat)
        end
      else (RuneError, 1%nat)
  end.

(** [utf8.AppendRune]. *)
Definition EncodeRune (r : Z) : list Z :=
  if in_rng 0 127 r then [r]
  else if in_rng 128 2047 r then
    [Z.lor 192 (Z.shiftr r 6); Z.lor 128 (Z.land r 63)]
  else if (r <? 0) || (1114111 <? r) || in_rng 55296 57343 r then [239; 191; 189]
  else if r <=? 65535 then
    [Z.lor 224 (Z.shiftr r 12); Z.lor 128 (Z.land (Z.shiftr r 6) 63); Z.lor 128 (Z.land r 63)]
  else
    [Z.lor 240 (Z.shiftr r 18); Z.lor 128 (Z.land (Z.shiftr r 12) 63);
     Z.lor 128 (Z.land (Z.shiftr r 6) 63); Z.lor 128 (Z.land r 63)].

(** [for _, r := range s]: the runes with the bytes each one was read from. *)
Fixpoint runes_fuel (fuel : nat) (l : list Z) : list (Z * list Z) :=
  match fuel, l with
  | O, _ | _, [] => []
  | S fuel, _ =>
      let '(r, w) := DecodeRune l in
      (r, take (Nat.max w 1) l) :: runes_fuel fuel (drop (Nat.max w 1) l)
  end.

Definition runes (s : string) : list (Z * list Z) :=
  let l := bytes s in runes_fuel (length l) l.

Definition of_runes (l : list Z) : string := of_bytes (l ≫= EncodeRune).

(** The string re-encoded rune by rune: every invalid byte becomes U+FFFD. *)
Definition ToValid (s : string) : string := of_runes (fst <$> runes s).

(** A byte string that is its own re-encoding. *)
Definition Valid (s : string) : bool := String.eqb (ToValid s) s.

End Utf8.

(** ** Package unicode

    The case tables of non-ASCII runes are a parameter; white space is Go's
    [unicode.IsSpace]. *)

Class Unicode := {
  upper_rune : Z -> Z;
  lower_rune : Z -> Z;
}.

Module Unicode_.
Definition IsSpace (r : Z) : bool :=
  Utf8.in_rng 9 13 r || (r =? 32) || (r =? 133) || (r =? 160) || (r =? 5760)
  || Utf8.in_rng 8192 8202 r || (r =? 8232) || (r =? 8233) || (r =? 8239)
  || (r =? 8287) || (r =? 12288).

Definition ToLower `{Unicode} (r : Z) : Z :=
  if r <? 128 then (if Utf8.in_rng 65 90 r then r + 32 else r) else lower_rune r.
Definition ToUpper `{Unicode} (r : Z) : Z :=
  if r <? 128 then (if Utf8.in_rng 97 122 r then r - 32 else r) else upper_rune r.
End Unicode_.

(** The identity case tables: exact on ASCII strings. *)
Definition ascii_unicode : Unicode := {| upper_rune := id; lower_rune := id |}.

Module StringsU.

Definition is_ascii (s : string) : bool := Strings.forall_byte (fun c => byte c <? 128) s.

Definition lower_ascii (c : ascii) : ascii :=
  if Utf8.in_rng 65 90 (byte c) then chr (byte c + 32) else c.
Definition upper_ascii (c : ascii) : ascii :=
  if Utf8.in_rng 97 122 (byte c) then chr (byte c - 32) else c.

(** [strings.ToLower]: a byte loop on ASCII strings, [Map(unicode.ToLower, s)]
    otherwise. *)
Definition ToLower `{Unicode} (s : string) : string :=
  if is_ascii s then Strings.map_byte lower_ascii s
  else Utf8.of_runes ((fun p => Unicode_.ToLower (fst p)) <$> Utf8.runes s).
Definition ToUpper `{Unicode} (s : string) : string :=
  if is_ascii s then Strings.map_byte upper_ascii s
  else Utf8.of_runes ((fun p => Unicode_.ToUpper (fst p)) <$> Utf8.runes s).

Fixpoint drop_space (l : list (Z * list Z)) : list (Z * list Z) :=
  match l with
  | [] => []
  | (r, b) :: l' => if Unicode_.IsSpace r then drop_space l' else l
  end.

Definition flat (l : list (Z * list Z)) : string := of_bytes (l ≫= snd).

(** [strings.TrimSpace]. *)
Definition TrimSpace (s : string) : string :=
  flat (rev (drop_space (rev (drop_space (Utf8.runes s))))).

(** [strings.Fields]: the maximal runs of non-space runes. *)
Fixpoint fields_runes (cur : list (Z * list Z)) (l : list (Z * list Z)) : list string :=
  match l with
  | [] => match cur with [] => [] | _ => [flat (rev cur)] end
  | (r, b) :: l' =>
      if Unicode_.IsSpace r then
        match cur with [] => fields_runes [] l' | _ => flat (rev cur) :: fields_runes [] l' end
      else fields_runes ((r, b) :: cur) l'
  end.
Definition Fields (s : string) : list string := fields_runes [] (Utf8.runes s).

(** [strings.Map]; a negative rune ([None]) is dropped. Bytes that are not UTF-8 count
    as U+FFFD. *)
Definition Map (f : Z -> option Z) (s : string) : string := Utf8.of_runes (omap (fun p => f (fst p)) (Utf8.runes s)).

End StringsU.

(** ** Package strconv *)

Module Strconv.

Inductive NumError := ErrSyntax | ErrRange.

Definition digit (c : ascii) : option Z :=
  if Utf8.in_rng 48 57 (byte c) then Some (byte c - 48) else None.

(** The digit loop of [ParseUint(s, 10, 64)]: the scan stops at the first
    character that is no digit, and at the first overflow. *)
Fixpoint parse_digits (n : Z) (s : string) : Z * option NumError :=
  match s with
  | "" => (n, None)
  | String c r =>
      match digit c with
      | None => (0, Some ErrSyntax)
      | Some d =>
          let n' := n * 10 + d in
          if n' <? 2 ^ 64 then parse_digits n' r else (2 ^ 64 - 1, Some ErrRange)
      end
  end.

Definition ParseUint (s : string) : Z * option NumError :=
  match s with "" => (0, Some ErrSyntax) | _ => parse_digits 0 s end.

(** [ParseInt(s, 10, 64)]: the value is clamped on a range error and 0 on a
    syntax error. *)
Definition ParseInt (s : string) : Z * option NumError :=
  match s with
  | "" => (0, Some ErrSyntax)
  | String c r =>
      let '(neg, body) :=
        if Ascii.eqb c "+" then (false, r)
        else if Ascii.eqb c "-" then (true, r) else (false, s) in
      match ParseUint body with
      | (_, Some ErrSyntax) => (0, Some ErrSyntax)
      | (un, _) =>
          if negb neg && (2 ^ 63 <=? un) then (2 ^ 63 - 1, Some ErrRange)
          else if neg && (2 ^ 63 <? un) then (- 2 ^ 63, Some ErrRange)
          else (if neg then - un else un, None)
      end
  end.

(** [Atoi] agrees with [ParseInt(s, 10, 0)] on a 64-bit [int]. *)
Definition Atoi (s : string) : Z * option NumError := ParseInt s.

(** [Itoa], [FormatInt(n, 10)] and the verb [%d]. *)
Definition Itoa (z : Z) : string := NilZero.string_of_int (Z.to_int z).

(** [%0wd] of a non-negative integer. *)
Definition pad (w : nat) (z : Z) : string :=
  let s := Itoa z in Strings.Repeat "0" (w - String.length s) ++ s.

End Strconv.

(** ** Facts *)

Lemma string_app_nil_r (s : string) : s ++ "" = s.
Proof. induction s; cbn; congruence. Qed.

Lemma string_app_assoc (a b c : string) : a ++ (b ++ c) = (a ++ b) ++ c.
Proof. induction a; cbn; congruence. Qed.

Lemma string_app_length (a b : string) :
  String.length (a ++ b) = (String.length a + String.length b)%nat.
Proof. induction a; cbn; auto. Qed.

Lemma prefix_inj p (a b : string) : p ++ a = p ++ b -> a = b.
Proof. induction p; cbn; [done|]. intros [= H]. auto. Qed.

Lemma prefix_app p s : String.prefix p (p ++ s) = true.
Proof.
  induction p as [|c p IH]; cbn; [by destruct s|].
  destruct (ascii_dec c c); [done | congruence].
Qed.

Lemma prefix_spec p s : String.prefix p s = true <-> exists t, s = p ++ t.
Proof.
  split; [|intros [t ->]; apply prefix_app].
  revert s. induction p as [|c p IH]; intros s H; [by exists s|].
  destruct s as [|d s]; [discriminate|]. cbn in H.
  destruct (ascii_dec c d) as [->|]; [|discriminate].
  destruct (IH _ H) as [t ->]. by exists t.
Qed.

Lemma any_app f a b : Strings.any f (a ++ b) = Strings.any f a || Strings.any f b.
Proof. induction a; cbn; [done|]. by rewrite IHa, orb_assoc. Qed.

Lemma forall_byte_app f a b :
  Strings.forall_byte f (a ++ b) = Strings.forall_byte f a && Strings.forall_byte f b.
Proof. induction a; cbn; [done|]. by rewrite IHa, andb_assoc. Qed.

Lemma forall_byte_substring f n m s :
  Strings.forall_byte f s = true -> Strings.forall_byte f (String.substring n m s) = true.
Proof.
  revert n m. induction s as [|c s IH]; intros n m Hs; [by destruct n, m|]. cbn in Hs. apply andb_true_iff in Hs as [Hc Hs].
  destruct n as [|n]; [|by apply IH]. destruct m as [|m]; [done|]. cbn. by rewrite Hc, IH.
Qed.

Lemma bytes_app a b : bytes (a ++ b) = (bytes a ++ bytes b)%list.
Proof. unfold bytes. induction a as [|c a IH]; [done|]. cbn. by f_equal. Qed.

Lemma forall_byte_not_any f s :
  Strings.forall_byte f s = negb (Strings.any (fun c => negb (f c)) s).
Proof. induction s; cbn; [done|]. rewrite IHs. by destruct (f a). Qed.

Lemma in_set_elem cs c : Strings.in_set cs c = true <-> c ∈ String.list_ascii_of_string cs.
Proof.
  unfold Strings.in_set. induction cs as [|d cs IH]; cbn.
  - split; [discriminate | set_solver].
  - rewrite orb_true_iff, Ascii.eqb_eq, IH, elem_of_cons. naive_solver.
Qed.

(** [TrimRight] keeps a prefix, and what it removes is in the cutset. *)
Lemma TrimRight_spec s cut :
  exists t, s = Strings.TrimRight s cut ++ t /\ Strings.forall_byte (Strings.in_set cut) t = true.
Proof.
  induction s as [|c s (t & Hs & Ht)]; [by exists ""|]. cbn.
  destruct (Strings.TrimRight s cut) as [|d r] eqn:E.
  - destruct (Strings.in_set cut c) eqn:Ec.
    + exists (String c s). cbn in Hs. subst t. cbn. by rewrite Ec.
    + exists t. cbn in *. by subst.
  - exists t. split; [|done]. cbn. rewrite Hs at 1. done.
Qed.

(** A string whose last byte is outside the cutset is left alone. *)
Lemma TrimRight_id s c cut :
  Strings.in_set cut c = false -> Strings.TrimRight (s ++ String c "") cut = s ++ String c "".
Proof.
  intros Hc. induction s as [|d s IH]; cbn; [by rewrite Hc|].
  rewrite IH. destruct s; done.
Qed.

Lemma to_int_neq_nil z : Z.to_int z <> Decimal.Pos Decimal.Nil /\ Z.to_int z <> Decimal.Neg Decimal.Nil.
Proof.
  destruct z as [|p|p]; cbn; split; try done; intros H; injection H as H;
    by apply (DecimalPos.Unsigned.to_uint_nonnil p).
Qed.

Lemma Itoa_inj a b : Strconv.Itoa a = Strconv.Itoa b -> a = b.
Proof.
  unfold Strconv.Itoa. intros H. apply (f_equal NilZero.int_of_string) in H.
  pose proof (to_int_neq_nil a) as [? ?]. pose proof (to_int_neq_nil b) as [? ?].
  rewrite !NilZero.isi in H by done.
  injection H as H. apply (f_equal Z.of_int) in H. by rewrite !DecimalZ.of_to in H.
Qed.

(** ** [Atoi] undoes [Itoa] *)

(** The value of a digit string read from the left. *)
Fixpoint du (n : Z) (d : Decimal.uint) : Z :=
  match d with
  | Decimal.Nil => n
  | Decimal.D0 d => du (n * 10 + 0) d | Decimal.D1 d => du (n * 10 + 1) d
  | Decimal.D2 d => du (n * 10 + 2) d | Decimal.D3 d => du (n * 10 + 3) d
  | Decimal.D4 d => du (n * 10 + 4) d | Decimal.D5 d => du (n * 10 + 5) d
  | Decimal.D6 d => du (n * 10 + 6) d | Decimal.D7 d => du (n * 10 + 7) d
  | Decimal.D8 d => du (n * 10 + 8) d | Decimal.D9 d => du (n * 10 + 9) d
  end.

Lemma du_le d n : 0 <= n -> n <= du n d.
Proof.
  revert n. induction d as [|d IH|d IH|d IH|d IH|d IH|d IH|d IH|d IH|d IH|d IH]; intros n Hn; cbn [du]; [lia|..];
    (etransitivity; [|apply IH]); lia.
Qed.

Lemma du_acc d p : du (Z.pos p) d = Z.pos (Pos.of_uint_acc d p).
Proof.
  revert p. induction d as [|d IH|d IH|d IH|d IH|d IH|d IH|d IH|d IH|d IH|d IH]; intros p; cbn [du Pos.of_uint_acc];
    [done|..]; rewrite <- IH; f_equal; lia.
Qed.

Lemma du_of_uint d : du 0 d = Z.of_N (Pos.of_uint d).
Proof.
  induction d as [|d IH|d IH|d IH|d IH|d IH|d IH|d IH|d IH|d IH|d IH]; cbn [du Pos.of_uint];
    [done | exact IH |..]; change (0 * 10 + ?k) with k; rewrite du_acc; done.
Qed.

Lemma parse_digits_du d n :
  0 <= n -> du n d < 2 ^ 64 ->
  Strconv.parse_digits n (NilEmpty.string_of_uint d) = (du n d, None).
Proof.
  revert n. induction d as [|d IH|d IH|d IH|d IH|d IH|d IH|d IH|d IH|d IH|d IH]; intros n Hn Hlt;
    [done|..]; cbn [du NilEmpty.string_of_uint] in *; cbn [Strconv.parse_digits];
    match goal with |- context [Strconv.digit ?c] =>
      let v := eval vm_compute in (Strconv.digit c) in change (Strconv.digit c) with v end;
    cbv zeta iota beta; match type of Hlt with du ?m _ < _ => pose proof (du_le d m ltac:(lia)) end;
    rewrite (proj2 (Z.ltb_lt _ _)) by lia; apply IH; lia.
Qed.

Lemma ParseUint_pos p : Z.pos p < 2 ^ 64 ->
  Strconv.ParseUint (NilZero.string_of_uint (Pos.to_uint p)) = (Z.pos p, None).
Proof.
  intros Hp. pose proof (DecimalPos.Unsigned.to_uint_nonnil p) as Hn.
  assert (Hd : du 0 (Pos.to_uint p) = Z.pos p) by (rewrite du_of_uint, DecimalPos.Unsigned.of_to; done).
  replace (NilZero.string_of_uint (Pos.to_uint p)) with (NilEmpty.string_of_uint (Pos.to_uint p))
    by (by destruct (Pos.to_uint p)).
  unfold Strconv.ParseUint. destruct (NilEmpty.string_of_uint (Pos.to_uint p)) as [|c r] eqn:E.
  { by destruct (Pos.to_uint p). }
  rewrite <- E, parse_digits_du, Hd; [done | lia | lia].
Qed.

Lemma string_of_uint_head d :
  d <> Decimal.Nil ->
  exists c r, NilZero.string_of_uint d = String c r /\ Ascii.eqb c "+" = false /\ Ascii.eqb c "-" = false.
Proof. destruct d; [done|..]; intros _; eexists _, _; by repeat split. Qed.

Lemma Atoi_Itoa z : in_int64 z -> Strconv.Atoi (Strconv.Itoa z) = (z, None).
Proof.
  unfold in_int64, min_int64, max_int64, Strconv.Atoi, Strconv.Itoa. intros Hz.
  destruct z as [|p|p]; [done|..]; cbn [Z.to_int NilZero.string_of_int].
  - destruct (string_of_uint_head (Pos.to_uint p) (DecimalPos.Unsigned.to_uint_nonnil p)) as (c & r & E & E1 & E2).
    unfold Strconv.ParseInt. rewrite E, E1, E2, <- E, ParseUint_pos by lia. cbn [negb andb].
    by rewrite (proj2 (Z.leb_gt _ _)) by lia.
  - unfold Strconv.ParseInt. change (Ascii.eqb "-" "+") with false. change (Ascii.eqb "-" "-") with true.
    cbv iota beta. rewrite ParseUint_pos by lia. cbn [negb andb].
    by rewrite (proj2 (Z.ltb_ge _ _)) by lia.
Qed.

Lemma substring_full s n : (String.length s <= n)%nat -> String.substring 0 n s = s.
Proof.
  revert n. induction s as [|c s IH]; intros [|n] H; cbn in *; try done; try lia. by rewrite IH by lia.
Qed.

Lemma drop_app_2 c d s : Strings.drop 2 (String c (String d s)) = s.
Proof. unfold Strings.drop. cbn. apply substring_full. lia. Qed.

(** ** ASCII strings *)

Lemma runes_fuel_ascii l :
  Forall (fun b => 0 <= b < 128) l -> forall n, (length l <= n)%nat -> Utf8.runes_fuel n l = (fun b => (b, [b])) <$> l.
Proof.
  induction 1 as [|b l Hb Hl IH]; intros n Hn; [by destruct n|].
  destruct n as [|n]; cbn in Hn; [lia|]. cbn [Utf8.runes_fuel Utf8.DecodeRune].
  rewrite (proj2 (Z.ltb_lt _ _)) by lia. cbn. rewrite drop_0. f_equal. apply IH. lia.
Qed.

Lemma is_ascii_bytes s : StringsU.is_ascii s = true -> Forall (fun b => 0 <= b < 128) (bytes s).
Proof.
  unfold StringsU.is_ascii. induction s as [|c s IH]; cbn; [constructor|].
  intros [Hc Hs]%andb_true_iff. apply Z.ltb_lt in Hc. unfold bytes. cbn.
  constructor; [pose proof (byte_range c); lia | by apply IH].
Qed.

Lemma runes_ascii s : StringsU.is_ascii s = true -> Utf8.runes s = (fun b => (b, [b])) <$> bytes s.
Proof. intros H. apply runes_fuel_ascii; [by apply is_ascii_bytes | lia]. Qed.

Lemma ToValid_ascii s : StringsU.is_ascii s = true -> Utf8.ToValid s = s.
Proof.
  intros H. unfold Utf8.ToValid, Utf8.of_runes. rewrite runes_ascii, <- list_fmap_compose by done.
  rewrite <- (of_bytes_bytes s) at 2. f_equal.
  pose proof (is_ascii_bytes s H) as Hb. induction Hb as [|b l Hb Hl IH]; [done|].
  cbn. rewrite IH. unfold Utf8.EncodeRune, Utf8.in_rng.
  rewrite (proj2 (Z.leb_le 0 b)), (proj2 (Z.leb_le b 127)) by lia. done.
Qed.
