(* ===== verification/GoStrProofs.v ===== *)
(** * Facts about package strings

    Searching and cutting in strings that are put together. *)

From S2P Require Import Prelude GoStr.
From Stdlib Require Import Ascii.

Import Strings.

(** ** Bytes *)

Lemma any_false_index f s c : f c = true -> any f s = false -> IndexByte s c = None /\ LastIndexByte s c = None.
Proof.
  intros Hc. induction s as [|d s IH]; [done|]. cbn. intros [Hd Hs]%orb_false_iff. destruct (IH Hs) as [-> ->].
  destruct (Ascii.eqb_spec d c) as [->|]; [congruence | done].
Qed.

Lemma any_impl (f g : ascii -> bool) s : (forall c, f c = true -> g c = true) -> any g s = false -> any f s = false.
Proof.
  intros Hfg. induction s as [|d s IH]; [done|]. cbn. intros [Hd Hs]%orb_false_iff. rewrite (IH Hs), orb_false_r.
  destruct (f d) eqn:E; [|done]. by rewrite (Hfg d E) in Hd.
Qed.

Lemma forall_byte_any (f g : ascii -> bool) s : (forall c, f c = true -> g c = false) -> forall_byte f s = true -> any g s = false.
Proof.
  intros Hfg. induction s as [|d s IH]; [done|]. cbn. intros [Hd Hs]%andb_true_iff. by rewrite (Hfg d Hd), (IH Hs).
Qed.

Lemma any_substring f n m s : any f s = false -> any f (String.substring n m s) = false.
Proof.
  revert n m. induction s as [|d s IH]; intros [|n] [|m]; cbn; try done; intros [Hd Hs]%orb_false_iff;
    [by rewrite Hd, IH | by apply IH | by apply IH].
Qed.

Lemma any_in_set_single c s : any (in_set (String c "")) s = false <-> IndexByte s c = None.
Proof.
  induction s as [|d s IH]; [done|]. cbn. unfold in_set at 1. cbn. rewrite orb_false_r.
  destruct (Ascii.eqb_spec d c) as [->|]; cbn; [done|].
  rewrite IH. by destruct (IndexByte s c).
Qed.

Lemma IndexByte_app x y c : IndexByte x c = None -> IndexByte (x ++ y) c = Nat.add (String.length x) <$> IndexByte y c.
Proof.
  induction x as [|d x IH]; cbn; [by intros _; destruct (IndexByte y c)|].
  destruct (Ascii.eqb_spec d c); [done|]. intros Hx. rewrite IH by by destruct (IndexByte x c). by destruct (IndexByte y c).
Qed.

Lemma LastIndexByte_app x y c i : LastIndexByte y c = Some i -> LastIndexByte (x ++ y) c = Some (String.length x + i)%nat.
Proof. intros Hy. induction x as [|d x IH]; cbn; [done | by rewrite IH]. Qed.

Lemma LastIndexByte_head c y : LastIndexByte y c = None -> LastIndexByte (String c y) c = Some 0%nat.
Proof. cbn. intros ->. by rewrite Ascii.eqb_refl. Qed.

(** The part after the last occurrence has no further one. *)
Lemma after_last s c i : LastIndexByte s c = Some i -> IndexByte (drop (i + 1) s) c = None /\ LastIndexByte (drop (i + 1) s) c = None.
Proof.
  revert i. induction s as [|d s IH]; cbn; [done|]. intros i. destruct (LastIndexByte s c) as [j|] eqn:E.
  - intros [= <-]. destruct (IH j eq_refl) as [A B]. unfold drop in *. cbn [Nat.add String.length String.substring].
    replace (S (String.length s) - S (j + 1))%nat with (String.length s - (j + 1))%nat by lia. done.
  - destruct (Ascii.eqb_spec d c); [|done]. intros [= <-]. unfold drop. cbn [Nat.add String.length String.substring].
    replace (S (String.length s) - 1)%nat with (String.length s) by lia. rewrite substring_full by done. split; [|done].
    clear -E. induction s as [|a s IH]; [done|]. cbn in *. destruct (LastIndexByte s c); [done|].
    destruct (Ascii.eqb a c); [done|]. by rewrite IH.
Qed.

Lemma take_app x y : take (String.length x) (x ++ y) = x.
Proof. unfold take. induction x as [|c x IH]; cbn; [by destruct y | by f_equal]. Qed.

Lemma take_more x y n : take (String.length x + n) (x ++ y) = x ++ take n y.
Proof. unfold take. induction x as [|c x IH]; cbn; [done | by f_equal]. Qed.

Lemma take_none s : take 0 s = "".
Proof. by destruct s. Qed.

Lemma take_long n s : (String.length s <= n)%nat -> take n s = s.
Proof. revert n. induction s as [|c s IH]; intros [|n] Hn; cbn in *; try done; [lia|]. change (String c (take n s) = String c s). by rewrite IH by lia. Qed.

Lemma take_short x y n : (n <= String.length x)%nat -> take n (x ++ y) = take n x.
Proof.
  revert n. induction x as [|c x IH]; intros [|n] Hn; cbn [String.length] in Hn; try lia; [by rewrite !take_none..|].
  change (String c (take n (x ++ y)) = String c (take n x)). by rewrite IH by lia.
Qed.

Lemma drop_app_n x y n : drop (String.length x + n) (x ++ y) = drop n y.
Proof.
  unfold drop. rewrite string_app_length. replace (_ + _ - _)%nat with (String.length y - n)%nat by lia.
  induction x as [|c x IH]; [done | exact IH].
Qed.

Lemma drop_1 c s : drop 1 (String c s) = s.
Proof. unfold drop. cbn. rewrite Nat.sub_0_r. by apply substring_full. Qed.

Lemma drop_S n c s : drop (S n) (String c s) = drop n s.
Proof. done. Qed.

Lemma ContainsAny_app cs x y : ContainsAny (x ++ y) cs = ContainsAny x cs || ContainsAny y cs.
Proof. apply any_app. Qed.

Lemma ContainsAny_cons d cs s : ContainsAny s (String d cs) = ContainsAny s (String d "") || ContainsAny s cs.
Proof.
  induction s as [|c s IH]; [done|]. unfold ContainsAny in *. cbn [any]. rewrite IH. unfold in_set. cbn [any].
  rewrite orb_false_r. fold (in_set (String d "")). destruct (Ascii.eqb c d), (any (Ascii.eqb c) cs); cbn; by rewrite ?orb_true_r.
Qed.

Lemma any_drop_add f n m s : any f (drop n s) = false -> any f (drop (n + m) s) = false.
Proof.
  revert s. induction n as [|n IH]; intros s.
  - unfold drop at 1. rewrite substring_full by lia. apply any_substring.
  - destruct s as [|c s]; [done|]. cbn [Nat.add]. rewrite !drop_S. apply IH.
Qed.

Lemma forall_byte_impl (f g : ascii -> bool) s : (forall c, f c = true -> g c = true) -> forall_byte f s = true -> forall_byte g s = true.
Proof. intros Hfg. induction s as [|c s IH]; [done|]. cbn. intros [Hc Hs]%andb_true_iff. by rewrite (Hfg c Hc), IH. Qed.

(** ** Prefixes and suffixes *)

Lemma substring_app_r x y : String.substring (String.length x) (String.length y) (x ++ y) = y.
Proof. induction x as [|c x IH]; [by apply substring_full | exact IH]. Qed.

Lemma HasSuffix_app x y : HasSuffix (x ++ y) y = true.
Proof.
  unfold HasSuffix. rewrite string_app_length, Nat.add_sub, substring_app_r, String.eqb_refl, andb_true_r.
  apply Nat.leb_le. lia.
Qed.

Lemma TrimSuffix_app x y : TrimSuffix (x ++ y) y = x.
Proof. unfold TrimSuffix. rewrite HasSuffix_app, string_app_length, Nat.add_sub. apply take_app. Qed.

Lemma drop_app x y : drop (String.length x) (x ++ y) = y.
Proof. unfold drop. rewrite string_app_length. replace (_ + _ - _)%nat with (String.length y) by lia. apply substring_app_r. Qed.

Lemma LastIndexByte_snoc x c : LastIndexByte (x ++ String c "") c = Some (String.length x).
Proof. induction x as [|d x IH]; cbn; [by rewrite Ascii.eqb_refl | by rewrite IH]. Qed.

Lemma string_snoc s : s <> "" -> exists x c, s = x ++ String c "".
Proof.
  induction s as [|c s IH]; [done|]. intros _. destruct s as [|d s]; [by exists "", c|].
  destruct IH as (x & e & ->); [done|]. by exists (String c x), e.
Qed.

Lemma TrimRight_snoc x cut c : in_set cut c = true -> TrimRight (x ++ String c "") cut = TrimRight x cut.
Proof. intros Hc. induction x as [|d x IH]; cbn; [by rewrite Hc | by rewrite IH]. Qed.

Lemma take_drop n s : take n s ++ drop n s = s.
Proof.
  unfold take, drop. revert n. induction s as [|c s IH]; intros [|n]; try done; cbn; f_equal; [|apply IH].
  by rewrite substring_full by done.
Qed.

Lemma drop_0 s : drop 0 s = s.
Proof. unfold drop. by rewrite substring_full by lia. Qed.

Lemma index_prefix sub s i : String.index 0 sub s = Some i -> s = take i s ++ sub ++ drop (i + String.length sub) s.
Proof.
  revert i. induction s as [|c s IH]; intros i.
  - cbn. destruct sub; [|done]. by intros [= <-].
  - cbn [String.index]. destruct (String.prefix sub (String c s)) eqn:Hp.
    + intros [= <-]. apply prefix_spec in Hp as [t ->]. cbn [Nat.add]. unfold take.
      rewrite <- (Nat.add_0_r (String.length sub)), drop_app_n, drop_0. by destruct (sub ++ t).
    + destruct (String.index 0 sub s) as [j|] eqn:E; [|done]. intros [= <-]. cbn [Nat.add]. rewrite drop_S.
      unfold take. cbn [String.substring String.append]. f_equal. by apply IH.
Qed.

Lemma HasSuffix_spec s suf : HasSuffix s suf = true <-> exists x, s = x ++ suf.
Proof.
  split; [|intros [x ->]; apply HasSuffix_app]. unfold HasSuffix. intros [Hl E]%andb_true_iff.
  apply Nat.leb_le in Hl. apply String.eqb_eq in E. exists (take (String.length s - String.length suf) s).
  rewrite <- (take_drop (String.length s - String.length suf) s) at 1. f_equal. rewrite <- E at 2. unfold drop. f_equal. lia.
Qed.

(** [sub] occurs in [s]. *)
Definition occurs (sub s : string) : Prop := exists x y, s = x ++ sub ++ y.

Lemma Contains_iff s sub : Contains s sub = true <-> occurs sub s.
Proof.
  unfold Contains, occurs. destruct (String.index 0 sub s) as [i|] eqn:E.
  - split; [intros _|done]. apply index_prefix in E. eauto.
  - split; [discriminate|]. intros (x & y & ->). exfalso. revert E. induction x as [|c x IH].
    + cbn [String.append]. assert (Hp : String.prefix sub (sub ++ y) = true) by (apply prefix_spec; eauto).
      destruct sub as [|c sub]; [by destruct y|]. cbn [String.append String.index] in *. by rewrite Hp.
    + cbn [String.append String.index]. destruct (String.prefix sub _); [done|].
      by destruct (String.index 0 sub (x ++ sub ++ y)); [|intros _; apply IH].
Qed.

Lemma Contains_not s sub : Contains s sub = false <-> ~ occurs sub s.
Proof. by rewrite <- Contains_iff, not_true_iff_false. Qed.

(** ** The first and the last occurrence of a byte *)

Lemma IndexByte_cut x y c : IndexByte x c = None -> IndexByte (x ++ String c y) c = Some (String.length x).
Proof. intros Hx. rewrite IndexByte_app by done. cbn [IndexByte]. rewrite Ascii.eqb_refl. cbn. by rewrite Nat.add_0_r. Qed.

Lemma LastIndexByte_none s c : LastIndexByte s c = None <-> IndexByte s c = None.
Proof.
  induction s as [|d s IH]; cbn; [done|]. destruct (LastIndexByte s c) as [i|].
  - split; [done|]. destruct (Ascii.eqb d c); [done|]. destruct (IndexByte s c); [done|]. by destruct IH as [_ IH]; specialize (IH eq_refl).
  - destruct IH as [IH _]. rewrite (IH eq_refl). by destruct (Ascii.eqb d c).
Qed.

Lemma LastIndexByte_cut x y c : IndexByte y c = None -> LastIndexByte (x ++ String c y) c = Some (String.length x).
Proof.
  intros Hy%LastIndexByte_none. rewrite (LastIndexByte_app x _ c 0) by by apply LastIndexByte_head. by rewrite Nat.add_0_r.
Qed.

Lemma IndexByte_has x y c : IndexByte (x ++ String c y) c <> None.
Proof. induction x as [|d x IH]; cbn; [by rewrite Ascii.eqb_refl|]. destruct (Ascii.eqb d c); [done|]. by destruct (IndexByte (x ++ String c y) c). Qed.

Lemma cut_first s c : IndexByte s c = None
  \/ exists x y, s = x ++ String c y /\ IndexByte x c = None /\ IndexByte s c = Some (String.length x).
Proof.
  induction s as [|d s IH]; [by left|]. cbn [IndexByte]. destruct (Ascii.eqb_spec d c) as [->|Hne]; [right; by exists "", s|].
  destruct IH as [->|(x & y & Es & Hx & E)]; [by left|]. right. rewrite E. exists (String d x), y. apply Ascii.eqb_neq in Hne.
  cbn. by rewrite Es, Hne, Hx.
Qed.

Lemma cut_last s c : (IndexByte s c = None /\ LastIndexByte s c = None)
  \/ exists x y, s = x ++ String c y /\ IndexByte y c = None /\ LastIndexByte s c = Some (String.length x).
Proof.
  destruct (LastIndexByte s c) as [i|] eqn:E; [right|left; by rewrite <- LastIndexByte_none].
  revert i E. induction s as [|d s IH]; intros i; cbn [LastIndexByte]; [done|]. destruct (LastIndexByte s c) as [j|] eqn:E.
  - intros [= <-]. destruct (IH j eq_refl) as (x & y & -> & Hy & [= ->]). by exists (String d x), y.
  - destruct (Ascii.eqb_spec d c) as [->|]; [|done]. intros [= <-]. exists "", s. by rewrite <- LastIndexByte_none.
Qed.

Lemma drop_past x y c : drop (S (String.length x)) (x ++ String c y) = y.
Proof. rewrite <- Nat.add_1_r, drop_app_n, drop_S. apply drop_0. Qed.

Lemma Join_Split s c : Join (Split s c) (String c "") = s.
Proof.
  induction s as [|d s IH]; [done|]. cbn [Split]. destruct (Ascii.eqb_spec d c) as [->|Hne].
  - destruct (Split s c) as [|x l] eqn:E; [by destruct s as [|e s]; cbn in E; [|destruct (Ascii.eqb e c); [|destruct (Split s c)]]|].
    change (Join ("" :: x :: l) (String c "")) with ("" ++ String c "" ++ Join (x :: l) (String c "")). by rewrite IH.
  - destruct (Split s c) as [|x l]; [by rewrite <- IH|]. destruct l as [|y l]; cbn in *; by rewrite IH.
Qed.

(** A substring is no longer than asked for. *)
Lemma substring_short n m s : (String.length (String.substring n m s) <= m)%nat.
Proof. revert n m. induction s as [|c s IH]; intros [|n] [|m]; cbn; try lia; [specialize (IH 0%nat m); lia|specialize (IH n 0%nat); lia|specialize (IH n (S m)); lia]. Qed.

Lemma concat_cons x l : String.concat "" (x :: l) = (x ++ String.concat "" l)%string.
Proof. destruct l; cbn; [by rewrite string_app_nil_r|done]. Qed.
