(* ===== verification/GoTime.v ===== *)
(** * Go time

    An instant ([time.Time]) is the number of nanoseconds since Go's zero time,
    0001-01-01T00:00:00Z; a [time.Duration] is an [int64] count of nanoseconds.
    A [time.Location] is the offset in force before the first transition and
    the list of transitions, as in the time-zone database. *)

From S2P Require Import Prelude GoStr.

(** ** Durations *)

Definition Second : Z := 1000000000.
Definition Minute : Z := 60 * Second.
Definition Hour : Z := 60 * Minute.
Definition Day : Z := 24 * Hour.

(** [time.Duration(n) * unit], an [int64] product. *)
Definition dur_mul (n unit : Z) : Z := wrap64 (n * unit).

(** [time.Time{}]. *)
Definition zero_time : Z := 0.
Definition IsZero (t : Z) : bool := t =? zero_time.

Definition Truncate (t d : Z) : Z := t - t mod d.

(** Seconds from the zero time to the Unix epoch. *)
Definition unix_epoch : Z := 62135596800.
Definition Unix (t : Z) : Z := t / Second - unix_epoch.
Definition of_unix (s : Z) : Z := (s + unix_epoch) * Second.

(** ** The proleptic Gregorian calendar

    Day numbers count from 0001-01-01. *)

Definition is_leap (y : Z) : bool := (y mod 4 =? 0) && (negb (y mod 100 =? 0) || (y mod 400 =? 0)).
Definition year_len (y : Z) : Z := if is_leap y then 366 else 365.

Definition days_before_year (y : Z) : Z :=
  365 * (y - 1) + (y - 1) / 4 - (y - 1) / 100 + (y - 1) / 400.

(** Cumulative days before month [m]; month 13 is the end of the year. *)
Definition month_start (leap : bool) (m : Z) : Z :=
  let l := if leap then 1 else 0 in
  if m <=? 1 then 0 else if m =? 2 then 31 else if m =? 3 then 59 + l
  else if m =? 4 then 90 + l else if m =? 5 then 120 + l else if m =? 6 then 151 + l
  else if m =? 7 then 181 + l else if m =? 8 then 212 + l else if m =? 9 then 243 + l
  else if m =? 10 then 273 + l else if m =? 11 then 304 + l else if m =? 12 then 334 + l
  else 365 + l.

Definition month_of_yday (leap : bool) (yd : Z) : Z :=
  if yd <? month_start leap 2 then 1 else if yd <? month_start leap 3 then 2
  else if yd <? month_start leap 4 then 3 else if yd <? month_start leap 5 then 4
  else if yd <? month_start leap 6 then 5 else if yd <? month_start leap 7 then 6
  else if yd <? month_start leap 8 then 7 else if yd <? month_start leap 9 then 8
  else if yd <? month_start leap 10 then 9 else if yd <? month_start leap 11 then 10
  else if yd <? month_start leap 12 then 11 else 12.

(** The year of a day and the day's index in it: cycles of 400, 100, 4 and 1
    years are cut off in turn. *)
Definition split_year (n : Z) : Z * Z :=
  let n400 := n / 146097 in
  let d := n mod 146097 in
  let n100 := d / 36524 - d / 36524 / 4 in
  let d := d - 36524 * n100 in
  let n4 := d / 1461 in
  let d := d - 1461 * n4 in
  let n1 := d / 365 - d / 365 / 4 in
  let d := d - 365 * n1 in
  (400 * n400 + 100 * n100 + 4 * n4 + n1 + 1, d).

Record Civil := { c_year : Z; c_month : Z; c_day : Z; c_yday : Z }.

Definition civil (n : Z) : Civil :=
  let '(y, yd) := split_year n in
  let m := month_of_yday (is_leap y) yd in
  {| c_year := y; c_month := m; c_day := yd - month_start (is_leap y) m + 1; c_yday := yd |}.

(** Day number of a date; the day of the month need not be in range. *)
Definition day_number (y m d : Z) : Z := days_before_year y + month_start (is_leap y) m + (d - 1).

(** 0 is Sunday; 0001-01-01 was a Monday. *)
Definition weekday (n : Z) : Z := (n + 1) mod 7.

(** ** Locations *)

Record Location := { loc_first : Z; loc_trans : list (Z * Z) }.

Definition fixed_zone (off : Z) : Location := {| loc_first := off; loc_trans := [] |}.
Definition UTC : Location := fixed_zone 0.

(** [Location.lookup]: the offset in force at a Unix second, and the bounds of
    the period it is in force. *)
Fixpoint lookup_from (off : Z) (start : option Z) (l : list (Z * Z)) (sec : Z)
  : Z * option Z * option Z :=
  match l with
  | [] => (off, start, None)
  | (t, o) :: l' => if sec <? t then (off, start, Some t) else lookup_from o (Some t) l' sec
  end.
Definition lookup_zone (loc : Location) (sec : Z) : Z * option Z * option Z :=
  lookup_from (loc_first loc) None (loc_trans loc) sec.

Definition offset_at (loc : Location) (sec : Z) : Z := fst (fst (lookup_zone loc sec)).

(** Seconds of local wall-clock time since 0001-01-01T00:00:00. *)
Definition wall (loc : Location) (t : Z) : Z := t / Second + offset_at loc (Unix t).

Definition day_of (loc : Location) (t : Z) : Z := wall loc t / 86400.
Definition Year_ loc t := c_year (civil (day_of loc t)).
Definition Month_ loc t := c_month (civil (day_of loc t)).
Definition Day_ loc t := c_day (civil (day_of loc t)).
Definition Hour_ loc t := wall loc t mod 86400 / 3600.
Definition Minute_ loc t := wall loc t mod 3600 / 60.
Definition Second_ loc t := wall loc t mod 60.
Definition Weekday_ loc t := weekday (day_of loc t).

(** The zone correction of [time.Date]: the offset is first looked up as if the
    wall clock were UTC, and again if that leads outside its period. *)
Definition date_unix (loc : Location) (unix : Z) : Z :=
  let '(off, start, stop) := lookup_zone loc unix in
  if off =? 0 then unix
  else
    let utc := unix - off in
    let out := opt_bool (fun s => utc <? s) start || opt_bool (fun e => e <=? utc) stop in
    unix - (if out then offset_at loc utc else off).

(** [time.Date(y, m, d, h, mi, 0, 0, loc)] for a month in range. *)
Definition Date (loc : Location) (y m d h mi : Z) : Z :=
  of_unix (date_unix loc (day_number y m d * 86400 + h * 3600 + mi * 60 - unix_epoch)).

(** ** Formats *)

Definition FormatDate (loc : Location) (t : Z) : string :=
  Strconv.pad 4 (Year_ loc t) ++ "-" ++ Strconv.pad 2 (Month_ loc t) ++ "-" ++ Strconv.pad 2 (Day_ loc t).
Definition FormatMonth (loc : Location) (t : Z) : string :=
  Strconv.pad 4 (Year_ loc t) ++ "-" ++ Strconv.pad 2 (Month_ loc t).
Definition FormatYear (loc : Location) (t : Z) : string := Strconv.pad 4 (Year_ loc t).

(** [15:04:05]. *)
Definition FormatClock (loc : Location) (t : Z) : string :=
  Strconv.pad 2 (Hour_ loc t) ++ ":" ++ Strconv.pad 2 (Minute_ loc t) ++ ":" ++ Strconv.pad 2 (Second_ loc t).

(** A zone offset: the sign, and the digits with [sep] between hours and minutes. *)
Definition FormatOffset (sep : string) (off : Z) : string :=
  let zone := Z.quot off 60 in
  (if zone <? 0 then "-" else "+") ++ Strconv.pad 2 (Z.abs zone / 60) ++ sep ++ Strconv.pad 2 (Z.abs zone mod 60).

(** [time.RFC3339]. *)
Definition RFC3339 (loc : Location) (t : Z) : string :=
  let off := offset_at loc (Unix t) in
  FormatDate loc t ++ "T" ++ FormatClock loc t ++ (if off =? 0 then "Z" else FormatOffset ":" off).

Definition short_months : list string :=
  ["Jan"; "Feb"; "Mar"; "Apr"; "May"; "Jun"; "Jul"; "Aug"; "Sep"; "Oct"; "Nov"; "Dec"].
Definition ShortMonth (loc : Location) (t : Z) : string := nth (Z.to_nat (Month_ loc t - 1)) short_months "".

(** [d.Milliseconds()] and [d.String()]. *)
Definition Milliseconds (d : Z) : Z := Z.quot d 1000000.

(** The fraction [v / 10^prec] without trailing zeros, and its point. *)
Definition fmtFrac (prec : nat) (v : Z) : string :=
  let f := v mod 10 ^ Z.of_nat prec in
  if f =? 0 then "" else "." ++ Strings.TrimRight (Strconv.pad prec f) "0".

Definition small_unit (prec : nat) (u : Z) (unit : string) : string :=
  Strconv.Itoa (u / 10 ^ Z.of_nat prec) ++ fmtFrac prec u ++ unit ++ "s".

Definition Duration_String (d : Z) : string :=
  let u := Z.abs d in
  let secs := u / Second in
  (if d <? 0 then "-" else "")
  ++ (if u =? 0 then "0s"
      else if u <? 1000 then small_unit 0 u "n"
      else if u <? 1000000 then small_unit 3 u (of_bytes [194; 181])
      else if u <? Second then small_unit 6 u "m"
      else
        (if 0 <? secs / 3600 then Strconv.Itoa (secs / 3600) ++ "h" else "")
        ++ (if 0 <? secs / 60 then Strconv.Itoa (secs / 60 mod 60) ++ "m" else "")
        ++ Strconv.Itoa (secs mod 60) ++ fmtFrac 9 u ++ "s").

(** [t.ISOWeek()]: the year and week of the Thursday of [t]'s week. *)
Definition ISOWeek (loc : Location) (t : Z) : Z * Z :=
  let n := day_of loc t in
  let d := 4 - weekday n in
  let d := if d =? 4 then - 3 else d in
  let c := civil (n + d) in
  (c_year c, c_yday c / 7 + 1).

(** ** Calendar facts *)

Lemma div_pred k y : 0 < k -> y / k = (y - 1) / k + (if y mod k =? 0 then 1 else 0).
Proof.
  intros Hk. pose proof (Z.mod_pos_bound y k Hk). pose proof (Z.div_mod y k ltac:(dlia)).
  destruct (Z.eqb_spec (y mod k) 0) as [E|E].
  - rewrite <- (Z.div_unique (y - 1) k (y / k - 1) (k - 1)); dlia.
  - rewrite <- (Z.div_unique (y - 1) k (y / k) (y mod k - 1)); dlia.
Qed.

Lemma days_before_year_succ y : days_before_year (y + 1) = days_before_year y + year_len y.
Proof.
  unfold days_before_year, year_len, is_leap.
  replace (y + 1 - 1) with y by dlia.
  rewrite (div_pred 4 y), (div_pred 100 y), (div_pred 400 y) by dlia.
  assert (y mod 400 = 0 -> y mod 100 = 0) by dlia.
  assert (y mod 100 = 0 -> y mod 4 = 0) by dlia.
  destruct (Z.eqb_spec (y mod 4) 0), (Z.eqb_spec (y mod 100) 0), (Z.eqb_spec (y mod 400) 0);
    cbn [negb andb orb]; dlia.
Qed.

Lemma year_len_pos y : 365 <= year_len y <= 366.
Proof. unfold year_len. destruct (is_leap y); dlia. Qed.

Lemma days_before_year_mono y1 y2 : y1 <= y2 -> days_before_year y1 <= days_before_year y2.
Proof. unfold days_before_year. dlia. Qed.

(** The closed form of [days_before_year] along the cycles. *)
Lemma days_before_year_cycles a b c e :
  0 <= b <= 3 -> 0 <= c <= 24 -> 0 <= e <= 3 ->
  days_before_year (400 * a + 100 * b + 4 * c + e + 1) = 146097 * a + 36524 * b + 1461 * c + 365 * e.
Proof. unfold days_before_year. dlia. Qed.

Lemma leap_cycles a b c e :
  0 <= b <= 3 -> 0 <= c <= 24 -> 0 <= e <= 3 ->
  is_leap (400 * a + 100 * b + 4 * c + e + 1) = (e =? 3) && (negb (c =? 24) || (b =? 3)).
Proof.
  intros. unfold is_leap.
  repeat match goal with |- context [?x =? ?y] => destruct (Z.eqb_spec x y) end;
    cbn [negb andb orb]; try done; dlia.
Qed.

Lemma split_year_spec n :
  let '(y, yd) := split_year n in
  days_before_year y + yd = n /\ 0 <= yd < year_len y.
Proof.
  unfold split_year.
  set (a := n / 146097). set (d := n mod 146097).
  assert (Hn : n = 146097 * a + d) by (subst a d; apply Z.div_mod; dlia).
  assert (Hd : 0 <= d < 146097) by (apply Z.mod_pos_bound; dlia).
  clearbody a d. subst n.
  set (b := d / 36524 - d / 36524 / 4).
  assert (Hb : 0 <= b <= 3 /\ 0 <= d - 36524 * b /\ (d - 36524 * b < 36524 \/ b = 3 /\ d - 36524 * b <= 36524))
    by (subst b; dlia).
  clearbody b. set (d1 := d - 36524 * b) in *. assert (d = 36524 * b + d1) by dlia. clearbody d1. subst d.
  set (c := d1 / 1461).
  assert (Hc : 0 <= c <= 24 /\ 0 <= d1 - 1461 * c < 1461) by (subst c; dlia).
  clearbody c. set (d2 := d1 - 1461 * c) in *. assert (d1 = 1461 * c + d2) by dlia. clearbody d2. subst d1.
  set (e := d2 / 365 - d2 / 365 / 4).
  assert (He : 0 <= e <= 3 /\ 0 <= d2 - 365 * e /\ (d2 - 365 * e < 365 \/ e = 3 /\ d2 - 365 * e <= 365))
    by (subst e; dlia).
  clearbody e. rewrite days_before_year_cycles by dlia. split; [dlia|].
  unfold year_len. rewrite leap_cycles by dlia.
  destruct (Z.eqb_spec e 3), (Z.eqb_spec c 24), (Z.eqb_spec b 3); cbn [negb andb orb]; dlia.
Qed.

Lemma split_year_unique n y :
  days_before_year y <= n < days_before_year y + year_len y -> fst (split_year n) = y.
Proof.
  intros H. pose proof (split_year_spec n) as Hs. destruct (split_year n) as [y' yd]. cbn.
  destruct Hs as [Hs1 Hs2].
  destruct (Z.lt_trichotomy y y') as [L|[L|L]]; [|done|].
  - pose proof (days_before_year_mono (y + 1) y' ltac:(dlia)).
    rewrite days_before_year_succ in *. dlia.
  - pose proof (days_before_year_mono (y' + 1) y ltac:(dlia)).
    rewrite days_before_year_succ in *. dlia.
Qed.

(** Evaluate the closed entries of the month table. *)
Ltac month_eval :=
  repeat match goal with
  | |- context [month_start ?b ?k] =>
      let v := eval vm_compute in (month_start b k) in
      lazymatch v with
      | Z0 => idtac | Zpos _ => idtac
      end;
      change (month_start b k) with v
  | H : context [month_start ?b ?k] |- _ =>
      let v := eval vm_compute in (month_start b k) in
      lazymatch v with
      | Z0 => idtac | Zpos _ => idtac
      end;
      change (month_start b k) with v in H
  end.

Lemma month_of_yday_spec (leap : bool) yd :
  0 <= yd < 365 + (if leap then 1 else 0) ->
  let m := month_of_yday leap yd in
  1 <= m <= 12 /\ month_start leap m <= yd < month_start leap (m + 1).
Proof.
  intros H. unfold month_of_yday. cbn zeta.
  destruct leap; month_eval;
    repeat match goal with |- context [?x <? ?y] => destruct (Z.ltb_spec x y) end; month_eval; lia.
Qed.

Lemma month_start_step leap m :
  1 <= m <= 12 -> month_start leap m + 28 <= month_start leap (m + 1) <= month_start leap m + 31.
Proof.
  intros H.
  assert (m = 1 \/ m = 2 \/ m = 3 \/ m = 4 \/ m = 5 \/ m = 6 \/ m = 7 \/ m = 8 \/ m = 9 \/ m = 10
          \/ m = 11 \/ m = 12) as Hm by dlia.
  destruct Hm as [->|[->|[->|[->|[->|[->|[->|[->|[->|[->|[->| ->]]]]]]]]]]];
    destruct leap; month_eval; lia.
Qed.

Lemma month_start_13 (leap : bool) : month_start leap 13 = 365 + (if leap then 1 else 0).
Proof. done. Qed.

(** First day of the [k]-th month, months numbered [12 * year + (month - 1)]. *)
Definition first_day (k : Z) : Z := day_number (k / 12) (k mod 12 + 1) 1.

Definition month_index (n : Z) : Z := let c := civil n in 12 * c_year c + (c_month c - 1).

Lemma first_day_step k : first_day k + 28 <= first_day (k + 1) <= first_day k + 31.
Proof.
  unfold first_day, day_number.
  pose proof (Z.mod_pos_bound k 12 ltac:(dlia)).
  destruct (Z.eq_dec (k mod 12) 11) as [E|E].
  - assert ((k + 1) / 12 = k / 12 + 1 /\ (k + 1) mod 12 = 0) as [-> ->] by dlia.
    rewrite E, days_before_year_succ. unfold year_len.
    destruct (is_leap (k / 12)), (is_leap (k / 12 + 1)); month_eval; lia.
  - assert ((k + 1) / 12 = k / 12 /\ (k + 1) mod 12 = k mod 12 + 1) as [-> ->] by dlia.
    pose proof (month_start_step (is_leap (k / 12)) (k mod 12 + 1) ltac:(dlia)). dlia.
Qed.

Lemma first_day_lt k1 k2 : k1 < k2 -> first_day k1 + 28 <= first_day k2.
Proof.
  intros H. replace k2 with (k1 + 1 + Z.of_nat (Z.to_nat (k2 - k1 - 1))) by dlia.
  induction (Z.to_nat (k2 - k1 - 1)) as [|n IH].
  - rewrite Z.add_0_r. apply first_day_step.
  - rewrite Nat2Z.inj_succ, <- Z.add_1_r, Z.add_assoc.
    pose proof (first_day_step (k1 + 1 + Z.of_nat n)). dlia.
Qed.

Lemma first_day_le k1 k2 : k1 <= k2 -> first_day k1 <= first_day k2.
Proof. intros. destruct (Z.eq_dec k1 k2) as [->|]; [dlia|]. pose proof (first_day_lt k1 k2). dlia. Qed.

Lemma civil_bounds n :
  let c := civil n in
  1 <= c_month c <= 12 /\ n = day_number (c_year c) (c_month c) (c_day c)
  /\ 1 <= c_day c <= 31
  /\ first_day (month_index n) <= n < first_day (month_index n + 1).
Proof.
  unfold month_index, civil. cbn zeta.
  pose proof (split_year_spec n) as Hs. destruct (split_year n) as [y yd] eqn:E.
  destruct Hs as [Hn Hyd]. unfold year_len in Hyd.
  pose proof (month_of_yday_spec (is_leap y) yd) as Hm. cbn zeta in Hm.
  specialize (Hm ltac:(destruct (is_leap y); dlia)).
  set (m := month_of_yday (is_leap y) yd) in *. clearbody m.
  pose proof (month_start_step (is_leap y) m ltac:(dlia)). cbn.
  unfold first_day, day_number.
  assert ((12 * y + (m - 1)) / 12 = y /\ (12 * y + (m - 1)) mod 12 + 1 = m) as [-> ->] by dlia.
  destruct (Z.eq_dec m 12) as [->|].
  - assert ((12 * y + (12 - 1) + 1) / 12 = y + 1 /\ (12 * y + (12 - 1) + 1) mod 12 = 0) as [-> ->] by dlia.
    rewrite days_before_year_succ. unfold year_len.
    destruct (is_leap y), (is_leap (y + 1)); month_eval; lia.
  - assert ((12 * y + (m - 1) + 1) / 12 = y /\ (12 * y + (m - 1) + 1) mod 12 + 1 = m + 1) as [-> ->] by dlia.
    dlia.
Qed.

Lemma month_index_unique n k : first_day k <= n < first_day (k + 1) -> month_index n = k.
Proof.
  intros H. pose proof (civil_bounds n) as (_ & _ & _ & Hb).
  destruct (Z.lt_trichotomy (month_index n) k) as [L|[L|L]]; [|done|].
  - pose proof (first_day_le (month_index n + 1) k ltac:(dlia)). dlia.
  - pose proof (first_day_le (k + 1) (month_index n) ltac:(dlia)). dlia.
Qed.

Lemma month_index_mono n1 n2 : n1 <= n2 -> month_index n1 <= month_index n2.
Proof.
  intros H. pose proof (civil_bounds n1) as (_ & _ & _ & H1). pose proof (civil_bounds n2) as (_ & _ & _ & H2).
  destruct (Z.le_gt_cases (month_index n1) (month_index n2)) as [|L]; [done|].
  pose proof (first_day_le (month_index n2 + 1) (month_index n1) ltac:(dlia)). dlia.
Qed.

Lemma c_month_index n : c_month (civil n) = month_index n mod 12 + 1 /\ c_year (civil n) = month_index n / 12.
Proof.
  pose proof (civil_bounds n) as (H & _). cbn zeta in H. unfold month_index. cbn zeta.
  generalize dependent (c_month (civil n)). intros m ?. generalize (c_year (civil n)). intros y. dlia.
Qed.

(** The calendar round trip: a day is recovered from its civil date. *)
Lemma day_number_civil n :
  day_number (c_year (civil n)) (c_month (civil n)) (c_day (civil n)) = n.
Proof. symmetry. apply civil_bounds. Qed.

(** ** Fixed zones *)

Section fixed.
Context (off : Z).
Abbreviation loc := (fixed_zone off).

Lemma offset_fixed s : offset_at loc s = off.
Proof. done. Qed.

Lemma wall_fixed t : wall loc t = t / Second + off.
Proof. done. Qed.

Lemma date_unix_fixed u : date_unix loc u = u - off.
Proof. unfold date_unix. cbn. destruct (Z.eqb_spec off 0); dlia. Qed.

Lemma Date_fixed y m d h mi :
  Date loc y m d h mi = (day_number y m d * 86400 + h * 3600 + mi * 60 - off) * Second.
Proof. unfold Date, of_unix. rewrite date_unix_fixed. f_equal. dlia. Qed.

Lemma wall_Date y m d h mi :
  wall loc (Date loc y m d h mi) = day_number y m d * 86400 + h * 3600 + mi * 60.
Proof. rewrite wall_fixed, Date_fixed. unfold Second. rewrite Z.div_mul; dlia. Qed.
End fixed.
