(* ===== verification/Cron.v ===== *)
(** * Cron expressions (src/src/scheduler/cron.go)

    Parsing of schedule expressions and the search for the next activation. *)

From S2P Require Import Prelude GoStr GoTime.

(** ** Field sets *)

(** Minute: 0-59, Hour: 0-23, DOM: 1-31, Month: 1-12, DOW: 0-6.  [bits] is the
    [[64]bool] array. *)
Record fieldSet := { bits : list bool; fs_star : bool }.

Definition empty_set : fieldSet := {| bits := replicate 64 false; fs_star := false |}.
Definition star : fieldSet := {| bits := replicate 64 false; fs_star := true |}.

(** [f.bits[v] = true]: an index outside the array panics. *)
Definition set_bit (f : fieldSet) (v : Z) : run fieldSet :=
  if (v <? 0) || (64 <=? v) then Panicked
  else Done {| bits := <[Z.to_nat v := true]> (bits f); fs_star := fs_star f |}.

Definition single (v : Z) : fieldSet := {| bits := <[Z.to_nat v := true]> (replicate 64 false); fs_star := false |}.

Definition contains (f : fieldSet) (v : Z) : bool :=
  if fs_star f then true
  else if (v <? 0) || (Z.of_nat (length (bits f)) <=? v) then false
  else default false (bits f !! Z.to_nat v).

(** ** Expressions *)

Record cronExpr := {
  raw : string;
  minute : fieldSet; hour : fieldSet; dom : fieldSet; month : fieldSet; dow : fieldSet;
}.

Inductive Schedule :=
  | SCron (c : cronExpr)
  | SInterval (raw : string) (d : Z).

Definition schedule_string (s : Schedule) : string :=
  match s with SCron c => raw c | SInterval r _ => r end.

(** ** Next activation *)

(** Vixie semantics: with both day fields restricted, either may match. *)
Definition dayMatches (c : cronExpr) (loc : Location) (t : Z) : bool :=
  let domOK := contains (dom c) (Day_ loc t) in
  let dowOK := contains (dow c) (Weekday_ loc t) in
  if fs_star (dom c) && fs_star (dow c) then true
  else if fs_star (dom c) then dowOK
  else if fs_star (dow c) then domOK
  else domOK || dowOK.

Fixpoint advMonth (n : nat) (f : fieldSet) (m year : Z) : option (Z * Z) :=
  match n with
  | O => None
  | S n =>
      let '(m, year) := if 12 <? m then (1, year + 1) else (m, year) in
      if contains f m then Some (year, m) else advMonth n f (m + 1) year
  end.

Definition advanceToMonth (loc : Location) (t : Z) (f : fieldSet) : Z :=
  match advMonth 12 f (Month_ loc t + 1) (Year_ loc t) with
  | Some (y, m) => Date loc y m 1 0 0
  | None => t + 365 * 24 * Hour
  end.

Fixpoint advUnit (n : nat) (f : fieldSet) (base unit top v : Z) : Z :=
  match n with
  | O => base + top * unit
  | S n =>
      if top <=? v then base + top * unit
      else if contains f v then base + v * unit
      else advUnit n f base unit top (v + 1)
  end.

Definition advanceToHour (loc : Location) (t : Z) (f : fieldSet) : Z :=
  let day := Date loc (Year_ loc t) (Month_ loc t) (Day_ loc t) 0 0 in
  advUnit 24 f day Hour 24 (Hour_ loc t + 1).

Definition advanceToMinute (loc : Location) (t : Z) (f : fieldSet) : Z :=
  let hr := Date loc (Year_ loc t) (Month_ loc t) (Day_ loc t) (Hour_ loc t) 0 in
  advUnit 60 f hr Minute 60 (Minute_ loc t + 1).

(** One turn of the loop of [Next]: the activation ([inl]) or the next candidate. *)
Definition next_step (c : cronExpr) (loc : Location) (next : Z) : Z + Z :=
  if negb (contains (month c) (Month_ loc next)) then inr (advanceToMonth loc next (month c))
  else if negb (dayMatches c loc next) then
    inr (Date loc (Year_ loc next) (Month_ loc next) (Day_ loc next + 1) 0 0)
  else if negb (contains (hour c) (Hour_ loc next)) then inr (advanceToHour loc next (hour c))
  else if negb (contains (minute c) (Minute_ loc next)) then inr (advanceToMinute loc next (minute c))
  else inl next.

Fixpoint next_loop (fuel : nat) (c : cronExpr) (loc : Location) (limit next : Z) : run Z :=
  match fuel with
  | O => OutOfFuel
  | S fuel =>
      if next <? limit then
        match next_step c loc next with
        | inl r => Done r
        | inr next' => next_loop fuel c loc limit next'
        end
      else Done zero_time
  end.

Definition first_candidate (t : Z) : Z := Truncate t Minute + Minute.
Definition search_limit (t : Z) : Z := first_candidate t + 4 * 365 * 24 * Hour.

(** [cronExpr.Next]; [loc] is the location carried by [t]. *)
Definition cron_Next (fuel : nat) (c : cronExpr) (loc : Location) (t : Z) : run Z :=
  next_loop fuel c loc (search_limit t) (first_candidate t).

(** [Schedule.Next]. *)
Definition Next (fuel : nat) (s : Schedule) (loc : Location) (t : Z) : run Z :=
  match s with
  | SCron c => cron_Next fuel c loc t
  | SInterval _ d => Done (t + d)
  end.

(** ** Parsing *)

(** [for v := lo; v <= hi; v += step { f.bits[v] = true }] *)
Fixpoint set_steps (fuel : nat) (f : fieldSet) (v hi step : Z) : run fieldSet :=
  match fuel with
  | O => OutOfFuel
  | S fuel =>
      if v <=? hi then f' ← set_bit f v; set_steps fuel f' (wrap64 (v + step)) hi step
      else Done f
  end.

Definition loop_fuel : nat := 66.

Definition no_err {A B} (p : A * option B) : bool := match snd p with None => true | Some _ => false end.

(** One comma-separated part of a field. *)
Definition parsePart (s part : string) (lo hi : Z) (f : fieldSet) : run (result fieldSet) :=
  if Strings.HasPrefix part "*/" then
    let p := Strconv.Atoi (Strings.drop 2 part) in
    if negb (no_err p) || (fst p <=? 0) then mret (Err ("invalid step in " ++ s))
    else f' ← set_steps loop_fuel f lo hi (fst p); mret (Ok f')
  else if Strings.Contains part "-" then
    match Strings.SplitN2 part "-" with
    | [b0; b1] =>
        let p1 := Strconv.Atoi b0 in
        let p2 := Strconv.Atoi b1 in
        if negb (no_err p1) || negb (no_err p2) || (fst p1 <? lo) || (hi <? fst p2) || (fst p2 <? fst p1)
        then mret (Err ("invalid range " ++ part ++ " in field " ++ s))
        else f' ← set_steps loop_fuel f (fst p1) (fst p2) 1; mret (Ok f')
    | _ => Panicked
    end
  else
    let p := Strconv.Atoi part in
    if negb (no_err p) || (fst p <? lo) || (hi <? fst p)
    then mret (Err ("invalid value " ++ part ++ " in field " ++ s))
    else f' ← set_bit f (fst p); mret (Ok f').

Fixpoint parseParts (s : string) (parts : list string) (lo hi : Z) (f : fieldSet) : run (result fieldSet) :=
  match parts with
  | [] => Done (Ok f)
  | part :: rest =>
      r ← parsePart s part lo hi f;
      match r with
      | Ok f' => parseParts s rest lo hi f'
      | Err e => Done (Err e)
      end
  end.

Definition parseField (s : string) (lo hi : Z) : run (result fieldSet) :=
  if String.eqb s "*" then Done (Ok star)
  else parseParts s (Strings.Split s ",") lo hi empty_set.

(** Sequence two fallible parses that may also panic. *)
Definition and_then {A B} (r : run (result A)) (k : A -> run (result B)) : run (result B) :=
  x ← r; match x with Ok a => k a | Err e => Done (Err e) end.

Definition parseCron (expr : string) : run (result cronExpr) :=
  match StringsU.Fields expr with
  | [f0; f1; f2; f3; f4] =>
      and_then (parseField f0 0 59) (fun minute =>
      and_then (parseField f1 0 23) (fun hour =>
      and_then (parseField f2 1 31) (fun dom =>
      and_then (parseField f3 1 12) (fun month =>
      and_then (parseField f4 0 6) (fun dow =>
      mret (Ok {| raw := expr; minute := minute; hour := hour; dom := dom; month := month; dow := dow |}))))))
  | _ => Done (Err ("schedule " ++ expr ++ ": expected 5 fields"))
  end.

(** [time.ParseDuration] is the standard library's; its fractions go through
    [float64], so it stays a parameter. *)
Class StdDuration := { ParseDuration : string -> option Z }.

Definition parseDuration `{StdDuration} (s : string) : result Z :=
  let s := StringsU.TrimSpace s in
  if Strings.HasSuffix s "d" then
    let p := Strconv.Atoi (Strings.TrimSuffix s "d") in
    if negb (no_err p) || (fst p <=? 0) then Err ("invalid duration " ++ s)
    else Ok (wrap64 (dur_mul (fst p) 24 * Hour))
  else
    match ParseDuration s with
    | Some d => if d <=? 0 then Err ("invalid duration " ++ s) else Ok d
    | None => Err ("invalid duration " ++ s)
    end.

Definition preset (expr : string) (mi h d mo w : fieldSet) : run (result Schedule) :=
  Done (Ok (SCron {| raw := expr; minute := mi; hour := h; dom := d; month := mo; dow := w |})).

Definition ParseSchedule `{StdDuration} (expr : string) : run (result Schedule) :=
  let expr := StringsU.TrimSpace expr in
  if String.eqb expr "" then Done (Err "empty schedule expression")
  else if String.eqb expr "@hourly" then preset expr (single 0) star star star star
  else if String.eqb expr "@daily" || String.eqb expr "@midnight" then
    preset expr (single 0) (single 0) star star star
  else if String.eqb expr "@weekly" then preset expr (single 0) (single 0) star star (single 0)
  else if String.eqb expr "@monthly" then preset expr (single 0) (single 0) (single 1) star star
  else if String.eqb expr "@yearly" || String.eqb expr "@annually" then
    preset expr (single 0) (single 0) (single 1) (single 1) star
  else if Strings.HasPrefix expr "@every " then
    match parseDuration (Strings.TrimPrefix expr "@every ") with
    | Ok d => Done (Ok (SInterval expr d))
    | Err e => Done (Err ("schedule " ++ expr ++ ": " ++ e))
    end
  else and_then (parseCron expr) (fun c => mret (Ok (SCron c))).
