(* ===== verification/CronProofs.v ===== *)
(** * Properties of the cron expressions

    In a zone without transitions the search of [Next] terminates and finds the
    first matching minute; parsed fields contain exactly the listed values; and
    two behaviours the code does not intend: a step that overflows the loop
    counter panics, and across a backward clock change the search of [Next]
    never ends. *)

From S2P Require Import Prelude GoStr GoTime Cron.

(** The specification: the minute of [t] satisfies the five fields. *)
Definition matches (c : cronExpr) (loc : Location) (t : Z) : bool :=
  contains (month c) (Month_ loc t) && dayMatches c loc t
  && contains (hour c) (Hour_ loc t) && contains (minute c) (Minute_ loc t).

(** ** The search, in a zone of fixed whole-minute offset *)

Section fixed_zone.
Context (o : Z).
Let loc := fixed_zone (60 * o).

(** The instant of wall-clock minute [w]. *)
Definition inst (w : Z) : Z := Minute * (w - o).

Lemma inst_lt w w' : w < w' <-> inst w < inst w'.
Proof. unfold inst, Minute, Second. lia. Qed.

Lemma wall_inst w : wall loc (inst w) = 60 * w.
Proof. unfold loc. rewrite wall_fixed. unfold inst, Minute, Second. dlia. Qed.

Lemma day_of_inst w : day_of loc (inst w) = w / 1440.
Proof. unfold day_of. rewrite wall_inst. dlia. Qed.

Lemma Hour_inst w : Hour_ loc (inst w) = w mod 1440 / 60.
Proof. unfold Hour_. rewrite wall_inst. dlia. Qed.

Lemma Minute_inst w : Minute_ loc (inst w) = w mod 60.
Proof. unfold Minute_. rewrite wall_inst. dlia. Qed.

Lemma Date_inst y m d h mi : Date loc y m d h mi = inst (day_number y m d * 1440 + h * 60 + mi).
Proof. unfold loc. rewrite Date_fixed. unfold inst, Minute, Second. lia. Qed.

Lemma Month_inst w : Month_ loc (inst w) = month_index (w / 1440) mod 12 + 1.
Proof. unfold Month_. rewrite day_of_inst. apply c_month_index. Qed.

Lemma Year_inst w : Year_ loc (inst w) = month_index (w / 1440) / 12.
Proof. unfold Year_. rewrite day_of_inst. apply c_month_index. Qed.

Lemma midnight_inst w :
  Date loc (Year_ loc (inst w)) (Month_ loc (inst w)) (Day_ loc (inst w)) 0 0 = inst (w / 1440 * 1440).
Proof.
  rewrite Date_inst. unfold Year_, Month_, Day_. rewrite !day_of_inst, day_number_civil. f_equal. lia.
Qed.

Lemma dayMatches_inst c w w' :
  w / 1440 = w' / 1440 -> dayMatches c loc (inst w) = dayMatches c loc (inst w').
Proof. intros H. unfold dayMatches, Day_, Weekday_. by rewrite !day_of_inst, H. Qed.

(** The months tried are the next twelve, in order. *)
Lemma advMonth_spec n f k m y :
  12 * y + (m - 1) = k -> 1 <= m <= 13 ->
  match advMonth n f m y with
  | Some (y', m') =>
      1 <= m' <= 12 /\ k <= 12 * y' + (m' - 1) < k + Z.of_nat n /\ contains f m' = true
      /\ forall j, k <= j < 12 * y' + (m' - 1) -> contains f (j mod 12 + 1) = false
  | None => forall j, k <= j < k + Z.of_nat n -> contains f (j mod 12 + 1) = false
  end.
Proof.
  revert k m y. induction n as [|n IH]; intros k m y Hk Hm; cbn [advMonth]; [intros; lia|].
  assert (exists m0 y0, (if 12 <? m then (1, y + 1) else (m, y)) = (m0, y0)
            /\ 1 <= m0 <= 12 /\ 12 * y0 + (m0 - 1) = k /\ k mod 12 + 1 = m0) as (m0 & y0 & -> & Hm0 & Hk0 & Hmod).
  { destruct (Z.ltb_spec 12 m); eexists _, _; (split; [done|]); dlia. }
  destruct (contains f m0) eqn:E.
  - split; [lia|]. split; [lia|]. split; [done|]. intros; lia.
  - specialize (IH (k + 1) (m0 + 1) y0 ltac:(lia) ltac:(lia)).
    assert (Hk' : forall j, j = k -> contains f (j mod 12 + 1) = false) by (intros j ->; by rewrite Hmod).
    destruct (advMonth n f (m0 + 1) y0) as [[y' m']|].
    + destruct IH as (H1 & H2 & H3 & H4). split; [done|]. split; [lia|]. split; [done|].
      intros j Hj. destruct (Z.eq_dec j k); [auto | apply H4; lia].
    + intros j Hj. destruct (Z.eq_dec j k); [auto | apply IH; lia].
Qed.

(** The hours (minutes) tried are those left before [top]. *)
Lemma advUnit_spec n f base unit top v :
  v <= top -> top - v < Z.of_nat n ->
  exists v', v <= v' <= top /\ advUnit n f base unit top v = base + v' * unit
    /\ forall j, v <= j < v' -> contains f j = false.
Proof.
  revert v. induction n as [|n IH]; intros v Hv Hn; [lia|]. cbn [advUnit].
  destruct (Z.leb_spec top v).
  - exists top. split; [lia|]. split; [done | intros; lia].
  - destruct (contains f v) eqn:E.
    + exists v. split; [lia|]. split; [done | intros; lia].
    + destruct (IH (v + 1) ltac:(lia) ltac:(lia)) as (v' & ? & ? & Hj).
      exists v'. split; [lia|]. split; [done|]. intros j ?.
      destruct (Z.eq_dec j v) as [->|]; [done | apply Hj; lia].
Qed.

Definition skips (c : cronExpr) (w w' : Z) : Prop :=
  w < w' /\ forall u, w <= u < w' -> matches c loc (inst u) = false.

Lemma month_skip c w :
  contains (month c) (Month_ loc (inst w)) = false ->
  exists w', advanceToMonth loc (inst w) (month c) = inst w' /\ skips c w w'.
Proof.
  intros Hm. unfold advanceToMonth. rewrite Month_inst in *. rewrite Year_inst.
  set (k := month_index (w / 1440)) in *.
  pose proof (advMonth_spec 12 (month c) (k + 1) (k mod 12 + 1 + 1) (k / 12) ltac:(dlia) ltac:(dlia)) as Ha.
  assert (Hno : forall u j, k <= j -> month_index (u / 1440) = j -> contains (month c) (j mod 12 + 1) = false ->
            matches c loc (inst u) = false).
  { intros u j _ Hu Hc. unfold matches. by rewrite Month_inst, Hu, Hc. }
  destruct (advMonth 12 _ _ _) as [[y m]|].
  - destruct Ha as (Hm12 & Hrange & _ & Hbefore).
    set (k' := 12 * y + (m - 1)) in *.
    assert (Hfd : day_number y m 1 = first_day k').
    { unfold first_day. f_equal; subst k'; dlia. }
    exists (first_day k' * 1440). rewrite Date_inst, Hfd. split; [f_equal; lia|].
    pose proof (civil_bounds (w / 1440)) as (_ & _ & _ & Hb). fold k in Hb.
    pose proof (first_day_le (k + 1) k' ltac:(lia)).
    split; [dlia|]. intros u Hu.
    assert (k <= month_index (u / 1440) < k') as Hk.
    { pose proof (month_index_mono (w / 1440) (u / 1440) ltac:(dlia)) as Hmono. fold k in Hmono.
      split; [done|]. destruct (Z.le_gt_cases k' (month_index (u / 1440))) as [L|]; [|done].
      pose proof (civil_bounds (u / 1440)) as (_ & _ & _ & Hbu).
      pose proof (first_day_le _ _ L). dlia. }
    eapply (Hno u (month_index (u / 1440))); [lia | done |].
    destruct (Z.eq_dec (month_index (u / 1440)) k) as [->|]; [done | apply Hbefore; lia].
  - exists (w + 365 * 1440). split; [unfold inst, Hour, Minute, Second; lia|].
    split; [lia|]. intros u Hu.
    pose proof (month_index_mono (w / 1440) (u / 1440) ltac:(dlia)) as Hmono. fold k in Hmono.
    eapply (Hno u (month_index (u / 1440))); [lia | done |].
    set (j := month_index (u / 1440)) in *.
    replace (j mod 12 + 1) with ((k + 1 + (j - k - 1) mod 12) mod 12 + 1).
    { apply Ha. pose proof (Z.mod_pos_bound (j - k - 1) 12). lia. }
    f_equal. rewrite Zplus_mod_idemp_r. f_equal. lia.
Qed.

Lemma day_skip c w :
  dayMatches c loc (inst w) = false ->
  exists w', Date loc (Year_ loc (inst w)) (Month_ loc (inst w)) (Day_ loc (inst w) + 1) 0 0 = inst w'
    /\ skips c w w'.
Proof.
  intros Hd. exists ((w / 1440 + 1) * 1440). split.
  - rewrite Date_inst. f_equal. unfold Year_, Month_, Day_. rewrite !day_of_inst.
    pose proof (day_number_civil (w / 1440)) as E. unfold day_number in *. lia.
  - split; [dlia|]. intros u Hu. unfold matches.
    rewrite (dayMatches_inst c u w) by dlia. rewrite Hd. by destruct (contains _ _).
Qed.

Lemma hour_skip c w :
  contains (hour c) (Hour_ loc (inst w)) = false ->
  exists w', advanceToHour loc (inst w) (hour c) = inst w' /\ skips c w w'.
Proof.
  intros Hh. unfold advanceToHour. rewrite midnight_inst, Hour_inst in *.
  destruct (advUnit_spec 24 (hour c) (inst (w / 1440 * 1440)) Hour 24 (w mod 1440 / 60 + 1)
              ltac:(dlia) ltac:(dlia)) as (v & Hv & -> & Hskip).
  exists (w / 1440 * 1440 + v * 60). split; [unfold inst, Hour, Minute, Second; lia|].
  split; [dlia|]. intros u Hu. unfold matches. rewrite Hour_inst.
  replace (contains (hour c) (u mod 1440 / 60)) with false; [by rewrite andb_false_r|].
  symmetry. destruct (Z.eq_dec (u mod 1440 / 60) (w mod 1440 / 60)) as [->|]; [done|].
  apply Hskip. dlia.
Qed.

Lemma minute_skip c w :
  contains (minute c) (Minute_ loc (inst w)) = false ->
  exists w', advanceToMinute loc (inst w) (minute c) = inst w' /\ skips c w w'.
Proof.
  intros Hm. unfold advanceToMinute. rewrite Date_inst, Hour_inst, Minute_inst in *.
  unfold Year_, Month_, Day_. rewrite !day_of_inst, day_number_civil.
  set (b := w / 1440 * 1440 + w mod 1440 / 60 * 60 + 0).
  destruct (advUnit_spec 60 (minute c) (inst b) Minute 60 (w mod 60 + 1)
              ltac:(dlia) ltac:(dlia)) as (v & Hv & -> & Hskip).
  assert (Hb : b = w - w mod 60) by (subst b; dlia). clearbody b.
  exists (b + v). split; [unfold inst, Minute, Second; lia|].
  split; [lia|]. intros u Hu. unfold matches. rewrite Minute_inst.
  replace (contains (minute c) (u mod 60)) with false; [by rewrite andb_false_r|].
  symmetry. destruct (Z.eq_dec (u mod 60) (w mod 60)) as [->|]; [done|].
  apply Hskip. dlia.
Qed.

Lemma step_sound c w :
  match next_step c loc (inst w) with
  | inl r => r = inst w /\ matches c loc (inst w) = true
  | inr n => exists w', n = inst w' /\ skips c w w'
  end.
Proof.
  unfold next_step.
  destruct (contains (month c) _) eqn:E1; [|by apply month_skip]. cbn [negb].
  destruct (dayMatches c loc (inst w)) eqn:E2; [|by apply day_skip]. cbn [negb].
  destruct (contains (hour c) _) eqn:E3; [|by apply hour_skip]. cbn [negb].
  destruct (contains (minute c) _) eqn:E4; [|by apply minute_skip]. cbn [negb].
  split; [done|]. unfold matches. by rewrite E1, E2, E3, E4.
Qed.

(** Enough fuel: one turn per minute up to the limit. *)
Lemma loop_sound c fuel w l :
  Z.max 0 (l - w) < Z.of_nat fuel ->
  exists r, next_loop fuel c loc (inst l) (inst w) = Done r
    /\ ((exists w', r = inst w' /\ w <= w' < l /\ matches c loc r = true
           /\ forall u, w <= u < w' -> matches c loc (inst u) = false)
        \/ (r = zero_time /\ forall u, w <= u < l -> matches c loc (inst u) = false)).
Proof.
  revert w. induction fuel as [|fuel IH]; intros w Hf.
  - lia.
  - cbn [next_loop]. destruct (Z.ltb_spec (inst w) (inst l)) as [L|L].
    2:{ exists zero_time. split; [done|]. right. split; [done|]. intros u Hu.
        assert (~ w < l) by (rewrite inst_lt; lia). lia. }
    apply inst_lt in L. pose proof (step_sound c w) as Hs.
    destruct (next_step c loc (inst w)) as [r|n].
    + destruct Hs as [-> Hm]. exists (inst w). split; [done|]. left. exists w.
      repeat split; [lia | lia | done | intros; lia].
    + destruct Hs as (w1 & -> & Hlt & Hskip).
      destruct (IH w1 ltac:(lia)) as (r & Hr & Hspec). exists r. split; [done|].
      destruct Hspec as [(w2 & -> & Hw2 & Hm & Hbefore)|[-> Hbefore]].
      * left. exists w2. repeat split; [lia | lia | done |]. intros u Hu.
        destruct (Z.lt_ge_cases u w1); [apply Hskip; lia | apply Hbefore; lia].
      * right. split; [done|]. intros u Hu.
        destruct (Z.lt_ge_cases u w1); [apply Hskip; lia | apply Hbefore; lia].
Qed.
End fixed_zone.

(** The minutes the search covers: four years of 365 days. *)
Definition search_minutes : Z := 4 * 365 * 1440.

Lemma cron_Next_finds (o : Z) (c : cronExpr) (t : Z) (fuel : nat) :
  search_minutes < Z.of_nat fuel ->
  let loc := fixed_zone (60 * o) in
  exists r, cron_Next fuel c loc t = Done r /\
    ((t < r < search_limit t /\ r mod Minute = 0 /\ matches c loc r = true
      /\ forall u, t < u < r -> u mod Minute = 0 -> matches c loc u = false)
     \/ (r = zero_time
      /\ forall u, t < u < search_limit t -> u mod Minute = 0 -> matches c loc u = false)).
Proof.
  intros Hf loc. unfold cron_Next.
  set (w := t / Minute + 1 + o). set (l := w + search_minutes).
  assert (Hw : first_candidate t = inst o w).
  { unfold first_candidate, Truncate, inst, w, Minute, Second. dlia. }
  assert (Hl : search_limit t = inst o l).
  { unfold search_limit. rewrite Hw. unfold inst, l, search_minutes, Hour, Minute, Second. lia. }
  assert (Hmin : forall u, t < u -> u mod Minute = 0 -> exists v, u = inst o v /\ w <= v).
  { intros u Hu Hmod. exists (u / Minute + o). unfold inst, w, Minute, Second in *. dlia. }
  rewrite Hw, Hl.
  destruct (loop_sound o c fuel w l) as (r & Hr & Hspec); [unfold l, search_minutes in *; lia|].
  exists r. split; [done|]. destruct Hspec as [(v & -> & Hv & Hm & Hb)|[-> Hb]]; [left|right].
  - assert (t < inst o v) by (unfold inst, w, Minute, Second in *; dlia).
    repeat split; [done | apply (inst_lt o v l); lia | unfold inst, Minute, Second; dlia | done |].
    intros u Hu Hmod. destruct (Hmin u ltac:(lia) Hmod) as (v' & -> & ?).
    apply Hb. split; [done|]. rewrite (inst_lt o). lia.
  - split; [done|]. intros u Hu Hmod. destruct (Hmin u ltac:(lia) Hmod) as (v' & -> & ?).
    apply Hb. split; [done|]. rewrite (inst_lt o). lia.
Qed.

(** C36 — In a zone of fixed whole-minute offset, [Next] terminates, and its
    answer is the first whole minute after [t] that satisfies the expression:
    it lies after [t], matches, and no earlier whole minute after [t] matches.
    The zero time is answered exactly when no minute within the four years
    searched matches. *)
Theorem cron_next_first_match (o : Z) (c : cronExpr) (t : Z) (fuel : nat) :
  search_minutes < Z.of_nat fuel ->
  let loc := fixed_zone (60 * o) in
  exists r, cron_Next fuel c loc t = Done r /\
    ((t < r < search_limit t /\ r mod Minute = 0 /\ matches c loc r = true
      /\ forall u, t < u < r -> u mod Minute = 0 -> matches c loc u = false)
     \/ (r = zero_time
      /\ forall u, t < u < search_limit t -> u mod Minute = 0 -> matches c loc u = false)).
Proof. apply cron_Next_finds. Qed.

(** Every schedule has a next activation there. *)
Lemma Next_done (o : Z) (s : Schedule) (t : Z) (fuel : nat) :
  search_minutes < Z.of_nat fuel -> exists r, Next fuel s (fixed_zone (60 * o)) t = Done r.
Proof.
  intros Hf. destruct s as [c|raw d]; cbn [Next]; [|by eexists].
  destruct (cron_Next_finds o c t fuel Hf) as (r & Hr & _). by exists r.
Qed.

Lemma cron_next_first_match_witness :
  exists r, cron_Next (Z.to_nat 2102401) {| raw := "0 2 * * *"; minute := single 0; hour := single 2;
    dom := star; month := star; dow := star |} (fixed_zone (60 * -300)) (of_unix 1730538000) = Done r.
Proof.
  destruct (cron_next_first_match (-300)
    {| raw := "0 2 * * *"; minute := single 0; hour := single 2; dom := star; month := star; dow := star |}
    (of_unix 1730538000) (Z.to_nat 2102401)) as (r & Hr & _).
  - rewrite Z2Nat.id; [reflexivity | discriminate].
  - exists r. exact Hr.
Defined.

(** ** Across a backward clock change *)

Lemma next_loop_stuck c loc limit n fuel :
  n < limit -> next_step c loc n = inr n -> next_loop fuel c loc limit n = OutOfFuel.
Proof.
  intros Hl Hs. induction fuel as [|fuel IH]; [done|].
  cbn [next_loop]. rewrite (proj2 (Z.ltb_lt _ _) Hl), Hs. exact IH.
Qed.

(** The transitions of America/New_York around the end of daylight saving time
    in 2024: 06:00 UTC on 3 November. *)
Definition New_York : Location :=
  {| loc_first := -18000; loc_trans := [(1710054000, -14400); (1730613600, -18000); (1741503600, -14400)] |}.

(** The expression "0 2 * * *" of the daily backup. *)
Definition backup_daily : cronExpr :=
  {| raw := "0 2 * * *"; minute := single 0; hour := single 2; dom := star; month := star; dow := star |}.

Lemma backup_daily_parses : parseCron "0 2 * * *" = Done (Ok backup_daily).
Proof. vm_compute. reflexivity. Qed.

(** C40 — The search does not terminate in New York from noon on the day before
    the clocks go back, whatever the fuel, for the daily-backup expression:
    [advanceToHour] adds two hours to midnight of a 25-hour day, lands on
    01:00 standard time, and returns to that same instant for ever. *)
Theorem cron_next_diverges_on_fall_back (fuel : nat) :
  cron_Next fuel backup_daily New_York (Date New_York 2024 11 2 12 0) = OutOfFuel.
Proof.
  unfold cron_Next.
  set (l := search_limit _). vm_compute in l. set (n := first_candidate _). vm_compute in n.
  destruct fuel as [|fuel]; [reflexivity|].
  assert (H1 : next_step backup_daily New_York n = inr (Date New_York 2024 11 3 0 0)) by (vm_compute; reflexivity).
  set (m := Date New_York 2024 11 3 0 0) in *. vm_compute in m.
  assert (H2 : next_step backup_daily New_York m = inr (m + 2 * Hour)) by (vm_compute; reflexivity).
  set (s := m + 2 * Hour) in *. vm_compute in s.
  assert (H3 : next_step backup_daily New_York s = inr s) by (vm_compute; reflexivity).
  cbn [next_loop]. rewrite (proj2 (Z.ltb_lt n l)), H1 by reflexivity.
  destruct fuel as [|fuel]; [reflexivity|].
  cbn [next_loop]. rewrite (proj2 (Z.ltb_lt m l)), H2 by reflexivity.
  by apply next_loop_stuck.
Qed.

(** ** Fields *)

(** The reference meaning of a comma-separated part: the values it denotes. *)
Definition part_value (part : string) (lo hi v : Z) : bool :=
  if Strings.HasPrefix part "*/" then
    let step := fst (Strconv.Atoi (Strings.drop 2 part)) in
    (lo <=? v) && (v <=? hi) && ((v - lo) mod step =? 0)
  else if Strings.Contains part "-" then
    match Strings.SplitN2 part "-" with
    | [b0; b1] => (fst (Strconv.Atoi b0) <=? v) && (v <=? fst (Strconv.Atoi b1))
    | _ => false
    end
  else v =? fst (Strconv.Atoi part).

(** A step that the loop counter can hold: [lo + step] does not overflow. *)
Definition step_fits (lo : Z) (part : string) : bool :=
  negb (Strings.HasPrefix part "*/") || (lo + fst (Strconv.Atoi (Strings.drop 2 part)) <=? max_int64).

Definition fs_ok (f : fieldSet) : Prop := length (bits f) = 64%nat /\ fs_star f = false.

Lemma contains_ok f v : fs_ok f -> contains f v = default false (bits f !! Z.to_nat v) && (0 <=? v).
Proof.
  intros [Hl Hs]. unfold contains. rewrite Hs, Hl.
  destruct (Z.ltb_spec v 0), (Z.leb_spec 0 v); try lia; cbn [orb]; [by rewrite andb_false_r|].
  rewrite andb_true_r. destruct (Z.leb_spec (Z.of_nat 64) v); [|done].
  rewrite lookup_ge_None_2; [done | lia].
Qed.

Lemma set_bit_ok f v :
  fs_ok f -> 0 <= v < 64 ->
  exists f', set_bit f v = Done f' /\ fs_ok f' /\ forall u, contains f' u = (u =? v) || contains f u.
Proof.
  intros Hf Hv. unfold set_bit.
  destruct (Z.ltb_spec v 0), (Z.leb_spec 64 v); try lia. cbn [orb].
  eexists; split; [done|]. assert (Hf' : fs_ok {| bits := <[Z.to_nat v:=true]> (bits f); fs_star := fs_star f |}).
  { destruct Hf. split; cbn; [by rewrite length_insert | done]. }
  split; [done|]. intros u. rewrite !contains_ok by done. cbn.
  destruct (Z.eqb_spec u v) as [->|Hne].
  - rewrite list_lookup_insert_eq by (destruct Hf; lia). cbn. destruct (Z.leb_spec 0 v); [done | lia].
  - destruct (Z.leb_spec 0 u).
    + rewrite list_lookup_insert_ne; [done | lia].
    + by rewrite !andb_false_r.
Qed.

Lemma set_steps_S fuel f v hi step :
  set_steps (S fuel) f v hi step =
  if v <=? hi then f' ← set_bit f v; set_steps fuel f' (wrap64 (v + step)) hi step else Done f.
Proof. done. Qed.

(** The filling loop, when no addition overflows. *)
Lemma set_steps_ok fuel f v hi step :
  fs_ok f -> 0 <= v -> hi < 64 -> 0 < step -> v + step <= max_int64 -> Z.max 0 (hi - v + 1) < Z.of_nat fuel ->
  exists f', set_steps fuel f v hi step = Done f' /\ fs_ok f'
    /\ forall u, contains f' u = ((v <=? u) && (u <=? hi) && ((u - v) mod step =? 0)) || contains f u.
Proof.
  revert f v. induction fuel as [|fuel IH]; intros f v Hf Hv Hhi Hs Hmax Hfuel; [lia|cbn [set_steps]].
  destruct (Z.leb_spec v hi) as [L|L].
  - destruct (set_bit_ok f v Hf ltac:(lia)) as (f1 & -> & Hf1 & Hc1). cbn [mbind run_bind].
    rewrite wrap64_id by (unfold in_int64, min_int64; lia).
    assert (Hmax' : v + step <= hi -> v + step + step <= max_int64) by (unfold max_int64; lia).
    destruct (Z.le_gt_cases (v + step) hi) as [Lv|Lv].
    + destruct (IH f1 (v + step) Hf1 ltac:(lia) ltac:(lia) ltac:(lia) ltac:(lia) ltac:(lia)) as (f' & -> & Hf' & Hc').
      exists f'. split; [done|]. split; [done|]. intros u. rewrite Hc', Hc1.
      rewrite orb_assoc. f_equal. apply eq_true_iff_eq.
      rewrite orb_true_iff, !andb_true_iff, !Z.leb_le, !Z.eqb_eq.
      replace (u - (v + step)) with (u - v - 1 * step) by lia. rewrite Zminus_mod, Z_mod_mult, Z.sub_0_r, Z.mod_mod by lia.
      split; [intros [H|H]|]; [lia | subst; rewrite Z.sub_diag, Z.mod_0_l; lia |].
      intros [[H1 H2] H3]. destruct (Z.eq_dec u v) as [->|]; [by right|]. left.
      assert (step <= u - v) by (apply Z.divide_pos_le; [lia | apply Z.mod_divide; lia]). lia.
    + destruct fuel as [|fuel]; [lia|]. cbn [set_steps]. rewrite (proj2 (Z.leb_gt _ _)) by lia.
      exists f1. split; [done|]. split; [done|]. intros u. rewrite Hc1. f_equal.
      apply eq_true_iff_eq. rewrite !andb_true_iff, !Z.leb_le, !Z.eqb_eq. split.
      * intros ->. rewrite Z.sub_diag, Z.mod_0_l; lia.
      * intros [[H1 H2] H3]. destruct (Z.eq_dec u v) as [->|]; [done|].
        assert (step <= u - v) by (apply Z.divide_pos_le; [lia | apply Z.mod_divide; lia]). lia.
  - exists f. split; [done|]. split; [done|]. intros u.
    destruct (Z.leb_spec v u), (Z.leb_spec u hi); try lia; done.
Qed.

Lemma index_byte c s : String.index 0 (String c "") s = Strings.IndexByte s c.
Proof.
  induction s as [|d s IH]; [done|]. cbn [String.index Strings.IndexByte].
  cbn [String.prefix]. destruct (Ascii.ascii_dec c d) as [->|Hne].
  - rewrite Ascii.eqb_refl. by destruct s.
  - rewrite IH. destruct (Ascii.eqb_spec d c) as [->|]; [done|]. by destruct (Strings.IndexByte s c).
Qed.

Lemma SplitN2_two c s : Strings.Contains s (String c "") = true -> exists a b, Strings.SplitN2 s c = [a; b].
Proof.
  unfold Strings.Contains. rewrite index_byte.
  induction s as [|d s IH]; [done|]. cbn.
  destruct (Ascii.eqb d c); [by eauto|]. intros H.
  destruct (Strings.IndexByte s c); [|done].
  destruct IH as (a & b & ->); [done|]. eauto.
Qed.

Section fields.
Context (lo hi : Z) (Hlo : 0 <= lo) (Hhi : hi < 64).

(** What a successful parse adds to the set, within the field's bounds. *)
Definition adds (P : Z -> bool) (f : fieldSet) (r : result fieldSet) : Prop :=
  forall f', r = Ok f' ->
    fs_ok f' /\ (forall u, contains f' u = P u || contains f u) /\ (forall u, P u = true -> lo <= u <= hi).

Lemma parsePart_spec s part f :
  fs_ok f -> step_fits lo part = true ->
  exists r, parsePart s part lo hi f = Done r /\ adds (part_value part lo hi) f r.
Proof.
  intros Hf Hfit. unfold parsePart, adds, part_value, step_fits in *.
  destruct (Strings.HasPrefix part "*/") eqn:Hstar; [|clear Hfit; destruct (Strings.Contains part "-") eqn:Hdash].
  - cbn [negb orb] in Hfit. b2p. set (p := Strconv.Atoi _) in *.
    destruct (no_err p), (Z.leb_spec (fst p) 0); cbn [negb orb]; try (eexists; split; [done | done]).
    destruct (set_steps_ok loop_fuel f lo hi (fst p) Hf) as (f' & -> & Hf' & Hc); [lia..| |].
    { unfold loop_fuel. lia. }
    eexists; split; [done|]. intros ? [= <-]. split; [done|]. split; [done|]. intros u ?. b2p. lia.
  - destruct (SplitN2_two _ _ Hdash) as (b0 & b1 & ->).
    set (p0 := Strconv.Atoi b0). set (p1 := Strconv.Atoi b1).
    destruct (no_err p0), (no_err p1), (Z.ltb_spec (fst p0) lo), (Z.ltb_spec hi (fst p1)),
      (Z.ltb_spec (fst p1) (fst p0)); cbn [negb orb]; try (eexists; split; [done | done]).
    destruct (set_steps_ok loop_fuel f (fst p0) (fst p1) 1 Hf) as (f' & -> & Hf' & Hc);
      [lia | lia | lia | unfold max_int64; lia | unfold loop_fuel; lia |].
    eexists; split; [done|]. intros ? [= <-]. split; [done|]. split.
    + intros u. rewrite Hc, Z.mod_1_r, andb_true_r. done.
    + intros u ?. b2p. lia.
  - set (p := Strconv.Atoi part).
    destruct (no_err p), (Z.ltb_spec (fst p) lo), (Z.ltb_spec hi (fst p)); cbn [negb orb];
      try (eexists; split; [done | done]).
    destruct (set_bit_ok f (fst p) Hf ltac:(lia)) as (f' & -> & Hf' & Hc).
    eexists; split; [done|]. intros ? [= <-]. split; [done|]. split; [done|]. intros u ?. b2p. lia.
Qed.

Lemma parseParts_spec s parts f :
  fs_ok f -> Forall (fun p => step_fits lo p = true) parts ->
  exists r, parseParts s parts lo hi f = Done r
    /\ adds (fun u => existsb (fun p => part_value p lo hi u) parts) f r.
Proof.
  intros Hf Hfit. revert f Hf. induction Hfit as [|part parts Hp Hps IH]; intros f Hf; cbn [parseParts].
  - eexists; split; [done|]. intros ? [= <-]. done.
  - destruct (parsePart_spec s part f Hf Hp) as (r & -> & Hr). cbn [mbind run_bind].
    destruct r as [f1|e]; [|eexists; split; done].
    destruct (Hr f1 eq_refl) as (Hf1 & Hc1 & Hb1).
    destruct (IH f1 Hf1) as (r & -> & Hr2). eexists; split; [done|].
    intros f2 ->. destruct (Hr2 f2 eq_refl) as (Hf2 & Hc2 & Hb2). split; [done|]. split.
    + intros u. cbn [existsb]. rewrite Hc2, Hc1, !orb_assoc. f_equal. apply orb_comm.
    + intros u. cbn [existsb]. intros [?|?]%orb_true_iff; auto.
Qed.
End fields.

(** Parsing a field never diverges, and panics for no input whose steps
    fit the loop counter; when it succeeds, the set contains exactly the values
    denoted by one of the comma-separated parts, all within the field's bounds. *)
Theorem parseField_denotes (s : string) (lo hi : Z) :
  0 <= lo -> hi < 64 -> s <> "*" ->
  Forall (fun part => step_fits lo part = true) (Strings.Split s ",") ->
  exists r, parseField s lo hi = Done r /\
    forall f, r = Ok f -> forall v,
      contains f v = existsb (fun part => part_value part lo hi v) (Strings.Split s ",")
      /\ (contains f v = true -> lo <= v <= hi).
Proof.
  intros Hlo Hhi Hs Hfit. unfold parseField.
  destruct (String.eqb_spec s "*") as [|_]; [done|].
  assert (He : fs_ok empty_set) by done.
  destruct (parseParts_spec lo hi Hlo Hhi s _ empty_set He Hfit) as (r & -> & Hr).
  exists r. split; [done|]. intros f -> v. destruct (Hr f eq_refl) as (Hf & Hc & Hb).
  assert (Hempty : contains empty_set v = false).
  { rewrite contains_ok by done. cbn [bits empty_set].
    destruct (_ !! _) as [b|] eqn:E; [|done]. apply lookup_replicate in E as [-> _]. done. }
  rewrite Hc, Hempty, orb_false_r. split; [done | apply Hb].
Qed.

Lemma parseField_denotes_witness :
  exists r, parseField "*/15,1-3,59" 0 59 = Done r /\ is_ok r = true
    /\ forall f, r = Ok f -> forall v, contains f v = existsb (fun part => part_value part 0 59 v) ["*/15"; "1-3"; "59"].
Proof.
  destruct (parseField_denotes "*/15,1-3,59" 0 59) as (r & Hr & Hspec);
    [discriminate | reflexivity | discriminate | |].
  - change (Strings.Split "*/15,1-3,59" ",") with ["*/15"; "1-3"; "59"].
    repeat constructor; vm_compute; reflexivity.
  - exists r. split; [exact Hr|]. split.
    + assert (match parseField "*/15,1-3,59" 0 59 with Done x => is_ok x | _ => false end = true) as H
        by (vm_compute; reflexivity).
      rewrite Hr in H. exact H.
    + intros f Hf v. apply (Hspec f Hf v).
Defined.

(** A step close to the largest integer panics in a field whose lower
    bound is positive (day of month and month): the loop counter wraps to a
    negative array index. *)
Theorem parseField_step_overflow_panics (s : string) (step lo hi : Z) (f : fieldSet) :
  0 < lo -> lo <= hi -> hi < 64 -> max_int64 - lo < step -> step <= max_int64 ->
  parsePart s ("*/" ++ Strconv.Itoa step) lo hi f = Panicked.
Proof.
  intros Hlo Hlh Hhi Hs1 Hs2. unfold parsePart.
  assert (Strings.HasPrefix ("*/" ++ Strconv.Itoa step) "*/" = true) as -> by apply prefix_app.
  change ("*/" ++ Strconv.Itoa step) with (String "*" (String "/" (Strconv.Itoa step))).
  rewrite drop_app_2, Atoi_Itoa by (unfold in_int64, min_int64, max_int64 in *; lia).
  cbn [no_err snd fst negb orb]. rewrite (proj2 (Z.leb_gt _ _)) by (unfold max_int64 in *; lia).
  assert (Hin : exists f1, set_bit f lo = Done f1).
  { unfold set_bit. rewrite (proj2 (Z.ltb_ge lo 0)), (proj2 (Z.leb_gt 64 lo)) by lia. eexists; reflexivity. }
  destruct Hin as [f1 Hin].
  assert (Hw : wrap64 (lo + step) < 0).
  { unfold wrap64, max_int64 in *. replace (lo + step + 2 ^ 63) with (lo + step - 2 ^ 63 + 1 * 2 ^ 64) by lia.
    rewrite Z_mod_plus_full, Z.mod_small; lia. }
  assert (Hout : forall f, set_bit f (wrap64 (lo + step)) = Panicked).
  { intros. unfold set_bit. by rewrite (proj2 (Z.ltb_lt _ _) Hw). }
  change loop_fuel with (S (S 64)). rewrite set_steps_S, (proj2 (Z.leb_le lo hi)), Hin by lia.
  cbn [mbind run_bind]. rewrite set_steps_S, (proj2 (Z.leb_le _ hi)), Hout by lia. reflexivity.
Qed.

Lemma parseField_step_overflow_panics_witness :
  parsePart "*/9223372036854775807" "*/9223372036854775807" 1 31 empty_set = Panicked
  /\ parseCron "0 2 */9223372036854775807 * *" = Panicked.
Proof.
  split.
  - exact (parseField_step_overflow_panics "*/9223372036854775807" 9223372036854775807 1 31 empty_set
             eq_refl ltac:(discriminate) eq_refl eq_refl ltac:(discriminate)).
  - vm_compute. reflexivity.
Defined.
