(* ===== verification/GoNet.v ===== *)
(** * Addresses (package net)

    [net.IP] is a list of bytes, of length 16 as [ParseIP] returns it or 4.
    Parsing follows net/netip, on which package net is built; a zone is refused
    by [ParseIP] and [ParseCIDR]. *)

From S2P Require Import Prelude GoStr.
From Stdlib Require Import Ascii.

(** ** Host and port *)

Definition SplitHostPort (hostport : string) : option (string * string) :=
  match Strings.LastIndexByte hostport ":" with
  | None => None
  | Some i =>
      let port := Strings.drop (i + 1) hostport in
      if Strings.HasPrefix hostport "[" then
        match Strings.IndexByte hostport "]" with
        | None => None
        | Some e =>
            if negb (Nat.eqb (e + 1) i) then None
            else if Strings.ContainsAny (Strings.drop 1 hostport) "[" then None
            else if Strings.ContainsAny (Strings.drop (e + 1) hostport) "]" then None
            else Some (Strings.take (e - 1) (Strings.drop 1 hostport), port)
        end
      else
        let host := Strings.take i hostport in
        if Strings.ContainsAny host ":" then None
        else if Strings.ContainsAny hostport "[]" then None
        else Some (host, port)
  end.

Definition JoinHostPort (host port : string) : string :=
  if Strings.ContainsAny host ":" then "[" ++ host ++ "]:" ++ port else host ++ ":" ++ port.

(** The host of [SplitHostPort], or the whole string when it cannot be split. *)
Definition host_of (hostport : string) : string :=
  match SplitHostPort hostport with Some (h, _) => h | None => hostport end.

(** ** Parsing addresses *)

Definition IP : Type := list Z.

(** A decimal field of an IPv4 address, without leading zeros. *)
Definition octet (s : string) : option Z :=
  if String.eqb s "" then None
  else if negb (Strings.forall_byte (fun c => Utf8.in_rng 48 57 (byte c)) s) then None
  else if (1 <? strlen s) && Strings.HasPrefix s "0" then None
  else match Strconv.ParseUint s with
       | (n, None) => if n <=? 255 then Some n else None
       | _ => None
       end.

Definition parseIPv4 (s : string) : option IP :=
  match octet <$> Strings.Split s "." with
  | [Some a; Some b; Some c; Some d] => Some [a; b; c; d]
  | _ => None
  end.

Definition hex_value (c : ascii) : option Z :=
  let b := byte c in
  if Utf8.in_rng 48 57 b then Some (b - 48)
  else if Utf8.in_rng 97 102 b then Some (b - 87)
  else if Utf8.in_rng 65 70 b then Some (b - 55)
  else None.

(** The hexadecimal digits at the front: their value and number, and the rest. *)
Fixpoint hex_group (acc : Z) (n : nat) (s : string) : Z * nat * string :=
  match s with
  | "" => (acc, n, "")
  | String c r => match hex_value c with Some v => hex_group (acc * 16 + v) (S n) r | None => (acc, n, s) end
  end.

(** The groups of an IPv6 address, at most [fuel] of them: the bytes and the
    place of the ellipsis. *)
Fixpoint v6_groups (fuel : nat) (s : string) (ip : IP) (ellipsis : option nat) : option (IP * option nat) :=
  match fuel with
  | O => None
  | S fuel =>
      let '(acc, n, rest) := hex_group 0 0 s in
      if Nat.eqb n 0 || Nat.ltb 4 n then None
      else if Strings.HasPrefix rest "." then
        if match ellipsis with None => negb (Nat.eqb (length ip) 12) | Some _ => false end then None
        else if Nat.ltb 12 (length ip) then None
        else v4 ← parseIPv4 s; Some ((ip ++ v4)%list, ellipsis)
      else
        let ip := (ip ++ [acc / 256; acc mod 256])%list in
        match rest with
        | "" => Some (ip, ellipsis)
        | String c r =>
            if negb (Ascii.eqb c ":") || String.eqb r "" then None
            else if Strings.HasPrefix r ":" then
              match ellipsis with
              | Some _ => None
              | None =>
                  if String.eqb (Strings.drop 1 r) "" then Some (ip, Some (length ip))
                  else v6_groups fuel (Strings.drop 1 r) ip (Some (length ip))
              end
            else v6_groups fuel r ip ellipsis
        end
  end.

Definition parseIPv6 (s : string) : option IP :=
  let start := if Strings.HasPrefix s "::" then (Strings.drop 2 s, Some 0%nat) else (s, None) in
  if Strings.ContainsAny s "%" then None
  else if match start with ("", Some _) => true | _ => false end then Some (replicate 16 0)
  else
    match v6_groups 8 (fst start) [] (snd start) with
    | None => None
    | Some (ip, None) => if Nat.eqb (length ip) 16 then Some ip else None
    | Some (ip, Some e) =>
        if Nat.ltb (length ip) 16 then Some (take e ip ++ replicate (16 - length ip) 0 ++ drop e ip)%list else None
    end.

Definition v4_prefix : list Z := replicate 10 0 ++ [255; 255].

(** [netip.ParseAddr] without zones: the four bytes of an IPv4 address or the
    sixteen of an IPv6 one. *)
Fixpoint first_special (s : string) : option ascii :=
  match s with
  | "" => None
  | String c r => if Strings.in_set ".:%" c then Some c else first_special r
  end.

Definition ParseAddr (s : string) : option IP :=
  match first_special s with
  | Some "."%char => parseIPv4 s
  | Some ":"%char => parseIPv6 s
  | _ => None
  end.

Definition As16 (a : IP) : IP := if Nat.eqb (length a) 4 then (v4_prefix ++ a)%list else a.

Definition ParseIP (s : string) : option IP := As16 <$> ParseAddr s.

(** ** Addresses *)

Definition To4 (ip : IP) : option IP :=
  if Nat.eqb (length ip) 4 then Some ip
  else if Nat.eqb (length ip) 16 && bool_decide (take 12 ip = v4_prefix) then Some (drop 12 ip)
  else None.

(** [ip.Equal]: an IPv4 address and its form in IPv6 are equal. *)
Definition IP_Equal (a b : IP) : bool := bool_decide (As16 a = As16 b).

Definition byte_at (ip : IP) (i : nat) : Z := nth i ip 0.

Definition IsLoopback (ip : IP) : bool :=
  match To4 ip with Some v4 => byte_at v4 0 =? 127 | None => bool_decide (ip = replicate 15 0 ++ [1])%list end.

Definition IsPrivate (ip : IP) : bool :=
  match To4 ip with
  | Some v4 =>
      (byte_at v4 0 =? 10)
      || ((byte_at v4 0 =? 172) && (Z.land (byte_at v4 1) 240 =? 16))
      || ((byte_at v4 0 =? 192) && (byte_at v4 1 =? 168))
  | None => Nat.eqb (length ip) 16 && (Z.land (byte_at ip 0) 254 =? 252)
  end.

Definition IsLinkLocalUnicast (ip : IP) : bool :=
  match To4 ip with
  | Some v4 => (byte_at v4 0 =? 169) && (byte_at v4 1 =? 254)
  | None => Nat.eqb (length ip) 16 && (byte_at ip 0 =? 254) && (Z.land (byte_at ip 1) 192 =? 128)
  end.

Definition IsLinkLocalMulticast (ip : IP) : bool :=
  match To4 ip with
  | Some v4 => (byte_at v4 0 =? 224) && (byte_at v4 1 =? 0) && (byte_at v4 2 =? 0)
  | None => Nat.eqb (length ip) 16 && (byte_at ip 0 =? 255) && (Z.land (byte_at ip 1) 15 =? 2)
  end.

Definition IsMulticast (ip : IP) : bool :=
  match To4 ip with
  | Some v4 => Z.land (byte_at v4 0) 240 =? 224
  | None => Nat.eqb (length ip) 16 && (byte_at ip 0 =? 255)
  end.

Definition IsUnspecified (ip : IP) : bool := IP_Equal ip [0; 0; 0; 0] || bool_decide (ip = replicate 16 0).

Definition IsGlobalUnicast (ip : IP) : bool :=
  negb (IP_Equal ip [255; 255; 255; 255]) && negb (IsUnspecified ip) && negb (IsLoopback ip)
  && negb (IsMulticast ip) && negb (IsLinkLocalUnicast ip).

(** ** Networks *)

Record IPNet := { net_ip : IP; net_mask : list Z }.

(** [net.CIDRMask]. *)
Definition CIDRMask (ones bits : nat) : list Z :=
  (fun i => let n := Nat.min 8 (ones - 8 * i) in 256 - 2 ^ Z.of_nat (8 - n)) <$> seq 0 (bits / 8).

Definition mask_bytes (ip mask : list Z) : list Z := zip_with Z.land ip mask.

(** [dtoi]. *)
Definition dtoi (s : string) : option Z :=
  if Strings.forall_byte (fun c => Utf8.in_rng 48 57 (byte c)) s then
    match Strconv.ParseUint s with
    | (n, None) => if n <? 16777215 then Some n else None
    | _ => None
    end
  else None.

Definition ParseCIDR (s : string) : option IPNet :=
  match Strings.SplitN2 s "/" with
  | [addr; mask] =>
      ip ← ParseAddr addr;
      n ← dtoi mask;
      let bits := (8 * length ip)%nat in
      if n <=? Z.of_nat bits then
        let m := CIDRMask (Z.to_nat n) bits in
        Some {| net_ip := mask_bytes ip m; net_mask := m |}
      else None
  | _ => None
  end.

(** [n.Contains(ip)], for networks that [ParseCIDR] made. *)
Definition network_number (n : IPNet) : list Z * list Z :=
  match To4 (net_ip n) with
  | Some v4 => (v4, if Nat.eqb (length (net_mask n)) 16 then drop 12 (net_mask n) else net_mask n)
  | None => (net_ip n, net_mask n)
  end.

Definition Contains (n : IPNet) (ip : IP) : bool :=
  let '(nn, m) := network_number n in
  let ip := default ip (To4 ip) in
  Nat.eqb (length ip) (length nn) && bool_decide (mask_bytes ip m = mask_bytes nn m).

(** ** Text *)

(** The groups of an IPv6 address. *)
Fixpoint groups16 (ip : IP) : list Z :=
  match ip with a :: b :: r => a * 256 + b :: groups16 r | _ => [] end.

Definition hex_text (z : Z) : string :=
  let d i := String (ascii_of_N (Z.to_N (let v := Z.land (Z.shiftr z i) 15 in if v <? 10 then 48 + v else 87 + v))) "" in
  (if 4096 <=? z then d 12 else "") ++ (if 256 <=? z then d 8 else "") ++ (if 16 <=? z then d 4 else "") ++ d 0.

(** The longest run of two or more zero groups, the first of equals: its start and end. *)
Fixpoint zero_run (l : list Z) : nat := match l with 0 :: l => S (zero_run l) | _ => O end.
Definition longest_zeros (g : list Z) : nat * nat :=
  foldl (fun best i => let n := zero_run (drop i g) in
                       if Nat.leb 2 n && Nat.ltb (snd best - fst best) n then (i, i + n) else best)%nat
        (255, 255)%nat (seq 0 8).

Fixpoint v6_text (fuel i : nat) (zs ze : nat) (g : list Z) : string :=
  match fuel with
  | O => ""
  | S fuel =>
      if Nat.leb 8 i then ""
      else if Nat.eqb i zs then
        if Nat.leb 8 ze then "::" else "::" ++ hex_text (nth ze g 0) ++ v6_text fuel (S ze) zs ze g
      else (if Nat.ltb 0 i then ":" else "") ++ hex_text (nth i g 0) ++ v6_text fuel (S i) zs ze g
  end.

Definition IP_String (ip : IP) : string :=
  match To4 ip with
  | Some v4 => Strings.Join (Strconv.Itoa <$> v4) "."
  | None => let g := groups16 ip in let '(zs, ze) := longest_zeros g in v6_text 9 0 zs ze g
  end.

Example parse_v6 : IP_String <$> ParseIP "2001:DB8:0:0:1:0:0:1" = Some "2001:db8::1:0:0:1".
Proof. reflexivity. Qed.
Example parse_mapped : IP_String <$> ParseIP "::ffff:10.0.0.1" = Some "10.0.0.1".
Proof. reflexivity. Qed.
Example parse_bad : ParseIP <$> ["1.2.3"; "01.2.3.4"; "1:2:3:4:5:6:7"; "::1%eth0"; "1::2::3"; "256.1.1.1"; ":1"; "1:2:3:4:5:6:7:8:9"]
                    = replicate 8 None.
Proof. reflexivity. Qed.
Example contains_v4 : (fun n => Contains n <$> ParseIP "172.31.5.5") <$> ParseCIDR "172.16.0.0/12" = Some (Some true).
Proof. reflexivity. Qed.
Example contains_mapped : (fun n => Contains n <$> ParseIP "10.1.2.3") <$> ParseCIDR "::ffff:10.0.0.0/104" = Some (Some true).
Proof. vm_compute. reflexivity. Qed.
Example v6_zero : IP_String <$> ParseIP "::" = Some "::".
Proof. reflexivity. Qed.
