(* ===== verification/GoNetProofs.v ===== *)
(** * Facts about addresses

    What [SplitHostPort] finds in the result of [JoinHostPort], and the
    characters an address that parses is made of. *)

From S2P Require Import Prelude GoStr GoStrProofs GoNet.
From Stdlib Require Import Ascii.

Import Strings.

(** ** Hosts and ports *)

Definition brackets : string := "[]".
Definition colon_brackets : string := ":[]".

Lemma no_brackets_sub cs s : forall_byte (in_set colon_brackets) cs = true ->
  ContainsAny s colon_brackets = false -> ContainsAny s cs = false.
Proof.
  intros Hcs. apply any_impl. intros c. induction cs as [|d cs IH]; [done|]. cbn in Hcs |- *.
  apply andb_true_iff in Hcs as [Hd Hcs]. intros [E|E]%orb_true_iff; [|by apply IH].
  apply Ascii.eqb_eq in E as ->. exact Hd.
Qed.

Lemma Split_Join_bare h p : ContainsAny h colon_brackets = false -> ContainsAny p colon_brackets = false ->
  SplitHostPort (h ++ ":" ++ p) = Some (h, p).
Proof.
  intros Hh Hp. unfold SplitHostPort. destruct (any_false_index _ p ":" eq_refl Hp) as [_ Hp'].
  rewrite (LastIndexByte_app h (":" ++ p) ":" 0) by by apply LastIndexByte_head. rewrite Nat.add_0_r.
  assert (Hpre : HasPrefix (h ++ ":" ++ p) "[" = false).
  { unfold HasPrefix. destruct h as [|c h]; [done|]. unfold ContainsAny in Hh. cbn [any] in Hh. apply orb_false_iff in Hh as [Hc _].
    cbn [String.append String.prefix]. destruct (Ascii.ascii_dec "[" c) as [<-|]; [discriminate Hc | done]. }
  rewrite Hpre, take_app, drop_app_n. change (drop 1 (":" ++ p)) with (drop 1 (String ":" p)). rewrite drop_1.
  rewrite (no_brackets_sub ":") by done.
  assert (Hb : ContainsAny (h ++ ":" ++ p) "[]" = false).
  { unfold ContainsAny. rewrite any_app. cbn [any String.append].
    change (any (in_set "[]") h) with (ContainsAny h "[]"). change (any (in_set "[]") p) with (ContainsAny p "[]").
    rewrite !(no_brackets_sub "[]") by done. done. }
  by rewrite Hb.
Qed.

Lemma Split_Join_bracketed h p : ContainsAny h brackets = false -> ContainsAny p colon_brackets = false ->
  SplitHostPort ("[" ++ h ++ "]:" ++ p) = Some (h, p).
Proof.
  intros Hh Hp. unfold SplitHostPort. destruct (any_false_index _ p ":" eq_refl Hp) as [_ Hp'].
  destruct (any_false_index _ h "]" eq_refl Hh) as [Hi _].
  assert (E : "[" ++ h ++ "]:" ++ p = ("[" ++ h ++ "]") ++ ":" ++ p) by (cbn; by rewrite <- string_app_assoc).
  rewrite E at 1. rewrite (LastIndexByte_app _ (":" ++ p) ":" 0) by by apply LastIndexByte_head.
  rewrite Nat.add_0_r.
  assert (Hpre : HasPrefix ("[" ++ h ++ "]:" ++ p) "[" = true) by (apply prefix_spec; by eexists).
  assert (Hclose : IndexByte ("[" ++ h ++ "]:" ++ p) "]" = Some (S (String.length h))).
  { rewrite (IndexByte_app "[") by done. rewrite (IndexByte_app h) by done. cbn. by rewrite Nat.add_0_r. }
  rewrite Hpre, Hclose. cbn [String.append]. rewrite drop_1. cbn [String.length].
  rewrite string_app_length, Nat.add_1_r. cbn [String.length Nat.add]. rewrite Nat.add_1_r, Nat.eqb_refl. cbn [negb].
  assert (Hopen : ContainsAny (h ++ String "]" (String ":" p)) "[" = false).
  { rewrite ContainsAny_app. apply orb_false_iff. split.
    - revert Hh. apply any_impl. intros c. cbn. intros E'. by destruct (Ascii.eqb c "[").
    - unfold ContainsAny. cbn [any]. exact (no_brackets_sub "[" p eq_refl Hp). }
  rewrite Hopen, !drop_S.
  rewrite <- (Nat.add_1_r (String.length h)), !drop_app_n, !drop_1.
  replace (S (String.length h) - 1)%nat with (String.length h) by lia.
  replace (String.length h + 1 - 1)%nat with (String.length h) by lia.
  rewrite take_app. assert (Hc : ContainsAny (String ":" p) "]" = false) by exact (no_brackets_sub "]" p eq_refl Hp).
  rewrite Hc, <- Nat.add_assoc, drop_app_n. cbn [Nat.add]. by rewrite drop_S, drop_1.
Qed.

(** A host without brackets comes back from the join with a port. *)
Lemma host_of_JoinHostPort h p : ContainsAny h brackets = false -> ContainsAny p colon_brackets = false ->
  SplitHostPort (JoinHostPort h p) = Some (h, p).
Proof.
  intros Hh Hp. unfold JoinHostPort. destruct (ContainsAny h ":") eqn:Hc; [by apply Split_Join_bracketed|].
  apply Split_Join_bare; [|done]. unfold ContainsAny in *. clear -Hh Hc.
  induction h as [|d h IH]; [done|]. cbn [any] in *. apply orb_false_iff in Hh as [Hd Hh], Hc as [Hd' Hc].
  rewrite (IH Hh Hc), orb_false_r. cbn in *. apply orb_false_iff in Hd' as [-> _]. exact Hd.
Qed.

(** The port that was split off has no colon and no bracket. *)
Lemma split_port_clean a h p : SplitHostPort a = Some (h, p) -> ContainsAny p colon_brackets = false.
Proof.
  unfold SplitHostPort. destruct (LastIndexByte a ":") as [i|] eqn:Ei; [|done].
  destruct (after_last a ":" i Ei) as [Hcol _].
  assert (Hall : forall x, IndexByte x ":" = None -> ContainsAny x "[" = false -> ContainsAny x "]" = false ->
                           ContainsAny x colon_brackets = false).
  { intros x H1 H2 H3. unfold colon_brackets. rewrite (ContainsAny_cons ":"), (ContainsAny_cons "["), H2, H3.
    by rewrite (proj2 (any_in_set_single ":" x) H1 : ContainsAny x ":" = false). }
  assert (Hsub : forall f n x, any f x = false -> any f (drop n x) = false) by (intros; by apply any_substring).
  destruct (HasPrefix a "[") eqn:Hb.
  - destruct (IndexByte a "]") as [e|]; [|done]. destruct (Nat.eqb_spec (e + 1) i) as [<-|]; [cbn [negb]|done].
    destruct (ContainsAny (drop 1 a) "[") eqn:Ho; [done|]. destruct (ContainsAny (drop (e + 1) a) "]") eqn:Hc; [done|].
    intros [= _ <-]. apply Hall; [done| |].
    + destruct a as [|c a]; [done|]. rewrite drop_1 in Ho. rewrite <- Nat.add_assoc, Nat.add_comm. cbn [Nat.add]. rewrite drop_S. by apply Hsub.
    + by apply any_drop_add.
  - destruct (ContainsAny (take i a) ":"); [done|]. destruct (ContainsAny a "[]") eqn:Ho; [done|]. intros [= _ <-].
    apply Hall; [done| |]; apply Hsub; revert Ho; apply any_impl; intros c; cbn; destruct (Ascii.eqb c "["), (Ascii.eqb c "]"); done.
Qed.

(** ** The characters of an address *)

Definition addr_char (c : ascii) : bool := is_some (hex_value c) || in_set ".:" c.

Lemma Split_forall f c s : f c = true -> Forall (fun x => forall_byte f x = true) (Split s c) -> forall_byte f s = true.
Proof.
  intros Hc. induction s as [|d s IH]; [done|]. cbn. destruct (Ascii.eqb_spec d c) as [->|].
  - intros [_ HF]%Forall_cons. by rewrite Hc, IH.
  - destruct (Split s c) as [|x xs]; intros [Hx HF]%Forall_cons; cbn in Hx; apply andb_true_iff in Hx as [-> Hx]; cbn; apply IH; by constructor.
Qed.

Definition v4_char (c : ascii) : bool := Utf8.in_rng 48 57 (byte c) || Ascii.eqb c ".".

Lemma octet_chars s n : octet s = Some n -> forall_byte v4_char s = true.
Proof.
  unfold octet. destruct (String.eqb s ""); [done|].
  destruct (forall_byte (fun c => Utf8.in_rng 48 57 (byte c)) s) eqn:E; [|done]. intros _. revert E. apply forall_byte_impl.
  intros c Hc. unfold v4_char. by rewrite Hc.
Qed.

Lemma parseIPv4_v4_chars s ip : parseIPv4 s = Some ip -> forall_byte v4_char s = true.
Proof.
  unfold parseIPv4. intros E. apply (Split_forall _ "."); [done|].
  assert (HF : Forall (fun x => is_some (octet x) = true) (Split s ".")).
  { destruct (Split s ".") as [|a [|b [|c [|d [|]]]]]; try discriminate E; cbn in E;
      repeat match type of E with context [match octet ?x with _ => _ end] => destruct (octet x) eqn:? end;
      try discriminate E; repeat constructor; cbn; by repeat match goal with H : octet _ = _ |- _ => rewrite H; clear H end. }
  refine (Forall_impl _ _ _ HF _). intros x. destruct (octet x) eqn:Ex; [|done]. intros _. by eapply octet_chars.
Qed.

Lemma parseIPv4_chars s ip : parseIPv4 s = Some ip -> forall_byte addr_char s = true.
Proof.
  intros E. apply parseIPv4_v4_chars in E. revert E. apply forall_byte_impl. intros c. unfold v4_char, addr_char, hex_value.
  intros [Hc|Hc]%orb_true_iff; [by rewrite Hc | apply Ascii.eqb_eq in Hc as ->; done].
Qed.

Lemma hex_group_chars s : forall acc n acc' n' rest, hex_group acc n s = (acc', n', rest) ->
  forall_byte addr_char rest = true -> forall_byte addr_char s = true.
Proof.
  induction s as [|c s IH]; [done|]. intros acc n acc' n' rest. cbn. destruct (hex_value c) eqn:Ec.
  - intros E Hr. unfold addr_char at 1. rewrite Ec. cbn. by eapply IH.
  - intros [= _ _ <-]. cbn. done.
Qed.

Lemma prefix_colon r : HasPrefix r ":" = true -> exists r', r = String ":" r'.
Proof. intros Hr. apply prefix_spec in Hr as [t ->]. by exists t. Qed.

Lemma v6_groups_chars fuel : forall s ip e r, v6_groups fuel s ip e = Some r -> forall_byte addr_char s = true.
Proof.
  induction fuel as [|fuel IH]; [done|]. intros s ip e r. cbn [v6_groups].
  destruct (hex_group 0 0 s) as [[acc n] rest] eqn:Eg. destruct (_ || _); [done|].
  destruct (HasPrefix rest "."); [destruct (match e with None => _ | Some _ => _ end); [done|]; destruct (Nat.ltb 12 _); [done|];
    destruct (parseIPv4 s) eqn:E4; [intros _; by eapply parseIPv4_chars | done]|].
  intros Hr. apply (hex_group_chars _ _ _ _ _ _ Eg). destruct rest as [|c rest]; [done|].
  destruct (Ascii.eqb_spec c ":") as [->|]; [|done]. destruct (String.eqb rest ""); [done|]. cbn [negb orb] in Hr. cbn.
  destruct (HasPrefix rest ":") eqn:Ep; [|by eapply IH]. apply prefix_colon in Ep as [r' ->]. rewrite !drop_1 in Hr. cbn.
  destruct e; [done|]. destruct (String.eqb_spec r' "") as [->|]; [done|]. by eapply IH.
Qed.

Lemma parseIPv6_chars s ip : parseIPv6 s = Some ip -> forall_byte addr_char s = true.
Proof.
  unfold parseIPv6. destruct (ContainsAny s "%"); [done|]. destruct (HasPrefix s "::") eqn:Ep.
  - apply prefix_spec in Ep as [t ->]. cbn [String.append]. rewrite drop_app_2. cbn [fst snd].
    destruct t as [|c t]; [done|]. destruct (v6_groups _ _ _ _) eqn:Eg; [|done]. intros _. by apply v6_groups_chars in Eg.
  - cbn [fst snd]. intros E. destruct (v6_groups 8 s [] None) eqn:Eg; [by apply v6_groups_chars in Eg | by destruct s].
Qed.

Lemma ParseIP_chars s ip : ParseIP s = Some ip -> ContainsAny s brackets = false.
Proof.
  unfold ParseIP. destruct (ParseAddr s) as [a|] eqn:E; [|done]. intros _.
  assert (Ha : forall_byte addr_char s = true).
  { unfold ParseAddr in E. destruct (first_special s) as [c|]; [|done]. destruct c as [[] [] [] [] [] [] [] []]; try done;
      [by eapply parseIPv4_chars | by eapply parseIPv6_chars]. }
  revert Ha. apply forall_byte_any. intros c. destruct (in_set brackets c) eqn:Ec; [|done].
  apply in_set_elem in Ec. cbn in Ec. set_unfold in Ec. destruct Ec as [->|[->|[]]]; done.
Qed.

(** An address is not split: an IPv4 one has no colon, an IPv6 one too many. *)
Lemma split_parts s h p : HasPrefix s "[" = false -> SplitHostPort s = Some (h, p) ->
  s = h ++ ":" ++ p /\ IndexByte h ":" = None /\ IndexByte p ":" = None.
Proof.
  intros Hb. unfold SplitHostPort. destruct (LastIndexByte s ":") as [i|] eqn:Ei; [|done]. rewrite Hb.
  destruct (after_last s ":" i Ei) as [Hcol _]. destruct (ContainsAny (take i s) ":") eqn:Hh; [done|].
  destruct (ContainsAny s "[]"); [done|]. intros [= <- <-]. split; [|split; [by apply any_in_set_single | done]].
  clear -Ei. revert i Ei. induction s as [|c s IH]; [done|]. intros i. cbn [LastIndexByte].
  destruct (LastIndexByte s ":") as [j|] eqn:E.
  - intros [= <-]. cbn [Nat.add]. rewrite drop_S. unfold take. cbn [String.substring String.append]. f_equal. by apply IH.
  - destruct (Ascii.eqb_spec c ":") as [->|]; [|done]. intros [= <-]. cbn [Nat.add]. rewrite drop_1. unfold take. by destruct s.
Qed.

Lemma hex_group_rest s : forall acc n acc' n' rest, hex_group acc n s = (acc', n', rest) ->
  exists x, s = x ++ rest /\ forall_byte (fun c => is_some (hex_value c)) x = true
            /\ match rest with "" => True | String c _ => hex_value c = None end.
Proof.
  induction s as [|c s IH]; intros acc n acc' n' rest; cbn; [intros [= _ _ <-]; by exists ""|].
  destruct (hex_value c) eqn:Ec; [|intros [= _ _ <-]; exists ""; done].
  intros E. destruct (IH _ _ _ _ _ E) as (x & -> & Hx & Hrest). exists (String c x). split; [done|]. split; [|done]. cbn. by rewrite Ec.
Qed.

(** What follows the digits in a text with one colon. *)
Lemma one_group h p acc n rest : IndexByte h ":" = None -> hex_group 0 0 (h ++ ":" ++ p) = (acc, n, rest) ->
  HasPrefix rest "." = false -> HasPrefix rest ":" = true -> rest = ":" ++ p.
Proof.
  intros Hh E _ Hc. destruct (hex_group_rest _ _ _ _ _ _ E) as (x & Ex & Hx & _). apply prefix_colon in Hc as [r ->].
  f_equal. revert x Ex Hx. clear E. induction h as [|c h IH]; intros [|d x]; cbn.
  - by intros [= ->].
  - intros [= <- _]. done.
  - intros [= -> _]. cbn in Hh. done.
  - intros [= <- Ex] [_ Hx]%andb_true_iff. apply (IH) with x; [|done|done]. cbn in Hh. destruct (Ascii.eqb c ":"); [done|].
    by destruct (IndexByte h ":").
Qed.

Lemma v6_last_group fuel p ip r : IndexByte p ":" = None -> length ip = 2%nat ->
  v6_groups fuel p ip None = Some r -> r.2 = None /\ length r.1 = 4%nat.
Proof.
  intros Hp Hip. destruct fuel as [|fuel]; [done|]. cbn [v6_groups].
  destruct (hex_group 0 0 p) as [[acc n] rest] eqn:Eg. destruct (_ || _); [done|]. rewrite Hip. cbn [Nat.eqb negb].
  destruct (HasPrefix rest "."); [done|]. destruct rest as [|c rest].
  - intros [= <-]. cbn. rewrite length_app, Hip. done.
  - destruct (hex_group_rest _ _ _ _ _ _ Eg) as (x & -> & _). destruct (Ascii.eqb_spec c ":") as [->|]; [|done]. exfalso.
    clear -Hp. induction x as [|d x IH]; cbn in Hp; [done|]. destruct (Ascii.eqb d ":"); [done|]. apply IH.
    by destruct (IndexByte (x ++ String ":" rest) ":").
Qed.

Lemma one_colon_no_v6 h p : IndexByte h ":" = None -> IndexByte p ":" = None -> parseIPv6 (h ++ ":" ++ p) = None.
Proof.
  intros Hh Hp. unfold parseIPv6. destruct (ContainsAny _ "%"); [done|].
  assert (Hn : HasPrefix (h ++ ":" ++ p) "::" = false).
  { destruct (HasPrefix _ "::") eqn:E; [|done]. apply prefix_spec in E as [t Et]. destruct h as [|c [|c' h]]; cbn in Et.
    - injection Et as ->. done.
    - injection Et as -> ->. done.
    - injection Et as -> -> _. done. }
  rewrite Hn. cbn [fst snd]. destruct (h ++ ":" ++ p) eqn:Es; [by destruct h|]. rewrite <- Es. clear Es.
  destruct (v6_groups 8 (h ++ ":" ++ p) [] None) as [[ip e]|] eqn:E; [|done]. cbn [v6_groups] in E.
  destruct (hex_group 0 0 (h ++ ":" ++ p)) as [[acc n] rest] eqn:Eg. destruct (_ || _); [done|].
  destruct (HasPrefix rest ".") eqn:Ed; [done|]. cbn [app] in E. destruct rest as [|c rest].
  - by injection E as <- <-.
  - destruct (Ascii.eqb_spec c ":") as [->|]; [|done]. destruct (String.eqb_spec rest "") as [|Hne]; [done|]. cbn [negb orb] in E.
    assert (Hr : String ":" rest = ":" ++ p) by (apply (one_group h p acc n); [done|done|done|by destruct rest]).
    injection Hr as ->. destruct (HasPrefix p ":") eqn:Ep; [apply prefix_colon in Ep as [r' ->]; done|].
    change (v6_groups 7 p [acc / 256; acc mod 256] None = Some (ip, e)) in E.
    destruct (v6_last_group 7 p [_; _] _ Hp eq_refl E) as [He Hl]. cbn in He, Hl. subst e. by rewrite Hl.
Qed.

Lemma ParseIP_not_split s ip : ParseIP s = Some ip -> SplitHostPort s = None.
Proof.
  intros Hip. pose proof (ParseIP_chars s ip Hip) as Hb. destruct (SplitHostPort s) as [[h p]|] eqn:Es; [|done]. exfalso.
  assert (Hpre : HasPrefix s "[" = false) by (destruct (HasPrefix s "[") eqn:E; [apply prefix_spec in E as [t ->]; done | done]).
  destruct (split_parts s h p Hpre Es) as (-> & Hh & Hp). unfold ParseIP in Hip.
  destruct (ParseAddr (h ++ ":" ++ p)) as [a|] eqn:E; [|done]. clear Hip.
  assert (H4 : parseIPv4 (h ++ ":" ++ p) = None).
  { destruct (parseIPv4 _) eqn:E4; [|done]. apply parseIPv4_v4_chars in E4. rewrite !forall_byte_app in E4. cbn in E4. by rewrite andb_false_r in E4. }
  unfold ParseAddr in E. destruct (first_special (h ++ ":" ++ p)) as [c|]; [|done].
  destruct c as [[] [] [] [] [] [] [] []]; try done; [by rewrite H4 in E | by rewrite one_colon_no_v6 in E].
Qed.

(** The host of the address that replaces another one and keeps its port. *)
Lemma host_of_replaced a h ip (port := match SplitHostPort a with Some (_, p) => p | None => "" end) :
  ParseIP h = Some ip -> host_of (if String.eqb port "" then h else JoinHostPort h port) = h.
Proof.
  intros Hip. unfold host_of. destruct (String.eqb_spec port "") as [_|]; [by rewrite (ParseIP_not_split h ip Hip)|].
  subst port. destruct (SplitHostPort a) as [[h' p]|] eqn:Ea; [|done].
  rewrite (host_of_JoinHostPort h p); [done | by eapply ParseIP_chars | by eapply split_port_clean].
Qed.
