(* ===== verification/GoCrypto.v ===== *)
(** * Hashing and binary-to-text encodings

    The standard-library functions the server stores secrets with: SHA-256
    (crypto/sha256), hexadecimal (encoding/hex) and the standard base64
    alphabet (encoding/base64), on lists of bytes. *)

From S2P Require Import Prelude GoStr.

(** ** SHA-256 *)

Module Sha256.

Definition m32 (z : Z) : Z := Z.land z 4294967295.
Definition rotr (x n : Z) : Z := Z.lor (Z.shiftr x n) (m32 (Z.shiftl x (32 - n))).

(** The constants of the standard: the first 32 bits of the fractional parts of
    the cube roots and of the square roots of the first primes. *)
Definition small_primes : list Z :=
  keep (fun p => forallb (fun q => negb (p mod q =? 0)) (seqZ 2 (p - 2))) (seqZ 2 310).

Fixpoint cube_root_from (bits : nat) (x r : Z) : Z :=
  match bits with
  | O => r
  | S n => cube_root_from n x (let r' := r + 2 ^ Z.of_nat n in if r' ^ 3 <=? x then r' else r)
  end.

Definition K : list Z := Eval vm_compute in
  (fun p => m32 (cube_root_from 36 (p * 2 ^ 96) 0)) <$> small_primes.

Record state := St { sa : Z; sb : Z; sc : Z; sd : Z; se : Z; sf : Z; sg : Z; sh : Z }.

Definition H0 : state := Eval vm_compute in
  match (fun p => m32 (Z.sqrt (p * 2 ^ 64))) <$> take 8 small_primes with
  | [a; b; c; d; e; f; g; h] => St a b c d e f g h
  | _ => St 0 0 0 0 0 0 0 0
  end.

Definition round (s : state) (k w : Z) : state :=
  let s1 := Z.lxor (Z.lxor (rotr (se s) 6) (rotr (se s) 11)) (rotr (se s) 25) in
  let ch := Z.lxor (Z.land (se s) (sf s)) (Z.land (m32 (Z.lnot (se s))) (sg s)) in
  let t1 := m32 (sh s + s1 + ch + k + w) in
  let s0 := Z.lxor (Z.lxor (rotr (sa s) 2) (rotr (sa s) 13)) (rotr (sa s) 22) in
  let maj := Z.lxor (Z.lxor (Z.land (sa s) (sb s)) (Z.land (sa s) (sc s))) (Z.land (sb s) (sc s)) in
  let t2 := m32 (s0 + maj) in
  St (m32 (t1 + t2)) (sa s) (sb s) (sc s) (m32 (sd s + t1)) (se s) (sf s) (sg s).

(** The message schedule is a window of the last 16 words. *)
Definition next_word (w : list Z) : Z :=
  let g i := nth i w 0 in
  let s0 := Z.lxor (Z.lxor (rotr (g 1%nat) 7) (rotr (g 1%nat) 18)) (Z.shiftr (g 1%nat) 3) in
  let s1 := Z.lxor (Z.lxor (rotr (g 14%nat) 17) (rotr (g 14%nat) 19)) (Z.shiftr (g 14%nat) 10) in
  m32 (g 0%nat + s0 + g 9%nat + s1).

Fixpoint rounds (ks : list Z) (w : list Z) (s : state) : state :=
  match ks with
  | [] => s
  | k :: ks => rounds ks (tl w ++ [next_word w]) (round s k (hd 0 w))
  end.

Definition compress (h : state) (block : list Z) : state :=
  let s := rounds K block h in
  St (m32 (sa h + sa s)) (m32 (sb h + sb s)) (m32 (sc h + sc s)) (m32 (sd h + sd s))
     (m32 (se h + se s)) (m32 (sf h + sf s)) (m32 (sg h + sg s)) (m32 (sh h + sh s)).

Fixpoint words (l : list Z) : list Z :=
  match l with
  | a :: b :: c :: d :: r =>
      Z.lor (Z.shiftl a 24) (Z.lor (Z.shiftl b 16) (Z.lor (Z.shiftl c 8) d)) :: words r
  | _ => []
  end.

Definition word_bytes (w : Z) : list Z :=
  [Z.land (Z.shiftr w 24) 255; Z.land (Z.shiftr w 16) 255; Z.land (Z.shiftr w 8) 255; Z.land w 255].

Definition pad_message (m : list Z) : list Z :=
  let n := length m in
  let bits := 8 * Z.of_nat n in
  let zeros := Z.to_nat ((55 - Z.of_nat n) mod 64) in
  m ++ [128] ++ replicate zeros 0 ++ word_bytes (Z.shiftr bits 32) ++ word_bytes (m32 bits).

Fixpoint blocks (fuel : nat) (ws : list Z) (h : state) : state :=
  match fuel, ws with
  | O, _ | _, [] => h
  | S fuel, _ => blocks fuel (drop 16 ws) (compress h (take 16 ws))
  end.

Definition digest (h : state) : list Z :=
  word_bytes (sa h) ++ word_bytes (sb h) ++ word_bytes (sc h) ++ word_bytes (sd h)
  ++ word_bytes (se h) ++ word_bytes (sf h) ++ word_bytes (sg h) ++ word_bytes (sh h).

(** [sha256.Sum256]. *)
Definition Sum256 (m : list Z) : list Z :=
  let ws := words (pad_message m) in digest (blocks (length ws) ws H0).

End Sha256.

(** ** Hexadecimal *)

Module Hex.

Definition digit (z : Z) : Ascii.ascii := chr (if z <? 10 then 48 + z else 87 + z).

Fixpoint EncodeToString (l : list Z) : string :=
  match l with
  | [] => ""
  | b :: r => String (digit (b / 16)) (String (digit (b mod 16)) (EncodeToString r))
  end.

End Hex.

(** ** Base64, standard alphabet with padding *)

Module Base64.

Definition alphabet : string := "ABCDEFGHIJKLMNOPQRSTUVWXYZabcdefghijklmnopqrstuvwxyz0123456789+/".

Definition pad_char : Ascii.ascii := "=".

Definition enc (s : Z) : Ascii.ascii := default pad_char (String.get (Z.to_nat s) alphabet).
Definition dec (c : Ascii.ascii) : option Z := Z.of_nat <$> Strings.IndexByte alphabet c.

Fixpoint EncodeToString (l : list Z) : string :=
  match l with
  | [] => ""
  | [a] => String (enc (a / 4)) (String (enc (a mod 4 * 16)) "==")
  | [a; b] =>
      String (enc (a / 4)) (String (enc (a mod 4 * 16 + b / 16)) (String (enc (b mod 16 * 4)) "="))
  | a :: b :: c :: r =>
      String (enc (a / 4)) (String (enc (a mod 4 * 16 + b / 16))
        (String (enc (b mod 16 * 4 + c / 64)) (String (enc (c mod 64)) (EncodeToString r))))
  end.

(** Line breaks are skipped wherever they occur. *)
Fixpoint strip (s : string) : string :=
  match s with
  | "" => ""
  | String c r => if Z.eqb (byte c) 10 || Z.eqb (byte c) 13 then strip r else String c (strip r)
  end.

Fixpoint decode_quanta (s : string) : option (list Z) :=
  match s with
  | "" => Some []
  | String c0 (String c1 (String c2 (String c3 r))) =>
      s0 ← dec c0; s1 ← dec c1;
      if Ascii.eqb c2 pad_char then
        if Ascii.eqb c3 pad_char && String.eqb r "" then Some [s0 * 4 + s1 / 16] else None
      else
        s2 ← dec c2;
        if Ascii.eqb c3 pad_char then
          if String.eqb r "" then Some [s0 * 4 + s1 / 16; s1 mod 16 * 16 + s2 / 4] else None
        else
          s3 ← dec c3; l ← decode_quanta r;
          Some (s0 * 4 + s1 / 16 :: s1 mod 16 * 16 + s2 / 4 :: s2 mod 4 * 64 + s3 :: l)
  | _ => None
  end.

(** [base64.StdEncoding.DecodeString]; [None] is a [CorruptInputError]. *)
Definition DecodeString (s : string) : option (list Z) := decode_quanta (strip s).

End Base64.

(** ** Facts *)

Definition is_byte (z : Z) : Prop := 0 <= z < 256.

Lemma land255_byte z : is_byte (Z.land z 255).
Proof.
  unfold is_byte. change 255 with (Z.ones 8). rewrite Z.land_ones by lia.
  apply Z.mod_pos_bound. lia.
Qed.

Lemma Sum256_length m : length (Sha256.Sum256 m) = 32%nat.
Proof. done. Qed.

Lemma Sum256_bytes m : Forall is_byte (Sha256.Sum256 m).
Proof. unfold Sha256.Sum256, Sha256.digest. repeat constructor; apply land255_byte. Qed.

Lemma hex_length l : String.length (Hex.EncodeToString l) = (2 * length l)%nat.
Proof. induction l; cbn; lia. Qed.

Lemma hex_digit_inj a b : 0 <= a < 16 -> 0 <= b < 16 -> Hex.digit a = Hex.digit b -> a = b.
Proof.
  unfold Hex.digit. intros Ha Hb H. apply (f_equal byte) in H.
  destruct (Z.ltb_spec a 10), (Z.ltb_spec b 10); rewrite !byte_chr in H; lia.
Qed.

Lemma hex_inj l1 l2 :
  Forall is_byte l1 -> Forall is_byte l2 ->
  Hex.EncodeToString l1 = Hex.EncodeToString l2 -> l1 = l2.
Proof.
  unfold is_byte. intros H1. revert l2. induction H1 as [|a l1 Ha H1 IH]; intros l2 H2 E; destruct H2 as [|b l2 Hb H2];
    cbn in E; try done.
  injection E as E1 E2 E3.
  assert (a / 16 = b / 16) by (apply hex_digit_inj; [dlia | dlia | done]).
  assert (a mod 16 = b mod 16) by (apply hex_digit_inj; [dlia | dlia | done]).
  f_equal; [dlia | by apply IH].
Qed.

Fixpoint upto (n : nat) : list Z :=
  match n with O => [] | S n => upto n ++ [Z.of_nat n] end.

Lemma upto_elem n z : 0 <= z < Z.of_nat n -> z ∈ upto n.
Proof.
  induction n as [|n IH]; intros Hz; [lia|]. cbn. apply elem_of_app.
  destruct (Z.eq_dec z (Z.of_nat n)) as [->|]; [right; by apply list_elem_of_singleton | left; apply IH; lia].
Qed.

Definition good_code (s : Z) : bool :=
  bool_decide (Base64.dec (Base64.enc s) = Some s)
  && negb (Ascii.eqb (Base64.enc s) Base64.pad_char)
  && negb (Z.eqb (byte (Base64.enc s)) 10 || Z.eqb (byte (Base64.enc s)) 13).

Lemma good_codes s : 0 <= s < 64 -> good_code s = true.
Proof.
  intros Hs. assert (forallb good_code (upto 64) = true) as H by (vm_compute; reflexivity).
  rewrite forallb_forall in H. apply H, list_elem_of_In, upto_elem. lia.
Qed.

Lemma enc_spec s : 0 <= s < 64 ->
  Base64.dec (Base64.enc s) = Some s /\ Ascii.eqb (Base64.enc s) Base64.pad_char = false
  /\ (Z.eqb (byte (Base64.enc s)) 10 || Z.eqb (byte (Base64.enc s)) 13)%bool = false.
Proof.
  intros Hs%good_codes. unfold good_code in Hs.
  apply andb_true_iff in Hs as [[?%bool_decide_eq_true ?%negb_true_iff]%andb_true_iff ?%negb_true_iff]. auto.
Qed.

(** Induction on a list three elements at a time. *)
Lemma list_ind3 {A} (P : list A -> Prop) :
  P [] -> (forall a, P [a]) -> (forall a b, P [a; b]) ->
  (forall a b c l, P l -> P (a :: b :: c :: l)) -> forall l, P l.
Proof.
  intros H0 H1 H2 H3. fix IH 1. intros [|a [|b [|c l]]]; [exact H0 | apply H1 | apply H2 | apply H3, IH].
Qed.

#[local] Arguments Base64.enc : simpl never.
#[local] Arguments Base64.dec : simpl never.

Ltac no_break :=
  change (byte Base64.pad_char =? 10) with false; change (byte Base64.pad_char =? 13) with false;
  change (byte "=" =? 10) with false; change (byte "=" =? 13) with false; cbn [orb].

Ltac enc_step s :=
  let H1 := fresh in let H2 := fresh in let H3 := fresh in
  destruct (enc_spec s ltac:(dlia)) as (H1 & H2 & H3); rewrite ?H1, ?H2, ?H3; clear H1 H2 H3.

(** Decoding undoes encoding, for every byte string. *)
Lemma base64_roundtrip l : Forall is_byte l -> Base64.DecodeString (Base64.EncodeToString l) = Some l.
Proof.
  unfold Base64.DecodeString, is_byte. revert l.
  apply (list_ind3 (fun l => Forall _ l -> _)); [done|..].
  - intros a Ha. inversion_clear Ha as [|? ? Ha' _]. cbn [Base64.EncodeToString Base64.strip].
    enc_step (a / 4). enc_step (a mod 4 * 16). no_break. cbn.
  enc_step (a / 4). enc_step (a mod 4 * 16). cbn.
    do 2 f_equal. dlia.
  - intros a b Hab. inversion_clear Hab as [|? ? Ha' Hb]. inversion_clear Hb as [|? ? Hb' _].
    cbn [Base64.EncodeToString Base64.strip].
    enc_step (a / 4). enc_step (a mod 4 * 16 + b / 16). enc_step (b mod 16 * 4).
    no_break. cbn. enc_step (a / 4). enc_step (a mod 4 * 16 + b / 16). enc_step (b mod 16 * 4). cbn.
    f_equal. f_equal; [dlia|]. f_equal. dlia.
  - intros a b c l IH Habc. inversion_clear Habc as [|? ? Ha Hb]. inversion_clear Hb as [|? ? Hb' Hc].
    inversion_clear Hc as [|? ? Hc' Hl]. cbn [Base64.EncodeToString Base64.strip].
    enc_step (a / 4). enc_step (a mod 4 * 16 + b / 16). enc_step (b mod 16 * 4 + c / 64). enc_step (c mod 64).
    cbn [Base64.decode_quanta].
    enc_step (a / 4). enc_step (a mod 4 * 16 + b / 16). enc_step (b mod 16 * 4 + c / 64). enc_step (c mod 64).
    cbn [mbind option_bind]. rewrite (IH Hl). cbn [mbind option_bind].
    f_equal. f_equal; [dlia|]. f_equal; [dlia|]. f_equal. dlia.
Qed.
