(* ===== verification/GoToken.v ===== *)
(** * Keyed hashes and URL-safe base64

    HMAC with SHA-256 (crypto/hmac) and base64.RawURLEncoding, on lists of
    bytes. *)

From S2P Require Import Prelude GoStr GoCrypto.
From Stdlib Require Import Ascii.

(** ** HMAC *)

Definition hmac_key (key : list Z) : list Z :=
  let k := if Nat.ltb 64 (length key) then Sha256.Sum256 key else key in
  (k ++ replicate (64 - length k) 0)%list.

Definition hmac_pad (v : Z) (key : list Z) : list Z := (fun b => Z.lxor b v) <$> hmac_key key.

(** [hmac.New(sha256.New, key)] written [msg] to. *)
Definition HMAC (key msg : list Z) : list Z :=
  Sha256.Sum256 (hmac_pad 92 key ++ Sha256.Sum256 (hmac_pad 54 key ++ msg))%list.

Lemma HMAC_bytes key msg : Forall is_byte (HMAC key msg).
Proof. apply Sum256_bytes. Qed.

(** ** URL-safe base64 without padding *)

Module RawURL.

Definition alphabet : string := "ABCDEFGHIJKLMNOPQRSTUVWXYZabcdefghijklmnopqrstuvwxyz0123456789-_".

Definition enc (s : Z) : ascii := default "A"%char (String.get (Z.to_nat s) alphabet).
Definition dec (c : ascii) : option Z := Z.of_nat <$> Strings.IndexByte alphabet c.

Fixpoint EncodeToString (l : list Z) : string :=
  match l with
  | [] => ""
  | [a] => String (enc (a / 4)) (String (enc (a mod 4 * 16)) "")
  | [a; b] => String (enc (a / 4)) (String (enc (a mod 4 * 16 + b / 16)) (String (enc (b mod 16 * 4)) ""))
  | a :: b :: c :: r =>
      String (enc (a / 4)) (String (enc (a mod 4 * 16 + b / 16))
        (String (enc (b mod 16 * 4 + c / 64)) (String (enc (c mod 64)) (EncodeToString r))))
  end.

Fixpoint decode_quanta (s : string) : option (list Z) :=
  match s with
  | "" => Some []
  | String c0 (String c1 "") => s0 ← dec c0; s1 ← dec c1; Some [s0 * 4 + s1 / 16]
  | String c0 (String c1 (String c2 "")) =>
      s0 ← dec c0; s1 ← dec c1; s2 ← dec c2; Some [s0 * 4 + s1 / 16; s1 mod 16 * 16 + s2 / 4]
  | String c0 (String c1 (String c2 (String c3 r))) =>
      s0 ← dec c0; s1 ← dec c1; s2 ← dec c2; s3 ← dec c3; l ← decode_quanta r;
      Some (s0 * 4 + s1 / 16 :: s1 mod 16 * 16 + s2 / 4 :: s2 mod 4 * 64 + s3 :: l)
  | _ => None
  end.

(** Line breaks are skipped; the bits left over in the last character are not
    looked at. *)
Definition DecodeString (s : string) : option (list Z) := decode_quanta (Base64.strip s).

(** ** Decoding undoes encoding *)

Definition good_code (s : Z) : bool :=
  bool_decide (dec (enc s) = Some s) && negb (Z.eqb (byte (enc s)) 10 || Z.eqb (byte (enc s)) 13)
  && negb (Ascii.eqb (enc s) ".").

Lemma raw_enc_spec s : 0 <= s < 64 ->
  dec (enc s) = Some s /\ (Z.eqb (byte (enc s)) 10 || Z.eqb (byte (enc s)) 13)%bool = false /\ Ascii.eqb (enc s) "." = false.
Proof.
  intros Hs. assert (forallb good_code (upto 64) = true) as H by (vm_compute; reflexivity).
  rewrite forallb_forall in H. specialize (H s ltac:(apply list_elem_of_In, upto_elem; lia)). unfold good_code in H.
  apply andb_true_iff in H as [[?%bool_decide_eq_true ?%negb_true_iff]%andb_true_iff ?%negb_true_iff]. auto.
Qed.

Lemma decode_four c0 c1 c2 c3 r :
  decode_quanta (String c0 (String c1 (String c2 (String c3 r)))) =
    (s0 ← dec c0; s1 ← dec c1; s2 ← dec c2; s3 ← dec c3; l ← decode_quanta r;
     Some (s0 * 4 + s1 / 16 :: s1 mod 16 * 16 + s2 / 4 :: s2 mod 4 * 64 + s3 :: l)).
Proof. reflexivity. Qed.

#[local] Arguments enc : simpl never.
#[local] Arguments dec : simpl never.

Ltac step s :=
  let H1 := fresh in let H2 := fresh in let H3 := fresh in
  destruct (raw_enc_spec s ltac:(dlia)) as (H1 & H2 & H3); rewrite ?H1, ?H2, ?H3; clear H1 H2 H3.

Ltac three := let H := fresh in intros H; repeat (apply Forall_cons in H as [? H]); unfold is_byte in *.

Lemma strip_encode l : Forall is_byte l -> Base64.strip (EncodeToString l) = EncodeToString l.
Proof.
  revert l. apply (list_ind3 (fun l => Forall is_byte l -> _)); [done|..].
  - intros a. three. cbn [EncodeToString Base64.strip]. by step (a / 4); step (a mod 4 * 16).
  - intros a b. three. cbn [EncodeToString Base64.strip].
    by step (a / 4); step (a mod 4 * 16 + b / 16); step (b mod 16 * 4).
  - intros a b c l IH Habc. pose proof Habc as Hl. do 3 (apply Forall_cons in Hl as [_ Hl]).
    apply Forall_cons in Habc as [Ha [Hb [Hc _]%Forall_cons]%Forall_cons]. unfold is_byte in *.
    cbn [EncodeToString Base64.strip].
    step (a / 4). step (a mod 4 * 16 + b / 16). step (b mod 16 * 4 + c / 64). step (c mod 64). by rewrite IH.
Qed.

Lemma roundtrip l : Forall is_byte l -> DecodeString (EncodeToString l) = Some l.
Proof.
  intros Hl. unfold DecodeString. rewrite strip_encode by done. revert l Hl.
  apply (list_ind3 (fun l => Forall is_byte l -> _)); [done|..].
  - intros a. three. cbn [EncodeToString decode_quanta]. step (a / 4). step (a mod 4 * 16). cbn. do 2 f_equal. dlia.
  - intros a b. three. cbn [EncodeToString decode_quanta].
    step (a / 4). step (a mod 4 * 16 + b / 16). step (b mod 16 * 4). cbn. f_equal. f_equal; [dlia|]. f_equal. dlia.
  - intros a b c l IH Habc. pose proof Habc as Hl. do 3 (apply Forall_cons in Hl as [_ Hl]).
    apply Forall_cons in Habc as [Ha [Hb [Hc _]%Forall_cons]%Forall_cons]. unfold is_byte in *.
    cbn [EncodeToString]. rewrite decode_four.
    step (a / 4). step (a mod 4 * 16 + b / 16). step (b mod 16 * 4 + c / 64). step (c mod 64).
    cbn [mbind option_bind]. rewrite (IH Hl). cbn [mbind option_bind]. f_equal. f_equal; [dlia|]. f_equal; [dlia|]. f_equal. dlia.
Qed.

Lemma no_dot l : Forall is_byte l -> Strings.IndexByte (EncodeToString l) "." = None.
Proof.
  revert l. apply (list_ind3 (fun l => Forall is_byte l -> _)); [done|..].
  - intros a. three. cbn [EncodeToString Strings.IndexByte]. by step (a / 4); step (a mod 4 * 16).
  - intros a b. three. cbn [EncodeToString Strings.IndexByte].
    by step (a / 4); step (a mod 4 * 16 + b / 16); step (b mod 16 * 4).
  - intros a b c l IH Habc. pose proof Habc as Hl. do 3 (apply Forall_cons in Hl as [_ Hl]).
    apply Forall_cons in Habc as [Ha [Hb [Hc _]%Forall_cons]%Forall_cons]. unfold is_byte in *.
    cbn [EncodeToString Strings.IndexByte].
    step (a / 4). step (a mod 4 * 16 + b / 16). step (b mod 16 * 4 + c / 64). step (c mod 64). by rewrite IH.
Qed.

End RawURL.
