(* ===== verification/GoUrl.v ===== *)
(** * Paths and URLs (packages path and net/url)

    [path.Clean], the escaped form of a path, and the location that
    [http.Redirect] answers with. *)

From S2P Require Import Prelude GoStr.
From Stdlib Require Import Ascii.

(** ** path.Clean *)

(** The string up to the first [c]. *)
Definition before (c : ascii) (s : string) : string :=
  match Strings.IndexByte s c with Some i => Strings.take i s | None => s end.

(** One component: the components kept so far are in reverse. *)
Definition clean_step (rooted : bool) (stack : list string) (c : string) : list string :=
  if String.eqb c "" || String.eqb c "." then stack
  else if String.eqb c ".." then
    match stack with
    | top :: rest => if String.eqb top ".." then ".." :: stack else rest
    | [] => if rooted then [] else [".."]
    end
  else c :: stack.

Definition Clean (p : string) : string :=
  if String.eqb p "" then "."
  else
    let rooted := Strings.HasPrefix p "/" in
    let comps := rev (foldl (clean_step rooted) [] (Strings.Split p "/")) in
    if rooted then "/" ++ Strings.Join comps "/"
    else match comps with [] => "." | _ => Strings.Join comps "/" end.

(** ** Escaping *)

Definition is_alnum (b : Z) : bool := Utf8.in_rng 48 57 b || Utf8.in_rng 65 90 b || Utf8.in_rng 97 122 b.

(** What [url.PathEscape] of a whole path leaves as it is. *)
Definition path_safe (c : ascii) : bool := is_alnum (byte c) || Strings.in_set "-_.~$&+,/:;=@" c.

Definition hex_upper (v : Z) : ascii := chr (if v <? 10 then 48 + v else 55 + v).

Fixpoint escape_path (s : string) : string :=
  match s with
  | "" => ""
  | String c r =>
      if path_safe c then String c (escape_path r)
      else String "%" (String (hex_upper (byte c / 16)) (String (hex_upper (byte c mod 16)) (escape_path r)))
  end.

Definition unhex (c : ascii) : option Z :=
  let b := byte c in
  if Utf8.in_rng 48 57 b then Some (b - 48) else if Utf8.in_rng 97 102 b then Some (b - 87)
  else if Utf8.in_rng 65 70 b then Some (b - 55) else None.

(** [url.PathUnescape]. *)
Fixpoint unescape_path (s : string) : option string :=
  match s with
  | "" => Some ""
  | String "%" (String a (String b r)) =>
      x ← unhex a; y ← unhex b; rest ← unescape_path r; Some (String (chr (x * 16 + y)) rest)
  | String "%" _ => None
  | String c r => String c <$> unescape_path r
  end.

(** Bytes that may stand in an encoded path. *)
Definition encoded_ok (c : ascii) : bool := Strings.in_set "!$&'()*+,;=:@[]%" c || path_safe c.

(** [u.EscapedPath()]: the raw path if it is an encoding of the path. *)
Definition EscapedPath (path raw : string) : string :=
  if negb (String.eqb raw "") && Strings.forall_byte encoded_ok raw
     && match unescape_path raw with Some p => String.eqb p path | None => false end
  then raw
  else if String.eqb path "*" then "*" else escape_path path.

(** [u.String()] of a URL that has neither a scheme nor a host. *)
Definition RequestURI (path raw query : string) : string :=
  let p := EscapedPath path raw in
  (if Strings.ContainsAny (before "/" p) ":" then "./" else "") ++ p ++ (if String.eqb query "" then "" else "?" ++ query).

(** ** Redirects *)

(** Whether a reference that begins with a slash names a host of its own. *)
Definition names_host (url : string) : bool :=
  let url := before "?" url in
  Strings.HasPrefix url "//" && negb (Strings.HasPrefix url "///")
  && negb (Strings.HasSuffix (before "/" (Strings.drop 2 url)) "@").

(** The location [http.Redirect] sends for a reference without a scheme: the
    path is made absolute and cleaned, but only when the reference names no
    host. *)
Definition redirect_location (oldpath url : string) : string :=
  if names_host url then url
  else
    let olddir := match Strings.LastIndexByte oldpath "/" with Some i => Strings.take (i + 1) oldpath | None => "" end in
    let olddir := if String.eqb oldpath "" then "/" else olddir in
    let url := if Strings.HasPrefix url "/" then url else olddir ++ url in
    let '(p, q) := match Strings.IndexByte url "?" with
                   | Some i => (Strings.take i url, Strings.drop i url)
                   | None => (url, "")
                   end in
    let cleaned := Clean p in
    (if Strings.HasSuffix p "/" && negb (Strings.HasSuffix cleaned "/") then cleaned ++ "/" else cleaned) ++ q.

Example clean_1 : Clean <$> ["/a//b/./c/"; "/../a/.."; "a/../../b"; ""; "//evil.example"]
                  = ["/a/b/c"; "/"; "../b"; "."; "/evil.example"].
Proof. reflexivity. Qed.
Example escape_1 : RequestURI "/a b/%" "" "x=1" = "/a%20b/%25?x=1".
Proof. reflexivity. Qed.
