(* ===== verification/GoQuote.v ===== *)
(** * Quoted strings (strconv.Quote, the verb [%q])

    Every rune that is not printable is escaped, so that a quoted string has no
    control character. *)

From S2P Require Import Prelude GoStr GoCrypto.
From Stdlib Require Import Ascii.

(** unicode.IsPrint is a parameter. *)
Class Printable := { is_print : Z -> bool }.

Definition hex_digits (n : nat) (z : Z) : string :=
  String.string_of_list_ascii
    ((fun i => Hex.digit (Z.land (Z.shiftr z (4 * Z.of_nat (n - 1 - i))) 15)) <$> seq 0 n).

Definition backslash : string := String "092" "".

Definition quote_rune `{Printable} (r : Z) (raw : list Z) : string :=
  if (r =? Utf8.RuneError) && (Z.of_nat (length raw) =? 1) then backslash ++ "x" ++ hex_digits 2 (hd 0 raw)
  else if (r =? 34) || (r =? 92) then backslash ++ of_bytes [r]
  else if is_print r then of_bytes raw
  else if r =? 7 then backslash ++ "a" else if r =? 8 then backslash ++ "b" else if r =? 12 then backslash ++ "f"
  else if r =? 10 then backslash ++ "n" else if r =? 13 then backslash ++ "r" else if r =? 9 then backslash ++ "t"
  else if r =? 11 then backslash ++ "v"
  else if (r <? 32) || (r =? 127) then backslash ++ "x" ++ hex_digits 2 r
  else if r <? 65536 then backslash ++ "u" ++ hex_digits 4 r
  else backslash ++ "U" ++ hex_digits 8 r.

Definition Quote `{Printable} (s : string) : string :=
  let q := of_bytes [34] in
  q ++ Strings.Join ((fun p => quote_rune (fst p) (snd p)) <$> Utf8.runes s) "" ++ q.

(** ** JSON strings (encoding/json, with the escaping of HTML) *)

Definition json_rune (r : Z) (raw : list Z) : string :=
  if (r =? 34) || (r =? 92) then backslash ++ of_bytes [r]
  else if r =? 8 then backslash ++ "b" else if r =? 12 then backslash ++ "f"
  else if r =? 10 then backslash ++ "n" else if r =? 13 then backslash ++ "r" else if r =? 9 then backslash ++ "t"
  else if (r <? 32) || (r =? 60) || (r =? 62) || (r =? 38) then backslash ++ "u" ++ hex_digits 4 r
  else if (r =? Utf8.RuneError) && (Z.of_nat (length raw) =? 1) then backslash ++ "ufffd"
  else if (r =? 8232) || (r =? 8233) then backslash ++ "u" ++ hex_digits 4 r
  else of_bytes raw.

Definition JsonQuote (s : string) : string :=
  let q := of_bytes [34] in
  q ++ Strings.Join ((fun p => json_rune (fst p) (snd p)) <$> Utf8.runes s) "" ++ q.
