(* ===== verification/Utf8Proofs.v ===== *)
(** * UTF-8: encoding and decoding are inverse

    Decoding the encoding of a Unicode scalar value gives it back, decoding
    always yields scalar values, and a string of encoded runes is read back rune
    by rune. *)

From S2P Require Import Prelude GoStr.
From Stdlib Require Import Ascii.

(** A Unicode code point that is not a surrogate. *)
Definition scalar (r : Z) : Prop := 0 <= r < 55296 \/ 57343 < r <= 1114111.

(** ** Bit operations as arithmetic *)

Lemma lor_shiftl a b k : 0 <= b < 2 ^ k -> 0 <= k -> Z.lor (Z.shiftl a k) b = a * 2 ^ k + b.
Proof.
  intros Hb Hk. rewrite <- Z.shiftl_mul_pow2 by done.
  pose proof (Z.add_lor_land (Z.shiftl a k) b) as H.
  assert (Z.land (Z.shiftl a k) b = 0) as E; [|lia].
  apply Z.bits_inj'. intros n Hn. rewrite Z.land_spec, Z.bits_0.
  destruct (Z.ltb_spec n k); [by rewrite Z.shiftl_spec_low by lia|].
  rewrite <- (Z.mod_small b (2 ^ k)), Z.mod_pow2_bits_high by lia. apply andb_false_r.
Qed.

Lemma lead2 x : 0 <= x < 32 -> Z.lor 192 x = 192 + x.
Proof. intros. exact (lor_shiftl 6 x 5 ltac:(lia) ltac:(lia)). Qed.
Lemma lead3 x : 0 <= x < 16 -> Z.lor 224 x = 224 + x.
Proof. intros. exact (lor_shiftl 14 x 4 ltac:(lia) ltac:(lia)). Qed.
Lemma lead4 x : 0 <= x < 8 -> Z.lor 240 x = 240 + x.
Proof. intros. exact (lor_shiftl 30 x 3 ltac:(lia) ltac:(lia)). Qed.
Lemma trail x : 0 <= x < 64 -> Z.lor 128 x = 128 + x.
Proof. intros. exact (lor_shiftl 2 x 6 ltac:(lia) ltac:(lia)). Qed.
Lemma low6 x : Z.land x 63 = x mod 64.
Proof. exact (Z.land_ones x 6 ltac:(lia)). Qed.
Lemma shr x k : 0 <= k -> Z.shiftr x k = x / 2 ^ k.
Proof. apply Z.shiftr_div_pow2. Qed.

(** The encoder, in arithmetic. *)
Lemma EncodeRune_arith r :
  scalar r ->
  Utf8.EncodeRune r =
    if r <? 128 then [r]
    else if r <? 2048 then [192 + r / 64; 128 + r mod 64]
    else if r <? 65536 then [224 + r / 4096; 128 + r / 64 mod 64; 128 + r mod 64]
    else [240 + r / 262144; 128 + r / 4096 mod 64; 128 + r / 64 mod 64; 128 + r mod 64].
Proof.
  intros Hr. unfold Utf8.EncodeRune, Utf8.in_rng, scalar in *. rewrite !shr, !low6 by lia.
  change (2 ^ 6) with 64. change (2 ^ 12) with 4096. change (2 ^ 18) with 262144.
  pose proof (Z.mod_pos_bound r 64). pose proof (Z.mod_pos_bound (r / 64) 64). pose proof (Z.mod_pos_bound (r / 4096) 64).
  destruct (Z.ltb_spec r 128); [by rewrite (proj2 (andb_true_iff _ _)) by lia|].
  rewrite (proj2 (andb_false_iff _ _)) by lia.
  destruct (Z.ltb_spec r 2048).
  { rewrite (proj2 (andb_true_iff _ _)) by lia. rewrite lead2, trail by dlia. done. }
  rewrite (proj2 (andb_false_iff _ _)) by lia.
  replace ((r <? 0) || (1114111 <? r) || ((55296 <=? r) && (r <=? 57343))) with false by lia.
  destruct (Z.ltb_spec r 65536), (Z.leb_spec r 65535); try lia;
    [rewrite lead3, !trail by dlia | rewrite lead4, !trail by dlia]; done.
Qed.

Lemma EncodeRune_bytes r : scalar r -> Forall (fun b => 0 <= b < 256) (Utf8.EncodeRune r).
Proof.
  intros Hr. rewrite EncodeRune_arith by done. unfold scalar in Hr.
  repeat case_match; b2p; repeat constructor; dlia.
Qed.

(** ** The round trip of one rune *)

Lemma Decode_Encode r l :
  scalar r -> Utf8.DecodeRune (Utf8.EncodeRune r ++ l) = (r, length (Utf8.EncodeRune r)).
Proof.
  intros Hr. rewrite EncodeRune_arith by done. unfold scalar in Hr. unfold Utf8.DecodeRune, Utf8.cont, Utf8.in_rng.
  destruct (Z.ltb_spec r 128); [cbn [app length]; by destruct (Z.ltb_spec r 128); [|lia]|].
  destruct (Z.ltb_spec r 2048); [|destruct (Z.ltb_spec r 65536)]; cbn [app length].
  - set (a := r / 64). set (b := r mod 64).
    assert (r = a * 64 + b /\ 2 <= a < 32 /\ 0 <= b < 64) as (E & Ha & Hb) by (unfold a, b; dlia).
    replace (192 + a <? 128) with false by lia. replace ((194 <=? 192 + a) && (192 + a <=? 223)) with true by lia.
    replace ((128 <=? 128 + b) && (128 + b <=? 191)) with true by lia.
    rewrite lor_shiftl by lia. f_equal. lia.
  - set (a := r / 4096). set (b := r / 64 mod 64). set (c := r mod 64).
    assert (r = (a * 64 + b) * 64 + c /\ 0 <= a < 16 /\ 0 <= b < 64 /\ 0 <= c < 64) as (E & Ha & Hb & Hc)
      by (unfold a, b, c; dlia).
    replace (224 + a <? 128) with false by lia. replace ((194 <=? 224 + a) && (224 + a <=? 223)) with false by lia.
    replace ((224 <=? 224 + a) && (224 + a <=? 239)) with true by lia.
    replace (((if 224 + a =? 224 then 160 else 128) <=? 128 + b) && (128 + b <=? (if 224 + a =? 237 then 159 else 191))
             && ((128 <=? 128 + c) && (128 + c <=? 191))) with true
      by (destruct (Z.eqb_spec (224 + a) 224), (Z.eqb_spec (224 + a) 237); lia).
    rewrite !lor_shiftl by (rewrite ?lor_shiftl; lia). f_equal. lia.
  - set (a := r / 262144). set (b := r / 4096 mod 64). set (c := r / 64 mod 64). set (d := r mod 64).
    assert (r = ((a * 64 + b) * 64 + c) * 64 + d /\ 0 <= a < 5 /\ 0 <= b < 64 /\ 0 <= c < 64 /\ 0 <= d < 64)
      as (E & Ha & Hb & Hc & Hd) by (unfold a, b, c, d; dlia).
    replace (240 + a <? 128) with false by lia. replace ((194 <=? 240 + a) && (240 + a <=? 223)) with false by lia.
    replace ((224 <=? 240 + a) && (240 + a <=? 239)) with false by lia.
    replace ((240 <=? 240 + a) && (240 + a <=? 244)) with true by lia.
    replace (((if 240 + a =? 240 then 144 else 128) <=? 128 + b) && (128 + b <=? (if 240 + a =? 244 then 143 else 191))
             && ((128 <=? 128 + c) && (128 + c <=? 191)) && ((128 <=? 128 + d) && (128 + d <=? 191))) with true
      by (destruct (Z.eqb_spec (240 + a) 240), (Z.eqb_spec (240 + a) 244); lia).
    rewrite !lor_shiftl by (rewrite ?lor_shiftl; rewrite ?lor_shiftl; lia). f_equal. lia.
Qed.

Lemma EncodeRune_length r : scalar r -> (1 <= length (Utf8.EncodeRune r) <= 4)%nat.
Proof. intros Hr. rewrite EncodeRune_arith by done. repeat case_match; cbn; lia. Qed.

(** ** Decoding yields scalar values *)

Lemma DecodeRune_scalar l : Forall (fun b => 0 <= b < 256) l -> scalar (fst (Utf8.DecodeRune l)).
Proof.
  intros Hl. assert (He : scalar Utf8.RuneError) by (unfold scalar, Utf8.RuneError; lia).
  unfold Utf8.DecodeRune, Utf8.cont, Utf8.in_rng.
  destruct l as [|b0 l]; [done|]. inversion_clear Hl as [|? ? H0 Hl'].
  destruct (Z.ltb_spec b0 128); [unfold scalar; cbn; lia|].
  repeat (case_match; try done; b2p); cbn [fst].
  all: rewrite !lor_shiftl by (rewrite ?lor_shiftl; rewrite ?lor_shiftl; lia); unfold scalar; lia.
Qed.

Lemma runes_fuel_scalar fuel l :
  Forall (fun b => 0 <= b < 256) l -> Forall (fun p => scalar (fst p)) (Utf8.runes_fuel fuel l).
Proof.
  revert l. induction fuel as [|fuel IH]; intros l Hl; [constructor|].
  destruct l as [|b l]; [constructor|]. cbn [Utf8.runes_fuel].
  pose proof (DecodeRune_scalar _ Hl) as Hs. destruct (Utf8.DecodeRune (b :: l)) as [r w]. constructor; [done|].
  apply IH, Forall_drop, Hl.
Qed.

Lemma bytes_Forall s : Forall (fun b => 0 <= b < 256) (bytes s).
Proof. apply bytes_range. Qed.

Lemma runes_scalar s : Forall scalar (fst <$> Utf8.runes s).
Proof. apply Forall_fmap. apply runes_fuel_scalar, bytes_Forall. Qed.

(** ** Strings *)

Lemma runes_fuel_encode fuel l :
  Forall scalar l -> (length (l ≫= Utf8.EncodeRune) <= fuel)%nat ->
  Utf8.runes_fuel fuel (l ≫= Utf8.EncodeRune) = (fun r => (r, Utf8.EncodeRune r)) <$> l.
Proof.
  intros Hl. revert fuel. induction Hl as [|r l Hr Hl IH]; intros fuel Hf; [by destruct fuel|].
  pose proof (EncodeRune_length r Hr) as Hlen. cbn [mbind list_bind] in Hf |- *. rewrite length_app in Hf.
  destruct fuel as [|fuel]; [lia|]. cbn [Utf8.runes_fuel].
  pose proof (Decode_Encode r (l ≫= Utf8.EncodeRune) Hr) as Hd.
  destruct (Utf8.EncodeRune r ++ (l ≫= Utf8.EncodeRune))%list as [|b x] eqn:Eb.
  { apply (f_equal length) in Eb. rewrite length_app in Eb. cbn in Eb. lia. }
  rewrite Hd, <- Eb, Nat.max_l by lia. rewrite take_app_length, drop_app_length. cbn [fmap list_fmap].
  f_equal. apply IH. change (list_bind Z Z Utf8.EncodeRune l) with (l ≫= Utf8.EncodeRune) in *. lia.
Qed.

(** The runes of a string of encoded runes. *)
Lemma runes_of_runes l :
  Forall scalar l -> Utf8.runes (Utf8.of_runes l) = (fun r => (r, Utf8.EncodeRune r)) <$> l.
Proof.
  intros Hl. unfold Utf8.runes, Utf8.of_runes. rewrite bytes_of_bytes.
  - apply runes_fuel_encode; [done | lia].
  - induction Hl as [|r l Hr Hl IH]; [constructor|]. apply Forall_app. split; [by apply EncodeRune_bytes | exact IH].
Qed.

Lemma runes_of_runes_fst l : Forall scalar l -> fst <$> Utf8.runes (Utf8.of_runes l) = l.
Proof. intros Hl. rewrite runes_of_runes, <- list_fmap_compose by done. by rewrite list_fmap_id. Qed.

Lemma ToValid_idem s : Utf8.ToValid (Utf8.ToValid s) = Utf8.ToValid s.
Proof. unfold Utf8.ToValid. by rewrite runes_of_runes_fst by apply runes_scalar. Qed.

(** ** Properties of every byte *)

Section every_byte.
Context (g : ascii -> bool).

Lemma forall_byte_of_bytes l : Forall (fun b => g (chr b) = true) l -> Strings.forall_byte g (of_bytes l) = true.
Proof. induction 1 as [|b l Hb _ IH]; [done|]. cbn. by rewrite Hb. Qed.

Lemma forall_byte_bytes s : Strings.forall_byte g s = true -> Forall (fun b => g (chr b) = true) (bytes s).
Proof.
  induction s as [|c s IH]; [constructor|]. cbn [Strings.forall_byte]. intros [Hc Hs]%andb_true_iff. constructor; [|by apply IH].
  by rewrite chr_byte.
Qed.

(** Bytes of runes outside ASCII are not ASCII. *)
Lemma EncodeRune_every r : scalar r -> (r < 128 -> g (chr r) = true) -> (forall b, 128 <= b < 256 -> g (chr b) = true) ->
  Forall (fun b => g (chr b) = true) (Utf8.EncodeRune r).
Proof.
  intros Hr Hlow Hhigh. pose proof (EncodeRune_bytes r Hr) as Hb. rewrite EncodeRune_arith in * by done.
  repeat case_match; repeat match goal with H : Forall _ (_ :: _) |- _ => inversion_clear H end; repeat constructor; auto with lia.
  all: apply Hhigh; dlia.
Qed.

Lemma Map_every f s :
  (forall r r', scalar r -> f r = Some r' -> scalar r' /\ (r' < 128 -> g (chr r') = true)) -> (forall b, 128 <= b < 256 -> g (chr b) = true) ->
  Strings.forall_byte g (StringsU.Map f s) = true.
Proof.
  intros Hf Hhigh. apply forall_byte_of_bytes. assert (Hs : Forall (fun p => scalar (fst p)) (Utf8.runes s)) by (apply runes_fuel_scalar, bytes_Forall).
  induction (Utf8.runes s) as [|[r b] l IH]; [constructor|]. inversion_clear Hs as [|? ? Hr Hs']. cbn [omap list_omap fst] in *.
  destruct (f r) as [r'|] eqn:E; [|by apply IH]. cbn [mbind list_bind]. destruct (Hf r r' Hr E). apply Forall_app.
  split; [by apply EncodeRune_every|by apply IH].
Qed.

Lemma runes_fuel_every fuel l : Forall (fun b => g (chr b) = true) l -> Forall (fun p => Forall (fun b => g (chr b) = true) p.2) (Utf8.runes_fuel fuel l).
Proof.
  revert l. induction fuel as [|fuel IH]; intros l Hl; [constructor|]. destruct l as [|b l]; [constructor|]. cbn [Utf8.runes_fuel].
  destruct (Utf8.DecodeRune (b :: l)) as [r w]. constructor; [by apply Forall_take|]. by apply IH, Forall_drop.
Qed.

Lemma drop_space_sub l : exists l', l = (l' ++ StringsU.drop_space l)%list.
Proof.
  induction l as [|[r b] l IH]; [by exists []|]. cbn [StringsU.drop_space]. destruct (Unicode_.IsSpace r); [|by exists []].
  destruct IH as [l' IH]. exists ((r, b) :: l'). cbn. by f_equal.
Qed.
Lemma drop_space_Forall (P : Z * list Z -> Prop) l : Forall P l -> Forall P (StringsU.drop_space l).
Proof. intros Hl. destruct (drop_space_sub l) as [l' E]. rewrite E in Hl. by apply Forall_app in Hl as [_ Hl]. Qed.

Lemma TrimSpace_every s : Strings.forall_byte g s = true -> Strings.forall_byte g (StringsU.TrimSpace s) = true.
Proof.
  intros Hs%forall_byte_bytes. apply forall_byte_of_bytes. pose proof (runes_fuel_every (length (bytes s)) _ Hs) as Hr.
  change (Utf8.runes_fuel (length (bytes s)) (bytes s)) with (Utf8.runes s) in Hr.
  assert (Hl : Forall (fun p => Forall (fun b => g (chr b) = true) p.2) (rev (StringsU.drop_space (rev (StringsU.drop_space (Utf8.runes s)))))).
  { apply Forall_rev, drop_space_Forall, Forall_rev, drop_space_Forall, Hr. }
  revert Hl. generalize (rev (StringsU.drop_space (rev (StringsU.drop_space (Utf8.runes s))))). intros l.
  induction 1 as [|p l Hp _ IH]; [constructor|]. cbn [mbind list_bind]. apply Forall_app. by split.
Qed.
End every_byte.
