(* ===== verification/GoTextProofs.v ===== *)
(** * Facts about white space and case

    What [TrimSpace] and [ToLower] do to ASCII strings, and the characters of
    decimal numbers. *)

From S2P Require Import Prelude GoStr GoStrProofs GoCrypto.
From Stdlib Require Import Ascii DecimalString DecimalFacts.

Import Strings.

(** ** Trimming *)

Definition blank (c : ascii) : bool := Unicode_.IsSpace (byte c).

Definition rune_of (b : Z) : Z * list Z := (b, [b]).

Fixpoint drop_blank (l : list Z) : list Z :=
  match l with [] => [] | b :: r => if Unicode_.IsSpace b then drop_blank r else l end.

Lemma drop_space_bytes l : StringsU.drop_space (rune_of <$> l) = rune_of <$> drop_blank l.
Proof. induction l as [|b l IH]; [done|]. cbn. by destruct (Unicode_.IsSpace b). Qed.

Lemma drop_blank_app a l : Forall (fun b => Unicode_.IsSpace b = true) a -> drop_blank (a ++ l) = drop_blank l.
Proof. induction 1 as [|b a Hb _ IH]; [done|]. cbn. by rewrite Hb. Qed.

Lemma drop_blank_solid b l : Unicode_.IsSpace b = false -> drop_blank (b :: l) = b :: l.
Proof. cbn. by intros ->. Qed.

Lemma flat_bytes l : StringsU.flat (rune_of <$> l) = of_bytes l.
Proof. unfold StringsU.flat. f_equal. induction l as [|b l IH]; [done|]. cbn. by f_equal. Qed.

Lemma rev_runes l : rev (rune_of <$> l) = rune_of <$> rev l.
Proof. induction l as [|b l IH]; [done|]. cbn. by rewrite IH, fmap_app. Qed.

Lemma TrimSpace_bytes s : StringsU.is_ascii s = true ->
  StringsU.TrimSpace s = of_bytes (rev (drop_blank (rev (drop_blank (bytes s))))).
Proof.
  intros Hs. unfold StringsU.TrimSpace. rewrite (runes_ascii s Hs). change (fun b => (b, [b])) with rune_of.
  rewrite drop_space_bytes, rev_runes, drop_space_bytes, rev_runes. apply flat_bytes.
Qed.

Lemma blank_bytes a : forall_byte blank a = true -> Forall (fun b => Unicode_.IsSpace b = true) (bytes a).
Proof. induction a as [|c a IH]; [by constructor|]. cbn. intros [Hc Ha]%andb_true_iff. constructor; auto. Qed.

(** Blanks around a text are trimmed. *)
Lemma TrimSpace_around a m b :
  StringsU.is_ascii (a ++ m ++ b) = true -> forall_byte blank a = true -> forall_byte blank b = true ->
  (exists c r, m = String c r /\ blank c = false) -> (exists r c, m = r ++ String c "" /\ blank c = false) ->
  StringsU.TrimSpace (a ++ m ++ b) = m.
Proof.
  intros Has Ha Hb (c & r & Hm & Hc) (r' & c' & Hm' & Hc'). rewrite TrimSpace_bytes by done. rewrite !bytes_app.
  rewrite drop_blank_app by by apply blank_bytes.
  assert (Em : drop_blank (bytes m ++ bytes b) = (bytes m ++ bytes b)%list) by (rewrite Hm; exact (drop_blank_solid _ _ Hc)).
  rewrite Em, rev_app_distr. rewrite drop_blank_app.
  - rewrite Hm', bytes_app, rev_app_distr. change (rev (bytes (String c' ""))) with [byte c']. cbn [app].
    rewrite drop_blank_solid by done. cbn [rev]. rewrite rev_involutive. change [byte c'] with (bytes (String c' "")).
    rewrite <- bytes_app. apply of_bytes_bytes.
  - rewrite Forall_forall. intros x Hx. apply list_elem_of_In, in_rev, list_elem_of_In in Hx.
    revert x Hx. apply Forall_forall. by apply blank_bytes.
Qed.

(** ** Decimal numbers *)

Definition digit_char (c : ascii) : bool := Utf8.in_rng 48 57 (byte c).

Lemma string_of_uint_digits d : forall_byte digit_char (NilEmpty.string_of_uint d) = true.
Proof. induction d; cbn; auto. Qed.

Lemma Itoa_pos_digits p : forall_byte digit_char (Strconv.Itoa (Z.pos p)) = true /\ Strconv.Itoa (Z.pos p) <> "".
Proof.
  unfold Strconv.Itoa. cbn [Z.to_int NilZero.string_of_int]. unfold NilZero.string_of_uint.
  destruct (Pos.to_uint p) eqn:E; try (split; [apply (string_of_uint_digits (_ _)) | done]). by apply DecimalPos.Unsigned.to_uint_nonnil in E.
Qed.

Lemma digit_not_blank c : digit_char c = true -> blank c = false.
Proof.
  unfold digit_char, blank, Unicode_.IsSpace, Utf8.in_rng. intros [H1 H2]%andb_true_iff. apply Z.leb_le in H1, H2.
  repeat match goal with |- context [?a =? ?b] => destruct (Z.eqb_spec a b); [lia|] end.
  destruct (Z.leb_spec 9 (byte c)), (Z.leb_spec (byte c) 13); cbn; try lia; destruct (Z.leb_spec 8192 (byte c)); cbn; try lia; done.
Qed.

Lemma digit_ascii c : digit_char c = true -> (byte c <? 128) = true.
Proof. unfold digit_char, Utf8.in_rng. intros [_ H2]%andb_true_iff. apply Z.leb_le in H2. apply Z.ltb_lt. lia. Qed.

Lemma lower_digits s : forall_byte digit_char s = true -> map_byte StringsU.lower_ascii s = s.
Proof.
  induction s as [|c s IH]; [done|]. cbn. intros [Hc Hs]%andb_true_iff. rewrite (IH Hs). f_equal.
  unfold StringsU.lower_ascii. unfold digit_char, Utf8.in_rng in *. apply andb_true_iff in Hc as [_ Hc]. apply Z.leb_le in Hc.
  destruct (Z.leb_spec 65 (byte c)); [lia|done].
Qed.

Lemma map_byte_app f a b : map_byte f (a ++ b) = map_byte f a ++ map_byte f b.
Proof. induction a as [|c a IH]; cbn; [done | by rewrite IH]. Qed.

(** A number is solid: it starts and ends with a digit. *)
Lemma digits_solid s : forall_byte digit_char s = true -> s <> "" ->
  StringsU.is_ascii s = true /\ (exists c r, s = String c r /\ blank c = false) /\ (exists r c, s = r ++ String c "" /\ blank c = false).
Proof.
  intros Hs Hne. split; [|split].
  - revert Hs. unfold StringsU.is_ascii. apply forall_byte_impl. apply digit_ascii.
  - destruct s as [|c s]; [done|]. cbn in Hs. apply andb_true_iff in Hs as [Hc _]. exists c, s. auto using digit_not_blank.
  - destruct (string_snoc s Hne) as (r & c & ->). rewrite forall_byte_app in Hs. apply andb_true_iff in Hs as [_ Hc]. cbn in Hc.
    rewrite andb_true_r in Hc. exists r, c. auto using digit_not_blank.
Qed.

Lemma TrimSpace_digits s b : forall_byte digit_char s = true -> s <> "" -> forall_byte blank b = true -> StringsU.is_ascii b = true ->
  StringsU.TrimSpace (s ++ b) = s.
Proof.
  intros Hs Hne Hb Hb'. destruct (digits_solid s Hs Hne) as (Ha & H1 & H2). apply (TrimSpace_around "" s b); [|done..].
  cbn. unfold StringsU.is_ascii in *. by rewrite forall_byte_app, Ha, Hb'.
Qed.

(** ** Hexadecimal text *)

Lemma digit_solid z : 0 <= z < 16 -> blank (Hex.digit z) = false /\ (byte (Hex.digit z) <? 128) = true.
Proof.
  intros Hz. apply (upto_elem 16) in Hz. revert z Hz. apply Forall_forall. repeat constructor.
Qed.

Lemma hex_ascii b : Forall is_byte b -> StringsU.is_ascii (Hex.EncodeToString b) = true.
Proof.
  unfold is_byte, StringsU.is_ascii. induction 1 as [|x b Hx Hb IH]; [done|]. cbn [Hex.EncodeToString Strings.forall_byte].
  by rewrite (proj2 (digit_solid (x / 16) ltac:(dlia))), (proj2 (digit_solid (x mod 16) ltac:(dlia))), IH.
Qed.

Lemma hex_last b : Forall is_byte b -> b <> [] -> exists r c, Hex.EncodeToString b = r ++ String c "" /\ blank c = false.
Proof.
  unfold is_byte. induction 1 as [|x b Hx Hb IH]; [done|]. intros _. destruct b as [|y b].
  - exists (String (Hex.digit (x / 16)) ""), (Hex.digit (x mod 16)). split; [done|]. apply digit_solid. dlia.
  - destruct IH as (r & c & E & Hc); [done|]. exists (String (Hex.digit (x / 16)) (String (Hex.digit (x mod 16)) r)), c.
    split; [|done]. cbn [Hex.EncodeToString String.append]. by rewrite <- E.
Qed.

Lemma hex_trim b : Forall is_byte b -> b <> [] -> StringsU.TrimSpace (Hex.EncodeToString b) = Hex.EncodeToString b.
Proof.
  intros Hb Hne. pose proof (hex_ascii b Hb) as Ha. unfold is_byte in Hb.
  pose proof (TrimSpace_around "" (Hex.EncodeToString b) "") as H. cbn [String.append] in H. rewrite string_app_nil_r in H. apply H; [done..| |].
  - destruct Hb as [|x b Hx Hb]; [done|]. cbn. eexists _, _. split; [done|]. apply digit_solid. dlia.
  - by apply hex_last.
Qed.

(** Text that is not blank, before and after hexadecimal digits. *)
Lemma TrimSpace_before_hex p c b : StringsU.is_ascii (String c p) = true -> blank c = false -> Forall is_byte b -> b <> [] ->
  StringsU.TrimSpace (String c p ++ Hex.EncodeToString b) = String c p ++ Hex.EncodeToString b.
Proof.
  intros Hp Hc Hb Hne. pose proof (hex_last b Hb Hne) as (r & l & E & Hl).
  pose proof (TrimSpace_around "" (String c p ++ Hex.EncodeToString b) "") as H. cbn [String.append] in H. rewrite string_app_nil_r in H. apply H; [|done..| |].
  - change (StringsU.is_ascii (String c p ++ Hex.EncodeToString b) = true). unfold StringsU.is_ascii. rewrite forall_byte_app. fold (StringsU.is_ascii (String c p)).
    rewrite Hp. by apply hex_ascii.
  - by eexists _, _.
  - exists (String c p ++ r), l. split; [|done]. rewrite E. apply (string_app_assoc (String c p)).
Qed.
