(* ===== verification/Model.v ===== *)
(** * Data model (src/src/model/models.go and the row types of src/src/database)

    The records the server stores and returns, the tables of the SQLite
    database as lists of rows in insertion order, and the updates of single
    fields.  A [*time.Time] is an optional instant. *)

From S2P Require Import Prelude GoStr GoTime.

Definition VisibilityPublic : Z := 0.
Definition VisibilityUnlisted : Z := 1.

Record Paste := {
  p_id : string;
  p_title : string;
  p_content : string;
  p_content_type : string;
  p_language : string;
  p_visibility : Z;
  p_is_link : bool;
  p_expires : option Z;
  p_burn : Z;
  p_hash : string;
  p_views : Z;
  p_created : Z;
  p_updated : Z;
}.

Record PasteListItem := {
  li_id : string;
  li_title : string;
  li_language : string;
  li_views : Z;
  li_expires : option Z;
  li_burn : Z;
  li_created : Z;
}.

Record CreateResponse := {
  cr_id : string;
  cr_title : string;
  cr_language : string;
  cr_visibility : Z;
  cr_is_link : bool;
  cr_burn : Z;
  cr_expires : option Z;
  cr_views : Z;
  cr_created : Z;
  cr_link : string;
  cr_owner_token : string;
}.

Definition ToListItem (p : Paste) : PasteListItem :=
  {| li_id := p_id p; li_title := p_title p; li_language := p_language p; li_views := p_views p;
     li_expires := p_expires p; li_burn := p_burn p; li_created := p_created p |}.

Definition set_views (v : Z) (p : Paste) : Paste :=
  {| p_id := p_id p; p_title := p_title p; p_content := p_content p; p_content_type := p_content_type p;
     p_language := p_language p; p_visibility := p_visibility p; p_is_link := p_is_link p;
     p_expires := p_expires p; p_burn := p_burn p; p_hash := p_hash p; p_views := v;
     p_created := p_created p; p_updated := p_updated p |}.

Definition set_hash (h : string) (p : Paste) : Paste :=
  {| p_id := p_id p; p_title := p_title p; p_content := p_content p; p_content_type := p_content_type p;
     p_language := p_language p; p_visibility := p_visibility p; p_is_link := p_is_link p;
     p_expires := p_expires p; p_burn := p_burn p; p_hash := h; p_views := p_views p;
     p_created := p_created p; p_updated := p_updated p |}.

(** [SET views = views + 1, updated_at = now] *)
Definition bump_views (now : Z) (p : Paste) : Paste :=
  {| p_id := p_id p; p_title := p_title p; p_content := p_content p; p_content_type := p_content_type p;
     p_language := p_language p; p_visibility := p_visibility p; p_is_link := p_is_link p;
     p_expires := p_expires p; p_burn := p_burn p; p_hash := p_hash p; p_views := p_views p + 1;
     p_created := p_created p; p_updated := now |}.

(** [api_tokens]: times are Unix seconds. *)
Record TokenRow := {
  tk_id : Z;
  tk_hash : string;
  tk_prefix : string;
  tk_type : string;
  tk_resource : string;
  tk_created : Z;
  tk_expires : option Z;
  tk_last_used : option Z;
  tk_revoked : option Z;
  tk_reason : option string;
}.

Definition set_last_used (now : Z) (t : TokenRow) : TokenRow :=
  {| tk_id := tk_id t; tk_hash := tk_hash t; tk_prefix := tk_prefix t; tk_type := tk_type t;
     tk_resource := tk_resource t; tk_created := tk_created t; tk_expires := tk_expires t;
     tk_last_used := Some now; tk_revoked := tk_revoked t; tk_reason := tk_reason t |}.

Definition set_revoked (now : Z) (reason : string) (t : TokenRow) : TokenRow :=
  {| tk_id := tk_id t; tk_hash := tk_hash t; tk_prefix := tk_prefix t; tk_type := tk_type t;
     tk_resource := tk_resource t; tk_created := tk_created t; tk_expires := tk_expires t;
     tk_last_used := tk_last_used t; tk_revoked := Some now; tk_reason := Some reason |}.

(** What [ListAPITokens] and [GetAPITokenByPrefix] return: no hash. *)
Record APITokenRecord := {
  rec_ID : Z;
  rec_TokenPrefix : string;
  rec_ResourceType : string;
  rec_ResourceID : string;
  rec_CreatedAt : Z;
  rec_ExpiresAt : option Z;
  rec_LastUsedAt : option Z;
}.

(** Scheduler state; the zero time stands for "never". *)
Record TaskState := {
  TaskID : string;
  TaskName : string;
  ts_Schedule : string;
  LastRun : Z;
  LastStatus : string;
  LastError : string;
  NextRun : Z;
  RunCount : Z;
  FailCount : Z;
  Enabled : bool;
}.

(** [scheduler_tasks]: the nullable columns are options. *)
Record TaskRow := {
  tr_id : string;
  tr_name : string;
  tr_schedule : string;
  tr_last_run : option Z;
  tr_last_status : string;
  tr_last_error : string;
  tr_next_run : option Z;
  tr_run_count : Z;
  tr_fail_count : Z;
  tr_enabled : Z;
}.

Record TaskHistory := {
  th_TaskID : string;
  th_StartedAt : Z;
  th_FinishedAt : Z;
  th_Status : string;
  th_ErrorMsg : string;
  th_DurationMS : Z;
}.

(** [security_reports]. *)
Record SecurityReport := {
  sr_tracking : string;
  sr_status : string;
  sr_severity : string;
  sr_component : string;
  sr_body : string;
  sr_enc_method : string;
  sr_credit_pref : string;
  sr_credit_name : string;
  sr_token_hash : string;
  sr_comment : string;
  sr_days : Z;
  sr_created : Z;
  sr_updated : Z;
  sr_disclosed : option Z;
  sr_token_used : option Z;
}.

Record SecretRow := { sec_key : string; sec_value : string }.

(** ** The database *)

Record DBState := {
  t_pastes : list Paste;
  t_tokens : list TokenRow;
  t_token_seq : Z;
  t_tasks : list TaskRow;
  t_history : list TaskHistory;
  t_secrets : list SecretRow;
  t_reports : list SecurityReport;
}.

Definition empty_db : DBState :=
  {| t_pastes := []; t_tokens := []; t_token_seq := 0; t_tasks := []; t_history := [];
     t_secrets := []; t_reports := [] |}.

Definition with_pastes (l : list Paste) (d : DBState) : DBState :=
  {| t_pastes := l; t_tokens := t_tokens d; t_token_seq := t_token_seq d; t_tasks := t_tasks d;
     t_history := t_history d; t_secrets := t_secrets d; t_reports := t_reports d |}.
Definition with_tokens (l : list TokenRow) (d : DBState) : DBState :=
  {| t_pastes := t_pastes d; t_tokens := l; t_token_seq := t_token_seq d; t_tasks := t_tasks d;
     t_history := t_history d; t_secrets := t_secrets d; t_reports := t_reports d |}.
Definition with_token_seq (n : Z) (d : DBState) : DBState :=
  {| t_pastes := t_pastes d; t_tokens := t_tokens d; t_token_seq := n; t_tasks := t_tasks d;
     t_history := t_history d; t_secrets := t_secrets d; t_reports := t_reports d |}.
Definition with_tasks (l : list TaskRow) (d : DBState) : DBState :=
  {| t_pastes := t_pastes d; t_tokens := t_tokens d; t_token_seq := t_token_seq d; t_tasks := l;
     t_history := t_history d; t_secrets := t_secrets d; t_reports := t_reports d |}.
Definition with_history (l : list TaskHistory) (d : DBState) : DBState :=
  {| t_pastes := t_pastes d; t_tokens := t_tokens d; t_token_seq := t_token_seq d; t_tasks := t_tasks d;
     t_history := l; t_secrets := t_secrets d; t_reports := t_reports d |}.
Definition with_secrets (l : list SecretRow) (d : DBState) : DBState :=
  {| t_pastes := t_pastes d; t_tokens := t_tokens d; t_token_seq := t_token_seq d; t_tasks := t_tasks d;
     t_history := t_history d; t_secrets := l; t_reports := t_reports d |}.
Definition with_reports (l : list SecurityReport) (d : DBState) : DBState :=
  {| t_pastes := t_pastes d; t_tokens := t_tokens d; t_token_seq := t_token_seq d; t_tasks := t_tasks d;
     t_history := t_history d; t_secrets := t_secrets d; t_reports := l |}.
