(* ===== verification/Cache.v ===== *)
(** * The cache (src/src/cache/cache.go)

    The interface [cache.Cache] as a class of operations on a driver's state
    with the laws its clients rely on, the in-memory and the no-op driver, and
    the sweep of the reaper.  The valkey/redis driver only forwards to a
    third-party client and is not modelled. *)

From S2P Require Import Prelude GoStr GoTime.

(** ** The interface *)

Definition ErrCacheMiss : string := "cache miss".

Class CacheDriver (C : Type) := {
  cache_get : Z -> string -> C -> result string * C;
  cache_set : Z -> string -> string -> Z -> C -> result unit * C;
  cache_delete : string -> C -> result unit * C;
}.

(** [view c t k]: what the driver's state holds for [k], as seen at time [t]. *)
Class CacheLaws (C : Type) `{CacheDriver C} := {
  view : C -> Z -> string -> option string;
  get_view : forall now k c v c', cache_get now k c = (Ok v, c') -> view c now k = Some v;
  get_keeps : forall now k c t k' v, view (snd (cache_get now k c)) t k' = Some v -> view c t k' = Some v;
  set_view : forall now k v ttl c t k' v',
    view (snd (cache_set now k v ttl c)) t k' = Some v' ->
    (k' = k /\ v' = v) \/ (k' <> k /\ view c t k' = Some v');
  delete_view : forall k c t k' v,
    view (snd (cache_delete k c)) t k' = Some v -> k' <> k /\ view c t k' = Some v;
}.

(** ** The memory driver *)

Record memEntry := { value : string; expiresAt : Z }.

(** [data] with the driver's settings and the values of its metrics. *)
Record memoryCache := {
  mc_data : gmap string memEntry;
  prefix : string;
  defaultTTL : Z;
  mc_hits : Z;
  mc_misses : Z;
  mc_evictions : Z;
  mc_size : Z;
}.

Definition newMemoryCache (prefix : string) (ttl : Z) : memoryCache :=
  {| mc_data := ∅; prefix := prefix; defaultTTL := ttl; mc_hits := 0; mc_misses := 0;
     mc_evictions := 0; mc_size := 0 |}.

Definition mc_key (c : memoryCache) (k : string) : string := prefix c ++ k.

Definition mc_expired (now : Z) (e : memEntry) : bool :=
  negb (IsZero (expiresAt e)) && (expiresAt e <? now).

Definition mc_Get (now : Z) (key : string) (c : memoryCache) : result string * memoryCache :=
  match mc_data c !! mc_key c key with
  | None =>
      (Err ErrCacheMiss,
       {| mc_data := mc_data c; prefix := prefix c; defaultTTL := defaultTTL c; mc_hits := mc_hits c;
          mc_misses := mc_misses c + 1; mc_evictions := mc_evictions c; mc_size := mc_size c |})
  | Some e =>
      if mc_expired now e then
        let data := delete (mc_key c key) (mc_data c) in
        (Err ErrCacheMiss,
         {| mc_data := data; prefix := prefix c; defaultTTL := defaultTTL c; mc_hits := mc_hits c;
            mc_misses := mc_misses c + 1; mc_evictions := mc_evictions c + 1; mc_size := Z.of_nat (size data) |})
      else
        (Ok (value e),
         {| mc_data := mc_data c; prefix := prefix c; defaultTTL := defaultTTL c; mc_hits := mc_hits c + 1;
            mc_misses := mc_misses c; mc_evictions := mc_evictions c; mc_size := mc_size c |})
  end.

Definition mc_Set (now : Z) (key v : string) (ttl : Z) (c : memoryCache) : result unit * memoryCache :=
  let ttl := if ttl =? 0 then defaultTTL c else ttl in
  let exp := if 0 <? ttl then now + ttl else zero_time in
  let data := <[mc_key c key := {| value := v; expiresAt := exp |}]> (mc_data c) in
  (Ok tt,
   {| mc_data := data; prefix := prefix c; defaultTTL := defaultTTL c; mc_hits := mc_hits c;
      mc_misses := mc_misses c; mc_evictions := mc_evictions c; mc_size := Z.of_nat (size data) |}).

Definition mc_Delete (key : string) (c : memoryCache) : result unit * memoryCache :=
  let data := delete (mc_key c key) (mc_data c) in
  (Ok tt,
   {| mc_data := data; prefix := prefix c; defaultTTL := defaultTTL c; mc_hits := mc_hits c;
      mc_misses := mc_misses c; mc_evictions := mc_evictions c; mc_size := Z.of_nat (size data) |}).

(** One tick of [reaper]: every expired entry is dropped. *)
Definition reaper_tick (now : Z) (c : memoryCache) : memoryCache :=
  let data := filter (fun kv => mc_expired now (snd kv) = false) (mc_data c) in
  {| mc_data := data; prefix := prefix c; defaultTTL := defaultTTL c; mc_hits := mc_hits c;
     mc_misses := mc_misses c;
     mc_evictions := mc_evictions c + (Z.of_nat (size (mc_data c)) - Z.of_nat (size data));
     mc_size := Z.of_nat (size data) |}.

#[export] Instance memory_driver : CacheDriver memoryCache :=
  {| cache_get := mc_Get; cache_set := mc_Set; cache_delete := mc_Delete |}.

(** ** The no-op driver *)

Record noopCache := Noop {}.

Definition newNoopCache : noopCache := Noop.

#[export] Instance noop_driver : CacheDriver noopCache :=
  {| cache_get := fun _ _ c => (Err ErrCacheMiss, c);
     cache_set := fun _ _ _ _ c => (Ok tt, c);
     cache_delete := fun _ c => (Ok tt, c) |}.

(** ** The choice of a driver *)

Record CacheConfig := { cfg_type : string; cfg_prefix : string; cfg_ttl : Z }.

Inductive Driver :=
  | DMemory (c : memoryCache)
  | DNoop (c : noopCache)
  | DRedis (prefix : string) (ttl : Z).

(** [cache.New], up to the connection of a redis client. *)
Definition New `{Unicode} (cfg : CacheConfig) : result Driver :=
  let ttl := if cfg_ttl cfg =? 0 then Hour else cfg_ttl cfg in
  let t := StringsU.ToLower (StringsU.TrimSpace (cfg_type cfg)) in
  if String.eqb t "" || String.eqb t "memory" then Ok (DMemory (newMemoryCache (cfg_prefix cfg) ttl))
  else if String.eqb t "none" then Ok (DNoop newNoopCache)
  else if String.eqb t "valkey" || String.eqb t "redis" then Ok (DRedis (cfg_prefix cfg) ttl)
  else Err ("cache: unknown driver " ++ cfg_type cfg).

(** ** The abstract specification: a map of values with their last instant *)

Module spec.

Definition cache := string -> option (string * option Z).

(** What a reader sees at time [now]. *)
Definition see (m : cache) (now : Z) (k : string) : option string :=
  match m k with
  | Some (v, None) => Some v
  | Some (v, Some last) => if now <=? last then Some v else None
  | None => None
  end.

Definition set (m : cache) (k v : string) (last : option Z) : cache :=
  fun k' => if String.eqb k' k then Some (v, last) else m k'.

Definition del (m : cache) (k : string) : cache :=
  fun k' => if String.eqb k' k then None else m k'.

End spec.

(** Two specification states are equal for every reader from [now] on. *)
Definition same_from (now : Z) (m1 m2 : spec.cache) : Prop :=
  forall t k, now <= t -> spec.see m1 t k = spec.see m2 t k.

(** The abstraction function. *)
Definition abs_entry (e : memEntry) : string * option Z :=
  (value e, if IsZero (expiresAt e) then None else Some (expiresAt e)).
Definition abs (c : memoryCache) : spec.cache := fun k => abs_entry <$> mc_data c !! mc_key c k.

(** ** Facts *)

Lemma see_abs c t k :
  spec.see (abs c) t k = match mc_data c !! mc_key c k with
                         | Some e => if mc_expired t e then None else Some (value e)
                         | None => None
                         end.
Proof.
  unfold spec.see, abs, abs_entry, mc_expired. destruct (mc_data c !! mc_key c k) as [e|]; [|done].
  cbn. destruct (IsZero (expiresAt e)); [done|]. cbn.
  destruct (Z.leb_spec t (expiresAt e)), (Z.ltb_spec (expiresAt e) t); done || lia.
Qed.

#[export] Instance same_from_equiv now : Equivalence (same_from now).
Proof.
  split; [done | by intros m1 m2 H t k ?; rewrite H |].
  intros m1 m2 m3 H1 H2 t k ?. by rewrite H1, H2.
Qed.

#[export] Instance set_proper now k v last : Proper (same_from now ==> same_from now) (fun m => spec.set m k v last).
Proof.
  intros m1 m2 H t k' Ht. specialize (H t k' Ht). unfold spec.see, spec.set in *.
  by destruct (String.eqb k' k).
Qed.

#[export] Instance del_proper now k : Proper (same_from now ==> same_from now) (fun m => spec.del m k).
Proof.
  intros m1 m2 H t k' Ht. specialize (H t k' Ht). unfold spec.see, spec.del in *.
  by destruct (String.eqb k' k).
Qed.

(** Removing an expired entry changes nothing for later readers. *)
Lemma abs_drop_expired now c c' :
  prefix c' = prefix c ->
  (forall k, mc_data c' !! k = mc_data c !! k
             \/ (mc_data c' !! k = None /\ opt_bool (mc_expired now) (mc_data c !! k) = true)) ->
  same_from now (abs c') (abs c).
Proof.
  intros Hp H t k Ht. rewrite !see_abs. unfold mc_key. rewrite Hp.
  destruct (H (prefix c ++ k)) as [->|[-> He]]; [done|].
  destruct (mc_data c !! (prefix c ++ k)) as [e|]; [|done]. cbn in He.
  unfold mc_expired in *. destruct (IsZero (expiresAt e)); [done|]. cbn in *. b2p.
  by rewrite (proj2 (Z.ltb_lt _ _)) by lia.
Qed.

Lemma mc_Get_value now key c :
  fst (mc_Get now key c) = match spec.see (abs c) now key with
                           | Some v => Ok v | None => Err ErrCacheMiss end.
Proof.
  rewrite see_abs. unfold mc_Get. destruct (mc_data c !! mc_key c key) as [e|] eqn:E; [|done].
  by destruct (mc_expired now e).
Qed.

Lemma mc_Get_data now key c k :
  prefix (snd (mc_Get now key c)) = prefix c
  /\ (mc_data (snd (mc_Get now key c)) !! k = mc_data c !! k
      \/ (mc_data (snd (mc_Get now key c)) !! k = None /\ opt_bool (mc_expired now) (mc_data c !! k) = true)).
Proof.
  unfold mc_Get. destruct (mc_data c !! mc_key c key) as [e|] eqn:E; [|by split; [|left]].
  destruct (mc_expired now e) eqn:Ex; [|by split; [|left]]. split; [done|]. cbn.
  destruct (decide (k = mc_key c key)) as [->|]; [right | left].
  - by rewrite lookup_delete_eq, E.
  - by rewrite lookup_delete_ne.
Qed.

(** The last instant at which an entry set at [now] is served. *)
Definition last_instant (now ttl : Z) (c : memoryCache) : option Z :=
  let ttl' := if ttl =? 0 then defaultTTL c else ttl in
  if (0 <? ttl') && negb (IsZero (now + ttl')) then Some (now + ttl') else None.

Lemma mc_Set_abs now key v ttl c t k :
  spec.see (abs (snd (mc_Set now key v ttl c))) t k
  = spec.see (spec.set (abs c) key v (last_instant now ttl c)) t k.
Proof.
  rewrite see_abs. unfold spec.see, spec.set, mc_Set, last_instant. cbn [snd mc_data prefix].
  change (mc_key _ k) with (mc_key c k).
  destruct (String.eqb_spec k key) as [->|Hk].
  - rewrite lookup_insert_eq. unfold mc_expired. cbn [value expiresAt].
    set (ttl' := if ttl =? 0 then defaultTTL c else ttl).
    destruct (Z.ltb_spec 0 ttl'); cbn [andb]; [|done]. destruct (IsZero (now + ttl')); [done|]. cbn.
    destruct (Z.ltb_spec (now + ttl') t), (Z.leb_spec t (now + ttl')); done || lia.
  - rewrite lookup_insert_ne by (intros Heq%prefix_inj; by apply Hk). by rewrite <- see_abs.
Qed.

Lemma mc_Delete_abs key c t k :
  spec.see (abs (snd (mc_Delete key c))) t k = spec.see (spec.del (abs c) key) t k.
Proof.
  rewrite see_abs. unfold spec.see, spec.del, mc_Delete. cbn [snd mc_data prefix].
  change (mc_key _ k) with (mc_key c k).
  destruct (String.eqb_spec k key) as [->|Hk]; [by rewrite lookup_delete_eq|].
  rewrite lookup_delete_ne by (intros Heq%prefix_inj; by apply Hk). by rewrite <- see_abs.
Qed.

(** ** The drivers obey the laws *)

#[export] Program Instance memory_laws : CacheLaws memoryCache := {| view := fun c t k => spec.see (abs c) t k |}.
Next Obligation.
  intros now k c v c' H. pose proof (mc_Get_value now k c) as Hg. cbn in H. rewrite H in Hg. cbn in Hg.
  destruct (spec.see (abs c) now k); congruence.
Qed.
Next Obligation.
  intros now k c t k' v. cbv beta. change (snd (cache_get now k c)) with (snd (mc_Get now k c)). rewrite !see_abs. unfold mc_key.
  destruct (mc_Get_data now k c (prefix c ++ k')) as [-> [->|[-> _]]]; done.
Qed.
Next Obligation.
  intros now k v ttl c t k' v'.
  cbv beta. change (snd (cache_set now k v ttl c)) with (snd (mc_Set now k v ttl c)). rewrite mc_Set_abs. unfold spec.see, spec.set.
  destruct (String.eqb_spec k' k) as [->|Hk]; [|by right].
  destruct (last_instant now ttl c); [case_match|]; naive_solver.
Qed.
Next Obligation.
  intros k c t k' v. cbv beta. change (snd (cache_delete k c)) with (snd (mc_Delete k c)). rewrite mc_Delete_abs. unfold spec.see, spec.del.
  by destruct (String.eqb_spec k' k).
Qed.

#[export] Program Instance noop_laws : CacheLaws noopCache := {| view := fun _ _ _ => None |}.
Solve Obligations with (by intros).

(** C37 — The memory driver implements the map of values with their last
    instant: a read returns what a reader sees, and no more; a write, a delete
    and the reaper's sweep act on the abstract map as their names say, where
    maps that no later reader can tell apart are equal. *)
Theorem memory_cache_refines (now : Z) (key v : string) (ttl : Z) (c : memoryCache) :
  (fst (mc_Get now key c) = match spec.see (abs c) now key with
                            | Some v => Ok v | None => Err ErrCacheMiss end
   /\ same_from now (abs (snd (mc_Get now key c))) (abs c))
  /\ same_from now (abs (snd (mc_Set now key v ttl c))) (spec.set (abs c) key v (last_instant now ttl c))
  /\ same_from now (abs (snd (mc_Delete key c))) (spec.del (abs c) key)
  /\ same_from now (abs (reaper_tick now c)) (abs c).
Proof.
  split; [split|split; [|split]].
  - apply mc_Get_value.
  - apply abs_drop_expired; [apply (mc_Get_data now key c "") | apply mc_Get_data].
  - intros t k _. apply mc_Set_abs.
  - intros t k _. apply mc_Delete_abs.
  - apply abs_drop_expired; [done|]. intros k. cbn. rewrite map_lookup_filter.
    destruct (mc_data c !! k) as [e|]; cbn; [|by left].
    case_guard as Hx; [by left|]. right. split; [done|]. by destruct (mc_expired now e).
Qed.

(** A value set with a positive lifetime is served, unchanged, up to the
    end of the lifetime, and not after it, however often the reaper runs in
    between. *)
Theorem memory_cache_lifetime (now t : Z) (key v : string) (ttl : Z) (c : memoryCache) (sweeps : list Z) :
  0 <= now -> 0 < ttl -> now <= t -> Forall (fun s => s <= t) sweeps ->
  fst (mc_Get t key (fold_left (fun c s => reaper_tick s c) sweeps (snd (mc_Set now key v ttl c))))
  = if t <=? now + ttl then Ok v else Err ErrCacheMiss.
Proof.
  intros Hnow Httl Ht Hsweeps. rewrite mc_Get_value.
  assert (Hsame : forall c0, spec.see (abs (fold_left (fun c s => reaper_tick s c) sweeps c0)) t key = spec.see (abs c0) t key).
  { induction Hsweeps as [|s sweeps Hs _ IH]; intros c0; cbn; [done|]. rewrite IH.
    apply (abs_drop_expired s); [done | | done]. intros k. cbn. rewrite map_lookup_filter.
    destruct (mc_data c0 !! k) as [e|]; cbn; [|by left].
    case_guard as Hx; [by left|]. right. split; [done|]. by destruct (mc_expired s e). }
  rewrite Hsame, mc_Set_abs. unfold spec.see, spec.set, last_instant.
  rewrite String.eqb_refl, (proj2 (Z.eqb_neq ttl 0)), (proj2 (Z.ltb_lt 0 ttl)) by lia. cbn [andb].
  unfold IsZero, zero_time. rewrite (proj2 (Z.eqb_neq (now + ttl) 0)) by lia. cbn.
  by destruct (t <=? now + ttl).
Qed.

Lemma memory_cache_lifetime_witness :
  fst (mc_Get 250 "k" (reaper_tick 240 (snd (mc_Set 100 "k" "v" 200 (newMemoryCache "pastebin:" 3600))))) = Ok "v".
Proof.
  exact (memory_cache_lifetime 100 250 "k" "v" 200 (newMemoryCache "pastebin:" 3600) [240]
    ltac:(discriminate) eq_refl ltac:(discriminate) ltac:(repeat constructor; discriminate)).
Defined.
