(* ===== verification/World.v ===== *)
(** * The world of the server

    The state the handlers act on: the database, the cache (absent when none is
    configured), the clock, the random source and the metrics.  A computation
    is a function of the world.

    The environment's choices are part of the initial world, as finite lists
    consumed in order: how much the clock advances between two readings, which
    random bytes are delivered (a read that asks for more than is left fails),
    and which SQL statements fail in the driver, without effect (none, when the
    list is used up). *)

From S2P Require Import Prelude GoStr GoTime Model Cache.

Record Metrics := {
  PastesCreatedTotal : Z;
  PastesViewedTotal : Z;
  PastesDeletedTotal : Z;
  APITokensActive : Z;
}.

Definition no_metrics : Metrics :=
  {| PastesCreatedTotal := 0; PastesViewedTotal := 0; PastesDeletedTotal := 0; APITokensActive := 0 |}.

Definition inc_created (m : Metrics) : Metrics :=
  {| PastesCreatedTotal := PastesCreatedTotal m + 1; PastesViewedTotal := PastesViewedTotal m;
     PastesDeletedTotal := PastesDeletedTotal m; APITokensActive := APITokensActive m |}.
Definition inc_viewed (m : Metrics) : Metrics :=
  {| PastesCreatedTotal := PastesCreatedTotal m; PastesViewedTotal := PastesViewedTotal m + 1;
     PastesDeletedTotal := PastesDeletedTotal m; APITokensActive := APITokensActive m |}.
Definition inc_deleted (m : Metrics) : Metrics :=
  {| PastesCreatedTotal := PastesCreatedTotal m; PastesViewedTotal := PastesViewedTotal m;
     PastesDeletedTotal := PastesDeletedTotal m + 1; APITokensActive := APITokensActive m |}.
Definition set_active (n : Z) (m : Metrics) : Metrics :=
  {| PastesCreatedTotal := PastesCreatedTotal m; PastesViewedTotal := PastesViewedTotal m;
     PastesDeletedTotal := PastesDeletedTotal m; APITokensActive := n |}.

Record World (C : Type) := {
  w_db : DBState;
  w_cache : option C;
  w_clock : Z;
  w_ticks : list N;
  w_rand : list Z;
  w_faults : list bool;
  w_metrics : Metrics;
}.
Arguments w_db {C} _.
Arguments w_cache {C} _.
Arguments w_clock {C} _.
Arguments w_ticks {C} _.
Arguments w_rand {C} _.
Arguments w_faults {C} _.
Arguments w_metrics {C} _.
Arguments Build_World {C} _ _ _ _ _ _ _.

Section world.
Context {C : Type}.

Definition set_db (d : DBState) (w : World C) : World C :=
  {| w_db := d; w_cache := w_cache w; w_clock := w_clock w; w_ticks := w_ticks w; w_rand := w_rand w;
     w_faults := w_faults w; w_metrics := w_metrics w |}.
Definition set_cache (c : option C) (w : World C) : World C :=
  {| w_db := w_db w; w_cache := c; w_clock := w_clock w; w_ticks := w_ticks w; w_rand := w_rand w;
     w_faults := w_faults w; w_metrics := w_metrics w |}.
Definition set_rand (r : list Z) (w : World C) : World C :=
  {| w_db := w_db w; w_cache := w_cache w; w_clock := w_clock w; w_ticks := w_ticks w; w_rand := r;
     w_faults := w_faults w; w_metrics := w_metrics w |}.
Definition set_faults (f : list bool) (w : World C) : World C :=
  {| w_db := w_db w; w_cache := w_cache w; w_clock := w_clock w; w_ticks := w_ticks w; w_rand := w_rand w;
     w_faults := f; w_metrics := w_metrics w |}.
Definition set_metrics (m : Metrics) (w : World C) : World C :=
  {| w_db := w_db w; w_cache := w_cache w; w_clock := w_clock w; w_ticks := w_ticks w; w_rand := w_rand w;
     w_faults := w_faults w; w_metrics := m |}.
Definition advance (w : World C) : World C :=
  {| w_db := w_db w; w_cache := w_cache w; w_clock := w_clock w + Z.of_N (hd 0%N (w_ticks w));
     w_ticks := tl (w_ticks w); w_rand := w_rand w; w_faults := w_faults w; w_metrics := w_metrics w |}.

(** ** Computations *)

Definition M (A : Type) : Type := World C -> A * World C.

#[export] Instance M_ret : MRet M := fun A a w => (a, w).
#[export] Instance M_bind : MBind M := fun A B f m w => let '(a, w') := m w in f a w'.

(** [time.Now()]. *)
Definition now : M Z := fun w => (w_clock w, advance w).

(** [crypto/rand.Read] of [n] bytes. *)
Definition rand_read (n : nat) : M (result (list Z)) := fun w =>
  if bool_decide (n <= length (w_rand w))%nat
  then (Ok (take n (w_rand w)), set_rand (drop n (w_rand w)) w)
  else (Err "rand: no entropy", w).

Definition driver_error : string := "driver error".

(** One statement sent to the driver: it fails without effect, or runs. *)
Definition sql {A} (f : DBState -> result A * DBState) : M (result A) := fun w =>
  let w' := set_faults (tl (w_faults w)) w in
  if hd false (w_faults w) then (Err driver_error, w')
  else let '(r, d) := f (w_db w) in (r, set_db d w').

Definition query {A} (f : DBState -> A) : M (result A) := sql (fun d => (Ok (f d), d)).
Definition exec {A} (f : DBState -> A * DBState) : M (result A) := sql (fun d => let '(a, d) := f d in (Ok a, d)).

Definition get_db : M DBState := fun w => (w_db w, w).
Definition put_db (d : DBState) : M unit := fun w => (tt, set_db d w).

Definition metric (f : Metrics -> Metrics) : M unit := fun w => (tt, set_metrics (f (w_metrics w)) w).

(** ** Reasoning: invariants of the database through a computation *)

Lemma bind_run {A B} (m : M A) (f : A -> M B) w :
  (m ≫= f) w = let '(a, w') := m w in f a w'.
Proof. done. Qed.

Lemma bind_now {B} (f : Z -> M B) w : (now ≫= f) w = f (w_clock w) (advance w).
Proof. done. Qed.
Lemma bind_get_db {B} (f : DBState -> M B) w : (get_db ≫= f) w = f (w_db w) w.
Proof. done. Qed.
Lemma bind_put_db {B} d (f : unit -> M B) w : (put_db d ≫= f) w = f tt (set_db d w).
Proof. done. Qed.
Lemma bind_metric {B} g (f : unit -> M B) w : (metric g ≫= f) w = f tt (set_metrics (g (w_metrics w)) w).
Proof. done. Qed.
Lemma bind_ret {A B} (a : A) (f : A -> M B) w : (mret a ≫= f) w = f a w.
Proof. done. Qed.
Lemma bind_eq {A B} (m : M A) (f : A -> M B) w a w' : m w = (a, w') -> (m ≫= f) w = f a w'.
Proof. intros H. rewrite bind_run. by rewrite H. Qed.

(** [I] holds of the database throughout [m], whatever fails, and the result
    satisfies [Q]. *)
Definition safe (I : DBState -> Prop) {A} (m : M A) (Q : A -> Prop) : Prop :=
  forall w, I (w_db w) -> I (w_db (m w).2) /\ Q (m w).1.

Section safe.
Context (I : DBState -> Prop).

Lemma safe_ret {A} (a : A) (Q : A -> Prop) : Q a -> safe I (mret a) Q.
Proof. intros H w Hw. split; [exact Hw | apply H]. Qed.

Lemma safe_bind {A B} (m : M A) (f : A -> M B) (P : A -> Prop) (Q : B -> Prop) :
  safe I m P -> (forall a, P a -> safe I (f a) Q) -> safe I (m ≫= f) Q.
Proof.
  intros Hm Hf w Hw. rewrite bind_run. specialize (Hm w Hw).
  destruct (m w) as [a w']. destruct Hm as [HI HP]. apply Hf; done.
Qed.

Lemma safe_weaken {A} (m : M A) (P Q : A -> Prop) :
  safe I m P -> (forall a, P a -> Q a) -> safe I m Q.
Proof. intros Hm HPQ w Hw. destruct (Hm w Hw). auto. Qed.

Lemma safe_now (Q : Z -> Prop) : (forall t, Q t) -> safe I now Q.
Proof. intros H w Hw. split; [exact Hw | apply H]. Qed.

Lemma safe_metric f (Q : unit -> Prop) : Q tt -> safe I (metric f) Q.
Proof. intros H w Hw. split; [exact Hw | apply H]. Qed.

Lemma safe_rand n (Q : result (list Z) -> Prop) :
  (forall l, length l = n -> Q (Ok l)) -> (forall e, Q (Err e)) -> safe I (rand_read n) Q.
Proof.
  intros H1 H2 w Hw. unfold rand_read. case_bool_decide; cbn; [|auto].
  split; [done|]. apply H1. rewrite length_take. lia.
Qed.

Lemma safe_sql {A} (f : DBState -> result A * DBState) (Q : result A -> Prop) :
  Q (Err driver_error) -> (forall d, I d -> I (f d).2 /\ Q (f d).1) -> safe I (sql f) Q.
Proof.
  intros He H w Hw. unfold sql. destruct (hd false (w_faults w)); [split; [exact Hw|exact He]|].
  specialize (H _ Hw). destruct (f (w_db w)) as [r d]. done.
Qed.

Lemma safe_query {A} (f : DBState -> A) (Q : result A -> Prop) :
  Q (Err driver_error) -> (forall d, I d -> Q (Ok (f d))) -> safe I (query f) Q.
Proof. intros He H. apply safe_sql; [done|]. intros d Hd. split; [done|]. apply H. done. Qed.

Lemma safe_exec {A} (f : DBState -> A * DBState) (Q : result A -> Prop) :
  Q (Err driver_error) -> (forall d, I d -> I (f d).2 /\ Q (Ok (f d).1)) -> safe I (exec f) Q.
Proof.
  intros He H. apply safe_sql; [done|]. intros d Hd. specialize (H d Hd).
  destruct (f d) as [a d']. done.
Qed.

Lemma safe_get_db (Q : DBState -> Prop) : (forall d, I d -> Q d) -> safe I get_db Q.
Proof. intros H w Hw. split; [exact Hw | exact (H _ Hw)]. Qed.

Lemma safe_put_db d (Q : unit -> Prop) : I d -> Q tt -> safe I (put_db d) Q.
Proof. intros H HQ w Hw. split; [exact H | exact HQ]. Qed.
End safe.

(** ** Reasoning: what a statement does *)

Lemma sql_cases {A} (f : DBState -> result A * DBState) w :
  (exists w', sql f w = (Err driver_error, w') /\ w_db w' = w_db w)
  \/ (exists w', sql f w = ((f (w_db w)).1, w') /\ w_db w' = (f (w_db w)).2).
Proof.
  unfold sql. destruct (hd false (w_faults w)); [left; by eexists|right].
  cbn [w_db set_faults]. destruct (f (w_db w)) as [r d]. by eexists.
Qed.

Lemma query_cases {A} (f : DBState -> A) w :
  exists w', w_db w' = w_db w /\ (query f w = (Err driver_error, w') \/ query f w = (Ok (f (w_db w)), w')).
Proof.
  destruct (sql_cases (fun d => (Ok (f d), d)) w) as [(w' & H1 & H2)|(w' & H1 & H2)]; eauto.
Qed.

Lemma exec_cases {A} (f : DBState -> A * DBState) w :
  (exists w', exec f w = (Err driver_error, w') /\ w_db w' = w_db w)
  \/ (exists w', exec f w = (Ok (f (w_db w)).1, w') /\ w_db w' = (f (w_db w)).2).
Proof.
  unfold exec. destruct (sql_cases (fun d => let '(a, d) := f d in (Ok a, d)) w) as [H|H]; [by left|right].
  destruct H as (w' & H1 & H2). exists w'. rewrite H1, H2. by destruct (f (w_db w)).
Qed.

(** ** Reasoning: no failing statement *)

Definition calm (w : World C) : Prop := w_faults w = [].

Lemma sql_calm {A} (f : DBState -> result A * DBState) w :
  calm w -> sql f w = ((f (w_db w)).1, set_db (f (w_db w)).2 w).
Proof.
  unfold calm, sql. destruct w; cbn. intros ->. cbn. by destruct (f _).
Qed.

Lemma query_calm {A} (f : DBState -> A) w : calm w -> query f w = (Ok (f (w_db w)), w).
Proof. intros H. unfold query. rewrite sql_calm by done. by destruct w. Qed.

Lemma exec_calm {A} (f : DBState -> A * DBState) w :
  calm w -> exec f w = (Ok (f (w_db w)).1, set_db (f (w_db w)).2 w).
Proof. intros H. unfold exec. rewrite sql_calm by done. by destruct (f _). Qed.

Lemma calm_set_db d w : calm w -> calm (set_db d w).
Proof. done. Qed.
Lemma calm_set_cache c w : calm w -> calm (set_cache c w).
Proof. done. Qed.
Lemma calm_advance w : calm w -> calm (advance w).
Proof. done. Qed.
Lemma calm_set_rand r w : calm w -> calm (set_rand r w).
Proof. done. Qed.
Lemma calm_set_metrics m w : calm w -> calm (set_metrics m w).
Proof. done. Qed.

(** ** Reasoning: what only the database and the clock are used for *)

(** The computation leaves the cache alone. *)
Definition frame {A} (m : M A) : Prop := forall w, w_cache (m w).2 = w_cache w.

(** The clock does not go back, and a calm world stays calm. *)
Definition steady {A} (m : M A) : Prop :=
  forall w, w_clock w <= w_clock (m w).2 /\ (calm w -> calm (m w).2).

Lemma frame_ret {A} (a : A) : frame (mret a).
Proof. by intros w. Qed.
Lemma frame_bind {A B} (m : M A) (f : A -> M B) : frame m -> (forall a, frame (f a)) -> frame (m ≫= f).
Proof.
  intros Hm Hf w. rewrite bind_run. specialize (Hm w). destruct (m w) as [a w']. cbn in Hm. by rewrite Hf.
Qed.
Lemma frame_now : frame now.
Proof. by intros w. Qed.
Lemma frame_rand n : frame (rand_read n).
Proof. intros w. unfold rand_read. by case_bool_decide. Qed.
Lemma frame_sql {A} (f : DBState -> result A * DBState) : frame (sql f).
Proof.
  intros w. unfold sql. destruct (hd false (w_faults w)); [done|]. cbn [w_db set_faults].
  by destruct (f (w_db w)).
Qed.
Lemma frame_query {A} (f : DBState -> A) : frame (query f).
Proof. apply frame_sql. Qed.
Lemma frame_exec {A} (f : DBState -> A * DBState) : frame (exec f).
Proof. apply frame_sql. Qed.
Lemma frame_get_db : frame get_db.
Proof. by intros w. Qed.
Lemma frame_put_db d : frame (put_db d).
Proof. by intros w. Qed.
Lemma frame_metric f : frame (metric f).
Proof. by intros w. Qed.

Lemma steady_ret {A} (a : A) : steady (mret a).
Proof. intros w. split; [cbn; lia | done]. Qed.
Lemma steady_bind {A B} (m : M A) (f : A -> M B) : steady m -> (forall a, steady (f a)) -> steady (m ≫= f).
Proof.
  intros Hm Hf w. rewrite bind_run. specialize (Hm w). destruct (m w) as [a w']. cbn in Hm.
  specialize (Hf a w'). destruct Hm, Hf. split; [lia | auto].
Qed.
Lemma steady_now : steady now.
Proof. intros w. split; [cbn; lia | done]. Qed.
Lemma steady_rand n : steady (rand_read n).
Proof. intros w. unfold rand_read. case_bool_decide; split; done || (cbn; lia). Qed.
Lemma steady_sql {A} (f : DBState -> result A * DBState) : steady (sql f).
Proof.
  intros w. unfold sql, calm. destruct w as [d c k tk rn fl me]. cbn.
  destruct fl as [|[] fl]; cbn; [destruct (f d)| |destruct (f d)]; cbn; split; try lia; done.
Qed.
Lemma steady_query {A} (f : DBState -> A) : steady (query f).
Proof. apply steady_sql. Qed.
Lemma steady_exec {A} (f : DBState -> A * DBState) : steady (exec f).
Proof. apply steady_sql. Qed.
Lemma steady_get_db : steady get_db.
Proof. intros w. split; [cbn; lia | done]. Qed.
Lemma steady_put_db d : steady (put_db d).
Proof. intros w. split; [cbn; lia | done]. Qed.
Lemma steady_metric f : steady (metric f).
Proof. intros w. split; [cbn; lia | done]. Qed.

End world.
Arguments M _ _ : clear implicits.

(** Walk through a computation built from the primitives. *)
Ltac walk :=
  repeat match goal with
  | |- frame (mret _) => apply frame_ret
  | |- frame (_ ≫= _) => apply frame_bind; [|intros ?]
  | |- frame now => apply frame_now
  | |- frame (rand_read _) => apply frame_rand
  | |- frame (sql _) => apply frame_sql
  | |- frame (query _) => apply frame_query
  | |- frame (exec _) => apply frame_exec
  | |- frame get_db => apply frame_get_db
  | |- frame (put_db _) => apply frame_put_db
  | |- frame (metric _) => apply frame_metric
  | |- steady (mret _) => apply steady_ret
  | |- steady (_ ≫= _) => apply steady_bind; [|intros ?]
  | |- steady now => apply steady_now
  | |- steady (rand_read _) => apply steady_rand
  | |- steady (sql _) => apply steady_sql
  | |- steady (query _) => apply steady_query
  | |- steady (exec _) => apply steady_exec
  | |- steady get_db => apply steady_get_db
  | |- steady (put_db _) => apply steady_put_db
  | |- steady (metric _) => apply steady_metric
  | |- frame (match ?x with _ => _ end) => destruct x
  | |- steady (match ?x with _ => _ end) => destruct x
  | |- _ => solve [auto with pb]
  end.

#[export] Hint Resolve calm_set_db calm_set_cache calm_advance calm_set_rand calm_set_metrics : pb.

(** One step of a proof of [safe]: the rule for the head of the computation. *)
Ltac safe_step :=
  match goal with
  | |- safe _ (mret _) _ => apply safe_ret; try exact Logic.I
  | |- safe _ (now ≫= _) _ => eapply (safe_bind _ now _ (fun _ => True)); [by apply safe_now|]; intros ? _
  | |- safe _ (metric _ ≫= _) _ => eapply (safe_bind _ _ _ (fun _ => True)); [by apply safe_metric|]; intros ? _
  | |- safe ?I (get_db ≫= _) _ => eapply (safe_bind _ get_db _ I); [by apply safe_get_db|]; intros ? ?
  | |- safe _ (put_db _ ≫= _) _ => eapply (safe_bind _ _ _ (fun _ => True)); [by apply safe_put_db|]; intros ? _
  | |- safe _ (query _ ≫= _) _ => eapply (safe_bind _ _ _ (fun _ => True)); [by apply safe_query|]; intros ? _
  | |- safe _ (rand_read _ ≫= _) _ => eapply (safe_bind _ _ _ (fun _ => True)); [by apply safe_rand|]; intros ? _
  | |- safe _ (exec _ ≫= _) _ =>
      eapply (safe_bind _ _ _ (fun _ => True)); [apply safe_exec; [done|]; intros ? ?; split; [|done]|intros ? _]
  | |- safe _ (sql _ ≫= _) _ =>
      eapply (safe_bind _ _ _ (fun _ => True)); [apply safe_sql; [done|]; intros ? ?; split; [|done]|intros ? _]
  | |- safe _ (query _) _ => by apply safe_query
  | |- safe _ (exec _) _ => apply safe_exec; [done|]; intros ? ?; split; [|done]
  | |- safe _ (sql _) _ => apply safe_sql; [done|]; intros ? ?; split; [|done]
  | |- safe _ (match ?x with _ => _ end) _ => destruct x eqn:?
  | |- safe _ ((match ?x with _ => _ end) ≫= _) _ => destruct x eqn:?
  | |- safe _ (let _ := _ in _) _ => cbv zeta
  end.
