(* ===== verification/Database.v ===== *)
(** * The database (src/src/database/database.go, security_reports.go)

    Every operation of [SQLiteDB] on the tables of {!Model}.  A SQL statement
    is modelled by its effect on the rows; date columns hold the instants the
    program passes.  Opening the file, the schema and the connection pool are
    not modelled. *)

From S2P Require Import Prelude GoStr GoTime GoCrypto Model World Cache.

(** ** SQL *)

(** [LIMIT]/[OFFSET] of a list of rows; a negative offset counts as zero. *)
Fixpoint offsetZ {A} (n : Z) (l : list A) : list A :=
  match l with
  | [] => []
  | x :: r => if n <=? 0 then l else offsetZ (n - 1) r
  end.
Fixpoint limitZ {A} (n : Z) (l : list A) : list A :=
  match l with
  | [] => []
  | x :: r => if n <=? 0 then [] else x :: limitZ (n - 1) r
  end.

(** [ORDER BY key DESC]. *)
Definition desc {A} (key : A -> Z) (a b : A) : Prop := key b <= key a.
#[export] Instance desc_dec {A} (key : A -> Z) a b : Decision (desc key a b).
Proof. unfold desc. apply _. Defined.
#[export] Instance desc_total {A} (key : A -> Z) : Total (desc key).
Proof. intros a b. unfold desc. lia. Qed.
#[export] Instance desc_trans {A} (key : A -> Z) : Transitive (desc key).
Proof. intros a b c. unfold desc. lia. Qed.

Definition order_desc {A} (key : A -> Z) (l : list A) : list A := merge_sort (desc key) l.

(** [ORDER BY task_id], byte-wise. *)
Definition id_le (a b : TaskRow) : Prop := String.leb (tr_id a) (tr_id b) = true.
#[export] Instance id_le_dec a b : Decision (id_le a b).
Proof. unfold id_le. apply _. Defined.

(** [COALESCE(a, b)] and [COALESCE(NULLIF(a, ''), b)]. *)
Definition coalesce {A} (a b : option A) : option A := match a with Some x => Some x | None => b end.
Definition coalesce_str (a b : string) : string := if String.eqb a "" then b else a.

Definition unique_error (column : string) : string := "UNIQUE constraint failed: " ++ column.

(** A zero time is stored as NULL. *)
Definition null_time (t : Z) : option Z := if IsZero t then None else Some t.

Definition has_id (id : string) (p : Paste) : bool := String.eqb (p_id p) id.

Section database.
Context {C : Type}.

(** ** Pastes *)

(** The fields [CreatePaste] fills in on the caller's paste. *)
Definition stamp (t : Z) (p : Paste) : Paste :=
  {| p_id := p_id p; p_title := if String.eqb (p_title p) "" then "Untitled" else p_title p;
     p_content := p_content p; p_content_type := p_content_type p;
     p_language := if String.eqb (p_language p) "" && negb (p_is_link p) then "text" else p_language p;
     p_visibility := p_visibility p; p_is_link := p_is_link p; p_expires := p_expires p;
     p_burn := p_burn p; p_hash := p_hash p; p_views := p_views p; p_created := t; p_updated := t |}.

Definition insert_paste (p : Paste) (d : DBState) : result unit * DBState :=
  if existsb (has_id (p_id p)) (t_pastes d) then (Err (unique_error "pastes.id"), d)
  else (Ok tt, with_pastes (t_pastes d ++ [p]) d).

(** The paste is a pointer: the caller sees the stamped fields even on error. *)
Definition CreatePaste (p : Paste) : M C (Paste * result unit) :=
  t ← now;
  let p := stamp t p in
  r ← sql (insert_paste p);
  mret (p, r).

Definition GetPasteByID (id : string) : M C (result (option Paste)) :=
  query (fun d => first (has_id id) (t_pastes d)).

Definition listed (t : Z) (p : Paste) : bool :=
  (p_visibility p =? 0) && match p_expires p with None => true | Some e => t <? e end.

(** The offset of a page, an [int] product. *)
Definition page_offset (page limit : Z) : Z := wrap64 ((page - 1) * limit).

Definition GetPublicPastes (page limit : Z) : M C (result (list PasteListItem * Z)) :=
  let page := if page <? 1 then 1 else page in
  let limit := if limit <? 1 then 1 else limit in
  let offset := page_offset page limit in
  t ← now;
  total ← query (fun d => Z.of_nat (length (keep (listed t) (t_pastes d))));
  match total with
  | Err e => mret (Err e)
  | Ok total =>
      rows ← query (fun d => limitZ limit (offsetZ offset (order_desc p_created (keep (listed t) (t_pastes d)))));
      match rows with
      | Err e => mret (Err e)
      | Ok rows => mret (Ok (ToListItem <$> rows, total))
      end
  end.

(** The update of the transaction, with its [RETURNING] clause. *)
Definition count_view (t : Z) (id : string) (d : DBState) : option (Z * Z) * DBState :=
  let rows := upd (has_id id) (bump_views t) (t_pastes d) in
  ((fun p => (p_views p, p_burn p)) <$> first (has_id id) rows, with_pastes rows d).

Definition delete_paste (id : string) (d : DBState) : Z * DBState :=
  (Z.of_nat (length (keep (has_id id) (t_pastes d))),
   with_pastes (keep (fun p => negb (has_id id p)) (t_pastes d)) d).

(** A transaction: begin, the statements, commit; any error rolls back to the
    state at the beginning. *)
Definition IncrementViewsAndCheckBurn (id : string) : M C (result (Z * bool)) :=
  begun ← query (fun _ => tt);
  match begun with
  | Err e => mret (Err e)
  | Ok _ =>
      saved ← get_db;
      t ← now;
      row ← exec (count_view t id);
      match row with
      | Err e => _ ← put_db saved; mret (Err e)
      | Ok None => _ ← put_db saved; mret (Err "paste not found")
      | Ok (Some (views, burnAfter)) =>
          let burned := (0 <? burnAfter) && (burnAfter <=? views) in
          del ← (if burned then exec (delete_paste id) else mret (Ok 0));
          match del with
          | Err e => _ ← put_db saved; mret (Err e)
          | Ok _ =>
              committed ← query (fun _ => tt);
              match committed with
              | Err e => _ ← put_db saved; mret (Err e)
              | Ok _ => mret (Ok (views, burned))
              end
          end
      end
  end.

Definition DeletePaste (id : string) : M C (result unit) :=
  r ← exec (delete_paste id);
  match r with
  | Err e => mret (Err e)
  | Ok n => mret (if n =? 0 then Err "paste not found" else Ok tt)
  end.

Definition DeletePasteByToken (id deleteTokenHash : string) : M C (result unit) :=
  stored ← query (fun d => p_hash <$> first (has_id id) (t_pastes d));
  match stored with
  | Err e => mret (Err e)
  | Ok None => mret (Err "paste not found or invalid token")
  | Ok (Some storedHash) =>
      if String.eqb storedHash deleteTokenHash then
        r ← exec (delete_paste id);
        mret (result_map (fun _ => tt) r)
      else mret (Err "paste not found or invalid token")
  end.

Definition is_expired (t : Z) (p : Paste) : bool :=
  match p_expires p with Some e => e <=? t | None => false end.
Definition is_burned (p : Paste) : bool := (0 <? p_burn p) && (p_burn p <=? p_views p).

Definition delete_where (f : Paste -> bool) (d : DBState) : Z * DBState :=
  (Z.of_nat (length (keep f (t_pastes d))), with_pastes (keep (fun p => negb (f p)) (t_pastes d)) d).

Definition DeleteExpiredPastes : M C (result Z) :=
  t ← now; exec (delete_where (is_expired t)).

Definition DeleteBurnedPastes : M C (result Z) := exec (delete_where is_burned).

Definition CountPastes : M C (result Z) := query (fun d => Z.of_nat (length (t_pastes d))).

(** ** Scheduler *)

Definition has_task (id : string) (t : TaskRow) : bool := String.eqb (tr_id t) id.

(** The row [UpsertSchedulerTask] inserts. *)
Definition task_row (t : TaskState) : TaskRow :=
  {| tr_id := TaskID t; tr_name := TaskName t; tr_schedule := ts_Schedule t;
     tr_last_run := null_time (LastRun t); tr_last_status := LastStatus t; tr_last_error := LastError t;
     tr_next_run := null_time (NextRun t); tr_run_count := RunCount t; tr_fail_count := FailCount t;
     tr_enabled := if Enabled t then 1 else 0 |}.

(** [ON CONFLICT(task_id) DO UPDATE]. *)
Definition merge_task (new old : TaskRow) : TaskRow :=
  {| tr_id := tr_id old; tr_name := tr_name new; tr_schedule := tr_schedule new;
     tr_last_run := coalesce (tr_last_run old) (tr_last_run new);
     tr_last_status := coalesce_str (tr_last_status old) (tr_last_status new);
     tr_last_error := coalesce_str (tr_last_error old) (tr_last_error new);
     tr_next_run := coalesce (tr_next_run old) (tr_next_run new);
     tr_run_count := tr_run_count old; tr_fail_count := tr_fail_count old;
     tr_enabled := tr_enabled new |}.

Definition upsert_task (r : TaskRow) (l : list TaskRow) : list TaskRow :=
  if existsb (has_task (tr_id r)) l then upd (has_task (tr_id r)) (merge_task r) l else l ++ [r].

Definition UpsertSchedulerTask (t : TaskState) : M C (result unit) :=
  exec (fun d => (tt, with_tasks (upsert_task (task_row t) (t_tasks d)) d)).

Definition scanTaskState (r : TaskRow) : TaskState :=
  {| TaskID := tr_id r; TaskName := tr_name r; ts_Schedule := tr_schedule r;
     LastRun := default zero_time (tr_last_run r); LastStatus := tr_last_status r;
     LastError := tr_last_error r; NextRun := default zero_time (tr_next_run r);
     RunCount := tr_run_count r; FailCount := tr_fail_count r; Enabled := negb (tr_enabled r =? 0) |}.

Definition GetSchedulerTask (id : string) : M C (result TaskState) :=
  r ← query (fun d => first (has_task id) (t_tasks d));
  match r with
  | Err e => mret (Err e)
  | Ok None => mret (Err "sql: no rows in result set")
  | Ok (Some row) => mret (Ok (scanTaskState row))
  end.

Definition ListSchedulerTasks : M C (result (list TaskState)) :=
  query (fun d => scanTaskState <$> merge_sort id_le (t_tasks d)).

Definition set_enabled (v : Z) (r : TaskRow) : TaskRow :=
  {| tr_id := tr_id r; tr_name := tr_name r; tr_schedule := tr_schedule r; tr_last_run := tr_last_run r;
     tr_last_status := tr_last_status r; tr_last_error := tr_last_error r; tr_next_run := tr_next_run r;
     tr_run_count := tr_run_count r; tr_fail_count := tr_fail_count r; tr_enabled := v |}.

Definition SetTaskEnabled (id : string) (enabled : bool) : M C (result unit) :=
  exec (fun d => (tt, with_tasks (upd (has_task id) (set_enabled (if enabled then 1 else 0)) (t_tasks d)) d)).

Definition record_run (lastRun : Z) (status lastError : string) (runCount failCount nextRun : Z) (r : TaskRow) : TaskRow :=
  {| tr_id := tr_id r; tr_name := tr_name r; tr_schedule := tr_schedule r; tr_last_run := Some lastRun;
     tr_last_status := status; tr_last_error := lastError; tr_next_run := null_time nextRun;
     tr_run_count := runCount; tr_fail_count := failCount; tr_enabled := tr_enabled r |}.

Definition UpdateTaskRun (id : string) (lastRun : Z) (status lastError : string)
    (runCount failCount nextRun : Z) : M C (result unit) :=
  exec (fun d => (tt, with_tasks (upd (has_task id)
                   (record_run lastRun status lastError runCount failCount nextRun) (t_tasks d)) d)).

Definition RecordTaskHistory (h : TaskHistory) : M C (result unit) :=
  exec (fun d => (tt, with_history (t_history d ++ [h]) d)).

Definition ListTaskHistory (id : string) (limit : Z) : M C (result (list TaskHistory)) :=
  let limit := if limit <=? 0 then 20 else limit in
  query (fun d => limitZ limit (order_desc th_StartedAt
                    (keep (fun h => String.eqb (th_TaskID h) id) (t_history d)))).

(** ** App secrets *)

Definition has_key (k : string) (s : SecretRow) : bool := String.eqb (sec_key s) k.

Definition insert_secret (k v : string) (d : DBState) : result unit * DBState :=
  if existsb (has_key k) (t_secrets d) then (Err (unique_error "app_secrets.key"), d)
  else (Ok tt, with_secrets (t_secrets d ++ [{| sec_key := k; sec_value := v |}]) d).

Definition fetch_secret (k : string) : M C (result (option string)) :=
  query (fun d => sec_value <$> first (has_key k) (t_secrets d)).

(** The part of [EnsureAppSecret] after the first query found no row. *)
Definition create_secret (key : string) : M C (result (list Z)) :=
  r ← rand_read 32;
  match r with
  | Err e => mret (Err ("app_secrets: generate " ++ key))
  | Ok buf =>
      ins ← sql (insert_secret key (Base64.EncodeToString buf));
      match ins with
      | Ok _ => mret (Ok buf)
      | Err e =>
          (* another goroutine may have inserted simultaneously *)
          again ← fetch_secret key;
          match again with
          | Ok (Some existing) =>
              match Base64.DecodeString existing with
              | Some raw => mret (Ok raw)
              | None => mret (Err ("app_secrets: decode " ++ key ++ " after race"))
              end
          | _ => mret (Err ("app_secrets: insert " ++ key))
          end
      end
  end.

Definition EnsureAppSecret (key : string) : M C (result (list Z)) :=
  r ← fetch_secret key;
  match r with
  | Ok (Some encoded) =>
      match Base64.DecodeString encoded with
      | Some raw => mret (Ok raw)
      | None => mret (Err ("app_secrets: decode " ++ key))
      end
  | Ok None => create_secret key
  | Err e => mret (Err ("app_secrets: query " ++ key))
  end.

(** ** API tokens *)

Definition has_hash (h : string) (t : TokenRow) : bool := String.eqb (tk_hash t) h.

Definition insert_token (hash prefix rtype rid : string) (created : Z) (expires : option Z) (d : DBState)
  : result unit * DBState :=
  if existsb (has_hash hash) (t_tokens d) then (Err (unique_error "api_tokens.token_hash"), d)
  else
    let row := {| tk_id := t_token_seq d + 1; tk_hash := hash; tk_prefix := prefix; tk_type := rtype;
                  tk_resource := rid; tk_created := created; tk_expires := expires; tk_last_used := None;
                  tk_revoked := None; tk_reason := None |} in
    (Ok tt, with_token_seq (t_token_seq d + 1) (with_tokens (t_tokens d ++ [row]) d)).

Definition CreateAPIToken (tokenHash tokenPrefix resourceType resourceID : string) (expiresAt : option Z)
  : M C (result unit) :=
  t ← now;
  sql (insert_token tokenHash tokenPrefix resourceType resourceID (Unix t) (Unix <$> expiresAt)).

(** The checks on a fetched token row at Unix time [n]. *)
Definition token_active (n : Z) (t : TokenRow) : bool :=
  match tk_revoked t with Some _ => false | None => true end
  && match tk_expires t with Some e => n <? e | None => true end.

Definition for_resource (h rtype rid : string) (t : TokenRow) : bool :=
  has_hash h t && String.eqb (tk_type t) rtype && String.eqb (tk_resource t) rid.

Definition invalid_token : string := "paste not found or invalid token".

(** [tokenHash] is the 32-byte digest. *)
Definition VerifyAPIToken (tokenHash : list Z) (resourceType resourceID : string) : M C (result unit) :=
  let hashHex := Hex.EncodeToString tokenHash in
  t ← now;
  let n := Unix t in
  r ← query (fun d => first (for_resource hashHex resourceType resourceID) (t_tokens d));
  match r with
  | Err e => mret (Err e)
  | Ok None => mret (Err invalid_token)
  | Ok (Some row) =>
      if negb (String.eqb (tk_hash row) hashHex) then mret (Err invalid_token)
      else if negb (token_active n row) then mret (Err invalid_token)
      else
        (* best effort: a failure to record the use is ignored *)
        _ ← exec (fun d => (tt, with_tokens (upd (fun u => tk_id u =? tk_id row) (set_last_used n) (t_tokens d)) d));
        mret (Ok tt)
  end.

Definition of_type (h rtype : string) (t : TokenRow) : bool := has_hash h t && String.eqb (tk_type t) rtype.

Definition ValidateAPIToken (tokenHash : list Z) (resourceType : string) : M C (result unit) :=
  let hashHex := Hex.EncodeToString tokenHash in
  t ← now;
  let n := Unix t in
  r ← query (fun d => head (order_desc tk_created (keep (of_type hashHex resourceType) (t_tokens d))));
  match r with
  | Err e => mret (Err e)
  | Ok None => mret (Err "token not found")
  | Ok (Some row) =>
      if negb (String.eqb (tk_hash row) hashHex) then mret (Err "token not found")
      else match tk_revoked row with
      | Some _ => mret (Err "token has been revoked")
      | None =>
          if match tk_expires row with Some e => e <=? n | None => false end
          then mret (Err "token has expired") else mret (Ok tt)
      end
  end.

Definition revocable (prefix : string) (t : TokenRow) : bool :=
  String.eqb (tk_prefix t) prefix && match tk_revoked t with None => true | Some _ => false end.

Definition RevokeAPIToken (prefix reason : string) : M C (result unit) :=
  t ← now;
  r ← exec (fun d => (Z.of_nat (length (keep (revocable prefix) (t_tokens d))),
                      with_tokens (upd (revocable prefix) (set_revoked (Unix t) reason) (t_tokens d)) d));
  match r with
  | Err e => mret (Err e)
  | Ok n => mret (if n =? 0 then Err "token not found or already revoked" else Ok tt)
  end.

Definition token_record (t : TokenRow) : APITokenRecord :=
  {| rec_ID := tk_id t; rec_TokenPrefix := tk_prefix t; rec_ResourceType := tk_type t;
     rec_ResourceID := tk_resource t; rec_CreatedAt := of_unix (tk_created t);
     rec_ExpiresAt := of_unix <$> tk_expires t; rec_LastUsedAt := of_unix <$> tk_last_used t |}.

Definition not_revoked (t : TokenRow) : bool := match tk_revoked t with None => true | Some _ => false end.

Definition ListAPITokens : M C (result (list APITokenRecord)) :=
  query (fun d => token_record <$> order_desc tk_created (keep not_revoked (t_tokens d))).

Definition GetAPITokenByPrefix (prefix : string) : M C (result APITokenRecord) :=
  r ← query (fun d => first (revocable prefix) (t_tokens d));
  match r with
  | Err e => mret (Err e)
  | Ok None => mret (Err "token not found or revoked")
  | Ok (Some row) => mret (Ok (token_record row))
  end.

Definition DeleteExpiredAPITokens : M C (result Z) :=
  t ← now;
  exec (fun d => (Z.of_nat (length (keep (fun k => negb (token_active (Unix t) k)) (t_tokens d))),
                  with_tokens (keep (token_active (Unix t)) (t_tokens d)) d)).

(** ** Security reports *)

Definition SecStatusReceived : string := "Received".
Definition SecStatusDisclosed : string := "Disclosed".

Definition has_tracking (id : string) (r : SecurityReport) : bool := String.eqb (sr_tracking r) id.

Definition stamp_report (t : Z) (r : SecurityReport) : SecurityReport :=
  {| sr_tracking := sr_tracking r;
     sr_status := if String.eqb (sr_status r) "" then SecStatusReceived else sr_status r;
     sr_severity := sr_severity r; sr_component := sr_component r; sr_body := sr_body r;
     sr_enc_method := sr_enc_method r; sr_credit_pref := sr_credit_pref r; sr_credit_name := sr_credit_name r;
     sr_token_hash := sr_token_hash r; sr_comment := sr_comment r; sr_days := sr_days r;
     sr_created := t; sr_updated := t; sr_disclosed := None; sr_token_used := None |}.

Definition CreateSecurityReport (r : SecurityReport) : M C (result unit) :=
  t ← now;
  sql (fun d => if existsb (has_tracking (sr_tracking r)) (t_reports d)
                then (Err (unique_error "security_reports.tracking_id"), d)
                else (Ok tt, with_reports (t_reports d ++ [stamp_report t r]) d)).

Definition GetSecurityReport (id : string) : M C (result (option SecurityReport)) :=
  query (fun d => first (has_tracking id) (t_reports d)).

Definition set_token_used (at_ : Z) (r : SecurityReport) : SecurityReport :=
  {| sr_tracking := sr_tracking r; sr_status := sr_status r; sr_severity := sr_severity r;
     sr_component := sr_component r; sr_body := sr_body r; sr_enc_method := sr_enc_method r;
     sr_credit_pref := sr_credit_pref r; sr_credit_name := sr_credit_name r; sr_token_hash := sr_token_hash r;
     sr_comment := sr_comment r; sr_days := sr_days r; sr_created := sr_created r; sr_updated := sr_updated r;
     sr_disclosed := sr_disclosed r; sr_token_used := Some at_ |}.

Definition MarkSecurityReportTokenUsed (id : string) (at_ : Z) : M C (result unit) :=
  exec (fun d => (tt, with_reports (upd (has_tracking id) (set_token_used at_) (t_reports d)) d)).

Definition set_triage (status comment : string) (t : Z) (disclosed : option Z) (r : SecurityReport) : SecurityReport :=
  {| sr_tracking := sr_tracking r; sr_status := status; sr_severity := sr_severity r;
     sr_component := sr_component r; sr_body := sr_body r; sr_enc_method := sr_enc_method r;
     sr_credit_pref := sr_credit_pref r; sr_credit_name := sr_credit_name r; sr_token_hash := sr_token_hash r;
     sr_comment := comment; sr_days := sr_days r; sr_created := sr_created r; sr_updated := t;
     sr_disclosed := coalesce disclosed (sr_disclosed r); sr_token_used := sr_token_used r |}.

Definition UpdateSecurityReportStatus (id status comment : string) : M C (result unit) :=
  t ← now;
  let disclosedAt := if String.eqb status SecStatusDisclosed then Some t else None in
  exec (fun d => (tt, with_reports (upd (has_tracking id) (set_triage status comment t disclosedAt) (t_reports d)) d)).

Definition credited (r : SecurityReport) : bool :=
  String.eqb (sr_status r) SecStatusDisclosed
  && (String.eqb (sr_credit_pref r) "name" || String.eqb (sr_credit_pref r) "handle"
      || String.eqb (sr_credit_pref r) "anonymous").

(** The columns the acknowledgments page gets; the others are not selected. *)
Definition credit_columns (r : SecurityReport) : SecurityReport :=
  {| sr_tracking := sr_tracking r; sr_status := sr_status r; sr_severity := sr_severity r;
     sr_component := sr_component r; sr_body := ""; sr_enc_method := "";
     sr_credit_pref := sr_credit_pref r; sr_credit_name := sr_credit_name r; sr_token_hash := "";
     sr_comment := ""; sr_days := 0; sr_created := zero_time; sr_updated := zero_time;
     sr_disclosed := sr_disclosed r; sr_token_used := None |}.

(** NULL sorts after every date in descending order. *)
Definition disclosed_key (r : SecurityReport) : Z := default (- 2 ^ 127) (sr_disclosed r).

Definition ListDisclosedSecurityReports : M C (result (list SecurityReport)) :=
  query (fun d => credit_columns <$> order_desc disclosed_key (keep credited (t_reports d))).

End database.

(** [isAlreadyExists] on the text of an error. *)
Definition isAlreadyExists (msg : string) : bool :=
  Strings.Contains msg "duplicate column" || Strings.Contains msg "already exists"
  || Strings.Contains msg "Duplicate column name".
