(* ===== verification/DatabaseProofs.v ===== *)
(** * Theorems about the database

    Invariants of the tables under every sequence of operations and driver
    failures, the bound on counted views, transactions, pagination, tokens,
    application secrets and the scheduler rows. *)

From S2P Require Import Prelude GoStr GoTime GoCrypto Model World Cache Database.

(** ** Rows *)

Definition paste_of (id : string) (d : DBState) : option Paste := first (has_id id) (t_pastes d).

Lemma has_id_iff id p : has_id id p = true <-> p_id p = id.
Proof. apply String.eqb_eq. Qed.

Lemma first_upd {A} (p q : A -> bool) f (l : list A) :
  (forall x, p (f x) = p x) ->
  first p (upd q f l) = (fun x => if q x then f x else x) <$> first p l.
Proof.
  intros H. induction l as [|x l IH]; [done|]. cbn.
  assert (p (if q x then f x else x) = p x) as -> by (destruct (q x); auto).
  destruct (p x); [done|]. apply IH.
Qed.

Lemma first_keep_sub {A} (p q : A -> bool) (l : list A) :
  (forall x, p x = true -> q x = true) -> first p (keep q l) = first p l.
Proof.
  intros H. induction l as [|x l IH]; [done|]. rewrite keep_cons. cbn.
  destruct (p x) eqn:E; [rewrite H by done; cbn; by rewrite E|].
  destruct (q x); cbn; [rewrite E|]; apply IH.
Qed.

Lemma first_keep_unique {A K} (key : A -> K) (p q : A -> bool) (l : list A) :
  NoDup (key <$> l) -> (forall x y, p x = true -> p y = true -> key x = key y) ->
  first p (keep q l) = match first p l with Some x => if q x then Some x else None | None => None end.
Proof.
  intros Hn Hk. destruct (first p l) as [x|] eqn:E.
  - apply first_Some in E as [Hx Hp]. destruct (q x) eqn:Hq.
    + apply (first_unique key); [by apply NoDup_keep_fmap | | done | intros y Hy; by apply Hk].
      apply keep_elem. done.
    + apply first_None. intros y [Hy Hqy]%keep_elem. destruct (p y) eqn:Hpy; [|done].
      assert (y = x); [|congruence].
      assert (first p l = Some y); [apply (first_unique key); auto|].
      assert (first p l = Some x); [apply (first_unique key); auto|]. congruence.
  - apply first_None. intros y [Hy _]%keep_elem. by apply (proj1 (first_None _ _) E).
Qed.

Lemma first_snoc_other {A} (p : A -> bool) l x : p x = false -> first p (l ++ [x])%list = first p l.
Proof. intros H. rewrite first_app. cbn. rewrite H. by destruct (first p l). Qed.

Lemma keep_upd_out {A} (p : A -> bool) f (l : list A) :
  (forall x, p (f x) = p x) -> keep (fun x => negb (p x)) (upd p f l) = keep (fun x => negb (p x)) l.
Proof.
  intros H. induction l as [|x l IH]; [done|]. cbn. fold (upd p f l).
  destruct (p x) eqn:E; cbn; rewrite ?H, ?E; cbn; [apply IH | f_equal; apply IH].
Qed.

Lemma existsb_unique_key {A K} (key : A -> K) (p : A -> bool) l x :
  existsb p l = false -> (forall y, key y = key x -> p y = true) -> NoDup (key <$> l) ->
  NoDup (key <$> (l ++ [x])%list).
Proof.
  intros H Hk Hn. rewrite fmap_app. apply NoDup_app. split; [done|]. split; [|by apply NoDup_singleton].
  intros k Hin. cbn. rewrite list_elem_of_singleton. intros ->.
  apply list_elem_of_fmap in Hin as (y & Heq & Hy).
  assert (existsb p l = true); [|congruence].
  apply existsb_exists. exists y. split; [by apply list_elem_of_In | by apply Hk].
Qed.

Lemma has_id_bump t id p : has_id id (bump_views t p) = has_id id p.
Proof. done. Qed.

(** ** The database client: any operation, with its arguments *)

Inductive op : Type :=
  | OpCreatePaste (p : Paste)
  | OpGetPaste (id : string)
  | OpListPublic (page limit : Z)
  | OpView (id : string)
  | OpDelete (id : string)
  | OpDeleteByToken (id hash : string)
  | OpDeleteExpired
  | OpDeleteBurned
  | OpUpsertTask (t : TaskState)
  | OpSetEnabled (id : string) (b : bool)
  | OpTaskRun (id : string) (last : Z) (status err : string) (runs fails next : Z)
  | OpHistory (h : TaskHistory)
  | OpSecret (key : string)
  | OpCreateToken (hash prefix rtype rid : string) (expires : option Z)
  | OpVerify (hash : list Z) (rtype rid : string)
  | OpValidate (hash : list Z) (rtype : string)
  | OpRevoke (prefix reason : string)
  | OpDeleteExpiredTokens
  | OpCreateReport (r : SecurityReport)
  | OpTokenUsed (id : string) (at_ : Z)
  | OpTriage (id status comment : string).

(** ** The invariant of the tables *)

Record well_formed (d : DBState) : Prop := {
  wf_ids : NoDup (p_id <$> t_pastes d);
  wf_burn : forall p, p ∈ t_pastes d -> 0 < p_burn p -> p_views p < p_burn p;
  wf_hashes : NoDup (tk_hash <$> t_tokens d);
  wf_token_ids : NoDup (tk_id <$> t_tokens d);
  wf_seq : forall t, t ∈ t_tokens d -> tk_id t <= t_token_seq d;
  wf_tasks : NoDup (tr_id <$> t_tasks d);
  wf_secrets : NoDup (sec_key <$> t_secrets d);
  wf_reports : NoDup (sr_tracking <$> t_reports d);
}.

Lemma wf_empty : well_formed empty_db.
Proof. split; cbn; try constructor; set_solver. Qed.

Lemma wf_with_pastes l d :
  well_formed d -> NoDup (p_id <$> l) -> (forall p, p ∈ l -> 0 < p_burn p -> p_views p < p_burn p) ->
  well_formed (with_pastes l d).
Proof. intros [] H1 H2. by split. Qed.

Lemma wf_keep_pastes f d : well_formed d -> well_formed (with_pastes (keep f (t_pastes d)) d).
Proof.
  intros Hd. apply wf_with_pastes; [done| apply NoDup_keep_fmap, Hd |].
  intros p [Hp _]%keep_elem. by apply (wf_burn d).
Qed.

Lemma wf_insert_paste p d :
  well_formed d -> (0 < p_burn p -> p_views p < p_burn p) -> well_formed (insert_paste p d).2.
Proof.
  intros Hd Hp. unfold insert_paste. destruct (existsb _ _) eqn:E; [done|].
  apply wf_with_pastes; [done| |].
  - eapply existsb_unique_key; [exact E | | apply Hd]. intros y <-. by apply has_id_iff.
  - intros q [Hq| ->%list_elem_of_singleton]%elem_of_app; [by apply (wf_burn d) | done].
Qed.

Lemma wf_with_tokens l n d :
  well_formed d -> NoDup (tk_hash <$> l) -> NoDup (tk_id <$> l) -> (forall t, t ∈ l -> tk_id t <= n) ->
  well_formed (with_token_seq n (with_tokens l d)).
Proof. intros [] H1 H2 H3. by split. Qed.

Lemma wf_keep_tokens f d : well_formed d -> well_formed (with_tokens (keep f (t_tokens d)) d).
Proof.
  intros Hd. apply (wf_with_tokens (keep f (t_tokens d)) (t_token_seq d) d);
    [done| apply NoDup_keep_fmap, Hd | apply NoDup_keep_fmap, Hd |].
  intros t [Ht _]%keep_elem. by apply (wf_seq d).
Qed.

Lemma wf_upd_tokens p f d :
  well_formed d -> (forall t, tk_hash (f t) = tk_hash t) -> (forall t, tk_id (f t) = tk_id t) ->
  well_formed (with_tokens (upd p f (t_tokens d)) d).
Proof.
  intros Hd H1 H2. apply (wf_with_tokens (upd p f (t_tokens d)) (t_token_seq d) d); [done|..].
  - rewrite upd_fmap_same by done. apply Hd.
  - rewrite upd_fmap_same by done. apply Hd.
  - intros t (y & Hy & ->)%upd_elem. apply (wf_seq d Hd) in Hy. by destruct (p y); rewrite ?H2.
Qed.

Lemma wf_insert_token h pre ty rid c e d :
  well_formed d -> well_formed (insert_token h pre ty rid c e d).2.
Proof.
  intros Hd. unfold insert_token. destruct (existsb _ _) eqn:E; [done|].
  apply wf_with_tokens; [done|..].
  - eapply existsb_unique_key; [exact E | | apply Hd]. intros y Hy. by apply String.eqb_eq.
  - rewrite fmap_app. apply NoDup_app. split; [apply Hd|]. split; [|by apply NoDup_singleton].
    intros k (y & -> & Hy)%list_elem_of_fmap. apply (wf_seq d Hd) in Hy.
    cbn. rewrite list_elem_of_singleton. lia.
  - intros t [Ht| ->%list_elem_of_singleton]%elem_of_app; cbn; [|lia]. apply (wf_seq d Hd) in Ht. lia.
Qed.

Lemma wf_with_tasks l d : well_formed d -> NoDup (tr_id <$> l) -> well_formed (with_tasks l d).
Proof. intros [] H. by split. Qed.

Lemma wf_upd_tasks p f d :
  well_formed d -> (forall t, tr_id (f t) = tr_id t) -> well_formed (with_tasks (upd p f (t_tasks d)) d).
Proof. intros Hd H. apply wf_with_tasks; [done|]. rewrite upd_fmap_same by done. apply Hd. Qed.

Lemma wf_upsert r d : well_formed d -> well_formed (with_tasks (upsert_task r (t_tasks d)) d).
Proof.
  intros Hd. unfold upsert_task. destruct (existsb _ _) eqn:E; [by apply wf_upd_tasks|].
  apply wf_with_tasks; [done|]. eapply existsb_unique_key; [exact E | | apply Hd].
  intros y Hy. by apply String.eqb_eq.
Qed.

Lemma wf_insert_secret k v d : well_formed d -> well_formed (insert_secret k v d).2.
Proof.
  intros Hd. unfold insert_secret. destruct (existsb _ _) eqn:E; [done|].
  destruct Hd. split; try done. cbn. eapply existsb_unique_key; [exact E | | done].
  intros y Hy. by apply String.eqb_eq.
Qed.

Lemma wf_upd_reports p f d :
  well_formed d -> (forall r, sr_tracking (f r) = sr_tracking r) ->
  well_formed (with_reports (upd p f (t_reports d)) d).
Proof. intros [] H. split; try done. cbn. by rewrite upd_fmap_same. Qed.

Lemma wf_delete_paste id d : well_formed d -> well_formed (delete_paste id d).2.
Proof. apply wf_keep_pastes. Qed.
Lemma wf_delete_where f d : well_formed d -> well_formed (delete_where f d).2.
Proof. apply wf_keep_pastes. Qed.
Lemma wf_upsert_task t d :
  well_formed d -> well_formed (with_tasks (upsert_task (task_row t) (t_tasks d)) d).
Proof. apply wf_upsert. Qed.

#[export] Hint Resolve wf_delete_paste wf_delete_where wf_upsert_task wf_insert_paste wf_keep_tokens wf_insert_token wf_upsert wf_insert_secret : pb.

(** The pastes the handlers insert have not been viewed. *)
Definition unviewed (o : op) : Prop :=
  match o with OpCreatePaste p => p_views p = 0 | _ => True end.

Section ops.
Context {C : Type}.
Implicit Types (w : World C).

(** Run an operation; the result says whether it returned without error. *)
Definition run_op (o : op) : M C bool :=
  match o with
  | OpCreatePaste p => r ← CreatePaste p; mret (is_ok r.2)
  | OpGetPaste id => r ← GetPasteByID id; mret (is_ok r)
  | OpListPublic page limit => r ← GetPublicPastes page limit; mret (is_ok r)
  | OpView id => r ← IncrementViewsAndCheckBurn id; mret (is_ok r)
  | OpDelete id => r ← DeletePaste id; mret (is_ok r)
  | OpDeleteByToken id h => r ← DeletePasteByToken id h; mret (is_ok r)
  | OpDeleteExpired => r ← DeleteExpiredPastes; mret (is_ok r)
  | OpDeleteBurned => r ← DeleteBurnedPastes; mret (is_ok r)
  | OpUpsertTask t => r ← UpsertSchedulerTask t; mret (is_ok r)
  | OpSetEnabled id b => r ← SetTaskEnabled id b; mret (is_ok r)
  | OpTaskRun id last status err runs fails next =>
      r ← UpdateTaskRun id last status err runs fails next; mret (is_ok r)
  | OpHistory h => r ← RecordTaskHistory h; mret (is_ok r)
  | OpSecret key => r ← EnsureAppSecret key; mret (is_ok r)
  | OpCreateToken h prefix rtype rid e => r ← CreateAPIToken h prefix rtype rid e; mret (is_ok r)
  | OpVerify h rtype rid => r ← VerifyAPIToken h rtype rid; mret (is_ok r)
  | OpValidate h rtype => r ← ValidateAPIToken h rtype; mret (is_ok r)
  | OpRevoke prefix reason => r ← RevokeAPIToken prefix reason; mret (is_ok r)
  | OpDeleteExpiredTokens => r ← DeleteExpiredAPITokens; mret (is_ok r)
  | OpCreateReport r => r ← CreateSecurityReport r; mret (is_ok r)
  | OpTokenUsed id at_ => r ← MarkSecurityReportTokenUsed id at_; mret (is_ok r)
  | OpTriage id status comment => r ← UpdateSecurityReportStatus id status comment; mret (is_ok r)
  end.

Fixpoint run_ops (l : list op) : M C (list bool) :=
  match l with
  | [] => mret []
  | o :: r => b ← run_op o; bs ← run_ops r; mret (b :: bs)
  end.

Lemma run_ops_cons o l w :
  run_ops (o :: l) w = let '(b, w1) := run_op o w in let '(bs, w2) := run_ops l w1 in (b :: bs, w2).
Proof.
  cbn [run_ops]. rewrite bind_run. destruct (run_op o w) as [b w1]. rewrite bind_run.
  by destruct (run_ops l w1).
Qed.

Lemma safe_ok {A} (I : DBState -> Prop) (m : M C (result A)) :
  safe I m (fun _ => True) -> safe I (r ← m; mret (is_ok r)) (fun _ => True).
Proof. intros H. eapply safe_bind; [exact H|]. intros a _. by apply safe_ret. Qed.

(** The effect of a transaction that counts a view. *)
Lemma view_cases id w :
  let '(r, w') := IncrementViewsAndCheckBurn id w in
  ((exists e, r = Err e) /\ w_db w' = w_db w)
  \/ exists t p, paste_of id (w_db w) = Some p
       /\ let burned := (0 <? p_burn p) && (p_burn p <=? p_views p + 1) in
          r = Ok (p_views p + 1, burned)
          /\ w_db w' = with_pastes (if burned then keep (fun q => negb (has_id id q)) (t_pastes (w_db w))
                                    else upd (has_id id) (bump_views t) (t_pastes (w_db w))) (w_db w).
Proof.
  unfold IncrementViewsAndCheckBurn.
  destruct (query_cases (fun _ => tt) w) as (w1 & Hw1 & [E|E]); rewrite (bind_eq _ _ _ _ _ E);
    cbv beta iota; [left; split; [by eexists|done]|].
  rewrite bind_get_db, bind_now. set (t := w_clock w1). rewrite <- Hw1.
  change (w_db w1) with (w_db (advance w1)). set (w2 := advance w1). clear E.
  destruct (exec_cases (count_view t id) w2) as [(w3 & E & Hw3)|(w3 & E & Hw3)];
    rewrite (bind_eq _ _ _ _ _ E); cbv beta iota; [left; split; [by eexists|done]|].
  unfold count_view in *. cbn [fst snd] in *. clear E.
  rewrite first_upd by apply has_id_bump. unfold paste_of.
  destruct (first (has_id id) (t_pastes (w_db w2))) as [p|] eqn:E; cbn [fmap option_fmap option_map];
    [|left; split; [by eexists|done]].
  pose proof E as [Hin Hp]%first_Some. rewrite Hp. cbn [bump_views p_views p_burn].
  destruct ((0 <? p_burn p) && (p_burn p <=? p_views p + 1)) eqn:B.
  - destruct (exec_cases (delete_paste id) w3) as [(w4 & E4 & Hw4)|(w4 & E4 & Hw4)];
      rewrite (bind_eq _ _ _ _ _ E4); cbv beta iota; [left; split; [by eexists|done]|].
    destruct (query_cases (fun _ => tt) w4) as (w5 & Hw5 & [E5|E5]); rewrite (bind_eq _ _ _ _ _ E5);
      cbv beta iota; [left; split; [by eexists|done]|].
    right. exists t, p. rewrite B. do 2 (split; [done|]).
    cbn. rewrite Hw5, Hw4, Hw3. cbn. by rewrite keep_upd_out by apply has_id_bump.
  - rewrite bind_ret. cbv beta iota.
    destruct (query_cases (fun _ => tt) w3) as (w5 & Hw5 & [E5|E5]); rewrite (bind_eq _ _ _ _ _ E5);
      cbv beta iota; [left; split; [by eexists|done]|].
    right. exists t, p. rewrite B. do 2 (split; [done|]). cbn. by rewrite Hw5, Hw3.
Qed.

Lemma wf_view id w : well_formed (w_db w) -> well_formed (w_db (IncrementViewsAndCheckBurn id w).2).
Proof.
  intros Hw. pose proof (view_cases id w) as H. destruct (IncrementViewsAndCheckBurn id w) as [r w'].
  cbn [snd]. destruct H as [[_ ->]|(t & p & Hp & _ & ->)]; [done|].
  destruct ((0 <? p_burn p) && (p_burn p <=? p_views p + 1)) eqn:B; [by apply wf_keep_pastes|].
  apply wf_with_pastes; [done| rewrite upd_fmap_same by done; apply Hw |].
  intros q (q0 & Hq & ->)%upd_elem. destruct (has_id id q0) eqn:E; [|by apply (wf_burn (w_db w))].
  assert (q0 = p) as ->; [|cbn; b2p; apply andb_false_iff in B as [B|B]; b2p; lia].
  assert (paste_of id (w_db w) = Some q0); [|congruence].
  apply (first_unique p_id); [apply Hw | done | done |].
  intros y Hy. apply has_id_iff in Hy, E. congruence.
Qed.

Lemma safe_secret key (I : DBState -> Prop) :
  (forall v d, I d -> I (insert_secret key v d).2) ->
  safe (C := C) I (EnsureAppSecret key) (fun _ => True).
Proof.
  intros H. unfold EnsureAppSecret, fetch_secret, create_secret, fetch_secret.
  repeat (safe_step; auto).
Qed.

Lemma wf_op o : unviewed o -> safe (C := C) well_formed (run_op o) (fun _ => True).
Proof.
  intros Ho. destruct o; cbn [run_op]; try apply safe_ok.
  - eapply (safe_bind _ _ _ (fun _ => True)); [|intros; by apply safe_ret].
    unfold CreatePaste. repeat safe_step. apply wf_insert_paste; [done|]. cbn in *. lia.
  - unfold GetPasteByID. by repeat safe_step.
  - unfold GetPublicPastes. by repeat safe_step.
  - intros w Hw. split; [by apply wf_view | done].
  - unfold DeletePaste. repeat safe_step; auto with pb.
  - unfold DeletePasteByToken. repeat safe_step; auto with pb.
  - unfold DeleteExpiredPastes. repeat safe_step; auto with pb.
  - unfold DeleteBurnedPastes. repeat safe_step; auto with pb.
  - unfold UpsertSchedulerTask. repeat safe_step. by apply wf_upsert.
  - unfold SetTaskEnabled. repeat safe_step. by apply wf_upd_tasks.
  - unfold UpdateTaskRun. repeat safe_step. by apply wf_upd_tasks.
  - unfold RecordTaskHistory. repeat safe_step. by destruct H; split.
  - apply safe_secret. auto with pb.
  - unfold CreateAPIToken. repeat safe_step; auto with pb.
  - unfold VerifyAPIToken. repeat safe_step; try done. by apply wf_upd_tokens.
  - unfold ValidateAPIToken. by repeat safe_step.
  - unfold RevokeAPIToken. repeat safe_step; try done. by apply wf_upd_tokens.
  - unfold DeleteExpiredAPITokens. repeat safe_step. by apply wf_keep_tokens.
  - unfold CreateSecurityReport. repeat safe_step. destruct (existsb _ _) eqn:E; [done|].
    destruct H. split; try done. cbn. eapply existsb_unique_key; [exact E | | done].
    intros y Hy. by apply String.eqb_eq.
  - unfold MarkSecurityReportTokenUsed. repeat safe_step. by apply wf_upd_reports.
  - unfold UpdateSecurityReportStatus. repeat safe_step. by apply wf_upd_reports.
Qed.

Lemma wf_ops l : Forall unviewed l -> safe (C := C) well_formed (run_ops l) (fun _ => True).
Proof.
  induction l as [|o l IH]; intros Hl; cbn [run_ops]; [by apply safe_ret|]. inversion_clear Hl.
  eapply safe_bind; [by apply wf_op|]. intros b _.
  eapply safe_bind; [by apply IH|]. intros bs _. by apply safe_ret.
Qed.

(** Deleting the burned pastes of a well-formed database does nothing. *)
Lemma no_burned d : well_formed d -> keep is_burned (t_pastes d) = [].
Proof.
  intros Hd. apply keep_none. intros p Hp. unfold is_burned.
  destruct (0 <? p_burn p) eqn:E; [|done]. b2p. pose proof (wf_burn d Hd p Hp ltac:(lia)).
  apply Z.leb_gt. lia.
Qed.

Lemma keep_negb_all {A} (f : A -> bool) l : keep f l = [] -> keep (fun x => negb (f x)) l = l.
Proof.
  intros H. apply keep_all. intros x Hx. destruct (f x) eqn:E; [|done].
  assert (Hin : x ∈ keep f l) by (by apply keep_elem). rewrite H in Hin. set_solver.
Qed.

Lemma with_pastes_same d : with_pastes (t_pastes d) d = d.
Proof. by destruct d. Qed.

(** ** How often a limited paste can still be counted *)

(** At most [n] more views of [id] can be counted. *)
Definition allowance (id : string) (n : Z) (d : DBState) : Prop :=
  well_formed d
  /\ match paste_of id d with Some p => 0 < p_burn p /\ p_burn p - p_views p <= n | None => True end.

Definition creates (id : string) (o : op) : bool :=
  match o with OpCreatePaste p => String.eqb (p_id p) id | _ => false end.

Lemma allowance_pastes id n d l :
  allowance id n d -> well_formed (with_pastes l d) ->
  match first (has_id id) l with
  | Some p => paste_of id d = Some p
  | None => True
  end -> allowance id n (with_pastes l d).
Proof.
  intros [H1 H2] Hw Hl. split; [done|]. unfold paste_of in *. cbn -[first].
  destruct (first (has_id id) l) as [p|]; [|done]. by rewrite Hl in H2.
Qed.

Lemma paste_of_keep id f d :
  well_formed d ->
  match first (has_id id) (keep f (t_pastes d)) with Some p => paste_of id d = Some p | None => True end.
Proof.
  intros Hd. rewrite (first_keep_unique p_id).
  - unfold paste_of. destruct (first (has_id id) (t_pastes d)) as [p|]; [|done]. by destruct (f p).
  - apply Hd.
  - intros x y Hx Hy. apply has_id_iff in Hx, Hy. congruence.
Qed.

Lemma allowance_keep id n f d : allowance id n d -> allowance id n (with_pastes (keep f (t_pastes d)) d).
Proof.
  intros H. pose proof (proj1 H). apply allowance_pastes; [done|by apply wf_keep_pastes|]. by apply paste_of_keep.
Qed.

Lemma allowance_other id n d d' :
  allowance id n d -> well_formed d' -> t_pastes d' = t_pastes d -> allowance id n d'.
Proof. intros [H1 H2] Hw E. split; [done|]. unfold paste_of in *. by rewrite E. Qed.

Lemma allowance_insert id n p d :
  allowance id n d -> p_views p = 0 -> p_id p <> id -> allowance id n (insert_paste p d).2.
Proof.
  intros H Hv Hid. pose proof (wf_insert_paste p d (proj1 H) ltac:(lia)) as Hw. revert Hw.
  unfold insert_paste. destruct (existsb _ _); cbn; intros Hw; [exact H|].
  apply allowance_pastes; [done..|]. unfold paste_of. rewrite first_snoc_other; [by destruct (first _ _)|].
  destruct (has_id id p) eqn:E; [|done]. by apply has_id_iff in E.
Qed.

Lemma allowance_view id n w :
  allowance id n (w_db w) ->
  let '(r, w') := IncrementViewsAndCheckBurn id w in
  if is_ok r then 1 <= n /\ allowance id (n - 1) (w_db w') else w_db w' = w_db w.
Proof.
  intros [Hw Hp]. pose proof (view_cases id w) as H. pose proof (wf_view id w Hw) as Hw'.
  destruct (IncrementViewsAndCheckBurn id w) as [r w']. cbn [snd] in Hw'.
  destruct H as [[[e ->] ->]|(t & p & Hf & -> & Heq)]; [done|]. rewrite Hf in Hp. destruct Hp as [Hb Hn].
  pose proof (first_Some _ _ _ Hf) as [Hin Hid]. pose proof (wf_burn _ Hw p Hin Hb). cbn [is_ok].
  split; [lia|]. split; [done|]. unfold paste_of. rewrite Heq. cbn -[first].
  destruct ((0 <? p_burn p) && (p_burn p <=? p_views p + 1)) eqn:B.
  - assert (first (has_id id) (keep (fun q => negb (has_id id q)) (t_pastes (w_db w))) = None) as ->; [|done].
    apply first_None. intros x [_ Hx]%keep_elem. by apply negb_true_iff.
  - rewrite first_upd by apply has_id_bump. change (first (has_id id) (t_pastes (w_db w))) with (paste_of id (w_db w)).
    rewrite Hf. cbn. rewrite Hid. cbn. lia.
Qed.

Lemma allowance_view_other id id' n w :
  id' <> id -> allowance id n (w_db w) -> allowance id n (w_db (IncrementViewsAndCheckBurn id' w).2).
Proof.
  intros Hne H. pose proof (wf_view id' w (proj1 H)) as Hw'. pose proof (view_cases id' w) as Hc.
  destruct (IncrementViewsAndCheckBurn id' w) as [r w']. cbn [snd] in *.
  destruct Hc as [[_ E]|(t & p & Hf & _ & E)]; [by rewrite E|]. rewrite E in *.
  apply allowance_pastes; [done..|]. destruct (_ && _); [by apply paste_of_keep, H|].
  rewrite first_upd by done. unfold paste_of. destruct (first (has_id id) (t_pastes (w_db w))) as [q|] eqn:Eq; [|done].
  cbn. apply first_Some in Eq as [_ Hq]. destruct (has_id id' q) eqn:E'; [|done].
  apply has_id_iff in E', Hq. congruence.
Qed.

(** ** Frames: each operation writes at most one table *)

Inductive table : Type := TPastes | TTokens | TTasks | THistory | TSecrets | TReports.
#[export] Instance table_dec : EqDecision table.
Proof. solve_decision. Defined.

Definition written (o : op) : option table :=
  match o with
  | OpGetPaste _ | OpListPublic _ _ | OpValidate _ _ => None
  | OpCreatePaste _ | OpView _ | OpDelete _ | OpDeleteByToken _ _ | OpDeleteExpired | OpDeleteBurned => Some TPastes
  | OpUpsertTask _ | OpSetEnabled _ _ | OpTaskRun _ _ _ _ _ _ _ => Some TTasks
  | OpHistory _ => Some THistory
  | OpSecret _ => Some TSecrets
  | OpCreateToken _ _ _ _ _ | OpVerify _ _ _ | OpRevoke _ _ | OpDeleteExpiredTokens => Some TTokens
  | OpCreateReport _ | OpTokenUsed _ _ | OpTriage _ _ _ => Some TReports
  end.

Record same_but (x : option table) (d d' : DBState) : Prop := {
  sb_pastes : x = Some TPastes \/ t_pastes d' = t_pastes d;
  sb_tokens : x = Some TTokens \/ t_tokens d' = t_tokens d;
  sb_tasks : x = Some TTasks \/ t_tasks d' = t_tasks d;
  sb_history : x = Some THistory \/ t_history d' = t_history d;
  sb_secrets : x = Some TSecrets \/ t_secrets d' = t_secrets d;
  sb_reports : x = Some TReports \/ t_reports d' = t_reports d;
}.

Lemma same_but_refl x d : same_but x d d.
Proof. split; by right. Qed.

Ltac sb := match goal with H : same_but _ _ _ |- _ => destruct H as [[|] [|] [|] [|] [|] [|]]; split; cbn; auto end.

Lemma frame_op o d : safe (C := C) (same_but (written o) d) (run_op o) (fun _ => True).
Proof.
  destruct o; cbn [run_op written]; try apply safe_ok.
  - eapply (safe_bind _ _ _ (fun _ => True)); [|intros; by apply safe_ret].
    unfold CreatePaste. repeat safe_step. unfold insert_paste. destruct (existsb _ _); [done|]. sb.
  - unfold GetPasteByID. by repeat safe_step.
  - unfold GetPublicPastes. by repeat safe_step.
  - intros w Hw. split; [|done]. pose proof (view_cases id w) as Hc.
    destruct (IncrementViewsAndCheckBurn id w) as [r w']. cbn.
    destruct Hc as [[_ ->]|(? & ? & _ & _ & ->)]; [done|]. sb.
  - unfold DeletePaste. repeat safe_step. sb.
  - unfold DeletePasteByToken. repeat safe_step. sb.
  - unfold DeleteExpiredPastes. repeat safe_step. sb.
  - unfold DeleteBurnedPastes. repeat safe_step. sb.
  - unfold UpsertSchedulerTask. repeat safe_step. sb.
  - unfold SetTaskEnabled. repeat safe_step. sb.
  - unfold UpdateTaskRun. repeat safe_step. sb.
  - unfold RecordTaskHistory. repeat safe_step. sb.
  - apply safe_secret. intros v d' Hd. unfold insert_secret. destruct (existsb _ _); [done|]. sb.
  - unfold CreateAPIToken. repeat safe_step. unfold insert_token. destruct (existsb _ _); [done|]. sb.
  - unfold VerifyAPIToken. repeat safe_step; try done; sb.
  - unfold ValidateAPIToken. by repeat safe_step.
  - unfold RevokeAPIToken. repeat safe_step; try done; sb.
  - unfold DeleteExpiredAPITokens. repeat safe_step. sb.
  - unfold CreateSecurityReport. repeat safe_step. destruct (existsb _ _); [done|]. sb.
  - unfold MarkSecurityReportTokenUsed. repeat safe_step. sb.
  - unfold UpdateSecurityReportStatus. repeat safe_step. sb.
Qed.

Lemma frame_run o w : same_but (written o) (w_db w) (w_db (run_op o w).2).
Proof. apply (frame_op o (w_db w) w), same_but_refl. Qed.

(** An invariant of one table is only at stake in the operations that write it. *)
Lemma safe_frame {X} (g : DBState -> X) (J : X -> Prop) (x : table) o :
  (forall d d', same_but (written o) d d' -> written o <> Some x -> g d' = g d) ->
  (written o = Some x -> safe (C := C) (fun d => J (g d)) (run_op o) (fun _ => True)) ->
  safe (C := C) (fun d => J (g d)) (run_op o) (fun _ => True).
Proof.
  intros Hf Hx. destruct (decide (written o = Some x)) as [E|E]; [by apply Hx|].
  intros w Hw. split; [|done]. by rewrite (Hf (w_db w)) by (try done; apply frame_run).
Qed.

(** Apart from creating and viewing, an operation only ever removes pastes. *)
Definition only_removes (o : op) : bool :=
  match o with OpCreatePaste _ | OpView _ => false | _ => true end.

Definition kept_from (l l' : list Paste) : Prop := exists f, l' = keep f l.

Lemma kept_keep l l' f : kept_from l l' -> kept_from l (keep f l').
Proof. intros [g ->]. eexists. apply keep_keep. Qed.

Lemma kept_op l o :
  only_removes o = true -> safe (C := C) (fun d => kept_from l (t_pastes d)) (run_op o) (fun _ => True).
Proof.
  intros Ho. apply (safe_frame t_pastes _ TPastes); [intros d d' [[|] _ _ _ _ _]; done|].
  intros Hw. destruct o; try discriminate; cbn [run_op]; apply safe_ok.
  - unfold DeletePaste. repeat safe_step. by apply kept_keep.
  - unfold DeletePasteByToken. repeat safe_step. by apply kept_keep.
  - unfold DeleteExpiredPastes. repeat safe_step. by apply kept_keep.
  - unfold DeleteBurnedPastes. repeat safe_step. by apply kept_keep.
Qed.

Lemma allowance_create id n p :
  p_views p = 0 -> p_id p <> id -> safe (C := C) (allowance id n) (run_op (OpCreatePaste p)) (fun _ => True).
Proof.
  intros Hv Hid. cbn. eapply (safe_bind _ _ _ (fun _ => True)); [|intros; by apply safe_ret].
  unfold CreatePaste. repeat safe_step. by apply allowance_insert.
Qed.

(** Does the operation count a view of [id]? *)
Definition views_of (id : string) (o : op) : bool :=
  match o with OpView i => String.eqb i id | _ => false end.

Definition counted (id : string) (l : list op) (ok : list bool) : Z :=
  Z.of_nat (length (keep (fun x => views_of id x.1 && x.2) (zip l ok))).

Lemma allowance_op id n o w :
  unviewed o -> creates id o = false -> allowance id n (w_db w) ->
  let '(b, w') := run_op o w in
  if views_of id o && b then 1 <= n /\ allowance id (n - 1) (w_db w') else allowance id n (w_db w').
Proof.
  intros Hu Hc H. pose proof (wf_op o Hu w (proj1 H)) as [Hw _].
  destruct (views_of id o) eqn:Hv.
  - destruct o; try discriminate. cbn in Hv. apply String.eqb_eq in Hv as ->.
    cbn [run_op]. rewrite bind_run. pose proof (allowance_view id n w H) as Hx.
    destruct (IncrementViewsAndCheckBurn id w) as [r w']. cbn. destruct (is_ok r); [done|]. by rewrite Hx.
  - destruct (only_removes o) eqn:Hr.
    + pose proof (kept_op (t_pastes (w_db w)) o Hr w) as [[f Hf] _].
      { exists (fun _ => true). symmetry. by apply keep_all. }
      destruct (run_op o w) as [b w']. cbn in *. split; [done|].
      pose proof (paste_of_keep id f (w_db w) (proj1 H)) as Hk. unfold paste_of. rewrite Hf.
      destruct (first (has_id id) (keep f (t_pastes (w_db w)))) as [q|]; [|done].
      destruct H as [_ H]. by rewrite Hk in H.
    + destruct o; try discriminate.
      * cbn in Hu, Hc. apply String.eqb_neq in Hc. pose proof (allowance_create id n p Hu Hc w H) as [Ha _].
        by destruct (run_op (OpCreatePaste p) w).
      * cbn [run_op]. rewrite bind_run. pose proof (allowance_view_other id id0 n w) as Hx.
        destruct (IncrementViewsAndCheckBurn id0 w) as [r w']. cbn in *. apply Hx; [|done].
        by apply String.eqb_neq.
Qed.

Lemma allowance_ops id l : forall n w,
  0 <= n -> Forall unviewed l -> existsb (creates id) l = false -> allowance id n (w_db w) ->
  counted id l (run_ops l w).1 <= n.
Proof.
  induction l as [|o l IH]; intros n w Hn Hu Hc H; [done|].
  rewrite run_ops_cons. inversion_clear Hu as [|? ? Ho Hl]. cbn in Hc. apply orb_false_iff in Hc as [Hc1 Hc2].
  pose proof (allowance_op id n o w Ho Hc1 H) as Hx. destruct (run_op o w) as [b w1].
  unfold counted in *. destruct (views_of id o && b) eqn:E.
  - specialize (IH (n - 1) w1 ltac:(lia) Hl Hc2 (proj2 Hx)). destruct (run_ops l w1) as [bs w2].
    cbn [zip zip_with fst snd] in *. rewrite keep_cons. cbn [fst snd]. rewrite E. cbn [length]. lia.
  - specialize (IH n w1 Hn Hl Hc2 Hx). destruct (run_ops l w1) as [bs w2]. cbn in *. by rewrite E.
Qed.

(** ** Properties *)

(** C32 — whatever operations are run on a fresh database, in whatever order and
    with whatever driver failures, ids and hashes stay unique, token ids stay
    below the sequence, and no stored paste has used up its view limit: a
    cleanup of burned pastes finds nothing to delete. *)
Theorem tables_invariant (l : list op) (w : World C) :
  Forall unviewed l -> w_db w = empty_db ->
  let w' := (run_ops l w).2 in
  well_formed (w_db w')
  /\ let '(r, w'') := DeleteBurnedPastes w' in (r = Ok 0 \/ r = Err driver_error) /\ w_db w'' = w_db w'.
Proof.
  intros Hl Hw. cbv zeta. destruct (wf_ops l Hl w) as [H _]; [rewrite Hw; apply wf_empty|].
  split; [done|]. set (w' := (run_ops l w).2) in *. unfold DeleteBurnedPastes.
  destruct (exec_cases (delete_where is_burned) w') as [(w2 & -> & E)|(w2 & -> & E)]; [auto|].
  unfold delete_where in *. cbn [fst snd] in *. rewrite no_burned in * by done.
  rewrite E, keep_negb_all, with_pastes_same by (by apply no_burned). auto.
Qed.

(** a paste limited to [p_burn p] views is counted at most as many times
    as its limit leaves, whatever other operations run in between (it may be
    deleted, expire, or its views may fail), as long as its id is not created
    again. *)
Theorem views_bounded (id : string) (p : Paste) (l : list op) (w : World C) :
  well_formed (w_db w) -> paste_of id (w_db w) = Some p -> 0 < p_burn p ->
  Forall unviewed l -> existsb (creates id) l = false ->
  counted id l (run_ops l w).1 <= p_burn p - p_views p.
Proof.
  intros Hw Hp Hb Hu Hc. pose proof (first_Some _ _ _ Hp) as [Hin _].
  pose proof (wf_burn _ Hw p Hin Hb). apply allowance_ops; [lia|done|done|].
  split; [done|]. rewrite Hp. lia.
Qed.

(** counting a view is atomic: it fails and leaves the database as it was,
    or it adds one to the views of the paste with that id (every other row
    untouched) and reports the new count, or, when this view reaches a positive
    limit, removes the paste. *)
Theorem view_is_atomic (id : string) (w : World C) :
  let '(r, w') := IncrementViewsAndCheckBurn id w in
  match r with
  | Err _ => w_db w' = w_db w
  | Ok (views, burned) =>
      exists t p, paste_of id (w_db w) = Some p /\ views = p_views p + 1
        /\ burned = (0 <? p_burn p) && (p_burn p <=? views)
        /\ w_db w' = with_pastes (if burned then keep (fun q => negb (has_id id q)) (t_pastes (w_db w))
                                  else upd (has_id id) (bump_views t) (t_pastes (w_db w))) (w_db w)
  end.
Proof.
  pose proof (view_cases id w) as H. destruct (IncrementViewsAndCheckBurn id w) as [r w'].
  destruct H as [[[e ->] ->]|(t & p & Hp & -> & ->)]; [done|]. by exists t, p.
Qed.

(** ** Pagination *)

Lemma offsetZ_drop {A} (l : list A) : forall n, offsetZ n l = drop (Z.to_nat n) l.
Proof.
  induction l as [|x l IH]; intros n; cbn; [by rewrite drop_nil|].
  destruct (n <=? 0) eqn:E; b2p.
  - by replace (Z.to_nat n) with O by lia.
  - replace (Z.to_nat n) with (S (Z.to_nat (n - 1))) by lia. apply IH.
Qed.

Lemma limitZ_take {A} (l : list A) : forall n, limitZ n l = take (Z.to_nat n) l.
Proof.
  induction l as [|x l IH]; intros n; cbn; [by rewrite take_nil|].
  destruct (n <=? 0) eqn:E; b2p.
  - by replace (Z.to_nat n) with O by lia.
  - replace (Z.to_nat n) with (S (Z.to_nat (n - 1))) by lia. cbn. f_equal. apply IH.
Qed.

Lemma concat_pages {A} (n k : nat) : forall (l : list A),
  concat ((fun i => take n (drop (i * n) l)) <$> seq 0 k) = take (k * n) l.
Proof.
  induction k as [|k IH]; intros l; [done|].
  rewrite seq_S, fmap_app, concat_app, IH. cbn. rewrite app_nil_r, Nat.add_comm.
  rewrite <- (take_drop (k * n) (take (k * n + n) l)) at 1. rewrite take_take, skipn_firstn_comm.
  f_equal; f_equal; lia.
Qed.

Lemma concat_fmap2 {A B D} (f : B -> D) (g : A -> list B) (l : list A) :
  concat ((fun i => f <$> g i) <$> l) = f <$> concat (g <$> l).
Proof. induction l as [|x l IH]; [done|]. cbn. by rewrite fmap_app, IH. Qed.

(** What [GetPublicPastes] pages through at time [t]. *)
Definition live (t : Z) (d : DBState) : list Paste := order_desc p_created (keep (listed t) (t_pastes d)).

Lemma GetPublicPastes_calm page limit w :
  calm w -> 1 <= page -> 1 <= limit ->
  (GetPublicPastes page limit w).1
  = Ok (ToListItem <$> take (Z.to_nat limit) (drop (Z.to_nat (page_offset page limit)) (live (w_clock w) (w_db w))),
        Z.of_nat (length (live (w_clock w) (w_db w)))).
Proof.
  intros Hc Hp Hl. unfold GetPublicPastes.
  rewrite (proj2 (Z.ltb_ge page 1)), (proj2 (Z.ltb_ge limit 1)) by lia.
  rewrite bind_now, (bind_eq _ _ _ _ _ (query_calm _ _ (calm_advance _ Hc))).
  cbv beta iota. rewrite (bind_eq _ _ _ _ _ (query_calm _ _ (calm_advance _ Hc))).
  cbn. rewrite limitZ_take, offsetZ_drop. unfold live, order_desc. do 2 f_equal.
  by rewrite (Permutation_length (merge_sort_Permutation _ _)).
Qed.

Lemma live_sorted t d : Sorted (desc p_created) (live t d).
Proof. apply Sorted_merge_sort. apply _. Qed.

Lemma live_perm t d : live t d ≡ₚ keep (listed t) (t_pastes d).
Proof. apply merge_sort_Permutation. Qed.

Lemma page_offset_small page limit :
  1 <= page -> 1 <= limit -> (page - 1) * limit <= max_int64 -> page_offset page limit = (page - 1) * limit.
Proof. intros. apply wrap64_id. unfold in_int64, min_int64. nia. Qed.

(** the public listing: there is one list of the public pastes that have
    not expired, newest first, and each page is its slice, with its length as
    the total; the first pages put together are that list, without gap or
    repetition, once they reach its end. *)
Theorem pages_partition (w : World C) (limit : Z) :
  calm w -> 1 <= limit ->
  exists all : list Paste,
    Sorted (desc p_created) all
    /\ all ≡ₚ keep (listed (w_clock w)) (t_pastes (w_db w))
    /\ (forall page, 1 <= page -> (page - 1) * limit <= max_int64 ->
         (GetPublicPastes page limit w).1
         = Ok (ToListItem <$> take (Z.to_nat limit) (drop (Z.to_nat ((page - 1) * limit)) all),
               Z.of_nat (length all)))
    /\ (forall k : nat, Z.of_nat k * limit <= max_int64 -> Z.of_nat (length all) <= Z.of_nat k * limit ->
         exists pages, Forall2 (fun i page => (GetPublicPastes (Z.of_nat i + 1) limit w).1 = Ok (page, Z.of_nat (length all)))
                               (seq 0 k) pages
                       /\ concat pages = ToListItem <$> all).
Proof.
  intros Hc Hl. set (all := live (w_clock w) (w_db w)).
  assert (Hpage : forall page, 1 <= page -> (page - 1) * limit <= max_int64 ->
    (GetPublicPastes page limit w).1
    = Ok (ToListItem <$> take (Z.to_nat limit) (drop (Z.to_nat ((page - 1) * limit)) all),
          Z.of_nat (length all))).
  { intros page Hp Ho. rewrite GetPublicPastes_calm, page_offset_small by done. done. }
  exists all. split; [apply live_sorted|]. split; [apply live_perm|]. split; [exact Hpage|].
  intros k Hk Hlen.
  exists ((fun i => ToListItem <$> take (Z.to_nat limit) (drop (i * Z.to_nat limit) all)) <$> seq 0 k). split.
  - apply Forall2_fmap_r. apply Forall_Forall2_diag. apply Forall_forall. intros i Hi%elem_of_seq.
    assert (Z.of_nat i * limit <= Z.of_nat k * limit) by nia.
    rewrite Hpage by (rewrite ?Z.add_simpl_r; lia).
    rewrite Z.add_simpl_r, Z2Nat.inj_mul, Nat2Z.id by lia. done.
  - trans (ToListItem <$> take (k * Z.to_nat limit) all); [|by rewrite take_ge by nia].
    rewrite <- concat_pages.
    apply concat_fmap2.
Qed.

(** the offset is an [int] product: the largest page number with an even
    limit wraps to a negative offset, and the listing answers with its first
    page instead of an empty one. *)
Theorem last_page_wraps (w : World C) (half : Z) :
  calm w -> 1 <= half <= 50 ->
  (GetPublicPastes max_int64 (2 * half) w).1 = (GetPublicPastes 1 (2 * half) w).1.
Proof.
  intros Hc Hh. rewrite !GetPublicPastes_calm by (try done; unfold max_int64; lia).
  assert (page_offset max_int64 (2 * half) = - 4 * half) as ->.
  { unfold page_offset, wrap64, max_int64.
    replace ((2 ^ 63 - 1 - 1) * (2 * half) + 2 ^ 63) with ((2 ^ 63 - 4 * half) + half * 2 ^ 64) by lia.
    rewrite Z.mod_add by lia. rewrite Z.mod_small by lia. lia. }
  assert (page_offset 1 (2 * half) = 0) as ->; [by rewrite page_offset_small by (unfold max_int64; lia)|].
  by replace (Z.to_nat (- 4 * half)) with O by lia.
Qed.

(** ** Tokens *)

(** Every token with hash [h] is revoked. *)
Definition dead (h : string) (l : list TokenRow) : Prop :=
  forall t, t ∈ l -> tk_hash t = h -> is_Some (tk_revoked t).

Definition issues (h : string) (o : op) : bool :=
  match o with OpCreateToken h' _ _ _ _ => String.eqb h' h | _ => false end.

Lemma dead_upd h p f l :
  dead h l -> (forall t, tk_hash (f t) = tk_hash t) ->
  (forall t, is_Some (tk_revoked t) -> is_Some (tk_revoked (f t))) -> dead h (upd p f l).
Proof.
  intros H Hh Hr t (y & Hy & ->)%upd_elem Heq. specialize (H y Hy). destruct (p y); [|auto].
  rewrite Hh in Heq. auto.
Qed.

Lemma dead_op h o : issues h o = false -> safe (C := C) (fun d => dead h (t_tokens d)) (run_op o) (fun _ => True).
Proof.
  intros Ho. apply (safe_frame t_tokens _ TTokens); [intros d d' [_ [|] _ _ _ _]; done|].
  intros Hw. destruct o; try discriminate; cbn [run_op]; apply safe_ok.
  - unfold CreateAPIToken. repeat safe_step. unfold insert_token. destruct (existsb _ _); [done|].
    intros t [Ht| ->%list_elem_of_singleton]%elem_of_app; [by auto|]. cbn. intros ->.
    cbn in Ho. by rewrite String.eqb_refl in Ho.
  - unfold VerifyAPIToken. repeat safe_step; try done; by apply dead_upd.
  - unfold RevokeAPIToken. repeat safe_step; try done; by apply dead_upd.
  - unfold DeleteExpiredAPITokens. repeat safe_step. intros t [Ht _]%keep_elem. by auto.
Qed.

Lemma dead_ops h l : existsb (issues h) l = false -> safe (C := C) (fun d => dead h (t_tokens d)) (run_ops l) (fun _ => True).
Proof.
  induction l as [|o l IH]; intros Hl; cbn [run_ops]; [by apply safe_ret|].
  cbn in Hl. apply orb_false_iff in Hl as [H1 H2].
  eapply safe_bind; [by apply dead_op|]. intros b _.
  eapply safe_bind; [by apply IH|]. intros bs _. by apply safe_ret.
Qed.

(** What [VerifyAPIToken] answers. *)
Lemma verify_cases hash rtype rid w :
  let '(r, w') := VerifyAPIToken hash rtype rid w in
  r = Err driver_error
  \/ match first (for_resource (Hex.EncodeToString hash) rtype rid) (t_tokens (w_db w)) with
     | Some row => r = if token_active (Unix (w_clock w)) row then Ok tt else Err invalid_token
     | None => r = Err invalid_token
     end.
Proof.
  unfold VerifyAPIToken. rewrite bind_now. set (h := Hex.EncodeToString hash).
  destruct (query_cases (fun d => first (for_resource h rtype rid) (t_tokens d)) (advance w)) as (w1 & Hw1 & [E|E]);
    rewrite (bind_eq _ _ _ _ _ E); cbv beta iota; [by left|].
  change (w_db (advance w)) with (w_db w) in *. clear E.
  destruct (first (for_resource h rtype rid) (t_tokens (w_db w))) as [row|] eqn:E; [|by right].
  pose proof (first_Some _ _ _ E) as [_ Hrow]. unfold for_resource, has_hash in Hrow. bsplit.
  rewrite H. cbn [negb]. destruct (token_active (Unix (w_clock w)) row); cbn [negb]; [|by right].
  rewrite bind_run. destruct (exec _ w1) as [x w2]. by right.
Qed.

(** ** Secrets *)

Definition holds_secret (key : string) (raw : list Z) (l : list SecretRow) : Prop :=
  exists row, first (has_key key) l = Some row /\ Base64.DecodeString (sec_value row) = Some raw.

Lemma holds_insert key raw k v d :
  holds_secret key raw (t_secrets d) -> holds_secret key raw (t_secrets (insert_secret k v d).2).
Proof.
  intros (row & H1 & H2). exists row. split; [|done]. unfold insert_secret. destruct (existsb _ _); [done|].
  cbn -[first]. rewrite first_app. by rewrite H1.
Qed.

Lemma secret_op key raw o : safe (C := C) (fun d => holds_secret key raw (t_secrets d)) (run_op o) (fun _ => True).
Proof.
  apply (safe_frame t_secrets _ TSecrets); [intros d d' [_ _ _ _ [|] _]; done|].
  intros Hw. destruct o; try discriminate; cbn [run_op]; apply safe_ok, safe_secret.
  intros v d. apply holds_insert.
Qed.

Lemma secret_ops key raw l : safe (C := C) (fun d => holds_secret key raw (t_secrets d)) (run_ops l) (fun _ => True).
Proof.
  induction l as [|o l IH]; cbn [run_ops]; [by apply safe_ret|].
  eapply safe_bind; [by apply secret_op|]. intros b _.
  eapply safe_bind; [by apply IH|]. intros bs _. by apply safe_ret.
Qed.

Lemma insert_secret_held key raw v d :
  holds_secret key raw (t_secrets d) -> insert_secret key v d = (Err (unique_error "app_secrets.key"), d).
Proof.
  intros (row & [Hin Hk]%first_Some & _). unfold insert_secret.
  rewrite (proj2 (existsb_exists _ _)); [done|]. exists row. split; [by apply list_elem_of_In|done].
Qed.

Lemma fetch_secret_held key raw w :
  holds_secret key raw (t_secrets (w_db w)) ->
  exists w' v, Base64.DecodeString v = Some raw
    /\ (fetch_secret key w = (Err driver_error, w') \/ fetch_secret key w = (Ok (Some v), w')).
Proof.
  intros (row & Hrow & Hdec). unfold fetch_secret.
  destruct (query_cases (fun d => sec_value <$> first (has_key key) (t_secrets d)) w) as (w1 & _ & H).
  rewrite Hrow in H. eauto.
Qed.

(** What [EnsureAppSecret] and its second half return when the key has a row. *)
Lemma create_secret_held key raw w :
  holds_secret key raw (t_secrets (w_db w)) ->
  (create_secret key w).1 = Ok raw \/ exists e, (create_secret key w).1 = Err e.
Proof.
  intros Hh. unfold create_secret. rewrite bind_run.
  destruct (rand_read 32 w) as [[buf|e] w1] eqn:E; [|right; by eexists].
  assert (w_db w1 = w_db w) as Hw1.
  { unfold rand_read in E. case_bool_decide; [|done]. by injection E as <- <-. }
  rewrite <- Hw1 in Hh. set (v := Base64.EncodeToString buf).
  assert (exists m w2, sql (insert_secret key v) w1 = (Err m, w2) /\ w_db w2 = w_db w1) as (m & w2 & E2 & Hw2).
  { destruct (sql_cases (insert_secret key v) w1) as [(w2 & E2 & Hw2)|(w2 & E2 & Hw2)]; [eauto|].
    rewrite (insert_secret_held _ raw) in E2, Hw2 by done. eauto. }
  rewrite (bind_eq _ _ _ _ _ E2); cbv beta iota. rewrite <- Hw2 in Hh.
  destruct (fetch_secret_held _ _ _ Hh) as (w3 & x & Hx & [E3|E3]); rewrite (bind_eq _ _ _ _ _ E3);
    cbv beta iota; [right; by eexists|]. rewrite Hx. by left.
Qed.

Lemma EnsureAppSecret_held key raw w :
  holds_secret key raw (t_secrets (w_db w)) ->
  (EnsureAppSecret key w).1 = Ok raw \/ exists e, (EnsureAppSecret key w).1 = Err e.
Proof.
  intros Hh. unfold EnsureAppSecret.
  destruct (fetch_secret_held _ _ _ Hh) as (w3 & x & Hx & [E3|E3]); rewrite (bind_eq _ _ _ _ _ E3);
    cbv beta iota; [right; by eexists|]. rewrite Hx. by left.
Qed.

(** A successful call leaves the secret it returned in the table; when there was
    no row, the secret is 32 fresh bytes. *)
Lemma EnsureAppSecret_stores key raw w :
  Forall is_byte (w_rand w) -> (EnsureAppSecret key w).1 = Ok raw ->
  holds_secret key raw (t_secrets (w_db (EnsureAppSecret key w).2))
  /\ (first (has_key key) (t_secrets (w_db w)) = None -> raw = take 32 (w_rand w) /\ length raw = 32%nat).
Proof.
  intros Hb. unfold EnsureAppSecret, fetch_secret.
  destruct (query_cases (fun d => sec_value <$> first (has_key key) (t_secrets d)) w) as (w1 & Hw1 & [E|E]).
  { rewrite (bind_eq _ _ _ _ _ E); discriminate. }
  assert (Hr : w_rand w1 = w_rand w).
  { revert E. unfold query, sql. destruct (hd false _); intros [= <-]; done. }
  rewrite (bind_eq _ _ _ _ _ E); cbv beta iota. clear E.
  destruct (first (has_key key) (t_secrets (w_db w))) as [row|] eqn:Hrow; cbn [fmap option_fmap option_map].
  { destruct (Base64.DecodeString (sec_value row)) as [r|] eqn:Hd; [|discriminate]. intros [= ->].
    split; [|done]. exists row. cbn [mret M_ret snd]. by rewrite Hw1. }
  unfold create_secret. rewrite bind_run.
  unfold rand_read at 1 2. case_bool_decide as Hlen; [|discriminate]. cbv beta iota.
  set (w2 := set_rand (drop 32 (w_rand w1)) w1). set (buf := take 32 (w_rand w1)).
  assert (Hnone : existsb (has_key key) (t_secrets (w_db w2)) = false).
  { apply not_true_is_false. intros (x & Hx & Hk)%existsb_exists.
    apply list_elem_of_In in Hx. cbn in Hx. rewrite Hw1 in Hx.
    by rewrite (proj1 (first_None _ _) Hrow x Hx) in Hk. }
  destruct (sql_cases (insert_secret key (Base64.EncodeToString buf)) w2) as [(w3 & E3 & Hw3)|(w3 & E3 & Hw3)].
  - rewrite (bind_eq _ _ _ _ _ E3); cbv beta iota. unfold fetch_secret.
    destruct (query_cases (fun d => sec_value <$> first (has_key key) (t_secrets d)) w3) as (w4 & Hw4 & [E4|E4]);
      rewrite (bind_eq _ _ _ _ _ E4); cbv beta iota; [discriminate|].
    rewrite Hw3. cbn -[first]. rewrite Hw1, Hrow. discriminate.
  - unfold insert_secret in E3, Hw3. rewrite Hnone in E3, Hw3. cbn [fst snd] in E3, Hw3.
    rewrite (bind_eq _ _ _ _ _ E3); cbv beta iota. intros [= <-]. split.
    + eexists. cbn [mret M_ret snd]. rewrite Hw3. cbn -[first]. rewrite first_app, Hw1, Hrow. cbn.
      unfold has_key. cbn. rewrite String.eqb_refl. split; [done|]. cbn. apply base64_roundtrip.
      apply Forall_take. by rewrite Hr.
    + intros _. unfold buf. rewrite Hr in *. rewrite length_take. split; [done|]. lia.
Qed.

(** in a database the server can reach, a token verifies for a resource
    exactly when it has a row for that resource that is neither revoked nor past
    its expiry second, and every other answer is the same error. *)
Theorem token_verifies (hash : list Z) (rtype rid : string) (w : World C) :
  calm w -> well_formed (w_db w) ->
  (is_ok (VerifyAPIToken hash rtype rid w).1 = true <->
   exists row, row ∈ t_tokens (w_db w) /\ tk_hash row = Hex.EncodeToString hash
     /\ tk_type row = rtype /\ tk_resource row = rid /\ tk_revoked row = None
     /\ (forall e, tk_expires row = Some e -> Unix (w_clock w) < e))
  /\ (forall e, (VerifyAPIToken hash rtype rid w).1 = Err e -> e = invalid_token).
Proof.
  intros Hc Hw. pose proof (verify_cases hash rtype rid w) as H.
  assert (Hne : (VerifyAPIToken hash rtype rid w).1 <> Err driver_error).
  { unfold VerifyAPIToken. rewrite bind_now.
    rewrite (bind_eq _ _ _ _ _ (query_calm _ _ (calm_advance _ Hc))). cbv beta iota.
    repeat case_goal; try done. rewrite bind_run. by destruct (exec _ _). }
  destruct (VerifyAPIToken hash rtype rid w) as [r w']. cbn [fst] in *. destruct H as [->|H]; [done|].
  set (h := Hex.EncodeToString hash) in *.
  assert (Hsel : forall row, row ∈ t_tokens (w_db w) -> tk_hash row = h -> tk_type row = rtype -> tk_resource row = rid ->
            first (for_resource h rtype rid) (t_tokens (w_db w)) = Some row).
  { intros row Hin H1 H2 H3. apply (first_unique tk_hash); [apply Hw|done| |].
    - unfold for_resource, has_hash. rewrite H1, H2, H3, !String.eqb_refl. done.
    - intros y Hy. unfold for_resource, has_hash in Hy. b2p. congruence. }
  destruct (first (for_resource h rtype rid) (t_tokens (w_db w))) as [row|] eqn:E.
  - pose proof (first_Some _ _ _ E) as [Hin Hf]. unfold for_resource, has_hash in Hf. b2p.
    unfold token_active in H. split.
    + split.
      * intros Hok. exists row. do 4 (split; [done|]). destruct (tk_revoked row); subst r; [done|].
        split; [done|]. intros e He. rewrite He in Hok. cbn in Hok.
        destruct (Unix (w_clock w) <? e) eqn:Hlt; [|done]. by b2p.
      * intros (row' & Hin' & H1' & H2' & H3' & Hr & He).
        assert (row' = row) as -> by (pose proof (Hsel row' Hin' H1' H2' H3'); congruence).
        subst r. rewrite Hr. destruct (tk_expires row) as [e|]; [|done].
        by rewrite (proj2 (Z.ltb_lt _ _) (He e eq_refl)).
    + intros e ->. by destruct (_ && _) in H; congruence.
  - split; [|intros e ->; congruence]. subst r. split; [done|].
    intros (row' & Hin' & H1' & H2' & H3' & _). by specialize (Hsel row' Hin' H1' H2' H3').
Qed.

(** after a token has been revoked it never verifies again, whatever
    operations follow (also the removal of dead rows), as long as the same
    token is not issued anew. *)
Theorem revoked_stays_invalid (prefix reason : string) (hash : list Z) (rtype rid : string) (row : TokenRow)
    (l : list op) (w : World C) :
  calm w -> well_formed (w_db w) ->
  row ∈ t_tokens (w_db w) -> tk_prefix row = prefix -> tk_hash row = Hex.EncodeToString hash ->
  existsb (issues (Hex.EncodeToString hash)) l = false ->
  let w1 := (RevokeAPIToken prefix reason w).2 in
  is_ok (VerifyAPIToken hash rtype rid (run_ops l w1).2).1 = false.
Proof.
  intros Hc Hw Hin Hp Hh Hl. cbv zeta. set (h := Hex.EncodeToString hash) in *.
  assert (Hdead : dead h (t_tokens (w_db (RevokeAPIToken prefix reason w).2))).
  { unfold RevokeAPIToken. rewrite bind_now, (bind_eq _ _ _ _ _ (exec_calm _ _ (calm_advance _ Hc))).
    cbn. intros t (y & Hy & ->)%upd_elem Heq.
    destruct (revocable prefix y) eqn:Hr; [by cbn|].
    assert (y = row) as ->.
    { assert (first (has_hash h) (t_tokens (w_db w)) = Some y).
      - apply (first_unique tk_hash); [apply Hw|done|by apply String.eqb_eq|].
        intros z Hz. apply String.eqb_eq in Hz. congruence.
      - assert (first (has_hash h) (t_tokens (w_db w)) = Some row); [|congruence].
        apply (first_unique tk_hash); [apply Hw|done|by apply String.eqb_eq|].
        intros z Hz. apply String.eqb_eq in Hz. congruence. }
    unfold revocable in Hr. rewrite Hp, String.eqb_refl in Hr. cbn in Hr. by destruct (tk_revoked row). }
  destruct (dead_ops h l Hl _ Hdead) as [Hd _].
  set (w2 := (run_ops l _).2) in *. pose proof (verify_cases hash rtype rid w2) as H.
  destruct (VerifyAPIToken hash rtype rid w2) as [r w3]. cbn. destruct H as [->|H]; [done|].
  destruct (first _ _) as [t|] eqn:E; [|by subst r].
  apply first_Some in E as [Hti Htf]. unfold for_resource, has_hash in Htf. b2p.
  destruct (Hd t Hti H0) as [x Hx]. subst r. unfold token_active. by rewrite Hx.
Qed.

(** an application secret is generated once: the call that finds no row
    returns 32 random bytes, and from then on every call for the key returns
    these bytes (or fails in the driver), whatever happens in between; so does a
    call that had found no row before the other inserted it. *)
Theorem app_secret_stable (key : string) (raw : list Z) (l : list op) (w : World C) :
  Forall is_byte (w_rand w) -> (EnsureAppSecret key w).1 = Ok raw ->
  (first (has_key key) (t_secrets (w_db w)) = None -> length raw = 32%nat)
  /\ (let w' := (run_ops l (EnsureAppSecret key w).2).2 in
      ((EnsureAppSecret key w').1 = Ok raw \/ exists e, (EnsureAppSecret key w').1 = Err e)
      /\ ((create_secret key w').1 = Ok raw \/ exists e, (create_secret key w').1 = Err e)).
Proof.
  intros Hb Hok. destruct (EnsureAppSecret_stores key raw w Hb Hok) as [Hs Hn]. split; [apply Hn|].
  destruct (secret_ops key raw l _ Hs) as [Hh _]. cbv zeta.
  split; [by apply EnsureAppSecret_held | by apply create_secret_held].
Qed.
End ops.

(** ** Witnesses *)

Definition sample_paste (id : string) (burn created : Z) : Paste :=
  {| p_id := id; p_title := "t"; p_content := "body"; p_content_type := "text/plain"; p_language := "text";
     p_visibility := 0; p_is_link := false; p_expires := None; p_burn := burn; p_hash := ""; p_views := 0;
     p_created := created; p_updated := created |}.

Definition sample_world (d : DBState) : World noopCache :=
  {| w_db := d; w_cache := None; w_clock := 1000 * Second; w_ticks := []; w_rand := repeat 7 64; w_faults := [];
     w_metrics := no_metrics |}.

Definition sample_token : TokenRow :=
  {| tk_id := 1; tk_hash := Hex.EncodeToString [1; 2]; tk_prefix := "tok_aaaa"; tk_type := "paste"; tk_resource := "a";
     tk_created := 0; tk_expires := None; tk_last_used := None; tk_revoked := None; tk_reason := None |}.

Definition sample_db : DBState :=
  with_token_seq 1 (with_tokens [sample_token]
    (with_pastes [sample_paste "a" 2 10; sample_paste "b" 0 30; sample_paste "c" 0 20] empty_db)).

Lemma sample_wf : well_formed sample_db.
Proof.
  split; cbn; try by apply (bool_decide_unpack _); vm_compute.
  - intros p Hp. repeat (apply elem_of_cons in Hp as [->|Hp]; [cbn; lia|]). set_solver.
  - intros t ->%list_elem_of_singleton. cbn. lia.
Qed.

Definition sample_ops : list op := [OpView "a"; OpDeleteExpired; OpView "a"; OpView "a"; OpVerify [1; 2] "paste" "a"].

Lemma tables_invariant_witness :
  let l := OpCreatePaste (sample_paste "a" 2 10) :: sample_ops in
  let w := sample_world empty_db in
  let w' := (run_ops l w).2 in
  (run_ops l w).1 = [true; true; true; true; false; false]
  /\ well_formed (w_db w')
  /\ let '(r, w'') := DeleteBurnedPastes w' in (r = Ok 0 \/ r = Err driver_error) /\ w_db w'' = w_db w'.
Proof.
  cbv zeta. split; [vm_compute; reflexivity|]. apply tables_invariant; [|reflexivity].
  repeat constructor.
Defined.

Lemma views_bounded_witness :
  (run_ops sample_ops (sample_world sample_db)).1 = [true; true; true; false; true]
  /\ counted "a" sample_ops (run_ops sample_ops (sample_world sample_db)).1 <= 2.
Proof.
  split; [vm_compute; reflexivity|].
  apply (views_bounded "a" (sample_paste "a" 2 10));
    [apply sample_wf | reflexivity | cbn; lia | repeat constructor | reflexivity].
Defined.

Lemma pages_partition_witness :
  exists all : list Paste,
    Sorted (desc p_created) all
    /\ all ≡ₚ keep (listed (1000 * Second)) (t_pastes sample_db)
    /\ (forall page, 1 <= page -> (page - 1) * 2 <= max_int64 ->
         (GetPublicPastes page 2 (sample_world sample_db)).1
         = Ok (ToListItem <$> take 2 (drop (Z.to_nat ((page - 1) * 2)) all), Z.of_nat (length all)))
    /\ (forall k : nat, Z.of_nat k * 2 <= max_int64 -> Z.of_nat (length all) <= Z.of_nat k * 2 ->
         exists pages, Forall2 (fun i page => (GetPublicPastes (Z.of_nat i + 1) 2 (sample_world sample_db)).1
                                              = Ok (page, Z.of_nat (length all))) (seq 0 k) pages
                       /\ concat pages = ToListItem <$> all).
Proof. apply (pages_partition (sample_world sample_db) 2); [reflexivity | lia]. Defined.

Lemma last_page_wraps_witness :
  (GetPublicPastes max_int64 2 (sample_world sample_db)).1 = (GetPublicPastes 1 2 (sample_world sample_db)).1
  /\ is_ok (GetPublicPastes 1 2 (sample_world sample_db)).1 = true.
Proof.
  split; [apply (last_page_wraps (sample_world sample_db) 1); [reflexivity|lia] | vm_compute; reflexivity].
Defined.

Lemma token_verifies_witness :
  is_ok (VerifyAPIToken [1; 2] "paste" "a" (sample_world sample_db)).1 = true.
Proof.
  apply (token_verifies [1; 2] "paste" "a" (sample_world sample_db)); [reflexivity | apply sample_wf |].
  exists sample_token. repeat split; [by apply list_elem_of_singleton | discriminate].
Defined.

Lemma revoked_stays_invalid_witness :
  is_ok (VerifyAPIToken [1; 2] "paste" "a" (sample_world sample_db)).1 = true
  /\ is_ok (VerifyAPIToken [1; 2] "paste" "a"
       (run_ops sample_ops (RevokeAPIToken "tok_aaaa" "leaked" (sample_world sample_db)).2).2).1 = false.
Proof.
  split; [vm_compute; reflexivity|].
  apply (revoked_stays_invalid "tok_aaaa" "leaked" [1; 2] "paste" "a" sample_token);
    [reflexivity | apply sample_wf | by apply list_elem_of_singleton | reflexivity.. ].
Defined.

Lemma app_secret_stable_witness :
  (first (has_key "k") (t_secrets (w_db (sample_world sample_db))) = None -> length (repeat 7 32) = 32%nat)
  /\ (let w' := (run_ops sample_ops (EnsureAppSecret "k" (sample_world sample_db)).2).2 in
      ((EnsureAppSecret "k" w').1 = Ok (repeat 7 32) \/ exists e, (EnsureAppSecret "k" w').1 = Err e)
      /\ ((create_secret "k" w').1 = Ok (repeat 7 32) \/ exists e, (create_secret "k" w').1 = Err e)).
Proof.
  apply (app_secret_stable "k" (repeat 7 32) sample_ops (sample_world sample_db)).
  - apply Forall_forall. intros x Hx%list_elem_of_In%repeat_spec. subst x. unfold is_byte. lia.
  - vm_compute. reflexivity.
Defined.
