(* ===== verification/GoSniff.v ===== *)
(** * Content sniffing (net/http.DetectContentType)

    The signature table of the standard library, in its order, on the first 512
    bytes of the content. *)

From S2P Require Import Prelude GoStr.

Module Sniff.

Definition isWS (b : Z) : bool := (b =? 9) || (b =? 10) || (b =? 12) || (b =? 13) || (b =? 32).
Definition isTT (b : Z) : bool := (b =? 32) || (b =? 62).

Fixpoint skip_ws (l : list Z) : list Z :=
  match l with b :: r => if isWS b then skip_ws r else l | [] => [] end.

(** [htmlSig]: the tag without regard to case, then a tag-terminating byte. *)
Fixpoint html_match (h l : list Z) : bool :=
  match h, l with
  | [], b :: _ => isTT b
  | _, [] => false
  | p :: h, b :: l => (p =? (if Utf8.in_rng 65 90 p then Z.land b 223 else b)) && html_match h l
  end.

(** [maskedSig] and [exactSig] (all bits of the mask set). *)
Fixpoint masked_match (pat : list (Z * Z)) (l : list Z) : bool :=
  match pat, l with
  | [], _ => true
  | _, [] => false
  | (m, p) :: pat, b :: l => (Z.land b m =? p) && masked_match pat l
  end.

Definition exact (l : list Z) : list (Z * Z) := (fun p => (255, p)) <$> l.
Definition any (n : nat) : list (Z * Z) := replicate n (0, 0).

Definition mp4_match (l : list Z) : bool :=
  match l with
  | b0 :: b1 :: b2 :: b3 :: _ =>
      let boxSize := ((b0 * 256 + b1) * 256 + b2) * 256 + b3 in
      (12 <=? Z.of_nat (length l)) && (boxSize <=? Z.of_nat (length l)) && (boxSize mod 4 =? 0)
      && masked_match (exact (bytes "ftyp")) (drop 4 l)
      && existsb (fun i => let st := (8 + 4 * i)%nat in
                           (Z.of_nat st <? boxSize) && negb (st =? 12)%nat
                           && masked_match (exact (bytes "mp4")) (drop st l)) (seq 0 126)
  | _ => false
  end.

Definition is_text_byte (b : Z) : bool :=
  negb ((b <=? 8) || (b =? 11) || Utf8.in_rng 14 26 b || Utf8.in_rng 28 31 b).

Inductive sig : Type :=
  | Html (tag : string)
  | Xml
  | Masked (pat : list (Z * Z)) (ct : string)
  | Mp4
  | TextSig.

Definition text_utf8 : string := "text/plain; charset=utf-8".

Definition match_sig (l : list Z) (s : sig) : option string :=
  match s with
  | Html tag => if html_match (bytes tag) (skip_ws l) then Some "text/html; charset=utf-8" else None
  | Xml => if masked_match (exact (bytes "<?xml")) (skip_ws l) then Some "text/xml; charset=utf-8" else None
  | Masked pat ct => if masked_match pat l then Some ct else None
  | Mp4 => if mp4_match l then Some "video/mp4" else None
  | TextSig => if forallb is_text_byte (skip_ws l) then Some text_utf8 else None
  end.

Definition html_tags : list string :=
  ["<!DOCTYPE HTML"; "<HTML"; "<HEAD"; "<SCRIPT"; "<IFRAME"; "<H1"; "<DIV"; "<FONT"; "<TABLE"; "<A"; "<STYLE";
   "<TITLE"; "<B"; "<BODY"; "<BR"; "<P"; "<!--"].

Definition riff (t : string) : list (Z * Z) := (exact (bytes "RIFF") ++ any 4 ++ exact (bytes t))%list.

Definition signatures : list sig :=
  ((Html <$> html_tags) ++
   [Xml;
    Masked (exact (bytes "%PDF-")) "application/pdf";
    Masked (exact (bytes "%!PS-Adobe-")) "application/postscript";
    Masked (exact [254; 255] ++ any 2) "text/plain; charset=utf-16be";
    Masked (exact [255; 254] ++ any 2) "text/plain; charset=utf-16le";
    Masked (exact [239; 187; 191] ++ any 1) text_utf8;
    Masked (exact [0; 0; 1; 0]) "image/x-icon";
    Masked (exact [0; 0; 2; 0]) "image/x-icon";
    Masked (exact (bytes "BM")) "image/bmp";
    Masked (exact (bytes "GIF87a")) "image/gif";
    Masked (exact (bytes "GIF89a")) "image/gif";
    Masked (riff "WEBPVP") "image/webp";
    Masked (exact (137 :: bytes "PNG" ++ [13; 10; 26; 10])) "image/png";
    Masked (exact [255; 216; 255]) "image/jpeg";
    Masked (exact (bytes "FORM") ++ any 4 ++ exact (bytes "AIFF")) "audio/aiff";
    Masked (exact (bytes "ID3")) "audio/mpeg";
    Masked (exact (bytes "OggS" ++ [0])) "application/ogg";
    Masked (exact (bytes "MThd" ++ [0; 0; 0; 6])) "audio/midi";
    Masked (riff "AVI ") "video/avi";
    Masked (riff "WAVE") "audio/wave";
    Mp4;
    Masked (exact [26; 69; 223; 163]) "video/webm";
    Masked (any 34 ++ exact (bytes "LP")) "application/vnd.ms-fontobject";
    Masked (exact [0; 1; 0; 0]) "font/ttf";
    Masked (exact (bytes "OTTO")) "font/otf";
    Masked (exact (bytes "ttcf")) "font/collection";
    Masked (exact (bytes "wOFF")) "font/woff";
    Masked (exact (bytes "wOF2")) "font/woff2";
    Masked (exact [31; 139; 8]) "application/x-gzip";
    Masked (exact (bytes "PK" ++ [3; 4])) "application/zip";
    Masked (exact (bytes "Rar!" ++ [26; 7; 0])) "application/x-rar-compressed";
    Masked (exact (bytes "Rar!" ++ [26; 7; 1; 0])) "application/x-rar-compressed";
    Masked (exact [0; 97; 115; 109]) "application/wasm";
    TextSig])%list.

Fixpoint first_match (l : list Z) (sigs : list sig) : string :=
  match sigs with
  | [] => "application/octet-stream"
  | s :: r => match match_sig l s with Some ct => ct | None => first_match l r end
  end.

End Sniff.

Definition DetectContentType (s : string) : string :=
  Sniff.first_match (take 512 (bytes s)) Sniff.signatures.

Lemma DetectContentType_nonempty s : DetectContentType s <> "".
Proof.
  unfold DetectContentType. generalize (take 512 (bytes s)) as l. intros l.
  enough (forall sigs, Forall (fun x => match x with Sniff.Masked _ ct => ct <> "" | _ => True end) sigs ->
            Sniff.first_match l sigs <> "") as H.
  { apply H. repeat constructor; discriminate. }
  induction sigs as [|x sigs IH]; intros Hs; cbn; [done|]. inversion_clear Hs as [|? ? Hx Hr].
  destruct (Sniff.match_sig l x) as [ct|] eqn:E; [|auto].
  destruct x; cbn -[Sniff.mp4_match Sniff.skip_ws] in E; case_match; simplify_eq; done.
Qed.

(** Sniffing only looks at the first 512 bytes. *)
Lemma take_bytes n s : take n (bytes s) = bytes (Strings.take n s).
Proof.
  unfold Strings.take. revert n. induction s as [|c s IH]; intros [|n]; cbn; try done.
  unfold bytes in *. cbn. f_equal. apply IH.
Qed.

Lemma DetectContentType_take s : DetectContentType (Strings.take 512 s) = DetectContentType s.
Proof. unfold DetectContentType. rewrite <- !take_bytes, take_take. done. Qed.
