(* ===== verification/Http.v ===== *)
(** * HTTP requests, responses and JSON (net/http and encoding/json as the
    handlers use them; src/src/common/httputil/detect.go)

    A request is what net/http hands to a handler: header and query lookups,
    the part of the body that has not been read, and what the form parser makes
    of the body.  A response is a status, headers and a body; JSON bodies are
    kept as values.  The JSON text of a value and its parser are the interface
    [JsonText], with the law that parsing a rendered value gives it back with
    every string made valid UTF-8, as encoding/json does. *)

From S2P Require Import Prelude GoStr GoTime Model.

(** ** JSON values *)

(** A number is its literal. *)
Inductive json : Type :=
  | JNull
  | JBool (b : bool)
  | JNum (literal : string)
  | JStr (s : string)
  | JArr (l : list json)
  | JObj (fields : list (string * json)).

Definition JInt (z : Z) : json := JNum (Strconv.Itoa z).

(** Every string re-encoded as valid UTF-8. *)
Fixpoint sanitize (j : json) : json :=
  match j with
  | JStr s => JStr (Utf8.ToValid s)
  | JArr l => JArr (List.map sanitize l)
  | JObj l => JObj (List.map (fun kv => (Utf8.ToValid (fst kv), sanitize (snd kv))) l)
  | _ => j
  end.

(** encoding/json and the RFC 3339 text of instants (time.Time.MarshalJSON). *)
Class JsonText := {
  render : json -> string;
  parse : string -> option json;
  time_text : Z -> string;
  parse_time : string -> option Z;
}.

Class JsonLaws `{JsonText} := {
  parse_render : forall j, parse (render j) = Some (sanitize j);
  parse_time_text : forall t, parse_time (time_text t) = Some t;
  time_text_valid : forall t, Utf8.ToValid (time_text t) = time_text t;
}.

(** The first value of a stream, as [json.Decoder.Decode] reads it, whatever follows. *)
Class JsonStream `{JsonText} := { parse_first : string -> option json; parse_first_all : forall s j, parse s = Some j -> parse_first s = Some j }.

(** ** Structs and JSON

    The keys of an object are matched without regard to case; the last match
    wins. *)

Definition fold_rune `{Unicode} (r : Z) : Z := Unicode_.ToLower (Unicode_.ToUpper r).
Definition EqualFold `{Unicode} (a b : string) : bool :=
  bool_decide ((fun p => fold_rune (fst p)) <$> Utf8.runes a = (fun p => fold_rune (fst p)) <$> Utf8.runes b).

Definition field `{Unicode} (k : string) (l : list (string * json)) : option json :=
  snd <$> first (fun kv => EqualFold (fst kv) k) (rev l).

(** Decoding into a field: absent and null leave the zero value; [None] is a
    type error. *)
Definition as_string (j : option json) : option string :=
  match j with
  | None | Some JNull => Some ""
  | Some (JStr s) => Some s
  | Some _ => None
  end.
Definition as_bool (j : option json) : option bool :=
  match j with None | Some JNull => Some false | Some (JBool b) => Some b | Some _ => None end.
Definition as_int (j : option json) : option Z :=
  match j with
  | None | Some JNull => Some 0
  | Some (JNum lit) => match Strconv.ParseInt lit with (z, None) => Some z | _ => None end
  | Some _ => None
  end.

Section structs.
Context `{Unicode} `{JsonText}.

Definition as_time (j : option json) : option Z :=
  match j with
  | None | Some JNull => Some zero_time
  | Some (JStr s) => parse_time s
  | Some _ => None
  end.
Definition as_time_ptr (j : option json) : option (option Z) :=
  match j with
  | None | Some JNull => Some None
  | Some (JStr s) => Some <$> parse_time s
  | Some _ => None
  end.

Definition omitempty (k v : string) : list (string * json) := if String.eqb v "" then [] else [(k, JStr v)].
Definition time_field (k : string) (t : option Z) : list (string * json) :=
  match t with None => [] | Some t => [(k, JStr (time_text t))] end.

(** [model.Paste]: the delete-token hash has the tag [json:"-"]. *)
Definition paste_json (p : Paste) : json :=
  JObj ([("id", JStr (p_id p)); ("title", JStr (p_title p))]
        ++ omitempty "content" (p_content p) ++ omitempty "content_type" (p_content_type p)
        ++ [("language", JStr (p_language p)); ("visibility", JInt (p_visibility p)); ("is_link", JBool (p_is_link p))]
        ++ time_field "expires_at" (p_expires p)
        ++ [("burn_after", JInt (p_burn p)); ("views", JInt (p_views p));
            ("created_at", JStr (time_text (p_created p))); ("updated_at", JStr (time_text (p_updated p)))])%list.

(** [json.Unmarshal] into a zero [model.Paste]. *)
Definition paste_of_json (j : json) : option Paste :=
  match j with
  | JObj l =>
      id ← as_string (field "id" l);
      title ← as_string (field "title" l);
      content ← as_string (field "content" l);
      ctype ← as_string (field "content_type" l);
      lang ← as_string (field "language" l);
      vis ← as_int (field "visibility" l);
      link ← as_bool (field "is_link" l);
      exp ← as_time_ptr (field "expires_at" l);
      burn ← as_int (field "burn_after" l);
      views ← as_int (field "views" l);
      created ← as_time (field "created_at" l);
      updated ← as_time (field "updated_at" l);
      Some {| p_id := id; p_title := title; p_content := content; p_content_type := ctype; p_language := lang;
              p_visibility := vis; p_is_link := link; p_expires := exp; p_burn := burn; p_hash := "";
              p_views := views; p_created := created; p_updated := updated |}
  | JNull =>
      Some {| p_id := ""; p_title := ""; p_content := ""; p_content_type := ""; p_language := ""; p_visibility := 0;
              p_is_link := false; p_expires := None; p_burn := 0; p_hash := ""; p_views := 0;
              p_created := zero_time; p_updated := zero_time |}
  | _ => None
  end.

Definition item_json (i : PasteListItem) : json :=
  JObj ([("id", JStr (li_id i)); ("title", JStr (li_title i)); ("language", JStr (li_language i)); ("views", JInt (li_views i))]
        ++ time_field "expires_at" (li_expires i)
        ++ [("burn_after", JInt (li_burn i)); ("created_at", JStr (time_text (li_created i)))])%list.

Definition created_json (c : CreateResponse) : json :=
  JObj ([("id", JStr (cr_id c)); ("title", JStr (cr_title c)); ("language", JStr (cr_language c));
         ("visibility", JInt (cr_visibility c)); ("is_link", JBool (cr_is_link c)); ("burn_after", JInt (cr_burn c))]
        ++ time_field "expires_at" (cr_expires c)
        ++ [("views", JInt (cr_views c)); ("created_at", JStr (time_text (cr_created c)));
            ("link", JStr (cr_link c)); ("owner_token", JStr (cr_owner_token c))])%list.
End structs.

(** ** Requests *)

Definition values : Type := list (string * string).

(** [Values.Get]: the first value, or the empty string. *)
Definition Get (l : values) (k : string) : string :=
  match first (fun kv => String.eqb (fst kv) k) l with Some kv => snd kv | None => "" end.

Record Upload := { up_field : string; up_filename : string; up_bytes : string }.

(** What ParseForm finds in a urlencoded POST body: the fields it could decode,
    and whether some part was malformed. *)
Record UrlForm := { uf_values : values; uf_malformed : bool }.

(** What ParseMultipartForm finds in a multipart body. *)
Record MultiForm := { mf_values : values; mf_files : list Upload; mf_malformed : bool }.

Record Request := {
  r_path : string;
  r_id : string;
  r_host : string;
  r_tls : bool;
  r_header : string -> string;
  r_txt : bool;
  r_query : values;
  r_body : string;
  r_urlform : option UrlForm;
  r_multipart : option MultiForm;
  r_parsed : bool;
}.

(** The form has been parsed once: a second ParseForm reports no error. *)
Definition mark_parsed (r : Request) : Request :=
  {| r_path := r_path r; r_id := r_id r; r_host := r_host r; r_tls := r_tls r; r_header := r_header r;
     r_txt := r_txt r; r_query := r_query r; r_body := r_body r; r_urlform := r_urlform r;
     r_multipart := r_multipart r; r_parsed := true |}.

(** A multipart body that cannot be parsed contributes nothing. *)
Definition form_values (r : Request) : values :=
  match r_urlform r, r_multipart r with
  | Some f, _ => uf_values f ++ r_query r
  | None, Some m => if mf_malformed m then r_query r else r_query r ++ mf_values m
  | None, None => r_query r
  end%list.

(** After [ParseForm] alone the fields of a multipart body are not there. *)
Definition plain_form_values (r : Request) : values :=
  match r_urlform r with Some f => uf_values f ++ r_query r | None => r_query r end%list.

Definition FormValue (r : Request) (k : string) : string := Get (form_values r) k.
Definition plain_FormValue (r : Request) (k : string) : string := Get (plain_form_values r) k.

Definition PostFormValue (r : Request) (k : string) : string :=
  match r_urlform r, r_multipart r with
  | Some f, _ => Get (uf_values f) k
  | None, Some m => if mf_malformed m then "" else Get (mf_values m) k
  | None, None => ""
  end.

Definition FormFile (r : Request) (k : string) : option Upload :=
  match r_multipart r with
  | Some m => if mf_malformed m then None else first (fun u => String.eqb (up_field u) k) (mf_files m)
  | None => None
  end.

(** ** Responses *)

Inductive Body : Type :=
  | BJson (j : json)
  | BText (s : string)
  | BRedirect (url : string).

Record Response := { status : Z; headers : list (string * string); body : Body }.

Definition writeJSON (status : Z) (j : json) : Response :=
  {| status := status; headers := [("Content-Type", "application/json")]; body := BJson j |}.

Definition text_plain : string * string := ("Content-Type", "text/plain; charset=utf-8").
Definition text_ok (s : string) : Response := {| status := 200; headers := [text_plain]; body := BText s |}.

Definition newline : string := String "010" "".
Definition tab : string := String "009" "".

(** [http.Error]. *)
Definition http_Error (msg : string) (status : Z) : Response :=
  {| status := status; headers := [text_plain; ("X-Content-Type-Options", "nosniff")]; body := BText (msg ++ newline) |}.

(** [http.Redirect]. *)
Definition http_Redirect (url : string) (status : Z) : Response :=
  {| status := status; headers := [("Location", url)]; body := BRedirect url |}.

(** ** Client detection (common/httputil/detect.go) *)

Section detect.
Context `{Unicode}.

Definition IsOurCliClient (r : Request) : bool :=
  Strings.HasPrefix (r_header r "User-Agent") "pastebin-cli/".

Definition textBrowsers : list string :=
  ["lynx/"; "w3m/"; "links "; "links/"; "elinks/"; "browsh/"; "carbonyl/"; "netsurf"].

Definition IsTextBrowser (r : Request) : bool :=
  let ua := StringsU.ToLower (r_header r "User-Agent") in
  existsb (Strings.Contains ua) textBrowsers.

Definition httpTools : list string :=
  ["curl/"; "wget/"; "httpie/"; "libcurl/"; "python-requests/"; "go-http-client/"; "axios/"; "node-fetch/"].

Definition IsHttpTool (r : Request) : bool :=
  let ua := StringsU.ToLower (r_header r "User-Agent") in
  if existsb (Strings.Contains ua) httpTools then true else String.eqb ua "".

Definition IsNonInteractiveClient (r : Request) : bool :=
  if IsOurCliClient r then false else if IsTextBrowser r then false else IsHttpTool r.

Definition GetAPIResponseFormat (r : Request) : string :=
  if Strings.HasSuffix (r_path r) ".txt" || r_txt r then "text"
  else
    let accept := r_header r "Accept" in
    if Strings.Contains accept "application/json" then "json"
    else if Strings.Contains accept "text/plain" then "text"
    else if IsNonInteractiveClient r then "text" else "json".
End detect.
