(* ===== verification/JsonProofs.v ===== *)
(** * What a paste becomes on its way through the cache

    Encoding a paste as JSON and decoding it again gives back the paste without
    its delete-token hash and with every string made valid UTF-8. *)

From S2P Require Import Prelude GoStr GoTime Model Http.

(** ** Parsing back a rendered integer *)

Lemma parse_digits_value d : forall n m,
  Strconv.parse_digits n (DecimalString.NilEmpty.string_of_uint d) = (m, None) -> m = du n d.
Proof.
  induction d as [|d IH|d IH|d IH|d IH|d IH|d IH|d IH|d IH|d IH|d IH]; intros n m;
    [cbn; congruence|..]; cbn [du DecimalString.NilEmpty.string_of_uint Strconv.parse_digits];
    match goal with |- context [Strconv.digit ?c] =>
      let v := eval vm_compute in (Strconv.digit c) in change (Strconv.digit c) with v end;
    cbv zeta iota beta; (destruct (_ <? 2 ^ 64) eqn:E; [apply IH | discriminate]).
Qed.

Lemma ParseUint_value p m :
  Strconv.ParseUint (DecimalString.NilZero.string_of_uint (Pos.to_uint p)) = (m, None) -> m = Z.pos p.
Proof.
  pose proof (DecimalPos.Unsigned.to_uint_nonnil p) as Hn.
  replace (DecimalString.NilZero.string_of_uint (Pos.to_uint p))
    with (DecimalString.NilEmpty.string_of_uint (Pos.to_uint p)) by (by destruct (Pos.to_uint p)).
  unfold Strconv.ParseUint. destruct (DecimalString.NilEmpty.string_of_uint (Pos.to_uint p)) as [|c r] eqn:E.
  { by destruct (Pos.to_uint p). }
  rewrite <- E. intros ->%parse_digits_value. by rewrite du_of_uint, DecimalPos.Unsigned.of_to.
Qed.

Lemma parse_digits_range s : forall n m, Strconv.parse_digits n s = (m, Some Strconv.ErrRange) -> m = 2 ^ 64 - 1.
Proof.
  induction s as [|c s IH]; intros n m; cbn [Strconv.parse_digits]; [discriminate|].
  destruct (Strconv.digit c); [|discriminate]. destruct (_ <? _); [apply IH | congruence].
Qed.

Lemma ParseUint_range s m : Strconv.ParseUint s = (m, Some Strconv.ErrRange) -> m = 2 ^ 64 - 1.
Proof. destruct s; [discriminate|]. apply parse_digits_range. Qed.

Lemma ParseInt_Itoa z m : Strconv.ParseInt (Strconv.Itoa z) = (m, None) -> m = z.
Proof.
  unfold Strconv.Itoa. destruct z as [|p|p]; [vm_compute; congruence|..];
    cbn [Z.to_int DecimalString.NilZero.string_of_int].
  - destruct (string_of_uint_head (Pos.to_uint p) (DecimalPos.Unsigned.to_uint_nonnil p)) as (c & r & E & E1 & E2).
    unfold Strconv.ParseInt. rewrite E, E1, E2, <- E.
    destruct (Strconv.ParseUint _) as [un [[]|]] eqn:Hu; [discriminate| |].
    + apply ParseUint_range in Hu as ->. discriminate.
    + apply ParseUint_value in Hu as ->. cbn [negb andb]. destruct (2 ^ 63 <=? Z.pos p); congruence.
  - unfold Strconv.ParseInt. change (Ascii.eqb "-" "+") with false. change (Ascii.eqb "-" "-") with true.
    cbv iota beta. destruct (Strconv.ParseUint _) as [un [[]|]] eqn:Hu; [discriminate| |].
    + apply ParseUint_range in Hu as ->. discriminate.
    + apply ParseUint_value in Hu as ->. cbn [negb andb]. destruct (2 ^ 63 <? Z.pos p); [discriminate|].
      intros [= <-]. done.
Qed.

Lemma as_int_JInt z m : as_int (Some (JInt z)) = Some m -> m = z.
Proof.
  cbn. destruct (Strconv.ParseInt (Strconv.Itoa z)) as [v [e|]] eqn:E; [discriminate|].
  intros [= ->]. by apply ParseInt_Itoa.
Qed.

(** ** The view of a paste *)

Definition json_view (p : Paste) : Paste :=
  {| p_id := Utf8.ToValid (p_id p); p_title := Utf8.ToValid (p_title p); p_content := Utf8.ToValid (p_content p);
     p_content_type := Utf8.ToValid (p_content_type p); p_language := Utf8.ToValid (p_language p);
     p_visibility := p_visibility p; p_is_link := p_is_link p; p_expires := p_expires p; p_burn := p_burn p;
     p_hash := ""; p_views := p_views p; p_created := p_created p; p_updated := p_updated p |}.

Section view.
Context `{Unicode} `{JsonLaws}.

(** Keys without upper-case letters are compared as they are. *)
Definition plain_key (k : string) : bool :=
  Strings.forall_byte (fun c => (byte c <? 128) && negb (Utf8.in_rng 65 90 (byte c))) k.

Lemma plain_key_ascii k : plain_key k = true -> StringsU.is_ascii k = true.
Proof.
  unfold plain_key, StringsU.is_ascii. induction k as [|c k IH]; cbn; [done|].
  intros H'. bsplit; auto.
Qed.

Lemma fold_plain k :
  plain_key k = true -> (fun p => fold_rune (fst p)) <$> Utf8.runes k = bytes k.
Proof.
  intros Hk. rewrite runes_ascii by by apply plain_key_ascii. rewrite <- list_fmap_compose.
  unfold plain_key in Hk. induction k as [|c k IH]; [done|]. cbn in Hk. bsplit. unfold bytes in *. cbn.
  f_equal; [|by apply IH]. unfold compose, fold_rune, Unicode_.ToUpper, Unicode_.ToLower. cbn.
  pose proof (byte_range c). rewrite H2. unfold Utf8.in_rng in *.
  destruct ((97 <=? byte c) && (byte c <=? 122)) eqn:E; b2p.
  - rewrite (proj2 (Z.ltb_lt (byte c - 32) 128)) by lia.
    rewrite (proj2 (Z.leb_le 65 (byte c - 32))), (proj2 (Z.leb_le (byte c - 32) 90)) by lia. cbn. lia.
  - rewrite (proj2 (Z.ltb_lt (byte c) 128)) by lia. by rewrite H4.
Qed.

Lemma bytes_inj a b : bytes a = bytes b -> a = b.
Proof. intros E. by rewrite <- (of_bytes_bytes a), E, of_bytes_bytes. Qed.

Lemma EqualFold_plain a b : plain_key a = true -> plain_key b = true -> EqualFold a b = String.eqb a b.
Proof.
  intros Ha Hb. unfold EqualFold. rewrite !fold_plain by done. apply eq_true_iff_eq.
  rewrite bool_decide_eq_true, String.eqb_eq. split; [apply bytes_inj | by intros ->].
Qed.

Lemma field_plain k l :
  plain_key k = true -> forallb (fun kv => plain_key (fst kv)) l = true ->
  field k l = snd <$> first (fun kv => String.eqb (fst kv) k) (rev l).
Proof.
  intros Hk Hl. unfold field, first. f_equal.
  assert (Hr : Forall (fun kv => plain_key (fst kv) = true) (rev l)).
  { apply Forall_rev, Forall_forall. intros x Hx. rewrite forallb_forall in Hl. by apply Hl, list_elem_of_In. }
  induction Hr as [|x r Hx Hr IH]; [done|]. cbn. rewrite EqualFold_plain by done. by rewrite IH.
Qed.

Lemma as_time_text t : as_time (Some (JStr (Utf8.ToValid (time_text t)))) = Some t.
Proof. cbn. by rewrite time_text_valid, parse_time_text. Qed.
Lemma as_time_ptr_text t : as_time_ptr (Some (JStr (Utf8.ToValid (time_text t)))) = Some (Some t).
Proof. cbn. by rewrite time_text_valid, parse_time_text. Qed.

Lemma sanitize_obj l :
  forallb (fun kv => plain_key (fst kv)) l = true ->
  sanitize (JObj l) = JObj (List.map (fun kv => (fst kv, sanitize (snd kv))) l).
Proof.
  cbn [sanitize]. intros Hl. f_equal. induction l as [|[k v] l IH]; [done|].
  cbn [List.map forallb fst snd] in *. bsplit.
  rewrite ToValid_ascii by by apply plain_key_ascii. by rewrite IH.
Qed.

Lemma bind_as_int {A} z (f : Z -> option A) q :
  as_int (Some (sanitize (JInt z))) ≫= f = Some q -> f z = Some q.
Proof.
  change (sanitize (JInt z)) with (JInt z).
  destruct (as_int (Some (JInt z))) as [m|] eqn:E; [|done]. by apply as_int_JInt in E as ->.
Qed.

Lemma paste_json_view p q : paste_of_json (sanitize (paste_json p)) = Some q -> q = json_view p.
Proof.
  unfold paste_json, omitempty, time_field.
  destruct (String.eqb (p_content p) "") eqn:Ec; destruct (String.eqb (p_content_type p) "") eqn:Et;
    destruct (p_expires p) as [e|] eqn:Ee; cbn [app];
    rewrite sanitize_obj by reflexivity; cbn [List.map fst snd sanitize]; unfold paste_of_json;
    rewrite !field_plain by reflexivity;
    cbn -[as_int as_time as_time_ptr Utf8.ToValid JInt];
    rewrite ?as_time_ptr_text, ?as_time_text; intros Hq;
    apply bind_as_int in Hq; cbn [mbind option_bind as_time_ptr] in Hq;
    apply bind_as_int in Hq; apply bind_as_int in Hq; cbn [mbind option_bind] in Hq;
    apply String.eqb_eq in Ec || apply String.eqb_neq in Ec;
    apply String.eqb_eq in Et || apply String.eqb_neq in Et;
    injection Hq as <-; unfold json_view; rewrite ?Ec, ?Et, ?Ee; reflexivity.
Qed.

Lemma bind_as_int_ok {A} z (f : Z -> option A) :
  in_int64 z -> as_int (Some (sanitize (JInt z))) ≫= f = f z.
Proof.
  intros Hz. change (sanitize (JInt z)) with (JInt z). unfold as_int, JInt.
  change Strconv.ParseInt with Strconv.Atoi. by rewrite Atoi_Itoa.
Qed.

(** Pastes whose numbers are machine integers survive. *)
Lemma paste_json_roundtrip p :
  in_int64 (p_visibility p) -> in_int64 (p_burn p) -> in_int64 (p_views p) ->
  paste_of_json (sanitize (paste_json p)) = Some (json_view p).
Proof.
  intros H1' H2' H3'. unfold paste_json, omitempty, time_field.
  destruct (String.eqb (p_content p) "") eqn:Ec; destruct (String.eqb (p_content_type p) "") eqn:Et;
    destruct (p_expires p) as [e|] eqn:Ee; cbn [app];
    rewrite sanitize_obj by reflexivity; cbn [List.map fst snd sanitize]; unfold paste_of_json;
    rewrite !field_plain by reflexivity;
    cbn -[as_int as_time as_time_ptr Utf8.ToValid JInt];
    rewrite ?as_time_ptr_text, ?as_time_text;
    rewrite bind_as_int_ok by done; cbn [mbind option_bind as_time_ptr];
    rewrite !bind_as_int_ok by done; cbn [mbind option_bind];
    apply String.eqb_eq in Ec || apply String.eqb_neq in Ec;
    apply String.eqb_eq in Et || apply String.eqb_neq in Et;
    unfold json_view; rewrite ?Ec, ?Et, ?Ee; reflexivity.
Qed.
End view.
