(* ===== verification/FileSys.v ===== *)
(** * A file system

    Names lead to inodes, so that renaming a file does not change what an open
    descriptor writes to.  The contents of a file is the list of the chunks
    written to it.  Every system call may fail in the way the code can observe,
    without effect; which ones fail is part of the initial disk, as the list of
    [faults] (none, when it is used up).  Directories are not represented: a
    name is a path. *)

From S2P Require Import Prelude GoStr GoTime.

Inductive content :=
  | Plain (chunks : list string)
  | Gzipped (chunks : list string).

Record inode := { i_data : content; i_mtime : Z }.

(** The size of a compressed file is the business of compress/gzip. *)
Class Gzip := { gz_size : list string -> Z }.

Definition total (l : list string) : Z := foldr (fun s n => strlen s + n) 0 l.

Definition size_of `{Gzip} (c : content) : Z :=
  match c with Plain l => total l | Gzipped l => gz_size l end.

Record Disk := {
  names : gmap string nat;
  inodes : list inode;
  d_clock : Z;
  d_ticks : list N;
  d_faults : list bool;
}.

Definition D (A : Type) : Type := Disk -> A * Disk.
#[export] Instance D_ret : MRet D := fun A a d => (a, d).
#[export] Instance D_bind : MBind D := fun A B f m d => let '(a, d') := m d in f a d'.

Definition set_names (m : gmap string nat) (d : Disk) : Disk :=
  {| names := m; inodes := inodes d; d_clock := d_clock d; d_ticks := d_ticks d; d_faults := d_faults d |}.
Definition set_inodes (l : list inode) (d : Disk) : Disk :=
  {| names := names d; inodes := l; d_clock := d_clock d; d_ticks := d_ticks d; d_faults := d_faults d |}.
Definition set_faults (l : list bool) (d : Disk) : Disk :=
  {| names := names d; inodes := inodes d; d_clock := d_clock d; d_ticks := d_ticks d; d_faults := l |}.

(** [time.Now()]. *)
Definition now : D Z := fun d =>
  (d_clock d, {| names := names d; inodes := inodes d; d_clock := d_clock d + Z.of_N (hd 0%N (d_ticks d));
                 d_ticks := tl (d_ticks d); d_faults := d_faults d |}).

Definition io_error : string := "input/output error".
Definition not_exist : string := "no such file or directory".

(** A system call: it fails, or runs. *)
Definition sys {A} (f : Disk -> result A * Disk) : D (result A) := fun d =>
  let d' := set_faults (tl (d_faults d)) d in
  if hd false (d_faults d) then (Err io_error, d') else f d'.

Definition file_at (d : Disk) (path : string) : option inode := i ← names d !! path; inodes d !! i.

Definition MkdirAll : D (result unit) := sys (fun d => (Ok tt, d)).

Definition Stat (path : string) : D (result inode) :=
  sys (fun d => (match file_at d path with Some f => Ok f | None => Err not_exist end, d)).

(** [os.OpenFile] with O_APPEND|O_CREATE: the descriptor is the inode. *)
Definition OpenAppend (path : string) : D (result nat) :=
  sys (fun d => match names d !! path with
                | Some i => (Ok i, d)
                | None =>
                    let i := length (inodes d) in
                    (Ok i, set_names (<[path := i]> (names d))
                             (set_inodes (inodes d ++ [{| i_data := Plain []; i_mtime := d_clock d |}]) d))
                end).

Definition Fstat (i : nat) : D (result inode) :=
  sys (fun d => (match inodes d !! i with Some f => Ok f | None => Err io_error end, d)).

Definition append (s : string) (t : Z) (f : inode) : inode :=
  match i_data f with
  | Plain l => {| i_data := Plain (l ++ [s]); i_mtime := t |}
  | Gzipped _ => f
  end.

Definition WriteString (i : nat) (s : string) : D (result unit) :=
  sys (fun d => (Ok tt, set_inodes (alter (append s (d_clock d)) i (inodes d)) d)).

(** A file of the new name is replaced. *)
Definition Rename (from to : string) : D (result unit) :=
  sys (fun d => match names d !! from with
                | Some i => (Ok tt, set_names (<[to := i]> (delete from (names d))) d)
                | None => (Err not_exist, d)
                end).

Definition Remove (path : string) : D (result unit) :=
  sys (fun d => match names d !! path with
                | Some _ => (Ok tt, set_names (delete path (names d)) d)
                | None => (Err not_exist, d)
                end).

(** The names that begin with a prefix, in order. *)
Definition str_le (a b : string) : Prop := String.leb a b = true.
#[export] Instance str_le_dec a b : Decision (str_le a b).
Proof. unfold str_le. apply _. Defined.

Definition with_prefix (p : string) (d : Disk) : list string :=
  merge_sort str_le (keep (fun n => Strings.HasPrefix n p) (map_to_list (names d)).*1).

(** [filepath.Glob(prefix + "*")] in one directory. *)
Definition Glob (prefix : string) : D (list string) := fun d => (with_prefix prefix d, d).

(** [os.Open]. *)
Definition Open (path : string) : D (result nat) :=
  sys (fun d => (match names d !! path with Some i => Ok i | None => Err not_exist end, d)).

(** [os.OpenFile] with O_CREATE|O_TRUNC. *)
Definition OpenTrunc (path : string) : D (result nat) :=
  sys (fun d =>
         let empty := {| i_data := Plain []; i_mtime := d_clock d |} in
         match names d !! path with
         | Some i => (Ok i, set_inodes (<[i := empty]> (inodes d)) d)
         | None =>
             (Ok (length (inodes d)), set_names (<[path := length (inodes d)]> (names d)) (set_inodes (inodes d ++ [empty]) d))
         end).

Definition chunks (c : content) : list string := match c with Plain l | Gzipped l => l end.

(** Compress the contents of one descriptor into another. *)
Definition gzip_copy (src dst : nat) : D (result unit) :=
  sys (fun d => match inodes d !! src with
                | Some f => (Ok tt, set_inodes (<[dst := {| i_data := Gzipped (chunks (i_data f)); i_mtime := d_clock d |}]>
                                                  (inodes d)) d)
                | None => (Err io_error, d)
                end).
