(* ===== verification/Rotate.v ===== *)
(** * Log rotation (src/src/logging/rotate.go)

    The rotation and retention policies, their parsers, and the writer that
    rotates and prunes one log file, on the file system of {!FileSys}.  Each
    operation holds the writer's mutex from beginning to end. *)

From S2P Require Import Prelude GoStr GoTime FileSys.
From Stdlib Require Import Ascii.

(** ** Policies *)

Record RotatePolicy := { Interval : string; MaxBytes : Z }.
Definition never : RotatePolicy := {| Interval := ""; MaxBytes := 0 |}.

Inductive KeepMode := KeepNone | KeepCount | KeepAge | KeepForever.
#[export] Instance KeepMode_eq : EqDecision KeepMode.
Proof. solve_decision. Defined.
Record KeepPolicy := { Mode : KeepMode; Count : Z; Age : Z }.
Definition keep_none : KeepPolicy := {| Mode := KeepNone; Count := 0; Age := 0 |}.

Definition is_interval (s : string) : bool :=
  String.eqb s "daily" || String.eqb s "weekly" || String.eqb s "monthly" || String.eqb s "yearly".

(** A count and a unit. *)
Definition size_suffix (tok suffix : string) (unit : Z) : result (Z * Z) :=
  match Strconv.ParseInt (StringsU.TrimSpace (Strings.TrimSuffix tok suffix)) with
  | (n, None) => if n <=? 0 then Err ("invalid size " ++ tok) else Ok (n, unit)
  | _ => Err ("invalid size " ++ tok)
  end.

Definition parseSize (tok : string) : result (Z * Z) :=
  if Strings.HasSuffix tok "mb" then size_suffix tok "mb" (Z.shiftl 1 20)
  else if Strings.HasSuffix tok "gb" then size_suffix tok "gb" (Z.shiftl 1 30)
  else Err ("unknown rotate token " ++ tok).

(** One token of a rotation policy. *)
Definition rotate_token (s tok : string) (p : RotatePolicy) : result RotatePolicy :=
  let tok := StringsU.TrimSpace tok in
  if is_interval tok then
    if negb (String.eqb (Interval p) "") then Err ("rotate " ++ s ++ ": multiple time intervals")
    else Ok {| Interval := tok; MaxBytes := MaxBytes p |}
  else if String.eqb tok "never" || String.eqb tok "" then Err ("rotate " ++ s ++ ": " ++ tok ++ " cannot be combined")
  else match parseSize tok with
       | Err e => Err ("rotate " ++ s ++ ": " ++ e)
       | Ok (n, unit) =>
           if negb (MaxBytes p =? 0) then Err ("rotate " ++ s ++ ": multiple size limits")
           else Ok {| Interval := Interval p; MaxBytes := wrap64 (n * unit) |}
       end.

Fixpoint rotate_tokens (s : string) (toks : list string) (p : RotatePolicy) : result RotatePolicy :=
  match toks with
  | [] => Ok p
  | tok :: toks => p ← rotate_token s tok p; rotate_tokens s toks p
  end.

Definition ParseRotate `{Unicode} (s : string) : result RotatePolicy :=
  let s := StringsU.TrimSpace (StringsU.ToLower s) in
  if String.eqb s "" || String.eqb s "never" then Ok never
  else rotate_tokens s (Strings.Split s ",") never.

Definition count_of (n : Z) : KeepPolicy := {| Mode := KeepCount; Count := n; Age := 0 |}.

(** The unit of an age, by the last byte. *)
Definition age_unit (c : ascii) : option Z :=
  if Ascii.eqb c "d" then Some (24 * Hour)
  else if Ascii.eqb c "w" then Some (7 * 24 * Hour)
  else if Ascii.eqb c "m" then Some (30 * 24 * Hour)
  else None.

Definition last_byte (s : string) : option ascii := String.get (String.length s - 1) s.

Definition keep_age (s : string) : option (result KeepPolicy) :=
  if (1 <? strlen s) then
    c ← last_byte s;
    mult ← age_unit c;
    Some (match Strconv.Atoi (Strings.take (String.length s - 1) s) with
          | (n, None) => if n <=? 0 then Err ("keep " ++ s ++ ": invalid age")
                         else Ok {| Mode := KeepAge; Count := 0; Age := dur_mul n mult |}
          | _ => Err ("keep " ++ s ++ ": invalid age")
          end)
  else None.

Definition keep_count (s : string) : result KeepPolicy :=
  match Strconv.Atoi s with
  | (n, None) => if n <? 0 then Err ("keep " ++ s ++ ": not a valid retention policy") else Ok (count_of n)
  | _ => Err ("keep " ++ s ++ ": not a valid retention policy")
  end.

(** The forms with a colon. *)
Definition keep_prefixed (s : string) (i : nat) : result KeepPolicy :=
  match Strconv.Atoi (Strings.drop (i + 1) s) with
  | (n, None) =>
      if n <? 0 then Err ("keep " ++ s ++ ": invalid count")
      else if is_interval (Strings.take i s) then Ok (count_of n)
      else Err ("keep " ++ s ++ ": unknown prefix")
  | _ => Err ("keep " ++ s ++ ": invalid count")
  end.

Definition ParseKeep `{Unicode} (s : string) : result KeepPolicy :=
  let s := StringsU.TrimSpace (StringsU.ToLower s) in
  if String.eqb s "" || String.eqb s "none" then Ok keep_none
  else if String.eqb s "forever" then Ok {| Mode := KeepForever; Count := 0; Age := 0 |}
  else match Strings.IndexByte s ":" with
       | Some (S i) => keep_prefixed s (S i)
       | _ => match keep_age s with Some r => r | None => keep_count s end
       end.

(** ** Names and periods *)

Definition FormatWeek (loc : Location) (t : Z) : string :=
  let '(y, w) := ISOWeek loc t in Strconv.pad 4 y ++ "-W" ++ Strconv.pad 2 w.

Definition periodKey (loc : Location) (interval : string) (t : Z) : string :=
  if String.eqb interval "daily" then FormatDate loc t
  else if String.eqb interval "weekly" then FormatWeek loc t
  else if String.eqb interval "monthly" then FormatMonth loc t
  else if String.eqb interval "yearly" then FormatYear loc t
  else "".

(** [2006-01-02_150405]. *)
Definition FormatStamp (loc : Location) (t : Z) : string :=
  FormatDate loc t ++ "_" ++ Strconv.pad 2 (Hour_ loc t) ++ Strconv.pad 2 (Minute_ loc t) ++ Strconv.pad 2 (Second_ loc t).

(** ** The writer *)

Record fileWriter := {
  w_path : string;
  w_rotate : RotatePolicy;
  w_keep : KeepPolicy;
  w_compress : bool;
  w_holdOpen : bool;
  w_file : option nat;
  w_size : Z;
  w_periodStart : Z;
}.

Definition newFileWriter (path : string) (rotate : RotatePolicy) (keep : KeepPolicy) (compress holdOpen : bool) : fileWriter :=
  {| w_path := path; w_rotate := rotate; w_keep := keep; w_compress := compress; w_holdOpen := holdOpen;
     w_file := None; w_size := 0; w_periodStart := zero_time |}.

Definition set_state (f : option nat) (size start : Z) (w : fileWriter) : fileWriter :=
  {| w_path := w_path w; w_rotate := w_rotate w; w_keep := w_keep w; w_compress := w_compress w;
     w_holdOpen := w_holdOpen w; w_file := f; w_size := size; w_periodStart := start |}.

Definition closeLocked (w : fileWriter) : fileWriter := set_state None (w_size w) (w_periodStart w) w.

Section writer.
Context `{Gzip} (loc : Location).

Definition open (w : fileWriter) : D (result unit * fileWriter) :=
  match w_file w with
  | Some _ => mret (Ok tt, w)
  | None =>
      dir ← MkdirAll;
      match dir with
      | Err e => mret (Err e, w)
      | Ok _ =>
          f ← OpenAppend (w_path w);
          match f with
          | Err e => mret (Err e, w)
          | Ok i =>
              t ← now;
              st ← Fstat i;
              mret (Ok tt, match st with
                           | Ok st => set_state (Some i) (size_of (i_data st))
                                        (if 0 <? size_of (i_data st) then i_mtime st else t) w
                           | Err _ => set_state (Some i) 0 t w
                           end)
          end
      end
  end.

Definition reopen (w : fileWriter) : D (result unit * fileWriter) :=
  let w := closeLocked w in
  if negb (w_holdOpen w) then mret (Ok tt, w) else open w.

(** The period has changed. *)
Definition new_period (interval : string) (start t : Z) : bool :=
  negb (String.eqb interval "")
  && negb (String.eqb (periodKey loc interval start) (periodKey loc interval t)).

Definition needsRotate (n t : Z) (w : fileWriter) : bool :=
  if w_size w =? 0 then false
  else if (0 <? MaxBytes (w_rotate w)) && (MaxBytes (w_rotate w) <? wrap64 (w_size w + n)) then true
  else new_period (Interval (w_rotate w)) (w_periodStart w) t.

Definition gzipAndRemove (src : string) : D (result unit) :=
  inp ← Open src;
  match inp with
  | Err e => mret (Err e)
  | Ok i =>
      let dst := src ++ ".gz" in
      out ← OpenTrunc dst;
      match out with
      | Err e => mret (Err e)
      | Ok j =>
          copied ← gzip_copy i j;
          match copied with
          | Err e => _ ← Remove dst; mret (Err e)
          | Ok _ => Remove src
          end
      end
  end.

(** The rotated files that are still there, newest first. *)
Fixpoint stat_all (paths : list string) : D (list (string * Z)) :=
  match paths with
  | [] => mret []
  | p :: paths =>
      st ← Stat p;
      rest ← stat_all paths;
      mret (match st with Ok f => (p, i_mtime f) :: rest | Err _ => rest end)
  end.

Definition newer (a b : string * Z) : Prop := snd b <= snd a.
#[export] Instance newer_dec a b : Decision (newer a b).
Proof. unfold newer. apply _. Defined.

(** Whether retention removes the file at index [i] of the sorted list. *)
Definition doomed (k : KeepPolicy) (t : Z) (i : nat) (mod_ : Z) : bool :=
  match Mode k with
  | KeepNone => true
  | KeepCount => Count k <=? Z.of_nat i
  | KeepAge => Age k <? t - mod_
  | KeepForever => false
  end.

Fixpoint remove_doomed (k : KeepPolicy) (t : Z) (i : nat) (files : list (string * Z)) (first_err : result unit)
  : D (result unit) :=
  match files with
  | [] => mret first_err
  | (p, mod_) :: files =>
      if doomed k t i mod_ then
        r ← Remove p;
        remove_doomed k t (S i) files (match first_err with Err e => Err e | Ok _ => r end)
      else remove_doomed k t (S i) files first_err
  end.

Definition prune (t : Z) (w : fileWriter) : D (result unit) :=
  match Mode (w_keep w) with
  | KeepForever => mret (Ok tt)
  | _ =>
      paths ← Glob (w_path w ++ ".");
      files ← stat_all paths;
      remove_doomed (w_keep w) t 0 (merge_sort newer files) (Ok tt)
  end.

(** The name a rotated file gets. *)
Definition rotated_name (t : Z) (w : fileWriter) : D string :=
  let day := w_path w ++ "." ++ FormatDate loc t in
  st ← Stat day;
  mret (if is_ok st then w_path w ++ "." ++ FormatStamp loc t else day).

Definition doRotate (t : Z) (w : fileWriter) : D (result unit * fileWriter) :=
  let w := closeLocked w in
  rotated ← rotated_name t w;
  moved ← Rename (w_path w) rotated;
  match moved with
  | Err e => mret (Err e, w)
  | Ok _ =>
      let w := set_state None 0 t w in
      match Mode (w_keep w) with
      | KeepNone => r ← Remove rotated; mret (r, w)
      | _ =>
          z ← (if w_compress w then gzipAndRemove rotated else mret (Ok tt));
          match z with
          | Err e => mret (Err e, w)
          | Ok _ => r ← prune t w; mret (r, w)
          end
      end
  end.

(** The end of [writeLine], with the file open. *)
Definition put_line (line : string) (w : fileWriter) : D (result unit * fileWriter) :=
  match w_file w with
  | None => mret (Err io_error, w)
  | Some i =>
      n ← WriteString i line;
      let w := match n with Ok _ => set_state (w_file w) (w_size w + strlen line) (w_periodStart w) w | Err _ => w end in
      mret (n, if w_holdOpen w then w else closeLocked w)
  end.

Definition end_line (line : string) : string :=
  if Strings.HasSuffix line (String "010" "") then line else line ++ String "010" "".

Definition writeLine (line : string) (w : fileWriter) : D (result unit * fileWriter) :=
  let line := end_line line in
  o ← open w;
  match o with
  | (Err e, w) => mret (Err e, w)
  | (Ok _, w) =>
      t ← now;
      if needsRotate (strlen line) t w then
        rot ← doRotate t w;
        match rot with
        | (Err e, w) => mret (Err e, w)
        | (Ok _, w) =>
            o ← open w;
            match o with
            | (Err e, w) => mret (Err e, w)
            | (Ok _, w) => put_line line w
            end
        end
      else put_line line w
  end.

Definition rotateCheck (w : fileWriter) : D (result unit * fileWriter) :=
  t ← now;
  st ← Stat (w_path w);
  match st with
  | Err e => if String.eqb e not_exist then r ← prune t w; mret (r, w) else mret (Err e, w)
  | Ok f =>
      let size := size_of (i_data f) in
      let start := match w_file w with None => i_mtime f | Some _ => w_periodStart w end in
      let sizeHit := (0 <? MaxBytes (w_rotate w)) && (MaxBytes (w_rotate w) <=? size) in
      let timeHit := new_period (Interval (w_rotate w)) start t in
      if (0 <? size) && (sizeHit || timeHit) then doRotate t w
      else r ← prune t w; mret (r, w)
  end.

End writer.
