(* ===== verification/RotateProofs.v ===== *)
(** * Theorems about log rotation

    The names of rotated files tell the second of the rotation; what a calm run
    of the writer keeps, and how rotation can lose lines. *)

From S2P Require Import Prelude GoStr GoTime FileSys Rotate.
From Stdlib Require Import Ascii DecimalString.

(** ** Strings of digits *)

Definition is_digit (c : ascii) : bool := Utf8.in_rng 48 57 (byte c).
Definition digits (s : string) : bool := Strings.forall_byte is_digit s.

Lemma digits_app a b : digits (a ++ b) = digits a && digits b.
Proof. apply forall_byte_app. Qed.

Lemma digits_uint d : digits (NilEmpty.string_of_uint d) = true.
Proof. unfold digits. induction d; cbn; auto. Qed.

Lemma digits_Itoa z : 0 <= z -> digits (Strconv.Itoa z) = true.
Proof.
  intros Hz. unfold Strconv.Itoa. destruct z as [|p|p]; [done| |lia]. cbn [Z.to_int NilZero.string_of_int].
  replace (NilZero.string_of_uint (Pos.to_uint p)) with (NilEmpty.string_of_uint (Pos.to_uint p)); [apply digits_uint|].
  pose proof (DecimalPos.Unsigned.to_uint_nonnil p). by destruct (Pos.to_uint p).
Qed.

Lemma digits_zeros n : digits (Strings.Repeat "0" n) = true.
Proof. induction n; [done|]. cbn [Strings.Repeat]. by rewrite digits_app, IHn. Qed.

Lemma digits_pad w z : 0 <= z -> digits (Strconv.pad w z) = true.
Proof. intros Hz. unfold Strconv.pad. by rewrite digits_app, digits_zeros, digits_Itoa. Qed.

(** The number a string of digits denotes. *)
Fixpoint value (n : Z) (s : string) : Z :=
  match s with "" => n | String c r => value (n * 10 + (byte c - 48)) r end.

Lemma value_zeros n s : value 0 (Strings.Repeat "0" n ++ s) = value 0 s.
Proof. induction n; [done|]. cbn [Strings.Repeat]. cbn. exact IHn. Qed.

Lemma value_uint d : forall n, value n (NilEmpty.string_of_uint d) = du n d.
Proof.
  induction d as [|d IH|d IH|d IH|d IH|d IH|d IH|d IH|d IH|d IH|d IH]; intros n; [done|..];
    cbn [value NilEmpty.string_of_uint du]; rewrite IH; f_equal; unfold byte; cbn; lia.
Qed.

Lemma value_Itoa z : 0 <= z -> value 0 (Strconv.Itoa z) = z.
Proof.
  intros Hz. unfold Strconv.Itoa. destruct z as [|p|p]; [done| |lia]. cbn [Z.to_int NilZero.string_of_int].
  replace (NilZero.string_of_uint (Pos.to_uint p)) with (NilEmpty.string_of_uint (Pos.to_uint p)).
  - by rewrite value_uint, du_of_uint, DecimalPos.Unsigned.of_to.
  - pose proof (DecimalPos.Unsigned.to_uint_nonnil p). by destruct (Pos.to_uint p).
Qed.

Lemma pad_inj w z1 z2 : 0 <= z1 -> 0 <= z2 -> Strconv.pad w z1 = Strconv.pad w z2 -> z1 = z2.
Proof.
  intros H1 H2 E. apply (f_equal (value 0)) in E. unfold Strconv.pad in E.
  by rewrite !value_zeros, !value_Itoa in E by done.
Qed.

(** Digits end at the first character that is none. *)
Lemma split_at_sep a a' c b b' :
  digits a = true -> digits a' = true -> is_digit c = false ->
  a ++ String c b = a' ++ String c b' -> a = a' /\ b = b'.
Proof.
  unfold digits. intros Ha Ha' Hc. revert a' Ha'.
  induction a as [|x a IH]; intros [|y a'] Ha' E; cbn in *.
  - by injection E as ->.
  - injection E as -> _. by rewrite Hc in Ha'.
  - injection E as -> _. by rewrite Hc in Ha.
  - injection E as -> E. apply andb_true_iff in Ha as [_ Ha], Ha' as [_ Ha']. by destruct (IH Ha a' Ha' E) as [-> ->].
Qed.

(** Digits of the same length. *)
Lemma split_at_length a a' b b' : String.length a = String.length a' -> a ++ b = a' ++ b' -> a = a' /\ b = b'.
Proof.
  revert a'. induction a as [|x a IH]; intros [|y a'] Hl; cbn in *; try done.
  intros E. injection E as -> E. destruct (IH a' ltac:(lia) E) as [-> ->]. done.
Qed.

Lemma pad2_length z : 0 <= z < 60 -> String.length (Strconv.pad 2 z) = 2%nat.
Proof.
  intros Hz. assert (H : forallb (fun n => Nat.eqb (String.length (Strconv.pad 2 (Z.of_nat n))) 2) (seq 0 60) = true)
    by (vm_compute; reflexivity).
  rewrite forallb_forall in H. specialize (H (Z.to_nat z)). rewrite Z2Nat.id in H by lia.
  apply Nat.eqb_eq, H, in_seq. lia.
Qed.

(** ** Runs without faults *)

Definition calm (d : Disk) : Prop := d_faults d = [].

Lemma sys_calm {A} (f : Disk -> result A * Disk) d : calm d -> sys f d = f d.
Proof. unfold calm, sys. destruct d; cbn. intros ->. done. Qed.

Lemma bind_D {A B} (m : D A) (f : A -> D B) d : (m ≫= f) d = let '(a, d') := m d in f a d'.
Proof. done. Qed.

Lemma bind_sys {A B} (f : Disk -> result A * Disk) (k : result A -> D B) d :
  calm d -> (sys f ≫= k) d = let '(a, d') := f d in k a d'.
Proof. intros Hd. by rewrite bind_D, sys_calm. Qed.

(** ** The clock does not go back *)

Definition grows {A} (m : D A) : Prop := forall d, d_clock d <= d_clock (m d).2.

Lemma grows_ret {A} (a : A) : grows (mret a).
Proof. intros d. cbn. lia. Qed.
Lemma grows_bind {A B} (m : D A) (f : A -> D B) : grows m -> (forall a, grows (f a)) -> grows (m ≫= f).
Proof. intros Hm Hf d. rewrite bind_D. specialize (Hm d). destruct (m d) as [a d1]. specialize (Hf a d1). cbn [snd] in *. lia. Qed.
Lemma grows_now : grows now.
Proof. intros d. cbn. lia. Qed.
Lemma grows_sys {A} (f : Disk -> result A * Disk) : (forall d, d_clock (f d).2 = d_clock d) -> grows (sys f).
Proof. intros Hf d. unfold sys. destruct (hd false (d_faults d)); [cbn; lia|]. rewrite Hf. cbn. lia. Qed.

Ltac grow := repeat first [apply grows_ret | apply grows_now | apply grows_bind | match goal with |- forall _, _ => intros ? end | progress case_match
  | apply grows_sys; intros; cbn; repeat case_match; reflexivity].

Section clock.
Context `{Gzip}.

Lemma grows_open w : grows (open w).
Proof. unfold open, MkdirAll, OpenAppend, Fstat.
  grow.
Qed.
Lemma grows_put_line line w : grows (put_line line w).
Proof. unfold put_line, WriteString. grow. Qed.
Lemma grows_stat_all l : grows (stat_all l).
Proof. induction l as [|p l IH]; cbn [stat_all]; unfold Stat; [grow|]. apply grows_bind; [grow|]. intros st. apply grows_bind; [exact IH | grow]. Qed.
Lemma grows_remove k t l : forall i e, grows (remove_doomed k t i l e).
Proof. induction l as [|[p m] l IH]; intros i e; cbn [remove_doomed]; [grow|]. destruct (doomed k t i m); [|apply IH]. apply grows_bind; [unfold Remove; grow | intros; apply IH]. Qed.
Lemma grows_prune t w : grows (prune t w).
Proof.
  unfold prune, Glob. destruct (Mode (w_keep w)); [..|grow]; (apply grows_bind; [intros d; cbn; lia|]; intros ?; apply grows_bind; [apply grows_stat_all | intros; apply grows_remove]).
Qed.
Lemma grows_gzip src : grows (gzipAndRemove src).
Proof. unfold gzipAndRemove, Open, OpenTrunc, gzip_copy, Remove. grow. Qed.
Lemma grows_doRotate loc t w : grows (doRotate loc t w).
Proof.
  unfold doRotate, rotated_name, Stat, Rename, Remove. apply grows_bind; [grow|]. intros n. apply grows_bind; [grow|]. intros [[]|e]; [|grow].
  cbn [w_keep w_compress set_state closeLocked].
  assert (K : grows (z ← (if w_compress w then gzipAndRemove n else mret (Ok tt));
    match z with Err e => mret (Err e, set_state None 0 t (closeLocked w)) | Ok _ => r ← prune t (set_state None 0 t (closeLocked w)); mret (r, set_state None 0 t (closeLocked w)) end)).
  { apply grows_bind; [destruct (w_compress w); [apply grows_gzip | grow]|]. intros [[]|e]; [|grow]. apply grows_bind; [apply grows_prune | grow]. }
  destruct (Mode (w_keep w)); [grow|exact K..].
Qed.
Lemma grows_writeLine loc line w : grows (writeLine loc line w).
Proof.
  unfold writeLine. apply grows_bind; [apply grows_open|]. intros [[[]|e] w1]; [|grow]. apply grows_bind; [grow|]. intros t.
  destruct (needsRotate _ _ _ _); [|apply grows_put_line]. apply grows_bind; [apply grows_doRotate|]. intros [[[]|e] w2]; [|grow].
  apply grows_bind; [apply grows_open|]. intros [[[]|e] w3]; [apply grows_put_line | grow].
Qed.
Lemma grows_rotateCheck loc w : grows (rotateCheck loc w).
Proof.
  unfold rotateCheck, Stat. apply grows_bind; [grow|]. intros t. apply grows_bind; [grow|]. intros [f|e].
  - cbv zeta. destruct (_ && _); [apply grows_doRotate|]. apply grows_bind; [apply grows_prune | grow].
  - destruct (String.eqb e not_exist); [|grow]. apply grows_bind; [apply grows_prune | grow].
Qed.
Lemma grows_reopen w : grows (reopen w).
Proof. unfold reopen. destruct (negb _); [grow | apply grows_open]. Qed.
End clock.

(** ** Names tell the second *)

(** The local clock is not put back between two instants: the offset from UTC of a
    later one is no less. *)
Definition no_fall_back (loc : Location) (from until : Z) : Prop :=
  forall t1 t2, from <= t1 -> t1 <= t2 -> t2 <= until -> offset_at loc (Unix t1) <= offset_at loc (Unix t2).

Lemma fixed_no_fall_back off from until : no_fall_back (fixed_zone off) from until.
Proof. intros t1 t2 _ _ _. reflexivity. Qed.

Section names.
Context `{Gzip} (loc : Location) (from until : Z) (Hrise : no_fall_back loc from until) (Hfrom : 0 <= wall loc from).

(** Instants of the time considered; their dates have years of at least one. *)
Definition within (t : Z) : Prop := from <= t <= until.

Lemma wall_rises t1 t2 : from <= t1 -> t1 <= t2 -> t2 <= until -> wall loc t1 + (t2 / Second - t1 / Second) <= wall loc t2.
Proof. intros H1 H2 H3. unfold wall. pose proof (Hrise t1 t2 H1 H2 H3). lia. Qed.

Lemma date_fields t : within t ->
  0 <= Year_ loc t /\ 0 <= Month_ loc t < 60 /\ 0 <= Day_ loc t < 60.
Proof.
  intros Ht. unfold Year_, Month_, Day_. set (n := day_of loc t).
  assert (Hn : 0 <= n).
  { unfold n, day_of. apply Z.div_pos; [|lia]. destruct Ht as [H1 H2]. pose proof (wall_rises from t ltac:(lia) H1 H2).
    assert (from / Second <= t / Second) by (apply Z.div_le_mono; [unfold Second; lia | done]). lia. }
  destruct (civil_bounds n) as (Hm & Hd & Hday & _). split; [|lia].
  revert Hd. unfold day_number, days_before_year. set (y := c_year (civil n)). intros Hd.
  assert (0 <= month_start (is_leap y) (c_month (civil n)) <= 366).
  { unfold month_start. repeat case_match; lia. }
  dlia.
Qed.

Lemma time_fields t : 0 <= Hour_ loc t < 60 /\ 0 <= Minute_ loc t < 60 /\ 0 <= Second_ loc t < 60.
Proof. unfold Hour_, Minute_, Second_. dlia. Qed.

(** A date is written with a dash after the year and the month. *)
Lemma FormatDate_inj t1 t2 b1 b2 c :
  within t1 -> within t2 -> is_digit c = false ->
  FormatDate loc t1 ++ String c b1 = FormatDate loc t2 ++ String c b2 -> day_of loc t1 = day_of loc t2 /\ b1 = b2.
Proof.
  intros H1 H2 Hc E. pose proof (date_fields t1 H1) as (Y1 & M1 & D1). pose proof (date_fields t2 H2) as (Y2 & M2 & D2).
  unfold FormatDate in E. rewrite <- !string_app_assoc in E.
  apply split_at_sep in E as [Ey E]; [|apply digits_pad; lia|apply digits_pad; lia|done].
  apply split_at_sep in E as [Em E]; [|apply digits_pad; lia|apply digits_pad; lia|done].
  apply split_at_sep in E as [Ed E]; [|apply digits_pad; lia|apply digits_pad; lia|done].
  split; [|done]. apply pad_inj in Ey, Em, Ed; try lia.
  unfold Year_, Month_, Day_ in *.
  rewrite <- (day_number_civil (day_of loc t1)), <- (day_number_civil (day_of loc t2)). congruence.
Qed.

Lemma FormatStamp_inj t1 t2 :
  within t1 -> within t2 -> FormatStamp loc t1 = FormatStamp loc t2 -> t1 / Second = t2 / Second.
Proof.
  intros H1 H2 E. unfold FormatStamp in E.
  apply FormatDate_inj in E as [Ed E]; [|done..].
  pose proof (time_fields t1) as (h1 & m1 & s1). pose proof (time_fields t2) as (h2 & m2 & s2).
  apply split_at_length in E as [Eh E]; [|by rewrite !pad2_length].
  apply split_at_length in E as [Em Es]; [|by rewrite !pad2_length].
  apply pad_inj in Eh, Em, Es; try lia.
  assert (Ew : wall loc t1 = wall loc t2) by (unfold day_of, Hour_, Minute_, Second_ in *; dlia).
  assert (Hle : forall a b, within a -> within b -> a <= b -> wall loc a = wall loc b -> a / Second = b / Second).
  { intros a b [Ha _] [_ Hb] Hab E'. pose proof (wall_rises a b Ha Hab Hb). assert (a / Second <= b / Second) by (apply Z.div_le_mono; [unfold Second; lia | done]). lia. }
  destruct (Z.le_ge_cases t1 t2) as [Hlt|Hlt]; [by apply Hle | symmetry; by apply Hle].
Qed.

Lemma FormatDate_no_stamp t1 t2 : within t1 -> within t2 -> FormatDate loc t1 <> FormatStamp loc t2.
Proof.
  intros H1 H2 E. pose proof (date_fields t1 H1) as (Y1 & M1 & D1). pose proof (date_fields t2 H2) as (Y2 & M2 & D2).
  unfold FormatStamp, FormatDate in E. rewrite <- !string_app_assoc in E.
  apply split_at_sep in E as [_ E]; [|apply digits_pad; lia|apply digits_pad; lia|done].
  apply split_at_sep in E as [_ E]; [|apply digits_pad; lia|apply digits_pad; lia|done].
  assert (Hd : digits (Strconv.pad 2 (Day_ loc t1)) = true) by (apply digits_pad; lia).
  rewrite E, digits_app in Hd. cbn in Hd. by rewrite andb_false_r in Hd.
Qed.

(** ** Calm runs: no system call fails *)

(** The names of the files of one log, and the lines in them. *)
Context (path : string).

Definition own (n : string) : Prop := n = path \/ Strings.HasPrefix n (path ++ ".") = true.

Definition plain (d : Disk) (n : string) (l : list string) : Prop :=
  exists i t, names d !! n = Some i /\ inodes d !! i = Some {| i_data := Plain l; i_mtime := t |}.

Definition stored (x : string) (d : Disk) : Prop := exists n l, own n /\ plain d n l /\ x ∈ l.

(** What a calm run with [keep forever] maintains; every rotation so far took
    place at [b] or before. *)
Record kept (b : Z) (w : fileWriter) (d : Disk) (lines : list string) : Prop := {
  k_calm : calm d;
  k_path : w_path w = path;
  k_mode : Mode (w_keep w) = KeepForever;
  k_gz : w_compress w = false;
  k_plain : forall n i, own n -> names d !! n = Some i -> exists l, plain d n l;
  k_file : forall i, w_file w = Some i -> names d !! path = Some i;
  k_stamps : forall n, is_Some (names d !! n) -> Strings.HasPrefix n (path ++ ".") = true ->
    exists t, within t /\ t <= b /\ (n = path ++ "." ++ FormatDate loc t \/ n = path ++ "." ++ FormatStamp loc t);
  k_lines : forall x, x ∈ lines -> stored x d;
}.

Lemma HasPrefix_app p s : Strings.HasPrefix (p ++ s) p = true.
Proof. apply prefix_app. Qed.

Lemma own_not_path s : own (path ++ "." ++ s) /\ path ++ "." ++ s <> path.
Proof.
  split; [right; rewrite string_app_assoc; apply HasPrefix_app|].
  intros E. apply (f_equal String.length) in E. rewrite !string_app_length in E. cbn in E. lia.
Qed.

(** A run that leaves names and files as they are. *)
Lemma kept_weaken b b' w w' d d' lines :
  kept b w d lines -> b <= b' -> w_path w' = w_path w -> w_keep w' = w_keep w -> w_compress w' = w_compress w ->
  (forall i, w_file w' = Some i -> names d !! path = Some i) -> calm d' -> names d' = names d -> inodes d' = inodes d ->
  kept b' w' d' lines.
Proof.
  intros [] Hb Hp Hk Hc Hf Hd Hn Hi. unfold stored, plain in *.
  split; unfold stored, plain; rewrite ?Hn, ?Hi; try congruence; try done.
  intros n Hs Hpre. destruct (k_stamps0 n Hs Hpre) as (t & Ht & Htb & Hor). exists t. split; [done|]. split; [lia | done].
Qed.

Lemma open_kept b w d lines :
  kept b w d lines ->
  exists w' d' i, open w d = ((Ok tt, w'), d') /\ kept b w' d' lines /\ w_file w' = Some i
    /\ d_clock d <= d_clock d' /\ w_holdOpen w' = w_holdOpen w.
Proof.
  intros Hk. pose proof Hk as [Hc Hp Hm Hg Hpl Hf Hst Hl]. unfold open.
  destruct (w_file w) as [i|] eqn:Ef; [exists w, d, i; split; [done|]; split; [done|]; split; [done|]; split; [lia|done]|].
  unfold MkdirAll, OpenAppend, Fstat. rewrite bind_sys by done. rewrite bind_sys by done. rewrite Hp.
  destruct (names d !! path) as [i|] eqn:En.
  - rewrite bind_D. cbn [now]. rewrite bind_sys by done. cbn [inodes].
    destruct (Hpl path i (or_introl eq_refl) En) as (l & i' & t & Hi & Hin). rewrite En in Hi. injection Hi as <-.
    rewrite Hin. eexists _, _, i. split; [reflexivity|].
    split; [apply (kept_weaken b b w _ d); cbn; try done; try lia; by intros ? [= <-]|].
    split; [done|]. split; [cbn; lia | done].
  - rewrite bind_D. cbn [now]. set (d1 := set_names _ _).
    assert (Hk1 : kept b (set_state (Some (length (inodes d))) 0 0 w) d1 lines).
    { assert (Hold : forall n l, plain d n l -> n <> path -> plain d1 n l).
      { intros n l (i & t & Hi & Hin) Hne. exists i, t. split; [cbn; by rewrite lookup_insert_ne by congruence|].
        cbn. rewrite lookup_app_l; [done | by eapply lookup_lt_Some]. }
      assert (Hnew : plain d1 path []).
      { eexists _, _. split; [apply lookup_insert_eq|]. cbn. by rewrite lookup_app_r, Nat.sub_diag. }
      split; cbn; try done.
      - intros n i Ho Hn. destruct (decide (n = path)) as [->|Hne]; [by eexists|].
        rewrite lookup_insert_ne in Hn by congruence. destruct (Hpl n i Ho Hn) as [l Hpln]. exists l. by apply Hold.
      - intros i [= <-]. apply lookup_insert_eq.
      - intros n Hs Hpre. apply Hst; [|done]. rewrite lookup_insert_ne in Hs; [done|].
        intros <-. apply prefix_spec in Hpre as [x E].
        apply (f_equal String.length) in E. rewrite !string_app_length in E. cbn in E. lia.
      - intros x Hx. destruct (Hl x Hx) as (n & l & Ho & Hpln & Hin). exists n, l. split; [done|]. split; [|done].
        apply Hold; [done|]. intros ->. destruct Hpln as (i & t & Hi & _). congruence. }
    rewrite bind_sys by done. cbn [inodes d1 set_names set_inodes]. rewrite lookup_app_r, Nat.sub_diag by lia.
    eexists _, _, _. split; [reflexivity|]. cbn [w_file set_state].
    split; [apply (kept_weaken b b (set_state (Some (length (inodes d))) 0 0 w) _ d1); cbn; try done; try lia; intros ? [= <-]; apply lookup_insert_eq|].
    split; [done|]. split; [cbn; lia | done].
Qed.

Lemma Stat_own d n : calm d -> (forall i, names d !! n = Some i -> exists l, plain d n l) ->
  Stat n d = (match file_at d n with Some f => Ok f | None => Err not_exist end, d)
  /\ (is_Some (file_at d n) <-> is_Some (names d !! n)).
Proof.
  intros Hc Hp. unfold Stat. rewrite sys_calm by done. split; [done|]. unfold file_at.
  destruct (names d !! n) as [i|] eqn:E; cbn; [|done]. destruct (Hp i eq_refl) as (l & i' & t & E' & Hi).
  split; [by eexists|]. intros _. assert (i' = i) as -> by congruence. by rewrite Hi.
Qed.

(** The name of a rotated file is free when the last rotation is a second ago. *)
Lemma rotated_name_free b w d lines t :
  kept b w d lines -> within t -> b + Second <= t ->
  exists n, rotated_name loc t w d = (n, d) /\ names d !! n = None /\ own n /\ n <> path
    /\ (n = path ++ "." ++ FormatDate loc t \/ n = path ++ "." ++ FormatStamp loc t).
Proof.
  intros [Hc Hp Hm Hg Hpl Hf Hst Hl] Ht Hb. unfold rotated_name. rewrite Hp.
  set (day := path ++ "." ++ FormatDate loc t). set (stamp := path ++ "." ++ FormatStamp loc t).
  destruct (own_not_path (FormatDate loc t)) as [Ho Hne]. destruct (own_not_path (FormatStamp loc t)) as [Ho' Hne'].
  destruct (Stat_own d day Hc (fun i => Hpl day i Ho)) as [Es Hex]. rewrite bind_D, Es.
  destruct (file_at d day) as [f|] eqn:Ef; cbn [is_ok].
  - exists stamp. split; [done|]. split; [|split; [done|split; [done|by right]]].
    destruct (names d !! stamp) as [i|] eqn:En; [|done]. exfalso.
    destruct (Hst stamp) as (t' & Ht' & Hle & Hor); [by eexists | |].
    { unfold stamp. rewrite string_app_assoc. apply HasPrefix_app. }
    destruct Hor as [E|E]; apply prefix_inj, prefix_inj in E.
    + symmetry in E. by apply FormatDate_no_stamp in E.
    + apply FormatStamp_inj in E; [|done..]. unfold Second in *. dlia.
  - exists day. split; [done|]. split; [|split; [done|split; [done|by left]]].
    destruct (names d !! day) as [i|] eqn:En; [|done]. destruct (proj2 Hex) as [? ?]; [by eexists | congruence].
Qed.

Lemma doRotate_kept b w d lines t :
  kept b w d lines -> within t -> b + Second <= t -> is_Some (names d !! path) ->
  exists w' d', doRotate loc t w d = ((Ok tt, w'), d') /\ kept t w' d' lines
    /\ d_clock d' = d_clock d /\ w_file w' = None /\ w_holdOpen w' = w_holdOpen w.
Proof.
  intros Hk Ht Hb [i Hi]. pose proof Hk as [Hc Hp Hm Hg Hpl Hf Hst Hl]. unfold doRotate.
  assert (Hk0 : kept b (closeLocked w) d lines) by by apply (kept_weaken b b w _ d).
  destruct (rotated_name_free b (closeLocked w) d lines t Hk0 Ht Hb) as (n & En & Hfree & Hown & Hne & Hname).
  rewrite bind_D, En. unfold Rename. rewrite bind_sys by done. change (w_path (closeLocked w)) with (w_path w).
  rewrite Hp, Hi. cbn [w_keep w_compress set_state closeLocked]. rewrite Hm, Hg. cbn [mret D_ret].
  rewrite bind_D. unfold prune. cbn [w_keep set_state closeLocked]. rewrite Hm.
  eexists _, _. split; [reflexivity|]. split; [|done].
  assert (Hmove : forall m l, plain d m l -> own m ->
            exists m', own m' /\ plain (set_names (<[n := i]> (delete path (names d))) d) m' l).
  { intros m l (j & tj & Hj & Hin) Ho. destruct (decide (m = path)) as [->|Hm'].
    - exists n. split; [done|]. exists j, tj. split; [|done]. cbn. rewrite lookup_insert_eq. congruence.
    - exists m. split; [done|]. exists j, tj. split; [|done]. cbn.
      rewrite lookup_insert_ne by (intros ->; congruence). by rewrite lookup_delete_ne. }
  split; cbn; try done.
  - intros m j Ho Hj. destruct (decide (m = n)) as [->|Hmn].
    + rewrite lookup_insert_eq in Hj. injection Hj as <-. destruct (Hpl path i (or_introl eq_refl) Hi) as (l & j & tj & Hj & Hin).
      exists l, j, tj. split; [|done]. cbn. rewrite lookup_insert_eq. congruence.
    + rewrite lookup_insert_ne in Hj by done. destruct (decide (m = path)) as [->|Hmp]; [by rewrite lookup_delete_eq in Hj|].
      rewrite lookup_delete_ne in Hj by done. destruct (Hpl m j Ho Hj) as (l & k & tj & Hk' & Hin).
      exists l, k, tj. split; [|done]. cbn. by rewrite lookup_insert_ne, lookup_delete_ne.
  - intros m Hs Hpre. destruct (decide (m = n)) as [->|Hmn]; [exists t; split; [done|]; split; [lia|done]|].
    rewrite lookup_insert_ne in Hs by done. destruct (decide (m = path)) as [->|Hmp].
    { rewrite lookup_delete_eq in Hs. by destruct Hs. }
    rewrite lookup_delete_ne in Hs by done. destruct (Hst m Hs Hpre) as (t' & Ht' & Hle & Hor). exists t'.
    split; [done|]. split; [unfold Second in *; lia | done].
  - intros x Hx. destruct (Hl x Hx) as (m & l & Ho & Hplm & Hin). destruct (Hmove m l Hplm Ho) as (m' & Ho' & Hpl').
    by exists m', l.
Qed.

Lemma put_line_kept b w d lines line i :
  kept b w d lines -> w_file w = Some i ->
  exists w' d', put_line line w d = ((Ok tt, w'), d') /\ kept b w' d' (line :: lines)
    /\ d_clock d' = d_clock d /\ w_holdOpen w' = w_holdOpen w.
Proof.
  intros Hk Ei. pose proof Hk as [Hc Hp Hm Hg Hpl Hf Hst Hl]. unfold put_line. rewrite Ei. unfold WriteString.
  rewrite bind_sys by done. set (d' := set_inodes _ d).
  assert (Hsame : forall n l, plain d n l -> exists l', plain d' n l' /\ forall x, x ∈ l -> x ∈ l').
  { intros n l (j & t & Hj & Hin). destruct (decide (j = i)) as [->|Hne].
    - exists (l ++ [line])%list. split; [|set_solver]. exists i, (d_clock d). split; [done|]. cbn.
      by rewrite list_lookup_alter_eq, Hin.
    - exists l. split; [|done]. exists j, t. split; [done|]. cbn. by rewrite list_lookup_alter_ne. }
  assert (Hk' : kept b w d' (line :: lines)).
  { split; try done.
    - intros n j Ho Hj. destruct (Hpl n j Ho Hj) as [l Hpln]. destruct (Hsame n l Hpln) as (l' & ? & _). by exists l'.
    - intros x [->|Hx]%elem_of_cons.
      + destruct (Hpl path i (or_introl eq_refl) (Hf i Ei)) as (l & j & t & Hj & Hin).
        assert (j = i) as -> by (rewrite (Hf i Ei) in Hj; congruence).
        exists path, (l ++ [line])%list. split; [by left|]. split; [|set_solver]. exists i, (d_clock d).
        split; [by apply Hf|]. cbn. by rewrite list_lookup_alter_eq, Hin.
      + destruct (Hl x Hx) as (n & l & Ho & Hpln & Hin). destruct (Hsame n l Hpln) as (l' & Hpl' & Hsub).
        exists n, l'. auto. }
  eexists _, _. split; [reflexivity|]. split; [|split; [done|cbn [w_holdOpen set_state]; destruct (w_holdOpen w) eqn:E; cbn; exact E]].
  cbn [w_holdOpen set_state]. destruct (w_holdOpen w); (apply (kept_weaken b b w _ d'); try done; try lia; intros ? [= <-]; by apply Hf).
Qed.

Lemma now_kept b w d lines : kept b w d lines -> kept b w (now d).2 lines /\ d_clock d <= d_clock (now d).2.
Proof.
  intros Hk. split; [|cbn; lia]. apply (kept_weaken b b w _ d); try done; [exact (k_file _ _ _ _ Hk) | exact (k_calm _ _ _ _ Hk)].
Qed.

(** A write, a check and a reopening a second after the last rotation. *)
Definition settled (b : Z) (d : Disk) (lines : list string) (x : (result unit * fileWriter) * Disk) : Prop :=
  fst (fst x) = Ok tt /\ d_clock d <= d_clock (snd x) /\ kept (Z.max b (d_clock (snd x))) (snd (fst x)) (snd x) lines.

Lemma settled_intro b b' d lines w' d' :
  kept b' w' d' lines -> d_clock d <= d_clock d' -> b' <= Z.max b (d_clock d') -> settled b d lines ((Ok tt, w'), d').
Proof.
  intros Hk Hc Hb. split; [done|]. split; [done|]. cbn [fst snd].
  by apply (kept_weaken b' _ w' _ d'); try done; [exact (k_file _ _ _ _ Hk) | exact (k_calm _ _ _ _ Hk)].
Qed.

Lemma writeLine_kept b w d lines line :
  kept b w d lines -> from <= d_clock d -> d_clock (writeLine loc line w d).2 <= until -> b + Second <= d_clock d ->
  settled b d (end_line line :: lines) (writeLine loc line w d).
Proof.
  intros Hk Hd Hu Hb. revert Hu. unfold writeLine. destruct (open_kept b w d lines Hk) as (w1 & d1 & i & Ho & Hk1 & Hi & Hc1 & _).
  rewrite bind_D, Ho, bind_D. destruct (now_kept b w1 d1 lines Hk1) as [Hk2 Hc2].
  change (now d1) with (d_clock d1, (now d1).2). set (d2 := (now d1).2) in *. clearbody d2. cbn beta iota.
  destruct (needsRotate _ _ _ _); intros Hu.
  - assert (Hlive : is_Some (names d2 !! path)) by (eexists; by eapply k_file).
    assert (Hd1 : within (d_clock d1)).
    { split; [lia|]. match type of Hu with d_clock (?m d2).2 <= _ => assert (K : grows m); [|specialize (K d2); lia] end.
      apply grows_bind; [apply grows_doRotate|]. intros [[[]|e] w3]; [|grow]. apply grows_bind; [apply grows_open|].
      intros [[[]|e] w4]; [apply grows_put_line | grow]. }
    destruct (doRotate_kept b w1 d2 lines (d_clock d1) Hk2 Hd1 ltac:(lia) Hlive) as (w3 & d3 & Hr & Hk3 & Hc3 & _ & _).
    clear Hu. rewrite bind_D, Hr. destruct (open_kept _ w3 d3 lines Hk3) as (w4 & d4 & j & Ho4 & Hk4 & Hj & Hc4 & _).
    rewrite bind_D, Ho4. destruct (put_line_kept _ w4 d4 lines (end_line line) j Hk4 Hj) as (w5 & d5 & Hp & Hk5 & Hc5 & _).
    rewrite Hp. eapply settled_intro; [exact Hk5 | lia | lia].
  - destruct (put_line_kept _ w1 d2 lines (end_line line) i Hk2 Hi) as (w5 & d5 & Hp & Hk5 & Hc5 & _).
    rewrite Hp. eapply settled_intro; [exact Hk5 | lia | lia].
Qed.

Lemma rotateCheck_kept b w d lines :
  kept b w d lines -> from <= d_clock d -> d_clock (rotateCheck loc w d).2 <= until -> b + Second <= d_clock d -> settled b d lines (rotateCheck loc w d).
Proof.
  intros Hk Hf0 Hu Hb. assert (Hd : within (d_clock d)) by (split; [done|]; pose proof (grows_rotateCheck loc w d); lia). clear Hu. unfold rotateCheck. rewrite bind_D. destruct (now_kept b w d lines Hk) as [Hk2 Hc2].
  change (now d) with (d_clock d, (now d).2). set (d2 := (now d).2) in *. clearbody d2. cbn beta iota.
  pose proof Hk2 as [Hc Hp Hm Hg Hpl Hf Hst Hl]. rewrite Hp.
  destruct (Stat_own d2 path Hc (fun i => Hpl path i (or_introl eq_refl))) as [Es Hex]. rewrite bind_D, Es.
  assert (Hprune : forall t d, prune t w d = (Ok tt, d)) by (intros; unfold prune; by rewrite Hm).
  destruct (file_at d2 path) as [f|].
  - destruct (_ && _).
    + destruct (doRotate_kept b w d2 lines (d_clock d) Hk2 Hd Hb (proj1 Hex ltac:(by eexists))) as (w3 & d3 & Hr & Hk3 & Hc3 & _).
      rewrite Hr. eapply settled_intro; [exact Hk3 | lia | lia].
    + rewrite bind_D, Hprune. eapply settled_intro; [exact Hk2 | lia | lia].
  - cbn. rewrite bind_D, Hprune. eapply settled_intro; [exact Hk2 | lia | lia].
Qed.

Lemma reopen_kept b w d lines : kept b w d lines -> settled b d lines (reopen w d).
Proof.
  intros Hk. unfold reopen. assert (Hk0 : kept b (closeLocked w) d lines) by (apply (kept_weaken b b w _ d); try done; exact (k_calm _ _ _ _ Hk)).
  destruct (negb _); [eapply settled_intro; [exact Hk0 | lia | lia]|].
  destruct (open_kept b _ d lines Hk0) as (w1 & d1 & i & Ho & Hk1 & Hi & Hc1 & _). rewrite Ho.
  eapply settled_intro; [exact Hk1 | lia | lia].
Qed.

(** ** Runs of the writer *)

Inductive log_op :=
  | Line (s : string)
  | RotateCheck
  | Reopen.

Definition wait (dt : Z) (d : Disk) : Disk :=
  {| names := names d; inodes := inodes d; d_clock := d_clock d + dt; d_ticks := d_ticks d; d_faults := d_faults d |}.

Definition do_op (o : log_op) (w : fileWriter) : D (result unit * fileWriter) :=
  match o with Line s => writeLine loc s w | RotateCheck => rotateCheck loc w | Reopen => reopen w end.

(** Each operation with the time that passes before it. *)
Fixpoint run_log (l : list (Z * log_op)) (w : fileWriter) (d : Disk) : list (result unit) * fileWriter * Disk :=
  match l with
  | [] => ([], w, d)
  | (dt, o) :: l =>
      let '((r, w), d) := do_op o w (wait dt d) in
      let '((rs, w), d) := run_log l w d in ((r :: rs, w), d)
  end.

Definition lines_of (o : log_op) : list string := match o with Line s => [end_line s] | _ => [] end.

(** The lines of a run, the last first, before [lines]. *)
Fixpoint written (l : list (Z * log_op)) (lines : list string) : list string :=
  match l with [] => lines | (_, o) :: l => written l (lines_of o ++ lines) end.

Lemma written_before l lines s : s ∈ lines -> s ∈ written l lines.
Proof.
  revert lines. induction l as [|[dt o] l IH]; cbn [written]; intros lines Hs; [done|].
  apply IH. apply elem_of_app. by right.
Qed.

Lemma written_line l lines s : Line s ∈ (snd <$> l) -> end_line s ∈ written l lines.
Proof.
  revert lines. induction l as [|[dt o] l IH]; intros lines Hs; [by apply elem_of_nil in Hs|].
  cbn [fmap list_fmap snd] in Hs. apply elem_of_cons in Hs as [<-|Hs]; cbn [written]; [|by apply IH].
  apply written_before. by left.
Qed.

Lemma op_kept b w d lines dt o :
  kept b w d lines -> from <= d_clock d -> b <= d_clock d -> Second <= dt -> d_clock (do_op o w (wait dt d)).2 <= until ->
  settled b d (lines_of o ++ lines) (do_op o w (wait dt d)).
Proof.
  intros Hk Hd Hb Hdt Hu. assert (Hk' : kept b w (wait dt d) lines).
  { apply (kept_weaken b b w _ d); try done; [exact (k_file _ _ _ _ Hk) | exact (k_calm _ _ _ _ Hk)]. }
  assert (Hd' : from <= d_clock (wait dt d)) by (unfold Second in *; cbn; lia).
  assert (Hb' : b + Second <= d_clock (wait dt d)) by (cbn; lia).
  assert (Hw : forall x ls, settled b (wait dt d) ls x -> settled b d ls x).
  { intros x ls (H1 & H2 & H3). split; [done|]. split; [|done]. cbn in H2. unfold Second in *. lia. }
  apply Hw. destruct o; [by apply writeLine_kept | by apply rotateCheck_kept | by apply reopen_kept].
Qed.

Lemma grows_op o w : grows (do_op o w).
Proof. destruct o; [apply grows_writeLine | apply grows_rotateCheck | apply grows_reopen]. Qed.

Lemma run_grows l : forall w d, Forall (fun x => Second <= fst x) l -> d_clock d <= d_clock (run_log l w d).2.
Proof.
  induction l as [|[dt o] l IH]; intros w d Hl; cbn [run_log]; [cbn; lia|]. apply Forall_cons in Hl as [Hdt Hl]. pose proof (grows_op o w (wait dt d)) as K.
  destruct (do_op o w (wait dt d)) as [[r w1] d1]. specialize (IH w1 d1 Hl). destruct (run_log l w1 d1) as [[rs w2] d2]. cbn [fst snd d_clock wait] in *. unfold Second in *. lia.
Qed.

Lemma run_kept l b w d lines :
  kept b w d lines -> from <= d_clock d -> b <= d_clock d -> Forall (fun x => Second <= fst x) l -> d_clock (run_log l w d).2 <= until ->
  let '((rs, w'), d') := run_log l w d in
  Forall (fun r => r = Ok tt) rs /\ exists b', kept b' w' d' (written l lines).
Proof.
  intros Hk Hd Hb Hl. revert b w d lines Hk Hd Hb.
  induction Hl as [|[dt o] l Hdt Hl IH]; intros b w d lines Hk Hd Hb; cbn [run_log]; [intros _; split; [constructor|]; by exists b|].
  pose proof (op_kept b w d lines dt o Hk Hd Hb Hdt) as Ho.
  destruct (do_op o w (wait dt d)) as [[r w1] d1]. pose proof (run_grows l w1 d1 Hl) as Hg. specialize (IH (Z.max b (d_clock d1)) w1 d1 (lines_of o ++ lines)%list).
  destruct (run_log l w1 d1) as [[rs w2] d2]. cbn [fst snd] in *. intros Hu. destruct (Ho ltac:(lia)) as (Hr & Hc & Hk'). cbn [fst snd] in *.
  specialize (IH Hk' ltac:(lia) ltac:(lia) Hu).
  destruct IH as (Hrs & b' & Hb'). split; [by constructor|].
  by exists b'.
Qed.

(** Rotation with compression loses an earlier rotation of the same day:
    the [.gz] of the first hides it from the check of the name, the second is
    given the name of the day again, and its [.gz] truncates the first one. *)
Theorem compressed_rotation_overwrites (w : fileWriter) (d : Disk) (t : Z) (i j : nat) (new : list string) (old : inode) (ti : Z) :
  let day := path ++ "." ++ FormatDate loc t in
  w_path w = path -> Mode (w_keep w) = KeepForever -> w_compress w = true -> calm d -> i <> j ->
  names d !! path = Some i -> inodes d !! i = Some {| i_data := Plain new; i_mtime := ti |} ->
  names d !! day = None -> names d !! (day ++ ".gz") = Some j -> inodes d !! j = Some old ->
  exists d', doRotate loc t w d = ((Ok tt, set_state None 0 t w), d')
    /\ file_at d' (day ++ ".gz") = Some {| i_data := Gzipped new; i_mtime := d_clock d |}
    /\ names d' = delete path (names d).
Proof.
  intros day Hp Hm Hz Hc Hij Hi Hin Hday Hj Hjn. unfold doRotate, rotated_name. cbn [w_path closeLocked set_state].
  rewrite Hp. fold day. rewrite bind_D, bind_D. unfold Stat at 1. rewrite sys_calm by done.
  unfold file_at at 1. rewrite Hday. cbn [is_ok mret D_ret mbind option_bind]. unfold Rename. rewrite bind_sys by done.
  rewrite Hi. cbn [w_keep w_compress set_state closeLocked]. rewrite Hm, Hz. set (d1 := set_names _ d).
  assert (Hdp : day <> path) by apply own_not_path.
  assert (Hgp : day ++ ".gz" <> path) by (unfold day; rewrite <- !string_app_assoc; apply own_not_path).
  assert (Hdg : day ++ ".gz" <> day).
  { intros E. apply (f_equal String.length) in E. rewrite string_app_length in E. cbn in E. lia. }
  assert (H1 : names d1 !! day = Some i) by apply lookup_insert_eq.
  assert (H2 : names d1 !! (day ++ ".gz") = Some j) by (cbn; by rewrite lookup_insert_ne, lookup_delete_ne by done).
  rewrite bind_D. unfold gzipAndRemove, Open, OpenTrunc, gzip_copy, Remove.
  rewrite bind_sys, H1 by done. rewrite bind_sys, H2 by done. rewrite bind_sys by done.
  cbn [inodes set_inodes set_names d1]. rewrite list_lookup_insert_ne, Hin by done. cbn [i_data chunks].
  rewrite sys_calm by done. cbn [names set_inodes inodes]. fold d1. rewrite H1. rewrite bind_D. unfold prune.
  cbn [w_keep set_state closeLocked]. rewrite Hm. eexists. split; [reflexivity|].
  unfold file_at. cbn [names inodes set_names set_inodes d1]. split.
  - rewrite lookup_delete_ne, lookup_insert_ne, lookup_delete_ne, Hj by done. cbn.
    rewrite list_insert_insert_eq. apply list_lookup_insert_eq. by eapply lookup_lt_Some.
  - by rewrite delete_insert_id by (by rewrite lookup_delete_ne).
Qed.
End names.

(** C34 — Rotation loses nothing that is to be kept, as long as the local clock is not put
    back: with the policy [forever] and no compression, on a disk where no system call
    fails and that has no file of this log yet, every sequence of writes, scheduled
    checks and reopenings a second apart or more succeeds, and afterwards every line
    written is in a file of the log. The offset of the zone from UTC may grow during
    the run but not shrink. *)
Theorem rotation_keeps_lines `{Gzip} (loc : Location) (path : string) (rotate : RotatePolicy) (keep : KeepPolicy) (hold : bool) (d : Disk) (l : list (Z * log_op)) :
  Mode keep = KeepForever -> calm d -> (forall n, own path n -> names d !! n = None) -> 0 <= wall loc (d_clock d) ->
  Forall (fun x => Second <= fst x) l ->
  let '((rs, w'), d') := run_log loc l (newFileWriter path rotate keep false hold) d in
  no_fall_back loc (d_clock d) (d_clock d') ->
  Forall (fun r => r = Ok tt) rs /\ forall s, Line s ∈ (snd <$> l) -> stored path (end_line s) d'.
Proof.
  intros Hm Hc Hno Hd Hl. set (until := d_clock (run_log loc l (newFileWriter path rotate keep false hold) d).2).
  assert (Hk : kept loc (d_clock d) until path (d_clock d) (newFileWriter path rotate keep false hold) d []).
  { split; try done; [| |set_solver].
    - intros n i Ho Hn. by rewrite Hno in Hn.
    - intros n [i Hn] Hpre. rewrite Hno in Hn; [done | by right]. }
  assert (Hrun : no_fall_back loc (d_clock d) until -> _) by (intros Hr; exact (run_kept loc (d_clock d) until Hr Hd path l _ _ d [] Hk ltac:(lia) ltac:(lia) Hl (Z.le_refl _))).
  unfold until in Hrun. destruct (run_log _ _ _ _) as [[rs w'] d']. cbn [snd] in Hrun. intros Hr. destruct (Hrun Hr) as [Hrs [b' Hk']].
  split; [done|]. intros s Hs. apply (k_lines _ _ _ _ _ _ _ _ Hk'). by apply written_line.
Qed.

(** ** Retention *)

Section retention.
Context `{Gzip} (path : string).

(** The rotated files of the log, with their times. *)
Definition rotated (d : Disk) : list (string * Z) :=
  omap (fun p => (fun f => (p, i_mtime f)) <$> file_at d p) (with_prefix (path ++ ".") d).

Lemma with_prefix_perm p d : with_prefix p d ≡ₚ keep (fun n => Strings.HasPrefix n p) (map_to_list (names d)).*1.
Proof. apply merge_sort_Permutation. Qed.

Lemma with_prefix_NoDup p d : NoDup (with_prefix p d).
Proof. rewrite with_prefix_perm. unfold keep. apply NoDup_ListNoDup, List.NoDup_filter, NoDup_ListNoDup, NoDup_fst_map_to_list. Qed.

Lemma with_prefix_names p d n : n ∈ with_prefix p d -> is_Some (names d !! n).
Proof.
  rewrite with_prefix_perm, keep_elem. intros [Hin _]. apply list_elem_of_fmap in Hin as ([m i] & -> & Hm).
  apply elem_of_map_to_list in Hm. by exists i.
Qed.

Lemma stat_all_calm l d : calm d ->
  stat_all l d = (omap (fun p => (fun f => (p, i_mtime f)) <$> file_at d p) l, d).
Proof.
  intros Hd. induction l as [|p l IH]; [done|]. cbn [stat_all]. unfold Stat. rewrite bind_sys by done.
  rewrite bind_D, IH. cbn [omap list_omap]. by destruct (file_at d p).
Qed.

Lemma omap_fst_sub (d : Disk) l x :
  x ∈ (omap (fun p => (fun f => (p, i_mtime f)) <$> file_at d p) l).*1 -> x ∈ l.
Proof.
  intros Hx. apply list_elem_of_fmap in Hx as ([p z] & -> & Hin). apply list_elem_of_omap in Hin as (q & Hq & E).
  cbn. destruct (file_at d q); inversion E; by subst.
Qed.

Lemma omap_fst_NoDup (d : Disk) l :
  NoDup l -> NoDup (omap (fun p => (fun f => (p, i_mtime f)) <$> file_at d p) l).*1.
Proof.
  induction 1 as [|p l Hp Hl IH]; [constructor|]. cbn [omap list_omap]. destruct (file_at d p); cbn; [|done].
  constructor; [|done]. contradict Hp. by eapply omap_fst_sub.
Qed.

(** What retention leaves of a list of files and what it removes. *)
Fixpoint sort_out (k : KeepPolicy) (t : Z) (i : nat) (files : list (string * Z)) : list (string * Z) * list (string * Z) :=
  match files with
  | [] => ([], [])
  | f :: files =>
      let '(stay, gone) := sort_out k t (S i) files in
      if doomed k t i (snd f) then (stay, f :: gone) else (f :: stay, gone)
  end.

Lemma sort_out_perm k t files : forall i, files ≡ₚ (sort_out k t i files).1 ++ (sort_out k t i files).2.
Proof.
  induction files as [|f files IH]; intros i; [done|]. cbn [sort_out]. specialize (IH (S i)).
  destruct (sort_out k t (S i) files) as [stay gone]. destruct (doomed k t i (snd f)); cbn in *; rewrite IH at 1; [|done].
  by rewrite Permutation_middle.
Qed.

Lemma remove_doomed_calm k t files : forall i d,
  calm d -> NoDup files.*1 -> (forall x, x ∈ files.*1 -> is_Some (names d !! x)) ->
  exists d', remove_doomed k t i files (Ok tt) d = (Ok tt, d') /\ calm d' /\ inodes d' = inodes d
    /\ forall x, names d' !! x = if decide (x ∈ (sort_out k t i files).2.*1) then None else names d !! x.
Proof.
  induction files as [|[p m] files IH]; intros i d Hd Hnd Hin; [exists d; split_and!; [done..|]; intros x; cbn; case_decide; set_solver|].
  cbn [fmap list_fmap fst] in *. apply NoDup_cons in Hnd as [Hp Hnd]. cbn [remove_doomed sort_out snd].
  pose proof (sort_out_perm k t files (S i)) as Hperm.
  destruct (sort_out k t (S i) files) as [stay gone] eqn:Es. cbn [fst snd] in Hperm.
  assert (Hsub : forall x, x ∈ gone.*1 -> x ∈ files.*1) by (intros x Hx; rewrite Hperm, fmap_app; set_solver).
  destruct (doomed k t i m).
  - destruct (Hin p ltac:(by left)) as [q Hq]. unfold Remove. rewrite bind_sys, Hq by done.
    destruct (IH (S i) (set_names (delete p (names d)) d)) as (d' & E & Hc & Hi & Hn); [done | done | |].
    { intros x Hx. cbn. rewrite lookup_delete_ne by (intros ->; done). apply Hin. by right. }
    exists d'. split; [exact E|]. split; [done|]. split; [done|]. intros x. rewrite Hn, Es. cbn [fst snd names set_names fmap list_fmap].
    destruct (decide (x = p)) as [->|Hne].
    + rewrite lookup_delete_eq. repeat case_decide; set_solver.
    + rewrite lookup_delete_ne by done. repeat case_decide; set_solver.
  - destruct (IH (S i) d Hd Hnd) as (d' & E & Hc & Hi & Hn); [intros x Hx; apply Hin; by right|].
    exists d'. split; [exact E|]. split; [done|]. split; [done|]. intros x. by rewrite Hn, Es.
Qed.

Lemma sort_out_count k t files : forall i,
  Mode k = KeepCount ->
  sort_out k t i files = (take (Z.to_nat (Count k) - i) files, drop (Z.to_nat (Count k) - i) files).
Proof.
  induction files as [|f files IH]; intros i Hk; [by rewrite take_nil, drop_nil|]. cbn [sort_out]. rewrite IH by done.
  unfold doomed. rewrite Hk. destruct (Z.leb_spec (Count k) (Z.of_nat i)).
  - replace (Z.to_nat (Count k) - i)%nat with 0%nat by lia. by replace (Z.to_nat (Count k) - S i)%nat with 0%nat by lia.
  - by replace (Z.to_nat (Count k) - i)%nat with (S (Z.to_nat (Count k) - S i)) by lia.
Qed.

Lemma sort_out_age k t files : forall i,
  Mode k = KeepAge ->
  (forall x, x ∈ (sort_out k t i files).1 -> t - snd x <= Age k) /\ (forall x, x ∈ (sort_out k t i files).2 -> Age k < t - snd x).
Proof.
  induction files as [|f files IH]; intros i Hk; [set_solver|]. cbn [sort_out]. specialize (IH (S i) Hk).
  destruct (sort_out k t (S i) files) as [stay gone]. cbn [fst snd] in IH. destruct IH as [IH1 IH2].
  unfold doomed. rewrite Hk. destruct (Z.ltb_spec (Age k) (t - snd f)); cbn [fst snd]; split; intros x Hx; auto;
    apply elem_of_cons in Hx as [->|Hx]; auto; lia.
Qed.

Lemma sort_out_none k t files : forall i, Mode k = KeepNone -> sort_out k t i files = ([], files).
Proof.
  induction files as [|f files IH]; intros i Hk; [done|]. cbn [sort_out]. rewrite IH by done. unfold doomed. by rewrite Hk.
Qed.

#[local] Instance newer_trans : Transitive newer.
Proof. unfold newer. intros a b c. lia. Qed.
#[local] Instance newer_total : Total newer.
Proof. unfold newer. intros a b. lia. Qed.

Lemma sorted_split (l1 l2 : list (string * Z)) x y :
  StronglySorted newer (l1 ++ l2) -> x ∈ l1 -> y ∈ l2 -> snd y <= snd x.
Proof.
  intros Hs Hx Hy. induction l1 as [|z l1 IH]; [set_solver|]. cbn in Hs. inversion Hs as [|? ? Hs' Hall]; subst.
  apply elem_of_cons in Hx as [->|Hx]; [|by apply IH]. rewrite Forall_forall in Hall. apply Hall. set_solver.
Qed.

(** What is promised of the files a policy keeps and of those it removes. *)
Definition retains (k : KeepPolicy) (t : Z) (stay gone : list (string * Z)) : Prop :=
  match Mode k with
  | KeepForever => gone = []
  | KeepNone => stay = []
  | KeepCount => length stay = Nat.min (Z.to_nat (Count k)) (length (stay ++ gone))
                 /\ forall x y, x ∈ stay -> y ∈ gone -> snd y <= snd x
  | KeepAge => (forall x, x ∈ stay -> t - snd x <= Age k) /\ (forall x, x ∈ gone -> Age k < t - snd x)
  end.

Lemma sort_out_retains k t files :
  Mode k <> KeepForever -> StronglySorted newer files ->
  retains k t (sort_out k t 0 files).1 (sort_out k t 0 files).2.
Proof.
  intros Hm Hs. unfold retains. destruct (Mode k) eqn:Hk; [by rewrite sort_out_none| |by apply sort_out_age | done].
  rewrite sort_out_count by done. cbn [fst snd]. rewrite take_drop, length_take, Nat.sub_0_r. split; [lia|].
  intros x y Hx Hy. eapply (sorted_split (take _ files) (drop _ files)); [by rewrite take_drop | done | done].
Qed.

(** Retention does what the policy says: pruning a log on a disk where no
    call fails succeeds and splits its rotated files into those that stay and
    those that are gone — none gone with [forever], none left with [none], with a
    count that many of the newest left, with an age exactly those left whose age
    is within it — and touches no other name. *)
Theorem retention_follows_policy (w : fileWriter) (d : Disk) (t : Z) :
  w_path w = path -> calm d ->
  exists d' stay gone,
    prune t w d = (Ok tt, d') /\ rotated d ≡ₚ stay ++ gone /\ retains (w_keep w) t stay gone
    /\ inodes d' = inodes d /\ forall x, names d' !! x = if decide (x ∈ gone.*1) then None else names d !! x.
Proof.
  intros Hp Hc. unfold prune. rewrite Hp. destruct (decide (Mode (w_keep w) = KeepForever)) as [E|Hne].
  { rewrite E. exists d, (rotated d), []. rewrite app_nil_r. split_and!; [done | done | by unfold retains; rewrite E | done |].
    intros x. case_decide; set_solver. }
  pose proof (merge_sort_Permutation newer (rotated d)) as Hperm.
  set (files := merge_sort newer (rotated d)) in *.
  destruct (remove_doomed_calm (w_keep w) t files 0 d Hc) as (d' & E & _ & Hi & Hn).
  - rewrite Hperm. apply omap_fst_NoDup, with_prefix_NoDup.
  - intros x Hx. rewrite Hperm in Hx. by eapply with_prefix_names, omap_fst_sub.
  - exists d', (sort_out (w_keep w) t 0 files).1, (sort_out (w_keep w) t 0 files).2. split_and!; try done.
    + rewrite <- E. destruct (Mode (w_keep w)) eqn:Em; try done; rewrite bind_D; cbn [Glob]; by rewrite bind_D, stat_all_calm.
    + rewrite <- Hperm. apply sort_out_perm.
    + apply sort_out_retains; [done|]. apply StronglySorted_merge_sort; apply _.
Qed.
End retention.



(** A concrete log: files are compressed to their own size, the policy rotates at
    eight bytes. *)
#[local] Instance stored_gzip : Gzip := {| gz_size := total |}.
Definition small : RotatePolicy := {| Interval := ""; MaxBytes := 8 |}.
Definition forever : KeepPolicy := {| Mode := KeepForever; Count := 0; Age := 0 |}.
Definition blank : Disk := {| names := ∅; inodes := []; d_clock := of_unix 1728000000; d_ticks := []; d_faults := [] |}.
Definition ops : list (Z * log_op) := (fun s => (Second, Line s)) <$> ["first"; "second"; "third"].

Theorem rotation_keeps_lines_witness :
  let '((rs, w'), d') := run_log UTC ops (newFileWriter "app.log" small forever false true) blank in
  Forall (fun r => r = Ok tt) rs /\ forall s, Line s ∈ (snd <$> ops) -> stored "app.log" (end_line s) d'.
Proof.
  pose proof (rotation_keeps_lines UTC "app.log" small forever true blank ops eq_refl eq_refl) as P.
  destruct (run_log UTC ops (newFileWriter "app.log" small forever false true) blank) as [[rs w'] d']. apply P.
  - intros n _. reflexivity.
  - vm_compute. discriminate.
  - repeat constructor; vm_compute; discriminate.
  - apply (fixed_no_fall_back 0).
Defined.

(** The third line of [ops] rotates a second time on the first day. *)
Definition blank_after : Disk := (run_log UTC (take 2 ops) (newFileWriter "app.log" small forever true true) blank).2.

Theorem compressed_rotation_overwrites_witness :
  exists d', doRotate (fixed_zone 0) (d_clock blank_after) (newFileWriter "app.log" small forever true true) blank_after
             = ((Ok tt, set_state None 0 (d_clock blank_after) (newFileWriter "app.log" small forever true true)), d')
    /\ file_at d' "app.log.2024-10-04.gz" = Some {| i_data := Gzipped [end_line "second"]; i_mtime := d_clock blank_after |}
    /\ names d' = delete "app.log" (names blank_after).
Proof.
  apply (compressed_rotation_overwrites UTC "app.log" (newFileWriter "app.log" small forever true true) blank_after
           (d_clock blank_after) 2 1 [end_line "second"] {| i_data := Gzipped [end_line "first"]; i_mtime := of_unix 1728000002 |}
           (d_clock blank_after)); try reflexivity. discriminate.
Defined.

(** The whole run: of three lines, all written without an error, the first is gone. *)
Lemma first_line_lost :
  let '((rs, _), d) := run_log UTC ops (newFileWriter "app.log" small forever true true) blank in
  rs = [Ok tt; Ok tt; Ok tt] /\ (map_to_list (names d)).*1 = ["app.log.2024-10-04.gz"; "app.log"]
  /\ (i_data <$> file_at d "app.log.2024-10-04.gz") = Some (Gzipped [end_line "second"])
  /\ (i_data <$> file_at d "app.log") = Some (Plain [end_line "third"]).
Proof. vm_compute. auto. Qed.

(** The clocks of New York around the third of November 2024, when they go back from two
    to one: without compression, of four lines that are written a minute, a minute and an
    hour apart without an error, the second is gone, because the rotation in the second
    one o'clock takes the name of the one in the first and replaces its file. *)
Definition autumn : Location := {| loc_first := -14400; loc_trans := [(1730613600, -18000)] |}.
Definition before_dawn : Disk := {| names := ∅; inodes := []; d_clock := of_unix 1730611770; d_ticks := []; d_faults := [] |}.
Definition autumn_ops : list (Z * log_op) :=
  [(Second, Line "first"); (60 * Second, Line "second"); (60 * Second, Line "third"); (3600 * Second, Line "fourth")].

Lemma fall_back_loses_line :
  let '((rs, _), d) := run_log autumn autumn_ops (newFileWriter "app.log" small forever false true) before_dawn in
  rs = [Ok tt; Ok tt; Ok tt; Ok tt] /\ (map_to_list (names d)).*1 = ["app.log.2024-11-03_013131"; "app.log.2024-11-03"; "app.log"]
  /\ (i_data <$> file_at d "app.log.2024-11-03_013131") = Some (Plain [end_line "third"])
  /\ (i_data <$> file_at d "app.log.2024-11-03") = Some (Plain [end_line "first"])
  /\ (i_data <$> file_at d "app.log") = Some (Plain [end_line "fourth"]).
Proof. vm_compute. auto. Qed.

(** Three rotated files, of which the count one keeps the newest. *)
Definition three : Disk :=
  {| names := <["app.log.2024-10-01" := 0%nat]> (<["app.log.2024-10-02" := 1%nat]> (<["app.log.2024-10-03" := 2%nat]> ∅));
     inodes := [{| i_data := Plain ["a"]; i_mtime := 1 |}; {| i_data := Plain ["b"]; i_mtime := 2 |}; {| i_data := Plain ["c"]; i_mtime := 3 |}];
     d_clock := 4; d_ticks := []; d_faults := [] |}.
Definition keeper : fileWriter := newFileWriter "app.log" small (count_of 1) false true.

Theorem retention_follows_policy_witness :
  (map_to_list (names (prune 4 keeper three).2)).*1 = ["app.log.2024-10-03"]
  /\ exists d' stay gone,
    prune 4 keeper three = (Ok tt, d') /\ rotated "app.log" three ≡ₚ stay ++ gone /\ retains (w_keep keeper) 4 stay gone
    /\ inodes d' = inodes three /\ forall x, names d' !! x = if decide (x ∈ gone.*1) then None else names three !! x.
Proof. split; [vm_compute; reflexivity|]. exact (retention_follows_policy "app.log" keeper three 4 eq_refl eq_refl). Defined.

(** An age of 200000 days wraps to a negative duration, past which every file is. *)
Lemma keep_age_overflow :
  @ParseKeep ascii_unicode "200000d" = Ok {| Mode := KeepAge; Count := 0; Age := wrap64 (200000 * Day) |}
  /\ wrap64 (200000 * Day) < 0.
Proof. split; vm_compute; reflexivity. Qed.

(** A limit of 17592186044416 GiB wraps to none. *)
Lemma rotate_size_overflow :
  @ParseRotate ascii_unicode "17592186044416gb" = Ok never.
Proof. vm_compute. reflexivity. Qed.
