(* ===== verification/Log.v ===== *)
(** * The log files (src/src/logging/format.go and logging.go)

    The line formatters, and the manager that owns one rotating writer per file.
    A nil manager, for which every method does nothing, is not represented; a nil
    writer is [None].  What [log.Printf] sends to the standard error stream when a
    write fails is not represented either. *)

From S2P Require Import Prelude GoStr GoTime GoQuote Http FileSys Rotate.
From Stdlib Require Import Ascii.

(** ** Sanitize *)

(** The state of the scanner: normal, after ESC, in a CSI sequence. *)
Inductive esc_state := Normal | SawEsc | InCsi.

Definition isPrintableText (r : Z) : bool :=
  negb ((126976 <=? r) || Utf8.in_rng 8592 11263 r || Utf8.in_rng 65024 65039 r || (r =? 8205)).

(** What a rune outside escape sequences becomes. *)
Definition clean_rune (r : Z) : list Z :=
  if (r =? 10) || (r =? 13) || (r =? 9) then [32]
  else if (r <? 32) || (r =? 127) then []
  else if (127 <? r) && negb (isPrintableText r) then []
  else [r].

Definition sanitize_step (esc : esc_state) (r : Z) : esc_state * list Z :=
  match esc with
  | SawEsc => (if r =? 91 then InCsi else Normal, [])
  | InCsi => (if Utf8.in_rng 64 126 r then Normal else InCsi, [])
  | Normal => if r =? 27 then (SawEsc, []) else (Normal, clean_rune r)
  end.

Fixpoint sanitize_runes (esc : esc_state) (l : list Z) : list Z :=
  match l with
  | [] => []
  | r :: l => let '(esc, out) := sanitize_step esc r in out ++ sanitize_runes esc l
  end%list.

Definition Sanitize (s : string) : string := Utf8.of_runes (sanitize_runes Normal (fst <$> Utf8.runes s)).

(** ** access.log *)

Record AccessEntry := {
  RemoteIP : string; e_Time : Z; Method : string; e_Path : string; e_Query : string; Protocol : string;
  e_Status : Z; e_Bytes : Z; Referer : string; UserAgent : string; Latency : Z; RequestID : string;
  FQDN : string; TLSVersion : string; Country : string; ASN : string;
}.

Definition clfString (s : string) : string := let s := Sanitize s in if String.eqb s "" then "-" else s.

Definition fullPath (e : AccessEntry) : string :=
  if String.eqb (e_Query e) "" then e_Path e else e_Path e ++ "?" ++ e_Query e.

Definition dquote : string := of_bytes [34].

Section formats.
Context `{Unicode} `{Printable} (loc : Location).

Definition clfTime (t : Z) : string :=
  Strconv.pad 2 (Day_ loc t) ++ "/" ++ ShortMonth loc t ++ "/" ++ FormatYear loc t ++ ":" ++ FormatClock loc t ++ " "
  ++ FormatOffset "" (offset_at loc (Unix t)).

Definition FormatAccessNginx (e : AccessEntry) : string :=
  clfString (RemoteIP e) ++ " - - [" ++ clfTime (e_Time e) ++ "] " ++ dquote ++ Sanitize (Method e) ++ " "
  ++ Sanitize (fullPath e) ++ " " ++ clfString (Protocol e) ++ dquote ++ " " ++ Strconv.Itoa (e_Status e) ++ " "
  ++ Strconv.Itoa (e_Bytes e).

Definition FormatAccessApache (e : AccessEntry) : string :=
  clfString (RemoteIP e) ++ " - - [" ++ clfTime (e_Time e) ++ "] " ++ dquote ++ Sanitize (Method e) ++ " "
  ++ Sanitize (fullPath e) ++ " " ++ clfString (Protocol e) ++ dquote ++ " " ++ Strconv.Itoa (e_Status e) ++ " "
  ++ Strconv.Itoa (e_Bytes e) ++ " " ++ Quote (clfString (Referer e)) ++ " " ++ Quote (clfString (UserAgent e)).

Definition json_member (k v : string) : string := JsonQuote k ++ ":" ++ v.

Definition FormatAccessJSON (e : AccessEntry) : string :=
  "{" ++ Strings.Join
    [json_member "ip" (JsonQuote (Sanitize (RemoteIP e)));
     json_member "time" (JsonQuote (RFC3339 UTC (e_Time e)));
     json_member "method" (JsonQuote (Sanitize (Method e)));
     json_member "path" (JsonQuote (Sanitize (fullPath e)));
     json_member "status" (Strconv.Itoa (e_Status e));
     json_member "size" (Strconv.Itoa (e_Bytes e));
     json_member "ua" (JsonQuote (Sanitize (UserAgent e)))] "," ++ "}".

Definition access_variables (e : AccessEntry) : list (string * string) :=
  [("{time}", FormatClock loc (e_Time e)); ("{date}", FormatDate loc (e_Time e));
   ("{datetime}", RFC3339 loc (e_Time e)); ("{remote_ip}", Sanitize (RemoteIP e));
   ("{method}", Sanitize (Method e)); ("{path}", Sanitize (e_Path e)); ("{query}", Sanitize (e_Query e));
   ("{status}", Strconv.Itoa (e_Status e)); ("{bytes}", Strconv.Itoa (e_Bytes e));
   ("{latency}", Duration_String (Latency e)); ("{latency_ms}", Strconv.Itoa (Milliseconds (Latency e)));
   ("{user_agent}", Sanitize (UserAgent e)); ("{referer}", Sanitize (Referer e));
   ("{request_id}", Sanitize (RequestID e)); ("{fqdn}", Sanitize (FQDN e));
   ("{protocol}", Sanitize (Protocol e)); ("{tls_version}", Sanitize (TLSVersion e));
   ("{country}", Sanitize (Country e)); ("{asn}", Sanitize (ASN e))].

Definition FormatAccessCustom (format : string) (e : AccessEntry) : string :=
  Sanitize (Strings.Replace (access_variables e) format).

(** ** The other files *)

Definition logfmtValue (v : string) : string :=
  let v := Sanitize v in
  if String.eqb v "" then dquote ++ dquote
  else if Strings.ContainsAny v (" " ++ dquote ++ "=") then Quote v
  else v.

(** The fields come as keys and values in turn; an odd last one is left out. *)
Fixpoint logfmt_fields (fields : list string) : string :=
  match fields with
  | k :: v :: fields => " " ++ Sanitize k ++ "=" ++ logfmtValue v ++ logfmt_fields fields
  | _ => ""
  end.

Definition FormatLogfmt (t : Z) (level msg : string) (fields : list string) : string :=
  "time=" ++ RFC3339 loc t ++ " level=" ++ StringsU.ToUpper (Sanitize level) ++ " msg=" ++ logfmtValue msg
  ++ logfmt_fields fields.

Definition FormatText (t : Z) (level msg : string) (fields : list string) : string :=
  RFC3339 loc t ++ " [" ++ StringsU.ToUpper (Sanitize level) ++ "] " ++ Sanitize msg ++ logfmt_fields fields.

Fixpoint json_fields (fields : list string) : string :=
  match fields with
  | k :: v :: fields => "," ++ Quote (Sanitize k) ++ ":" ++ Quote (Sanitize v) ++ json_fields fields
  | _ => ""
  end.

Definition FormatJSONLine (t : Z) (level msg : string) (fields : list string) : string :=
  "{" ++ dquote ++ "time" ++ dquote ++ ":" ++ Quote (RFC3339 loc t)
  ++ "," ++ dquote ++ "level" ++ dquote ++ ":" ++ Quote (StringsU.ToLower (Sanitize level))
  ++ "," ++ dquote ++ "msg" ++ dquote ++ ":" ++ Quote (Sanitize msg) ++ json_fields fields ++ "}".

Definition FormatSyslog (t : Z) (hostname tag : string) (pid : Z) (msg : string) : string :=
  let day := Day_ loc t in
  ShortMonth loc t ++ " " ++ (if day <? 10 then " " else "") ++ Strconv.Itoa day ++ " " ++ FormatClock loc t ++ " "
  ++ Sanitize hostname ++ " " ++ Sanitize tag ++ "[" ++ Strconv.Itoa pid ++ "]: " ++ Sanitize msg.

Definition AuthMessage (tokenID ip outcome reason : string) : string :=
  let tokenID := if String.eqb tokenID "" then "-" else tokenID in
  "auth: token_id=" ++ Sanitize tokenID ++ " ip=" ++ Sanitize ip ++ " result=" ++ Sanitize outcome
  ++ (if String.eqb reason "" then "" else " reason=" ++ Sanitize reason).

End formats.

(** ** The manager *)

Record FileOptions := {
  Enabled : bool; Filename : string; Format : string; Custom : string; Rotate_ : string; Keep_ : string; Compress : bool;
}.

Record Options := {
  Dir : string; Level : string; Hostname : string; Tag : string;
  o_Access : FileOptions; o_Server : FileOptions; o_Error : FileOptions; o_App : FileOptions;
  o_Auth : FileOptions; o_Debug : FileOptions; o_Audit : FileOptions; o_Security : FileOptions;
}.

Inductive log_file := AccessLog | ServerLog | ErrorLog | AppLog | AuthLog | DebugLog | AuditLog | SecurityLog.
#[export] Instance log_file_eq : EqDecision log_file.
Proof. solve_decision. Defined.

(** In the order in which they are checked and reopened. *)
Definition all_files : list log_file := [AccessLog; ServerLog; ErrorLog; AppLog; AuthLog; DebugLog; AuditLog; SecurityLog].

Record Manager := {
  m_level : Z;
  hostname : string;
  tag : string;
  pid : Z;
  accessFormat : string;
  accessCustom : string;
  json : log_file -> bool;
  debugEnabled : bool;
  writers : log_file -> option fileWriter;
}.

Definition set_writer (f : log_file) (w : option fileWriter) (m : Manager) : Manager :=
  {| m_level := m_level m; hostname := hostname m; tag := tag m; pid := pid m; accessFormat := accessFormat m;
     accessCustom := accessCustom m; json := json m; debugEnabled := debugEnabled m;
     writers := fun g => if decide (g = f) then w else writers m g |}.

Definition levelRank `{Unicode} (level : string) : Z :=
  let l := StringsU.ToLower (StringsU.TrimSpace level) in
  if String.eqb l "debug" then 0
  else if String.eqb l "info" then 1
  else if String.eqb l "warn" || String.eqb l "warning" then 2
  else if String.eqb l "error" then 3
  else 1.

Definition policies `{Unicode} (o : FileOptions) : RotatePolicy * KeepPolicy :=
  (match ParseRotate (Rotate_ o) with Ok p => p | Err _ => never end,
   match ParseKeep (Keep_ o) with Ok p => p | Err _ => keep_none end).

(** [filepath.Join(dir, filename)] for a clean directory and a file name
    without separators. *)
Definition writer `{Unicode} (dir : string) (o : FileOptions) (holdOpen : bool) : option fileWriter :=
  if String.eqb dir "" || String.eqb (Filename o) "" then None
  else let '(rp, kp) := policies o in Some (newFileWriter (dir ++ "/" ++ Filename o) rp kp (Compress o) holdOpen).

(** [host] is the answer of [os.Hostname]. *)
Definition New `{Unicode} (host : result string) (getpid : Z) (opts : Options) : Manager :=
  let is_json o := EqualFold (Format o) "json" in
  {| m_level := levelRank (Level opts);
     hostname := if String.eqb (Hostname opts) "" then match host with Ok h => h | Err _ => "localhost" end
                 else Hostname opts;
     tag := if String.eqb (Tag opts) "" then "pastebin" else Tag opts;
     pid := getpid;
     accessFormat := StringsU.ToLower (Format (o_Access opts));
     accessCustom := Custom (o_Access opts);
     json := fun f => match f with
                      | ServerLog => is_json (o_Server opts)
                      | ErrorLog => is_json (o_Error opts)
                      | AppLog => is_json (o_App opts)
                      | AuthLog => is_json (o_Auth opts)
                      | DebugLog => is_json (o_Debug opts)
                      | AccessLog | AuditLog | SecurityLog => false
                      end;
     debugEnabled := Enabled (o_Debug opts);
     writers := fun f => match f with
                         | AccessLog => writer (Dir opts) (o_Access opts) true
                         | ServerLog => writer (Dir opts) (o_Server opts) true
                         | ErrorLog => writer (Dir opts) (o_Error opts) true
                         | AppLog => writer (Dir opts) (o_App opts) true
                         | AuthLog => if Enabled (o_Auth opts) then writer (Dir opts) (o_Auth opts) true else None
                         | DebugLog => writer (Dir opts) (o_Debug opts) true
                         | AuditLog => if Enabled (o_Audit opts) then writer (Dir opts) (o_Audit opts) false else None
                         | SecurityLog => writer (Dir opts) (o_Security opts) false
                         end |}.

Section manager.
Context `{Unicode} `{Printable} `{Gzip} (loc : Location).

Definition write (f : log_file) (line : string) (m : Manager) : D Manager :=
  match writers m f with
  | None => mret m
  | Some w =>
      if String.eqb line "" then mret m
      else r ← writeLine loc line w; mret (set_writer f (Some (snd r)) m)
  end.

Definition Access (e : AccessEntry) (m : Manager) : D Manager :=
  let line :=
    if String.eqb (accessFormat m) "nginx" then FormatAccessNginx loc e
    else if String.eqb (accessFormat m) "json" then FormatAccessJSON e
    else if String.eqb (accessFormat m) "custom" then FormatAccessCustom loc (accessCustom m) e
    else FormatAccessApache loc e in
  write AccessLog line m.

Definition Server (level msg : string) (fields : list string) (m : Manager) : D Manager :=
  match writers m ServerLog with
  | None => mret m
  | Some _ =>
      if levelRank level <? m_level m then mret m
      else
        t ← now;
        write ServerLog (if json m ServerLog then FormatJSONLine loc t level msg fields
                         else FormatText loc t level msg fields) m
  end.

Definition Error (msg : string) (fields : list string) (m : Manager) : D Manager :=
  match writers m ErrorLog with
  | None => mret m
  | Some _ =>
      t ← now;
      write ErrorLog (if json m ErrorLog then FormatJSONLine loc t "error" msg fields
                      else FormatText loc t "error" msg fields) m
  end.

Definition App (level msg : string) (fields : list string) (m : Manager) : D Manager :=
  match writers m AppLog with
  | None => mret m
  | Some _ =>
      if levelRank level <? m_level m then mret m
      else
        t ← now;
        write AppLog (if json m AppLog then FormatJSONLine loc t level msg fields
                      else FormatLogfmt loc t level msg fields) m
  end.

Definition Auth (tokenID ip outcome reason : string) (m : Manager) : D Manager :=
  match writers m AuthLog with
  | None => mret m
  | Some _ =>
      t ← now;
      write AuthLog
        (if json m AuthLog then
           FormatJSONLine loc t "info" "auth"
             (["token_id"; tokenID; "ip"; ip; "result"; outcome]
                ++ (if String.eqb reason "" then [] else ["reason"; reason]))%list
         else FormatSyslog loc t (hostname m) (tag m) (pid m) (AuthMessage tokenID ip outcome reason)) m
  end.

(** [gate] is the answer of the manager's callback ([true] when it has none). *)
Definition Debug (gate : bool) (msg : string) (fields : list string) (m : Manager) : D Manager :=
  match writers m DebugLog with
  | None => mret m
  | Some _ =>
      if negb (debugEnabled m) then mret m
      else if negb gate then mret m
      else
        t ← now;
        write DebugLog (if json m DebugLog then FormatJSONLine loc t "debug" msg fields
                        else FormatText loc t "debug" msg fields) m
  end.

(** An operation on every writer; the first error is returned. *)
Fixpoint each_writer (op : fileWriter -> D (result unit * fileWriter)) (fs : list log_file) (first_err : result unit)
  (m : Manager) : D (result unit * Manager) :=
  match fs with
  | [] => mret (first_err, m)
  | f :: fs =>
      match writers m f with
      | None => each_writer op fs first_err m
      | Some w =>
          r ← op w;
          each_writer op fs (match first_err with Err e => Err e | Ok _ => fst r end) (set_writer f (Some (snd r)) m)
      end
  end.

Definition RotateCheck (m : Manager) : D (result unit * Manager) := each_writer (rotateCheck loc) all_files (Ok tt) m.

Definition Reopen (m : Manager) : D (result unit * Manager) := each_writer reopen all_files (Ok tt) m.

Definition Close (m : Manager) : Manager :=
  foldl (fun m f => match writers m f with Some w => set_writer f (Some (closeLocked w)) m | None => m end) m all_files.

End manager.
