(* ===== verification/LogProofs.v ===== *)
(** * Theorems about the log files

    What [Sanitize] computes, and that no operation of the manager writes more
    than one line whatever strings a client sends. *)

From S2P Require Import Prelude GoStr GoTime GoCrypto GoQuote Utf8Proofs Http FileSys Rotate RotateProofs Log.
From Stdlib Require Import Ascii.
From Equations Require Import Equations.

(** ** Sanitize against a reference *)

(** What is left after a CSI sequence. *)
Fixpoint drop_csi (l : list Z) : list Z :=
  match l with
  | [] => []
  | r :: l => if Utf8.in_rng 64 126 r then l else drop_csi l
  end.

Lemma drop_csi_length l : (length (drop_csi l) <= length l)%nat.
Proof. induction l as [|r l IH]; cbn; [lia|]. destruct (Utf8.in_rng 64 126 r); lia. Qed.

(** The text without its escape sequences. *)
Equations? strip (l : list Z) : list Z by wf (length l) lt :=
strip [] := [];
strip (r :: l) with decide (r = 27) := {
  | right _ => r :: strip l;
  | left _ with l := {
    | [] => [];
    | c :: l' with decide (c = 91) := {
      | left _ => strip (drop_csi l');
      | right _ => strip l' } } }.
Proof.
  pose proof (drop_csi_length l'). lia.
Qed.

Lemma sanitize_strip l : sanitize_runes Normal l = strip l ≫= clean_rune.
Proof.
  assert (Hcsi : forall l, sanitize_runes InCsi l = sanitize_runes Normal (drop_csi l)).
  { clear l. induction l as [|r l IH]; [done|]. cbn [sanitize_runes sanitize_step drop_csi app].
    destruct (Utf8.in_rng 64 126 r); [done | apply IH]. }
  funelim (strip l); cbn [sanitize_runes sanitize_step]; [done|..].
  - rewrite (proj2 (Z.eqb_neq r 27)) by done. cbn. by rewrite H by done.
  - clear Heq. by subst r.
  - clear Heq Heq0. subst r c. cbn. by rewrite Hcsi, H.
  - clear Heq Heq0. subst r. cbn [Z.eqb Pos.eqb app sanitize_step]. rewrite (proj2 (Z.eqb_neq c 91)) by done. by apply H.
Qed.

(** ** Text: what the files may hold *)

(** A rune that is no control character of ASCII. *)
Definition text (r : Z) : Prop := 32 <= r /\ r <> 127.

Definition clean_byte (c : ascii) : bool := (32 <=? byte c) && negb (byte c =? 127).
Definition clean (s : string) : bool := Strings.forall_byte clean_byte s.

Lemma clean_app a b : clean (a ++ b) = clean a && clean b.
Proof. apply forall_byte_app. Qed.

Lemma clean_of_bytes l : Forall text l -> Forall (fun b => 0 <= b < 256) l -> clean (of_bytes l) = true.
Proof.
  intros Ht Hb. induction l as [|b l IH]; [done|]. inversion Ht as [|? ? [] ?]. inversion Hb. subst. unfold of_bytes in *.
  cbn. fold (clean (String.string_of_list_ascii (chr <$> l))). rewrite IH by done. rewrite andb_true_r. unfold clean_byte.
  rewrite byte_chr by lia. apply andb_true_iff. split; [lia|]. apply negb_true_iff, Z.eqb_neq. lia.
Qed.

Lemma EncodeRune_text r : scalar r -> text r -> Forall text (Utf8.EncodeRune r).
Proof.
  intros Hs [H1 H2]. unfold text. rewrite EncodeRune_arith by done. unfold scalar in Hs.
  repeat case_match; b2p; repeat constructor; dlia.
Qed.

Lemma clean_of_runes l : Forall scalar l -> Forall text l -> clean (Utf8.of_runes l) = true.
Proof.
  intros Hs Ht. unfold Utf8.of_runes. apply clean_of_bytes; (induction Hs as [|r l Hr Hs IH]; [constructor|]);
    inversion Ht; subst; (apply Forall_app; split; [|by apply IH]); [by apply EncodeRune_text | by apply EncodeRune_bytes].
Qed.

Lemma in_sanitize_runes l r : r ∈ sanitize_runes Normal l -> text r /\ clean_rune r = [r] /\ (r ∈ l \/ r = 32).
Proof.
  rewrite sanitize_strip. intros Hr. apply list_elem_of_bind in Hr as (x & Hr & Hx).
  assert (Hsub : x ∈ l).
  { clear Hr. assert (Hdrop : forall l y, y ∈ drop_csi l -> y ∈ l).
    { clear. induction l as [|z l IH]; cbn; intros y Hy; [done|]. destruct (Utf8.in_rng 64 126 z); right; auto. }
    revert Hx. funelim (strip l); intros Hx.
    - done.
    - apply elem_of_cons in Hx as [->|Hx]; [by left | right; auto].
    - by apply elem_of_nil in Hx.
    - right. right. apply Hdrop. auto.
    - right. right. auto. }
  unfold clean_rune in Hr.
  destruct ((x =? 10) || (x =? 13) || (x =? 9)) eqn:E1; [apply list_elem_of_singleton in Hr as ->; split; [unfold text; lia|]; auto|].
  destruct ((x <? 32) || (x =? 127)) eqn:E2; [by apply elem_of_nil in Hr|].
  destruct ((127 <? x) && negb (isPrintableText x)) eqn:E3; [by apply elem_of_nil in Hr|].
  apply list_elem_of_singleton in Hr as ->. split; [unfold text; lia|]. split; [unfold clean_rune; by rewrite E1, E2, E3 | auto].
Qed.

Lemma sanitize_runes_scalar l : Forall scalar l -> Forall scalar (sanitize_runes Normal l).
Proof.
  rewrite !Forall_forall. intros Hl r Hr. apply in_sanitize_runes in Hr as (_ & _ & [Hr| ->]); [by apply Hl|].
  unfold scalar. lia.
Qed.

Lemma sanitize_runes_text l : Forall text (sanitize_runes Normal l).
Proof. rewrite Forall_forall. intros r Hr. apply (in_sanitize_runes _ _ Hr). Qed.

Lemma runes_Sanitize s : fst <$> Utf8.runes (Sanitize s) = sanitize_runes Normal (fst <$> Utf8.runes s).
Proof. apply runes_of_runes_fst, sanitize_runes_scalar, runes_scalar. Qed.

Lemma clean_Sanitize s : clean (Sanitize s) = true.
Proof. apply clean_of_runes; [apply sanitize_runes_scalar, runes_scalar | apply sanitize_runes_text]. Qed.

Lemma sanitize_runes_fixed l : Forall (fun r => r <> 27 /\ clean_rune r = [r]) l -> sanitize_runes Normal l = l.
Proof.
  induction 1 as [|r l [H1 H2] Hl IH]; [done|]. cbn [sanitize_runes sanitize_step].
  by rewrite (proj2 (Z.eqb_neq r 27)), H2, IH by done.
Qed.












(** ** Quoted strings, numbers and instants *)

Lemma clean_digits s : digits s = true -> clean s = true.
Proof.
  unfold digits, clean. induction s as [|c s IH]; [done|]. cbn. intros [Hc Hs]%andb_true_iff. rewrite (IH Hs), andb_true_r.
  unfold is_digit, Utf8.in_rng, clean_byte in *. lia.
Qed.

Lemma clean_Itoa z : clean (Strconv.Itoa z) = true.
Proof.
  destruct (Z.le_gt_cases 0 z) as [Hz|Hz]; [by apply clean_digits, digits_Itoa|]. destruct z as [|p|p]; [lia..|].
  change (Strconv.Itoa (Z.neg p)) with ("-" ++ Strconv.Itoa (Z.pos p)). rewrite clean_app. by apply clean_digits, digits_Itoa.
Qed.

Lemma clean_pad w z : clean (Strconv.pad w z) = true.
Proof. unfold Strconv.pad. by rewrite clean_app, clean_Itoa, clean_digits by apply digits_zeros. Qed.

Lemma clean_bytes s : clean s = true <-> Forall text (bytes s).
Proof.
  unfold clean, bytes, text. induction s as [|c s IH]; cbn; [by rewrite Forall_nil|].
  rewrite Forall_cons, <- IH, andb_true_iff. unfold clean_byte.
  split; intros [H1 H2]; (split; [|done]); [apply andb_true_iff in H1 as [? H3]; apply negb_true_iff, Z.eqb_neq in H3; lia|].
  apply andb_true_iff. split; [lia|]. apply negb_true_iff, Z.eqb_neq. lia.
Qed.

Lemma runes_fuel_raw (P : Z -> Prop) fuel l : Forall P l -> Forall (fun p => Forall P (snd p)) (Utf8.runes_fuel fuel l).
Proof.
  revert l. induction fuel as [|fuel IH]; intros l Hl; [constructor|]. destruct l as [|b l]; [constructor|].
  cbn [Utf8.runes_fuel]. destruct (Utf8.DecodeRune (b :: l)) as [r w].
  constructor; [by apply Forall_take | by apply IH, Forall_drop].
Qed.

(** The pieces of a clean string. *)
Lemma runes_clean s p : clean s = true -> p ∈ Utf8.runes s -> clean (of_bytes (snd p)) = true.
Proof.
  intros Hs Hp. apply clean_bytes in Hs.
  assert (Hb : Forall (fun b => text b /\ 0 <= b < 256) (bytes s)) by (apply Forall_and; split; [done | apply bytes_range]).
  pose proof (proj1 (Forall_forall _ _) (runes_fuel_raw _ (length (bytes s)) _ Hb) p Hp) as Hr. cbn beta in Hr.
  apply Forall_and in Hr as [? ?]. by apply clean_of_bytes.
Qed.

Lemma clean_hex n z : clean (hex_digits n z) = true.
Proof.
  unfold hex_digits. induction (seq 0 n) as [|i l IH]; [done|]. cbn [fmap list_fmap String.string_of_list_ascii].
  unfold clean. cbn [Strings.forall_byte]. fold (clean (String.string_of_list_ascii
    ((fun i => Hex.digit (Z.land (Z.shiftr z (4 * Z.of_nat (n - 1 - i))) 15)) <$> l))). rewrite IH, andb_true_r.
  assert (Hd : forall x, 0 <= x < 16 -> clean_byte (Hex.digit x) = true).
  { assert (Hall : Forall (fun x => clean_byte (Hex.digit x) = true) (seqZ 0 16)) by repeat constructor.
    rewrite Forall_forall in Hall. intros x Hx. apply Hall, elem_of_seqZ. lia. }
  apply Hd. change 15 with (Z.ones 4). rewrite Z.land_ones by lia. apply Z.mod_pos_bound. lia.
Qed.

Lemma clean_Join l : Forall (fun s => clean s = true) l -> clean (Strings.Join l "") = true.
Proof.
  induction 1 as [|s l Hs Hl IH]; [done|]. destruct l as [|s' l]; [done|].
  change (Strings.Join (s :: s' :: l) "") with (s ++ "" ++ Strings.Join (s' :: l) ""). by rewrite !clean_app, Hs, IH.
Qed.

Lemma clean_fmap_Join (f : Z * list Z -> string) s :
  (forall p, clean (of_bytes (snd p)) = true -> clean (f p) = true) -> clean s = true ->
  clean (of_bytes [34] ++ Strings.Join (f <$> Utf8.runes s) "" ++ of_bytes [34]) = true.
Proof.
  intros Hf Hs. rewrite !clean_app, clean_Join; [done|]. apply Forall_fmap, Forall_forall. intros p Hp.
  apply Hf. by eapply runes_clean.
Qed.

Lemma clean_escape r : (r =? 34) || (r =? 92) = true -> clean (of_bytes [r]) = true.
Proof. intros [H|H]%orb_true_iff; apply Z.eqb_eq in H; by subst r. Qed.

Ltac clean_cases :=
  repeat case_match; rewrite ?clean_app, ?clean_hex; try done; by rewrite clean_escape.

Lemma clean_Quote `{Printable} s : clean s = true -> clean (Quote s) = true.
Proof. apply clean_fmap_Join. intros [r raw] Hp. cbn [fst snd] in *. unfold quote_rune. clean_cases. Qed.

Lemma clean_JsonQuote s : clean s = true -> clean (JsonQuote s) = true.
Proof. apply clean_fmap_Join. intros [r raw] Hp. cbn [fst snd] in *. unfold json_rune. clean_cases. Qed.

Create HintDb clean discriminated.
#[export] Hint Resolve clean_Sanitize clean_Itoa clean_pad clean_Quote clean_JsonQuote : clean.

(** A line put together from clean parts is clean. *)
Ltac clean_tac :=
  repeat match goal with
  | |- clean (_ ++ _) = true => rewrite clean_app; apply andb_true_iff; split
  | |- clean (if ?b then _ else _) = true => destruct b
  | |- _ => solve [auto with clean nocore]
  | |- _ => reflexivity
  end.

Section times.
Context (loc : Location) (t : Z).

Lemma clean_FormatDate : clean (FormatDate loc t) = true.
Proof. unfold FormatDate. clean_tac. Qed.

Lemma clean_FormatClock : clean (FormatClock loc t) = true.
Proof. unfold FormatClock. clean_tac. Qed.

Lemma clean_FormatOffset sep off : clean sep = true -> clean (FormatOffset sep off) = true.
Proof. intros Hs. unfold FormatOffset. clean_tac. Qed.

Lemma clean_ShortMonth : clean (ShortMonth loc t) = true.
Proof.
  unfold ShortMonth. destruct (nth_in_or_default (Z.to_nat (Month_ loc t - 1)) short_months "") as [Hin|E]; [|by rewrite E].
  apply list_elem_of_In in Hin. assert (Hall : Forall (fun s => clean s = true) short_months) by repeat constructor.
  rewrite Forall_forall in Hall. by apply Hall.
Qed.

End times.
#[export] Hint Resolve clean_FormatDate clean_FormatClock clean_ShortMonth : clean.

Lemma clean_RFC3339 loc t : clean (RFC3339 loc t) = true.
Proof. unfold RFC3339. clean_tac. by apply clean_FormatOffset. Qed.

Lemma clean_clfString s : clean (clfString s) = true.
Proof. unfold clfString. clean_tac. Qed.

#[export] Hint Resolve clean_RFC3339 clean_clfString : clean.

(** ** The lines *)

(** The case tables: no letter has a control character for its upper or lower
    case. *)
Class CaseText `{Unicode} := {
  upper_text : forall r, 128 <= r -> scalar r -> text (upper_rune r) /\ scalar (upper_rune r);
  lower_text : forall r, 128 <= r -> scalar r -> text (lower_rune r) /\ scalar (lower_rune r);
}.

Lemma ascii_case_text : @CaseText ascii_unicode.
Proof. split; intros r Hr Hs; (split; [unfold text; cbn; lia | done]). Qed.

Section lines.
Context `{CaseText} `{Printable} (loc : Location).

Lemma clean_case (f : Z -> Z) (g : ascii -> ascii) s :
  (forall c, clean_byte c = true -> clean_byte (g c) = true) ->
  (forall r, text r -> scalar r -> text (f r) /\ scalar (f r)) ->
  clean (if StringsU.is_ascii (Sanitize s) then Strings.map_byte g (Sanitize s)
         else Utf8.of_runes ((fun p => f (fst p)) <$> Utf8.runes (Sanitize s))) = true.
Proof.
  intros Hg Hf. destruct (StringsU.is_ascii (Sanitize s)).
  - pose proof (clean_Sanitize s) as Hc. unfold clean in *. induction (Sanitize s) as [|c r IH]; [done|].
    cbn in *. apply andb_true_iff in Hc as [Hc Hr]. by rewrite Hg, IH.
  - change (fun p : Z * list Z => f (fst p)) with (f ∘ fst (B:=list Z)). rewrite list_fmap_compose, runes_Sanitize.
    assert (Hall : Forall (fun r => text (f r) /\ scalar (f r)) (sanitize_runes Normal (fst <$> Utf8.runes s))).
    { apply (Forall_impl (fun r => text r /\ scalar r)); [|intros r []; auto].
      apply Forall_and. split; [apply sanitize_runes_text | apply sanitize_runes_scalar, runes_scalar]. }
    apply Forall_and in Hall as [? ?]. by apply clean_of_runes; apply Forall_fmap.
Qed.

Lemma clean_ToUpper s : clean (StringsU.ToUpper (Sanitize s)) = true.
Proof.
  apply (clean_case Unicode_.ToUpper).
  - intros c. unfold StringsU.upper_ascii, clean_byte, Utf8.in_rng. intros Hc. case_match; [|done]. rewrite byte_chr by lia. lia.
  - intros r [Hr1 Hr2] Hs. unfold Unicode_.ToUpper, Utf8.in_rng. case_match; [|apply upper_text; [lia | done]].
    case_match; unfold text, scalar in *; lia.
Qed.

Lemma clean_ToLower s : clean (StringsU.ToLower (Sanitize s)) = true.
Proof.
  apply (clean_case Unicode_.ToLower).
  - intros c. unfold StringsU.lower_ascii, clean_byte, Utf8.in_rng. intros Hc. case_match; [|done]. rewrite byte_chr by lia. lia.
  - intros r [Hr1 Hr2] Hs. unfold Unicode_.ToLower, Utf8.in_rng. case_match; [|apply lower_text; [lia | done]].
    case_match; unfold text, scalar in *; lia.
Qed.

Hint Resolve clean_ToUpper clean_ToLower : clean.

Lemma clean_logfmtValue v : clean (logfmtValue v) = true.
Proof. unfold logfmtValue. clean_tac. Qed.

(** Fields come in pairs. *)
Lemma pair_ind {A} (P : list A -> Prop) :
  P [] -> (forall x, P [x]) -> (forall x y l, P l -> P (x :: y :: l)) -> forall l, P l.
Proof.
  intros Hn Hx Hp. fix IH 1. intros [|x [|y l]]; [exact Hn | apply Hx | apply Hp, IH].
Qed.

Lemma clean_logfmt_fields fields : clean (logfmt_fields fields) = true.
Proof.
  induction fields as [|k|k v fields IH] using pair_ind; [done..|]. cbn [logfmt_fields].
  by rewrite !clean_app, clean_Sanitize, clean_logfmtValue, IH.
Qed.

Lemma clean_json_fields fields : clean (json_fields fields) = true.
Proof.
  induction fields as [|k|k v fields IH] using pair_ind; [done..|]. cbn [json_fields].
  by rewrite !clean_app, !clean_Quote, IH by apply clean_Sanitize.
Qed.

Hint Resolve clean_logfmtValue clean_logfmt_fields clean_json_fields : clean.

Lemma clean_FormatAccessApache e : clean (FormatAccessApache loc e) = true.
Proof. unfold FormatAccessApache, clfTime, FormatYear. clean_tac; by apply clean_FormatOffset. Qed.

Lemma clean_FormatAccessNginx e : clean (FormatAccessNginx loc e) = true.
Proof. unfold FormatAccessNginx, clfTime, FormatYear. clean_tac; by apply clean_FormatOffset. Qed.

Lemma clean_FormatAccessJSON e : clean (FormatAccessJSON e) = true.
Proof. unfold FormatAccessJSON, json_member. cbn [Strings.Join]. clean_tac. Qed.

Lemma clean_FormatLogfmt t level msg fields : clean (FormatLogfmt loc t level msg fields) = true.
Proof. unfold FormatLogfmt. clean_tac. Qed.

Lemma clean_FormatText t level msg fields : clean (FormatText loc t level msg fields) = true.
Proof. unfold FormatText. clean_tac. Qed.

Lemma clean_FormatJSONLine t level msg fields : clean (FormatJSONLine loc t level msg fields) = true.
Proof. unfold FormatJSONLine. clean_tac. Qed.

Lemma clean_FormatSyslog t hostname tag pid msg : clean (FormatSyslog loc t hostname tag pid msg) = true.
Proof. unfold FormatSyslog. clean_tac. Qed.

Hint Resolve clean_FormatAccessApache clean_FormatAccessNginx clean_FormatAccessJSON clean_FormatLogfmt
  clean_FormatText clean_FormatJSONLine clean_FormatSyslog : clean.

Lemma clean_FormatAccessCustom format e : clean (FormatAccessCustom loc format e) = true.
Proof. apply clean_Sanitize. Qed.

Hint Resolve clean_FormatAccessCustom : clean.

(** ** The operations of the manager that write *)

Context `{Gzip}.

Inductive log_event :=
  | EvAccess (e : AccessEntry)
  | EvServer (level msg : string) (fields : list string)
  | EvError (msg : string) (fields : list string)
  | EvApp (level msg : string) (fields : list string)
  | EvAuth (tokenID ip outcome reason : string)
  | EvDebug (gate : bool) (msg : string) (fields : list string).

Definition do_event (ev : log_event) (m : Manager) : D Manager :=
  match ev with
  | EvAccess e => Access loc e m
  | EvServer level msg fields => Server loc level msg fields m
  | EvError msg fields => Error loc msg fields m
  | EvApp level msg fields => App loc level msg fields m
  | EvAuth tokenID ip outcome reason => Auth loc tokenID ip outcome reason m
  | EvDebug gate msg fields => Debug loc gate msg fields m
  end.

Definition event_file (ev : log_event) : log_file :=
  match ev with
  | EvAccess _ => AccessLog | EvServer _ _ _ => ServerLog | EvError _ _ => ErrorLog | EvApp _ _ _ => AppLog
  | EvAuth _ _ _ _ => AuthLog | EvDebug _ _ _ => DebugLog
  end.

Definition newlines (s : string) : nat := length (List.filter (Z.eqb 10) (bytes s)).

(** The operation is a single [write] of a clean line. *)
Definition one_line (f : log_file) (m : Manager) (d : Disk) (out : Manager * Disk) : Prop :=
  exists line d0, out = write loc f line m d0 /\ names d0 = names d /\ inodes d0 = inodes d /\ clean line = true.

Lemma one_line_none f m d : one_line f m d (m, d).
Proof. exists "", d. unfold write. split; [|done]. by destruct (writers m f). Qed.

Lemma one_line_now f m d (k : Z -> string) :
  (forall t, clean (k t) = true) -> one_line f m d ((t ← now; write loc f (k t) m) d).
Proof. intros Hk. eexists _, _. split; [reflexivity|]. split; [done|]. split; [done | apply Hk]. Qed.

Lemma newlines_app a b : newlines (a ++ b) = (newlines a + newlines b)%nat.
Proof. unfold newlines. by rewrite bytes_app, List.filter_app, length_app. Qed.

Lemma clean_no_newline s : clean s = true -> newlines s = 0%nat.
Proof.
  rewrite clean_bytes. unfold newlines. induction 1 as [|b l [Hb _] Hl IH]; [done|]. cbn [List.filter].
  by rewrite (proj2 (Z.eqb_neq 10 b)) by lia.
Qed.

Lemma newlines_clean s : clean s = true -> newlines (end_line s) = 1%nat.
Proof.
  intros Hs. assert (E : end_line s = s ++ String "010" ""); [|by rewrite E, newlines_app, clean_no_newline].
  unfold end_line. destruct (Strings.HasSuffix s (String "010" "")) eqn:Hsuf; [|done]. exfalso.
  unfold Strings.HasSuffix in Hsuf. apply andb_true_iff in Hsuf as [_ Heq]. apply String.eqb_eq in Heq.
  apply (forall_byte_substring _ (String.length s - 1) 1) in Hs. cbn in Heq. by rewrite Heq in Hs.
Qed.

(** Whatever a client or another part of the program hands to an operation of the
    manager, the operation writes at most one line, to its own file: what it
    passes to the writer has no control character of ASCII, so that the text the
    writer appends has exactly one newline, at its end. *)
Theorem log_lines_are_single (ev : log_event) (m : Manager) (d : Disk) :
  exists line d0, do_event ev m d = write loc (event_file ev) line m d0
    /\ names d0 = names d /\ inodes d0 = inodes d /\ clean line = true /\ newlines (end_line line) = 1%nat.
Proof.
  enough (one_line (event_file ev) m d (do_event ev m d)) as (line & d0 & E & Hn & Hi & Hc).
  { exists line, d0. split_and!; auto using newlines_clean. }
  destruct ev; cbn [do_event event_file]; unfold Access, Server, Error, App, Auth, Debug;
    repeat match goal with
    | |- one_line _ _ _ (mret _ _) => apply one_line_none
    | |- one_line _ _ _ ((_ ← now; _) _) => apply one_line_now; intros t
    | |- context [match writers m ?f with _ => _ end] => destruct (writers m f) eqn:?
    | |- one_line _ _ _ (if ?b then _ else _) => destruct b
    | |- one_line _ _ _ ((if ?b then _ else _) _) => destruct b
    end; try (repeat case_match; solve [auto with clean]).
  eexists _, _. split; [reflexivity|]. split; [done|]. split; [done|]. repeat case_match; auto with clean.
Qed.

End lines.

Definition nobody : AccessEntry :=
  {| RemoteIP := "203.0.113.9"; e_Time := of_unix 1728000000; Method := "GET"; e_Path := "/x" ++ newline ++ "forged"; e_Query := "";
     Protocol := "HTTP/1.1"; e_Status := 404; e_Bytes := 9; Referer := ""; UserAgent := of_bytes [27; 91; 51; 49; 109] ++ "red";
     Latency := 1500000; RequestID := ""; FQDN := ""; TLSVersion := ""; Country := ""; ASN := "" |}.
Definition ascii_print : Printable := {| is_print := fun r => (32 <=? r) && (r <? 127) |}.
Definition plain_manager : Manager :=
  {| m_level := 1; hostname := "host"; tag := "pastebin"; pid := 1; accessFormat := "apache"; accessCustom := "";
     json := fun _ => false; debugEnabled := false;
     writers := fun _ => Some (newFileWriter "access.log" small forever false true) |}.

Theorem log_lines_are_single_witness :
  @CaseText ascii_unicode /\
  exists line d0, @do_event ascii_unicode ascii_print UTC {| gz_size := total |} (EvAccess nobody) plain_manager blank
                  = @write {| gz_size := total |} UTC AccessLog line plain_manager d0
    /\ names d0 = names blank /\ inodes d0 = inodes blank /\ clean line = true /\ newlines (end_line line) = 1%nat.
Proof.
  split; [exact ascii_case_text|].
  exact (@log_lines_are_single ascii_unicode ascii_case_text ascii_print UTC {| gz_size := total |} (EvAccess nobody) plain_manager blank).
Defined.

Example apache_line :
  @FormatAccessApache ascii_print UTC nobody
  = "203.0.113.9 - - [04/Oct/2024:00:00:00 +0000] " ++ dquote ++ "GET /x forged HTTP/1.1" ++ dquote ++ " 404 9 "
    ++ dquote ++ "-" ++ dquote ++ " " ++ dquote ++ "red" ++ dquote.
Proof. vm_compute. reflexivity. Qed.

(** A quotation mark in the path ends the quoted request early. *)
Example apache_request_not_escaped (e := {| RemoteIP := "::1"; e_Time := of_unix 0; Method := "GET"; e_Path := "/" ++ dquote; e_Query := "";
     Protocol := "HTTP/1.1"; e_Status := 200; e_Bytes := 0; Referer := ""; UserAgent := ""; Latency := 0; RequestID := ""; FQDN := "";
     TLSVersion := ""; Country := ""; ASN := "" |}) :
  @FormatAccessNginx UTC e
  = "::1 - - [01/Jan/1970:00:00:00 +0000] " ++ dquote ++ "GET /" ++ dquote ++ " HTTP/1.1" ++ dquote ++ " 200 0".
Proof. vm_compute. reflexivity. Qed.

(** The control characters of ISO 8859-1, CSI among them, are kept. *)
Lemma c1_controls_survive r : 128 <= r < 160 -> Sanitize (Utf8.of_runes [r]) = Utf8.of_runes [r].
Proof.
  intros Hr. unfold Sanitize. rewrite runes_of_runes_fst by (repeat constructor; unfold scalar; lia).
  rewrite sanitize_runes_fixed; [done|]. constructor; [|done]. split; [lia|].
  unfold clean_rune, isPrintableText, Utf8.in_rng. repeat (case_match; [lia|]). done.
Qed.

(** A rune above the basic plane that is not printable is written with an escape
    that JSON does not have. *)
Lemma json_line_not_json (p : Printable) r : 65536 <= r < 126976 -> is_print r = false ->
  Quote (Sanitize (Utf8.of_runes [r])) = dquote ++ backslash ++ "U" ++ hex_digits 8 r ++ dquote.
Proof.
  intros Hr Hp. assert (Hs : Forall scalar [r]) by (repeat constructor; unfold scalar; lia).
  unfold Sanitize. rewrite runes_of_runes_fst, sanitize_runes_fixed by
    (done || (constructor; [|done]; split; [lia|]; unfold clean_rune, isPrintableText, Utf8.in_rng; repeat (case_match; [lia|]); done)).
  unfold Quote. rewrite runes_of_runes by done. cbn [fmap list_fmap fst snd Strings.Join].
  unfold quote_rune. rewrite Hp. unfold Utf8.RuneError. repeat (case_match; [lia|]). by rewrite <- !string_app_assoc.
Qed.
