(* ===== verification/RateLimit.v ===== *)
(** * The rate limiter (src/src/server/ratelimit.go)

    Buckets live in a heap and are reached through the map of addresses, as the
    pointers of the code: a request fetches its bucket under the limiter's mutex
    and uses it under the bucket's own mutex later, and the collector looks at a
    bucket and removes it from the map in two critical sections.  [step] runs
    these critical sections in any order; [rl_allow] and [gc_tick] are the
    operations run without interruption.  The limiter is compared with a log of
    every admitted instant. *)

From S2P Require Import Prelude GoStr GoNet GoTime Http.
From Stdlib Require Import Ascii.

(** ** A bucket *)

Definition after (cutoff t : Z) : bool := cutoff <? t.

(** [ipBucket.allow]: [t1] and [t2] are the two readings of the clock. *)
Definition bucket_allow (t1 t2 limit window : Z) (requests : list Z) : bool * list Z :=
  let valid := keep (after (t1 - window)) requests in
  if limit <=? Z.of_nat (length valid) then (false, valid) else (true, (valid ++ [t2])%list).

(** ** The limiter *)

(** What the collector is doing: it holds the limiter's mutex from [GcRun] on;
    the address is the one it found inactive and is about to remove. *)
Inductive collector :=
  | GcIdle
  | GcRun (cutoff : Z) (doomed : option string).

Record rateLimiter := {
  heap : list (list Z);
  buckets : gmap string nat;
  limit : Z;
  window : Z;
  gc : collector;
  flight : list (nat * Z);  (* fetched buckets, with the limit read, not used yet *)
}.

Definition newRateLimiter (limit window : Z) : rateLimiter :=
  {| heap := []; buckets := ∅; limit := limit; window := window; gc := GcIdle; flight := [] |}.

Definition set_heap (h : list (list Z)) (s : rateLimiter) : rateLimiter :=
  {| heap := h; buckets := buckets s; limit := limit s; window := window s; gc := gc s; flight := flight s |}.
Definition set_buckets (m : gmap string nat) (s : rateLimiter) : rateLimiter :=
  {| heap := heap s; buckets := m; limit := limit s; window := window s; gc := gc s; flight := flight s |}.
Definition set_gc (g : collector) (s : rateLimiter) : rateLimiter :=
  {| heap := heap s; buckets := buckets s; limit := limit s; window := window s; gc := g; flight := flight s |}.
Definition set_flight (f : list (nat * Z)) (s : rateLimiter) : rateLimiter :=
  {| heap := heap s; buckets := buckets s; limit := limit s; window := window s; gc := gc s; flight := f |}.

(** [UpdateLimit]. *)
Definition UpdateLimit (n : Z) (s : rateLimiter) : rateLimiter :=
  {| heap := heap s; buckets := buckets s; limit := n; window := window s; gc := gc s; flight := flight s |}.

(** The first critical section of [allow]: the bucket of the address, new if
    there is none, and the limit. *)
Definition fetch (ip : string) (s : rateLimiter) : (nat * Z) * rateLimiter :=
  match buckets s !! ip with
  | Some b => ((b, limit s), s)
  | None =>
      let b := length (heap s) in
      ((b, limit s), set_buckets (<[ip := b]> (buckets s)) (set_heap (heap s ++ [[]]) s))
  end.

Definition requests (s : rateLimiter) (b : nat) : list Z := default [] (heap s !! b).

(** The second one. *)
Definition use (f : nat * Z) (t1 t2 : Z) (s : rateLimiter) : bool * rateLimiter :=
  let '(ok, l) := bucket_allow t1 t2 (snd f) (window s) (requests s (fst f)) in
  (ok, set_heap (<[fst f := l]> (heap s)) s).

(** [allow], run without interruption. *)
Definition rl_allow (ip : string) (t1 t2 : Z) (s : rateLimiter) : bool * rateLimiter :=
  let '(f, s) := fetch ip s in use f t1 t2 s.

Definition active (cutoff : Z) (l : list Z) : bool := existsb (after cutoff) l.

(** One tick of [gc], run without interruption. *)
Definition gc_tick (t : Z) (s : rateLimiter) : rateLimiter :=
  set_buckets (filter (fun kv => active (t - window s) (requests s (snd kv)) = true) (buckets s)) s.

(** ** Interleaved runs *)

Inductive event :=
  | Fetch (ip : string)
  | Use (i : nat) (t1 t2 : Z)
  | GcStart (t : Z)
  | GcCheck (ip : string)
  | GcDelete
  | GcEnd.

(** One critical section; [None] when the event cannot happen.  The answer is
    that of [allow], for the last section of a request. *)
Definition step (e : event) (s : rateLimiter) : option (option bool * rateLimiter) :=
  match e, gc s with
  | Fetch ip, GcIdle =>
      let '(f, s) := fetch ip s in Some (None, set_flight (flight s ++ [f]) s)
  | Use i t1 t2, _ =>
      match flight s !! i with
      | None => None
      | Some f => let '(ok, s) := use f t1 t2 s in Some (Some ok, set_flight (delete i (flight s)) s)
      end
  | GcStart t, GcIdle => Some (None, set_gc (GcRun (t - window s) None) s)
  | GcCheck ip, GcRun cutoff None =>
      match buckets s !! ip with
      | None => None
      | Some b => Some (None, if active cutoff (requests s b) then s else set_gc (GcRun cutoff (Some ip)) s)
      end
  | GcDelete, GcRun cutoff (Some ip) =>
      Some (None, set_gc (GcRun cutoff None) (set_buckets (delete ip (buckets s)) s))
  | GcEnd, GcRun _ None => Some (None, set_gc GcIdle s)
  | _, _ => None
  end.

(** A run, with the answers in order. *)
Fixpoint steps (l : list event) (s : rateLimiter) : option (list bool * rateLimiter) :=
  match l with
  | [] => Some ([], s)
  | e :: l =>
      r ← step e s;
      x ← steps l (snd r);
      Some ((match fst r with Some b => [b] | None => [] end ++ fst x)%list, snd x)
  end.

(** ** The middleware *)

Record limitMetrics := { m_hits : Z; m_blocks : Z; m_allowed : Z; m_limited : Z; m_blocked : Z }.

Definition hit (m : limitMetrics) : limitMetrics :=
  {| m_hits := m_hits m + 1; m_blocks := m_blocks m; m_allowed := m_allowed m; m_limited := m_limited m;
     m_blocked := m_blocked m |}.
Definition block (m : limitMetrics) : limitMetrics :=
  {| m_hits := m_hits m; m_blocks := m_blocks m + 1; m_allowed := m_allowed m; m_limited := m_limited m + 1;
     m_blocked := m_blocked m + 1 |}.
Definition pass (m : limitMetrics) : limitMetrics :=
  {| m_hits := m_hits m; m_blocks := m_blocks m; m_allowed := m_allowed m + 1; m_limited := m_limited m;
     m_blocked := m_blocked m |}.

Definition client_ip (remoteAddr : string) : string := host_of remoteAddr.

Definition too_many (window : Z) : Response :=
  {| status := 429;
     headers := [("Retry-After", Strconv.Itoa (window ÷ Second)); ("Content-Type", "application/json")];
     body := BJson (JObj [("ok", JBool false); ("error", JStr "RATE_LIMITED"); ("message", JStr "Too many requests")]) |}.

(** [rateLimitMiddleware]: the response written, or [None] when the request is
    passed on. *)
Definition rateLimitMiddleware (allowlisted : bool) (remoteAddr : string) (t1 t2 : Z)
    (s : rateLimiter) (m : limitMetrics) : option Response * rateLimiter * limitMetrics :=
  if allowlisted then (None, s, m)
  else
    let m := hit m in
    let '(ok, s) := rl_allow (client_ip remoteAddr) t1 t2 s in
    if negb ok then (Some (too_many (window s)), s, block m) else (None, s, pass m).

(** ** The specification: a log of every admitted instant *)

Module log.

Record state := { admitted : string -> list Z; max : Z; span : Z }.

Definition init (limit window : Z) : state := {| admitted := fun _ => []; max := limit; span := window |}.

(** A request at [t1] is admitted when fewer than the limit were in the window
    before it. *)
Definition allow (ip : string) (t1 t2 : Z) (s : state) : bool * state :=
  if Z.of_nat (length (keep (after (t1 - span s)) (admitted s ip))) <? max s then
    (true, {| admitted := fun k => if String.eqb k ip then (admitted s ip ++ [t2])%list else admitted s k;
              max := max s; span := span s |})
  else (false, s).

Definition update (n : Z) (s : state) : state := {| admitted := admitted s; max := n; span := span s |}.

End log.

(** What the server does with a limiter. *)
Inductive rl_op :=
  | OpAllow (ip : string) (t1 t2 : Z)
  | OpLimit (n : Z)
  | OpGc (t : Z).

(** The instants of a run never decrease, from [t] on. *)
Fixpoint ordered (t : Z) (l : list rl_op) : Prop :=
  match l with
  | [] => True
  | OpAllow _ t1 t2 :: l => t <= t1 /\ t1 <= t2 /\ ordered t2 l
  | OpLimit _ :: l => ordered t l
  | OpGc u :: l => t <= u /\ ordered u l
  end.

Fixpoint rl_run (l : list rl_op) (s : rateLimiter) : list bool * rateLimiter :=
  match l with
  | [] => ([], s)
  | OpAllow ip t1 t2 :: l =>
      let '(b, s) := rl_allow ip t1 t2 s in let '(r, s) := rl_run l s in (b :: r, s)
  | OpLimit n :: l => rl_run l (UpdateLimit n s)
  | OpGc t :: l => rl_run l (gc_tick t s)
  end.

Fixpoint log_run (l : list rl_op) (s : log.state) : list bool * log.state :=
  match l with
  | [] => ([], s)
  | OpAllow ip t1 t2 :: l =>
      let '(b, s) := log.allow ip t1 t2 s in let '(r, s) := log_run l s in (b :: r, s)
  | OpLimit n :: l => log_run l (log.update n s)
  | OpGc _ :: l => log_run l s
  end.

(** ** Refinement *)

Definition bucket_of (s : rateLimiter) (ip : string) : list Z :=
  match buckets s !! ip with Some b => requests s b | None => [] end.

(** Two logs agree on everything that can still be in a window from [t] on. *)
Definition agree (t window : Z) (a b : list Z) : Prop :=
  forall c, t - window <= c -> keep (after c) a = keep (after c) b.

#[export] Instance agree_equiv t window : Equivalence (agree t window).
Proof.
  split; [done | by intros a b H c Hc; rewrite H |]. intros x y z H1 H2 c Hc. by rewrite H1, H2.
Qed.

Lemma agree_later t u window a b : t <= u -> agree t window a b -> agree u window a b.
Proof. intros ? H c ?. apply H. lia. Qed.

Lemma agree_snoc t window a b x : agree t window a b -> agree t window (a ++ [x]) (b ++ [x]).
Proof. intros H c Hc. by rewrite !keep_app, H. Qed.

Lemma agree_trim t window l : agree t window (keep (after (t - window)) l) l.
Proof. intros c Hc. rewrite keep_keep. apply keep_ext. intros x _. unfold after. lia. Qed.

Lemma agree_inactive t window l : active (t - window) l = false -> agree t window [] l.
Proof.
  intros H c Hc. symmetry. apply keep_none. intros x Hx. unfold after. apply Z.ltb_ge.
  assert (after (t - window) x = false); [|unfold after in *; b2p; lia].
  destruct (after (t - window) x) eqn:E; [|done]. exfalso. apply Bool.diff_false_true. rewrite <- H.
  apply existsb_exists. exists x. by rewrite <- list_elem_of_In.
Qed.

(** Distinct addresses have distinct buckets of the heap. *)
Definition heap_ok (s : rateLimiter) : Prop :=
  (forall ip b, buckets s !! ip = Some b -> (b < length (heap s))%nat)
  /\ (forall ip1 ip2 b, buckets s !! ip1 = Some b -> buckets s !! ip2 = Some b -> ip1 = ip2).

Definition refines (t : Z) (s : rateLimiter) (l : log.state) : Prop :=
  heap_ok s /\ limit s = log.max l /\ window s = log.span l
  /\ forall ip, agree t (window s) (bucket_of s ip) (log.admitted l ip).

Lemma fetch_ok ip s :
  heap_ok s ->
  let '((b, n), s') := fetch ip s in
  heap_ok s' /\ n = limit s /\ limit s' = limit s /\ window s' = window s
  /\ buckets s' !! ip = Some b /\ (forall k, bucket_of s' k = bucket_of s k).
Proof.
  intros [Hr Hi]. unfold fetch. destruct (buckets s !! ip) as [b|] eqn:E; [by repeat split|].
  set (b := length (heap s)). unfold heap_ok, bucket_of, requests. cbn [buckets heap limit window set_buckets set_heap].
  split; [split|].
  - intros k b'. rewrite lookup_insert, length_app. cbn. case_decide; [intros [= <-]; lia|].
    intros Hb%Hr. lia.
  - assert (Hf : forall k, buckets s !! k = Some b -> False) by (intros k Hb%Hr; lia).
    intros k1 k2 b'. rewrite !lookup_insert. repeat case_decide; subst; try by eauto.
    + intros [= <-] Hk. by destruct (Hf k2).
    + intros Hk [= <-]. by destruct (Hf k1).
  - split; [done|]. split; [done|]. split; [done|]. split; [by rewrite lookup_insert_eq|].
    intros k. rewrite lookup_insert. case_decide as Hk; subst.
    + unfold b. rewrite E, lookup_app_r, Nat.sub_diag; [done | lia].
    + destruct (buckets s !! k) as [b'|] eqn:Ek; [|done]. apply Hr in Ek. by rewrite lookup_app_l.
Qed.

Lemma use_ok t1 t2 ip b n s :
  heap_ok s -> buckets s !! ip = Some b ->
  let '(ok, s') := use (b, n) t1 t2 s in
  (ok, bucket_of s' ip) = bucket_allow t1 t2 n (window s) (bucket_of s ip)
  /\ heap_ok s' /\ limit s' = limit s /\ window s' = window s
  /\ forall k, k <> ip -> bucket_of s' k = bucket_of s k.
Proof.
  intros [Hr Hi] Hb. pose proof (Hr ip b Hb) as Hlt. unfold use. cbn [fst snd].
  destruct (bucket_allow t1 t2 n (window s) (requests s b)) as [ok l] eqn:E.
  unfold bucket_of, requests. cbn [buckets heap limit window set_heap]. rewrite Hb.
  split; [by rewrite list_lookup_insert_eq by done; cbn; rewrite <- E|].
  split; [split; cbn [buckets heap set_heap]; [intros ???; rewrite length_insert|]; eauto|].
  split; [done|]. split; [done|]. intros k Hk. destruct (buckets s !! k) as [b'|] eqn:Ek; [|done].
  rewrite list_lookup_insert_ne; [done|]. intros ->. eauto.
Qed.

Lemma allow_refines ip t t1 t2 s l :
  refines t s l -> t <= t1 -> t1 <= t2 ->
  (rl_allow ip t1 t2 s).1 = (log.allow ip t1 t2 l).1
  /\ refines t2 (rl_allow ip t1 t2 s).2 (log.allow ip t1 t2 l).2.
Proof.
  intros (Hh & Hl & Hw & Ha) H1 H2. unfold rl_allow. pose proof (fetch_ok ip s Hh) as Hf.
  destruct (fetch ip s) as [[b n] s1]. destruct Hf as (Hh1 & -> & Hl1 & Hw1 & Hb & Hsame).
  pose proof (use_ok t1 t2 ip b (limit s) s1 Hh1 Hb) as Hu.
  destruct (use (b, limit s) t1 t2 s1) as [ok s2]. destruct Hu as (Hu & Hh2 & Hl2 & Hw2 & Hother).
  rewrite Hsame, Hw1 in Hu. cbn [fst snd].
  pose proof (Ha ip (t1 - window s) ltac:(lia)) as Hc. revert Hu. unfold bucket_allow, log.allow.
  rewrite Hc, Hl, Hw.
  set (v := keep (after (t1 - log.span l)) (log.admitted l ip)).
  assert (Hlater : forall k, agree t2 (window s) (bucket_of s k) (log.admitted l k)).
  { intros k. eapply agree_later; [|apply Ha]. lia. }
  assert (Hv : agree t2 (window s) v (log.admitted l ip)).
  { unfold v. eapply (agree_later t1); [lia|]. rewrite <- Hw. apply agree_trim. }
  destruct (Z.ltb_spec (Z.of_nat (length v)) (log.max l)), (Z.leb_spec (log.max l) (Z.of_nat (length v)));
    try lia; intros [= -> Hbk]; (split; [done|]); (split; [done|]); cbn [log.max log.span log.admitted snd];
    (split; [congruence|]); (split; [congruence|]); intros k; rewrite Hw2, Hw1.
  - destruct (String.eqb_spec k ip) as [->|Hk]; [rewrite Hbk; by apply agree_snoc|].
    rewrite Hother, Hsame by done. apply Hlater.
  - destruct (decide (k = ip)) as [->|Hk]; [by rewrite Hbk|]. rewrite Hother, Hsame by done. apply Hlater.
Qed.

Lemma gc_refines t u s l : refines t s l -> t <= u -> refines u (gc_tick u s) l.
Proof.
  intros ([Hr Hi] & Hl & Hw & Ha) H.
  assert (Hf : forall k b, buckets (gc_tick u s) !! k = Some b <->
                           buckets s !! k = Some b /\ active (u - window s) (requests s b) = true).
  { intros k b. unfold gc_tick. cbn [buckets set_buckets]. by rewrite map_lookup_filter_Some. }
  split; [split|].
  - intros k b [Hb _]%Hf. by eapply Hr.
  - intros k1 k2 b [H1 _]%Hf [H2 _]%Hf. eauto.
  - split; [done|]. split; [done|]. intros k. cbn [window gc_tick set_buckets].
    transitivity (bucket_of s k); [|eapply agree_later; [|apply Ha]; lia].
    unfold bucket_of. destruct (buckets (gc_tick u s) !! k) as [b|] eqn:Eb.
    + apply Hf in Eb as [-> _]. done.
    + destruct (buckets s !! k) as [b|] eqn:Ek; [|done]. apply agree_inactive.
      destruct (active (u - window s) (requests s b)) eqn:Eact; [|done].
      rewrite (proj2 (Hf k b)) in Eb; done.
Qed.

Lemma run_refines ops t s l :
  refines t s l -> ordered t ops -> (rl_run ops s).1 = (log_run ops l).1.
Proof.
  revert t s l. induction ops as [|o ops IH]; intros t s l Hr Ho; [done|].
  destruct o as [ip t1 t2|n|u]; cbn [rl_run log_run ordered] in *.
  - destruct Ho as (H1 & H2 & Ho). destruct (allow_refines ip t t1 t2 s l Hr H1 H2) as [He Hr'].
    destruct (rl_allow ip t1 t2 s) as [b s'], (log.allow ip t1 t2 l) as [b' l']. cbn in He, Hr'. subst b'.
    specialize (IH t2 s' l' Hr' Ho). destruct (rl_run ops s'), (log_run ops l'). cbn in *. congruence.
  - apply (IH t); [|done]. destruct Hr as (Hh & Hl & Hw & Ha). by repeat split; try apply Hh.
  - destruct Ho as [Hu Ho]. apply (IH u); [|done]. by apply (gc_refines t).
Qed.

(** ** The window *)

Fixpoint limits_below (m : Z) (l : list rl_op) : Prop :=
  match l with
  | [] => True
  | OpLimit n :: l => n <= m /\ limits_below m l
  | _ :: l => limits_below m l
  end.

(** The instants of a log in the span of time that begins at [x]. *)
Definition in_span (x window a : Z) : bool := (x <=? a) && (a <? x + window).
Definition within (m : Z) (l : log.state) : Prop :=
  forall ip x, Z.of_nat (length (keep (in_span x (log.span l)) (log.admitted l ip))) <= m.

Lemma allow_within m ip t1 t2 l :
  within m l -> log.max l <= m -> t1 <= t2 -> within m (log.allow ip t1 t2 l).2.
Proof.
  intros Hw Hm Ht. unfold log.allow. destruct (Z.ltb_spec (Z.of_nat (length
    (keep (after (t1 - log.span l)) (log.admitted l ip)))) (log.max l)) as [Hlt|]; [|done].
  intros k x. cbn [snd log.admitted log.span]. destruct (String.eqb_spec k ip) as [->|]; [|apply Hw].
  rewrite keep_app, length_app, keep_cons. destruct (in_span x (log.span l) t2) eqn:E;
    [|cbn; specialize (Hw ip x); lia].
  assert (length (keep (in_span x (log.span l)) (log.admitted l ip))
          <= length (keep (after (t1 - log.span l)) (log.admitted l ip)))%nat; [|cbn; lia].
  rewrite (keep_ext _ (fun a => in_span x (log.span l) a && after (t1 - log.span l) a)).
  - rewrite <- keep_keep. apply keep_length_le.
  - intros a _. unfold in_span, after in *. b2p. lia.
Qed.

Lemma run_within m ops t l :
  ordered t ops -> limits_below m ops -> log.max l <= m -> within m l -> within m (log_run ops l).2.
Proof.
  revert t l. induction ops as [|o ops IH]; intros t l Ho Hl Hm Hw; [done|].
  destruct o as [ip t1 t2|n|u]; cbn [log_run ordered limits_below] in *.
  - destruct Ho as (_ & Ht & Ho). pose proof (allow_within m ip t1 t2 l Hw Hm Ht) as Hw'.
    assert (Hm' : log.max (log.allow ip t1 t2 l).2 <= m) by (unfold log.allow; by case_match).
    destruct (log.allow ip t1 t2 l) as [b l']. specialize (IH t2 l' Ho Hl Hm' Hw').
    by destruct (log_run ops l').
  - destruct Hl as [Hn Hl]. by apply (IH t).
  - destruct Ho as [_ Ho]. by apply (IH u).
Qed.

(** run without interruptions, the limiter answers every request exactly
    as one that keeps the whole log of admitted instants, whatever the collector
    removes and however the limit is changed: a request passes if and only if
    fewer than the limit passed from its address in the window before it.  Hence
    no span of one window's length admits more requests of an address than the
    largest limit in force. *)
Theorem rate_limiter_exact (n w t : Z) (ops : list rl_op) :
  ordered t ops ->
  (rl_run ops (newRateLimiter n w)).1 = (log_run ops (log.init n w)).1
  /\ forall m, 0 <= m -> n <= m -> limits_below m ops -> within m (log_run ops (log.init n w)).2.
Proof.
  intros Ho. split.
  - apply (run_refines ops t); [|done]. repeat split; intros *; unfold bucket_of; cbn; rewrite lookup_empty; done.
  - intros m Hm Hn Hl. apply (run_within m ops t); try done. by intros ip x.
Qed.

(** ** Interrupted runs *)

Lemma steps_app l1 l2 s r1 s1 r2 s2 :
  steps l1 s = Some (r1, s1) -> steps l2 s1 = Some (r2, s2) -> steps (l1 ++ l2) s = Some ((r1 ++ r2)%list, s2).
Proof.
  revert s r1. induction l1 as [|e l1 IH]; intros s r1; cbn; [intros [= <- <-] ->; done|].
  destruct (step e s) as [[o s']|]; [|done]. cbn. destruct (steps l1 s') as [[r s1']|] eqn:E; [|done].
  cbn. intros [= <- <-] H2. rewrite (IH s' r E H2). cbn. by rewrite <- app_assoc.
Qed.

Lemma fetches ip b n s :
  gc s = GcIdle -> buckets s !! ip = Some b ->
  steps (repeat (Fetch ip) n) s = Some ([], set_flight (flight s ++ repeat (b, limit s) n) s).
Proof.
  revert s. induction n as [|n IH]; intros s Hg Hb; cbn; [destruct s; cbn; by rewrite app_nil_r|].
  unfold fetch. rewrite Hg, Hb. cbn. rewrite IH by done. cbn. unfold set_flight. cbn. by rewrite <- app_assoc.
Qed.

Lemma new_fetches ip n s :
  (0 < n)%nat -> gc s = GcIdle -> buckets s !! ip = None ->
  steps (repeat (Fetch ip) n) s
  = Some ([], set_flight (flight s ++ repeat (length (heap s), limit s) n)
                (set_buckets (<[ip := length (heap s)]> (buckets s)) (set_heap (heap s ++ [[]]) s))).
Proof.
  intros Hn Hg Hb. destruct n as [|n]; [lia|]. cbn [repeat steps step]. rewrite Hg. unfold fetch. rewrite Hb.
  cbn [mbind option_bind snd fst]. rewrite (fetches ip (length (heap s))); [|done|apply lookup_insert_eq].
  cbn. unfold set_flight. cbn. by rewrite <- app_assoc.
Qed.

Lemma keep_same t w k : 0 < w -> keep (after (t - w)) (repeat t k) = repeat t k.
Proof. intros Hw. apply keep_all. intros x Hx. apply list_elem_of_In, repeat_spec in Hx as ->. unfold after. lia. Qed.

(** The requests that hold a bucket use it one after the other. *)
Lemma uses t b n k s rest :
  0 < window s -> flight s = (repeat (b, limit s) n ++ rest)%list -> heap s !! b = Some (repeat t k) ->
  Z.of_nat (k + n) <= limit s ->
  steps (repeat (Use 0 t t) n) s
  = Some (repeat true n, set_flight rest (set_heap (<[b := repeat t (k + n)]> (heap s)) s)).
Proof.
  revert s k. induction n as [|n IH]; intros s k Hw Hf Hb Hl.
  - cbn [repeat steps]. rewrite Nat.add_0_r, list_insert_id by done. cbn in *. by destruct s; cbn in *; subst.
  - cbn -[bucket_allow]. rewrite Hf. cbn -[bucket_allow]. unfold use, requests. cbn -[bucket_allow]. rewrite Hb.
    cbn -[bucket_allow].
    unfold bucket_allow. rewrite keep_same, repeat_length by done.
    destruct (Z.leb_spec (limit s) (Z.of_nat k)); [lia|]. cbn. rewrite (IH _ (S k)); cbn; [|done|by rewrite ?Hf| |lia].
    + cbn. unfold set_flight, set_heap. cbn. rewrite list_insert_insert_eq. by rewrite Nat.add_succ_r.
    + rewrite list_lookup_insert_eq by by eapply lookup_lt_Some. by rewrite <- repeat_cons.
Qed.

(** The run in which the collector removes a bucket between the two critical
    sections of [n] requests, and [n] others get a new one. *)
Definition race (n : nat) (ip : string) (t : Z) : list event :=
  (repeat (Fetch ip) n ++ [GcStart t; GcCheck ip; GcDelete; GcEnd]
   ++ repeat (Fetch ip) n ++ repeat (Use 0 t t) (n + n))%list.

(** interrupted by its collector the limiter admits twice the limit from
    one address at one instant: requests that fetched an idle bucket before the
    collector removed it do not count against those that come after. *)
Theorem rate_limit_collector_race (n : nat) (w t : Z) (ip : string) :
  (0 < n)%nat -> 0 < w ->
  exists s, steps (race n ip t) (newRateLimiter (Z.of_nat n) w) = Some (repeat true (n + n), s).
Proof.
  intros Hn Hw. unfold race.
  set (L := Z.of_nat n). set (s0 := newRateLimiter L w). set (f := fun b : nat => repeat (b, L) n).
  set (s1 := set_flight (f 0%nat) (set_buckets {[ip := 0%nat]} (set_heap [[]] s0))).
  set (s2 := set_flight (f 0%nat) (set_heap [[]] s0)).
  set (s3 := set_flight (f 0%nat ++ f 1%nat) (set_buckets {[ip := 1%nat]} (set_heap [[]; []] s0))).
  assert (H1 : steps (repeat (Fetch ip) n) s0 = Some ([], s1)) by by apply new_fetches.
  assert (H2 : steps [GcStart t; GcCheck ip; GcDelete; GcEnd] s1 = Some ([], s2)).
  { unfold s1. cbn. rewrite lookup_singleton_eq. cbn. by rewrite delete_singleton_eq. }
  assert (H3 : steps (repeat (Fetch ip) n) s2 = Some ([], s3)) by by apply new_fetches.
  rewrite repeat_app.
  assert (H4 := uses t 0 n 0 s3 (f 1%nat) Hw eq_refl eq_refl ltac:(cbn; lia)).
  set (s4 := set_flight _ _) in H4.
  assert (H5 := uses t 1 n 0 s4 [] Hw (eq_sym (app_nil_r _)) eq_refl ltac:(cbn; lia)).
  eexists. rewrite (repeat_app true n n).
  apply (steps_app _ _ _ [] s1 _ _ H1), (steps_app _ _ _ [] s2 _ _ H2), (steps_app _ _ _ [] s3 _ _ H3).
  by apply (steps_app _ _ _ _ s4).
Qed.

(** ** Witnesses *)

(** Two requests a minute: the third within the minute is refused, the one after
    it passes; the collector runs in between and the limit is lowered at the end. *)
Definition sample_ops : list rl_op :=
  [OpAllow "192.0.2.1" 0 0; OpAllow "192.0.2.1" Second (2 * Second); OpAllow "192.0.2.1" (3 * Second) (3 * Second);
   OpAllow "192.0.2.2" (3 * Second) (3 * Second); OpGc (50 * Second);
   OpAllow "192.0.2.1" (61 * Second) (61 * Second); OpGc (200 * Second); OpLimit 1;
   OpAllow "192.0.2.1" (200 * Second) (200 * Second); OpAllow "192.0.2.1" (201 * Second) (201 * Second)].

Lemma rate_limiter_exact_witness :
  (rl_run sample_ops (newRateLimiter 2 Minute)).1 = [true; true; false; true; true; true; false]
  /\ (rl_run sample_ops (newRateLimiter 2 Minute)).1 = (log_run sample_ops (log.init 2 Minute)).1
  /\ within 2 (log_run sample_ops (log.init 2 Minute)).2.
Proof.
  split; [vm_compute; reflexivity|].
  assert (Ho : ordered 0 sample_ops) by (unfold sample_ops, Second; cbn [ordered]; lia).
  destruct (rate_limiter_exact 2 Minute 0 sample_ops Ho) as [H1 H2].
  split; [exact H1|]. apply H2; [lia|lia|]. cbn. lia.
Defined.

Lemma rate_limit_collector_race_witness :
  exists s, steps (race 5 "192.0.2.1" (Hour + 7)) (newRateLimiter 5 Minute) = Some (repeat true 10, s).
Proof. apply (rate_limit_collector_race 5 Minute (Hour + 7) "192.0.2.1"); [lia | reflexivity]. Defined.
