(* ===== verification/Proxy.v ===== *)
(** * Reverse proxies (src/src/server/server.go, domainlearn.go)

    Which peers are trusted, the client address, the base URL and the learned
    domain that are derived from the headers of trusted peers, and the detection
    of requests that came over Tor or I2P. *)

From S2P Require Import Prelude GoStr GoNet GoTime Http.
From Stdlib Require Import Ascii.

(** net/url is a parameter: the parts of a URL, or [None] for an error. *)
Record ParsedUrl := { u_scheme : string; u_host : string; u_hostname : string; u_path : string }.
Class UrlParser := { url_parse : string -> option ParsedUrl }.

(** golang.org/x/net/publicsuffix. *)
Class PublicSuffix := { etld_plus_one : string -> option string }.

(** ** Requests, as the middleware sees them

    [q_header] is [Header.Get], [q_cookie] the value of the first cookie of a
    name, [q_form] what [FormValue] answers after the body has been read, [q_query]
    the query parameters, [q_route] the path chi will route by, if it is set, and
    [q_tls_version] the version of a TLS connection;
    [q_peer], [q_allowlisted], [q_csrf] and [q_txt] are the values the chain has
    put into the context of the request. *)
Record HttpReq := {
  q_method : string;
  q_path : string;
  q_route : string;
  q_query : string -> string;
  q_proto : string;
  q_tls_version : Z;
  q_rawpath : string;
  q_rawquery : string;
  q_host : string;
  q_remote : string;
  q_tls : bool;
  q_header : string -> string;
  q_cookie : string -> option string;
  q_form : string -> string;
  q_peer : option string;
  q_allowlisted : bool;
  q_csrf : string;
  q_txt : bool;
}.

Definition set_remote (a : string) (r : HttpReq) : HttpReq :=
  {| q_method := q_method r; q_route := q_route r; q_query := q_query r; q_proto := q_proto r; q_tls_version := q_tls_version r;
     q_path := q_path r; q_rawpath := q_rawpath r; q_rawquery := q_rawquery r; q_host := q_host r;
     q_remote := a; q_tls := q_tls r; q_header := q_header r; q_cookie := q_cookie r; q_form := q_form r;
     q_peer := q_peer r; q_allowlisted := q_allowlisted r; q_csrf := q_csrf r; q_txt := q_txt r |}.
Definition set_peer (a : string) (r : HttpReq) : HttpReq :=
  {| q_method := q_method r; q_route := q_route r; q_query := q_query r; q_proto := q_proto r; q_tls_version := q_tls_version r;
     q_path := q_path r; q_rawpath := q_rawpath r; q_rawquery := q_rawquery r; q_host := q_host r;
     q_remote := q_remote r; q_tls := q_tls r; q_header := q_header r; q_cookie := q_cookie r; q_form := q_form r;
     q_peer := Some a; q_allowlisted := q_allowlisted r; q_csrf := q_csrf r; q_txt := q_txt r |}.

(** ** Learning the domain *)

Record URLDetectionConfig := { Learning : bool; MinSamples : Z; SampleWindow : Z }.

Record domainLearner := {
  observations : gmap string (list Z);
  l_cfg : option URLDetectionConfig;
  baseDomain : string;
  wildcardDomain : string;
}.

Definition newDomainLearner (cfg : option URLDetectionConfig) : domainLearner :=
  {| observations := ∅; l_cfg := cfg; baseDomain := ""; wildcardDomain := "" |}.

Definition set_observations (o : gmap string (list Z)) (d : domainLearner) : domainLearner :=
  {| observations := o; l_cfg := l_cfg d; baseDomain := baseDomain d; wildcardDomain := wildcardDomain d |}.
Definition set_domain (base : string) (d : domainLearner) : domainLearner :=
  {| observations := observations d; l_cfg := l_cfg d; baseDomain := base; wildcardDomain := "*." ++ base |}.

(** The observations of a host that are still in the window at [t]. *)
Definition fresh_at (t window : Z) (l : list Z) : list Z := keep (fun o => t - window <? o) l.

Definition window_of (c : URLDetectionConfig) : Z := if SampleWindow c <=? 0 then 5 * Minute else SampleWindow c.
Definition samples_of (c : URLDetectionConfig) : Z := if MinSamples c <=? 0 then 3 else MinSamples c.

Definition Observe `{PublicSuffix} (t : Z) (hostname : string) (d : domainLearner) : domainLearner :=
  match l_cfg d with
  | None => d
  | Some c =>
      if String.eqb hostname "" || negb (Learning c) then d
      else
        let fresh := fresh_at t (window_of c) (default [] (observations d !! hostname) ++ [t]) in
        let d := set_observations (<[hostname := fresh]> (observations d)) d in
        if Z.of_nat (length fresh) <? samples_of c then d
        else match etld_plus_one hostname with
             | None => d
             | Some base =>
                 if String.eqb base "" then d
                 else if String.eqb base (baseDomain d) then d
                 else set_domain base d
             end
  end.

Definition CORSOrigins (d : domainLearner) : list string :=
  if String.eqb (baseDomain d) "" then []
  else ["https://" ++ baseDomain d; "http://" ++ baseDomain d; "https://" ++ wildcardDomain d; "http://" ++ wildcardDomain d].

(** ** Trusted peers *)

Definition privateNets : list IPNet :=
  omap ParseCIDR ["127.0.0.0/8"; "::1/128"; "10.0.0.0/8"; "172.16.0.0/12"; "192.168.0.0/16"; "fc00::/7"; "169.254.0.0/16"; "fe80::/10"].

(** The part of the server these functions read: [s.cfg] and what DNS resolved. *)
Record ProxyConfig := {
  c_address : string;
  c_additional : list string;
  c_base_url : string;
  c_fqdn : string;
  c_onion : string;
  c_b32 : string;
  resolvedProxyIPs : gmap string (list IP);
}.

Definition peerAddr (r : HttpReq) : string :=
  match q_peer r with Some a => if String.eqb a "" then q_remote r else a | None => q_remote r end.

(** The same /24 as the configured listen address. *)
Definition same_24 (address : string) (ip : IP) : bool :=
  match ParseIP (StringsU.TrimSpace address) with
  | None => false
  | Some listen =>
      match To4 ip, To4 listen with
      | Some a, Some b => IP_Equal (mask_bytes a (CIDRMask 24 32)) (mask_bytes b (CIDRMask 24 32))
      | _, _ => false
      end
  end.

(** An entry of the additional proxies that is an address or a network. *)
Definition entry_matches (ip : IP) (entry : string) : bool :=
  if Strings.Contains entry "/" then match ParseCIDR entry with Some n => Contains n ip | None => false end
  else match ParseIP entry with Some a => IP_Equal a ip | None => false end.

Definition isTrustedPeer (c : ProxyConfig) (r : HttpReq) : bool :=
  match ParseIP (host_of (peerAddr r)) with
  | None => false
  | Some ip =>
      existsb (fun n => Contains n ip) privateNets
      || same_24 (c_address c) ip
      || existsb (entry_matches ip) (c_additional c)
      || existsb (fun kv => existsb (fun a => IP_Equal a ip) (snd kv)) (map_to_list (resolvedProxyIPs c))
  end.

(** [refreshDNSTrustedProxies]; [lookup] is the answer of the resolver, and
    [additional] is read from the live configuration. *)
Definition refreshDNSTrustedProxies (lookup : string -> option (list IP)) (additional : list string) (c : ProxyConfig) : ProxyConfig :=
  let fresh := foldl (fun m e =>
      if Strings.Contains e "/" || is_some (ParseIP e) then m
      else match lookup e with Some ips => <[e := ips]> m | None => m end) ∅ additional in
  {| c_address := c_address c; c_additional := c_additional c; c_base_url := c_base_url c; c_fqdn := c_fqdn c;
     c_onion := c_onion c; c_b32 := c_b32 c; resolvedProxyIPs := fresh |}.

(** ** The client address *)

Fixpoint first_header (h : string -> string) (names : list string) : option string :=
  match names with
  | [] => None
  | n :: names => if String.eqb (h n) "" then first_header h names else Some (h n)
  end.

Definition claimed_ip (h : string -> string) : string :=
  let real := match first_header h ["CF-Connecting-IP"; "True-Client-IP"; "X-Real-IP"] with
              | Some v => StringsU.TrimSpace v | None => "" end in
  let real := if String.eqb real "" && negb (String.eqb (h "X-Forwarded-For") "")
              then StringsU.TrimSpace (hd "" (Strings.SplitN2 (h "X-Forwarded-For") ",")) else real in
  if String.eqb real "" && negb (String.eqb (h "X-Client-IP") "") then StringsU.TrimSpace (h "X-Client-IP") else real.

Definition realIPMiddleware (c : ProxyConfig) (r : HttpReq) : HttpReq :=
  let r := set_peer (q_remote r) r in
  if isTrustedPeer c r then
    let port := match SplitHostPort (q_remote r) with Some (_, p) => p | None => "" end in
    let real := claimed_ip (q_header r) in
    if negb (String.eqb real "") && is_some (ParseIP real) then
      set_remote (if String.eqb port "" then real else JoinHostPort real port) r
    else r
  else r.

Definition domainObserveMiddleware `{PublicSuffix} (c : ProxyConfig) (t : Z) (r : HttpReq) (d : domainLearner) : domainLearner :=
  if isTrustedPeer c r then
    let host := StringsU.TrimSpace (q_header r "X-Forwarded-Host") in
    let host := host_of host in
    if String.eqb host "" then d else Observe t host d
  else d.

(** ** Onion and I2P requests *)

Section urls.
Context `{Unicode} `{UrlParser}.

(** The configured address when the request's host is that address. *)
Definition overlay_host (address : string) (r : HttpReq) : string :=
  let address := StringsU.TrimSpace address in
  if String.eqb address "" then "" else if EqualFold (host_of (q_host r)) address then address else "".

Definition torRequestOnion (c : ProxyConfig) (r : HttpReq) : string := overlay_host (c_onion c) r.
Definition i2pRequestB32 (c : ProxyConfig) (r : HttpReq) : string := overlay_host (c_b32 c) r.

(** ** The base URL *)

(** A header that spells a scheme. *)
Definition scheme_header (v : string) : option string :=
  let v := StringsU.TrimSpace v in
  if String.eqb v "" then None
  else if EqualFold v "https" then Some "https" else if EqualFold v "http" then Some "http" else None.

Definition forwardedScheme (r : HttpReq) (trusted : bool) : string :=
  if negb trusted then ""
  else match scheme_header (q_header r "X-Forwarded-Proto") with
       | Some v => v
       | None =>
           if EqualFold (StringsU.TrimSpace (q_header r "X-Forwarded-Ssl")) "on" then "https"
           else default "" (scheme_header (q_header r "X-Url-Scheme"))
       end.

Definition splitHostPort (host : string) : string * string :=
  match SplitHostPort host with
  | Some hp => hp
  | None =>
      if Strings.HasPrefix host "[" && Strings.HasSuffix host "]"
      then (Strings.take (String.length host - 2) (Strings.drop 1 host), "")
      else (host, "")
  end.

Definition isRoutableHost (h : string) : bool :=
  let h := StringsU.TrimSpace h in
  if String.eqb h "" || EqualFold h "localhost" then false
  else match ParseIP h with
       | None => true
       | Some ip =>
           if IsLoopback ip || IsPrivate ip || IsLinkLocalUnicast ip || IsLinkLocalMulticast ip || IsUnspecified ip then false
           else IsGlobalUnicast ip
       end.

(** Runes that must not occur in a path prefix. *)
Definition bad_prefix_rune (ch : Z) : bool := (ch =? 58) || (ch =? 92) || (ch <=? 32) || (ch =? 127).

Definition validPathPrefix (p : string) : bool :=
  if negb (Strings.HasPrefix p "/") then false
  else if Strings.HasPrefix p "//" || Strings.HasPrefix p ("/" ++ String "092" "") then false
  else negb (existsb (fun x => bad_prefix_rune (fst x)) (Utf8.runes p)).

Definition prefix_headers : list string := ["X-Forwarded-Prefix"; "X-Forwarded-Path"; "X-Script-Name"].

(** The first of the headers whose trimmed value is not empty. *)
Fixpoint first_trimmed (f : string -> string) (h : string -> string) (names : list string) : option string :=
  match names with
  | [] => None
  | n :: names => if String.eqb (f (h n)) "" then first_trimmed f h names else Some (f (h n))
  end.

Definition baseURL (c : ProxyConfig) (r : HttpReq) : string :=
  let onion := torRequestOnion c r in
  let b32 := i2pRequestB32 c r in
  if negb (String.eqb onion "") then "http://" ++ onion
  else if negb (String.eqb b32 "") then "http://" ++ b32
  else if negb (String.eqb (c_base_url c) "") then c_base_url c
  else
    let trusted := isTrustedPeer c r in
    let fp := forwardedScheme r trusted in
    let scheme := if negb (String.eqb fp "") then fp else if q_tls r then "https" else "http" in
    let from_proxy := if trusted then first_trimmed StringsU.TrimSpace (q_header r) ["X-Forwarded-Host"; "X-Real-Host"; "X-Original-Host"] else None in
    let '(hostname, port) := splitHostPort (default (q_host r) from_proxy) in
    let '(hostname, port) :=
      if negb (is_some from_proxy) && negb (isRoutableHost hostname) then
        let f := StringsU.TrimSpace (c_fqdn c) in
        if negb (String.eqb f "") && negb (EqualFold f "localhost") then splitHostPort f else (hostname, port)
      else (hostname, port) in
    let port :=
      if trusted then
        let fp := StringsU.TrimSpace (q_header r "X-Forwarded-Port") in if String.eqb fp "" then port else fp
      else port in
    let port := if (String.eqb scheme "http" && String.eqb port "80") || (String.eqb scheme "https" && String.eqb port "443")
                then "" else port in
    let hostport := if negb (String.eqb port "") then JoinHostPort hostname port
                    else if Strings.Contains hostname ":" then "[" ++ hostname ++ "]" else hostname in
    let base := scheme ++ "://" ++ hostport in
    if trusted then
      match first_header (q_header r) prefix_headers with
      | Some p => let p := Strings.TrimRight p "/" in if validPathPrefix p then base ++ p else base
      | None => base
      end
    else base.

Definition assetPrefix (c : ProxyConfig) (r : HttpReq) : string :=
  let from_header :=
    if isTrustedPeer c r then
      match first_trimmed (fun v => Strings.TrimRight v "/") (q_header r) prefix_headers with
      | Some p => if validPathPrefix p then Some p else None
      | None => None
      end
    else None in
  match from_header with
  | Some p => p
  | None =>
      if String.eqb (c_base_url c) "" then ""
      else match url_parse (c_base_url c) with
           | Some u => let p := Strings.TrimRight (u_path u) "/" in if validPathPrefix p then p else ""
           | None => ""
           end
  end.

(** ** Cross-origin requests *)

Record Cors := { AllowedOrigins : list string; AllowCredentials : bool; MaxAge : Z }.

Definition resolveCORSAllowList (cfg : Cors) (domain_env : string) (d : option domainLearner) : list string * bool :=
  match AllowedOrigins cfg with
  | [""] => ([], true)
  | _ :: _ => (AllowedOrigins cfg, false)
  | [] =>
      let from_env :=
        if String.eqb domain_env "" then []
        else omap (fun h => let h := StringsU.TrimSpace h in if String.eqb h "" then None else Some ("https://" ++ h))
               (Strings.Split domain_env ",") in
      let resolved := (from_env ++ match d with Some d => CORSOrigins d | None => [] end)%list in
      match resolved with [] => (["*"], false) | _ => (resolved, false) end
  end.

(** [strings.Cut]. *)
Definition Cut (s sep : string) : option (string * string) :=
  i ← String.index 0 sep s; Some (Strings.take i s, Strings.drop (i + String.length sep) s).

Definition corsOriginMatches (allowed origin : string) : bool :=
  if String.eqb allowed origin then true
  else match Cut allowed "://*." with
       | None => false
       | Some (scheme, wildcardHost) =>
           match url_parse origin with
           | None => false
           | Some u => String.eqb (u_scheme u) scheme
                       && (String.eqb (u_hostname u) wildcardHost || Strings.HasSuffix (u_hostname u) ("." ++ wildcardHost))
           end
       end.

(** The origin to answer, whether credentials are allowed, and whether there are
    no headers at all. *)
Definition resolveCORSOrigin (c : ProxyConfig) (cfg : Cors) (domain_env : string) (d : option domainLearner) (r : HttpReq)
  : string * bool * bool :=
  let onion := torRequestOnion c r in
  if negb (String.eqb onion "") then ("http://" ++ onion, false, false)
  else
    let '(list, disabled) := resolveCORSAllowList cfg domain_env d in
    if disabled then ("", false, true)
    else if existsb (String.eqb "*") list then ("*", false, false)
    else
      let reqOrigin := q_header r "Origin" in
      if String.eqb reqOrigin "" then (hd "" list, false, false)
      else if existsb (fun a => corsOriginMatches a reqOrigin) list then (reqOrigin, AllowCredentials cfg, false)
      else ("*", false, false).

Definition corsAllowedHeaders : string :=
  "Content-Type, Accept, X-Requested-With, Authorization, X-API-Key, X-Api-Key, API-Key, ApiKey, X-Auth-Token, X-Access-Token, X-Token, Token, X-CSRF-Token, X-XSRF-Token, X-Session-ID, X-Service-Token, X-Internal-Token".

(** The headers set on the response, and whether the request is passed on. *)
Definition corsMiddleware (c : ProxyConfig) (cfg : Cors) (domain_env : string) (d : option domainLearner) (r : HttpReq)
  : list (string * string) * bool :=
  let '(origin, allowCredentials, disabled) := resolveCORSOrigin c cfg domain_env d r in
  (if disabled then []
   else [("Access-Control-Allow-Origin", origin); ("Access-Control-Allow-Methods", "GET, POST, PUT, PATCH, DELETE, OPTIONS");
         ("Access-Control-Allow-Headers", corsAllowedHeaders)]
        ++ (if allowCredentials && negb (String.eqb origin "*") then [("Access-Control-Allow-Credentials", "true")] else [])
        ++ [("Access-Control-Max-Age", Strconv.Itoa (MaxAge cfg))],
   negb (String.eqb (q_method r) "OPTIONS"))%list.

End urls.
