(* ===== verification/ProxyProofs.v ===== *)
(** * Whom the headers are believed from

    Forwarded headers count exactly for connections of trusted peers, whatever
    the address of the client is taken to be afterwards; credentials are only
    shared with a listed origin; and a domain is learned only from enough recent
    requests of trusted peers. *)

From S2P Require Import Prelude GoStr GoStrProofs GoNet GoNetProofs GoTime Http Proxy.
From Stdlib Require Import Ascii.

(** ** Trust *)

(** Whether the address of a connection is trusted. *)
Definition trusts (c : ProxyConfig) (addr : string) : bool :=
  match ParseIP (host_of addr) with
  | None => false
  | Some ip =>
      existsb (fun n => Contains n ip) privateNets || same_24 (c_address c) ip || existsb (entry_matches ip) (c_additional c)
      || existsb (fun kv => existsb (fun a => IP_Equal a ip) (snd kv)) (map_to_list (resolvedProxyIPs c))
  end.

(** The request with other headers. *)
Definition with_header (h : string -> string) (r : HttpReq) : HttpReq :=
  {| q_method := q_method r; q_route := q_route r; q_query := q_query r; q_proto := q_proto r; q_tls_version := q_tls_version r;
     q_path := q_path r; q_rawpath := q_rawpath r; q_rawquery := q_rawquery r; q_host := q_host r;
     q_remote := q_remote r; q_tls := q_tls r; q_header := h; q_cookie := q_cookie r; q_form := q_form r;
     q_peer := q_peer r; q_allowlisted := q_allowlisted r; q_csrf := q_csrf r; q_txt := q_txt r |}.

Lemma peerAddr_set a r : a <> "" -> peerAddr (set_peer a r) = a.
Proof. intros Ha. unfold peerAddr. cbn. by destruct (String.eqb_spec a ""). Qed.

Lemma realIP_peer c r : q_peer (realIPMiddleware c r) = Some (q_remote r).
Proof. unfold realIPMiddleware. destruct (isTrustedPeer _ _); [|done]. by destruct (_ && _). Qed.

Lemma realIP_trust c r : q_remote r <> "" -> isTrustedPeer c (realIPMiddleware c r) = trusts c (q_remote r).
Proof.
  intros Hr. unfold isTrustedPeer, peerAddr. rewrite realIP_peer. by destruct (String.eqb_spec (q_remote r) "").
Qed.

Lemma trust_ignores_headers c h r : isTrustedPeer c (with_header h r) = isTrustedPeer c r.
Proof. done. Qed.

Section trust.
Context (U : Unicode) (P : UrlParser) (S : PublicSuffix).

Lemma untrusted_baseURL c h r : isTrustedPeer c r = false -> baseURL c (with_header h r) = baseURL c r.
Proof. intros Ht. unfold baseURL. rewrite (trust_ignores_headers c h r), Ht. done. Qed.

Lemma untrusted_assetPrefix c h r : isTrustedPeer c r = false -> assetPrefix c (with_header h r) = assetPrefix c r.
Proof. intros Ht. unfold assetPrefix. by rewrite (trust_ignores_headers c h r), Ht. Qed.

(** C6 — Trust in forwarded headers is decided by the address of the connection
    alone, also after the client address was replaced. For a peer that is not
    trusted no header has any effect on the client address, the base URL, the
    prefix of the assets or the learned domain; for a trusted one the client
    address becomes the claimed address when that parses, and stays otherwise. *)
Theorem proxy_trust (c : ProxyConfig) (r : HttpReq) :
  q_remote r <> "" ->
  let r1 := realIPMiddleware c r in
  isTrustedPeer c r1 = trusts c (q_remote r)
  /\ (if trusts c (q_remote r)
      then match ParseIP (claimed_ip (q_header r)) with
           | Some _ => host_of (q_remote r1) = claimed_ip (q_header r)
           | None => q_remote r1 = q_remote r
           end
      else q_remote r1 = q_remote r
           /\ forall h t d, baseURL c (with_header h r1) = baseURL c r1 /\ assetPrefix c (with_header h r1) = assetPrefix c r1
                            /\ domainObserveMiddleware c t (with_header h r1) d = d).
Proof.
  intros Hr. cbn zeta. pose proof (realIP_trust c r Hr) as Ht. split; [done|].
  assert (Ht' : isTrustedPeer c (set_peer (q_remote r) r) = trusts c (q_remote r))
    by (unfold isTrustedPeer; by rewrite peerAddr_set).
  destruct (trusts c (q_remote r)) eqn:E.
  - unfold realIPMiddleware. rewrite Ht'. cbn [q_header q_remote set_peer].
    destruct (ParseIP (claimed_ip (q_header r))) as [ip|] eqn:Eip; [|by rewrite andb_false_r].
    destruct (String.eqb_spec (claimed_ip (q_header r)) "") as [E0|]; [by rewrite E0 in Eip|].
    cbn [negb andb is_some set_remote q_remote]. by eapply host_of_replaced.
  - assert (Hsame : q_remote (realIPMiddleware c r) = q_remote r) by (unfold realIPMiddleware; by rewrite Ht').
    split; [done|]. intros h t d. split; [by apply untrusted_baseURL|]. split; [by apply untrusted_assetPrefix|].
    unfold domainObserveMiddleware. by rewrite trust_ignores_headers, Ht.
Qed.

(** ** Cross-origin requests *)

(** What an entry of the allow list stands for: an origin, or the host of a
    pattern and all its subdomains. *)
Definition allows (entry origin : string) : Prop :=
  entry = origin
  \/ exists scheme host u, entry = scheme ++ "://*." ++ host /\ url_parse origin = Some u /\ u_scheme u = scheme
       /\ (u_hostname u = host \/ exists sub, u_hostname u = sub ++ "." ++ host).

Lemma corsOriginMatches_allows entry origin : corsOriginMatches entry origin = true -> allows entry origin.
Proof.
  unfold corsOriginMatches, allows. destruct (String.eqb_spec entry origin) as [->|_]; [by left|].
  unfold Cut. destruct (String.index 0 "://*." entry) as [i|] eqn:Ei; [|done]. cbn [mbind option_bind].
  destruct (url_parse origin) as [u|]; [|done]. intros [Es Eh]%andb_true_iff. apply String.eqb_eq in Es. right.
  exists (Strings.take i entry), (Strings.drop (i + String.length "://*.") entry), u.
  split; [by apply index_prefix|]. split; [done|]. split; [done|].
  apply orb_true_iff in Eh as [E%String.eqb_eq|[x E]%HasSuffix_spec]; [by left | by right; exists x].
Qed.

(** The answer of [resolveCORSOrigin], by cases. *)
Lemma resolveCORSOrigin_cases c cfg env d r :
  (exists o, resolveCORSOrigin c cfg env d r = (o, false, false)
     /\ (o = "*" \/ o = "http://" ++ torRequestOnion c r /\ torRequestOnion c r <> ""
         \/ q_header r "Origin" = "" /\ exists list, resolveCORSAllowList cfg env d = (list, false) /\ o = hd "" list))
  \/ resolveCORSOrigin c cfg env d r = ("", false, true) /\ AllowedOrigins cfg = [""]
  \/ (resolveCORSOrigin c cfg env d r = (q_header r "Origin", AllowCredentials cfg, false)
      /\ q_header r "Origin" <> "" /\ torRequestOnion c r = ""
      /\ exists list entry, resolveCORSAllowList cfg env d = (list, false) /\ "*" ∉ list /\ entry ∈ list
                           /\ allows entry (q_header r "Origin")).
Proof.
  unfold resolveCORSOrigin. destruct (String.eqb_spec (torRequestOnion c r) "") as [Ho|Ho]; cbn [negb];
    [|left; eexists; split; [done|]; auto].
  destruct (resolveCORSAllowList cfg env d) as [list [|]] eqn:El.
  { right. left. split; [done|]. unfold resolveCORSAllowList in El. destruct (AllowedOrigins cfg) as [|[|] [|]]; try done.
    by destruct (_ ++ _)%list. }
  destruct (existsb (String.eqb "*") list) eqn:Estar; [left; eexists; split; [done|]; auto|].
  destruct (String.eqb_spec (q_header r "Origin") "") as [E0|E0]; [left; eexists; split; [done|]; eauto 8|].
  destruct (existsb (fun a => corsOriginMatches a (q_header r "Origin")) list) eqn:Em;
    [|left; eexists; split; [done|]; auto].
  right. right. split; [done|]. split; [done|]. split; [done|].
  apply existsb_exists in Em as (entry & Hin & Hm). exists list, entry. split; [done|]. split.
  - intros Hs. apply list_elem_of_In in Hs. by rewrite (proj2 (existsb_exists _ _) (ex_intro _ _ (conj Hs (String.eqb_refl "*")))) in Estar.
  - split; [by apply list_elem_of_In | by apply corsOriginMatches_allows].
Qed.

(** Credentials are allowed only to an origin that an entry of the allow
    list stands for, never together with the wildcard and never when the list
    has it; and the origin that is answered is the wildcard, the onion address
    of the server, the first entry when the request names none, or that origin. *)
Theorem cors_credentials (c : ProxyConfig) (cfg : Cors) (env : string) (d : option domainLearner) (r : HttpReq) :
  let hs := (corsMiddleware c cfg env d r).1 in
  let origin := q_header r "Origin" in
  (("Access-Control-Allow-Credentials", "true") ∈ hs ->
     AllowCredentials cfg = true /\ origin <> "" /\ origin <> "*" /\ ("Access-Control-Allow-Origin", origin) ∈ hs
     /\ exists list entry, resolveCORSAllowList cfg env d = (list, false) /\ "*" ∉ list /\ entry ∈ list /\ allows entry origin)
  /\ (forall o, ("Access-Control-Allow-Origin", o) ∈ hs ->
        o = "*" \/ o = "http://" ++ torRequestOnion c r /\ torRequestOnion c r <> ""
        \/ (exists list, resolveCORSAllowList cfg env d = (list, false)
             /\ (origin = "" /\ o = hd "" list \/ o = origin /\ exists entry, entry ∈ list /\ allows entry origin))).
Proof.
  unfold corsMiddleware. cbn zeta.
  destruct (resolveCORSOrigin_cases c cfg env d r) as [(o & -> & Ho)|[[-> _]|(-> & Hne & _ & list & entry & El & Hs & Hin & Ha)]];
    cbn [fst].
  - split; [intros Hc; set_unfold in Hc; naive_solver|]. intros o' Hc. set_unfold in Hc.
    assert (o' = o) as -> by naive_solver. destruct Ho as [?|[?|(? & l & ? & ?)]]; eauto 8.
  - split; [|intros o]; intros Hc; set_unfold in Hc; done.
  - split.
    + intros Hc. assert (Hb : AllowCredentials cfg && negb (String.eqb (q_header r "Origin") "*") = true).
      { destruct (_ && _); [done|]. set_unfold in Hc. naive_solver. }
      apply andb_true_iff in Hb as [Hb Hn]. destruct (String.eqb_spec (q_header r "Origin") "*"); [done|].
      split; [done|]. split; [done|]. split; [done|]. split; [set_solver | by exists list, entry].
    + intros o Hc. assert (o = q_header r "Origin") as -> by (set_unfold in Hc; destruct (_ && _); set_unfold in Hc; naive_solver).
      right. right. exists list. split; [done|]. right. split; [done | by exists entry].
Qed.
(** ** Learning the domain *)

(** The host a request makes known, if its peer is trusted. *)
Definition forwarded_host (c : ProxyConfig) (r : HttpReq) : option string :=
  if isTrustedPeer c r then
    let host := host_of (StringsU.TrimSpace (q_header r "X-Forwarded-Host")) in if String.eqb host "" then None else Some host
  else None.

Definition observe_all (c : ProxyConfig) (l : list (Z * HttpReq)) (d : domainLearner) : domainLearner :=
  foldl (fun d tr => domainObserveMiddleware c (fst tr) (snd tr) d) d l.

(** The times at which a host was made known. *)
Definition times (c : ProxyConfig) (host : string) (l : list (Z * HttpReq)) : list Z :=
  fst <$> keep (fun tr => bool_decide (forwarded_host c (snd tr) = Some host)) l.

(** At the end of [l] there were enough recent requests for a host of the domain. *)
Definition evidence (c : ProxyConfig) (cfg : URLDetectionConfig) (l : list (Z * HttpReq)) (base : string) : Prop :=
  exists l1 t r l2 host, l = (l1 ++ (t, r) :: l2)%list /\ forwarded_host c r = Some host /\ etld_plus_one host = Some base
    /\ samples_of cfg <= Z.of_nat (length (fresh_at t (window_of cfg) (times c host (l1 ++ [(t, r)])))).

Lemma sublist_keep {A} (p : A -> bool) l k : l `sublist_of` k -> (length (keep p l) <= length (keep p k))%nat.
Proof. induction 1; [done| |]; rewrite ?keep_cons; destruct (p x); cbn; lia. Qed.

Lemma times_snoc c host l t r :
  times c host (l ++ [(t, r)]) = (times c host l ++ (if bool_decide (forwarded_host c r = Some host) then [t] else []))%list.
Proof. unfold times. rewrite keep_app, fmap_app, keep_cons. cbn. by destruct (bool_decide _). Qed.

Lemma domainObserve_forwarded c t r d :
  domainObserveMiddleware c t r d = match forwarded_host c r with Some host => Observe t host d | None => d end.
Proof. unfold domainObserveMiddleware, forwarded_host. destruct (isTrustedPeer c r); [|done]. by destruct (String.eqb _ _). Qed.

Lemma evidence_app c cfg l k base : evidence c cfg l base -> evidence c cfg (l ++ k) base.
Proof.
  intros (l1 & t & r & l2 & host & -> & ?). exists l1, t, r, (l2 ++ k)%list, host. by rewrite <- app_assoc.
Qed.

(** What holds of a learner that has seen [l]. *)
Definition learner_inv (c : ProxyConfig) (cfg : URLDetectionConfig) (l : list (Z * HttpReq)) (d : domainLearner) : Prop :=
  l_cfg d = Some cfg
  /\ (forall host, default [] (observations d !! host) `sublist_of` times c host l)
  /\ (baseDomain d = "" \/ wildcardDomain d = "*." ++ baseDomain d /\ evidence c cfg l (baseDomain d)).

Lemma learner_step c cfg l d t r :
  learner_inv c cfg l d -> learner_inv c cfg (l ++ [(t, r)]) (domainObserveMiddleware c t r d).
Proof.
  intros (Hcfg & Hobs & Hbase). rewrite domainObserve_forwarded.
  assert (Hsame : learner_inv c cfg (l ++ [(t, r)]) d).
  { split; [done|]. split; [|destruct Hbase as [?|[? ?]]; [by left | right; auto using evidence_app]].
    intros host. rewrite times_snoc. etrans; [apply Hobs|]. by apply sublist_inserts_r. }
  destruct (forwarded_host c r) as [host|] eqn:Eh; [|done]. unfold Observe. rewrite Hcfg.
  destruct (_ || _); [done|].
  assert (Hall : (default [] (observations d !! host) ++ [t])%list `sublist_of` times c host (l ++ [(t, r)])).
  { rewrite times_snoc, bool_decide_true by done. by apply sublist_app. }
  set (fresh := fresh_at t (window_of cfg) _).
  assert (Hfresh : fresh `sublist_of` times c host (l ++ [(t, r)])).
  { etrans; [apply keep_sublist | exact Hall]. }
  assert (Hobs' : forall h, default [] ((<[host := fresh]> (observations d)) !! h) `sublist_of` times c h (l ++ [(t, r)])).
  { intros h. destruct (decide (h = host)) as [->|]; [by rewrite lookup_insert_eq|]. rewrite lookup_insert_ne by done. apply Hsame. }
  assert (Hstored : learner_inv c cfg (l ++ [(t, r)]) (set_observations (<[host := fresh]> (observations d)) d)).
  { split; [done|]. split; [exact Hobs' | apply Hsame]. }
  destruct (Z.ltb_spec (Z.of_nat (length fresh)) (samples_of cfg)) as [|Hn]; [done|].
  destruct (etld_plus_one host) as [base|] eqn:Eb; [|done].
  destruct (String.eqb base ""); [done|]. destruct (String.eqb base _); [done|].
  split; [done|]. split; [exact Hobs'|]. right. split; [done|].
  exists l, t, r, [], host. split; [done|]. split; [done|]. split; [done|]. etrans; [exact Hn|].
  apply inj_le. by apply sublist_keep.
Qed.

(** The learned domain has evidence: it is the registrable domain of a host
    that trusted proxies named in at least the configured number of requests
    within the configured window. *)
Theorem learned_domain_evidence (c : ProxyConfig) (cfg : URLDetectionConfig) (l : list (Z * HttpReq)) :
  let d := observe_all c l (newDomainLearner (Some cfg)) in
  CORSOrigins d = [] \/ wildcardDomain d = "*." ++ baseDomain d /\ evidence c cfg l (baseDomain d).
Proof.
  cbn zeta. enough (Hinv : learner_inv c cfg l (observe_all c l (newDomainLearner (Some cfg)))).
  { destruct Hinv as (_ & _ & [E|E]); [left; unfold CORSOrigins; by rewrite E | by right]. }
  induction l as [|[t r] l IH] using rev_ind.
  - split; [done|]. split; [|by left]. intros host. cbn. by rewrite lookup_empty.
  - unfold observe_all. rewrite foldl_app. cbn. by apply learner_step.
Qed.
End trust.

(** ** Witnesses *)

Definition no_url : UrlParser := {| url_parse := fun _ => None |}.
Definition some_config : ProxyConfig :=
  {| c_address := ""; c_additional := ["203.0.113.7"]; c_base_url := ""; c_fqdn := "paste.example"; c_onion := ""; c_b32 := "";
     resolvedProxyIPs := ∅ |}.
Definition header_of (l : list (string * string)) (n : string) : string :=
  match List.find (fun kv => String.eqb (fst kv) n) l with Some (_, v) => v | None => "" end.
Definition some_req (remote : string) (l : list (string * string)) : HttpReq :=
  {| q_method := "GET"; q_route := ""; q_query := fun _ => ""; q_proto := "HTTP/1.1"; q_tls_version := 0;
     q_path := "/"; q_rawpath := ""; q_rawquery := ""; q_host := "paste.example"; q_remote := remote; q_tls := true;
     q_header := header_of l; q_cookie := fun _ => None; q_form := fun _ => ""; q_peer := None; q_allowlisted := false; q_csrf := "";
     q_txt := false |}.

Theorem proxy_trust_witness :
  q_remote (some_req "203.0.113.7:443" [("X-Forwarded-For", "198.51.100.4, 10.0.0.1")]) <> ""
  /\ host_of (q_remote (realIPMiddleware some_config (some_req "203.0.113.7:443" [("X-Forwarded-For", "198.51.100.4, 10.0.0.1")])))
     = "198.51.100.4".
Proof.
  split; [done|].
  exact (proj2 (@proxy_trust ascii_unicode no_url {| etld_plus_one := fun _ => None |} some_config
    (some_req "203.0.113.7:443" [("X-Forwarded-For", "198.51.100.4, 10.0.0.1")]) ltac:(discriminate))).
Defined.
