(* ===== verification/ConfigText.v ===== *)
(** * Values of the configuration (src/src/config/bool.go, size.go, hostvalidate.go;
      src/src/common/secretbox)

    Booleans, sizes and host names as operators write them, and the box in which
    credentials are kept. Floating point numbers, the public suffix list and the
    cipher are interfaces with the laws that are used. *)

From S2P Require Import Prelude GoStr GoStrProofs GoTextProofs GoNet GoCrypto Http Proxy.
From Stdlib Require Import Ascii.

(** ** Booleans *)

Definition truthyValues : list string :=
  ["1"; "y"; "t"; "yes"; "true"; "on"; "ok"; "enable"; "enabled"; "yep"; "yup"; "yeah"; "aye"; "si"; "oui"; "da"; "hai";
   "affirmative"; "accept"; "allow"; "grant"; "sure"; "totally"].
Definition falsyValues : list string :=
  ["0"; "n"; "f"; "no"; "false"; "off"; "disable"; "disabled"; "nope"; "nah"; "nay"; "nein"; "non"; "niet"; "iie"; "lie"; "negative";
   "reject"; "block"; "revoke"; "deny"; "never"; "noway"].

Section bools.
Context `{Unicode}.

Definition token_of (s : string) : string := StringsU.TrimSpace (StringsU.ToLower s).
Definition IsTruthy (s : string) : bool := existsb (String.eqb (token_of s)) truthyValues.
Definition IsFalsy (s : string) : bool := existsb (String.eqb (token_of s)) falsyValues.

Definition ParseBool (s : string) (defaultVal : bool) : result bool :=
  if String.eqb (token_of s) "" then Ok defaultVal
  else if IsTruthy s then Ok true else if IsFalsy s then Ok false else Err "invalid boolean value".

(** [MustParseBool]: a panic is [None]. *)
Definition MustParseBool (s : string) (defaultVal : bool) : option bool :=
  match ParseBool s defaultVal with Ok b => Some b | Err _ => None end.
End bools.

(** No word is both, so the order of the two tests does not matter. *)
Lemma truthy_falsy_disjoint `{Unicode} s : IsTruthy s = true -> IsFalsy s = false.
Proof.
  unfold IsTruthy, IsFalsy. intros (x & Hx & E)%existsb_exists. apply String.eqb_eq in E. rewrite E. clear E. apply list_elem_of_In in Hx.
  revert x Hx. apply Forall_forall. repeat constructor.
Qed.

(** ** Sizes *)

(** [strconv.ParseFloat(s, 64)] and the arithmetic that follows it. *)
Class Floats := {
  float : Type;
  ParseFloat : string -> option float;
  float_nonpos : float -> bool;
  float_bytes : float -> Z -> Z;
}.

(** A positive integer that a float represents is read and multiplied exactly. *)
Class FloatLaws `{Floats} := {
  integers_exact : forall n m, 0 < n -> 0 < m -> n * m <= 2 ^ 53 ->
    exists f, ParseFloat (Strconv.Itoa n) = Some f /\ float_nonpos f = false /\ float_bytes f m = n * m;
}.

Definition sizeUnits : list (string * Z) := [("tb", 2 ^ 40); ("gb", 2 ^ 30); ("mb", 2 ^ 20); ("kb", 2 ^ 10); ("b", 1)].

Section sizes.
Context `{Unicode} `{Floats}.

Definition size_error : string := "invalid size value".

(** A number and its unit. *)
Definition sized (num : string) (multiplier : Z) : result Z :=
  match ParseFloat num with
  | None => Err size_error
  | Some n => Ok (if float_nonpos n then 0 else float_bytes n multiplier)
  end.

Fixpoint with_unit (units : list (string * Z)) (trimmed : string) : result Z :=
  match units with
  | [] => sized trimmed (2 ^ 20)
  | (suffix, multiplier) :: units =>
      if Strings.HasSuffix trimmed suffix then
        let numPart := StringsU.TrimSpace (Strings.TrimSuffix trimmed suffix) in
        if String.eqb numPart "" then with_unit units trimmed else sized numPart multiplier
      else with_unit units trimmed
  end.

Definition ParseSize (s : string) (defaultVal : Z) : result Z :=
  let trimmed := token_of s in
  if String.eqb trimmed "" then Ok defaultVal else with_unit sizeUnits trimmed.
End sizes.

Definition FormatSize (bytes : Z) : string :=
  if (2 ^ 40 <=? bytes) && (Z.rem bytes (2 ^ 40) =? 0) then Strconv.Itoa (Z.quot bytes (2 ^ 40)) ++ " TB"
  else if (2 ^ 30 <=? bytes) && (Z.rem bytes (2 ^ 30) =? 0) then Strconv.Itoa (Z.quot bytes (2 ^ 30)) ++ " GB"
  else if (2 ^ 20 <=? bytes) && (Z.rem bytes (2 ^ 20) =? 0) then Strconv.Itoa (Z.quot bytes (2 ^ 20)) ++ " MB"
  else if (2 ^ 10 <=? bytes) && (Z.rem bytes (2 ^ 10) =? 0) then Strconv.Itoa (Z.quot bytes (2 ^ 10)) ++ " KB"
  else Strconv.Itoa bytes ++ " B".

Lemma substring_skip x y k n : String.substring (String.length x + k) n (x ++ y) = String.substring k n y.
Proof. induction x as [|c x IH]; [done | exact IH]. Qed.

Lemma HasSuffix_app_short x y suf : (String.length suf <= String.length y)%nat ->
  Strings.HasSuffix (x ++ y) suf = Strings.HasSuffix y suf.
Proof.
  intros Hl. unfold Strings.HasSuffix. rewrite string_app_length, <- Nat.add_sub_assoc by done. rewrite substring_skip. f_equal.
  by rewrite !(proj2 (Nat.leb_le _ _)) by lia.
Qed.

Section size_facts.
Context `{FloatLaws} `{Unicode}.

(** A number, a blank and a unit. *)
Lemma token_unit n upper lower c :
  Strings.forall_byte digit_char n = true -> n <> "" -> StringsU.is_ascii upper = true ->
  Strings.map_byte StringsU.lower_ascii upper = " " ++ lower ++ String c "" -> StringsU.is_ascii (lower ++ String c "") = true ->
  blank c = false -> token_of (n ++ upper) = (n ++ " ") ++ lower ++ String c "".
Proof.
  intros Hd Hne Hup Hlow Hla Hc. destruct (digits_solid n Hd Hne) as (Ha & (h & r & Hh & Hhs) & _).
  unfold token_of, StringsU.ToLower. assert (Has : StringsU.is_ascii (n ++ upper) = true)
    by (unfold StringsU.is_ascii in *; by rewrite forall_byte_app, Ha, Hup).
  rewrite Has, map_byte_app, (lower_digits n Hd), Hlow.
  rewrite <- (string_app_assoc n " "). set (m := n ++ " " ++ lower ++ String c "").
  assert (E : StringsU.TrimSpace ("" ++ m ++ "") = m).
  { apply TrimSpace_around; [|done|done| |].
    - cbn [String.append]. rewrite string_app_nil_r. unfold m, StringsU.is_ascii in *. by rewrite forall_byte_app, Ha.
    - exists h, (r ++ " " ++ lower ++ String c ""). unfold m. by rewrite Hh.
    - exists (n ++ " " ++ lower), c. split; [|done]. unfold m. by rewrite !string_app_assoc. }
  cbn [String.append] in E. by rewrite string_app_nil_r in E.
Qed.

Lemma sized_exact p m : 0 < m -> Z.pos p * m <= 2 ^ 53 -> sized (Strconv.Itoa (Z.pos p)) m = Ok (Z.pos p * m).
Proof. intros Hm Hb. destruct (integers_exact (Z.pos p) m) as (f & Hf & Hn & Hm'); [lia..|]. unfold sized. by rewrite Hf, Hn, Hm'. Qed.

(** A bare number is a number of megabytes. *)
Lemma bare_number p d : Z.pos p * 2 ^ 20 <= 2 ^ 53 -> ParseSize (Strconv.Itoa (Z.pos p)) d = Ok (Z.pos p * 2 ^ 20).
Proof.
  intros Hp. destruct (Itoa_pos_digits p) as [Hd Hne]. pose proof (sized_exact p (2 ^ 20) eq_refl Hp) as Hs.
  set (n := Strconv.Itoa (Z.pos p)) in *. clearbody n. clear Hp.
  assert (Ht : token_of n = n).
  { unfold token_of, StringsU.ToLower. destruct (digits_solid n Hd Hne) as (Ha & _). rewrite Ha, (lower_digits n Hd).
    pose proof (TrimSpace_digits n "" Hd Hne eq_refl eq_refl) as E. by rewrite string_app_nil_r in E. }
  assert (Hu : forall u c, digit_char c = false -> Strings.HasSuffix n (u ++ String c "") = false).
  { intros u c Hc. destruct (Strings.HasSuffix n (u ++ String c "")) eqn:E; [|done]. apply HasSuffix_spec in E as [r ->].
    rewrite !forall_byte_app in Hd. cbn in Hd. rewrite Hc in Hd. by rewrite !andb_false_r in Hd. }
  unfold ParseSize. rewrite Ht. apply String.eqb_neq in Hne. rewrite Hne. unfold sizeUnits. cbn [with_unit].
  pose proof (Hu "t" "b"%char eq_refl) as Ht'. pose proof (Hu "g" "b"%char eq_refl) as Hg. pose proof (Hu "m" "b"%char eq_refl) as Hm.
  pose proof (Hu "k" "b"%char eq_refl) as Hk. pose proof (Hu "" "b"%char eq_refl) as Hb.
  cbn [String.append] in *. by rewrite Ht', Hg, Hm, Hk, Hb.
Qed.

(** The units, with what precedes their last letter. *)
Definition units : list (string * string * ascii * Z) :=
  [(" TB", "t", "b"%char, 2 ^ 40); (" GB", "g", "b"%char, 2 ^ 30); (" MB", "m", "b"%char, 2 ^ 20);
   (" KB", "k", "b"%char, 2 ^ 10); (" B", "", "b"%char, 1)].

Lemma unit_found n : Strings.forall_byte digit_char n = true -> n <> "" ->
  Forall (fun '(_, lower, c, m) => with_unit sizeUnits ((n ++ " ") ++ lower ++ String c "") = sized n m) units.
Proof.
  intros Hd Hne. assert (Hb : StringsU.TrimSpace (n ++ " ") = n) by by apply TrimSpace_digits.
  assert (Hn : String.eqb n "" = false) by by apply String.eqb_neq.
  unfold units, sizeUnits. repeat (apply Forall_cons; split); [..|by apply Forall_nil]; cbn [with_unit];
    rewrite <- (string_app_assoc n), !(HasSuffix_app_short n) by (cbn; lia); cbn [String.append];
    repeat match goal with |- context [Strings.HasSuffix ?a ?b] =>
      let v := eval compute in (Strings.HasSuffix a b) in change (Strings.HasSuffix a b) with v; cbn iota end;
    match goal with |- context [Strings.TrimSuffix (n ++ String " " ?u) ?u] =>
      change (n ++ String " " u) with (n ++ " " ++ u); rewrite (string_app_assoc n " " u), TrimSuffix_app end; by rewrite Hb, Hn.
Qed.

Lemma parse_unit p upper lower c m d : (upper, lower, c, m) ∈ units -> 0 < m -> Z.pos p * m <= 2 ^ 53 ->
  ParseSize (Strconv.Itoa (Z.pos p) ++ upper) d = Ok (Z.pos p * m).
Proof.
  intros Hu Hm0 Hm. destruct (Itoa_pos_digits p) as [Hd Hne]. pose proof (sized_exact p m Hm0 Hm) as Hs.
  set (n := Strconv.Itoa (Z.pos p)) in *. pose proof (proj1 (Forall_forall _ _) (unit_found n Hd Hne) _ Hu) as Hw. cbv beta iota in Hw.
  assert (Ht : token_of (n ++ upper) = (n ++ " ") ++ lower ++ String c "").
  { clear Hs Hw. revert Hd Hne. clearbody n. clear Hm0 Hm. intros Hd Hne. set_unfold in Hu.
    apply token_unit; try done; repeat destruct Hu as [[= -> -> -> ->]|Hu]; done. }
  unfold ParseSize. rewrite Ht.
  destruct (String.eqb_spec ((n ++ " ") ++ lower ++ String c "") "") as [E|_]; [by destruct n|]. by rewrite Hw.
Qed.

(** A size that is formatted is read back as the same number of bytes, up to
    the integers that floating point numbers represent. *)
Theorem size_round_trip (n d : Z) : 0 < n <= 2 ^ 53 -> ParseSize (FormatSize n) d = Ok n.
Proof.
  intros Hn. unfold FormatSize.
  assert (Hcase : forall k upper lower, (upper, lower, "b"%char, k) ∈ units -> 0 < k -> k <= n -> Z.rem n k = 0 ->
    ParseSize (Strconv.Itoa (Z.quot n k) ++ upper) d = Ok n).
  { intros k upper lower Hu Hk Hkn Hr. pose proof (Z.quot_rem n k ltac:(lia)) as Hq. rewrite Hr, Z.add_0_r in Hq.
    pose proof (Z.quot_pos n k) as Hp. assert (0 < Z.quot n k) by nia. destruct (Z.quot n k) as [|p|p] eqn:E; [lia| |lia].
    rewrite (parse_unit p upper lower "b"%char k); [by rewrite Z.mul_comm, <- Hq | done | done | lia]. }
  assert (Hu : forall i x, units !! i = Some x -> x ∈ units) by (intros i x; apply list_elem_of_lookup_2).
  destruct ((2 ^ 40 <=? n) && (Z.rem n (2 ^ 40) =? 0)) eqn:E1; [b2p; by apply (Hcase (2 ^ 40) " TB" "t" (Hu 0%nat _ eq_refl))|].
  destruct ((2 ^ 30 <=? n) && (Z.rem n (2 ^ 30) =? 0)) eqn:E2; [b2p; by apply (Hcase (2 ^ 30) " GB" "g" (Hu 1%nat _ eq_refl))|].
  destruct ((2 ^ 20 <=? n) && (Z.rem n (2 ^ 20) =? 0)) eqn:E3; [b2p; by apply (Hcase (2 ^ 20) " MB" "m" (Hu 2%nat _ eq_refl))|].
  destruct ((2 ^ 10 <=? n) && (Z.rem n (2 ^ 10) =? 0)) eqn:E4; [b2p; by apply (Hcase (2 ^ 10) " KB" "k" (Hu 3%nat _ eq_refl))|].
  clear E1 E2 E3 E4. destruct n as [|p|p]; [lia| |lia].
  rewrite (parse_unit p " B" "" "b"%char 1 d (Hu 4%nat _ eq_refl)); [by rewrite Z.mul_1_r | done | by rewrite Z.mul_1_r; destruct Hn].
Qed.
End size_facts.

(** ** Host names *)

(** golang.org/x/net/publicsuffix: the public suffix of a name and whether ICANN
    manages it. *)
Class SuffixList := { public_suffix : string -> string * bool }.

Definition devOnlyTLDs : list string :=
  ["localhost"; "test"; "example"; "invalid"; "local"; "lan"; "internal"; "home"; "localdomain"; "home.arpa"; "intranet"; "corp"; "private"].

(** Names of overlay networks. *)
Definition overlay (lower : string) : bool :=
  Strings.HasSuffix lower ".onion" || Strings.HasSuffix lower ".i2p" || Strings.HasSuffix lower ".exit".

Section hosts.
Context `{Unicode} `{SuffixList} `{PublicSuffix}.

Definition IsValidHost (host : string) (devMode : bool) (projectName : string) : bool :=
  let lower := StringsU.ToLower (StringsU.TrimSpace host) in
  let project := StringsU.ToLower projectName in
  if String.eqb lower "" then false
  else if is_some (ParseIP lower) then false
  else if String.eqb lower "localhost" then devMode
  else if negb (String.eqb projectName "") && String.eqb lower project then devMode
  else if negb (Strings.Contains lower ".") then false
  else if overlay lower then true
  else if negb (String.eqb projectName "") && Strings.HasSuffix lower ("." ++ project) then devMode
  else
    let '(suffix, icann) := public_suffix lower in
    if existsb (String.eqb suffix) devOnlyTLDs then devMode
    else if negb devMode && negb icann then false
    else match etld_plus_one lower with None => false | Some e => 0 <? strlen e end.

Definition IsValidSSLHost (host : string) : bool :=
  if Strings.HasSuffix (StringsU.ToLower host) ".onion" then false else IsValidHost host false "".

(** A host that is valid for production, for any project, is a name under a suffix
    that ICANN manages and that is not reserved for development, or a name of an
    overlay network; development mode accepts no fewer. *)
Lemma production_host host name :
  IsValidHost host false name = true ->
  let lower := StringsU.ToLower (StringsU.TrimSpace host) in
  ParseIP lower = None /\ Strings.Contains lower "." = true
  /\ (overlay lower = true
      \/ (public_suffix lower).2 = true /\ existsb (String.eqb (public_suffix lower).1) devOnlyTLDs = false
         /\ is_some (etld_plus_one lower) = true).
Proof.
  unfold IsValidHost. set (lower := StringsU.ToLower _). cbn zeta.
  destruct (String.eqb lower ""); [done|]. destruct (ParseIP lower); [done|]. cbn [is_some].
  destruct (String.eqb lower "localhost"); [done|]. destruct (_ && String.eqb lower _); [done|].
  destruct (Strings.Contains lower "."); [cbn [negb]|done]. destruct (overlay lower); [by auto|].
  destruct (_ && Strings.HasSuffix lower _); [done|]. destruct (public_suffix lower) as [suffix icann]. cbn [fst snd].
  destruct (existsb _ devOnlyTLDs); [done|]. destruct icann; [|done]. cbn [negb andb].
  destruct (etld_plus_one lower); [|done]. intros _. split; [done|]. split; [done|]. by right.
Qed.

Lemma dev_accepts_more host name : IsValidHost host false name = true -> IsValidHost host true name = true.
Proof.
  unfold IsValidHost. set (lower := StringsU.ToLower _). cbn zeta.
  destruct (String.eqb lower ""); [done|]. destruct (is_some (ParseIP lower)); [done|]. destruct (String.eqb lower "localhost"); [done|].
  destruct (negb (String.eqb name "") && String.eqb lower _); [done|]. destruct (Strings.Contains lower "."); [cbn [negb]|done].
  destruct (overlay lower); [done|]. destruct (negb (String.eqb name "") && Strings.HasSuffix lower _); [done|].
  destruct (public_suffix lower) as [suffix icann]. destruct (existsb _ devOnlyTLDs); [done|]. cbn [negb andb].
  by destruct icann.
Qed.

(** The tests of certificates refuse only the plain spelling of onion names: names
    of I2P pass, and onion names with a blank after them. *)
Lemma ssl_accepts_overlay : IsValidSSLHost "paste.i2p" = true /\ IsValidSSLHost "paste.onion " = true.
Proof. split; vm_compute; reflexivity. Qed.
End hosts.

(** ** The box (common/secretbox) *)

(** AES-256-GCM, whose nonces have twelve bytes. *)
Class AEAD := {
  gcm_seal : list Z -> list Z -> list Z -> list Z;
  gcm_open : list Z -> list Z -> list Z -> option (list Z);
}.
Class AEADLaws `{AEAD} := {
  gcm_open_seal : forall k n p, gcm_open k n (gcm_seal k n p) = Some p;
  gcm_seal_bytes : forall k n p, Forall is_byte (gcm_seal k n p);
}.

Definition nonce_size : nat := 12.
Definition ErrKeySize : string := "secretbox: key must be 32 bytes (AES-256)".
Definition ErrShortCiphertext : string := "secretbox: ciphertext too short".

Section box.
Context `{AEAD}.

(** [nonce] is what the random source gives. *)
Definition Seal (nonce : result (list Z)) (key plaintext : list Z) : result (list Z) :=
  if negb (Nat.eqb (length key) 32) then Err ErrKeySize
  else match nonce with
       | Err _ => Err "secretbox: nonce"
       | Ok n => Ok (n ++ gcm_seal key n plaintext)%list
       end.

Definition Open (key data : list Z) : result (list Z) :=
  if negb (Nat.eqb (length key) 32) then Err ErrKeySize
  else if Nat.ltb (length data) nonce_size then Err ErrShortCiphertext
  else match gcm_open key (take nonce_size data) (drop nonce_size data) with
       | Some p => Ok p
       | None => Err "secretbox: open"
       end.
End box.

Lemma Open_Seal `{AEADLaws} n key p sealed : length n = nonce_size -> Seal (Ok n) key p = Ok sealed -> Open key sealed = Ok p.
Proof.
  intros Hn. unfold Seal, Open. destruct (Nat.eqb (length key) 32); [cbn [negb]|done]. intros [= <-].
  rewrite length_app, Hn. destruct (Nat.ltb_spec (nonce_size + length (gcm_seal key n p)) nonce_size); [lia|].
  rewrite <- Hn, take_app_length, drop_app_length, gcm_open_seal. done.
Qed.

(** ** A witness: floats that are integers *)

Definition int_floats : Floats :=
  {| float := Z; ParseFloat := fun s => match Strconv.Atoi s with (n, None) => Some n | _ => None end;
     float_nonpos := fun f => f <=? 0; float_bytes := fun f m => f * m |}.

Lemma int_floats_laws : @FloatLaws int_floats.
Proof.
  constructor. intros n m Hn Hm Hb. exists n. cbn. rewrite Atoi_Itoa by (unfold in_int64, min_int64, max_int64; nia).
  split; [done|]. split; [|done]. apply Z.leb_gt. lia.
Qed.

Theorem size_round_trip_witness :
  @FloatLaws int_floats /\ 0 < 10485760 <= 2 ^ 53 /\ @ParseSize ascii_unicode int_floats (FormatSize 10485760) 0 = Ok 10485760.
Proof.
  split; [exact int_floats_laws|]. split; [lia|].
  exact (@size_round_trip int_floats int_floats_laws ascii_unicode 10485760 0 ltac:(lia)).
Defined.
