(* ===== verification/Config.v ===== *)
(** * The configuration (src/src/config/config.go)

    The settings that the functions below read or write, in one record per block
    of the file; the other settings are carried along untouched as [c_rest], those
    that differ from their defaults. The
    YAML text of a configuration is the interface [Yaml]: reading a text fills in
    the settings it has over those that are there. The environment is a function
    from names to values, empty when a variable is unset. *)

From S2P Require Import Prelude GoStr GoStrProofs GoTime GoNet GoCrypto GoToken Cron Rotate Http Proxy ConfigText FileSys.
From Stdlib Require Import Ascii.

(** ** The settings *)

Record LogFileConfig := { Filename : string; Format : string; Custom : string; Rotate : string; Keep : string }.

Record LoggingConfig := {
  Level : string; log_Access : LogFileConfig; log_Server : LogFileConfig; log_Error : LogFileConfig; log_App : LogFileConfig;
  log_Auth : LogFileConfig; log_Security : LogFileConfig; log_Debug : LogFileConfig;
}.

Record LimitsConfig := { ReadTimeout : string; WriteTimeout : string; IdleTimeout : string; MaxBodySize : Z }.
Record TermbinConfig := { tb_Enabled : bool; tb_Port : Z; tb_MaxSize : Z; tb_Timeout : string }.
Record ContactPageConfig := { Captcha : string; SuccessMessage : string }.
Record CacheSettings := { ch_Type : string; ch_URL : string; ch_Timeout : string; ch_TTL : string }.
Record ConsentConfig := {
  cs_Message : string; cs_MessageIfSold : string; cs_PolicyText : string; cs_PolicyURL : string; cs_Decline : string; cs_Accept : string;
  cs_PreferencesText : string; cs_Position : string;
}.
Record ThirdPartyService := { sp_Name : string; sp_Purpose : string; sp_DataSent : string; sp_PolicyURL : string }.
Record TrackingConfig := { tr_Type : string; tr_ID : string; tr_URL : string }.

(** A contact role; [Webhooks] has a URL under the name of a transport and its
    signing secret under that name with a suffix. *)
Record ContactRole := { Email : string; Webhooks : gmap string string }.
Record ContactConfig := { ct_Admin : ContactRole; ct_Security : ContactRole; ct_Abuse : ContactRole; ct_General : ContactRole }.

Record SMTPConfig := {
  sm_Host : string; sm_Port : Z; sm_Username : string; sm_Password : string; sm_TLS : string; sm_FromName : string; sm_FromEmail : string;
}.

Record RateLimitEndpoint := { Requests : Z; Window : Z }.
Record RateLimits := {
  rq_Enabled : bool; rq_Read : RateLimitEndpoint; rq_Write : RateLimitEndpoint; rq_Health : RateLimitEndpoint; GlobalBurst : Z;
}.

Record SecuritySettings := {
  EncryptionKey : string; ContactEmail : string; ReportURL : string; PreferredLanguages : string; PublishPGPKey : string;
}.

Record ServerSettings := {
  sv_Mode : string; sv_Port : string; sv_Address : string; sv_BaseURL : string; sv_FQDN : string; sv_Token : string;
  sv_BrandTitle : string; sv_BrandTagline : string; sv_CountryMode : string; sv_Branch : string; sv_Onion : string;
  sv_I2PEnabled : bool; sv_B32 : string; sv_TorBinary : string; sv_TorVirtualPort : Z; sv_DNSCredentials : string;
  sv_EssentialCookies : bool;
}.

Record Config := {
  c_server : ServerSettings; c_limits : LimitsConfig; c_termbin : TermbinConfig; c_contact_page : ContactPageConfig;
  c_cache : CacheSettings; c_logging : LoggingConfig; c_consent : ConsentConfig; c_tracking : TrackingConfig; c_contact : ContactConfig;
  c_smtp : SMTPConfig; c_rates : RateLimits; c_cors : Cors; c_security : SecuritySettings;
  c_db_type : string; c_db_path : string; c_site_title : string; c_theme : string;
  c_max_size : string; c_max_size_bytes : Z; c_third_party : list ThirdPartyService;
  c_first_run : bool; c_rest : list (string * string);
}.

(** ** The defaults *)

Definition default_log_file (filename format rotate : string) : LogFileConfig :=
  {| Filename := filename; Format := format; Custom := ""; Rotate := rotate; Keep := "none" |}.

Definition default_logging : LoggingConfig :=
  {| Level := "info";
     log_Access := default_log_file "access.log" "apache" "monthly"; log_Server := default_log_file "server.log" "text" "weekly,50MB";
     log_Error := default_log_file "error.log" "text" "weekly,50MB"; log_App := default_log_file "app.log" "logfmt" "weekly,50MB";
     log_Auth := default_log_file "auth.log" "syslog" "weekly,50MB"; log_Security := default_log_file "security.log" "fail2ban" "weekly,50MB";
     log_Debug := default_log_file "debug.log" "text" "weekly,50MB" |}.

Definition default_limits : LimitsConfig :=
  {| ReadTimeout := "30s"; WriteTimeout := "30s"; IdleTimeout := "120s"; MaxBodySize := Z.shiftl 10 20 |}.
Definition default_termbin : TermbinConfig := {| tb_Enabled := true; tb_Port := 9999; tb_MaxSize := 32768; tb_Timeout := "5s" |}.
Definition default_contact_page : ContactPageConfig :=
  {| Captcha := "simple"; SuccessMessage := "Thank you for your message. We'll respond soon." |}.
Definition default_cache : CacheSettings := {| ch_Type := "memory"; ch_URL := ""; ch_Timeout := "5s"; ch_TTL := "1h" |}.

Definition default_consent : ConsentConfig :=
  {| cs_Message := "In accordance with the EU GDPR law this message is being displayed. We use cookies for essential site functionality and, with your consent, for preferences and analytics. Your data is stored on our servers and is never sold.";
     cs_MessageIfSold := "In accordance with the EU GDPR law this message is being displayed. We use cookies for essential site functionality and, with your consent, for preferences and analytics. Your data may be shared with or sold to third parties as described in our Privacy Policy.";
     cs_PolicyText := "Privacy Policy"; cs_PolicyURL := "/server/privacy"; cs_Decline := "Decline"; cs_Accept := "I Agree";
     cs_PreferencesText := "Manage Preferences"; cs_Position := "bottom" |}.

Definition no_tracking : TrackingConfig := {| tr_Type := ""; tr_ID := ""; tr_URL := "" |}.

Definition role_of (email : string) : ContactRole := {| Email := email; Webhooks := ∅ |}.
Definition default_contact : ContactConfig :=
  {| ct_Admin := role_of "admin@{fqdn}"; ct_Security := role_of "security@{fqdn}"; ct_Abuse := role_of ""; ct_General := role_of "" |}.

Definition default_smtp : SMTPConfig :=
  {| sm_Host := ""; sm_Port := 587; sm_Username := ""; sm_Password := ""; sm_TLS := "auto"; sm_FromName := ""; sm_FromEmail := "" |}.
Definition default_rates : RateLimits :=
  {| rq_Enabled := true; rq_Read := {| Requests := 120; Window := 60 |}; rq_Write := {| Requests := 10; Window := 60 |};
     rq_Health := {| Requests := 120; Window := 60 |}; GlobalBurst := 240 |}.
Definition default_cors : Cors := {| AllowedOrigins := ["*"]; AllowCredentials := true; MaxAge := 86400 |}.
Definition default_security : SecuritySettings :=
  {| EncryptionKey := ""; ContactEmail := ""; ReportURL := ""; PreferredLanguages := ""; PublishPGPKey := "" |}.

Definition defaultBrandingTagline : string := "A fast, public paste sharing service — no account required.".

Definition default_server : ServerSettings :=
  {| sv_Mode := "production"; sv_Port := ""; sv_Address := "0.0.0.0"; sv_BaseURL := ""; sv_FQDN := ""; sv_Token := "";
     sv_BrandTitle := "Pastebin"; sv_BrandTagline := defaultBrandingTagline; sv_CountryMode := ""; sv_Branch := "stable"; sv_Onion := "";
     sv_I2PEnabled := false; sv_B32 := ""; sv_TorBinary := ""; sv_TorVirtualPort := 80; sv_DNSCredentials := "";
     sv_EssentialCookies := true |}.

Definition DefaultConfig : Config :=
  {| c_server := default_server; c_limits := default_limits; c_termbin := default_termbin; c_contact_page := default_contact_page;
     c_cache := default_cache; c_logging := default_logging; c_consent := default_consent; c_tracking := no_tracking;
     c_contact := default_contact; c_smtp := default_smtp; c_rates := default_rates; c_cors := default_cors; c_security := default_security;
     c_db_type := "sqlite"; c_db_path := ""; c_site_title := "Pastebin"; c_theme := "dark";
     c_max_size := "10mb"; c_max_size_bytes := Z.shiftl 10 20; c_third_party := []; c_first_run := false; c_rest := [] |}.

(** ** Validation *)

(** The value, or the default when it is blank. *)
Definition unless_blank (v def : string) : string := if String.eqb (StringsU.TrimSpace v) "" then def else v.
(** The value, or the default when a test fails. *)
Definition unless_bad {A} (good : A -> bool) (def v : A) : A := if good v then v else def.
Definition one_of (l : list string) (v : string) : bool := existsb (String.eqb v) l.

(** github.com/google/uuid: whether [uuid.Parse] accepts a text. *)
Class UuidParser := { uuid_ok : string -> bool }.

Section validation.
Context `{Unicode} `{Floats} `{StdDuration} `{UrlParser} `{UuidParser}.

(** [time.ParseDuration] succeeds with a positive duration. *)
Definition positive_duration (v : string) : bool := match ParseDuration v with Some d => 0 <? d | None => false end.

Definition rotate_ok (v : string) : bool := is_ok (ParseRotate v).
Definition keep_ok (v : string) : bool := is_ok (ParseKeep v).

Definition validateLogFile (c def : LogFileConfig) (formats : list string) : LogFileConfig :=
  let format := StringsU.ToLower (StringsU.TrimSpace (Format c)) in
  {| Filename := unless_blank (Filename c) (Filename def);
     Format := unless_bad (one_of formats) (Format def) (if String.eqb format "" then Format def else format);
     Custom := Custom c;
     Rotate := unless_bad rotate_ok (Rotate def) (unless_blank (Rotate c) (Rotate def));
     Keep := unless_bad keep_ok (Keep def) (unless_blank (Keep c) (Keep def)) |}.

Definition validate_limits (c : LimitsConfig) : LimitsConfig :=
  {| ReadTimeout := unless_bad positive_duration (ReadTimeout default_limits) (ReadTimeout c);
     WriteTimeout := unless_bad positive_duration (WriteTimeout default_limits) (WriteTimeout c);
     IdleTimeout := unless_bad positive_duration (IdleTimeout default_limits) (IdleTimeout c);
     MaxBodySize := unless_bad (Z.ltb 0) (MaxBodySize default_limits) (MaxBodySize c) |}.

Definition port_ok (p : Z) : bool := negb ((p <=? 0) || (65535 <? p)).

Definition validate_termbin (c : TermbinConfig) : TermbinConfig :=
  if tb_Enabled c then
    {| tb_Enabled := true; tb_Port := unless_bad port_ok (tb_Port default_termbin) (tb_Port c);
       tb_MaxSize := unless_bad (Z.ltb 0) (tb_MaxSize default_termbin) (tb_MaxSize c);
       tb_Timeout := unless_bad positive_duration (tb_Timeout default_termbin) (tb_Timeout c) |}
  else c.

Definition validate_contact_page (c : ContactPageConfig) : ContactPageConfig :=
  {| Captcha := unless_bad (one_of ["simple"; "recaptcha"; "hcaptcha"]) (Captcha default_contact_page) (Captcha c);
     SuccessMessage := if String.eqb (SuccessMessage c) "" then SuccessMessage default_contact_page else SuccessMessage c |}.

Definition validate_country_mode (v : string) : string :=
  unless_bad (one_of [""; "none"; "deny"; "allow"]) "" (StringsU.ToLower (StringsU.TrimSpace v)).

Definition validate_endpoint (def c : RateLimitEndpoint) : RateLimitEndpoint :=
  {| Requests := unless_bad (Z.leb 0) (Requests def) (Requests c); Window := Window c |}.

Definition validate_rates (c : RateLimits) : RateLimits :=
  {| rq_Enabled := rq_Enabled c; rq_Read := validate_endpoint (rq_Read default_rates) (rq_Read c);
     rq_Write := validate_endpoint (rq_Write default_rates) (rq_Write c);
     rq_Health := validate_endpoint (rq_Health default_rates) (rq_Health c);
     GlobalBurst := unless_bad (Z.leb 0) (GlobalBurst default_rates) (GlobalBurst c) |}.

Definition validate_max_size (v : string) : string * Z :=
  match ParseSize v (c_max_size_bytes DefaultConfig) with
  | Ok n => (v, n)
  | Err _ => (c_max_size DefaultConfig, c_max_size_bytes DefaultConfig)
  end.

Definition validate_cache (c : CacheSettings) : CacheSettings :=
  {| ch_Type := ch_Type c; ch_URL := ch_URL c;
     ch_Timeout := unless_bad positive_duration (ch_Timeout default_cache) (ch_Timeout c);
     ch_TTL := unless_bad positive_duration (ch_TTL default_cache) (ch_TTL c) |}.

Definition validate_logging (c : LoggingConfig) : LoggingConfig :=
  let d := default_logging in
  {| Level := unless_bad (one_of ["debug"; "info"; "warn"; "error"]) "info" (Level c);
     log_Access := validateLogFile (log_Access c) (log_Access d) ["apache"; "nginx"; "json"; "custom"];
     log_Server := validateLogFile (log_Server c) (log_Server d) ["text"; "json"];
     log_Error := validateLogFile (log_Error c) (log_Error d) ["text"; "json"];
     log_App := validateLogFile (log_App c) (log_App d) ["logfmt"; "json"];
     log_Auth := validateLogFile (log_Auth c) (log_Auth d) ["syslog"; "json"];
     log_Security := validateLogFile (log_Security c) (log_Security d) ["fail2ban"; "syslog"; "cef"; "json"; "text"];
     log_Debug := validateLogFile (log_Debug c) (log_Debug d) ["text"; "json"] |}.

Definition validate_consent (c : ConsentConfig) : ConsentConfig :=
  let d := default_consent in
  {| cs_Message := unless_blank (cs_Message c) (cs_Message d); cs_MessageIfSold := unless_blank (cs_MessageIfSold c) (cs_MessageIfSold d);
     cs_PolicyText := unless_blank (cs_PolicyText c) (cs_PolicyText d); cs_PolicyURL := unless_blank (cs_PolicyURL c) (cs_PolicyURL d);
     cs_Decline := unless_blank (cs_Decline c) (cs_Decline d); cs_Accept := unless_blank (cs_Accept c) (cs_Accept d);
     cs_PreferencesText := unless_blank (cs_PreferencesText c) (cs_PreferencesText d);
     cs_Position := unless_bad (one_of ["top"; "bottom"]) (cs_Position d) (cs_Position c) |}.

(** [^UA-\d+-\d+$] and [^G-[A-Z0-9]+$]. *)
Definition is_digit (c : ascii) : bool := is_some (Strconv.digit c).
Definition upper_or_digit (c : ascii) : bool := Utf8.in_rng 65 90 (byte c) || is_digit c.
Definition some_of (f : ascii -> bool) (s : string) : bool := negb (String.eqb s "") && Strings.forall_byte f s.

Definition google_id (id : string) : bool :=
  match Strings.HasPrefix id "UA-", Strings.Split (Strings.drop 3 id) "-" with
  | true, [a; b] => some_of is_digit a && some_of is_digit b
  | _, _ => Strings.HasPrefix id "G-" && some_of upper_or_digit (Strings.drop 2 id)
  end.

Definition require (b : bool) (e : string) : result unit := if b then Ok tt else Err e.
Definition non_empty (s : string) : bool := negb (String.eqb s "").
Definition integer (s : string) : bool := match Strconv.Atoi s with (_, None) => true | _ => false end.

(** What each platform asks of its identifier and address. *)
Definition platform_check (c : TrackingConfig) : result unit :=
  let t := tr_Type c in
  if String.eqb t "google" then require (google_id (tr_ID c)) "invalid Google Analytics ID format"
  else if one_of ["matomo"; "piwik"] t then
    _ ← require (integer (tr_ID c)) "matomo/piwik ID must be an integer"; require (non_empty (tr_URL c)) "matomo/piwik requires URL"
  else if String.eqb t "owa" then
    _ ← require (non_empty (tr_ID c)) "OWA requires site ID"; require (non_empty (tr_URL c)) "OWA requires URL"
  else if String.eqb t "fathom" then require (non_empty (tr_ID c)) "fathom requires site ID"
  else if String.eqb t "plausible" then require (non_empty (tr_ID c)) "plausible requires domain"
  else if String.eqb t "umami" then
    _ ← require (uuid_ok (tr_ID c)) "umami ID must be a valid UUID"; require (non_empty (tr_URL c)) "umami requires URL"
  else if String.eqb t "simple" then Ok tt
  else if String.eqb t "cloudflare" then require (non_empty (tr_ID c)) "cloudflare requires beacon token"
  else Err ("unknown tracking type: " ++ t).

Definition absolute_url (s : string) : bool :=
  match url_parse s with Some u => non_empty (u_scheme u) && non_empty (u_host u) | None => false end.

Definition ValidateTracking (c : TrackingConfig) : result unit :=
  if one_of [""; "none"] (tr_Type c) then Ok tt
  else _ ← platform_check c; require (String.eqb (tr_URL c) "" || absolute_url (tr_URL c)) "invalid tracking URL".

Definition validate_tracking (c : TrackingConfig) : TrackingConfig := if is_ok (ValidateTracking c) then c else no_tracking.

Definition validate_server (s : ServerSettings) : ServerSettings :=
  {| sv_Mode := sv_Mode s; sv_Port := sv_Port s; sv_Address := sv_Address s; sv_BaseURL := sv_BaseURL s; sv_FQDN := sv_FQDN s;
     sv_Token := sv_Token s; sv_BrandTitle := sv_BrandTitle s; sv_BrandTagline := sv_BrandTagline s;
     sv_CountryMode := validate_country_mode (sv_CountryMode s); sv_Branch := sv_Branch s; sv_Onion := sv_Onion s;
     sv_I2PEnabled := sv_I2PEnabled s; sv_B32 := sv_B32 s; sv_TorBinary := sv_TorBinary s; sv_TorVirtualPort := sv_TorVirtualPort s;
     sv_DNSCredentials := sv_DNSCredentials s; sv_EssentialCookies := true |}.

Definition Validate (c : Config) : Config :=
  {| c_server := validate_server (c_server c); c_limits := validate_limits (c_limits c); c_termbin := validate_termbin (c_termbin c);
     c_contact_page := validate_contact_page (c_contact_page c); c_cache := validate_cache (c_cache c);
     c_logging := validate_logging (c_logging c); c_consent := validate_consent (c_consent c);
     c_tracking := validate_tracking (c_tracking c); c_contact := c_contact c; c_smtp := c_smtp c;
     c_rates := validate_rates (c_rates c); c_cors := c_cors c; c_security := c_security c; c_db_type := c_db_type c; c_db_path := c_db_path c;
     c_site_title := c_site_title c; c_theme := unless_bad (one_of ["dark"; "light"; "auto"]) "dark" (c_theme c);
     c_max_size := (validate_max_size (c_max_size c)).1; c_max_size_bytes := (validate_max_size (c_max_size c)).2;
     c_third_party := c_third_party c; c_first_run := c_first_run c; c_rest := c_rest c |}.
End validation.

(** ** The environment *)

Definition Env : Type := string -> string.

(** The last of the variables that is set, or the value. *)
Definition from_env (env : Env) (names : list string) (v : string) : string :=
  foldl (fun v n => if String.eqb (env n) "" then v else env n) v names.

(** A value that is read from a variable, when it is set and can be read. *)
Definition read_env {A} (env : Env) (name : string) (read : string -> option A) (v : A) : A :=
  if String.eqb (env name) "" then v else default v (read (env name)).

Definition atoi_opt (s : string) : option Z := match Strconv.Atoi s with (n, None) => Some n | _ => None end.
Definition ok_opt {A} (r : result A) : option A := match r with Ok a => Some a | Err _ => None end.

Definition projectName : string := "pastebin".

Section environment.
Context `{Unicode} `{Floats} `{SuffixList} `{PublicSuffix}.

Definition devModeForValidation (s : ServerSettings) : bool := EqualFold (StringsU.TrimSpace (sv_Mode s)) "development".

(** The scheme of [CACHE_URL] selects the driver. *)
Definition cache_env (env : Env) (c : CacheSettings) : CacheSettings :=
  let v := env "CACHE_URL" in
  if String.eqb v "" then c
  else
    {| ch_Type := if Strings.HasPrefix v "valkey://" || Strings.HasPrefix v "valkeys://" then "valkey"
                  else if Strings.HasPrefix v "redis://" || Strings.HasPrefix v "rediss://" then "redis" else ch_Type c;
       ch_URL := v; ch_Timeout := ch_Timeout c; ch_TTL := ch_TTL c |}.

Definition size_env (env : Env) (size : string * Z) : string * Z :=
  if negb (String.eqb (env "MAX_SIZE") "") then
    match ParseSize (env "MAX_SIZE") size.2 with Ok n => (env "MAX_SIZE", n) | Err _ => size end
  else if negb (String.eqb (env "MAX_SIZE_BYTES") "") then
    match atoi_opt (env "MAX_SIZE_BYTES") with Some n => (Strconv.Itoa (Z.max n 0), Z.max n 0) | None => size end
  else size.

Definition smtp_env (env : Env) (c : SMTPConfig) : SMTPConfig :=
  {| sm_Host := from_env env ["SMTP_HOST"] (sm_Host c); sm_Port := read_env env "SMTP_PORT" atoi_opt (sm_Port c);
     sm_Username := from_env env ["SMTP_USERNAME"] (sm_Username c); sm_Password := from_env env ["SMTP_PASSWORD"] (sm_Password c);
     sm_TLS := from_env env ["SMTP_TLS"] (sm_TLS c); sm_FromName := from_env env ["SMTP_FROM_NAME"] (sm_FromName c);
     sm_FromEmail := from_env env ["SMTP_FROM_EMAIL"] (sm_FromEmail c) |}.

Definition termbin_env (env : Env) (c : TermbinConfig) : TermbinConfig :=
  {| tb_Enabled := read_env env "TERMBIN_ENABLED" (fun v => ok_opt (ParseBool v (tb_Enabled c))) (tb_Enabled c);
     tb_Port := read_env env "TERMBIN_PORT" atoi_opt (tb_Port c); tb_MaxSize := read_env env "TERMBIN_MAX_SIZE" atoi_opt (tb_MaxSize c);
     tb_Timeout := from_env env ["TERMBIN_TIMEOUT"] (tb_Timeout c) |}.

(** The mode comes first: it decides whether [DOMAIN] is valid. *)
Definition server_env (env : Env) (s : ServerSettings) : ServerSettings :=
  let mode := from_env env ["MODE"] (sv_Mode s) in
  let domain := StringsU.TrimSpace (env "DOMAIN") in
  {| sv_Mode := mode; sv_Port := from_env env ["PORT"; "PASTEBIN_PORT"] (sv_Port s);
     sv_Address := from_env env ["ADDRESS"; "LISTEN"] (sv_Address s); sv_BaseURL := from_env env ["BASE_URL"] (sv_BaseURL s);
     sv_FQDN := if non_empty domain && IsValidHost domain (EqualFold (StringsU.TrimSpace mode) "development") projectName
                then domain else sv_FQDN s;
     sv_Token := sv_Token s; sv_BrandTitle := from_env env ["APPLICATION_NAME"] (sv_BrandTitle s);
     sv_BrandTagline := from_env env ["APPLICATION_TAGLINE"] (sv_BrandTagline s); sv_CountryMode := sv_CountryMode s;
     sv_Branch := sv_Branch s; sv_Onion := sv_Onion s;
     sv_I2PEnabled := read_env env "I2P_ENABLED" (fun v => ok_opt (ParseBool v (sv_I2PEnabled s))) (sv_I2PEnabled s);
     sv_B32 := sv_B32 s; sv_TorBinary := sv_TorBinary s; sv_TorVirtualPort := sv_TorVirtualPort s;
     sv_DNSCredentials := sv_DNSCredentials s; sv_EssentialCookies := sv_EssentialCookies s |}.

Definition loadEnv (env : Env) (c : Config) : Config :=
  let size := size_env env (c_max_size c, c_max_size_bytes c) in
  {| c_server := server_env env (c_server c); c_limits := c_limits c; c_termbin := termbin_env env (c_termbin c);
     c_contact_page := c_contact_page c; c_cache := cache_env env (c_cache c); c_logging := c_logging c; c_consent := c_consent c;
     c_tracking := c_tracking c; c_contact := c_contact c; c_smtp := smtp_env env (c_smtp c); c_rates := c_rates c; c_cors := c_cors c;
     c_security := c_security c; c_db_type := from_env env ["DATABASE_DRIVER"] (c_db_type c);
     c_db_path := from_env env ["DB_PATH"; "DATABASE_URL"] (c_db_path c); c_site_title := from_env env ["SITE_TITLE"] (c_site_title c);
     c_theme := from_env env ["THEME"] (c_theme c); c_max_size := size.1; c_max_size_bytes := size.2;
     c_third_party := c_third_party c; c_first_run := c_first_run c; c_rest := c_rest c |}.
End environment.

(** ** The name of the server and its contacts

    The machine: its environment, host name, interface addresses, and the cache of
    the public address. *)

Record Machine := { mc_env : Env; mc_hostname : option string; mc_interfaces : option (list IP); mc_public : option string }.

Definition cache_public (ip : string) (m : Machine) : Machine :=
  {| mc_env := mc_env m; mc_hostname := mc_hostname m; mc_interfaces := mc_interfaces m; mc_public := Some ip |}.

Definition M (A : Type) : Type := Machine -> A * Machine.
#[export] Instance M_ret : MRet M := fun A a m => (a, m).
#[export] Instance M_bind : MBind M := fun A B f x m => let '(a, m') := x m in f a m'.

Definition public_unicast (ip : IP) : bool := IsGlobalUnicast ip && negb (IsPrivate ip).

(** The first IPv6 address, or else the first IPv4 address. *)
Fixpoint scan_addresses (v4 : string) (l : list IP) : string :=
  match l with
  | [] => v4
  | ip :: l =>
      if negb (public_unicast ip) then scan_addresses v4 l
      else match To4 ip with
           | None => IP_String ip
           | Some _ => scan_addresses (if String.eqb v4 "" then IP_String ip else v4) l
           end
  end.

Definition firstPublicIP (m : Machine) : string := match mc_interfaces m with Some l => scan_addresses "" l | None => "" end.
Definition RefreshPublicIP : M string := fun m => (firstPublicIP m, cache_public (firstPublicIP m) m).
Definition PublicIP : M string := fun m => match mc_public m with Some ip => (ip, m) | None => RefreshPublicIP m end.

Section contacts.
Context `{Unicode} `{SuffixList} `{PublicSuffix}.

Definition named (h : string) : bool := non_empty h && negb (EqualFold h "localhost").

Definition fqdn (c : Config) : M string := fun m =>
  let f := StringsU.TrimSpace (sv_FQDN (c_server c)) in
  let host := match mc_hostname m with Some h => StringsU.TrimSpace h | None => "" end in
  let h := StringsU.TrimSpace (mc_env m "HOSTNAME") in
  if named f then (f, m)
  else if named host then (host, m)
  else if named h && IsValidHost h (devModeForValidation (c_server c)) projectName then (h, m)
  else (ip ← PublicIP; mret (if non_empty ip then ip else "localhost")) m.

Definition ResolveFQDN (c : Config) : M string := fqdn c.

Definition expandFQDN (c : Config) (s : string) : M string :=
  f ← fqdn c; mret (Strings.Replace [("{fqdn}", f)] (StringsU.TrimSpace s)).

(** A contact, or another when it is not set. *)
Definition or_else (e : M string) (other : M string) : M string := e ← e; if non_empty e then mret e else other.

Definition AdminEmail (c : Config) : M string :=
  or_else (expandFQDN c (Email (ct_Admin (c_contact c)))) (f ← fqdn c; mret ("admin@" ++ f)).
Definition SecurityEmail (c : Config) : M string := or_else (expandFQDN c (Email (ct_Security (c_contact c)))) (AdminEmail c).
Definition SecurityReportEmail (c : Config) : M string :=
  or_else (expandFQDN c (StringsU.TrimSpace (ContactEmail (c_security c)))) (SecurityEmail c).
Definition GeneralEmail (c : Config) : M string := or_else (expandFQDN c (Email (ct_General (c_contact c)))) (AdminEmail c).
Definition GeneralEmailPublic (c : Config) : M string := expandFQDN c (Email (ct_General (c_contact c))).
Definition AbuseEmail (c : Config) : M string := or_else (expandFQDN c (Email (ct_Abuse (c_contact c)))) (GeneralEmail c).
Definition AbuseEmailPublic (c : Config) : M string := or_else (expandFQDN c (Email (ct_Abuse (c_contact c)))) (GeneralEmailPublic c).

Definition PublishPGPKeyEnabled (c : Config) : bool := IsTruthy (PublishPGPKey (c_security c)).
Definition SecurityReportURL (c : Config) : string :=
  unless_blank (StringsU.TrimSpace (ReportURL (c_security c))) "https://github.com/apimgr/pastebin/security/advisories/new".
Definition SecurityPreferredLanguages (c : Config) : string :=
  unless_blank (StringsU.TrimSpace (PreferredLanguages (c_security c))) "en".
End contacts.

Definition EffectiveTitle (s : ServerSettings) : string := unless_blank (StringsU.TrimSpace (sv_BrandTitle s)) "Pastebin".
Definition EffectiveTagline (s : ServerSettings) : string :=
  unless_blank (StringsU.TrimSpace (sv_BrandTagline s)) defaultBrandingTagline.

(** ** Webhooks *)

Definition webhookSecretSuffix : string := "_secret".
Definition secret_key (transport : string) : string := transport ++ webhookSecretSuffix.
Definition is_secret_key (name : string) : bool := Strings.HasSuffix name webhookSecretSuffix.

Record WebhookTarget := { Transport : string; wt_URL : string; Secret : string }.

(** An entry of a role's map, trimmed; none is the empty string. *)
Definition pick (r : ContactRole) (name : string) : string := StringsU.TrimSpace (default "" (Webhooks r !! name)).

Definition contactRole (c : ContactConfig) (role : string) : ContactRole :=
  if String.eqb role "security" then ct_Security c else if String.eqb role "abuse" then ct_Abuse c
  else if String.eqb role "general" then ct_General c else ct_Admin c.

Definition ContactWebhook (c : ContactConfig) (role transport : string) : string :=
  let v :=
    if String.eqb role "security" then pick (ct_Security c) transport
    else if String.eqb role "abuse" then
      let v := pick (ct_Abuse c) transport in if String.eqb v "" then pick (ct_General c) transport else v
    else if String.eqb role "general" then pick (ct_General c) transport
    else pick (ct_Admin c) transport in
  if non_empty v then v else pick (ct_Admin c) transport.

Definition WebhookSecret (c : ContactConfig) (role transport : string) : string :=
  let r := contactRole c role in
  if non_empty (pick r transport) then pick r (secret_key transport) else pick (ct_Admin c) (secret_key transport).

(** The order in which a map is iterated is not specified. *)
Class MapOrder := {
  map_names : gmap string string -> list string;
  map_names_spec : forall m n, n ∈ map_names m <-> is_Some (m !! n);
}.

Section webhooks.
Context `{MapOrder}.

Definition has_target (out : list WebhookTarget) (name : string) : bool := existsb (fun t => String.eqb (Transport t) name) out.

Definition add_target (c : ContactConfig) (role : string) (out : list WebhookTarget) (name : string) : list WebhookTarget :=
  let u := ContactWebhook c role name in
  if is_secret_key name || has_target out name || String.eqb (StringsU.TrimSpace u) "" then out
  else (out ++ [{| Transport := name; wt_URL := u; Secret := WebhookSecret c role name |}])%list.

Definition add_role (c : ContactConfig) (role : string) (out : list WebhookTarget) (r : ContactRole) : list WebhookTarget :=
  foldl (add_target c role) out (map_names (Webhooks r)).

Definition WebhookTargets (c : ContactConfig) (role : string) : list WebhookTarget :=
  foldl (add_role c role) []
    (contactRole c role :: (if String.eqb role "abuse" then [ct_General c] else []) ++ [ct_Admin c])%list.

(** The random source: what each read of 32 bytes gives; [None] is its failure. *)
Definition Rand : Type := list (option (list Z)).

(** One name of a role: its new map, the rest of the source and whether a secret
    was made; [None] in place of the flag is a failure. *)
Definition ensure_name (st : gmap string string * Rand * bool) (name : string) : option (gmap string string * Rand * bool) :=
  let '(m, rand, generated) := st in
  if is_secret_key name || String.eqb (StringsU.TrimSpace (default "" (m !! name))) "" then Some st
  else if negb (String.eqb (StringsU.TrimSpace (default "" (m !! secret_key name))) "") then Some st
  else match rand with
       | Some b :: rand => Some (<[secret_key name := Hex.EncodeToString b]> m, rand, true)
       | _ => None
       end.

(** The names one after the other; at a failure, the state that was reached. *)
Fixpoint ensure_names (st : gmap string string * Rand * bool) (names : list string) : bool * (gmap string string * Rand * bool) :=
  match names with
  | [] => (true, st)
  | n :: names => match ensure_name st n with Some st => ensure_names st names | None => (false, st) end
  end.

Definition ensure_role (r : ContactRole) (rand : Rand) (generated : bool) : bool * ContactRole * Rand * bool :=
  let '(ok, (m, rand, generated)) := ensure_names (Webhooks r, rand, generated) (map_names (Webhooks r)) in
  (ok, {| Email := Email r; Webhooks := m |}, rand, generated).

(** Whether it succeeded, the roles, the random source, and whether a secret was made. *)
Definition ensureWebhookSecrets (c : ContactConfig) (rand : Rand) : bool * ContactConfig * Rand * bool :=
  let '(ok, admin, rand, g) := ensure_role (ct_Admin c) rand false in
  let c := {| ct_Admin := admin; ct_Security := ct_Security c; ct_Abuse := ct_Abuse c; ct_General := ct_General c |} in
  if negb ok then (false, c, rand, g) else
  let '(ok, security, rand, g) := ensure_role (ct_Security c) rand g in
  let c := {| ct_Admin := admin; ct_Security := security; ct_Abuse := ct_Abuse c; ct_General := ct_General c |} in
  if negb ok then (false, c, rand, g) else
  let '(ok, abuse, rand, g) := ensure_role (ct_Abuse c) rand g in
  let c := {| ct_Admin := admin; ct_Security := security; ct_Abuse := abuse; ct_General := ct_General c |} in
  if negb ok then (false, c, rand, g) else
  let '(ok, general, rand, g) := ensure_role (ct_General c) rand g in
  (ok, {| ct_Admin := admin; ct_Security := security; ct_Abuse := abuse; ct_General := general |}, rand, g).
End webhooks.

(** ** Analytics *)

Definition trackingTypeNames : list (string * string) :=
  [("google", "Google Analytics"); ("matomo", "Matomo"); ("piwik", "Piwik"); ("owa", "Open Web Analytics");
   ("fathom", "Fathom Analytics"); ("plausible", "Plausible Analytics"); ("umami", "Umami"); ("simple", "Simple Analytics");
   ("cloudflare", "Cloudflare Web Analytics")].
Definition trackingPolicyURLs : list (string * string) :=
  [("google", "https://policies.google.com/privacy"); ("matomo", "https://matomo.org/privacy-policy/");
   ("piwik", "https://matomo.org/privacy-policy/"); ("fathom", "https://usefathom.com/privacy");
   ("plausible", "https://plausible.io/privacy"); ("umami", "https://umami.is/privacy");
   ("simple", "https://simpleanalytics.com/privacy"); ("cloudflare", "https://www.cloudflare.com/privacypolicy/")].

Definition assoc (l : list (string * string)) (k : string) : option string := snd <$> first (fun p => String.eqb p.1 k) l.

Definition Enabled (t : TrackingConfig) : bool := negb (one_of [""; "none"] (tr_Type t)).
Definition TypeName (t : TrackingConfig) : string := default (tr_Type t) (assoc trackingTypeNames (tr_Type t)).

Definition analyticsService (t : TrackingConfig) : option ThirdPartyService :=
  if negb (Enabled t) then None
  else Some {| sp_Name := TypeName t; sp_Purpose := "Usage analytics";
               sp_DataSent := "Page views, browser type, country (anonymized IP)";
               sp_PolicyURL := default "" (assoc trackingPolicyURLs (tr_Type t)) |}.

Definition EffectiveThirdParty (c : Config) : list ThirdPartyService :=
  match analyticsService (c_tracking c) with
  | None => c_third_party c
  | Some svc => if existsb (fun s => String.eqb (sp_Name s) (sp_Name svc)) (c_third_party c) then c_third_party c
                else svc :: c_third_party c
  end.
