(* ===== verification/ConfigProofs.v ===== *)
(** * The configuration: what validation, saving and loading guarantee *)

From S2P Require Import Prelude GoStr GoStrProofs GoTextProofs GoTime GoNet GoCrypto Cron Rotate Http Proxy ConfigText FileSys Config.
From Stdlib Require Import Ascii.

(** ** Validation *)

(** Whole numbers of seconds and hours are durations. *)
Class DurationLaws `{StdDuration} := {
  whole_seconds : forall n, 0 < n <= 3600 -> ParseDuration (Strconv.Itoa n ++ "s") = Some (n * Second);
  whole_hours : forall n, 0 < n <= 24 -> ParseDuration (Strconv.Itoa n ++ "h") = Some (n * Hour);
}.

Section validation.
Context `{Unicode} `{FloatLaws} `{DurationLaws} `{UrlParser} `{UuidParser}.

Definition not_blank (v : string) : bool := negb (String.eqb (StringsU.TrimSpace v) "").

Definition log_file_ok (formats : list string) (c : LogFileConfig) : bool :=
  not_blank (Filename c) && one_of formats (Format c) && (not_blank (Rotate c) && rotate_ok (Rotate c)) && (not_blank (Keep c) && keep_ok (Keep c)).

Definition logging_ok (c : LoggingConfig) : bool :=
  one_of ["debug"; "info"; "warn"; "error"] (Level c)
  && log_file_ok ["apache"; "nginx"; "json"; "custom"] (log_Access c) && log_file_ok ["text"; "json"] (log_Server c)
  && log_file_ok ["text"; "json"] (log_Error c) && log_file_ok ["logfmt"; "json"] (log_App c)
  && log_file_ok ["syslog"; "json"] (log_Auth c) && log_file_ok ["fail2ban"; "syslog"; "cef"; "json"; "text"] (log_Security c)
  && log_file_ok ["text"; "json"] (log_Debug c).

Definition limits_ok (c : LimitsConfig) : bool :=
  positive_duration (ReadTimeout c) && positive_duration (WriteTimeout c) && positive_duration (IdleTimeout c) && (0 <? MaxBodySize c).
Definition termbin_ok (c : TermbinConfig) : bool :=
  negb (tb_Enabled c) || (port_ok (tb_Port c) && (0 <? tb_MaxSize c) && positive_duration (tb_Timeout c)).
Definition contact_page_ok (c : ContactPageConfig) : bool :=
  one_of ["simple"; "recaptcha"; "hcaptcha"] (Captcha c) && non_empty (SuccessMessage c).
Definition rates_ok (c : RateLimits) : bool :=
  (0 <=? Requests (rq_Read c)) && (0 <=? Requests (rq_Write c)) && (0 <=? Requests (rq_Health c)) && (0 <=? GlobalBurst c).
Definition consent_ok (c : ConsentConfig) : bool :=
  not_blank (cs_Message c) && not_blank (cs_MessageIfSold c) && not_blank (cs_PolicyText c) && not_blank (cs_PolicyURL c)
  && not_blank (cs_Decline c) && not_blank (cs_Accept c) && not_blank (cs_PreferencesText c) && one_of ["top"; "bottom"] (cs_Position c).
Definition size_ok (size : string) (n : Z) : bool := 
  match ParseSize size (c_max_size_bytes DefaultConfig) with Ok m => m =? n | Err _ => false end.

(** Every setting that is checked has a value the server can use. *)
Definition config_ok (c : Config) : bool :=
  limits_ok (c_limits c) && termbin_ok (c_termbin c) && contact_page_ok (c_contact_page c)
  && one_of [""; "none"; "deny"; "allow"] (sv_CountryMode (c_server c)) && sv_EssentialCookies (c_server c)
  && one_of ["dark"; "light"; "auto"] (c_theme c) && rates_ok (c_rates c) && size_ok (c_max_size c) (c_max_size_bytes c)
  && (positive_duration (ch_Timeout (c_cache c)) && positive_duration (ch_TTL (c_cache c)))
  && logging_ok (c_logging c) && consent_ok (c_consent c) && is_ok (ValidateTracking (c_tracking c)).

(** A value that is replaced when it is bad is good, and kept when it was. *)
Lemma unless_bad_good {A} (good : A -> bool) def v : good def = true -> good (unless_bad good def v) = true.
Proof. unfold unless_bad. by destruct (good v) eqn:E. Qed.
Lemma unless_bad_keep {A} (good : A -> bool) def v : good v = true -> unless_bad good def v = v.
Proof. unfold unless_bad. by intros ->. Qed.
Lemma unless_blank_good v def : not_blank def = true -> not_blank (unless_blank v def) = true.
Proof. unfold unless_blank, not_blank. by destruct (String.eqb (StringsU.TrimSpace v) "") eqn:E; [|rewrite E]. Qed.
Lemma unless_blank_keep v def : not_blank v = true -> unless_blank v def = v.
Proof. unfold unless_blank, not_blank. by destruct (String.eqb (StringsU.TrimSpace v) ""). Qed.

Lemma positive_text s d : ParseDuration s = Some d -> 0 < d -> positive_duration s = true.
Proof. unfold positive_duration. intros -> Hd. by apply Z.ltb_lt. Qed.
Lemma default_durations : Forall (fun s => positive_duration s = true) ["30s"; "120s"; "5s"; "1h"].
Proof.
  repeat (apply Forall_cons; split); [..|by apply Forall_nil].
  - by apply (positive_text _ _ (whole_seconds 30 ltac:(lia))).
  - by apply (positive_text _ _ (whole_seconds 120 ltac:(lia))).
  - by apply (positive_text _ _ (whole_seconds 5 ltac:(lia))).
  - by apply (positive_text _ _ (whole_hours 1 ltac:(lia))).
Qed.
Lemma default_duration s : s ∈ ["30s"; "120s"; "5s"; "1h"] -> positive_duration s = true.
Proof. exact (proj1 (Forall_forall _ _) default_durations s). Qed.

Lemma default_size : ParseSize "10mb" (Z.shiftl 10 20) = Ok (Z.shiftl 10 20).
Proof. change (ParseSize "10mb" (Z.shiftl 10 20)) with (sized (Strconv.Itoa 10) (2 ^ 20)). by rewrite sized_exact. Qed.

(** The words of the configuration are in lower case and without blanks. *)
Definition normal (v : string) : bool := String.eqb (StringsU.ToLower (StringsU.TrimSpace v)) v.
Lemma one_of_normal l v : forallb normal l = true -> one_of l v = true -> StringsU.ToLower (StringsU.TrimSpace v) = v.
Proof.
  intros Hl (x & Hx & ->%String.eqb_eq)%existsb_exists. rewrite forallb_forall in Hl. by apply String.eqb_eq, Hl.
Qed.

Lemma log_file_valid formats def c : log_file_ok formats def = true -> log_file_ok formats (validateLogFile c def formats) = true.
Proof.
  unfold log_file_ok, validateLogFile. intros [[[Hf Hm]%andb_prop [Hr Hr']%andb_prop]%andb_prop [Hk Hk']%andb_prop]%andb_prop.
  cbn [Filename Format Rotate Keep]. rewrite unless_blank_good, !unless_bad_good by done. unfold unless_bad.
  destruct (rotate_ok (unless_blank _ _)); [rewrite unless_blank_good by done | rewrite Hr];
    (destruct (keep_ok (unless_blank _ _)); [by rewrite unless_blank_good | by rewrite Hk]).
Qed.

Lemma log_file_kept formats def c : forallb normal formats = true -> one_of formats "" = false ->
  log_file_ok formats c = true -> validateLogFile c def formats = c.
Proof.
  unfold log_file_ok, validateLogFile. intros Hf He [[[Hn Hm]%andb_prop [Hr Hr']%andb_prop]%andb_prop [Hk Hk']%andb_prop]%andb_prop.
  rewrite (one_of_normal formats (Format c)) by done.
  destruct (String.eqb_spec (Format c) "") as [E|_]; [congruence|]. rewrite !unless_blank_keep by done.
  rewrite !unless_bad_keep by done. by destruct c.
Qed.

Lemma logging_valid c : logging_ok (validate_logging c) = true.
Proof.
  unfold logging_ok, validate_logging. cbn [Level log_Access log_Server log_Error log_App log_Auth log_Security log_Debug].
  rewrite !andb_true_iff. repeat split; first [by apply unless_bad_good | by apply log_file_valid].
Qed.

Lemma logging_kept c : logging_ok c = true -> validate_logging c = c.
Proof.
  unfold logging_ok, validate_logging. intros Hc. b2p. rewrite unless_bad_keep by done. rewrite !log_file_kept by done. by destruct c.
Qed.

Lemma tracking_valid c : is_ok (ValidateTracking (validate_tracking c)) = true.
Proof. unfold validate_tracking. by destruct (is_ok (ValidateTracking c)) eqn:E. Qed.

Lemma size_valid v : size_ok (validate_max_size v).1 (validate_max_size v).2 = true.
Proof.
  unfold size_ok, validate_max_size. destruct (ParseSize v _) eqn:E; cbn [fst snd]; [by rewrite E, Z.eqb_refl|].
  change (c_max_size DefaultConfig) with "10mb". change (c_max_size_bytes DefaultConfig) with (Z.shiftl 10 20). by rewrite default_size, Z.eqb_refl.
Qed.
Lemma size_kept v n : size_ok v n = true -> validate_max_size v = (v, n).
Proof. unfold size_ok, validate_max_size. destruct (ParseSize v _); [by intros ->%Z.eqb_eq | done]. Qed.

(** Each block, valid after its validation and kept when it is. *)
Ltac block_valid := cbn beta iota delta [andb]; rewrite ?unless_bad_good, ?unless_blank_good by (done || by apply default_duration; set_solver);
  try done.
Ltac block_kept := b2p; rewrite ?unless_bad_keep, ?unless_blank_keep by (done || by apply Z.ltb_lt || by apply Z.leb_le).

Lemma limits_settle c : limits_ok (validate_limits c) = true /\ (limits_ok c = true -> validate_limits c = c).
Proof.
  unfold limits_ok, validate_limits. cbn [ReadTimeout WriteTimeout IdleTimeout MaxBodySize]. split; [block_valid|].
  intros Hc. block_kept. by destruct c.
Qed.

Lemma termbin_settle c : termbin_ok (validate_termbin c) = true /\ (termbin_ok c = true -> validate_termbin c = c).
Proof.
  unfold termbin_ok, validate_termbin. destruct (tb_Enabled c) eqn:E; [|by rewrite E]. cbn [tb_Enabled tb_Port tb_MaxSize tb_Timeout negb orb].
  split; [block_valid|]. intros Hc. block_kept. destruct c; cbn in *. by subst.
Qed.

Lemma contact_page_settle c : contact_page_ok (validate_contact_page c) = true /\ (contact_page_ok c = true -> validate_contact_page c = c).
Proof.
  unfold contact_page_ok, validate_contact_page, non_empty. cbn [Captcha SuccessMessage]. split.
  - rewrite unless_bad_good by done. by destruct (String.eqb (SuccessMessage c) "") eqn:E; [|rewrite E].
  - intros [Hc Hs]%andb_prop. rewrite unless_bad_keep by done. destruct (String.eqb (SuccessMessage c) ""); [done|]. by destruct c.
Qed.

Lemma rates_settle c : rates_ok (validate_rates c) = true /\ (rates_ok c = true -> validate_rates c = c).
Proof.
  unfold rates_ok, validate_rates, validate_endpoint. cbn [rq_Read rq_Write rq_Health GlobalBurst Requests Window]. split; [block_valid|].
  intros Hc. block_kept. by destruct c as [? [] [] [] ?].
Qed.

Lemma consent_settle c : consent_ok (validate_consent c) = true /\ (consent_ok c = true -> validate_consent c = c).
Proof.
  unfold consent_ok, validate_consent.
  cbn [cs_Message cs_MessageIfSold cs_PolicyText cs_PolicyURL cs_Decline cs_Accept cs_PreferencesText cs_Position]. split; [block_valid|].
  intros Hc. block_kept. by destruct c.
Qed.

Lemma cache_settle c : (positive_duration (ch_Timeout (validate_cache c)) && positive_duration (ch_TTL (validate_cache c)) = true)
  /\ (positive_duration (ch_Timeout c) && positive_duration (ch_TTL c) = true -> validate_cache c = c).
Proof.
  unfold validate_cache. cbn [ch_Timeout ch_TTL]. split; [block_valid|]. intros Hc. block_kept. by destruct c.
Qed.

Lemma server_settle s : (one_of [""; "none"; "deny"; "allow"] (sv_CountryMode (validate_server s)) && sv_EssentialCookies (validate_server s) = true)
  /\ (one_of [""; "none"; "deny"; "allow"] (sv_CountryMode s) = true -> sv_EssentialCookies s = true -> validate_server s = s).
Proof.
  unfold validate_server, validate_country_mode. cbn [sv_CountryMode sv_EssentialCookies]. split; [by rewrite unless_bad_good|].
  intros Hm He. rewrite (one_of_normal [""; "none"; "deny"; "allow"] _ eq_refl Hm), unless_bad_keep by done. destruct s; cbn in *. by subst.
Qed.

Lemma Validate_settle (c : Config) : config_ok (Validate c) = true /\ (config_ok c = true -> Validate c = c).
Proof.
  destruct (limits_settle (c_limits c)) as [L1 L2], (termbin_settle (c_termbin c)) as [T1 T2], (contact_page_settle (c_contact_page c)) as [P1 P2],
    (rates_settle (c_rates c)) as [R1 R2], (consent_settle (c_consent c)) as [C1 C2], (cache_settle (c_cache c)) as [H1' H2'],
    (server_settle (c_server c)) as [S1 S2].
  pose proof (logging_valid (c_logging c)) as G1. pose proof (tracking_valid (c_tracking c)) as K1. pose proof (size_valid (c_max_size c)) as Z1.
  apply andb_prop in S1 as [S1 S1'].
  unfold config_ok, Validate. cbn [c_limits c_termbin c_contact_page c_server c_theme c_rates c_max_size c_max_size_bytes c_cache c_logging c_consent c_tracking].
  split; [rewrite L1, T1, P1, S1, S1', R1, Z1, H1', G1, C1, K1, unless_bad_good by done; done|].
  rewrite !andb_true_iff. intros [[[[[[[[[[[Hl Ht] Hp] Hm] He] Hth] Hr] Hz] Hc] Hg] Hs] Hk].
  rewrite L2, T2, P2, S2, R2, C2, H2', (logging_kept _ Hg), (size_kept _ _ Hz), unless_bad_keep by (done || by rewrite andb_true_iff).
  unfold validate_tracking. rewrite Hk. cbn [fst snd]. by destruct c.
Qed.

(** *** The values that are left, stated apart from the checks *)

Definition positive (v : string) : Prop := exists d, ParseDuration v = Some d /\ 0 < d.
Definition blank (v : string) : Prop := StringsU.TrimSpace v = "".
Definition interval (v : string) : Prop := v ∈ ["daily"; "weekly"; "monthly"; "yearly"].

(** A rotation that can be read: never, or intervals and sizes (a positive number of
    megabytes or gigabytes) with commas between. *)
Definition rotation (v : string) : Prop :=
  let t := StringsU.TrimSpace (StringsU.ToLower v) in
  t = "" \/ t = "never"
  \/ Forall (fun tok => interval (StringsU.TrimSpace tok)
       \/ exists n unit k, StringsU.TrimSpace tok = n ++ unit /\ unit ∈ ["mb"; "gb"] /\ Strconv.ParseInt (StringsU.TrimSpace n) = (k, None) /\ 0 < k)
     (Strings.Split t ",").

(** A retention that can be read: none, forever, a number of files (after an interval and
    a colon perhaps), or a positive number of days, weeks or months. *)
Definition retention (v : string) : Prop :=
  let t := StringsU.TrimSpace (StringsU.ToLower v) in
  t ∈ [""; "none"; "forever"]
  \/ (exists n, Strconv.Atoi t = (n, None) /\ 0 <= n)
  \/ (exists i r n, t = i ++ ":" ++ r /\ interval i /\ Strconv.Atoi r = (n, None) /\ 0 <= n)
  \/ (exists r unit n, t = r ++ unit /\ unit ∈ ["d"; "w"; "m"] /\ Strconv.Atoi r = (n, None) /\ 0 < n).

Definition log_settled (formats : list string) (c : LogFileConfig) : Prop :=
  ~ blank (Filename c) /\ Format c ∈ formats /\ rotation (Rotate c) /\ retention (Keep c).

Definition digits (s : string) : Prop := s <> "" /\ Strings.forall_byte is_digit s = true.

(** What an analytics platform needs. *)
Definition tracking_settled (c : TrackingConfig) : Prop :=
  tr_Type c ∈ [""; "none"]
  \/ ((tr_URL c = "" \/ absolute_url (tr_URL c) = true)
      /\ ((tr_Type c = "google" /\ ((exists x y, tr_ID c = "UA-" ++ x ++ "-" ++ y /\ digits x /\ digits y)
                                  \/ exists x, tr_ID c = "G-" ++ x /\ x <> "" /\ Strings.forall_byte upper_or_digit x = true))
          \/ (tr_Type c ∈ ["matomo"; "piwik"] /\ (exists n, Strconv.Atoi (tr_ID c) = (n, None)) /\ tr_URL c <> "")
          \/ (tr_Type c = "owa" /\ tr_ID c <> "" /\ tr_URL c <> "")
          \/ (tr_Type c ∈ ["fathom"; "plausible"; "cloudflare"] /\ tr_ID c <> "")
          \/ (tr_Type c = "umami" /\ uuid_ok (tr_ID c) = true /\ tr_URL c <> "")
          \/ tr_Type c = "simple")).

Record settled (c : Config) : Prop := {
  st_timeouts : positive (ReadTimeout (c_limits c)) /\ positive (WriteTimeout (c_limits c)) /\ positive (IdleTimeout (c_limits c));
  st_body : 0 < MaxBodySize (c_limits c);
  st_termbin : tb_Enabled (c_termbin c) = true ->
    1 <= tb_Port (c_termbin c) <= 65535 /\ 0 < tb_MaxSize (c_termbin c) /\ positive (tb_Timeout (c_termbin c));
  st_contact : Captcha (c_contact_page c) ∈ ["simple"; "recaptcha"; "hcaptcha"] /\ SuccessMessage (c_contact_page c) <> "";
  st_country : sv_CountryMode (c_server c) ∈ [""; "none"; "deny"; "allow"];
  st_cookies : sv_EssentialCookies (c_server c) = true;
  st_theme : c_theme c ∈ ["dark"; "light"; "auto"];
  st_rates : 0 <= Requests (rq_Read (c_rates c)) /\ 0 <= Requests (rq_Write (c_rates c)) /\ 0 <= Requests (rq_Health (c_rates c))
             /\ 0 <= GlobalBurst (c_rates c);
  st_size : ParseSize (c_max_size c) (Z.shiftl 10 20) = Ok (c_max_size_bytes c);
  st_cache : positive (ch_Timeout (c_cache c)) /\ positive (ch_TTL (c_cache c));
  st_level : Level (c_logging c) ∈ ["debug"; "info"; "warn"; "error"];
  st_logs : log_settled ["apache"; "nginx"; "json"; "custom"] (log_Access (c_logging c)) /\ log_settled ["text"; "json"] (log_Server (c_logging c))
    /\ log_settled ["text"; "json"] (log_Error (c_logging c)) /\ log_settled ["logfmt"; "json"] (log_App (c_logging c))
    /\ log_settled ["syslog"; "json"] (log_Auth (c_logging c))
    /\ log_settled ["fail2ban"; "syslog"; "cef"; "json"; "text"] (log_Security (c_logging c)) /\ log_settled ["text"; "json"] (log_Debug (c_logging c));
  st_consent : ~ blank (cs_Message (c_consent c)) /\ ~ blank (cs_MessageIfSold (c_consent c)) /\ ~ blank (cs_PolicyText (c_consent c))
    /\ ~ blank (cs_PolicyURL (c_consent c)) /\ ~ blank (cs_Decline (c_consent c)) /\ ~ blank (cs_Accept (c_consent c))
    /\ ~ blank (cs_PreferencesText (c_consent c)) /\ cs_Position (c_consent c) ∈ ["top"; "bottom"];
  st_tracking : tracking_settled (c_tracking c);
}.

(** The settings that are not checked. *)
Definition unchecked (c : Config) :=
  let s := c_server c in
  ((sv_Mode s, sv_Port s, sv_Address s, sv_BaseURL s, sv_FQDN s, sv_Token s, sv_BrandTitle s, sv_BrandTagline s, sv_Branch s, sv_Onion s),
   (sv_I2PEnabled s, sv_B32 s, sv_TorBinary s, sv_TorVirtualPort s, sv_DNSCredentials s, tb_Enabled (c_termbin c), ch_Type (c_cache c), ch_URL (c_cache c)),
   (c_contact c, c_smtp c, rq_Enabled (c_rates c), Window (rq_Read (c_rates c)), Window (rq_Write (c_rates c)), Window (rq_Health (c_rates c))),
   (c_cors c, c_security c, c_db_type c, c_db_path c, c_site_title c, c_third_party c, c_first_run c, c_rest c),
   (Custom (log_Access (c_logging c)), Custom (log_Server (c_logging c)), Custom (log_Error (c_logging c)), Custom (log_App (c_logging c)),
    Custom (log_Auth (c_logging c)), Custom (log_Security (c_logging c)), Custom (log_Debug (c_logging c)))).

Lemma positive_iff v : positive_duration v = true <-> positive v.
Proof.
  unfold positive_duration, positive. destruct (ParseDuration v) as [d|]; [|split; [done|by intros (? & ? & _)]].
  rewrite Z.ltb_lt. split; [by exists d|by intros (? & [= <-] & ?)].
Qed.
Lemma one_of_iff l v : one_of l v = true <-> v ∈ l.
Proof.
  unfold one_of. rewrite existsb_exists. split; [intros (x & Hx & ->%String.eqb_eq); by apply list_elem_of_In|].
  intros Hx. exists v. split; [by apply list_elem_of_In|apply String.eqb_refl].
Qed.
Lemma not_blank_iff v : not_blank v = true <-> ~ blank v.
Proof. unfold not_blank, blank. by rewrite negb_true_iff, String.eqb_neq. Qed.
Lemma non_empty_iff v : non_empty v = true <-> v <> "".
Proof. unfold non_empty. by rewrite negb_true_iff, String.eqb_neq. Qed.
Lemma is_interval_iff v : is_interval v = true <-> interval v.
Proof. unfold is_interval, interval. rewrite !orb_true_iff, !String.eqb_eq, !elem_of_cons, elem_of_nil. tauto. Qed.

Lemma size_text tok n unit : parseSize tok = Ok (n, unit) ->
  exists d u k, tok = d ++ u /\ u ∈ ["mb"; "gb"] /\ Strconv.ParseInt (StringsU.TrimSpace d) = (k, None) /\ 0 < k.
Proof.
  assert (Hs : forall suf m, Strings.HasSuffix tok suf = true -> size_suffix tok suf m = Ok (n, unit) ->
    exists d k, tok = d ++ suf /\ Strconv.ParseInt (StringsU.TrimSpace d) = (k, None) /\ 0 < k).
  { intros suf m [d ->]%HasSuffix_spec. unfold size_suffix. rewrite TrimSuffix_app.
    destruct (Strconv.ParseInt (StringsU.TrimSpace d)) as [k [e|]] eqn:E; [done|]. destruct (k <=? 0) eqn:Ek; [done|]. intros _. exists d, k.
    split; [done|]. split; [done|]. lia. }
  unfold parseSize. destruct (Strings.HasSuffix tok "mb") eqn:E1; [intros (d & k & ? & ? & ?)%(Hs _ _ E1); exists d, "mb", k; split; [done|]; split; [by left|done]|].
  destruct (Strings.HasSuffix tok "gb") eqn:E2; [|done]. intros (d & k & ? & ? & ?)%(Hs _ _ E2). exists d, "gb", k. split; [done|]. split; [by right; left|done].
Qed.

Lemma rotation_read v : rotate_ok v = true -> rotation v.
Proof.
  unfold rotate_ok, rotation, ParseRotate. cbv zeta. set (t := StringsU.TrimSpace _). clearbody t.
  destruct (String.eqb_spec t ""); [auto|]. destruct (String.eqb_spec t "never"); [auto|]. cbn [orb]. intros Hr. right. right.
  revert Hr. generalize never. generalize (Strings.Split t ","). intros l. induction l as [|tok l IH]; intros p; [done|]. cbn [rotate_tokens].
  destruct (rotate_token t tok p) as [p'|e] eqn:E; [|done]. intros Hl. apply Forall_cons. split; [|by apply (IH p')]. clear -E.
  unfold rotate_token in E. cbv zeta in E. destruct (is_interval (StringsU.TrimSpace tok)) eqn:Ei; [left; by apply is_interval_iff|right].
  destruct (_ || _); [done|]. destruct (parseSize (StringsU.TrimSpace tok)) as [[k unit]|e] eqn:Es; [|done]. by apply size_text in Es.
Qed.

Lemma age_text s r : keep_age s = Some r -> is_ok r = true ->
  exists d unit n, s = d ++ unit /\ unit ∈ ["d"; "w"; "m"] /\ Strconv.Atoi d = (n, None) /\ 0 < n.
Proof.
  unfold keep_age. destruct (1 <? strlen s) eqn:El; [|done]. destruct (string_snoc s) as (x & c & ->); [by intros ->|].
  unfold last_byte. rewrite string_app_length. cbn [String.length]. rewrite Nat.add_sub.
  assert (Hg : String.get (String.length x) (x ++ String c "") = Some c) by (clear; induction x as [|d x IH]; [done|exact IH]).
  rewrite Hg, take_app. cbn [mbind option_bind]. unfold age_unit. intros Hu Hok.
  assert (Hx : String c "" ∈ ["d"; "w"; "m"]).
  { destruct (Ascii.eqb_spec c "d") as [->|]; [by left|]. destruct (Ascii.eqb_spec c "w") as [->|]; [by right; left|].
    destruct (Ascii.eqb_spec c "m") as [->|]; [by right; right; left|done]. }
  assert (Hn : exists n, Strconv.Atoi x = (n, None) /\ 0 < n).
  { destruct (if Ascii.eqb c "d" then _ else _) as [mult|]; [|done]. cbn [mbind option_bind] in Hu. injection Hu as <-.
    destruct (Strconv.Atoi x) as [n [e|]]; [done|]. destruct (n <=? 0) eqn:En; [done|]. exists n. split; [done|]. lia. }
  destruct Hn as (n & Hn & Hp). by exists x, (String c ""), n.
Qed.

Lemma retention_read v : keep_ok v = true -> retention v.
Proof.
  unfold keep_ok, retention, ParseKeep. cbv zeta. set (t := StringsU.TrimSpace _). clearbody t.
  destruct (String.eqb_spec t "") as [->|]; [intros _; left; by left|]. destruct (String.eqb_spec t "none") as [->|]; [intros _; left; by right; left|].
  cbn [orb]. destruct (String.eqb_spec t "forever") as [->|]; [intros _; left; by right; right; left|].
  assert (Hrest : is_ok (match keep_age t with Some r => r | None => keep_count t end) = true ->
    (exists n, Strconv.Atoi t = (n, None) /\ 0 <= n) \/ (exists r unit n, t = r ++ unit /\ unit ∈ ["d"; "w"; "m"] /\ Strconv.Atoi r = (n, None) /\ 0 < n)).
  { destruct (keep_age t) as [r|] eqn:Ea; [intros Hok; right; by eapply age_text|]. unfold keep_count.
    destruct (Strconv.Atoi t) as [k [e|]]; [done|]. destruct (k <? 0) eqn:Ek; [done|]. left. exists k. split; [done|]. lia. }
  destruct (cut_first t ":") as [->|(i & r & -> & Hi & ->)]; [intros Hok; destruct (Hrest Hok); auto|].
  destruct i as [|c i]; [intros Hok; destruct (Hrest Hok); auto|]. cbn [String.length]. unfold keep_prefixed.
  replace (S (String.length i) + 1)%nat with (S (String.length (String c i))) by (cbn; lia). rewrite drop_past.
  change (S (String.length i)) with (String.length (String c i)). rewrite take_app.
  destruct (Strconv.Atoi r) as [k [e|]] eqn:Ek; [done|]. destruct (k <? 0) eqn:Hk; [done|]. destruct (is_interval (String c i)) eqn:Ev; [|done].
  intros _. right. right. left. exists (String c i), r, k. split; [done|]. split; [by apply is_interval_iff|]. split; [done|]. lia.
Qed.

Lemma log_file_settled formats c : log_file_ok formats c = true -> log_settled formats c.
Proof.
  unfold log_file_ok, log_settled. rewrite !andb_true_iff, not_blank_iff, one_of_iff. intros [[[Hn Hf] [_ Hr]] [_ Hk]].
  split_and!; [done|done|by apply rotation_read|by apply retention_read].
Qed.

Lemma google_read id : google_id id = true ->
  (exists x y, id = "UA-" ++ x ++ "-" ++ y /\ digits x /\ digits y) \/ exists x, id = "G-" ++ x /\ x <> "" /\ Strings.forall_byte upper_or_digit x = true.
Proof.
  assert (Hs : forall f s, some_of f s = true -> s <> "" /\ Strings.forall_byte f s = true).
  { intros f s. unfold some_of. intros [K1 K2]%andb_true_iff. by apply negb_true_iff, String.eqb_neq in K1. }
  assert (Hg : Strings.HasPrefix id "G-" && some_of upper_or_digit (Strings.drop 2 id) = true ->
    exists x, id = "G-" ++ x /\ x <> "" /\ Strings.forall_byte upper_or_digit x = true).
  { intros [[x ->]%prefix_spec Hx]%andb_true_iff. exists x. split; [done|]. change 2%nat with (String.length "G-") in Hx. rewrite drop_app in Hx. by apply Hs. }
  unfold google_id. destruct (Strings.HasPrefix id "UA-") eqn:Ep; [|by right; apply Hg].
  destruct (Strings.Split (Strings.drop 3 id) "-") as [|x [|y [|? ?]]] eqn:Es; try (by right; apply Hg).
  intros [Hx Hy]%andb_true_iff. left. exists x, y. apply prefix_spec in Ep as [t ->]. change 3%nat with (String.length "UA-") in Es. rewrite drop_app in Es.
  split; [|by split; apply Hs]. do 3 f_equal. apply (f_equal (fun l => Strings.Join l "-")) in Es. cbn [Strings.Join] in Es.
  rewrite <- Es. symmetry. apply Join_Split.
Qed.

Lemma tracking_read c : is_ok (ValidateTracking c) = true -> tracking_settled c.
Proof.
  unfold ValidateTracking, tracking_settled. destruct (one_of [""; "none"] (tr_Type c)) eqn:E0; [left; by apply one_of_iff|].
  destruct (platform_check c) as [u|e] eqn:Ep; [|done]. cbn. unfold require at 1. destruct (String.eqb (tr_URL c) "" || _) eqn:Eu; [|done]. intros _. right.
  split; [by apply orb_true_iff in Eu as [?%String.eqb_eq|?]; auto|]. unfold platform_check in Ep. cbv zeta in Ep. unfold require in Ep.
  destruct (String.eqb_spec (tr_Type c) "google") as [->|_]; [left; split; [done|]; destruct (google_id (tr_ID c)) eqn:Eg; [by apply google_read|done]|right].
  destruct (one_of ["matomo"; "piwik"] (tr_Type c)) eqn:Em.
  { left. apply one_of_iff in Em. split; [done|]. unfold integer in Ep. destruct (Strconv.Atoi (tr_ID c)) as [n [e|]]; [done|]. cbn in Ep.
    split; [by exists n|]. apply non_empty_iff. by destruct (non_empty (tr_URL c)). }
  right. destruct (String.eqb_spec (tr_Type c) "owa") as [->|_].
  { left. rewrite <- !non_empty_iff. destruct (non_empty (tr_ID c)), (non_empty (tr_URL c)); done. }
  right. destruct (String.eqb_spec (tr_Type c) "fathom") as [->|_].
  { left. rewrite <- non_empty_iff. destruct (non_empty (tr_ID c)); [|done]. split; [by left|done]. }
  destruct (String.eqb_spec (tr_Type c) "plausible") as [->|_].
  { left. rewrite <- non_empty_iff. destruct (non_empty (tr_ID c)); [|done]. split; [by right; left|done]. }
  destruct (String.eqb_spec (tr_Type c) "umami") as [->|_].
  { right. left. rewrite <- non_empty_iff. destruct (uuid_ok (tr_ID c)), (non_empty (tr_URL c)); done. }
  destruct (String.eqb_spec (tr_Type c) "simple") as [->|_]; [auto|].
  destruct (String.eqb_spec (tr_Type c) "cloudflare") as [->|_]; [|done].
  left. rewrite <- non_empty_iff. destruct (non_empty (tr_ID c)); [|done]. split; [by right; right; left|done].
Qed.

Lemma config_settled c : config_ok c = true -> settled c.
Proof.
  unfold config_ok, limits_ok, termbin_ok, contact_page_ok, rates_ok, consent_ok, logging_ok, size_ok, port_ok.
  rewrite !andb_true_iff, !positive_iff, !one_of_iff, !not_blank_iff, !Z.ltb_lt, !Z.leb_le, non_empty_iff. intros Hc. destruct_and!. split; try done.
  - intros He. rewrite He in *. cbn [negb orb] in *. b2p. rewrite positive_iff in *. split; [lia|]. split; [lia|done].
  - destruct (ParseSize (c_max_size c) (c_max_size_bytes DefaultConfig)) as [n|e] eqn:Es; [|done]. b2p. subst n. exact Es.
  - split_and!; by apply log_file_settled.
  - by apply tracking_read.
Qed.

(** C25 — What validation leaves, whatever the file and the environment say: every setting
    that it checks has a usable value (the timeouts and the size of bodies are positive,
    an enabled termbin listener has a port, the modes, themes and formats are known words,
    no rate is negative, the size limit is the one that its text means, the rotations and
    retentions of the logs can be read, no text of the consent is blank, the analytics have
    what their platform needs).  The settings that it does not check stay as they are.  A
    configuration whose checked settings all pass is not changed, so that a second
    validation does nothing.  (That a retention can be read does not bound it: see
    [RotateProofs.keep_age_overflow].) *)
Theorem validate_settles (c : Config) :
  settled (Validate c) /\ unchecked (Validate c) = unchecked c /\ (config_ok c = true -> Validate c = c) /\ Validate (Validate c) = Validate c.
Proof.
  destruct (Validate_settle c) as [Hok Hkeep]. split; [by apply config_settled|]. split; [|split; [exact Hkeep|exact (proj2 (Validate_settle (Validate c)) Hok)]].
  unfold unchecked, Validate. cbn. unfold validate_termbin. destruct (tb_Enabled (c_termbin c)) eqn:E; cbn; by rewrite ?E.
Qed.
End validation.

(** *** A witness *)

Definition whole_units (s : string) : option Z :=
  if Strings.HasSuffix s "s" then n ← atoi_opt (Strings.TrimSuffix s "s"); Some (n * Second)
  else if Strings.HasSuffix s "h" then n ← atoi_opt (Strings.TrimSuffix s "h"); Some (n * Hour)
  else None.
Definition whole_durations : StdDuration := {| ParseDuration := whole_units |}.

Lemma whole_durations_laws : @DurationLaws whole_durations.
Proof.
  assert (Ha : forall n, 0 < n <= 3600 -> atoi_opt (Strconv.Itoa n) = Some n)
    by (intros n Hn; unfold atoi_opt; by rewrite Atoi_Itoa by (unfold in_int64, min_int64, max_int64; lia)).
  constructor; intros n Hn; cbn [ParseDuration whole_durations]; unfold whole_units.
  - rewrite HasSuffix_app, TrimSuffix_app, Ha by lia. done.
  - rewrite (HasSuffix_app_short _ "h" "s"), HasSuffix_app, TrimSuffix_app, Ha by (cbn; lia). done.
Qed.

Definition url_none : UrlParser := {| url_parse := fun _ => None |}.
Definition uuid_none : UuidParser := {| uuid_ok := fun _ => false |}.

(** A configuration with a bad timeout and an unknown theme. *)
Definition odd_config : Config :=
  {| c_server := default_server; c_limits := {| ReadTimeout := "soon"; WriteTimeout := "30s"; IdleTimeout := "120s"; MaxBodySize := -1 |};
     c_termbin := default_termbin; c_contact_page := default_contact_page;
     c_cache := default_cache; c_logging := default_logging; c_consent := default_consent; c_tracking := no_tracking;
     c_contact := default_contact; c_smtp := default_smtp; c_rates := default_rates; c_cors := default_cors; c_security := default_security;
     c_db_type := "sqlite"; c_db_path := ""; c_site_title := "Notes"; c_theme := "pink";
     c_max_size := "10mb"; c_max_size_bytes := 5; c_third_party := []; c_first_run := false; c_rest := [] |}.

Theorem validate_settles_witness :
  @FloatLaws int_floats /\ @DurationLaws whole_durations
  /\ let c := @Validate ascii_unicode int_floats whole_durations url_none uuid_none odd_config in
     @settled ascii_unicode int_floats whole_durations url_none uuid_none c
     /\ (ReadTimeout (c_limits c), MaxBodySize (c_limits c), c_theme c, c_site_title c, c_max_size_bytes c) = ("30s", 10485760, "dark", "Notes", 10485760).
Proof.
  split; [exact int_floats_laws|]. split; [exact whole_durations_laws|]. cbv zeta. split; [|vm_compute; reflexivity].
  exact (proj1 (@validate_settles ascii_unicode int_floats int_floats_laws whole_durations whole_durations_laws url_none uuid_none odd_config)).
Defined.

(** ** The size from the environment *)

(** A number of bytes from [MAX_SIZE_BYTES] is in effect until the next validation,
    which reads it as a number of megabytes. *)
Lemma max_size_bytes_is_megabytes `{Unicode} `{FloatLaws} env p :
  env "MAX_SIZE" = "" -> env "MAX_SIZE_BYTES" = Strconv.Itoa (Z.pos p) -> Z.pos p * 2 ^ 20 <= 2 ^ 53 ->
  forall size, (size_env env size).2 = Z.pos p /\ (validate_max_size (size_env env size).1).2 = Z.pos p * 2 ^ 20.
Proof.
  intros E1 E2 Hp size. destruct (Itoa_pos_digits p) as [Hd Hne].
  assert (Hz : size_env env size = (Strconv.Itoa (Z.pos p), Z.pos p)).
  { unfold size_env, atoi_opt. rewrite E1, E2. apply String.eqb_neq in Hne. rewrite Hne. cbn [negb String.eqb].
    rewrite Atoi_Itoa by (unfold in_int64, min_int64, max_int64; lia). by rewrite Z.max_l by lia. }
  rewrite Hz. cbn [fst snd]. split; [done|]. unfold validate_max_size.
  by rewrite bare_number.
Qed.
