(* ===== verification/ConfigStore.v ===== *)
(** * Storing the configuration (src/src/config/config.go)

    The secrets that are generated, the file and its atomic replacement, loading
    at start, and reloading while the server runs. YAML, the names of temporary
    files and the free ports of the machine are interfaces. *)

From S2P Require Import Prelude GoStr GoStrProofs GoTime GoNet GoCrypto Cron Rotate Http Proxy ConfigText FileSys Config.
From Stdlib Require Import Ascii.

(** ** Changing one setting *)

Definition upd_server (f : ServerSettings -> ServerSettings) (c : Config) : Config :=
  {| c_server := f (c_server c); c_limits := c_limits c; c_termbin := c_termbin c; c_contact_page := c_contact_page c;
     c_cache := c_cache c; c_logging := c_logging c; c_consent := c_consent c; c_tracking := c_tracking c; c_contact := c_contact c;
     c_smtp := c_smtp c; c_rates := c_rates c; c_cors := c_cors c; c_security := c_security c; c_db_type := c_db_type c;
     c_db_path := c_db_path c; c_site_title := c_site_title c; c_theme := c_theme c; c_max_size := c_max_size c;
     c_max_size_bytes := c_max_size_bytes c; c_third_party := c_third_party c; c_first_run := c_first_run c; c_rest := c_rest c |}.

Definition set_port (v : string) (s : ServerSettings) : ServerSettings :=
  {| sv_Mode := sv_Mode s; sv_Port := v; sv_Address := sv_Address s; sv_BaseURL := sv_BaseURL s; sv_FQDN := sv_FQDN s;
     sv_Token := sv_Token s; sv_BrandTitle := sv_BrandTitle s; sv_BrandTagline := sv_BrandTagline s;
     sv_CountryMode := sv_CountryMode s; sv_Branch := sv_Branch s; sv_Onion := sv_Onion s; sv_I2PEnabled := sv_I2PEnabled s;
     sv_B32 := sv_B32 s; sv_TorBinary := sv_TorBinary s; sv_TorVirtualPort := sv_TorVirtualPort s;
     sv_DNSCredentials := sv_DNSCredentials s; sv_EssentialCookies := sv_EssentialCookies s |}.
Definition set_fqdn (v : string) (s : ServerSettings) : ServerSettings :=
  {| sv_Mode := sv_Mode s; sv_Port := sv_Port s; sv_Address := sv_Address s; sv_BaseURL := sv_BaseURL s; sv_FQDN := v;
     sv_Token := sv_Token s; sv_BrandTitle := sv_BrandTitle s; sv_BrandTagline := sv_BrandTagline s;
     sv_CountryMode := sv_CountryMode s; sv_Branch := sv_Branch s; sv_Onion := sv_Onion s; sv_I2PEnabled := sv_I2PEnabled s;
     sv_B32 := sv_B32 s; sv_TorBinary := sv_TorBinary s; sv_TorVirtualPort := sv_TorVirtualPort s;
     sv_DNSCredentials := sv_DNSCredentials s; sv_EssentialCookies := sv_EssentialCookies s |}.
Definition set_token (v : string) (s : ServerSettings) : ServerSettings :=
  {| sv_Mode := sv_Mode s; sv_Port := sv_Port s; sv_Address := sv_Address s; sv_BaseURL := sv_BaseURL s; sv_FQDN := sv_FQDN s;
     sv_Token := v; sv_BrandTitle := sv_BrandTitle s; sv_BrandTagline := sv_BrandTagline s; sv_CountryMode := sv_CountryMode s;
     sv_Branch := sv_Branch s; sv_Onion := sv_Onion s; sv_I2PEnabled := sv_I2PEnabled s; sv_B32 := sv_B32 s;
     sv_TorBinary := sv_TorBinary s; sv_TorVirtualPort := sv_TorVirtualPort s; sv_DNSCredentials := sv_DNSCredentials s;
     sv_EssentialCookies := sv_EssentialCookies s |}.
Definition set_branch (v : string) (s : ServerSettings) : ServerSettings :=
  {| sv_Mode := sv_Mode s; sv_Port := sv_Port s; sv_Address := sv_Address s; sv_BaseURL := sv_BaseURL s; sv_FQDN := sv_FQDN s;
     sv_Token := sv_Token s; sv_BrandTitle := sv_BrandTitle s; sv_BrandTagline := sv_BrandTagline s;
     sv_CountryMode := sv_CountryMode s; sv_Branch := v; sv_Onion := sv_Onion s; sv_I2PEnabled := sv_I2PEnabled s; sv_B32 := sv_B32 s;
     sv_TorBinary := sv_TorBinary s; sv_TorVirtualPort := sv_TorVirtualPort s; sv_DNSCredentials := sv_DNSCredentials s;
     sv_EssentialCookies := sv_EssentialCookies s |}.
Definition set_onion (v : string) (s : ServerSettings) : ServerSettings :=
  {| sv_Mode := sv_Mode s; sv_Port := sv_Port s; sv_Address := sv_Address s; sv_BaseURL := sv_BaseURL s; sv_FQDN := sv_FQDN s;
     sv_Token := sv_Token s; sv_BrandTitle := sv_BrandTitle s; sv_BrandTagline := sv_BrandTagline s;
     sv_CountryMode := sv_CountryMode s; sv_Branch := sv_Branch s; sv_Onion := v; sv_I2PEnabled := sv_I2PEnabled s; sv_B32 := sv_B32 s;
     sv_TorBinary := sv_TorBinary s; sv_TorVirtualPort := sv_TorVirtualPort s; sv_DNSCredentials := sv_DNSCredentials s;
     sv_EssentialCookies := sv_EssentialCookies s |}.
Definition set_b32 (v : string) (s : ServerSettings) : ServerSettings :=
  {| sv_Mode := sv_Mode s; sv_Port := sv_Port s; sv_Address := sv_Address s; sv_BaseURL := sv_BaseURL s; sv_FQDN := sv_FQDN s;
     sv_Token := sv_Token s; sv_BrandTitle := sv_BrandTitle s; sv_BrandTagline := sv_BrandTagline s;
     sv_CountryMode := sv_CountryMode s; sv_Branch := sv_Branch s; sv_Onion := sv_Onion s; sv_I2PEnabled := sv_I2PEnabled s;
     sv_B32 := v; sv_TorBinary := sv_TorBinary s; sv_TorVirtualPort := sv_TorVirtualPort s; sv_DNSCredentials := sv_DNSCredentials s;
     sv_EssentialCookies := sv_EssentialCookies s |}.
Definition set_dns (v : string) (s : ServerSettings) : ServerSettings :=
  {| sv_Mode := sv_Mode s; sv_Port := sv_Port s; sv_Address := sv_Address s; sv_BaseURL := sv_BaseURL s; sv_FQDN := sv_FQDN s;
     sv_Token := sv_Token s; sv_BrandTitle := sv_BrandTitle s; sv_BrandTagline := sv_BrandTagline s;
     sv_CountryMode := sv_CountryMode s; sv_Branch := sv_Branch s; sv_Onion := sv_Onion s; sv_I2PEnabled := sv_I2PEnabled s;
     sv_B32 := sv_B32 s; sv_TorBinary := sv_TorBinary s; sv_TorVirtualPort := sv_TorVirtualPort s; sv_DNSCredentials := v;
     sv_EssentialCookies := sv_EssentialCookies s |}.

Definition set_key (v : string) (c : Config) : Config :=
  {| c_server := c_server c; c_limits := c_limits c; c_termbin := c_termbin c; c_contact_page := c_contact_page c;
     c_cache := c_cache c; c_logging := c_logging c; c_consent := c_consent c; c_tracking := c_tracking c; c_contact := c_contact c;
     c_smtp := c_smtp c; c_rates := c_rates c; c_cors := c_cors c;
     c_security := {| EncryptionKey := v; ContactEmail := ContactEmail (c_security c); ReportURL := ReportURL (c_security c);
        PreferredLanguages := PreferredLanguages (c_security c); PublishPGPKey := PublishPGPKey (c_security c) |};
     c_db_type := c_db_type c; c_db_path := c_db_path c; c_site_title := c_site_title c; c_theme := c_theme c;
     c_max_size := c_max_size c; c_max_size_bytes := c_max_size_bytes c; c_third_party := c_third_party c;
     c_first_run := c_first_run c; c_rest := c_rest c |}.
Definition set_contact (v : ContactConfig) (c : Config) : Config :=
  {| c_server := c_server c; c_limits := c_limits c; c_termbin := c_termbin c; c_contact_page := c_contact_page c;
     c_cache := c_cache c; c_logging := c_logging c; c_consent := c_consent c; c_tracking := c_tracking c; c_contact := v;
     c_smtp := c_smtp c; c_rates := c_rates c; c_cors := c_cors c; c_security := c_security c; c_db_type := c_db_type c;
     c_db_path := c_db_path c; c_site_title := c_site_title c; c_theme := c_theme c; c_max_size := c_max_size c;
     c_max_size_bytes := c_max_size_bytes c; c_third_party := c_third_party c; c_first_run := c_first_run c; c_rest := c_rest c |}.
Definition set_first_run  (c : Config) : Config :=
  {| c_server := c_server c; c_limits := c_limits c; c_termbin := c_termbin c; c_contact_page := c_contact_page c;
     c_cache := c_cache c; c_logging := c_logging c; c_consent := c_consent c; c_tracking := c_tracking c; c_contact := c_contact c;
     c_smtp := c_smtp c; c_rates := c_rates c; c_cors := c_cors c; c_security := c_security c; c_db_type := c_db_type c;
     c_db_path := c_db_path c; c_site_title := c_site_title c; c_theme := c_theme c; c_max_size := c_max_size c;
     c_max_size_bytes := c_max_size_bytes c; c_third_party := c_third_party c; c_first_run := true; c_rest := c_rest c |}.

(** The settings that are not part of the text: [d] has them. *)
Definition persisted (d : Config) (c : Config) : Config :=
  {| c_server := c_server c; c_limits := c_limits c; c_termbin := c_termbin c; c_contact_page := c_contact_page c;
     c_cache := c_cache c; c_logging := c_logging c; c_consent := c_consent c; c_tracking := c_tracking c; c_contact := c_contact c;
     c_smtp := c_smtp c; c_rates := c_rates c; c_cors := c_cors c; c_security := c_security c; c_db_type := c_db_type c;
     c_db_path := c_db_path c; c_site_title := c_site_title c; c_theme := c_theme c; c_max_size := c_max_size c;
     c_max_size_bytes := c_max_size_bytes d; c_third_party := c_third_party c; c_first_run := c_first_run d; c_rest := c_rest c |}.

(** ** Secrets *)

Definition tokenCharset : string := "abcdefghijklmnopqrstuvwxyzABCDEFGHIJKLMNOPQRSTUVWXYZ0123456789".
Definition token_char (v : Z) : ascii := default "a"%char (String.get (Z.to_nat (v mod strlen tokenCharset)) tokenCharset).
Definition token_text (raw : list Z) : string := "tok_" ++ String.string_of_list_ascii (token_char <$> raw).

(** One read of the random source. *)
Definition read_rand (r : Rand) : option (list Z) * Rand := match r with [] => (None, []) | b :: r => (b, r) end.

Definition ensureEncryptionKey (c : Config) (r : Rand) : result bool * Config * Rand :=
  if non_empty (EncryptionKey (c_security c)) then (Ok false, c, r)
  else match read_rand r with
       | (Some b, r) => (Ok true, set_key (Hex.EncodeToString b) c, r)
       | (None, r) => (Err "rand", c, r)
       end.

Definition ensureServerToken (c : Config) (r : Rand) : result bool * Config * Rand :=
  if non_empty (sv_Token (c_server c)) then (Ok false, c, r)
  else match read_rand r with
       | (Some b, r) => (Ok true, upd_server (set_token (token_text b)) c, r)
       | (None, r) => (Err "rand", c, r)
       end.

(** [hex.DecodeString]. *)
Fixpoint hex_decode (s : string) : option (list Z) :=
  match s with
  | "" => Some []
  | String a (String b r) => x ← hex_value a; y ← hex_value b; l ← hex_decode r; Some (x * 16 + y :: l)
  | _ => None
  end.

(** The method [EncryptionKey] of the code; the field has the name here. *)
Definition encryption_key (c : Config) : result (list Z) :=
  let s := EncryptionKey (c_security c) in
  if String.eqb s "" then Err "encryption_key not configured"
  else match hex_decode s with
       | None => Err "encryption_key is not valid hex"
       | Some b => if Nat.eqb (length b) 32 then Ok b else Err "encryption_key must be 32 bytes"
       end.

(** A map of strings as a JSON object: its keys are sorted. *)
Definition key_le (a b : string * string) : Prop := str_le a.1 b.1.
#[export] Instance key_le_dec a b : Decision (key_le a b).
Proof. unfold key_le. apply _. Defined.

Definition map_json (m : gmap string string) : json :=
  JObj ((fun kv => (kv.1, JStr kv.2)) <$> merge_sort key_le (map_to_list m)).

(** An object's members are stored one after the other; null leaves the empty string. *)
Fixpoint members (m : gmap string string) (l : list (string * json)) : option (gmap string string) :=
  match l with
  | [] => Some m
  | (k, JStr v) :: l => members (<[k := v]> m) l
  | (k, JNull) :: l => members (<[k := ""]> m) l
  | _ => None
  end.

Definition map_of_json (j : json) : option (gmap string string) :=
  match j with JNull => Some ∅ | JObj l => members ∅ l | _ => None end.

Section credentials.
Context `{JsonText} `{AEAD}.

Definition EncryptDNSCredentials (nonce : result (list Z)) (creds : gmap string string) (c : Config) : result string :=
  key ← encryption_key c;
  sealed ← Seal nonce key (bytes (render (map_json creds)));
  Ok (Base64.EncodeToString sealed).

Definition DecryptDNSCredentials (c : Config) : result (gmap string string) :=
  let s := sv_DNSCredentials (c_server c) in
  if String.eqb s "" then Ok ∅
  else
    key ← encryption_key c;
    match Base64.DecodeString s with
    | None => Err "dns credentials: decode"
    | Some sealed =>
        plain ← ConfigText.Open key sealed;
        match parse (of_bytes plain) ≫= map_of_json with
        | None => Err "dns credentials: unmarshal"
        | Some creds => Ok creds
        end
    end.
End credentials.

(** ** The file *)

(** gopkg.in/yaml.v3: the text of a configuration; a text read over a
    configuration, with the error if there is one. *)
Class Yaml := { marshal : Config -> string; unmarshal : string -> Config -> Config * option string }.

(** Maps are merged when a text is read, everything else is replaced. *)
Definition no_maps (c : Config) : Prop :=
  Webhooks (ct_Admin (c_contact c)) = ∅ /\ Webhooks (ct_Security (c_contact c)) = ∅
  /\ Webhooks (ct_Abuse (c_contact c)) = ∅ /\ Webhooks (ct_General (c_contact c)) = ∅.

Class YamlLaws `{Yaml} := { unmarshal_marshal : forall c d, no_maps d -> unmarshal (marshal c) d = (persisted d c, None) }.

(** The name that [os.CreateTemp] finds for a temporary file beside a path: it ends in a
    random number or, for the files of the configuration, in [.tmp]. *)
Class TempNames := {
  temp_name : string -> Disk -> string;
  temp_fresh : forall path d, names d !! temp_name path d = None;
  temp_other : forall path d, temp_name path d <> path;
  temp_not_old : forall path d, temp_name path d <> path ++ ".old";
}.

Definition Chmod : D (result unit) := sys (fun d => (Ok tt, d)).
Definition Sync : D (result unit) := sys (fun d => (Ok tt, d)).
Definition Close : D (result unit) := sys (fun d => (Ok tt, d)).

Definition CreateTemp (tmp : string) : D (result nat) :=
  sys (fun d => (Ok (length (inodes d)),
                 set_names (<[tmp := length (inodes d)]> (names d))
                   (set_inodes (inodes d ++ [{| i_data := Plain []; i_mtime := d_clock d |}]) d))).

Definition text_of (c : content) : option string := match c with Plain l => Some (String.concat "" l) | Gzipped _ => None end.

(** [os.ReadFile]: the files that are read here are plain. *)
Definition ReadFile (path : string) : D (result string) :=
  sys (fun d => match file_at d path with
                | None => (Err not_exist, d)
                | Some f => (match text_of (i_data f) with Some s => Ok s | None => Err io_error end, d)
                end).

(** Run the steps one after the other, until one fails. *)
Fixpoint all_of (steps : list (D (result unit))) : D (result unit) :=
  match steps with
  | [] => mret (Ok tt)
  | s :: steps => r ← s; match r with Ok _ => all_of steps | Err e => mret (Err e) end
  end.

Definition save_text `{TempNames} (path text : string) : D (result unit) := fun d =>
  let tmp := temp_name path d in
  (f ← CreateTemp tmp;
   match f with
   | Err e => mret (Err e)
   | Ok i =>
       r ← all_of [Chmod; WriteString i text; Sync; Close];
       r ← (match r with Ok _ => Rename tmp path | Err e => mret (Err e) end);
       _ ← Remove tmp;
       mret r
   end) d.

Definition Save `{Yaml} `{TempNames} (path : string) (c : Config) : D (result unit) := save_text path (marshal c).

(** ** Loading *)

Record Sys := { s_disk : Disk; s_rand : Rand; s_machine : Machine }.
Definition IO (A : Type) : Type := Sys -> A * Sys.
#[export] Instance IO_ret : MRet IO := fun A a s => (a, s).
#[export] Instance IO_bind : MBind IO := fun A B f x s => let '(a, s') := x s in f a s'.

Definition on_disk {A} (x : D A) : IO A := fun s =>
  let '(a, d) := x (s_disk s) in (a, {| s_disk := d; s_rand := s_rand s; s_machine := s_machine s |}).
Definition on_machine {A} (x : M A) : IO A := fun s =>
  let '(a, m) := x (s_machine s) in (a, {| s_disk := s_disk s; s_rand := s_rand s; s_machine := m |}).
Definition on_rand {A B} (x : Rand -> A * B * Rand) : IO (A * B) := fun s =>
  let '(ab, r) := x (s_rand s) in (ab, {| s_disk := s_disk s; s_rand := r; s_machine := s_machine s |}).
Definition getenv : IO Env := fun s => (mc_env (s_machine s), s).

Section loading.
Context `{Unicode} `{Floats} `{StdDuration} `{UrlParser} `{UuidParser} `{SuffixList} `{PublicSuffix} `{MapOrder} `{Yaml} `{TempNames}.

(** No file: the defaults and the generated secrets are written. *)
Definition first_run (path : string) (cfg : Config) : IO (Config * option string) :=
  '(_, cfg) ← on_rand (ensureEncryptionKey cfg);
  '(_, cfg) ← on_rand (ensureServerToken cfg);
  name ← on_machine (ResolveFQDN cfg);
  let saveCfg := upd_server (fun s => set_token (sv_Token (c_server cfg)) (set_fqdn name s))
                   (set_key (EncryptionKey (c_security cfg)) DefaultConfig) in
  saved ← on_disk (Save path saveCfg);
  mret (set_first_run cfg, None).

Definition made (r : result bool) : bool := match r with Ok b => b | Err _ => false end.

(** The secrets that a file does not have, and whether it must be written. *)
Definition complete_secrets (cfg : Config) : IO (Config * bool) :=
  '(k, cfg) ← on_rand (ensureEncryptionKey cfg);
  '(t, cfg) ← on_rand (ensureServerToken cfg);
  '(w, contact) ← on_rand (fun r => let '(ok, contact, r, generated) := ensureWebhookSecrets (c_contact cfg) r in
                                     ((ok && generated, contact), r));
  mret (set_contact contact cfg, made k || made t || w).

(** A configuration is returned with every error. *)
Definition Load (path : string) : IO (Config * option string) :=
  env ← getenv;
  let cfg := loadEnv env DefaultConfig in
  data ← on_disk (ReadFile path);
  match data with
  | Err e => if String.eqb e not_exist then first_run path cfg else mret (cfg, Some e)
  | Ok data =>
      match unmarshal data cfg with
      | (cfg, Some e) => mret (cfg, Some e)
      | (cfg, None) =>
          '(cfg, needSave) ← complete_secrets (Validate (loadEnv env cfg));
          (if (needSave : bool) then saved ← on_disk (Save path cfg); mret (cfg, None) else mret (cfg, None))
      end
  end.

(** ** Changing the file *)

(** Load, change and save: [SetUpdateBranch], [SetOnionAddress], [SetB32Address]. *)
Definition set_in_file (path : string) (f : ServerSettings -> ServerSettings) : IO (result unit) :=
  dir ← on_disk MkdirAll;
  match dir with
  | Err e => mret (Err ("creating config dir: " ++ e))
  | Ok _ =>
      '(cfg, err) ← Load path;
      match err with
      | Some e => if String.eqb e not_exist then on_disk (Save path (upd_server f cfg)) else mret (Err ("loading config: " ++ e))
      | None => on_disk (Save path (upd_server f cfg))
      end
  end.

Definition SetUpdateBranch (path branch : string) : IO (result unit) := set_in_file path (set_branch branch).
Definition SetOnionAddress (path addr : string) : IO (result unit) := set_in_file path (set_onion addr).
Definition SetB32Address (path addr : string) : IO (result unit) := set_in_file path (set_b32 addr).

(** An unreadable file is replaced by the defaults with the port; one that is
    not YAML is left alone. *)
Definition persistPortOnly (path port : string) : IO (result unit) :=
  data ← on_disk (ReadFile path);
  match data with
  | Err _ => on_disk (Save path (upd_server (set_port port) DefaultConfig))
  | Ok data =>
      match unmarshal data DefaultConfig with
      | (_, Some e) => mret (Err ("parse existing config: " ++ e))
      | (base, None) => on_disk (Save path (upd_server (set_port port) base))
      end
  end.

(** The first free port in the order of a permutation of the offsets. *)
Definition randomUnusedPort (perm : list Z) (free : Z -> bool) (lo hi : Z) : result Z :=
  match first free ((Z.add lo) <$> perm) with
  | Some p => Ok p
  | None => Err "no unused port found"
  end.

(** The changed configuration is returned with every error. *)
Definition ResolvePort (cfgPath : string) (cfg : Config) (inContainer : bool) (perm : list Z) (free : Z -> bool)
    : IO (Config * result unit) :=
  if non_empty (sv_Port (c_server cfg)) then mret (cfg, Ok tt)
  else if inContainer then mret (upd_server (set_port "80") cfg, Ok tt)
  else match randomUnusedPort perm free 64000 64999 with
       | Err e => mret (cfg, Err ("port allocator: " ++ e))
       | Ok port =>
           let cfg := upd_server (set_port (Strconv.Itoa port)) cfg in
           r ← persistPortOnly cfgPath (sv_Port (c_server cfg));
           mret (cfg, match r with Ok _ => Ok tt | Err e => Err ("port allocator: could not persist port: " ++ e) end)
       end.

(** The plain and the TLS port. *)
Definition SplitPorts (spec : string) : string * string :=
  match Strings.SplitN2 (StringsU.TrimSpace spec) "," with
  | [a; b] => (StringsU.TrimSpace a, StringsU.TrimSpace b)
  | a :: _ => (StringsU.TrimSpace a, "")
  | [] => ("", "")
  end.

(** ** Reloading *)

#[export] Instance RateLimitEndpoint_eq : EqDecision RateLimitEndpoint.
Proof. solve_decision. Defined.
#[export] Instance RateLimits_eq : EqDecision RateLimits.
Proof. solve_decision. Defined.
#[export] Instance Cors_eq : EqDecision Cors.
Proof. solve_decision. Defined.

Record ConfigManager := { configPath : string; current : Config; lastModTime : Z }.

Definition NewConfigManager (path : string) (cfg : Config) : IO ConfigManager :=
  info ← on_disk (Stat path);
  mret {| configPath := path; current := cfg; lastModTime := match info with Ok f => i_mtime f | Err _ => zero_time end |}.

(** The lines that are logged: what needs a restart and what was changed. *)
Definition applyHotSettings (prev next : Config) : list string :=
  let p := c_server prev in let n := c_server next in
  (if String.eqb (sv_Port p) (sv_Port n) then [] else ["server.port changed: restart required"])
  ++ (if String.eqb (sv_Address p) (sv_Address n) then [] else ["server.address changed: restart required"])
  ++ (if String.eqb (c_db_type prev) (c_db_type next) && String.eqb (c_db_path prev) (c_db_path next) then []
      else ["database settings changed: restart required"])
  ++ (if String.eqb (sv_TorBinary p) (sv_TorBinary n) && (sv_TorVirtualPort p =? sv_TorVirtualPort n) then []
      else ["tor settings changed: restart required"])
  ++ (if String.eqb (Level (c_logging prev)) (Level (c_logging next)) then [] else ["hot-reload: logging.level"])
  ++ (if decide (c_rates prev = c_rates next) then [] else ["hot-reload: rate_limit settings updated"])
  ++ (if decide (c_cors prev = c_cors next) then [] else ["hot-reload: cors policy updated"])
  ++ (if String.eqb (c_site_title prev) (c_site_title next) && String.eqb (c_theme prev) (c_theme next) then []
      else ["hot-reload: branding settings updated"]).

Definition checkFileChanges (m : ConfigManager) : IO (option Config * ConfigManager * list string) :=
  info ← on_disk (Stat (configPath m));
  match info with
  | Err _ => mret (None, m, [])
  | Ok f =>
      if i_mtime f <=? lastModTime m then mret (None, m, [])
      else
        '(next, err) ← Load (configPath m);
        match err with
        | Some _ => mret (None, m, ["reload error"])
        | None =>
            mret (Some next, {| configPath := configPath m; current := next; lastModTime := i_mtime f |},
                  applyHotSettings (current m) next)
        end
  end.
End loading.
