(* ===== verification/Csrf.v ===== *)
(** * Signed tokens and cross-site requests (src/src/server)

    The CSRF tokens and their middleware and the checks of the Sec-Fetch headers
    (server.go), the arithmetic captcha (captcha.go) and the identifier of
    security reports (security_id.go).  Random bytes and the clock are arguments. *)

From S2P Require Import Prelude GoStr GoNet GoTime GoCrypto GoToken Http Proxy.
From Stdlib Require Import Ascii.

(** ** CSRF tokens *)

(** A payload and its signature, each in base64, with a dot between. *)
Definition sign_token (secret payload : list Z) : string :=
  RawURL.EncodeToString payload ++ "." ++ RawURL.EncodeToString (HMAC secret payload).

Definition generateCSRFToken (secret nonce : list Z) : string := sign_token secret nonce.

(** The payload of a token whose signature is right. *)
Definition open_token (secret : list Z) (ok : list Z -> bool) (token : string) : option (list Z) :=
  match Strings.SplitN2 token "." with
  | [a; b] =>
      payload ← RawURL.DecodeString a;
      if negb (ok payload) then None
      else
        sig ← RawURL.DecodeString b;
        if bool_decide (sig = HMAC secret payload) then Some payload else None
  | _ => None
  end.

Definition validateCSRFToken (secret : list Z) (token : string) : bool :=
  is_some (open_token secret (fun nonce => Nat.eqb (length nonce) 32) token).

(** ** The captcha *)

Definition captchaTTL : Z := 10 * Minute.

Definition captcha_payload (answer expiry : Z) : list Z := bytes (Strconv.Itoa answer ++ ":" ++ Strconv.Itoa expiry).

Definition signCaptchaPayload (secret payload : list Z) : string := sign_token secret payload.

Record simpleCaptcha := { Question : string; Token : string }.

(** [b0] and [b1] are the random bytes, [t] the time. *)
Definition generateSimpleCaptcha (secret : list Z) (b0 b1 t : Z) : simpleCaptcha :=
  let a := b0 mod 9 + 1 in
  let b := b1 mod 9 + 1 in
  {| Question := "What is " ++ Strconv.Itoa a ++ " + " ++ Strconv.Itoa b ++ "?";
     Token := signCaptchaPayload secret (captcha_payload (a + b) (Unix (t + captchaTTL))) |}.

Definition validateSimpleCaptcha (secret : list Z) (token answer : string) (t : Z) : bool :=
  match open_token secret (fun _ => true) token with
  | None => false
  | Some payload =>
      match Strings.SplitN2 (of_bytes payload) ":" with
      | [want; deadline] =>
          match Strconv.ParseInt deadline with
          | (expiry, None) =>
              if expiry <? Unix t then false
              else
                let got := StringsU.TrimSpace answer in
                if String.eqb got "" then false else String.eqb (StringsU.TrimSpace want) got
          | _ => false
          end
      | _ => false
      end
  end.

(** ** Identifiers of security reports *)

Definition securityIDWindow : Z := 172800.

(** The loop of [itoa64]: the digits of a positive number before those in [acc]. *)
Fixpoint itoa_digits (fuel : nat) (n : Z) (acc : string) : string :=
  match fuel with
  | O => acc
  | S fuel => if 0 <? n then itoa_digits fuel (n / 10) (String (chr (48 + n mod 10)) acc) else acc
  end.

Definition itoa64 (n : Z) : string :=
  if n =? 0 then "0"
  else if n <? 0 then "-" ++ itoa_digits 20 (wrap64 (- n)) "" else itoa_digits 20 n "".

Definition securityIDForWindow (installSecret : list Z) (window : Z) : string :=
  Strings.take 16 (Hex.EncodeToString (HMAC installSecret (bytes (itoa64 window)))).

(** Go's division rounds towards zero. *)
Definition id_window (t : Z) : Z := Z.quot (Unix t) securityIDWindow.

Definition currentSecurityID (installSecret : list Z) (t : Z) : string :=
  if Nat.eqb (length installSecret) 0 then "" else securityIDForWindow installSecret (id_window t).

Definition validSecurityID (installSecret : list Z) (id : string) (t : Z) : bool :=
  if String.eqb id "" || Nat.eqb (length installSecret) 0 then false
  else existsb (fun w => String.eqb (securityIDForWindow installSecret w) id) [id_window t; id_window t - 1].

(** ** Cross-site requests *)

Definition is_mutating (method : string) : bool :=
  String.eqb method "POST" || String.eqb method "PUT" || String.eqb method "PATCH" || String.eqb method "DELETE".

Definition has_bearer (r : HttpReq) : bool :=
  negb (String.eqb (q_header r "Authorization") "") || negb (String.eqb (q_header r "X-API-Token") "").

Definition isCSRFExempt (path : string) (patterns : list string) : bool :=
  existsb (fun p =>
    if Strings.HasSuffix p "/*" then
      Strings.HasPrefix path (Strings.TrimSuffix p "/*" ++ "/") || String.eqb path (Strings.TrimSuffix p "/*")
    else String.eqb p path) patterns.

Definition isEmbedPath (path : string) : bool := Strings.HasPrefix path "/emb/" && (strlen "/emb/" <? strlen path).

Definition forbidden (code msg : string) : Response :=
  writeJSON 403 (JObj [("ok", JBool false); ("error", JStr code); ("message", JStr msg)]).

Record CSRFConfig := {
  csrf_enabled : bool; csrf_cookie : string; csrf_header : string; csrf_exempt : list string; csrf_secure : string;
}.

(** [None] when the request is passed on. *)
Definition secFetchMiddleware (validation : bool) (exempt : list string) (r : HttpReq) : option Response :=
  if negb validation then None
  else
    let cross := String.eqb (q_header r "Sec-Fetch-Site") "cross-site" in
    let dest := q_header r "Sec-Fetch-Dest" in
    if cross && negb (isEmbedPath (q_path r)) && existsb (String.eqb dest) ["iframe"; "frame"; "embed"; "object"] then
      Some (forbidden "FORBIDDEN" "cross-site framing of this endpoint is not allowed")
    else if cross && is_mutating (q_method r) && negb (has_bearer r) && negb (isCSRFExempt (q_path r) exempt) then
      Some (forbidden "FORBIDDEN" "cross-site state-changing request blocked")
    else if String.eqb (q_header r "Sec-Fetch-Mode") "navigate" && Strings.HasPrefix (q_path r) "/api/" && is_mutating (q_method r) then
      Some (forbidden "FORBIDDEN" "direct navigation to API endpoint blocked")
    else None.

Section csrf.
Context `{Unicode} `{UrlParser}.

Definition isWebSocketUpgrade (r : HttpReq) : bool := EqualFold (q_header r "Upgrade") "websocket".

Definition isSameOrigin (r : HttpReq) : bool :=
  let src := if String.eqb (q_header r "Origin") "" then q_header r "Referer" else q_header r "Origin" in
  if String.eqb src "" then false
  else match url_parse src with
       | None => false
       | Some u => if String.eqb (u_host u) "" then false else EqualFold (u_host u) (q_host r)
       end.

Definition has_cookie (cfg : CSRFConfig) (r : HttpReq) : bool :=
  match q_cookie r (csrf_cookie cfg) with Some v => negb (String.eqb v "") | None => false end.

Definition csrf_bypass (cfg : CSRFConfig) (r : HttpReq) : bool :=
  negb (is_mutating (q_method r)) || has_bearer r || isWebSocketUpgrade r
  || isCSRFExempt (q_path r) (csrf_exempt cfg) || isSameOrigin r || negb (has_cookie cfg r).

Definition submitted_token (cfg : CSRFConfig) (r : HttpReq) : string :=
  let h := q_header r (csrf_header cfg) in if String.eqb h "" then q_form r "csrf_token" else h.

(** Why the tokens of a request are refused. *)
Definition csrf_refusal (secret : list Z) (cfg : CSRFConfig) (r : HttpReq) : option string :=
  let submitted := submitted_token cfg r in
  if String.eqb submitted "" then Some "token absent"
  else if negb (validateCSRFToken secret submitted) then Some "token signature invalid"
  else if negb (String.eqb submitted (default "" (q_cookie r (csrf_cookie cfg)))) then Some "token mismatch"
  else None.

Record SetCookie := { sc_name : string; sc_value : string; sc_path : string; sc_max_age : Z; sc_secure : bool; sc_http_only : bool; sc_same_site : string }.

Definition set_csrf (token : string) (r : HttpReq) : HttpReq :=
  {| q_method := q_method r; q_route := q_route r; q_query := q_query r; q_proto := q_proto r; q_tls_version := q_tls_version r;
     q_path := q_path r; q_rawpath := q_rawpath r; q_rawquery := q_rawquery r; q_host := q_host r;
     q_remote := q_remote r; q_tls := q_tls r; q_header := q_header r; q_cookie := q_cookie r; q_form := q_form r;
     q_peer := q_peer r; q_allowlisted := q_allowlisted r; q_csrf := token; q_txt := q_txt r |}.

(** The Secure attribute: the configured one, or that of the connection. *)
Definition cookie_secure (cfg : CSRFConfig) (r : HttpReq) : bool :=
  if String.eqb (csrf_secure cfg) "true" then true else if String.eqb (csrf_secure cfg) "false" then false else q_tls r.

Definition token_cookie (cfg : CSRFConfig) (token : string) (r : HttpReq) : SetCookie :=
  {| sc_name := csrf_cookie cfg; sc_value := token; sc_path := "/"; sc_max_age := 0;
     sc_secure := cookie_secure cfg r; sc_http_only := false; sc_same_site := "Strict" |}.

(** [nonce] is what the random source gives, or an error.  The answer is a
    response, or the request to pass on with the cookie to set, if any. *)
Definition csrfMiddleware (secret : list Z) (cfg : CSRFConfig) (nonce : result (list Z)) (r : HttpReq)
  : Response + (HttpReq * option SetCookie) :=
  if negb (csrf_enabled cfg) || Nat.eqb (length secret) 0 then inr (r, None)
  else
    let reuse := match q_cookie r (csrf_cookie cfg) with
                 | Some v => if negb (String.eqb v "") && validateCSRFToken secret v then v else ""
                 | None => ""
                 end in
    let token := if String.eqb reuse "" then match nonce with Ok n => Some (generateCSRFToken secret n) | Err _ => None end
                 else Some reuse in
    match token with
    | None => inr (r, None)
    | Some token =>
        match (if csrf_bypass cfg r then None else csrf_refusal secret cfg r) with
        | Some _ => inl (forbidden "CSRF_FAILED" "CSRF token validation failed")
        | None => inr (set_csrf token r, Some (token_cookie cfg token r))
        end
    end.

End csrf.
