(* ===== verification/CsrfProofs.v ===== *)
(** * Theorems about signed tokens and cross-site requests *)

From S2P Require Import Prelude GoStr GoStrProofs GoNet GoTime GoCrypto GoToken Http Proxy Csrf.
From Stdlib Require Import Ascii DecimalString.

(** ** Tokens *)

Lemma SplitN2_app x c y : Strings.IndexByte x c = None -> Strings.SplitN2 (x ++ String c y) c = [x; y].
Proof.
  induction x as [|d x IH]; cbn; [by rewrite Ascii.eqb_refl|]. destruct (Ascii.eqb d c); [discriminate|].
  intros Hx. destruct (Strings.IndexByte x c); [discriminate|]. by rewrite IH.
Qed.

Lemma open_sign secret ok payload :
  Forall is_byte payload -> ok payload = true -> open_token secret ok (sign_token secret payload) = Some payload.
Proof.
  intros Hb Hok. unfold open_token, sign_token. change ("." ++ ?s) with (String "." s).
  rewrite SplitN2_app by by apply RawURL.no_dot. rewrite (RawURL.roundtrip payload) by done. cbn [mbind option_bind].
  rewrite Hok. cbn [negb]. rewrite RawURL.roundtrip by apply HMAC_bytes. cbn [mbind option_bind].
  by rewrite bool_decide_true.
Qed.

(** What an accepted token is: some payload with its signature. *)
Lemma open_token_sound secret ok token payload :
  open_token secret ok token = Some payload ->
  ok payload = true /\ exists a b, Strings.SplitN2 token "." = [a; b]
    /\ RawURL.DecodeString a = Some payload /\ RawURL.DecodeString b = Some (HMAC secret payload).
Proof.
  unfold open_token. destruct (Strings.SplitN2 token ".") as [|a [|b [|? ?]]] eqn:E; try discriminate.
  destruct (RawURL.DecodeString a) as [p|] eqn:Ea; [|discriminate]. cbn [mbind option_bind].
  destruct (ok p) eqn:Hok; [|discriminate]. cbn [negb].
  destruct (RawURL.DecodeString b) as [sig|] eqn:Eb; [|discriminate]. cbn [mbind option_bind].
  case_bool_decide; [|discriminate]. intros [= <-]. subst sig. split; [done|]. by exists a, b.
Qed.

(** ** The rules, stated apart from the code *)

(** A token of this server: a nonce of 32 bytes and its HMAC under the secret,
    each in base64, with a dot between. *)
Definition signed_token (secret : list Z) (token : string) : Prop :=
  exists nonce a b, token = a ++ "." ++ b /\ Strings.IndexByte a "." = None /\ length nonce = 32%nat
    /\ RawURL.DecodeString a = Some nonce /\ RawURL.DecodeString b = Some (HMAC secret nonce).

(** A pattern covers a path: it is the path, or it is [base ++ "/*"] and the path
    is [base] or lies under it. *)
Definition covers (pattern path : string) : Prop :=
  (Strings.HasSuffix pattern "/*" = false /\ pattern = path)
  \/ exists base, pattern = base ++ "/*" /\ (path = base \/ exists rest, path = base ++ "/" ++ rest).

Definition sends_credentials (r : HttpReq) : Prop := q_header r "Authorization" <> "" \/ q_header r "X-API-Token" <> "".

Definition changes_state (method : string) : Prop := method ∈ ["POST"; "PUT"; "PATCH"; "DELETE"].

Lemma SplitN2_inv s c a b : Strings.SplitN2 s c = [a; b] -> s = a ++ String c b /\ Strings.IndexByte a c = None.
Proof.
  revert a. induction s as [|d s IH]; intros a; cbn; [discriminate|]. destruct (Ascii.eqb_spec d c) as [->|Hne].
  - by intros [= <- <-].
  - destruct (Strings.SplitN2 s c) as [|x xs]; [discriminate|]. intros [= <- ->].
    destruct (IH x eq_refl) as [-> Hx]. split; [done|]. cbn. apply Ascii.eqb_neq in Hne. by rewrite Hne, Hx.
Qed.

Lemma validate_iff secret token : validateCSRFToken secret token = true <-> signed_token secret token.
Proof.
  unfold validateCSRFToken. split.
  - destruct (open_token _ _ token) as [payload|] eqn:E; [|discriminate]. intros _.
    apply open_token_sound in E as (Hlen & a & b & Hs & Ha & Hb). apply Nat.eqb_eq in Hlen.
    apply SplitN2_inv in Hs as [-> Hi]. by exists payload, a, b.
  - intros (nonce & a & b & -> & Hi & Hlen & Ha & Hb). unfold open_token. change ("." ++ b) with (String "." b).
    rewrite SplitN2_app by done. rewrite Ha. cbn [mbind option_bind]. rewrite Hlen. cbn [Nat.eqb negb].
    rewrite Hb. cbn [mbind option_bind]. by rewrite bool_decide_true.
Qed.

Lemma generated_signed secret nonce : Forall is_byte nonce -> length nonce = 32%nat ->
  signed_token secret (generateCSRFToken secret nonce).
Proof.
  intros Hb Hl. apply validate_iff. unfold validateCSRFToken, generateCSRFToken. rewrite open_sign; [done|done|by rewrite Hl].
Qed.

Lemma exempt_iff path patterns : isCSRFExempt path patterns = true <-> exists p, p ∈ patterns /\ covers p path.
Proof.
  unfold isCSRFExempt. rewrite existsb_exists. split; intros (p & Hp & Hm); exists p; rewrite <- list_elem_of_In in *;
    (split; [done|]); unfold covers in *.
  - destruct (Strings.HasSuffix p "/*") eqn:Es; [right|left; by apply String.eqb_eq in Hm].
    apply HasSuffix_spec in Es as [base ->]. exists base. split; [done|]. rewrite TrimSuffix_app in Hm.
    apply orb_true_iff in Hm as [Hm|Hm%String.eqb_eq]; [right|by left].
    apply prefix_spec in Hm as [t ->]. exists t. by rewrite string_app_assoc.
  - destruct Hm as [[Es ->]|(base & -> & Hm)]; [rewrite Es; apply String.eqb_refl|].
    rewrite HasSuffix_app, TrimSuffix_app. apply orb_true_iff. destruct Hm as [->|[t ->]]; [right; apply String.eqb_refl|left].
    apply prefix_spec. exists t. by rewrite string_app_assoc.
Qed.

Lemma bearer_iff r : has_bearer r = true <-> sends_credentials r.
Proof.
  unfold has_bearer, sends_credentials. rewrite orb_true_iff, !negb_true_iff. by rewrite !String.eqb_neq.
Qed.

Lemma mutating_iff m : is_mutating m = true <-> changes_state m.
Proof.
  unfold is_mutating, changes_state. rewrite !orb_true_iff, !String.eqb_eq, !elem_of_cons, elem_of_nil. tauto.
Qed.

Section csrf.
Context `{Unicode} `{UrlParser} (secret : list Z) (cfg : CSRFConfig).

(** The page that sent the request, by its Origin or else its Referer, has the
    host of the request. *)
Definition from_own_page (r : HttpReq) : Prop :=
  exists src u, src = (if decide (q_header r "Origin" = "") then q_header r "Referer" else q_header r "Origin")
    /\ src <> "" /\ url_parse src = Some u /\ u_host u <> "" /\ EqualFold (u_host u) (q_host r) = true.

(** The requests that need no token. *)
Inductive exempted (r : HttpReq) : Prop :=
  | ex_safe : ~ changes_state (q_method r) -> exempted r
  | ex_credentials : sends_credentials r -> exempted r
  | ex_websocket : EqualFold (q_header r "Upgrade") "websocket" = true -> exempted r
  | ex_path : (exists p, p ∈ csrf_exempt cfg /\ covers p (q_path r)) -> exempted r
  | ex_own_page : from_own_page r -> exempted r
  | ex_no_cookie : default "" (q_cookie r (csrf_cookie cfg)) = "" -> exempted r.

(** The signed token of the cookie, sent a second time in the header, or in the
    form when the header is empty. *)
Definition double_submitted (r : HttpReq) : Prop :=
  exists token, q_cookie r (csrf_cookie cfg) = Some token /\ signed_token secret token
    /\ (q_header r (csrf_header cfg) = token \/ q_header r (csrf_header cfg) = "" /\ q_form r "csrf_token" = token).

(** The server cannot make a token, and the cookie does not hold one of its own. *)
Definition no_token_made (nonce : result (list Z)) (r : HttpReq) : Prop :=
  is_ok nonce = false /\ forall v, q_cookie r (csrf_cookie cfg) = Some v -> ~ signed_token secret v.

Lemma own_page_iff r : isSameOrigin r = true <-> from_own_page r.
Proof.
  unfold isSameOrigin, from_own_page. cbv zeta. set (src := if String.eqb (q_header r "Origin") "" then q_header r "Referer" else q_header r "Origin").
  replace (if decide _ then _ else _) with src by (unfold src; destruct (String.eqb_spec (q_header r "Origin") ""), (decide (q_header r "Origin" = "")); done).
  clearbody src. destruct (String.eqb_spec src "") as [Es|Es]; [split; [discriminate|]; by intros (? & ? & -> & ? & _)|].
  destruct (url_parse src) as [u|] eqn:Eu; [|split; [discriminate|]; intros (? & u' & -> & _ & Hu & _); congruence].
  destruct (String.eqb_spec (u_host u) "") as [Eh|Eh].
  - split; [discriminate|]. intros (? & u' & -> & _ & Hu & Hh & _). congruence.
  - split; [intros Hq; by exists src, u|]. intros (? & u' & -> & _ & Hu & _ & Hq). congruence.
Qed.

Lemma no_cookie_iff r : has_cookie cfg r = false <-> default "" (q_cookie r (csrf_cookie cfg)) = "".
Proof.
  unfold has_cookie. destruct (q_cookie r (csrf_cookie cfg)) as [v|]; cbn; [|done].
  by rewrite negb_false_iff, String.eqb_eq.
Qed.

Lemma bypass_iff r : csrf_bypass cfg r = true <-> exempted r.
Proof.
  unfold csrf_bypass, isWebSocketUpgrade. rewrite !orb_true_iff, !negb_true_iff, bearer_iff, exempt_iff, own_page_iff, no_cookie_iff.
  rewrite <- not_true_iff_false, mutating_iff. split.
  - intros [[[[[?|?]|?]|?]|?]|?]; [by apply ex_safe | by apply ex_credentials | by apply ex_websocket | by apply ex_path
      | by apply ex_own_page | by apply ex_no_cookie].
  - intros []; tauto.
Qed.

Lemma signed_nonempty v : signed_token secret v -> v <> "".
Proof. intros (n & a & b & -> & _) E. by destruct a. Qed.

Lemma refusal_iff r : has_cookie cfg r = true -> csrf_refusal secret cfg r = None <-> double_submitted r.
Proof.
  intros Hc. unfold has_cookie in Hc. unfold double_submitted, csrf_refusal. cbv zeta.
  destruct (q_cookie r (csrf_cookie cfg)) as [v|] eqn:Ev; [|discriminate]. cbn [default]. change (default "" (Some v)) with v. change (id v) with v.
  unfold submitted_token. cbv zeta. set (t := if String.eqb (q_header r (csrf_header cfg)) "" then _ else _).
  assert (Ht : forall token, token <> "" ->
     t = token <-> (q_header r (csrf_header cfg) = token \/ q_header r (csrf_header cfg) = "" /\ q_form r "csrf_token" = token)).
  { intros token Hne. unfold t. destruct (String.eqb_spec (q_header r (csrf_header cfg)) "") as [->|E0].
    - split; [auto|]. intros [Hx|[_ ?]]; [by destruct Hne|done].
    - split; [auto|]. by intros [?|[? _]]. }
  destruct (String.eqb_spec t "") as [E|E].
  - split; [discriminate|]. intros (token & [= <-] & Hs & Hsub). apply Ht in Hsub; [|by eapply signed_nonempty].
    apply signed_nonempty in Hs. congruence.
  - destruct (validateCSRFToken secret t) eqn:Hv; cbn [negb].
    + destruct (String.eqb_spec t v) as [Etv|Etv]; cbn [negb].
      * split; [intros _|done]. exists v. split; [done|]. apply validate_iff in Hv. rewrite <- Etv. split; [done|]. by apply Ht.
      * split; [discriminate|]. intros (token & [= <-] & Hs & Hsub). apply Ht in Hsub; [done|]. by eapply signed_nonempty.
    + split; [discriminate|]. intros (token & [= <-] & Hs & Hsub). apply Ht in Hsub; [|by eapply signed_nonempty].
      rewrite <- Hsub in Hs. apply validate_iff in Hs. congruence.
Qed.

(** Which requests the middleware passes on. *)
Lemma csrf_passes (nonce : result (list Z)) (r : HttpReq) :
  csrf_enabled cfg = true -> secret <> [] ->
  (exists x, csrfMiddleware secret cfg nonce r = inr x) <-> exempted r \/ double_submitted r \/ no_token_made nonce r.
Proof.
  intros Hen Hs. unfold csrfMiddleware. rewrite Hen. cbn [negb orb].
  replace (Nat.eqb (length secret) 0) with false by (by destruct secret). cbv zeta.
  set (reuse := match q_cookie r _ with Some v => _ | None => _ end).
  assert (Hr : (reuse = "" /\ forall v, q_cookie r (csrf_cookie cfg) = Some v -> ~ signed_token secret v)
               \/ (reuse <> "" /\ q_cookie r (csrf_cookie cfg) = Some reuse /\ signed_token secret reuse)).
  { unfold reuse. clear reuse. destruct (q_cookie r (csrf_cookie cfg)) as [v|]; [|by left].
    destruct (String.eqb_spec v "") as [->|Hv]; cbn [negb andb].
    - left. split; [done|]. intros ? [= <-] Hx. by apply signed_nonempty in Hx.
    - destruct (validateCSRFToken secret v) eqn:E.
      + right. split; [done|]. split; [done|]. by apply validate_iff.
      + left. split; [done|]. intros ? [= <-] Hx%validate_iff. congruence. }
  clearbody reuse. set (token := if String.eqb reuse "" then _ else _).
  assert (Htok : token = None <-> no_token_made nonce r).
  { unfold token, no_token_made. destruct Hr as [[-> Hx]|(Hne & Hc & Hx)].
    - destruct nonce; cbn; [|done]. split; [discriminate | by intros []].
    - apply String.eqb_neq in Hne. rewrite Hne. split; [discriminate|]. intros [_ Hy]. by apply Hy in Hc. }
  destruct token as [token|]; [|split; [intros _; right; right; by apply Htok | by eexists]].
  assert (Hno : ~ no_token_made nonce r) by (intros Hx; apply Htok in Hx; discriminate).
  destruct (csrf_bypass cfg r) eqn:Hb; [split; [intros _; left; by apply bypass_iff | by eexists]|].
  assert (Hne : ~ exempted r) by (intros Hx; apply bypass_iff in Hx; congruence).
  assert (Hc : has_cookie cfg r = true) by (unfold csrf_bypass in Hb; apply orb_false_iff in Hb as [_ Hb]; by apply negb_false_iff in Hb).
  destruct (csrf_refusal secret cfg r) eqn:Hf.
  - split; [by intros [x [=]]|]. intros [?|[Hd|?]]; try done. apply refusal_iff in Hd; [congruence|done].
  - split; [intros _; right; left; by apply refusal_iff | by eexists].
Qed.

(** C7 — The double submission, with the protection on and a secret: a request
    passes exactly when the rules exempt it (it does not change state, sends
    credentials of its own, upgrades to a web socket, goes to an exempt path,
    comes from a page of its own host, or has no CSRF cookie), or it carries in
    its header (or form) the token of its cookie and that token is a nonce with
    this server's signature, or the server fails to make the token that it would
    have to hand out (it then fails open); any other one is answered with 403.  A
    browser that sends back the token it was given passes, and is given the same
    token again. *)
Theorem csrf_double_submit (nonce : result (list Z)) (r : HttpReq) :
  csrf_enabled cfg = true -> secret <> [] ->
  ((exists x, csrfMiddleware secret cfg nonce r = inr x) <-> exempted r \/ double_submitted r \/ no_token_made nonce r)
  /\ (forall resp, csrfMiddleware secret cfg nonce r = inl resp -> status resp = 403)
  /\ (forall n, Forall is_byte n -> length n = 32%nat ->
        let token := generateCSRFToken secret n in
        q_cookie r (csrf_cookie cfg) = Some token -> submitted_token cfg r = token ->
        csrfMiddleware secret cfg nonce r = inr (set_csrf token r, Some (token_cookie cfg token r))).
Proof.
  intros Hen Hs. split; [by apply csrf_passes|]. split.
  { intros resp. unfold csrfMiddleware. repeat case_match; intros [=]; by subst. }
  intros n Hb Hlen token Hc Hsub. unfold csrfMiddleware. rewrite Hen, Hc. cbn [negb orb].
  replace (Nat.eqb (length secret) 0) with false by (by destruct secret). cbv zeta.
  pose proof (generated_signed secret n Hb Hlen) as Hv. pose proof (signed_nonempty _ Hv) as Hne.
  apply validate_iff in Hv. apply String.eqb_neq in Hne. fold token in Hv, Hne.
  rewrite Hne, Hv. cbn [negb andb]. rewrite Hne. destruct (csrf_bypass cfg r); [done|].
  unfold csrf_refusal. by rewrite Hc, Hsub, Hne, Hv, String.eqb_refl.
Qed.
End csrf.

(** ** The captcha *)

Lemma digit_no_byte x c s : (forall d, d ∈ String.list_ascii_of_string s -> 48 <= byte d < 58 \/ byte d = 45) ->
  byte c = x -> (x < 45 \/ 45 < x < 48 \/ 58 <= x) -> Strings.IndexByte s c = None.
Proof.
  intros Hd Hc Hx. induction s as [|d s IH]; [done|]. cbn. destruct (Ascii.eqb_spec d c) as [->|].
  - specialize (Hd c ltac:(by left)). lia.
  - rewrite IH; [done|]. intros e He. apply Hd. by right.
Qed.

(** The sums the captcha asks for. *)
Lemma small_answers n : 2 <= n <= 18 ->
  Strings.IndexByte (Strconv.Itoa n) ":" = None /\ StringsU.TrimSpace (Strconv.Itoa n) = Strconv.Itoa n
  /\ String.eqb (Strconv.Itoa n) "" = false.
Proof.
  intros Hn. assert (Hall : Forall (fun n => Strings.IndexByte (Strconv.Itoa n) ":" = None
     /\ StringsU.TrimSpace (Strconv.Itoa n) = Strconv.Itoa n /\ String.eqb (Strconv.Itoa n) "" = false) (seqZ 2 17))
    by (repeat constructor).
  rewrite Forall_forall in Hall. apply Hall, elem_of_seqZ. lia.
Qed.

(** The captcha accepts exactly its answer: the token of a challenge is
    accepted with an answer at a time if and only if the second of the expiry has
    not passed and the answer, without the space around it, is the sum in
    decimal. *)
Theorem captcha_accepts_only_sum (secret : list Z) (b0 b1 t t' : Z) (answer : string) :
  in_int64 (Unix (t + captchaTTL)) ->
  validateSimpleCaptcha secret (Token (generateSimpleCaptcha secret b0 b1 t)) answer t' = true
  <-> Unix t' <= Unix (t + captchaTTL) /\ StringsU.TrimSpace answer = Strconv.Itoa (b0 mod 9 + 1 + (b1 mod 9 + 1)).
Proof.
  intros Ht. unfold generateSimpleCaptcha, validateSimpleCaptcha. cbn [Token].
  set (n := b0 mod 9 + 1 + (b1 mod 9 + 1)). destruct (small_answers n) as (Hi & Htrim & Hne); [unfold n; dlia|].
  unfold signCaptchaPayload, captcha_payload. rewrite open_sign by (done || apply bytes_range).
  rewrite of_bytes_bytes. change (":" ++ ?s) with (String ":" s). rewrite SplitN2_app by done.
  change Strconv.ParseInt with Strconv.Atoi. rewrite Atoi_Itoa by done. rewrite Htrim.
  destruct (Z.ltb_spec (Unix (t + captchaTTL)) (Unix t')); [split; [discriminate | intros []; lia]|].
  destruct (String.eqb_spec (StringsU.TrimSpace answer) "") as [E|Hans].
  - split; [discriminate|]. intros [_ E']. rewrite E in E'. rewrite <- E' in Hne. discriminate.
  - rewrite String.eqb_eq. split; [intros E; split; [lia | done] | by intros [_ ->]].
Qed.

(** ** Identifiers of security reports *)

(** The loop on decimal digits. *)
Definition cons_digit (k : Z) (d : Decimal.uint) : Decimal.uint :=
  match Z.to_nat k with
  | 0 => Decimal.D0 d | 1 => Decimal.D1 d | 2 => Decimal.D2 d | 3 => Decimal.D3 d | 4 => Decimal.D4 d
  | 5 => Decimal.D5 d | 6 => Decimal.D6 d | 7 => Decimal.D7 d | 8 => Decimal.D8 d | _ => Decimal.D9 d
  end%nat.

Fixpoint digs (fuel : nat) (n : Z) (d : Decimal.uint) : Decimal.uint :=
  match fuel with
  | O => d
  | S fuel => if 0 <? n then digs fuel (n / 10) (cons_digit (n mod 10) d) else d
  end.

Ltac ten_digits k :=
  let H := fresh in
  assert (k = 0 \/ k = 1 \/ k = 2 \/ k = 3 \/ k = 4 \/ k = 5 \/ k = 6 \/ k = 7 \/ k = 8 \/ k = 9) as H by lia;
  repeat (destruct H as [H|H]; [subst k|]); [..|subst k].

Lemma cons_digit_string k d : 0 <= k < 10 ->
  NilEmpty.string_of_uint (cons_digit k d) = String (chr (48 + k)) (NilEmpty.string_of_uint d).
Proof. intros Hk. ten_digits k; reflexivity. Qed.

Lemma cons_digit_du n k d : 0 <= k < 10 -> du n (cons_digit k d) = du (n * 10 + k) d.
Proof. intros Hk. ten_digits k; reflexivity. Qed.

Lemma itoa_digs fuel : forall n d,
  itoa_digits fuel n (NilEmpty.string_of_uint d) = NilEmpty.string_of_uint (digs fuel n d).
Proof.
  induction fuel as [|fuel IH]; intros n d; [done|]. cbn [itoa_digits digs]. destruct (0 <? n); [|done].
  rewrite <- IH, cons_digit_string by dlia. done.
Qed.

Lemma digs_du fuel : forall n d, 0 <= n < 10 ^ Z.of_nat fuel -> du 0 (digs fuel n d) = du n d.
Proof.
  induction fuel as [|fuel IH]; intros n d Hn; [cbn in *; by replace n with 0 by lia|]. cbn [digs].
  destruct (Z.ltb_spec 0 n); [|by replace n with 0 by lia].
  rewrite Nat2Z.inj_succ, Z.pow_succ_r in Hn by lia. rewrite IH, cons_digit_du by dlia. f_equal. dlia.
Qed.

(** The digits of a positive number do not begin with a zero. *)
Definition leads (d : Decimal.uint) : Prop := match d with Decimal.Nil | Decimal.D0 _ => False | _ => True end.

Lemma digs_leads fuel : forall n d, 0 < n < 10 ^ Z.of_nat fuel -> leads (digs fuel n d).
Proof.
  induction fuel as [|fuel IH]; intros n d Hn; [cbn in Hn; lia|]. cbn [digs].
  rewrite Nat2Z.inj_succ, Z.pow_succ_r in Hn by lia. rewrite (proj2 (Z.ltb_lt 0 n)) by lia.
  destruct (Z.eq_dec (n / 10) 0) as [E|E]; [|apply IH; dlia].
  rewrite E. assert (Hk : 0 < n mod 10 < 10) by dlia. revert Hk. generalize (n mod 10). intros k Hk.
  replace (digs fuel 0 (cons_digit k d)) with (cons_digit k d) by (by destruct fuel).
  assert (0 <= k < 10) by lia. ten_digits k; cbn; lia || done.
Qed.

Lemma itoa_pos p : Z.pos p < 10 ^ 20 -> itoa_digits 20 (Z.pos p) "" = Strconv.Itoa (Z.pos p).
Proof.
  intros Hp. change "" with (NilEmpty.string_of_uint Decimal.Nil). rewrite itoa_digs.
  pose proof (digs_leads 20 (Z.pos p) Decimal.Nil ltac:(lia)) as Hl.
  pose proof (digs_du 20 (Z.pos p) Decimal.Nil ltac:(lia)) as Hd. set (d := digs _ _ _) in *. clearbody d.
  cbn [du] in Hd. rewrite du_of_uint in Hd. pose proof (DecimalPos.Unsigned.to_of d) as Hto.
  destruct (Pos.of_uint d) as [|q]; [discriminate|]. injection Hd as ->.
  unfold Strconv.Itoa. cbn [Z.to_int NilZero.string_of_int N.to_uint] in *. rewrite Hto.
  destruct d; try done.
Qed.

(** [itoa64] writes what [strconv.Itoa] writes, for every 64-bit integer but
    the smallest, of which it keeps only the sign. *)
Theorem itoa64_is_Itoa (n : Z) :
  in_int64 n -> itoa64 n = if n =? min_int64 then "-" else Strconv.Itoa n.
Proof.
  unfold in_int64, itoa64, min_int64, max_int64. intros Hn. destruct n as [|p|p]; [done|..].
  - change (Z.pos p =? 0) with false. change (Z.pos p <? 0) with false. change (Z.pos p =? - 2 ^ 63) with false.
    apply itoa_pos. lia.
  - change (Z.neg p =? 0) with false. change (Z.neg p <? 0) with true. cbv iota beta.
    destruct (Z.eqb_spec (Z.neg p) (- 2 ^ 63)) as [->|Hne]; [reflexivity|].
    change (- Z.neg p) with (Z.pos p). rewrite wrap64_id by (unfold in_int64, min_int64, max_int64; lia).
    rewrite itoa_pos by lia. reflexivity.
Qed.

Lemma take_nonempty n s : (0 < n)%nat -> s <> "" -> Strings.take n s <> "".
Proof. unfold Strings.take. destruct n; [lia|]. destruct s; [done|]. discriminate. Qed.

(** The identifier shown in security.txt is accepted from the moment it is
    shown until 48 hours later at least, whenever in its window it was read. *)
Theorem security_id_lives_two_days (secret : list Z) (t t' : Z) :
  secret <> [] -> 0 <= Unix t <= Unix t' -> Unix t' <= Unix t + securityIDWindow ->
  validSecurityID secret (currentSecurityID secret t) t' = true.
Proof.
  intros Hs Ht Ht'. unfold validSecurityID, currentSecurityID. destruct secret as [|b l]; [done|]. cbn [length Nat.eqb].
  assert (Hne : securityIDForWindow (b :: l) (id_window t) <> "").
  { apply take_nonempty; [lia|]. intros E. apply (f_equal String.length) in E.
    rewrite hex_length in E. unfold HMAC in E. rewrite Sum256_length in E. discriminate. }
  apply String.eqb_neq in Hne. rewrite Hne. cbn [orb existsb].
  assert (E : id_window t' = id_window t \/ id_window t' - 1 = id_window t) by (unfold id_window, securityIDWindow in *; dlia).
  destruct E as [->| ->]; rewrite String.eqb_refl; [done | by rewrite orb_true_r].
Qed.

(** ** Concrete inputs *)

Definition some_secret : list Z := [1; 2; 3].
Definition some_nonce : list Z := replicate 32 7.
Definition csrf_config : CSRFConfig :=
  {| csrf_enabled := true; csrf_cookie := "csrf_token"; csrf_header := "X-CSRF-Token"; csrf_exempt := ["/api/*"]; csrf_secure := "auto" |}.
Definition no_urls : UrlParser := {| url_parse := fun _ => None |}.

(** A form of another site, without a token. *)
Definition forged : HttpReq :=
  {| q_method := "POST"; q_route := ""; q_query := fun _ => ""; q_proto := "HTTP/1.1"; q_tls_version := 0;
     q_path := "/pastes"; q_rawpath := ""; q_rawquery := ""; q_host := "paste.example"; q_remote := "203.0.113.7:1"; q_tls := true;
     q_header := fun n => if String.eqb n "Origin" then "https://evil.example" else "";
     q_cookie := fun n => if String.eqb n "csrf_token" then Some (generateCSRFToken some_secret some_nonce) else None; q_form := fun _ => "";
     q_peer := None; q_allowlisted := false; q_csrf := ""; q_txt := false |}.

Theorem csrf_double_submit_witness :
  @csrfMiddleware ascii_unicode no_urls some_secret csrf_config (Ok some_nonce) forged
  = inl (forbidden "CSRF_FAILED" "CSRF token validation failed")
  /\ ~ @double_submitted some_secret csrf_config forged.
Proof.
  assert (E : @csrfMiddleware ascii_unicode no_urls some_secret csrf_config (Ok some_nonce) forged
              = inl (forbidden "CSRF_FAILED" "CSRF token validation failed")) by (vm_compute; reflexivity).
  split; [exact E|]. intros Hd.
  destruct (@csrf_double_submit ascii_unicode no_urls some_secret csrf_config (Ok some_nonce) forged eq_refl ltac:(discriminate)) as [Hp _].
  destruct (proj2 Hp (or_intror (or_introl Hd))) as [x Hx]. rewrite E in Hx. discriminate Hx.
Defined.

Theorem captcha_accepts_only_sum_witness :
  in_int64 (Unix (of_unix 0 + captchaTTL)) /\
  (validateSimpleCaptcha some_secret (Token (generateSimpleCaptcha some_secret 200 31 (of_unix 0))) " 8 " (of_unix 600) = true
   <-> Unix (of_unix 600) <= Unix (of_unix 0 + captchaTTL) /\ StringsU.TrimSpace " 8 " = Strconv.Itoa (200 mod 9 + 1 + (31 mod 9 + 1))).
Proof.
  assert (Hr : in_int64 (Unix (of_unix 0 + captchaTTL))) by (vm_compute; split; discriminate).
  split; [exact Hr | exact (captcha_accepts_only_sum some_secret 200 31 (of_unix 0) (of_unix 600) " 8 " Hr)].
Defined.

Theorem itoa64_is_Itoa_witness : in_int64 (-42) /\ itoa64 (-42) = if -42 =? min_int64 then "-" else Strconv.Itoa (-42).
Proof.
  assert (Hr : in_int64 (-42)) by (vm_compute; split; discriminate). split; [exact Hr | exact (itoa64_is_Itoa (-42) Hr)].
Defined.

Theorem security_id_lives_two_days_witness :
  validSecurityID some_secret (currentSecurityID some_secret (of_unix 1728000000)) (of_unix 1728172800) = true.
Proof.
  apply (security_id_lives_two_days some_secret (of_unix 1728000000) (of_unix 1728172800)); [discriminate | split; discriminate | discriminate].
Defined.
