(* ===== verification/Geoip.v ===== *)
(** * Countries of addresses (src/src/geoip/geoip.go)

    The databases are files that are fetched and opened by code outside the
    repository: a reader is what its lookups answer, with [None] for an error,
    and what fetching and opening a file gives is an argument. The floating
    point coordinates of a city are left out, and so is the override that only
    tests set. *)

From S2P Require Import Prelude GoStr GoNet GoTime Http Proxy Csrf.
From Stdlib Require Import Ascii.

Module Geo.

Record ASNRecord := { r_asn : Z; r_org : string }.
Record CityRecord := { r_city : string; r_country : string; r_state1 : string; r_timezone : string }.

Record Info := {
  i_ip : string; CountryCode : string; City : string; State1 : string; Timezone : string; i_asn : Z; ASNOrg : string;
  RegistrantOrg : string;
}.

Record Config := {
  EnableASN : bool; EnableCountry : bool; EnableCity : bool; EnableWHOIS : bool;
  CountryMode : string; DenyCountries : list string; AllowCountries : list string; Allowlist : list string;
}.

Record DB := {
  asnDB : option (IP -> option ASNRecord);
  countDB : option (IP -> option string);
  cityDB : option (IP -> option CityRecord);
  whoisDB : option (IP -> option string);
  g_cfg : Config;
}.

(** ** Opening and updating *)

(** Whether a database is wanted. *)
Definition want_asn (c : Config) : bool := EnableASN c || EnableWHOIS c.
Definition want_country (c : Config) : bool := EnableCountry c || EnableWHOIS c.

(** What fetching and opening each file gives. *)
Record Fetched := {
  f_asn : result (IP -> option ASNRecord);
  f_country : result (IP -> option string);
  f_city : result (IP -> option CityRecord);
  f_whois : result (IP -> option string);
}.

Definition opened {A} (r : result A) : option A := match r with Ok a => Some a | Err _ => None end.

(** [dir_ok] is whether the directory could be made. *)
Definition Open (dir_ok : bool) (f : Fetched) (cfg : Config) : result DB :=
  if negb dir_ok then Err "geoip: create dir"
  else Ok {| asnDB := if want_asn cfg then opened (f_asn f) else None;
             countDB := if want_country cfg then opened (f_country f) else None;
             cityDB := if EnableCity cfg then opened (f_city f) else None;
             whoisDB := if EnableWHOIS cfg then opened (f_whois f) else None;
             g_cfg := cfg |}.

(** One database of an update: the reader afterwards and the errors. *)
Definition update_one {A} (wanted : bool) (name : string) (fetched : result A) (old : option A) : option A * list string :=
  if wanted then
    match fetched with
    | Ok r => (Some r, [])
    | Err e => (old, [name ++ ": " ++ e])
    end
  else (old, []).

Definition Update (f : Fetched) (d : DB) : DB * option string :=
  let c := g_cfg d in
  let '(asn, e1) := update_one (want_asn c) "asn" (f_asn f) (asnDB d) in
  let '(country, e2) := update_one (want_country c) "country" (f_country f) (countDB d) in
  let '(city, e3) := update_one (EnableCity c) "city" (f_city f) (cityDB d) in
  let '(whois, e4) := update_one (EnableWHOIS c) "whois" (f_whois f) (whoisDB d) in
  let errs := (e1 ++ e2 ++ e3 ++ e4)%list in
  ({| asnDB := asn; countDB := country; cityDB := city; whoisDB := whois; g_cfg := c |},
   match errs with [] => None | _ => Some ("geoip update errors: " ++ Strings.Join errs "; ") end).

Definition Close (d : DB) : DB :=
  {| asnDB := None; countDB := None; cityDB := None; whoisDB := None; g_cfg := g_cfg d |}.

(** ** Lookups *)

(** The answer of a reader, if there is one and it has no error. *)
Definition ask {A} (r : option (IP -> option A)) (ip : IP) : option A := f ← r; f ip.

Definition Lookup (d : DB) (ip : IP) : Info :=
  let country := default "" (ask (countDB d) ip) in
  let asn := ask (asnDB d) ip in
  let city := ask (cityDB d) ip in
  {| i_ip := IP_String ip;
     CountryCode := match city with
                    | Some c => if String.eqb country "" then r_country c else country
                    | None => country
                    end;
     City := default "" (r_city <$> city); State1 := default "" (r_state1 <$> city); Timezone := default "" (r_timezone <$> city);
     i_asn := default 0 (r_asn <$> asn); ASNOrg := default "" (r_org <$> asn);
     RegistrantOrg := default "" (ask (whoisDB d) ip) |}.

(** ** The policy *)

Definition geo_private_nets : list IPNet :=
  omap ParseCIDR ["10.0.0.0/8"; "172.16.0.0/12"; "192.168.0.0/16"; "fc00::/7"; "100.64.0.0/10"].

Definition isPrivate (ip : IP) : bool :=
  IsLoopback ip || IsLinkLocalUnicast ip || IsLinkLocalMulticast ip || existsb (fun n => Contains n ip) geo_private_nets.

Section policy.
Context `{Unicode}.

Definition countryMode (c : Config) : string :=
  let m := StringsU.ToLower (StringsU.TrimSpace (CountryMode c)) in
  if existsb (String.eqb m) ["none"; "deny"; "allow"] then m
  else match AllowCountries c, DenyCountries c with
       | _ :: _, _ => "allow"
       | [], _ :: _ => "deny"
       | [], [] => "none"
       end.

Definition allowlisted (c : Config) (ip : IP) : bool :=
  existsb (fun a => String.eqb a (IP_String ip) || match ParseCIDR a with Some n => Contains n ip | None => false end) (Allowlist c).

(** [IsBlocked], for a database that is there. *)
Definition IsBlocked (d : DB) (ip : IP) : bool :=
  if isPrivate ip then false
  else if allowlisted (g_cfg d) ip then false
  else
    let mode := countryMode (g_cfg d) in
    if String.eqb mode "none" then false
    else
      let cc := StringsU.ToUpper (CountryCode (Lookup d ip)) in
      if String.eqb mode "allow" then
        if String.eqb cc "" then false
        else negb (existsb (fun c => String.eqb (StringsU.ToUpper c) cc) (AllowCountries (g_cfg d)))
      else existsb (fun c => String.eqb (StringsU.ToUpper c) cc) (DenyCountries (g_cfg d)).

Definition realIP (r : HttpReq) : option IP := ParseIP (host_of (q_remote r)).

(** [None] when the request is passed on. *)
Definition Middleware (d : DB) (r : HttpReq) : option Response :=
  match realIP r with
  | Some ip => if IsBlocked d ip then Some (http_Error "access denied: your region is not permitted" 403) else None
  | None => None
  end.

Definition LookupRequest (d : DB) (r : HttpReq) : option Info := Lookup d <$> realIP r.

End policy.

(** ** What the policy guarantees *)

Section facts.
Context (U : Unicode).

Lemma countryMode_cases c : countryMode c = "none" \/ countryMode c = "deny" \/ countryMode c = "allow".
Proof.
  unfold countryMode. generalize (StringsU.ToLower (StringsU.TrimSpace (CountryMode c))). intros m.
  cbn [existsb]. rewrite orb_false_r.
  destruct (String.eqb_spec m "none"), (String.eqb_spec m "deny"), (String.eqb_spec m "allow"); cbn [orb]; auto; destruct (AllowCountries c), (DenyCountries c); auto.
Qed.

(** Membership in a list of countries, as the loops test it. *)
Lemma listed l cc : existsb (fun c => String.eqb (StringsU.ToUpper c) cc) l = true <-> cc ∈ StringsU.ToUpper <$> l.
Proof.
  rewrite existsb_exists, list_elem_of_fmap. split.
  - intros (c & Hc & <-%String.eqb_eq). exists c. by rewrite list_elem_of_In.
  - intros (c & -> & Hc). exists c. rewrite <- list_elem_of_In. split; [done | apply String.eqb_refl].
Qed.

(** An address is blocked exactly on evidence: it is public, no entry of the
    allow list names it, and the policy refuses the country a database gives it:
    in the allow mode a known country that is not listed, in the deny mode one
    that is. So nothing is blocked when the databases know no country, unless the
    list of denied countries has an empty name. *)
Theorem blocked_on_evidence (d : DB) (ip : IP) :
  let cc := StringsU.ToUpper (CountryCode (Lookup d ip)) in
  (IsBlocked d ip = true <->
     isPrivate ip = false /\ allowlisted (g_cfg d) ip = false
     /\ (countryMode (g_cfg d) = "allow" /\ cc <> "" /\ ~ cc ∈ StringsU.ToUpper <$> AllowCountries (g_cfg d)
         \/ countryMode (g_cfg d) = "deny" /\ cc ∈ StringsU.ToUpper <$> DenyCountries (g_cfg d)))
  /\ (ask (countDB d) ip = None -> ask (cityDB d) ip = None -> ~ "" ∈ StringsU.ToUpper <$> DenyCountries (g_cfg d) ->
      IsBlocked d ip = false).
Proof.
  cbn zeta. assert (Hiff : IsBlocked d ip = true <->
     isPrivate ip = false /\ allowlisted (g_cfg d) ip = false
     /\ (countryMode (g_cfg d) = "allow" /\ StringsU.ToUpper (CountryCode (Lookup d ip)) <> ""
           /\ ~ StringsU.ToUpper (CountryCode (Lookup d ip)) ∈ StringsU.ToUpper <$> AllowCountries (g_cfg d)
         \/ countryMode (g_cfg d) = "deny"
           /\ StringsU.ToUpper (CountryCode (Lookup d ip)) ∈ StringsU.ToUpper <$> DenyCountries (g_cfg d))).
  { unfold IsBlocked. cbn zeta. rewrite <- !listed. destruct (isPrivate ip); [naive_solver|].
    destruct (allowlisted (g_cfg d) ip); [naive_solver|].
    destruct (countryMode_cases (g_cfg d)) as [->|[->| ->]]; cbn [String.eqb Ascii.eqb Bool.eqb]; [naive_solver|naive_solver|].
    destruct (String.eqb_spec (StringsU.ToUpper (CountryCode (Lookup d ip))) ""); [naive_solver|].
    rewrite negb_true_iff, <- not_true_iff_false. naive_solver. }
  split; [exact Hiff|]. intros Hc Hy He. apply not_true_iff_false. intros Hb. apply Hiff in Hb as (_ & _ & Hb).
  unfold Lookup in Hb. cbn [CountryCode] in Hb. rewrite Hc, Hy in Hb. cbn in Hb. naive_solver.
Qed.

(** An update replaces the readers that could be fetched and keeps the others, so
    a policy that worked goes on working. *)
Lemma update_keeps_working f d :
  let d' := (Update f d).1 in
  countDB d' = (if want_country (g_cfg d) then match f_country f with Ok r => Some r | Err _ => countDB d end else countDB d)
  /\ cityDB d' = (if EnableCity (g_cfg d) then match f_city f with Ok r => Some r | Err _ => cityDB d end else cityDB d)
  /\ g_cfg d' = g_cfg d.
Proof.
  cbn zeta. unfold Update, update_one.
  destruct (want_asn _), (want_country _), (EnableCity _), (EnableWHOIS _), (f_asn f), (f_country f), (f_city f), (f_whois f); done.
Qed.
End facts.

Definition no_country : DB :=
  {| asnDB := None; countDB := Some (fun _ => None); cityDB := None; whoisDB := None;
     g_cfg := {| EnableASN := false; EnableCountry := true; EnableCity := false; EnableWHOIS := false; CountryMode := "allow";
                 DenyCountries := []; AllowCountries := ["DE"]; Allowlist := [] |} |}.

Theorem blocked_on_evidence_witness :
  ask (countDB no_country) [8; 8; 8; 8] = None /\ @IsBlocked ascii_unicode no_country [8; 8; 8; 8] = false.
Proof.
  split; [reflexivity|].
  exact (proj2 (blocked_on_evidence ascii_unicode no_country [8; 8; 8; 8]) eq_refl eq_refl ltac:(intros E; inversion E)).
Defined.

End Geo.
