(* ===== verification/Headers.v ===== *)
(** * Security headers of every response (src/src/server/server.go)

    The policy headers the chain sets before a handler runs, as the list of
    [h.Set] calls in their order. *)

From S2P Require Import Prelude GoStr GoStrProofs GoNet GoTime GoCrypto Http Log Proxy Csrf.
From Stdlib Require Import Ascii.

Definition permissionsPolicy : string :=
  Strings.Join ["accelerometer=()"; "ambient-light-sensor=()"; "battery=()"; "camera=()"; "display-capture=()"; "geolocation=()";
    "gyroscope=()"; "hid=()"; "idle-detection=()"; "magnetometer=()"; "microphone=()"; "midi=()"; "screen-wake-lock=()"; "serial=()";
    "usb=()"; "xr-spatial-tracking=()"; "attribution-reporting=()"; "browsing-topics=()"; "interest-cohort=()"; "autoplay=(self)";
    "encrypted-media=(self)"; "fullscreen=(self)"; "payment=(self)"; "picture-in-picture=(self)"; "publickey-credentials-get=(self)";
    "storage-access=(self)"; "web-share=(self)"] ", ".

(** The configuration these functions read. *)
Record CSPConfig := {
  csp_enabled : bool; csp_mode : string; ScriptSrcOverride : string; ScriptSrcExtra : string; StyleSrcExtra : string;
  ImgSrcExtra : string; FontSrcExtra : string; ConnectSrcExtra : string; FrameSrcExtra : string; EmbedFrameAncestors : string;
  FormActionExtra : string;
}.
Record HSTSConfig := { hsts_enabled : bool; MaxAgeSeconds : Z; IncludeSubdomains : bool; Preload : bool }.
Record HeaderConfig := {
  h_fqdn : string; h_mode : string; h_tls : bool; h_csp : CSPConfig; h_hsts : HSTSConfig; h_api_version : string;
}.

(** A source list with the configured additions. *)
Definition extended (sources extra : string) : string := if String.eqb extra "" then sources else sources ++ " " ++ extra.

Definition public_fqdn (fqdn : string) : bool := negb (String.eqb fqdn "") && negb (String.eqb fqdn "localhost").

Definition script_src (csp : CSPConfig) : string :=
  if negb (String.eqb (ScriptSrcOverride csp) "") then ScriptSrcOverride csp else extended "'self'" (ScriptSrcExtra csp).

Definition frame_ancestors (csp : CSPConfig) (path : string) : string :=
  if isEmbedPath path then
    let a := StringsU.TrimSpace (EmbedFrameAncestors csp) in if String.eqb a "" then "*" else a
  else "'self'".

Definition csp_directives (cfg : HeaderConfig) (path : string) : list string :=
  let csp := h_csp cfg in
  let connect := extended (if public_fqdn (h_fqdn cfg) then "'self' https://" ++ h_fqdn cfg else "'self'") (ConnectSrcExtra csp) in
  app ["default-src 'self'"; "script-src " ++ script_src csp; "style-src " ++ extended "'self' 'unsafe-inline'" (StyleSrcExtra csp);
    "img-src " ++ extended "'self' data: blob: https:" (ImgSrcExtra csp); "font-src " ++ extended "'self' https:" (FontSrcExtra csp);
    "connect-src " ++ connect; "media-src 'self' blob:"; "worker-src 'self' blob:"; "manifest-src 'self'";
    "frame-src " ++ extended "'self'" (FrameSrcExtra csp); "frame-ancestors " ++ frame_ancestors csp path; "base-uri 'self'";
    "form-action " ++ extended "'self'" (FormActionExtra csp); "object-src 'none'"]
    (app (if h_tls cfg then ["upgrade-insecure-requests"] else [])
       ["report-to default"; "report-uri /api/" ++ h_api_version cfg ++ "/server/reports/csp"]).

Definition buildCSP (cfg : HeaderConfig) (path : string) : string * bool :=
  if negb (csp_enabled (h_csp cfg)) then ("", false)
  else (Strings.Join (csp_directives cfg path) "; ",
        String.eqb (csp_mode (h_csp cfg)) "report-only" || String.eqb (h_mode cfg) "development").

Definition buildReportingHeaders (cfg : HeaderConfig) : string * string * string :=
  if negb (public_fqdn (h_fqdn cfg)) || negb (h_tls cfg) then ("", "", "")
  else
    let q := dquote in
    let base := "https://" ++ h_fqdn cfg ++ "/api/" ++ h_api_version cfg ++ "/server/reports" in
    ("default=" ++ q ++ base ++ "/default" ++ q,
     "{" ++ q ++ "group" ++ q ++ ":" ++ q ++ "default" ++ q ++ "," ++ q ++ "max_age" ++ q ++ ":10886400," ++ q ++ "endpoints" ++ q
       ++ ":[{" ++ q ++ "url" ++ q ++ ":" ++ q ++ base ++ "/default" ++ q ++ "}]}",
     "{" ++ q ++ "report_to" ++ q ++ ":" ++ q ++ "default" ++ q ++ "," ++ q ++ "max_age" ++ q ++ ":2592000," ++ q
       ++ "include_subdomains" ++ q ++ ":true}").

(** [random] is what the random source gives, [None] for an error. *)
Definition newRequestID (random : option (list Z)) : string :=
  match random with None => "00000000" | Some b => Hex.EncodeToString b end.

Definition hsts_value (h : HSTSConfig) : string :=
  "max-age=" ++ Strconv.Itoa (MaxAgeSeconds h) ++ (if IncludeSubdomains h then "; includeSubDomains" else "")
  ++ (if Preload h then "; preload" else "").

Definition request_id (random : option (list Z)) (r : HttpReq) : string :=
  if String.eqb (q_header r "X-Request-ID") "" then newRequestID random else q_header r "X-Request-ID".

(** The headers that are set on the response. *)
Definition securityHeadersMiddleware (cfg : HeaderConfig) (random : option (list Z)) (r : HttpReq) : list (string * string) :=
  let '(policy, reportOnly) := buildCSP cfg (q_path r) in
  let '(endpoints, reportTo, nel) := buildReportingHeaders cfg in
  ([("X-Content-Type-Options", "nosniff")]
   ++ (if isEmbedPath (q_path r) then [] else [("X-Frame-Options", "SAMEORIGIN")])
   ++ [("X-XSS-Protection", "1; mode=block"); ("Referrer-Policy", "strict-origin-when-cross-origin");
       ("X-Permitted-Cross-Domain-Policies", "none"); ("Origin-Agent-Cluster", "?1"); ("Cross-Origin-Opener-Policy", "unsafe-none");
       ("Cross-Origin-Embedder-Policy", "unsafe-none"); ("Cross-Origin-Resource-Policy", "cross-origin")]
   ++ (if String.eqb policy "" then []
       else [(if reportOnly then "Content-Security-Policy-Report-Only" else "Content-Security-Policy", policy)])
   ++ [("Permissions-Policy", permissionsPolicy)]
   ++ (if h_tls cfg && hsts_enabled (h_hsts cfg) then [("Strict-Transport-Security", hsts_value (h_hsts cfg))] else [])
   ++ (if String.eqb endpoints "" then [] else [("Reporting-Endpoints", endpoints); ("Report-To", reportTo); ("NEL", nel)])
   ++ [("X-Request-ID", request_id random r)])%list.

(** ** What they guarantee *)

(** A source list that cannot end its directive. *)
Definition one_directive (s : string) : bool := negb (Strings.ContainsAny s ";").

Definition tame (cfg : HeaderConfig) : bool :=
  let csp := h_csp cfg in
  forallb one_directive [ScriptSrcOverride csp; ScriptSrcExtra csp; StyleSrcExtra csp; ImgSrcExtra csp; FontSrcExtra csp;
    ConnectSrcExtra csp; FrameSrcExtra csp; StringsU.TrimSpace (EmbedFrameAncestors csp); FormActionExtra csp; h_fqdn cfg; h_api_version cfg].

Lemma Split_plain s c : Strings.IndexByte s c = None -> Strings.Split s c = [s].
Proof.
  induction s as [|d s IH]; [done|]. cbn. destruct (Ascii.eqb_spec d c); [done|]. intros Hs.
  rewrite IH by by destruct (Strings.IndexByte s c). done.
Qed.

Lemma Split_app_sep x y c : Strings.IndexByte x c = None -> Strings.Split (x ++ String c y) c = x :: Strings.Split y c.
Proof.
  induction x as [|d x IH]; cbn; [by rewrite Ascii.eqb_refl|]. destruct (Ascii.eqb_spec d c); [done|]. intros Hx.
  by rewrite IH by by destruct (Strings.IndexByte x c).
Qed.

(** A join with a separator that begins with the byte to split at. *)
Lemma Split_Join c sp d l : (forall x, x ∈ d :: l -> Strings.IndexByte x c = None) -> Strings.IndexByte sp c = None ->
  Strings.Split (Strings.Join (d :: l) (String c sp)) c = d :: ((fun x => sp ++ x) <$> l).
Proof.
  intros Hl Hsp. revert d Hl. induction l as [|e l IH]; intros d Hl.
  - cbn. apply Split_plain. apply Hl. by left.
  - change (Strings.Join (d :: e :: l) (String c sp)) with (d ++ String c (sp ++ Strings.Join (e :: l) (String c sp))).
    rewrite Split_app_sep by (apply Hl; by left). f_equal. cbn [fmap list_fmap].
    assert (He : Strings.Split (Strings.Join (e :: l) (String c sp)) c = e :: ((fun x => sp ++ x) <$> l))
      by (apply IH; intros x Hx; apply Hl; by right).
    revert He. generalize (Strings.Join (e :: l) (String c sp)) ((fun x => sp ++ x) <$> l). intros j m He.
    clear -Hsp He. induction sp as [|a sp IH]; [exact He|]. cbn in *. destruct (Ascii.eqb_spec a c); [done|].
    rewrite IH by by destruct (Strings.IndexByte sp c). done.
Qed.

Lemma one_directive_app x y : one_directive (x ++ y) = one_directive x && one_directive y.
Proof. unfold one_directive. by rewrite ContainsAny_app, negb_orb. Qed.

Lemma one_directive_extended s e : one_directive s = true -> one_directive e = true -> one_directive (extended s e) = true.
Proof. intros Hs He. unfold extended. destruct (String.eqb e ""); [done|]. by rewrite !one_directive_app, Hs, He. Qed.

Lemma directives_one cfg path : tame cfg = true -> Forall (fun d => one_directive d = true) (csp_directives cfg path).
Proof.
  intros Ht. unfold tame in Ht. cbn [forallb] in Ht.
  apply andb_true_iff in Ht as [H1 [H2 [H3 [H4 [H5 [H6 [H7 [H8 [H9 [H10 [H11 _]%andb_true_iff]%andb_true_iff]%andb_true_iff]%andb_true_iff]%andb_true_iff]%andb_true_iff]%andb_true_iff]%andb_true_iff]%andb_true_iff]%andb_true_iff].
  unfold csp_directives. apply Forall_app. split; [repeat (apply Forall_cons; split) | apply Forall_app; split];
    rewrite ?one_directive_app; cbn [andb]; try done.
  - unfold script_src. destruct (negb _); [done|]. by apply one_directive_extended.
  - by apply one_directive_extended.
  - by apply one_directive_extended.
  - by apply one_directive_extended.
  - apply one_directive_extended; [|done]. destruct (public_fqdn _); [|done]. by rewrite one_directive_app, H10.
  - by apply one_directive_extended.
  - unfold frame_ancestors. destruct (isEmbedPath path); [|done]. by destruct (String.eqb _ "").
  - by apply one_directive_extended.
  - destruct (h_tls cfg); by repeat constructor.
  - repeat (apply Forall_cons; split); [done| |done]. by rewrite !one_directive_app, H11.
Qed.

(** The content policy reads back as the directives it was built from: with
    configured additions that have no semicolon, splitting it at semicolons gives
    exactly those directives. Only embeddable pages may be framed by other sites:
    any other path has both the frame option and the ancestors of the site itself. *)
Theorem csp_reads_back (cfg : HeaderConfig) (random : option (list Z)) (r : HttpReq) :
  tame cfg = true -> csp_enabled (h_csp cfg) = true ->
  (Strings.Split (buildCSP cfg (q_path r)).1 ";" = match csp_directives cfg (q_path r) with
                                                  | [] => []
                                                  | d :: ds => d :: ((fun x => " " ++ x) <$> ds)
                                                  end)
  /\ (isEmbedPath (q_path r) = false ->
      "frame-ancestors 'self'" ∈ csp_directives cfg (q_path r)
      /\ ("X-Frame-Options", "SAMEORIGIN") ∈ securityHeadersMiddleware cfg random r
      /\ exists name, (name, (buildCSP cfg (q_path r)).1) ∈ securityHeadersMiddleware cfg random r
                      /\ (name = "Content-Security-Policy"
                          \/ name = "Content-Security-Policy-Report-Only"
                             /\ (csp_mode (h_csp cfg) = "report-only" \/ h_mode cfg = "development"))).
Proof.
  intros Ht Hen. unfold securityHeadersMiddleware, buildCSP. rewrite Hen. cbn [negb fst].
  pose proof (directives_one cfg (q_path r) Ht) as Hone. split.
  - destruct (csp_directives cfg (q_path r)) as [|d ds] eqn:E; [done|]. apply (Split_Join ";" " "); [|done].
    intros x Hx. apply any_in_set_single. rewrite Forall_forall in Hone. specialize (Hone x Hx).
    unfold one_directive in Hone. by apply negb_true_iff in Hone.
  - intros He. change (String.eqb (Strings.Join (csp_directives cfg (q_path r)) "; ") "") with false.
    destruct (buildReportingHeaders cfg) as [[endpoints reportTo] nel]. rewrite He. split; [|split].
    + unfold csp_directives, frame_ancestors. rewrite He. do 10 right. left.
    + right. left.
    + eexists. split; [rewrite !elem_of_app; right; right; right; left; by left|].
      destruct (String.eqb_spec (csp_mode (h_csp cfg)) "report-only") as [->|]; [by auto|].
      destruct (String.eqb_spec (h_mode cfg) "development") as [->|]; by auto.
Qed.

Definition plain_csp : CSPConfig :=
  {| csp_enabled := true; csp_mode := "enforce"; ScriptSrcOverride := ""; ScriptSrcExtra := ""; StyleSrcExtra := "";
     ImgSrcExtra := ""; FontSrcExtra := ""; ConnectSrcExtra := "wss://live.example"; FrameSrcExtra := ""; EmbedFrameAncestors := " ";
     FormActionExtra := "" |}.
Definition plain_headers : HeaderConfig :=
  {| h_fqdn := "paste.example"; h_mode := "production"; h_tls := true; h_csp := plain_csp;
     h_hsts := {| hsts_enabled := true; MaxAgeSeconds := 31536000; IncludeSubdomains := true; Preload := false |};
     h_api_version := "v1" |}.
Definition embedded : HttpReq :=
  {| q_method := "GET"; q_route := ""; q_query := fun _ => ""; q_proto := "HTTP/1.1"; q_tls_version := 0;
     q_path := "/emb/abc"; q_rawpath := ""; q_rawquery := ""; q_host := "paste.example"; q_remote := "203.0.113.9:40000";
     q_tls := false; q_header := fun _ => ""; q_cookie := fun _ => None; q_form := fun _ => ""; q_peer := None;
     q_allowlisted := false; q_csrf := ""; q_txt := false |}.

Theorem csp_reads_back_witness :
  tame plain_headers = true /\ csp_enabled (h_csp plain_headers) = true
  /\ " frame-ancestors *" ∈ Strings.Split (buildCSP plain_headers (q_path embedded)).1 ";".
Proof.
  split; [reflexivity|]. split; [reflexivity|].
  rewrite (proj1 (csp_reads_back plain_headers None embedded eq_refl eq_refl)). do 10 right. left.
Defined.
