(* ===== verification/Health.v ===== *)
(** * Maintenance mode (src/src/health/monitor.go, server/maintenance.go)

    The monitor that moves the server in and out of maintenance mode, and the
    middleware that refuses writes meanwhile.  Only [tick] changes the state, and
    one goroutine runs it, so that a tick is one step; what the probe answers and
    the clock are arguments, and the callbacks a tick makes are returned. *)

From S2P Require Import Prelude GoStr GoTime Http Proxy Csrf.

(** ** The monitor *)

Inductive mstate := StateStarting | StateNormal | StateMaintenance.
#[export] Instance mstate_eq : EqDecision mstate.
Proof. solve_decision. Defined.

Definition ReasonDatabaseConnection : string := "database_connection".
Definition ReasonFileWrite : string := "file_write".

Record Config := {
  SelfHealingEnabled : bool; RetryInterval : Z; MaxAttempts : Z; NotifyOnEnter : bool; NotifyOnExit : bool;
}.

Record Snapshot := {
  s_State : mstate; s_Reason : string; s_Message : string; s_Since : Z; s_SelfHealing : bool;
  s_Attempts : Z; s_LastAttempt : Z; s_NextAttempt : Z; s_RetryInterval : Z;
}.

(** The whole seconds of a duration, exact below 2^22 seconds. *)
Definition RetrySeconds (s : Snapshot) : Z :=
  let secs := Z.quot (s_RetryInterval s) Second in if secs <? 1 then 1 else secs.

Record Monitor := {
  state : mstate;
  reason : string;
  message : string;
  since : Z;
  attempts : Z;
  lastAttempt : Z;
  nextAttempt : Z;
  selfHealing : bool;
  retryInterval : Z;
  maxAttempts : Z;
  notifyOnEnter : bool;
  notifyOnExit : bool;
  has_checker : bool;
  has_cleaner : bool;
  has_notifier : bool;
}.

Definition New (cfg : Config) : Monitor :=
  {| state := StateStarting; reason := ""; message := ""; since := zero_time; attempts := 0; lastAttempt := zero_time;
     nextAttempt := zero_time; selfHealing := SelfHealingEnabled cfg;
     retryInterval := if RetryInterval cfg <=? 0 then 30 * Second else RetryInterval cfg;
     maxAttempts := MaxAttempts cfg; notifyOnEnter := NotifyOnEnter cfg; notifyOnExit := NotifyOnExit cfg;
     has_checker := false; has_cleaner := false; has_notifier := false |}.

(** [SetChecker], [SetCleaner] and [SetNotifier]; the flags tell whether the
    callback is not nil. *)
Definition set_callbacks (checker cleaner notifier : bool) (m : Monitor) : Monitor :=
  {| state := state m; reason := reason m; message := message m; since := since m; attempts := attempts m;
     lastAttempt := lastAttempt m; nextAttempt := nextAttempt m; selfHealing := selfHealing m;
     retryInterval := retryInterval m; maxAttempts := maxAttempts m; notifyOnEnter := notifyOnEnter m;
     notifyOnExit := notifyOnExit m; has_checker := checker; has_cleaner := cleaner; has_notifier := notifier |}.
Definition SetChecker (c : bool) (m : Monitor) : Monitor := set_callbacks c (has_cleaner m) (has_notifier m) m.
Definition SetCleaner (c : bool) (m : Monitor) : Monitor := set_callbacks (has_checker m) c (has_notifier m) m.
Definition SetNotifier (c : bool) (m : Monitor) : Monitor := set_callbacks (has_checker m) (has_cleaner m) c m.

Definition set_mstate (s : mstate) (reason message : string) (since attempts last next : Z) (m : Monitor) : Monitor :=
  {| state := s; reason := reason; message := message; since := since; attempts := attempts; lastAttempt := last;
     nextAttempt := next; selfHealing := selfHealing m; retryInterval := retryInterval m; maxAttempts := maxAttempts m;
     notifyOnEnter := notifyOnEnter m; notifyOnExit := notifyOnExit m; has_checker := has_checker m;
     has_cleaner := has_cleaner m; has_notifier := has_notifier m |}.

Definition InMaintenance (m : Monitor) : bool := bool_decide (state m = StateMaintenance).

Definition snapshot (m : Monitor) : Snapshot :=
  {| s_State := state m; s_Reason := reason m; s_Message := message m; s_Since := since m; s_SelfHealing := selfHealing m;
     s_Attempts := attempts m; s_LastAttempt := lastAttempt m; s_NextAttempt := nextAttempt m;
     s_RetryInterval := retryInterval m |}.

(** What a transition calls. *)
Inductive callback := Clean | Notify (event : string) (snap : Snapshot).

Definition Enter (why text : string) (t : Z) (m : Monitor) : Monitor * list callback :=
  match state m with
  | StateMaintenance => (m, [])
  | _ =>
      let m := set_mstate StateMaintenance why text t 0 zero_time (t + retryInterval m) m in
      (m, if has_notifier m && notifyOnEnter m then [Notify "enter" (snapshot m)] else [])
  end.

Definition Exit (m : Monitor) : Monitor * list callback :=
  match state m with
  | StateMaintenance =>
      let m := set_mstate StateNormal "" "" zero_time (attempts m) (lastAttempt m) zero_time m in
      (m, if has_notifier m && notifyOnExit m then [Notify "exit" (snapshot m)] else [])
  | _ => (set_mstate StateNormal (reason m) (message m) (since m) (attempts m) (lastAttempt m) (nextAttempt m) m, [])
  end.

(** What the probe answers: nothing is wrong, or a reason and a message. *)
Definition probe : Type := option (string * string).

Definition count_attempt (t : Z) (m : Monitor) : Monitor :=
  if (0 <? maxAttempts m) && (maxAttempts m <=? attempts m) then m
  else set_mstate (state m) (reason m) (message m) (since m) (attempts m + 1) t (t + retryInterval m) m.

Definition tick (p : probe) (t : Z) (m : Monitor) : Monitor * list callback :=
  if negb (has_checker m) then (m, [])
  else
    let cleaned := if bool_decide (state m = StateMaintenance) && String.eqb (reason m) ReasonFileWrite && has_cleaner m
                   then [Clean] else [] in
    match state m with
    | StateMaintenance =>
        if negb (selfHealing m) then (m, cleaned)
        else
          let m := count_attempt t m in
          match p with
          | None => let '(m, calls) := Exit m in (m, cleaned ++ calls)
          | Some _ => (m, cleaned)
          end
    | StateStarting | StateNormal =>
        match p with
        | None => (set_mstate StateNormal (reason m) (message m) (since m) (attempts m) (lastAttempt m) (nextAttempt m) m, cleaned)
        | Some (why, text) => let '(m, calls) := Enter why text t m in (m, cleaned ++ calls)
        end
    end%list.

(** The run of [Start]: a tick at once and one for each signal of the ticker. *)
Fixpoint run (l : list (probe * Z)) (m : Monitor) : Monitor * list callback :=
  match l with
  | [] => (m, [])
  | (p, t) :: l => let '(m, c1) := tick p t m in let '(m, c2) := run l m in (m, c1 ++ c2)
  end%list.

(** ** The server's side *)

(** [criticalCheck], from the answers of the ping and of the disk check. *)
Definition criticalCheck (ping_ok disk_ok : bool) : probe :=
  if negb ping_ok then Some (ReasonDatabaseConnection, "Database connection failed")
  else if negb disk_ok then Some (ReasonFileWrite, "Insufficient disk space for writes")
  else None.

(** [None] when the request is passed on. *)
Definition maintenanceMiddleware (m : option Monitor) (r : HttpReq) : option Response :=
  match m with
  | None => None
  | Some m =>
      if negb (InMaintenance m) then None
      else if negb (is_mutating (q_method r)) then None
      else
        let snap := snapshot m in
        Some {| status := 503;
                headers := [("Retry-After", Strconv.Itoa (RetrySeconds snap)); ("X-Maintenance-Mode", "true");
                            ("X-Maintenance-Reason", s_Reason snap); ("Content-Type", "application/json")];
                body := BJson (JObj [("ok", JBool false); ("error", JStr "MAINTENANCE");
                          ("message", JStr ("Server is in maintenance mode due to: " ++ s_Message snap));
                          ("details", JObj [("reason", JStr (s_Reason snap)); ("self_healing", JBool (s_SelfHealing snap))])]) |}
  end.

(** ** The monitor follows the probes *)

(** The failures since the last probe that found nothing wrong. *)
Definition streak (l : list (probe * Z)) : list ((string * string) * Z) :=
  foldl (fun s x => match x with (None, _) => [] | (Some q, t) => s ++ [(q, t)] end)%list [] l.

Definition capped (limit n : Z) : Z := if 0 <? limit then Z.min limit n else n.

(** What the state is after the probes [l], from the start. *)
Record follows (cfg : Config) (l : list (probe * Z)) (m : Monitor) : Prop := {
  f_checker : has_checker m = true;
  f_healing : selfHealing m = true;
  f_limit : maxAttempts m = MaxAttempts cfg;
  f_state : match streak l with
            | [] => state m = (match l with [] => StateStarting | _ => StateNormal end) /\ reason m = "" /\ message m = "" /\ since m = zero_time
            | ((why, text), t) :: later =>
                state m = StateMaintenance /\ reason m = why /\ message m = text /\ since m = t
                /\ attempts m = capped (MaxAttempts cfg) (Z.of_nat (length later))
            end;
}.

Lemma probe_streak_snoc l p t :
  streak (l ++ [(p, t)]) = match p with None => [] | Some q => streak l ++ [(q, t)] end%list.
Proof. unfold streak. rewrite foldl_app. by destruct p. Qed.

Lemma follows_new cfg cleaner notifier :
  SelfHealingEnabled cfg = true -> follows cfg [] (SetNotifier notifier (SetCleaner cleaner (SetChecker true (New cfg)))).
Proof. intros Hs. split; cbn; auto. Qed.

Lemma count_attempt_state t m : state (count_attempt t m) = state m /\ reason (count_attempt t m) = reason m
  /\ message (count_attempt t m) = message m /\ since (count_attempt t m) = since m
  /\ has_checker (count_attempt t m) = has_checker m /\ selfHealing (count_attempt t m) = selfHealing m
  /\ maxAttempts (count_attempt t m) = maxAttempts m
  /\ attempts (count_attempt t m) = if (0 <? maxAttempts m) && (maxAttempts m <=? attempts m) then attempts m else attempts m + 1.
Proof. unfold count_attempt. by case_match. Qed.

Lemma follows_tick cfg l m p t : follows cfg l m -> follows cfg (l ++ [(p, t)]) (tick p t m).1.
Proof.
  intros [Hc Hh Hl Hs]. unfold tick. rewrite Hc. cbn [negb].
  destruct (streak l) as [|[[why text] t0] later] eqn:Es.
  - destruct Hs as (Hst & Hr & Hm & Hsi). assert (Hst' : state m = StateStarting \/ state m = StateNormal).
    { rewrite Hst. destruct l; auto. }
    destruct p as [[why text]|].
    + assert (E : (let '(m0, calls) := Enter why text t m in (m0, [] ++ calls)%list).1
                  = set_mstate StateMaintenance why text t 0 zero_time (t + retryInterval m) m).
      { unfold Enter. by destruct Hst' as [->| ->]. }
      replace (bool_decide (state m = StateMaintenance)) with false by (by destruct Hst' as [->| ->]).
      cbn [andb]. replace (match state m with StateMaintenance => _ | _ => _ end)
        with (let '(m0, calls) := Enter why text t m in (m0, [] ++ calls)%list) by (by destruct Hst' as [->| ->]).
      rewrite E. split; cbn; try done. rewrite probe_streak_snoc, Es. cbn. unfold capped. split_and!; try done. destruct (Z.ltb_spec 0 (MaxAttempts cfg)); cbn; lia.
    + replace (bool_decide (state m = StateMaintenance)) with false by (by destruct Hst' as [->| ->]).
      cbn [andb]. destruct Hst' as [E|E]; rewrite E; (split; cbn; try done; rewrite probe_streak_snoc; by destruct l).
  - destruct Hs as (Hst & Hr & Hm & Hsi & Ha). rewrite Hst, Hh. cbn [negb].
    destruct (count_attempt_state t m) as (E1 & E2 & E3 & E4 & E5 & E6 & E7 & E8). destruct p as [q|].
    + split; cbn [fst]; try congruence. rewrite probe_streak_snoc, Es. cbn [app]. split_and!; try congruence.
      rewrite E8, Ha, Hl, length_app. cbn [length]. unfold capped.
      destruct (Z.ltb_spec 0 (MaxAttempts cfg)); cbn [andb]; [|lia].
      match goal with |- context [?a <=? ?b] => destruct (Z.leb_spec a b) end; lia.
    + unfold Exit. rewrite E1, Hst. split; cbn; try congruence. rewrite probe_streak_snoc. by destruct l.
Qed.

Lemma run_app l1 l2 m : (run (l1 ++ l2) m).1 = (run l2 (run l1 m).1).1.
Proof.
  revert m. induction l1 as [|[p t] l1 IH]; intros m; [done|]. cbn [app run]. specialize (IH (tick p t m).1).
  destruct (tick p t m) as [m1 c1]. cbn [fst] in IH. destruct (run (l1 ++ l2) m1), (run l1 m1). exact IH.
Qed.

(** The state machine follows its probes: with self-healing on, after any
    run of the monitor the server is in maintenance mode exactly if the last probe
    failed; then the reason and the time are those of the first failure since the
    last success, the attempts are the failures after it, up to the cap, and
    exactly the writes are refused. *)
Theorem monitor_follows_probes (cfg : Config) (cleaner notifier : bool) (l : list (probe * Z)) :
  SelfHealingEnabled cfg = true ->
  let m := (run l (SetNotifier notifier (SetCleaner cleaner (SetChecker true (New cfg))))).1 in
  follows cfg l m
  /\ (forall r, is_some (maintenanceMiddleware (Some m) r) = is_mutating (q_method r) && negb (bool_decide (streak l = [])))
  /\ (streak l = [] <-> l = [] \/ exists l' t, l = (l' ++ [(None, t)])%list).
Proof.
  intros Hs m. assert (Hf : follows cfg l m).
  { unfold m. clear m. induction l as [|[p t] l IH] using rev_ind; [by apply follows_new|].
    rewrite run_app. cbn [run]. destruct (tick p t _) as [m1 c1] eqn:E. cbn [fst].
    replace m1 with ((tick p t (run l (SetNotifier notifier (SetCleaner cleaner (SetChecker true (New cfg))))).1).1) by (by rewrite E).
    by apply follows_tick. }
  split; [done|]. split.
  - intros r. destruct Hf as [_ _ _ Hst]. unfold maintenanceMiddleware, InMaintenance.
    destruct (streak l) as [|[[why text] t] later].
    + replace (bool_decide (state m = StateMaintenance)) with false by (destruct Hst as [-> _]; by destruct l).
      cbn. by rewrite andb_false_r.
    + destruct Hst as [-> _]. cbn. by destruct (is_mutating (q_method r)).
  - destruct l as [|[p t] l _] using rev_ind; [split; auto|]. rewrite probe_streak_snoc. split.
    + intros E. right. destruct p as [q|]; [by destruct (streak l) | by exists l, t].
    + intros [E|(l' & t' & E)]; [by destruct l|]. apply app_inj_tail in E as [_ [= -> ->]]. done.
Qed.

(** Without self-healing the server never leaves maintenance mode. *)
Lemma no_healing_stays p t m :
  selfHealing m = false -> state m = StateMaintenance -> (tick p t m).1 = m.
Proof. intros Hs Hm. unfold tick. rewrite Hm, Hs. by destruct (has_checker m). Qed.

(** The cap on attempts only stops their count: the probes go on, and one that
    succeeds still ends the maintenance mode. *)
Lemma cap_does_not_stop_healing cfg :
  SelfHealingEnabled cfg = true -> MaxAttempts cfg = 1 ->
  state (run [(Some (ReasonFileWrite, ""), 0); (Some (ReasonFileWrite, ""), 1); (Some (ReasonFileWrite, ""), 2); (None, 3)]
           (SetChecker true (New cfg))).1 = StateNormal.
Proof.
  destruct cfg as [? ri ? ? ?]. cbn. intros -> ->. unfold SetChecker, set_callbacks, New. cbn. by destruct (ri <=? 0).
Qed.

Definition healing : Config :=
  {| SelfHealingEnabled := true; RetryInterval := 0; MaxAttempts := 2; NotifyOnEnter := true; NotifyOnExit := true |}.
Definition some_probes : list (probe * Z) := [(None, 1); (Some (ReasonDatabaseConnection, "down"), 31); (Some (ReasonFileWrite, "full"), 61)].

Theorem monitor_follows_probes_witness :
  let m := (run some_probes (SetNotifier true (SetCleaner true (SetChecker true (New healing))))).1 in
  reason m = ReasonDatabaseConnection /\ follows healing some_probes m
  /\ (forall r, is_some (maintenanceMiddleware (Some m) r) = is_mutating (q_method r) && negb (bool_decide (streak some_probes = [])))
  /\ (streak some_probes = [] <-> some_probes = [] \/ exists l' t, some_probes = (l' ++ [(None, t)])%list).
Proof. split; [reflexivity | exact (monitor_follows_probes healing true true some_probes eq_refl)]. Defined.
