(* ===== verification/Access.v ===== *)
(** * Who may come in, and by which path (src/src/server)

    The allow and block lists and the cleaning of paths (security_middleware.go),
    and from server.go the redirect of trailing slashes, the [.txt] suffix, the
    addresses that may read the metrics, the operator's token and the counters of
    requests. *)

From S2P Require Import Prelude GoStr GoNet GoUrl GoTime GoCrypto Http Proxy Csrf.
From Stdlib Require Import Ascii.

Definition bad_request : Response :=
  writeJSON 400 (JObj [("ok", JBool false); ("error", JStr "BAD_REQUEST"); ("message", JStr "bad request")]).

Definition set_path (p raw : string) (r : HttpReq) : HttpReq :=
  {| q_method := q_method r; q_route := q_route r; q_query := q_query r; q_proto := q_proto r; q_tls_version := q_tls_version r;
     q_path := p; q_rawpath := raw; q_rawquery := q_rawquery r; q_host := q_host r;
     q_remote := q_remote r; q_tls := q_tls r; q_header := q_header r; q_cookie := q_cookie r; q_form := q_form r;
     q_peer := q_peer r; q_allowlisted := q_allowlisted r; q_csrf := q_csrf r; q_txt := q_txt r |}.

(** ** Paths *)

Definition pathSecurityMiddleware `{Unicode} (r : HttpReq) : Response + HttpReq :=
  let original := q_path r in
  let raw := if String.eqb (q_rawpath r) "" then original else q_rawpath r in
  if Strings.Contains original ".." || Strings.Contains raw ".." || Strings.Contains (StringsU.ToLower raw) "%2e"
  then inl bad_request
  else
    let cleaned := Clean original in
    let cleaned := if Strings.HasPrefix cleaned "/" then cleaned else "/" ++ cleaned in
    let cleaned := if negb (String.eqb original "/") && Strings.HasSuffix original "/" && negb (Strings.HasSuffix cleaned "/")
                   then cleaned ++ "/" else cleaned in
    inr (set_path cleaned (q_rawpath r) r).

(** [p[strings.LastIndex(p, "/"):]]. *)
Definition last_segment (p : string) : string :=
  match Strings.LastIndexByte p "/" with Some i => Strings.drop i p | None => p end.

Definition noTrailingSlash (r : HttpReq) : Response + HttpReq :=
  let p := q_path r in
  if negb (String.eqb p "/") && Strings.HasSuffix p "/" && negb (Strings.Contains (last_segment p) ".") then
    let p := Strings.TrimRight p "/" in
    inl (http_Redirect (redirect_location p (RequestURI p (q_rawpath r) (q_rawquery r))) 301)
  else inr r.

Definition set_txt (p : string) (r : HttpReq) : HttpReq :=
  {| q_method := q_method r; q_route := p; q_query := q_query r; q_proto := q_proto r; q_tls_version := q_tls_version r;
     q_path := p; q_rawpath := ""; q_rawquery := q_rawquery r; q_host := q_host r;
     q_remote := q_remote r; q_tls := q_tls r; q_header := q_header r; q_cookie := q_cookie r; q_form := q_form r;
     q_peer := q_peer r; q_allowlisted := q_allowlisted r; q_csrf := q_csrf r; q_txt := true |}.

Definition txtExtensionMiddleware (r : HttpReq) : HttpReq :=
  if Strings.HasPrefix (q_path r) "/api/" && Strings.HasSuffix (q_path r) ".txt"
  then set_txt (Strings.TrimSuffix (q_path r) ".txt") r else r.

(** ** Lists of addresses *)

Definition allowlistSet : Type := list IPNet.

(** An entry: a network, or an address that is a network of its own. *)
Definition allow_entry (e : string) : option IPNet :=
  if Strings.Contains e "/" then ParseCIDR e
  else ip ← ParseIP e; ParseCIDR (e ++ if is_some (To4 ip) then "/32" else "/128").

Definition newAllowlistSet (entries : list string) : allowlistSet := omap allow_entry entries.

Definition allow_contains (s : allowlistSet) (ip : IP) : bool := existsb (fun n => Contains n ip) s.

Definition set_allowlisted (r : HttpReq) : HttpReq :=
  {| q_method := q_method r; q_route := q_route r; q_query := q_query r; q_proto := q_proto r; q_tls_version := q_tls_version r;
     q_path := q_path r; q_rawpath := q_rawpath r; q_rawquery := q_rawquery r; q_host := q_host r;
     q_remote := q_remote r; q_tls := q_tls r; q_header := q_header r; q_cookie := q_cookie r; q_form := q_form r;
     q_peer := q_peer r; q_allowlisted := true; q_csrf := q_csrf r; q_txt := q_txt r |}.

(** The address of the client, if it is one. *)
Definition remote_ip (r : HttpReq) : option IP := ParseIP (host_of (q_remote r)).

Definition allowlistMiddleware (allowlist : list string) (r : HttpReq) : HttpReq :=
  match remote_ip r with
  | Some ip => if allow_contains (newAllowlistSet allowlist) ip then set_allowlisted r else r
  | None => r
  end.

Record blocklistStore := { bl_ips : gset string; bl_nets : list IPNet }.

(** The lines of a file, as [bufio.Scanner] splits them (a carriage return before
    the newline is dropped; no line is longer than its buffer). *)
Definition newline_char : ascii := "010"%char.
Definition scan_lines (s : string) : list string :=
  let ls := Strings.Split s newline_char in
  let ls := if String.eqb (List.last ls "") "" then removelast ls else ls in
  (fun l => Strings.TrimSuffix l (String "013" "")) <$> ls.

Definition block_line (bs : blocklistStore) (line : string) : blocklistStore :=
  let line := StringsU.TrimSpace line in
  if String.eqb line "" || Strings.HasPrefix line "#" then bs
  else if Strings.Contains line "/" then
    match ParseCIDR line with
    | Some n => {| bl_ips := bl_ips bs; bl_nets := bl_nets bs ++ [n] |}
    | None => bs
    end
  else match ParseIP line with
       | Some ip => {| bl_ips := {[IP_String ip]} ∪ bl_ips bs; bl_nets := bl_nets bs |}
       | None => bs
       end.

(** The directory: its entries in order, [None] for what cannot be opened or is a
    directory itself; [None] when it is absent. *)
Definition loadBlocklists (dir : option (list (string * option string))) : blocklistStore :=
  let none := {| bl_ips := ∅; bl_nets := [] |} in
  match dir with
  | None => none
  | Some files =>
      foldl (fun bs f => if Strings.HasSuffix (fst f) ".txt" then
                           match snd f with Some text => foldl block_line bs (scan_lines text) | None => bs end
                         else bs) none files
  end.

Definition block_contains (bs : blocklistStore) (ip : IP) : bool :=
  bool_decide (IP_String ip ∈ bl_ips bs) || existsb (fun n => Contains n ip) (bl_nets bs).

Definition blocklistMiddleware (dir : option (list (string * option string))) (r : HttpReq) : option Response :=
  if q_allowlisted r then None
  else match remote_ip r with
       | Some ip => if block_contains (loadBlocklists dir) ip then Some (forbidden "FORBIDDEN" "forbidden") else None
       | None => None
       end.

Definition metricsIPAllowlistMiddleware (allowed : list string) (r : HttpReq) : option Response :=
  let denied := Some (forbidden "FORBIDDEN" "metrics access denied") in
  match remote_ip r with
  | None => denied
  | Some ip =>
      if IsLoopback ip then None
      else if Nat.ltb 0 (length allowed) && allow_contains (newAllowlistSet allowed) ip then None
      else denied
  end.

(** ** The operator's token *)

Definition zeroHash : list Z := replicate 32 0.

(** [operatorTokenHash] is the hash of the configured token, all zeros when there
    is none; [None] when the request is passed on. *)
Definition requireOperatorToken (operatorTokenHash : list Z) (r : HttpReq) : option Response :=
  let auth := q_header r "Authorization" in
  let prefix := "Bearer " in
  let refuse := Some {| status := 401;
                        headers := [("WWW-Authenticate", "Bearer realm=" ++ of_bytes [34] ++ "pastebin" ++ of_bytes [34]); ("Content-Type", "application/json")];
                        body := BJson (JObj [("ok", JBool false); ("error", JStr "UNAUTHORIZED"); ("message", JStr "operator token required")]) |} in
  if (strlen auth <=? strlen prefix) || negb (Strings.HasPrefix auth prefix) then refuse
  else
    let incoming := Sha256.Sum256 (bytes (Strings.drop (String.length prefix) auth)) in
    if bool_decide (operatorTokenHash = zeroHash) then
      Some (writeJSON 503 (JObj [("ok", JBool false); ("error", JStr "SERVER_ERROR"); ("message", JStr "server.token not configured")]))
    else if negb (bool_decide (incoming = operatorTokenHash)) then refuse
    else None.

(** ** Counters of requests *)

Record requestStats := { total : Z; buckets : list Z; lastHour : nat }.
Definition no_requests : requestStats := {| total := 0; buckets := replicate 24 0; lastHour := 0 |}.

(** The hours after [from] up to and with [h], around the clock. *)
Fixpoint clear_hours (fuel cur h : nat) (b : list Z) : list Z :=
  match fuel with
  | O => b
  | S fuel => if Nat.eqb cur ((h + 1) mod 24) then b else clear_hours fuel ((cur + 1) mod 24) h (<[cur := 0]> b)
  end.

(** [inc] at an hour of the day. *)
Definition inc (h : nat) (s : requestStats) : requestStats :=
  let b := if Nat.eqb h (lastHour s) then buckets s else clear_hours 24 ((lastHour s + 1) mod 24) h (buckets s) in
  {| total := wrap64 (total s + 1); buckets := alter (fun n => wrap64 (n + 1)) h b; lastHour := h |}.

Definition last24h (s : requestStats) : Z := foldl (fun a b => wrap64 (a + b)) 0 (buckets s).
