(* ===== verification/AccessProofs.v ===== *)
(** * Theorems about paths, address lists and counters *)

From S2P Require Import Prelude GoStr GoStrProofs GoNet GoUrl GoTime Http Proxy ConfigText Csrf Access.
From Stdlib Require Import Ascii.

(** ** Counters of requests *)

(** The hour of the day, as a bucket. *)
Definition slot (h : Z) : nat := Z.to_nat (h mod 24).

Lemma slot_lt h : (slot h < 24)%nat.
Proof. unfold slot. dlia. Qed.

Lemma slot_succ h : ((slot h + 1) mod 24)%nat = slot (h + 1).
Proof. unfold slot. apply Nat2Z.inj. rewrite Nat2Z.inj_mod. dlia. Qed.

Lemma slot_eq x y : slot x = slot y <-> x mod 24 = y mod 24.
Proof. unfold slot. split; [|congruence]. intros H. dlia. Qed.

(** The slots of the hours from [start] on, [n] of them. *)
Definition in_span (start : Z) (n : nat) (i : nat) : bool := (Z.of_nat i - start) mod 24 <? Z.of_nat n.

Lemma nth_insert (b : list Z) c i : (c < length b)%nat -> nth i (<[c := 0]> b) 0 = if Nat.eqb i c then 0 else nth i b 0.
Proof.
  intros Hc. rewrite !nth_lookup. destruct (Nat.eqb_spec i c) as [->|Hne].
  - by rewrite list_lookup_insert_eq.
  - by rewrite list_lookup_insert_ne.
Qed.

Lemma clear_hours_nth n : forall start fuel (b : list Z) h,
  (n <= 23)%nat -> (n < fuel)%nat -> length b = 24%nat -> h = slot (start + Z.of_nat n - 1) ->
  length (clear_hours fuel (slot start) h b) = 24%nat
  /\ forall i, (i < 24)%nat -> nth i (clear_hours fuel (slot start) h b) 0 = if in_span start n i then 0 else nth i b 0.
Proof.
  induction n as [|n IH]; intros start fuel b h Hn Hfuel Hlen ->; (destruct fuel as [|fuel]; [lia|]); cbn [clear_hours];
    rewrite slot_succ.
  - replace (start + Z.of_nat 0 - 1 + 1) with start by lia. rewrite Nat.eqb_refl. split; [done|]. intros i Hi.
    unfold in_span. by rewrite (proj2 (Z.ltb_ge _ _)) by dlia.
  - replace (Nat.eqb _ _) with false by (symmetry; apply Nat.eqb_neq; rewrite slot_eq; dlia). rewrite slot_succ.
    destruct (IH (start + 1) fuel (<[slot start := 0]> b) (slot (start + Z.of_nat (S n) - 1))) as [Hl Hi];
      [lia | lia | by rewrite length_insert | f_equal; lia |].
    split; [done|]. intros i Hlt. rewrite Hi, nth_insert by (rewrite ?Hlen; auto using slot_lt).
    unfold in_span. destruct (Nat.eqb_spec i (slot start)) as [->|Hne].
    + destruct (_ <? _); [|]; by rewrite (proj2 (Z.ltb_lt _ _)) by (unfold slot; dlia).
    + assert (Hs : Z.of_nat i <> start mod 24) by (unfold slot in Hne; dlia).
      destruct (Z.ltb_spec ((Z.of_nat i - (start + 1)) mod 24) (Z.of_nat n)), (Z.ltb_spec ((Z.of_nat i - start) mod 24) (Z.of_nat (S n)));
        try done; exfalso; dlia.
Qed.

(** The number of requests that came in the hours given, in order. *)
Definition run_hours (hs : list Z) : requestStats := foldl (fun s h => inc (slot h) s) no_requests hs.

Definition count (p : Z -> bool) (l : list Z) : Z := Z.of_nat (length (keep p l)).

(** Each hour at most 23 after the one before. *)
Fixpoint steady (prev : Z) (hs : list Z) : Prop :=
  match hs with [] => True | h :: hs => prev <= h < prev + 24 /\ steady h hs end.

Lemma count_app p l1 l2 : count p (l1 ++ l2) = count p l1 + count p l2.
Proof. unfold count. rewrite keep_app, length_app. lia. Qed.

Lemma count_ext p q l : (forall x, x ∈ l -> p x = q x) -> count p l = count q l.
Proof. intros Hpq. unfold count. by rewrite (keep_ext p q). Qed.

Lemma count_le p l : 0 <= count p l <= Z.of_nat (length l).
Proof.
  unfold count. split; [lia|]. induction l as [|x l IH]; [done|]. rewrite keep_cons. destruct (p x); cbn [length]; lia.
Qed.

Lemma count_none p l : (forall x, x ∈ l -> p x = false) -> count p l = 0.
Proof.
  intros Hp. rewrite (count_ext p (fun _ => false)) by done. unfold count.
  assert (E : keep (fun _ => false) l = []) by (clear; induction l; [done|]; by rewrite keep_cons). by rewrite E.
Qed.

(** The state after the hours [hs], the last of which is [h]. *)
Record counted (hs : list Z) (h : Z) (s : requestStats) : Prop := {
  n_length : length (buckets s) = 24%nat;
  n_last : lastHour s = slot h;
  n_past : forall x, x ∈ hs -> x <= h;
  n_bucket : forall i, (i < 24)%nat -> nth i (buckets s) 0 = count (fun x => (h - 24 <? x) && Nat.eqb (slot x) i) hs;
}.

(** The buckets when the hour turns from [h] to [h']. *)
Lemma turn_hour hs h h' s :
  counted hs h s -> h <= h' < h + 24 ->
  let b := if Nat.eqb (slot h') (lastHour s) then buckets s else clear_hours 24 ((lastHour s + 1) mod 24)%nat (slot h') (buckets s) in
  length b = 24%nat /\ forall i, (i < 24)%nat -> nth i b 0 = count (fun x => (h' - 24 <? x) && Nat.eqb (slot x) i) hs.
Proof.
  intros [Hlen Hlast Hpast Hb] Hh. cbn zeta. rewrite Hlast. destruct (Nat.eqb_spec (slot h') (slot h)) as [E|Hne].
  - assert (h' = h) as -> by (apply slot_eq in E; dlia). auto.
  - rewrite slot_succ. destruct (clear_hours_nth (Z.to_nat (h' - h)) (h + 1) 24 (buckets s) (slot h')) as [Hl Hn];
      [lia | lia | done | f_equal; lia |].
    split; [done|]. intros i Hi. rewrite Hn by done. unfold in_span. rewrite Z2Nat.id by lia.
    destruct (Z.ltb_spec ((Z.of_nat i - (h + 1)) mod 24) (h' - h)) as [Hspan|Hspan].
    + symmetry. apply count_none. intros x Hx%Hpast. apply andb_false_iff.
      destruct (Z.ltb_spec (h' - 24) x); [right|by left]. apply Nat.eqb_neq. intros E. subst i. unfold slot in Hspan. dlia.
    + rewrite Hb by done. apply count_ext. intros x Hx%Hpast. destruct (Nat.eqb_spec (slot x) i) as [E|]; [|by rewrite !andb_false_r].
      rewrite !andb_true_r. subst i. unfold slot in Hspan.
      destruct (Z.ltb_spec (h - 24) x), (Z.ltb_spec (h' - 24) x); try done; exfalso; dlia.
Qed.

Lemma counted_inc hs h h' s :
  counted hs h s -> h <= h' < h + 24 -> Z.of_nat (length hs) < max_int64 -> counted (hs ++ [h']) h' (inc (slot h') s).
Proof.
  intros Hc Hh Hmax. destruct (turn_hour hs h h' s Hc Hh) as [Hlen Hb]. destruct Hc as [_ _ Hpast _].
  split; cbn [buckets lastHour inc].
  - by rewrite length_alter.
  - done.
  - intros x [Hx|Hx]%elem_of_app; [apply Hpast in Hx; lia | apply list_elem_of_singleton in Hx; lia].
  - intros i Hi. rewrite count_app. specialize (Hb i Hi). rewrite nth_lookup in Hb |- *.
    pose proof (count_le (fun x => (h' - 24 <? x) && Nat.eqb (slot x) i) hs) as Hle. unfold max_int64 in Hmax.
    unfold count at 2. rewrite keep_cons. replace (h' - 24 <? h') with true by (symmetry; apply Z.ltb_lt; lia). cbn [andb].
    destruct (Nat.eqb_spec (slot h') i) as [<-|Hne].
    + rewrite list_lookup_alter_eq. destruct (lookup_lt_is_Some_2 _ (slot h') ltac:(rewrite Hlen; apply slot_lt)) as [v Hv].
      rewrite Hv in Hb |- *. cbn in Hb |- *. subst v. rewrite wrap64_id by (unfold in_int64, min_int64, max_int64; lia). lia.
    + rewrite list_lookup_alter_ne by done. rewrite Hb. cbn. lia.
Qed.

(** The sum of the buckets. *)
Definition sum (l : list Z) : Z := foldr Z.add 0 l.

Lemma sum_nonneg l : Forall (fun x => 0 <= x) l -> 0 <= sum l.
Proof. unfold sum. induction 1; cbn; lia. Qed.

Lemma sum_wrap l : forall a, 0 <= a -> Forall (fun x => 0 <= x) l -> a + sum l <= max_int64 ->
  foldl (fun a b => wrap64 (a + b)) a l = a + sum l.
Proof.
  induction l as [|x l IH]; intros a Ha Hl Hs; [cbn; lia|]. cbn [foldl]. change (sum (x :: l)) with (x + sum l) in *. apply Forall_cons in Hl as [Hx Hl].
  pose proof (sum_nonneg l Hl).
  rewrite wrap64_id by (unfold in_int64, min_int64, max_int64 in *; lia). rewrite IH; (lia || done).
Qed.

Lemma sum_buckets (q : Z -> bool) (f : Z -> nat) (n : nat) (l : list Z) :
  (forall x, x ∈ l -> (f x < n)%nat) ->
  sum ((fun i => count (fun x => q x && Nat.eqb (f x) i) l) <$> seq 0 n) = count q l.
Proof.
  assert (H0 : forall m k, sum ((fun i => count (fun x => q x && Nat.eqb (f x) i) []) <$> seq k m) = 0).
  { induction m as [|m IHm]; intros k; [done|]. cbn. exact (IHm (S k)). }
  assert (H1 : forall x m k, sum ((fun i => count (fun x => q x && Nat.eqb (f x) i) [x]) <$> seq k m)
                             = if q x && (k <=? f x)%nat && (f x <? k + m)%nat then 1 else 0).
  { intros x. induction m; intros k; cbn [seq fmap list_fmap sum foldr].
    - replace (_ && _ && _) with false; [done|]. symmetry. destruct (q x), (Nat.leb_spec k (f x)), (Nat.ltb_spec (f x) (k + 0)); try done; exfalso; lia.
    - fold (sum ((fun i => count (fun x => q x && Nat.eqb (f x) i) [x]) <$> seq (S k) m)). rewrite IHm. unfold count.
      rewrite keep_cons. destruct (q x); cbn [andb]; [|done].
      destruct (Nat.eqb_spec (f x) k), (Nat.leb_spec (S k) (f x)), (Nat.leb_spec k (f x)), (Nat.ltb_spec (f x) (S k + m)),
        (Nat.ltb_spec (f x) (k + S m)); cbn; lia. }
  assert (Hadd : forall (g h : nat -> Z) l, sum ((fun i => g i + h i) <$> l) = sum (g <$> l) + sum (h <$> l)).
  { intros g h k. induction k as [|i k IHk]; [done|]. unfold sum in *. cbn. lia. }
  induction l as [|x l IH]; intros Hf; [apply H0|].
  rewrite (count_app q [x] l : count q (x :: l) = _). rewrite <- IH by (intros; apply Hf; by right).
  assert (Hx : (f x < n)%nat) by (apply Hf; by left). 
  transitivity (sum ((fun i => count (fun x => q x && Nat.eqb (f x) i) [x] + count (fun x => q x && Nat.eqb (f x) i) l) <$> seq 0 n)).
  { f_equal. apply list_fmap_ext. intros _ i _. apply (count_app _ [x] l). }
  rewrite Hadd, H1. f_equal. unfold count. rewrite keep_cons. cbn [keep]. destruct (q x); cbn [andb]; [|done].
  by rewrite (proj2 (Nat.ltb_lt _ _)) by lia.
Qed.

Lemma counted_sum hs h s : counted hs h s -> Z.of_nat (length hs) <= max_int64 -> last24h s = count (fun x => h - 24 <? x) hs.
Proof.
  intros [Hlen _ _ Hb] Hmax. unfold last24h.
  assert (E : buckets s = (fun i => count (fun x => (h - 24 <? x) && Nat.eqb (slot x) i) hs) <$> seq 0 24).
  { apply (nth_ext _ _ 0 0); [by rewrite length_fmap, length_seq|]. rewrite Hlen. intros i Hi. rewrite Hb by done.
    rewrite (nth_indep _ 0 ((fun i => count (fun x => (h - 24 <? x) && Nat.eqb (slot x) i) hs) 0%nat))
      by (by rewrite length_fmap, length_seq). rewrite (map_nth (fun i => count (fun x => (h - 24 <? x) && Nat.eqb (slot x) i) hs)).
    by rewrite seq_nth. }
  pose proof (sum_buckets (fun x => h - 24 <? x) slot 24 hs (fun x _ => slot_lt x)) as Hsum. cbn beta in Hsum.
  rewrite E, sum_wrap, Hsum; [done | lia | |].
  - apply Forall_fmap, Forall_forall. intros i _. apply count_le.
  - rewrite Hsum. pose proof (count_le (fun x => h - 24 <? x) hs). lia.
Qed.

Lemma last_cons {A} (l : list A) : forall x d, List.last (x :: l) d = List.last l x.
Proof. induction l as [|y l IH]; intros x d; [done|]. change (List.last (y :: l) d = List.last (y :: l) x). by rewrite !IH. Qed.

Lemma counted_run hs : forall past h s,
  counted past h s -> steady h hs -> Z.of_nat (length (past ++ hs)) <= max_int64 ->
  counted (past ++ hs) (List.last hs h) (foldl (fun s h => inc (slot h) s) s hs).
Proof.
  induction hs as [|h' hs IH]; intros past h s Hc Hs Hmax; [by rewrite app_nil_r|].
  destruct Hs as [Hh Hs]. cbn [foldl]. rewrite length_app in Hmax. cbn [length] in Hmax.
  rewrite last_cons. replace (past ++ h' :: hs)%list with ((past ++ [h']) ++ hs)%list by (by rewrite <- app_assoc). apply IH; [|done|].
  - apply counted_inc with h; [done | done | lia].
  - rewrite !length_app. cbn [length]. lia.
Qed.

(** The figure of the last 24 hours is exact while the server is in use: if
    every request comes in an hour at most 23 after the hour of the one before,
    then after the last of them the sum of the ring is the number of requests in
    the 24 hours that end with its own. *)
Theorem last24h_exact (h : Z) (hs : list Z) :
  steady h hs -> Z.of_nat (length (h :: hs)) <= max_int64 ->
  last24h (run_hours (h :: hs)) = count (fun x => List.last hs h - 24 <? x) (h :: hs).
Proof.
  intros Hs Hmax. apply counted_sum; [|done].
  assert (H0 : counted [] (h - h mod 24) no_requests).
  { split; [done | unfold slot; cbn; dlia | set_solver |]. intros i Hi. do 24 (destruct i as [|i]; [done|]). lia. }
  apply (counted_run (h :: hs) [] (h - h mod 24)) in H0; [|split; [dlia | done] | done].
  by rewrite last_cons in H0.
Qed.

(** After a quiet day it is not: a request exactly 24 hours after the one
    before finds its own bucket untouched and counts the old request again. *)
Lemma stale_day_counted (h : Z) : last24h (run_hours [h; h + 24]) = 2.
Proof.
  unfold run_hours. cbn [foldl]. assert (E : slot (h + 24) = slot h) by (apply slot_eq; dlia). rewrite E.
  pose proof (slot_lt h) as Hl. generalize dependent (slot h). intros i _ Hi. do 24 (destruct i as [|i]; [reflexivity|]). lia.
Qed.

Theorem last24h_exact_witness :
  steady 478000 [478003; 478026] /\ Z.of_nat (length [478000; 478003; 478026]) <= max_int64
  /\ last24h (run_hours [478000; 478003; 478026])
     = count (fun x => List.last [478003; 478026] 478000 - 24 <? x) [478000; 478003; 478026].
Proof.
  assert (Hs : steady 478000 [478003; 478026]) by (cbn; lia).
  assert (Hm : Z.of_nat (length [478000; 478003; 478026]) <= max_int64) by (unfold max_int64; cbn; lia).
  split; [exact Hs | split; [exact Hm | exact (last24h_exact 478000 [478003; 478026] Hs Hm)]].
Defined.

(** ** Paths *)

Lemma Split_no_sep s c x : x ∈ Strings.Split s c -> Strings.IndexByte x c = None.
Proof.
  revert x. induction s as [|d s IH]; cbn [Strings.Split]; intros x Hx; [by apply list_elem_of_singleton in Hx as ->|].
  destruct (Ascii.eqb d c) eqn:E.
  - apply elem_of_cons in Hx as [->|Hx]; [done | by apply IH].
  - destruct (Strings.Split s c) as [|y ys] eqn:Es.
    + apply list_elem_of_singleton in Hx as ->. cbn. by rewrite E.
    + apply elem_of_cons in Hx as [->|Hx]; [|apply IH; by right]. cbn. rewrite E. by rewrite (IH y) by by left.
Qed.

(** A component of a clean path. *)
Definition component (c : string) : Prop := c <> "" /\ c <> "." /\ c <> ".." /\ Strings.IndexByte c "/" = None.

Lemma clean_components cs : forall stack,
  Forall component stack -> (forall c, c ∈ cs -> Strings.IndexByte c "/" = None) -> Forall component (foldl (clean_step true) stack cs).
Proof.
  induction cs as [|c cs IH]; intros stack Hst Hcs; [done|]. cbn [foldl]. apply IH; [|intros d Hd; apply Hcs; by right].
  specialize (Hcs c ltac:(by left)). unfold clean_step.
  destruct (String.eqb_spec c ""); [done|]. destruct (String.eqb_spec c "."); [done|]. cbn [orb].
  destruct (String.eqb_spec c "..").
  - destruct Hst as [|top rest Htop Hrest]; [done|]. destruct (String.eqb_spec top ".."); [|done].
    destruct Htop as (_ & _ & Hd & _). done.
  - by constructor.
Qed.

Lemma Clean_rooted p : Strings.HasPrefix p "/" = true ->
  exists cs, Forall component cs /\ Clean p = "/" ++ Strings.Join cs "/".
Proof.
  intros Hp. unfold Clean. rewrite Hp. destruct (String.eqb_spec p "") as [->|]; [discriminate|].
  eexists. split; [|reflexivity]. apply Forall_rev, clean_components; [done|]. intros c. apply Split_no_sep.
Qed.

(** The names on a path: what is between its slashes, save nothing and dots. *)
Definition path_names (p : string) : list string :=
  keep (fun c => negb (String.eqb c "") && negb (String.eqb c ".")) (Strings.Split p "/").

(** The path that a request for [p] goes on with: the names of [p] under the
    root, with a slash at the end if [p] has names and a slash at its end. *)
Definition clean_path (p : string) : string :=
  "/" ++ Strings.Join (path_names p) "/"
  ++ (if Strings.HasSuffix p "/" && negb (Nat.eqb (length (path_names p)) 0) then "/" else "").

Lemma clean_steps_names cs : forall stack, ~ ".." ∈ cs ->
  foldl (clean_step true) stack cs = (rev (keep (fun c => negb (String.eqb c "") && negb (String.eqb c ".")) cs) ++ stack)%list.
Proof.
  induction cs as [|c cs IH]; intros stack Hcs; [done|]. apply not_elem_of_cons in Hcs as [Hc Hcs]. cbn [foldl].
  rewrite IH by done. rewrite keep_cons. unfold clean_step.
  destruct (String.eqb_spec c ""), (String.eqb_spec c "."); cbn [negb andb orb]; try done.
  destruct (String.eqb_spec c ".."); [by subst|]. cbn [rev]. by rewrite <- app_assoc.
Qed.

Lemma Split_piece s c x : x ∈ Strings.Split s c -> occurs x s.
Proof.
  revert x. induction s as [|d s IH]; intros x; cbn [Strings.Split].
  - intros ->%list_elem_of_singleton. by exists "", "".
  - destruct (Ascii.eqb d c).
    + intros [->|Hx]%elem_of_cons; [by exists "", (String d s)|]. destruct (IH _ Hx) as (u & v & ->). by exists (String d u), v.
    + destruct (Strings.Split s c) as [|y ys] eqn:E; [intros ->%list_elem_of_singleton; by exists "", s|].
      intros [->|Hx]%elem_of_cons.
      * assert (Hy : exists v, s = y ++ v).
        { clear -E. revert y ys E. induction s as [|e s IH]; intros y ys; cbn [Strings.Split]; [intros [= <- _]; by exists ""|].
          destruct (Ascii.eqb e c); [intros [= <- _]; by eexists|]. destruct (Strings.Split s c) as [|z zs]; [intros [= <- _]; by exists s|].
          intros [= <- _]. destruct (IH z zs eq_refl) as [v ->]. by exists v. }
        destruct Hy as [v ->]. by exists "", v.
      * destruct (IH x ltac:(by right)) as (u & v & ->). by exists (String d u), v.
Qed.

Lemma names_components p : ~ occurs ".." p -> Forall component (path_names p).
Proof.
  intros Hp. apply Forall_forall. unfold path_names. intros c [Hc Hn]%keep_elem. apply andb_true_iff in Hn as [H1 H2].
  apply negb_true_iff, String.eqb_neq in H1. apply negb_true_iff, String.eqb_neq in H2.
  split; [done|]. split; [done|]. split; [|by apply Split_no_sep in Hc]. intros ->. by apply Split_piece in Hc.
Qed.

Lemma Clean_names p : Strings.HasPrefix p "/" = true -> ~ occurs ".." p -> Clean p = "/" ++ Strings.Join (path_names p) "/".
Proof.
  intros Hp Hd. unfold Clean. rewrite Hp. destruct (String.eqb_spec p "") as [->|]; [discriminate|].
  rewrite clean_steps_names by (intros Hx; by apply Split_piece in Hx). by rewrite app_nil_r, rev_involutive.
Qed.

Lemma component_last c : component c -> Strings.HasSuffix c "/" = false.
Proof.
  intros (_ & _ & _ & Hi). apply not_true_iff_false. intros [x ->]%HasSuffix_spec.
  revert Hi. clear. induction x as [|d x IH]; cbn; [done|]. destruct (Ascii.eqb d "/"); [done|]. by destruct (Strings.IndexByte (x ++ "/") "/").
Qed.

Lemma Join_last cs : cs <> [] -> Forall component cs -> Strings.HasSuffix ("/" ++ Strings.Join cs "/") "/" = false.
Proof.
  intros Hne Hcs. apply not_true_iff_false. intros [x Hx]%HasSuffix_spec. revert x Hx. induction Hcs as [|c cs Hc Hcs IH]; [done|].
  intros x Hx. destruct cs as [|d cs].
  - cbn in Hx. assert (Hl : c = "" \/ Strings.HasSuffix c "/" = true).
    { destruct x as [|e x]; [by injection Hx; auto|]. injection Hx as _ ->. right. apply HasSuffix_app. }
    destruct Hl as [->|Hl]; [by destruct Hc|]. by rewrite component_last in Hl.
  - change (Strings.Join (c :: d :: cs) "/") with (c ++ "/" ++ Strings.Join (d :: cs) "/") in Hx.
    assert (Hl : exists y, "/" ++ Strings.Join (d :: cs) "/" = y ++ "/").
    { assert (Hs : Strings.HasSuffix (("/" ++ c) ++ ("/" ++ Strings.Join (d :: cs) "/")) "/" = true).
      { apply HasSuffix_spec. exists x. exact Hx. }
      rewrite HasSuffix_app_short in Hs by (cbn; lia). by apply HasSuffix_spec in Hs. }
    destruct Hl as [y Hy]. by apply (IH ltac:(done) y).
Qed.

(** What the path check does with a rooted path. *)
Lemma path_checked (U : Unicode) (r : HttpReq) :
  Strings.HasPrefix (q_path r) "/" = true ->
  let sent := if decide (q_rawpath r = "") then q_path r else q_rawpath r in
  let climbs := occurs ".." (q_path r) \/ occurs ".." sent \/ occurs "%2e" (StringsU.ToLower sent) in
  (climbs /\ pathSecurityMiddleware r = inl bad_request)
  \/ (~ climbs /\ pathSecurityMiddleware r = inr (set_path (clean_path (q_path r)) (q_rawpath r) r)).
Proof.
  intros Hp. cbv zeta. unfold pathSecurityMiddleware. cbv zeta.
  replace (if String.eqb (q_rawpath r) "" then q_path r else q_rawpath r)
    with (if decide (q_rawpath r = "") then q_path r else q_rawpath r)
    by (destruct (decide (q_rawpath r = "")), (String.eqb_spec (q_rawpath r) ""); done).
  set (sent := if decide _ then _ else _). clearbody sent.
  destruct (Strings.Contains (q_path r) ".." || _ || _) eqn:Ebad.
  - left. split; [|done]. apply orb_true_iff in Ebad as [[?|?]%orb_true_iff|?]; rewrite <- !Contains_iff; auto.
  - right. apply orb_false_iff in Ebad as [[E1 E2]%orb_false_iff E3]. apply Contains_not in E1, E2, E3.
    split; [naive_solver|]. rewrite (Clean_names _ Hp E1). pose proof (names_components _ E1) as Hcs.
    assert (Hpre : Strings.HasPrefix ("/" ++ Strings.Join (path_names (q_path r)) "/") "/" = true) by (cbn; by destruct (Strings.Join _ "/")).
    rewrite Hpre. unfold clean_path. do 2 f_equal. destruct (path_names (q_path r)) as [|c cs] eqn:En.
    + cbn [length Nat.eqb negb Strings.Join]. rewrite andb_false_r, andb_false_r. done.
    + rewrite <- En, (Join_last (path_names (q_path r))) by (rewrite ?En; done). rewrite En. cbn [length Nat.eqb negb].
      rewrite !andb_true_r. destruct (String.eqb_spec (q_path r) "/") as [E|_]; [by rewrite E in En|]. cbn [negb andb].
      destruct (Strings.HasSuffix (q_path r) "/"); [by rewrite string_app_assoc | by rewrite string_app_nil_r].
Qed.

(** C22 — What the path check lets through, for a rooted path: a request is
    refused with 400 exactly when two dots occur in its path or in the path as it
    was sent, or an encoded dot ([%2e], in either case) occurs in the path as it
    was sent; any other one goes on, changed in nothing but its path, which is
    the names between the slashes of the requested path without the empty ones
    and the dots, under the root, and with a slash at the end only if there was
    one.  None of these names is empty, a dot, two dots or has a slash in it. *)
Theorem path_security (U : Unicode) (r : HttpReq) :
  Strings.HasPrefix (q_path r) "/" = true ->
  let sent := if decide (q_rawpath r = "") then q_path r else q_rawpath r in
  let climbs := occurs ".." (q_path r) \/ occurs ".." sent \/ occurs "%2e" (StringsU.ToLower sent) in
  match pathSecurityMiddleware r with
  | inl resp => climbs /\ status resp = 400
  | inr r' => ~ climbs /\ r' = set_path (clean_path (q_path r)) (q_rawpath r) r /\ Forall component (path_names (q_path r))
  end.
Proof.
  intros Hp. cbv zeta. destruct (path_checked U r Hp) as [[Hc ->]|[Hc ->]]; cbv zeta in Hc; [by split|].
  split; [done|]. split; [done|]. apply names_components. naive_solver.
Qed.

(** ** The redirect of trailing slashes *)

(** Characters of host names. *)
Definition host_char (c : ascii) : bool := is_alnum (byte c) || Ascii.eqb c "." || Ascii.eqb c "-".

Lemma host_char_safe c : host_char c = true -> path_safe c = true /\ Ascii.eqb c "/" = false /\ Ascii.eqb c "?" = false
  /\ Ascii.eqb c "@" = false /\ Ascii.eqb c ":" = false.
Proof. intros H. destruct c as [[] [] [] [] [] [] [] []]; try discriminate H; auto. Qed.

Lemma host_index c h : Strings.forall_byte host_char h = true -> host_char c = false -> Strings.IndexByte h c = None.
Proof.
  intros Hh Hc. induction h as [|d h IH]; [done|]. cbn in *. apply andb_true_iff in Hh as [Hd Hh].
  destruct (Ascii.eqb_spec d c) as [->|]; [congruence|]. by rewrite IH.
Qed.

Lemma host_escape h : Strings.forall_byte host_char h = true -> escape_path h = h.
Proof.
  induction h as [|d h IH]; [done|]. cbn. intros [Hd Hh]%andb_true_iff. destruct (host_char_safe d Hd) as (-> & _). by rewrite IH.
Qed.

(** The redirect that removes a trailing slash leaves the site: a request for
    the path of two slashes, any host name and a slash is answered with a
    permanent redirect to that host. *)
Theorem trailing_slash_open_redirect (h : string) (r : HttpReq) :
  h <> "" -> Strings.forall_byte host_char h = true ->
  q_path r = "//" ++ h ++ "/" -> q_rawpath r = "" -> q_rawquery r = "" ->
  noTrailingSlash r = inl (http_Redirect ("//" ++ h) 301).
Proof.
  intros Hne Hh Hp Hraw Hq. unfold noTrailingSlash. rewrite Hp, Hraw, Hq.
  replace (String.eqb ("//" ++ h ++ "/") "/") with false by (symmetry; apply String.eqb_neq; discriminate).
  rewrite string_app_assoc, HasSuffix_app. unfold last_segment. rewrite LastIndexByte_snoc, drop_app. cbn [negb andb].
  change (Strings.Contains "/" ".") with false. cbn [negb]. rewrite TrimRight_snoc by done.
  assert (Htrim : Strings.TrimRight ("//" ++ h) "/" = "//" ++ h).
  { destruct (string_snoc h Hne) as (x & c & ->). rewrite string_app_assoc. apply TrimRight_id. cbn.
    assert (Hc : host_char c = true).
    { clear -Hh. rewrite forall_byte_app in Hh. apply andb_true_iff in Hh as [_ Hh]. cbn in Hh. by rewrite andb_true_r in Hh. }
    destruct (host_char_safe c Hc) as (_ & E & _). unfold Strings.in_set. cbn. by rewrite E. }
  rewrite Htrim. do 2 f_equal. unfold RequestURI, EscapedPath. cbn [String.eqb negb andb].
  assert (Hesc : escape_path ("//" ++ h) = "//" ++ h) by (cbn; by rewrite host_escape).
  replace (String.eqb ("//" ++ h) "*") with false by (symmetry; apply String.eqb_neq; discriminate).
  rewrite Hesc. change (Strings.ContainsAny (before "/" ("//" ++ h)) ":") with false. cbn [String.append]. rewrite string_app_nil_r.
  unfold redirect_location. enough (Hn : names_host (String "/" (String "/" h)) = true) by by rewrite Hn. unfold names_host, before.
  replace (Strings.IndexByte (String "/" (String "/" h)) "?") with (@None nat)
    by (symmetry; cbn; by rewrite (host_index "?" h Hh eq_refl)).
  rewrite drop_app_2, (host_index "/" h Hh eq_refl). cbn [Strings.HasPrefix].
  apply andb_true_iff. split; [apply andb_true_iff; split; [by destruct h|]|]; apply negb_true_iff.
  - destruct h as [|c h]; [done|]. cbn in Hh. apply andb_true_iff in Hh as [Hc _]. destruct (host_char_safe c Hc) as (_ & E & _).
    unfold Strings.HasPrefix. cbn [String.prefix]. destruct (Ascii.ascii_dec "/" c) as [<-|]; [discriminate E | reflexivity].
  - destruct (Strings.HasSuffix h "@") eqn:Es; [|done]. exfalso. unfold Strings.HasSuffix in Es.
    apply andb_true_iff in Es as [_ Es]. apply String.eqb_eq in Es.
    apply (forall_byte_substring _ (String.length h - String.length "@") (String.length "@")) in Hh. by rewrite Es in Hh.
Qed.

(** The exception for names of files is never taken: the last segment of a path
    that ends with a slash is that slash. *)
Lemma file_exemption_never_applies (p : string) (r : HttpReq) :
  p <> "" -> q_path r = p ++ "/" -> exists q, noTrailingSlash r = inl q.
Proof.
  intros Hne Hp. unfold noTrailingSlash. rewrite Hp.
  replace (String.eqb (p ++ "/") "/") with false by (symmetry; apply String.eqb_neq; destruct p as [|c [|]]; done).
  rewrite HasSuffix_app. unfold last_segment. rewrite LastIndexByte_snoc, drop_app. cbn. by eexists.
Qed.

(** ** Witnesses *)

(** A request for a path, with no headers. *)
Definition request_for (p : string) : HttpReq :=
  {| q_method := "GET"; q_route := ""; q_query := fun _ => ""; q_proto := "HTTP/1.1"; q_tls_version := 0;
     q_path := p; q_rawpath := ""; q_rawquery := ""; q_host := "paste.example"; q_remote := "203.0.113.9:40000";
     q_tls := false; q_header := fun _ => ""; q_cookie := fun _ => None; q_form := fun _ => ""; q_peer := None;
     q_allowlisted := false; q_csrf := ""; q_txt := false |}.

Theorem path_security_witness :
  Strings.HasPrefix (q_path (request_for "/a//./b/")) "/" = true
  /\ @pathSecurityMiddleware ascii_unicode (request_for "/a//./b/") = inr (set_path "/a/b/" "" (request_for "/a//./b/"))
  /\ Forall component ["a"; "b"]
  /\ @pathSecurityMiddleware ascii_unicode (request_for "/a/../b") = inl bad_request
  /\ ~ occurs ".." "/a//./b/".
Proof.
  pose proof (path_security ascii_unicode (request_for "/a//./b/") eq_refl) as Hs.
  assert (E : @pathSecurityMiddleware ascii_unicode (request_for "/a//./b/") = inr (set_path "/a/b/" "" (request_for "/a//./b/")))
    by (vm_compute; reflexivity).
  cbv zeta in Hs. rewrite E in Hs. destruct Hs as (Hno & _ & Hcs). split; [reflexivity|]. split; [exact E|]. split; [exact Hcs|].
  split; [vm_compute; reflexivity|]. intros Hx. apply Hno. left. exact Hx.
Defined.

Theorem trailing_slash_open_redirect_witness :
  "evil.example" <> "" /\ Strings.forall_byte host_char "evil.example" = true
  /\ noTrailingSlash (request_for "//evil.example/") = inl (http_Redirect "//evil.example" 301).
Proof.
  split; [discriminate|]. split; [reflexivity|].
  exact (trailing_slash_open_redirect "evil.example" (request_for "//evil.example/") ltac:(discriminate) eq_refl eq_refl eq_refl eq_refl).
Defined.
