(* ===== verification/Guards.v ===== *)
(** * The chain of middleware (src/src/server/server.go, access_log.go)

    A handler takes a request and the server's state to a reply and the state
    afterwards; a middleware takes a handler to a handler, as in the source, and
    [setupRoutes] is their composition in the order of the [Use] calls. A handler
    that panics has no response, and the headers set before it remain. The
    cleaning of the routing path is chi's and a parameter; its compression and
    the metrics are not seen here. *)

From S2P Require Import Prelude GoStr GoStrProofs GoNet GoUrl GoTime GoCrypto Http Log Proxy ProxyProofs Csrf CsrfProofs Geoip Headers Health Access AccessProofs.
From Stdlib Require Import Ascii.

(** ** Requests, replies and the state *)

(** chi's CleanPath: the routing path from the path and the raw path. *)
Class Chi := { clean_route : string -> string -> string }.

Record Reply := { p_headers : list (string * string); p_cookies : list SetCookie; p_result : option Response }.

Record Srv := {
  g_learner : option domainLearner;
  g_stats : requestStats;
  g_active : Z;
  g_access : list AccessEntry;
  g_error : list (string * list string);
}.

Definition handler : Type := HttpReq -> Srv -> Reply * Srv.

(** What the configuration and the runtime give while one request is served. *)
Record Env := {
  v_proxy : ProxyConfig; v_headers : HeaderConfig; v_sec_fetch : bool; v_secret : list Z; v_csrf : CSRFConfig; v_cors : Cors;
  v_domain_env : string; v_allowlist : list string; v_blocklists : option (list (string * option string)); v_geo : option Geo.DB;
  v_log_health : bool; v_debug : bool; v_monitor : option Monitor;
  v_now : Z; v_hour : nat; v_latency : Z; v_nonce : result (list Z); v_random : option (list Z); v_size : Response -> Z;
}.

Definition set_learner (d : option domainLearner) (s : Srv) : Srv :=
  {| g_learner := d; g_stats := g_stats s; g_active := g_active s; g_access := g_access s; g_error := g_error s |}.
Definition set_stats (st : requestStats) (active : Z) (s : Srv) : Srv :=
  {| g_learner := g_learner s; g_stats := st; g_active := active; g_access := g_access s; g_error := g_error s |}.
Definition log_access (e : AccessEntry) (s : Srv) : Srv :=
  {| g_learner := g_learner s; g_stats := g_stats s; g_active := g_active s; g_access := (g_access s ++ [e])%list; g_error := g_error s |}.
Definition log_error (msg : string) (fields : list string) (s : Srv) : Srv :=
  {| g_learner := g_learner s; g_stats := g_stats s; g_active := g_active s; g_access := g_access s;
     g_error := (g_error s ++ [(msg, fields)])%list |}.

(** The value of a panic: the one that asks net/http to abort the reply, or
    another one, as it prints. *)
Inductive PanicValue := ErrAbortHandler | PanicText (text : string).

(** What net/http sends for a handler that returns without writing. *)
Definition empty_200 : Response := {| status := 200; headers := []; body := BText "" |}.

Definition answer (resp : Response) : Reply := {| p_headers := []; p_cookies := []; p_result := Some resp |}.
Definition add_headers (hs : list (string * string)) (p : Reply) : Reply :=
  {| p_headers := (hs ++ p_headers p)%list; p_cookies := p_cookies p; p_result := p_result p |}.
Definition add_cookie (c : option SetCookie) (p : Reply) : Reply :=
  {| p_headers := p_headers p; p_cookies := match c with Some c => c :: p_cookies p | None => p_cookies p end; p_result := p_result p |}.

(** ** Middleware from what it decides *)

Definition Mw : Type := handler -> handler.

(** It rewrites the request. *)
Definition rewriting (f : HttpReq -> HttpReq) : Mw := fun next r s => next (f r) s.

(** It may refuse the request. *)
Definition refusing (f : HttpReq -> option Response) : Mw :=
  fun next r s => match f r with Some resp => (answer resp, s) | None => next r s end.

(** It refuses the request or rewrites it. *)
Definition checking (f : HttpReq -> Response + HttpReq) : Mw :=
  fun next r s => match f r with inl resp => (answer resp, s) | inr r => next r s end.

Definition set_route (p : string) (r : HttpReq) : HttpReq :=
  {| q_method := q_method r; q_route := p; q_query := q_query r; q_proto := q_proto r; q_tls_version := q_tls_version r;
     q_path := q_path r; q_rawpath := q_rawpath r; q_rawquery := q_rawquery r; q_host := q_host r;
     q_remote := q_remote r; q_tls := q_tls r; q_header := q_header r; q_cookie := q_cookie r; q_form := q_form r;
     q_peer := q_peer r; q_allowlisted := q_allowlisted r; q_csrf := q_csrf r; q_txt := q_txt r |}.

(** The part of a request that the detection of clients reads. *)
Definition client_view (r : HttpReq) : Request :=
  {| r_path := q_path r; r_id := ""; r_host := q_host r; r_tls := q_tls r; r_header := q_header r; r_txt := q_txt r; r_query := [];
     r_body := ""; r_urlform := None; r_multipart := None; r_parsed := false |}.

Definition errorCodeForStatus (status : Z) : string :=
  if status =? 400 then "BAD_REQUEST" else if status =? 401 then "UNAUTHORIZED" else if status =? 403 then "FORBIDDEN"
  else if status =? 404 then "NOT_FOUND" else if status =? 405 then "METHOD_NOT_ALLOWED" else if status =? 502 then "BAD_GATEWAY"
  else if status =? 503 then "MAINTENANCE" else "SERVER_ERROR".

Definition supportedLangs : list string := ["en"; "es"; "fr"; "de"; "zh"; "ar"; "ja"].

Definition tlsVersionName (v : Z) : string :=
  if v =? 769 then "TLS1.0" else if v =? 770 then "TLS1.1" else if v =? 771 then "TLS1.2" else if v =? 772 then "TLS1.3" else "".

Definition isHealthzPath (p : string) : bool :=
  existsb (String.eqb p) ["/healthz"; "/server/healthz"; "/api/healthz"]
  || (Strings.HasPrefix p "/api/" && Strings.HasSuffix p "/server/healthz").

Section chain.
Context `{Unicode} `{UrlParser} `{PublicSuffix} `{Chi}.
Context (page : HttpReq -> Z -> string -> Response).
Context (v : Env).

(** ** Errors (the themed page of browsers is the parameter [page]) *)

Definition detectClientType (r : HttpReq) : string :=
  let accept := q_header r "Accept" in
  if Strings.Contains accept "application/json" then "json"
  else if Strings.Contains accept "text/html" then "html"
  else if Strings.Contains accept "text/plain" then "text"
  else if IsOurCliClient (client_view r) then "json"
  else if IsTextBrowser (client_view r) then "html"
  else if IsHttpTool (client_view r) then "text"
  else "html".

Definition renderErrorPage (r : HttpReq) (status : Z) (message : string) : Response :=
  if negb (String.eqb (detectClientType r) "html") then
    writeJSON status (JObj [("ok", JBool false); ("error", JStr (errorCodeForStatus status)); ("message", JStr message)])
  else page r status message.

Definition clientIP (r : HttpReq) : string := host_of (q_remote r).

Definition finish (resp : Response) (p : Reply) : Reply :=
  {| p_headers := p_headers p; p_cookies := p_cookies p; p_result := Some resp |}.

(** A panic becomes an error page, and [what] is the value of the panic.  The
    deferred function has called [recover] before it looks at the value, so that
    [http.ErrAbortHandler] does not panic on: nothing is written, and net/http
    ends the reply of a handler that returns without writing as an empty 200. *)
Definition recoverer (what : HttpReq -> PanicValue) : Mw := fun next r s =>
  let '(p, s) := next r s in
  match p_result p with
  | Some _ => (p, s)
  | None =>
      match what r with
      | ErrAbortHandler => (finish empty_200 p, s)
      | PanicText text =>
          (finish (renderErrorPage r 500 "An internal server error occurred.") p,
           log_error "panic recovered" ["panic"; text; "method"; q_method r; "path"; q_path r; "ip"; clientIP r] s)
      end
  end.

(** ** The steps that are more than a decision *)

Definition domain_observe : Mw := fun next r s =>
  next r (set_learner (domainObserveMiddleware (v_proxy v) (v_now v) r <$> g_learner s) s).

Definition CleanPath : Mw := rewriting (fun r => if String.eqb (q_route r) "" then set_route (clean_route (q_path r) (q_rawpath r)) r else r).

Definition security_headers : Mw := fun next r s =>
  let '(p, s) := next r s in (add_headers (securityHeadersMiddleware (v_headers v) (v_random v) r) p, s).

Definition csrf : Mw := fun next r s =>
  match csrfMiddleware (v_secret v) (v_csrf v) (v_nonce v) r with
  | inl resp => (answer resp, s)
  | inr (r, cookie) => let '(p, s) := next r s in (add_cookie cookie p, s)
  end.

Definition cors : Mw := fun next r s =>
  let '(hs, passed) := corsMiddleware (v_proxy v) (v_cors v) (v_domain_env v) (g_learner s) r in
  let '(p, s) := if passed then next r s
                 else (answer {| status := 204; headers := []; body := BText "" |}, s) in
  (add_headers hs p, s).

Definition access_entry (r : HttpReq) (resp : Response) : AccessEntry :=
  let info := match v_geo v with Some d => Geo.LookupRequest d r | None => None end in
  {| RemoteIP := clientIP r; e_Time := v_now v; Method := q_method r; e_Path := q_path r; e_Query := q_rawquery r;
     Protocol := q_proto r; e_Status := status resp; e_Bytes := v_size v resp; Referer := q_header r "Referer";
     UserAgent := q_header r "User-Agent"; Latency := v_latency v; RequestID := request_id (v_random v) r; FQDN := q_host r;
     TLSVersion := if q_tls r then tlsVersionName (q_tls_version r) else "";
     Country := default "" (Geo.CountryCode <$> info);
     ASN := match info with Some i => if Geo.i_asn i =? 0 then "" else Strconv.Itoa (Geo.i_asn i) | None => "" end |}.

(** A panic passes through and leaves no entry. *)
Definition accessLogMiddleware : Mw := fun next r s =>
  let '(p, s) := next r s in
  match p_result p with
  | None => (p, s)
  | Some resp =>
      if (200 <=? status resp) && (status resp <? 300) && negb (v_debug v) && negb (v_log_health v) && isHealthzPath (q_path r) then (p, s)
      else
        let e := access_entry r resp in
        let s := log_access e s in
        (p, if 500 <=? status resp
            then log_error ("http " ++ Strconv.Itoa (status resp))
                   ["method"; Method e; "path"; e_Path e; "ip"; RemoteIP e; "request_id"; RequestID e] s
            else s)
  end.

(** The count of active requests goes down again even after a panic. *)
Definition countRequests : Mw := fun next r s =>
  let '(p, s) := next r (set_stats (inc (v_hour v) (g_stats s)) (wrap64 (g_active s + 1)) s) in
  (p, set_stats (g_stats s) (wrap64 (g_active s - 1)) s).

Definition IsSupported (lang : string) : bool := existsb (String.eqb (StringsU.ToLower (StringsU.TrimSpace lang))) supportedLangs.

Definition setPreferenceCookie (r : HttpReq) (name value : string) : SetCookie :=
  {| sc_name := name; sc_value := value; sc_path := "/"; sc_max_age := 365 * 24 * 60 * 60;
     sc_secure := cookie_secure (v_csrf v) r; sc_http_only := false; sc_same_site := "Lax" |}.

Definition langCookieMiddleware : Mw := fun next r s =>
  let lang := q_query r "lang" in
  let '(p, s) := next r s in
  (if negb (String.eqb lang "") && IsSupported lang
   then add_cookie (Some (setPreferenceCookie r "lang" (StringsU.ToLower lang))) p else p, s).

(** ** The chain *)

Definition setupRoutes (what : HttpReq -> PanicValue) (routes : handler) : handler :=
  rewriting (realIPMiddleware (v_proxy v))
  (domain_observe
  (recoverer what
  (CleanPath
  (checking noTrailingSlash
  (checking pathSecurityMiddleware
  (security_headers
  (refusing (secFetchMiddleware (v_sec_fetch v) (csrf_exempt (v_csrf v)))
  (csrf
  (cors
  (rewriting (allowlistMiddleware (v_allowlist v))
  (refusing (blocklistMiddleware (v_blocklists v))
  (refusing (fun r => match v_geo v with Some d => Geo.Middleware d r | None => None end)
  (accessLogMiddleware
  (countRequests
  (rewriting txtExtensionMiddleware
  (refusing (maintenanceMiddleware (v_monitor v))
  (langCookieMiddleware routes))))))))))))))))).

End chain.
