(* ===== verification/GuardsProofs.v ===== *)
(** * What the chain of middleware lets through

    The handlers are consulted only about requests that passed every check, every
    request is answered even when a handler panics, and the access log and the
    counters account for a request once. *)

From S2P Require Import Prelude GoStr GoStrProofs GoNet GoUrl GoTime GoCrypto Http Log Proxy ProxyProofs Csrf CsrfProofs Geoip Headers Health Access AccessProofs Guards.
From Stdlib Require Import Ascii.

Section guards.
Context (U : Unicode) (P : UrlParser) (S : PublicSuffix) (K : Chi).
Context (page : HttpReq -> Z -> string -> Response) (v : Env).

(** ** One middleware at a time: when the next handler matters *)

Lemma rewriting_ext f n n' r s : n (f r) s = n' (f r) s -> rewriting f n r s = rewriting f n' r s.
Proof. done. Qed.

Lemma refusing_ext f n n' r s : (f r = None -> n r s = n' r s) -> refusing f n r s = refusing f n' r s.
Proof. unfold refusing. destruct (f r); auto. Qed.

Lemma checking_ext f n n' r s : (forall r', f r = inr r' -> n r' s = n' r' s) -> checking f n r s = checking f n' r s.
Proof. unfold checking. destruct (f r); auto. Qed.

Lemma domain_observe_ext n n' r s : (forall s, n r s = n' r s) -> domain_observe v n r s = domain_observe v n' r s.
Proof. unfold domain_observe. auto. Qed.

Lemma recoverer_ext w n n' r s : n r s = n' r s -> recoverer page w n r s = recoverer page w n' r s.
Proof. unfold recoverer. by intros ->. Qed.

Lemma security_headers_ext n n' r s : n r s = n' r s -> security_headers v n r s = security_headers v n' r s.
Proof. unfold security_headers. by intros ->. Qed.

Lemma csrf_ext n n' r s :
  (forall r' c, csrfMiddleware (v_secret v) (v_csrf v) (v_nonce v) r = inr (r', c) -> n r' s = n' r' s) -> csrf v n r s = csrf v n' r s.
Proof. unfold csrf. destruct (csrfMiddleware _ _ _ r) as [|[r' c]]; [done|]. intros Hn. by rewrite (Hn r' c eq_refl). Qed.

Lemma cors_ext n n' r s : (q_method r <> "OPTIONS" -> n r s = n' r s) -> cors v n r s = cors v n' r s.
Proof.
  unfold cors, corsMiddleware. destruct (resolveCORSOrigin _ _ _ _ r) as [[? ?] ?].
  destruct (String.eqb_spec (q_method r) "OPTIONS") as [|Hm]; [done|]. intros Hn. cbn [negb]. by rewrite (Hn Hm).
Qed.

Lemma access_log_ext n n' r s : n r s = n' r s -> accessLogMiddleware v n r s = accessLogMiddleware v n' r s.
Proof. unfold accessLogMiddleware. by intros ->. Qed.

Lemma countRequests_ext n n' r s : (forall s, n r s = n' r s) -> countRequests v n r s = countRequests v n' r s.
Proof. unfold countRequests. intros Hn. by rewrite Hn. Qed.

Lemma lang_ext n n' r s : n r s = n' r s -> langCookieMiddleware v n r s = langCookieMiddleware v n' r s.
Proof. unfold langCookieMiddleware. by intros ->. Qed.

(** ** The requests that are handed to the handlers *)

(** An entry of the allow list covers an address. *)
Definition allow_listed (entries : list string) (ip : IP) : Prop :=
  exists e n, e ∈ entries /\ allow_entry e = Some n /\ Contains n ip = true.

(** A line of a blocklist names an address: as one of its network, or by itself. *)
Definition names_address (line : string) (ip : IP) : Prop :=
  Strings.HasPrefix line "#" = false
  /\ ((exists n, Strings.Contains line "/" = true /\ ParseCIDR line = Some n /\ Contains n ip = true)
      \/ (exists a, Strings.Contains line "/" = false /\ ParseIP line = Some a /\ IP_String a = IP_String ip)).

(** A line of a [.txt] file of the directory names an address. *)
Definition block_listed (dir : option (list (string * option string))) (ip : IP) : Prop :=
  exists files name text line, dir = Some files /\ (name, Some text) ∈ files /\ Strings.HasSuffix name ".txt" = true
    /\ line ∈ scan_lines text /\ names_address (StringsU.TrimSpace line) ip.

(** The country of an address is refused by the configuration. *)
Definition country_refused (d : Geo.DB) (ip : IP) : Prop :=
  let cc := StringsU.ToUpper (Geo.CountryCode (Geo.Lookup d ip)) in
  Geo.isPrivate ip = false /\ Geo.allowlisted (Geo.g_cfg d) ip = false
  /\ (Geo.countryMode (Geo.g_cfg d) = "allow" /\ cc <> "" /\ ~ cc ∈ StringsU.ToUpper <$> Geo.AllowCountries (Geo.g_cfg d)
      \/ Geo.countryMode (Geo.g_cfg d) = "deny" /\ cc ∈ StringsU.ToUpper <$> Geo.DenyCountries (Geo.g_cfg d)).

(** The request with its path cleaned, by which the exemptions go, and the route
    of a request that comes without one. *)
Definition cleaned (r : HttpReq) : HttpReq := set_path (clean_path (q_path r)) (q_rawpath r) r.
Definition routed (r : HttpReq) : string := if decide (q_route r = "") then clean_route (q_path r) (q_rawpath r) else q_route r.

Definition under (dir p : string) : Prop := exists t, p = dir ++ t.

(** [r'] is what the handlers see of the request [r]. *)
Record admitted (r r' : HttpReq) : Prop := {
  ad_path : ~ occurs ".." (q_path r) /\ ~ occurs ".." (q_rawpath r) /\ ~ occurs "%2e" (StringsU.ToLower (q_rawpath r))
            /\ (q_path r = "/" \/ Strings.HasSuffix (q_path r) "/" = false) /\ Forall component (path_names (q_path r));
  ad_seen : (q_path r' = q_path (cleaned r) /\ q_route r' = routed r
             /\ ~ (under "/api/" (q_path (cleaned r)) /\ exists base, q_path (cleaned r) = base ++ ".txt"))
            \/ (under "/api/" (q_path (cleaned r)) /\ q_path (cleaned r) = q_path r' ++ ".txt" /\ q_route r' = q_path r' /\ q_txt r' = true);
  ad_method : q_method r' = q_method r /\ q_method r <> "OPTIONS";
  ad_client : q_remote r' = q_remote (realIPMiddleware (v_proxy v) r);
  ad_block : forall ip, remote_ip r' = Some ip -> allow_listed (v_allowlist v) ip \/ ~ block_listed (v_blocklists v) ip;
  ad_geo : forall ip d, remote_ip r' = Some ip -> v_geo v = Some d -> ~ country_refused d ip;
  ad_maintenance : changes_state (q_method r) -> forall m, v_monitor v = Some m -> state m <> StateMaintenance;
  ad_framing : v_sec_fetch v = true -> q_header r "Sec-Fetch-Site" = "cross-site" ->
    q_header r "Sec-Fetch-Dest" ∈ ["iframe"; "frame"; "embed"; "object"] -> exists t, t <> "" /\ q_path (cleaned r) = "/emb/" ++ t;
  ad_cross_site : v_sec_fetch v = true -> q_header r "Sec-Fetch-Site" = "cross-site" -> changes_state (q_method r) ->
    sends_credentials r \/ exists p, p ∈ csrf_exempt (v_csrf v) /\ covers p (q_path (cleaned r));
  ad_navigation : v_sec_fetch v = true -> q_header r "Sec-Fetch-Mode" = "navigate" -> under "/api/" (q_path (cleaned r)) ->
    ~ changes_state (q_method r);
  ad_csrf : csrf_enabled (v_csrf v) = true -> v_secret v <> [] ->
    exempted (v_csrf v) (cleaned r) \/ double_submitted (v_secret v) (v_csrf v) (cleaned r)
    \/ no_token_made (v_secret v) (v_csrf v) (v_nonce v) (cleaned r);
}.

Lemma allow_listed_iff entries ip : allow_contains (newAllowlistSet entries) ip = true <-> allow_listed entries ip.
Proof.
  unfold allow_contains, newAllowlistSet, allow_listed. rewrite existsb_exists. split.
  - intros (n & Hn & Hc). apply list_elem_of_In, list_elem_of_omap in Hn as (e & He & Hn). by exists e, n.
  - intros (e & n & He & Hn & Hc). exists n. split; [|done]. apply list_elem_of_In, list_elem_of_omap. by exists e.
Qed.

Lemma block_line_spec bs line ip :
  block_contains (block_line bs line) ip = true <-> block_contains bs ip = true \/ names_address (StringsU.TrimSpace line) ip.
Proof.
  unfold block_line, names_address. cbv zeta. generalize (StringsU.TrimSpace line). clear line. intros line.
  destruct (String.eqb_spec line "") as [->|Hne]; cbn [orb].
  { split; [by left|]. intros [?|(_ & [(n & Hc & _)|(a & _ & Ha & _)])]; [done|discriminate Hc|discriminate Ha]. }
  destruct (Strings.HasPrefix line "#"); [split; [by left|]; by intros [?|[? _]]|]. destruct (Strings.Contains line "/") eqn:Ec.
  - unfold block_contains. destruct (ParseCIDR line) as [n|] eqn:En; cbn [bl_ips bl_nets].
    + rewrite existsb_app. cbn [existsb]. rewrite orb_false_r, orb_assoc, orb_true_iff. split.
      * intros [?|?]; [by left|right; split; [done|left; by exists n]].
      * intros [?|(_ & [(n' & _ & [= <-] & ?)|(a & ? & _)])]; [by left|by right|done].
    + split; [by left|]. by intros [?|(_ & [(n' & _ & ? & _)|(a & ? & _)])].
  - unfold block_contains. destruct (ParseIP line) as [a|] eqn:Ea; cbn [bl_ips bl_nets].
    + rewrite !orb_true_iff, !bool_decide_eq_true, elem_of_union, elem_of_singleton. split.
      * intros [[E|?]|?]; [right; split; [done|right; by exists a]|auto..].
      * intros [?|(_ & [(n' & ? & _)|(a' & _ & [= <-] & E)])]; [tauto|done|auto].
    + split; [by left|]. by intros [?|(_ & [(n' & ? & _)|(a' & _ & ? & _)])].
Qed.

Lemma block_lines_spec lines ip : forall bs,
  block_contains (foldl block_line bs lines) ip = true
  <-> block_contains bs ip = true \/ exists line, line ∈ lines /\ names_address (StringsU.TrimSpace line) ip.
Proof.
  induction lines as [|l lines IH]; intros bs; cbn [foldl].
  - split; [by left|]. intros [?|(l & Hl & _)]; [done|by apply elem_of_nil in Hl].
  - rewrite IH, block_line_spec. split.
    + intros [[?|?]|(x & Hx & ?)]; [by left|right; exists l; split; [by left|done]|right; exists x; split; [by right|done]].
    + intros [?|(x & [->|Hx]%elem_of_cons & ?)]; [auto|auto|right; eauto].
Qed.

Lemma block_listed_iff dir ip : block_contains (loadBlocklists dir) ip = true <-> block_listed dir ip.
Proof.
  unfold loadBlocklists, block_listed. destruct dir as [files|]; [|split; [discriminate|by intros (? & ? & ? & ? & ? & _)]].
  assert (Hf : forall bs, block_contains (foldl (fun bs f => if Strings.HasSuffix (fst f) ".txt" then
                           match snd f with Some text => foldl block_line bs (scan_lines text) | None => bs end
                         else bs) bs files) ip = true
    <-> block_contains bs ip = true \/ exists name text line, (name, Some text) ∈ files /\ Strings.HasSuffix name ".txt" = true
          /\ line ∈ scan_lines text /\ names_address (StringsU.TrimSpace line) ip).
  { induction files as [|[name [text|]] files IH]; intros bs; cbn [foldl fst snd].
    - split; [by left|]. intros [?|(? & ? & ? & Hx & _)]; [done|by apply elem_of_nil in Hx].
    - rewrite IH. destruct (Strings.HasSuffix name ".txt") eqn:En; [rewrite block_lines_spec|]; split.
      + intros [[?|(l & Hl & Hn)]|(n & t & l & Hx & ?)]; [by left|right; exists name, text, l; split_and!; [by left|done..]
          |right; exists n, t, l; split; [by right|done]].
      + intros [?|(n & t & l & [[= -> ->]|Hx]%elem_of_cons & Hs & Hl & Hn)]; [auto|left; right; eauto|right; exists n, t, l; auto].
      + intros [?|(n & t & l & Hx & ?)]; [by left|right; exists n, t, l; split; [by right|done]].
      + intros [?|(n & t & l & [[= -> ->]|Hx]%elem_of_cons & Hs & Hl & Hn)]; [auto|congruence|right; exists n, t, l; auto].
    - rewrite IH. assert (E : (if Strings.HasSuffix name ".txt" then bs else bs) = bs) by (by destruct (Strings.HasSuffix name ".txt")).
      rewrite E. split.
      + intros [?|(n & t & l & Hx & ?)]; [by left|right; exists n, t, l; split; [by right|done]].
      + intros [?|(n & t & l & [Hx|Hx]%elem_of_cons & ?)]; [auto|discriminate|right; exists n, t, l; auto]. }
  rewrite Hf. split.
  - intros [Hx|(n & t & l & ?)]; [discriminate Hx|by exists files, n, t, l].
  - intros (f & n & t & l & [= <-] & ?). right. by exists n, t, l.
Qed.

Lemma realIP_shape r : exists a, realIPMiddleware (v_proxy v) r = set_remote a (set_peer (q_remote r) r).
Proof. unfold realIPMiddleware. destruct (isTrustedPeer _ _); [|by exists (q_remote r)]. by destruct (negb (String.eqb _ "") && _); eexists. Qed.

Lemma slash_passed r r' : q_path r <> "" -> noTrailingSlash r = inr r' ->
  r' = r /\ (q_path r = "/" \/ Strings.HasSuffix (q_path r) "/" = false).
Proof.
  intros Hne Hr. destruct (String.eqb_spec (q_path r) "/") as [E|E].
  - unfold noTrailingSlash in Hr. rewrite E in Hr. injection Hr as <-. auto.
  - destruct (Strings.HasSuffix (q_path r) "/") eqn:Es.
    + exfalso. pose proof Es as Es'. apply HasSuffix_spec in Es as [p Ep]. destruct (file_exemption_never_applies p r) as [q Eq]; [|done|congruence].
      intros ->. by rewrite Ep in E.
    + unfold noTrailingSlash in Hr. rewrite Es, andb_false_r in Hr. injection Hr as <-. auto.
Qed.

(** The later steps keep the method and the address. *)
Lemma csrf_keeps r r' c : csrfMiddleware (v_secret v) (v_csrf v) (v_nonce v) r = inr (r', c) ->
  q_method r' = q_method r /\ q_remote r' = q_remote r /\ q_allowlisted r' = q_allowlisted r
  /\ q_path r' = q_path r /\ q_route r' = q_route r.
Proof.
  unfold csrfMiddleware. destruct (_ || _); [by intros [= <- _]|]. cbn zeta.
  destruct (if String.eqb _ "" then _ else _) as [t|]; [|by intros [= <- _]].
  destruct (if csrf_bypass _ _ then _ else _); [done|]. by intros [= <- _].
Qed.

Lemma allow_keeps r (r' := allowlistMiddleware (v_allowlist v) r) :
  q_method r' = q_method r /\ q_remote r' = q_remote r /\ q_path r' = q_path r /\ q_route r' = q_route r.
Proof. unfold r', allowlistMiddleware. destruct (remote_ip r); [|done]. by destruct (allow_contains _ _). Qed.

Lemma txt_seen r r' : txtExtensionMiddleware r = r' ->
  (r' = r /\ ~ (under "/api/" (q_path r) /\ exists base, q_path r = base ++ ".txt"))
  \/ (under "/api/" (q_path r) /\ q_path r = q_path r' ++ ".txt" /\ q_route r' = q_path r' /\ q_txt r' = true).
Proof.
  unfold txtExtensionMiddleware. destruct (Strings.HasPrefix (q_path r) "/api/") eqn:Ep; cbn [andb].
  - destruct (Strings.HasSuffix (q_path r) ".txt") eqn:Es; intros <-.
    + right. apply HasSuffix_spec in Es as [base Eb]. split; [by apply prefix_spec|]. rewrite Eb. cbn. by rewrite TrimSuffix_app.
    + left. split; [done|]. intros [_ Hb]. apply HasSuffix_spec in Hb. congruence.
  - intros <-. left. split; [done|]. intros [Ht _]. apply prefix_spec in Ht. unfold Strings.HasPrefix in Ep. congruence.
Qed.

Lemma txt_keeps r : q_method (txtExtensionMiddleware r) = q_method r /\ q_remote (txtExtensionMiddleware r) = q_remote r.
Proof. unfold txtExtensionMiddleware. by destruct (_ && _). Qed.

Lemma block_passed r ip : q_allowlisted r = false -> remote_ip r = Some ip ->
  blocklistMiddleware (v_blocklists v) (allowlistMiddleware (v_allowlist v) r) = None ->
  allow_listed (v_allowlist v) ip \/ ~ block_listed (v_blocklists v) ip.
Proof.
  rewrite <- allow_listed_iff, <- block_listed_iff, not_true_iff_false. intros Hal Hip. unfold blocklistMiddleware, allowlistMiddleware. rewrite Hip. destruct (allow_contains _ ip) eqn:Ea; [by left|].
  rewrite Hal, Hip. destruct (block_contains _ ip); [done | by right].
Qed.

Lemma maintenance_passed r m : v_monitor v = Some m -> changes_state (q_method r) ->
  maintenanceMiddleware (v_monitor v) r = None -> state m <> StateMaintenance.
Proof.
  intros -> Hm%mutating_iff. unfold maintenanceMiddleware, InMaintenance. rewrite Hm. case_bool_decide; [discriminate|done].
Qed.

(** What passes the checks of the Sec-Fetch headers. *)
Lemma fetch_passed r : v_sec_fetch v = true -> secFetchMiddleware (v_sec_fetch v) (csrf_exempt (v_csrf v)) r = None ->
  (q_header r "Sec-Fetch-Site" = "cross-site" -> q_header r "Sec-Fetch-Dest" ∈ ["iframe"; "frame"; "embed"; "object"] ->
     exists t, t <> "" /\ q_path r = "/emb/" ++ t)
  /\ (q_header r "Sec-Fetch-Site" = "cross-site" -> changes_state (q_method r) ->
     sends_credentials r \/ exists p, p ∈ csrf_exempt (v_csrf v) /\ covers p (q_path r))
  /\ (q_header r "Sec-Fetch-Mode" = "navigate" -> under "/api/" (q_path r) -> ~ changes_state (q_method r)).
Proof.
  intros Hv. unfold secFetchMiddleware. rewrite Hv. cbn [negb]. cbv zeta. intros Hn.
  destruct (String.eqb (q_header r "Sec-Fetch-Site") "cross-site" && _ && _) eqn:E1; [done|].
  destruct (String.eqb (q_header r "Sec-Fetch-Site") "cross-site" && is_mutating _ && _ && _) eqn:E2; [done|].
  destruct (String.eqb (q_header r "Sec-Fetch-Mode") "navigate" && _ && _) eqn:E3; [done|]. split_and!.
  - intros Hs Hd. rewrite Hs in E1. cbn [String.eqb andb] in E1. change (String.eqb "cross-site" "cross-site") with true in E1.
    assert (Hb : existsb (String.eqb (q_header r "Sec-Fetch-Dest")) ["iframe"; "frame"; "embed"; "object"] = true).
    { apply existsb_exists. eexists. split; [by apply list_elem_of_In|apply String.eqb_refl]. }
    rewrite Hb, andb_true_r in E1. cbn [andb] in E1. apply negb_false_iff in E1. unfold isEmbedPath in E1.
    apply andb_true_iff in E1 as [Hp Hl]. apply prefix_spec in Hp as [t Ht]. exists t. split; [|done].
    intros ->. rewrite Ht in Hl. vm_compute in Hl. discriminate.
  - intros Hs Hm%mutating_iff. rewrite Hs, Hm in E2. change (String.eqb "cross-site" "cross-site") with true in E2. cbn [andb] in E2.
    rewrite <- bearer_iff, <- exempt_iff. destruct (has_bearer r); [by left|right]. by apply negb_false_iff in E2.
  - intros Hs Hp%prefix_spec Hm%mutating_iff. unfold Strings.HasPrefix in E3. rewrite Hs, Hp, Hm in E3. discriminate E3.
Qed.

(** The exemption and the tokens do not depend on the route and the address. *)
Lemma exempted_same cfg r route a peer : exempted cfg (set_path (clean_path (q_path r)) (q_rawpath r) (set_route route (set_remote a (set_peer peer r)))) ->
  exempted cfg (cleaned r).
Proof. intros []; [by apply ex_safe | by apply ex_credentials | by apply ex_websocket | by apply ex_path | by apply ex_own_page | by apply ex_no_cookie]. Qed.

Lemma climbs_parts p raw (sent := if decide (raw = "") then p else raw) :
  ~ (occurs ".." p \/ occurs ".." sent \/ occurs "%2e" (StringsU.ToLower sent)) ->
  ~ occurs ".." p /\ ~ (occurs ".." raw \/ occurs "%2e" (StringsU.ToLower raw)).
Proof.
  unfold sent. destruct (decide (raw = "")) as [->|]; [|tauto]. intros Hn. split; [tauto|].
  intros [(x & y & E)|(x & y & E)]; [by destruct x|]. change (StringsU.ToLower "") with "" in E. by destruct x.
Qed.

(** The rest of the chain, from the cleaned request to the handlers. *)
Lemma admitted_intro r a r3 c (r2 := set_path (clean_path (q_path r)) (q_rawpath r) (set_route (routed r) (set_remote a (set_peer (q_remote r) r)))) :
  let r4 := allowlistMiddleware (v_allowlist v) r3 in
  let r5 := txtExtensionMiddleware r4 in
  realIPMiddleware (v_proxy v) r = set_remote a (set_peer (q_remote r) r) -> q_allowlisted r = false ->
  ~ occurs ".." (q_path r) -> ~ (occurs ".." (q_rawpath r) \/ occurs "%2e" (StringsU.ToLower (q_rawpath r))) ->
  q_path r = "/" \/ Strings.HasSuffix (q_path r) "/" = false ->
  secFetchMiddleware (v_sec_fetch v) (csrf_exempt (v_csrf v)) r2 = None ->
  csrfMiddleware (v_secret v) (v_csrf v) (v_nonce v) r2 = inr (r3, c) ->
  q_method r3 <> "OPTIONS" ->
  blocklistMiddleware (v_blocklists v) r4 = None ->
  match v_geo v with Some d => Geo.Middleware d r4 | None => None end = None ->
  maintenanceMiddleware (v_monitor v) r5 = None ->
  admitted r r5.
Proof.
  intros r4 r5 Er Hal Hdots Hraw Hslash Hfetch Hcsrf Hopt Hblock Hgeo Hmaint.
  destruct (csrf_keeps r2 r3 c Hcsrf) as (Em3 & Er3 & Ea3 & Ep3 & Eq3).
  destruct (allow_keeps r3) as (Em4 & Er4 & Ep4 & Eq4). fold r4 in Em4, Er4, Ep4, Eq4. destruct (txt_keeps r4) as [Em5 Er5]. fold r5 in Em5, Er5.
  assert (Em : q_method r5 = q_method r) by (by rewrite Em5, Em4, Em3).
  assert (Hip : remote_ip r5 = remote_ip r3) by (unfold remote_ip; by rewrite ?Er5, ?Er4).
  assert (Hip4 : remote_ip r4 = remote_ip r3) by (unfold remote_ip; by rewrite ?Er5, ?Er4).
  split.
  - split; [done|]. split; [tauto|]. split; [tauto|]. split; [done|]. by apply names_components.
  - destruct (txt_seen r4 r5 eq_refl) as [[-> Hn]|Ht]; rewrite Ep4, Ep3 in *; [left|by right]. split; [done|]. by rewrite Eq4, Eq3.
  - split; [done|]. by rewrite Em3 in Hopt.
  - by rewrite Er, Er5, Er4, Er3.
  - intros ip. rewrite Hip. intros E. apply (block_passed r3); [by rewrite Ea3 | done | done].
  - intros ip d. rewrite Hip, <- Hip4. intros E Ed. rewrite Ed in Hgeo. unfold Geo.Middleware, Geo.realIP in Hgeo.
    unfold remote_ip in E. rewrite E in Hgeo. intros Hc. apply Geo.blocked_on_evidence in Hc. by rewrite Hc in Hgeo.
  - intros Hmut m Ev. apply (maintenance_passed r5); [done | by rewrite Em | done].
  - intros Hv. apply (fetch_passed r2 Hv Hfetch).
  - intros Hv. apply (fetch_passed r2 Hv Hfetch).
  - intros Hv. apply (fetch_passed r2 Hv Hfetch).
  - intros Hen Hsec. destruct (proj1 (csrf_passes _ _ _ r2 Hen Hsec) (ex_intro _ _ Hcsrf)) as [He|Hr]; [left; by eapply exempted_same|by right].
Qed.

(** C5 — The handlers are consulted only about admitted requests.  They see the
    cleaned path of the request (less a [.txt] at the end of a path of the API)
    and the route that goes with it, which are not those of a request that climbs
    or ends with a slash; the client's address is on no blocklist (unless it is on
    the allow list) and not of a refused country; a request that changes state
    comes outside maintenance, not across sites or by navigation to the API
    (unless exempt), and the CSRF check exempts it, or it submits the signed token
    of its cookie, or the server could not make a token.  Two sets of routes that
    agree on such requests make the same server. *)
Theorem handlers_see_admitted (what : HttpReq -> PanicValue) (routes routes' : handler) (r : HttpReq) (s : Srv) :
  Strings.HasPrefix (q_path r) "/" = true -> q_allowlisted r = false ->
  (forall r' s', admitted r r' -> routes r' s' = routes' r' s') ->
  setupRoutes page v what routes r s = setupRoutes page v what routes' r s.
Proof.
  intros Hp Hal Hroutes. unfold setupRoutes. apply rewriting_ext. destruct (realIP_shape r) as [a Er]. rewrite Er.
  apply domain_observe_ext. intros s1. apply recoverer_ext. apply rewriting_ext. apply checking_ext. intros r1 H1.
  set (r0 := if String.eqb _ _ then _ else _) in H1.
  assert (Hr0 : r0 = set_route (routed r) (set_remote a (set_peer (q_remote r) r))).
  { unfold r0, routed. cbn. destruct (String.eqb_spec (q_route r) ""), (decide (q_route r = "")); done. }
  clearbody r0. subst r0. apply slash_passed in H1 as [-> Hslash]; [|intros E; cbn in E; by rewrite E in Hp].
  apply checking_ext. intros r2 H2. set (r1 := set_route (routed r) _) in *.
  destruct (path_checked U r1 Hp) as [[_ E]|[Hdots E]]; rewrite E in H2; [discriminate|]. injection H2 as <-.
  apply security_headers_ext. apply refusing_ext. intros Hfetch. apply csrf_ext. intros r3 c Hcsrf.
  apply cors_ext. intros Hopt. apply rewriting_ext. apply refusing_ext. intros Hblock. apply refusing_ext. intros Hgeo.
  apply access_log_ext. apply countRequests_ext. intros s2. apply rewriting_ext. apply refusing_ext. intros Hmaint. apply lang_ext.
  apply Hroutes. apply climbs_parts in Hdots as [Hd Hraw]. by eapply admitted_intro.
Qed.

(** ** Accounting *)









(** What is answered before the log is reached leaves no entry in it. *)
Lemma redirect_unlogged what routes p r s :
  p <> "" -> q_path r = p ++ "/" -> g_access (setupRoutes page v what routes r s).2 = g_access s.
Proof.
  intros Hne Hp. unfold setupRoutes, rewriting at 1. destruct (realIP_shape r) as [a ->].
  unfold domain_observe, recoverer, CleanPath, rewriting at 1. set (r0 := if String.eqb _ _ then _ else _).
  assert (Hr0 : q_path r0 = p ++ "/") by (unfold r0; destruct (String.eqb _ _); exact Hp). clearbody r0.
  destruct (file_exemption_never_applies p r0 Hne Hr0) as [q Hq]. unfold checking at 1. by rewrite Hq.
Qed.

End guards.

(** The countries' allow list compares texts where the server's compares addresses. *)
Lemma geo_allowlist_is_textual :
  let entry := "2001:DB8:0::1" in
  (ip ← ParseIP "2001:db8::1"; Some (allow_contains (newAllowlistSet [entry]) ip)) = Some true
  /\ (ip ← ParseIP "2001:db8::1";
      Some (Geo.allowlisted {| Geo.EnableASN := false; Geo.EnableCountry := true; Geo.EnableCity := false; Geo.EnableWHOIS := false;
                               Geo.CountryMode := "allow"; Geo.DenyCountries := []; Geo.AllowCountries := ["DE"];
                               Geo.Allowlist := [entry] |} ip)) = Some false.
Proof. split; vm_compute; reflexivity. Qed.

(** ** Witnesses *)

Definition some_env : Env :=
  {| v_proxy := some_config; v_headers := plain_headers; v_sec_fetch := true; v_secret := [1; 2; 3];
     v_csrf := csrf_config; v_cors := {| AllowedOrigins := []; AllowCredentials := false; MaxAge := 600 |};
     v_domain_env := ""; v_allowlist := []; v_blocklists := Some [("bad.txt", Some "203.0.113.0/24")]; v_geo := None;
     v_log_health := false; v_debug := false; v_monitor := None; v_now := 0; v_hour := 0; v_latency := 0; v_nonce := Ok [];
     v_random := None; v_size := fun _ => 0 |}.
Definition some_srv : Srv := {| g_learner := None; g_stats := no_requests; g_active := 0; g_access := []; g_error := [] |}.
Definition plain_chi : Chi := {| clean_route := fun p _ => GoUrl.Clean p |}.
Definition plain_page (r : HttpReq) (status : Z) (m : string) : Response := {| status := status; headers := []; body := BText m |}.
Definition no_suffix : PublicSuffix := {| etld_plus_one := fun _ => None |}.
Definition blocked_request : HttpReq := request_for "/pastes".
Definition good_request : HttpReq := set_remote "198.51.100.9:40000" (request_for "/pastes").
Definition says (text : string) : handler := fun _ s => (answer (text_ok text), s).

(** A handler that gives up by [panic(http.ErrAbortHandler)] before it has
    written anything: the client is told that all went well. *)
Definition gives_up : handler := fun _ s => ({| p_headers := []; p_cookies := []; p_result := None |}, s).

Lemma aborted_handler_answers_200 :
  let '(p, s) := @setupRoutes ascii_unicode no_url no_suffix plain_chi plain_page some_env (fun _ => ErrAbortHandler) gives_up
                   good_request some_srv in
  p_result p = Some {| status := 200; headers := []; body := BText "" |} /\ g_error s = [] /\ g_access s = [].
Proof. vm_compute. split_and!; reflexivity. Qed.

Theorem handlers_see_admitted_witness :
  Strings.HasPrefix (q_path blocked_request) "/" = true
  /\ @setupRoutes ascii_unicode no_url no_suffix plain_chi plain_page some_env (fun _ => PanicText "") (says "one") blocked_request some_srv
     = @setupRoutes ascii_unicode no_url no_suffix plain_chi plain_page some_env (fun _ => PanicText "") (says "two") blocked_request some_srv.
Proof.
  split; [reflexivity|].
  apply (handlers_see_admitted ascii_unicode no_url no_suffix plain_chi plain_page some_env (fun _ => PanicText "") (says "one") (says "two")
           blocked_request some_srv eq_refl eq_refl).
  intros r' s' Had. exfalso. pose proof (ad_block _ _ _ _ _ _ Had [0; 0; 0; 0; 0; 0; 0; 0; 0; 0; 255; 255; 203; 0; 113; 9]) as Hblock.
  unfold remote_ip in Hblock. rewrite (ad_client _ _ _ _ _ _ Had) in Hblock.
  destruct (Hblock ltac:(vm_compute; reflexivity)) as [Ha|Hb].
  - apply allow_listed_iff in Ha. vm_compute in Ha. discriminate Ha.
  - apply Hb. apply block_listed_iff. vm_compute. reflexivity.
Defined.

