(* ===== verification/Paste.v ===== *)
(** * The paste handlers (src/src/handler/paste.go)

    The operations of [PasteHandler] on the world of {!World}: creation from the
    four kinds of requests, the JSON, raw and web reads with their view counting
    and cache, the listing and the deletion.  Templates and syntax highlighting
    are not modelled; net/url and mime are the interface [Net]. *)

From S2P Require Import Prelude GoStr GoTime GoCrypto GoSniff Model Cache World Database Http.
From Stdlib Require Import Ascii.

(** net/url.Parse as (scheme, host), mime.ParseMediaType and FormatMediaType,
    and time.Time.Format(time.RFC3339). *)
Class Net := {
  url_Parse : string -> option (string * string);
  ParseMediaType : string -> option (string * list (string * string));
  FormatMediaType : string -> list (string * string) -> string;
  FormatRFC3339 : Z -> string;
}.

Record PasteHandler := {
  baseURL : string;
  baseURLFn : option (Request -> string);
  operatorTokenHash : list Z;
  maxSizeBytes : Z;
  maxSizeSet : bool;
}.

Definition pasteCacheTTL : Z := 5 * Minute.
Definition idCharset : string := "abcdefghijklmnopqrstuvwxyzABCDEFGHIJKLMNOPQRSTUVWXYZ0123456789".
Definition tokenCharset : string := "abcdefghijklmnopqrstuvwxyzABCDEFGHIJKLMNOPQRSTUVWXYZ0123456789".

Definition defaultMaxSizeBytes : Z := Z.shiftl 10 20.

Definition maxSize (h : PasteHandler) : Z := if maxSizeSet h then maxSizeBytes h else defaultMaxSizeBytes.

Definition effectiveReadLimit (h : PasteHandler) : Z :=
  let n := maxSize h in if n <=? 0 then max_int64 - 1 else n.

Definition zero_hash : list Z := repeat 0 32.

Definition SetMaxSize (n : Z) (h : PasteHandler) : PasteHandler :=
  {| baseURL := baseURL h; baseURLFn := baseURLFn h; operatorTokenHash := operatorTokenHash h;
     maxSizeBytes := if n <? 0 then 0 else n; maxSizeSet := true |}.

Definition pasteCacheKey (id : string) : string := "paste:" ++ id.

(** [charset[int(v)%len(charset)]] for every byte. *)
Definition pick_char (charset : string) (v : Z) : ascii :=
  match String.get (Z.to_nat (v mod strlen charset)) charset with Some c => c | None => "000" end.
Definition from_charset (charset : string) (l : list Z) : string :=
  String.string_of_list_ascii (pick_char charset <$> l).

Definition HashToken (token : string) : string := Hex.EncodeToString (Sha256.Sum256 (bytes token)).

(** ** HTTP error codes *)

Definition httpErrCode (status : Z) : string :=
  match status with
  | 400 => "BAD_REQUEST"
  | 401 => "UNAUTHORIZED"
  | 403 => "FORBIDDEN"
  | 404 => "NOT_FOUND"
  | 405 => "METHOD_NOT_ALLOWED"
  | 409 => "CONFLICT"
  | 410 => "GONE"
  | 413 => "PAYLOAD_TOO_LARGE"
  | 429 => "RATE_LIMITED"
  | 503 => "MAINTENANCE"
  | _ => "SERVER_ERROR"
  end.

Definition mapAPIErrorCodeToHTTPStatus (code : string) : Z :=
  if existsb (String.eqb code) ["BAD_REQUEST"; "VALIDATION_FAILED"] then 400
  else if existsb (String.eqb code) ["UNAUTHORIZED"; "TOKEN_EXPIRED"; "TOKEN_INVALID"] then 401
  else if existsb (String.eqb code) ["FORBIDDEN"; "ACCOUNT_LOCKED"; "CSRF_FAILED"] then 403
  else if String.eqb code "NOT_FOUND" then 404
  else if String.eqb code "METHOD_NOT_ALLOWED" then 405
  else if String.eqb code "CONFLICT" then 409
  else if String.eqb code "GONE" then 410
  else if String.eqb code "PAYLOAD_TOO_LARGE" then 413
  else if String.eqb code "RATE_LIMITED" then 429
  else if String.eqb code "MAINTENANCE" then 503
  else 500.

Definition sendAPIError (code message : string) : Response :=
  writeJSON (mapAPIErrorCodeToHTTPStatus code)
    (JObj [("ok", JBool false); ("error", JStr code); ("message", JStr message)]).

Definition ok_data (j : json) : json := JObj [("ok", JBool true); ("data", j)].

(** ** Language detection *)

Definition languages : list (string * string) :=
  [("js", "javascript"); ("ts", "typescript"); ("jsx", "jsx"); ("tsx", "tsx"); ("py", "python"); ("rb", "ruby");
   ("go", "go"); ("rs", "rust"); ("java", "java"); ("c", "c"); ("cpp", "cpp"); ("cc", "cpp"); ("h", "c");
   ("hpp", "cpp"); ("cs", "csharp"); ("php", "php"); ("sh", "bash"); ("bash", "bash"); ("zsh", "bash");
   ("fish", "bash"); ("ps1", "powershell"); ("html", "html"); ("htm", "html"); ("css", "css"); ("scss", "scss");
   ("sass", "sass"); ("json", "json"); ("yaml", "yaml"); ("yml", "yaml"); ("toml", "toml"); ("xml", "xml");
   ("sql", "sql"); ("md", "markdown"); ("txt", "text"); ("lua", "lua"); ("r", "r"); ("swift", "swift");
   ("kt", "kotlin"); ("dart", "dart"); ("ex", "elixir"); ("exs", "elixir"); ("erl", "erlang"); ("hs", "haskell");
   ("clj", "clojure"); ("scala", "scala"); ("pl", "perl"); ("ini", "ini"); ("conf", "ini"); ("env", "bash");
   ("diff", "diff"); ("patch", "diff"); ("dockerfile", "dockerfile"); ("makefile", "makefile"); ("mk", "makefile")].

Definition DetectLanguage `{Unicode} (filename : string) : string :=
  let ext := StringsU.ToLower filename in
  let ext := match Strings.LastIndexByte ext "." with Some i => Strings.drop (S i) ext | None => ext end in
  match first (fun kv => String.eqb (fst kv) ext) languages with Some kv => snd kv | None => "text" end.

(** ** Request parsing *)

Record CreateRequest := {
  q_Content : string;
  q_Title : string;
  q_Language : string;
  q_Visibility : string;
  q_ExpiresIn : string;
  q_BurnAfter : Z;
  q_ContentType : string;
  q_IsLink : bool;
}.

(** What an [io.LimitReader] of [n] bytes delivers, and what it leaves. *)
Definition takeZ (n : Z) (s : string) : string :=
  if n <=? 0 then "" else if strlen s <=? n then s else Strings.take (Z.to_nat n) s.
Definition dropZ (n : Z) (s : string) : string :=
  if n <=? 0 then s else if strlen s <=? n then "" else Strings.drop (Z.to_nat n) s.

(** The first [limit] bytes, whether there were more, and what is left unread;
    [limit + 1] is an [int64] sum, and a reader limited to a non-positive number
    of bytes is empty. *)
Definition readLimited (s : string) (limit : Z) : string * bool * string :=
  let n := wrap64 (limit + 1) in
  let '(raw, rest) := (takeZ n s, dropZ n s) in
  if limit <? strlen raw then (takeZ limit raw, true, rest) else (raw, false, rest).

Definition set_body (s : string) (r : Request) : Request :=
  {| r_path := r_path r; r_id := r_id r; r_host := r_host r; r_tls := r_tls r; r_header := r_header r;
     r_txt := r_txt r; r_query := r_query r; r_body := s; r_urlform := r_urlform r;
     r_multipart := r_multipart r; r_parsed := r_parsed r |}.

Definition too_large (limit : Z) : Z * string :=
  (413, "paste exceeds maximum size of " ++ Strconv.Itoa limit ++ " bytes").

Definition is_text (ct : string) : bool := Strings.HasPrefix ct "text/".
Definition is_binary (ct : string) : bool := negb (String.eqb ct "") && negb (is_text ct).

Section parsing.
Context `{Unicode} `{JsonText} `{Net}.

(** [json.Unmarshal] into a [CreateRequest]. *)
Definition decode_create (raw : string) : option CreateRequest :=
  match parse raw with
  | Some (JObj l) =>
      content ← as_string (field "content" l);
      title ← as_string (field "title" l);
      lang ← as_string (field "language" l);
      vis ← as_string (field "visibility" l);
      exp ← as_string (field "expires_in" l);
      burn ← as_int (field "burn_after" l);
      ctype ← as_string (field "content_type" l);
      Some {| q_Content := content; q_Title := title; q_Language := lang; q_Visibility := vis; q_ExpiresIn := exp;
              q_BurnAfter := burn; q_ContentType := ctype; q_IsLink := false |}
  | Some JNull =>
      Some {| q_Content := ""; q_Title := ""; q_Language := ""; q_Visibility := ""; q_ExpiresIn := "";
              q_BurnAfter := 0; q_ContentType := ""; q_IsLink := false |}
  | _ => None
  end.

(** The [token] field of a JSON body; the decoding error is ignored. *)
Definition decode_token (raw : string) : string :=
  match parse raw with
  | Some (JObj l) => default "" (as_string (field "token" l))
  | _ => ""
  end.

Definition first_nonempty (l : list string) : string :=
  match first (fun s => negb (String.eqb s "")) l with Some s => s | None => "" end.

(** Bearer or bare Authorization header, the token headers, the query, the web
    form, the JSON body. *)
Definition extractToken (r : Request) : string :=
  let auth := r_header r "Authorization" in
  if negb (String.eqb auth "") then
    if Strings.HasPrefix auth "Bearer " then Strings.drop 7 auth else auth
  else
    let v := first_nonempty [r_header r "X-Api-Token"; r_header r "X-Token"; r_header r "X-Delete-Token";
                             Get (r_query r) "token"] in
    if negb (String.eqb v "") then v
    else
      let ct := r_header r "Content-Type" in
      let owner := if Strings.HasPrefix ct "application/x-www-form-urlencoded" then PostFormValue r "owner_token" else "" in
      if negb (String.eqb owner "") then owner
      else if Strings.HasPrefix ct "application/json" then decode_token (Strings.take 1024 (r_body r))
      else "".

Definition ValidateLinkTarget (target : string) : bool :=
  match url_Parse target with
  | None => false
  | Some (scheme, host) =>
      if negb (String.eqb scheme "http") && negb (String.eqb scheme "https") then false
      else negb (String.eqb host "")
  end.

Definition whitespace : string := String " " (String "009" (String "010" (String "013" ""))).

Definition isSingleURLContent (content : string) : bool :=
  let trimmed := StringsU.TrimSpace content in
  if String.eqb trimmed "" then false
  else if Strings.ContainsAny trimmed whitespace then false
  else if negb (Strings.HasPrefix trimmed "http://") && negb (Strings.HasPrefix trimmed "https://") then false
  else ValidateLinkTarget trimmed.

(** [if ba, err := strconv.Atoi(s); err == nil { req.BurnAfter = ba }] *)
Definition form_burn (s : string) : Z := match Strconv.Atoi s with (ba, None) => ba | _ => 0 end.

(** The fields the two form branches read. *)
Definition form_request (r : Request) (content title lang ctype : string) : CreateRequest :=
  {| q_Content := content; q_Title := title; q_Language := lang; q_Visibility := FormValue r "visibility";
     q_ExpiresIn := FormValue r "expires_in"; q_BurnAfter := form_burn (FormValue r "burn_after");
     q_ContentType := ctype; q_IsLink := false |}.

(** ParseForm reads at most 10 MiB of a body that no MaxBytesReader limits. *)
Definition max_form_size : Z := Z.shiftl 10 20.

(** The switch of [createFromRequest] on the content type: the request, and what
    is left of the body; or a status and a message. *)
Definition parse_request (h : PasteHandler) (r : Request) : (CreateRequest * Request) + (Z * string) :=
  let ct := r_header r "Content-Type" in
  let limit := effectiveReadLimit h in
  if Strings.HasPrefix ct "application/json" then
    let '(raw, tooLarge, rest) := readLimited (r_body r) limit in
    if tooLarge then inr (too_large limit)
    else match decode_create raw with
         | None => inr (400, "invalid JSON")
         | Some req => inl (req, set_body rest r)
         end
  else if Strings.HasPrefix ct "multipart/form-data" then
    match r_multipart r with
    | None => inr (400, "failed to parse form")
    | Some m =>
        if mf_malformed m then inr (400, "failed to parse form")
        else match FormFile r "files" with
        | Some file =>
            let '(raw, tooLarge, _) := readLimited (up_bytes file) limit in
            if tooLarge then inr (too_large limit)
            else
              let detectedCT := DetectContentType (Strings.take 512 raw) in
              let '(content, ctype) := if is_text detectedCT then (raw, "")
                                       else (Base64.EncodeToString (bytes raw), detectedCT) in
              inl (form_request r content (up_filename file) (DetectLanguage (up_filename file)) ctype, r)
        | None => inl (form_request r (FormValue r "content") (FormValue r "title") (FormValue r "language") "", r)
        end
    end
  else if Strings.HasPrefix ct "application/x-www-form-urlencoded" then
    match r_urlform r with
    | Some f =>
        if negb (r_parsed r) && (uf_malformed f || (max_form_size <? strlen (r_body r)))
        then inr (400, "failed to parse form")
        else inl (form_request r (FormValue r "content") (FormValue r "title") (FormValue r "language") "", r)
    | None => inl (form_request r (FormValue r "content") (FormValue r "title") (FormValue r "language") "", r)
    end
  else
    let '(raw, tooLarge, rest) := readLimited (r_body r) limit in
    if tooLarge then inr (too_large limit)
    else inl ({| q_Content := raw; q_Title := r_header r "X-Title"; q_Language := r_header r "X-Language";
                 q_Visibility := ""; q_ExpiresIn := r_header r "X-Expires-In"; q_BurnAfter := 0;
                 q_ContentType := ""; q_IsLink := false |}, set_body rest r).

Definition with_content (content ctype lang : string) (link : bool) (q : CreateRequest) : CreateRequest :=
  {| q_Content := content; q_Title := q_Title q; q_Language := lang; q_Visibility := q_Visibility q;
     q_ExpiresIn := q_ExpiresIn q; q_BurnAfter := q_BurnAfter q; q_ContentType := ctype; q_IsLink := link |}.

(** Binary content of unknown type is sniffed and stored as base64; plain text
    loses its trailing newlines. *)
Definition encode_content (content ctype : string) : string * string :=
  let '(content, ctype) :=
    if String.eqb ctype "" && (0 <? strlen content) then
      let detected := DetectContentType (Strings.take 512 content) in
      if negb (is_text detected) then (Base64.EncodeToString (bytes content), detected) else (content, ctype)
    else (content, ctype) in
  (if String.eqb ctype "" then Strings.TrimRight content newline else content, ctype).

(** Link detection and content encoding. *)
Definition encode_request (q : CreateRequest) : CreateRequest + (Z * string) :=
  let content := q_Content q in
  if isSingleURLContent content then
    let target := StringsU.TrimSpace content in
    if negb (ValidateLinkTarget target) then inr (400, "content must be an absolute http:// or https:// URL")
    else inl (with_content target "" "" true q)
  else
    let ct := q_ContentType q in
    if is_binary ct && match Base64.DecodeString content with None => true | Some _ => false end
    then inr (400, "binary content must be base64-encoded")
    else let '(content, ct) := encode_content content ct in
         inl (with_content content ct (q_Language q) false q).

Definition require_content (x : CreateRequest + (Z * string)) : CreateRequest + (Z * string) :=
  match x with
  | inr e => inr e
  | inl q => if String.eqb (StringsU.TrimSpace (q_Content q)) "" then inr (400, "content is required") else inl q
  end.

(** The middle of [createFromRequest]: the encoded request must not be blank. *)
Definition normalize (q : CreateRequest) : CreateRequest + (Z * string) := require_content (encode_request q).

Definition visibility_of (s : string) : Z :=
  if String.eqb s "unlisted" || String.eqb s "1" then VisibilityUnlisted else VisibilityPublic.

Definition clamp_burn (burn : Z) : Z :=
  let burn := if burn <? 0 then 0 else burn in if 9999 <? burn then 9999 else burn.

Definition request_language (q : CreateRequest) : string :=
  if String.eqb (q_Language q) "" && negb (q_IsLink q) then "text" else q_Language q.
Definition request_title (q : CreateRequest) : string :=
  if String.eqb (q_Title q) "" then (if q_IsLink q then q_Content q else "Untitled") else q_Title q.

End parsing.

(** ** Expiry *)

Definition maxExpirySeconds : Z := 10 * 365 * 24 * 60 * 60.

Definition expiry_duration (s : string) : option Z :=
  if String.eqb s "1h" then Some Hour
  else if String.eqb s "1d" then Some (24 * Hour)
  else if String.eqb s "1w" then Some (7 * 24 * Hour)
  else if String.eqb s "1m" then Some (30 * 24 * Hour)
  else if String.eqb s "3m" then Some (90 * 24 * Hour)
  else if String.eqb s "6m" then Some (180 * 24 * Hour)
  else if String.eqb s "18m" then Some (540 * 24 * Hour)
  else if String.eqb s "1y" then Some (365 * 24 * Hour)
  else if String.eqb s "2y" then Some (730 * 24 * Hour)
  else match Strconv.ParseInt s with
       | (sec, None) => if (0 <? sec) && (sec <=? maxExpirySeconds) then Some (dur_mul sec Second) else None
       | _ => None
       end.

Section handlers.
Context {C : Type} `{CacheDriver C} `{Unicode} `{JsonText} `{Net}.
Context (h : PasteHandler).

Definition ParseExpiry (s : string) : M C (option Z) :=
  match expiry_duration s with
  | None => mret None
  | Some d => t ← now; mret (Some (t + d))
  end.

(** ** The read cache *)

(** One operation of the driver, which reads the clock itself. *)
Definition cache_op {A} (f : Z -> C -> A * C) : M C (option A) := fun w =>
  match w_cache w with
  | None => (None, w)
  | Some c => let '(a, c') := f (w_clock w) c in (Some a, set_cache (Some c') (advance w))
  end.

Definition getCachedPaste (id : string) : M C (option Paste) :=
  raw ← cache_op (fun t => cache_get t (pasteCacheKey id));
  match raw with
  | Some (Ok raw) =>
      match parse raw ≫= paste_of_json with
      | None => mret None
      | Some p => if 0 <? p_burn p then mret None else mret (Some p)
      end
  | _ => mret None
  end.

Definition cachePaste (p : Paste) : M C unit :=
  if 0 <? p_burn p then mret tt
  else _ ← cache_op (fun t => cache_set t (pasteCacheKey (p_id p)) (render (paste_json p)) pasteCacheTTL); mret tt.

Definition invalidatePasteCache (id : string) : M C unit :=
  _ ← cache_op (fun _ => cache_delete (pasteCacheKey id)); mret tt.

Definition refreshActiveTokenGauge : M C unit :=
  toks ← ListAPITokens;
  match toks with
  | Err _ => mret tt
  | Ok l => metric (set_active (Z.of_nat (length l)))
  end.

(** ** Ids and tokens *)

Definition generateID : M C (result string) :=
  b ← rand_read 8;
  mret (result_map (from_charset idCharset) b).

Definition generateOwnerToken : M C (result (string * list Z)) :=
  raw ← rand_read 32;
  mret (result_map (fun raw => let plain := "tok_" ++ from_charset tokenCharset raw in
                               (plain, Sha256.Sum256 (bytes plain))) raw).

(** [for range 10]: a lookup that fails counts as "no such paste". *)
Fixpoint unique_id (tries : nat) : M C (result string) :=
  match tries with
  | O => mret (Err "could not generate unique ID")
  | S tries =>
      id ← generateID;
      match id with
      | Err _ => mret (Err "failed to generate ID")
      | Ok id =>
          existing ← GetPasteByID id;
          match existing with
          | Ok (Some _) => unique_id tries
          | _ => mret (Ok id)
          end
      end
  end.

(** An existing valid token is reused, any other is replaced by a new one. *)
Definition owner_token (r : Request) : M C (result (string * list Z)) :=
  let incoming := extractToken r in
  if String.eqb incoming "" then generateOwnerToken
  else
    let inHash := Sha256.Sum256 (bytes incoming) in
    valid ← ValidateAPIToken inHash "paste";
    match valid with
    | Ok _ => mret (Ok (incoming, inHash))
    | Err _ => generateOwnerToken
    end.

(** ** URLs *)

Definition base (r : Request) : string :=
  match baseURLFn h with
  | Some fn => Strings.TrimRight (fn r) "/"
  | None =>
      if negb (String.eqb (baseURL h) "") then Strings.TrimRight (baseURL h) "/"
      else (if r_tls r then "https" else "http") ++ "://" ++ r_host r
  end.

Definition pasteURL (r : Request) (id : string) : string := base r ++ "/" ++ id.

(** ** Create *)

Definition token_prefix (tok : string) : string := if (12 <? strlen tok) then Strings.take 12 tok else tok.

(** Insert the paste and its token row, and answer. *)
Definition store_paste (r : Request) (q : CreateRequest) (id : string) (expires : option Z)
    (plain : string) (hash : list Z) : M C (CreateResponse + (Z * string)) :=
  let p := {| p_id := id; p_title := request_title q; p_content := q_Content q; p_content_type := q_ContentType q;
              p_language := request_language q; p_visibility := visibility_of (q_Visibility q);
              p_is_link := q_IsLink q; p_expires := expires; p_burn := clamp_burn (q_BurnAfter q); p_hash := "";
              p_views := 0; p_created := zero_time; p_updated := zero_time |} in
  created ← CreatePaste p;
  let '(p, err) := created in
  match err with
  | Err _ => mret (inr (500, "failed to create paste"))
  | Ok _ =>
      _ ← metric inc_created;
      tok ← CreateAPIToken (Hex.EncodeToString hash) (token_prefix plain) "paste" id expires;
      _ ← (match tok with Ok _ => refreshActiveTokenGauge | Err _ => mret tt end);
      mret (inl {| cr_id := p_id p; cr_title := p_title p; cr_language := p_language p; cr_visibility := p_visibility p;
                   cr_is_link := p_is_link p; cr_burn := p_burn p; cr_expires := p_expires p; cr_views := 0;
                   cr_created := p_created p; cr_link := pasteURL r (p_id p); cr_owner_token := plain |})
  end.

Definition createFromRequest (r : Request) : M C (CreateResponse + (Z * string)) :=
  match parse_request h r with
  | inr e => mret (inr e)
  | inl (q, r) =>
      match normalize q with
      | inr e => mret (inr e)
      | inl q =>
          expires ← (if negb (String.eqb (q_ExpiresIn q) "") && negb (String.eqb (q_ExpiresIn q) "never")
                     then ParseExpiry (q_ExpiresIn q) else mret None);
          id ← unique_id 10;
          match id with
          | Err e => mret (inr (500, e))
          | Ok id =>
              tok ← owner_token r;
              match tok with
              | Err _ => mret (inr (500, "failed to generate token"))
              | Ok (plain, hash) => store_paste r q id expires plain hash
              end
          end
      end
  end.

Definition CreateFromForm (r : Request) : M C (CreateResponse + (Z * string)) := createFromRequest r.

Definition CreatePaste_handler (r : Request) : M C Response :=
  res ← createFromRequest r;
  match res with
  | inr (status, msg) => mret (sendAPIError (httpErrCode status) msg)
  | inl resp =>
      let ct := r_header r "Content-Type" in
      let isAPI := Strings.HasPrefix (r_path r) "/api/" in
      let isJSON := Strings.Contains (r_header r "Accept") "application/json" in
      mret
        (if negb isAPI && negb isJSON && Strings.HasPrefix ct "application/x-www-form-urlencoded"
         then http_Redirect ("/" ++ cr_id resp) 303
         else if negb isAPI && negb isJSON
         then {| status := 201; headers := [text_plain]; body := BText (cr_link resp ++ newline) |}
         else writeJSON 201 (ok_data (created_json resp)))
  end.

(** ** Get *)

Definition expired (t : Z) (p : Paste) : bool := match p_expires p with Some e => e <? t | None => false end.

(** The paste, or the response that has been written. *)
Definition loadLivePaste (id : string) : M C (Paste + Response) :=
  cached ← getCachedPaste id;
  loaded ← (match cached with
            | Some p => mret (inl p)
            | None =>
                r ← GetPasteByID id;
                match r with
                | Err _ => mret (inr (sendAPIError "SERVER_ERROR" "internal server error"))
                | Ok None => mret (inr (sendAPIError "NOT_FOUND" "paste not found"))
                | Ok (Some p) => _ ← cachePaste p; mret (inl p)
                end
            end);
  match loaded with
  | inr resp => mret (inr resp)
  | inl p =>
      match p_expires p with
      | None => mret (inl p)
      | Some _ =>
          t ← now;
          if expired t p then
            _ ← DeletePaste id;
            _ ← invalidatePasteCache id;
            mret (inr (sendAPIError "GONE" "paste has expired"))
          else mret (inl p)
      end
  end.

Definition burn_effects (id : string) : M C unit :=
  _ ← invalidatePasteCache id; metric inc_deleted.

(** Count the view: the new number of views, and the burn of the cache entry. *)
Definition count_and_burn (id : string) (p : Paste) : M C Paste :=
  v ← IncrementViewsAndCheckBurn id;
  _ ← metric inc_viewed;
  match v with
  | Ok (views, burned) =>
      _ ← (if (burned : bool) then burn_effects id else mret tt);
      mret (set_hash "" (set_views views p))
  | Err _ => mret (set_hash "" (set_views (wrap64 (p_views p + 1)) p))
  end.

Definition paste_text (p : Paste) : string :=
  "id: " ++ p_id p ++ newline ++ "title: " ++ p_title p ++ newline ++ "language: " ++ p_language p ++ newline
  ++ "views: " ++ Strconv.Itoa (p_views p) ++ newline ++ "created: " ++ FormatRFC3339 (p_created p) ++ newline
  ++ match p_expires p with Some e => "expires: " ++ FormatRFC3339 e ++ newline | None => "" end
  ++ newline ++ p_content p ++ newline.

Definition GetPaste (r : Request) : M C Response :=
  let id := r_id r in
  loaded ← loadLivePaste id;
  match loaded with
  | inr resp => mret resp
  | inl p =>
      p ← count_and_burn id p;
      mret
        (if p_is_link p then http_Redirect (p_content p) 302
         else if String.eqb (GetAPIResponseFormat r) "text" then text_ok (paste_text p)
         else writeJSON 200 (ok_data (paste_json p)))
  end.

Definition activeContentTypes : list string :=
  ["text/html"; "application/xhtml+xml"; "image/svg+xml"; "text/xml"; "application/xml"; "application/javascript";
   "text/javascript"].

Definition attachment : string * string := ("Content-Disposition", "attachment").

(** The bytes of a paste: base64 of a binary paste is undone. *)
Definition raw_body (p : Paste) : string :=
  if is_binary (p_content_type p) then
    match Base64.DecodeString (p_content p) with Some l => of_bytes l | None => p_content p end
  else p_content p.

Definition raw_response (p : Paste) : Response :=
  let body_ := raw_body p in
  let detected := if String.eqb (p_content_type p) "" then DetectContentType (Strings.take 512 body_) else p_content_type p in
  let '(baseType, served, bad) :=
    match ParseMediaType detected with
    | None => ("", "application/octet-stream", true)
    | Some (baseType, params) =>
        let served := FormatMediaType baseType params in
        (baseType, if String.eqb served "" then baseType else served, false)
    end in
  {| status := 200;
     headers := (if bad || existsb (String.eqb baseType) activeContentTypes then [attachment] else [])
                ++ [("Content-Type", served); ("X-Content-Type-Options", "nosniff")];
     body := BText body_ |}.

(** The rest of the handler once the paste is loaded. *)
Definition serve_raw (id : string) (loaded : Paste + Response) : M C Response :=
  match loaded with
  | inr resp => mret resp
  | inl p => _ ← count_and_burn id p; mret (raw_response p)
  end.

Definition GetRawPaste (r : Request) : M C Response :=
  loaded ← loadLivePaste (r_id r); serve_raw (r_id r) loaded.

(** ** List *)

(** [int] arithmetic; the divisor is between 1 and 250. *)
Definition page_count (total limit : Z) : Z := wrap64 (total + limit - 1) ÷ limit.

(** The slice of an empty page is nil. *)
Definition items_json (l : list PasteListItem) : json :=
  match l with [] => JNull | _ => JArr (item_json <$> l) end.

Definition ListPastes (r : Request) : M C Response :=
  let page := fst (Strconv.Atoi (Get (r_query r) "page")) in
  let page := if page <? 1 then 1 else page in
  let limit := fst (Strconv.Atoi (Get (r_query r) "limit")) in
  let limit := if limit <? 1 then 250 else limit in
  let limit := if 250 <? limit then 250 else limit in
  res ← GetPublicPastes page limit;
  match res with
  | Err _ => mret (sendAPIError "SERVER_ERROR" "failed to fetch pastes")
  | Ok (pastes, total) =>
      mret
        (if String.eqb (GetAPIResponseFormat r) "text" then
           text_ok ("# pastes: " ++ Strconv.Itoa total ++ " (page " ++ Strconv.Itoa page ++ ")" ++ newline
                    ++ Strings.Join ((fun i => li_id i ++ tab ++ li_language i ++ tab ++ li_title i ++ newline) <$> pastes) "")
         else
           writeJSON 200 (JObj [("ok", JBool true); ("data", items_json pastes);
                                ("pagination", JObj [("page", JInt page); ("limit", JInt limit); ("total", JInt total);
                                                     ("pages", JInt (page_count total limit))])]))
  end.

(** ** Delete *)

Definition deleted_json : json := ok_data (JObj [("message", JStr "paste deleted")]).

Definition is_operator (hash : list Z) : bool :=
  negb (bool_decide (operatorTokenHash h = zero_hash)) && bool_decide (hash = operatorTokenHash h).

Definition DeletePaste_handler (r : Request) : M C Response :=
  let id := r_id r in
  let token := extractToken r in
  if String.eqb token "" then mret (sendAPIError "UNAUTHORIZED" "owner token required (Authorization: Bearer tok_...)")
  else
    let incomingHash := Sha256.Sum256 (bytes token) in
    if is_operator incomingHash then
      del ← DeletePaste id;
      match del with
      | Err _ => mret (sendAPIError "NOT_FOUND" "paste not found")
      | Ok _ =>
          _ ← invalidatePasteCache id;
          _ ← metric inc_deleted;
          mret (writeJSON 200 deleted_json)
      end
    else
      ok ← VerifyAPIToken incomingHash "paste" id;
      match ok with
      | Err _ => mret (sendAPIError "NOT_FOUND" "paste not found or invalid token")
      | Ok _ =>
          del ← DeletePaste id;
          match del with
          | Err _ => mret (sendAPIError "NOT_FOUND" "paste not found")
          | Ok _ =>
              _ ← invalidatePasteCache id;
              _ ← metric inc_deleted;
              _ ← refreshActiveTokenGauge;
              mret (writeJSON 200 deleted_json)
          end
      end.

(** ** Web views *)

Definition GetPasteForWeb (id : string) : M C (result (option Paste)) :=
  cached ← getCachedPaste id;
  loaded ← (match cached with
            | Some p => mret (Ok (Some p))
            | None =>
                r ← GetPasteByID id;
                match r with
                | Ok (Some p) => _ ← cachePaste p; mret (Ok (Some p))
                | r => mret r
                end
            end);
  match loaded with
  | Ok (Some p) =>
      t ← (match p_expires p with Some _ => now | None => mret 0 end);
      if expired t p then
        _ ← DeletePaste id;
        _ ← invalidatePasteCache id;
        mret (Ok None)
      else p ← count_and_burn id p; mret (Ok (Some p))
  | r => mret r
  end.

End handlers.
