(* ===== verification/Compat.v ===== *)
(** * Third-party API compatibility (src/src/handler/compat.go)

    The create, read, delete and list handlers that speak the protocols of
    pastebin.com, microbin, lenpaste, stikked, haste, dpaste, sprunge, 0x0, ix.io
    and termbin, on top of the paste handlers. *)

From S2P Require Import Prelude GoStr GoQuote GoTime GoCrypto GoSniff Model Cache World Database Http Paste.
From Stdlib Require Import Ascii.

(** [xmlEscape]: the ampersand first. *)
Definition xmlEscape (s : string) : string :=
  let s := Strings.ReplaceByte s "&" "&amp;" in
  let s := Strings.ReplaceByte s "<" "&lt;" in
  let s := Strings.ReplaceByte s ">" "&gt;" in
  let s := Strings.ReplaceByte s "034" "&quot;" in
  Strings.ReplaceByte s "'" "&#39;".

Definition pastebin_duration (code : string) : option Z :=
  if String.eqb code "10M" then Some (10 * Minute)
  else if String.eqb code "1H" then Some Hour
  else if String.eqb code "1D" then Some (24 * Hour)
  else if String.eqb code "1W" then Some (7 * 24 * Hour)
  else if String.eqb code "2W" then Some (14 * 24 * Hour)
  else if String.eqb code "1M" then Some (30 * 24 * Hour)
  else if String.eqb code "6M" then Some (180 * 24 * Hour)
  else if String.eqb code "1Y" then Some (365 * 24 * Hour)
  else None.

(** The lifetimes the other protocols send, in the unit of each: a product of
    [time.Duration]s, which are [int64]s. *)
Definition positive (r : Z * option Strconv.NumError) : option Z :=
  match r with (n, None) => if 0 <? n then Some n else None | _ => None end.
Definition len_duration (s : string) : option Z := (fun n => dur_mul n Second) <$> positive (Strconv.ParseInt s).
Definition stikked_duration (s : string) : option Z := (fun n => dur_mul n Minute) <$> positive (Strconv.Atoi s).
Definition dpaste_duration (s : string) : option Z := (fun n => dur_mul (dur_mul n 24) Hour) <$> positive (Strconv.Atoi s).
Definition curl_duration (s : string) : option Z := (fun n => dur_mul n Hour) <$> positive (Strconv.Atoi s).

Definition expiryUnix (t : option Z) : Z := match t with None => 0 | Some t => Unix t end.

Definition error_json (msg : string) : json := JObj [("error", JStr msg)].

Section compat.
Context {C : Type} `{CacheDriver C} `{Unicode} `{JsonText} `{Net} `{Printable}.
Context (h : PasteHandler) (version : string) (Languages : json).

(** [http.MaxBytesReader] and [ParseForm]. *)
Inductive FormResult := FormOk | FormTooLarge | FormBad.

Definition parseFormLimited (r : Request) : FormResult :=
  match r_urlform r with
  | None => FormOk
  | Some f =>
      if effectiveReadLimit h <? strlen (r_body r) then FormTooLarge
      else if uf_malformed f && negb (r_parsed r) then FormBad else FormOk
  end.

(** [time.Now().Add(d)] *)
Definition expiry_in (d : option Z) : M C (option Z) :=
  match d with None => mret None | Some d => t ← now; mret (Some (t + d)) end.

Definition parsePastebinExpiry (code : string) : M C (option Z) := expiry_in (pastebin_duration code).

Definition is_blank (s : string) : bool := String.eqb (StringsU.TrimSpace s) "".
Definition or_default (s d : string) : string := if String.eqb s "" then d else s.

(** ** Shared creation *)

Definition createPasteInternal (title content lang : string) (vis burnAfter : Z) (expires : option Z)
  : M C (result (string * string)) :=
  let title := or_default title "Untitled" in
  let lang := or_default lang "text" in
  let detected := DetectContentType (Strings.take 512 content) in
  let '(content, contentType) :=
    if (0 <? strlen content) && negb (is_text detected) then (Base64.EncodeToString (bytes content), detected)
    else (content, "") in
  id ← unique_id 10;
  match id with
  | Err e => mret (Err e)
  | Ok id =>
      rawBytes ← rand_read 16;
      match rawBytes with
      | Err e => mret (Err e)
      | Ok rawBytes =>
          let deleteToken := Hex.EncodeToString rawBytes in
          created ← CreatePaste {| p_id := id; p_title := title; p_content := content; p_content_type := contentType;
                                   p_language := lang; p_visibility := vis; p_is_link := false; p_expires := expires;
                                   p_burn := burnAfter; p_hash := HashToken deleteToken; p_views := 0;
                                   p_created := zero_time; p_updated := zero_time |};
          match snd created with
          | Err e => mret (Err e)
          | Ok _ => mret (Ok (id, deleteToken))
          end
      end
  end.

Definition origin (r : Request) : string := base h r.
Definition rawURL (r : Request) (id : string) : string := origin r ++ "/raw/" ++ id.

(** The paste of a compatibility read: an expired one is deleted, and is
    missing; the cache is not consulted. *)
Definition compat_load (id : string) : M C (option Paste * bool) :=
  r ← GetPasteByID id;
  match r with
  | Ok (Some p) =>
      match p_expires p with
      | None => mret (Some p, false)
      | Some _ =>
          t ← now;
          if expired t p then _ ← DeletePaste id; mret (None, true) else mret (Some p, false)
      end
  | _ => mret (None, false)
  end.

(** [if _, burned, verr := ...; verr == nil && burned]: the new view count, if any. *)
Definition compat_view (id : string) : M C (option Z) :=
  v ← IncrementViewsAndCheckBurn id;
  match v with
  | Ok (views, burned) => _ ← (if (burned : bool) then burn_effects id else mret tt); mret (Some views)
  | Err _ => mret None
  end.

(** ** pastebin.com *)

Definition pastebinCreate (r : Request) : M C Response :=
  let content := plain_FormValue r "api_paste_code" in
  if is_blank content
  then mret (http_Error "Bad API request, the value you use for 'api_paste_code' is empty." 400)
  else
    let title := plain_FormValue r "api_paste_name" in
    let lang := or_default (plain_FormValue r "api_paste_format") "text" in
    let priv := plain_FormValue r "api_paste_private" in
    let vis := if String.eqb priv "1" || String.eqb priv "2" then VisibilityUnlisted else VisibilityPublic in
    expires ← parsePastebinExpiry (plain_FormValue r "api_paste_expire_date");
    res ← createPasteInternal title content lang vis 0 expires;
    match res with
    | Err _ => mret (http_Error "internal server error" 500)
    | Ok (id, _) => mret (text_ok (pasteURL h r id))
    end.

Definition list_entry (i : PasteListItem) : string :=
  let expire := match li_expires i with None => "0" | Some e => Strconv.Itoa (Unix e) end in
  "<paste><paste_key>" ++ xmlEscape (li_id i) ++ "</paste_key><paste_title>" ++ xmlEscape (li_title i)
  ++ "</paste_title><paste_date>" ++ Strconv.Itoa (Unix (li_created i)) ++ "</paste_date><paste_expire_date>"
  ++ expire ++ "</paste_expire_date><paste_hits>" ++ Strconv.Itoa (li_views i)
  ++ "</paste_hits><paste_private>0</paste_private></paste>".

Definition text_xml (s : string) : Response :=
  {| status := 200; headers := [("Content-Type", "text/xml; charset=utf-8")]; body := BText s |}.

Definition pastebinList (r : Request) : M C Response :=
  let limit := fst (Strconv.Atoi (plain_FormValue r "api_results_limit")) in
  let limit := if limit <? 1 then 50 else limit in
  let limit := if 1000 <? limit then 1000 else limit in
  res ← GetPublicPastes 1 limit;
  match res with
  | Err _ => mret (http_Error "internal server error" 500)
  | Ok (pastes, _) => mret (text_xml ("<pastes>" ++ Strings.Join (list_entry <$> pastes) "" ++ "</pastes>"))
  end.

Definition pastebinDelete (r : Request) : M C Response :=
  let id := plain_FormValue r "api_paste_key" in
  if String.eqb id "" then mret (http_Error "Bad API request, you need to be logged in to delete a paste." 400)
  else
    let token := plain_FormValue r "api_user_key" in
    if String.eqb token "" || String.eqb token "ANONYMOUS"
    then mret (http_Error "Bad API request, you are not authorized to delete this paste." 403)
    else
      res ← DeletePasteByToken id (HashToken token);
      match res with
      | Err _ => mret (http_Error "Bad API request, invalid paste ID." 404)
      | Ok _ => mret (text_ok "Paste Removed")
      end.

Definition user_xml : string :=
  "<user><user_name>anonymous</user_name><user_email></user_email><user_website></user_website>"
  ++ "<user_avatar_url></user_avatar_url><user_location></user_location><user_account_type>0</user_account_type>"
  ++ "<user_private>0</user_private><user_format_short>text</user_format_short><user_expiration>N</user_expiration>"
  ++ "</user>".

Definition pastebinUserDetails (r : Request) : M C Response := mret (text_xml user_xml).

Definition PastebinPost (r : Request) : M C Response :=
  match parseFormLimited r with
  | FormTooLarge => mret (http_Error "Bad API request, paste exceeds the maximum allowed size." 413)
  | FormBad => mret (http_Error "Bad Request | invalid form" 400)
  | FormOk =>
      let opt := plain_FormValue r "api_option" in
      if String.eqb opt "list" then pastebinList r
      else if String.eqb opt "delete" then pastebinDelete r
      else if String.eqb opt "userdetails" then pastebinUserDetails r
      else pastebinCreate r
  end.

Definition PastebinRaw (r : Request) : M C Response :=
  let id := Get (r_query r) "i" in
  if String.eqb id "" then mret (http_Error "Bad API request" 400)
  else
    loaded ← compat_load id;
    match fst loaded with
    | None => mret (http_Error "Bad API request, invalid paste ID" 404)
    | Some p => _ ← compat_view id; mret (text_ok (p_content p))
    end.

Definition PastebinLogin (r : Request) : M C Response := mret (text_ok "ANONYMOUS").

(** ** microbin *)

Definition MicrobinCreate (r : Request) : M C Response := CreatePaste_handler h r.
Definition MicrobinGet (r : Request) : M C Response := GetPaste r.
Definition MicrobinDelete (r : Request) : M C Response := DeletePaste_handler h r.
Definition MicrobinList (r : Request) : M C Response := ListPastes r.

(** ** lenpaste *)

Definition LenCreate (r : Request) : M C Response :=
  match parseFormLimited r with
  | FormTooLarge => mret (writeJSON 413 (error_json "body exceeds maximum paste size"))
  | FormBad => mret (writeJSON 400 (error_json "invalid form"))
  | FormOk =>
      let content := plain_FormValue r "body" in
      if is_blank content then mret (writeJSON 400 (error_json "body is required"))
      else
        let title := plain_FormValue r "title" in
        let lang := or_default (plain_FormValue r "syntax") "text" in
        let burn := if String.eqb (plain_FormValue r "oneUse") "true" then 1 else 0 in
        expires ← expiry_in (len_duration (plain_FormValue r "expiration"));
        res ← createPasteInternal title content lang VisibilityPublic burn expires;
        match res with
        | Err _ => mret (writeJSON 500 (error_json "failed to create paste"))
        | Ok (id, deleteToken) =>
            mret (writeJSON 200 (JObj [("id", JStr id); ("url", JStr (pasteURL h r id)); ("deleteToken", JStr deleteToken)]))
        end
  end.

Definition LenGet (r : Request) : M C Response :=
  let id := Get (r_query r) "id" in
  if String.eqb id "" then mret (writeJSON 400 (error_json "id is required"))
  else
    loaded ← compat_load id;
    match loaded with
    | (None, true) => mret (writeJSON 404 (error_json "paste has expired"))
    | (None, false) => mret (writeJSON 404 (error_json "paste not found"))
    | (Some p, _) =>
        if (p_burn p =? 1) && negb (String.eqb (Get (r_query r) "openOneUse") "true")
        then mret (writeJSON 200 (JObj [("id", JStr (p_id p)); ("oneUse", JBool true)]))
        else
          v ← compat_view id;
          let views := match v with Some n => n | None => wrap64 (p_views p + 1) end in
          mret (writeJSON 200 (JObj [("id", JStr (p_id p)); ("title", JStr (p_title p)); ("body", JStr (p_content p));
                                     ("syntax", JStr (p_language p)); ("oneUse", JBool (p_burn p =? 1));
                                     ("createTime", JInt (Unix (p_created p)));
                                     ("deleteTime", JInt (expiryUnix (p_expires p))); ("views", JInt views)]))
    end.

Definition LenRemove (r : Request) : M C Response :=
  let id := Get (r_query r) "id" in
  let token := Get (r_query r) "deleteToken" in
  if String.eqb id "" || String.eqb token "" then mret (writeJSON 400 (error_json "id and deleteToken are required"))
  else
    res ← DeletePasteByToken id (HashToken token);
    match res with
    | Err _ => mret (writeJSON 404 (error_json "paste not found or invalid token"))
    | Ok _ => mret (writeJSON 200 (JObj [("message", JStr "paste deleted")]))
    end.

Definition len_item (i : PasteListItem) : json :=
  JObj [("id", JStr (li_id i)); ("title", JStr (li_title i)); ("syntax", JStr (li_language i));
        ("createTime", JInt (Unix (li_created i))); ("views", JInt (li_views i))].

Definition LenList (r : Request) : M C Response :=
  let page := fst (Strconv.Atoi (Get (r_query r) "page")) in
  let page := if page <? 1 then 1 else page in
  let limit := fst (Strconv.Atoi (Get (r_query r) "pageSize")) in
  let limit := if (limit <? 1) || (100 <? limit) then 20 else limit in
  res ← GetPublicPastes page limit;
  match res with
  | Err _ => mret (writeJSON 500 (error_json "failed to fetch"))
  | Ok (pastes, total) => mret (writeJSON 200 (JObj [("pastes", JArr (len_item <$> pastes)); ("count", JInt total)]))
  end.

Definition LenServerInfo (r : Request) : M C Response :=
  mret (writeJSON 200 (JObj [("version", JStr version); ("titleMaxlength", JInt 100);
                             ("bodyMaxlength", JInt (10 * 1024 * 1024)); ("maxLifeTime", JInt (-1));
                             ("serverAbout", JStr ""); ("serverRules", JStr ""); ("adminName", JStr "");
                             ("adminMail", JStr ""); ("syntaxes", Languages)])).

Definition AuthStubRedirect (r : Request) : M C Response := mret (http_Redirect "/" 302).

(** ** stikked *)

Definition plain_error (status : Z) (msg : string) : Response :=
  {| status := status; headers := [text_plain]; body := BText ("Error: " ++ msg) |}.

Definition StikkedCreate (r : Request) : M C Response :=
  match parseFormLimited r with
  | FormTooLarge => mret (plain_error 413 "paste exceeds the maximum allowed size.")
  | FormBad => mret (plain_error 200 "invalid form")
  | FormOk =>
      let content := plain_FormValue r "text" in
      if is_blank content then mret (plain_error 200 "No paste data sent.")
      else
        let title := plain_FormValue r "title" in
        let lang := or_default (plain_FormValue r "lang") "text" in
        let vis := if String.eqb (plain_FormValue r "private") "1" then VisibilityUnlisted else VisibilityPublic in
        expires ← expiry_in (stikked_duration (plain_FormValue r "expire"));
        res ← createPasteInternal title content lang vis 0 expires;
        match res with
        | Err _ => mret (plain_error 200 "could not create paste")
        | Ok (id, _) => mret (text_ok (origin r ++ "/view/" ++ id))
        end
  end.

Definition StikkedJSON (r : Request) : M C Response :=
  loaded ← compat_load (r_id r);
  match fst loaded with
  | None => mret (writeJSON 404 (error_json "paste not found"))
  | Some p =>
      mret (writeJSON 200 (JObj [("pid", JStr (p_id p)); ("title", JStr (p_title p)); ("name", JStr "");
                                 ("created", JInt (Unix (p_created p))); ("lang", JStr (p_language p));
                                 ("raw", JStr (p_content p)); ("hits", JInt (p_views p))]))
  end.

(** ** haste *)

Definition message_json (msg : string) : json := JObj [("message", JStr msg)].

Definition HastebinCreate (r : Request) : M C Response :=
  if (effectiveReadLimit h <? strlen (r_body r)) || is_blank (r_body r)
  then mret (writeJSON 400 (message_json "no content"))
  else
    res ← createPasteInternal "" (r_body r) "text" VisibilityPublic 0 None;
    match res with
    | Err _ => mret (writeJSON 500 (message_json "could not create document"))
    | Ok (id, _) => mret (writeJSON 200 (JObj [("key", JStr id)]))
    end.

Definition HastebinGet (r : Request) : M C Response :=
  let id := r_id r in
  loaded ← compat_load id;
  match fst loaded with
  | None => mret (writeJSON 404 (message_json "document not found"))
  | Some p =>
      _ ← compat_view id;
      mret (writeJSON 200 (JObj [("key", JStr (p_id p)); ("data", JStr (p_content p))]))
  end.

(** ** dpaste *)

Definition DpasteCreate (r : Request) : M C Response :=
  match parseFormLimited r with
  | FormTooLarge => mret (http_Error "content exceeds the maximum allowed size" 413)
  | FormBad => mret (http_Error "invalid form" 400)
  | FormOk =>
      let content := plain_FormValue r "content" in
      if is_blank content then mret (http_Error "This field is required." 400)
      else
        let lang := or_default (or_default (or_default (plain_FormValue r "lexer") (plain_FormValue r "syntax"))
                                  (plain_FormValue r "filename")) "text" in
        expires ← expiry_in (dpaste_duration (plain_FormValue r "expires"));
        res ← createPasteInternal "" content lang VisibilityPublic 0 expires;
        match res with
        | Err _ => mret (http_Error "could not create snippet" 500)
        | Ok (id, _) =>
            let link := origin r ++ "/" ++ id in
            let format := plain_FormValue r "format" in
            mret (if String.eqb format "url" then text_ok (link ++ newline)
                  else if String.eqb format "json"
                  then writeJSON 200 (JObj [("url", JStr link); ("content", JStr content); ("lexer", JStr lang)])
                  else text_ok (Quote link))
        end
  end.

(** ** sprunge, 0x0.st, ix.io *)

Definition curlRespond (r : Request) (content expires : string) (withToken : bool) : M C Response :=
  if is_blank content then mret (http_Error "no content" 400)
  else
    expires ← expiry_in (curl_duration expires);
    res ← createPasteInternal "" content "text" VisibilityPublic 0 expires;
    match res with
    | Err _ => mret (http_Error "could not create paste" 500)
    | Ok (id, deleteToken) =>
        mret {| status := 200; headers := (if withToken then [("X-Token", deleteToken)] else []) ++ [text_plain];
                body := BText (rawURL r id ++ newline) |}
    end.

(** The request behind a [MaxBytesReader], its form parsed: a reader that runs
    into the limit delivers the bytes up to it, then an error. *)
Definition bounded (r : Request) : Request := mark_parsed (set_body (takeZ (effectiveReadLimit h) (r_body r)) r).

Definition RootUpload (r : Request) : M C Response :=
  let over := effectiveReadLimit h <? strlen (r_body r) in
  let has_form := match r_urlform r with Some _ => true | None => false end in
  let has_multipart := match r_multipart r with Some _ => true | None => false end in
  if (has_form || has_multipart) && over then mret (http_Error "content exceeds the maximum allowed size" 413)
  else match FormFile r "file" with
  | Some file =>
      curlRespond r (takeZ (effectiveReadLimit h) (up_bytes file)) (FormValue r "expires") true
  | None =>
      let v := FormValue r "sprunge" in
      if negb (is_blank v) then curlRespond r v "" false
      else
        let v := FormValue r "f:1" in
        if negb (is_blank v) then curlRespond r v "" false
        else CreatePaste_handler h (bounded r)
  end.

(** ** termbin: what one connection receives back *)

Definition TermbinServe (input : string) (readError : bool) (base_ : string) (maxSize : Z) : M C string :=
  let data := takeZ (wrap64 (maxSize + 1)) input in
  if readError && String.eqb data "" then mret ("Error: read failed" ++ newline)
  else if maxSize <? strlen data then mret ("Error: paste too large" ++ newline)
  else
    let content := Strings.TrimRight data (String "013" newline) in
    if is_blank content then mret ("Error: no content" ++ newline)
    else
      res ← createPasteInternal "" content "text" VisibilityPublic 0 None;
      match res with
      | Err _ => mret ("Error: could not create paste" ++ newline)
      | Ok (id, _) => mret (Strings.TrimRight base_ "/" ++ "/" ++ id ++ newline)
      end.

End compat.
