(* ===== verification/Instances.v ===== *)
(** * Concrete parameters

    One executable instance of each interface the handlers are proved against,
    so that the theorems can be applied to concrete runs: a codec of JSON values
    (not the JSON syntax, but with the laws of {!Http.JsonLaws}), simple URL and
    media-type functions, ASCII case tables. *)

From S2P Require Import Prelude GoStr GoQuote GoTime Model Http Paste Compat.
From stdpp Require Import countable.
From Stdlib Require Import Ascii.

#[export] Existing Instance ascii_unicode.

(** ** A codec for values *)

Fixpoint to_tree (j : json) : gen_tree string :=
  match j with
  | JNull => GenNode 0 []
  | JBool b => GenNode (if b then 2 else 1) []
  | JNum s => GenNode 3 [GenLeaf s]
  | JStr s => GenLeaf s
  | JArr l => GenNode 4 (List.map to_tree l)
  | JObj l => GenNode 5 (List.map (fun kv => GenNode 6 [GenLeaf (fst kv); to_tree (snd kv)]) l)
  end.

Fixpoint of_tree (t : gen_tree string) : json :=
  match t with
  | GenLeaf s => JStr s
  | GenNode 0 _ => JNull
  | GenNode 1 _ => JBool false
  | GenNode 2 _ => JBool true
  | GenNode 3 (GenLeaf s :: _) => JNum s
  | GenNode 4 l => JArr (List.map of_tree l)
  | GenNode 5 l =>
      JObj (List.map (fun t => match t with
                               | GenNode _ (GenLeaf k :: v :: _) => (k, of_tree v)
                               | _ => ("", JNull)
                               end) l)
  | _ => JNull
  end.

Lemma of_to_tree : forall j, of_tree (to_tree j) = j.
Proof.
  fix IH 1. intros [|[]|s|s|l|l]; try reflexivity; cbn; f_equal.
  - induction l as [|x l IHl]; [reflexivity|]. cbn. by rewrite IH, IHl.
  - induction l as [|[k x] l IHl]; [reflexivity|]. cbn. by rewrite IH, IHl.
Qed.

Fixpoint bits (p : positive) : string :=
  match p with xH => "" | xO p => String "0" (bits p) | xI p => String "1" (bits p) end.
Fixpoint of_bits (s : string) : positive :=
  match s with "" => xH | String c s => if Ascii.eqb c "0" then xO (of_bits s) else xI (of_bits s) end.

Lemma of_bits_bits p : of_bits (bits p) = p.
Proof. induction p; cbn; congruence. Qed.

Lemma bits_ascii p : StringsU.is_ascii (bits p) = true.
Proof. unfold StringsU.is_ascii. induction p; cbn; auto. Qed.

#[export] Instance tree_json : JsonText := {|
  render := fun j => bits (encode (to_tree (sanitize j)));
  parse := fun s => of_tree <$> decode (of_bits s);
  time_text := fun t => bits (encode t);
  parse_time := fun s => decode (of_bits s);
|}.

#[export] Instance tree_stream : JsonStream := {| parse_first := parse; parse_first_all := fun s j E => E |}.
#[export] Instance tree_json_laws : JsonLaws.
Proof.
  split; cbn.
  - intros j. rewrite of_bits_bits, decode_encode. cbn. by rewrite of_to_tree.
  - intros t. by rewrite of_bits_bits, decode_encode.
  - intros t. apply ToValid_ascii, bits_ascii.
Qed.

(** ** URLs and media types *)

Definition before (c : ascii) (s : string) : string :=
  match Strings.IndexByte s c with Some n => Strings.take n s | None => s end.

Definition simple_parse (s : string) : option (string * string) :=
  if Strings.HasPrefix s "http://" then Some ("http", before "/" (Strings.drop 7 s))
  else if Strings.HasPrefix s "https://" then Some ("https", before "/" (Strings.drop 8 s))
  else Some ("", "").

#[export] Instance simple_net : Net := {|
  url_Parse := simple_parse;
  ParseMediaType := fun s => Some (StringsU.ToLower (StringsU.TrimSpace (before ";" s)), []);
  FormatMediaType := fun base _ => base;
  FormatRFC3339 := fun t => Strconv.Itoa (Unix t);
|}.

#[export] Instance ascii_printable : Printable := {| is_print := Utf8.in_rng 32 126 |}.

(** ** Requests and worlds *)

Definition plain_request : Request :=
  {| r_path := "/"; r_id := ""; r_host := "example.org"; r_tls := true; r_header := fun _ => ""; r_txt := false;
     r_query := []; r_body := ""; r_urlform := None; r_multipart := None; r_parsed := false |}.

Definition with_id (id : string) (r : Request) : Request :=
  {| r_path := r_path r; r_id := id; r_host := r_host r; r_tls := r_tls r; r_header := r_header r;
     r_txt := r_txt r; r_query := r_query r; r_body := r_body r; r_urlform := r_urlform r;
     r_multipart := r_multipart r; r_parsed := r_parsed r |}.
Definition with_header (k v : string) (r : Request) : Request :=
  {| r_path := r_path r; r_id := r_id r; r_host := r_host r; r_tls := r_tls r;
     r_header := fun k' => if String.eqb k' k then v else r_header r k'; r_txt := r_txt r;
     r_query := r_query r; r_body := r_body r; r_urlform := r_urlform r;
     r_multipart := r_multipart r; r_parsed := r_parsed r |}.
Definition with_query (q : values) (r : Request) : Request :=
  {| r_path := r_path r; r_id := r_id r; r_host := r_host r; r_tls := r_tls r; r_header := r_header r;
     r_txt := r_txt r; r_query := q; r_body := r_body r; r_urlform := r_urlform r;
     r_multipart := r_multipart r; r_parsed := r_parsed r |}.
Definition with_form (l : values) (r : Request) : Request :=
  {| r_path := r_path r; r_id := r_id r; r_host := r_host r; r_tls := r_tls r; r_header := r_header r;
     r_txt := r_txt r; r_query := r_query r; r_body := r_body r;
     r_urlform := Some {| uf_values := l; uf_malformed := false |};
     r_multipart := r_multipart r; r_parsed := r_parsed r |}.

Definition plain_handler : PasteHandler :=
  {| baseURL := ""; baseURLFn := None; operatorTokenHash := zero_hash; maxSizeBytes := 0; maxSizeSet := false |}.
