(* ===== verification/ConfigInstances.v ===== *)
(** * Concrete parameters of the configuration

    An executable instance of each interface of {!Config} and {!ConfigStore}: a
    codec of configurations (not YAML, but with its law), fresh names for temporary
    files, and a machine without network or host name. *)

From S2P Require Import Prelude GoStr Utf8Proofs GoNet Cron Proxy ConfigText FileSys Config ConfigStore Instances.
From stdpp Require Import countable infinite.
From Stdlib Require Import Ascii.

(** ** A codec for configurations *)

#[export] Instance LogFileConfig_dec : EqDecision LogFileConfig.
Proof. solve_decision. Defined.
#[export] Instance LogFileConfig_countable : Countable LogFileConfig.
Proof.
  refine (inj_countable' (fun r => (Filename r, Format r, Custom r, Rotate r, Keep r))
    (fun t => let '(x0, x1, x2, x3, x4) := t in {| Filename := x0; Format := x1; Custom := x2; Rotate := x3; Keep := x4 |}) _).
  by intros [].
Defined.
#[export] Instance LoggingConfig_dec : EqDecision LoggingConfig.
Proof. solve_decision. Defined.
#[export] Instance LoggingConfig_countable : Countable LoggingConfig.
Proof.
  refine (inj_countable' (fun r => (Level r, log_Access r, log_Server r, log_Error r, log_App r, log_Auth r, log_Security r, log_Debug r))
    (fun t => let '(x0, x1, x2, x3, x4, x5, x6, x7) := t in {| Level := x0; log_Access := x1; log_Server := x2; log_Error := x3; log_App := x4; log_Auth := x5; log_Security := x6; log_Debug := x7 |}) _).
  by intros [].
Defined.
#[export] Instance LimitsConfig_dec : EqDecision LimitsConfig.
Proof. solve_decision. Defined.
#[export] Instance LimitsConfig_countable : Countable LimitsConfig.
Proof.
  refine (inj_countable' (fun r => (ReadTimeout r, WriteTimeout r, IdleTimeout r, MaxBodySize r))
    (fun t => let '(x0, x1, x2, x3) := t in {| ReadTimeout := x0; WriteTimeout := x1; IdleTimeout := x2; MaxBodySize := x3 |}) _).
  by intros [].
Defined.
#[export] Instance TermbinConfig_dec : EqDecision TermbinConfig.
Proof. solve_decision. Defined.
#[export] Instance TermbinConfig_countable : Countable TermbinConfig.
Proof.
  refine (inj_countable' (fun r => (tb_Enabled r, tb_Port r, tb_MaxSize r, tb_Timeout r))
    (fun t => let '(x0, x1, x2, x3) := t in {| tb_Enabled := x0; tb_Port := x1; tb_MaxSize := x2; tb_Timeout := x3 |}) _).
  by intros [].
Defined.
#[export] Instance ContactPageConfig_dec : EqDecision ContactPageConfig.
Proof. solve_decision. Defined.
#[export] Instance ContactPageConfig_countable : Countable ContactPageConfig.
Proof.
  refine (inj_countable' (fun r => (Captcha r, SuccessMessage r))
    (fun t => let '(x0, x1) := t in {| Captcha := x0; SuccessMessage := x1 |}) _).
  by intros [].
Defined.
#[export] Instance CacheSettings_dec : EqDecision CacheSettings.
Proof. solve_decision. Defined.
#[export] Instance CacheSettings_countable : Countable CacheSettings.
Proof.
  refine (inj_countable' (fun r => (ch_Type r, ch_URL r, ch_Timeout r, ch_TTL r))
    (fun t => let '(x0, x1, x2, x3) := t in {| ch_Type := x0; ch_URL := x1; ch_Timeout := x2; ch_TTL := x3 |}) _).
  by intros [].
Defined.
#[export] Instance ConsentConfig_dec : EqDecision ConsentConfig.
Proof. solve_decision. Defined.
#[export] Instance ConsentConfig_countable : Countable ConsentConfig.
Proof.
  refine (inj_countable' (fun r => (cs_Message r, cs_MessageIfSold r, cs_PolicyText r, cs_PolicyURL r, cs_Decline r, cs_Accept r, cs_PreferencesText r, cs_Position r))
    (fun t => let '(x0, x1, x2, x3, x4, x5, x6, x7) := t in {| cs_Message := x0; cs_MessageIfSold := x1; cs_PolicyText := x2; cs_PolicyURL := x3; cs_Decline := x4; cs_Accept := x5; cs_PreferencesText := x6; cs_Position := x7 |}) _).
  by intros [].
Defined.
#[export] Instance ThirdPartyService_dec : EqDecision ThirdPartyService.
Proof. solve_decision. Defined.
#[export] Instance ThirdPartyService_countable : Countable ThirdPartyService.
Proof.
  refine (inj_countable' (fun r => (sp_Name r, sp_Purpose r, sp_DataSent r, sp_PolicyURL r))
    (fun t => let '(x0, x1, x2, x3) := t in {| sp_Name := x0; sp_Purpose := x1; sp_DataSent := x2; sp_PolicyURL := x3 |}) _).
  by intros [].
Defined.
#[export] Instance TrackingConfig_dec : EqDecision TrackingConfig.
Proof. solve_decision. Defined.
#[export] Instance TrackingConfig_countable : Countable TrackingConfig.
Proof.
  refine (inj_countable' (fun r => (tr_Type r, tr_ID r, tr_URL r))
    (fun t => let '(x0, x1, x2) := t in {| tr_Type := x0; tr_ID := x1; tr_URL := x2 |}) _).
  by intros [].
Defined.
#[export] Instance ContactRole_dec : EqDecision ContactRole.
Proof. solve_decision. Defined.
#[export] Instance ContactRole_countable : Countable ContactRole.
Proof.
  refine (inj_countable' (fun r => (Email r, Webhooks r))
    (fun t => let '(x0, x1) := t in {| Email := x0; Webhooks := x1 |}) _).
  by intros [].
Defined.
#[export] Instance ContactConfig_dec : EqDecision ContactConfig.
Proof. solve_decision. Defined.
#[export] Instance ContactConfig_countable : Countable ContactConfig.
Proof.
  refine (inj_countable' (fun r => (ct_Admin r, ct_Security r, ct_Abuse r, ct_General r))
    (fun t => let '(x0, x1, x2, x3) := t in {| ct_Admin := x0; ct_Security := x1; ct_Abuse := x2; ct_General := x3 |}) _).
  by intros [].
Defined.
#[export] Instance SMTPConfig_dec : EqDecision SMTPConfig.
Proof. solve_decision. Defined.
#[export] Instance SMTPConfig_countable : Countable SMTPConfig.
Proof.
  refine (inj_countable' (fun r => (sm_Host r, sm_Port r, sm_Username r, sm_Password r, sm_TLS r, sm_FromName r, sm_FromEmail r))
    (fun t => let '(x0, x1, x2, x3, x4, x5, x6) := t in {| sm_Host := x0; sm_Port := x1; sm_Username := x2; sm_Password := x3; sm_TLS := x4; sm_FromName := x5; sm_FromEmail := x6 |}) _).
  by intros [].
Defined.
#[export] Instance RateLimitEndpoint_countable : Countable RateLimitEndpoint.
Proof.
  refine (inj_countable' (fun r => (Requests r, Window r))
    (fun t => let '(x0, x1) := t in {| Requests := x0; Window := x1 |}) _).
  by intros [].
Defined.
#[export] Instance RateLimits_countable : Countable RateLimits.
Proof.
  refine (inj_countable' (fun r => (rq_Enabled r, rq_Read r, rq_Write r, rq_Health r, GlobalBurst r))
    (fun t => let '(x0, x1, x2, x3, x4) := t in {| rq_Enabled := x0; rq_Read := x1; rq_Write := x2; rq_Health := x3; GlobalBurst := x4 |}) _).
  by intros [].
Defined.
#[export] Instance Cors_countable : Countable Cors.
Proof.
  refine (inj_countable' (fun r => (AllowedOrigins r, AllowCredentials r, MaxAge r))
    (fun t => let '(x0, x1, x2) := t in {| AllowedOrigins := x0; AllowCredentials := x1; MaxAge := x2 |}) _).
  by intros [].
Defined.
#[export] Instance SecuritySettings_dec : EqDecision SecuritySettings.
Proof. solve_decision. Defined.
#[export] Instance SecuritySettings_countable : Countable SecuritySettings.
Proof.
  refine (inj_countable' (fun r => (EncryptionKey r, ContactEmail r, ReportURL r, PreferredLanguages r, PublishPGPKey r))
    (fun t => let '(x0, x1, x2, x3, x4) := t in {| EncryptionKey := x0; ContactEmail := x1; ReportURL := x2; PreferredLanguages := x3; PublishPGPKey := x4 |}) _).
  by intros [].
Defined.
#[export] Instance ServerSettings_dec : EqDecision ServerSettings.
Proof. solve_decision. Defined.
#[export] Instance ServerSettings_countable : Countable ServerSettings.
Proof.
  refine (inj_countable' (fun r => (sv_Mode r, sv_Port r, sv_Address r, sv_BaseURL r, sv_FQDN r, sv_Token r, sv_BrandTitle r, sv_BrandTagline r, sv_CountryMode r, sv_Branch r, sv_Onion r, sv_I2PEnabled r, sv_B32 r, sv_TorBinary r, sv_TorVirtualPort r, sv_DNSCredentials r, sv_EssentialCookies r))
    (fun t => let '(x0, x1, x2, x3, x4, x5, x6, x7, x8, x9, x10, x11, x12, x13, x14, x15, x16) := t in {| sv_Mode := x0; sv_Port := x1; sv_Address := x2; sv_BaseURL := x3; sv_FQDN := x4; sv_Token := x5; sv_BrandTitle := x6; sv_BrandTagline := x7; sv_CountryMode := x8; sv_Branch := x9; sv_Onion := x10; sv_I2PEnabled := x11; sv_B32 := x12; sv_TorBinary := x13; sv_TorVirtualPort := x14; sv_DNSCredentials := x15; sv_EssentialCookies := x16 |}) _).
  by intros [].
Defined.
#[export] Instance Config_dec : EqDecision Config.
Proof. solve_decision. Defined.
#[export] Instance Config_countable : Countable Config.
Proof.
  refine (inj_countable' (fun r => (c_server r, c_limits r, c_termbin r, c_contact_page r, c_cache r, c_logging r, c_consent r, c_tracking r, c_contact r, c_smtp r, c_rates r, c_cors r, c_security r, c_db_type r, c_db_path r, c_site_title r, c_theme r, c_max_size r, c_max_size_bytes r, c_third_party r, c_first_run r, c_rest r))
    (fun t => let '(x0, x1, x2, x3, x4, x5, x6, x7, x8, x9, x10, x11, x12, x13, x14, x15, x16, x17, x18, x19, x20, x21) := t in {| c_server := x0; c_limits := x1; c_termbin := x2; c_contact_page := x3; c_cache := x4; c_logging := x5; c_consent := x6; c_tracking := x7; c_contact := x8; c_smtp := x9; c_rates := x10; c_cors := x11; c_security := x12; c_db_type := x13; c_db_path := x14; c_site_title := x15; c_theme := x16; c_max_size := x17; c_max_size_bytes := x18; c_third_party := x19; c_first_run := x20; c_rest := x21 |}) _).
  by intros [].
Defined.
#[export] Instance code_yaml : Yaml := {|
  marshal := fun c => bits (encode c);
  unmarshal := fun s d => match decode (of_bits s) with Some c => (persisted d c, None) | None => (d, Some "not a configuration") end;
|}.

#[export] Instance code_yaml_laws : YamlLaws.
Proof. constructor. intros c d _. unfold marshal, unmarshal, code_yaml. by rewrite of_bits_bits, decode_encode. Qed.

(** ** Files *)

#[export] Instance fresh_names : TempNames.
Proof.
  refine {| temp_name := fun path d => fresh (path :: (path +:+ ".old") :: (map_to_list (names d)).*1) |}; intros path d;
    pose proof (infinite_is_fresh (path :: (path +:+ ".old") :: (map_to_list (names d)).*1)) as Hf; set (tmp := fresh _) in *.
  - apply eq_None_not_Some. intros [i Hi]. apply Hf. do 2 right. apply list_elem_of_fmap. exists (tmp, i). split; [done|]. by apply elem_of_map_to_list.
  - intros E. apply Hf. rewrite E. by left.
  - intros E. apply Hf. rewrite E. right. by left.
Defined.

Definition no_files (faults : list bool) : Disk := {| names := ∅; inodes := []; d_clock := 0; d_ticks := []; d_faults := faults |}.
Definition one_file (path text : string) (faults : list bool) : Disk :=
  {| names := {[path := 0%nat]}; inodes := [{| i_data := Plain [text]; i_mtime := 1 |}]; d_clock := 0; d_ticks := []; d_faults := faults |}.

(** ** The machine *)

Definition bare_machine (env : Env) : Machine := {| mc_env := env; mc_hostname := None; mc_interfaces := None; mc_public := None |}.
Definition no_env : Env := fun _ => "".

#[export] Instance no_suffixes : SuffixList := {| public_suffix := fun _ => ("", false) |}.
#[export] Instance no_etld : PublicSuffix := {| etld_plus_one := fun _ => None |}.

(** A cipher that hides nothing. *)
#[export] Instance plain_cipher : AEAD := {|
  gcm_seal := fun _ _ p => bytes (bits (encode p));
  gcm_open := fun _ _ l => decode (of_bits (of_bytes l));
|}.
#[export] Instance plain_cipher_laws : AEADLaws.
Proof.
  constructor; intros k n p; unfold gcm_open, gcm_seal, plain_cipher.
  - by rewrite of_bytes_bytes, of_bits_bits, decode_encode.
  - apply bytes_Forall.
Qed.
