(* ===== verification/ConfigStoreProofs.v ===== *)
(** * The stored configuration: atomic saves, secrets, reloads *)

From S2P Require Import Prelude RotateProofs GoStr GoStrProofs GoTextProofs GoTime GoNet GoCrypto Cron Rotate Http Proxy ConfigText FileSys Config ConfigStore ConfigProofs Utf8Proofs Instances ConfigInstances.
From Stdlib Require Import Ascii.

(** ** Saving *)

(** Every name leads to an inode. *)
Definition sound (d : Disk) : Prop := forall q i, names d !! q = Some i -> (i < length (inodes d))%nat.

Definition text_at (d : Disk) (path : string) : option string := file_at d path ≫= fun f => text_of (i_data f).

(** The disk while a temporary file is written: nothing but that file is new. *)
Record writing (d0 : Disk) (tmp : string) (l : list string) (d : Disk) : Prop := {
  wr_names : names d = <[tmp := length (inodes d0)]> (names d0);
  wr_inodes : exists t, inodes d = (inodes d0 ++ [{| i_data := Plain l; i_mtime := t |}])%list;
}.

Lemma writing_faults d0 tmp l d fs : writing d0 tmp l d -> writing d0 tmp l (set_faults fs d).
Proof. intros [Hn Hi]. by constructor. Qed.

Lemma write_temp d0 tmp l text d r d' : writing d0 tmp l d -> WriteString (length (inodes d0)) text d = (r, d') ->
  (is_ok r = true /\ writing d0 tmp (l ++ [text]) d') \/ (is_ok r = false /\ writing d0 tmp l d').
Proof.
  intros Hw. unfold WriteString, sys. destruct (hd false (d_faults d)); intros [= <- <-]; [right; split; [done|by apply writing_faults]|].
  left. split; [done|]. destruct Hw as [Hn [t Hi]]. constructor; [done|]. cbn [inodes set_inodes set_faults]. rewrite Hi.
  exists (d_clock d). rewrite alter_app_r_alt by done. by rewrite Nat.sub_diag.
Qed.

Lemma idle_temp (x : D (result unit)) d0 tmp l d r d' : x = sys (fun d => (Ok tt, d)) -> writing d0 tmp l d -> x d = (r, d') ->
  writing d0 tmp l d'.
Proof. intros -> Hw. unfold sys. destruct (hd false (d_faults d)); intros [= <- <-]; by apply writing_faults. Qed.

Lemma write_steps d0 tmp text d r d' : writing d0 tmp [] d ->
  all_of [Chmod; WriteString (length (inodes d0)) text; Sync; Close] d = (r, d') ->
  exists l, writing d0 tmp l d' /\ (is_ok r = true -> l = [text]).
Proof.
  intros Hw. cbn [all_of]. unfold mbind, D_bind, mret, D_ret.
  destruct (Chmod d) as [r1 d1] eqn:E1. apply (idle_temp _ _ _ _ _ _ _ eq_refl Hw) in E1.
  destruct r1; [|intros [= <- <-]; by exists []].
  destruct (WriteString _ text d1) as [r2 d2] eqn:E2. apply (write_temp _ _ _ _ _ _ _ E1) in E2 as [[Hr E2]|[Hr E2]];
    (destruct r2; [|by try (intros [= <- <-]; exists [])]); [|done].
  destruct (Sync d2) as [r3 d3] eqn:E3. apply (idle_temp _ _ _ _ _ _ _ eq_refl E2) in E3.
  destruct r3; [|intros [= <- <-]; by exists [text]].
  destruct (Close d3) as [r4 d4] eqn:E4. apply (idle_temp _ _ _ _ _ _ _ eq_refl E3) in E4.
  destruct r4; intros [= <- <-]; by exists [text].
Qed.

(** What a save leaves: the new text at the path, or everything as it was; beside
    them at most the temporary file. *)
Definition saved (d : Disk) (path tmp text : string) (r : result unit) (d' : Disk) : Prop :=
  (if is_ok r then text_at d' path = Some text else file_at d' path = file_at d path)
  /\ sound d' /\ forall q, q <> path -> q <> tmp -> file_at d' q = file_at d q.

Lemma writing_other d0 tmp l d q : sound d0 -> writing d0 tmp l d -> q <> tmp -> file_at d q = file_at d0 q.
Proof.
  intros Hs [Hn [t Hi]] Hq. unfold file_at. rewrite Hn, lookup_insert_ne by done. destruct (names d0 !! q) as [i|] eqn:E; [|done].
  cbn. rewrite Hi, lookup_app_l by by apply (Hs q). done.
Qed.

Lemma writing_sound d0 tmp l d : sound d0 -> writing d0 tmp l d -> sound d.
Proof.
  intros Hs [Hn [t Hi]] q i. rewrite Hn, Hi, length_app. cbn. destruct (decide (q = tmp)) as [->|Hq].
  - rewrite lookup_insert_eq. intros [= <-]. lia.
  - rewrite lookup_insert_ne by done. intros E%Hs. lia.
Qed.

(** Removing a name changes no other file. *)
Lemma Remove_other tmp d r d' : Remove tmp d = (r, d') -> sound d -> sound d' /\ forall q, q <> tmp -> file_at d' q = file_at d q.
Proof.
  unfold Remove, sys. intros E Hs. destruct (hd false (d_faults d)); [injection E as <- <-; done|].
  destruct (names (set_faults _ d) !! tmp); injection E as <- <-; [|done]. split.
  - intros q i. cbn [names set_names inodes set_faults]. intros [_ Hq]%lookup_delete_Some. by apply (Hs q).
  - intros q Hq. unfold file_at. cbn [names set_names inodes set_faults]. by rewrite lookup_delete_ne.
Qed.

(** Renaming the temporary file puts its text at the path. *)
Lemma Rename_temp d0 tmp path l d r d' : sound d0 -> path <> tmp -> writing d0 tmp l d -> Rename tmp path d = (r, d') ->
  saved d0 path tmp (String.concat "" l) r d'.
Proof.
  intros Hs Hp Hw E. pose proof (writing_sound _ _ _ _ Hs Hw) as Hs'. pose proof (fun q => writing_other _ _ _ _ q Hs Hw) as Ho.
  unfold Rename, sys in E. destruct (hd false (d_faults d)); [injection E as <- <-|].
  { split; [by apply Ho|]. split; [done|]. intros q _ Hq. by apply Ho. }
  destruct Hw as [Hn [t Hi]]. change (names (set_faults _ d)) with (names d) in E. rewrite Hn, lookup_insert_eq in E. injection E as <- <-.
  split; [|split].
  - cbn [is_ok]. unfold text_at, file_at. cbn [names set_names inodes set_faults]. rewrite lookup_insert_eq. cbn. rewrite Hi, lookup_app_r by done.
    rewrite Nat.sub_diag. done.
  - intros q i. cbn [names set_names inodes set_faults]. rewrite Hi, length_app. cbn.
    intros [[<- <-]|[_ [_ [[<- <-]|[_ Hq]]%lookup_insert_Some]%lookup_delete_Some]]%lookup_insert_Some; try lia. apply Hs in Hq. lia.
  - intros q Hq Ht. rewrite <- Ho by done. unfold file_at. cbn [names set_names inodes set_faults].
    rewrite lookup_insert_ne, lookup_delete_ne by done. by rewrite Hn.
Qed.

Lemma save_text_saved `{TempNames} path text d r d' : sound d -> save_text path text d = (r, d') -> saved d path (temp_name path d) text r d'.
Proof.
  intros Hs. unfold save_text. set (tmp := temp_name path d). assert (Hp : path <> tmp) by (apply not_eq_sym, temp_other).
  unfold mbind, D_bind, mret, D_ret. destruct (CreateTemp tmp d) as [f d1] eqn:E. unfold CreateTemp, sys in E.
  destruct (hd false (d_faults d)); injection E as <- <-; [by intros [= <- <-]|].
  assert (Hw : writing d tmp [] (set_names (<[tmp:=length (inodes d)]> (names d))
    (set_inodes (inodes d ++ [{| i_data := Plain []; i_mtime := d_clock d |}]) (set_faults (tl (d_faults d)) d))))
    by (constructor; [done|]; by exists (d_clock d)).
  cbn [inodes set_faults names d_clock] in *. revert Hw. generalize (set_names (<[tmp:=length (inodes d)]> (names d))
    (set_inodes (inodes d ++ [{| i_data := Plain []; i_mtime := d_clock d |}]) (set_faults (tl (d_faults d)) d))).
  intros d1 Hw. destruct (all_of _ d1) as [r2 d2] eqn:E2. apply (write_steps _ _ _ _ _ _ Hw) in E2 as (l & Hw2 & Hl).
  set (x := match r2 with Ok _ => Rename tmp path | Err e => fun a => (Err e, a) end).
  assert (Hx : forall r3 d3, x d2 = (r3, d3) -> saved d path tmp text r3 d3).
  { intros r3 d3. unfold x. destruct r2; [rewrite (Hl eq_refl) in Hw2; by apply (Rename_temp _ _ _ [text] d2)|]. intros [= <- <-].
    split; [by eapply writing_other|]. split; [by eapply writing_sound|]. intros. by eapply writing_other. }
  destruct (x d2) as [r3 d3]. destruct (Hx _ _ eq_refl) as (H1 & H2 & H3). destruct (Remove tmp d3) as [r4 d4] eqn:E4.
  apply Remove_other in E4 as [Hs4 Ho4]; [|done]. intros [= <- <-]. unfold saved, text_at in *. rewrite (Ho4 path Hp).
  split; [done|]. split; [done|]. intros q Hq Ht. by rewrite Ho4, H3.
Qed.

(** C23 — A save is atomic: whichever of its system calls fail, and so also when it
    is cut off after any of them, the path holds the complete new text or what was
    there before, the former exactly when no error is reported; no other file
    changes. *)
Theorem save_atomic `{Yaml} `{TempNames} (path : string) (c : Config) (d : Disk) : sound d ->
  let '(r, d') := Save path c d in
  (if is_ok r then text_at d' path = Some (marshal c) else file_at d' path = file_at d path)
  /\ (forall q, q <> path -> q <> temp_name path d -> file_at d' q = file_at d q).
Proof.
  intros Hs. destruct (Save path c d) as [r d'] eqn:E. apply (save_text_saved _ _ _ _ _ Hs) in E as (H1 & _ & H3). done.
Qed.

(** ** Webhook secrets *)

Definition good_rand (r : Rand) : Prop := Forall (fun b => forall l, b = Some l -> Forall is_byte l /\ l <> []) r.

Section webhooks.
Context `{MapOrder}.

Definition entry (m : gmap string string) (k : string) : string := StringsU.TrimSpace (default "" (m !! k)).

Lemma secret_key_secret n : is_secret_key (secret_key n) = true.
Proof. apply HasSuffix_app. Qed.

(** What making secrets keeps and what it makes. *)
Definition grown (m m' : gmap string string) : Prop :=
  (forall k, is_secret_key k = false -> m' !! k = m !! k) /\ (forall k, entry m k <> "" -> entry m' k <> "").

Lemma ensure_name_spec m r g n m' r' g' : good_rand r -> ensure_name (m, r, g) n = Some (m', r', g') ->
  good_rand r' /\ grown m m' /\ (is_secret_key n = false -> entry m n <> "" -> entry m' (secret_key n) <> "").
Proof.
  intros Hr. unfold ensure_name, grown, entry. destruct (is_secret_key n); [by intros [= <- <- <-]|]. cbn [orb].
  destruct (String.eqb_spec (StringsU.TrimSpace (default "" (m !! n))) "") as [En|En]; [by intros [= <- <- <-]|].
  destruct (String.eqb_spec (StringsU.TrimSpace (default "" (m !! secret_key n))) "") as [Es|Es]; cbn [negb]; [|by intros [= <- <- <-]].
  destruct r as [|[b|] r]; [done| |done]. intros [= <- <- <-]. apply Forall_cons in Hr as [Hb Hr]. destruct (Hb b eq_refl) as [Hb1 Hb2].
  assert (Hn : StringsU.TrimSpace (Hex.EncodeToString b) <> "") by (rewrite hex_trim by done; by destruct b).
  split; [done|]. split; [split|].
  - intros k Hk. rewrite lookup_insert_ne; [done|]. intros <-. by rewrite secret_key_secret in Hk.
  - intros k Hk. destruct (decide (k = secret_key n)) as [->|Hne]; [by rewrite lookup_insert_eq | by rewrite lookup_insert_ne].
  - intros _ _. by rewrite lookup_insert_eq.
Qed.

Lemma grown_refl m : grown m m.
Proof. by split. Qed.
Lemma grown_trans m1 m2 m3 : grown m1 m2 -> grown m2 m3 -> grown m1 m3.
Proof. intros [H1 H2] [H3 H4]. split; [|by auto]. intros k Hk. by rewrite H3, H1. Qed.

Lemma ensure_names_spec names : forall m r g m' r' g', good_rand r -> ensure_names (m, r, g) names = (true, (m', r', g')) ->
  good_rand r' /\ grown m m' /\ (forall n, n ∈ names -> is_secret_key n = false -> entry m n <> "" -> entry m' (secret_key n) <> "").
Proof.
  induction names as [|n names IH]; intros m r g m' r' g' Hr E.
  - injection E as <- <- <-. split; [done|]. split; [apply grown_refl|]. by intros n Hn%elem_of_nil.
  - cbn [ensure_names] in E. destruct (ensure_name (m, r, g) n) as [[[m1 r1] g1]|] eqn:E1; [|done].
    apply ensure_name_spec in E1 as (Hr1 & Hg1 & Hn1); [|done]. apply IH in E as (Hr2 & Hg2 & Hn2); [|done].
    split; [done|]. split; [by eapply grown_trans|]. intros k [->|Hk]%elem_of_cons Hsk He.
    + by apply Hg2, Hn1.
    + apply Hn2; [done..|]. unfold entry. rewrite (proj1 Hg1) by done. done.
Qed.

(** A role whose webhooks are all signed. *)
Definition signed (r : ContactRole) : Prop := forall n, is_secret_key n = false -> pick r n <> "" -> pick r (secret_key n) <> "".

Lemma ensure_role_signed r rand g r' rand' g' : good_rand rand -> ensure_role r rand g = (true, r', rand', g') -> good_rand rand' /\ signed r'.
Proof.
  intros Hr. unfold ensure_role. destruct (ensure_names _ _) as [ok [[m' rand1] g1]] eqn:E. intros [= -> <- <- <-].
  apply ensure_names_spec in E as (Hr1 & [Hk _] & Hn); [|done]. split; [done|]. intros n Hs. unfold pick. cbn [Webhooks]. fold (entry m' n).
  fold (entry m' (secret_key n)). intros He. apply Hn; [|done|].
  - apply map_names_spec. unfold entry in He. rewrite Hk in He by done. destruct (Webhooks r !! n); [by eexists|done].
  - unfold entry in *. by rewrite <- Hk.
Qed.

Lemma ensure_all_signed c rand c' rand' g : good_rand rand -> ensureWebhookSecrets c rand = (true, c', rand', g) ->
  signed (ct_Admin c') /\ signed (ct_Security c') /\ signed (ct_Abuse c') /\ signed (ct_General c').
Proof.
  intros Hr. unfold ensureWebhookSecrets.
  destruct (ensure_role (ct_Admin c) rand false) as [[[[] r1] d1] g1] eqn:E1; [|done].
  apply ensure_role_signed in E1 as [Hd1 S1]; [|done]. cbn [negb ct_Admin ct_Security ct_Abuse ct_General].
  destruct (ensure_role (ct_Security c) d1 g1) as [[[[] r2] d2] g2] eqn:E2; [|done]. apply ensure_role_signed in E2 as [Hd2 S2]; [|done]. cbn [negb ct_Admin ct_Security ct_Abuse ct_General].
  destruct (ensure_role (ct_Abuse c) d2 g2) as [[[[] r3] d3] g3] eqn:E3; [|done]. apply ensure_role_signed in E3 as [Hd3 S3]; [|done]. cbn [negb ct_Admin ct_Security ct_Abuse ct_General].
  destruct (ensure_role (ct_General c) d3 g3) as [[[ok r4] d4] g4] eqn:E4. intros [= -> <- <- <-].
  by apply ensure_role_signed in E4 as [_ S4].
Qed.

(** Every target is a webhook of the role, with its resolved address and secret. *)
Definition resolved (c : ContactConfig) (role : string) (t : WebhookTarget) : Prop :=
  is_secret_key (Transport t) = false /\ wt_URL t = ContactWebhook c role (Transport t) /\ wt_URL t <> ""
  /\ Secret t = WebhookSecret c role (Transport t).

Lemma add_target_resolved c role out n : Forall (resolved c role) out -> Forall (resolved c role) (add_target c role out n).
Proof.
  intros Ho. unfold add_target. destruct (is_secret_key n) eqn:Es; [done|]. cbn [orb]. destruct (has_target out n); [done|]. cbn [orb].
  destruct (String.eqb_spec (StringsU.TrimSpace (ContactWebhook c role n)) "") as [E|E]; [done|]. apply Forall_app. split; [done|].
  apply Forall_singleton. split; [done|]. split; [done|]. split; [|done]. cbn. by intros E'; rewrite E' in E.
Qed.

Lemma foldl_keeps {A B} (P : A -> Prop) (f : A -> B -> A) l : (forall a b, P a -> P (f a b)) -> forall a, P a -> P (foldl f a l).
Proof. intros Hf. induction l; cbn; auto. Qed.

Lemma targets_resolved c role : Forall (resolved c role) (WebhookTargets c role).
Proof.
  unfold WebhookTargets. apply foldl_keeps; [|by apply Forall_nil]. intros out r Ho. unfold add_role. apply foldl_keeps; [|done].
  intros ? ?. apply add_target_resolved.
Qed.

(** A target of a role after the secrets are made. *)
Lemma target_signed (c : ContactConfig) (rand : Rand) (c' : ContactConfig) (rand' : Rand) (g : bool) (role : string) (t : WebhookTarget) :
  good_rand rand -> ensureWebhookSecrets c rand = (true, c', rand', g) -> t ∈ WebhookTargets c' role ->
  (role = "abuse" -> pick (ct_Abuse c') (Transport t) = "" -> pick (ct_General c') (Transport t) = "") ->
  Secret t <> ""
  /\ exists r, r ∈ [contactRole c' role; ct_Admin c'] /\ wt_URL t = pick r (Transport t) /\ Secret t = pick r (secret_key (Transport t)).
Proof.
  intros Hr E Ht Hab. apply ensure_all_signed in E as (S1 & S2 & S3 & S4); [|done].
  pose proof (proj1 (Forall_forall _ _) (targets_resolved c' role) t Ht) as (Hs & Hu & Hne & Hsec). rewrite Hu in Hne.
  assert (Hr' : signed (contactRole c' role)) by (unfold contactRole; repeat case_match; done).
  rewrite Hu, Hsec. unfold WebhookSecret.
  assert (Hu' : ContactWebhook c' role (Transport t)
                = if non_empty (pick (contactRole c' role) (Transport t)) then pick (contactRole c' role) (Transport t) else pick (ct_Admin c') (Transport t)).
  { unfold ContactWebhook, contactRole, non_empty in *. destruct (String.eqb role "security"); [done|].
    destruct (String.eqb_spec role "abuse") as [->|_]; [|by destruct (String.eqb role "general")].
    destruct (String.eqb_spec (pick (ct_Abuse c') (Transport t)) "") as [Ea|Ea]; [by rewrite (Hab eq_refl Ea), Ea|].
    apply String.eqb_neq in Ea. by rewrite Ea. }
  rewrite Hu' in *. unfold non_empty in *. destruct (String.eqb_spec (pick (contactRole c' role) (Transport t)) "") as [E|E]; cbn [negb] in *.
  - split; [by apply S1|]. exists (ct_Admin c'). split; [set_solver|done].
  - split; [by apply Hr'|]. exists (contactRole c' role). split; [set_solver|done].
Qed.

(** Once the secrets are there, every webhook of every role is signed, by the
    secret beside its address, but for one case: an abuse webhook whose address
    comes from the general role. *)
Theorem webhooks_signed (c : ContactConfig) (rand : Rand) (c' : ContactConfig) (rand' : Rand) (g : bool) (role : string) (t : WebhookTarget) :
  good_rand rand -> ensureWebhookSecrets c rand = (true, c', rand', g) -> t ∈ WebhookTargets c' role ->
  (role = "abuse" -> pick (ct_Abuse c') (Transport t) = "" -> pick (ct_General c') (Transport t) = "") ->
  Secret t <> ""
  /\ exists r, r ∈ [contactRole c' role; ct_Admin c'] /\ wt_URL t = pick r (Transport t) /\ Secret t = pick r (secret_key (Transport t)).
Proof. apply target_signed. Qed.
End webhooks.

(** *** A witness, and the exception *)

#[export] Instance list_order : MapOrder.
Proof.
  refine {| map_names := fun m => (map_to_list m).*1 |}. intros m n. rewrite list_elem_of_fmap. split.
  - intros ([k v] & -> & Hk%elem_of_map_to_list). by eexists.
  - intros [v Hv]. exists (n, v). split; [done|]. by apply elem_of_map_to_list.
Defined.

Definition slack (url : string) : ContactRole := {| Email := ""; Webhooks := {["slack" := url]} |}.
Definition slack_admin : ContactConfig :=
  {| ct_Admin := slack "https://hooks.example/a"; ct_Security := role_of ""; ct_Abuse := role_of ""; ct_General := slack "https://hooks.example/g" |}.
Definition two_secrets : Rand := [Some [1; 2]; Some [3; 4]].
Definition slack_signed : ContactConfig := (ensureWebhookSecrets slack_admin two_secrets).1.1.2.

Lemma two_secrets_good : good_rand two_secrets.
Proof.
  unfold good_rand, two_secrets. rewrite !Forall_cons. repeat split; try by apply Forall_nil.
  all: match goal with E : Some _ = Some _ |- _ => injection E as <- end; first [done | unfold is_byte; rewrite !Forall_cons; repeat split; by try lia].
Qed.

Theorem webhooks_signed_witness :
  good_rand two_secrets
  /\ In {| Transport := "slack"; wt_URL := "https://hooks.example/a"; Secret := "0102" |} (WebhookTargets slack_signed "security")
  /\ "0102" <> "".
Proof.
  pose proof two_secrets_good as Hr.
  assert (Ht : In {| Transport := "slack"; wt_URL := "https://hooks.example/a"; Secret := "0102" |} (WebhookTargets slack_signed "security"))
    by (vm_compute; by left).
  split; [exact Hr|]. split; [exact Ht|].
  refine (proj1 (@webhooks_signed list_order slack_admin two_secrets slack_signed [] true "security" _ Hr _ (proj2 (list_elem_of_In _ _) Ht) _)).
  - vm_compute. reflexivity.
  - intros E. exfalso. revert E. clear. intros E%String.eqb_eq. discriminate E.
Defined.

(** The address of the general role with the secret of the administrator's. *)
Lemma abuse_webhook_missigned :
  WebhookTargets slack_signed "abuse" = [{| Transport := "slack"; wt_URL := "https://hooks.example/g"; Secret := "0102" |}]
  /\ pick (ct_General slack_signed) "slack_secret" = "0304".
Proof. vm_compute. done. Qed.

(** ** Loading *)

Lemma save_text_calm `{TempNames} path text d : calm d -> exists d', save_text path text d = (Ok tt, d') /\ calm d'.
Proof.
  unfold calm. destruct d as [n i c t f]. cbn [d_faults]. intros ->. unfold save_text. set (tmp := temp_name path _).
  assert (Hp : tmp <> path) by apply temp_other. clearbody tmp.
  unfold mbind, D_bind, mret, D_ret, CreateTemp, sys. cbn [hd tl d_faults set_faults names inodes set_names set_inodes all_of].
  unfold mbind, D_bind, mret, D_ret, Chmod, Sync, Close, WriteString, Rename, Remove, sys. cbn [hd tl d_faults set_faults names inodes set_names set_inodes].
  rewrite lookup_insert_eq. cbn [hd tl d_faults set_faults names inodes set_names set_inodes].
  rewrite lookup_insert_ne, lookup_delete_eq by done. by eexists.
Qed.

Lemma ReadFile_calm d path text : calm d -> text_at d path = Some text -> ReadFile path d = (Ok text, d).
Proof.
  intros Hc. unfold ReadFile, text_at. rewrite sys_calm by done. destruct (file_at d path) as [f|]; [|done]. cbn. by intros ->.
Qed.

Lemma ReadFile_none d path : calm d -> file_at d path = None -> ReadFile path d = (Err not_exist, d).
Proof. intros Hc Hn. unfold ReadFile. by rewrite sys_calm, Hn. Qed.

Section loading.
Context `{Unicode} `{Floats} `{StdDuration} `{UrlParser} `{UuidParser} `{SuffixList} `{PublicSuffix} `{MapOrder} `{YamlLaws} `{TempNames}.

(** A configuration that has all its secrets. *)
Definition has_secrets (c : Config) : Prop :=
  EncryptionKey (c_security c) <> "" /\ sv_Token (c_server c) <> "" /\ signed (ct_Admin (c_contact c))
  /\ signed (ct_Security (c_contact c)) /\ signed (ct_Abuse (c_contact c)) /\ signed (ct_General (c_contact c)).

Lemma ensure_names_settled m rand g names :
  (forall n, is_secret_key n = false -> entry m n <> "" -> entry m (secret_key n) <> "") -> ensure_names (m, rand, g) names = (true, (m, rand, g)).
Proof.
  intros Hm. induction names as [|n names IH]; [done|]. cbn [ensure_names]. unfold ensure_name. fold (entry m n) (entry m (secret_key n)).
  destruct (is_secret_key n) eqn:Es; [done|]. destruct (String.eqb_spec (entry m n) "") as [E|E]; [done|]. cbn [orb].
  apply (Hm n Es) in E. apply String.eqb_neq in E. by rewrite E.
Qed.

Lemma ensure_role_settled r rand g : signed r -> ensure_role r rand g = (true, r, rand, g).
Proof. intros Hr. unfold ensure_role. rewrite ensure_names_settled by exact Hr. by destruct r. Qed.

Lemma complete_settled c s : has_secrets c -> complete_secrets c s = ((c, false), s).
Proof.
  intros (Hk & Ht & S1 & S2 & S3 & S4). unfold complete_secrets, mbind, IO_bind, mret, IO_ret, on_rand, ensureEncryptionKey, ensureServerToken, non_empty.
  apply String.eqb_neq in Hk, Ht. rewrite Hk. cbn [negb]. rewrite Ht. cbn [negb s_rand s_disk s_machine].
  unfold ensureWebhookSecrets. rewrite !ensure_role_settled by done. cbn [negb andb orb made s_rand s_disk s_machine].
  destruct s as [d r m], c as [? ? ? ? ? ? ? ? [] ? ? ? ? ? ? ? ? ? ? ? ? ?]. done.
Qed.

(** What a start makes of a stored configuration: the environment goes over the
    file, and the result is validated. *)
Definition started (env : Env) (c : Config) : Config := Validate (loadEnv env (persisted (loadEnv env DefaultConfig) c)).

Lemma Load_stored path c s : calm (s_disk s) -> text_at (s_disk s) path = Some (marshal c) -> has_secrets c ->
  Load path s = ((started (mc_env (s_machine s)) c, None), s).
Proof.
  intros Hc Ht Hs. unfold Load, mbind, IO_bind, getenv, on_disk. rewrite (ReadFile_calm _ _ _ Hc Ht).
  rewrite unmarshal_marshal by by split_and!. fold (started (mc_env (s_machine s)) c). rewrite complete_settled by exact Hs. by destruct s.
Qed.

(** A configuration that is saved, then loaded. *)
Lemma Save_stored path c d : calm d -> sound d -> exists d', Save path c d = (Ok tt, d') /\ calm d' /\ text_at d' path = Some (marshal c).
Proof.
  intros Hc Hs. unfold Save. destruct (save_text_calm path (marshal c) d Hc) as (d' & E & Hc'). exists d'. split; [done|]. split; [done|].
  apply (save_text_saved _ _ _ _ _ Hs) in E as [E _]. exact E.
Qed.

(** The first start: what it returns and what it leaves. *)
Lemma first_run_saves path s b1 b2 r :
  calm (s_disk s) -> sound (s_disk s) -> file_at (s_disk s) path = None -> s_rand s = Some b1 :: Some b2 :: r ->
  exists c1 c s1, Load path s = ((c1, None), s1)
    /\ EncryptionKey (c_security c1) = Hex.EncodeToString b1 /\ sv_Token (c_server c1) = token_text b2
    /\ calm (s_disk s1) /\ text_at (s_disk s1) path = Some (marshal c)
    /\ EncryptionKey (c_security c) = Hex.EncodeToString b1 /\ sv_Token (c_server c) = token_text b2
    /\ ct_Admin (c_contact c) = role_of "admin@{fqdn}" /\ ct_Security (c_contact c) = role_of "security@{fqdn}"
    /\ ct_Abuse (c_contact c) = role_of "" /\ ct_General (c_contact c) = role_of "".
Proof.
  intros Hc Hs Hn Hr. destruct s as [d rd m]. cbn [s_disk s_rand s_machine] in *. subst rd.
  set (cfg := loadEnv (mc_env m) DefaultConfig).
  set (cfg1 := set_key (Hex.EncodeToString b1) cfg). set (cfg2 := upd_server (set_token (token_text b2)) cfg1).
  destruct (ResolveFQDN cfg2 m) as [name m'] eqn:Em.
  set (sc := upd_server (fun s => set_token (sv_Token (c_server cfg2)) (set_fqdn name s)) (set_key (EncryptionKey (c_security cfg2)) DefaultConfig)).
  destruct (Save_stored path sc d Hc Hs) as (d' & Ed & Hc' & Ht').
  exists (set_first_run cfg2), sc, {| s_disk := d'; s_rand := r; s_machine := m' |}. split; [|by split_and!].
  unfold Load, mbind, IO_bind, getenv, on_disk. cbn [s_disk s_rand s_machine]. rewrite (ReadFile_none _ _ Hc Hn).
  change (String.eqb not_exist not_exist) with true. cbv iota. unfold first_run, mbind, IO_bind, on_rand, on_machine, on_disk.
  cbn [s_disk s_rand s_machine]. fold cfg.
  change (ensureEncryptionKey cfg (Some b1 :: Some b2 :: r)) with (Ok true, cfg1, Some b2 :: r). cbn [s_disk s_rand s_machine].
  change (ensureServerToken cfg1 (Some b2 :: r)) with (Ok true, cfg2, r). cbn [s_disk s_rand s_machine]. rewrite Em. cbn [s_disk s_rand s_machine].
  fold sc. by rewrite Ed.
Qed.

(** C24 — The secrets made at the first start are those of every later one: with
    any environment, a later load finds the same key and the same operator token,
    needs no new one and does not write the file. *)
Theorem secrets_survive_restart (path : string) (s : Sys) (b1 b2 : list Z) (r : Rand) :
  calm (s_disk s) -> sound (s_disk s) -> file_at (s_disk s) path = None -> s_rand s = Some b1 :: Some b2 :: r -> b1 <> [] ->
  let '((c1, err), s1) := Load path s in
  err = None /\ EncryptionKey (c_security c1) = Hex.EncodeToString b1 /\ sv_Token (c_server c1) = token_text b2
  /\ forall s2, s_disk s2 = s_disk s1 ->
     exists c2, Load path s2 = ((c2, None), s2) /\ EncryptionKey (c_security c2) = Hex.EncodeToString b1 /\ sv_Token (c_server c2) = token_text b2.
Proof.
  intros Hc Hs Hn Hr Hb. destruct (first_run_saves path s b1 b2 r Hc Hs Hn Hr) as (c1 & c & s1 & E & Hk & Ht & Hc1 & Hw & Hck & Hct & Hcn).
  rewrite E. split; [done|]. split; [done|]. split; [done|]. intros s2 E2. exists (started (mc_env (s_machine s2)) c).
  rewrite <- E2 in Hc1, Hw. split; [|by split].
  apply Load_stored; [done..|]. unfold has_secrets. rewrite Hck, Hct. destruct Hcn as (-> & -> & -> & ->). split; [by destruct b1|].
  split; [done|]. split_and!; by intros n.
Qed.

(** *** Ports *)

Lemma randomUnusedPort_spec perm free lo n : perm ≡ₚ seqZ 0 n ->
  match randomUnusedPort perm free lo (lo + n - 1) with
  | Ok p => lo <= p < lo + n /\ free p = true
  | Err _ => forall p, lo <= p < lo + n -> free p = false
  end.
Proof.
  intros Hp. unfold randomUnusedPort, first. destruct (List.find free (Z.add lo <$> perm)) as [p|] eqn:E.
  - apply List.find_some in E as [Hi Hf]. split; [|done]. apply list_elem_of_In, list_elem_of_fmap in Hi as (o & -> & Ho).
    rewrite Hp in Ho. apply elem_of_seqZ in Ho. lia.
  - intros p Hr. apply (List.find_none _ _ E), list_elem_of_In, list_elem_of_fmap. exists (p - lo). split; [lia|].
    rewrite Hp. apply elem_of_seqZ. lia.
Qed.

(** Without a configured port a start picks a free one between 64000 and
    64999, when there is one, and changes nothing in the file but the port: what the
    environment overrides stays out of it, and a start without a port in the
    environment comes up on the same port. *)
Theorem port_alone_persisted (path : string) (cfg c : Config) (perm : list Z) (free : Z -> bool) (s : Sys) :
  calm (s_disk s) -> sound (s_disk s) -> text_at (s_disk s) path = Some (marshal c) -> has_secrets c ->
  perm ≡ₚ seqZ 0 1000 -> sv_Port (c_server cfg) = "" -> (exists p, 64000 <= p < 65000 /\ free p = true) ->
  exists p s', let c' := upd_server (set_port (Strconv.Itoa p)) (persisted DefaultConfig c) in
    ResolvePort path cfg false perm free s = ((upd_server (set_port (Strconv.Itoa p)) cfg, Ok tt), s')
    /\ 64000 <= p < 65000 /\ free p = true /\ text_at (s_disk s') path = Some (marshal c')
    /\ forall s2, s_disk s2 = s_disk s' -> mc_env (s_machine s2) "PORT" = "" -> mc_env (s_machine s2) "PASTEBIN_PORT" = "" ->
       exists c2, Load path s2 = ((c2, None), s2) /\ sv_Port (c_server c2) = Strconv.Itoa p.
Proof.
  intros Hc Hs Ht Hsec Hp Hport (q & Hq & Hf). pose proof (randomUnusedPort_spec perm free 64000 1000 Hp) as Hr.
  change (64000 + 1000 - 1) with 64999 in Hr. destruct (randomUnusedPort perm free 64000 64999) as [p|e] eqn:E; [|rewrite Hr in Hf by lia; done].
  destruct s as [d rd m]. cbn [s_disk] in *. set (c' := upd_server (set_port (Strconv.Itoa p)) (persisted DefaultConfig c)).
  destruct (Save_stored path c' d Hc Hs) as (d' & Ed & Hc' & Ht'). exists p, {| s_disk := d'; s_rand := rd; s_machine := m |}. cbv zeta. fold c'.
  split; [|split; [lia|]; split; [apply Hr|]; split; [exact Ht'|]].
  - unfold ResolvePort. rewrite Hport. cbn [non_empty String.eqb negb]. rewrite E. unfold persistPortOnly, mbind, IO_bind, on_disk.
    cbn [s_disk s_rand s_machine]. rewrite (ReadFile_calm _ _ _ Hc Ht), unmarshal_marshal by by split_and!. cbn [s_disk s_rand s_machine].
    change (sv_Port (c_server (upd_server (set_port (Strconv.Itoa p)) cfg))) with (Strconv.Itoa p). fold c'. by rewrite Ed.
  - intros s2 E2 E3 E4. cbn [s_disk] in E2. exists (started (mc_env (s_machine s2)) c'). rewrite <- E2 in Hc', Ht'. split.
    + by apply Load_stored.
    + change (sv_Port (c_server (started (mc_env (s_machine s2)) c'))) with (from_env (mc_env (s_machine s2)) ["PORT"; "PASTEBIN_PORT"] (Strconv.Itoa p)).
      unfold from_env. cbn [foldl]. by rewrite E3, E4.
Qed.

(** Changing one setting in the file writes the environment into it. *)
Lemma set_in_file_started path f c s :
  calm (s_disk s) -> sound (s_disk s) -> text_at (s_disk s) path = Some (marshal c) -> has_secrets c ->
  exists s', set_in_file path f s = (Ok tt, s') /\ text_at (s_disk s') path = Some (marshal (upd_server f (started (mc_env (s_machine s)) c))).
Proof.
  intros Hc Hs Ht Hsec. destruct (Save_stored path (upd_server f (started (mc_env (s_machine s)) c)) (s_disk s) Hc Hs) as (d' & Ed & _ & Ht').
  eexists. unfold set_in_file, mbind, IO_bind, on_disk. unfold MkdirAll. rewrite sys_calm by done. cbv beta iota zeta.
  assert (Hsame : forall x : Sys, {| s_disk := s_disk x; s_rand := s_rand x; s_machine := s_machine x |} = x) by by intros [].
  rewrite Hsame, (Load_stored path c s Hc Ht Hsec). rewrite Ed. split; [done|]. exact Ht'.
Qed.

(** Saving the address of the onion service makes the mode of the environment the
    mode of the file, for every later start. *)
Lemma onion_address_bakes_mode path addr c s mode :
  calm (s_disk s) -> sound (s_disk s) -> text_at (s_disk s) path = Some (marshal c) -> has_secrets c ->
  mc_env (s_machine s) "MODE" = mode -> mode <> "" ->
  exists s' c', SetOnionAddress path addr s = (Ok tt, s') /\ text_at (s_disk s') path = Some (marshal c')
                /\ sv_Onion (c_server c') = addr /\ sv_Mode (c_server c') = mode.
Proof.
  intros Hc Hs Ht Hsec Hm Hne. destruct (set_in_file_started path (set_onion addr) c s Hc Hs Ht Hsec) as (s' & E & Ht').
  exists s'. eexists. split; [exact E|]. split; [exact Ht'|]. split; [done|].
  change (sv_Mode _) with (from_env (mc_env (s_machine s)) ["MODE"] (sv_Mode (c_server c))). unfold from_env. cbn [foldl]. rewrite Hm.
  apply String.eqb_neq in Hne. by rewrite Hne.
Qed.
End loading.

(** ** Reloading *)

Section reloading.
Context `{Unicode} `{FloatLaws} `{DurationLaws} `{UrlParser} `{UuidParser} `{SuffixList} `{PublicSuffix} `{MapOrder} `{Yaml} `{TempNames}.

Lemma ensureEncryptionKey_ok c r x c' r' : ensureEncryptionKey c r = (x, c', r') -> config_ok c' = config_ok c.
Proof. unfold ensureEncryptionKey. destruct (non_empty _); [by intros [= <- <- <-]|]. by destruct r as [|[b|] r]; intros [= <- <- <-]. Qed.
Lemma ensureServerToken_ok c r x c' r' : ensureServerToken c r = (x, c', r') -> config_ok c' = config_ok c.
Proof. unfold ensureServerToken. destruct (non_empty _); [by intros [= <- <- <-]|]. by destruct r as [|[b|] r]; intros [= <- <- <-]. Qed.

Lemma complete_ok c s c' b s' : complete_secrets c s = ((c', b), s') -> config_ok c' = config_ok c.
Proof.
  unfold complete_secrets, mbind, IO_bind, mret, IO_ret, on_rand. destruct (ensureEncryptionKey c (s_rand s)) as [[k c1] r1] eqn:E1.
  cbn [s_rand]. destruct (ensureServerToken c1 r1) as [[t c2] r2] eqn:E2. cbn [s_rand].
  destruct (ensureWebhookSecrets (c_contact c2) r2) as [[[ok contact] r3] g]. cbv beta iota. intros [= <- _ _].
  change (config_ok (set_contact contact c2)) with (config_ok c2). by rewrite (ensureServerToken_ok _ _ _ _ _ E2), (ensureEncryptionKey_ok _ _ _ _ _ E1).
Qed.

(** A file that is loaded without an error gives a valid configuration. *)
Lemma Load_ok path s c s' : is_Some (file_at (s_disk s) path) -> Load path s = ((c, None), s') -> config_ok c = true.
Proof.
  intros [f Hf]. unfold Load, mbind, IO_bind, getenv, on_disk, mret, IO_ret.
  destruct (ReadFile path (s_disk s)) as [[data|e] d] eqn:E.
  - destruct (unmarshal data _) as [cfg [e|]]; [done|].
    destruct (complete_secrets _ _) as [[c1 needSave] s1] eqn:Ec. apply complete_ok in Ec. rewrite (proj1 (Validate_settle _)) in Ec.
    destruct needSave; [|by intros [= <- <-]]. destruct (Save path c1 (s_disk s1)) as [r d2]. by intros [= <- <-].
  - unfold ReadFile, sys in E. destruct (hd false (d_faults (s_disk s))); [by injection E as <- <-|].
    change (file_at (set_faults _ (s_disk s)) path) with (file_at (s_disk s) path) in E. rewrite Hf in E.
    destruct (text_of (i_data f)); [done|]. by injection E as <- <-.
Qed.

(** The checks of a running server, each at the state in which it finds the machine. *)
Definition watch (m : ConfigManager) (l : list Sys) : ConfigManager := foldl (fun m s => (checkFileChanges m s).1.1.2) m l.

Lemma check_ok m s : config_ok (current m) = true -> config_ok (current (checkFileChanges m s).1.1.2) = true.
Proof.
  intros Hm. unfold checkFileChanges, mbind, IO_bind, on_disk, mret, IO_ret. destruct (Stat (configPath m) (s_disk s)) as [[f|e] d] eqn:E; [|done].
  destruct (i_mtime f <=? lastModTime m); [done|].
  destruct (Load (configPath m) _) as [[next [e|]] s'] eqn:El; [done|]. cbn [fst snd current]. apply Load_ok in El; [done|]. cbn [s_disk].
  unfold Stat, sys in E. destruct (hd false (d_faults (s_disk s))); [done|].
  change (file_at (set_faults _ (s_disk s)) (configPath m)) with (file_at (s_disk s) (configPath m)) in E.
  destruct (file_at (s_disk s) (configPath m)) as [f'|] eqn:Ef; [|done]. injection E as _ <-. exists f'. exact Ef.
Qed.

(** Whatever becomes of the file while the server runs, missing, unreadable or
    full of bad values, the configuration in use stays valid. *)
Theorem reloads_stay_valid (m : ConfigManager) (l : list Sys) : config_ok (current m) = true -> config_ok (current (watch m l)) = true.
Proof. apply (foldl_keeps (fun m => config_ok (current m) = true)). intros. by apply check_ok. Qed.
End reloading.

(** ** Credentials *)

Section credentials.
Context `{JsonLaws} `{AEADLaws}.

Definition valid_text (m : gmap string string) : Prop := map_Forall (fun k v => Utf8.ToValid k = k /\ Utf8.ToValid v = v) m.

Lemma sanitize_map l : Forall (fun kv => Utf8.ToValid kv.1 = kv.1 /\ Utf8.ToValid kv.2 = kv.2) l ->
  sanitize (JObj ((fun kv => (kv.1, JStr kv.2)) <$> l)) = JObj ((fun kv => (kv.1, JStr kv.2)) <$> l).
Proof.
  intros Hl. cbn [sanitize]. f_equal. induction Hl as [|[k v] l [Hk Hv] Hl IH]; [done|]. cbn in *. by rewrite Hk, Hv, IH.
Qed.

Lemma members_map l : forall m, NoDup l.*1 -> (forall k, k ∈ l.*1 -> m !! k = None) ->
  members m ((fun kv => (kv.1, JStr kv.2)) <$> l) = Some (list_to_map l ∪ m).
Proof.
  induction l as [|[k v] l IH]; intros m Hn Hm; [cbn; by rewrite map_empty_union|].
  apply NoDup_cons in Hn as [Hk Hn]. cbn [fmap list_fmap members fst snd list_to_map]. rewrite IH; [|done|].
  - cbn. f_equal. rewrite <- insert_union_l. by rewrite insert_union_r by by apply not_elem_of_list_to_map.
  - intros k' Hk'. rewrite lookup_insert_ne by (intros ->; done). apply Hm. cbn. by right.
Qed.

(** A map of text survives its JSON. *)
Lemma map_json_round m : valid_text m -> parse (render (map_json m)) ≫= map_of_json = Some m.
Proof.
  intros Hm. rewrite parse_render. unfold map_json. pose proof (merge_sort_Permutation key_le (map_to_list m)) as Hp.
  rewrite sanitize_map.
  - cbn. rewrite members_map; [|rewrite Hp; apply NoDup_fst_map_to_list|done]. rewrite map_union_empty. f_equal.
    rewrite (list_to_map_proper (merge_sort key_le (map_to_list m)) (map_to_list m)); [apply list_to_map_to_list| |done].
    rewrite Hp. apply NoDup_fst_map_to_list.
  - rewrite Hp. apply map_Forall_to_list in Hm. eapply Forall_impl; [exact Hm|]. by intros [].
Qed.

(** Credentials that are encrypted are decrypted to themselves, by every
    configuration with the same key that has the result. *)
Theorem dns_credentials_round_trip (c c' : Config) (nonce : list Z) (creds : gmap string string) (s : string) :
  length nonce = nonce_size -> Forall is_byte nonce -> valid_text creds ->
  EncryptDNSCredentials (Ok nonce) creds c = Ok s -> EncryptionKey (c_security c') = EncryptionKey (c_security c) ->
  DecryptDNSCredentials (upd_server (set_dns s) c') = Ok creds.
Proof.
  intros Hl Hn Hv E Hk. unfold EncryptDNSCredentials in E. apply result_bind_ok in E as (key & Ekey & E).
  apply result_bind_ok in E as (sealed & Es & [= <-]).
  assert (Hb : Forall is_byte sealed /\ sealed <> []).
  { unfold Seal in Es. destruct (negb _); [done|]. injection Es as <-. split; [apply Forall_app; split; [done|apply gcm_seal_bytes]|].
    intros E%(f_equal length). rewrite length_app, Hl in E. discriminate E. }
  unfold DecryptDNSCredentials. change (sv_DNSCredentials _) with (Base64.EncodeToString sealed).
  destruct (String.eqb_spec (Base64.EncodeToString sealed) "") as [E|_].
  { destruct Hb as [_ Hb]. by destruct sealed as [|? [|? [|? ?]]]. }
  assert (Ek : encryption_key (upd_server (set_dns (Base64.EncodeToString sealed)) c') = Ok key)
    by (rewrite <- Ekey; unfold encryption_key; cbn [upd_server c_security]; by rewrite Hk).
  rewrite Ek. cbn [mbind result_bind]. rewrite base64_roundtrip by apply Hb. rewrite (Open_Seal _ _ _ _ Hl Es). cbn [mbind result_bind].
  by rewrite of_bytes_bytes, map_json_round.
Qed.
End credentials.

(** ** Witnesses *)

Lemma no_files_sound faults : sound (no_files faults).
Proof. intros q i. cbn [names no_files]. intros Hq. by rewrite lookup_empty in Hq. Qed.
Lemma one_file_sound path text faults : sound (one_file path text faults).
Proof. intros q i. cbn [names one_file inodes length]. intros [_ <-]%lookup_singleton_Some. lia. Qed.

Local Existing Instances int_floats int_floats_laws whole_durations whole_durations_laws url_none uuid_none.

Definition server_yml : string := "server.yml".
Definition bare (d : Disk) (r : Rand) (env : Env) : Sys := {| s_disk := d; s_rand := r; s_machine := bare_machine env |}.

Definition failing_disk : Disk := one_file server_yml "old" [false; false; true].

Theorem save_atomic_witness :
  sound failing_disk
  /\ (let '(r, d') := Save server_yml DefaultConfig failing_disk in
      (if is_ok r then text_at d' server_yml = Some (marshal DefaultConfig) else file_at d' server_yml = file_at failing_disk server_yml)
      /\ (forall q, q <> server_yml -> q <> temp_name server_yml failing_disk -> file_at d' q = file_at failing_disk q)).
Proof.
  assert (Hs : sound failing_disk) by apply one_file_sound.
  split; [exact Hs|]. pose proof (save_atomic server_yml DefaultConfig failing_disk Hs) as P. exact P.
Defined.

Theorem secrets_survive_restart_witness :
  calm (no_files []) /\ sound (no_files [])
  /\ (let '((c1, err), s1) := Load server_yml (bare (no_files []) [Some [1]; Some [2]] no_env) in
      err = None /\ EncryptionKey (c_security c1) = Hex.EncodeToString [1] /\ sv_Token (c_server c1) = token_text [2]
      /\ forall s2, s_disk s2 = s_disk s1 ->
         exists c2, Load server_yml s2 = ((c2, None), s2) /\ EncryptionKey (c_security c2) = Hex.EncodeToString [1]
                    /\ sv_Token (c_server c2) = token_text [2]).
Proof.
  assert (Hs : sound (no_files [])) by apply no_files_sound.
  split; [reflexivity|]. split; [exact Hs|].
  pose proof (secrets_survive_restart server_yml (bare (no_files []) [Some [1]; Some [2]] no_env) [1] [2] []
                eq_refl Hs eq_refl eq_refl ltac:(discriminate)) as P. exact P.
Defined.

Definition with_secrets : Config := upd_server (set_token "tok_x") (set_key "00" DefaultConfig).
Lemma with_secrets_has : has_secrets with_secrets.
Proof. unfold has_secrets. split_and!; try done; intros n _ Hn; by vm_compute in Hn. Qed.

Theorem port_alone_persisted_witness :
  has_secrets with_secrets /\ sv_Port (c_server DefaultConfig) = ""
  /\ exists p s', let c' := upd_server (set_port (Strconv.Itoa p)) (persisted DefaultConfig with_secrets) in
       ResolvePort server_yml DefaultConfig false (seqZ 0 1000) (Z.leb 64500) (bare (one_file server_yml (marshal with_secrets) []) [] no_env)
       = ((upd_server (set_port (Strconv.Itoa p)) DefaultConfig, Ok tt), s')
       /\ 64000 <= p < 65000 /\ (64500 <=? p) = true /\ text_at (s_disk s') server_yml = Some (marshal c')
       /\ forall s2, s_disk s2 = s_disk s' -> mc_env (s_machine s2) "PORT" = "" -> mc_env (s_machine s2) "PASTEBIN_PORT" = "" ->
          exists c2, Load server_yml s2 = ((c2, None), s2) /\ sv_Port (c_server c2) = Strconv.Itoa p.
Proof.
  split; [exact with_secrets_has|]. split; [reflexivity|].
  apply (port_alone_persisted server_yml DefaultConfig with_secrets (seqZ 0 1000) (Z.leb 64500)
           (bare (one_file server_yml (marshal with_secrets) []) [] no_env));
    [reflexivity | apply one_file_sound | reflexivity | exact with_secrets_has | reflexivity | reflexivity
    | exists 64500; split; [lia|reflexivity]].
Defined.

Theorem reloads_stay_valid_witness :
  config_ok (Validate DefaultConfig) = true
  /\ config_ok (current (watch {| configPath := server_yml; current := Validate DefaultConfig; lastModTime := 0 |}
                           [bare (one_file server_yml "not a configuration" []) [] no_env; bare (no_files []) [] no_env])) = true.
Proof.
  assert (Hv : config_ok (Validate DefaultConfig) = true) by exact (proj1 (Validate_settle DefaultConfig)).
  split; [exact Hv|]. by apply (reloads_stay_valid {| configPath := server_yml; current := Validate DefaultConfig; lastModTime := 0 |}).
Defined.

Definition token_creds : gmap string string := {["api_token" := "s3cret"]}.
Definition dns_config : Config := set_key (Hex.EncodeToString (replicate 32 7)) DefaultConfig.
Definition sealed_creds : string := default "" (ok_opt (EncryptDNSCredentials (Ok (replicate 12 0)) token_creds dns_config)).

Theorem dns_credentials_round_trip_witness :
  EncryptDNSCredentials (Ok (replicate 12 0)) token_creds dns_config = Ok sealed_creds
  /\ DecryptDNSCredentials (upd_server (set_dns sealed_creds) dns_config) = Ok token_creds.
Proof.
  assert (E : EncryptDNSCredentials (Ok (replicate 12 0)) token_creds dns_config = Ok sealed_creds) by (vm_compute; reflexivity).
  split; [exact E|].
  refine (dns_credentials_round_trip dns_config dns_config (replicate 12 0) token_creds sealed_creds _ _ _ E _).
  - reflexivity.
  - clear E. apply Forall_replicate. unfold is_byte. lia.
  - apply map_Forall_singleton. split; vm_compute; reflexivity.
  - reflexivity.
Defined.
