(* ===== verification/Backup.v ===== *)
(** * Backups (src/src/maintenance/maintenance.go)

    Making, verifying and restoring an archive of the configuration and the
    database, and the changes of single settings. The archive format (tar in gzip),
    the key derivation and the cipher are interfaces with the laws of the libraries;
    the manifest is a JSON value as in {!Http}. An archive on the disk is one file
    whose content is its text. *)

From S2P Require Import Prelude GoStr GoTime GoCrypto GoUrl Http ConfigText FileSys ConfigStore.
From Stdlib Require Import Ascii.

(** ** Computations that stop at an error *)

Definition then_ {A B} (m : D (result A)) (f : A -> D (result B)) : D (result B) :=
  r ← m; match r with Ok a => f a | Err e => mret (Err e) end.
Notation "x <-? m ; k" := (then_ m (fun x : _ => k)) (at level 20, m at level 100, k at level 200, only parsing).
Notation "' x <-? m ; k" := (then_ m (fun x : _ => k)) (at level 20, x pattern, m at level 100, k at level 200, only parsing).

(** The error with the context it is reported in. *)
Definition in_context {A} (what : string) (m : D (result A)) : D (result A) :=
  r ← m; mret (match r with Ok a => Ok a | Err e => Err (what ++ ": " ++ e) end).
Definition check (b : bool) (e : string) : D (result unit) := mret (if b then Ok tt else Err e).
Definition lift {A} (o : option A) (e : string) : D (result A) := mret (match o with Some a => Ok a | None => Err e end).

(** ** Paths *)

(** [filepath.Join]. *)
Definition FJoin (l : list string) : string :=
  match keep (fun s => negb (String.eqb s "")) l with [] => "" | l => Clean (Strings.Join l "/") end.

(** The part after the last slash of a string without slashes at its end. *)
Definition after_slash (s : string) : string :=
  match Strings.LastIndexByte s "/" with Some i => Strings.drop (S i) s | None => s end.

(** [filepath.Base]. *)
Definition Base (s : string) : string :=
  if String.eqb s "" then "."
  else let t := Strings.TrimRight s "/" in if String.eqb t "" then "/" else after_slash t.

(** ** Archives *)

(** tar.gz: the entries of an archive, and whether it ends well after them; [None]
    is a text that is no archive. *)
Class Archives := { pack : list (string * string) -> string; unpack : string -> option (list (string * string) * bool) }.

(** A name that a tar header can have for a file. *)
Definition file_name (n : string) : bool :=
  negb (String.eqb n "") && negb (Strings.in_set n "000") && negb (Strings.HasSuffix n "/").
Class ArchiveLaws `{Archives} := {
  unpack_pack : forall l, forallb (fun e => file_name e.1) l = true -> unpack (pack l) = Some (l, true);
  pack_not_empty : forall l, pack l <> "";
}.

(** Argon2id with the parameters of the code. *)
Class Kdf := { argon2Key : string -> list Z -> list Z }.

Record Manifest := {
  mf_CreatedAt : string; mf_AppVersion : string; mf_CreatedBy : string; mf_Contents : list string; mf_Encrypted : bool; mf_Checksum : string;
}.

Record BackupOptions := {
  ConfigDir : string; DataDir : string; BackupDir : string; AppVersion : string; Password : string; b_Filename : string;
  ComplianceEnabled : bool;
}.

Definition manifest_name : string := "manifest.json".
Definition projectName : string := "pastebin".

Definition manifest_json (m : Manifest) : json :=
  JObj ([("version", JStr "1.0.0"); ("created_at", JStr (mf_CreatedAt m)); ("app_version", JStr (mf_AppVersion m));
         ("created_by", JStr (mf_CreatedBy m)); ("contents", JArr (JStr <$> mf_Contents m)); ("encrypted", JBool (mf_Encrypted m))]
        ++ omitempty "encryption_method" (if mf_Encrypted m then "AES-256-GCM" else "")
        ++ [("checksum", JStr (mf_Checksum m))])%list.

Definition strings_only (j : option json) : bool :=
  match j with
  | None | Some JNull => true
  | Some (JArr l) => forallb (fun x => match x with JStr _ | JNull => true | _ => false end) l
  | _ => false
  end.

(** The checksum of a manifest that decodes. *)
Definition manifest_checksum `{Unicode} (j : json) : option string :=
  match j with
  | JNull => Some ""
  | JObj l =>
      _ ← as_string (field "version" l); _ ← as_string (field "created_at" l); _ ← as_string (field "app_version" l);
      _ ← as_string (field "created_by" l); _ ← (if strings_only (field "contents" l) then Some tt else None);
      _ ← as_bool (field "encrypted" l); _ ← as_string (field "encryption_method" l); as_string (field "checksum" l)
  | _ => None
  end.

(** The checksum of the contents, one after the other. *)
Definition checksum (contents : list string) : string :=
  "sha256:" ++ Hex.EncodeToString (Sha256.Sum256 (bytes (String.concat "" contents))).

(** *** Encryption: salt, nonce and sealed text *)

Section encryption.
Context `{AEAD} `{Kdf}.

Definition encrypt (salt nonce : list Z) (plaintext password : string) : string :=
  of_bytes (salt ++ nonce ++ gcm_seal (argon2Key password salt) nonce (bytes plaintext))%list.

Definition decrypt (data password : string) : result string :=
  let b := bytes data in
  if Nat.ltb (length b) 28 then Err "backup too short to be valid"
  else
    let salt := take 16 b in
    match gcm_open (argon2Key password salt) (take 12 (drop 16 b)) (drop 28 b) with
    | Some p => Ok (of_bytes p)
    | None => Err "cipher: message authentication failed"
    end.
End encryption.

(** ** What is archived *)

(** The order of [filepath.Walk]: by name in every directory. *)
Definition walk_key (p : string) : string := Strings.ReplaceByte p "/" (String "000" "").
Definition walk_le (a b : string) : Prop := str_le (walk_key a) (walk_key b).
#[export] Instance walk_le_dec a b : Decision (walk_le a b).
Proof. unfold walk_le. apply _. Defined.

Definition Walk (dir : string) (d : Disk) : list string :=
  merge_sort walk_le (keep (fun n => Strings.HasPrefix n (dir ++ "/")) (map_to_list (names d)).*1).

(** An entry: where its content is, and its name in the archive. *)
Definition entry : Type := string * string.

Definition addFile (src name : string) (l : list entry) : D (list entry) :=
  st ← Stat src; mret (match st with Ok _ => (l ++ [(src, name)])%list | Err _ => l end).

Fixpoint addFiles (files : list entry) (l : list entry) : D (list entry) :=
  match files with
  | [] => mret l
  | (src, name) :: files => l ← addFile src name l; addFiles files l
  end.

Definition addDir (dir prefix : string) (l : list entry) : D (list entry) := fun d =>
  addFiles ((fun p => (p, FJoin [prefix; Strings.TrimPrefix p (dir ++ "/")])) <$> Walk dir d) l d.

Definition collect (o : BackupOptions) : D (list entry) :=
  l ← addFile (FJoin [ConfigDir o; "server.yml"]) "server.yml" [];
  l ← addFile (FJoin [DataDir o; "db"; "server.db"]) "server.db" l;
  l ← addFile (FJoin [DataDir o; "db"; "users.db"]) "users.db" l;
  l ← addDir (FJoin [ConfigDir o; "template"]) "template" l;
  l ← addDir (FJoin [ConfigDir o; "theme"]) "theme" l;
  addDir (FJoin [ConfigDir o; "security"]) "security" l.

(** The contents that can be read, for the checksum. *)
Fixpoint readable (l : list entry) : D (list string) :=
  match l with
  | [] => mret []
  | (src, _) :: l =>
      c ← ReadFile src; rest ← readable l;
      mret (match c with Ok c => c :: rest | Err _ => rest end)
  end.

(** The entries with their contents, all of them. *)
Fixpoint addToTar (l : list entry) : D (result (list (string * string))) :=
  match l with
  | [] => mret (Ok [])
  | (src, name) :: l =>
      c <-? in_context ("archiving " ++ name) (ReadFile src);
      rest <-? addToTar l;
      mret (Ok ((name, c) :: rest))
  end.

(** [os.WriteFile]. *)
Definition WriteFile (path text : string) : D (result unit) :=
  i <-? OpenTrunc path;
  _ <-? WriteString i text;
  Close.

(** The random source and the clock of one backup. *)
Record BackupEnv := { be_salt : result (list Z); be_nonce : result (list Z); be_hostname : string; be_stamp : string; be_created : string }.

Definition ErrComplianceBackupBlocked : string := "compliance mode requires an encryption password; backup refused".

Section backup.
Context `{Unicode} `{JsonStream} `{Archives} `{AEAD} `{Kdf}.

Definition extension (password : string) : string := if String.eqb password "" then ".tar.gz" else ".tar.gz.enc".

Definition sealed (e : BackupEnv) (password text : string) : D (result string) :=
  if String.eqb password "" then mret (Ok text)
  else match be_salt e, be_nonce e with
       | Ok salt, Ok nonce => mret (Ok (encrypt salt nonce text password))
       | _, _ => mret (Err "encrypting backup")
       end.

Definition backup_name (o : BackupOptions) (e : BackupEnv) : string :=
  if String.eqb (b_Filename o) "" then projectName ++ "_backup_" ++ be_stamp e ++ extension (Password o) else b_Filename o.
Definition backup_path (o : BackupOptions) (e : BackupEnv) : string := FJoin [BackupDir o; backup_name o e].

Definition manifest (o : BackupOptions) (e : BackupEnv) (l : list entry) (contents : list string) : Manifest :=
  {| mf_CreatedAt := be_created e; mf_AppVersion := AppVersion o; mf_CreatedBy := "apimgr/" ++ projectName ++ "@" ++ be_hostname e;
     mf_Contents := snd <$> l; mf_Encrypted := negb (String.eqb (Password o) ""); mf_Checksum := checksum contents |}.

Definition Backup (o : BackupOptions) (e : BackupEnv) : D (result unit) :=
  if ComplianceEnabled o && String.eqb (Password o) "" then mret (Err ErrComplianceBackupBlocked)
  else
    _ <-? in_context "creating backup dir" MkdirAll;
    l ← collect o;
    contents ← readable l;
    files <-? addToTar l;
    let archive := pack (files ++ [(manifest_name, render (manifest_json (manifest o e l contents)))])%list in
    text <-? sealed e (Password o) archive;
    in_context "writing backup file" (WriteFile (backup_path o e) text).

(** ** Verification *)

(** 256 MiB. *)
Definition entry_cap : Z := Z.shiftl 256 20.
Fixpoint limited (n : Z) (s : string) : string :=
  match s with "" => "" | String c r => if n <=? 0 then "" else String c (limited (n - 1) r) end.
Definition capped (s : string) : string := if strlen s <=? entry_cap then s else limited entry_cap s.

Definition sqliteMagic : string := "SQLite format 3" ++ String "000" "".
Definition verifySQLiteMagic (content : string) : result unit :=
  if Nat.ltb (String.length content) 16 then Err "cannot read header"
  else if String.eqb (Strings.take 16 content) sqliteMagic then Ok tt else Err "not a valid SQLite3 file".

Definition TempFile : D (result unit) := sys (fun d => (Ok tt, d)).

(** The entries one after the other: the contents that were read and the checksum
    of the last manifest, of which the first JSON value counts. *)
Fixpoint verify_entries (l : list (string * string)) (contents : list string) (found : option string)
    : D (result (list string * option string)) :=
  match l with
  | [] => mret (Ok (contents, found))
  | (name, content) :: l =>
      if String.eqb name manifest_name then
        sum <-? lift (parse_first content ≫= manifest_checksum) "verify: invalid manifest";
        verify_entries l contents (Some sum)
      else
        _ <-? in_context ("verify: extract " ++ name)
                (if existsb (String.eqb (Base name)) ["."; ".."; "/"] then mret (Err "is a directory") else TempFile);
        _ <-? (if Strings.HasSuffix name ".db" then in_context ("verify: db integrity " ++ name) (mret (verifySQLiteMagic (capped content)))
               else mret (Ok tt));
        verify_entries l (contents ++ [capped content])%list found
  end.

Definition is_encrypted (path : string) : bool := Strings.HasSuffix path ".enc".

Definition opened (path password data : string) : D (result string) :=
  if is_encrypted path then
    _ <-? check (negb (String.eqb password "")) "encrypted backup requires password";
    in_context "decrypt failed" (mret (decrypt data password))
  else mret (Ok data).

(** A backup that is still being made ends in [.tmp]. *)
Definition verify_data (path password data : string) : D (result unit) :=
  data <-? in_context "verify" (opened (Strings.TrimSuffix path ".tmp") password data);
  '(l, complete) <-? lift (unpack data) "verify: not a valid gzip archive";
  _ <-? in_context "verify: temp dir" TempFile;
  '(contents, found) <-? verify_entries l [] None;
  _ <-? check complete "verify: reading archive entry";
  sum <-? lift found "verify: manifest.json missing from archive";
  check (String.eqb sum "" || String.eqb sum (checksum contents)) "verify: checksum mismatch".

Definition VerifyBackup `{Gzip} (path password : string) : D (result unit) :=
  info <-? in_context "verify: file not found" (Stat path);
  _ <-? check (negb (size_of (i_data info) =? 0)) ("verify: file is empty: " ++ path);
  data <-? in_context "verify: cannot read" (ReadFile path);
  verify_data path password data.

(** ** Restoring *)

(** The directories that can be restored, with the prefix of their entries. *)
Definition restored_dirs : list string := ["template"; "theme"; "security"].

Fixpoint dir_of (name : string) (l : list string) : option string :=
  match l with
  | [] => None
  | dir :: l => if Strings.HasPrefix name (dir ++ "/") then Some dir else dir_of name l
  end.

(** Where an entry goes; [None] is an entry that is skipped. *)
Definition extract_dest (configDir dataDir name : string) : option string :=
  if String.eqb name "server.yml" then Some (FJoin [configDir; "server.yml"])
  else if String.eqb name "server.db" then Some (FJoin [dataDir; "db"; "server.db"])
  else if String.eqb name "users.db" then Some (FJoin [dataDir; "db"; "users.db"])
  else match dir_of name restored_dirs with
       | None => None
       | Some dir =>
           let base := FJoin [configDir; dir] in
           let candidate := FJoin [base; Strings.TrimPrefix name (dir ++ "/")] in
           if negb (String.eqb candidate base) && negb (Strings.HasPrefix candidate (base ++ "/")) then None else Some candidate
       end.

Definition extractEntry (configDir dataDir name content : string) : D (result unit) :=
  match extract_dest configDir dataDir name with
  | None => mret (Ok tt)
  | Some dest =>
      _ <-? MkdirAll;
      i <-? OpenTrunc dest;
      _ <-? in_context ("chmod " ++ dest) Chmod;
      WriteString i (capped content)
  end.

Fixpoint extract_entries (configDir dataDir : string) (l : list (string * string)) : D (result unit) :=
  match l with
  | [] => mret (Ok tt)
  | (name, content) :: l =>
      _ <-? (if String.eqb name manifest_name then mret (Ok tt)
             else in_context ("extracting " ++ name) (extractEntry configDir dataDir name content));
      extract_entries configDir dataDir l
  end.

Definition Restore `{Gzip} (archivePath configDir dataDir password : string) : D (result unit) :=
  _ <-? in_context "backup verification failed" (VerifyBackup archivePath password);
  data <-? in_context "reading backup" (ReadFile archivePath);
  data <-? opened archivePath password data;
  '(l, complete) <-? lift (unpack data) "opening gzip";
  _ <-? extract_entries configDir dataDir l;
  check complete "reading archive".
End backup.

(** ** Single settings *)

Definition strip_left (s : string) : string := Strings.TrimLeft s (" " ++ tab).

(** The lines whose text starts with the key, whatever block they are in. *)
Definition replace_line (key value l : string) : string :=
  if Strings.HasPrefix (StringsU.TrimSpace l) (key ++ ":") then
    Strings.Repeat " " (String.length l - String.length (strip_left l)) ++ key ++ ": " ++ value
  else l.
Definition replaceYAMLField (lines : list string) (key value : string) : list string := replace_line key value <$> lines.

Definition edited (text key value : string) : string :=
  Strings.Join (replaceYAMLField (Strings.Split text "010") key value) newline.

Section settings.
Context `{TempNames}.

(** The same steps as [Save]. *)
Definition atomicWriteFile (path text : string) : D (result unit) := save_text path text.

Definition SetYAMLField (cfgPath key value : string) : D (result unit) :=
  _ <-? in_context "creating config dir" MkdirAll;
  data ← ReadFile cfgPath;
  match data with
  | Err e => if String.eqb e not_exist then in_context "writing config" (atomicWriteFile cfgPath (key ++ ": " ++ value ++ newline))
             else mret (Err ("reading config: " ++ e))
  | Ok text => in_context "writing config" (atomicWriteFile cfgPath (edited text key value))
  end.

Definition SetMode (configDir mode : string) : D (result unit) :=
  let cfgPath := FJoin [configDir; "server.yml"] in
  text <-? in_context "reading config" (ReadFile cfgPath);
  in_context "writing config" (atomicWriteFile cfgPath (edited text "mode" mode)).
End settings.

(** The mode of the content policy is changed with the mode of the server. *)
Lemma set_mode_changes_csp :
  edited (Strings.Join ["server:"; "  mode: production"; "web:"; "  headers:"; "    csp:"; "      mode: enforce"] newline) "mode" "development"
  = Strings.Join ["server:"; "  mode: development"; "web:"; "  headers:"; "    csp:"; "      mode: development"] newline.
Proof. vm_compute. reflexivity. Qed.
