(* ===== verification/BackupProofs.v ===== *)
(** * Backups: what a restore may touch, and that it restores *)

From S2P Require Import Prelude RotateProofs AccessProofs GoStr GoStrProofs GoTextProofs GoTime GoCrypto GoUrl Http Headers JsonProofs ConfigText FileSys ConfigStore Instances ConfigInstances ConfigStoreProofs Backup.
From Stdlib Require Import Ascii.

(** ** Where entries go *)

Lemma Split_nonempty x c : Strings.Split x c <> [].
Proof. destruct x as [|d x]; [done|]. cbn. destruct (Ascii.eqb d c); [done|]. by destruct (Strings.Split x c). Qed.

Lemma Split_cut x y c : Strings.Split (x ++ String c y) c = (Strings.Split x c ++ Strings.Split y c)%list.
Proof.
  induction x as [|d x IH]; [cbn; by rewrite Ascii.eqb_refl|]. cbn [String.append Strings.Split]. destruct (Ascii.eqb d c) eqn:E; [by rewrite IH|].
  rewrite IH. destruct (Strings.Split x c) as [|z zs] eqn:Ez; [by apply Split_nonempty in Ez | done].
Qed.

Lemma Split_components cs : Forall component cs -> cs <> [] -> Strings.Split (Strings.Join cs "/") "/" = cs.
Proof.
  intros Hc Hne. destruct cs as [|c cs]; [done|]. rewrite Split_Join; [by rewrite list_fmap_id | | done].
  intros x Hx. by apply (proj1 (Forall_forall _ _) Hc x Hx).
Qed.

Lemma HasPrefix_split s : forall p, Strings.HasPrefix s p = true -> exists t, s = p ++ t.
Proof.
  unfold Strings.HasPrefix. induction s as [|c s IH]; intros [|d p] Hp; try done; [by exists ""|by exists (String c s)|].
  cbn in Hp. destruct (Ascii.ascii_dec d c) as [->|]; [|done]. apply IH in Hp as [t ->]. by exists t.
Qed.

Lemma slash_first J t : ("/" ++ J) ++ "/" ++ t = "/" ++ J ++ String "/" t.
Proof. done. Qed.

(** A rooted path below another one continues it by components. *)
Lemma below_components bs ds t : Forall component bs -> Forall component ds ->
  "/" ++ Strings.Join ds "/" = ("/" ++ Strings.Join bs "/") ++ "/" ++ t ->
  exists cs, cs <> [] /\ Forall component cs /\ t = Strings.Join cs "/" /\ ds = (bs ++ cs)%list.
Proof.
  intros Hb Hd E. rewrite slash_first in E. assert (E' : Strings.Join ds "/" = Strings.Join bs "/" ++ String "/" t) by (by injection E).
  clear E. destruct bs as [|b bs].
  - destruct ds as [|e ds]; [done|]. apply Forall_cons in Hd as [(He & _ & _ & He') _]. exfalso.
    destruct e as [|x e]; [done|]. assert (x = "/"%char) as -> by (destruct ds; by injection E'). done.
  - pose proof (Split_components (b :: bs) Hb ltac:(done)) as Eb. revert E' Eb. generalize (Strings.Join (b :: bs) "/"). intros J E' Eb.
    assert (Es : Strings.Split (Strings.Join ds "/") "/" = ((b :: bs) ++ Strings.Split t "/")%list) by by rewrite E', Split_cut, Eb.
    destruct ds as [|e ds]; [destruct J; discriminate E'|]. rewrite Split_components in Es by done.
    exists (Strings.Split t "/"). rewrite Es in Hd. apply Forall_app in Hd as [_ Hd].
    split; [apply Split_nonempty|]. split; [done|]. split; [by rewrite Join_Split | exact Es].
Qed.

Lemma FJoin_rooted a b : Strings.HasPrefix a "/" = true -> exists cs, Forall component cs /\ FJoin [a; b] = "/" ++ Strings.Join cs "/".
Proof.
  intros [t ->]%HasPrefix_split. unfold FJoin, keep. cbn [List.filter String.append String.eqb negb].
  destruct (negb (String.eqb b "")); apply Clean_rooted; cbn [Strings.Join String.append]; apply (HasPrefix_app "/").
Qed.

(** A file that a restore may write: the three files, or one below a directory. *)
Definition restorable (configDir dataDir dest : string) : Prop :=
  dest ∈ [FJoin [configDir; "server.yml"]; FJoin [dataDir; "db"; "server.db"]; FJoin [dataDir; "db"; "users.db"]]
  \/ exists dir cs, dir ∈ restored_dirs /\ Forall component cs /\ dest = Strings.Join (FJoin [configDir; dir] :: cs) "/".

Lemma dir_of_in name l dir : dir_of name l = Some dir -> dir ∈ l.
Proof. induction l as [|x l IH]; [done|]. cbn. destruct (Strings.HasPrefix name (x ++ "/")); [intros [= ->]; by left | intros; right; by apply IH]. Qed.

Lemma extract_dest_restorable configDir dataDir name dest : Strings.HasPrefix configDir "/" = true ->
  extract_dest configDir dataDir name = Some dest -> restorable configDir dataDir dest.
Proof.
  intros Hc. unfold extract_dest, restorable.
  destruct (String.eqb name "server.yml"); [intros [= <-]; left; set_solver|].
  destruct (String.eqb name "server.db"); [intros [= <-]; left; set_solver|].
  destruct (String.eqb name "users.db"); [intros [= <-]; left; set_solver|].
  destruct (dir_of name restored_dirs) as [dir|] eqn:Ed; [|done]. apply dir_of_in in Ed.
  destruct (FJoin_rooted configDir dir Hc) as (bs & Hbs & Eb). set (rel := Strings.TrimPrefix name (dir ++ "/")).
  assert (Hb : Strings.HasPrefix (FJoin [configDir; dir]) "/" = true) by (rewrite Eb; cbn; by destruct (Strings.Join bs "/")).
  destruct (FJoin_rooted _ rel Hb) as (ds & Hds & E).
  destruct (String.eqb_spec (FJoin [FJoin [configDir; dir]; rel]) (FJoin [configDir; dir])) as [Eq|Ne]; cbn [negb andb].
  - intros [= <-]. right. exists dir, []. by rewrite Eq.
  - destruct (Strings.HasPrefix (FJoin [FJoin [configDir; dir]; rel]) (FJoin [configDir; dir] ++ "/")) eqn:Ep; [|done]. intros [= <-]. right.
    apply HasPrefix_split in Ep as [t Et]. rewrite E, Eb, <- string_app_assoc in Et.
    destruct (below_components bs ds t Hbs Hds Et) as (cs & Hne' & Hcs & -> & _). exists dir, cs. split; [done|]. split; [done|].
    rewrite E, Et, Eb. by destruct cs.
Qed.

(** ** What a computation may change *)

(** No two names are the same file. *)
Definition apart (d : Disk) : Prop := forall p q i, names d !! p = Some i -> names d !! q = Some i -> p = q.

(** Only files whose name is [ok] change. *)
Definition only (ok : string -> Prop) (d d' : Disk) : Prop :=
  sound d -> apart d -> sound d' /\ apart d' /\ forall q, ~ ok q -> file_at d' q = file_at d q.

Lemma only_refl ok d : only ok d d.
Proof. by intros Hs Ha. Qed.
Lemma only_trans ok d1 d2 d3 : only ok d1 d2 -> only ok d2 d3 -> only ok d1 d3.
Proof. intros H1 H2 Hs Ha. destruct (H1 Hs Ha) as (Hs2 & Ha2 & E2). destruct (H2 Hs2 Ha2) as (Hs3 & Ha3 & E3). split; [done|]. split; [done|].
  intros q Hq. by rewrite E3, E2. Qed.

Definition keeps (ok : string -> Prop) {A} (m : D A) : Prop := forall d, only ok d (m d).2.

Section keeping.
Context (ok : string -> Prop).

Lemma keeps_ret {A} (a : A) : keeps ok (mret (M := D) a).
Proof. intros d. apply only_refl. Qed.
Lemma keeps_bind {A B} (m : D A) (f : A -> D B) : keeps ok m -> (forall a, keeps ok (f a)) -> keeps ok (m ≫= f).
Proof.
  intros Hm Hf d. pose proof (Hm d) as H1. unfold mbind, D_bind. destruct (m d) as [a d1]. eapply only_trans; [exact H1 | apply Hf].
Qed.
Lemma keeps_then {A B} (m : D (result A)) (f : A -> D (result B)) : keeps ok m -> (forall a, keeps ok (f a)) -> keeps ok (then_ m f).
Proof. intros Hm Hf. apply keeps_bind; [done|]. intros [a|e]; [apply Hf | apply keeps_ret]. Qed.
Lemma keeps_context {A} w (m : D (result A)) : keeps ok m -> keeps ok (in_context w m).
Proof. intros Hm. apply keeps_bind; [done|]. intros. apply keeps_ret. Qed.
Lemma keeps_check b e : keeps ok (check b e).
Proof. apply keeps_ret. Qed.
Lemma keeps_lift {A} (o : option A) e : keeps ok (lift o e).
Proof. apply keeps_ret. Qed.
(** A system call that changes no file. *)
Lemma keeps_idle {A} (f : Disk -> result A * Disk) : (forall d, (f d).2 = d) -> keeps ok (sys f).
Proof.
  intros Hf d. unfold sys. destruct (hd false (d_faults d)); cbn [snd]; [by intros Hs Ha|]. rewrite Hf. by intros Hs Ha.
Qed.
End keeping.

Create HintDb keeps discriminated.
#[export] Hint Resolve keeps_ret keeps_bind keeps_then keeps_context keeps_check keeps_lift : keeps.
#[export] Hint Extern 2 (keeps _ (sys _)) => apply keeps_idle; intros ?; by repeat case_match : keeps.
#[export] Hint Extern 1 (keeps _ (if ?b then _ else _)) => destruct b : keeps.
#[export] Hint Extern 1 (keeps _ (match ?x with _ => _ end)) => destruct x : keeps.
Ltac keeping := eauto 12 with keeps.

Lemma keeps_ReadFile ok path : keeps ok (ReadFile path).
Proof. unfold ReadFile. keeping. Qed.
Lemma keeps_Stat ok path : keeps ok (Stat path).
Proof. unfold Stat. keeping. Qed.
Lemma keeps_MkdirAll ok : keeps ok MkdirAll.
Proof. unfold MkdirAll. keeping. Qed.
Lemma keeps_TempFile ok : keeps ok TempFile.
Proof. unfold TempFile. keeping. Qed.
Lemma keeps_Chmod ok : keeps ok Chmod.
Proof. unfold Chmod. keeping. Qed.
#[export] Hint Resolve keeps_ReadFile keeps_Stat keeps_MkdirAll keeps_TempFile keeps_Chmod : keeps.

(** Opening a file to overwrite it, and writing to it. *)
Lemma OpenTrunc_only dest d : only (eq dest) d (OpenTrunc dest d).2
  /\ forall i, (OpenTrunc dest d).1 = Ok i -> names (OpenTrunc dest d).2 !! dest = Some i.
Proof.
  unfold OpenTrunc, sys. destruct (hd false (d_faults d)); [by split|]. change (names (set_faults (tl (d_faults d)) d)) with (names d).
  destruct (names d !! dest) as [i|] eqn:E; cbn [fst snd].
  - split; [|by intros j [= <-]]. intros Hs Ha. unfold sound, apart, file_at. cbn [names inodes set_inodes set_faults].
    split; [intros q j Hq; rewrite length_insert; by apply (Hs q)|]. split; [exact Ha|]. intros q Hq.
    destruct (names d !! q) as [j|] eqn:Ej; [|done]. cbn. apply list_lookup_insert_ne. intros <-. apply Hq. by apply (Ha dest q i).
  - split; [|intros j [= <-]; apply lookup_insert_eq]. intros Hs Ha. unfold sound, apart, file_at. cbn [names inodes set_inodes set_names set_faults].
    split; [|split].
    + intros q j. rewrite length_app. cbn. destruct (decide (q = dest)) as [->|Hne]; [rewrite lookup_insert_eq; intros [= <-]; lia|].
      rewrite lookup_insert_ne by done. intros Hq%Hs. lia.
    + intros q1 q2 j [[<- <-]|[H1 H2]]%lookup_insert_Some [[<- H3]|[H3 H4]]%lookup_insert_Some; try done.
      * apply Hs in H4. lia.
      * subst j. apply Hs in H2. lia.
      * by apply (Ha q1 q2 j).
    + intros q Hq. rewrite lookup_insert_ne by done. destruct (names d !! q) as [j|] eqn:Ej; [|done]. cbn. apply Hs in Ej. by rewrite lookup_app_l.
Qed.

Lemma WriteString_only dest i text d : names d !! dest = Some i -> only (eq dest) d (WriteString i text d).2.
Proof.
  intros Hi Hs Ha. unfold WriteString, sys. destruct (hd false (d_faults d)); [done|]. cbn [snd].
  unfold sound, apart, file_at. cbn [names inodes set_inodes set_faults d_clock]. split; [intros q j Hq; rewrite length_alter; by apply (Hs q)|].
  split; [exact Ha|]. intros q Hq. destruct (names d !! q) as [j|] eqn:Ej; [|done]. cbn. apply list_lookup_alter_ne. intros <-. apply Hq. by apply (Ha dest q i).
Qed.

Lemma Remove_only p d : only (eq p) d (Remove p d).2.
Proof.
  intros Hs Ha. unfold Remove, sys. destruct (hd false (d_faults d)); [done|]. change (names (set_faults (tl (d_faults d)) d)) with (names d).
  destruct (names d !! p) as [i|]; [|done]. unfold sound, apart, file_at. cbn [snd names inodes set_names set_faults].
  split; [intros q j [_ Hq]%lookup_delete_Some; by apply (Hs q)|].
  split; [intros q1 q2 j [_ K1]%lookup_delete_Some [_ K2]%lookup_delete_Some; by apply (Ha q1 q2 j)|]. intros q Hq. by rewrite lookup_delete_ne.
Qed.

Lemma Rename_result from to d r d' : from <> to -> sound d -> apart d -> Rename from to d = (r, d') ->
  (forall q, q <> from -> q <> to -> file_at d' q = file_at d q)
  /\ (if is_ok r then file_at d' to = file_at d from /\ is_Some (names d !! from) else forall q, file_at d' q = file_at d q)
  /\ sound d' /\ apart d'.
Proof.
  intros Hne Hs Ha. unfold Rename, sys. destruct (hd false (d_faults d)); [by intros [= <- <-]|].
  change (names (set_faults (tl (d_faults d)) d)) with (names d). destruct (names d !! from) as [i|] eqn:E; [|by intros [= <- <-]].
  intros [= <- <-]. unfold sound, apart, file_at. cbn [is_ok names inodes set_names set_faults]. split; [|split; [|split]].
  - intros q K1 K2. by rewrite lookup_insert_ne, lookup_delete_ne.
  - rewrite lookup_insert_eq, E. by split.
  - intros q j [[<- <-]|[_ [_ Hq]%lookup_delete_Some]]%lookup_insert_Some; [by apply (Hs from) | by apply (Hs q)].
  - intros q1 q2 j [[<- <-]|[K1 [K2 K3]%lookup_delete_Some]]%lookup_insert_Some [[<- K4]|[K5 [K6 K7]%lookup_delete_Some]]%lookup_insert_Some; try done.
    + by rewrite (Ha from q2 i) in K6.
    + subst j. by rewrite (Ha from q1 i) in K2.
    + by apply (Ha q1 q2 j).
Qed.

Lemma only_weaken (ok ok' : string -> Prop) d d' : (forall q, ok q -> ok' q) -> only ok d d' -> only ok' d d'.
Proof. intros Hok Ho Hs Ha. destruct (Ho Hs Ha) as (H1 & H2 & H3). split; [done|]. split; [done|]. intros q Hq. apply H3. intros H. by apply Hq, Hok. Qed.

(** Open, a call that changes nothing, write. *)
Lemma keeps_overwrite dest text w : keeps (eq dest) (i <-? OpenTrunc dest; _ <-? in_context w Chmod; WriteString i text).
Proof.
  intros d. unfold then_ at 1, mbind, D_bind. destruct (OpenTrunc_only dest d) as [H1 H2]. destruct (OpenTrunc dest d) as [[i|e] d1]; cbn [fst snd] in *; [|done].
  eapply only_trans; [exact H1|]. specialize (H2 i eq_refl). unfold then_, in_context, mbind, D_bind, Chmod, sys, mret, D_ret.
  destruct (hd false (d_faults d1)); [by intros Hs Ha|]. eapply only_trans; [|by apply (WriteString_only dest i)]. by intros Hs Ha.
Qed.

Section restoring.
Context `{Unicode} `{JsonStream} `{Archives} `{AEAD} `{Kdf} `{Gzip}.

Lemma keeps_opened ok path password data : keeps ok (opened path password data).
Proof. unfold opened. keeping. Qed.
#[local] Hint Resolve keeps_opened : keeps.

Lemma keeps_verify_entries ok l : forall contents found, keeps ok (verify_entries l contents found).
Proof. induction l as [|[name content] l IH]; intros contents found; cbn [verify_entries]; keeping. Qed.
#[local] Hint Resolve keeps_verify_entries : keeps.

Lemma keeps_verify_data ok path password data : keeps ok (verify_data path password data).
Proof. unfold verify_data. apply keeps_then; [keeping|]. intros a. apply keeps_then; [keeping|]. intros [l complete]. keeping. Qed.
#[local] Hint Resolve keeps_verify_data : keeps.

Lemma keeps_VerifyBackup ok path password : keeps ok (VerifyBackup path password).
Proof. unfold VerifyBackup. keeping. Qed.

Lemma keeps_weaken (ok ok' : string -> Prop) {A} (m : D A) : (forall q, ok q -> ok' q) -> keeps ok m -> keeps ok' m.
Proof. intros Hok Hm d. by eapply only_weaken. Qed.

Lemma keeps_extractEntry configDir dataDir name content : Strings.HasPrefix configDir "/" = true ->
  keeps (restorable configDir dataDir) (extractEntry configDir dataDir name content).
Proof.
  intros Hc. unfold extractEntry. destruct (extract_dest configDir dataDir name) as [dest|] eqn:E; [|keeping].
  apply extract_dest_restorable in E; [|done]. apply keeps_then; [keeping|]. intros _.
  eapply keeps_weaken; [|apply keeps_overwrite]. by intros q <-.
Qed.

Lemma keeps_extract_entries configDir dataDir l : Strings.HasPrefix configDir "/" = true ->
  keeps (restorable configDir dataDir) (extract_entries configDir dataDir l).
Proof.
  intros Hc. induction l as [|[name content] l IH]; cbn [extract_entries]; [keeping|]. apply keeps_then; [|done].
  destruct (String.eqb name manifest_name); [keeping|]. by apply keeps_context, keeps_extractEntry.
Qed.

(** C27 — Whatever an archive contains and whatever fails, restoring it writes only
    to the configuration, the two databases and files below the three directories,
    and to none of them when the archive does not pass its verification. *)
Theorem restore_contained (archivePath configDir dataDir password : string) (d : Disk) :
  Strings.HasPrefix configDir "/" = true -> sound d -> apart d ->
  let '(r, d') := Restore archivePath configDir dataDir password d in
  (forall q, ~ restorable configDir dataDir q -> file_at d' q = file_at d q)
  /\ (is_ok (VerifyBackup archivePath password d).1 = false -> is_ok r = false /\ forall q, file_at d' q = file_at d q).
Proof.
  intros Hc Hs Ha. destruct (Restore archivePath configDir dataDir password d) as [r d'] eqn:E. split.
  - assert (Hk : keeps (restorable configDir dataDir) (Restore archivePath configDir dataDir password)).
    { unfold Restore. repeat first [apply keeps_then; [|intros ?] | apply keeps_check | apply keeps_lift | by apply keeps_context, keeps_VerifyBackup
        | by apply keeps_context, keeps_ReadFile | apply keeps_opened | by apply keeps_extract_entries | case_match]. }
    specialize (Hk d Hs Ha). rewrite E in Hk. by destruct Hk as (_ & _ & Hk).
  - pose proof (keeps_VerifyBackup (fun _ => False) archivePath password d Hs Ha) as (_ & _ & Hv).
    unfold Restore, then_, in_context, mbind, D_bind, mret, D_ret in E. destruct (VerifyBackup archivePath password d) as [[u|e] d1]; [done|].
    intros _. injection E as <- <-. split; [done|]. intros q. apply Hv. intros [].
Qed.
End restoring.

(** ** A backup restores *)

(** Overwriting a file when nothing fails. *)
Lemma OpenTrunc_calm dest d : calm d -> sound d -> exists i d', OpenTrunc dest d = (Ok i, d') /\ calm d' /\ names d' !! dest = Some i
  /\ exists t, inodes d' !! i = Some {| i_data := Plain []; i_mtime := t |}.
Proof.
  intros Hc Hs. unfold OpenTrunc. rewrite sys_calm by done. destruct (names d !! dest) as [i|] eqn:E.
  - eexists _, _. split; [reflexivity|]. split; [exact Hc|]. split; [exact E|]. exists (d_clock d). cbn [inodes set_inodes].
    apply list_lookup_insert_eq. by apply (Hs dest).
  - eexists _, _. split; [reflexivity|]. split; [exact Hc|]. cbn [names inodes set_inodes set_names]. split; [apply lookup_insert_eq|].
    exists (d_clock d). by rewrite lookup_app_r, Nat.sub_diag by lia.
Qed.

Lemma WriteString_calm dest i t text d : calm d -> names d !! dest = Some i -> inodes d !! i = Some {| i_data := Plain []; i_mtime := t |} ->
  exists d', WriteString i text d = (Ok tt, d') /\ calm d' /\ text_at d' dest = Some text.
Proof.
  intros Hc Hn Hi. unfold WriteString. rewrite sys_calm by done. eexists. split; [reflexivity|]. split; [exact Hc|].
  unfold text_at, file_at. cbn [names inodes set_inodes]. rewrite Hn. cbn. rewrite list_lookup_alter_eq, Hi. done.
Qed.

Lemma then_ok {A B} (m : D (result A)) (f : A -> D (result B)) d a d' : m d = (Ok a, d') -> then_ m f d = f a d'.
Proof. unfold then_, mbind, D_bind. by intros ->. Qed.
Lemma context_ok {A} w (m : D (result A)) d a d' : m d = (Ok a, d') -> in_context w m d = (Ok a, d').
Proof. unfold in_context, mbind, D_bind. by intros ->. Qed.

Lemma overwrite_calm dest text w d : calm d -> sound d -> exists d',
  (i <-? OpenTrunc dest; _ <-? in_context w Chmod; WriteString i text) d = (Ok tt, d') /\ calm d' /\ text_at d' dest = Some text.
Proof.
  intros Hc Hs. destruct (OpenTrunc_calm dest d Hc Hs) as (i & d1 & E1 & Hc1 & Hn & t & Hi).
  destruct (WriteString_calm dest i t text d1 Hc1 Hn Hi) as (d2 & E2 & Hc2 & Ht). exists d2. split; [|done].
  rewrite (then_ok _ _ _ _ _ E1). erewrite then_ok; [exact E2|]. apply context_ok. unfold Chmod. by rewrite sys_calm.
Qed.

Lemma WriteFile_calm path text d : calm d -> sound d -> exists d', WriteFile path text d = (Ok tt, d') /\ calm d' /\ text_at d' path = Some text.
Proof.
  intros Hc Hs. destruct (OpenTrunc_calm path d Hc Hs) as (i & d1 & E1 & Hc1 & Hn & t & Hi).
  destruct (WriteString_calm path i t text d1 Hc1 Hn Hi) as (d2 & E2 & Hc2 & Ht). exists d2. split; [|done].
  unfold WriteFile. rewrite (then_ok _ _ _ _ _ E1), (then_ok _ _ _ _ _ E2). unfold Close. by rewrite sys_calm.
Qed.

Lemma addFile_calm src name l d : calm d -> (addFile src name l d).2 = d.
Proof. intros Hc. unfold addFile, Stat, mbind, D_bind. rewrite sys_calm by done. done. Qed.
Lemma addFiles_calm fs : forall l d, calm d -> (addFiles fs l d).2 = d.
Proof.
  induction fs as [|[src name] fs IH]; intros l d Hc; [done|]. cbn [addFiles]. unfold mbind, D_bind.
  pose proof (addFile_calm src name l d Hc) as E. destruct (addFile src name l d) as [l' d']. cbn in E. subst d'. by apply IH.
Qed.
Lemma addDir_calm dir prefix l d : calm d -> (addDir dir prefix l d).2 = d.
Proof. apply addFiles_calm. Qed.

Lemma collect_calm o d : calm d -> (collect o d).2 = d.
Proof.
  intros Hc. unfold collect, mbind, D_bind.
  repeat match goal with
  | |- context [addFile ?a ?b ?l d] => pose proof (addFile_calm a b l d Hc); destruct (addFile a b l d) as [? ?]; cbn in *; subst
  | |- context [addDir ?a ?b ?l d] => pose proof (addDir_calm a b l d Hc) as E; destruct (addDir a b l d) as [? ?]; cbn in E; subst
  end; done.
Qed.

Lemma ReadFile_text d path : calm d ->
  ReadFile path d = (match file_at d path with None => Err not_exist | Some f => match text_of (i_data f) with Some s => Ok s | None => Err io_error end end, d).
Proof. intros Hc. unfold ReadFile. rewrite sys_calm by done. by destruct (file_at d path). Qed.

(** What is archived is what is hashed, and what is on the disk. *)
Lemma addToTar_calm l d files d' : calm d -> addToTar l d = (Ok files, d') ->
  d' = d /\ files.*1 = l.*2 /\ readable l d = (files.*2, d) /\ Forall2 (fun e f => text_at d e.1 = Some f.2 /\ e.2 = f.1) l files.
Proof.
  intros Hc. revert files d'. induction l as [|[src name] l IH]; intros files d' E; [injection E as <- <-; by repeat split|].
  cbn [addToTar readable] in *. unfold then_, in_context, mbind, D_bind, mret, D_ret in *. rewrite (ReadFile_text d src Hc) in *. unfold text_at.
  destruct (file_at d src) as [f|] eqn:Ef; [|done]. destruct (text_of (i_data f)) as [c|] eqn:Et; [|done].
  destruct (addToTar l d) as [[files'|e] d1]; [|done]. injection E as <- <-. destruct (IH _ _ eq_refl) as (-> & E1 & E2 & E3). cbn. rewrite E1, E2.
  repeat split. constructor; [|done]. cbn. by rewrite Ef.
Qed.

Section round_trip.
Context `{Unicode} `{JsonLaws} `{!JsonStream} `{ArchiveLaws} `{AEADLaws} `{Kdf} `{Gzip}.

Lemma strings_only_sanitized l : strings_only (Some (sanitize (JArr (JStr <$> l)))) = true.
Proof. cbn. induction l as [|x l IH]; [done|]. cbn. done. Qed.

Lemma manifest_checksum_json m : Utf8.ToValid (mf_Checksum m) = mf_Checksum m ->
  parse (render (manifest_json m)) ≫= manifest_checksum = Some (mf_Checksum m).
Proof.
  intros Hv. rewrite parse_render. cbn [mbind option_bind]. unfold manifest_json, omitempty. destruct (mf_Encrypted m); cbn [String.eqb Strings.HasPrefix app];
    (rewrite sanitize_obj by reflexivity); cbn [List.map fst snd]; unfold manifest_checksum; rewrite !field_plain by reflexivity;
    pose proof (strings_only_sanitized (mf_Contents m)) as Hs; remember (sanitize (JArr (JStr <$> mf_Contents m))) as arr;
    cbn -[strings_only Utf8.ToValid]; rewrite Hs; cbn -[Utf8.ToValid]; by rewrite Hv.
Qed.

Lemma checksum_valid contents : Utf8.ToValid (checksum contents) = checksum contents.
Proof.
  apply ToValid_ascii. unfold checksum, StringsU.is_ascii. rewrite forall_byte_app. apply andb_true_iff. split; [done|].
  apply hex_ascii, Sum256_bytes.
Qed.

(** *** Encryption *)

Lemma decrypt_encrypt salt nonce text password : length salt = 16%nat -> length nonce = 12%nat -> Forall is_byte salt -> Forall is_byte nonce ->
  decrypt (encrypt salt nonce text password) password = Ok text.
Proof.
  intros Hls Hln Hs Hn. unfold decrypt, encrypt. rewrite bytes_of_bytes by (rewrite !Forall_app; split_and!; [done..|apply gcm_seal_bytes]).
  set (c := gcm_seal _ _ _). rewrite !length_app, Hls, Hln. destruct (Nat.ltb_spec (16 + (12 + length c)) 28); [lia|].
  rewrite <- Hls at 1 2. rewrite take_app_length, drop_app_length. rewrite <- Hln at 1. rewrite take_app_length.
  rewrite (app_assoc salt nonce c). replace 28%nat with (length (salt ++ nonce)) by (rewrite length_app; lia). rewrite drop_app_length.
  unfold c. by rewrite gcm_open_seal, of_bytes_bytes.
Qed.

(** A name under which an archived file can be verified and restored. *)
Definition entry_name (n : string) : bool :=
  file_name n && negb (existsb (String.eqb (Base n)) ["."; ".."; "/"]) && negb (String.eqb n manifest_name).
Definition entry_fits (f : string * string) : Prop :=
  entry_name f.1 = true /\ strlen f.2 <= entry_cap /\ (Strings.HasSuffix f.1 ".db" = true -> verifySQLiteMagic f.2 = Ok tt).

Lemma capped_fits c : strlen c <= entry_cap -> capped c = c.
Proof. unfold capped. intros Hc. by rewrite (proj2 (Z.leb_le _ _) Hc). Qed.

(** What verification reads of the entries: 256 MiB of each. *)
Definition entry_checks (f : string * string) : Prop :=
  entry_name f.1 = true /\ (Strings.HasSuffix f.1 ".db" = true -> verifySQLiteMagic (capped f.2) = Ok tt).

Lemma first_value m sum : parse m ≫= manifest_checksum = Some sum -> parse_first m ≫= manifest_checksum = Some sum.
Proof. destruct (parse m) as [j|] eqn:E; [|done]. by rewrite (parse_first_all m j E). Qed.

Lemma verify_entries_run files m sum : forall contents d, calm d -> Forall entry_checks files -> parse m ≫= manifest_checksum = Some sum ->
  verify_entries (files ++ [(manifest_name, m)]) contents None d = (Ok (contents ++ (capped <$> files.*2), Some sum)%list, d).
Proof.
  induction files as [|[name c] files IH]; intros contents d Hc Hf Hm.
  - cbn [app verify_entries]. rewrite String.eqb_refl. erewrite then_ok; [|unfold lift; rewrite (first_value m sum Hm); reflexivity]. cbn. by rewrite app_nil_r.
  - apply Forall_cons in Hf as [(Hn & Hd) Hf]. cbn [fst snd] in *. unfold entry_name in Hn.
    apply andb_prop in Hn as [[_ Hb]%andb_prop Hn]. apply negb_true_iff in Hn, Hb. cbn [app verify_entries]. rewrite Hn, Hb.
    erewrite then_ok; [|apply context_ok; unfold TempFile; by rewrite sys_calm].
    erewrite then_ok; [|].
    + rewrite IH by done. by rewrite <- app_assoc.
    + destruct (Strings.HasSuffix name ".db"); [|done]. rewrite Hd by done. by apply context_ok.
Qed.

Lemma verify_entries_ok files m sum : forall contents d, calm d -> Forall entry_fits files -> parse m ≫= manifest_checksum = Some sum ->
  verify_entries (files ++ [(manifest_name, m)]) contents None d = (Ok (contents ++ files.*2, Some sum)%list, d).
Proof.
  intros contents d Hc Hf Hm. rewrite verify_entries_run with (sum := sum); [|done| |done].
  - assert (E : capped <$> files.*2 = files.*2); [|by rewrite E].
    clear -Hf. induction Hf as [|f files (_ & Hl & _) Hf IH]; [done|]. cbn. by rewrite (capped_fits _ Hl), IH.
  - eapply Forall_impl; [exact Hf|]. intros f (Hn & Hl & Hd). split; [done|]. by rewrite (capped_fits _ Hl).
Qed.

(** The name of an archive says whether it is encrypted, and it is finished. *)
Definition well_named (path password : string) : Prop :=
  is_encrypted path = negb (String.eqb password "") /\ Strings.TrimSuffix path ".tmp" = path.

(** The random bytes of one encryption. *)
Definition good_env (e : BackupEnv) : Prop :=
  exists salt nonce, be_salt e = Ok salt /\ be_nonce e = Ok nonce /\ length salt = 16%nat /\ length nonce = 12%nat
                     /\ Forall is_byte salt /\ Forall is_byte nonce.

Lemma opened_sealed path password e text data d d' : good_env e -> is_encrypted path = negb (String.eqb password "") ->
  sealed e password text d = (Ok data, d') -> forall d2, opened path password data d2 = (Ok text, d2).
Proof.
  intros (salt & nonce & Es & En & Hls & Hln & Hs & Hn) Hp. unfold sealed, opened. rewrite Hp.
  destruct (String.eqb password ""); cbn [negb]; [by intros [= <- <-]|]. rewrite Es, En. intros [= <- <-] d2.
  erewrite then_ok; [|done]. rewrite decrypt_encrypt by done. by apply context_ok.
Qed.

Lemma sealed_not_empty e password archive data d d' : good_env e -> archive <> "" -> sealed e password archive d = (Ok data, d') -> data <> "".
Proof.
  intros (salt & nonce & Es & En & Hls & _) Ha. unfold sealed. destruct (String.eqb password ""); [by intros [= <- <-]|].
  rewrite Es, En. intros [= <- <-]. unfold encrypt. destruct salt as [|x salt]; [done|]. done.
Qed.

(** The file that a backup leaves: its entries and their manifest, sealed. *)
Lemma Backup_calm o e d d1 : calm d -> sound d -> good_env e -> Backup o e d = (Ok tt, d1) ->
  exists files m data, Forall2 (fun s f => text_at d s.1 = Some f.2 /\ s.2 = f.1) (collect o d).1 files
    /\ parse m ≫= manifest_checksum = Some (checksum files.*2) /\ data <> ""
    /\ (forall d2, is_encrypted (backup_path o e) = negb (String.eqb (Password o) "") ->
         opened (backup_path o e) (Password o) data d2 = (Ok (pack (files ++ [(manifest_name, m)])), d2))
    /\ text_at d1 (backup_path o e) = Some data.
Proof.
  intros Hc Hs He E. unfold Backup in E. destruct (ComplianceEnabled o && String.eqb (Password o) ""); [done|].
  erewrite then_ok in E; [|apply context_ok; unfold MkdirAll; by rewrite sys_calm].
  unfold mbind, D_bind in E. pose proof (collect_calm o d Hc) as El. destruct (collect o d) as [l d0]. cbn [fst snd] in *. subst d0.
  destruct (readable l d) as [contents d0] eqn:Er. unfold then_ at 1, mbind, D_bind in E.
  assert (Hd0 : d0 = d).
  { clear E. revert contents d0 Er. induction l as [|[src name] l IH]; intros contents d0 Er; [by injection Er|]. cbn [readable] in Er.
    unfold mbind, D_bind in Er. rewrite (ReadFile_text d src Hc) in Er. destruct (readable l d) as [rest d3]. injection Er as _ <-. by eapply IH. }
  subst d0. destruct (addToTar l d) as [[files|x] d2] eqn:Ef; [|done]. apply addToTar_calm in Ef as (-> & E1 & E2 & E3); [|done].
  rewrite E2 in Er. injection Er as <-. unfold then_ at 1, mbind, D_bind in E.
  set (m := render (manifest_json (manifest o e l files.*2))) in *.
  destruct (sealed e (Password o) _ d) as [[data|x] d2] eqn:Esd; [|done].
  assert (d2 = d) as -> by (unfold sealed in Esd; repeat case_match; by injection Esd).
  exists files, m, data. split; [done|]. split; [unfold m; by rewrite manifest_checksum_json by apply checksum_valid|].
  split; [by eapply sealed_not_empty; [|apply pack_not_empty|exact Esd]|]. split; [intros d2 Hp; by eapply opened_sealed|].
  unfold in_context, mbind, D_bind in E. destruct (WriteFile_calm (backup_path o e) data d Hc Hs) as (d2 & E4 & _ & Ht).
  rewrite E4 in E. by injection E as <-.
Qed.

Lemma strlen_nonempty s : s <> "" -> strlen s <> 0.
Proof. unfold strlen. by destruct s. Qed.

Lemma total_nonneg l : 0 <= total l.
Proof. induction l as [|x l IH]; [done|]. change (total (x :: l)) with (strlen x + total l). unfold strlen. lia. Qed.

Lemma total_zero l : total l = 0 -> String.concat "" l = "".
Proof.
  induction l as [|x l IH]; [done|]. change (total (x :: l)) with (strlen x + total l). pose proof (total_nonneg l) as Hn. intros Hz.
  destruct x as [|c x]; [|unfold strlen in Hz; cbn in Hz; lia]. cbn. destruct l; [done|]. apply IH. by unfold strlen in Hz.
Qed.

(** The texts of the files are those of a disk that has the archive. *)
Lemma VerifyBackup_calm path password data files m d : calm d -> well_named path password -> text_at d path = Some data -> data <> "" ->
  Forall entry_fits files -> parse m ≫= manifest_checksum = Some (checksum files.*2) ->
  (forall d2, opened path password data d2 = (Ok (pack (files ++ [(manifest_name, m)])), d2)) ->
  VerifyBackup path password d = (Ok tt, d).
Proof.
  intros Hc (_ & Ht) Htx Hne Hf Hm Ho. assert (Hmn : file_name manifest_name = true) by reflexivity. pose proof (ReadFile_calm d path data Hc Htx) as Er. unfold text_at in Htx.
  destruct (file_at d path) as [f|] eqn:Ef; [|done]. cbn in Htx. unfold VerifyBackup.
  erewrite then_ok; [|apply context_ok; unfold Stat; rewrite sys_calm, Ef by done; reflexivity].
  assert (Hsz : negb (size_of (i_data f) =? 0) = true).
  { destruct (i_data f) as [l|l]; [|done]. injection Htx as <-. apply negb_true_iff, Z.eqb_neq. intros Hz. by apply Hne, total_zero. }
  rewrite Hsz. erewrite then_ok; [|done]. erewrite then_ok; [|apply context_ok; exact Er]. unfold verify_data. rewrite Ht.
  erewrite then_ok; [|apply context_ok, Ho].
  erewrite then_ok; [|unfold lift; rewrite unpack_pack; [reflexivity|]].
  - cbv beta iota. erewrite then_ok; [|apply context_ok; unfold TempFile; by rewrite sys_calm].
    erewrite then_ok; [|by apply verify_entries_ok]. cbv beta iota. erewrite then_ok; [|done]. erewrite then_ok; [|done]. cbn [app]. unfold check. by rewrite String.eqb_refl, orb_true_r.
  - rewrite forallb_app. cbn [forallb fst]. rewrite Hmn, andb_true_r. apply forallb_forall. intros x Hx%list_elem_of_In.
    pose proof (proj1 (Forall_forall _ _) Hf x Hx) as (Hn & _). unfold entry_name in Hn. by apply andb_prop in Hn as [[Hn _]%andb_prop _].
Qed.

(** A backup of a file of more than 256 MiB does not pass its own verification: the
    manifest has the checksum of whole files. *)
Lemma big_file_rejected path files m d : calm d -> is_encrypted (Strings.TrimSuffix path ".tmp") = false -> Forall entry_checks files ->
  parse m ≫= manifest_checksum = Some (checksum files.*2) -> checksum (capped <$> files.*2) <> checksum files.*2 ->
  (verify_data path "" (pack (files ++ [(manifest_name, m)])) d).1 = Err "verify: checksum mismatch".
Proof.
  intros Hc Hp Hf Hm Hne. unfold verify_data, opened. rewrite Hp. erewrite then_ok; [|by apply context_ok].
  erewrite then_ok; [|unfold lift; rewrite unpack_pack; [reflexivity|]].
  - cbv beta iota. erewrite then_ok; [|apply context_ok; unfold TempFile; by rewrite sys_calm].
    erewrite then_ok; [|by apply verify_entries_run]. cbv beta iota. erewrite then_ok; [|done]. erewrite then_ok; [|done]. cbn [app]. unfold check.
    rewrite (proj2 (String.eqb_neq _ (checksum (capped <$> files.*2)))) by congruence. done.
  - rewrite forallb_app. cbn [forallb fst]. change (file_name manifest_name) with true. rewrite andb_true_r. apply forallb_forall.
    intros x Hx%list_elem_of_In. pose proof (proj1 (Forall_forall _ _) Hf x Hx) as (Hn & _). unfold entry_name in Hn.
    by apply andb_prop in Hn as [[Hn _]%andb_prop _].
Qed.

(** The destinations of entries. *)
Definition dests (configDir dataDir : string) (files : list (string * string)) : list string :=
  omap (fun f => extract_dest configDir dataDir f.1) files.

Lemma extractEntry_calm configDir dataDir name c d : calm d -> sound d -> apart d -> exists d',
  extractEntry configDir dataDir name c d = (Ok tt, d') /\ calm d' /\ sound d' /\ apart d'
  /\ (forall q, extract_dest configDir dataDir name <> Some q -> file_at d' q = file_at d q)
  /\ (forall q, extract_dest configDir dataDir name = Some q -> text_at d' q = Some (capped c)).
Proof.
  intros Hc Hs Ha. unfold extractEntry. destruct (extract_dest configDir dataDir name) as [dest|]; [|by exists d].
  destruct (overwrite_calm dest (capped c) ("chmod " ++ dest) d Hc Hs) as (d' & E & Hc' & Ht). exists d'.
  pose proof (keeps_overwrite dest (capped c) ("chmod " ++ dest) d Hs Ha) as (Hs' & Ha' & Ho). rewrite E in Hs', Ha', Ho. cbn [snd] in *.
  erewrite then_ok; [|unfold MkdirAll; by rewrite sys_calm]. split; [exact E|]. split; [done|]. split; [done|]. split; [done|]. split.
  - intros q Hq. apply Ho. congruence.
  - by intros q [= <-].
Qed.

Lemma extract_entries_calm configDir dataDir files m : forall d, calm d -> sound d -> apart d -> Forall entry_fits files ->
  exists d', extract_entries configDir dataDir (files ++ [(manifest_name, m)]) d = (Ok tt, d') /\ calm d'
    /\ (forall q, q ∉ dests configDir dataDir files -> file_at d' q = file_at d q)
    /\ (NoDup (dests configDir dataDir files) -> forall f q, f ∈ files -> extract_dest configDir dataDir f.1 = Some q -> text_at d' q = Some f.2).
Proof.
  induction files as [|[name c] files IH]; intros d Hc Hs Ha Hf.
  - exists d. cbn [app extract_entries]. rewrite String.eqb_refl. split; [done|]. split; [done|]. split; [done|]. by intros _ f q Hin%elem_of_nil.
  - apply Forall_cons in Hf as [(Hn & Hl & _) Hf]. cbn [fst snd] in *.
    destruct (extractEntry_calm configDir dataDir name c d Hc Hs Ha) as (d1 & E1 & Hc1 & Hs1 & Ha1 & Ho1 & Ht1).
    destruct (IH d1 Hc1 Hs1 Ha1 Hf) as (d2 & E2 & Hc2 & Ho2 & Ht2). exists d2. cbn [app extract_entries].
    assert (Hm : String.eqb name manifest_name = false) by (unfold entry_name in Hn; apply andb_prop in Hn as [_ Hn]; by apply negb_true_iff in Hn).
    rewrite Hm. erewrite then_ok; [|by apply context_ok]. split; [done|]. split; [done|]. rewrite (capped_fits c Hl) in Ht1. unfold dests in *. cbn [omap list_omap fst]. split.
    + intros q Hq. rewrite Ho2; [apply Ho1|]; intros E; apply Hq; [rewrite E; by left|]. destruct (extract_dest configDir dataDir name); [by right|done].
    + intros Hnd f q [->|Hin]%elem_of_cons Eq; cbn [fst snd] in *.
      * rewrite Eq in Hnd. apply NoDup_cons in Hnd as [Hq _]. unfold text_at. rewrite Ho2 by exact Hq. by apply Ht1.
      * apply Ht2; [|done..]. destruct (extract_dest configDir dataDir name); [by apply NoDup_cons in Hnd as [_ Hnd]|done].
Qed.

(** What was collected is restored, each entry at its place. *)
Lemma collected_restored (o : BackupOptions) (e : BackupEnv) (d d1 d2 : Disk) (configDir dataDir : string) :
  calm d -> sound d -> good_env e -> well_named (backup_path o e) (Password o) -> Backup o e d = (Ok tt, d1) ->
  (forall s, s ∈ (collect o d).1 -> forall c, text_at d s.1 = Some c -> entry_fits (s.2, c)) ->
  NoDup (omap (fun s => extract_dest configDir dataDir s.2) (collect o d).1) ->
  calm d2 -> sound d2 -> apart d2 -> file_at d2 (backup_path o e) = file_at d1 (backup_path o e) ->
  exists d3, Restore (backup_path o e) configDir dataDir (Password o) d2 = (Ok tt, d3)
    /\ forall s q, s ∈ (collect o d).1 -> extract_dest configDir dataDir s.2 = Some q -> text_at d3 q = text_at d s.1.
Proof.
  intros Hc Hs He Hw E Hfit Hnd Hc2 Hs2 Ha2 Ep.
  destruct (Backup_calm o e d d1 Hc Hs He E) as (files & m & data & Hfiles & Hm & Hne & Ho & Ht).
  specialize (fun d2 => Ho d2 (proj1 Hw)). assert (Ht2 : text_at d2 (backup_path o e) = Some data) by (unfold text_at in *; by rewrite Ep).
  assert (Hf : Forall entry_fits files).
  { clear -Hfiles Hfit. induction Hfiles as [|[src name] [n c] l files [Hx Hy] Hl IH]; [done|]. cbn in Hx, Hy. subst n. constructor.
    - by apply (Hfit (src, name)); [left|]. - apply IH. intros s Hin. apply Hfit. by right. }
  assert (Hd : dests configDir dataDir files = omap (fun s => extract_dest configDir dataDir s.2) (collect o d).1).
  { clear -Hfiles. unfold dests. induction Hfiles as [|[src name] [n c] l files [_ Hy] Hl IH]; [done|]. cbn in *. subst n. by rewrite IH. }
  destruct (extract_entries_calm configDir dataDir files m d2 Hc2 Hs2 Ha2 Hf) as (d3 & E3 & _ & _ & Hres). exists d3. split.
  - unfold Restore. erewrite then_ok; [|apply context_ok; by eapply VerifyBackup_calm].
    erewrite then_ok; [|apply context_ok; by apply ReadFile_calm]. erewrite then_ok; [|apply Ho].
    erewrite then_ok; [|unfold lift; rewrite unpack_pack; [reflexivity|]].
    + cbv beta iota. by erewrite then_ok; [|exact E3].
    + rewrite forallb_app. cbn [forallb fst]. change (file_name manifest_name) with true. rewrite andb_true_r. apply forallb_forall. intros x Hx%list_elem_of_In.
      pose proof (proj1 (Forall_forall _ _) Hf x Hx) as (Hn & _). unfold entry_name in Hn. by apply andb_prop in Hn as [[Hn _]%andb_prop _].
  - intros s q Hin Eq. rewrite Hd in Hres. apply list_elem_of_lookup in Hin as [i Hi].
    apply (Forall2_lookup_l _ _ _ _ _ Hfiles) in Hi as (f & Hf' & Hx & Hy). rewrite Hx, Hy in *. apply (Hres Hnd f q); [by eapply list_elem_of_lookup_2|done].
Qed.
End round_trip.

(** ** Witnesses *)

#[export] Instance code_archives : Archives := {|
  pack := fun l => bits (countable.encode (l, tt)) ++ "1";
  unpack := fun s => (fun p : list (string * string) * () => (p.1, true)) <$> countable.decode (of_bits (Strings.take (String.length s - 1) s));
|}.
#[export] Instance code_archives_laws : ArchiveLaws.
Proof.
  constructor; unfold pack, unpack, code_archives.
  - intros l _. rewrite string_app_length. replace (_ + _ - 1)%nat with (String.length (bits (countable.encode (l, ())))) by (cbn; lia).
    by rewrite take_app, of_bits_bits, countable.decode_encode.
  - intros l E. apply (f_equal String.length) in E. rewrite string_app_length in E. cbn in E. lia.
Qed.
#[export] Instance no_kdf : Kdf := {| argon2Key := fun _ _ => [] |}.
#[export] Instance no_gzip : Gzip := {| gz_size := fun _ => 1 |}.

Definition small_site : Disk :=
  {| names := {["/c/server.yml" := 0%nat; "/c/theme/a.css" := 1%nat]};
     inodes := [{| i_data := Plain ["mode: production"]; i_mtime := 0 |}; {| i_data := Plain ["x"] ; i_mtime := 0 |}];
     d_clock := 0; d_ticks := []; d_faults := [] |}.
Definition zero_env : BackupEnv :=
  {| be_salt := Ok (replicate 16 0); be_nonce := Ok (replicate 12 0); be_hostname := "h"; be_stamp := "2025-01-01_000000"; be_created := "2025" |}.
Definition site_backup : BackupOptions :=
  {| ConfigDir := "/c"; DataDir := "/d"; BackupDir := "/b"; AppVersion := "1"; Password := ""; b_Filename := ""; ComplianceEnabled := false |}.
Definition backed_up : Disk := (Backup site_backup zero_env small_site).2.

Definition sound_bool (d : Disk) : bool := forallb (fun p => Nat.ltb p.2 (length (inodes d))) (map_to_list (names d)).
Lemma sound_bool_sound d : sound_bool d = true -> sound d.
Proof.
  unfold sound_bool. rewrite forallb_forall. intros Hd q i Hq. apply Nat.ltb_lt, (Hd (q, i)), list_elem_of_In. by apply elem_of_map_to_list.
Qed.
Definition apart_bool (d : Disk) : bool := bool_decide (NoDup (map_to_list (names d)).*2).
Lemma apart_bool_apart d : apart_bool d = true -> apart d.
Proof.
  intros Hn%bool_decide_eq_true p q i Hp%elem_of_map_to_list Hq%elem_of_map_to_list.
  apply list_elem_of_lookup in Hp as [j Hj], Hq as [k Hk].
  assert (j = k) as ->; [|congruence]. eapply NoDup_lookup; [exact Hn| |]; rewrite list_lookup_fmap; [by rewrite Hj|by rewrite Hk].
Qed.

Theorem restore_contained_witness :
  sound small_site /\ apart small_site
  /\ (let '(r, d') := Restore "/c/theme/a.css" "/c" "/d" "" small_site in
      (forall q, ~ restorable "/c" "/d" q -> file_at d' q = file_at small_site q)
      /\ (is_ok (VerifyBackup "/c/theme/a.css" "" small_site).1 = false -> is_ok r = false /\ forall q, file_at d' q = file_at small_site q)).
Proof.
  assert (Hs : sound small_site) by (apply sound_bool_sound; vm_compute; reflexivity).
  assert (Ha : apart small_site) by (apply apart_bool_apart; vm_compute; reflexivity). split; [exact Hs|]. split; [exact Ha|].
  pose proof (restore_contained "/c/theme/a.css" "/c" "/d" "" small_site eq_refl Hs Ha) as P. exact P.
Defined.
