(* ===== verification/AuditLog.v ===== *)
(** * The audit log (src/src/audit/audit.go, ulid.go)

    One JSON object per line, appended to one file. An entry whose details are a
    Go map is a list of keys and values, rendered in the order of the keys as
    encoding/json does. The identifier of an entry is a ULID: the milliseconds and
    random bytes in Crockford's base 32. *)

From S2P Require Import Prelude GoStr GoTime Http FileSys ConfigStore Backup.
From Stdlib Require Import Ascii.

(** ** Identifiers *)

Definition crockford : string := "0123456789ABCDEFGHJKMNPQRSTVWXYZ".

Definition UnixMilli (t : Z) : Z := t / 1000000 - unix_epoch * 1000.

(** The six low bytes, the most significant first. *)
Definition ms_bytes (ms : Z) : list Z := (fun k => Z.land (Z.shiftr ms k) 255) <$> [40; 32; 24; 16; 8; 0].

(** Bit [b] of character [i], of the 130 bits that begin with two zeros. *)
Definition bit_at (id : list Z) (i b : nat) : Z :=
  let dataPos := Z.of_nat i * 5 + Z.of_nat b - 2 in
  if 0 <=? dataPos then Z.land (Z.shiftr (nth (Z.to_nat (dataPos / 8)) id 0) (7 - dataPos mod 8)) 1 else 0.
Definition group (id : list Z) (i : nat) : Z := foldl (fun v b => Z.lor (Z.shiftl v 1) (bit_at id i b)) 0 [0; 1; 2; 3; 4]%nat.

Definition crockford_char (v : Z) : ascii := match String.get (Z.to_nat v) crockford with Some c => c | None => "000"%char end.
Definition encodeCrockford (id : list Z) : string := String.string_of_list_ascii ((fun i => crockford_char (group id i)) <$> seq 0 26).

(** [rand] is what the random source gives for ten bytes. *)
Definition newULID (t : Z) (rand : result (list Z)) : result string :=
  match rand with Ok r => Ok (encodeCrockford (ms_bytes (wrapu64 (UnixMilli t)) ++ r)) | Err e => Err e end.

(** ** Entries *)

Definition SeverityInfo : string := "info".
Definition SeverityWarn : string := "warn".
Definition SeverityError : string := "error".
Definition SeverityCritical : string := "critical".
Definition ResultSuccess : string := "success".
Definition ResultFailure : string := "failure".

Record Actor := { a_IP : string; a_UserAgent : string }.
Record Target := { t_Type : string; t_ID : string }.

Record Entry := {
  en_ID : string; en_Time : string; en_Event : string; en_Category : string; en_Severity : string; en_Actor : Actor;
  en_Target : option Target; en_Details : list (string * json); en_Result : string; en_Reason : string;
}.

Record EventCategories := { Configuration : bool; Security : bool; Backups : bool; Server : bool }.

Record AuditConfig := { au_Enabled : bool; au_Dir : string; au_Filename : string; IncludeUserAgent : bool; MaskEmails : bool; Events : EventCategories }.

(** [nil], or a writer with its configuration. *)
Definition Writer : Type := option AuditConfig.

Definition New (cfg : AuditConfig) : Writer :=
  Some {| au_Enabled := au_Enabled cfg; au_Dir := au_Dir cfg; au_Filename := if String.eqb (au_Filename cfg) "" then "audit.log" else au_Filename cfg;
          IncludeUserAgent := IncludeUserAgent cfg; MaskEmails := MaskEmails cfg; Events := Events cfg |}.

Definition Enabled (w : Writer) : bool := match w with Some c => au_Enabled c && negb (String.eqb (au_Dir c) "") | None => false end.

Definition categoryEnabled (e : EventCategories) (category : string) : bool :=
  if String.eqb category "config" then Configuration e
  else if String.eqb category "security" then Security e
  else if String.eqb category "backup" then Backups e
  else if String.eqb category "server" || String.eqb category "scheduler" then Server e
  else true.

(** ** Masking addresses *)

Definition separator (c : ascii) : bool := Strings.in_set (" " ++ String "009" (",;<>" ++ String "034" "")) c.

(** [strings.FieldsFunc], for bytes that separate. *)
Fixpoint fields_by (sep : ascii -> bool) (cur s : string) : list string :=
  let flush := if String.eqb cur "" then [] else [cur] in
  match s with
  | "" => flush
  | String c r => if sep c then flush ++ fields_by sep "" r else fields_by sep (cur ++ String c "") r
  end%list.

(** [strings.Replace(s, old, new, 1)] of a text that is not empty. *)
Definition replace_first (s old new : string) : string :=
  match String.index 0 old s with
  | Some i => Strings.take i s ++ new ++ Strings.drop (i + String.length old) s
  | None => s
  end.

(** The token with its local part masked, if it looks like an address. *)
Definition masked (tok : string) : option string :=
  match Strings.IndexByte tok "@" with
  | Some (S n) =>
      let domain := Strings.drop (S (S n)) tok in
      if String.eqb domain "" || negb (Strings.Contains domain ".") then None
      else if Nat.eqb (S n) 1 then Some ("*@" ++ domain) else Some (Strings.take 1 tok ++ "***@" ++ domain)
  | _ => None
  end.

Definition maskEmails (s : string) : string :=
  if String.eqb s "" || negb (Strings.Contains s "@") then s
  else foldl (fun s tok => match masked tok with Some m => replace_first s tok m | None => s end) s (fields_by separator "" s).

(** ** Writing *)

Definition key_le (a b : string * json) : Prop := str_le a.1 b.1.
#[export] Instance key_le_dec a b : Decision (key_le a b).
Proof. unfold key_le. apply _. Defined.

Definition entry_json (e : Entry) : json :=
  JObj ([("id", JStr (en_ID e)); ("time", JStr (en_Time e)); ("event", JStr (en_Event e)); ("category", JStr (en_Category e)); ("severity", JStr (en_Severity e));
         ("actor", JObj (("ip", JStr (a_IP (en_Actor e))) :: omitempty "user_agent" (a_UserAgent (en_Actor e))))]
        ++ (match en_Target e with Some t => [("target", JObj [("type", JStr (t_Type t)); ("id", JStr (t_ID t))])] | None => [] end)
        ++ (match en_Details e with [] => [] | l => [("details", JObj (merge_sort key_le l))] end)
        ++ [("result", JStr (en_Result e))] ++ omitempty "reason" (en_Reason e))%list.

Definition or_default (s d : string) : string := if String.eqb s "" then d else s.

Definition mask_details (l : list (string * json)) : list (string * json) :=
  (fun kv => (kv.1, match kv.2 with JStr s => JStr (maskEmails s) | j => j end)) <$> l.

(** [2006-01-02T15:04:05.000Z07:00] of a time in UTC. *)
Definition stamp_ms (t : Z) : string := FormatDate UTC t ++ "T" ++ FormatClock UTC t ++ "." ++ Strconv.pad 3 (t mod Second / 1000000) ++ "Z".

Definition category_of (e : Entry) : string :=
  if String.eqb (en_Category e) "" then
    match Strings.IndexByte (en_Event e) "." with Some (S n) => Strings.take (S n) (en_Event e) | _ => "" end
  else en_Category e.

(** An entry with its defaults at a time. *)
Definition completed (c : AuditConfig) (t : Z) (rand : result (list Z)) (e : Entry) : Entry :=
  let agent := if IncludeUserAgent c then a_UserAgent (en_Actor e) else "" in
  {| en_ID := or_default (en_ID e) (match newULID t rand with Ok id => "audit_" ++ id | Err _ => "" end);
     en_Time := or_default (en_Time e) (stamp_ms t); en_Event := en_Event e; en_Category := category_of e;
     en_Severity := or_default (en_Severity e) SeverityInfo;
     en_Actor := {| a_IP := a_IP (en_Actor e); a_UserAgent := if MaskEmails c then maskEmails agent else agent |};
     en_Target := en_Target e;
     en_Details := if MaskEmails c then mask_details (en_Details e) else en_Details e;
     en_Result := or_default (en_Result e) ResultSuccess;
     en_Reason := if MaskEmails c then maskEmails (en_Reason e) else en_Reason e |}.

Section writing.
Context `{JsonText}.

Definition line_of (e : Entry) : string := render (entry_json e) ++ newline.
Definition audit_path (c : AuditConfig) : string := FJoin [au_Dir c; au_Filename c].

(** The random source is read when there is no identifier yet. *)
Definition Log (w : Writer) (rand : result (list Z)) (e : Entry) : D unit :=
  match w with
  | Some c =>
      if Enabled w && categoryEnabled (Events c) (category_of e) then
        t ← now;
        f ← OpenAppend (audit_path c);
        match f with
        | Err _ => mret tt
        | Ok i => _ ← WriteString i (line_of (completed c t rand e)); _ ← Close; mret tt
        end
      else mret tt
  | None => mret tt
  end.
End writing.
