(* ===== verification/Retention.v ===== *)
(** * Scheduled backups and their retention (src/src/task/task.go, backup_guard.go)

    The daily and hourly backup tasks with their checks before, the rolling
    snapshots, and what is pruned afterwards. A task returns its result and the
    events it records and mails. *)

From S2P Require Import Prelude GoStr GoTime Http ConfigText FileSys ConfigStore Backup AuditLog.
From Stdlib Require Import Ascii.

(** ** Settings *)

Record BackupRetention := { MaxBackups : Z; KeepWeekly : Z; KeepMonthly : Z; KeepYearly : Z; MaxTotalSize : string }.

(** A mailer is absent, or enabled or not; the audit writer is absent or not. *)
Record BackupConfig := {
  bc_project : string; bc_ConfigDir : string; bc_DataDir : string; bc_dir : string; bc_version : string; bc_Password : string;
  Compliance : bool; OperatorEmail : string; bc_Mailer : option bool; SendOnComplete : bool; SendOnFailed : bool; Retention : BackupRetention;
  DiskThreshold : Z; bc_Audit : bool;
}.

(** What a task tells the audit log and the operator. *)
Inductive event := Audited (e : Entry) | Mailed (to template : string) (vars : list (string * string)).

(** ** Audit events *)

Definition no_actor : Actor := {| a_IP := ""; a_UserAgent := "" |}.
Definition audit_entry (event severity result type id reason : string) (details : list (string * json)) : Entry :=
  {| en_ID := ""; en_Time := ""; en_Event := event; en_Category := ""; en_Severity := severity; en_Actor := no_actor;
     en_Target := Some {| t_Type := type; t_ID := id |}; en_Details := details; en_Result := result; en_Reason := reason |}.
Definition audited (cfg : BackupConfig) (e : Entry) : list event := if bc_Audit cfg then [Audited e] else [].

Definition defaultDiskThreshold : Z := 90.
Definition usedPercent (free total : Z) : Z := wrap64 (100 - wrap64 (wrapu64 (free * 100) / total)).

(** [stats] is what the file system says, if it can be asked. *)
Definition auditBackupSkipped (cfg : BackupConfig) (stats : option (Z * Z)) (reason : string) : list event :=
  let threshold := if DiskThreshold cfg <=? 0 then defaultDiskThreshold else DiskThreshold cfg in
  let usage := match stats with
               | Some (free, total) => ("free_bytes", JInt free) :: (if 0 <? total then [("disk_usage_percent", JInt (usedPercent free total))] else [])
               | None => []
               end in
  audited cfg (audit_entry "backup.skipped_disk_full" SeverityError ResultFailure "backup_dir" (bc_dir cfg) reason
    ([("reason", JStr reason); ("threshold", JInt threshold); ("backup_dir", JStr (bc_dir cfg)); ("project_name", JStr (bc_project cfg))] ++ usage)%list).
Definition auditBackupComplianceBlocked (cfg : BackupConfig) (reason : string) : list event :=
  audited cfg (audit_entry "backup.compliance_blocked" SeverityWarn ResultFailure "backup_dir" (bc_dir cfg) reason [("project_name", JStr (bc_project cfg))]).
Definition auditBackupCreated (cfg : BackupConfig) (filename : string) (sizeBytes : Z) (encrypted : bool) : list event :=
  audited cfg (audit_entry "backup.created" SeverityInfo ResultSuccess "backup_file" filename ""
    [("filename", JStr filename); ("size_bytes", JInt sizeBytes); ("encrypted", JBool encrypted); ("verification_status", JStr "passed")]).
Definition auditBackupFailed (cfg : BackupConfig) (filename errMsg : string) : list event :=
  audited cfg (audit_entry "backup.failed" SeverityError ResultFailure "backup_file" filename errMsg [("filename", JStr filename); ("error", JStr errMsg)]).
Definition auditBackupVerificationFailed (cfg : BackupConfig) (filename check : string) : list event :=
  audited cfg (audit_entry "backup.verification_failed" SeverityError ResultFailure "backup_file" filename check [("filename", JStr filename); ("check", JStr check)]).
Definition auditBackupDailyUpdated (cfg : BackupConfig) (filename : string) : list event :=
  audited cfg (audit_entry "backup.daily_updated" SeverityInfo ResultSuccess "backup_file" filename "" [("filename", JStr filename)]).
Definition auditBackupRetentionCleanup (cfg : BackupConfig) (deleted : list string) (reason : string) (remaining : Z) : list event :=
  match deleted with
  | [] => []
  | _ => audited cfg (audit_entry "backup.retention_cleanup" SeverityInfo ResultSuccess "backup_dir" (bc_dir cfg) reason
           [("deleted_files", JArr (JStr <$> deleted)); ("remaining", JInt remaining)])
  end.

(** *** Mails *)

Definition can_mail (cfg : BackupConfig) : bool := bool_decide (bc_Mailer cfg = Some true) && negb (String.eqb (OperatorEmail cfg) "").
Definition backupSendComplete (cfg : BackupConfig) (filename size : string) : list event :=
  if SendOnComplete cfg && can_mail cfg then [Mailed (OperatorEmail cfg) "backup_complete" [("filename", filename); ("size", size)]] else [].
Definition backupSendFailed (cfg : BackupConfig) (filename errMsg : string) : list event :=
  if SendOnFailed cfg && can_mail cfg then [Mailed (OperatorEmail cfg) "backup_failed" [("filename", filename); ("size", ""); ("error", errMsg)]] else [].

(** ** Names and dates *)

Definition all_digits (s : string) : bool := Strings.forall_byte (fun c => is_some (Strconv.digit c)) s.

(** Ten characters: four digits, two and two, with dashes. *)
Definition date_shape (s : string) : bool :=
  match Strings.Split s "-" with
  | [y; m; d] => Nat.eqb (String.length y) 4 && Nat.eqb (String.length m) 2 && Nat.eqb (String.length d) 2
                 && all_digits y && all_digits m && all_digits d
  | _ => false
  end.

(** The date of [_backup_YYYY-MM-DD.tar.gz], with or without [.enc]. *)
Definition backupFileRE (name : string) : option string :=
  let n := Strings.TrimSuffix name ".enc" in
  let m := Strings.TrimSuffix n ".tar.gz" in
  let date := Strings.drop (String.length m - 10) m in
  if Strings.HasSuffix n ".tar.gz" && date_shape date && Strings.HasSuffix (Strings.take (String.length m - 10) m) "_backup_" then Some date
  else None.

Definition month_days (y m : Z) : Z := month_start (is_leap y) (m + 1) - month_start (is_leap y) m.

(** [time.Parse("2006-01-02", s)] as a number of days, of a text of that shape. *)
Definition parse_date (s : string) : option Z :=
  match (fun p => (Strconv.Atoi p).1) <$> Strings.Split s "-" with
  | [y; m; d] => if (1 <=? m) && (m <=? 12) && (1 <=? d) && (d <=? month_days y m) then Some (day_number y m d) else None
  | _ => None
  end.

(** ** The backup directory *)

Definition in_dir (dir name : string) : string := FJoin [dir; name].
Definition listing (dir : string) (d : Disk) : list string :=
  keep (fun n => negb (Strings.in_set n "/")) ((fun p => Strings.TrimPrefix p (dir ++ "/")) <$> with_prefix (dir ++ "/") d).
Definition ReadDir (dir : string) : D (result (list string)) := sys (fun d => (Ok (listing dir d), d)).

(** The names of dated backups with their dates. *)
Definition dated (project : string) (names : list string) : list (string * string) :=
  omap (fun n => if Strings.HasPrefix n (project ++ "_backup_") then (n,.) <$> backupFileRE n else None) names.

Section tasks.
Context `{Gzip}.

(** The size of each file that can be examined. *)
Fixpoint with_sizes (dir : string) (l : list (string * string)) : D (list (string * string * Z)) :=
  match l with
  | [] => mret []
  | (n, date) :: l =>
      st ← Stat (in_dir dir n);
      rest ← with_sizes dir l;
      mret (match st with Ok f => (n, date, size_of (i_data f)) :: rest | Err _ => rest end)
  end.

(** The last of the files with the newest date; examined only when no older. *)
Fixpoint newest_size (dir : string) (date : string) (size : Z) (l : list (string * string)) : D Z :=
  match l with
  | [] => mret size
  | (n, e) :: l =>
      if negb (String.leb date e) then newest_size dir date size l
      else
        st ← Stat (in_dir dir n);
        match st with Ok f => newest_size dir e (size_of (i_data f)) l | Err _ => newest_size dir date size l end
  end.

Definition latestBackupSize (dir project : string) : D Z :=
  names ← ReadDir dir;
  match names with Err _ => mret 0 | Ok names => newest_size dir "" 0 (dated project names) end.

(** ** Before a backup *)

Definition shouldSkipBackup (freeBytes totalBytes lastBackupBytes thresholdPercent : Z) : option string :=
  let threshold := if thresholdPercent <=? 0 then defaultDiskThreshold else thresholdPercent in
  if (0 <? lastBackupBytes) && (freeBytes <? wrapu64 (2 * lastBackupBytes)) then Some "free space is less than 2x the last backup"
  else if 0 <? totalBytes then
    if threshold <? usedPercent freeBytes totalBytes then Some "disk usage exceeds threshold" else None
  else None.

Definition diskPreCheck (stats : option (Z * Z)) (cfg : BackupConfig) : D (option string) :=
  match stats with
  | None => mret None
  | Some (free, total) =>
      last ← latestBackupSize (bc_dir cfg) (bc_project cfg);
      mret (shouldSkipBackup free total last (DiskThreshold cfg))
  end.

Definition compliancePreCheck (cfg : BackupConfig) : option string :=
  if Compliance cfg && String.eqb (bc_Password cfg) "" then Some "compliance mode requires an encryption password; scheduled backup skipped" else None.

(** ** Retention *)

Inductive tier := Yearly | Monthly | Weekly | Daily.
#[export] Instance tier_eq : EqDecision tier.
Proof. solve_decision. Defined.

Definition classify (ret : BackupRetention) (day : Z) : tier :=
  let c := civil day in
  if (c_month c =? 1) && (c_day c =? 1) && (0 <? KeepYearly ret) then Yearly
  else if (c_day c =? 1) && (0 <? KeepMonthly ret) then Monthly
  else if (weekday day =? 0) && (0 <? KeepWeekly ret) then Weekly
  else Daily.

Definition tier_limit (ret : BackupRetention) (t : tier) : Z :=
  match t with Yearly => KeepYearly ret | Monthly => KeepMonthly ret | Weekly => KeepWeekly ret | Daily => MaxBackups ret end.

(** Newest first. *)
Definition later (a b : string * Z) : Prop := snd b <= snd a.
#[export] Instance later_dec a b : Decision (later a b).
Proof. unfold later. apply _. Defined.

(** The files to keep and to remove: [seen] counts the files of each tier. *)
Fixpoint sort_tiers (ret : BackupRetention) (seen : tier -> Z) (l : list (string * Z)) : list string * list string :=
  match l with
  | [] => ([], [])
  | (n, day) :: l =>
      let t := classify ret day in
      let count := seen t + 1 in
      let '(kept, gone) := sort_tiers ret (fun t' => if decide (t' = t) then count else seen t') l in
      if count <=? tier_limit ret t then (n :: kept, gone) else (kept, n :: gone)
  end.

(** Remove files; those that could be. *)
Fixpoint remove_all (dir : string) (l : list string) : D (list string) :=
  match l with
  | [] => mret []
  | n :: l =>
      r ← Remove (in_dir dir n);
      rest ← remove_all dir l;
      mret (if is_ok r then n :: rest else rest)
  end.

(** Oldest first, by the text of the date. *)
Definition older (a b : string * string * Z) : Prop := str_le a.1.2 b.1.2.
#[export] Instance older_dec a b : Decision (older a b).
Proof. unfold older. apply _. Defined.

(** Remove the oldest files but one while there are too many bytes. *)
Fixpoint shrink (dir : string) (cap total : Z) (l : list (string * string * Z)) : D (list string) :=
  match l with
  | [] | [_] => mret []
  | (n, _, size) :: l =>
      if cap <? total then
        r ← Remove (in_dir dir n);
        if is_ok r then rest ← shrink dir cap (total - size) l; mret (n :: rest) else shrink dir cap total l
      else mret []
  end.

Definition applySizeCap (dir project : string) (capBytes : Z) : D (list string) :=
  if capBytes <=? 0 then mret []
  else
    names ← ReadDir dir;
    match names with
    | Err _ => mret []
    | Ok names =>
        files ← with_sizes dir (dated project names);
        shrink dir capBytes (foldr (fun f n => f.2 + n) 0 files) (merge_sort older files)
    end.

(** The files with a valid date. *)
Definition valid_dates (l : list (string * string)) : list (string * Z) := omap (fun p => (p.1,.) <$> parse_date p.2) l.

(** The cap in bytes, none when it is not positive. *)
Definition applyRetention (cap : Z) (cfg : BackupConfig) : D (result (list event)) :=
  names <-? ReadDir (bc_dir cfg);
  let backups := merge_sort later (valid_dates (dated (bc_project cfg) names)) in
  deleted ← remove_all (bc_dir cfg) (sort_tiers (Retention cfg) (fun _ => 0) backups).2;
  more ← applySizeCap (bc_dir cfg) (bc_project cfg) cap;
  let deleted := (deleted ++ more)%list in
  mret (Ok (auditBackupRetentionCleanup cfg deleted "retention policy" (Z.of_nat (length backups) - Z.of_nat (length deleted)))).

(** Before the scheduler starts, with the limits as they are configured. *)
Definition RetentionSweep (dir_exists : result bool) (cap : Z) (cfg : BackupConfig) : D (result (list event)) :=
  match dir_exists with
  | Err e => mret (Err e)
  | Ok false => mret (Ok [])
  | Ok true => applyRetention cap cfg
  end.
End tasks.

(** *** The size cap *)

Class Percents `{Floats} := { float_over_100 : float -> bool; percent_of : float -> Z -> Z }.

Definition size_units : list (string * Z) :=
  [("tb", 2 ^ 40); ("gb", 2 ^ 30); ("mb", 2 ^ 20); ("kb", 2 ^ 10); ("t", 2 ^ 40); ("g", 2 ^ 30); ("m", 2 ^ 20); ("k", 2 ^ 10); ("b", 1)].

Section cap.
Context `{Unicode} `{Percents}.

Inductive cap := NoCap | Percent (p : float) | Bytes (n : Z).

Fixpoint cap_with_unit (v : string) (l : list (string * Z)) : result cap :=
  match l with
  | [] => match Strconv.ParseInt v with (n, None) => if n <=? 0 then Err "max_total_size: unrecognized value" else Ok (Bytes n)
                                   | _ => Err "max_total_size: unrecognized value" end
  | (suffix, mult) :: l =>
      if Strings.HasSuffix v suffix then
        match ParseFloat (StringsU.TrimSpace (Strings.TrimSuffix v suffix)) with
        | None => Err "max_total_size: invalid size"
        | Some n => if float_nonpos n then Err "max_total_size: size must be positive" else Ok (Bytes (float_bytes n mult))
        end
      else cap_with_unit v l
  end.

Definition parseMaxTotalSize (s : string) : result cap :=
  let v := StringsU.ToLower (StringsU.TrimSpace s) in
  if existsb (String.eqb v) [""; "0"; "false"; "no"; "none"; "disable"; "disabled"; "off"] then Ok NoCap
  else if Strings.HasSuffix v "%" then
    match ParseFloat (StringsU.TrimSpace (Strings.TrimSuffix v "%")) with
    | None => Err "max_total_size: invalid percent"
    | Some p => if float_nonpos p || float_over_100 p then Err "max_total_size: percent out of range" else Ok (Percent p)
    end
  else cap_with_unit v size_units.

(** A size that rounds down to nothing is treated as zero percent of the volume. *)
Definition resolveSizeCap (stats : option (Z * Z)) (setting : string) : Z :=
  match parseMaxTotalSize setting with
  | Err _ | Ok NoCap => 0
  | Ok (Bytes n) => if 0 <? n then n else 0
  | Ok (Percent p) =>
      match stats with
      | Some (_, total) => if total =? 0 then 0 else percent_of p total
      | None => 0
      end
  end.
End cap.

(** ** The tasks *)

Section running.
Context `{Unicode} `{JsonStream} `{Archives} `{AEAD} `{Kdf} `{Gzip}.

Definition options_of (cfg : BackupConfig) (name : string) : BackupOptions :=
  {| ConfigDir := bc_ConfigDir cfg; DataDir := bc_DataDir cfg; BackupDir := bc_dir cfg; AppVersion := bc_version cfg;
     Password := bc_Password cfg; b_Filename := name; ComplianceEnabled := Compliance cfg |}.

(** How a snapshot went. *)
Inductive snapshot := Replaced | NotCreated (e : string) | NotVerified (e : string) | NotRenamed (e : string).

(** Make a backup beside a rolling one, verify it, and put it in its place. *)
Definition roll (cfg : BackupConfig) (e : BackupEnv) (name : string) : D snapshot :=
  let path := in_dir (bc_dir cfg) name in
  let tmp := in_dir (bc_dir cfg) (name ++ ".tmp") in
  made ← Backup (options_of cfg (name ++ ".tmp")) e;
  match made with
  | Err x => _ ← Remove tmp; mret (NotCreated x)
  | Ok _ =>
      verified ← VerifyBackup tmp (bc_Password cfg);
      match verified with
      | Err x => _ ← Remove tmp; mret (NotVerified x)
      | Ok _ =>
          moved ← Rename tmp path;
          match moved with
          | Err x => _ ← Remove tmp; mret (NotRenamed x)
          | Ok _ => mret Replaced
          end
      end
  end.

Definition file_size (path : string) : D Z :=
  st ← Stat path; mret (match st with Ok f => size_of (i_data f) | Err _ => 0 end).

Definition BackupHourly (cfg : BackupConfig) (e : BackupEnv) : D (result unit * list event) :=
  dir ← MkdirAll;
  match dir with
  | Err x => mret (Err ("backup_hourly: mkdir: " ++ x), [])
  | Ok _ =>
      match compliancePreCheck cfg with
      | Some reason => mret (Ok tt, auditBackupComplianceBlocked cfg reason)
      | None =>
          let name := bc_project cfg ++ "-hourly" ++ extension (bc_Password cfg) in
          s ← roll cfg e name;
          match s with
          | NotCreated x => mret (Err ("backup_hourly: create archive: " ++ x), (backupSendFailed cfg name x ++ auditBackupFailed cfg name x)%list)
          | NotVerified x => mret (Err ("backup_hourly: verification failed: " ++ x), (backupSendFailed cfg name x ++ auditBackupVerificationFailed cfg name x)%list)
          | NotRenamed x => mret (Err ("backup_hourly: rename: " ++ x), (backupSendFailed cfg name x ++ auditBackupFailed cfg name x)%list)
          | Replaced => size ← file_size (in_dir (bc_dir cfg) name); mret (Ok tt, auditBackupCreated cfg name size (negb (String.eqb (bc_Password cfg) "")))
          end
      end
  end.

(** At least one daily backup is kept. *)
Definition clamped (cfg : BackupConfig) : BackupConfig :=
  let r := Retention cfg in
  {| bc_project := bc_project cfg; bc_ConfigDir := bc_ConfigDir cfg; bc_DataDir := bc_DataDir cfg; bc_dir := bc_dir cfg; bc_version := bc_version cfg;
     bc_Password := bc_Password cfg; Compliance := Compliance cfg; OperatorEmail := OperatorEmail cfg; bc_Mailer := bc_Mailer cfg;
     SendOnComplete := SendOnComplete cfg; SendOnFailed := SendOnFailed cfg;
     Retention := {| MaxBackups := if MaxBackups r <? 1 then 1 else MaxBackups r; KeepWeekly := KeepWeekly r; KeepMonthly := KeepMonthly r;
                     KeepYearly := KeepYearly r; MaxTotalSize := MaxTotalSize r |};
     DiskThreshold := DiskThreshold cfg; bc_Audit := bc_Audit cfg |}.

(** [today] is the date; [stats] and [stats'] are the answers of the file system to the
    check and to its report, [e] and [e'] the random bytes of the two archives. *)
Definition BackupDaily (cfg : BackupConfig) (today : string) (stats stats' : option (Z * Z)) (cap : Z) (e e' : BackupEnv) : D (result unit * list event) :=
  let cfg := clamped cfg in
  dir ← MkdirAll;
  match dir with
  | Err x => mret (Err ("backup_daily: mkdir: " ++ x), [])
  | Ok _ =>
      match compliancePreCheck cfg with
      | Some reason => mret (Ok tt, auditBackupComplianceBlocked cfg reason)
      | None =>
          skip ← diskPreCheck stats cfg;
          match skip with
          | Some reason => mret (Ok tt, auditBackupSkipped cfg stats' reason)
          | None =>
              let ext := extension (bc_Password cfg) in
              let full := bc_project cfg ++ "_backup_" ++ today ++ ext in
              let path := in_dir (bc_dir cfg) full in
              made ← Backup (options_of cfg full) e;
              match made with
              | Err x => _ ← Remove path; mret (Err ("backup_daily: create full backup: " ++ x), (backupSendFailed cfg full x ++ auditBackupFailed cfg full x)%list)
              | Ok _ =>
                  verified ← VerifyBackup path (bc_Password cfg);
                  match verified with
                  | Err x =>
                      _ ← Remove path;
                      mret (Err ("backup_daily: verification failed: " ++ x), (backupSendFailed cfg full x ++ auditBackupVerificationFailed cfg full x)%list)
                  | Ok _ =>
                      size ← file_size path;
                      let daily := bc_project cfg ++ "-daily" ++ ext in
                      s ← roll cfg e' daily;
                      cleaned ← applyRetention cap cfg;
                      mret (Ok tt, (backupSendComplete cfg full (Strconv.Itoa (Z.quot size 1024) ++ " KB")
                                    ++ auditBackupCreated cfg full size (negb (String.eqb (bc_Password cfg) ""))
                                    ++ (match s with Replaced => auditBackupDailyUpdated cfg daily | _ => [] end)
                                    ++ (match cleaned with Ok l => l | Err _ => [] end))%list)
                  end
              end
          end
      end
  end.
End running.
