(* ===== verification/RetentionProofs.v ===== *)
(** * Backups: when they are skipped, what stays, and what replaces what *)

From S2P Require Import Prelude RotateProofs AccessProofs GoStr GoStrProofs GoTime GoCrypto GoUrl Http Headers ConfigText FileSys ConfigStore Instances ConfigInstances ConfigStoreProofs Backup BackupProofs Retention.
From Stdlib Require Import Ascii.

(** ** The check before a backup *)

Lemma div_lt_iff a b c : 0 < b -> a / b < c <-> a < b * c.
Proof.
  intros Hb. split; intros H.
  - destruct (Z.lt_ge_cases a (b * c)) as [|Hge]; [done|]. pose proof (Z.div_le_lower_bound a b c Hb Hge). lia.
  - by apply Z.div_lt_upper_bound.
Qed.

(** The percentage that is tested is exact, though it is rounded. *)
Lemma used_percent free total t : 0 <= free <= total -> total * 100 < 2 ^ 64 -> 0 < total ->
  (t <? wrap64 (100 - wrap64 (wrapu64 (free * 100) / total))) = (free * 100 <? (100 - t) * total).
Proof.
  intros Hf Ht H3. unfold wrapu64. rewrite (Z.mod_small (free * 100)) by lia.
  assert (Hq : 0 <= free * 100 / total < 101) by (split; [apply Z.div_pos; lia | apply div_lt_iff; [done|]; nia]).
  pose proof (div_lt_iff (free * 100) total (100 - t) H3) as Hd. set (q := free * 100 / total) in *. clearbody q.
  rewrite (wrap64_id q), wrap64_id by (unfold in_int64, min_int64, max_int64; lia). rewrite (Z.mul_comm total) in Hd.
  apply eq_true_iff_eq. rewrite !Z.ltb_lt. rewrite <- Hd. lia.
Qed.

(** Below the sizes at which the arithmetic of bytes wraps around, a backup is
    skipped exactly when twice the last one does not fit, or when the disk is used to
    more than the threshold, to the byte. *)
Theorem skip_exact (free total last threshold : Z) :
  0 <= free <= total -> total * 100 < 2 ^ 64 -> 0 <= last < 2 ^ 63 ->
  let t := if threshold <=? 0 then 90 else threshold in
  is_some (shouldSkipBackup free total last threshold) = true
  <-> (0 < last /\ free < 2 * last) \/ (0 < total /\ free * 100 < (100 - t) * total).
Proof.
  intros Hf Ht Hl t. unfold shouldSkipBackup. unfold usedPercent. change defaultDiskThreshold with 90. fold t.
  rewrite <- !Z.ltb_lt, <- !andb_true_iff. unfold wrapu64 at 1. rewrite (Z.mod_small (2 * last)) by lia.
  destruct ((0 <? last) && (free <? 2 * last)); [by cbn; intuition|].
  destruct (Z.ltb_spec 0 total) as [H3|H3]; [|by cbn; intuition]. rewrite used_percent by done. cbn [andb].
  destruct (free * 100 <? (100 - t) * total); cbn; intuition done.
Qed.

(** ** Names in the backup directory *)

(** An absolute path in normal form. *)
Definition clean_dir (dir : string) : Prop := exists cs, cs <> [] /\ Forall component cs /\ dir = "/" ++ Strings.Join cs "/".

Lemma clean_step_component stack c : component c -> clean_step true stack c = c :: stack.
Proof.
  intros (H1 & H2 & H3 & _). unfold clean_step. apply String.eqb_neq in H1, H2, H3. by rewrite H1, H2, H3.
Qed.

Lemma foldl_components cs : forall stack, Forall component cs -> foldl (clean_step true) stack cs = (rev cs ++ stack)%list.
Proof.
  induction cs as [|c cs IH]; intros stack Hc; [done|]. apply Forall_cons in Hc as [H1 Hc]. cbn [foldl].
  rewrite clean_step_component, IH by done. cbn [rev]. by rewrite <- app_assoc.
Qed.

Lemma Clean_components cs : cs <> [] -> Forall component cs -> Clean ("/" ++ Strings.Join cs "/") = "/" ++ Strings.Join cs "/".
Proof.
  intros Hne Hc. assert (E : rev (foldl (clean_step true) [] (Strings.Split ("/" ++ Strings.Join cs "/") "/")) = cs).
  { change ("/" ++ Strings.Join cs "/") with ("" ++ String "/" (Strings.Join cs "/")). rewrite Split_cut, Split_components by done.
    cbn [Strings.Split app foldl]. change (clean_step true [] "") with (@nil string). rewrite foldl_components by done.
    by rewrite app_nil_r, rev_involutive. }
  unfold Clean. change (String.eqb ("/" ++ Strings.Join cs "/") "") with false. cbv iota. rewrite (HasPrefix_app "/"). cbv zeta. by rewrite E.
Qed.

Lemma Join_snoc cs c : cs <> [] -> Strings.Join (cs ++ [c]) "/" = Strings.Join cs "/" ++ "/" ++ c.
Proof.
  induction cs as [|x cs IH]; [done|]. intros _. destruct cs as [|y cs]; [done|]. cbn [app]. specialize (IH ltac:(done)). cbn [app] in IH.
  change (Strings.Join (x :: y :: cs ++ [c]) "/") with (x ++ "/" ++ Strings.Join (y :: cs ++ [c]) "/"). rewrite IH.
  change (Strings.Join (x :: y :: cs) "/") with (x ++ "/" ++ Strings.Join (y :: cs) "/"). by rewrite <- !string_app_assoc.
Qed.

Lemma in_dir_simple dir n : clean_dir dir -> component n -> in_dir dir n = dir ++ "/" ++ n.
Proof.
  intros (cs & Hne & Hc & ->) Hn. unfold in_dir, FJoin, keep. cbn [List.filter].
  change (String.eqb ("/" ++ Strings.Join cs "/") "") with false. pose proof (proj1 Hn) as H1.
  apply String.eqb_neq in H1. rewrite H1. cbn [negb Strings.Join].
  assert (E : ("/" ++ Strings.Join cs "/") ++ "/" ++ n = "/" ++ Strings.Join (cs ++ [n]) "/") by (rewrite Join_snoc by done; by rewrite <- !string_app_assoc).
  rewrite E. apply Clean_components; [by destruct cs|]. apply Forall_app. by rewrite Forall_singleton.
Qed.

Lemma app_inj_l a x y : a ++ x = a ++ y -> x = y.
Proof. induction a as [|c a IH]; [done|]. cbn. intros [= E]. by apply IH. Qed.

(** ** Rolling snapshots *)

(** Only the names in [ps] may lead elsewhere; no content changes. *)
Definition drops (ps : list string) (d d' : Disk) : Prop :=
  inodes d' = inodes d /\ forall p, p ∉ ps -> names d' !! p = names d !! p.
Lemma drops_file ps d d' p : drops ps d d' -> p ∉ ps -> file_at d' p = file_at d p.
Proof. intros [Hi Hn] Hp. unfold file_at. by rewrite Hi, Hn. Qed.

Lemma Remove_drops p d : drops [p] d (Remove p d).2.
Proof.
  unfold Remove, sys. destruct (hd false (d_faults d)); [done|]. change (names (set_faults _ d)) with (names d).
  destruct (names d !! p); [|done]. split; [done|]. intros q Hq. cbn [snd names set_names]. apply lookup_delete_ne. set_solver.
Qed.

Section rolling.
Context `{Unicode} `{JsonStream} `{Archives} `{AEAD} `{Kdf} `{Gzip}.

Lemma keeps_addFiles ok fs : forall l, keeps ok (addFiles fs l).
Proof. induction fs as [|[src name] fs IH]; intros l; cbn [addFiles]; [keeping|]. apply keeps_bind; [unfold addFile; keeping|done]. Qed.
Lemma keeps_collect ok o : keeps ok (collect o).
Proof.
  unfold collect, addFile. repeat (apply keeps_bind; [first [by keeping | intros d; apply keeps_addFiles]|intros ?]). intros d. apply keeps_addFiles.
Qed.
Lemma keeps_readable ok l : keeps ok (readable l).
Proof. induction l as [|[src name] l IH]; cbn [readable]; keeping. Qed.
Lemma keeps_addToTar ok l : keeps ok (addToTar l).
Proof. induction l as [|[src name] l IH]; cbn [addToTar]; keeping. Qed.

Lemma keeps_WriteFile path text : keeps (eq path) (WriteFile path text).
Proof.
  intros d. unfold WriteFile, then_ at 1, mbind, D_bind. destruct (OpenTrunc_only path d) as [Ho Hn].
  destruct (OpenTrunc path d) as [[i|e] d1]; cbn [fst snd] in *; [|done]. eapply only_trans; [exact Ho|]. specialize (Hn i eq_refl).
  unfold then_, mbind, D_bind. pose proof (WriteString_only path i text d1 Hn) as Hw. destruct (WriteString i text d1) as [[u|e] d2]; [|exact Hw].
  eapply only_trans; [exact Hw|]. unfold Close. by apply keeps_idle.
Qed.

(** A backup writes its own file. *)
Lemma keeps_Backup o e : keeps (eq (backup_path o e)) (Backup o e).
Proof.
  unfold Backup. destruct (ComplianceEnabled o && _); [keeping|]. apply keeps_then; [keeping|]. intros _.
  apply keeps_bind; [apply keeps_collect|]. intros l. apply keeps_bind; [apply keeps_readable|]. intros contents.
  apply keeps_then; [apply keeps_addToTar|]. intros files. apply keeps_then; [unfold sealed; keeping|]. intros text.
  apply keeps_context, keeps_WriteFile.
Qed.

(** What a rolling backup may hold after a snapshot: what it held before, or a file
    that was verified under its temporary name. *)
Definition rolled (cfg : BackupConfig) (path tmp : string) (d d' : Disk) : Prop :=
  file_at d' path = file_at d path
  \/ exists dv f, is_ok (VerifyBackup tmp (bc_Password cfg) dv).1 = true /\ file_at dv tmp = Some f /\ file_at d' path = Some f.

Lemma backup_path_tmp cfg e name : backup_path (options_of cfg (name ++ ".tmp")) e = in_dir (bc_dir cfg) (name ++ ".tmp").
Proof. unfold backup_path, backup_name, options_of. cbn [b_Filename BackupDir]. by destruct name. Qed.

Lemma roll_spec cfg e name d s d' : in_dir (bc_dir cfg) (name ++ ".tmp") <> in_dir (bc_dir cfg) name -> sound d -> apart d ->
  roll cfg e name d = (s, d') ->
  rolled cfg (in_dir (bc_dir cfg) name) (in_dir (bc_dir cfg) (name ++ ".tmp")) d d'
  /\ (s <> Replaced -> file_at d' (in_dir (bc_dir cfg) name) = file_at d (in_dir (bc_dir cfg) name))
  /\ (forall q, q <> in_dir (bc_dir cfg) name -> q <> in_dir (bc_dir cfg) (name ++ ".tmp") -> file_at d' q = file_at d q).
Proof.
  set (path := in_dir (bc_dir cfg) name). set (tmp := in_dir (bc_dir cfg) (name ++ ".tmp")). intros Hne Hs Ha. unfold roll. fold path tmp.
  unfold mbind, D_bind, mret, D_ret. pose proof (keeps_Backup (options_of cfg (name ++ ".tmp")) e d Hs Ha) as K1. rewrite backup_path_tmp in K1. fold tmp in K1.
  destruct (Backup (options_of cfg (name ++ ".tmp")) e d) as [made d1]. cbn [snd] in K1. destruct K1 as (Hs1 & Ha1 & E1).
  (* an error path: the temporary file is removed *)
  assert (Hfail : forall d2, (forall q, tmp <> q -> file_at d2 q = file_at d q) -> sound d2 -> apart d2 ->
    forall q, q <> tmp -> file_at (Remove tmp d2).2 q = file_at d q).
  { intros d2 E2 Hs2 Ha2 q Hq. destruct (Remove_only tmp d2 Hs2 Ha2) as (_ & _ & E3). by rewrite E3, E2 by congruence. }
  destruct made as [u|x].
  - pose proof (keeps_VerifyBackup (fun _ => False) tmp (bc_Password cfg) d1 Hs1 Ha1) as K2.
    destruct (VerifyBackup tmp (bc_Password cfg) d1) as [[u2|x] d2] eqn:Ev; cbn [snd] in K2; destruct K2 as (Hs2 & Ha2 & E2);
      assert (E2' : forall q, tmp <> q -> file_at d2 q = file_at d q) by (intros q Hq; by rewrite E2, E1 by (auto || intros [])).
    + destruct (Rename tmp path d2) as [r d3] eqn:Er. destruct (Rename_result _ _ _ _ _ Hne Hs2 Ha2 Er) as (E3 & E4 & Hs3 & Ha3). destruct r as [u3|x]; cbn [is_ok] in E4.
      * intros [= <- <-]. destruct E4 as [E4 [i Hi]]. split; [|split; [done|]].
        -- right. specialize (Hs2 tmp i Hi). apply lookup_lt_is_Some in Hs2 as [f Hf].
           assert (Hft : file_at d2 tmp = Some f) by (unfold file_at; by rewrite Hi).
           exists d1, f. rewrite Ev. split; [done|]. rewrite <- (E2 tmp) by intros []. by rewrite E4.
        -- intros q Hq1 Hq2. by rewrite E3, E2' by congruence.
      * pose proof (Hfail d3) as Hf. destruct (Remove tmp d3) as [r4 d4]. cbn [snd] in Hf. intros [= <- <-].
        assert (Ho : forall q, q <> tmp -> file_at d4 q = file_at d q) by (apply Hf; [intros q Hq; by rewrite E4, E2'|done..]).
        split; [left; by apply Ho|]. split; [intros _; by apply Ho|]. intros q _ Hq. by apply Ho.
    + pose proof (Hfail d2 E2' Hs2 Ha2) as Ho. destruct (Remove tmp d2) as [r4 d4]. cbn [snd] in Ho. intros [= <- <-].
      split; [left; by apply Ho|]. split; [intros _; by apply Ho|]. intros q _ Hq. by apply Ho.
  - pose proof (Hfail d1 E1 Hs1 Ha1) as Ho. destruct (Remove tmp d1) as [r4 d4]. cbn [snd] in Ho. intros [= <- <-].
    split; [left; by apply Ho|]. split; [intros _; by apply Ho|]. intros q _ Hq. by apply Ho.
Qed.

(** Whatever fails during the hourly backup, the rolling backup afterwards is
    the one that was there, when an error is reported, or else one that passed its
    verification; no other file changes but the temporary one. *)
Theorem rolling_backup_verified (cfg : BackupConfig) (e : BackupEnv) (d : Disk) :
  let name := bc_project cfg ++ "-hourly" ++ extension (bc_Password cfg) in
  let path := in_dir (bc_dir cfg) name in let tmp := in_dir (bc_dir cfg) (name ++ ".tmp") in
  tmp <> path -> sound d -> apart d ->
  let '((r, _), d') := BackupHourly cfg e d in
  rolled cfg path tmp d d' /\ (is_ok r = false -> file_at d' path = file_at d path)
  /\ forall q, q <> path -> q <> tmp -> file_at d' q = file_at d q.
Proof.
  intros name path tmp Hne Hs Ha. destruct (BackupHourly cfg e d) as [[r evs] d'] eqn:E. unfold BackupHourly, mbind, D_bind, mret, D_ret in E.
  pose proof (keeps_MkdirAll (fun _ => False) d Hs Ha) as Hm. destruct (MkdirAll d) as [[u|x] d1]; cbn [snd] in Hm; destruct Hm as (Hs1 & Ha1 & E1);
    assert (E1' : forall q, file_at d1 q = file_at d q) by (intros q; apply E1; intros []); [|injection E as <- _ <-; split; [left; apply E1'|]; by split].
  destruct (compliancePreCheck cfg); [injection E as <- _ <-; split; [left; apply E1'|]; by split|]. fold name in E.
  destruct (roll cfg e name d1) as [s d2] eqn:Er. destruct (roll_spec _ _ _ _ _ _ Hne Hs1 Ha1 Er) as (K1 & K2 & K3). fold path tmp in K1, K2, K3.
  unfold rolled in *. rewrite E1' in K1, K2. assert (K3' : forall q, q <> path -> q <> tmp -> file_at d2 q = file_at d q) by (intros; by rewrite K3, E1').
  destruct s; try (injection E as <- _ <-; split; [exact K1|]; split; [intros _; by apply K2|exact K3']).
  unfold file_size, mbind, D_bind, mret, D_ret in E.
  assert (Hst : forall q, file_at (Stat path d2).2 q = file_at d2 q) by (intros q; unfold Stat, sys; by destruct (hd false (d_faults d2))).
  fold path in E. destruct (Stat path d2) as [st d3]. cbn [snd] in Hst. injection E as <- _ <-. split; [by rewrite !Hst|]. split; [done|].
  intros q Hq Hq'. by rewrite Hst, K3'.
Qed.
End rolling.

Theorem skip_exact_witness :
  0 <= 1000 <= 10000
  /\ (is_some (shouldSkipBackup 1000 10000 100 90) = true <-> (0 < 100 /\ 1000 < 2 * 100) \/ (0 < 10000 /\ 1000 * 100 < (100 - 90) * 10000)).
Proof. split; [lia|]. apply (skip_exact 1000 10000 100 90); lia. Defined.

Definition some_retention : BackupRetention := {| MaxBackups := 1; KeepWeekly := 0; KeepMonthly := 1; KeepYearly := 0; MaxTotalSize := "" |}.
Definition some_backups : BackupConfig :=
  {| bc_project := "p"; bc_ConfigDir := "/c"; bc_DataDir := "/d"; bc_dir := "/b"; bc_version := "1"; bc_Password := ""; Compliance := false;
     OperatorEmail := ""; bc_Mailer := None; SendOnComplete := false; SendOnFailed := false; Retention := some_retention; DiskThreshold := 0; bc_Audit := true |}.

Theorem rolling_backup_verified_witness :
  let '((r, _), d') := BackupHourly some_backups zero_env small_site in
  rolled some_backups "/b/p-hourly.tar.gz" "/b/p-hourly.tar.gz.tmp" small_site d'
  /\ (is_ok r = false -> file_at d' "/b/p-hourly.tar.gz" = file_at small_site "/b/p-hourly.tar.gz")
  /\ forall q, q <> "/b/p-hourly.tar.gz" -> q <> "/b/p-hourly.tar.gz.tmp" -> file_at d' q = file_at small_site q.
Proof.
  assert (Hs : sound small_site) by (apply sound_bool_sound; vm_compute; reflexivity).
  assert (Ha : apart small_site) by (apply apart_bool_apart; vm_compute; reflexivity).
  pose proof (rolling_backup_verified some_backups zero_env small_site) as P. cbv zeta in P.
  change (in_dir (bc_dir some_backups) (bc_project some_backups ++ "-hourly" ++ extension (bc_Password some_backups))) with "/b/p-hourly.tar.gz" in P.
  change (in_dir (bc_dir some_backups) ((bc_project some_backups ++ "-hourly" ++ extension (bc_Password some_backups)) ++ ".tmp")) with "/b/p-hourly.tar.gz.tmp" in P.
  exact (P ltac:(discriminate) Hs Ha).
Defined.

(** The backup of a day is made in place: when the random source fails in a second run
    on the same day, the backup that was verified before is deleted. *)
Definition secret_backups : BackupConfig :=
  {| bc_project := "p"; bc_ConfigDir := "/c"; bc_DataDir := "/d"; bc_dir := "/b"; bc_version := "1"; bc_Password := "x"; Compliance := false;
     OperatorEmail := ""; bc_Mailer := None; SendOnComplete := false; SendOnFailed := false; Retention := some_retention; DiskThreshold := 0; bc_Audit := true |}.
Definition no_random : BackupEnv :=
  {| be_salt := Err "entropy"; be_nonce := Err "entropy"; be_hostname := "h"; be_stamp := "2025-01-01_000000"; be_created := "2025" |}.
Definition one_backup : Disk :=
  {| names := {["/b/p_backup_2025-03-03.tar.gz.enc" := 0%nat]}; inodes := [{| i_data := Plain ["x"]; i_mtime := 0 |}];
     d_clock := 0; d_ticks := []; d_faults := [] |}.

Lemma daily_rerun_loses :
  let '((r, evs), d) := BackupDaily secret_backups "2025-03-03" None None 0 no_random no_random one_backup in
  r = Err "backup_daily: create full backup: encrypting backup"
  /\ file_at one_backup "/b/p_backup_2025-03-03.tar.gz.enc" <> None /\ file_at d "/b/p_backup_2025-03-03.tar.gz.enc" = None.
Proof. vm_compute. split_and!; [reflexivity | discriminate | reflexivity]. Qed.
