(* ===== verification/BackupSpec.v ===== *)
(** * What a backup saves and a restore brings back

    The files of an installation by their places: what was there when a backup was made
    is there again after a restore, in the same or in other directories. *)

From S2P Require Import Prelude RotateProofs AccessProofs GoStr GoStrProofs GoTime GoCrypto GoUrl Http ConfigText FileSys ConfigStore Instances ConfigInstances ConfigStoreProofs Backup BackupProofs RetentionProofs.
From Stdlib Require Import Ascii.

(** ** Places *)

(** The files that a backup is about: the configuration, the two databases, and the
    files below three directories of the configuration. *)
Inductive saved_file := ServerYml | ServerDb | UsersDb | Below (dir : string) (rest : list string).

Definition proper (f : saved_file) : Prop :=
  match f with Below dir rest => dir ∈ ["template"; "theme"; "security"] /\ rest <> [] /\ Forall component rest | _ => True end.

Definition place (configDir dataDir : string) (f : saved_file) : string :=
  match f with
  | ServerYml => configDir ++ "/server.yml"
  | ServerDb => dataDir ++ "/db/server.db"
  | UsersDb => dataDir ++ "/db/users.db"
  | Below dir rest => configDir ++ "/" ++ dir ++ "/" ++ Strings.Join rest "/"
  end.

(** The name of its entry in the archive. *)
Definition entry_of (f : saved_file) : string :=
  match f with
  | ServerYml => "server.yml" | ServerDb => "server.db" | UsersDb => "users.db"
  | Below dir rest => dir ++ "/" ++ Strings.Join rest "/"
  end.

(** Every name of the disk is an absolute path in normal form, without NUL. *)
Definition tidy (d : Disk) : Prop := forall p, is_Some (names d !! p) -> clean_dir p /\ Strings.in_set p "000" = false.

(** *** Paths in normal form *)

Lemma Join_app xs ys : xs <> [] -> ys <> [] -> Strings.Join (xs ++ ys) "/" = Strings.Join xs "/" ++ "/" ++ Strings.Join ys "/".
Proof.
  intros Hx Hy. induction xs as [|x xs IH]; [done|]. destruct xs as [|x' xs]; [by destruct ys|]. cbn [app] in *.
  change (Strings.Join (x :: x' :: xs ++ ys) "/") with (x ++ "/" ++ Strings.Join (x' :: xs ++ ys) "/"). rewrite IH by done.
  change (Strings.Join (x :: x' :: xs) "/") with (x ++ "/" ++ Strings.Join (x' :: xs) "/"). by rewrite <- !string_app_assoc.
Qed.

Lemma component_Join cs : cs <> [] -> Forall component cs -> Strings.Join cs "/" <> "".
Proof.
  intros Hne Hc. destruct cs as [|c cs]; [done|]. apply Forall_cons in Hc as [(Hc & _) _]. destruct c; [done|]. by destruct cs.
Qed.

(** Joining a path in normal form with further components. *)
Lemma FJoin_clean dir cs : clean_dir dir -> cs <> [] -> Forall component cs -> FJoin [dir; Strings.Join cs "/"] = dir ++ "/" ++ Strings.Join cs "/".
Proof.
  intros (ds & Hd & Hds & ->) Hc Hcs.
  assert (E : ("/" ++ Strings.Join ds "/") ++ "/" ++ Strings.Join cs "/" = "/" ++ Strings.Join (ds ++ cs) "/") by (rewrite Join_app by done; by rewrite <- !string_app_assoc).
  rewrite E. unfold FJoin, keep. cbn [List.filter]. change (String.eqb ("/" ++ Strings.Join ds "/") "") with false.
  pose proof (component_Join cs Hc Hcs) as Hj. apply String.eqb_neq in Hj. rewrite Hj. cbn [negb]. cbn [Strings.Join].
  rewrite E. apply Clean_components; [by destruct ds | by apply Forall_app].
Qed.

Lemma FJoin_each dir cs : clean_dir dir -> cs <> [] -> Forall component cs -> FJoin (dir :: cs) = dir ++ "/" ++ Strings.Join cs "/".
Proof.
  intros Hdir Hc Hcs. rewrite <- FJoin_clean by done. assert (Hj := component_Join cs Hc Hcs). unfold FJoin. rewrite !keep_cons.
  rewrite (keep_all _ cs), (proj2 (String.eqb_neq _ _) Hj) by (intros x Hx; apply negb_true_iff, String.eqb_neq; by apply (proj1 (Forall_forall _ _) Hcs x Hx)).
  destruct Hdir as (ds & Hd & Hds & ->). change (String.eqb ("/" ++ Strings.Join ds "/") "") with false. cbn [negb keep List.filter].
  by destruct cs.
Qed.

Lemma clean_below dir cs : clean_dir dir -> Forall component cs -> cs <> [] -> clean_dir (dir ++ "/" ++ Strings.Join cs "/").
Proof.
  intros (ds & Hd & Hds & ->) Hcs Hc. exists (ds ++ cs)%list. split; [by destruct ds|]. split; [by apply Forall_app|]. by rewrite Join_app, <- !string_app_assoc.
Qed.

Lemma relative_steps cs : forall stack, Forall component cs -> foldl (clean_step false) stack cs = (rev cs ++ stack)%list.
Proof.
  induction cs as [|c cs IH]; intros stack Hc; [done|]. apply Forall_cons in Hc as [(H1 & H2 & H3 & _) Hc]. cbn [foldl].
  assert (E : clean_step false stack c = c :: stack) by (unfold clean_step; apply String.eqb_neq in H1, H2, H3; by rewrite H1, H2, H3).
  rewrite E, IH by done. cbn [rev]. by rewrite <- app_assoc.
Qed.

Lemma Clean_relative cs : cs <> [] -> Forall component cs -> Clean (Strings.Join cs "/") = Strings.Join cs "/".
Proof.
  intros Hne Hc. assert (E : Strings.HasPrefix (Strings.Join cs "/") "/" = false).
  { apply not_true_iff_false. intros [t E]%HasPrefix_split. destruct cs as [|c cs]; [done|]. apply Forall_cons in Hc as [(H1 & _ & _ & H4) _].
    destruct c as [|x c]; [done|]. assert (x = "/"%char) as -> by (destruct cs; by injection E). done. }
  unfold Clean. rewrite (proj2 (String.eqb_neq _ _) (component_Join cs Hne Hc)), E. cbv zeta. rewrite Split_components, relative_steps, app_nil_r, rev_involutive by done.
  by destruct cs.
Qed.

Lemma component_dirs dir : dir ∈ ["template"; "theme"; "security"] -> component dir.
Proof. intros H. assert (K : Forall component ["template"; "theme"; "security"]) by (repeat constructor; discriminate). by apply (proj1 (Forall_forall _ _) K). Qed.

(** ** Entries and places *)

Lemma entry_of_Join dir rest : rest <> [] -> dir ++ "/" ++ Strings.Join rest "/" = Strings.Join (dir :: rest) "/".
Proof. by destruct rest. Qed.

(** An entry is restored to the place of its file. *)
Lemma entry_dest configDir dataDir f : clean_dir configDir -> clean_dir dataDir -> proper f ->
  extract_dest configDir dataDir (entry_of f) = Some (place configDir dataDir f).
Proof.
  intros Hcfg Hdata Hf. destruct f as [| | |dir rest]; cbn [entry_of place].
  - unfold extract_dest. rewrite String.eqb_refl. f_equal. apply (FJoin_clean configDir ["server.yml"]); [done|done|repeat constructor; discriminate].
  - change (extract_dest configDir dataDir "server.db") with (Some (FJoin [dataDir; "db"; "server.db"])). f_equal.
    apply (FJoin_each dataDir ["db"; "server.db"]); [done|done|repeat constructor; discriminate].
  - change (extract_dest configDir dataDir "users.db") with (Some (FJoin [dataDir; "db"; "users.db"])). f_equal.
    apply (FJoin_each dataDir ["db"; "users.db"]); [done|done|repeat constructor; discriminate].
  - destruct Hf as (Hd & Hne & Hr). pose proof (component_dirs dir Hd) as Hdc.
    assert (Hbase : FJoin [configDir; dir] = configDir ++ "/" ++ dir) by (apply (FJoin_clean configDir [dir]); [done|done|by constructor]).
    assert (Hclean : clean_dir (configDir ++ "/" ++ dir)) by (apply (clean_below configDir [dir]); [done|by constructor|done]).
    assert (Hgo : dir_of (dir ++ "/" ++ Strings.Join rest "/") restored_dirs = Some dir).
    { assert (Hp : Strings.HasPrefix (dir ++ "/" ++ Strings.Join rest "/") (dir ++ "/") = true) by (rewrite string_app_assoc; apply HasPrefix_app).
      apply elem_of_cons in Hd as [->|Hd]; [cbn [dir_of restored_dirs]; by rewrite Hp|].
      apply elem_of_cons in Hd as [->|Hd%list_elem_of_singleton]; [|subst dir]; cbn [dir_of restored_dirs]; rewrite Hp; reflexivity. }
    unfold extract_dest. assert (N : forall s, Strings.IndexByte s "/" = None -> String.eqb (dir ++ "/" ++ Strings.Join rest "/") s = false).
    { intros s Hs. apply String.eqb_neq. intros <-. by apply (IndexByte_has dir (Strings.Join rest "/") "/"). }
    rewrite !N by done. rewrite Hgo, Hbase. cbv zeta.
    assert (Ht : Strings.TrimPrefix (dir ++ "/" ++ Strings.Join rest "/") (dir ++ "/") = Strings.Join rest "/").
    { unfold Strings.TrimPrefix. rewrite (string_app_assoc dir "/"), HasPrefix_app. apply drop_app. }
    rewrite Ht, FJoin_clean by done. rewrite string_app_assoc, HasPrefix_app. cbn [negb]. rewrite andb_false_r. by rewrite <- !string_app_assoc.
Qed.

Lemma dir_prefix dir dir' x y : component dir -> component dir' -> dir ++ "/" ++ x = dir' ++ "/" ++ y -> dir = dir' /\ x = y.
Proof.
  intros (_ & _ & _ & H) (_ & _ & _ & H') E. change ("/" ++ x) with (String "/" x) in E. change ("/" ++ y) with (String "/" y) in E.
  pose proof (IndexByte_cut dir x "/" H) as K. rewrite E, (IndexByte_cut dir' y "/" H') in K. injection K as K.
  apply split_at_length in E as [-> E]; [|done]. by injection E.
Qed.

Lemma entry_of_inj f g : proper f -> proper g -> entry_of f = entry_of g -> f = g.
Proof.
  assert (N : forall dir rest s, Strings.IndexByte s "/" = None -> entry_of (Below dir rest) <> s).
  { intros dir rest s Hs E. cbn [entry_of] in E. rewrite <- E in Hs. by apply (IndexByte_has dir (Strings.Join rest "/") "/"). }
  intros Hf Hg E. destruct f as [| | |dir rest], g as [| | |dir' rest']; try done; try (by apply N in E); try (symmetry in E; by apply N in E).
  destruct Hf as (Hd & Hne & Hr), Hg as (Hd' & Hne' & Hr'). cbn [entry_of] in E. apply dir_prefix in E as [-> E]; [|by apply component_dirs..].
  f_equal. rewrite <- (Split_components rest), E, Split_components; done.
Qed.

(** ** What is collected *)

Section collecting.
Context (d : Disk) (Hc : calm d) (Hs : sound d) (Ht : tidy d).

Definition present (s : entry) : bool := is_some (file_at d s.1).

Lemma addFile_present src name l : addFile src name l d = ((l ++ keep present [(src, name)])%list, d).
Proof.
  unfold addFile. rewrite bind_D. unfold Stat. rewrite sys_calm by done. unfold present, keep. cbn [List.filter fst].
  destruct (file_at d src); cbn; [done | by rewrite app_nil_r].
Qed.

Lemma addFiles_present files : forall l, addFiles files l d = ((l ++ keep present files)%list, d).
Proof.
  induction files as [|[src name] files IH]; intros l; [cbn; by rewrite app_nil_r|]. cbn [addFiles]. rewrite bind_D, addFile_present, IH.
  rewrite <- app_assoc. by rewrite <- keep_app.
Qed.

Definition walked (configDir dir : string) : list entry :=
  (fun p => (p, FJoin [dir; Strings.TrimPrefix p (FJoin [configDir; dir] ++ "/")])) <$> Walk (FJoin [configDir; dir]) d.

Lemma collect_present o : (collect o d).1 = keep present
  ([(FJoin [ConfigDir o; "server.yml"], "server.yml"); (FJoin [DataDir o; "db"; "server.db"], "server.db"); (FJoin [DataDir o; "db"; "users.db"], "users.db")]
   ++ walked (ConfigDir o) "template" ++ walked (ConfigDir o) "theme" ++ walked (ConfigDir o) "security").
Proof.
  unfold collect. rewrite !bind_D, addFile_present, bind_D, addFile_present, bind_D, addFile_present, bind_D.
  unfold addDir. rewrite addFiles_present, bind_D, addFiles_present, addFiles_present. cbn [fst]. rewrite !keep_app. cbn [app].
  change ([?a; ?b; ?c]) with ([a] ++ [b] ++ [c])%list. rewrite !keep_app, <- !app_assoc. done.
Qed.
Lemma Walk_elem dir p : p ∈ Walk dir d <-> is_Some (names d !! p) /\ Strings.HasPrefix p (dir ++ "/") = true.
Proof.
  unfold Walk. rewrite merge_sort_Permutation, keep_elem. split; intros [H1 H2]; (split; [|done]).
  - apply list_elem_of_fmap in H1 as ([q i] & -> & H1). apply elem_of_map_to_list in H1. by exists i.
  - destruct H1 as [i H1]. apply list_elem_of_fmap. exists (p, i). split; [done|]. by apply elem_of_map_to_list.
Qed.

Lemma Walk_NoDup dir : NoDup (Walk dir d).
Proof. unfold Walk. rewrite merge_sort_Permutation. unfold keep. apply NoDup_ListNoDup, List.NoDup_filter, NoDup_ListNoDup, NoDup_fst_map_to_list. Qed.

Lemma walked_NoDup configDir dir : NoDup (walked configDir dir).
Proof.
  apply (NoDup_fmap_1 fst). unfold walked. rewrite <- list_fmap_compose. assert (E : forall l : list string, (fst ∘ (fun p : string => (p, FJoin [dir; Strings.TrimPrefix p (FJoin [configDir; dir] ++ "/")]))) <$> l = l).
  { intros l. by induction l as [|p l IH]; [|cbn; f_equal]. }
  rewrite E. apply Walk_NoDup.
Qed.

Lemma walked_spec configDir dataDir dir s : clean_dir configDir -> dir ∈ ["template"; "theme"; "security"] ->
  s ∈ walked configDir dir <-> exists rest, proper (Below dir rest) /\ is_Some (names d !! s.1) /\ s = (place configDir dataDir (Below dir rest), entry_of (Below dir rest)).
Proof.
  intros Hcfg Hd. pose proof (component_dirs dir Hd) as Hdc. unfold walked. rewrite list_elem_of_fmap. setoid_rewrite Walk_elem.
  assert (Hbase : FJoin [configDir; dir] = configDir ++ "/" ++ dir) by (apply (FJoin_clean configDir [dir]); [done|done|by constructor]). rewrite Hbase.
  assert (Hin : forall rest, proper (Below dir rest) -> FJoin [dir; Strings.Join rest "/"] = entry_of (Below dir rest)).
  { intros rest (_ & Hne & Hr). unfold FJoin. rewrite !keep_cons. destruct Hdc as (Hdn & Hdc). rewrite (proj2 (String.eqb_neq _ _) Hdn), (proj2 (String.eqb_neq _ _) (component_Join rest Hne Hr)).
    cbn [negb]. change (Clean (Strings.Join [dir; Strings.Join rest "/"] "/") = entry_of (Below dir rest)). cbn [entry_of].
    change (Strings.Join [dir; Strings.Join rest "/"] "/") with (dir ++ "/" ++ Strings.Join rest "/"). rewrite entry_of_Join by done. apply Clean_relative; [done|]. constructor; [by split|done]. }
  assert (Htrim : forall t, Strings.TrimPrefix ((configDir ++ "/" ++ dir) ++ "/" ++ t) ((configDir ++ "/" ++ dir) ++ "/") = t).
  { intros t. unfold Strings.TrimPrefix. rewrite (string_app_assoc _ "/"), HasPrefix_app. apply drop_app. }
  split.
  - intros (p & -> & Hp & [t E]%HasPrefix_split). destruct (Ht p Hp) as [(ds & Hne & Hds & Ep) _]. destruct Hcfg as (cs & Hcn & Hcs & Ec).
    destruct (below_components (cs ++ [dir]) ds t) as (rest & Hrn & Hr & Et & _); [by apply Forall_app; split; [|constructor]|done| |].
    { rewrite <- Ep, E, Ec, Join_snoc by done. by rewrite <- !string_app_assoc. }
    exists rest. assert (Hpr : proper (Below dir rest)) by (split; [done|]; by split). split; [done|]. split; [done|].
    rewrite E, <- string_app_assoc, Htrim, Et, Hin by done. cbn [place]. by rewrite <- !string_app_assoc.
  - intros (rest & Hpr & Hp & ->). cbn [fst] in Hp. exists (place configDir dataDir (Below dir rest)).
    assert (E : place configDir dataDir (Below dir rest) = (configDir ++ "/" ++ dir) ++ "/" ++ Strings.Join rest "/") by (cbn [place]; by rewrite <- !string_app_assoc).
    rewrite E, Htrim, Hin by done. split; [done|]. rewrite <- E at 1. split; [done|]. rewrite string_app_assoc. apply HasPrefix_app.
Qed.

(** What is collected is what there is in the places. *)
Lemma collect_spec o s : clean_dir (ConfigDir o) -> clean_dir (DataDir o) ->
  s ∈ (collect o d).1 <-> exists f, proper f /\ is_Some (file_at d (place (ConfigDir o) (DataDir o) f)) /\ s = (place (ConfigDir o) (DataDir o) f, entry_of f).
Proof.
  intros Hcfg Hdata. rewrite collect_present, keep_elem. unfold present. rewrite !elem_of_app, !(walked_spec _ (DataDir o)) by (done || (apply (bool_decide_unpack _); exact I)).
  rewrite !elem_of_cons. assert (Hn : forall p, is_Some (file_at d p) -> is_Some (names d !! p)) by (intros p [i Hi]; unfold file_at in Hi; by destruct (names d !! p)).
  rewrite (FJoin_each (ConfigDir o) ["server.yml"] Hcfg ltac:(done) ltac:(by repeat constructor)).
  rewrite (FJoin_each (DataDir o) ["db"; "server.db"] Hdata ltac:(done) ltac:(by repeat constructor)), (FJoin_each (DataDir o) ["db"; "users.db"] Hdata ltac:(done) ltac:(by repeat constructor)).
  split.
  - intros [H Hp]. assert (Hs1 : is_Some (file_at d s.1)) by (destruct (file_at d s.1); [by eexists | done]).
    destruct H as [[->|[->|[->|H]]]|[H|[H|H]]]; [exists ServerYml|exists ServerDb|exists UsersDb|by apply elem_of_nil in H|..]; [by split_and!..| | |];
      destruct H as (rest & H1 & _ & E); eexists; (split; [exact H1|]; split; [by rewrite E in Hs1 | exact E]).
  - intros (f & Hf & Hp & ->). cbn [fst]. split; [|by destruct Hp as [i ->]]. destruct f as [| | |dir rest]; cbn [place entry_of]; [tauto..|].
    pose proof Hf as (Hd & _). right. apply elem_of_cons in Hd as [->|Hd]; [left | right; apply elem_of_cons in Hd as [->|Hd%list_elem_of_singleton]; [left | right; subst dir]];
      exists rest; (split; [done|]; split; [by apply Hn | done]).
Qed.

Lemma collect_NoDup o : clean_dir (ConfigDir o) -> NoDup (collect o d).1.
Proof.
  intros Hcfg. rewrite collect_present. unfold keep. apply NoDup_ListNoDup, List.NoDup_filter, NoDup_ListNoDup.
  assert (W : forall dir s, dir ∈ ["template"; "theme"; "security"] -> s ∈ walked (ConfigDir o) dir -> exists rest, proper (Below dir rest) /\ s.2 = entry_of (Below dir rest)).
  { intros dir s Hd Hin. apply (walked_spec _ "") in Hin as (rest & Hp & _ & ->); [|done..]. by exists rest. }
  assert (D : forall dir dir', dir ∈ ["template"; "theme"; "security"] -> dir' ∈ ["template"; "theme"; "security"] -> dir <> dir' ->
    forall s, s ∈ walked (ConfigDir o) dir -> s ∉ walked (ConfigDir o) dir').
  { intros dir dir' Hd Hd' Hne s (rest & Hp & E)%(W dir s Hd) (rest' & Hp' & E')%(W dir' s Hd'). apply Hne. rewrite E in E'. by apply entry_of_inj in E' as [= <- _]. }
  assert (I1 : "template" ∈ ["template"; "theme"; "security"]) by (by left). assert (I2 : "theme" ∈ ["template"; "theme"; "security"]) by (by right; left).
  assert (I3 : "security" ∈ ["template"; "theme"; "security"]) by (by right; right; left).
  apply NoDup_app. split; [repeat (apply NoDup_cons; split; [rewrite ?elem_of_cons, ?elem_of_nil; intuition congruence|]); constructor|]. split.
  - intros s Hin Hw. assert (K : s.2 = entry_of ServerYml \/ s.2 = entry_of ServerDb \/ s.2 = entry_of UsersDb).
    { rewrite !elem_of_cons in Hin. destruct Hin as [->|[->|[->|Hin]]]; [tauto..|by apply elem_of_nil in Hin]. }
    rewrite !elem_of_app in Hw. assert (N : forall dir, dir ∈ ["template"; "theme"; "security"] -> s ∈ walked (ConfigDir o) dir -> False).
    { intros dir Hd (rest & Hp & E)%(W dir s Hd). rewrite E in K. destruct K as [K|[K|K]]; by apply entry_of_inj in K. }
    destruct Hw as [Hw|[Hw|Hw]]; by eapply N; [|exact Hw].
  - apply NoDup_app. split; [apply walked_NoDup|]. split.
    + intros s Hin. rewrite elem_of_app. intros [Hw|Hw]; [by apply (D _ _ I1 I2 ltac:(done) s Hin) | by apply (D _ _ I1 I3 ltac:(done) s Hin)].
    + apply NoDup_app. split; [apply walked_NoDup|]. split; [|apply walked_NoDup]. by apply (D _ _ I2 I3).
Qed.
End collecting.

Lemma TrimRight_whole s : Strings.HasSuffix s "/" = false -> Strings.TrimRight s "/" = s.
Proof.
  intros H. destruct (String.eqb_spec s "") as [->|Hne]; [done|]. destruct (string_snoc s Hne) as (x & c & ->). apply TrimRight_id.
  unfold Strings.in_set. cbn [Strings.any]. rewrite orb_false_r. apply not_true_iff_false. intros ->%Ascii.eqb_eq. by rewrite HasSuffix_app in H.
Qed.

(** A file that is saved can be verified and restored. *)
Lemma entry_checked d o f text : tidy d -> proper f -> is_Some (file_at d (place (ConfigDir o) (DataDir o) f)) ->
  strlen text <= 256 * 1024 * 1024
  /\ (Strings.HasSuffix (place (ConfigDir o) (DataDir o) f) ".db" = true -> Strings.take 16 text = "SQLite format 3" ++ String "000" "") ->
  entry_fits (entry_of f, text).
Proof.
  intros Ht Hf Hp [Hl Hm]. split; [|split; [exact Hl|]].
  - cbn [fst]. destruct f as [| | |dir rest]; [reflexivity..|]. destruct Hf as (Hd & Hne & Hr). pose proof (component_dirs dir Hd) as Hdc.
    assert (Hn : is_Some (names d !! place (ConfigDir o) (DataDir o) (Below dir rest))) by (destruct Hp as [i Hi]; unfold file_at in Hi; by destruct (names d !! _)).
    destruct (Ht _ Hn) as [_ H0]. cbn [place] in H0. rewrite string_app_assoc in H0. change (dir ++ "/" ++ Strings.Join rest "/") with (entry_of (Below dir rest)) in H0.
    assert (H0' : Strings.in_set (entry_of (Below dir rest)) "000" = false) by (unfold Strings.in_set in *; rewrite any_app in H0; apply orb_false_iff in H0; apply H0).
    assert (Hs : Strings.HasSuffix (entry_of (Below dir rest)) "/" = false).
    { apply not_true_iff_false. intros [x E]%HasSuffix_spec. pose proof (Join_last (dir :: rest) ltac:(done) ltac:(by constructor)) as K.
      rewrite <- entry_of_Join in K by done. change (dir ++ "/" ++ Strings.Join rest "/") with (entry_of (Below dir rest)) in K. rewrite E, string_app_assoc, HasSuffix_app in K. done. }
    assert (He : entry_of (Below dir rest) <> "") by (cbn [entry_of]; by destruct dir).
    unfold entry_name, file_name. rewrite (proj2 (String.eqb_neq _ _) He), H0', Hs. cbn [negb andb].
    assert (Hb : component (Base (entry_of (Below dir rest)))).
    { unfold Base. rewrite (proj2 (String.eqb_neq _ _) He), TrimRight_whole by done. cbv zeta. rewrite (proj2 (String.eqb_neq _ _) He).
      cbn [entry_of]. rewrite entry_of_Join by done. destruct (exists_last Hne) as (init & c & ->). apply Forall_app in Hr as [_ Hc]. apply Forall_cons in Hc as [Hc _].
      change (dir :: init ++ [c])%list with ((dir :: init) ++ [c])%list. rewrite Join_snoc by done. unfold after_slash.
      change ("/" ++ c) with (String "/" c). rewrite LastIndexByte_cut by apply Hc. by rewrite drop_past. }
    destruct Hb as (B1 & B2 & B3 & B4). cbn [existsb]. apply String.eqb_neq in B2, B3. rewrite B2, B3, orb_false_r.
    assert (B5 : String.eqb (Base (entry_of (Below dir rest))) "/" = false) by (apply String.eqb_neq; intros E; by rewrite E in B4). rewrite B5. cbn [orb negb andb].
    apply negb_true_iff, String.eqb_neq. intros E. pose proof (IndexByte_has dir (Strings.Join rest "/") "/") as K. cbn [entry_of] in E.
    change (dir ++ "/" ++ Strings.Join rest "/") with (dir ++ String "/" (Strings.Join rest "/")) in E. by rewrite E in K.
  - cbn [fst snd]. intros Hx. assert (E : Strings.take 16 text = sqliteMagic).
    { apply Hm. apply HasSuffix_spec in Hx as [x Hx]. destruct f as [| | |dir rest]; cbn [place].
      - assert (K : Strings.HasSuffix "server.yml" ".db" = true) by (apply HasSuffix_spec; by exists x). by vm_compute in K.
      - apply HasSuffix_spec. exists (DataDir o ++ "/db/server"). by rewrite <- string_app_assoc.
      - apply HasSuffix_spec. exists (DataDir o ++ "/db/users"). by rewrite <- string_app_assoc.
      - cbn [entry_of] in Hx. rewrite Hx, !string_app_assoc. apply HasSuffix_app. }
    unfold verifySQLiteMagic. rewrite E, String.eqb_refl. destruct (Nat.ltb_spec (String.length text) 16) as [Hlt|_]; [|done].
    pose proof (f_equal String.length E) as K. rewrite take_long in K by lia. cbn in K. lia.
Qed.

Lemma omap_NoDup_on {A B} (f : A -> option B) (l : list A) : NoDup l ->
  (forall a a' b, a ∈ l -> a' ∈ l -> f a = Some b -> f a' = Some b -> a = a') -> NoDup (omap f l).
Proof.
  induction 1 as [|a l Ha Hl IH]; intros Hf; [constructor|]. cbn [omap list_omap].
  assert (IH' : NoDup (omap f l)) by (apply IH; intros; eapply Hf; [by right | by right | done | done]). destruct (f a) as [b|] eqn:E; [|done].
  apply NoDup_cons. split; [|done]. intros (a' & Ha' & E')%list_elem_of_omap. apply Ha. by rewrite (Hf a a' b ltac:(by left) ltac:(by right) E E').
Qed.

(** ** The round trip *)

Section round_trip.
Context `{Unicode} `{JsonLaws} `{!JsonStream} `{ArchiveLaws} `{AEADLaws} `{Kdf} `{Gzip}.

(** C26 — A backup that is made without an error restores, in the same or in other
    directories, when no disk operation fails while it is made and restored: every one
    of the configuration, the two databases and the files below the directories for
    templates, themes and keys is afterwards at its place with the text that it had,
    encrypted or not. The files must each have at most 256 MiB, those whose names end
    in [.db] the header of SQLite, and no two of them the same place; the name of the
    archive must say whether it is encrypted and not end in [.tmp]; the random source
    gives bytes as many as asked for; and the directories and the names of the files are
    absolute paths in normal form. *)
Theorem backup_restores (o : BackupOptions) (e : BackupEnv) (d d1 d2 : Disk) (configDir dataDir : string) :
  let old := place (ConfigDir o) (DataDir o) in let new := place configDir dataDir in
  calm d -> sound d -> tidy d -> good_env e -> well_named (backup_path o e) (Password o) ->
  clean_dir (ConfigDir o) -> clean_dir (DataDir o) -> clean_dir configDir -> clean_dir dataDir ->
  Backup o e d = (Ok tt, d1) ->
  (forall f text, proper f -> text_at d (old f) = Some text ->
     strlen text <= 256 * 1024 * 1024
     /\ (Strings.HasSuffix (old f) ".db" = true -> Strings.take 16 text = "SQLite format 3" ++ String "000" "")) ->
  (forall f g, proper f -> proper g -> is_Some (file_at d (old f)) -> is_Some (file_at d (old g)) -> new f = new g -> f = g) ->
  calm d2 -> sound d2 -> apart d2 -> file_at d2 (backup_path o e) = file_at d1 (backup_path o e) ->
  exists d3, Restore (backup_path o e) configDir dataDir (Password o) d2 = (Ok tt, d3)
    /\ forall f text, proper f -> text_at d (old f) = Some text -> text_at d3 (new f) = Some text.
Proof.
  intros old new Hc Hs Ht He Hw Hcfg Hdata Hcfg' Hdata' E Hfit Hone Hc2 Hs2 Ha2 Ep.
  pose proof (fun s => collect_spec d Hc Ht o s Hcfg Hdata) as Hcol. fold old in Hcol.
  destruct (collected_restored o e d d1 d2 configDir dataDir Hc Hs He Hw E) as (d3 & E3 & Hres); [..|done|done|done|done|].
  - intros s (f & Hf & Hp & ->)%Hcol c Htx. cbn [fst snd] in *. apply (entry_checked d o); [done..|]. by apply Hfit.
  - apply omap_NoDup_on; [by apply collect_NoDup|]. intros s s' q (f & Hf & Hp & ->)%Hcol (g & Hg & Hp' & ->)%Hcol. cbn [snd].
    rewrite !entry_dest by done. intros [= <-] [= Eq]. by rewrite (Hone f g Hf Hg Hp Hp' (eq_sym Eq)).
  - exists d3. split; [exact E3|]. intros f text Hf Htx. rewrite <- Htx. apply (Hres (old f, entry_of f)); [|by apply entry_dest].
    apply Hcol. exists f. split; [done|]. split; [|done]. unfold text_at in Htx. by destruct (file_at d (old f)).
Qed.
End round_trip.

(** ** The small site, restored elsewhere *)

Lemma small_site_names p : is_Some (names small_site !! p) -> p = "/c/server.yml" \/ p = "/c/theme/a.css".
Proof. intros [i Hi]. cbn [names small_site] in Hi. apply lookup_insert_Some in Hi as [[<- _]|[_ Hi]]; [by left|]. apply lookup_singleton_Some in Hi as [<- _]. by right. Qed.

Lemma small_site_tidy : tidy small_site.
Proof.
  intros p [->| ->]%small_site_names; (split; [|reflexivity]).
  - exists ["c"; "server.yml"]. split; [done|]. split; [repeat constructor; discriminate | reflexivity].
  - exists ["c"; "theme"; "a.css"]. split; [done|]. split; [repeat constructor; discriminate | reflexivity].
Qed.

Lemma clean_one c : component c -> clean_dir ("/" ++ c).
Proof. intros Hc. exists [c]. split; [done|]. split; [by constructor | done]. Qed.

(** The files of the small site. *)
Lemma small_site_files f : proper f -> is_Some (file_at small_site (place "/c" "/d" f)) -> f = ServerYml \/ f = Below "theme" ["a.css"].
Proof.
  intros Hf Hp. assert (Hn : is_Some (names small_site !! place "/c" "/d" f)) by (destruct Hp as [i Hi]; unfold file_at in Hi; by destruct (names small_site !! _)).
  apply small_site_names in Hn. destruct f as [| | |dir rest]; [by left|by destruct Hn as [Hn|Hn]; discriminate Hn..|]. right.
  assert (E : entry_of (Below dir rest) = "server.yml" \/ entry_of (Below dir rest) = "theme/a.css").
  { cbn [place] in Hn. cbn [entry_of]. destruct Hn as [Hn|Hn]; injection Hn; auto. }
  destruct E as [E|E]; [by apply (entry_of_inj _ ServerYml Hf I) in E|]. apply (entry_of_inj _ (Below "theme" ["a.css"]) Hf) in E; [done|].
  split; [by right; left|]. split; [done|]. repeat constructor; discriminate.
Qed.

Theorem backup_restores_witness :
  Backup site_backup zero_env small_site = (Ok tt, backed_up)
  /\ exists d3, Restore (backup_path site_backup zero_env) "/c2" "/d2" "" backed_up = (Ok tt, d3)
     /\ text_at d3 "/c2/server.yml" = Some "mode: production" /\ text_at d3 "/c2/theme/a.css" = Some "x".
Proof.
  assert (E1 : (Backup site_backup zero_env small_site).1 = Ok tt) by (vm_compute; reflexivity).
  assert (E : Backup site_backup zero_env small_site = (Ok tt, backed_up)) by (rewrite (surjective_pairing (Backup site_backup zero_env small_site)), E1; reflexivity).
  assert (Hd : forall c, component c -> clean_dir ("/" ++ c)) by (intros c Hc; exact (clean_one c Hc)).
  split; [exact E|].
  pose proof (backup_restores site_backup zero_env small_site backed_up backed_up "/c2" "/d2" eq_refl) as P. cbv zeta in P. cbn [ConfigDir DataDir Password site_backup] in P.
  destruct P as (d3 & E3 & Hr).
  - apply sound_bool_sound. vm_compute. reflexivity.
  - exact small_site_tidy.
  - exists (replicate 16 0), (replicate 12 0). unfold is_byte. split_and!; try reflexivity; apply Forall_replicate; lia.
  - split; vm_compute; reflexivity.
  - apply (Hd "c"). repeat split; discriminate.
  - apply (Hd "d"). repeat split; discriminate.
  - apply (Hd "c2"). repeat split; discriminate.
  - apply (Hd "d2"). repeat split; discriminate.
  - exact E.
  - intros f text Hf Ht. assert (Hp : is_Some (file_at small_site (place "/c" "/d" f))) by (unfold text_at in Ht; destruct (file_at small_site _); [by eexists | done]).
    destruct (small_site_files f Hf Hp) as [->| ->]; vm_compute in Ht; injection Ht as <-; (split; [vm_compute; discriminate | vm_compute; discriminate]).
  - intros f g Hf Hg Hp Hq. destruct (small_site_files f Hf Hp) as [->| ->], (small_site_files g Hg Hq) as [->| ->]; intros Eq; try reflexivity; discriminate Eq.
  - vm_compute. reflexivity.
  - apply sound_bool_sound. vm_compute. reflexivity.
  - apply apart_bool_apart. vm_compute. reflexivity.
  - reflexivity.
  - exists d3. split; [exact E3|]. split; [apply (Hr ServerYml) | apply (Hr (Below "theme" ["a.css"]))].
    + exact I.
    + vm_compute. reflexivity.
    + split; [right; left|]. split; [discriminate|]. repeat constructor; discriminate.
    + vm_compute. reflexivity.
Defined.
