(* ===== verification/RetentionSpec.v ===== *)
(** * What the retention of backups keeps

    The files that a retention pass removes, in terms of the newer files of the
    same tier; and that something is left whatever fails. *)

From S2P Require Import Prelude GoStr GoStrProofs GoTime Http ConfigText FileSys RotateProofs AccessProofs ConfigStore Backup BackupProofs Retention RetentionProofs.
From Stdlib Require Import Ascii.

(** ** The tiers *)

Definition tier_is (ret : BackupRetention) (t : tier) (x : string * Z) : bool := bool_decide (classify ret x.2 = t).

(** The first day of a year, the first day of a month, and a Sunday: the second of
    March 2025 was one. *)
Definition new_year (day : Z) : Prop := exists y, day = day_number y 1 1.
Definition month_first (day : Z) : Prop := exists y m, 1 <= m <= 12 /\ day = day_number y m 1.
Definition sunday (day : Z) : Prop := exists weeks, day = day_number 2025 3 2 + 7 * weeks.

(** The tier in which a day falls: the first for which it qualifies and of which
    something is to be kept; and how many of a tier are to be kept. *)
Definition falls (ret : BackupRetention) (day : Z) (t : tier) : Prop :=
  let yearly := new_year day /\ 0 < KeepYearly ret in
  let monthly := month_first day /\ 0 < KeepMonthly ret in
  let weekly := sunday day /\ 0 < KeepWeekly ret in
  match t with
  | Yearly => yearly
  | Monthly => ~ yearly /\ monthly
  | Weekly => ~ yearly /\ ~ monthly /\ weekly
  | Daily => ~ yearly /\ ~ monthly /\ ~ weekly
  end.
Definition room (ret : BackupRetention) (t : tier) : Z :=
  match t with Yearly => KeepYearly ret | Monthly => KeepMonthly ret | Weekly => KeepWeekly ret | Daily => MaxBackups ret end.

Lemma month_first_civil day : month_first day <-> c_day (civil day) = 1.
Proof.
  split.
  - intros (y & m & Hm & ->). set (n := day_number y m 1). assert (Ef : first_day (12 * y + (m - 1)) = n).
    { unfold first_day, n. assert ((12 * y + (m - 1)) / 12 = y /\ (12 * y + (m - 1)) mod 12 + 1 = m) as [-> ->] by dlia. done. }
    assert (Ei : month_index n = 12 * y + (m - 1)) by (apply month_index_unique; pose proof (first_day_step (12 * y + (m - 1))); lia).
    pose proof (c_month_index n) as [E1 E2]. pose proof (civil_bounds n) as (_ & Hn & _ & _). rewrite E1, E2, Ei in Hn.
    assert ((12 * y + (m - 1)) / 12 = y /\ (12 * y + (m - 1)) mod 12 + 1 = m) as [Q1 Q2] by dlia. rewrite Q1, Q2 in Hn.
    assert (En : n = day_number y m 1) by done. clearbody n. unfold day_number in En, Hn. lia.
  - intros H. pose proof (civil_bounds day) as (Hm & Hn & _ & _). exists (c_year (civil day)), (c_month (civil day)). split; [done|]. by rewrite H in Hn.
Qed.

Lemma new_year_civil day : new_year day <-> c_month (civil day) = 1 /\ c_day (civil day) = 1.
Proof.
  split.
  - intros [y ->]. split; [|apply month_first_civil; exists y, 1; split; [lia|done]]. pose proof (c_month_index (day_number y 1 1)) as [-> _].
    assert (first_day (12 * y) = day_number y 1 1) as Ef.
    { unfold first_day. assert ((12 * y) / 12 = y /\ (12 * y) mod 12 = 0) as [-> ->] by dlia. done. }
    rewrite (month_index_unique _ (12 * y)); [dlia|]. pose proof (first_day_step (12 * y)). lia.
  - intros [Hm Hd]. pose proof (civil_bounds day) as (_ & Hn & _ & _). exists (c_year (civil day)). by rewrite Hm, Hd in Hn.
Qed.

Lemma sunday_weekday day : sunday day <-> weekday day = 0.
Proof.
  unfold sunday, weekday. change (day_number 2025 3 2) with 739311. split; [intros [w ->]; dlia|]. intros H. exists ((day - 739311) / 7). dlia.
Qed.

Lemma falls_classify ret day t : falls ret day t <-> classify ret day = t.
Proof.
  unfold falls, classify. pose proof (month_first_civil day) as F1. pose proof (new_year_civil day) as F2. pose proof (sunday_weekday day) as F3.
  set (mf := month_first day) in *. set (ny := new_year day) in *. set (su := sunday day) in *. clearbody mf ny su.
  destruct (Z.eqb_spec (c_month (civil day)) 1), (Z.eqb_spec (c_day (civil day)) 1), (Z.eqb_spec (weekday day) 0); cbn [andb];
    repeat match goal with |- context [0 <? ?x] => destruct (Z.ltb_spec 0 x) end; destruct t; split; try done; try lia; intuition lia.
Qed.

(** How many files of a tier are newer than a day. *)
Definition tier_newer (ret : BackupRetention) (day : Z) (l : list (string * Z)) : Z :=
  Z.of_nat (length (keep (fun x => (day <? x.2) && tier_is ret (classify ret day) x) l)).

Lemma sort_tiers_sub ret l : forall seen n, n ∈ (sort_tiers ret seen l).1 \/ n ∈ (sort_tiers ret seen l).2 -> n ∈ l.*1.
Proof.
  induction l as [|[m day] l IH]; intros seen n; [cbn; set_solver|]. cbn [sort_tiers].
  pose proof (IH (fun t' => if decide (t' = classify ret day) then seen (classify ret day) + 1 else seen t') n) as IH'.
  destruct (sort_tiers _ _ l) as [kept gone]. cbn [fst snd] in *. destruct (_ <=? _); cbn [fst snd fmap list_fmap]; rewrite !elem_of_cons; intuition.
Qed.

Lemma newer_none ret day l : (forall x, x ∈ l -> x.2 <= day) -> tier_newer ret day l = 0.
Proof. intros Hd. unfold tier_newer. rewrite keep_none; [done|]. intros x Hx. by rewrite (proj2 (Z.ltb_ge _ _) (Hd x Hx)). Qed.

(** In a list from the newest on, with distinct days, a file goes exactly when its tier
    is full of newer ones. *)
Lemma sort_tiers_newer ret l : forall seen n day, NoDup l.*1 -> NoDup l.*2 -> StronglySorted later l -> (n, day) ∈ l ->
  (n ∈ (sort_tiers ret seen l).2 <-> tier_limit ret (classify ret day) <= seen (classify ret day) + tier_newer ret day l).
Proof.
  induction l as [|[m dm] l IH]; intros seen n day K1 K2 K3 Hi; [by apply elem_of_nil in Hi|]. apply NoDup_cons in K1 as [Hm K1], K2 as [Hd K2].
  apply StronglySorted_inv in K3 as [K3 K4]. rewrite Forall_forall in K4. cbn [sort_tiers].
  set (seen' := fun t' => if decide (t' = classify ret dm) then seen (classify ret dm) + 1 else seen t').
  pose proof (fun x => sort_tiers_sub ret l seen' x) as Hsub. apply elem_of_cons in Hi as [[= -> ->]|Hi].
  - assert (E : tier_newer ret dm ((m, dm) :: l) = 0) by (apply newer_none; intros x [->|Hx]%elem_of_cons; [done|]; by apply (K4 x)).
    rewrite E. destruct (sort_tiers ret seen' l) as [kept gone]. cbn [fst snd] in *.
    assert (Hg : m ∉ gone) by (intros Hg; apply Hm, Hsub; by right).
    destruct (Z.leb_spec (seen (classify ret dm) + 1) (tier_limit ret (classify ret dm))); cbn [fst snd]; [|rewrite elem_of_cons]; split; intros; try lia; try tauto.
  - specialize (IH seen' n day K1 K2 K3 Hi).
    assert (Hne : n <> m) by (intros ->; apply Hm, list_elem_of_fmap; by exists (m, day)).
    assert (Hlt : day < dm).
    { pose proof (K4 _ Hi) as Hle. unfold later in Hle. cbn [snd] in Hle. enough (day <> dm) by lia. intros ->. apply Hd, list_elem_of_fmap. by exists (n, dm). }
    assert (E : seen' (classify ret day) + tier_newer ret day l = seen (classify ret day) + tier_newer ret day ((m, dm) :: l)).
    { unfold seen', tier_newer, tier_is. rewrite keep_cons. cbn [snd]. rewrite (proj2 (Z.ltb_lt _ _) Hlt). cbn [andb].
      destruct (decide (classify ret day = classify ret dm)) as [E|E].
      - rewrite bool_decide_eq_true_2 by done. cbn [length]. rewrite E. lia.
      - by rewrite bool_decide_eq_false_2 by congruence. }
    rewrite E in IH. destruct (sort_tiers ret seen' l) as [kept gone]. cbn [snd] in IH.
    destruct (_ <=? _); cbn [snd]; [exact IH|]. rewrite elem_of_cons. rewrite <- IH. tauto.
Qed.

(** Every tier that is used has room for a file. *)
Lemma tier_limit_pos ret day : 1 <= MaxBackups ret -> 1 <= tier_limit ret (classify ret day).
Proof.
  intros Hm. unfold classify. destruct (_ && (0 <? KeepYearly ret)) eqn:E1; [cbn; bsplit; lia|].
  destruct (_ && (0 <? KeepMonthly ret)) eqn:E2; [cbn; bsplit; lia|]. destruct (_ && (0 <? KeepWeekly ret)) eqn:E3; [cbn; bsplit; lia|done].
Qed.

(** The newest file stays. *)
Lemma sort_tiers_first ret n day l : 1 <= MaxBackups ret -> NoDup ((n, day) :: l).*1 -> n ∉ (sort_tiers ret (fun _ => 0) ((n, day) :: l)).2.
Proof.
  intros Hm Hd. apply NoDup_cons in Hd as [Hn _]. cbn [sort_tiers].
  match goal with |- context [sort_tiers ret ?s l] => pose proof (sort_tiers_sub ret l s n) as Hsub; destruct (sort_tiers ret s l) as [kept gone] end.
  pose proof (tier_limit_pos ret day Hm). cbn [fst snd] in *. rewrite (proj2 (Z.leb_le _ _)) by lia. cbn [snd]. intros Hg. apply Hn, Hsub. by right.
Qed.

(** ** The listing of a directory *)


Lemma omap_names {A B} (f : A -> option B) (g : A -> string) (h : B -> string) (l : list A) :
  (forall a b, f a = Some b -> h b = g a) -> NoDup (g <$> l) -> NoDup (h <$> omap f l).
Proof.
  intros Hf. induction l as [|a l IH]; [constructor|]. cbn [fmap list_fmap omap list_omap]. intros [Ha Hl]%NoDup_cons. destruct (f a) as [b|] eqn:E; [|by apply IH].
  cbn [fmap list_fmap]. apply NoDup_cons. split; [|by apply IH]. rewrite (Hf a b E). contradict Ha.
  apply list_elem_of_fmap in Ha as (b' & E' & (a' & Ha' & E2)%list_elem_of_omap). rewrite E', (Hf a' b' E2). apply list_elem_of_fmap. by exists a'.
Qed.

Lemma TrimPrefix_app p t : Strings.TrimPrefix (p ++ t) p = t.
Proof. unfold Strings.TrimPrefix. by rewrite HasPrefix_app, drop_app. Qed.

Section listing.
Variable dir : string.

Definition at_name (n : string) : string := dir ++ "/" ++ n.

Lemma elem_listing d n : n ∈ listing dir d <-> Strings.in_set n "/" = false /\ is_Some (names d !! at_name n).
Proof.
  unfold listing, at_name. rewrite keep_elem, negb_true_iff. split.
  - intros [(p & -> & Hp)%list_elem_of_fmap Hs]. split; [done|]. pose proof (with_prefix_names _ _ _ Hp) as Hn.
    rewrite with_prefix_perm, keep_elem in Hp. destruct Hp as [_ (t & ->)%HasPrefix_split]. rewrite TrimPrefix_app in *. by rewrite <- string_app_assoc in Hn.
  - intros [Hs [i Hi]]. split; [|done]. apply list_elem_of_fmap. exists (dir ++ "/" ++ n). split; [by rewrite string_app_assoc, TrimPrefix_app|].
    rewrite with_prefix_perm, keep_elem, string_app_assoc. split; [|apply HasPrefix_app]. apply list_elem_of_fmap. exists (dir ++ "/" ++ n, i).
    split; [by rewrite <- string_app_assoc|]. by apply elem_of_map_to_list.
Qed.

Lemma listing_NoDup d : NoDup (listing dir d).
Proof.
  unfold listing, keep. apply NoDup_ListNoDup, List.NoDup_filter, NoDup_ListNoDup. pose proof (with_prefix_NoDup (dir ++ "/") d) as Hn.
  assert (Hp : forall p, p ∈ with_prefix (dir ++ "/") d -> exists t, p = (dir ++ "/") ++ t).
  { intros p. rewrite with_prefix_perm, keep_elem. intros [_ H]. by apply HasPrefix_split. }
  induction Hn as [|p l Hx Hn IH]; [constructor|]. cbn [fmap list_fmap]. apply NoDup_cons. split; [|apply IH; intros; apply Hp; by right].
  intros (q & E & Hq)%list_elem_of_fmap. destruct (Hp p ltac:(by left)) as [t ->], (Hp q ltac:(by right)) as [t' ->]. rewrite !TrimPrefix_app in E. by subst t'.
Qed.
End listing.

(** *** Dated names *)

Definition backups (dir project : string) (d : Disk) : list (string * Z) := valid_dates (dated project (listing dir d)).

Lemma elem_dated project l n date : (n, date) ∈ dated project l <-> n ∈ l /\ Strings.HasPrefix n (project ++ "_backup_") = true /\ backupFileRE n = Some date.
Proof.
  unfold dated. rewrite list_elem_of_omap. split.
  - intros (m & Hm & E). destruct (Strings.HasPrefix m (project ++ "_backup_")) eqn:Hp; [|done]. destruct (backupFileRE m) eqn:Hr; [|done].
    cbn in E. injection E as -> ->. done.
  - intros (Hn & Hp & Hr). exists n. by rewrite Hp, Hr.
Qed.

Lemma dated_fst project l : NoDup l -> NoDup (dated project l).*1.
Proof.
  intros Hn. unfold dated. apply (omap_names _ id); [|by rewrite list_fmap_id]. intros n [m e]. destruct (Strings.HasPrefix n _); [|done].
  destruct (backupFileRE n); [|done]. by intros [= -> _].
Qed.

Lemma elem_valid l n day : (n, day) ∈ valid_dates l <-> exists date, (n, date) ∈ l /\ parse_date date = Some day.
Proof.
  unfold valid_dates. rewrite list_elem_of_omap. split.
  - intros ([m date] & Hm & E). cbn [fst snd] in E. destruct (parse_date date) eqn:Hp; [|done]. injection E as -> ->. by exists date.
  - intros (date & Hn & Hp). exists (n, date). cbn [fst snd]. by rewrite Hp.
Qed.

Lemma valid_fst l : NoDup l.*1 -> NoDup (valid_dates l).*1.
Proof.
  intros Hn. unfold valid_dates. apply (omap_names _ fst); [|done]. intros [n date] [m day]. cbn [fst snd]. destruct (parse_date date); [|done]. by intros [= -> _].
Qed.

Lemma backups_NoDup dir project d : NoDup (backups dir project d).*1.
Proof. apply valid_fst, dated_fst, listing_NoDup. Qed.

(** *** The dates in the names *)

(** A number written with [w] digits. *)
Definition numeral (w : nat) (s : string) (v : Z) : Prop := String.length s = w /\ all_digits s = true /\ (Strconv.Atoi s).1 = v.

(** The name of a full backup of a project and the day it tells: the name of the
    project first, a date of the calendar last but for the extensions. *)
Definition names_day (project n : string) (day : Z) : Prop :=
  Strings.HasPrefix n (project ++ "_backup_") = true
  /\ exists before year month dom ext y m d,
       n = before ++ "_backup_" ++ (year ++ "-" ++ month ++ "-" ++ dom) ++ ext /\ (ext = ".tar.gz" \/ ext = ".tar.gz.enc")
       /\ numeral 4 year y /\ numeral 2 month m /\ numeral 2 dom d
       /\ 1 <= m <= 12 /\ day = day_number y m d /\ day_number y m 1 <= day < day_number y (m + 1) 1.

Lemma digits_no_dash s : all_digits s = true -> Strings.IndexByte s "-" = None.
Proof.
  induction s as [|c s IH]; [done|]. unfold all_digits. cbn [Strings.forall_byte Strings.IndexByte]. intros [Hc Hs]%andb_true_iff.
  destruct (Ascii.eqb_spec c "-") as [->|_]; [by vm_compute in Hc|]. by rewrite IH.
Qed.

Lemma Split_whole a c : Strings.IndexByte a c = None -> Strings.Split a c = [a].
Proof.
  induction a as [|d a IH]; cbn [Strings.IndexByte Strings.Split]; [done|]. destruct (Ascii.eqb d c); [done|].
  destruct (Strings.IndexByte a c); [done|]. intros _. by rewrite IH.
Qed.

Lemma Split_date y m d : all_digits y = true -> all_digits m = true -> all_digits d = true -> Strings.Split (y ++ "-" ++ m ++ "-" ++ d) "-" = [y; m; d].
Proof.
  intros Hy%digits_no_dash Hm%digits_no_dash Hd%digits_no_dash. change (y ++ "-" ++ m ++ "-" ++ d) with (y ++ String "-" (m ++ String "-" d)).
  by rewrite !Split_cut, !Split_whole.
Qed.

Lemma date_shape_spec s : date_shape s = true <->
  exists y m d, s = y ++ "-" ++ m ++ "-" ++ d /\ String.length y = 4%nat /\ String.length m = 2%nat /\ String.length d = 2%nat
    /\ all_digits y = true /\ all_digits m = true /\ all_digits d = true.
Proof.
  unfold date_shape. split.
  - intros H. pose proof (Join_Split s "-") as E. destruct (Strings.Split s "-") as [|y [|m [|d [|x l]]]]; try done. exists y, m, d.
    bsplit. rewrite !Nat.eqb_eq in *. by repeat split.
  - intros (y & m & d & -> & Ly & Lm & Ld & Hy & Hm & Hd). rewrite Split_date by done. by rewrite Ly, Lm, Ld, Hy, Hm, Hd.
Qed.

Lemma parse_date_spec y m d day : all_digits y = true -> all_digits m = true -> all_digits d = true ->
  parse_date (y ++ "-" ++ m ++ "-" ++ d) = Some day <->
  exists vy vm vd, (Strconv.Atoi y).1 = vy /\ (Strconv.Atoi m).1 = vm /\ (Strconv.Atoi d).1 = vd
    /\ 1 <= vm <= 12 /\ day = day_number vy vm vd /\ day_number vy vm 1 <= day < day_number vy (vm + 1) 1.
Proof.
  intros Hy Hm Hd. unfold parse_date. rewrite Split_date by done. cbn [fmap list_fmap]. set (vy := (Strconv.Atoi y).1). set (vm := (Strconv.Atoi m).1).
  set (vd := (Strconv.Atoi d).1). unfold day_number, month_days. split.
  - destruct (_ && _ && _ && _) eqn:E; [|done]. intros [= <-]. bsplit. exists vy, vm, vd. repeat split; lia.
  - intros (? & ? & ? & <- & <- & <- & Hm12 & -> & Hr).
    assert (E : (1 <=? vm) && (vm <=? 12) && (1 <=? vd) && (vd <=? month_start (is_leap vy) (vm + 1) - month_start (is_leap vy) vm) = true).
    { rewrite !andb_true_iff, !Z.leb_le. lia. }
    by rewrite E.
Qed.

Lemma archive_name before date ext : String.length date = 10%nat -> ext = ".tar.gz" \/ ext = ".tar.gz.enc" ->
  Strings.TrimSuffix (Strings.TrimSuffix (before ++ "_backup_" ++ date ++ ext) ".enc") ".tar.gz" = before ++ "_backup_" ++ date
  /\ Strings.HasSuffix (Strings.TrimSuffix (before ++ "_backup_" ++ date ++ ext) ".enc") ".tar.gz" = true.
Proof.
  intros Hl Hx. set (m := before ++ "_backup_" ++ date).
  assert (E : Strings.TrimSuffix (before ++ "_backup_" ++ date ++ ext) ".enc" = m ++ ".tar.gz").
  { replace (before ++ "_backup_" ++ date ++ ext) with (m ++ ext) by (unfold m; by rewrite <- !string_app_assoc). destruct Hx as [->| ->].
    - unfold Strings.TrimSuffix. destruct (Strings.HasSuffix (m ++ ".tar.gz") ".enc") eqn:E; [exfalso|done]. unfold Strings.HasSuffix in E.
      apply andb_true_iff in E as [_ E%String.eqb_eq]. rewrite string_app_length in E. cbn [String.length] in E.
      pose proof (drop_app_n m ".tar.gz" 3) as D. unfold Strings.drop in D. rewrite string_app_length in D. cbn [String.length] in D.
      replace (String.length m + 7 - 4)%nat with (String.length m + 3)%nat in E by lia.
      replace (String.length m + 7 - (String.length m + 3))%nat with 4%nat in D by lia. rewrite E in D. done.
    - change ".tar.gz.enc" with (".tar.gz" ++ ".enc"). rewrite string_app_assoc. apply TrimSuffix_app. }
  rewrite E. split; [apply TrimSuffix_app | apply HasSuffix_app].
Qed.

Lemma backupFileRE_spec n date : backupFileRE n = Some date <->
  exists before ext, n = before ++ "_backup_" ++ date ++ ext /\ (ext = ".tar.gz" \/ ext = ".tar.gz.enc") /\ date_shape date = true.
Proof.
  unfold backupFileRE. cbv zeta. set (n0 := Strings.TrimSuffix n ".enc"). set (m := Strings.TrimSuffix n0 ".tar.gz"). split.
  - destruct (_ && _) eqn:E; [|done]. intros [= <-]. apply andb_true_iff in E as [[E1 E2]%andb_true_iff E3].
    apply HasSuffix_spec in E1 as [m' E1]. assert (Em : m = m') by (unfold m; rewrite E1; apply TrimSuffix_app). subst m'.
    apply HasSuffix_spec in E3 as [before E3]. pose proof (take_drop (String.length m - 10) m) as Ec. rewrite E3 in Ec.
    exists before. destruct (Strings.HasSuffix n ".enc") eqn:Es.
    + apply HasSuffix_spec in Es as [n1 Es]. exists ".tar.gz.enc". split; [|by auto].
      assert (n0 = n1) as E0 by (unfold n0; rewrite Es; apply TrimSuffix_app). rewrite Es, <- E0, E1, <- Ec at 1. by rewrite <- !string_app_assoc.
    + exists ".tar.gz". split; [|by auto]. assert (n0 = n) as E0 by (unfold n0, Strings.TrimSuffix; by rewrite Es).
      rewrite <- E0, E1, <- Ec at 1. by rewrite <- !string_app_assoc.
  - intros (before & ext & En & Hx & Hd). assert (Hl : String.length date = 10%nat).
    { apply date_shape_spec in Hd as (y & mm & d & -> & Ly & Lm & Ld & _). rewrite !string_app_length, Ly, Lm, Ld. done. }
    destruct (archive_name before date ext Hl Hx) as [T H]. rewrite <- En in T, H. fold n0 in T, H. fold m in T. rewrite H, T.
    replace (String.length (before ++ "_backup_" ++ date) - 10)%nat with (String.length (before ++ "_backup_")) by (rewrite !string_app_length, Hl; lia).
    rewrite string_app_assoc, drop_app, take_app, Hd, HasSuffix_app. done.
Qed.

(** The dated backups are the files of the directory whose names tell a day. *)
Lemma backups_spec dir project d n day : (n, day) ∈ backups dir project d <-> n ∈ listing dir d /\ names_day project n day.
Proof.
  unfold backups, names_day. rewrite elem_valid. setoid_rewrite elem_dated. setoid_rewrite backupFileRE_spec. split.
  - intros (date & (Hn & Hp & before & ext & -> & Hx & Hs) & Hd). do 2 (split; [done|]).
    apply date_shape_spec in Hs as (ys & ms & ds & -> & Ly & Lm & Ld & Dy & Dm & Dd). apply parse_date_spec in Hd as (y & m & dd & V1 & V2 & V3 & K); [|done..].
    exists before, ys, ms, ds, ext, y, m, dd. unfold numeral. tauto.
  - intros (Hn & Hp & before & ys & ms & ds & ext & y & m & dd & -> & Hx & (Ly & Dy & V1) & (Lm & Dm & V2) & (Ld & Dd & V3) & K).
    exists (ys ++ "-" ++ ms ++ "-" ++ ds). split; [|apply parse_date_spec; try done; by exists y, m, dd]. do 2 (split; [done|]). exists before, ext. do 2 (split; [done|]).
    apply date_shape_spec. by exists ys, ms, ds.
Qed.

Lemma in_set_IndexByte c n : Strings.in_set n c = false <-> Strings.IndexByte n c = None.
Proof.
  rewrite <- any_in_set_single. unfold Strings.in_set. induction n as [|d n IH]; [done|]. cbn [Strings.any]. rewrite Ascii.eqb_sym, orb_false_r, !orb_false_iff.
  by rewrite IH.
Qed.

Lemma dated_component n date : Strings.in_set n "/" = false -> backupFileRE n = Some date -> component n.
Proof. intros Hs%in_set_IndexByte Hr. split; [by intros ->|]. split; [by intros ->|]. split; [by intros ->|done]. Qed.

(** ** Removing files *)

Lemma drops_refl ps d : drops ps d d.
Proof. done. Qed.
Lemma drops_trans ps ps' d1 d2 d3 : drops ps d1 d2 -> drops ps' d2 d3 -> drops (ps ++ ps') d1 d3.
Proof. intros [H1 H2] [H3 H4]. split; [congruence|]. intros p Hp. rewrite H4, H2 by set_solver. done. Qed.
Lemma drops_weaken ps ps' d d' : ps ⊆ ps' -> drops ps d d' -> drops ps' d d'.
Proof. intros Hp [H1 H2]. split; [done|]. intros p K. apply H2. set_solver. Qed.
Lemma drops_faults ps d l : drops ps d (set_faults l d).
Proof. done. Qed.

Section removing.
Context `{Gzip}.
Variable dir : string.

Lemma remove_all_drops l : forall d, drops (in_dir dir <$> l) d (remove_all dir l d).2.
Proof.
  induction l as [|n l IH]; intros d; [done|]. cbn [remove_all fmap list_fmap]. rewrite bind_D. pose proof (Remove_drops (in_dir dir n) d) as K.
  destruct (Remove (in_dir dir n) d) as [r d1]. rewrite bind_D. specialize (IH d1). destruct (remove_all dir l d1) as [rest d2]. cbn [snd] in *.
  by apply (drops_trans [in_dir dir n] _ d d1).
Qed.

Lemma remove_all_calm l : forall d, calm d -> calm (remove_all dir l d).2 /\ forall n, n ∈ l -> names (remove_all dir l d).2 !! in_dir dir n = None.
Proof.
  induction l as [|n l IH]; intros d Hc; [split; [done|]; intros n Hn; by apply elem_of_nil in Hn|]. cbn [remove_all]. rewrite bind_D.
  assert (K : calm (Remove (in_dir dir n) d).2 /\ names (Remove (in_dir dir n) d).2 !! in_dir dir n = None).
  { unfold Remove. rewrite sys_calm by done. destruct (names d !! in_dir dir n) eqn:E; [|done]. split; [done|]. apply lookup_delete_eq. }
  destruct (Remove (in_dir dir n) d) as [r d1]. cbn [snd] in K. destruct K as [Hc1 Hn1]. rewrite bind_D. destruct (IH d1 Hc1) as [Hc2 Hn2].
  pose proof (remove_all_drops l d1) as [_ Hd]. destruct (remove_all dir l d1) as [rest d2]. cbn [snd mret D_ret] in *. split; [done|].
  intros m [->|Hm]%elem_of_cons; [|by apply Hn2]. destruct (decide (in_dir dir n ∈ in_dir dir <$> l)) as [Hi|Hi]; [|by rewrite Hd].
  apply list_elem_of_fmap in Hi as (m & -> & Hm). by apply Hn2.
Qed.

Lemma with_sizes_names l : forall d, names (with_sizes dir l d).2 = names d /\ inodes (with_sizes dir l d).2 = inodes d /\ (fst <$> (with_sizes dir l d).1) `sublist_of` l.
Proof.
  induction l as [|[n date] l IH]; intros d; [done|]. cbn [with_sizes]. rewrite bind_D.
  assert (K : names (Stat (in_dir dir n) d).2 = names d /\ inodes (Stat (in_dir dir n) d).2 = inodes d) by (unfold Stat, sys; by destruct (hd false (d_faults d))).
  destruct (Stat (in_dir dir n) d) as [st d1]. rewrite bind_D. destruct (IH d1) as (I1 & I2 & I3). destruct (with_sizes dir l d1) as [rest d2]. cbn [fst snd mret D_ret] in *.
  destruct K as [K1 K2]. rewrite I1, I2. split; [done|]. split; [done|]. by destruct st; cbn [fmap list_fmap fst]; constructor.
Qed.

Lemma shrink_cons cap total n date size y l : shrink dir cap total ((n, date, size) :: y :: l)
  = if cap <? total then
      r ← Remove (in_dir dir n);
      if is_ok r then rest ← shrink dir cap (total - size) (y :: l); mret (n :: rest) else shrink dir cap total (y :: l)
    else mret [].
Proof. reflexivity. Qed.

Lemma shrink_drops cap l : forall total d, drops (in_dir dir ∘ fst ∘ fst <$> List.removelast l) d (shrink dir cap total l d).2.
Proof.
  induction l as [|[[n date] size] l IH]; intros total d; [done|]. destruct l as [|y l]; [done|]. rewrite shrink_cons.
  change (List.removelast ((n, date, size) :: y :: l)) with ((n, date, size) :: List.removelast (y :: l)). cbn [fmap list_fmap compose fst].
  destruct (cap <? total); [|by split]. rewrite bind_D. pose proof (Remove_drops (in_dir dir n) d) as K. destruct (Remove (in_dir dir n) d) as [r d1]. cbn [snd] in K.
  assert (Hg : forall t, drops (in_dir dir n :: (in_dir dir ∘ fst ∘ fst <$> List.removelast (y :: l))) d (shrink dir cap t (y :: l) d1).2).
  { intros t. by apply (drops_trans [in_dir dir n] _ d d1). }
  destruct (is_ok r); [|apply Hg]. rewrite bind_D. specialize (Hg (total - size)). destruct (shrink dir cap (total - size) (y :: l) d1). exact Hg.
Qed.
End removing.

Section leaving.
Context `{Gzip}.
Variables (dir project : string) (Hdir : clean_dir dir).

Definition dated_files (d : Disk) : list (string * string) := dated project (listing dir d).

Lemma dated_at d n date : (n, date) ∈ dated_files d -> in_dir dir n = at_name dir n.
Proof. intros ((Hs & _)%elem_listing & _ & Hr)%elem_dated. apply in_dir_simple; [done|]. by eapply dated_component. Qed.

Lemma at_name_inj m n : at_name dir m = at_name dir n -> m = n.
Proof. unfold at_name. intros E%app_inj_l. by injection E. Qed.

(** A dated file stays when other dated files are removed. *)
Lemma drops_dated l d d' n date : drops (in_dir dir <$> l) d d' -> (forall m, m ∈ l -> exists e, (m, e) ∈ dated_files d) -> n ∉ l ->
  (n, date) ∈ dated_files d -> (n, date) ∈ dated_files d'.
Proof.
  intros [_ Hd] Hl Hn Hf. pose proof Hf as ((Hs & Hi)%elem_listing & Hp & Hr)%elem_dated. apply elem_dated. split; [|done]. apply elem_listing. split; [done|].
  rewrite Hd; [done|]. intros (m & E & Hm)%list_elem_of_fmap. destruct (Hl m Hm) as [e He]. rewrite (dated_at d m e He) in E. apply at_name_inj in E. by subst m.
Qed.

Lemma ReadDir_same d : names (ReadDir dir d).2 = names d /\ (forall l, (ReadDir dir d).1 = Ok l -> l = listing dir d).
Proof. unfold ReadDir, sys. destruct (hd false (d_faults d)); split; try done. by intros l [= <-]. Qed.

Lemma dated_files_ext d d' : names d' = names d -> dated_files d' = dated_files d.
Proof. intros E. unfold dated_files, listing, with_prefix. by rewrite E. Qed.

Lemma sizecap_leaves cap d : dated_files d <> [] -> dated_files (applySizeCap dir project cap d).2 <> [].
Proof.
  intros Hne. unfold applySizeCap. destruct (cap <=? 0); [done|]. rewrite bind_D. destruct (ReadDir_same d) as [E1 E2].
  destruct (ReadDir dir d) as [[l|x] d1]; cbn [fst snd] in *; [|by rewrite (dated_files_ext d)]. specialize (E2 l eq_refl) as ->.
  rewrite bind_D. fold (dated_files d). destruct (with_sizes_names dir (dated_files d) d1) as (W1 & _ & W3).
  destruct (with_sizes dir (dated_files d) d1) as [files d2]. cbn [fst snd] in *. rewrite <- (dated_files_ext d d2) in Hne, W3 by congruence.
  set (sorted := merge_sort older files). pose proof (shrink_drops dir cap sorted (foldr (fun f n => f.2 + n) 0 files) d2) as K.
  destruct (shrink dir cap _ sorted d2) as [gone d3]. cbn [snd] in *.
  assert (Hsub : forall x, x ∈ sorted -> x.1 ∈ dated_files d2).
  { intros x Hx. unfold sorted in Hx. rewrite merge_sort_Permutation in Hx. eapply elem_of_sublist, W3. apply list_elem_of_fmap. by exists x. }
  assert (Hnd : NoDup sorted.*1.*1).
  { unfold sorted. rewrite merge_sort_Permutation. eapply sublist_NoDup; [|apply fmap_sublist, W3]. apply dated_fst, listing_NoDup. }
  destruct sorted as [|x0 l0] eqn:Es.
  - destruct K as [_ K]. rewrite (dated_files_ext d2); [done|]. apply map_eq. intros p. apply K. cbn. set_solver.
  - destruct (List.exists_last (l := x0 :: l0) ltac:(done)) as (l' & z & Ez). rewrite Ez in *. rewrite List.removelast_last in K.
    rewrite !fmap_app in Hnd. apply NoDup_app in Hnd as (_ & Hz & _).
    assert (Hz' : z.1 ∈ dated_files d3).
    { destruct z as [[n date] sz]. rewrite list_fmap_compose in K. rewrite list_fmap_compose in K. eapply drops_dated; [exact K|..].
      - intros m ([m' e] & -> & (y & -> & Hy)%list_elem_of_fmap)%list_elem_of_fmap. exists y.1.2.
        specialize (Hsub y ltac:(set_solver)). destruct y as [[? ?] ?]. exact Hsub.
      - intros Hc. apply (Hz n Hc). by left.
      - apply (Hsub (n, date, sz)). set_solver. }
    intros E. rewrite E in Hz'. by apply elem_of_nil in Hz'.
Qed.

(** ** A retention pass *)

Lemma newer_perm ret day l l' : l ≡ₚ l' -> tier_newer ret day l = tier_newer ret day l'.
Proof. intros E. unfold tier_newer, keep. f_equal. apply Permutation_length. induction E; cbn; repeat case_match; try done; try by constructor. by etrans. Qed.

Lemma backups_dated d n day : (n, day) ∈ backups dir project d -> exists date, (n, date) ∈ dated_files d.
Proof. intros (date & Hd & _)%elem_valid. by exists date. Qed.

(** What the first part of a pass removes. *)
Definition pruned (ret : BackupRetention) (d : Disk) : list string := (sort_tiers ret (fun _ => 0) (merge_sort later (backups dir project d))).2.

Lemma sorted_names_NoDup d : NoDup (merge_sort later (backups dir project d)).*1.
Proof. rewrite merge_sort_Permutation. apply backups_NoDup. Qed.

Lemma doomed_backup ret d n : n ∈ pruned ret d -> exists day, (n, day) ∈ backups dir project d.
Proof.
  intros Hn. pose proof (sort_tiers_sub _ _ _ _ (or_intror Hn)) as ([m day] & -> & Hm)%list_elem_of_fmap. rewrite merge_sort_Permutation in Hm. by exists day.
Qed.

Lemma doomed_newer ret d n day : NoDup (backups dir project d).*2 -> (n, day) ∈ backups dir project d ->
  (n ∈ pruned ret d <-> tier_limit ret (classify ret day) <= tier_newer ret day (backups dir project d)).
Proof.
  intros Hd Hn. unfold pruned. rewrite (sort_tiers_newer ret _ _ n day).
  - by rewrite (newer_perm ret day _ _ (merge_sort_Permutation later (backups dir project d))), Z.add_0_l.
  - apply sorted_names_NoDup.
  - by rewrite merge_sort_Permutation.
  - apply StronglySorted_merge_sort; [intros x y z; unfold later; lia | intros x y; unfold later; lia].
  - by rewrite merge_sort_Permutation.
Qed.

Lemma doomed_leaves ret d : 1 <= MaxBackups ret -> dated_files d <> [] -> exists n date, (n, date) ∈ dated_files d /\ n ∉ pruned ret d.
Proof.
  intros Hm Hne. unfold pruned. pose proof (sorted_names_NoDup d) as Hnd.
  destruct (merge_sort later (backups dir project d)) as [|[n day] l] eqn:E.
  - destruct (dated_files d) as [|[n date] l]; [done|]. exists n, date. split; [by left|]. cbn. by intros ?%elem_of_nil.
  - assert (Hi : (n, day) ∈ backups dir project d) by (rewrite <- (merge_sort_Permutation later), E; by left).
    apply backups_dated in Hi as [date Hi]. exists n, date. split; [done|]. by apply sort_tiers_first.
Qed.

Lemma doomed_in_dir ret d n : n ∈ pruned ret d -> exists e, (n, e) ∈ dated_files d.
Proof. intros (day & Hn)%doomed_backup. by apply backups_dated in Hn. Qed.
End leaving.

(** Whatever fails during a retention pass and whatever the cap on the total
    size, a project that had a dated backup still has one afterwards, as long as at
    least one daily backup is to be kept. *)
Theorem retention_leaves_one `{Gzip} (cap : Z) (cfg : BackupConfig) (d : Disk) : clean_dir (bc_dir cfg) -> 1 <= MaxBackups (Retention cfg) ->
  dated_files (bc_dir cfg) (bc_project cfg) d <> [] -> dated_files (bc_dir cfg) (bc_project cfg) (applyRetention cap cfg d).2 <> [].
Proof.
  intros Hdir Hm Hne. unfold applyRetention. set (dir := bc_dir cfg) in *. set (project := bc_project cfg) in *. unfold then_. rewrite bind_D.
  destruct (ReadDir_same dir d) as [E1 E2].
  destruct (ReadDir dir d) as [[l|x] d1]; cbn [fst snd] in *; [|by rewrite (dated_files_ext dir project d)]. specialize (E2 l eq_refl) as ->.
  fold (backups dir project d). fold (pruned dir project (Retention cfg) d). rewrite bind_D.
  destruct (doomed_leaves dir project (Retention cfg) d Hm Hne) as (n & date & Hn & Hg).
  pose proof (remove_all_drops dir (pruned dir project (Retention cfg) d) d1) as K. destruct (remove_all dir _ d1) as [gone d2]. cbn [snd] in K.
  assert (Hn2 : (n, date) ∈ dated_files dir project d2).
  { eapply drops_dated; [done|exact K| |exact Hg|]; rewrite (dated_files_ext dir project d d1) by done; [apply doomed_in_dir|done]. }
  rewrite bind_D. pose proof (sizecap_leaves dir project Hdir cap d2) as L. destruct (applySizeCap dir project cap d2) as [more d3]. apply L.
  intros E. rewrite E in Hn2. by apply elem_of_nil in Hn2.
Qed.

Lemma retention_calm `{Gzip} (cap : Z) (cfg : BackupConfig) (d : Disk) : calm d -> cap <= 0 -> clean_dir (bc_dir cfg) ->
  let gone := pruned (bc_dir cfg) (bc_project cfg) (Retention cfg) d in
  (forall n, n ∈ gone -> names (applyRetention cap cfg d).2 !! in_dir (bc_dir cfg) n = None)
  /\ drops (in_dir (bc_dir cfg) <$> gone) d (applyRetention cap cfg d).2.
Proof.
  intros Hc Hcap Hdir gone. unfold applyRetention, then_. rewrite bind_D. unfold ReadDir. rewrite sys_calm by done. rewrite bind_D.
  fold (backups (bc_dir cfg) (bc_project cfg) d). fold (pruned (bc_dir cfg) (bc_project cfg) (Retention cfg) d). fold gone.
  pose proof (remove_all_drops (bc_dir cfg) gone d) as K. pose proof (remove_all_calm (bc_dir cfg) gone d Hc) as [_ L].
  destruct (remove_all (bc_dir cfg) gone d) as [r d2]. cbn [snd] in *. rewrite bind_D. unfold applySizeCap.
  rewrite (proj2 (Z.leb_le _ _)) by done. done.
Qed.

Lemma one_name_each (l : list (string * Z)) : NoDup l.*1 -> (forall n1 n2 day, (n1, day) ∈ l -> (n2, day) ∈ l -> n1 = n2) -> NoDup l.*2.
Proof.
  induction l as [|[n day] l IH]; intros Hn Ho; [constructor|]. cbn [fmap list_fmap fst snd] in *. apply NoDup_cons in Hn as [Hi Hn]. apply NoDup_cons. split.
  - intros ([m e] & E & Hm)%list_elem_of_fmap. cbn in E. subst e. apply Hi, list_elem_of_fmap. exists (m, day). split; [|done].
    apply (Ho n m day); [by left | by right].
  - apply IH; [done|]. intros n1 n2 e H1 H2. apply (Ho n1 n2 e); by right.
Qed.

(** The files newer than a day are as many as the list of their names is long. *)
Lemma newer_names `{Gzip} dir project ret d day t : falls ret day t -> forall k,
  k <= tier_newer ret day (backups dir project d) <->
  exists newer, NoDup newer /\ k <= Z.of_nat (length newer)
    /\ forall x, x ∈ newer <-> x ∈ listing dir d /\ exists e, names_day project x e /\ day < e /\ falls ret e t.
Proof.
  intros Ht k. apply falls_classify in Ht as <-. unfold tier_newer. set (l := keep _ _).
  assert (Hl : forall x, x ∈ l.*1 <-> x ∈ listing dir d /\ exists e, names_day project x e /\ day < e /\ falls ret e (classify ret day)).
  { intros x. rewrite list_elem_of_fmap. split.
    - intros ([n e] & -> & Hx). unfold l in Hx. apply keep_elem in Hx as [Hx Hp]. apply backups_spec in Hx as [Hx Hn]. cbn [fst snd] in *. split; [done|].
      exists e. apply andb_true_iff in Hp as [Hp1%Z.ltb_lt Hp2%bool_decide_eq_true]. by rewrite falls_classify.
    - intros (Hx & e & Hn & He & Hf%falls_classify). exists (x, e). split; [done|]. unfold l. apply keep_elem. split; [by apply backups_spec|]. cbn [snd].
      apply andb_true_iff. split; [by apply Z.ltb_lt | by apply bool_decide_eq_true]. }
  assert (Hd : NoDup l.*1).
  { apply (sublist_NoDup _ (backups dir project d).*1); [apply backups_NoDup | apply fmap_sublist, keep_sublist]. }
  split; [intros Hk; exists l.*1; split; [done|]; split; [by rewrite length_fmap | done]|].
  intros (newer & Hn & Hk & Hx). enough (Ep : l.*1 ≡ₚ newer) by (by rewrite <- Ep, length_fmap in Hk). apply NoDup_Permutation; [done..|]. intros x. by rewrite Hl, Hx.
Qed.

(** C28 — Without a cap on the total size, when no disk operation fails and when no two
    backups of the project tell the same day, a retention pass removes a backup
    exactly when as many newer backups fall in its tier as the tier has room for.
    A day falls in the first of these tiers of which at least one is to be kept: the
    first of January, the first of a month, a Sunday, any day. Files whose names do
    not begin with the name of the project and end with a date of the calendar stay as they are. *)
Theorem retention_exact `{Gzip} (cap : Z) (cfg : BackupConfig) (d : Disk) : calm d -> cap <= 0 -> clean_dir (bc_dir cfg) ->
  let ret := Retention cfg in let d' := (applyRetention cap cfg d).2 in
  let backup n day := n ∈ listing (bc_dir cfg) d /\ names_day (bc_project cfg) n day in
  (forall n1 n2 day, backup n1 day -> backup n2 day -> n1 = n2) ->
  (forall n day t, backup n day -> falls ret day t ->
     names d' !! in_dir (bc_dir cfg) n = None <->
     exists newer, NoDup newer /\ room ret t <= Z.of_nat (length newer)
       /\ forall x, x ∈ newer <-> x ∈ listing (bc_dir cfg) d /\ exists e, names_day (bc_project cfg) x e /\ day < e /\ falls ret e t)
  /\ (forall p, (forall n day, backup n day -> p <> in_dir (bc_dir cfg) n) -> file_at d' p = file_at d p).
Proof.
  intros Hc Hcap Hdir ret d' backup Hone. destruct (retention_calm cap cfg d Hc Hcap Hdir) as [Hg Hk]. fold d' ret in Hg, Hk.
  set (all := backups (bc_dir cfg) (bc_project cfg) d). assert (Hall : forall n day, (n, day) ∈ all <-> backup n day) by (intros; apply backups_spec).
  assert (Hnd : NoDup all.*2) by (apply (one_name_each all); [apply backups_NoDup | intros; eapply Hone; by apply Hall]). split.
  - intros n day t Hn%Hall Ht. rewrite <- (newer_names (bc_dir cfg) (bc_project cfg) ret d day t Ht).
    pose proof (doomed_newer (bc_dir cfg) (bc_project cfg) ret d n day Hnd Hn) as D. fold all in D |- *. apply falls_classify in Ht as Et. rewrite Et in D.
    change (tier_limit ret t) with (room ret t) in D. rewrite <- D. split; [|apply Hg].
    intros E. destruct (decide (n ∈ pruned (bc_dir cfg) (bc_project cfg) ret d)) as [Hi|Hi]; [done|exfalso].
    destruct (backups_dated _ _ _ _ _ Hn) as [date Hf].
    pose proof (drops_dated _ (bc_project cfg) Hdir _ _ _ _ _ Hk (doomed_in_dir _ _ _ _) Hi Hf) as Hf'.
    pose proof (dated_at _ (bc_project cfg) Hdir _ _ _ Hf) as E'. apply elem_dated in Hf' as [[_ [i Hi']]%elem_listing _]. rewrite E' in E. by rewrite E in Hi'.
  - intros p Hp. apply (drops_file _ _ _ _ Hk). intros Hi. apply list_elem_of_fmap in Hi as (n & -> & (day & Hn%Hall)%doomed_backup). by eapply Hp.
Qed.

(** The sweep at the start takes the limits as configured: with none kept, it removes
    every dated backup. *)
Lemma sweep_unclamped `{Gzip} (cap : Z) (cfg : BackupConfig) (d : Disk) : calm d -> cap <= 0 -> clean_dir (bc_dir cfg) ->
  MaxBackups (Retention cfg) <= 0 -> KeepWeekly (Retention cfg) <= 0 -> KeepMonthly (Retention cfg) <= 0 -> KeepYearly (Retention cfg) <= 0 ->
  NoDup (backups (bc_dir cfg) (bc_project cfg) d).*2 ->
  forall n day, (n, day) ∈ backups (bc_dir cfg) (bc_project cfg) d -> names (RetentionSweep (Ok true) cap cfg d).2 !! in_dir (bc_dir cfg) n = None.
Proof.
  intros Hc Hcap Hdir K1 K2 K3 K4 Hnd n day Hn. cbn [RetentionSweep]. apply (retention_calm cap cfg d Hc Hcap Hdir).
  apply (doomed_newer _ _ _ _ n day Hnd Hn). unfold classify. rewrite !(proj2 (Z.ltb_ge _ _)) by done. rewrite !andb_false_r. cbn [tier_limit].
  unfold tier_newer. lia.
Qed.

(** The backups of three days: the first of March, the second and the third. *)
Definition three_days : Disk :=
  {| names := {["/b/p_backup_2025-03-01.tar.gz" := 0%nat; "/b/p_backup_2025-03-02.tar.gz" := 1%nat; "/b/p_backup_2025-03-03.tar.gz" := 2%nat;
                "/b/p-daily.tar.gz" := 3%nat]};
     inodes := replicate 4 {| i_data := Plain ["x"]; i_mtime := 0 |}; d_clock := 0; d_ticks := []; d_faults := [] |}.

Lemma clean_b : clean_dir "/b".
Proof. exists ["b"]. split; [done|]. split; [|done]. repeat constructor; discriminate. Qed.

Theorem retention_leaves_one_witness :
  dated_files "/b" "p" three_days <> [] /\ dated_files "/b" "p" (applyRetention 1 some_backups three_days).2 <> [].
Proof.
  assert (E : dated_files "/b" "p" three_days <> []) by (vm_compute; discriminate). split; [exact E|].
  pose proof (retention_leaves_one 1 some_backups three_days clean_b ltac:(vm_compute; discriminate) E) as P. exact P.
Defined.

Lemma three_days_listing : listing "/b" three_days
  = ["p-daily.tar.gz"; "p_backup_2025-03-01.tar.gz"; "p_backup_2025-03-02.tar.gz"; "p_backup_2025-03-03.tar.gz"].
Proof. vm_compute. reflexivity. Qed.

Lemma three_days_backups : backups "/b" "p" three_days
  = [("p_backup_2025-03-01.tar.gz", 739310); ("p_backup_2025-03-02.tar.gz", 739311); ("p_backup_2025-03-03.tar.gz", 739312)].
Proof. vm_compute. reflexivity. Qed.

Theorem retention_exact_witness :
  names_day "p" "p_backup_2025-03-02.tar.gz" 739311 /\ falls some_retention 739311 Daily
  /\ names (applyRetention 0 some_backups three_days).2 !! "/b/p_backup_2025-03-02.tar.gz" = None
  /\ file_at (applyRetention 0 some_backups three_days).2 "/b/p-daily.tar.gz" = file_at three_days "/b/p-daily.tar.gz".
Proof.
  assert (Hb : forall n day, n ∈ listing "/b" three_days /\ names_day "p" n day -> (n, day) ∈
    [("p_backup_2025-03-01.tar.gz", 739310); ("p_backup_2025-03-02.tar.gz", 739311); ("p_backup_2025-03-03.tar.gz", 739312)])
    by (intros n day H%backups_spec; by rewrite <- three_days_backups).
  assert (Hin : ("p_backup_2025-03-02.tar.gz", 739311) ∈ backups "/b" "p" three_days) by (rewrite three_days_backups; right; left).
  assert (Hf : falls some_retention 739311 Daily) by (apply falls_classify; reflexivity).
  pose proof (retention_exact 0 some_backups three_days eq_refl (Z.le_refl 0) clean_b) as P. cbv zeta in P. cbn [bc_dir bc_project Retention some_backups] in P.
  destruct P as [K1 K2].
  { intros n1 n2 day H1%Hb H2%Hb. repeat setoid_rewrite elem_of_cons in H1. repeat setoid_rewrite elem_of_cons in H2.
    destruct H1 as [E1|[E1|[E1|H1]]]; [..|by apply elem_of_nil in H1]; (destruct H2 as [E2|[E2|[E2|H2]]]; [..|by apply elem_of_nil in H2]); by simplify_eq. }
  apply backups_spec in Hin. split; [apply Hin|]. split; [exact Hf|]. split.
  - apply (K1 _ _ _ Hin Hf). apply (newer_names "/b" "p" some_retention three_days 739311 Daily Hf). rewrite three_days_backups. vm_compute. discriminate.
  - apply K2. intros n day H%Hb E. repeat setoid_rewrite elem_of_cons in H.
    destruct H as [[= -> ->]|[[= -> ->]|[[= -> ->]|H]]]; [vm_compute in E; discriminate..|by apply elem_of_nil in H].
Defined.
