(* ===== verification/Download.v ===== *)
(** * Downloads to a file (the HTTP client as src/src/task/task.go and
    src/src/updater/updater.go use it)

    What the network answers is a function of the address: an error, or a reply
    whose body comes in chunks and may break off. A download goes to a temporary
    file beside its destination; what is done with it before it takes its place is
    the caller's. *)

From S2P Require Import Prelude RotateProofs GoStr FileSys Config ConfigStore ConfigStoreProofs Backup BackupProofs.

Record Reply := { rp_status : Z; rp_chunks : list string; rp_complete : bool }.
Definition Network : Type := string -> result Reply.

Definition body_text (r : Reply) : string := String.concat "" (rp_chunks r).

(** [io.LimitReader]: at the limit the body ends. *)
Fixpoint cut (n : Z) (l : list string) : list string :=
  match l with
  | [] => []
  | c :: l => if n <=? 0 then [] else if strlen c <=? n then c :: cut (n - strlen c) l else [limited n c]
  end.
Definition LimitReply (n : Z) (r : Reply) : Reply :=
  {| rp_status := rp_status r; rp_chunks := cut n (rp_chunks r); rp_complete := rp_complete r || (n <=? total (rp_chunks r)) |}.

Fixpoint write_chunks (i : nat) (l : list string) : D (result unit) :=
  match l with
  | [] => mret (Ok tt)
  | c :: l => _ <-? WriteString i c; write_chunks i l
  end.

(** [io.Copy] of a body to a file. *)
Definition copy_body (i : nat) (r : Reply) : D (result unit) :=
  _ <-? write_chunks i (rp_chunks r);
  check (rp_complete r) "unexpected EOF".

(** A temporary file beside [path]: filled, and committed when that went well; in the
    end the name is removed. *)
Definition with_temp `{TempNames} (path : string) (fill : string -> nat -> D (result unit)) (commit : string -> D (result unit)) : D (result unit) := fun d =>
  let tmp := temp_name path d in
  (f ← CreateTemp tmp;
   match f with
   | Err e => mret (Err ("creating temp file: " ++ e))
   | Ok i =>
       r ← fill tmp i;
       r ← (match r with Ok _ => commit tmp | Err e => mret (Err e) end);
       _ ← Remove tmp;
       mret r
   end) d.

(** ** What becomes of the destination *)

(** Steps that touch the temporary file only, and what they leave in it when they
    succeed. *)
Definition stages {A} (d0 : Disk) (tmp : string) (l : list string) (m : D (result A)) (Q : A -> list string -> Prop) : Prop :=
  forall d r d', writing d0 tmp l d -> m d = (r, d') -> exists l', writing d0 tmp l' d' /\ (forall a, r = Ok a -> Q a l').

Section staging.
Context (d0 : Disk) (tmp : string).

Lemma stages_ret {A} l (a : A) : stages d0 tmp l (mret (Ok a)) (fun b l' => b = a /\ l' = l).
Proof. intros d r d' Hw [= <- <-]. exists l. split; [done|]. by intros ? [= ->]. Qed.

Lemma stages_check l b e : stages d0 tmp l (check b e) (fun _ l' => b = true /\ l' = l).
Proof. intros d r d' Hw E. unfold check in E. injection E as <- <-. exists l. split; [done|]. intros a. by destruct b. Qed.

Lemma stages_then {A B} l (m : D (result A)) (f : A -> D (result B)) Q R :
  stages d0 tmp l m Q -> (forall a l', Q a l' -> stages d0 tmp l' (f a) R) -> stages d0 tmp l (then_ m f) R.
Proof.
  intros Hm Hf d r d' Hw E. unfold then_, mbind, D_bind in E. destruct (m d) as [[a|e] d1] eqn:E1.
  - destruct (Hm _ _ _ Hw E1) as (l' & Hw' & Hq). by apply (Hf a l' (Hq a eq_refl) d1).
  - injection E as <- <-. destruct (Hm _ _ _ Hw E1) as (l' & Hw' & _). by exists l'.
Qed.

Lemma stages_context {A} l w (m : D (result A)) Q : stages d0 tmp l m Q -> stages d0 tmp l (in_context w m) Q.
Proof.
  intros Hm d r d' Hw E. unfold in_context, mbind, D_bind, mret, D_ret in E. destruct (m d) as [[a|e] d1] eqn:E1; injection E as <- <-;
    destruct (Hm _ _ _ Hw E1) as (l' & Hw' & Hq); exists l'; (split; [done|]); [done|by intros].
Qed.

Lemma stages_weaken {A} l (m : D (result A)) (Q R : A -> list string -> Prop) : (forall a l', Q a l' -> R a l') -> stages d0 tmp l m Q -> stages d0 tmp l m R.
Proof. intros HQ Hm d r d' Hw E. destruct (Hm _ _ _ Hw E) as (l' & Hw' & Hq). exists l'. split; [done|]. intros a Ha. by apply HQ, Hq. Qed.

(** A system call that changes no file. *)
Lemma stages_idle {A} l (f : Disk -> result A * Disk) : (forall d, (f d).2 = d) -> stages d0 tmp l (sys f) (fun _ l' => l' = l).
Proof.
  intros Hf d r d' Hw. unfold sys. destruct (hd false (d_faults d)); [intros [= <- <-]; exists l; by split; [apply writing_faults|]|].
  intros E. exists l. pose proof (Hf (set_faults (tl (d_faults d)) d)) as Hd. rewrite E in Hd. cbn [snd] in Hd. subst d'. by split; [apply writing_faults|].
Qed.

(** Reading the temporary file. *)
Lemma stages_ReadTemp l : sound d0 -> stages d0 tmp l (ReadFile tmp) (fun text l' => text = String.concat "" l' /\ l' = l).
Proof.
  intros Hs d r d' Hw. unfold ReadFile, sys. destruct (hd false (d_faults d)); [intros [= <- <-]; exists l; by split; [apply writing_faults|]|].
  assert (E : file_at (set_faults (tl (d_faults d)) d) tmp = file_at d tmp) by done. rewrite E. clear E. destruct Hw as [Hn [t Hi]].
  assert (E : file_at d tmp = Some {| i_data := Plain l; i_mtime := t |}) by (unfold file_at; rewrite Hn, lookup_insert_eq; cbn; by rewrite Hi, lookup_app_r, Nat.sub_diag).
  rewrite E. cbn. intros [= <- <-]. exists l. split; [|by intros a [= <-]]. constructor; [done|by exists t].
Qed.

Lemma stages_write_chunks l chunks : stages d0 tmp l (write_chunks (length (inodes d0)) chunks) (fun _ l' => l' = (l ++ chunks)%list).
Proof.
  revert l. induction chunks as [|c chunks IH]; intros l; cbn [write_chunks].
  - eapply stages_weaken; [|apply stages_ret]. intros a l' [_ ->]. by rewrite app_nil_r.
  - apply (stages_then l _ _ (fun _ l' => l' = l ++ [c])%list).
    + intros d r d' Hw E. apply (write_temp _ _ _ _ _ _ _ Hw) in E as [[Hr E]|[Hr E]]; [by exists (l ++ [c])%list|]. exists l. split; [done|]. by intros a ->.
    + intros _ l' ->. eapply stages_weaken; [|apply IH]. intros _ l' ->. by rewrite <- app_assoc.
Qed.

Lemma stages_copy l reply : stages d0 tmp l (copy_body (length (inodes d0)) reply) (fun _ l' => l' = (l ++ rp_chunks reply)%list).
Proof.
  unfold copy_body. eapply stages_then; [apply stages_write_chunks|]. intros _ l' ->. eapply stages_weaken; [|apply stages_check]. by intros a l' [_ ->].
Qed.
End staging.

Lemma writing_apart d0 tmp l d : sound d0 -> apart d0 -> writing d0 tmp l d -> apart d.
Proof.
  intros Hs Ha [Hn _] p q i. rewrite Hn. intros [[<- <-]|[Hp Hi]]%lookup_insert_Some [[<- Hj]|[Hq Hj]]%lookup_insert_Some; try done.
  - specialize (Hs q _ Hj). lia.
  - subst i. specialize (Hs p _ Hi). lia.
  - by apply (Ha p q i).
Qed.

(** A commit that renames the file last, maybe with idle steps before and after. *)
Definition commits (d0 : Disk) (path tmp : string) (l : list string) (strict : bool) (commit : D (result unit)) : Prop :=
  forall d r d', writing d0 tmp l d -> commit d = (r, d') ->
    sound d' /\ (apart d0 -> apart d') /\ (forall q, q <> path -> q <> tmp -> file_at d' q = file_at d0 q)
    /\ (file_at d' path = file_at d0 path \/ text_at d' path = Some (String.concat "" l))
    /\ (is_ok r = true -> text_at d' path = Some (String.concat "" l))
    /\ (strict = true -> is_ok r = false -> file_at d' path = file_at d0 path).

Lemma commits_Rename d0 path tmp l : sound d0 -> path <> tmp -> commits d0 path tmp l true (Rename tmp path).
Proof.
  intros Hs Hp d r d' Hw E. destruct (Rename_temp d0 tmp path l d r d' Hs Hp Hw E) as (H1 & H2 & H3). split; [done|].
  split; [intros Ha; apply (Rename_result tmp path d r d'); [by apply not_eq_sym|exact (writing_sound _ _ _ _ Hs Hw)|exact (writing_apart _ _ _ _ Hs Ha Hw)|done]|]. split; [done|].
  destruct r; cbn [is_ok] in *; split; auto; split; done.
Qed.

Lemma commits_after d0 path tmp l {A} (m : D (result A)) (f : A -> D (result unit)) b : sound d0 -> path <> tmp ->
  stages d0 tmp l m (fun _ l' => l' = l) -> (forall a, commits d0 path tmp l b (f a)) -> commits d0 path tmp l b (then_ m f).
Proof.
  intros Hs Hp Hm Hf d r d' Hw E. unfold then_, mbind, D_bind in E. destruct (m d) as [[a|e] d1] eqn:E1; destruct (Hm _ _ _ Hw E1) as (l' & Hw' & Hq).
  - specialize (Hq a eq_refl) as ->. by apply (Hf a d1).
  - injection E as <- <-. split; [by eapply writing_sound|]. split; [intros Ha; by apply (writing_apart _ _ _ _ Hs Ha) in Hw'|]. split; [intros; by eapply writing_other|].
    assert (Hf' : file_at d1 path = file_at d0 path) by by eapply writing_other. split; [by left|]. split; done.
Qed.

Lemma commits_before d0 path tmp l b (m : D (result unit)) w (f : Disk -> result unit * Disk) : (forall d, (f d).2 = d) -> commits d0 path tmp l b m ->
  commits d0 path tmp l false (_ <-? m; in_context w (sys f)).
Proof.
  intros Hf Hm d r d' Hw E. unfold then_ at 1, in_context, mbind, D_bind, mret, D_ret in E. destruct (m d) as [[a|e] d1] eqn:E1;
    destruct (Hm _ _ _ Hw E1) as (K1 & Ka & K2 & K3 & K4 & _).
  - assert (Hd : names d' = names d1 /\ inodes d' = inodes d1).
    { unfold sys in E. destruct (hd false (d_faults d1)); [by injection E as <- <-|]. pose proof (Hf (set_faults (tl (d_faults d1)) d1)) as Hd.
      destruct (f (set_faults (tl (d_faults d1)) d1)) as [r1 d2]. cbn [snd] in Hd. subst d2. by injection E as <- <-. }
    destruct Hd as [Hn Hi]. assert (Hq : forall q, file_at d' q = file_at d1 q) by (intros q; unfold file_at; by rewrite Hn, Hi).
    unfold text_at, sound, apart in *. rewrite !Hq, Hn, Hi. split; [done|]. split; [done|]. split; [intros; by rewrite Hq, K2|]. split; [done|]. split; [intros _; by apply K4|done].
  - injection E as <- <-. split; [done|]. split; [done|]. split; [done|]. split; [done|]. by split.
Qed.

(** A run with a temporary file: nothing but that file was touched and an error is
    reported, or a text was accepted and the commit ran with it. *)
Lemma with_temp_runs `{TempNames} path fill commit (good : list string -> Prop) d r d' : sound d ->
  stages d (temp_name path d) [] (fill (temp_name path d) (length (inodes d))) (fun _ l => good l) ->
  with_temp path fill commit d = (r, d') ->
  (is_ok r = false /\ sound d' /\ (apart d -> apart d') /\ forall q, q <> temp_name path d -> file_at d' q = file_at d q)
  \/ exists l d2 d3, good l /\ writing d (temp_name path d) l d2 /\ commit (temp_name path d) d2 = (r, d3)
       /\ (sound d3 -> sound d' /\ (apart d3 -> apart d') /\ forall q, q <> temp_name path d -> file_at d' q = file_at d3 q).
Proof.
  intros Hs Hfill. unfold with_temp. set (tmp := temp_name path d) in *.
  unfold mbind, D_bind, mret, D_ret. destruct (CreateTemp tmp d) as [f d1] eqn:E. unfold CreateTemp, sys in E.
  destruct (hd false (d_faults d)); injection E as <- <-; [intros [= <- <-]; left; by split|].
  cbn [inodes set_faults names d_clock].
  assert (Hw : writing d tmp [] (set_names (<[tmp:=length (inodes d)]> (names d))
    (set_inodes (inodes d ++ [{| i_data := Plain []; i_mtime := d_clock d |}]) (set_faults (tl (d_faults d)) d))))
    by (constructor; [done|]; by exists (d_clock d)).
  revert Hw. generalize (set_names (<[tmp:=length (inodes d)]> (names d))
    (set_inodes (inodes d ++ [{| i_data := Plain []; i_mtime := d_clock d |}]) (set_faults (tl (d_faults d)) d))).
  intros d1 Hw. destruct (fill tmp (length (inodes d)) d1) as [r2 d2] eqn:E2. destruct (Hfill _ _ _ Hw E2) as (l & Hw2 & Hl).
  assert (Hrm : forall d3 r4 d4, Remove tmp d3 = (r4, d4) -> sound d3 -> sound d4 /\ (apart d3 -> apart d4) /\ forall q, q <> tmp -> file_at d4 q = file_at d3 q).
  { intros d3 r4 d4 E4 Hs3. pose proof (Remove_only tmp d3 Hs3) as K. rewrite E4 in K. apply Remove_other in E4 as [K1 K2]; [|done]. split; [done|]. split; [|done]. intros Ha. by destruct (K Ha) as (_ & K4 & _). }
  destruct r2 as [[]|e].
  - destruct (commit tmp d2) as [r3 d3] eqn:E3. destruct (Remove tmp d3) as [r4 d4] eqn:E4. intros [= <- <-]. right. exists l, d2, d3. split; [by apply (Hl tt)|]. do 2 (split; [done|]). by apply (Hrm _ _ _ E4).
  - destruct (Remove tmp d2) as [r4 d4] eqn:E4. intros [= <- <-]. left. split; [done|].
    destruct (Hrm _ _ _ E4 (writing_sound _ _ _ _ Hs Hw2)) as (K1 & K2 & K3). split; [done|]. split; [intros Ha; by apply K2, (writing_apart _ _ _ _ Hs Ha Hw2)|].
    intros q Hq. rewrite K3 by done. by eapply writing_other.
Qed.

(** The outcome of a download: the destination as it was, or with the whole of a text
    that was accepted, which it has when no error is reported; a strict one changes
    nothing with an error. Beside it at most the temporary file is touched. *)
Lemma with_temp_settled `{TempNames} path fill commit (good : list string -> Prop) strict d r d' : sound d ->
  stages d (temp_name path d) [] (fill (temp_name path d) (length (inodes d))) (fun _ l => good l) ->
  (forall l, good l -> commits d path (temp_name path d) l strict (commit (temp_name path d))) ->
  with_temp path fill commit d = (r, d') ->
  (file_at d' path = file_at d path \/ exists l, good l /\ text_at d' path = Some (String.concat "" l))
  /\ (is_ok r = true -> exists l, good l /\ text_at d' path = Some (String.concat "" l))
  /\ (strict = true -> is_ok r = false -> file_at d' path = file_at d path)
  /\ (forall q, q <> path -> q <> temp_name path d -> file_at d' q = file_at d q) /\ sound d' /\ (apart d -> apart d').
Proof.
  intros Hs Hfill Hcommit E. assert (Hp : path <> temp_name path d) by (apply not_eq_sym, temp_other).
  apply (with_temp_runs path fill commit good d r d' Hs Hfill) in E as [(Hr & K1 & K2 & K3)|(l & d2 & d3 & Hl & Hw & E & K)].
  - rewrite Hr, (K3 path Hp). split; [by left|]. split; [done|]. split; [done|]. split; [|done]. intros q _ Hq. by apply K3.
  - destruct (Hcommit l Hl _ _ _ Hw E) as (Q1 & Q2 & Q3 & Q4 & Q5 & Q6). destruct (K Q1) as (K1 & K2 & K3). unfold text_at in *. rewrite (K3 path Hp).
    split; [destruct Q4; [by left | right; by exists l]|]. split; [intros Hr; exists l; by split; [|apply Q5]|]. split; [done|].
    split; [intros q Hq Ht; by rewrite K3, Q3|]. split; [done|]. intros Ha. by apply K2, Q2.
Qed.
