(* ===== verification/Updater.v ===== *)
(** * Updates of the binary (src/src/updater/updater.go, updater_unix.go,
    updater_windows.go; the update task of src/src/task/task.go)

    The releases that the network lists, which of them a channel takes, and the
    replacement of the binary by a download whose checksum is listed. *)

From S2P Require Import Prelude GoStr GoTime GoCrypto Http FileSys Config ConfigStore Backup Download.
From Stdlib Require Import Ascii.

Record Asset := { as_Name : string; BrowserDownloadURL : string }.
Record Release := { TagName : string; Prerelease : bool; PublishedAt : Z; Assets : list Asset }.

Definition projectName : string := "pastebin".
Definition apiBase : string := "https://api.github.com/repos/" ++ "apimgr" ++ "/" ++ projectName ++ "/releases".

Section decoding.
Context `{Unicode} `{JsonText}.

Definition as_list {A} (f : json -> option A) (j : option json) : option (list A) :=
  match j with None | Some JNull => Some [] | Some (JArr l) => mapM f l | Some _ => None end.

Definition asset_of_json (j : json) : option Asset :=
  match j with
  | JNull => Some {| as_Name := ""; BrowserDownloadURL := "" |}
  | JObj l =>
      name ← as_string (field "name" l);
      url ← as_string (field "browser_download_url" l);
      Some {| as_Name := name; BrowserDownloadURL := url |}
  | _ => None
  end.

Definition release_of_json (j : json) : option Release :=
  match j with
  | JNull => Some {| TagName := ""; Prerelease := false; PublishedAt := zero_time; Assets := [] |}
  | JObj l =>
      tag ← as_string (field "tag_name" l);
      pre ← as_bool (field "prerelease" l);
      published ← as_time (field "published_at" l);
      assets ← as_list asset_of_json (field "assets" l);
      Some {| TagName := tag; Prerelease := pre; PublishedAt := published; Assets := assets |}
  | _ => None
  end.
End decoding.

(** ** Channels *)

Definition matchesBranch (r : Release) (branch : string) : bool :=
  if negb (Prerelease r) then true
  else
    let isBeta := Strings.HasSuffix (TagName r) "-beta" in
    let isDaily := Nat.eqb (String.length (TagName r)) 14 && negb (Strings.Contains (TagName r) ".") in
    if String.eqb branch "beta" then isBeta
    else if String.eqb branch "daily" then isBeta || isDaily
    else false.

Definition is_stable (branch : string) : bool := String.eqb branch "stable" || String.eqb branch "".

(** The release of a listing that is offered. *)
Definition pick (currentVersion branch : string) (l : list Release) : option Release :=
  first (fun r => matchesBranch r branch && negb (String.eqb (TagName r) currentVersion)) l.

Section checking.
Context `{Unicode} `{JsonStream}.

Definition CheckForUpdateURL (net : Network) (currentVersion branch apiURL : string) : result (option Release) :=
  match net apiURL with
  | Err e => Err e
  | Ok r =>
      if rp_status r =? 404 then Ok None
      else if negb (rp_status r =? 200) then Err ("GitHub API: HTTP " ++ Strconv.Itoa (rp_status r))
      else
        let body := parse_first (body_text (LimitReply (Z.shiftl 4 20) r)) in
        if is_stable branch then
          match body ≫= release_of_json with
          | None => Err "decode release"
          | Some rel => Ok (if String.eqb (TagName rel) currentVersion then None else Some rel)
          end
        else
          match body ≫= fun j => as_list release_of_json (Some j) with
          | None => Err "decode releases"
          | Some l => Ok (pick currentVersion branch l)
          end
  end.

Definition CheckForUpdate (net : Network) (currentVersion branch : string) : result (option Release) :=
  CheckForUpdateURL net currentVersion branch (if is_stable branch then apiBase ++ "/latest" else apiBase).
End checking.

(** ** Installing *)

(** The platform that the binary was built for. *)
Record Platform := { GOOS : string; GOARCH : string }.

Definition binaryAssetName (p : Platform) : string :=
  projectName ++ "-" ++ GOOS p ++ "-" ++ GOARCH p ++ (if String.eqb (GOOS p) "windows" then ".exe" else "").

Definition asset_url (name : string) (rel : Release) : string :=
  match first (fun a => String.eqb (as_Name a) name) (Assets rel) with Some a => BrowserDownloadURL a | None => "" end.

Section installing.
Context `{TempNames}.

Fixpoint listed_checksum (assetName : string) (lines : list string) : option string :=
  match lines with
  | [] => None
  | line :: lines =>
      match StringsU.Fields line with
      | [sum; name] => if String.eqb name assetName then Some sum else listed_checksum assetName lines
      | _ => listed_checksum assetName lines
      end
  end.

Definition fetchExpectedChecksum (net : Network) (rel : Release) (assetName : string) : result string :=
  let url := asset_url "checksums.txt" rel in
  if String.eqb url "" then Err "release has no checksums.txt asset; refusing to install unverified update"
  else match net url with
       | Err e => Err e
       | Ok r =>
           if negb (rp_status r =? 200) then Err ("checksum download failed: " ++ Strconv.Itoa (rp_status r))
           else
             let r := LimitReply 4096 r in
             if negb (rp_complete r) then Err "unexpected EOF"
             else match listed_checksum assetName (Strings.Split (body_text r) "010") with
                  | Some sum => Ok sum
                  | None => Err "no checksum entry in checksums.txt; refusing to install unverified update"
                  end
       end.

Definition sha256_hex (text : string) : string := Hex.EncodeToString (Sha256.Sum256 (bytes text)).

Definition verifyChecksum (path expectedHash : string) : D (result unit) :=
  text <-? ReadFile path;
  check (String.eqb (sha256_hex text) expectedHash) "checksum mismatch: downloaded binary failed verification".

(** On Unix the new file takes the place of the old one. *)
Definition replaceBinary_unix (currentPath newBinaryPath : string) : D (result unit) :=
  _ <-? in_context "stat current binary" (Stat currentPath);
  _ <-? in_context "replace binary" (Rename newBinaryPath currentPath);
  in_context "restore permissions" Chmod.

(** On Windows the running binary is moved out of the way first, and back when the new
    one cannot be moved into its place. *)
Definition replaceBinary_windows (currentPath newBinaryPath : string) : D (result unit) :=
  let oldPath := currentPath ++ ".old" in
  _ ← Remove oldPath;
  _ <-? in_context "rename current binary" (Rename currentPath oldPath);
  moved ← in_context "move new binary" (Rename newBinaryPath currentPath);
  match moved with
  | Ok _ => mret (Ok tt)
  | Err e => _ ← Rename oldPath currentPath; mret (Err e)
  end.

Definition replaceBinary (p : Platform) : string -> string -> D (result unit) :=
  if String.eqb (GOOS p) "windows" then replaceBinary_windows else replaceBinary_unix.

(** [exe] is the path of the running binary. *)
Definition DoUpdate (net : Network) (p : Platform) (exe : result string) (rel : Release) : D (result unit) :=
  let assetName := binaryAssetName p in
  let downloadURL := asset_url assetName rel in
  if String.eqb downloadURL "" then mret (Err ("no binary for " ++ GOOS p ++ "/" ++ GOARCH p ++ " in release " ++ TagName rel))
  else
    match exe with
    | Err e => mret (Err ("resolving executable: " ++ e))
    | Ok currentPath =>
        with_temp currentPath
          (fun tmp i =>
             reply <-? in_context "downloading update" (mret (net downloadURL));
             _ <-? in_context "writing download" (copy_body i (LimitReply entry_cap reply));
             _ <-? (_ ← Close; mret (Ok tt));
             expectedHash <-? in_context "failed to fetch checksum" (mret (fetchExpectedChecksum net rel assetName));
             verifyChecksum tmp expectedHash)
          (fun tmp =>
             _ <-? (if String.eqb (GOOS p) "windows" then mret (Ok tt) else in_context "chmod" Chmod);
             replaceBinary p currentPath tmp)
    end.
End installing.
