(* ===== verification/UpdaterProofs.v ===== *)
(** * Updates: what may become the binary, and what is offered *)

From S2P Require Import Prelude RotateProofs GoStr GoStrProofs GoTime GoCrypto Http FileSys Config ConfigStore ConfigStoreProofs Instances ConfigInstances Backup BackupProofs Download Updater.
From Stdlib Require Import Ascii.

(** ** Installing *)

(** What a release lists: among its files the first of that name, whose download answers
    200; in the first 4096 bytes of it the first line of two fields, the second of which is
    the name of the binary; the first is the digest of the text. *)
Definition sum_line (assetName sum line : string) : Prop := StringsU.Fields line = [sum; assetName].

Definition listed (net : Network) (rel : Release) (assetName text : string) : Prop :=
  exists before sums after reply,
    Assets rel = (before ++ sums :: after)%list /\ (forall a, a ∈ before -> as_Name a <> "checksums.txt") /\ as_Name sums = "checksums.txt"
    /\ net (BrowserDownloadURL sums) = Ok reply /\ rp_status reply = 200
    /\ exists pre line post, Strings.Split (Strings.take 4096 (String.concat "" (rp_chunks reply))) "010" = (pre ++ line :: post)%list
         /\ sum_line assetName (Hex.EncodeToString (Sha256.Sum256 (bytes text))) line /\ forall other sum, other ∈ pre -> ~ sum_line assetName sum other.

Lemma limited_take n s : Backup.limited n s = Strings.take (Z.to_nat n) s.
Proof.
  revert n. induction s as [|c s IH]; intros n; cbn [Backup.limited]; [by destruct (Z.to_nat n)|]. destruct (Z.leb_spec n 0) as [Hn|Hn].
  - replace (Z.to_nat n) with 0%nat by lia. done.
  - replace (Z.to_nat n) with (S (Z.to_nat (n - 1))) by lia. by rewrite IH.
Qed.

Lemma cut_take l : forall n, String.concat "" (cut n l) = Strings.take (Z.to_nat n) (String.concat "" l).
Proof.
  induction l as [|c l IH]; intros n; cbn [cut]; [by destruct (Z.to_nat n)|]. destruct (Z.leb_spec n 0) as [Hn|Hn].
  - replace (Z.to_nat n) with 0%nat by lia. by rewrite take_none.
  - unfold strlen. destruct (Z.leb_spec (Z.of_nat (String.length c)) n).
    + rewrite !concat_cons, IH. replace (Z.to_nat n) with (String.length c + Z.to_nat (n - Z.of_nat (String.length c)))%nat by lia. by rewrite take_more.
    + rewrite !concat_cons, take_short by lia. cbn [String.concat]. rewrite string_app_nil_r. apply limited_take.
Qed.

Lemma first_split {A} (p : A -> bool) l x : first p l = Some x -> exists pre post, l = (pre ++ x :: post)%list /\ p x = true /\ forall y, y ∈ pre -> p y = false.
Proof.
  unfold first. induction l as [|y l IH]; cbn [List.find]; [done|]. destruct (p y) eqn:E.
  - intros [= <-]. exists [], l. split; [done|]. split; [done|]. intros z Hz. by apply elem_of_nil in Hz.
  - intros (pre & post & -> & Hx & Hpre)%IH. exists (y :: pre), post. split; [done|]. split; [done|]. intros z [->|Hz]%elem_of_cons; auto.
Qed.

Lemma listed_checksum_first assetName sum lines : listed_checksum assetName lines = Some sum ->
  exists pre line post, lines = (pre ++ line :: post)%list /\ sum_line assetName sum line /\ forall other s, other ∈ pre -> ~ sum_line assetName s other.
Proof.
  unfold sum_line. induction lines as [|line lines IH]; cbn [listed_checksum]; [done|].
  assert (Hskip : (forall s, StringsU.Fields line <> [s; assetName]) -> listed_checksum assetName lines = Some sum ->
    exists pre l post, line :: lines = (pre ++ l :: post)%list /\ StringsU.Fields l = [sum; assetName] /\ forall other s, other ∈ pre -> StringsU.Fields other <> [s; assetName]).
  { intros Hl (pre & l & post & -> & K1 & K2)%IH. exists (line :: pre), l, post. split; [done|]. split; [done|]. intros other s [->|Ho]%elem_of_cons; [apply Hl | by apply K2]. }
  destruct (StringsU.Fields line) as [|s [|name [|x f]]] eqn:E; try by apply Hskip. destruct (String.eqb_spec name assetName) as [->|Hne].
  - intros [= ->]. exists [], line, lines. split; [done|]. split; [done|]. intros other s Ho. by apply elem_of_nil in Ho.
  - apply Hskip. intros s' [= _ ?]. by subst.
Qed.

Lemma fetched_listed net rel assetName text : fetchExpectedChecksum net rel assetName = Ok (sha256_hex text) -> listed net rel assetName text.
Proof.
  unfold fetchExpectedChecksum, asset_url. destruct (first _ (Assets rel)) as [sums|] eqn:Ea; [|done]. apply first_split in Ea as (before & after & Ea & En%String.eqb_eq & Hb).
  destruct (String.eqb (BrowserDownloadURL sums) ""); [done|]. destruct (net (BrowserDownloadURL sums)) as [reply|] eqn:Er; [|done].
  destruct (Z.eqb_spec (rp_status reply) 200) as [Es|]; [|done]. cbn [negb]. destruct (rp_complete (LimitReply 4096 reply)); [|done]. cbn [negb].
  destruct (listed_checksum _ _) as [sum|] eqn:El; [|done]. intros [= ->]. apply listed_checksum_first in El as (pre & line & post & K1 & K2 & K3).
  exists before, sums, after, reply. split; [done|]. split; [intros a Ha; by apply String.eqb_neq, Hb|]. split; [done|]. split; [done|]. split; [done|].
  exists pre, line, post. split; [|done]. rewrite <- K1. unfold body_text. cbn [LimitReply rp_chunks]. by rewrite cut_take.
Qed.

(** ** Moving files *)

Lemma Rename_names from to d r d' : Rename from to d = (r, d') -> inodes d' = inodes d
  /\ ((is_ok r = false /\ names d' = names d) \/ (r = Ok tt /\ exists i, names d !! from = Some i /\ names d' = <[to := i]> (delete from (names d)))).
Proof.
  unfold Rename, sys. destruct (hd false (d_faults d)); [intros [= <- <-]; split; [done|]; by left|].
  change (names (set_faults (tl (d_faults d)) d)) with (names d). destruct (names d !! from) as [i|]; intros [= <- <-]; (split; [done|]); [right; by eauto | by left].
Qed.

Lemma Remove_names p d r d' : Remove p d = (r, d') -> inodes d' = inodes d /\ forall q, q <> p -> names d' !! q = names d !! q.
Proof.
  unfold Remove, sys. destruct (hd false (d_faults d)); [by intros [= <- <-]|].
  change (names (set_faults (tl (d_faults d)) d)) with (names d). destruct (names d !! p); intros [= <- <-]; (split; [done|]); [|done].
  intros q Hq. cbn. by rewrite lookup_delete_ne.
Qed.

Lemma old_differs path : path ++ ".old" <> path.
Proof. intros E. apply (f_equal String.length) in E. rewrite string_app_length in E. cbn in E. lia. Qed.

Definition stays_sound {A} (m : D A) : Prop := forall d, sound d -> sound (m d).2.

Lemma stays_bind {A B} (m : D A) (f : A -> D B) : stays_sound m -> (forall a, stays_sound (f a)) -> stays_sound (mbind f m).
Proof. intros Hm Hf d Hd%Hm. rewrite bind_D. destruct (m d) as [a d1]. by apply Hf. Qed.
Lemma stays_ret {A} (a : A) : stays_sound (mret a).
Proof. by intros d. Qed.
Lemma stays_Remove p : stays_sound (Remove p).
Proof. intros d Hd. destruct (Remove p d) as [r d'] eqn:E. by apply Remove_other in E as [E _]. Qed.
Lemma stays_Rename from to : stays_sound (Rename from to).
Proof.
  intros d Hd. destruct (Rename from to d) as [r d'] eqn:E. apply Rename_names in E as [I [[_ N]|(_ & i & Hi & N)]]; intros q j; cbn [snd]; rewrite I, N; [apply Hd|].
  destruct (decide (q = to)) as [->|Hq]; [rewrite lookup_insert_eq; intros [= <-]; by eapply Hd|]. rewrite lookup_insert_ne by done.
  intros Hj%lookup_delete_Some. destruct Hj as [_ Hj]. by eapply Hd.
Qed.

Lemma replace_windows_sound path tmp d r d' : sound d -> replaceBinary_windows path tmp d = (r, d') -> sound d'.
Proof.
  intros Hd E. enough (K : stays_sound (replaceBinary_windows path tmp)) by (apply K in Hd; by rewrite E in Hd). unfold replaceBinary_windows, then_, in_context.
  repeat first [apply stays_Remove | apply stays_Rename | apply stays_ret | apply stays_bind | intros [[]|] | intros ?].
Qed.

(** The replacement on Windows, by the names: the new file has the place; or the old one
    has it still or again; or neither has it and the old one is beside it. *)
Lemma replace_windows_names path tmp d n r d' : path <> tmp -> tmp <> path ++ ".old" -> names d !! tmp = Some n -> replaceBinary_windows path tmp d = (r, d') ->
  inodes d' = inodes d /\ (forall q, q <> path -> q <> tmp -> q <> path ++ ".old" -> names d' !! q = names d !! q)
  /\ ((names d' !! path = Some n /\ r = Ok tt)
      \/ (is_ok r = false /\ (names d' !! path = names d !! path \/ (names d' !! path = None /\ names d' !! (path ++ ".old") = names d !! path)))).
Proof.
  intros Hp Ho Hn. unfold replaceBinary_windows. cbv zeta. pose proof (old_differs path) as Hop. set (old := path ++ ".old") in *. clearbody old.
  rewrite bind_D. destruct (Remove old d) as [r1 d1] eqn:E1. apply Remove_names in E1 as [I1 N1].
  assert (P1 : names d1 !! path = names d !! path) by by apply N1, not_eq_sym. assert (T1 : names d1 !! tmp = Some n) by by rewrite N1.
  unfold then_ at 1. rewrite bind_D. unfold in_context at 1. rewrite bind_D. destruct (Rename path old d1) as [r2 d2] eqn:E2.
  apply Rename_names in E2 as [I2 [[Hr2 N2]|[-> (i & Hi & N2)]]].
  { destruct r2; [done|]. intros [= <- <-]. rewrite I2, I1, N2. split; [done|]. split; [intros q _ _ Hq; by apply N1|]. right. split; [done|]. by left. }
  cbn [mret D_ret]. rewrite bind_D. unfold in_context. rewrite bind_D. destruct (Rename tmp path d2) as [r3 d3] eqn:E3.
  apply Rename_names in E3 as [I3 [[Hr3 N3]|[-> (j & Hj & N3)]]].
  - destruct r3; [done|]. cbn [mret D_ret]. rewrite bind_D. destruct (Rename old path d3) as [r4 d4] eqn:E4. intros [= <- <-].
    apply Rename_names in E4 as [I4 [[Hr4 N4]|[-> (k & Hk & N4)]]].
    + rewrite I4, I3, I2, I1, N4, N3, N2. split; [done|]. split; [intros q Q1 Q2 Q3; rewrite lookup_insert_ne, lookup_delete_ne by done; by apply N1|].
      right. split; [done|]. right. rewrite lookup_insert_ne, lookup_delete_eq by done. split; [done|]. by rewrite lookup_insert_eq, <- P1, Hi.
    + rewrite N3, N2, lookup_insert_eq in Hk. injection Hk as <-. rewrite I4, I3, I2, I1, N4, N3, N2. split; [done|].
      split; [intros q Q1 Q2 Q3; rewrite lookup_insert_ne, lookup_delete_ne, lookup_insert_ne, lookup_delete_ne by done; by apply N1|].
      right. split; [done|]. left. by rewrite lookup_insert_eq, <- P1, Hi.
  - cbn [mret D_ret]. intros [= <- <-]. rewrite I3, I2, I1, N3. split; [done|].
    split; [intros q Q1 Q2 Q3; rewrite lookup_insert_ne, lookup_delete_ne, N2, lookup_insert_ne, lookup_delete_ne by done; by apply N1|].
    left. split; [|done]. rewrite N2, lookup_insert_ne, lookup_delete_ne, T1 in Hj by done. injection Hj as <-. apply lookup_insert_eq.
Qed.

(** ** Installing *)

Section installing.
Context `{TempNames}.

Lemma stages_pure {A} d0 tmp l (o : result A) : stages d0 tmp l (mret o) (fun a l' => o = Ok a /\ l' = l).
Proof. intros d r d' Hw [= <- <-]. exists l. split; [done|]. by intros a ->. Qed.

Lemma asset_name p : "pastebin-" ++ GOOS p ++ "-" ++ GOARCH p ++ (if decide (GOOS p = "windows") then ".exe" else "") = binaryAssetName p.
Proof. unfold binaryAssetName. destruct (String.eqb_spec (GOOS p) "windows") as [E|E]; [by rewrite decide_True | by rewrite decide_False]. Qed.

Lemma commits_unix d0 path tmp l : sound d0 -> path <> tmp -> commits d0 path tmp l false (replaceBinary_unix path tmp).
Proof.
  intros Hs Hp. unfold replaceBinary_unix. apply commits_after; [done..| |].
  - eapply stages_weaken; [|apply stages_context, stages_idle]; [by intros ? l' H1|done].
  - intros f. unfold Chmod. apply (commits_before d0 path tmp l true _ _ (fun d => (Ok tt, d))); [done|].
    intros d r d' Hw E. unfold in_context, mbind, D_bind, mret, D_ret in E. destruct (Rename tmp path d) as [r1 d1] eqn:E1.
    destruct (commits_Rename d0 path tmp l Hs Hp d r1 d1 Hw E1) as (K1 & K0 & K2 & K3 & K4 & K5). destruct r1; injection E as <- <-; by split_and!.
Qed.

(** What is downloaded and accepted is what the release lists. *)
Definition accepts (net : Network) (p : Platform) (rel : Release) (l : list string) : Prop := listed net rel (binaryAssetName p) (String.concat "" l).

Lemma update_stages net p rel exe d : sound d ->
  stages d (temp_name exe d) []
    (reply <-? in_context "downloading update" (mret (net (asset_url (binaryAssetName p) rel)));
     _ <-? in_context "writing download" (copy_body (length (inodes d)) (LimitReply entry_cap reply));
     _ <-? (_ ← Close; mret (Ok tt));
     expectedHash <-? in_context "failed to fetch checksum" (mret (fetchExpectedChecksum net rel (binaryAssetName p)));
     verifyChecksum (temp_name exe d) expectedHash) (fun _ l => accepts net p rel l).
Proof.
  intros Hs. eapply stages_then; [apply stages_context, stages_pure|]. intros reply l [_ ->]. eapply stages_then; [apply stages_context, stages_copy|]. intros _ l ->.
  eapply (stages_then _ _ _ _ _ (fun _ l' => l' = ([] ++ rp_chunks (LimitReply entry_cap reply))%list)).
  { intros d1 r1 d2 Hw E1. unfold mbind, D_bind, mret, D_ret, Close, sys in E1. destruct (hd false (d_faults d1)); injection E1 as <- <-; eexists; (split; [by apply writing_faults|done]). }
  intros _ l ->. eapply stages_then; [apply stages_context, stages_pure|]. intros expected l [Hx ->]. unfold verifyChecksum.
  eapply stages_then; [by apply stages_ReadTemp|]. intros text l [-> ->]. eapply stages_weaken; [|apply stages_check]. intros [] l [Heq%String.eqb_eq ->].
  apply fetched_listed. by rewrite Hx, Heq.
Qed.

Lemma windows_settled exe d l d2 r d3 : sound d -> writing d (temp_name exe d) l d2 -> replaceBinary_windows exe (temp_name exe d) d2 = (r, d3) ->
  sound d3 /\ (forall q, q <> exe -> q <> temp_name exe d -> q <> exe ++ ".old" -> file_at d3 q = file_at d q)
  /\ ((text_at d3 exe = Some (String.concat "" l) /\ r = Ok tt)
      \/ (is_ok r = false /\ (file_at d3 exe = file_at d exe \/ (file_at d3 exe = None /\ file_at d3 (exe ++ ".old") = file_at d exe)))).
Proof.
  intros Hs Hw E. assert (Hp : exe <> temp_name exe d) by (apply not_eq_sym, temp_other). pose proof (temp_not_old exe d) as Ho.
  pose proof Hw as [Hn [t Hi]]. pose proof (replace_windows_sound _ _ _ _ _ (writing_sound _ _ _ _ Hs Hw) E) as Hs3.
  assert (Ht : names d2 !! temp_name exe d = Some (length (inodes d))) by (rewrite Hn; apply lookup_insert_eq).
  destruct (replace_windows_names _ _ _ _ _ _ Hp Ho Ht E) as (I & Q & R).
  assert (F : forall q q', names d3 !! q' = names d2 !! q -> q <> temp_name exe d -> file_at d3 q' = file_at d q).
  { intros q q' Eq Hq. rewrite <- (writing_other _ _ _ _ q Hs Hw Hq). unfold file_at. by rewrite I, Eq. }
  split; [done|]. split; [intros q Q1 Q2 Q3; apply F; [by apply Q|done]|]. destruct R as [[R ->]|[Hr [R|[R1 R2]]]].
  - left. split; [|done]. unfold text_at, file_at. rewrite R, I, Hi. cbn. by rewrite list_lookup_middle.
  - right. split; [done|]. left. by apply F.
  - right. split; [done|]. right. split; [|by apply F]. unfold file_at. by rewrite R1.
Qed.

(** C30 — Whatever the network answers and whatever fails, the binary afterwards is the one
    that was there, or a text whose digest the release lists for the platform, which it
    is when no error is reported. On Windows it can also be gone, when an error is
    reported, and then the one that was there is beside it under a name that ends in
    [.old]. No other file changes but the temporary one and, on Windows, that one. The
    list is the first file [checksums.txt] of the release, downloaded with the status
    200, and the digest that of its first line for this platform's binary. *)
Theorem update_verified (net : Network) (p : Platform) (exe : string) (rel : Release) (d : Disk) : sound d ->
  let '(r, d') := DoUpdate net p (Ok exe) rel d in
  let windows := GOOS p = "windows" in let old := exe ++ ".old" in
  let verified := exists text, text_at d' exe = Some text
    /\ listed net rel ("pastebin-" ++ GOOS p ++ "-" ++ GOARCH p ++ (if decide windows then ".exe" else "")) text in
  (file_at d' exe = file_at d exe \/ verified \/ (windows /\ is_ok r = false /\ file_at d' exe = None /\ file_at d' old = file_at d exe))
  /\ (is_ok r = true -> verified)
  /\ forall q, q <> exe -> q <> temp_name exe d -> (windows -> q <> old) -> file_at d' q = file_at d q.
Proof.
  intros Hs. destruct (DoUpdate net p (Ok exe) rel d) as [r d'] eqn:E. cbv zeta. rewrite (asset_name p). unfold DoUpdate in E.
  destruct (String.eqb (asset_url (binaryAssetName p) rel) ""); [injection E as <- <-; split; [by left|]; by split|].
  pose proof (update_stages net p rel exe d Hs) as St. unfold replaceBinary in E. destruct (String.eqb_spec (GOOS p) "windows") as [Hg|Hg].
  - apply (with_temp_runs _ _ _ (accepts net p rel)) in E as [(Hr & K1 & _ & K3)|(l & d2 & d3 & Hl & Hw & E & K)]; [| |done|exact St].
    + rewrite Hr. split; [left; apply K3, not_eq_sym, temp_other|]. split; [done|]. intros q _ Hq _. by apply K3.
    + unfold then_ in E. rewrite bind_D in E. cbn [mret D_ret] in E. destruct (windows_settled exe d l d2 r d3 Hs Hw E) as (Hs3 & Q & R). destruct (K Hs3) as (_ & _ & F).
      pose proof (temp_other exe d) as Hp. pose proof (temp_not_old exe d) as Ho. unfold text_at in *. rewrite !F by by apply not_eq_sym.
      split; [|split; [|intros q Q1 Q2 Q3; rewrite F by done; by apply Q, Q3]].
      * destruct R as [[R _]|[Hr [R|[R1 R2]]]]; [right; left; by exists (String.concat "" l) | by left | by right; right].
      * intros Hr. destruct R as [[R _]|[Hr' _]]; [by exists (String.concat "" l) | by rewrite Hr in Hr'].
  - apply (with_temp_settled _ _ _ (accepts net p rel) false) in E as (K1 & K2 & _ & K4 & _); [|done|exact St|].
    + split; [destruct K1 as [K1|(l & K5 & K6)]; [by left|right; left; by exists (String.concat "" l)]|]. split; [|intros q Q1 Q2 _; by apply K4].
      intros Hr. destruct (K2 Hr) as (l & K5 & K6). by exists (String.concat "" l).
    + intros l _. assert (Hp : exe <> temp_name exe d) by (apply not_eq_sym, temp_other). apply commits_after; [done..| |intros; by apply commits_unix].
      eapply stages_weaken; [|apply stages_context, stages_idle]; [by intros a l' H1|done].
Qed.
End installing.

Definition old_site : Disk :=
  {| names := {["/bin/pastebin" := 0%nat]}; inodes := [{| i_data := Plain ["old"]; i_mtime := 0 |}]; d_clock := 0; d_ticks := []; d_faults := [] |}.
Definition linux : Platform := {| GOOS := "linux"; GOARCH := "amd64" |}.
Definition some_release : Release :=
  {| TagName := "v2"; Prerelease := false; PublishedAt := 0;
     Assets := [{| as_Name := "checksums.txt"; BrowserDownloadURL := "sums" |}; {| as_Name := "pastebin-linux-amd64"; BrowserDownloadURL := "binary" |}] |}.
Definition release_net : Network := fun url =>
  Ok {| rp_status := 200; rp_complete := true; rp_chunks := if String.eqb url "sums" then [sha256_hex "new" ++ "  pastebin-linux-amd64"] else ["ne"; "w"] |}.

Theorem update_verified_witness :
  (DoUpdate release_net linux (Ok "/bin/pastebin") some_release old_site).1 = Ok tt
  /\ exists text, text_at (DoUpdate release_net linux (Ok "/bin/pastebin") some_release old_site).2 "/bin/pastebin" = Some text
       /\ listed release_net some_release "pastebin-linux-amd64" text.
Proof.
  assert (E : (DoUpdate release_net linux (Ok "/bin/pastebin") some_release old_site).1 = Ok tt) by (vm_compute; reflexivity). split; [exact E|].
  assert (Hs : sound old_site) by (apply sound_bool_sound; vm_compute; reflexivity).
  pose proof (update_verified release_net linux "/bin/pastebin" some_release old_site Hs) as P.
  destruct (DoUpdate release_net linux (Ok "/bin/pastebin") some_release old_site) as [r d']. cbn [fst snd] in *. destruct P as (_ & P & _). apply P. by rewrite E.
Defined.

(** The same on Windows, where the second and the third renaming fail: the binary is gone,
    and the one that ran is kept beside it. *)
Definition windows : Platform := {| GOOS := "windows"; GOARCH := "amd64" |}.
Definition windows_release : Release :=
  {| TagName := "v2"; Prerelease := false; PublishedAt := 0;
     Assets := [{| as_Name := "checksums.txt"; BrowserDownloadURL := "sums" |}; {| as_Name := "pastebin-windows-amd64.exe"; BrowserDownloadURL := "binary" |}] |}.
Definition windows_net : Network := fun url =>
  Ok {| rp_status := 200; rp_complete := true; rp_chunks := if String.eqb url "sums" then [sha256_hex "new" ++ "  pastebin-windows-amd64.exe"] else ["new"] |}.

Example windows_can_lose_place :
  let d := set_faults [false; false; false; false; false; false; true; true; false] old_site in
  let '(r, d') := DoUpdate windows_net windows (Ok "/bin/pastebin") windows_release d in
  is_ok r = false /\ file_at d' "/bin/pastebin" = None /\ text_at d' "/bin/pastebin.old" = Some "old".
Proof. vm_compute. repeat split. Qed.

(** ** Channels *)

(** A channel takes what the more stable ones take. *)
Lemma channels_cumulative r : (matchesBranch r "stable" = true -> matchesBranch r "beta" = true) /\ (matchesBranch r "beta" = true -> matchesBranch r "daily" = true).
Proof. unfold matchesBranch. destruct (Prerelease r); cbn; [|by split]. split; [done|]. by intros ->. Qed.

(** A listing that begins with the running version is searched on: an older release is
    offered. *)
Lemma update_downgrades r old l : matchesBranch old "beta" = true -> TagName old <> TagName r -> pick (TagName r) "beta" (r :: old :: l) = Some old.
Proof.
  intros Hm Hn. unfold pick, first. cbn [List.find]. rewrite String.eqb_refl, andb_false_r, Hm. apply String.eqb_neq in Hn. by rewrite Hn.
Qed.
