(* ===== verification/Notify.v ===== *)
(** * Webhooks (src/src/notify/notify.go, adapter.go, uuid.go, src/src/server/notify.go)

    A message becomes one request per target, signed with the target's secret, and is
    sent until it is accepted, with a fixed ladder of delays. One delivery is a
    function of what its attempts are answered and whether its pauses last; failures
    of all deliveries share the record of the last log line per host. *)

From S2P Require Import Prelude GoStr GoTime GoCrypto GoToken GoUrl Http Config ConfigStore AuditLog.
From Stdlib Require Import Ascii.

Record Message := { ms_Role : string; ms_Event : string; Subject : string; Body : string; ms_Severity : string; TrackingID : string; Timestamp : Z }.
Record Target := { tg_Transport : string; tg_URL : string; tg_Secret : string }.
Record Meta := { mt_ProjectName : string; ProjectVersion : string; AppURL : string }.

Definition backoffSchedule : list Z := [1 * Minute; 5 * Minute; 15 * Minute; 1 * Hour; 6 * Hour; 24 * Hour].
Definition failureLogWindow : Z := 10 * Minute.

(** ** Escaping of queries and forms *)

Definition query_safe (c : ascii) : bool := is_alnum (byte c) || Strings.in_set "-_.~" c.
Fixpoint QueryEscape (s : string) : string :=
  match s with
  | "" => ""
  | String c r =>
      if Ascii.eqb c " " then String "+" (QueryEscape r)
      else if query_safe c then String c (QueryEscape r)
      else String "%" (String (hex_upper (byte c / 16)) (String (hex_upper (byte c mod 16)) (QueryEscape r)))
  end.

(** The keys of a form are sorted when it is encoded. *)
Definition FormEncode (l : list (string * string)) : string :=
  Strings.Join ((fun kv => QueryEscape kv.1 ++ "=" ++ QueryEscape kv.2) <$> merge_sort (fun a b : string * string => FileSys.str_le a.1 b.1) l) "&".

(** ** Requests *)

Record builtRequest := { br_method : string; br_url : string; contentType : string; br_body : string }.

(** Two line feeds between the subject and the body. *)
Definition blank_line : string := newline ++ newline.

Section building.
Context `{Unicode} `{JsonText}.

Definition plainMessage (msg : Message) : string :=
  (if String.eqb (ms_Severity msg) "" then "" else "[" ++ StringsU.ToUpper (ms_Severity msg) ++ "] ")
  ++ Subject msg ++ (if String.eqb (Body msg) "" then "" else blank_line ++ Body msg).

Definition messageOrSubject (msg : Message) : string := if String.eqb (StringsU.TrimSpace (Body msg)) "" then Subject msg else Body msg.

Definition pushoverPriority (severity : string) : Z :=
  let s := StringsU.ToLower severity in if String.eqb s "critical" then 1 else if String.eqb s "warning" then 0 else -1.
Definition gotifyPriority (severity : string) : Z :=
  let s := StringsU.ToLower severity in if String.eqb s "critical" then 8 else if String.eqb s "warning" then 5 else 2.

Definition genericPayload (msg : Message) (meta : Meta) : json :=
  JObj ([("role", JStr (ms_Role msg)); ("event", JStr (ms_Event msg)); ("subject", JStr (Subject msg)); ("body", JStr (Body msg));
         ("severity", JStr (ms_Severity msg)); ("timestamp", JInt (Unix (Timestamp msg))); ("project_name", JStr (mt_ProjectName meta));
         ("project_version", JStr (ProjectVersion meta)); ("app_url", JStr (AppURL meta))] ++ omitempty "tracking_id" (TrackingID msg))%list.

Definition post (dest ctype body : string) : builtRequest := {| br_method := "POST"; br_url := dest; contentType := ctype; br_body := body |}.

Definition buildRequest (transport : string) (msg : Message) (meta : Meta) (dest : string) : builtRequest :=
  let text := plainMessage msg in
  if String.eqb transport "telegram" then
    post (dest ++ (if Strings.Contains dest "?" then "&" else "?") ++ "text=" ++ QueryEscape text) "" ""
  else if String.eqb transport "discord" then
    post dest "application/json" (render (JObj [("content", JStr text); ("username", JStr (mt_ProjectName meta))]))
  else if String.eqb transport "slack" || String.eqb transport "mattermost" then post dest "application/json" (render (JObj [("text", JStr text)]))
  else if String.eqb transport "pushover" then
    post dest "application/x-www-form-urlencoded"
      (FormEncode [("title", Subject msg); ("message", messageOrSubject msg); ("priority", Strconv.Itoa (pushoverPriority (ms_Severity msg)))])
  else if String.eqb transport "gotify" then
    post dest "application/json"
      (render (JObj [("message", JStr (messageOrSubject msg)); ("priority", JInt (gotifyPriority (ms_Severity msg))); ("title", JStr (Subject msg))]))
  else post dest "application/json" (render (genericPayload msg meta)).

Definition signBody (secret body : string) : string := "sha256=" ++ Hex.EncodeToString (HMAC (bytes secret) (bytes body)).

Definition userAgent (meta : Meta) : string :=
  let name := if String.eqb (mt_ProjectName meta) "" then "pastebin" else mt_ProjectName meta in
  let ver := if String.eqb (ProjectVersion meta) "" then "0.0.0" else ProjectVersion meta in
  name ++ "/" ++ ver ++ (if String.eqb (AppURL meta) "" then "" else " (+" ++ AppURL meta ++ ")").

Record WireRequest := { wr_method : string; wr_url : string; wr_headers : list (string * string); wr_body : string }.

(** [accepts] is what [http.NewRequest] says of an address. *)
Definition buildSigned (accepts : string -> result unit) (msg : Message) (meta : Meta) (tgt : Target) (id : string) : result WireRequest :=
  let built := buildRequest (tg_Transport tgt) msg meta (tg_URL tgt) in
  match accepts (br_url built) with
  | Err e => Err e
  | Ok _ =>
      Ok {| wr_method := br_method built; wr_url := br_url built; wr_body := br_body built;
            wr_headers := ((if String.eqb (contentType built) "" then [] else [("Content-Type", contentType built)])
              ++ [("X-Webhook-Signature", signBody (tg_Secret tgt) (br_body built)); ("X-Webhook-Timestamp", Strconv.Itoa (Unix (Timestamp msg)));
                  ("X-Webhook-ID", id); ("X-Webhook-Event", ms_Event msg); ("User-Agent", userAgent meta)])%list |}
  end.

(** ** Deliveries *)

(** Version 7: milliseconds, and ten random bytes with the version and the variant. *)
Definition uuidV7 (t : Z) (rand : result (list Z)) : result string :=
  match rand with
  | Err e => Err e
  | Ok r =>
      let b := (ms_bytes (wrapu64 (UnixMilli t)) ++ r)%list in
      let b := <[6%nat := Z.lor (Z.land (nth 6 b 0) 15) 112]> b in
      let b := <[8%nat := Z.lor (Z.land (nth 8 b 0) 63) 128]> b in
      let part i n := Hex.EncodeToString (take n (drop i b)) in
      Ok (part 0%nat 4%nat ++ "-" ++ part 4%nat 2%nat ++ "-" ++ part 6%nat 2%nat ++ "-" ++ part 8%nat 2%nat ++ "-" ++ part 10%nat 6%nat)
  end.

(** What a delivery does: requests, pauses, and the failure in the end. *)
Inductive step := Sent (q : WireRequest) | Paused (delay : Z) | Failed (status : Z) (err : option string).

Definition accepted (r : result Z) : bool := match r with Ok status => (200 <=? status) && (status <? 300) | Err _ => false end.
Definition failure (r : result Z) : step := match r with Ok status => Failed status None | Err e => Failed 0 (Some e) end.

(** [answer k] is what attempt [k] is answered, [lasts k] whether the pause after it
    is not interrupted. *)
Fixpoint ladder (req : result WireRequest) (answer : nat -> result Z) (lasts : nat -> bool) (attempt : nat) (delays : list Z) : list step :=
  let r := match req with Ok _ => answer attempt | Err e => Err e end in
  let sent := match req with Ok q => [Sent q] | Err _ => [] end in
  if accepted r then sent
  else match delays with
       | [] => sent ++ [failure r]
       | delay :: delays =>
           sent ++ Paused delay :: (if lasts attempt then ladder req answer lasts (S attempt) delays else [])
       end%list.

Definition deliver (accepts : string -> result unit) (id : result string) (msg : Message) (meta : Meta) (tgt : Target)
    (answer : nat -> result Z) (lasts : nat -> bool) : list step :=
  match id with
  | Err _ => []
  | Ok id => ladder (buildSigned accepts msg meta tgt id) answer lasts 0 backoffSchedule
  end.

(** The targets that are delivered to, and the message with its time. *)
Definition Dispatch (now : Z) (msg : Message) (targets : list Target) : Message * list Target :=
  ({| ms_Role := ms_Role msg; ms_Event := ms_Event msg; Subject := Subject msg; Body := Body msg; ms_Severity := ms_Severity msg;
      TrackingID := TrackingID msg; Timestamp := if IsZero (Timestamp msg) then now else Timestamp msg |},
   keep (fun t => negb (String.eqb (StringsU.TrimSpace (tg_URL t)) "")) targets).

(** The targets of a role in the configuration. *)
Definition notifyRole `{MapOrder} (c : ContactConfig) (now : Z) (role event subject body severity : string) : Message * list Target :=
  Dispatch now
    {| ms_Role := role; ms_Event := event; Subject := subject; Body := body; ms_Severity := severity; TrackingID := ""; Timestamp := now |}
    ((fun t => {| tg_Transport := Transport t; tg_URL := wt_URL t; tg_Secret := Secret t |}) <$> WebhookTargets c role).
End building.

(** ** Logged failures *)

Definition hostOf (raw : string) : string :=
  let s := match String.index 0 "://" raw with Some i => Strings.drop (i + 3) raw | None => raw end in
  (fix cut (s : string) : string := match s with "" => "" | String c r => if Strings.in_set "/?#" c then "" else String c (cut r) end) s.

(** Whether a failure is logged, at a time. *)
Definition logFailure (lastFail : gmap string Z) (now : Z) (tgt : Target) : bool * gmap string Z :=
  let host := hostOf (tg_URL tgt) in
  match lastFail !! host with
  | Some last => if now - last <? failureLogWindow then (false, lastFail) else (true, <[host := now]> lastFail)
  | None => (true, <[host := now]> lastFail)
  end.
