(* ===== verification/NotifyProofs.v ===== *)
(** * Webhooks: signatures, the ladder of attempts, and the failure log *)

From S2P Require Import Prelude GoStr GoStrProofs GoTime GoCrypto GoToken Http Config ConfigStore ConfigStoreProofs Instances AuditLog Notify.
From Stdlib Require Import Ascii.

Section deliveries.
Context `{Unicode} `{JsonText}.

(** ** The ladder *)

Definition rounds (q : WireRequest) (delays : list Z) : list step := delays ≫= fun delay => [Sent q; Paused delay].

(** How the last round ends: accepted, given up, or interrupted in the pause. *)
Definition ending (q : WireRequest) (answer : result Z) (lasts : bool) (delay : option Z) (l : list step) : Prop :=
  if accepted answer then l = [Sent q]
  else match delay with
       | None => l = [Sent q; failure answer]
       | Some delay => lasts = false /\ l = [Sent q; Paused delay]
       end.

Lemma ladder_spec q answer lasts delays : forall attempt, exists k l, (k <= length delays)%nat
  /\ ladder (Ok q) answer lasts attempt delays = (rounds q (take k delays) ++ l)%list
  /\ (forall j, (j < k)%nat -> accepted (answer (attempt + j)%nat) = false /\ lasts (attempt + j)%nat = true)
  /\ ending q (answer (attempt + k)%nat) (lasts (attempt + k)%nat) (delays !! k) l.
Proof.
  induction delays as [|delay delays IH]; intros attempt; unfold ending; cbn [ladder].
  - exists 0%nat. rewrite Nat.add_0_r. eexists. split; [done|]. split; [reflexivity|]. split; [intros j Hj; lia|]. cbn. by destruct (accepted (answer attempt)).
  - destruct (accepted (answer attempt)) eqn:Ea.
    { exists 0%nat, [Sent q]. split; [lia|]. split; [done|]. split; [intros j Hj; lia|]. by rewrite Nat.add_0_r, Ea. }
    destruct (lasts attempt) eqn:El.
    + destruct (IH (S attempt)) as (k & l & Hk & E & Hj & He). exists (S k), l. cbn [length]. split; [lia|]. split; [rewrite E; by cbn|]. split.
      * intros [|j] Hjk; [by rewrite Nat.add_0_r|]. specialize (Hj j ltac:(lia)). by rewrite Nat.add_succ_comm in Hj.
      * by rewrite Nat.add_succ_comm in He.
    + exists 0%nat, [Sent q; Paused delay]. split; [lia|]. split; [done|]. split; [intros j Hj; lia|]. by rewrite Nat.add_0_r, Ea, El.
Qed.

(** A message is sent to a target until it is accepted, at most seven times, the
    same request with the same identifier each time, after pauses of 1, 5 and 15
    minutes and 1, 6 and 24 hours in this order; it is given up, with one failure,
    only after the seventh, and an interrupted pause ends it at once. *)
Theorem delivery_ladder (accepts : string -> result unit) (id : string) (msg : Message) (meta : Meta) (tgt : Target) (answer : nat -> result Z) (lasts : nat -> bool) (q : WireRequest) :
  buildSigned accepts msg meta tgt id = Ok q ->
  exists k l, (k <= 6)%nat
    /\ deliver accepts (Ok id) msg meta tgt answer lasts = (rounds q (take k backoffSchedule) ++ l)%list
    /\ (forall j, (j < k)%nat -> accepted (answer j) = false /\ lasts j = true)
    /\ (if accepted (answer k) then l = [Sent q]
        else match backoffSchedule !! k with
             | None => l = [Sent q; failure (answer k)]
             | Some delay => lasts k = false /\ l = [Sent q; Paused delay]
             end).
Proof. intros E. unfold deliver. rewrite E. apply (ladder_spec q answer lasts backoffSchedule 0). Qed.

(** A request that cannot be built is paused for like one that was refused. *)
Lemma build_error_waits accepts id msg meta tgt answer lasts e : buildSigned accepts msg meta tgt id = Err e -> (forall j, lasts j = true) ->
  deliver accepts (Ok id) msg meta tgt answer lasts = ((Paused <$> backoffSchedule) ++ [Failed 0 (Some e)])%list.
Proof. intros E Hl. unfold deliver. rewrite E. cbn. by rewrite !Hl. Qed.

(** What is sent is the request that was built. *)
Lemma sent_built accepts id msg meta tgt answer lasts q : In (Sent q) (deliver accepts id msg meta tgt answer lasts) ->
  exists i, id = Ok i /\ buildSigned accepts msg meta tgt i = Ok q.
Proof.
  unfold deliver. destruct id as [i|e]; [|done]. intros Hq. exists i. split; [done|]. revert Hq. generalize 0%nat, backoffSchedule. intros attempt delays Hq.
  destruct (buildSigned accepts msg meta tgt i) as [q'|e].
  - revert attempt Hq. induction delays as [|delay delays IH]; intros attempt; cbn [ladder]; destruct (accepted _); cbn [app In].
    + intros [[= ->]|[]]. done.
    + intros [[= ->]|[E|[]]]; [done|]. by destruct (answer attempt).
    + intros [[= ->]|[]]. done.
    + intros [[= ->]|[E|E]]; [done|done|]. destruct (lasts attempt); [by apply (IH (S attempt))|done].
  - exfalso. revert attempt Hq. induction delays as [|delay delays IH]; intros attempt; cbn [ladder]; cbn.
    + by intros [E|[]].
    + intros [E|E]; [done|]. destruct (lasts attempt); [by apply (IH (S attempt))|done].
Qed.

(** ** Signatures *)

Lemma buildSigned_signature accepts msg meta tgt id q : buildSigned accepts msg meta tgt id = Ok q ->
  In ("X-Webhook-Signature", signBody (tg_Secret tgt) (wr_body q)) (wr_headers q) /\ In ("X-Webhook-ID", id) (wr_headers q)
  /\ wr_body q = br_body (buildRequest (tg_Transport tgt) msg meta (tg_URL tgt)) /\ wr_url q = br_url (buildRequest (tg_Transport tgt) msg meta (tg_URL tgt)).
Proof.
  unfold buildSigned. set (b := buildRequest _ _ _ _). clearbody b. destruct (accepts (br_url b)); [|discriminate]. intros [= <-]. cbn [wr_headers wr_body wr_url].
  split; [apply in_or_app; right; left; reflexivity|]. split; [|split; reflexivity]. apply in_or_app. right. do 2 right. left. reflexivity.
Qed.

Context `{MapOrder}.

(** Once the webhook secrets are made, every request of a notification goes to
    the address of a role, or of the administrator, and is signed over its body with
    the secret beside that address, which is not empty, but for abuse webhooks whose
    address comes from the general role. *)
Theorem notifications_signed (c : ContactConfig) (rand : Rand) (c' : ContactConfig) (rand' : Rand) (g : bool) (now : Z) (role event subject body severity : string)
    (accepts : string -> result unit) (id : result string) (meta : Meta) (tgt : Target) (answer : nat -> result Z) (lasts : nat -> bool) (q : WireRequest) :
  good_rand rand -> ensureWebhookSecrets c rand = (true, c', rand', g) ->
  let '(msg, targets) := notifyRole c' now role event subject body severity in
  In tgt targets -> In (Sent q) (deliver accepts id msg meta tgt answer lasts) ->
  (role = "abuse" -> pick (ct_Abuse c') (tg_Transport tgt) = "" -> pick (ct_General c') (tg_Transport tgt) = "") ->
  exists r secret, In r [contactRole c' role; ct_Admin c'] /\ secret = pick r (secret_key (tg_Transport tgt)) /\ secret <> ""
    /\ wr_url q = br_url (buildRequest (tg_Transport tgt) msg meta (pick r (tg_Transport tgt)))
    /\ In ("X-Webhook-Signature", signBody secret (wr_body q)) (wr_headers q).
Proof.
  intros Hr E. unfold notifyRole, Dispatch. intros Ht Hq Hab. apply list_elem_of_In, keep_elem in Ht as [Ht _]. apply list_elem_of_fmap in Ht as (t & -> & Ht).
  cbn [tg_Transport tg_URL tg_Secret] in *. destruct (target_signed c rand c' rand' g role t Hr E Ht Hab) as (Hs & r & Hin & Hu & Hsec).
  apply sent_built in Hq as (i & -> & Hb). apply buildSigned_signature in Hb as (K1 & _ & _ & K4). cbn [tg_Transport tg_URL tg_Secret] in *.
  exists r, (Secret t). split; [by apply list_elem_of_In|]. split; [done|]. split; [done|]. split; [by rewrite K4, Hu|done].
Qed.

(** The signature of a Telegram request says nothing of the message: its body is empty. *)
Lemma telegram_unsigned accepts msg meta tgt id q : tg_Transport tgt = "telegram" -> buildSigned accepts msg meta tgt id = Ok q ->
  In ("X-Webhook-Signature", signBody (tg_Secret tgt) "") (wr_headers q).
Proof. intros Ht E. apply buildSigned_signature in E as (K1 & _ & K3 & _). rewrite Ht in K3. unfold buildRequest in K3. cbn in K3. by rewrite K3 in K1. Qed.
End deliveries.

(** ** The failure log *)

Fixpoint logged (lastFail : gmap string Z) (l : list (Z * Target)) : list (Z * string) :=
  match l with
  | [] => []
  | (now, tgt) :: l => let '(b, lastFail) := logFailure lastFail now tgt in (if b then [(now, hostOf (tg_URL tgt))] else []) ++ logged lastFail l
  end%list.

Lemma logged_later l : forall lastFail x last, x ∈ logged lastFail l -> lastFail !! x.2 = Some last -> failureLogWindow <= x.1 - last.
Proof.
  induction l as [|[now tgt] l IH]; intros lastFail x last Hx Hl; [by apply elem_of_nil in Hx|]. cbn [logged] in Hx. unfold logFailure in Hx.
  destruct (lastFail !! hostOf (tg_URL tgt)) as [t|] eqn:E.
  - destruct (Z.ltb_spec (now - t) failureLogWindow) as [Hw|Hw]; [by apply (IH lastFail)|]. cbn [app] in Hx. apply elem_of_cons in Hx as [->|Hx].
    + cbn [fst snd] in *. rewrite E in Hl. injection Hl as ->. lia.
    + destruct (decide (x.2 = hostOf (tg_URL tgt))) as [Eh|Eh].
      * rewrite Eh, E in Hl. injection Hl as ->. assert (Hn : <[hostOf (tg_URL tgt):=now]> lastFail !! x.2 = Some now) by (rewrite Eh; apply lookup_insert_eq).
        specialize (IH _ x now Hx Hn). unfold failureLogWindow in *. unfold Minute, Second in *. lia.
      * apply (IH _ x last Hx). by rewrite lookup_insert_ne.
  - cbn [app] in Hx. apply elem_of_cons in Hx as [->|Hx]; [cbn [snd] in Hl; by rewrite E in Hl|].
    apply (IH _ x last Hx). rewrite lookup_insert_ne; [done|]. intros Eh. by rewrite <- Eh, E in Hl.
Qed.

(** Two lines about one host are at least ten minutes apart, in whatever order and at
    whatever times deliveries fail. *)
Lemma failures_apart l : forall lastFail, StronglySorted (fun a b : Z * string => a.2 = b.2 -> failureLogWindow <= b.1 - a.1) (logged lastFail l).
Proof.
  induction l as [|[now tgt] l IH]; intros lastFail; [constructor|]. cbn [logged].
  assert (Hs : forall m, m !! hostOf (tg_URL tgt) = Some now ->
    StronglySorted (fun a b : Z * string => a.2 = b.2 -> failureLogWindow <= b.1 - a.1) ((now, hostOf (tg_URL tgt)) :: logged m l)).
  { intros m Hm. constructor; [apply IH|]. apply Forall_forall. intros x Hx Ex. cbn [fst snd] in *. apply (logged_later l m x now Hx). by rewrite <- Ex. }
  unfold logFailure. destruct (lastFail !! hostOf (tg_URL tgt)) as [t|]; [destruct (now - t <? failureLogWindow); [apply IH|]|]; apply Hs, lookup_insert_eq.
Qed.

(** ** Identifiers *)

Definition version_ok (b : Z) : bool := Ascii.eqb (Hex.digit (Z.lor (Z.land b 15) 112 / 16)) "7".
Definition variant_ok (b : Z) : bool := Strings.in_set "89ab" (Hex.digit (Z.lor (Z.land b 63) 128 / 16)).

Lemma all_bytes (f : Z -> bool) b : forallb (fun n => f (Z.of_nat n)) (seq 0 256) = true -> is_byte b -> f b = true.
Proof.
  intros H Hb. unfold is_byte in Hb. rewrite forallb_forall in H. specialize (H (Z.to_nat b) ltac:(apply in_seq; lia)). by rewrite Z2Nat.id in H by lia.
Qed.

(** An identifier has 36 characters, the version 7 and the variant of RFC 9562. *)
Lemma uuid_shape t r : length r = 10%nat -> Forall is_byte r -> exists s, uuidV7 t (Ok r) = Ok s /\ String.length s = 36%nat
  /\ String.get 14 s = Some "7"%char /\ exists v, String.get 19 s = Some v /\ Strings.in_set "89ab" v = true.
Proof.
  intros Hn Hr. do 10 (destruct r as [|? r]; [done|]). destruct r; [|done]. apply Forall_cons in Hr as [H0 Hr]. apply Forall_cons in Hr as [_ Hr]. apply Forall_cons in Hr as [H2 _].
  pose proof (all_bytes version_ok _ ltac:(vm_compute; reflexivity) H0) as V1. pose proof (all_bytes variant_ok _ ltac:(vm_compute; reflexivity) H2) as V2.
  apply Ascii.eqb_eq in V1. unfold uuidV7. generalize (wrapu64 (UnixMilli t)). intros ms. unfold ms_bytes. cbn [fmap list_fmap app nth list_insert insert].
  eexists. split; [reflexivity|]. cbn [take drop Hex.EncodeToString String.append String.length String.get]. split; [reflexivity|]. split; [by rewrite <- V1|].
  eexists. split; [reflexivity|]. exact V2.
Qed.

(** ** Witnesses *)

Definition site_meta : Meta := {| mt_ProjectName := "pastebin"; ProjectVersion := "1"; AppURL := "" |}.
Definition slack_target : Target := {| tg_Transport := "slack"; tg_URL := "https://hooks.example/a"; tg_Secret := "0102" |}.
Definition some_message : Message := (notifyRole slack_signed 0 "security" "report" "s" "b" "critical").1.
Definition slack_request : WireRequest :=
  match buildSigned (fun _ => Ok tt) some_message site_meta slack_target "id" with
  | Ok q => q
  | Err _ => {| wr_method := ""; wr_url := ""; wr_headers := []; wr_body := "" |}
  end.
Definition second_time (k : nat) : result Z := if Nat.eqb k 1 then Ok 204 else Ok 500.

Lemma slack_built : buildSigned (fun _ => Ok tt) some_message site_meta slack_target "id" = Ok slack_request.
Proof. unfold slack_request. by destruct (buildSigned _ _ _ _ _) eqn:E. Qed.

Theorem delivery_ladder_witness :
  buildSigned (fun _ => Ok tt) some_message site_meta slack_target "id" = Ok slack_request
  /\ exists k l, (k <= 6)%nat
       /\ deliver (fun _ => Ok tt) (Ok "id") some_message site_meta slack_target second_time (fun _ => true) = (rounds slack_request (take k backoffSchedule) ++ l)%list.
Proof.
  split; [exact slack_built|].
  destruct (delivery_ladder (fun _ => Ok tt) "id" some_message site_meta slack_target second_time (fun _ => true) slack_request slack_built) as (k & l & H1 & H2 & _).
  exists k, l. split; [exact H1|exact H2].
Defined.

Theorem notifications_signed_witness :
  In (Sent slack_request) (deliver (fun _ => Ok tt) (Ok "id") some_message site_meta slack_target second_time (fun _ => true))
  /\ exists r secret, In r [contactRole slack_signed "security"; ct_Admin slack_signed] /\ secret = pick r "slack_secret" /\ secret <> ""
       /\ In ("X-Webhook-Signature", signBody secret (wr_body slack_request)) (wr_headers slack_request).
Proof.
  assert (Hs : In (Sent slack_request) (deliver (fun _ => Ok tt) (Ok "id") some_message site_meta slack_target second_time (fun _ => true))).
  { unfold deliver. rewrite slack_built. left. reflexivity. }
  split; [exact Hs|].
  pose proof two_secrets_good as Hr.
  assert (He : ensureWebhookSecrets slack_admin two_secrets = (true, slack_signed, [], true)) by (vm_compute; reflexivity).
  pose proof (notifications_signed slack_admin two_secrets slack_signed [] true 0 "security" "report" "s" "b" "critical" (fun _ => Ok tt) (Ok "id") site_meta slack_target
                second_time (fun _ => true) slack_request Hr He) as P.
  unfold some_message in Hs. destruct (notifyRole slack_signed 0 "security" "report" "s" "b" "critical") as [msg targets] eqn:En.
  assert (Et : In slack_target targets).
  { assert (E2 : targets = (notifyRole slack_signed 0 "security" "report" "s" "b" "critical").2) by (rewrite En; reflexivity). rewrite E2. vm_compute. left. reflexivity. }
  destruct (P Et Hs) as (r & secret & K1 & K2 & K3 & _ & K5); [intros E; exfalso; revert E; clear; intros E%String.eqb_eq; discriminate E|].
  exists r, secret. split; [exact K1|]. split; [exact K2|]. split; [exact K3|exact K5].
Defined.
