(* ===== verification/PasteProofs.v ===== *)
(** * Theorems about the paste handlers

    The read cache stays coherent with the database, creation adds exactly the
    requested paste, what is stored is what a raw read returns, expired pastes
    are refused, deletion needs a token, and the exceptions the code makes to
    these rules. *)

From S2P Require Import Prelude GoStr GoTime GoCrypto GoSniff Model Cache World Database DatabaseProofs Http JsonProofs Paste.
From Stdlib Require Import Ascii.

(** ** The database operations touch neither the cache nor the fault list *)

Section frames.
Context {C : Type}.

Lemma frame_CreatePaste p : frame (C := C) (CreatePaste p).
Proof. unfold CreatePaste. walk. Qed.
Lemma frame_GetPasteByID id : frame (C := C) (GetPasteByID id).
Proof. unfold GetPasteByID. walk. Qed.
Lemma frame_view id : frame (C := C) (IncrementViewsAndCheckBurn id).
Proof. unfold IncrementViewsAndCheckBurn. walk. Qed.
Lemma frame_DeletePaste id : frame (C := C) (DeletePaste id).
Proof. unfold DeletePaste. walk. Qed.
Lemma frame_DeletePasteByToken id t : frame (C := C) (DeletePasteByToken id t).
Proof. unfold DeletePasteByToken. walk. Qed.
Lemma frame_CreateAPIToken h p t r e : frame (C := C) (CreateAPIToken h p t r e).
Proof. unfold CreateAPIToken. walk. Qed.
Lemma frame_VerifyAPIToken h t r : frame (C := C) (VerifyAPIToken h t r).
Proof. unfold VerifyAPIToken. walk. Qed.
Lemma frame_ValidateAPIToken h t : frame (C := C) (ValidateAPIToken h t).
Proof. unfold ValidateAPIToken. walk. Qed.
Lemma frame_ListAPITokens : frame (C := C) ListAPITokens.
Proof. unfold ListAPITokens. walk. Qed.

Lemma steady_CreatePaste p : steady (C := C) (CreatePaste p).
Proof. unfold CreatePaste. walk. Qed.
Lemma steady_GetPasteByID id : steady (C := C) (GetPasteByID id).
Proof. unfold GetPasteByID. walk. Qed.
Lemma steady_view id : steady (C := C) (IncrementViewsAndCheckBurn id).
Proof. unfold IncrementViewsAndCheckBurn. walk. Qed.
Lemma steady_DeletePaste id : steady (C := C) (DeletePaste id).
Proof. unfold DeletePaste. walk. Qed.
Lemma steady_DeletePasteByToken id t : steady (C := C) (DeletePasteByToken id t).
Proof. unfold DeletePasteByToken. walk. Qed.
Lemma steady_CreateAPIToken h p t r e : steady (C := C) (CreateAPIToken h p t r e).
Proof. unfold CreateAPIToken. walk. Qed.
Lemma steady_VerifyAPIToken h t r : steady (C := C) (VerifyAPIToken h t r).
Proof. unfold VerifyAPIToken. walk. Qed.
Lemma steady_ValidateAPIToken h t : steady (C := C) (ValidateAPIToken h t).
Proof. unfold ValidateAPIToken. walk. Qed.
Lemma steady_ListAPITokens : steady (C := C) ListAPITokens.
Proof. unfold ListAPITokens. walk. Qed.
End frames.

#[export] Hint Resolve frame_CreatePaste frame_GetPasteByID frame_view frame_DeletePaste frame_DeletePasteByToken
  frame_CreateAPIToken frame_VerifyAPIToken frame_ValidateAPIToken frame_ListAPITokens
  steady_CreatePaste steady_GetPasteByID steady_view steady_DeletePaste steady_DeletePasteByToken
  steady_CreateAPIToken steady_VerifyAPIToken steady_ValidateAPIToken steady_ListAPITokens : pb.

(** ** Coherence of the cache *)

(** A paste with other view statistics. *)
Definition touch (v u : Z) (p : Paste) : Paste :=
  {| p_id := p_id p; p_title := p_title p; p_content := p_content p; p_content_type := p_content_type p;
     p_language := p_language p; p_visibility := p_visibility p; p_is_link := p_is_link p;
     p_expires := p_expires p; p_burn := p_burn p; p_hash := p_hash p; p_views := v;
     p_created := p_created p; p_updated := u |}.

Lemma touch_touch v u v' u' p : touch v u (touch v' u' p) = touch v u p.
Proof. done. Qed.
Lemma touch_id p : touch (p_views p) (p_updated p) p = p.
Proof. by destruct p. Qed.

(** Every unlimited paste but [hole] that [d] holds is still in [d'], up to its
    statistics. *)
Definition ext (hole : option string) (d d' : DBState) : Prop :=
  forall id p, hole <> Some id -> paste_of id d = Some p -> p_burn p <= 0 ->
    exists v u, paste_of id d' = Some (touch v u p).

Lemma ext_refl hole d : ext hole d d.
Proof. intros id p _ Hp _. exists (p_views p), (p_updated p). by rewrite touch_id. Qed.

Lemma ext_trans hole d1 d2 d3 : ext hole d1 d2 -> ext hole d2 d3 -> ext hole d1 d3.
Proof.
  intros H1 H2 id p Hh Hp Hb. destruct (H1 id p Hh Hp Hb) as (v & u & E).
  destruct (H2 id _ Hh E Hb) as (v' & u' & E'). exists v', u'. exact E'.
Qed.

Lemma ext_same hole d d1 d2 : ext hole d d1 -> t_pastes d2 = t_pastes d1 -> ext hole d d2.
Proof. intros H E id p Hh Hp Hb. unfold paste_of. rewrite E. by apply H. Qed.

Lemma ext_delete id d d' : ext (Some id) d d' -> ext (Some id) d (delete_paste id d').2.
Proof.
  intros H. eapply ext_trans; [exact H|]. intros id' p Hh Hp Hb. exists (p_views p), (p_updated p).
  rewrite touch_id. unfold paste_of, delete_paste in *. cbn -[first]. rewrite first_keep_sub; [done|].
  intros x Hx. apply has_id_iff in Hx. apply negb_true_iff. destruct (has_id id x) eqn:E; [|done].
  apply has_id_iff in E. congruence.
Qed.

Lemma ext_insert hole p d d' : ext hole d d' -> ext hole d (insert_paste p d').2.
Proof.
  intros H. eapply ext_trans; [exact H|]. unfold insert_paste. destruct (existsb _ _); [apply ext_refl|].
  intros id' q Hh Hq Hb. exists (p_views q), (p_updated q). rewrite touch_id.
  unfold paste_of in *. cbn -[first]. by rewrite first_app, Hq.
Qed.

Lemma ext_weaken hole d d' : ext None d d' -> ext hole d d'.
Proof. intros H id p _. by apply H. Qed.

(** Counting a view of [id]: nothing disappears but a limited paste. *)
Lemma ext_view {C} id (w : World C) :
  let '(r, w') := IncrementViewsAndCheckBurn id w in ext None (w_db w) (w_db w').
Proof.
  pose proof (view_cases id w) as H. destruct (IncrementViewsAndCheckBurn id w) as [r w'].
  destruct H as [[_ ->]|(t & p & Hp & _ & ->)]; [apply ext_refl|].
  intros id' q _ Hq Hb. unfold paste_of in *. cbn -[first].
  destruct ((0 <? p_burn p) && (p_burn p <=? p_views p + 1)) eqn:B.
  - exists (p_views q), (p_updated q). rewrite touch_id, first_keep_sub; [done|].
    intros x Hx. apply negb_true_iff. destruct (has_id id x) eqn:E; [|done].
    apply has_id_iff in E, Hx. assert (id' = id) as -> by congruence.
    b2p. assert (q = p) as -> by congruence. lia.
  - rewrite first_upd by done. rewrite Hq. cbn. destruct (has_id id q); [|by exists (p_views q), (p_updated q); rewrite touch_id].
    by eexists _, _.
Qed.

Section coherence.
Context {C : Type} `{CacheLaws C} `{Unicode} `{JsonLaws}.

(** What the cache holds for a key (but [hole]) is the encoding of the stored
    paste, up to its statistics, and that paste has no view limit. *)
Definition coherent (hole : option string) (w : World C) : Prop :=
  match w_cache w with
  | None => True
  | Some c =>
      forall t id raw, hole <> Some id -> view c t (pasteCacheKey id) = Some raw ->
        exists p v u, paste_of id (w_db w) = Some p /\ p_burn p <= 0 /\ raw = render (paste_json (touch v u p))
  end.

Lemma coherent_step hole w w' :
  coherent hole w -> w_cache w' = w_cache w -> ext hole (w_db w) (w_db w') -> coherent hole w'.
Proof.
  unfold coherent. intros Hc -> He. destruct (w_cache w) as [c|]; [|done].
  intros t id raw Hh Hv. destruct (Hc t id raw Hh Hv) as (p & v & u & Hp & Hb & ->).
  destruct (He id p Hh Hp Hb) as (v' & u' & E). by exists (touch v' u' p), v, u.
Qed.

Lemma coherent_hole hole w : coherent None w -> coherent hole w.
Proof.
  unfold coherent. destruct (w_cache w); [|done]. intros Hc t id raw _. by apply Hc.
Qed.

(** A computation on the database that keeps all pastes but [hole]. *)
Lemma coherent_frame {A} hole (m : M C A) w :
  frame m -> (forall d, safe (ext hole d) m (fun _ => True)) -> coherent hole w -> coherent hole (m w).2.
Proof.
  intros Hf Hs Hc. eapply coherent_step; [exact Hc | apply Hf |].
  apply (Hs (w_db w) w). apply ext_refl.
Qed.

Lemma key_inj a b : pasteCacheKey a = pasteCacheKey b -> a = b.
Proof. apply prefix_inj. Qed.

Lemma getCached_spec hole id w :
  coherent hole w -> hole <> Some id ->
  let '(o, w') := getCachedPaste id w in
  w_db w' = w_db w /\ coherent hole w' /\ w_clock w <= w_clock w' /\ (calm w -> calm w')
  /\ match o with
     | Some p => exists p0 v u, paste_of id (w_db w) = Some p0 /\ p_burn p0 <= 0 /\ p = json_view (touch v u p0)
     | None => True
     end.
Proof.
  intros Hc Hh. unfold getCachedPaste, cache_op. rewrite bind_run.
  destruct (w_cache w) as [c|] eqn:Ec; [|by repeat split].
  destruct (cache_get (w_clock w) (pasteCacheKey id) c) as [r c'] eqn:Eg.
  assert (Hc' : coherent hole (set_cache (Some c') (advance w))).
  { unfold coherent in *. rewrite Ec in Hc. cbn. intros t id' raw Hh' Hv. apply (Hc t id' raw Hh').
    apply (get_keeps (w_clock w) (pasteCacheKey id)). by rewrite Eg. }
  assert (Hclk : w_clock w <= w_clock (set_cache (Some c') (advance w))) by (cbn; lia).
  destruct r as [raw|e]; [|by repeat split].
  apply get_view in Eg. unfold coherent in Hc. rewrite Ec in Hc.
  destruct (Hc _ id raw Hh Eg) as (p0 & v & u & Hp & Hb & ->).
  rewrite parse_render. cbn [mbind option_bind].
  destruct (paste_of_json (sanitize (paste_json (touch v u p0)))) as [q|] eqn:Eq; [|by repeat split].
  apply paste_json_view in Eq as ->. cbn [json_view p_burn touch].
  rewrite (proj2 (Z.ltb_ge 0 (p_burn p0))) by lia. do 4 (split; [done|]). by exists p0, v, u.
Qed.

Lemma cache_op_db {A} (f : Z -> C -> A * C) w : w_db (cache_op f w).2 = w_db w.
Proof. unfold cache_op. destruct (w_cache w) as [c|]; [|done]. by destruct (f (w_clock w) c). Qed.

Lemma steady_cache_op {A} (f : Z -> C -> A * C) : steady (cache_op f).
Proof.
  intros w. unfold cache_op. destruct (w_cache w) as [c|]; [|split; [cbn; lia|done]].
  destruct (f (w_clock w) c). split; [cbn; lia | done].
Qed.

Lemma cachePaste_db p w : w_db (cachePaste p w).2 = w_db w.
Proof.
  unfold cachePaste. destruct (0 <? p_burn p); [done|]. rewrite bind_run.
  match goal with |- context [cache_op ?f w] => pose proof (cache_op_db f w) as E; destruct (cache_op f w) end. exact E.
Qed.

Lemma invalidate_db id w : w_db (invalidatePasteCache id w).2 = w_db w.
Proof.
  unfold invalidatePasteCache. rewrite bind_run.
  match goal with |- context [cache_op ?f w] => pose proof (cache_op_db f w) as E; destruct (cache_op f w) end. exact E.
Qed.

Lemma cachePaste_coherent p w :
  coherent None w -> paste_of (p_id p) (w_db w) = Some p -> coherent None (cachePaste p w).2.
Proof.
  intros Hc Hp. pose proof (cachePaste_db p w) as Hdb. revert Hdb. unfold cachePaste.
  destruct (0 <? p_burn p) eqn:Hb; [done|]. rewrite bind_run. unfold cache_op.
  destruct (w_cache w) as [c|] eqn:Ec; [|intros _; unfold coherent; cbn; by rewrite Ec].
  destruct (cache_set _ _ _ _ c) as [r c'] eqn:Es. cbn. intros _.
  unfold coherent in *. rewrite Ec in Hc. cbn. intros t id raw _ Hv.
  change c' with (snd (r, c')) in Hv. rewrite <- Es in Hv.
  apply set_view in Hv as [[Hk ->]|[Hk Hv]]; [|by apply (Hc t)].
  apply key_inj in Hk as ->. b2p. exists p, (p_views p), (p_updated p). by rewrite touch_id.
Qed.

Lemma invalidate_coherent id w : coherent (Some id) w -> coherent None (invalidatePasteCache id w).2.
Proof.
  intros Hc. unfold invalidatePasteCache, cache_op. rewrite bind_run. unfold coherent in *.
  destruct (w_cache w) as [c|] eqn:Ec; [|cbn; by rewrite Ec].
  destruct (cache_delete (pasteCacheKey id) c) as [r c'] eqn:Es. cbn. intros t id' raw _ Hv.
  change c' with (snd (r, c')) in Hv. rewrite <- Es in Hv. apply delete_view in Hv as [Hk Hv].
  apply (Hc t); [|done]. intros [= ->]. done.
Qed.

Lemma steady_getCached id : steady (getCachedPaste id).
Proof.
  unfold getCachedPaste. apply steady_bind; [apply steady_cache_op|]. intros [[raw|]|]; walk.
Qed.
Lemma steady_cachePaste p : steady (cachePaste p).
Proof. unfold cachePaste. destruct (0 <? p_burn p); [walk|]. apply steady_bind; [apply steady_cache_op|intros ?; walk]. Qed.
Lemma steady_invalidate id : steady (invalidatePasteCache id).
Proof. unfold invalidatePasteCache. apply steady_bind; [apply steady_cache_op|intros ?; walk]. Qed.
End coherence.

#[export] Hint Resolve steady_getCached steady_cachePaste steady_invalidate : pb.

Section loads.
Context {C : Type} `{CacheLaws C} `{Unicode} `{JsonLaws} `{Net}.
Implicit Types (w : World C).

(** How a stored paste reaches a reader: as it is, or through the cache. *)
Definition served (p0 p : Paste) : Prop :=
  p = p0 \/ exists v u, p_burn p0 <= 0 /\ p = json_view (touch v u p0).

Lemma GetPasteByID_cases id w :
  exists w', w_db w' = w_db w /\ w_cache w' = w_cache w /\ w_clock w <= w_clock w' /\ (calm w -> calm w')
    /\ (GetPasteByID id w = (Ok (paste_of id (w_db w)), w')
        \/ (~ calm w /\ GetPasteByID id w = (Err driver_error, w'))).
Proof.
  pose proof (frame_GetPasteByID id w) as Hf. pose proof (steady_GetPasteByID id w) as [Hk Hs].
  destruct (query_cases (fun d => first (has_id id) (t_pastes d)) w) as (w' & Hdb & [E|E]).
  - exists w'. unfold GetPasteByID in *. rewrite E in *. do 4 (split; [done|]). right. split; [|done].
    intros Hc. rewrite query_calm in E by done. discriminate.
  - exists w'. unfold GetPasteByID in *. rewrite E in *. do 4 (split; [done|]). by left.
Qed.

(** Deleting a paste and dropping it from the cache keeps coherence. *)
Lemma delete_keeps id d : safe (ext (Some id) d) (DeletePaste (C := C) id) (fun _ => True).
Proof.
  unfold DeletePaste. repeat safe_step. by apply ext_delete.
Qed.

Lemma delete_coherent id w : coherent None w -> coherent (Some id) (DeletePaste id w).2.
Proof.
  intros Hc. apply coherent_frame; [auto with pb | intros d; apply delete_keeps | by apply coherent_hole].
Qed.

(** The first half of [loadLivePaste] and [GetPasteForWeb]. *)
Definition load (id : string) : M C (result (option Paste)) :=
  cached ← getCachedPaste id;
  match cached with
  | Some p => mret (Ok (Some p))
  | None =>
      r ← GetPasteByID id;
      match r with
      | Ok (Some p) => _ ← cachePaste p; mret (Ok (Some p))
      | r => mret r
      end
  end.

Lemma load_spec id w :
  coherent None w ->
  let '(r, w') := load id w in
  coherent None w' /\ w_db w' = w_db w /\ w_clock w <= w_clock w' /\ (calm w -> calm w')
  /\ match r with
     | Ok (Some p) => exists p0, paste_of id (w_db w) = Some p0 /\ served p0 p
     | Ok None => paste_of id (w_db w) = None
     | Err _ => ~ calm w
     end.
Proof.
  intros Hc. unfold load. rewrite bind_run.
  pose proof (getCached_spec None id w Hc ltac:(done)) as Hg.
  destruct (getCachedPaste id w) as [o w1]. destruct Hg as (Hd1 & Hc1 & Hk1 & Hs1 & Ho).
  destruct o as [p|].
  - cbn. do 4 (split; [done|]). destruct Ho as (p0 & v & u & Hp & Hb & ->). exists p0. split; [done|]. right. eauto.
  - rewrite bind_run. destruct (GetPasteByID_cases id w1) as (w2 & Hd2 & Hca2 & Hk2 & Hs2 & Hg).
    assert (Hc2 : coherent None w2) by (eapply coherent_step; [exact Hc1|done|rewrite Hd2; apply ext_refl]).
    destruct Hg as [E|[Hn E]]; rewrite E; [rewrite Hd1|cbn; split_and!; [done|congruence|lia|auto|auto]].
    destruct (paste_of id (w_db w)) as [p|] eqn:Hp; [|cbn; split_and!; [done|congruence|lia|auto|done]].
    rewrite bind_run. pose proof (cachePaste_db p w2) as Hd3.
    pose proof (steady_cachePaste p w2) as [Hk3 Hs3].
    pose proof (cachePaste_coherent p w2 Hc2) as Hc3.
    destruct (cachePaste p w2) as [[] w3]. cbn in *. pose proof (first_Some _ _ _ Hp) as [_ Hid].
    apply has_id_iff in Hid. rewrite Hid, Hd2, Hd1 in Hc3. split_and!; [by apply Hc3|congruence|lia|auto|].
    exists p. split; [done|by left].
Qed.

Lemma loadLive_load id w :
  loadLivePaste id w =
  (r ← load id;
   match r with
   | Err _ => mret (inr (sendAPIError "SERVER_ERROR" "internal server error"))
   | Ok None => mret (inr (sendAPIError "NOT_FOUND" "paste not found"))
   | Ok (Some p) =>
       match p_expires p with
       | None => mret (inl p)
       | Some _ =>
           t ← now;
           if expired t p then
             _ ← DeletePaste id; _ ← invalidatePasteCache id; mret (inr (sendAPIError "GONE" "paste has expired"))
           else mret (inl p)
       end
   end) w.
Proof.
  unfold loadLivePaste, load. rewrite !bind_run. destruct (getCachedPaste id w) as [[p|] w1]; [done|].
  rewrite !bind_run. destruct (GetPasteByID id w1) as [[[p|]|e] w2]; try done.
  rewrite !bind_run. by destruct (cachePaste p w2).
Qed.

(** What [loadLivePaste] gives its callers. *)
Lemma loadLive_spec id w :
  coherent None w ->
  let '(r, w') := loadLivePaste id w in
  coherent None w' /\ w_clock w <= w_clock w' /\ (calm w -> calm w')
  /\ match r with
     | inl p =>
         w_db w' = w_db w /\ (exists p0, paste_of id (w_db w) = Some p0 /\ served p0 p)
         /\ (forall e, p_expires p = Some e -> w_clock w <= e)
     | inr resp =>
         status resp <> 200 /\ status resp <> 302
         /\ (calm w -> match paste_of id (w_db w) with
                       | None => resp = sendAPIError "NOT_FOUND" "paste not found"
                       | Some p0 => resp = sendAPIError "GONE" "paste has expired"
                                    /\ exists e, p_expires p0 = Some e /\ e < w_clock w'
                       end)
     end.
Proof.
  intros Hc. rewrite loadLive_load, bind_run. pose proof (load_spec id w Hc) as Hl.
  destruct (load id w) as [r w1]. destruct Hl as (Hc1 & Hd1 & Hk1 & Hs1 & Hr).
  destruct r as [[p|]|e].
  2: { cbn. split_and!; try done. intros _. by rewrite Hr. }
  2: { cbn. by split_and!. }
  destruct Hr as (p0 & Hp & Hs).
  assert (Hexp : p_expires p = p_expires p0) by (by destruct Hs as [->|(v & u & _ & ->)]).
  destruct (p_expires p) as [e|] eqn:Ee.
  2: { cbn. split_and!; try done; [by exists p0 | congruence]. }
  rewrite bind_now. unfold expired. rewrite Ee. destruct (e <? w_clock w1) eqn:Ht; b2p.
  - assert (Hc2 : coherent None (advance w1)) by (eapply coherent_step; [exact Hc1|done|apply ext_refl]).
    rewrite bind_run. pose proof (delete_coherent id _ Hc2) as Hc3.
    pose proof (steady_DeletePaste id (advance w1)) as [Hk3 Hs3].
    destruct (DeletePaste id (advance w1)) as [x w3]. cbn [snd] in *.
    rewrite bind_run. pose proof (invalidate_coherent id _ Hc3) as Hc4.
    pose proof (steady_invalidate id w3) as [Hk4 Hs4].
    destruct (invalidatePasteCache id w3) as [y w4]. cbn in *.
    split_and!; try done; [lia|auto|]. intros Hcalm. rewrite Hp. split; [done|]. exists e. split; [congruence|lia].
  - cbn. split_and!; try done; [lia|by exists p0|]. intros e' He'. simplify_eq. lia.
Qed.

Lemma count_and_burn_spec id p w :
  coherent None w ->
  let '(q, w') := count_and_burn id p w in
  coherent None w' /\ w_clock w <= w_clock w' /\ (calm w -> calm w')
  /\ (exists v, q = set_hash "" (set_views v p)) /\ ext None (w_db w) (w_db w').
Proof.
  intros Hc. unfold count_and_burn. rewrite bind_run.
  pose proof (ext_view id w) as He. pose proof (frame_view id w) as Hf. pose proof (steady_view id w) as [Hk Hs].
  destruct (IncrementViewsAndCheckBurn id w) as [r w1]. cbn [snd] in *.
  assert (Hc1 : coherent None w1) by (by eapply coherent_step).
  rewrite bind_metric. set (w2 := set_metrics _ w1).
  assert (Hc2 : coherent None w2) by done.
  destruct r as [[views burned]|e].
  - rewrite bind_run. destruct burned.
    + unfold burn_effects. rewrite bind_run.
      pose proof (invalidate_coherent id w2 (coherent_hole _ _ Hc2)) as Hc3. pose proof (invalidate_db id w2) as Hd3.
      pose proof (steady_invalidate id w2) as [Hk3 Hs3].
      destruct (invalidatePasteCache id w2) as [x w3]. cbn in *. rewrite Hd3.
      split_and!; [exact Hc3|lia|auto|by eexists|done].
    + cbn. split_and!; [done..|by eexists|done].
  - cbn. split_and!; [done..|by eexists|done].
Qed.
End loads.

Section handlers.
Context {C : Type} `{CacheLaws C} `{Unicode} `{JsonLaws} `{Net}.
Context (h : PasteHandler).
Implicit Types (w : World C).

(** ** Creation on the database *)

Lemma frame_generateID : frame (C := C) generateID.
Proof. unfold generateID. walk. Qed.
Lemma steady_generateID : steady (C := C) generateID.
Proof. unfold generateID. walk. Qed.
Lemma frame_generateOwnerToken : frame (C := C) generateOwnerToken.
Proof. unfold generateOwnerToken. walk. Qed.
Lemma steady_generateOwnerToken : steady (C := C) generateOwnerToken.
Proof. unfold generateOwnerToken. walk. Qed.
Hint Resolve frame_generateID steady_generateID frame_generateOwnerToken steady_generateOwnerToken : pb.

Lemma frame_unique_id n : frame (C := C) (unique_id n).
Proof. induction n as [|n IH]; cbn [unique_id]; walk. Qed.
Lemma steady_unique_id n : steady (C := C) (unique_id n).
Proof. induction n as [|n IH]; cbn [unique_id]; walk. Qed.
Lemma frame_refresh : frame (C := C) refreshActiveTokenGauge.
Proof. unfold refreshActiveTokenGauge. walk. Qed.
Lemma steady_refresh : steady (C := C) refreshActiveTokenGauge.
Proof. unfold refreshActiveTokenGauge. walk. Qed.
Lemma frame_owner_token r : frame (C := C) (owner_token r).
Proof. unfold owner_token. walk. Qed.
Lemma steady_owner_token r : steady (C := C) (owner_token r).
Proof. unfold owner_token. walk. Qed.
Lemma frame_ParseExpiry s : frame (C := C) (ParseExpiry s).
Proof. unfold ParseExpiry. walk. Qed.
Lemma steady_ParseExpiry s : steady (C := C) (ParseExpiry s).
Proof. unfold ParseExpiry. walk. Qed.
Hint Resolve frame_unique_id steady_unique_id frame_refresh steady_refresh frame_owner_token steady_owner_token
  frame_ParseExpiry steady_ParseExpiry : pb.

Lemma frame_store_paste r q id e plain hash : frame (C := C) (store_paste h r q id e plain hash).
Proof. unfold store_paste. walk. Qed.
Lemma steady_store_paste r q id e plain hash : steady (C := C) (store_paste h r q id e plain hash).
Proof. unfold store_paste. walk. Qed.
Hint Resolve frame_store_paste steady_store_paste : pb.

Lemma frame_create r : frame (C := C) (createFromRequest h r).
Proof. unfold createFromRequest. walk. Qed.
Lemma steady_create r : steady (C := C) (createFromRequest h r).
Proof. unfold createFromRequest. walk. Qed.

(** The parts of the creation before the insertion do not write. *)
Definition reads {A} (m : M C A) : Prop := forall w, w_db (m w).2 = w_db w.

Lemma reads_ret {A} (a : A) : reads (mret a).
Proof. by intros w. Qed.
Lemma reads_bind {A B} (m : M C A) (f : A -> M C B) : reads m -> (forall a, reads (f a)) -> reads (m ≫= f).
Proof. intros Hm Hf w. rewrite bind_run. specialize (Hm w). destruct (m w). cbn in Hm. by rewrite Hf. Qed.
Lemma reads_query {A} (f : DBState -> A) : reads (query f).
Proof. intros w. by destruct (query_cases f w) as (w' & Hd & [->| ->]). Qed.
Lemma reads_rand n : reads (rand_read n).
Proof. intros w. unfold rand_read. by case_bool_decide. Qed.
Lemma reads_now : reads now.
Proof. by intros w. Qed.
Lemma reads_metric f : reads (metric f).
Proof. by intros w. Qed.

Ltac rwalk :=
  repeat match goal with
  | |- reads (mret _) => apply reads_ret
  | |- reads (_ ≫= _) => apply reads_bind; [|intros ?]
  | |- reads (query _) => apply reads_query
  | |- reads (rand_read _) => apply reads_rand
  | |- reads now => apply reads_now
  | |- reads (metric _) => apply reads_metric
  | |- reads (match ?x with _ => _ end) => destruct x
  | |- _ => done
  end.

Lemma reads_unique_id n : reads (unique_id n).
Proof. induction n as [|n IH]; cbn [unique_id]; unfold generateID, GetPasteByID; rwalk. Qed.
Lemma reads_owner_token r : reads (owner_token r).
Proof. unfold owner_token, generateOwnerToken, ValidateAPIToken. rwalk. Qed.
Lemma reads_ParseExpiry s : reads (ParseExpiry s).
Proof. unfold ParseExpiry. rwalk. Qed.
Lemma reads_refresh : reads refreshActiveTokenGauge.
Proof. unfold refreshActiveTokenGauge, ListAPITokens. rwalk. Qed.

(** The row a request asks for. *)
Definition requested (q : CreateRequest) (id : string) (e : option Z) (t : Z) (p : Paste) : Prop :=
  p_id p = id /\ p_title p = request_title q /\ p_content p = q_Content q /\ p_content_type p = q_ContentType q
  /\ p_language p = request_language q /\ p_visibility p = visibility_of (q_Visibility q) /\ p_is_link p = q_IsLink q
  /\ p_expires p = e /\ p_burn p = clamp_burn (q_BurnAfter q) /\ p_hash p = "" /\ p_views p = 0 /\ p_created p = t.

Lemma request_title_nonempty q : (q_IsLink q = true -> q_Content q <> "") -> request_title q <> "".
Proof.
  unfold request_title. intros Hl. destruct (String.eqb (q_Title q) "") eqn:E; [|by apply String.eqb_neq].
  destruct (q_IsLink q); [by apply Hl | done].
Qed.

(** Storing: nothing on failure, one paste and perhaps one token on success. *)
Lemma store_cases r q id e plain hash w :
  (q_IsLink q = true -> q_Content q <> "") ->
  let '(res, w') := store_paste h r q id e plain hash w in
  match res with
  | inr _ => w_db w' = w_db w
  | inl resp =>
      exists p, requested q id e (cr_created resp) p /\ paste_of id (w_db w) = None
        /\ t_pastes (w_db w') = (t_pastes (w_db w) ++ [p])%list
        /\ cr_id resp = id /\ cr_link resp = pasteURL h r id /\ cr_owner_token resp = plain
        /\ ((t_tokens (w_db w') = t_tokens (w_db w)
             /\ (calm w -> existsb (has_hash (Hex.EncodeToString hash)) (t_tokens (w_db w)) = true))
            \/ exists row, t_tokens (w_db w') = (t_tokens (w_db w) ++ [row])%list
                 /\ existsb (has_hash (Hex.EncodeToString hash)) (t_tokens (w_db w)) = false
                 /\ tk_hash row = Hex.EncodeToString hash /\ tk_type row = "paste" /\ tk_resource row = id
                 /\ tk_revoked row = None /\ tk_expires row = Unix <$> e)
  end.
Proof.
  intros Hl. unfold store_paste, CreatePaste. rewrite bind_run, bind_now.
  set (t := w_clock w). set (p := stamp t _).
  destruct (sql_cases (insert_paste p) (advance w)) as [(w1 & E & Hd)|(w1 & E & Hd)];
    rewrite (bind_eq _ _ _ _ _ E); cbn [mret M_ret]; [done|]. cbn [w_db advance] in Hd.
  assert (Hcalm1 : calm w -> calm w1).
  { intros Hc. pose proof (steady_sql (insert_paste p) (advance w)) as [_ Hs]. rewrite E in Hs. by apply Hs. }
  clear E. unfold insert_paste in *. change (p_id p) with id in *.
  change (w_db (advance w)) with (w_db w) in *.
  destruct (existsb (has_id id) (t_pastes (w_db w))) eqn:Ex; cbn [fst snd] in *; [done|].
  assert (Hnone : paste_of id (w_db w) = None).
  { apply first_None. intros x Hx. apply not_true_is_false. intros Hid. apply not_true_iff_false in Ex. apply Ex.
    apply existsb_exists. exists x. split; [by apply list_elem_of_In|done]. }
  rewrite bind_metric. set (w2 := set_metrics _ w1). unfold CreateAPIToken. rewrite bind_run, bind_now.
  set (row := insert_token _ _ _ _ _ _).
  assert (Hreq : requested q id e t p).
  { unfold requested. cbn. rewrite (proj2 (String.eqb_neq _ _) (request_title_nonempty q Hl)).
    split_and!; try done. unfold request_language.
    destruct (String.eqb (q_Language q) "" && negb (q_IsLink q)) eqn:B; cbn; [done|by rewrite B]. }
  destruct (sql_cases row (advance w2)) as [(w3 & E3 & Hd3)|(w3 & E3 & Hd3)].
  - rewrite E3. cbn [mret M_ret]. rewrite bind_run. cbn. exists p. change (w_db (advance w2)) with (w_db w1) in Hd3.
    rewrite Hd3, Hd. split_and!; try done. left. split; [done|]. intros Hc.
    rewrite sql_calm in E3 by (apply calm_advance, calm_set_metrics, Hcalm1, Hc).
    unfold row, insert_token in E3. cbn [w_db advance w2 set_metrics] in E3. rewrite Hd in E3. cbn in E3.
    destruct (existsb _ _) eqn:Ht in |- *; [done|]. rewrite Ht in E3. cbn in E3. discriminate.
  - rewrite E3. change (w_db (advance w2)) with (w_db w1) in *. unfold row, insert_token in *. rewrite Hd in *.
    cbn [t_tokens with_pastes] in *.
    destruct (existsb (has_hash (Hex.EncodeToString hash)) (t_tokens (w_db w))) eqn:Ht; cbn [fst snd] in *.
    + rewrite bind_run. cbn. exists p. rewrite Hd3. split_and!; try done. left. by split.
    + rewrite bind_run. pose proof (reads_refresh w3) as Hr. destruct (refreshActiveTokenGauge w3) as [[] w4].
      cbn in *. exists p. rewrite Hr, Hd3. cbn. split_and!; try done. right. eexists. split_and!; done.
Qed.

Lemma TrimSpace_empty : StringsU.TrimSpace "" = "".
Proof. done. Qed.

Lemma require_content_nonblank x q' : require_content x = inl q' -> x = inl q' /\ StringsU.TrimSpace (q_Content q') <> "".
Proof.
  destruct x as [y|y]; cbn [require_content]; [|discriminate].
  destruct (String.eqb_spec (StringsU.TrimSpace (q_Content y)) "") as [E|E]; [discriminate|].
  intros Heq. injection Heq as <-. split; [reflexivity|exact E].
Qed.

Lemma normalize_nonblank q q' : normalize q = inl q' -> StringsU.TrimSpace (q_Content q') <> "".
Proof. intros E. exact (proj2 (require_content_nonblank (encode_request q) q' E)). Qed.

(** A generated token, with its hash. *)
Definition generated (plain : string) (hash : list Z) : Prop :=
  hash = Sha256.Sum256 (bytes plain)
  /\ exists raw, plain = "tok_" ++ from_charset tokenCharset raw /\ length raw = 32%nat.

Lemma generateOwnerToken_cases w plain hash w' :
  generateOwnerToken (C := C) w = (Ok (plain, hash), w') -> generated plain hash.
Proof.
  unfold generateOwnerToken. rewrite bind_run. unfold rand_read. case_bool_decide; cbv beta iota; [|discriminate].
  unfold mret, M_ret, result_map. intros E. injection E as <- <- _. split; [reflexivity|].
  eexists. split; [reflexivity|]. rewrite length_take. lia.
Qed.

(** The token of a new paste: generated, or the valid one of the request. *)
Lemma owner_token_cases r w plain hash w' :
  owner_token (C := C) r w = (Ok (plain, hash), w') ->
  hash = Sha256.Sum256 (bytes plain)
  /\ ((plain = extractToken r /\ plain <> "")
      \/ (exists raw, plain = "tok_" ++ from_charset tokenCharset raw /\ length raw = 32%nat)).
Proof.
  unfold owner_token. destruct (String.eqb_spec (extractToken r) "") as [Ee|Ee].
  { intros [-> Hg]%generateOwnerToken_cases. split; [reflexivity|by right]. }
  rewrite bind_run. destruct (ValidateAPIToken _ _ w) as [[u|e] w1].
  - unfold mret, M_ret. intros E. injection E as <- <- _. split; [reflexivity|]. left. split; [reflexivity|exact Ee].
  - intros [-> Hg]%generateOwnerToken_cases. split; [reflexivity|by right].
Qed.

Definition asked_expiry (q : CreateRequest) (t0 : Z) (e : option Z) : Prop :=
  if negb (String.eqb (q_ExpiresIn q) "") && negb (String.eqb (q_ExpiresIn q) "never") then
    match expiry_duration (q_ExpiresIn q) with
    | None => e = None
    | Some d => exists t, t0 <= t /\ e = Some (t + d)
    end
  else e = None.

(** ** The characters of an id *)

Lemma pick_char_in charset v :
  charset <> "" -> Strings.in_set charset (pick_char charset v) = true.
Proof.
  intros Hne. unfold pick_char.
  assert (Hlen : 0 < strlen charset) by (destruct charset; [done|unfold strlen; cbn [String.length]; lia]).
  pose proof (Z.mod_pos_bound v (strlen charset) Hlen) as Hb.
  set (n := Z.to_nat (v mod strlen charset)).
  assert (Hn : (n < String.length charset)%nat) by (unfold n, strlen in *; lia). clearbody n. clear Hb Hlen Hne.
  revert n Hn. induction charset as [|c s IH]; intros [|n] Hn; cbn in *; try lia.
  - by rewrite Ascii.eqb_refl.
  - rewrite orb_true_iff. right. apply IH. lia.
Qed.

Lemma from_charset_spec charset l :
  charset <> "" ->
  String.length (from_charset charset l) = length l
  /\ Strings.forall_byte (Strings.in_set charset) (from_charset charset l) = true.
Proof.
  intros Hne. unfold from_charset. induction l as [|v l IH]; [done|]. cbn. destruct IH as [-> ->].
  split; [done|]. by rewrite pick_char_in.
Qed.

Definition id_shape (id : string) : Prop :=
  String.length id = 8%nat /\ Strings.forall_byte (Strings.in_set idCharset) id = true.

Lemma generateID_chars w id w' : generateID (C := C) w = (Ok id, w') -> id_shape id.
Proof.
  unfold generateID. rewrite bind_run. unfold rand_read. case_bool_decide; cbv beta iota; [|discriminate].
  unfold mret, M_ret, result_map. intros E. injection E as <- _.
  destruct (from_charset_spec idCharset (take 8 (w_rand w)) ltac:(done)) as [Hl Hf]. rewrite length_take in Hl.
  split; [rewrite Hl; lia | exact Hf].
Qed.

Lemma unique_id_chars n w id w' : unique_id (C := C) n w = (Ok id, w') -> id_shape id.
Proof.
  revert w. induction n as [|n IH]; intros w; cbn [unique_id]; [discriminate|].
  rewrite bind_run. destruct (generateID w) as [[i|e] w1] eqn:Eg; [|discriminate].
  rewrite bind_run. destruct (GetPasteByID i w1) as [[[p|]|e] w2]; [apply IH|..];
    unfold mret, M_ret; intros E; injection E as <- _; by eapply generateID_chars.
Qed.

(** The outcome of a creation request. *)
Lemma create_cases r w :
  let '(res, w') := createFromRequest h r w in
  match res with
  | inr _ => w_db w' = w_db w
  | inl resp =>
      exists q0 r' q e p,
        parse_request h r = inl (q0, r') /\ normalize q0 = inl q /\ asked_expiry q (w_clock w) e
        /\ requested q (cr_id resp) e (cr_created resp) p
        /\ paste_of (cr_id resp) (w_db w) = None /\ id_shape (cr_id resp)
        /\ t_pastes (w_db w') = (t_pastes (w_db w) ++ [p])%list
        /\ cr_link resp = pasteURL h r' (cr_id resp)
        /\ ((cr_owner_token resp = extractToken r' /\ cr_owner_token resp <> "")
            \/ exists raw, cr_owner_token resp = "tok_" ++ from_charset tokenCharset raw /\ length raw = 32%nat)
        /\ let hash := Hex.EncodeToString (Sha256.Sum256 (bytes (cr_owner_token resp))) in
           ((t_tokens (w_db w') = t_tokens (w_db w)
             /\ (calm w -> existsb (has_hash hash) (t_tokens (w_db w)) = true))
            \/ exists row, t_tokens (w_db w') = (t_tokens (w_db w) ++ [row])%list
                 /\ existsb (has_hash hash) (t_tokens (w_db w)) = false
                 /\ tk_hash row = hash /\ tk_type row = "paste" /\ tk_resource row = cr_id resp
                 /\ tk_revoked row = None /\ tk_expires row = Unix <$> e)
  end.
Proof.
  unfold createFromRequest. destruct (parse_request h r) as [[q0 r']|err] eqn:Ep; [|done].
  destruct (normalize q0) as [q|err] eqn:En; [|done].
  rewrite bind_run. set (mexp := if _ : bool then ParseExpiry _ else _).
  assert (Hexp : let '(e, w1) := mexp w in asked_expiry q (w_clock w) e /\ w_db w1 = w_db w /\ (calm w -> calm w1)).
  { unfold mexp, asked_expiry, ParseExpiry. destruct (negb _ && negb _); [|done].
    destruct (expiry_duration _); [|done]. rewrite bind_now. cbn. split; [|done]. exists (w_clock w). split; [lia|done]. }
  destruct (mexp w) as [e w1]. destruct Hexp as (He & Hd1 & Hs1).
  rewrite bind_run. pose proof (reads_unique_id 10 w1) as Hd2. pose proof (steady_unique_id 10 w1) as [_ Hs2].
  destruct (unique_id 10 w1) as [[id|m] w2] eqn:Eid; cbn [snd] in *; [|cbn; congruence].
  apply unique_id_chars in Eid.
  rewrite bind_run. pose proof (reads_owner_token r' w2) as Hd3. pose proof (steady_owner_token r' w2) as [_ Hs3].
  destruct (owner_token r' w2) as [[[plain hash]|m] w3] eqn:Eo; cbn [snd] in *; [|cbn; congruence].
  apply owner_token_cases in Eo as [-> Ho].
  assert (Hdb : w_db w3 = w_db w) by congruence.
  pose proof (store_cases r' q id e plain (Sha256.Sum256 (bytes plain)) w3) as Hst.
  destruct (store_paste h r' q id e plain (Sha256.Sum256 (bytes plain)) w3) as [res w4].
  destruct res as [resp|err].
  - destruct Hst as (p & Hreq & Hnone & Hps & <- & Hlink & <- & Htok).
    { intros _ E. apply (normalize_nonblank _ _ En). by rewrite E. }
    rewrite Hdb in *. exists q0, r', q, e, p. split_and!; try done.
    destruct Htok as [[Ht Hc]|Ht]; [left|by right]. split; [done|]. auto 6.
  - rewrite Hst; [done|]. intros _ E. apply (normalize_nonblank _ _ En). by rewrite E.
Qed.

(** ** Coherence through the handlers *)

Lemma create_coherent r w : coherent None w -> coherent None (createFromRequest h r w).2.
Proof.
  intros Hc. eapply coherent_step; [exact Hc | apply frame_create |].
  pose proof (create_cases r w) as Hr. destruct (createFromRequest h r w) as [res w']. cbn [snd].
  destruct res as [resp|e]; [|rewrite Hr; apply ext_refl].
  destruct Hr as (q0 & r' & q & e & p & _ & _ & _ & _ & _ & _ & Hps & _).
  intros id x _ Hx _. exists (p_views x), (p_updated x). rewrite touch_id. unfold paste_of in *.
  by rewrite Hps, first_app, Hx.
Qed.

Lemma GetPaste_coherent r w : coherent None w -> coherent None (GetPaste r w).2.
Proof.
  intros Hc. unfold GetPaste. rewrite bind_run. pose proof (loadLive_spec (r_id r) w Hc) as Hl.
  destruct (loadLivePaste (r_id r) w) as [[p|resp] w1]; [|apply Hl].
  rewrite bind_run. pose proof (count_and_burn_spec (r_id r) p w1 (proj1 Hl)) as Hb.
  destruct (count_and_burn (r_id r) p w1) as [q w2]. apply Hb.
Qed.

Lemma GetRawPaste_coherent r w : coherent None w -> coherent None (GetRawPaste r w).2.
Proof.
  intros Hc. unfold GetRawPaste. rewrite bind_run. pose proof (loadLive_spec (r_id r) w Hc) as Hl.
  destruct (loadLivePaste (r_id r) w) as [[p|resp] w1]; [|apply Hl].
  cbn [serve_raw]. rewrite bind_run. pose proof (count_and_burn_spec (r_id r) p w1 (proj1 Hl)) as Hb.
  destruct (count_and_burn (r_id r) p w1) as [q w2]. apply Hb.
Qed.

Lemma GetPasteForWeb_load id w :
  GetPasteForWeb id w =
  (loaded ← load id;
   match loaded with
   | Ok (Some p) =>
       t ← (match p_expires p with Some _ => now | None => mret 0 end);
       if expired t p then _ ← DeletePaste id; _ ← invalidatePasteCache id; mret (Ok None)
       else p ← count_and_burn id p; mret (Ok (Some p))
   | r => mret r
   end) w.
Proof.
  unfold GetPasteForWeb, load. rewrite !bind_run. destruct (getCachedPaste id w) as [[p|] w1]; [done|].
  rewrite !bind_run. destruct (GetPasteByID id w1) as [[[p|]|e] w2]; try done.
Qed.

Lemma GetPasteForWeb_coherent id w : coherent None w -> coherent None (GetPasteForWeb id w).2.
Proof.
  intros Hc. rewrite GetPasteForWeb_load, bind_run. pose proof (load_spec id w Hc) as Hl.
  destruct (load id w) as [r w1]. destruct Hl as (Hc1 & _).
  destruct r as [[p|]|e]; [|done..]. rewrite bind_run.
  set (m := match p_expires p with Some _ => now | None => mret 0 end).
  assert (Hc2 : coherent None (m w1).2) by (unfold m; by destruct (p_expires p)).
  destruct (m w1) as [t w2]. cbn [snd] in Hc2. destruct (expired t p).
  - rewrite bind_run. pose proof (delete_coherent id w2 Hc2) as Hc3. destruct (DeletePaste id w2) as [x w3].
    rewrite bind_run. pose proof (invalidate_coherent id w3 Hc3) as Hc4. by destruct (invalidatePasteCache id w3).
  - rewrite bind_run. pose proof (count_and_burn_spec id p w2 Hc2) as Hb.
    destruct (count_and_burn id p w2) as [q w3]. apply Hb.
Qed.

(** The deletions of [DeletePaste_handler] that reach the database. *)
Lemma DeletePaste_cases id w :
  let '(res, w') := DeletePaste (C := C) id w in
  w_cache w' = w_cache w
  /\ match res with
     | Ok _ => paste_of id (w_db w) <> None
               /\ w_db w' = with_pastes (keep (fun q => negb (has_id id q)) (t_pastes (w_db w))) (w_db w)
     | Err e => w_db w' = w_db w /\ (calm w -> paste_of id (w_db w) = None)
     end.
Proof.
  pose proof (frame_DeletePaste id w) as Hf. unfold DeletePaste in *.
  destruct (exec_cases (delete_paste id) w) as [(w1 & E & Hd)|(w1 & E & Hd)]; rewrite (bind_eq _ _ _ _ _ E) in *;
    cbv beta iota in *.
  - cbn. split; [exact Hf|]. split; [done|]. intros Hc. rewrite exec_calm in E by done. discriminate.
  - unfold delete_paste in *. cbn [fst snd] in *. cbn in Hf |- *. split; [exact Hf|].
    destruct (keep (has_id id) (t_pastes (w_db w))) as [|x l] eqn:Ek.
    + cbn. assert (Hnone : paste_of id (w_db w) = None).
      { apply first_None. intros x Hx. destruct (has_id id x) eqn:Hi; [|done].
        assert (Hin : x ∈ keep (has_id id) (t_pastes (w_db w))) by (by apply keep_elem). rewrite Ek in Hin. set_solver. }
      split; [|done]. rewrite Hd, keep_negb_all, with_pastes_same by done. done.
    + cbn. split; [|done]. intros Hnone.
      assert (Hin : x ∈ keep (has_id id) (t_pastes (w_db w))) by (rewrite Ek; set_solver).
      apply keep_elem in Hin as [Hin Hi]. by rewrite (proj1 (first_None _ _) Hnone x Hin) in Hi.
Qed.

Lemma verify_pastes hash ty rid w : t_pastes (w_db (VerifyAPIToken hash ty rid w).2) = t_pastes (w_db w).
Proof.
  assert (Hs : safe (C := C) (fun d => t_pastes d = t_pastes (w_db w)) (VerifyAPIToken hash ty rid) (fun _ => True))
    by (unfold VerifyAPIToken; by repeat safe_step).
  by apply (Hs w).
Qed.

(** A token row that authorizes the request. *)
Definition token_row (w : World C) (hash : list Z) (id : string) : Prop :=
  exists row, row ∈ t_tokens (w_db w) /\ tk_hash row = Hex.EncodeToString hash /\ tk_type row = "paste"
    /\ tk_resource row = id /\ tk_revoked row = None /\ (forall e, tk_expires row = Some e -> Unix (w_clock w) < e).

Lemma verify_ok_row hash id w :
  is_ok (VerifyAPIToken hash "paste" id w).1 = true -> token_row w hash id.
Proof.
  pose proof (verify_cases hash "paste" id w) as Hv. destruct (VerifyAPIToken hash "paste" id w) as [r w'].
  cbn [fst]. destruct Hv as [->|Hv]; [done|].
  destruct (first _ _) as [row|] eqn:E; [|by rewrite Hv].
  pose proof (first_Some _ _ _ E) as [Hin Hf]. unfold for_resource, has_hash in Hf. b2p.
  intros Hok. exists row. split_and!; try done.
  - destruct (tk_revoked row) eqn:Er; [|done]. unfold token_active in Hv. rewrite Er in Hv. by subst r.
  - intros e He. unfold token_active in Hv. rewrite He in Hv.
    destruct (Unix (w_clock w) <? e) eqn:Hlt; [by b2p|]. rewrite andb_false_r in Hv. by subst r.
Qed.

Lemma frame_verify_coherent hash ty rid w :
  coherent None w -> coherent None (VerifyAPIToken hash ty rid w).2.
Proof.
  intros Hc. eapply coherent_step; [exact Hc | apply frame_VerifyAPIToken |].
  intros id p _ Hp _. exists (p_views p), (p_updated p). unfold paste_of. by rewrite touch_id, verify_pastes.
Qed.

(** The tail of both deletions: [res] is the outcome of the database call. *)
Lemma delete_and_invalidate id w (k : M C Response) :
  coherent None w -> frame k -> reads k ->
  let '(res, w1) := DeletePaste id w in
  match res with
  | Err _ => coherent None w1
  | Ok _ =>
      let '(_, w2) := (_ ← invalidatePasteCache id; _ ← metric inc_deleted; k) w1 in
      coherent None w2 /\ w_db w2 = w_db w1
  end.
Proof.
  intros Hc Hk Hr. pose proof (delete_coherent id w Hc) as H1'. pose proof (DeletePaste_cases id w) as Hd.
  destruct (DeletePaste id w) as [res w1]. cbn [snd] in *. destruct Hd as [Hca Hd]. destruct res as [u|e].
  - rewrite bind_run. pose proof (invalidate_coherent id w1 H1') as Hc2. pose proof (invalidate_db id w1) as Hd2.
    destruct (invalidatePasteCache id w1) as [x w2]. cbn [snd] in *. rewrite bind_metric.
    set (w2' := set_metrics (inc_deleted (w_metrics w2)) w2).
    pose proof (Hk w2') as Hk'. pose proof (Hr w2') as Hr'. destruct (k w2') as [resp w3]. cbn [snd] in *.
    split; [|by rewrite Hr'].
    eapply coherent_step; [exact Hc2|done|]. rewrite Hr'. apply ext_refl.
  - destruct Hd as [Hd _]. eapply coherent_step; [exact Hc|done|]. rewrite Hd. apply ext_refl.
Qed.

(** What a deletion request does. *)
Lemma delete_spec r w :
  coherent None w ->
  let '(resp, w') := DeletePaste_handler h r w in
  let hash := Sha256.Sum256 (bytes (extractToken r)) in
  coherent None w' /\
  if status resp =? 200 then
    (is_operator h hash = true \/ token_row w hash (r_id r))
    /\ paste_of (r_id r) (w_db w) <> None
    /\ t_pastes (w_db w') = keep (fun q => negb (has_id (r_id r) q)) (t_pastes (w_db w))
  else t_pastes (w_db w') = t_pastes (w_db w).
Proof.
  intros Hc. unfold DeletePaste_handler. cbv zeta. set (hash := Sha256.Sum256 (bytes (extractToken r))).
  clearbody hash. destruct (String.eqb (extractToken r) "") eqn:Et; [by split|].
  destruct (is_operator h hash) eqn:Ho.
  - rewrite bind_run. pose proof (DeletePaste_cases (r_id r) w) as Hd.
    pose proof (delete_and_invalidate (r_id r) w (mret (writeJSON 200 deleted_json)) Hc ltac:(walk) ltac:(rwalk)) as Hk.
    destruct (DeletePaste (r_id r) w) as [[u|e] w1]; destruct Hd as [_ Hd].
    + match goal with |- context [(invalidatePasteCache ?i ≫= ?f) ?x] => destruct ((invalidatePasteCache i ≫= f) x) as [resp w2] eqn:E end.
      assert (resp = writeJSON 200 deleted_json) as ->.
      { revert E. rewrite bind_run. destruct (invalidatePasteCache (r_id r) w1). rewrite bind_metric. by intros [= <- <-]. }
      cbn. destruct Hk as [Hc2 Hdb]. split; [done|]. destruct Hd as [Hne Hd]. rewrite Hdb, Hd. auto.
    + cbn. destruct Hd as [Hd _]. rewrite Hd. by split.
  - rewrite bind_run. pose proof (verify_ok_row hash (r_id r) w) as Hv.
    pose proof (verify_pastes hash "paste" (r_id r) w) as Hps.
    pose proof (frame_verify_coherent hash "paste" (r_id r) w Hc) as Hc1.
    destruct (VerifyAPIToken hash "paste" (r_id r) w) as [[u|e] w0]; cbn [fst snd is_ok] in *; [|by split].
    rewrite bind_run. pose proof (DeletePaste_cases (r_id r) w0) as Hd.
    pose proof (delete_and_invalidate (r_id r) w0 (_ ← refreshActiveTokenGauge; mret (writeJSON 200 deleted_json)) Hc1) as Hk.
    destruct (DeletePaste (r_id r) w0) as [[u'|e] w1]; destruct Hd as [_ Hd].
    + assert (Hk' := Hk ltac:(walk) ltac:(apply reads_bind; [apply reads_refresh|intros ?; rwalk])). clear Hk.
      match goal with |- context [(invalidatePasteCache ?i ≫= ?f) ?x] => destruct ((invalidatePasteCache i ≫= f) x) as [resp w2] eqn:E end.
      assert (resp = writeJSON 200 deleted_json) as ->.
      { revert E. rewrite bind_run. destruct (invalidatePasteCache (r_id r) w1). rewrite bind_metric, bind_run.
        destruct (refreshActiveTokenGauge _). by intros [= <- <-]. }
      cbn. destruct Hk' as [Hc2 Hdb]. split; [done|]. destruct Hd as [Hne Hd].
      unfold paste_of in *. rewrite Hdb, Hd. cbn. rewrite Hps in *. auto.
    + cbn. split; [apply Hk; [walk|apply reads_bind; [apply reads_refresh|intros ?; rwalk]]|].
      destruct Hd as [Hd _]. by rewrite Hd.
Qed.

(** ** The handlers as actions on the world *)

Inductive action : Type :=
  | ACreate (r : Request)
  | AGet (r : Request)
  | ARaw (r : Request)
  | AWeb (id : string)
  | ADelete (r : Request).

Definition run_action (a : action) : M C unit :=
  match a with
  | ACreate r => _ ← CreatePaste_handler h r; mret tt
  | AGet r => _ ← GetPaste r; mret tt
  | ARaw r => _ ← GetRawPaste r; mret tt
  | AWeb id => _ ← GetPasteForWeb id; mret tt
  | ADelete r => _ ← DeletePaste_handler h r; mret tt
  end.

Fixpoint run_actions (l : list action) : M C unit :=
  match l with [] => mret tt | a :: l => _ ← run_action a; run_actions l end.

Lemma run_action_coherent a w : coherent None w -> coherent None (run_action a w).2.
Proof.
  intros Hc. destruct a; cbn [run_action]; rewrite bind_run.
  - unfold CreatePaste_handler. rewrite bind_run. pose proof (create_coherent r w Hc) as Hx.
    destruct (createFromRequest h r w) as [[resp|[s m]] w1]; exact Hx.
  - pose proof (GetPaste_coherent r w Hc) as Hx. by destruct (GetPaste r w).
  - pose proof (GetRawPaste_coherent r w Hc) as Hx. by destruct (GetRawPaste r w).
  - pose proof (GetPasteForWeb_coherent id w Hc) as Hx. by destruct (GetPasteForWeb id w).
  - pose proof (delete_spec r w Hc) as Hx. destruct (DeletePaste_handler h r w). apply Hx.
Qed.

(** What a read of [id] answers in terms of the stored paste, when it begins in
    [w] and ends at the instant [until]: not found, the paste unless it had
    expired before the beginning, or gone if it has expired before the end. *)
Definition read_answer (w : World C) (id : string) (ok : Paste -> Response -> Prop) (until : Z) (resp : Response) : Prop :=
  match paste_of id (w_db w) with
  | None => resp = sendAPIError "NOT_FOUND" "paste not found"
  | Some p0 =>
      (exists p, served p0 p /\ ok p resp /\ forall e, p_expires p0 = Some e -> w_clock w <= e)
      \/ (resp = sendAPIError "GONE" "paste has expired" /\ exists e, p_expires p0 = Some e /\ e < until)
  end.

Lemma loadLive_calm id w :
  coherent None w -> calm w ->
  let '(r, w') := loadLivePaste id w in
  match r with
  | inl p => exists p0, paste_of id (w_db w) = Some p0 /\ served p0 p
                        /\ (forall e, p_expires p0 = Some e -> w_clock w <= e)
  | inr resp => match paste_of id (w_db w) with
                | None => resp = sendAPIError "NOT_FOUND" "paste not found"
                | Some p0 => resp = sendAPIError "GONE" "paste has expired"
                             /\ exists e, p_expires p0 = Some e /\ e < w_clock w'
                end
  end.
Proof.
  intros Hc Hcalm. pose proof (loadLive_spec id w Hc) as Hl. destruct (loadLivePaste id w) as [[p|resp] w'].
  - destruct Hl as (_ & _ & _ & _ & (p0 & Hp & Hs) & He). exists p0. split_and!; try done.
    assert (p_expires p = p_expires p0) by (by destruct Hs as [->|(v & u & _ & ->)]).
    intros e' He'. apply He. congruence.
  - destruct Hl as (_ & _ & _ & _ & _ & Hr). specialize (Hr Hcalm). destruct (paste_of id (w_db w)); [|done].
    destruct Hr as [-> (e & He & Hlt)]. eauto.
Qed.

(** How [GetRawPaste] shows a paste: a text paste as its content, a binary one
    as the bytes that its content is the base64 of. *)
Definition raw_shown (p : Paste) (resp : Response) : Prop :=
  resp = raw_response p /\ status resp = 200
  /\ (is_binary (p_content_type p) = false -> body resp = BText (p_content p))
  /\ (forall l, is_binary (p_content_type p) = true -> Base64.DecodeString (p_content p) = Some l ->
        body resp = BText (of_bytes l)).

Lemma raw_response_shown p : raw_shown p (raw_response p).
Proof.
  split; [done|]. unfold raw_response. destruct (ParseMediaType _) as [[b ps]|]; cbn; (split; [done|]);
    unfold raw_body; (split; [by intros ->|by intros l -> ->]).
Qed.

Lemma raw_answer r w :
  coherent None w -> calm w ->
  read_answer w (r_id r) raw_shown (w_clock (GetRawPaste r w).2) (GetRawPaste r w).1.
Proof.
  intros Hc Hcalm. unfold GetRawPaste, read_answer. rewrite bind_run.
  pose proof (loadLive_calm (r_id r) w Hc Hcalm) as Hl.
  destruct (loadLivePaste (r_id r) w) as [[p|resp] w1]; cbn [serve_raw].
  - rewrite bind_run. destruct (count_and_burn (r_id r) p w1) as [q w2]. destruct Hl as (p0 & -> & Hs & He).
    left. exists p. split; [done|]. split; [apply raw_response_shown|done].
  - cbn. destruct (paste_of (r_id r) (w_db w)); [by right|done].
Qed.

(** How [GetPaste] shows a paste. *)
Definition shown (r : Request) (p : Paste) (resp : Response) : Prop :=
  exists v, let q := set_hash "" (set_views v p) in
    resp = (if p_is_link q then http_Redirect (p_content q) 302
            else if String.eqb (GetAPIResponseFormat r) "text" then text_ok (paste_text q)
            else writeJSON 200 (ok_data (paste_json q))).

Lemma get_answer r w :
  coherent None w -> calm w -> read_answer w (r_id r) (shown r) (w_clock (GetPaste r w).2) (GetPaste r w).1.
Proof.
  intros Hc Hcalm. unfold GetPaste, read_answer. rewrite bind_run.
  pose proof (loadLive_calm (r_id r) w Hc Hcalm) as Hl. pose proof (loadLive_spec (r_id r) w Hc) as Hsp.
  destruct (loadLivePaste (r_id r) w) as [[p|resp] w1].
  - rewrite bind_run. pose proof (count_and_burn_spec (r_id r) p w1 (proj1 Hsp)) as Hb.
    destruct (count_and_burn (r_id r) p w1) as [q w2]. destruct Hb as (_ & _ & _ & (v & ->) & _).
    destruct Hl as (p0 & -> & Hs & He). left. exists p. split; [done|]. split; [by exists v|done].
  - cbn. destruct (paste_of (r_id r) (w_db w)); [by right|done].
Qed.

Lemma steady_loadLive id : steady (C := C) (loadLivePaste id).
Proof. unfold loadLivePaste. walk. Qed.
Lemma steady_count_and_burn id p : steady (C := C) (count_and_burn id p).
Proof. unfold count_and_burn, burn_effects. walk. Qed.
Lemma steady_delete_handler r : steady (C := C) (DeletePaste_handler h r).
Proof. unfold DeletePaste_handler. walk. Qed.

Lemma paste_of_removed id (l : list Paste) : first (has_id id) (keep (fun q => negb (has_id id q)) l) = None.
Proof. apply first_None. intros x [_ Hx]%keep_elem. by apply negb_true_iff. Qed.
End handlers.
