(* ===== verification/PasteSpec.v ===== *)
(** * What the paste handlers guarantee

    The properties of creation, reading and deletion, and the runs in which the
    code departs from what its comments promise, with concrete witnesses. *)

From S2P Require Import Prelude GoStr GoTime GoCrypto GoSniff Model Cache World Database DatabaseProofs.
From S2P Require Import Http JsonProofs Paste PasteProofs Compat Instances.
From Stdlib Require Import Ascii.

Section spec.
Context {C : Type} `{CacheLaws C} `{Unicode} `{JsonLaws} `{Net}.
Implicit Types (w : World C) (r : Request).

(** C4 — a creation request that fails leaves the database as it was; one that
    succeeds adds exactly one paste, under an id of eight alphanumeric
    characters that no paste had, with the fields the parsed and encoded request
    asks for, and returns the link and a token; the token gets a row for this
    paste unless a row with its hash exists (or the driver fails). *)
Theorem creation_adds_one_paste (h : PasteHandler) r w :
  let '(res, w') := createFromRequest h r w in
  match res with
  | inr _ => w_db w' = w_db w
  | inl resp =>
      exists q0 r' q e p,
        parse_request h r = inl (q0, r') /\ normalize q0 = inl q /\ asked_expiry q (w_clock w) e
        /\ requested q (cr_id resp) e (cr_created resp) p
        /\ paste_of (cr_id resp) (w_db w) = None /\ id_shape (cr_id resp)
        /\ t_pastes (w_db w') = (t_pastes (w_db w) ++ [p])%list
        /\ cr_link resp = pasteURL h r' (cr_id resp)
        /\ ((cr_owner_token resp = extractToken r' /\ cr_owner_token resp <> "")
            \/ exists raw, cr_owner_token resp = "tok_" ++ from_charset tokenCharset raw /\ length raw = 32%nat)
        /\ let hash := Hex.EncodeToString (Sha256.Sum256 (bytes (cr_owner_token resp))) in
           ((t_tokens (w_db w') = t_tokens (w_db w)
             /\ (calm w -> existsb (has_hash hash) (t_tokens (w_db w)) = true))
            \/ exists row, t_tokens (w_db w') = (t_tokens (w_db w) ++ [row])%list
                 /\ existsb (has_hash hash) (t_tokens (w_db w)) = false
                 /\ tk_hash row = hash /\ tk_type row = "paste" /\ tk_resource row = cr_id resp
                 /\ tk_revoked row = None /\ tk_expires row = Unix <$> e)
  end.
Proof. apply create_cases. Qed.

Lemma run_actions_coherent (h : PasteHandler) (l : list action) w :
  coherent None w -> coherent None (run_actions h l w).2.
Proof.
  revert w. induction l as [|a l IH]; intros w Hc; cbn [run_actions]; [done|].
  rewrite bind_run. pose proof (run_action_coherent h a w Hc) as Ha. destruct (run_action h a w) as [u w1].
  by apply IH.
Qed.

(** C1 — the read cache never holds anything but the encodings of stored pastes
    without a view limit, up to their statistics: whatever creations, reads and
    deletions are run through these handlers, and whatever statements fail, a
    coherent cache stays coherent. *)
Theorem cache_stays_coherent (h : PasteHandler) (l : list action) w :
  coherent None w -> coherent None (run_actions h l w).2.
Proof. apply run_actions_coherent. Qed.

(** C3 — while the driver does not fail and the cache is coherent, a read of a
    paste that is not stored answers 404; a read of a stored one shows the paste
    (as it is stored, or as it was cached), which it does only if it had not
    expired when the request began, or answers 410, which it does only if the
    paste's expiry has passed by the time the request ends.  So a paste without
    an expiry, or whose expiry lies after the end of the request, is shown, and
    one that expired before the request is not. *)
Theorem reads_answer (r : Request) w :
  coherent None w -> calm w ->
  read_answer w (r_id r) raw_shown (w_clock (GetRawPaste r w).2) (GetRawPaste r w).1
  /\ read_answer w (r_id r) (shown r) (w_clock (GetPaste r w).2) (GetPaste r w).1
  /\ status (sendAPIError "NOT_FOUND" "paste not found") = 404 /\ status (sendAPIError "GONE" "paste has expired") = 410
  /\ forall p0 e, paste_of (r_id r) (w_db w) = Some p0 -> p_expires p0 = Some e -> e < w_clock w ->
       (GetRawPaste r w).1 = sendAPIError "GONE" "paste has expired"
       /\ (GetPaste r w).1 = sendAPIError "GONE" "paste has expired".
Proof.
  intros Hc Hcalm. pose proof (raw_answer r w Hc Hcalm) as Hr. pose proof (get_answer r w Hc Hcalm) as Hg.
  do 4 (split; [done|]). intros p0 e Hp He Hlt. unfold read_answer in Hr, Hg. rewrite Hp in Hr, Hg.
  split; [destruct Hr as [(p & _ & _ & Hx)|[-> _]] | destruct Hg as [(p & _ & _ & Hx)|[-> _]]]; try done;
    specialize (Hx e He); lia.
Qed.

(** C2 — a deletion request succeeds only with the operator's token or a live
    token of that very paste; it then removes that paste and no other, and every
    read of it that follows answers 404, cached or not.  A refused request
    removes nothing. *)
Theorem deletion_needs_token (h : PasteHandler) r w :
  coherent None w -> calm w ->
  let '(resp, w') := DeletePaste_handler h r w in
  let hash := Sha256.Sum256 (bytes (extractToken r)) in
  if status resp =? 200 then
    (is_operator h hash = true \/ token_row w hash (r_id r))
    /\ t_pastes (w_db w') = keep (fun q => negb (has_id (r_id r) q)) (t_pastes (w_db w))
    /\ (forall r', r_id r' = r_id r ->
          (GetRawPaste r' w').1 = sendAPIError "NOT_FOUND" "paste not found"
          /\ (GetPaste r' w').1 = sendAPIError "NOT_FOUND" "paste not found")
  else t_pastes (w_db w') = t_pastes (w_db w).
Proof.
  intros Hc Hcalm. pose proof (delete_spec h r w Hc) as Hd. pose proof (steady_delete_handler h r w) as [_ Hs].
  destruct (DeletePaste_handler h r w) as [resp w']. cbn [snd] in *. destruct Hd as [Hc' Hd].
  destruct (status resp =? 200); [|done]. destruct Hd as (Ha & _ & Hps). split; [done|]. split; [done|].
  intros r' Hid.
  assert (Hnone : paste_of (r_id r') (w_db w') = None) by (unfold paste_of; rewrite Hid, Hps; apply paste_of_removed).
  pose proof (raw_answer r' w' Hc' (Hs Hcalm)) as Hr. pose proof (get_answer r' w' Hc' (Hs Hcalm)) as Hg.
  unfold read_answer in Hr, Hg. rewrite Hnone in Hr, Hg. done.
Qed.

(** ** Round trip *)

(** Nothing cached for an id that is not stored. *)
Lemma getCached_miss id w w' :
  coherent None w -> paste_of id (w_db w) = None -> w_cache w' = w_cache w ->
  (getCachedPaste id w').1 = None /\ (getCachedPaste id w').2 = match w_cache w with
    | None => w'
    | Some c => set_cache (Some (cache_get (w_clock w') (pasteCacheKey id) c).2) (advance w')
    end.
Proof.
  intros Hc Hp Hw. unfold getCachedPaste, cache_op. rewrite bind_run, Hw. unfold coherent in Hc.
  destruct (w_cache w) as [c|]; [|done].
  destruct (cache_get (w_clock w') (pasteCacheKey id) c) as [[raw|e] c'] eqn:Eg; [|done].
  apply get_view in Eg. destruct (Hc _ id raw ltac:(done) Eg) as (p & _ & _ & Hp' & _). congruence.
Qed.

(** The first read of a stored paste that is not in the cache. *)
Lemma first_raw_read r w w' p :
  coherent None w -> calm w' -> paste_of (r_id r) (w_db w) = None -> w_cache w' = w_cache w ->
  paste_of (r_id r) (w_db w') = Some p -> p_expires p = None ->
  (GetRawPaste r w').1 = raw_response p.
Proof.
  intros Hc Hcalm Hn Hca Hp He. unfold GetRawPaste. rewrite bind_run, loadLive_load, bind_run.
  unfold load. rewrite bind_run. destruct (getCached_miss (r_id r) w w' Hc Hn Hca) as [E1 E2].
  pose proof (steady_getCached (r_id r) w') as [_ Hs1].
  destruct (getCachedPaste (r_id r) w') as [o w1]. cbn [fst snd] in *. subst o.
  assert (Hdb : w_db w1 = w_db w') by (subst w1; by destruct (w_cache w)).
  rewrite bind_run. destruct (GetPasteByID_cases (r_id r) w1) as (w2 & _ & _ & _ & _ & Hg).
  destruct Hg as [E|[Hx _]]; [|by destruct Hx; auto].
  rewrite E, Hdb, Hp, bind_run. destruct (cachePaste p w2) as [u w3].
  cbn [mret M_ret]. rewrite He. cbn [mret M_ret]. cbn [serve_raw]. rewrite bind_run. by destruct (count_and_burn _ _ _).
Qed.

(** What is stored for plain content that is not a single URL. *)
Definition stored_form (content : string) : string :=
  if is_text (DetectContentType content) then Strings.TrimRight content newline else content.

Lemma raw_body_encode content q :
  q_Content q = content -> q_ContentType q = "" -> isSingleURLContent content = false -> content <> "" ->
  forall q', encode_request q = inl q' ->
  q_ExpiresIn q' = q_ExpiresIn q /\
  forall p, p_content p = q_Content q' -> p_content_type p = q_ContentType q' -> raw_body p = stored_form content.
Proof.
  intros Hcont Hct Hurl Hne q'. unfold encode_request. rewrite Hcont, Hct, Hurl. cbv zeta.
  change (is_binary "" && _) with false. cbv iota.
  assert (Hlen : (0 <? strlen content) = true) by (apply Z.ltb_lt; destruct content; [done|unfold strlen; cbn [String.length]; lia]).
  unfold encode_content. rewrite String.eqb_refl, Hlen. cbn [andb]. rewrite DetectContentType_take.
  unfold stored_form. destruct (is_text (DetectContentType content)) eqn:Et; cbn [negb].
  - rewrite String.eqb_refl. intros Heq. injection Heq as <-. split; [reflexivity|].
    intros p Hc Hp. unfold raw_body. rewrite Hp, Hc. cbn [with_content q_ContentType q_Content is_binary]. reflexivity.
  - pose proof (DetectContentType_nonempty content) as Hd. apply String.eqb_neq in Hd. rewrite Hd.
    intros Heq. injection Heq as <-. split; [reflexivity|].
    intros p Hc Hp. unfold raw_body. rewrite Hp, Hc. cbn [with_content q_ContentType q_Content].
    unfold is_binary. rewrite Hd, Et. cbn [negb andb]. rewrite base64_roundtrip; [apply of_bytes_bytes|].
    apply bytes_range.
Qed.
(** The content types createFromRequest reads as a raw body. *)
Definition raw_upload (r : Request) : bool :=
  let ct := r_header r "Content-Type" in
  negb (Strings.HasPrefix ct "application/json") && negb (Strings.HasPrefix ct "multipart/form-data")
  && negb (Strings.HasPrefix ct "application/x-www-form-urlencoded").

Lemma effectiveReadLimit_pos h : 0 < effectiveReadLimit h.
Proof. unfold effectiveReadLimit. destruct (maxSize h <=? 0) eqn:E; b2p; [unfold max_int64; lia|lia]. Qed.

Lemma readLimited_fits s limit :
  0 < limit < max_int64 -> strlen s <= limit -> readLimited s limit = (s, false, "").
Proof.
  intros Hl Hs. unfold readLimited, takeZ, dropZ.
  rewrite wrap64_id by (unfold in_int64, min_int64, max_int64 in *; lia).
  rewrite (proj2 (Z.leb_gt (limit + 1) 0)), (proj2 (Z.leb_le (strlen s) (limit + 1))) by lia. cbv iota beta zeta.
  by rewrite (proj2 (Z.ltb_ge limit (strlen s))) by lia.
Qed.

Lemma strlen_take n s : 0 <= n <= strlen s -> strlen (Strings.take (Z.to_nat n) s) = n.
Proof.
  intros Hn. unfold Strings.take, strlen in *. revert n Hn.
  induction s as [|c s IH]; intros n Hn; cbn [String.length] in *.
  - replace (Z.to_nat n) with O by lia. cbn. lia.
  - destruct (Z.to_nat n) as [|m] eqn:E; [cbn; lia|]. cbn [String.substring String.length].
    specialize (IH (n - 1) ltac:(lia)). replace (Z.to_nat (n - 1)) with m in IH by lia. lia.
Qed.

Lemma readLimited_over s limit :
  0 < limit < max_int64 -> limit < strlen s -> snd (fst (readLimited s limit)) = true.
Proof.
  intros Hl Hs. unfold readLimited, takeZ.
  rewrite wrap64_id by (unfold in_int64, min_int64, max_int64 in *; lia).
  rewrite (proj2 (Z.leb_gt (limit + 1) 0)) by lia.
  destruct (strlen s <=? limit + 1) eqn:E; b2p.
  - by rewrite (proj2 (Z.ltb_lt limit (strlen s))) by lia.
  - rewrite strlen_take by lia. by rewrite (proj2 (Z.ltb_lt limit (limit + 1))) by lia.
Qed.

Lemma parse_raw h r :
  raw_upload r = true -> effectiveReadLimit h < max_int64 ->
  (strlen (r_body r) <= effectiveReadLimit h ->
     exists q, parse_request h r = inl (q, set_body "" r) /\ q_Content q = r_body r /\ q_ContentType q = ""
       /\ q_ExpiresIn q = r_header r "X-Expires-In")
  /\ (effectiveReadLimit h < strlen (r_body r) -> parse_request h r = inr (too_large (effectiveReadLimit h))).
Proof.
  unfold raw_upload. intros Hct Hl. bsplit. pose proof (effectiveReadLimit_pos h) as Hpos.
  unfold parse_request. rewrite H5, H6, H7. split; intros Hs.
  - rewrite readLimited_fits by lia. eexists. split_and!; reflexivity.
  - pose proof (readLimited_over (r_body r) (effectiveReadLimit h) ltac:(lia) Hs) as Ho.
    destruct (readLimited (r_body r) (effectiveReadLimit h)) as [[raw big] rest]. cbn in Ho. by subst big.
Qed.

Lemma raw_response_body p : status (raw_response p) = 200 /\ body (raw_response p) = BText (raw_body p).
Proof. unfold raw_response. by destruct (ParseMediaType _) as [[b ps]|]. Qed.

(** C31 — what is uploaded is what is served: the raw read of a paste created
    from a raw body (no expiry asked for, not a single URL) returns that body,
    byte for byte for binary content, and without its trailing newlines for
    text. *)
Theorem raw_round_trip (h : PasteHandler) r w resp w' :
  coherent None w -> calm w ->
  raw_upload r = true -> r_header r "X-Expires-In" = "" -> isSingleURLContent (r_body r) = false ->
  effectiveReadLimit h < max_int64 -> strlen (r_body r) <= effectiveReadLimit h ->
  createFromRequest h r w = (inl resp, w') ->
  forall r', r_id r' = cr_id resp ->
    status (GetRawPaste r' w').1 = 200 /\ body (GetRawPaste r' w').1 = BText (stored_form (r_body r)).
Proof.
  intros Hc Hcalm Hraw Hexp Hurl Hlim Hsize Hcreate r' Hid.
  pose proof (create_cases h r w) as Hcr. rewrite Hcreate in Hcr.
  destruct Hcr as (q0 & r0 & q & e & p & Hparse & Hnorm & Hask & Hreq & Hnone & _ & Hps & _).
  destruct (proj1 (parse_raw h r Hraw Hlim) Hsize) as (q1 & Hp1 & Hcont & Hctype & Hex).
  rewrite Hparse in Hp1. injection Hp1 as -> ->.
  pose proof (normalize_nonblank _ _ Hnorm) as Hnb.
  pose proof (frame_create h r w) as Hf. pose proof (steady_create h r w) as [_ Hs]. rewrite Hcreate in Hf, Hs.
  cbn [snd] in Hf, Hs. apply require_content_nonblank in Hnorm as [Henc _].
  destruct (decide (r_body r = "")) as [Hempty|Hne].
  { exfalso. apply Hnb. revert Henc. unfold encode_request. rewrite Hcont, Hctype, Hempty.
    change (isSingleURLContent "") with false. cbv iota zeta beta. change (is_binary "" && _) with false. cbv iota.
    change (encode_content "" "") with ("", ""). intros Heq. injection Heq as <-. reflexivity. }
  destruct (raw_body_encode (r_body r) q1 Hcont Hctype Hurl Hne q Henc) as [Hex' Hbody].
  destruct Hreq as (Hpid & _ & Hpc & Hpct & _ & _ & _ & Hpe & _).
  assert (He : e = None).
  { unfold asked_expiry in Hask. rewrite Hex', Hex, Hexp in Hask. exact Hask. }
  assert (Hstored : paste_of (r_id r') (w_db w') = Some p).
  { unfold paste_of in *. rewrite Hps, first_app, Hid, Hnone. cbn. unfold has_id. by rewrite Hpid, String.eqb_refl. }
  rewrite (first_raw_read r' w w' p); [|done|auto|by rewrite Hid|done|done|by subst e].
  destruct (raw_response_body p) as [-> ->]. by rewrite (Hbody p Hpc Hpct).
Qed.

(** ** The last view of a limited paste *)

Lemma view_calm id p w :
  calm w -> paste_of id (w_db w) = Some p ->
  (IncrementViewsAndCheckBurn id w).1 = Ok (p_views p + 1, (0 <? p_burn p) && (p_burn p <=? p_views p + 1))
  /\ calm (IncrementViewsAndCheckBurn id w).2.
Proof.
  intros Hc Hp. pose proof (steady_view id w) as [_ Hs]. split; [|by apply Hs].
  unfold IncrementViewsAndCheckBurn. rewrite (bind_eq _ _ _ _ _ (query_calm _ _ Hc)). cbv beta iota.
  rewrite bind_get_db, bind_now, (bind_eq _ _ _ _ _ (exec_calm _ _ (calm_advance _ Hc))). cbv beta iota.
  unfold count_view. cbn [fst snd]. change (w_db (advance w)) with (w_db w). rewrite first_upd by apply has_id_bump.
  unfold paste_of in Hp. rewrite Hp. cbn [fmap option_fmap option_map].
  pose proof (first_Some _ _ _ Hp) as [_ Hid]. rewrite Hid. cbn [bump_views p_views p_burn].
  set (d := with_pastes _ _). destruct ((0 <? p_burn p) && (p_burn p <=? p_views p + 1)).
  - rewrite (bind_eq _ _ _ _ _ (exec_calm (delete_paste id) (set_db d (advance w)) Hc)). cbv beta iota.
    rewrite (bind_eq _ _ _ _ _ (query_calm _ (set_db _ (set_db d (advance w))) Hc)). reflexivity.
  - rewrite bind_ret. cbv beta iota. rewrite (bind_eq _ _ _ _ _ (query_calm _ (set_db d (advance w)) Hc)). reflexivity.
Qed.

Lemma last_view_removes id p w :
  calm w -> paste_of id (w_db w) = Some p -> 0 < p_burn p -> p_burn p <= p_views p + 1 ->
  paste_of id (w_db (count_and_burn (C := C) id p w).2) = None.
Proof.
  intros Hc Hp Hb Hv. destruct (view_calm id p w Hc Hp) as [E _].
  pose proof (view_cases id w) as Hcase. unfold count_and_burn. rewrite bind_run.
  destruct (IncrementViewsAndCheckBurn id w) as [res w1]. cbn [fst] in E. subst res.
  rewrite (proj2 (Z.ltb_lt _ _) Hb), (proj2 (Z.leb_le _ _) Hv) in *. cbn [andb] in *.
  destruct Hcase as [[[e' Hx] _]|(t & p' & Hp' & _ & Hd)]; [discriminate|].
  rewrite Hp in Hp'. injection Hp' as <-.
  rewrite (proj2 (Z.ltb_lt _ _) Hb), (proj2 (Z.leb_le _ _) Hv) in Hd. cbn [andb] in Hd.
  rewrite bind_metric, bind_run. unfold burn_effects. rewrite bind_run.
  set (w2 := set_metrics _ w1). pose proof (invalidate_db id w2) as Hd2.
  destruct (invalidatePasteCache id w2) as [x w3]. cbn in Hd2 |- *. unfold paste_of. rewrite Hd2, Hd. apply paste_of_removed.
Qed.

(** the view limit is not enforced between requests that run at the same
    time: a reader that has loaded the paste before another reader takes the
    last allowed view and burns it still gets the content. *)
Theorem burned_paste_served_twice (r : Request) (p : Paste) w :
  coherent None w -> calm w -> paste_of (r_id r) (w_db w) = Some p -> p_expires p = None ->
  0 < p_burn p -> p_views p + 1 = p_burn p ->
  let '(loaded, w1) := loadLivePaste (r_id r) w in
  let '(respB, w2) := GetRawPaste r w1 in
  respB = raw_response p /\ paste_of (r_id r) (w_db w2) = None
  /\ (serve_raw (r_id r) loaded w2).1 = raw_response p.
Proof.
  intros Hc Hcalm Hp He Hb Hv.
  assert (Hload : forall v, coherent None v -> calm v -> paste_of (r_id r) (w_db v) = Some p ->
            (loadLivePaste (r_id r) v).1 = inl p /\ w_db (loadLivePaste (r_id r) v).2 = w_db v
            /\ coherent None (loadLivePaste (r_id r) v).2 /\ calm (loadLivePaste (r_id r) v).2).
  { intros v Hcv Hcv' Hpv. pose proof (loadLive_spec (r_id r) v Hcv) as Hl. pose proof (loadLive_calm (r_id r) v Hcv Hcv') as Hl'.
    destruct (loadLivePaste (r_id r) v) as [[q|resp] v1]; destruct Hl as (Hc1 & _ & Hs1 & Hr).
    - destruct Hr as (Hd & _). destruct Hl' as (p0 & Hp0 & Hsv & _). rewrite Hpv in Hp0. injection Hp0 as <-.
      destruct Hsv as [->|(v' & u & Hle & _)]; [|lia]. cbn. auto.
    - rewrite Hpv in Hl'. destruct Hl' as [_ (e & Hx & _)]. congruence. }
  destruct (Hload w Hc Hcalm Hp) as (E1 & Hd1 & Hc1 & Hs1).
  destruct (loadLivePaste (r_id r) w) as [loaded w1]. cbn [fst snd] in *. subst loaded.
  destruct (Hload w1 Hc1 Hs1 ltac:(by rewrite Hd1)) as (E2 & Hd2 & Hc2 & Hs2).
  unfold GetRawPaste. rewrite bind_run.
  destruct (loadLivePaste (r_id r) w1) as [loaded w2]. cbn [fst snd] in *. subst loaded.
  cbn [serve_raw]. rewrite bind_run.
  pose proof (last_view_removes (r_id r) p w2 Hs2 ltac:(by rewrite Hd2, Hd1) Hb ltac:(lia)) as Hgone.
  destruct (count_and_burn (r_id r) p w2) as [q w3]. cbn [mret M_ret snd] in *.
  split; [done|]. split; [exact Hgone|]. rewrite bind_run. by destruct (count_and_burn (r_id r) p w3).
Qed.

(** a caller that reuses the valid token of an earlier paste is given that
    token back as the owner token of the new paste, but it does not own it: the
    deletion of the new paste with the returned token is refused. *)
Theorem reused_token_cannot_delete (h : PasteHandler) r w resp w' row :
  calm w -> well_formed (w_db w) -> coherent None w ->
  createFromRequest h r w = (inl resp, w') ->
  row ∈ t_tokens (w_db w) -> tk_hash row = HashToken (cr_owner_token resp) ->
  paste_of (tk_resource row) (w_db w) <> None ->
  forall rd, extractToken rd = cr_owner_token resp -> extractToken rd <> "" -> r_id rd = cr_id resp ->
    is_operator h (Sha256.Sum256 (bytes (extractToken rd))) = false ->
    status (DeletePaste_handler h rd w').1 = 404
    /\ paste_of (cr_id resp) (w_db (DeletePaste_handler h rd w').2) <> None.
Proof.
  intros Hcalm Hwf Hc Hcreate Hrow Hhash Hold rd Htok Hne Hid Hop.
  pose proof (create_cases h r w) as Hcr. rewrite Hcreate in Hcr.
  destruct Hcr as (q0 & r0 & q & e & p & _ & _ & _ & Hreq & Hnone & _ & Hps & _ & _ & Htk). cbv zeta in Htk.
  fold (HashToken (cr_owner_token resp)) in Htk.
  assert (Hex : existsb (has_hash (HashToken (cr_owner_token resp))) (t_tokens (w_db w)) = true).
  { apply existsb_exists. exists row. split; [by apply list_elem_of_In | by apply String.eqb_eq]. }
  assert (Htokens : t_tokens (w_db w') = t_tokens (w_db w)).
  { destruct Htk as [[? _]|(row' & _ & Hx & _)]; [done|congruence]. }
  unfold DeletePaste_handler. cbv zeta. rewrite (proj2 (String.eqb_neq _ _) Hne), Hop, bind_run.
  set (hash := Sha256.Sum256 (bytes (extractToken rd))) in *.
  assert (Hhex : Hex.EncodeToString hash = HashToken (cr_owner_token resp)) by (unfold hash; by rewrite Htok).
  clearbody hash.
  pose proof (verify_cases hash "paste" (r_id rd) w') as Hv. pose proof (verify_pastes hash "paste" (r_id rd) w') as Hvp.
  assert (Hmiss : first (for_resource (Hex.EncodeToString hash) "paste" (r_id rd)) (t_tokens (w_db w')) = None).
  { apply first_None. intros y Hy. rewrite Htokens in Hy. apply not_true_iff_false. intros Hf.
    unfold for_resource, has_hash in Hf. b2p.
    assert (y = row) as ->.
    { assert (first (has_hash (tk_hash row)) (t_tokens (w_db w)) = Some y).
      - apply (first_unique tk_hash); [apply Hwf|done|apply String.eqb_eq; congruence|].
        intros z Hz. apply String.eqb_eq in Hz. congruence.
      - assert (first (has_hash (tk_hash row)) (t_tokens (w_db w)) = Some row); [|congruence].
        apply (first_unique tk_hash); [apply Hwf|done|by apply String.eqb_eq|].
        intros z Hz. apply String.eqb_eq in Hz. congruence. }
    apply Hold. congruence. }
  rewrite Hmiss in Hv.
  destruct (VerifyAPIToken hash "paste" (r_id rd) w') as [res w1]. cbn [snd] in Hvp.
  assert (exists m, res = Err m) as [m ->] by (destruct Hv as [->| ->]; by eexists).
  split; [done|]. cbn. unfold paste_of in *. rewrite Hvp, Hps, first_app, Hnone. cbn.
  unfold has_id. by rewrite (proj1 Hreq), String.eqb_refl.
Qed.

(** C38 — the error codes of the HTTP layer are faithful: a status with a code
    of its own comes back from its code, every other becomes 500, and no error
    response carries a success status. *)
Theorem error_codes_faithful (s : Z) :
  mapAPIErrorCodeToHTTPStatus (httpErrCode s)
  = (if existsb (Z.eqb s) [400; 401; 403; 404; 405; 409; 410; 413; 429; 503] then s else 500)
  /\ forall code msg, 400 <= status (sendAPIError code msg) <= 503.
Proof.
  split.
  - destruct (existsb (Z.eqb s) _) eqn:E.
    + apply existsb_exists in E as (x & Hx & Hs). apply Z.eqb_eq in Hs as ->.
      cbn [In] in Hx. repeat (destruct Hx as [<-|Hx]; [reflexivity|]). done.
    + assert (httpErrCode s = "SERVER_ERROR") as ->; [|reflexivity].
      unfold httpErrCode. repeat (case_match; try reflexivity); subst; discriminate E.
  - intros code msg. cbn [sendAPIError writeJSON status]. unfold mapAPIErrorCodeToHTTPStatus.
    repeat match goal with |- context [if ?b then _ else _] => destruct b; [lia|] end. lia.
Qed.

(** C39 — an expiry that is accepted lies in the future and at most ten years
    (of 365 days) ahead; the duration never overflows. *)
Theorem expiry_in_range (s : string) w :
  match (ParseExpiry s w).1 with
  | None => True
  | Some e => w_clock w < e <= w_clock w + 10 * 365 * Day /\ in_int64 (e - w_clock w)
  end.
Proof.
  assert (Hd : forall d, expiry_duration s = Some d -> 0 < d <= 10 * 365 * Day).
  { unfold expiry_duration, Day, Hour, Minute, Second.
    repeat match goal with |- context [if String.eqb s ?k then _ else _] =>
      destruct (String.eqb s k); [intros d Hd; injection Hd as <-; lia|] end.
    destruct (Strconv.ParseInt s) as [sec [e|]]; [discriminate|].
    destruct ((0 <? sec) && (sec <=? maxExpirySeconds)) eqn:B; [|discriminate]. b2p.
    intros d Hd; injection Hd as <-. unfold dur_mul, maxExpirySeconds in *.
    rewrite wrap64_id by (unfold in_int64, min_int64, max_int64; lia). lia. }
  unfold ParseExpiry. destruct (expiry_duration s) as [d|]; [|done]. rewrite bind_now. cbn.
  specialize (Hd d eq_refl). unfold Day, Hour, Minute, Second, in_int64, min_int64, max_int64 in *. lia.
Qed.
End spec.

(** ** The cache and bytes that are not UTF-8 *)

Section memory.
Context `{Unicode} `{JsonLaws} `{Net}.
Implicit Types (w : World memoryCache).

Lemma getCached_hit id w c e q :
  w_cache w = Some c -> mc_data c !! mc_key c (pasteCacheKey id) = Some e -> mc_expired (w_clock w) e = false ->
  parse (value e) ≫= paste_of_json = Some q -> p_burn q <= 0 ->
  (getCachedPaste id w).1 = Some q /\ w_db (getCachedPaste id w).2 = w_db w.
Proof.
  intros Hc Hd He Hq Hb. unfold getCachedPaste, cache_op. rewrite bind_run, Hc. cbn [cache_get memory_driver].
  unfold mc_Get. rewrite Hd, He, Hq, (proj2 (Z.ltb_ge 0 (p_burn q))) by lia. done.
Qed.

Lemma serve_loaded id p w : (serve_raw id (inl p) w).1 = raw_response p.
Proof. cbn [serve_raw]. rewrite bind_run. by destruct (count_and_burn id p w). Qed.

(** With no ticks left the clock stands still. *)
Definition still {A} (m : M memoryCache A) : Prop :=
  forall w, w_ticks w = [] -> w_ticks (m w).2 = [] /\ w_clock (m w).2 = w_clock w.

Lemma still_bind {A B} (m : M memoryCache A) (f : A -> M memoryCache B) :
  still m -> (forall a, still (f a)) -> still (m ≫= f).
Proof.
  intros Hm Hf w Ht. rewrite bind_run. specialize (Hm w Ht). destruct (m w) as [a w1]. destruct Hm as [Ht1 Hk1].
  destruct (Hf a w1 Ht1) as [Ht2 Hk2]. cbn in Hk1. split; congruence.
Qed.
Lemma still_now : still now.
Proof. intros w Ht. cbn. rewrite Ht. cbn. split; [done|lia]. Qed.
Lemma still_sql {A} (f : DBState -> result A * DBState) : still (sql f).
Proof. intros w Ht. unfold sql. destruct (hd false (w_faults w)); [done|]. cbn [w_db set_faults]. by destruct (f (w_db w)). Qed.

Lemma still_view id : still (IncrementViewsAndCheckBurn id).
Proof.
  unfold IncrementViewsAndCheckBurn, query, exec.
  repeat match goal with
  | |- still (_ ≫= _) => apply still_bind; [|intros ?]
  | |- still (sql _) => apply still_sql
  | |- still now => apply still_now
  | |- still (match ?x with _ => _ end) => destruct x
  | |- still _ => by intros w Ht
  end.
Qed.

(** A burn-free view leaves the cache and the clock's future alone. *)
Lemma count_keeps_cache id p w :
  calm w -> paste_of id (w_db w) = Some p -> p_burn p <= 0 -> w_ticks w = [] ->
  w_cache (count_and_burn id p w).2 = w_cache w /\ w_clock (count_and_burn id p w).2 = w_clock w
  /\ w_ticks (count_and_burn id p w).2 = [] /\ ext None (w_db w) (w_db (count_and_burn id p w).2).
Proof.
  intros Hc Hp Hb Ht. unfold count_and_burn. rewrite bind_run.
  destruct (still_view id w Ht) as [Htl Hcl]. pose proof (ext_view id w) as Hext.
  destruct (view_calm id p w Hc Hp) as [E _]. pose proof (frame_view id w) as Hf.
  pose proof (view_cases id w) as Hcase.
  destruct (IncrementViewsAndCheckBurn id w) as [res w1]. cbn [fst snd] in *. subst res.
  rewrite (proj2 (Z.ltb_ge 0 (p_burn p))) in * by lia. cbn [andb] in *.
  destruct Hcase as [[[e Hx] _]|(t & p' & Hp' & _ & Hd)]; [discriminate|].
  rewrite Hp in Hp'. injection Hp' as <-. rewrite (proj2 (Z.ltb_ge 0 (p_burn p))) in Hd by lia. cbn [andb] in Hd.
  rewrite bind_metric, bind_ret. cbn. by split_and!.
Qed.

(** The entry of the cache for a paste read at time [t]. *)
Definition entry_of (t : Z) (p : Paste) : memEntry :=
  {| value := render (paste_json p); expiresAt := t + pasteCacheTTL |}.

(** The first raw read of an unlimited paste puts it into the cache. *)
Lemma raw_read_caches (r : Request) (p : Paste) (pre : string) (ttl : Z) w :
  calm w -> w_ticks w = [] -> w_cache w = Some (newMemoryCache pre ttl) ->
  paste_of (r_id r) (w_db w) = Some p -> p_expires p = None -> p_burn p <= 0 ->
  let '(resp, w1) := GetRawPaste r w in
  resp = raw_response p /\ calm w1 /\ w_ticks w1 = [] /\ w_clock w1 = w_clock w
  /\ ext None (w_db w) (w_db w1)
  /\ exists c, w_cache w1 = Some c /\ mc_data c !! mc_key c (pasteCacheKey (r_id r)) = Some (entry_of (w_clock w) p).
Proof.
  intros Hc Ht Hca Hp He Hb. pose proof (first_Some _ _ _ Hp) as [_ Hid%has_id_iff].
  set (key := pasteCacheKey (r_id r)).
  assert (Hload : exists w2, loadLivePaste (r_id r) w = (inl p, w2) /\ calm w2 /\ w_ticks w2 = [] /\ w_clock w2 = w_clock w
            /\ w_db w2 = w_db w
            /\ exists c, w_cache w2 = Some c /\ mc_data c !! mc_key c key = Some (entry_of (w_clock w) p)).
  { rewrite loadLive_load, bind_run. unfold load. rewrite bind_run.
    unfold getCachedPaste, cache_op. rewrite bind_run, Hca. cbn [cache_get memory_driver].
    unfold mc_Get. cbn [mc_data newMemoryCache]. rewrite lookup_empty. cbv beta iota.
    set (w1 := set_cache _ (advance w)). assert (Hc1 : calm w1) by done.
    cbn [mret M_ret]. rewrite bind_run. unfold GetPasteByID. rewrite query_calm by done.
    change (w_db w1) with (w_db w). unfold paste_of in Hp. rewrite Hp.
    unfold cachePaste. rewrite (proj2 (Z.ltb_ge 0 (p_burn p))) by lia. rewrite bind_run. unfold cache_op.
    rewrite bind_run. unfold w1. cbn [w_cache set_cache cache_set memory_driver mc_Set].
    cbn [mret M_ret]. cbv zeta. rewrite He. cbn [mret M_ret]. eexists. split; [reflexivity|].
    cbn. rewrite !Ht. cbn. split_and!; [done|done|lia|done|].
    eexists. split; [reflexivity|]. cbn. rewrite Hid. unfold mc_key. cbn. rewrite lookup_insert_eq. f_equal.
    unfold entry_of. f_equal. change (pasteCacheTTL =? 0) with false. cbv iota.
    change (0 <? pasteCacheTTL) with true. cbv iota. lia. }
  destruct Hload as (w2 & E & Hc2 & Ht2 & Hk2 & Hd2 & c & Hca2 & Hent).
  unfold GetRawPaste. rewrite (bind_eq _ _ _ _ _ E). cbn [serve_raw]. rewrite bind_run.
  pose proof (count_keeps_cache (r_id r) p w2 Hc2 ltac:(by rewrite Hd2) Hb Ht2) as (Hca3 & Hk3 & Ht3 & He3).
  pose proof (steady_count_and_burn (r_id r) p w2) as [_ Hs3].
  destruct (count_and_burn (r_id r) p w2) as [q w3]. cbn [mret M_ret fst snd] in *.
  split_and!; [done|auto|done|congruence|by rewrite <- Hd2|]. exists c. split; [congruence|done].
Qed.

(** A raw read served from the cache. *)
Lemma raw_read_hit (r : Request) (p : Paste) c t w :
  w_cache w = Some c -> mc_data c !! mc_key c (pasteCacheKey (r_id r)) = Some (entry_of t p) ->
  w_clock w <= t + pasteCacheTTL -> p_expires p = None -> p_burn p <= 0 ->
  in_int64 (p_visibility p) -> in_int64 (p_burn p) -> in_int64 (p_views p) ->
  (GetRawPaste r w).1 = raw_response (json_view p).
Proof.
  intros Hca Hent Hk He Hb Hi1 Hi2 Hi3.
  unfold GetRawPaste. rewrite bind_run, loadLive_load, bind_run. unfold load. rewrite bind_run.
  destruct (getCached_hit (r_id r) w c (entry_of t p) (json_view p)) as [Hhit _].
  - done.
  - done.
  - unfold mc_expired, entry_of. cbn [expiresAt]. apply andb_false_iff. right. by apply Z.ltb_ge.
  - unfold entry_of. cbn [value]. rewrite parse_render. by apply paste_json_roundtrip.
  - done.
  - destruct (getCachedPaste (r_id r) w) as [o w4]. cbn [fst] in Hhit. subst o. cbn [mret M_ret].
    cbn [json_view p_expires]. rewrite He. cbn [mret M_ret]. by rewrite serve_loaded.
Qed.

(** a text paste that is not valid UTF-8 (Latin-1 text, say) is served
    with its own bytes by the first raw read, which caches it as JSON, and with
    replacement characters by the next one. *)
Theorem cached_read_differs (r : Request) (p : Paste) (pre : string) (ttl : Z) w :
  calm w -> w_ticks w = [] -> w_cache w = Some (newMemoryCache pre ttl) ->
  paste_of (r_id r) (w_db w) = Some p -> p_content_type p = "" -> p_expires p = None -> p_burn p <= 0 ->
  in_int64 (p_visibility p) -> in_int64 (p_burn p) -> in_int64 (p_views p) ->
  Utf8.Valid (p_content p) = false ->
  let '(resp1, w1) := GetRawPaste r w in
  body resp1 = BText (p_content p)
  /\ body (GetRawPaste r w1).1 = BText (Utf8.ToValid (p_content p))
  /\ Utf8.ToValid (p_content p) <> p_content p.
Proof.
  intros Hc Ht Hca Hp Hct He Hb Hi1 Hi2 Hi3 Hval. pose proof (raw_read_caches r p pre ttl w Hc Ht Hca Hp He Hb) as Hr.
  destruct (GetRawPaste r w) as [resp1 w1]. destruct Hr as (-> & Hc1 & Ht1 & Hk1 & _ & c & Hca1 & Hent).
  split; [|split; [|by apply String.eqb_neq]].
  - destruct (raw_response_body p) as [_ ->]. unfold raw_body. by rewrite Hct.
  - rewrite (raw_read_hit r p c (w_clock w) w1) by (try done; unfold pasteCacheTTL, Minute, Second; lia).
    destruct (raw_response_body (json_view p)) as [_ ->]. unfold raw_body. cbn [json_view p_content_type p_content].
    by rewrite Hct.
Qed.
End memory.

(** ** Witnesses *)

(** A fresh memory cache is coherent with any database. *)
Lemma fresh_coherent pre ttl (w : World memoryCache) :
  w_cache w = Some (newMemoryCache pre ttl) -> coherent None w.
Proof.
  unfold coherent. intros ->. intros t id raw _ Hv. cbn in Hv. unfold spec.see, abs in Hv. cbn in Hv.
  by rewrite lookup_empty in Hv.
Qed.

Definition site (d : DBState) : World memoryCache :=
  {| w_db := d; w_cache := Some (newMemoryCache "pastebin:" Hour); w_clock := 1000 * Second; w_ticks := [];
     w_rand := repeat 7 200; w_faults := []; w_metrics := no_metrics |}.

Lemma site_coherent d : coherent None (site d).
Proof. by apply (fresh_coherent "pastebin:" Hour). Qed.

(** The id and the token made of the byte 7. *)
Definition seven_id : string := "hhhhhhhh".
Definition seven_token : string := "tok_hhhhhhhhhhhhhhhhhhhhhhhhhhhhhhhh".

Definition upload (content : string) : Request := set_body content plain_request.
Definition bearer (tok id : string) : Request := with_id id (with_header "Authorization" ("Bearer " ++ tok) plain_request).

Definition stored_paste (id content : string) (burn : Z) (expires : option Z) : Paste :=
  {| p_id := id; p_title := "t"; p_content := content; p_content_type := ""; p_language := "text";
     p_visibility := 0; p_is_link := false; p_expires := expires; p_burn := burn; p_hash := ""; p_views := 0;
     p_created := 0; p_updated := 0 |}.

Lemma cache_stays_coherent_witness :
  let l := [ACreate (upload "hello"); ARaw (with_id seven_id plain_request); ADelete (bearer seven_token seven_id);
            AGet (with_id seven_id plain_request)] in
  t_pastes (w_db (run_actions plain_handler l (site empty_db)).2) = []
  /\ coherent None (run_actions plain_handler l (site empty_db)).2.
Proof. split; [vm_compute; reflexivity|]. apply cache_stays_coherent. apply site_coherent. Defined.

Lemma reads_answer_witness :
  let w := site (with_pastes [stored_paste "a" "body" 0 (Some 5)] empty_db) in
  let r := with_id "a" plain_request in
  (GetRawPaste r w).1 = sendAPIError "GONE" "paste has expired"
  /\ (GetPaste r w).1 = sendAPIError "GONE" "paste has expired".
Proof.
  cbv zeta. eapply reads_answer; [apply site_coherent | reflexivity | reflexivity | reflexivity | vm_compute; reflexivity].
Defined.

Definition after_upload : World memoryCache :=
  (run_actions plain_handler [ACreate (upload "hello"); ARaw (with_id seven_id plain_request)] (site empty_db)).2.

Lemma after_upload_coherent : coherent None after_upload.
Proof. apply run_actions_coherent, site_coherent. Qed.

Lemma deletion_needs_token_witness :
  let '(resp, w') := DeletePaste_handler plain_handler (bearer seven_token seven_id) after_upload in
  status resp = 200 /\ (GetRawPaste (with_id seven_id plain_request) w').1 = sendAPIError "NOT_FOUND" "paste not found".
Proof.
  assert (Hcalm : calm after_upload) by (vm_compute; reflexivity).
  pose proof (deletion_needs_token plain_handler (bearer seven_token seven_id) after_upload after_upload_coherent Hcalm) as H.
  assert (Hs : status (DeletePaste_handler plain_handler (bearer seven_token seven_id) after_upload).1 = 200)
    by (vm_compute; reflexivity).
  destruct (DeletePaste_handler plain_handler (bearer seven_token seven_id) after_upload) as [resp w']. cbn [fst] in Hs.
  split; [exact Hs|]. cbv zeta in H. rewrite Hs in H. apply H. reflexivity.
Defined.

(** A PNG header and some bytes, uploaded raw. *)
Definition png : string := of_bytes [137; 80; 78; 71; 13; 10; 26; 10; 0; 1; 2; 255].

Lemma raw_round_trip_witness :
  let w' := (createFromRequest plain_handler (upload png) (site empty_db)).2 in
  status (GetRawPaste (with_id seven_id plain_request) w').1 = 200
  /\ body (GetRawPaste (with_id seven_id plain_request) w').1 = BText png.
Proof.
  cbv zeta. set (res := createFromRequest plain_handler (upload png) (site empty_db)).
  assert (Hs : stored_form (r_body (upload png)) = png) by (vm_compute; reflexivity). rewrite <- Hs.
  destruct res as [[resp|e] w'] eqn:E; [|exfalso; revert E; vm_compute; discriminate].
  apply (raw_round_trip plain_handler (upload png) (site empty_db) resp w');
    [apply site_coherent | reflexivity | reflexivity | reflexivity | vm_compute; reflexivity | vm_compute; reflexivity
    | vm_compute; discriminate | exact E | ].
  assert (Hid : match (createFromRequest plain_handler (upload png) (site empty_db)).1 with
                | inl x => cr_id x = seven_id | inr _ => False end) by (vm_compute; reflexivity).
  unfold res in E. rewrite E in Hid. symmetry. exact Hid.
Defined.

Lemma burned_paste_served_twice_witness :
  let w := site (with_pastes [stored_paste "a" "secret" 1 None] empty_db) in
  let r := with_id "a" plain_request in
  let '(loaded, w1) := loadLivePaste "a" w in
  let '(respB, w2) := GetRawPaste r w1 in
  respB = raw_response (stored_paste "a" "secret" 1 None) /\ paste_of "a" (w_db w2) = None
  /\ (serve_raw "a" loaded w2).1 = raw_response (stored_paste "a" "secret" 1 None).
Proof.
  cbv zeta.
  apply (burned_paste_served_twice (with_id "a" plain_request) (stored_paste "a" "secret" 1 None));
    [apply site_coherent | reflexivity..].
Defined.

(** A paste created with the token of the first one. *)
Definition second_upload : World memoryCache :=
  set_rand (repeat 8 100) after_upload.

Lemma set_rand_coherent (l : list Z) (w : World memoryCache) : coherent None w -> coherent None (set_rand l w).
Proof. done. Qed.

Lemma after_upload_wf : well_formed (w_db second_upload).
Proof.
  split; try by apply (bool_decide_unpack _); vm_compute.
  - intros p Hp. assert (Hb : p_burn p = 0); [|lia].
    revert p Hp. apply Forall_forall. apply (bool_decide_unpack _). vm_compute. reflexivity.
  - assert (H : Forall (fun t => tk_id t <= t_token_seq (w_db second_upload)) (t_tokens (w_db second_upload)))
      by (apply (bool_decide_unpack _); vm_compute; reflexivity).
    intros t Ht. by apply (proj1 (Forall_forall _ _) H).
Qed.

Lemma reused_token_cannot_delete_witness :
  let r := with_header "Authorization" ("Bearer " ++ seven_token) (upload "second") in
  match createFromRequest plain_handler r second_upload with
  | (inl resp, w') =>
      cr_owner_token resp = seven_token
      /\ status (DeletePaste_handler plain_handler (bearer seven_token (cr_id resp)) w').1 = 404
  | (inr _, _) => False
  end.
Proof.
  cbv zeta. set (r := with_header _ _ _).
  destruct (createFromRequest plain_handler r second_upload) as [[resp|e] w'] eqn:E;
    [|revert E; vm_compute; discriminate].
  assert (Htok : cr_owner_token resp = seven_token).
  { assert (Hx : match (createFromRequest plain_handler r second_upload).1 with
                 | inl x => cr_owner_token x = seven_token | inr _ => False end) by (vm_compute; reflexivity).
    rewrite E in Hx. exact Hx. }
  split; [exact Htok|].
  destruct (t_tokens (w_db second_upload)) as [|row rest] eqn:Et; [exfalso; revert Et; vm_compute; discriminate|].
  assert (Hrow : tk_hash row = HashToken seven_token /\ tk_resource row = seven_id).
  { assert (Hx : match t_tokens (w_db second_upload) with
                 | x :: _ => tk_hash x = HashToken seven_token /\ tk_resource x = seven_id | [] => False end)
      by (vm_compute; split; reflexivity).
    rewrite Et in Hx. exact Hx. }
  destruct Hrow as [Hh Hr].
  eapply (reused_token_cannot_delete plain_handler r second_upload resp w' row).
  - reflexivity.
  - apply after_upload_wf.
  - apply set_rand_coherent, after_upload_coherent.
  - exact E.
  - rewrite Et. apply elem_of_cons. by left.
  - rewrite Htok. exact Hh.
  - rewrite Hr. vm_compute. discriminate.
  - rewrite Htok. vm_compute. reflexivity.
  - vm_compute. discriminate.
  - reflexivity.
  - reflexivity.
Defined.

Lemma cached_read_differs_witness :
  let p := stored_paste "a" (of_bytes [99; 97; 102; 233]) 0 None in
  let r := with_id "a" plain_request in
  let '(resp1, w1) := GetRawPaste r (site (with_pastes [p] empty_db)) in
  body resp1 = BText (of_bytes [99; 97; 102; 233])
  /\ body (GetRawPaste r w1).1 = BText (of_bytes [99; 97; 102; 239; 191; 189])
  /\ Utf8.ToValid (p_content p) <> p_content p.
Proof.
  cbv zeta.
  apply (cached_read_differs (with_id "a" plain_request) (stored_paste "a" (of_bytes [99; 97; 102; 233]) 0 None)
           "pastebin:" Hour); try reflexivity; try (vm_compute; split; discriminate).
Defined.
