(* ===== verification/CompatSpec.v ===== *)
(** * What the compatibility handlers guarantee, and where they differ

    Shared creation and its delete token, XML escaping; and the places where
    these handlers depart from the native ones: reads that are not counted,
    deletions that leave the cache, lifetimes that overflow, uploads that are
    truncated. *)

From S2P Require Import Prelude GoStr GoTime GoCrypto GoSniff Model Cache World Database DatabaseProofs Http.
From S2P Require Import JsonProofs Paste PasteProofs PasteSpec Compat Instances.
From Stdlib Require Import Ascii.

Section compat.
Context {C : Type} `{CacheLaws C} `{Unicode} `{JsonLaws} `{Net} `{Printable}.
Implicit Types (w : World C) (r : Request).

(** ** Shared creation *)

Lemma frame_createInternal title content lang vis burn e :
  frame (C := C) (createPasteInternal title content lang vis burn e).
Proof.
  unfold createPasteInternal. cbv zeta. repeat case_match; walk; apply frame_unique_id.
Qed.

(** The content as it is stored. *)
Definition stored_content (content : string) : string :=
  if (0 <? strlen content) && negb (is_text (DetectContentType (Strings.take 512 content)))
  then Base64.EncodeToString (bytes content) else content.

Lemma createInternal_cases title content lang vis burn e w :
  let '(res, w') := createPasteInternal title content lang vis burn e w in
  match res with
  | Err _ => w_db w' = w_db w
  | Ok (id, tok) =>
      exists p, p_id p = id /\ p_content p = stored_content content /\ p_visibility p = vis /\ p_burn p = burn
        /\ p_expires p = e /\ p_views p = 0 /\ p_hash p = HashToken tok /\ p_is_link p = false
        /\ paste_of id (w_db w) = None /\ id_shape id
        /\ w_db w' = with_pastes (t_pastes (w_db w) ++ [p])%list (w_db w)
  end.
Proof.
  unfold createPasteInternal. cbv zeta.
  set (enc := if (0 <? strlen content) && _ then _ else _).
  assert (Henc : fst enc = stored_content content).
  { unfold enc, stored_content. by destruct ((0 <? strlen content) && _). }
  destruct enc as [content' ctype]. cbn [fst] in Henc. subst content'.
  rewrite bind_run. pose proof (reads_unique_id 10 w) as Hd1.
  destruct (unique_id 10 w) as [[id|m] w1] eqn:Eid; cbn [snd] in Hd1; [|done].
  apply unique_id_chars in Eid. rewrite bind_run. pose proof (reads_rand 16 w1) as Hd2.
  destruct (rand_read 16 w1) as [[raw|m] w2]; cbn [snd] in Hd2; [|cbn; congruence].
  rewrite bind_run. unfold CreatePaste. rewrite bind_now. set (p := stamp _ _).
  destruct (sql_cases (insert_paste p) (advance w2)) as [(w3 & E & Hd)|(w3 & E & Hd)];
    rewrite (bind_eq _ _ _ _ _ E); cbn [mret M_ret snd]; change (w_db (advance w2)) with (w_db w2) in *.
  - cbn. congruence.
  - unfold insert_paste in *. change (p_id p) with id in *. rewrite Hd2, Hd1 in *.
    destruct (existsb (has_id id) (t_pastes (w_db w))) eqn:Ex; cbn [fst snd] in *.
    + cbn. done.
    + cbn. exists p. split_and!; try done. apply first_None. intros x Hx. apply not_true_is_false. intros Hi.
      apply not_true_iff_false in Ex. apply Ex. apply existsb_exists. exists x. split; [by apply list_elem_of_In|done].
Qed.

(** a paste created for another protocol is stored under a fresh id with
    the hash of its delete token; that token, and no token of another hash,
    deletes it through the compatibility deletion, and nothing else goes. *)
Theorem compat_token_deletes (title content lang : string) (vis burn : Z) (e : option Z) w id tok w' :
  calm w -> createPasteInternal title content lang vis burn e w = (Ok (id, tok), w') ->
  (let '(res, w2) := DeletePasteByToken id (HashToken tok) w' in res = Ok tt /\ w_db w2 = w_db w)
  /\ (forall hash, hash <> HashToken tok ->
        let '(res, w2) := DeletePasteByToken id hash w' in is_ok res = false /\ w_db w2 = w_db w').
Proof.
  intros Hc E. pose proof (createInternal_cases title content lang vis burn e w) as Hcr. rewrite E in Hcr.
  destruct Hcr as (p & Hid & _ & _ & _ & _ & _ & Hh & _ & Hnone & _ & Hdb).
  assert (Hc' : calm w').
  { assert (Hs : steady (createPasteInternal (C := C) title content lang vis burn e)).
    { unfold createPasteInternal. cbv zeta. repeat case_match; walk; apply steady_unique_id. }
    pose proof (Hs w) as [_ Hs']. rewrite E in Hs'. by apply Hs'. }
  assert (Hhas : has_id id p = true) by (by apply has_id_iff).
  assert (Hf : first (has_id id) (t_pastes (w_db w')) = Some p).
  { rewrite Hdb. cbn -[first]. unfold paste_of in Hnone. rewrite first_app, Hnone. cbn. by rewrite Hhas. }
  split.
  - unfold DeletePasteByToken. rewrite (bind_eq _ _ _ _ _ (query_calm _ _ Hc')). cbv beta iota.
    rewrite Hf. cbn [fmap option_fmap option_map]. rewrite Hh, String.eqb_refl, bind_run, exec_calm by done.
    cbn. split; [done|]. rewrite Hdb. cbn. rewrite keep_app, keep_cons, Hhas. cbn. rewrite app_nil_r.
    rewrite keep_all; [by destruct (w_db w)|]. intros x Hx. apply negb_true_iff. by apply (proj1 (first_None _ _) Hnone).
  - intros hash Hne. unfold DeletePasteByToken. rewrite (bind_eq _ _ _ _ _ (query_calm _ _ Hc')). cbv beta iota.
    rewrite Hf. cbn [fmap option_fmap option_map]. rewrite Hh.
    by rewrite (proj2 (String.eqb_neq (HashToken tok) hash)) by congruence.
Qed.

(** ** Reads that are not counted *)

Lemma compat_load_calm id w p :
  calm w -> paste_of id (w_db w) = Some p -> p_expires p = None ->
  (compat_load id w).1 = (Some p, false) /\ w_db (compat_load id w).2 = w_db w /\ calm (compat_load id w).2.
Proof.
  intros Hc Hp He. unfold compat_load, GetPasteByID. rewrite (bind_eq _ _ _ _ _ (query_calm _ _ Hc)).
  unfold paste_of in Hp. rewrite Hp, He. done.
Qed.

Fixpoint repeated {A} (n : nat) (m : M C A) : M C (list A) :=
  match n with O => mret [] | S n => a ← m; l ← repeated n m; mret (a :: l) end.

(** the stikked endpoint hands out the content of a view-limited paste
    any number of times: its reads are not counted and never burn the paste. *)
Theorem stikked_ignores_view_limit (r : Request) (p : Paste) (n : nat) w :
  calm w -> paste_of (r_id r) (w_db w) = Some p -> p_expires p = None ->
  let '(resps, w') := repeated n (StikkedJSON r) w in
  w_db w' = w_db w /\ length resps = n
  /\ Forall (fun resp => status resp = 200
                         /\ exists l, body resp = BJson (JObj l) /\ In ("raw", JStr (p_content p)) l) resps.
Proof.
  intros Hc Hp He. revert w Hc Hp. induction n as [|n IH]; intros w Hc Hp; [done|].
  cbn [repeated]. rewrite bind_run. unfold StikkedJSON at 1. rewrite bind_run.
  destruct (compat_load_calm (r_id r) w p Hc Hp He) as (E & Hd & Hc1).
  destruct (compat_load (r_id r) w) as [x w1]. cbn [fst snd] in *. subst x. cbn [fst mret M_ret].
  rewrite bind_run. specialize (IH w1 Hc1 ltac:(by rewrite Hd)). destruct (repeated n (StikkedJSON r) w1) as [l w2].
  destruct IH as (Hd2 & Hlen & Hall). cbn. split; [congruence|]. split; [congruence|].
  constructor; [|done]. split; [done|]. eexists. split; [reflexivity|]. cbn. tauto.
Qed.

(** ** Lifetimes *)

(** the lifetimes of the other protocols are multiplied without a check:
    a positive number of seconds, minutes, days or hours whose nanoseconds lie
    between 2^63 and 2^64 gives an expiry in the past, and the new paste is
    expired when it is created. *)
Theorem compat_lifetime_wraps (n unit : Z) w :
  0 < n -> In unit [Second; Minute; 24 * Hour; Hour] -> 2 ^ 63 <= n * unit < 2 ^ 64 ->
  exists d, (unit = Second -> len_duration (Strconv.Itoa n) = Some d)
    /\ (unit = Minute -> stikked_duration (Strconv.Itoa n) = Some d)
    /\ (unit = 24 * Hour -> dpaste_duration (Strconv.Itoa n) = Some d)
    /\ (unit = Hour -> curl_duration (Strconv.Itoa n) = Some d)
    /\ d = n * unit - 2 ^ 64 /\ exists e, (expiry_in (Some d) w).1 = Some e /\ e < w_clock w.
Proof.
  intros Hn Hu Hr. exists (n * unit - 2 ^ 64).
  assert (Hw : forall k, 2 ^ 63 <= k < 2 ^ 64 -> wrap64 k = k - 2 ^ 64).
  { intros k Hk. unfold wrap64. replace (k + 2 ^ 63) with ((k - 2 ^ 63) + 1 * 2 ^ 64) by lia.
    rewrite Z.mod_add, Z.mod_small by lia. lia. }
  assert (Hunit : 10 ^ 9 <= unit).
  { unfold Minute, Hour, Minute, Second in *. cbn [In] in Hu. lia. }
  assert (Hp : positive (Strconv.Atoi (Strconv.Itoa n)) = Some n).
  { rewrite Atoi_Itoa by (unfold in_int64, min_int64, max_int64; nia). unfold positive. by rewrite (proj2 (Z.ltb_lt 0 n)). }
  unfold len_duration, stikked_duration, dpaste_duration, curl_duration. change Strconv.ParseInt with Strconv.Atoi.
  rewrite Hp. cbn [fmap option_fmap option_map]. unfold dur_mul.
  split_and!; try (intros Heq; f_equal; rewrite <- ?Heq; apply Hw; lia); [|done|].
  - intros Heq. f_equal. rewrite (wrap64_id (n * 24)).
    + rewrite <- Hw by lia. f_equal. lia.
    + unfold in_int64, min_int64, max_int64, Hour, Minute, Second in *. lia.
  - exists (w_clock w + (n * unit - 2 ^ 64)). split; [done|]. lia.
Qed.

(** ** Uploads to the root *)

Lemma takeZ_over n s : 0 < n -> n < strlen s -> strlen (takeZ n s) = n.
Proof.
  intros Hn Hs. unfold takeZ. rewrite (proj2 (Z.leb_gt n 0)), (proj2 (Z.leb_gt (strlen s) n)) by lia.
  apply strlen_take. lia.
Qed.

(** a raw upload larger than the configured size is refused by the native
    handler with 413, but through the root handler it reaches the same handler
    cut down to the limit, and is stored truncated. *)
Theorem root_upload_truncates (h : PasteHandler) (r : Request) w :
  raw_upload r = true -> r_urlform r = None -> r_multipart r = None ->
  is_blank (FormValue r "sprunge") = true -> is_blank (FormValue r "f:1") = true ->
  effectiveReadLimit h < max_int64 -> effectiveReadLimit h < strlen (r_body r) ->
  parse_request h r = inr (too_large (effectiveReadLimit h))
  /\ RootUpload h r w = CreatePaste_handler h (bounded h r) w
  /\ exists q r', parse_request h (bounded h r) = inl (q, r')
       /\ q_Content q = takeZ (effectiveReadLimit h) (r_body r)
       /\ strlen (q_Content q) = effectiveReadLimit h.
Proof.
  intros Hraw Hu Hm Hs Hf Hl Hsize. pose proof (effectiveReadLimit_pos h) as Hpos. split_and!.
  - by apply (parse_raw h r Hraw Hl).
  - unfold RootUpload, FormFile. rewrite Hu, Hm, Hs, Hf. done.
  - assert (Hlen : strlen (r_body (bounded h r)) = effectiveReadLimit h) by (by apply takeZ_over).
    destruct (proj1 (parse_raw h (bounded h r) Hraw Hl) ltac:(lia)) as (q & Hq & Hcont & _).
    eexists q, _. split; [exact Hq|]. rewrite Hcont. split; [done|exact Hlen].
Qed.
End compat.

(** ** XML *)

(** One character of the escaped text. *)
Definition esc (c : ascii) : string :=
  if Ascii.eqb c "&" then "&amp;" else if Ascii.eqb c "<" then "&lt;" else if Ascii.eqb c ">" then "&gt;"
  else if Ascii.eqb c "034" then "&quot;" else if Ascii.eqb c "'" then "&#39;" else String c "".

Lemma ReplaceByte_app a b o n : Strings.ReplaceByte (a ++ b) o n = Strings.ReplaceByte a o n ++ Strings.ReplaceByte b o n.
Proof.
  induction a as [|c a IH]; [done|]. cbn. rewrite IH. destruct (Ascii.eqb c o); [|done]. apply string_app_assoc.
Qed.

Lemma xmlEscape_cons c s : xmlEscape (String c s) = esc c ++ xmlEscape s.
Proof.
  unfold xmlEscape. change (String c s) with (String c "" ++ s). rewrite !ReplaceByte_app. f_equal.
  unfold esc. cbn.
  destruct (Ascii.eqb c "&") eqn:E1; [by apply Ascii.eqb_eq in E1 as ->|]. cbn.
  destruct (Ascii.eqb c "<") eqn:E2; [by apply Ascii.eqb_eq in E2 as ->|]. cbn.
  destruct (Ascii.eqb c ">") eqn:E3; [by apply Ascii.eqb_eq in E3 as ->|]. cbn.
  destruct (Ascii.eqb c "034") eqn:E4; [by apply Ascii.eqb_eq in E4 as ->|]. cbn.
  by destruct (Ascii.eqb c "'").
Qed.

(** A reader of the escaped text: the five entities, everything else as it is. *)
Definition entity (s : string) : option (ascii * nat) :=
  if Strings.HasPrefix s "&amp;" then Some ("&"%char, 5%nat)
  else if Strings.HasPrefix s "&lt;" then Some ("<"%char, 4%nat)
  else if Strings.HasPrefix s "&gt;" then Some (">"%char, 4%nat)
  else if Strings.HasPrefix s "&quot;" then Some ("034"%char, 6%nat)
  else if Strings.HasPrefix s "&#39;" then Some ("'"%char, 5%nat)
  else None.

Fixpoint xmlUnescape (fuel : nat) (s : string) : string :=
  match fuel, s with
  | O, _ | _, "" => ""
  | S fuel, String c r =>
      match entity s with
      | Some (c', n) => String c' (xmlUnescape fuel (Strings.drop n s))
      | None => String c (xmlUnescape fuel r)
      end
  end.

Lemma HasPrefix_other a p c t : Ascii.eqb c a = false -> Strings.HasPrefix (String c t) (String a p) = false.
Proof.
  intros Hc. unfold Strings.HasPrefix. apply not_true_is_false. intros [u Hu]%prefix_spec.
  injection Hu as -> _. by rewrite Ascii.eqb_refl in Hc.
Qed.

Lemma entity_other c t : Ascii.eqb c "&" = false -> entity (String c t) = None.
Proof. intros Hc. unfold entity. by rewrite !HasPrefix_other. Qed.

Lemma xmlUnescape_esc fuel c t : xmlUnescape (S fuel) (esc c ++ t) = String c (xmlUnescape fuel t).
Proof.
  unfold esc. destruct (Ascii.eqb c "&") eqn:E1; [apply Ascii.eqb_eq in E1 as ->|];
    [|destruct (Ascii.eqb c "<") eqn:E2; [apply Ascii.eqb_eq in E2 as ->|];
    [|destruct (Ascii.eqb c ">") eqn:E3; [apply Ascii.eqb_eq in E3 as ->|];
    [|destruct (Ascii.eqb c "034") eqn:E4; [apply Ascii.eqb_eq in E4 as ->|];
    [|destruct (Ascii.eqb c "'") eqn:E5; [apply Ascii.eqb_eq in E5 as ->|]]]]].
  6: { cbn [String.append]. cbn [xmlUnescape]. by rewrite entity_other. }
  all: cbn -[Strings.drop]; try (destruct t; cbn -[Strings.drop]); do 2 f_equal;
    unfold Strings.drop; cbn; rewrite ?substring_full by lia; reflexivity.
Qed.

(** XML escaping leaves no markup character in the text and loses
    nothing: a reader of the five entities gets the original back. *)
Theorem xmlEscape_sound (s : string) :
  Strings.forall_byte (fun c => negb (Strings.in_set (String "<" (String ">" (String "034" (String "'" "")))) c)) (xmlEscape s) = true
  /\ xmlUnescape (String.length s) (xmlEscape s) = s.
Proof.
  induction s as [|c s [IH1 IH2]]; [done|]. rewrite xmlEscape_cons. split.
  - rewrite forall_byte_app, IH1, andb_true_r. unfold esc.
    repeat match goal with |- context [if Ascii.eqb c ?d then _ else _] => destruct (Ascii.eqb c d) eqn:?; [reflexivity|] end.
    cbn. rewrite andb_true_r. unfold Strings.in_set. cbn. rewrite Heqb0, Heqb1, Heqb2, Heqb3. reflexivity.
  - cbn [String.length]. by rewrite xmlUnescape_esc, IH2.
Qed.

(** ** The cache and the compatibility deletion *)

Section stale.
Context `{Unicode} `{JsonLaws} `{Net}.

(** deleting a paste through the compatibility endpoints leaves its cache
    entry: after a read, a deletion with the right token reports success and
    the paste is gone from the database, but raw reads keep serving it. *)
Theorem compat_delete_leaves_cache (r rd : Request) (p : Paste) (pre tok : string) (ttl : Z) (w : World memoryCache) :
  calm w -> w_ticks w = [] -> w_cache w = Some (newMemoryCache pre ttl) ->
  paste_of (r_id r) (w_db w) = Some p -> p_expires p = None -> p_burn p <= 0 ->
  in_int64 (p_visibility p) -> in_int64 (p_burn p) -> in_int64 (p_views p) ->
  p_hash p = HashToken tok -> Get (r_query rd) "id" = r_id r -> Get (r_query rd) "deleteToken" = tok ->
  r_id r <> "" -> tok <> "" ->
  let '(_, w1) := GetRawPaste r w in
  let '(resp, w2) := LenRemove rd w1 in
  status resp = 200 /\ paste_of (r_id r) (w_db w2) = None
  /\ (GetRawPaste r w2).1 = raw_response (json_view p).
Proof.
  intros Hc Ht Hca Hp He Hb Hi1 Hi2 Hi3 Hh Hid Htok Hne1 Hne2.
  pose proof (raw_read_caches r p pre ttl w Hc Ht Hca Hp He Hb) as Hr.
  destruct (GetRawPaste r w) as [resp1 w1]. destruct Hr as (_ & Hc1 & Ht1 & Hk1 & Hext & c & Hca1 & Hent).
  destruct (Hext (r_id r) p ltac:(done) Hp Hb) as (v & u & Hp1).
  assert (E : LenRemove rd w1 = (writeJSON 200 (JObj [("message", JStr "paste deleted")]),
                                 set_db (delete_paste (r_id r) (w_db w1)).2 w1)).
  { unfold LenRemove. rewrite Hid, Htok. cbv zeta.
    rewrite (proj2 (String.eqb_neq _ _) Hne1), (proj2 (String.eqb_neq _ _) Hne2). cbn [orb].
    rewrite bind_run. unfold DeletePasteByToken. rewrite (bind_eq _ _ _ _ _ (query_calm _ _ Hc1)). cbv beta iota.
    unfold paste_of in Hp1. rewrite Hp1. cbn [fmap option_fmap option_map touch p_hash].
    rewrite Hh, String.eqb_refl, bind_run, exec_calm by done. reflexivity. }
  rewrite E. split; [done|]. split.
  - cbn. unfold paste_of. cbn -[first]. apply paste_of_removed.
  - apply (raw_read_hit r p c (w_clock w)); try done. cbn. rewrite Hk1. unfold pasteCacheTTL, Minute, Second. lia.
Qed.
End stale.

(** ** Form uploads *)

(** the configured size does not bound urlencoded uploads: whatever the
    handler's limit, the content of a well-formed body of at most 10 MiB is
    accepted as it is, and a longer body is refused. *)
Theorem form_upload_ignores_limit `{Unicode} `{JsonText} `{Net} (h : PasteHandler) (r : Request) (f : UrlForm) :
  r_header r "Content-Type" = "application/x-www-form-urlencoded" -> r_urlform r = Some f ->
  uf_malformed f = false -> r_parsed r = false ->
  (strlen (r_body r) <= 10 * 1024 * 1024 ->
     exists q, parse_request h r = inl (q, r) /\ q_Content q = FormValue r "content")
  /\ (10 * 1024 * 1024 < strlen (r_body r) -> parse_request h r = inr (400, "failed to parse form")).
Proof.
  intros Hct Hf Hm Hp. unfold parse_request. rewrite Hct.
  change (Strings.HasPrefix "application/x-www-form-urlencoded" "application/json") with false.
  change (Strings.HasPrefix "application/x-www-form-urlencoded" "multipart/form-data") with false.
  change (Strings.HasPrefix "application/x-www-form-urlencoded" "application/x-www-form-urlencoded") with true.
  cbv iota. rewrite Hf, Hp, Hm. cbn [negb andb orb]. change max_form_size with (10 * 1024 * 1024). split; intros Hs.
  - rewrite (proj2 (Z.ltb_ge (10 * 1024 * 1024) (strlen (r_body r)))) by lia. by eexists.
  - by rewrite (proj2 (Z.ltb_lt (10 * 1024 * 1024) (strlen (r_body r)))) by lia.
Qed.

(** ** Witnesses *)

Lemma compat_token_deletes_witness :
  let res := createPasteInternal (C := memoryCache) "" "hello" "" 0 0 None (site empty_db) in
  match res with
  | (Ok (id, tok), w') =>
      (let '(r, w2) := DeletePasteByToken id (HashToken tok) w' in r = Ok tt /\ w_db w2 = empty_db)
      /\ (let '(r, w2) := DeletePasteByToken id "wrong" w' in is_ok r = false /\ w_db w2 = w_db w')
  | _ => False
  end.
Proof.
  cbv zeta. destruct (createPasteInternal _ _ _ _ _ _ _) as [[[id tok]|e] w'] eqn:E; [|revert E; vm_compute; discriminate].
  destruct (compat_token_deletes "" "hello" "" 0 0 None (site empty_db) id tok w' ltac:(reflexivity) E) as [H1 H2].
  split; [exact H1|]. apply (H2 "wrong"). intros Heq.
  assert (Hl : String.length (HashToken tok) = 64%nat).
  { unfold HashToken. pose proof (hex_length (Sha256.Sum256 (bytes tok))) as Hh. rewrite Sum256_length in Hh.
    unfold strlen in Hh. lia. }
  rewrite <- Heq in Hl. discriminate.
Defined.

Lemma stikked_ignores_view_limit_witness :
  let w := site (with_pastes [stored_paste "a" "secret" 1 None] empty_db) in
  let '(resps, w') := repeated 3 (StikkedJSON (with_id "a" plain_request)) w in
  w_db w' = w_db w /\ length resps = 3%nat
  /\ Forall (fun resp => status resp = 200
                         /\ exists l, body resp = BJson (JObj l) /\ In ("raw", JStr "secret") l) resps.
Proof.
  cbv zeta.
  apply (stikked_ignores_view_limit (with_id "a" plain_request) (stored_paste "a" "secret" 1 None) 3); reflexivity.
Defined.

Lemma compat_lifetime_wraps_witness :
  exists d, len_duration "9223372037" = Some d /\ d < 0
    /\ exists e, (expiry_in (Some d) (site empty_db)).1 = Some e /\ e < 1000 * Second.
Proof.
  destruct (compat_lifetime_wraps 9223372037 Second (site empty_db)) as (d & H1 & _ & _ & _ & H5 & H6);
    [lia | left; reflexivity | unfold Second; lia |].
  exists d. split; [exact (H1 eq_refl)|]. split; [rewrite H5; unfold Second; lia | exact H6].
Defined.

(** A handler limited to four bytes. *)
Definition four_bytes : PasteHandler := SetMaxSize 4 plain_handler.

Lemma root_upload_truncates_witness :
  RootUpload four_bytes (upload "too long") (site empty_db) = CreatePaste_handler four_bytes (bounded four_bytes (upload "too long")) (site empty_db)
  /\ (p_content <$> t_pastes (w_db (RootUpload four_bytes (upload "too long") (site empty_db)).2)) = ["too "]
  /\ status (CreatePaste_handler four_bytes (upload "too long") (site empty_db)).1 = 413.
Proof.
  split; [|split; vm_compute; reflexivity].
  apply (root_upload_truncates four_bytes (upload "too long") (site empty_db));
    try reflexivity; vm_compute; reflexivity.
Defined.

Definition owned_paste : Paste := set_hash (HashToken "secret") (stored_paste "a" "body" 0 None).

Lemma compat_delete_leaves_cache_witness :
  let r := with_id "a" plain_request in
  let rd := with_query [("id", "a"); ("deleteToken", "secret")] plain_request in
  let '(_, w1) := GetRawPaste r (site (with_pastes [owned_paste] empty_db)) in
  let '(resp, w2) := LenRemove rd w1 in
  status resp = 200 /\ paste_of "a" (w_db w2) = None
  /\ (GetRawPaste r w2).1 = raw_response (json_view owned_paste).
Proof.
  cbv zeta.
  apply (compat_delete_leaves_cache (with_id "a" plain_request)
           (with_query [("id", "a"); ("deleteToken", "secret")] plain_request) owned_paste "pastebin:" "secret" Hour);
    try reflexivity; try (vm_compute; split; discriminate); try (vm_compute; discriminate).
Defined.

Lemma form_upload_ignores_limit_witness :
  exists q, parse_request four_bytes
              (with_header "Content-Type" "application/x-www-form-urlencoded" (with_form [("content", "too long")] plain_request))
            = inl (q, with_header "Content-Type" "application/x-www-form-urlencoded" (with_form [("content", "too long")] plain_request))
            /\ q_Content q = "too long".
Proof.
  apply (form_upload_ignores_limit four_bytes
           (with_header "Content-Type" "application/x-www-form-urlencoded" (with_form [("content", "too long")] plain_request))
           {| uf_values := [("content", "too long")]; uf_malformed := false |}); try reflexivity.
  vm_compute. discriminate.
Defined.
