(* ===== verification/Scheduler.v ===== *)
(** * The task scheduler (src/src/scheduler/scheduler.go)

    Entries live in a heap and the map of tasks holds their indices, as the
    pointers of the code.  Every definition below is one critical section of the
    scheduler's mutex, or the code between two of them; a run of a task is a
    value of [flight] that goes through the phases of [execute].  [event] and
    [react] let them follow each other in any order.

    The task functions are not under this file: a run ends with the error an
    event gives.  The order of a range over the map of tasks is that of
    [map_to_list]; the drain timeout of [Stop] is the event [Interrupt]. *)

From S2P Require Import Prelude GoStr GoTime Cron Model Cache World Database.

Definition defaultCatchUpWindow : Z := Hour.
Definition defaultRetryDelay : Z := 5 * Minute.
Definition defaultMaxRetries : Z := 3.

(** ** State *)

Record taskEntry := {
  e_id : string;
  e_name : string;
  e_schedule : Schedule;
  e_enabled : bool;
  retryOnFail : bool;
  retryMax : Z;
  retryBase : Z;
  lastRun : Z;
  lastStatus : string;
  lastError : string;
  nextRun : Z;
  runCount : Z;
  failCount : Z;
  running : bool;
  retryAttempt : Z;
}.

(** What the notifier is told. *)
Record Outcome := {
  o_TaskID : string;
  o_TaskName : string;
  o_Status : string;
  o_Err : string;
  o_StartedAt : Z;
  o_FinishedAt : Z;
  o_NextRun : Z;
  o_Attempt : Z;
  o_WillRetry : bool;
}.

(** Where a run of a task is: its goroutine was started; the task function is
    running since an instant; it remains to clear the [running] flag. *)
Inductive phase :=
  | Spawned
  | Executing (start : Z)
  | Finished.

Record Scheduler := {
  has_db : bool;
  catchUpWindow : Z;
  sched_loc : Location;
  entries : list taskEntry;
  tasks : gmap string nat;
  sched_running : bool;
  notifier : bool;
  flight : list (nat * phase);
  told : list Outcome;
}.

(** [New]; [loc] is [time.Local]. *)
Definition New (db : bool) (loc : Location) : Scheduler :=
  {| has_db := db; catchUpWindow := defaultCatchUpWindow; sched_loc := loc; entries := []; tasks := ∅;
     sched_running := false; notifier := false; flight := []; told := [] |}.

Definition with_entries (l : list taskEntry) (s : Scheduler) : Scheduler :=
  {| has_db := has_db s; catchUpWindow := catchUpWindow s; sched_loc := sched_loc s; entries := l;
     tasks := tasks s; sched_running := sched_running s; notifier := notifier s; flight := flight s; told := told s |}.
Definition with_map (m : gmap string nat) (s : Scheduler) : Scheduler :=
  {| has_db := has_db s; catchUpWindow := catchUpWindow s; sched_loc := sched_loc s; entries := entries s;
     tasks := m; sched_running := sched_running s; notifier := notifier s; flight := flight s; told := told s |}.
Definition with_flight (f : list (nat * phase)) (s : Scheduler) : Scheduler :=
  {| has_db := has_db s; catchUpWindow := catchUpWindow s; sched_loc := sched_loc s; entries := entries s;
     tasks := tasks s; sched_running := sched_running s; notifier := notifier s; flight := f; told := told s |}.
Definition with_told (l : list Outcome) (s : Scheduler) : Scheduler :=
  {| has_db := has_db s; catchUpWindow := catchUpWindow s; sched_loc := sched_loc s; entries := entries s;
     tasks := tasks s; sched_running := sched_running s; notifier := notifier s; flight := flight s; told := l |}.
Definition set_active_loop (b : bool) (s : Scheduler) : Scheduler :=
  {| has_db := has_db s; catchUpWindow := catchUpWindow s; sched_loc := sched_loc s; entries := entries s;
     tasks := tasks s; sched_running := b; notifier := notifier s; flight := flight s; told := told s |}.

Definition SetCatchUpWindow (d : Z) (s : Scheduler) : Scheduler :=
  {| has_db := has_db s; catchUpWindow := d; sched_loc := sched_loc s; entries := entries s; tasks := tasks s;
     sched_running := sched_running s; notifier := notifier s; flight := flight s; told := told s |}.
(** Nothing reads the location. *)
Definition SetLocation (l : Location) (s : Scheduler) : Scheduler :=
  {| has_db := has_db s; catchUpWindow := catchUpWindow s; sched_loc := l; entries := entries s; tasks := tasks s;
     sched_running := sched_running s; notifier := notifier s; flight := flight s; told := told s |}.
Definition SetNotifier (b : bool) (s : Scheduler) : Scheduler :=
  {| has_db := has_db s; catchUpWindow := catchUpWindow s; sched_loc := sched_loc s; entries := entries s;
     tasks := tasks s; sched_running := sched_running s; notifier := b; flight := flight s; told := told s |}.

(** ** Updates of one entry *)

Definition set_running (b : bool) (e : taskEntry) : taskEntry :=
  {| e_id := e_id e; e_name := e_name e; e_schedule := e_schedule e; e_enabled := e_enabled e;
     retryOnFail := retryOnFail e; retryMax := retryMax e; retryBase := retryBase e; lastRun := lastRun e;
     lastStatus := lastStatus e; lastError := lastError e; nextRun := nextRun e; runCount := runCount e;
     failCount := failCount e; running := b; retryAttempt := retryAttempt e |}.
Definition set_next (t : Z) (e : taskEntry) : taskEntry :=
  {| e_id := e_id e; e_name := e_name e; e_schedule := e_schedule e; e_enabled := e_enabled e;
     retryOnFail := retryOnFail e; retryMax := retryMax e; retryBase := retryBase e; lastRun := lastRun e;
     lastStatus := lastStatus e; lastError := lastError e; nextRun := t; runCount := runCount e;
     failCount := failCount e; running := running e; retryAttempt := retryAttempt e |}.
Definition set_enabled_flag (b : bool) (e : taskEntry) : taskEntry :=
  {| e_id := e_id e; e_name := e_name e; e_schedule := e_schedule e; e_enabled := b;
     retryOnFail := retryOnFail e; retryMax := retryMax e; retryBase := retryBase e; lastRun := lastRun e;
     lastStatus := lastStatus e; lastError := lastError e; nextRun := nextRun e; runCount := runCount e;
     failCount := failCount e; running := running e; retryAttempt := retryAttempt e |}.
Definition set_policy (on : bool) (base max_ : Z) (e : taskEntry) : taskEntry :=
  {| e_id := e_id e; e_name := e_name e; e_schedule := e_schedule e; e_enabled := e_enabled e;
     retryOnFail := on; retryMax := max_; retryBase := base; lastRun := lastRun e;
     lastStatus := lastStatus e; lastError := lastError e; nextRun := nextRun e; runCount := runCount e;
     failCount := failCount e; running := running e; retryAttempt := retryAttempt e |}.
Definition set_status (status : string) (e : taskEntry) : taskEntry :=
  {| e_id := e_id e; e_name := e_name e; e_schedule := e_schedule e; e_enabled := e_enabled e;
     retryOnFail := retryOnFail e; retryMax := retryMax e; retryBase := retryBase e; lastRun := lastRun e;
     lastStatus := status; lastError := lastError e; nextRun := nextRun e; runCount := runCount e;
     failCount := failCount e; running := running e; retryAttempt := retryAttempt e |}.
Definition restore (st : TaskState) (e : taskEntry) : taskEntry :=
  {| e_id := e_id e; e_name := e_name e; e_schedule := e_schedule e; e_enabled := e_enabled e;
     retryOnFail := retryOnFail e; retryMax := retryMax e; retryBase := retryBase e; lastRun := LastRun st;
     lastStatus := LastStatus st; lastError := LastError st; nextRun := nextRun e; runCount := RunCount st;
     failCount := FailCount st; running := running e; retryAttempt := retryAttempt e |}.

Definition upd_entry (i : nat) (f : taskEntry -> taskEntry) (s : Scheduler) : Scheduler :=
  with_entries (alter f i (entries s)) s.

(** [toTaskState] and [taskEntryToState]. *)
Definition toTaskState (e : taskEntry) : TaskState :=
  {| TaskID := e_id e; TaskName := e_name e; ts_Schedule := schedule_string (e_schedule e); LastRun := lastRun e;
     LastStatus := lastStatus e; LastError := lastError e; NextRun := nextRun e; RunCount := runCount e;
     FailCount := failCount e; Enabled := e_enabled e |}.

(** ** Registration and settings *)

Definition new_entry (id name : string) (sched : Schedule) (enabled : bool) : taskEntry :=
  {| e_id := id; e_name := name; e_schedule := sched; e_enabled := enabled; retryOnFail := false; retryMax := 0;
     retryBase := 0; lastRun := zero_time; lastStatus := "pending"; lastError := ""; nextRun := zero_time;
     runCount := 0; failCount := 0; running := false; retryAttempt := 0 |}.

Definition add_task (id name : string) (sched : Schedule) (enabled : bool) (s : Scheduler) : Scheduler :=
  with_map (<[id := length (entries s)]> (tasks s)) (with_entries (entries s ++ [new_entry id name sched enabled]) s).

Definition Register `{StdDuration} (id name expr : string) (enabled : bool) (s : Scheduler)
  : run (result unit * Scheduler) :=
  r ← ParseSchedule expr;
  mret (match r with
        | Err e => (Err ("scheduler.Register " ++ id ++ ": " ++ e), s)
        | Ok sched => (Ok tt, add_task id name sched enabled s)
        end).

Definition SetRetry (id : string) (enabled : bool) (base maxRetries : Z) (s : Scheduler) : Scheduler :=
  match tasks s !! id with
  | None => s
  | Some i =>
      upd_entry i (set_policy enabled (if base <=? 0 then defaultRetryDelay else base)
                     (if maxRetries <=? 0 then defaultMaxRetries else maxRetries)) s
  end.

Definition GetTask (id : string) (s : Scheduler) : option TaskState :=
  i ← tasks s !! id; e ← entries s !! i; Some (toTaskState e).

Definition GetTasks (s : Scheduler) : list TaskState :=
  omap (fun kv => toTaskState <$> entries s !! (snd kv)) (map_to_list (tasks s)).

Section scheduler.
Context {C : Type}.
Context (fuel : nat) (loc : Location).

(** The activation of a schedule after [t], in the location of [time.Now()]. *)
Definition next_of (e : taskEntry) (t : Z) : run Z := Next fuel (e_schedule e) loc t.

Definition persistState (s : Scheduler) (e : taskEntry) : M C unit :=
  if has_db s then _ ← UpsertSchedulerTask (toTaskState e); mret tt else mret tt.

(** ** Running a task *)

Definition due (t : Z) (e : taskEntry) : bool :=
  e_enabled e && negb (running e) && negb (IsZero (nextRun e)) && (nextRun e <? t).

(** The entries of the map that satisfy [p], by index. *)
Definition pick (p : taskEntry -> bool) (s : Scheduler) : list nat :=
  omap (fun kv => e ← entries s !! (snd kv); if p e then Some (snd kv) else None) (map_to_list (tasks s)).

(** Mark the entries as running and start a goroutine for each. *)
Definition launch (l : list nat) (s : Scheduler) : Scheduler :=
  let s := foldr (fun i s => upd_entry i (set_running true) s) s l in
  with_flight (flight s ++ ((fun i => (i, Spawned)) <$> l)) s.

Definition tick (s : Scheduler) : M C Scheduler :=
  t ← now; mret (launch (pick (due t) s) s).

Definition RunNow (id : string) (s : Scheduler) : result unit * Scheduler :=
  match tasks s !! id with
  | None => (Err ("task " ++ id ++ " not found"), s)
  | Some i =>
      if opt_bool running (entries s !! i) then (Err ("task " ++ id ++ " is already running"), s)
      else (Ok tt, launch [i] s)
  end.

(** The beginning of [execute]. *)
Definition begin_run (k : nat) (s : Scheduler) : M C Scheduler :=
  match flight s !! k with
  | Some (i, Spawned) => start ← now; mret (with_flight (<[k := (i, Executing start)]> (flight s)) s)
  | _ => mret s
  end.

(** The retry policy: the next run, the next attempt and whether it is a retry. *)
Definition after_run (e : taskEntry) (finished : Z) (err : option string) : run (Z * Z * bool) :=
  match err with
  | Some _ =>
      if retryOnFail e && (retryAttempt e <? retryMax e) then
        Done (finished + wrap64 (Z.shiftl (retryBase e) (retryAttempt e)), retryAttempt e + 1, true)
      else next ← next_of e finished; Done (next, 0, false)
  | None => next ← next_of e finished; Done (next, 0, false)
  end.

Definition run_status (err : option string) : string := match err with Some _ => "failed" | None => "success" end.

Definition record_entry (start next attempt : Z) (err : option string) (e : taskEntry) : taskEntry :=
  {| e_id := e_id e; e_name := e_name e; e_schedule := e_schedule e; e_enabled := e_enabled e;
     retryOnFail := retryOnFail e; retryMax := retryMax e; retryBase := retryBase e; lastRun := start;
     lastStatus := run_status err; lastError := default "" err; nextRun := next;
     runCount := match err with Some _ => runCount e | None => runCount e + 1 end;
     failCount := match err with Some _ => failCount e + 1 | None => failCount e end;
     running := running e; retryAttempt := attempt |}.

Definition history_of (e : taskEntry) (start finished : Z) (err : option string) : TaskHistory :=
  {| th_TaskID := e_id e; th_StartedAt := start; th_FinishedAt := finished; th_Status := run_status err;
     th_ErrorMsg := default "" err; th_DurationMS := (finished - start) ÷ 1000000 |}.

Definition outcome (e : taskEntry) (start finished next : Z) (willRetry : bool) (err : option string) : Outcome :=
  {| o_TaskID := e_id e; o_TaskName := e_name e; o_Status := run_status err; o_Err := default "" err;
     o_StartedAt := start; o_FinishedAt := finished; o_NextRun := next; o_Attempt := retryAttempt e;
     o_WillRetry := willRetry |}.

(** The entry after a run, and whether a retry is scheduled. *)
Definition complete (e : taskEntry) (start finished : Z) (err : option string) : run (taskEntry * bool) :=
  r ← after_run e finished err;
  let '(next, attempt, willRetry) := r in mret (record_entry start next attempt err e, willRetry).

Definition persist_run (s : Scheduler) (e : taskEntry) (h : TaskHistory) : M C unit :=
  if has_db s then
    _ ← UpdateTaskRun (e_id e) (lastRun e) (lastStatus e) (lastError e) (runCount e) (failCount e) (nextRun e);
    _ ← RecordTaskHistory h;
    mret tt
  else mret tt.

(** The rest of [execute], once the task function returned [err].  When the
    search for the next activation does not return, the mutex stays locked. *)
Definition finish_run (k : nat) (err : option string) (s : Scheduler) : M C (run Scheduler) :=
  match flight s !! k with
  | Some (i, Executing start) =>
      match entries s !! i with
      | None => mret (Done s)
      | Some e =>
          finished ← now;
          match complete e start finished err with
          | Done (e', willRetry) =>
              _ ← persist_run s e' (history_of e start finished err);
              let s := upd_entry i (fun _ => e') s in
              let s := if notifier s
                       then with_told (told s ++ [outcome e start finished (nextRun e') willRetry err]) s else s in
              mret (Done (with_flight (<[k := (i, Finished)]> (flight s)) s))
          | Panicked => mret Panicked
          | OutOfFuel => mret OutOfFuel
          end
      end
  | _ => mret (Done s)
  end.

(** The last critical section of a run. *)
Definition end_run (k : nat) (s : Scheduler) : Scheduler :=
  match flight s !! k with
  | Some (i, Finished) => with_flight (delete k (flight s)) (upd_entry i (set_running false) s)
  | _ => s
  end.

(** ** Enabling *)

Definition EnableTask (id : string) (s : Scheduler) : M C (run Scheduler) :=
  match tasks s !! id ≫= fun i => pair i <$> entries s !! i with
  | None => mret (Done s)
  | Some (i, e) =>
      t ← now;
      match next_of e t with
      | Done next =>
          let e' := set_next next (set_enabled_flag true e) in
          _ ← persistState s e';
          mret (Done (upd_entry i (fun _ => e') s))
      | Panicked => mret Panicked
      | OutOfFuel => mret OutOfFuel
      end
  end.

Definition DisableTask (id : string) (s : Scheduler) : M C Scheduler :=
  match tasks s !! id ≫= fun i => pair i <$> entries s !! i with
  | None => mret s
  | Some (i, e) =>
      let e' := set_enabled_flag false e in
      _ ← persistState s e';
      mret (upd_entry i (fun _ => e') s)
  end.

(** ** Start and stop *)

(** Do [f] for every task, in the order of the map. *)
Fixpoint each (f : nat -> Scheduler -> M C (run Scheduler)) (l : list nat) (s : Scheduler) : M C (run Scheduler) :=
  match l with
  | [] => mret (Done s)
  | i :: l =>
      r ← f i s;
      match r with Done s => each f l s | Panicked => mret Panicked | OutOfFuel => mret OutOfFuel end
  end.

Definition indices (s : Scheduler) : list nat := (fun kv => snd kv) <$> map_to_list (tasks s).

(** The entry of a task after a restart at [t]: what is stored of it is
    restored, except the next run and the enabled flag. The next run is looked for in
    the location of the scheduler's clock, also from the stored time of the last run,
    whose location in the code is the one that the database's driver gives it. *)
Definition restart_entry (t : Z) (stored : option TaskState) (e : taskEntry) : run taskEntry :=
  let e := match stored with Some st => restore st e | None => e end in
  next ← next_of e (if match stored with Some _ => negb (IsZero (lastRun e)) | None => false end then lastRun e else t);
  mret (set_next next e).

Definition load_entry (t : Z) (stored : list TaskState) (i : nat) (s : Scheduler) : M C (run Scheduler) :=
  match entries s !! i with
  | None => mret (Done s)
  | Some e =>
      match restart_entry t (first (fun st => String.eqb (TaskID st) (e_id e)) (rev stored)) e with
      | Done e' =>
          _ ← UpsertSchedulerTask (toTaskState e');
          mret (Done (upd_entry i (fun _ => e') s))
      | Panicked => mret Panicked
      | OutOfFuel => mret OutOfFuel
      end
  end.

Definition load_fresh (t : Z) (i : nat) (s : Scheduler) : M C (run Scheduler) :=
  mret (match entries s !! i with
        | None => Done s
        | Some e => next ← next_of e t; mret (upd_entry i (set_next next) s)
        end).

Definition loadState (s : Scheduler) : M C (run Scheduler) :=
  if negb (has_db s) then t ← now; each (load_fresh t) (indices s) s
  else
    stored ← ListSchedulerTasks;
    let stored := match stored with Ok l => l | Err _ => [] end in
    t ← now;
    each (load_entry t stored) (indices s) s.

Definition missed (t window : Z) (e : taskEntry) : bool :=
  e_enabled e && negb (IsZero (nextRun e)) && (t - window <? nextRun e) && (nextRun e <? t).

Definition runMissed (s : Scheduler) : M C Scheduler :=
  t ← now; mret (launch (pick (missed t (catchUpWindow s)) s) s).

(** [Start], without interruption. *)
Definition Start (s : Scheduler) : M C (run Scheduler) :=
  if sched_running s then mret (Done s)
  else
    r ← loadState (set_active_loop true s);
    match r with
    | Done s => s ← runMissed s; mret (Done s)
    | r => mret r
    end.

Definition Stop (s : Scheduler) : Scheduler := if sched_running s then set_active_loop false s else s.

Definition mark_entry (t : Z) (i : nat) (s : Scheduler) : M C (run Scheduler) :=
  match entries s !! i with
  | None => mret (Done s)
  | Some e =>
      if running e then
        let e' := set_next t (set_status "interrupted" e) in
        _ ← persistState s e';
        mret (Done (upd_entry i (fun _ => e') s))
      else mret (Done s)
  end.

Definition markInterrupted (s : Scheduler) : M C (run Scheduler) :=
  t ← now; each (mark_entry t) (indices s) s.

(** ** Runs of the scheduler *)

Inductive event :=
  | EAdd (id name : string) (sched : Schedule) (enabled : bool)
  | ERetry (id : string) (on : bool) (base maxRetries : Z)
  | EEnable (id : string)
  | EDisable (id : string)
  | EStart
  | EStop
  | EInterrupt
  | ETick
  | ERunNow (id : string)
  | EBegin (k : nat)
  | EFinish (k : nat) (err : option string)
  | EEnd (k : nat).

Definition react (e : event) (s : Scheduler) : M C (run Scheduler) :=
  match e with
  | EAdd id name sched enabled => mret (Done (add_task id name sched enabled s))
  | ERetry id on base m => mret (Done (SetRetry id on base m s))
  | EEnable id => EnableTask id s
  | EDisable id => s ← DisableTask id s; mret (Done s)
  | EStart => Start s
  | EStop => mret (Done (Stop s))
  | EInterrupt => markInterrupted s
  | ETick => s ← tick s; mret (Done s)
  | ERunNow id => mret (Done (snd (RunNow id s)))
  | EBegin k => s ← begin_run k s; mret (Done s)
  | EFinish k err => finish_run k err s
  | EEnd k => mret (Done (end_run k s))
  end.

Fixpoint react_all (l : list event) (s : Scheduler) : M C (run Scheduler) :=
  match l with
  | [] => mret (Done s)
  | e :: l =>
      r ← react e s;
      match r with Done s => react_all l s | Panicked => mret Panicked | OutOfFuel => mret OutOfFuel end
  end.

End scheduler.
