(* ===== verification/Tasks.v ===== *)
(** * Daily tasks (src/src/task/task.go, src/src/main.go)

    Downloads of security data, the checks of certificates, updates and Tor, and the
    report of each run of a task. A certificate is what crypto/x509 makes of a file:
    the interface [Certs] gives the ends of validity. *)

From S2P Require Import Prelude RotateProofs GoStr GoTime Http FileSys Config ConfigStore Scheduler Backup Download Updater AuditLog Retention.
From Stdlib Require Import Ascii.

(** ** Security data *)

Record Source := { Name : string; URL : string }.

(** [main.go]: the sources that are configured. *)
Definition blocklistSources (enabled : bool) (sources : list (string * string)) : list Source :=
  if enabled then (fun s => {| Name := s.1; URL := s.2 |}) <$> keep (fun s => negb (String.eqb s.1 "" || String.eqb s.2 "")) sources else [].
Definition cveSources (enabled : bool) (file source : string) : list Source :=
  if negb enabled || String.eqb file "" || String.eqb source "" then [] else [{| Name := file; URL := source |}].

Section fetching.
Context `{TempNames}.

Definition downloadFile (net : Network) (url dst : string) : D (result unit) :=
  match net url with
  | Err e => mret (Err ("get " ++ url ++ ": " ++ e))
  | Ok r =>
      if (rp_status r <? 200) || (300 <=? rp_status r) then mret (Err ("get " ++ url ++ ": status " ++ Strconv.Itoa (rp_status r)))
      else
        with_temp dst
          (fun _ i =>
             _ <-? in_context "write body" (copy_body i r);
             _ <-? in_context "close temp" Close;
             check (negb (total (rp_chunks r) =? 0)) "empty response body")
          (fun tmp =>
             _ <-? in_context "chmod" Chmod;
             in_context "rename" (Rename tmp dst))
  end.

(** A base name that leads to a directory cannot be replaced by a file. *)
Definition names_directory (base : string) : bool := existsb (String.eqb base) ["."; ".."; "/"].

(** [stop k] is what the context says before source [k]; the number of updates. *)
Fixpoint fetch_all (net : Network) (dir : string) (stop : nat -> option string) (k : nat) (sources : list Source) : D (result Z) :=
  match sources with
  | [] => mret (Ok 0)
  | src :: sources =>
      match stop k with
      | Some e => mret (Err e)
      | None =>
          if String.eqb (Name src) "" || String.eqb (URL src) "" then fetch_all net dir stop (S k) sources
          else
            r ← (if names_directory (Base (Name src)) then mret (Err "is a directory") else downloadFile net (URL src) (FJoin [dir; Base (Name src)]));
            n <-? fetch_all net dir stop (S k) sources;
            mret (Ok (if is_ok r then n + 1 else n))
      end
  end.

Definition last_updated (dir : string) : string := FJoin [dir; ".last_updated"].

Definition securityFetchTask (name dir : string) (net : Network) (stop : nat -> option string) (sources : list Source) : D (result unit) :=
  _ <-? in_context (name ++ ": mkdir " ++ dir) MkdirAll;
  updated <-? fetch_all net dir stop 0 sources;
  _ <-? in_context (name ++ ": readdir") (ReadDir dir);
  if 0 <? updated then t ← now; _ ← WriteFile (last_updated dir) (RFC3339 UTC t ++ newline); mret (Ok tt) else mret (Ok tt).

Definition BlocklistUpdate (dataDir : string) := securityFetchTask "blocklist_update" (FJoin [dataDir; "security"; "blocklists"]).
Definition CVEUpdate (dataDir : string) := securityFetchTask "cve_update" (FJoin [dataDir; "security"; "cve"]).
End fetching.

(** ** Certificates *)

Class Certs := { ParseCertificate : string -> option Z; X509KeyPair : string -> list string }.

Record SSLRenewalConfig := {
  ssl_ConfigDir : string; ssl_FQDN : string; ssl_Email : string; ssl_Mailer : option bool;
  SendExpiring : bool; SendRenewed : bool; SendRenewalFailed : bool;
}.

Definition sslEmailThresholds : list Z := [7; 3; 1].

(** [filepath.Ext]. *)
Fixpoint ext_of (s : string) : string :=
  match s with
  | "" => ""
  | String c r => match ext_of r with
                  | "" => if Ascii.eqb c "." && negb (Strings.in_set r "/") then s else ""
                  | e => e
                  end
  end.

Section certificates.
Context `{Unicode} `{JsonText} `{Certs}.

Definition is_cert (path : string) : bool := let ext := StringsU.ToLower (ext_of path) in String.eqb ext ".pem" || String.eqb ext ".crt".

Definition certs_of (data : string) : list Z :=
  match ParseCertificate data with Some c => [c] | None => omap ParseCertificate (X509KeyPair data) end.

Definition state_file (path : string) : string := path ++ ".ssl_state.json".
Definition sslState (j : json) : option Z := match j with JNull => Some zero_time | JObj l => as_time (field "not_after" l) | _ => None end.

Definition sslLoadExpiry (path : string) : D Z :=
  data ← ReadFile path;
  mret (match data with Ok text => default zero_time (parse text ≫= sslState) | Err _ => zero_time end).
Definition sslSaveExpiry (path : string) (notAfter : Z) : D unit :=
  _ ← WriteFile path (render (JObj [("not_after", JStr (time_text notAfter))])); mret tt.

Definition ssl_can_mail (cfg : SSLRenewalConfig) : bool := bool_decide (ssl_Mailer cfg = Some true) && negb (String.eqb (ssl_Email cfg) "").

(** Whole days, the hours being exact up to many years. *)
Definition remaining_days (t notAfter : Z) : Z := Z.quot (notAfter - t) Day.
Definition renewed (prev notAfter : Z) : bool := negb (IsZero prev) && (Day <=? notAfter - prev).
Definition renewal_failed (t prev notAfter : Z) : bool := negb (renewed prev notAfter) && negb (IsZero prev) && (remaining_days t notAfter <=? 7).

(** The mails about a certificate, by the end of validity that was seen before. *)
Definition ssl_mails (cfg : SSLRenewalConfig) (t prev notAfter : Z) : list event :=
  let days := Strconv.Itoa (remaining_days t notAfter) in
  let date := FormatDate UTC notAfter in
  ((if renewed prev notAfter && SendRenewed cfg && ssl_can_mail cfg then
      [Mailed (ssl_Email cfg) "ssl_renewed" [("fqdn", ssl_FQDN cfg); ("valid_until", date)]] else [])
   ++ (if renewal_failed t prev notAfter && SendRenewalFailed cfg && ssl_can_mail cfg then
         [Mailed (ssl_Email cfg) "ssl_renewal_failed" [("fqdn", ssl_FQDN cfg); ("error", "certificate has not renewed automatically");
            ("expires_in", days); ("next_retry", "next daily ssl_renewal check")]] else [])
   ++ (if negb (renewal_failed t prev notAfter) && SendExpiring cfg && ssl_can_mail cfg && existsb (fun threshold => remaining_days t notAfter <=? threshold) sslEmailThresholds
       then [Mailed (ssl_Email cfg) "ssl_expiring" [("fqdn", ssl_FQDN cfg); ("expires_in", days); ("expiry_date", date)]] else []))%list.

Fixpoint check_certs (cfg : SSLRenewalConfig) (path : string) (certs : list Z) : D (list event) :=
  match certs with
  | [] => mret []
  | notAfter :: certs =>
      t ← now;
      prev ← sslLoadExpiry (state_file path);
      _ ← sslSaveExpiry (state_file path) notAfter;
      rest ← check_certs cfg path certs;
      mret (ssl_mails cfg t prev notAfter ++ rest)%list
  end.

Fixpoint check_files (cfg : SSLRenewalConfig) (paths : list string) : D (list event) :=
  match paths with
  | [] => mret []
  | path :: paths =>
      here ← (if is_cert path then
                data ← ReadFile path;
                match data with Ok text => check_certs cfg path (certs_of text) | Err _ => mret [] end
              else mret []);
      rest ← check_files cfg paths;
      mret (here ++ rest)%list
  end.

(** A directory that is not there has no files; the walk fails when it cannot be read. *)
Definition SSLRenewalWithEmail (cfg : SSLRenewalConfig) : D (result (list event)) :=
  files <-? sys (fun d => (Ok (Walk (FJoin [ssl_ConfigDir cfg; "ssl"; "letsencrypt"; ssl_FQDN cfg]) d), d));
  events ← check_files cfg files;
  mret (Ok events).
Definition SSLRenewal (configDir fqdn : string) : D (result (list event)) :=
  SSLRenewalWithEmail {| ssl_ConfigDir := configDir; ssl_FQDN := fqdn; ssl_Email := ""; ssl_Mailer := None;
                         SendExpiring := false; SendRenewed := false; SendRenewalFailed := false |}.
End certificates.

(** ** Updates, logs and Tor *)

Record UpdateConfig := {
  up_version : string; up_branch : string; up_Email : string; autoInstall : bool; deferDays : Z;
  notifyAvailable : bool; notifyInstalled : bool; up_Mailer : option bool;
}.

Definition update_mail (cfg : UpdateConfig) (notify : bool) (template newVersion branch : string) : list event :=
  if notify && bool_decide (up_Mailer cfg = Some true) && negb (String.eqb (up_Email cfg) "") then
    [Mailed (up_Email cfg) template [("current_version", up_version cfg); ("new_version", newVersion); ("branch", branch)]] else [].

(** A release that is not old enough yet. *)
Definition deferred (cfg : UpdateConfig) (t : Z) (rel : Release) : bool :=
  (0 <? deferDays cfg) && negb (IsZero (PublishedAt rel)) && (t - PublishedAt rel <? dur_mul (deferDays cfg) (24 * Hour)).

Section running.
Context `{Unicode} `{JsonStream} `{TempNames}.

(** [restart] is how the process replaces itself. *)
Definition UpdateCheck (cfg : UpdateConfig) (net : Network) (p : Platform) (exe : result string) (restart : result unit) : D (result unit * list event) :=
  let branch := if String.eqb (up_branch cfg) "" then "stable" else up_branch cfg in
  match CheckForUpdate net (up_version cfg) branch with
  | Err e => mret (Err ("update_check: " ++ e), [])
  | Ok None => mret (Ok tt, [])
  | Ok (Some rel) =>
      t ← now;
      if deferred cfg t rel then mret (Ok tt, [])
      else
        let available := update_mail cfg (notifyAvailable cfg) "update_available" (TagName rel) branch in
        if negb (autoInstall cfg) then mret (Ok tt, available)
        else
          done ← DoUpdate net p exe rel;
          mret (match done with
                | Err e => (Err ("update_check: auto-install failed: " ++ e), available)
                | Ok _ =>
                    let installed := update_mail cfg (notifyInstalled cfg) "update_installed" (TagName rel) branch in
                    (match restart with Ok _ => Ok tt | Err e => Err ("update_check: restart failed: " ++ e) end, (available ++ installed)%list)
                end)
  end.
End running.

(** [None] is no rotator. *)
Definition LogRotation (rotated : option (result unit)) : result unit :=
  match rotated with Some (Err e) => Err ("log_rotation: " ++ e) | _ => Ok tt end.

(** Whether Tor runs, if that can be asked, and how a restart went, if there is one. *)
Definition TorHealth (running : option bool) (restart : option (result unit)) : result unit :=
  match running, restart with
  | Some false, Some (Err e) => Err ("tor_health: restart failed: " ++ e)
  | _, _ => Ok tt
  end.

(** ** The report of a run (main.go) *)

Definition run_entry (o : Outcome) : Entry :=
  let ok := String.eqb (o_Status o) "success" in
  {| en_ID := ""; en_Time := ""; en_Event := if ok then "scheduler.task_completed" else "scheduler.task_failed"; en_Category := "";
     en_Severity := if ok then SeverityInfo else SeverityError; en_Actor := no_actor;
     en_Target := Some {| t_Type := "scheduler_task"; t_ID := o_TaskID o |};
     en_Details := [("task_name", JStr (o_TaskName o)); ("duration_ms", JInt (Milliseconds (o_FinishedAt o - o_StartedAt o)));
                    ("attempt", JInt (o_Attempt o)); ("will_retry", JBool (o_WillRetry o))];
     en_Result := if ok then ResultSuccess else ResultFailure; en_Reason := o_Err o |}.

(** [email] is the administrator's address; [mailer] whether mail can be sent. *)
Definition schedulerNotifier `{Unicode} (audit scheduler_error mailer : bool) (email next_run : string) (o : Outcome) : list event :=
  ((if audit then [Audited (run_entry o)] else [])
   ++ (if String.eqb (o_Status o) "success" then []
       else
         let to := StringsU.TrimSpace email in
         if scheduler_error && negb (String.eqb to "") && mailer then
           [Mailed to "scheduler_error" [("task_name", o_TaskName o); ("error", o_Err o); ("next_run", next_run)]] else []))%list.

Section urls.
Context `{Unicode}.

Definition startupScheme (tls letsencrypt : bool) (port : string) : string :=
  if tls || letsencrypt then "https"
  else if existsb (fun p => String.eqb (StringsU.TrimSpace p) "443") (Strings.Split port ",") then "https" else "http".

Definition startupBaseURL (baseURL : string) (tls letsencrypt : bool) (port fqdn : string) : string :=
  let u := Strings.TrimRight baseURL "/" in
  if negb (String.eqb u "") then u
  else
    let proto := startupScheme tls letsencrypt port in
    let fqdn := if String.eqb fqdn "" || EqualFold fqdn "localhost" then "localhost" else fqdn in
    let port := if Strings.Contains port "," then "" else port in
    let port := if (String.eqb proto "http" && String.eqb port "80") || (String.eqb proto "https" && String.eqb port "443") then "" else port in
    if negb (String.eqb port "") then proto ++ "://" ++ fqdn ++ ":" ++ port else proto ++ "://" ++ fqdn.
End urls.
