(* ===== verification/TasksProofs.v ===== *)
(** * Daily tasks: downloads, updates and the mails about certificates *)

From S2P Require Import Prelude RotateProofs AccessProofs GoStr GoStrProofs GoTime GoCrypto Http Instances ConfigInstances FileSys Config ConfigStore ConfigStoreProofs Scheduler Backup BackupProofs Download Updater UpdaterProofs AuditLog Retention RetentionProofs Tasks.
From Stdlib Require Import Ascii.

(** ** Security data *)

Section fetching.
Context `{TempNames}.

(** A body that may take the place of a file: complete, not empty, and of a reply that
    reports success. *)
Definition good_body (net : Network) (url text : string) : Prop :=
  exists r, net url = Ok r /\ 200 <= rp_status r < 300 /\ rp_complete r = true /\ total (rp_chunks r) <> 0 /\ text = body_text r.

Lemma downloadFile_settled net url dst d r d' : sound d -> apart d -> downloadFile net url dst d = (r, d') ->
  sound d' /\ apart d' /\ (forall q, q <> dst -> q <> temp_name dst d -> file_at d' q = file_at d q)
  /\ (if is_ok r then exists text, text_at d' dst = Some text /\ good_body net url text else file_at d' dst = file_at d dst).
Proof.
  intros Hs Ha. unfold downloadFile. destruct (net url) as [reply|e] eqn:En; [|intros [= <- <-]; by split_and!].
  destruct ((rp_status reply <? 200) || (300 <=? rp_status reply)) eqn:Est; [intros [= <- <-]; by split_and!|]. bsplit. intros E.
  eapply (with_temp_settled _ _ _ (fun l => l = rp_chunks reply /\ rp_complete reply = true /\ total (rp_chunks reply) <> 0) true) in E; [|done| |].
  - destruct E as (_ & K2 & K3 & K4 & K5 & K6). split; [done|]. split; [by apply K6|]. split; [done|]. destruct r as [u|e]; cbn [is_ok] in *; [|by apply K3].
    destruct (K2 eq_refl) as (l & (-> & Hc & Ht) & Hx). exists (body_text reply). split; [done|]. exists reply. split_and!; try done; lia.
  - eapply (stages_then _ _ _ _ _ (fun _ l' => l' = rp_chunks reply /\ rp_complete reply = true)).
    { apply stages_context. unfold copy_body. eapply stages_then; [apply stages_write_chunks|]. intros _ l ->. eapply stages_weaken; [|apply stages_check].
      by intros a l [Hb ->]. }
    intros _ l [-> Hc]. eapply (stages_then _ _ _ _ _ (fun _ l' => l' = rp_chunks reply)).
    { eapply stages_weaken; [|apply stages_context, stages_idle]; [by intros a l'|done]. }
    intros _ l ->. eapply stages_weaken; [|apply stages_check]. intros a l [Hb%negb_true_iff%Z.eqb_neq ->]. done.
  - intros l _. assert (Hp : dst <> temp_name dst d) by (apply not_eq_sym, temp_other). apply commits_after; [done..| |].
    + eapply stages_weaken; [|apply stages_context, stages_idle]; [by intros a l'|done].
    + intros _ d1 r1 d2 Hw E1. unfold in_context, mbind, D_bind, mret, D_ret in E1. destruct (Rename (temp_name dst d) dst d1) as [r3 d3] eqn:E3.
      destruct (commits_Rename d dst (temp_name dst d) l Hs Hp d1 r3 d3 Hw E3) as (K1 & K0 & K2 & K3 & K4 & K5). destruct r3; injection E1 as <- <-; by split_and!.
Qed.

(** What a run may have made of a file: nothing, or a body that some source gave. *)
Definition kept_or_fetched (net : Network) (dir : string) (sources : list Source) (d d' : Disk) (q : string) : Prop :=
  file_at d' q = file_at d q
  \/ exists src text, In src sources /\ q = FJoin [dir; Base (Name src)] /\ text_at d' q = Some text /\ good_body net (URL src) text.

Lemma fetch_all_kept net dir stop sources : forall k d, sound d -> apart d ->
  let d' := (fetch_all net dir stop k sources d).2 in
  sound d' /\ apart d' /\ forall q f, file_at d q = Some f -> kept_or_fetched net dir sources d d' q.
Proof.
  induction sources as [|src sources IH]; intros k d Hs Ha; cbn zeta; cbn [fetch_all].
  { split; [done|]. split; [done|]. intros q f Hq. by left. }
  destruct (stop k) as [e|]; [split; [done|]; split; [done|]; intros q f Hq; by left|].
  assert (Hmore : forall d1 d2 q, kept_or_fetched net dir sources d1 d2 q -> kept_or_fetched net dir (src :: sources) d1 d2 q).
  { intros d1 d2 q [K|(s & t & K1 & K2)]; [by left|]. right. exists s, t. split; [by right|done]. }
  destruct (String.eqb (Name src) "" || String.eqb (URL src) "").
  { destruct (IH (S k) d Hs Ha) as (K1 & K2 & K3). split; [done|]. split; [done|]. intros q f Hq. by eapply Hmore, K3. }
  set (dst := FJoin [dir; Base (Name src)]). unfold mbind, D_bind.
  set (m := if names_directory (Base (Name src)) then mret (Err "is a directory") else downloadFile net (URL src) dst).
  assert (Hone : forall r d1, m d = (r, d1) -> sound d1 /\ apart d1 /\ forall q f, file_at d q = Some f ->
    file_at d1 q = file_at d q \/ (q = dst /\ exists text, text_at d1 q = Some text /\ good_body net (URL src) text)).
  { intros r d1. unfold m. destruct (names_directory _); [intros [= <- <-]; split_and!; try done; by left|]. intros E.
    destruct (downloadFile_settled _ _ _ _ _ _ Hs Ha E) as (K1 & K2 & K3 & K4). split; [done|]. split; [done|]. intros q f Hq.
    destruct (decide (q = dst)) as [->|Hne].
    - destruct r; cbn [is_ok] in K4; [right|left; done]. by split.
    - left. apply K3; [done|]. intros ->. unfold file_at in Hq. by rewrite temp_fresh in Hq. }
  destruct (m d) as [r d1]. destruct (Hone r d1 eq_refl) as (Hs1 & Ha1 & K). destruct (IH (S k) d1 Hs1 Ha1) as (Hs2 & Ha2 & K').
  assert (Hq2 : forall d2, (forall q f, file_at d1 q = Some f -> kept_or_fetched net dir sources d1 d2 q) ->
    forall q f, file_at d q = Some f -> kept_or_fetched net dir (src :: sources) d d2 q).
  { clear K'. intros d2 K' q f Hq. destruct (K q f Hq) as [E|(-> & t & Ht & Hg)].
    - rewrite <- E in Hq. destruct (K' q f Hq) as [E'|(s & t & K1 & K2)]; [left; congruence | right; exists s, t; split; [by right|done]].
    - assert (Hf1 : exists f1, file_at d1 dst = Some f1) by (unfold text_at in Ht; destruct (file_at d1 dst) as [f1|]; [by exists f1|done]). destruct Hf1 as [f1 Hf1].
      destruct (K' dst f1 Hf1) as [E'|(s & t' & K1 & K2)]; right; [exists src, t; unfold text_at in *; rewrite E'; split; [by left|done] | exists s, t'; split; [by right|done]]. }
  unfold then_, mbind, D_bind, mret, D_ret. destruct (fetch_all net dir stop (S k) sources d1) as [[n|e] d2]; cbn [snd] in *; (split; [done|]; split; [done|]; by apply Hq2).
Qed.

Lemma keeps_now ok : keeps ok now.
Proof. by intros d Hs Ha. Qed.

(** The note of the time is the only file that the end of a run changes. *)
Lemma note_kept name dir n d : sound d -> apart d -> forall q, q <> last_updated dir ->
  file_at ((_ <-? in_context (name ++ ": readdir") (ReadDir dir);
    if 0 <? n then t ← now; _ ← WriteFile (last_updated dir) (RFC3339 UTC t ++ newline); mret (Ok tt) else mret (Ok tt)) d).2 q = file_at d q.
Proof.
  intros Hs Ha q Hq. assert (K : keeps (eq (last_updated dir)) (_ <-? in_context (name ++ ": readdir") (ReadDir dir);
    if 0 <? n then t ← now; _ ← WriteFile (last_updated dir) (RFC3339 UTC t ++ newline); mret (Ok tt) else mret (Ok tt))).
  { apply keeps_then; [apply keeps_context, keeps_idle; intros d1; by repeat case_match|]. intros _. destruct (0 <? n); [|apply keeps_ret].
    apply keeps_bind; [apply keeps_now|]. intros t. apply keeps_bind; [apply keeps_WriteFile|]. intros _. apply keeps_ret. }
  destruct (K d Hs Ha) as (_ & _ & E). apply E. by intros <-.
Qed.

(** Whatever the network answers and whatever fails, each file that was there
    before an update of the blocklists or the vulnerability data is as it was, or has
    the whole body, which is not empty, of a successful answer for a source of that
    name; but for the note of the time. *)
Theorem security_data_kept (name dir : string) (net : Network) (stop : nat -> option string) (sources : list Source) (d : Disk) (q : string) (f : inode) :
  sound d -> apart d -> file_at d q = Some f -> q <> last_updated dir ->
  let d' := (securityFetchTask name dir net stop sources d).2 in
  file_at d' q = Some f
  \/ exists src text, In src sources /\ q = FJoin [dir; Base (Name src)] /\ text_at d' q = Some text /\ good_body net (URL src) text.
Proof.
  intros Hs Ha Hq Hne. cbv zeta. unfold securityFetchTask. set (mkdir := in_context _ MkdirAll). set (finish := fun updated => then_ (in_context (name ++ ": readdir") _) _).
  assert (Hm : forall r d1, mkdir d = (r, d1) -> sound d1 /\ apart d1 /\ file_at d1 q = Some f).
  { intros r d1 E. destruct (keeps_context (fun _ => False) (name ++ ": mkdir " ++ dir) MkdirAll (keeps_MkdirAll _) d Hs Ha) as (K1 & K2 & K3).
    fold mkdir in K1, K2, K3. rewrite E in K1, K2, K3. split_and!; [done..|]. rewrite <- Hq. apply K3. intros []. }
  unfold then_, mbind, D_bind, mret, D_ret. destruct (mkdir d) as [[u|e] d1]; destruct (Hm _ _ eq_refl) as (Hs1 & Ha1 & Hq1); [|by left].
  destruct (fetch_all_kept net dir stop sources 0 d1 Hs1 Ha1) as (Hs2 & Ha2 & K). specialize (K q f Hq1). unfold kept_or_fetched in K. rewrite Hq1 in K.
  destruct (fetch_all net dir stop 0 sources d1) as [[n|e] d2]; cbn [snd] in *; [|done].
  assert (Hn : file_at (finish n d2).2 q = file_at d2 q) by by apply note_kept. unfold text_at in *. by rewrite Hn.
Qed.
End fetching.

(** Two sources: one is down, the other gives the page of an error that is cut short. *)
Definition listing_site : Disk :=
  {| names := {["/data/security/blocklists/drop.txt" := 0%nat]}; inodes := [{| i_data := Plain ["1.2.3.0/24"]; i_mtime := 0 |}];
     d_clock := 0; d_ticks := []; d_faults := [] |}.
Definition drop_source : Source := {| Name := "lists/drop.txt"; URL := "https://l/drop" |}.
Definition cut_net : Network := fun _ => Ok {| rp_status := 200; rp_complete := false; rp_chunks := ["<html>"] |}.
Definition good_net : Network := fun _ => Ok {| rp_status := 200; rp_complete := true; rp_chunks := ["5.6."; "7.0/24"] |}.
Theorem security_data_kept_witness :
  let d' := (BlocklistUpdate "/data" cut_net (fun _ => None) [drop_source] listing_site).2 in
  let d'' := (BlocklistUpdate "/data" good_net (fun _ => None) [drop_source] listing_site).2 in
  text_at d' "/data/security/blocklists/drop.txt" = Some "1.2.3.0/24" /\ text_at d'' "/data/security/blocklists/drop.txt" = Some "5.6.7.0/24"
  /\ (file_at d'' "/data/security/blocklists/drop.txt" = Some {| i_data := Plain ["1.2.3.0/24"]; i_mtime := 0 |}
      \/ exists src text, In src [drop_source] /\ "/data/security/blocklists/drop.txt" = FJoin ["/data/security/blocklists"; Base (Name src)]
           /\ text_at d'' "/data/security/blocklists/drop.txt" = Some text /\ good_body good_net (URL src) text).
Proof.
  split; [vm_compute; reflexivity|]. split; [vm_compute; reflexivity|].
  apply (security_data_kept "blocklist_update" (FJoin ["/data"; "security"; "blocklists"]) good_net (fun _ => None) [drop_source] listing_site
    "/data/security/blocklists/drop.txt" {| i_data := Plain ["1.2.3.0/24"]; i_mtime := 0 |}).
  - apply sound_bool_sound. vm_compute. reflexivity.
  - intros p q i. cbn [names listing_site]. rewrite !lookup_singleton_Some. by intros [<- _] [<- _].
  - reflexivity.
  - vm_compute. discriminate.
Defined.

(** ** Mails about certificates *)

(** Once the end of a certificate was noted, [ssl_expiring] is only sent for one that
    was just renewed: the report of a failed renewal takes its place, whether or not
    that mail is on. *)
Lemma no_expiring_after_first cfg t prev notAfter : prev <> zero_time -> renewed prev notAfter = false ->
  Forall (fun ev => match ev with Mailed _ template _ => template <> "ssl_expiring" | _ => True end) (ssl_mails cfg t prev notAfter).
Proof.
  intros Hp Hr. assert (Hz : IsZero prev = false) by by apply Z.eqb_neq. unfold ssl_mails, renewal_failed. rewrite Hr, Hz. cbn [negb andb app].
  apply Forall_app. destruct (remaining_days t notAfter <=? 7) eqn:E; cbn [andb negb].
  - split; [|done]. destruct (SendRenewalFailed cfg && ssl_can_mail cfg); by repeat constructor.
  - split; [done|]. destruct (SendExpiring cfg && ssl_can_mail cfg); [|done]. cbn [andb existsb sslEmailThresholds]. bsplit.
    replace (remaining_days t notAfter <=? 7) with false by lia. replace (remaining_days t notAfter <=? 3) with false by lia.
    replace (remaining_days t notAfter <=? 1) with false by lia. done.
Qed.
