(* ===== verification/Pages.v ===== *)
(** * Web pages (src/src/server/server.go)

    The handlers behind the pages: a page is its template with the data the handler
    gives it; what [renderTemplate] adds to every page and what html/template makes of
    it are not modelled, nor is the conversion of a page to text. A request is seen
    twice, as the middleware and as the paste handlers see it. *)

From S2P Require Import Prelude GoStr GoTime GoCrypto GoNet GoUrl Model Cache World Database Http Proxy Csrf Guards Paste.
From Stdlib Require Import Ascii.

(** ** Answers *)

(** One row of the acknowledgments page. *)
Record ackEntry := { Year : Z; Display : string; ack_Severity : string; Component : string }.

Inductive Value :=
  | VStr (s : string) | VInt (n : Z) | VBool (b : bool) | VPaste (p : Paste) | VItems (l : list PasteListItem) | VCreated (c : CreateResponse)
  | VStrs (l : list string) | VAcks (l : list ackEntry).
Definition Data : Type := gmap string Value.

(** [Page]: a template as HTML; [AsText]: a template converted to text. *)
Inductive Answer := Plain (r : Response) | Page (status : Z) (template : string) (data : Data) | AsText (template : string) (data : Data).

Record Reply := { rp_cookies : list SetCookie; rp_answer : Answer }.
Definition just (a : Answer) : Reply := {| rp_cookies := []; rp_answer := a |}.

Record Site := {
  SiteTitle : string; Theme : string; apiVersion : string;
  st_proxy : ProxyConfig;
  st_operatorTokenHash : list Z;
  loaded : string -> bool;
}.

Definition ownerTokenCookieName : string := "pastebin_owner_token_rU3uW5Ze".

(** [http.StatusText] of the codes that pages use. *)
Definition StatusText (status : Z) : string :=
  match status with
  | 400 => "Bad Request" | 403 => "Forbidden" | 404 => "Not Found" | 410 => "Gone" | 429 => "Too Many Requests"
  | 500 => "Internal Server Error" | 502 => "Bad Gateway" | 503 => "Service Unavailable" | _ => ""
  end.

Definition reservedSlugs : list string :=
  ["api"; "server"; "static"; "assets"; "healthz"; "metrics"; "webhook"; "webhooks"; "search"; "explore"; "discover"; "trending";
   "help"; "support"; "docs"; "documentation"; "about"; "contact"; "terms"; "privacy"; "legal"; "security"; "graphql"; "swagger";
   "rest"; "rpc"; "ws"; "websocket"; "cdn"; "media"; "uploads"; "files"; "images"; "robots.txt"; "sitemap.xml"; "llms.txt";
   "favicon.ico"; ".well-known"; "raw"; "dl"; "download"; "file"; "r"; "emb"; "qr"; "remove"; "upload"; "p"; "u"; "url"; "auth"; "recent"].

(** ** Embedding *)

(** [template.HTMLEscapeString]. *)
Definition HTMLEscapeString (s : string) : string :=
  Strings.Replace [(String "000" "", of_bytes [239; 191; 189]); (String "034" "", "&#34;"); ("'", "&#39;"); ("&", "&amp;"); ("<", "&lt;"); (">", "&gt;")] s.

Definition backslash : string := String "092" "".
Definition quote : string := String "034" "".
Definition markdownTitleEscaper : list (string * string) :=
  (fun c => (c, backslash ++ c)) <$> [backslash; "["; "]"; "("; ")"].

Definition buildEmbedSnippets (base id title : string) (isImage : bool) : string * string :=
  let embedHTML := "<iframe src=" ++ quote ++ base ++ "/emb/" ++ id ++ quote ++ " width=" ++ quote ++ "100%" ++ quote ++ " height=" ++ quote ++ "400" ++ quote
                   ++ " loading=" ++ quote ++ "lazy" ++ quote ++ " title=" ++ quote ++ HTMLEscapeString title ++ quote ++ "></iframe>" in
  let mdTitle := Strings.Replace markdownTitleEscaper title in
  (embedHTML, if isImage then "![" ++ mdTitle ++ "](" ++ base ++ "/raw/" ++ id ++ ")" else "[" ++ mdTitle ++ "](" ++ base ++ "/" ++ id ++ ")").

(** ** Kinds of content *)

Record pasteContentClass := {
  IsImage : bool; IsAudio : bool; IsVideo : bool; IsActiveContent : bool; IsBinary : bool;
  FileContentType : string; ImageDataURI : string; MediaDataURI : string;
}.

Definition binaryB64 (content : string) : string :=
  match Base64.DecodeString content with None => Base64.EncodeToString (bytes content) | Some _ => content end.

Definition classifyPasteContent `{Net} (p : Paste) : pasteContentClass :=
  let '(fileCT, bad) :=
    if String.eqb (p_content_type p) "" then ("", false)
    else match ParseMediaType (p_content_type p) with Some (mt, _) => (mt, false) | None => (p_content_type p, true) end in
  let active := bad || existsb (String.eqb fileCT) ["text/html"; "application/xhtml+xml"; "image/svg+xml"; "text/xml"; "application/xml"; "application/javascript"; "text/javascript"] in
  let image := Strings.HasPrefix fileCT "image/" && negb active in
  let audio := Strings.HasPrefix fileCT "audio/" in
  let video := Strings.HasPrefix fileCT "video/" in
  let uri := "data:" ++ fileCT ++ ";base64," ++ binaryB64 (p_content p) in
  {| IsImage := image; IsAudio := audio; IsVideo := video; IsActiveContent := active;
     IsBinary := negb (String.eqb fileCT "") && negb image && negb audio && negb video && negb active && negb (Strings.HasPrefix fileCT "text/");
     FileContentType := fileCT;
     ImageDataURI := if image then uri else ""; MediaDataURI := if audio || video then uri else "" |}.

(** What the view of a paste shows of it (template/page/paste.tmpl). *)
Inductive Shown := ShownImage | ShownPlayer | ShownDownload | ShownText.
Definition shown (c : pasteContentClass) : Shown :=
  if IsImage c then ShownImage else if IsAudio c || IsVideo c then ShownPlayer
  else if IsActiveContent c || IsBinary c then ShownDownload else ShownText.

(** ** Attachments *)

Definition bad_name_rune (r : Z) : bool := (r <? 32) || (r =? 127) || (r =? 34) || (r =? 92) || (r =? 47).

Definition sanitizeAttachmentFilename (name id : string) : string :=
  let cleaned := StringsU.TrimSpace (StringsU.Map (fun r => Some (if bad_name_rune r then 95 else r)) name) in
  let cleaned := if 200 <? strlen cleaned then Strings.take 200 cleaned else cleaned in
  if String.eqb cleaned "" then id else cleaned.

(** [url.PathEscape]. *)
Definition segment_safe (c : ascii) : bool := is_alnum (byte c) || Strings.in_set "-_.~$&+:=@" c.
Fixpoint PathEscape (s : string) : string :=
  match s with
  | "" => ""
  | String c r => if segment_safe c then String c (PathEscape r)
                  else String "%" (String (hex_upper (byte c / 16)) (String (hex_upper (byte c mod 16)) (PathEscape r)))
  end.

Section pages.
Context {C : Type} `{CacheDriver C} `{Unicode} `{JsonText} `{Net} `{UrlParser} `{PublicSuffix}.
Context (h : PasteHandler) (site : Site).
(** chroma, by language and text. *)
Context (highlight : string -> string -> string).

(** ** Rendering *)

Definition isReservedSlug (id : string) : bool := existsb (String.eqb (StringsU.ToLower id)) reservedSlugs.

(** [written]: the status that has been sent before. *)
Definition renderTemplate (written : option Z) (name : string) (data : Data) : Answer :=
  if loaded site name then Page (default 200 written) name data
  else Plain {| status := default 500 written; headers := match written with None => [("Content-Type", "application/json")] | Some _ => [] end;
                body := BJson (JObj [("ok", JBool false); ("error", JStr "SERVER_ERROR"); ("message", JStr "templates not loaded")]) |}.

Definition pageData : Data := {["SiteTitle" := VStr (SiteTitle site); "Theme" := VStr (Theme site)]}.

Definition renderErrorPage (q : HttpReq) (status : Z) (message : string) : Answer :=
  let message := if String.eqb message "" then StatusText status else message in
  if negb (String.eqb (detectClientType q) "html") then
    Plain (writeJSON status (JObj [("ok", JBool false); ("error", JStr (errorCodeForStatus status)); ("message", JStr message)]))
  else if loaded site "error.html" then
    Page status "error.html" (<["StatusCode" := VInt status]> (<["StatusText" := VStr (StatusText status)]> (<["Message" := VStr message]> pageData)))
  else Plain (http_Error message status).

Definition not_found_page (q : HttpReq) : Answer := renderErrorPage q 404 "The requested paste was not found.".

Definition HighlightedContent (p : Paste) : string :=
  if is_binary (p_content_type p) then "" else highlight (p_language p) (p_content p).

Definition site_url (q : HttpReq) : string := Proxy.baseURL (st_proxy site) q.

(** ** Lists *)

(** The home page and the list of recent pastes disregard errors. *)
Definition public_pastes (n : Z) : M C (list PasteListItem * Z) :=
  res ← GetPublicPastes 1 n; mret (match res with Ok x => x | Err _ => ([], 0) end).

Definition listing_answer (q : HttpReq) (template fallback : string) (data : Data) : Answer :=
  if String.eqb (detectClientType q) "text" then
    if loaded site template then AsText template data else Plain (text_ok fallback)
  else renderTemplate None template data.

Definition handleHome (q : HttpReq) : M C Reply :=
  res ← public_pastes 5;
  let base := site_url q in
  let fallback := SiteTitle site ++ newline ++ "POST " ++ base ++ "/api/" ++ apiVersion site ++ "/pastes to create a paste." ++ newline
                  ++ Strings.Join ((fun i => base ++ "/" ++ li_id i ++ tab ++ li_title i ++ newline) <$> res.1) "" in
  mret (just (listing_answer q "home.html" fallback (<["BaseURL" := VStr base]> (<["Recent" := VItems res.1]> pageData)))).

Definition handleRecent (q : HttpReq) : M C Reply :=
  res ← public_pastes 20;
  let base := site_url q in
  let fallback := "# Recent pastes (" ++ Strconv.Itoa res.2 ++ " total)" ++ newline
                  ++ Strings.Join ((fun i => base ++ "/" ++ li_id i ++ tab ++ li_language i ++ tab ++ li_title i ++ newline) <$> res.1) "" in
  mret (just (listing_answer q "recent.html" fallback
    (<["BaseURL" := VStr base]> (<["Pastes" := VItems res.1]> (<["Total" := VInt res.2]> pageData))))).

(** ** Creation *)

Definition handleCreatePage : Reply := just (renderTemplate None "create.html" pageData).

Definition owner_cookie (q : HttpReq) (value : string) (maxAge : Z) : SetCookie :=
  {| sc_name := ownerTokenCookieName; sc_value := value; sc_path := "/"; sc_max_age := maxAge; sc_secure := q_tls q;
     sc_http_only := true; sc_same_site := "Strict" |}.

Definition isFormPost (r : Request) : bool :=
  let ct := r_header r "Content-Type" in
  Strings.HasPrefix ct "application/x-www-form-urlencoded" || Strings.HasPrefix ct "multipart/form-data".

(** The seconds until then, cut off. *)
Definition cookie_age (t : Z) (expires : option Z) : Z :=
  match expires with
  | Some e => let secs := (e - t) ÷ Second in if 0 <? secs then secs else 730 * 24 * 60 * 60
  | None => 730 * 24 * 60 * 60
  end.

Definition handleWebCreate (q : HttpReq) (r : Request) : M C Reply :=
  if negb (isFormPost r) || negb (String.eqb (detectClientType q) "html") then
    resp ← CreatePaste_handler h r; mret (just (Plain resp))
  else
    res ← CreateFromForm h r;
    match res with
    | inr (status, msg) => mret (just (renderTemplate (Some (if status =? 0 then 400 else status)) "create.html" (<["Error" := VStr msg]> pageData)))
    | inl resp =>
        let base := Strings.TrimSuffix (cr_link resp) ("/" ++ cr_id resp) in
        t ← (match cr_expires resp with Some _ => now | None => mret 0 end);
        mret {| rp_cookies := [owner_cookie q (cr_owner_token resp) (cookie_age t (cr_expires resp))];
                rp_answer := renderTemplate None "create.html"
                  (<["Created" := VCreated resp]> (<["RawLink" := VStr (base ++ "/raw/" ++ cr_id resp)]>
                     (<["DownloadLink" := VStr (base ++ "/dl/" ++ cr_id resp)]> pageData))) |}
    end.

(** ** Views *)

Definition class_data (c : pasteContentClass) : Data :=
  {["IsImage" := VBool (IsImage c); "ImageDataURI" := VStr (ImageDataURI c); "IsAudio" := VBool (IsAudio c); "IsVideo" := VBool (IsVideo c);
    "MediaDataURI" := VStr (MediaDataURI c); "IsActiveContent" := VBool (IsActiveContent c); "IsBinary" := VBool (IsBinary c);
    "FileContentType" := VStr (FileContentType c)]}.

Definition paste_data (id : string) (p : Paste) : Data :=
  {["Paste" := VPaste p; "ID" := VStr id; "Content" := VStr (HighlightedContent p)]}.

Definition view_answer (q : HttpReq) (id : string) (p : Paste) : Answer :=
  if String.eqb (detectClientType q) "text" then
    if is_binary (p_content_type p) then Plain (http_Redirect ("/raw/" ++ id) 302) else Plain (text_ok (p_content p))
  else if String.eqb (detectClientType q) "json" then Plain (writeJSON 200 (ok_data (paste_json p)))
  else
    let cc := classifyPasteContent p in
    let '(embedHTML, embedMarkdown) := buildEmbedSnippets (site_url q) id (p_title p) (IsImage cc) in
    renderTemplate None "paste.html"
      (<["EmbedHTML" := VStr embedHTML]> (<["EmbedMarkdown" := VStr embedMarkdown]> (pageData ∪ paste_data id p ∪ class_data cc))).

Definition renderPasteView (q : HttpReq) (id : string) (forceView : bool) : M C Reply :=
  if isReservedSlug id then mret (just (not_found_page q))
  else
    found ← GetPasteForWeb id;
    mret (just
      (match found with
       | Err _ =>
           if String.eqb (detectClientType q) "json" then
             Plain (writeJSON 500 (JObj [("ok", JBool false); ("error", JStr "SERVER_ERROR"); ("message", JStr "internal server error")]))
           else renderErrorPage q 500 "An internal error occurred. Please try again."
       | Ok None => not_found_page q
       | Ok (Some p) => if p_is_link p && negb forceView then Plain (http_Redirect (p_content p) 302) else view_answer q id p
       end)).

Definition handleViewPaste (q : HttpReq) (id : string) : M C Reply := renderPasteView q id false.

Definition with_paste (q : HttpReq) (id : string) (f : Paste -> Answer) : M C Reply :=
  found ← GetPasteForWeb id; mret (just (match found with Ok (Some p) => f p | _ => not_found_page q end)).

Definition handleEmbed (q : HttpReq) (id : string) : M C Reply :=
  with_paste q id (fun p => renderTemplate None "emb.html" (paste_data id p ∪ class_data (classifyPasteContent p))).

Definition handleURLRedirect (q : HttpReq) (id : string) : M C Reply :=
  with_paste q id (fun p =>
    let content := StringsU.TrimSpace (p_content p) in
    if Strings.HasPrefix content "http://" || Strings.HasPrefix content "https://" then Plain (http_Redirect content 302)
    else renderTemplate None "paste.html" (pageData ∪ paste_data id p)).

Definition download (id : string) (p : Paste) : Response :=
  let title := if String.eqb (p_title p) "" || String.eqb (p_title p) "Untitled" then id else p_title p in
  let filename := sanitizeAttachmentFilename title id in
  {| status := 200;
     headers := [("Content-Type", if String.eqb (p_content_type p) "" then "application/octet-stream" else p_content_type p);
                 ("Content-Disposition", "attachment; filename=" ++ quote ++ filename ++ quote ++ "; filename*=UTF-8''" ++ PathEscape filename);
                 ("X-Content-Type-Options", "nosniff")];
     body := BText (raw_body p) |}.

Definition handleDownload (q : HttpReq) (id : string) : M C Reply := with_paste q id (fun p => Plain (download id p)).

Definition handleQR (q : HttpReq) (id : string) : Reply :=
  just (renderTemplate None "qr.html" (<["ID" := VStr id]> (<["Link" := VStr (site_url q ++ "/" ++ id)]> pageData))).

(** [encode] is the third-party encoder: the bytes of an image. *)
Definition handleQRImage (encode : string -> result string) (q : HttpReq) (id : string) : Reply :=
  just (Plain (match encode (site_url q ++ "/" ++ id) with
               | Err _ => http_Error "qr generation failed" 500
               | Ok png => {| status := 200; headers := [("Content-Type", "image/png"); ("Cache-Control", "public, max-age=3600")]; body := BText png |}
               end)).

(** ** Removal *)

Definition removal_page (id error : string) (success : bool) : Answer :=
  renderTemplate None "remove.html" (<["ID" := VStr id]> (<["Error" := VStr error]> (<["Success" := VBool success]> pageData))).

Definition handleRemovePage (id : string) : Reply := just (removal_page id "" false).

(** [None]: the form is malformed. *)
Definition removal_token (q : HttpReq) (r : Request) : option string :=
  if match r_urlform r with Some f => uf_malformed f && negb (r_parsed r) | None => false end then None
  else
    let token := (if r_parsed r then FormValue r else plain_FormValue r) "token" in
    Some (if String.eqb token "" then default "" (q_cookie q ownerTokenCookieName) else token).

Definition removed (id : string) : M C Answer :=
  del ← DeletePaste id; mret (match del with Ok _ => removal_page id "" true | Err _ => removal_page id "paste not found" false end).

(** The last component is what the authentication log says. *)
Definition handleRemoveSubmit (q : HttpReq) (r : Request) : M C (Reply * option (string * string * string)) :=
  let id := r_id r in
  match removal_token q r with
  | None => mret (just (Plain (writeJSON 400 (JObj [("ok", JBool false); ("error", JStr "BAD_REQUEST"); ("message", JStr "bad request")]))), None)
  | Some "" => mret (just (removal_page id "owner token is required" false), None)
  | Some token =>
      let incomingHash := Sha256.Sum256 (bytes token) in
      if negb (bool_decide (st_operatorTokenHash site = zero_hash)) && bool_decide (incomingHash = st_operatorTokenHash site) then
        a ← removed id; mret (just a, None)
      else
        ok ← VerifyAPIToken incomingHash "paste" id;
        match ok with
        | Err _ => mret ({| rp_cookies := [owner_cookie q "" (-1)]; rp_answer := removal_page id "paste not found or invalid token" false |},
                         Some ("owner", "fail", "invalid_owner_token"))
        | Ok _ => a ← removed id; mret (just a, None)
        end
  end.
End pages.
