(* ===== verification/PagesProofs.v ===== *)
(** * The pages: removal, what is shown inline, names of attachments *)

From S2P Require Import Prelude GoStr GoStrProofs Utf8Proofs GoTime GoCrypto GoUrl Model Cache World Database DatabaseProofs Http JsonProofs Proxy ProxyProofs Csrf Guards Paste PasteProofs PasteSpec Instances Pages.
From Stdlib Require Import Ascii.

(** ** Removal *)

Section removal.
Context {C : Type} `{CacheDriver C} `{Unicode} `{JsonText} `{Net} `{UrlParser} `{PublicSuffix}.
Context (site : Site).
Implicit Types (w : World C) (r : Request).

Definition site_operator (hash : list Z) : bool :=
  negb (bool_decide (st_operatorTokenHash site = zero_hash)) && bool_decide (hash = st_operatorTokenHash site).

(** Whether the page says that the paste is gone. *)
Definition says_removed (a : Answer) : bool :=
  match a with Page _ _ data => match data !! "Success" with Some (VBool b) => b | _ => false end | _ => false end.

Lemma removal_page_says id e b : loaded site "remove.html" = true -> says_removed (removal_page site id e b) = b.
Proof.
  intros Hl. unfold removal_page, renderTemplate. rewrite Hl. reflexivity.
Qed.

Lemma removed_spec id w : loaded site "remove.html" = true ->
  let '(a, w') := removed site id w in
  if says_removed a then paste_of id (w_db w) <> None /\ t_pastes (w_db w') = keep (fun q => negb (has_id id q)) (t_pastes (w_db w))
  else t_pastes (w_db w') = t_pastes (w_db w) /\ (calm w -> paste_of id (w_db w) = None).
Proof.
  intros Hl. unfold removed. rewrite bind_run. pose proof (DeletePaste_cases id w) as Hd. destruct (DeletePaste id w) as [[u|e] w'];
    cbn [mret M_ret]; rewrite removal_page_says by done; destruct Hd as [_ Hd].
  - destruct Hd as [Hp ->]. by split.
  - by destruct Hd as [-> Hd].
Qed.

(** A live token is accepted when no statement fails. *)
Lemma verify_live hash id w : calm w -> well_formed (w_db w) -> token_row w hash id ->
  (VerifyAPIToken (C := C) hash "paste" id w).1 = Ok tt.
Proof.
  intros Hc Hw (row & Hin & Hh & Hty & Hid & Hrev & Hexp). unfold VerifyAPIToken. rewrite bind_now, bind_run, query_calm by done. cbn [w_db advance].
  assert (Hf : first (for_resource (Hex.EncodeToString hash) "paste" id) (t_tokens (w_db w)) = Some row).
  { apply (first_unique tk_hash); [apply Hw|done| |].
    - unfold for_resource, has_hash. by rewrite Hh, Hty, Hid, !String.eqb_refl.
    - intros y Hy. unfold for_resource, has_hash in Hy. b2p. congruence. }
  rewrite Hf, Hh, String.eqb_refl. cbn [negb]. unfold token_active. rewrite Hrev. cbn [andb].
  destruct (tk_expires row) as [e|]; [rewrite (proj2 (Z.ltb_lt _ _) (Hexp e eq_refl))|]; cbn [negb]; rewrite bind_run; by destruct (exec _ _).
Qed.

Lemma verify_refused hash ty rid w e : (VerifyAPIToken (C := C) hash ty rid w).1 = Err e -> w_db (VerifyAPIToken (C := C) hash ty rid w).2 = w_db w.
Proof.
  unfold VerifyAPIToken. rewrite bind_now.
  destruct (query_cases (fun d => first (for_resource (Hex.EncodeToString hash) ty rid) (t_tokens d)) (advance w)) as (w1 & Hw1 & [E|E]);
    rewrite (bind_eq _ _ _ _ _ E); cbv beta iota; [done|].
  destruct (first _ _) as [row|]; [|done]. destruct (negb _); [done|]. destruct (negb _); [done|]. rewrite bind_run. by destruct (exec _ _).
Qed.

(** What the form does with a token: it is accepted, as the operator's or as a live one of
    the paste, and then the page says whether the paste was there; or it is refused. *)
Definition removal_outcome (q : HttpReq) (id token : string) w (reply : Reply) (log : option (string * string * string)) (w' : World C) : Prop :=
  let hash := Sha256.Sum256 (bytes token) in
  let operator := st_operatorTokenHash site <> repeat 0 32 /\ hash = st_operatorTokenHash site in
  (rp_cookies reply = [] /\ log = None /\ (operator \/ token_row w hash id)
   /\ if says_removed (rp_answer reply)
      then paste_of id (w_db w) <> None /\ t_pastes (w_db w') = keep (fun p => negb (has_id id p)) (t_pastes (w_db w))
      else t_pastes (w_db w') = t_pastes (w_db w) /\ (calm w -> paste_of id (w_db w) = None))
  \/ (rp_cookies reply = [owner_cookie q "" (-1)] /\ log = Some ("owner", "fail", "invalid_owner_token")
      /\ says_removed (rp_answer reply) = false /\ w_db w' = w_db w
      /\ ~ operator /\ (calm w -> well_formed (w_db w) -> ~ token_row w hash id)).

Lemma site_operator_iff hash : site_operator hash = true <-> st_operatorTokenHash site <> repeat 0 32 /\ hash = st_operatorTokenHash site.
Proof. unfold site_operator, zero_hash. rewrite andb_true_iff, negb_true_iff, bool_decide_eq_true, bool_decide_eq_false. done. Qed.

Lemma removal_spec (q : HttpReq) r w :
  loaded site "remove.html" = true ->
  let '(reply, log, w') := handleRemoveSubmit site q r w in
  match removal_token q r with
  | None | Some "" => w' = w /\ rp_cookies reply = [] /\ log = None /\ says_removed (rp_answer reply) = false
  | Some token => removal_outcome q (r_id r) token w reply log w'
  end.
Proof.
  intros Hl. unfold handleRemoveSubmit. destruct (removal_token q r) as [[|c token]|] eqn:Et;
    [split_and!; [done..|by apply removal_page_says]| |by split_and!].
  unfold removal_outcome. cbv zeta. set (hash := Sha256.Sum256 _). pose proof (site_operator_iff hash) as Hop.
  set (operator := st_operatorTokenHash site <> repeat 0 32 /\ hash = st_operatorTokenHash site) in *.
  change (negb (bool_decide (st_operatorTokenHash site = zero_hash)) && bool_decide (hash = st_operatorTokenHash site)) with (site_operator hash).
  assert (Hdel : forall w1, t_pastes (w_db w1) = t_pastes (w_db w) -> (calm w -> calm w1) -> (operator \/ token_row w hash (r_id r)) ->
    let '(reply, log, w') := (a ← removed site (r_id r); mret (just a, None : option (string * string * string))) w1 in
    rp_cookies reply = [] /\ log = None /\ (operator \/ token_row w hash (r_id r))
    /\ if says_removed (rp_answer reply)
       then paste_of (r_id r) (w_db w) <> None /\ t_pastes (w_db w') = keep (fun p => negb (has_id (r_id r) p)) (t_pastes (w_db w))
       else t_pastes (w_db w') = t_pastes (w_db w) /\ (calm w -> paste_of (r_id r) (w_db w) = None)).
  { intros w1 Hp Hcalm Hauth. rewrite bind_run. pose proof (removed_spec (r_id r) w1 Hl) as Hs. unfold paste_of in *. rewrite Hp in Hs.
    destruct (removed site (r_id r) w1) as [a w2]. cbn [mret M_ret just rp_answer rp_cookies]. split; [done|]. split; [done|]. split; [done|].
    destruct (says_removed a); [done|]. destruct Hs; auto. }
  destruct (site_operator hash).
  - specialize (Hdel w eq_refl id (or_introl (proj1 Hop eq_refl))). destruct ((a ← removed site (r_id r); _) w) as [[reply log] w']. by left.
  - rewrite bind_run. pose proof (verify_pastes hash "paste" (r_id r) w) as Hvp. pose proof (verify_ok_row hash (r_id r) w) as Hok.
    pose proof (verify_refused hash "paste" (r_id r) w) as Hvr. pose proof (verify_live hash (r_id r) w) as Hlive.
    pose proof (steady_VerifyAPIToken hash "paste" (r_id r) w) as [_ Hst].
    destruct (VerifyAPIToken hash "paste" (r_id r) w) as [[u|e] w1]; cbn [fst snd is_ok] in *.
    + specialize (Hdel w1 Hvp Hst (or_intror (Hok eq_refl))). destruct ((a ← removed site (r_id r); _) w1) as [[reply log] w']. by left.
    + cbn [mret M_ret rp_answer rp_cookies]. rewrite removal_page_says by done. right. split_and!; [done..|by eapply Hvr|intros Hx; by apply Hop in Hx|].
      intros Hc Hw Ht. by specialize (Hlive Hc Hw Ht).
Qed.

(** C15 — the web form for removal. Without a token in its field or the cookie nothing
    happens. A token is accepted only if it is the operator's (one being configured) or a
    live one of that very paste; then the paste is removed and no other, and the page says
    so, or nothing is removed, which without failing statements happens only when the paste
    is not stored. Any other token is refused (and in a well-formed database where no
    statement fails no good one is): nothing changes, the failure is logged, and the browser
    is told to drop its cookie, which it is told in no other case. *)
Theorem web_removal_needs_token (q : HttpReq) r w :
  loaded site "remove.html" = true ->
  let '(reply, log, w') := handleRemoveSubmit site q r w in
  match removal_token q r with
  | None | Some "" => w' = w /\ rp_cookies reply = [] /\ log = None /\ says_removed (rp_answer reply) = false
  | Some token => removal_outcome q (r_id r) token w reply log w'
  end.
Proof. apply removal_spec. Qed.

Lemma frame_removal q r : frame (C := C) (handleRemoveSubmit site q r).
Proof.
  assert (Hr : frame (C := C) (removed site (r_id r))) by (apply frame_bind; [apply frame_DeletePaste|intros; apply frame_ret]).
  unfold handleRemoveSubmit. destruct (removal_token q r) as [[|c token]|]; [apply frame_ret| |apply frame_ret].
  destruct (negb _ && _); [apply frame_bind; [done|intros; apply frame_ret]|]. apply frame_bind; [apply frame_VerifyAPIToken|].
  intros [u|e]; [apply frame_bind; [done|intros; apply frame_ret]|apply frame_ret].
Qed.

(** ** Creation and removal *)

Lemma site_operator_not_needed q r w token : removal_token q r = Some token -> token <> "" -> loaded site "remove.html" = true -> calm w ->
  (VerifyAPIToken (Sha256.Sum256 (bytes token)) "paste" (r_id r) w).1 = Ok tt -> paste_of (r_id r) (w_db w) <> None ->
  let '(reply, _, w') := handleRemoveSubmit site q r w in says_removed (rp_answer reply) = true /\ paste_of (r_id r) (w_db w') = None.
Proof.
  intros Et Hne Hl Hc Hv Hp. unfold handleRemoveSubmit. rewrite Et. destruct token as [|c token]; [done|]. set (hash := Sha256.Sum256 _) in *.
  assert (Hdel : forall w1, t_pastes (w_db w1) = t_pastes (w_db w) -> calm w1 ->
    let '(reply, _, w') := (a ← removed site (r_id r); mret (just a, None : option (string * string * string))) w1 in
    says_removed (rp_answer reply) = true /\ paste_of (r_id r) (w_db w') = None).
  { intros w1 Hps Hc1. unfold removed. rewrite !bind_run. pose proof (DeletePaste_cases (r_id r) w1) as Hd.
    destruct (DeletePaste (r_id r) w1) as [[u|e] w2]; cbn [mret M_ret just rp_answer].
    - rewrite removal_page_says by done. split; [done|]. destruct Hd as [_ [_ ->]]. unfold paste_of. apply paste_of_removed.
    - destruct Hd as [_ [_ Hd]]. exfalso. apply Hp. specialize (Hd Hc1). unfold paste_of in *. by rewrite <- Hps. }
  destruct (negb _ && _); [by apply Hdel|]. rewrite bind_run. pose proof (verify_pastes hash "paste" (r_id r) w) as Hvp.
  pose proof (steady_VerifyAPIToken hash "paste" (r_id r) w) as [_ Hst].
  destruct (VerifyAPIToken hash "paste" (r_id r) w) as [[[]|e] w1]; cbn [fst snd] in *; [|done]. apply Hdel; [done|by apply Hst].
Qed.

(** The new row of a token answers for its paste. *)
Lemma verify_new_row hash id d row w :
  calm w -> t_tokens (w_db w) = (t_tokens d ++ [row])%list -> existsb (has_hash (Hex.EncodeToString hash)) (t_tokens d) = false ->
  tk_hash row = Hex.EncodeToString hash -> tk_type row = "paste" -> tk_resource row = id -> tk_revoked row = None ->
  (forall e, tk_expires row = Some e -> Unix (w_clock w) < e) -> (VerifyAPIToken hash "paste" id w).1 = Ok tt.
Proof.
  intros Hc Ht Hex Hh Hty Hid Hrev Hexp.
  assert (Hf : first (for_resource (Hex.EncodeToString hash) "paste" id) (t_tokens (w_db w)) = Some row).
  { rewrite Ht, first_app. replace (first _ (t_tokens d)) with (@None TokenRow).
    - cbn. unfold for_resource, has_hash. by rewrite Hh, Hty, Hid, !String.eqb_refl.
    - symmetry. apply first_None. intros y Hy. unfold for_resource. destruct (has_hash (Hex.EncodeToString hash) y) eqn:E; [|done].
      exfalso. apply not_true_iff_false in Hex. apply Hex, existsb_exists. exists y. split; [by apply list_elem_of_In|done]. }
  unfold VerifyAPIToken. rewrite bind_now. rewrite (bind_eq _ _ _ _ _ (query_calm _ _ (calm_advance _ Hc))). cbv beta iota.
  change (w_db (advance w)) with (w_db w). rewrite Hf. rewrite Hh, String.eqb_refl. cbn [negb]. unfold token_active. rewrite Hrev.
  destruct (tk_expires row) as [e|]; [rewrite (proj2 (Z.ltb_lt _ _) (Hexp e eq_refl))|]; cbn [andb negb]; rewrite bind_run; by destruct (exec _ _).
Qed.
End removal.

Section managing.
Context {C : Type} `{CacheLaws C} `{Unicode} `{JsonLaws} `{Net} `{UrlParser} `{PublicSuffix}.
Context (h : PasteHandler) (site : Site).

(** the cookie that the page of a new paste sets is enough to remove that paste
    through the form later, with the field for the token left blank, while the paste
    has not expired; unless the request had itself chosen a token that was taken. *)
Theorem web_created_removable (q : HttpReq) (r : Request) (w : World C) (c : SetCookie) reply w1 :
  calm w -> loaded site "remove.html" = true -> isFormPost r = true -> detectClientType q = "html" ->
  handleWebCreate h site q r w = (reply, w1) -> rp_cookies reply = [c] ->
  existsb (has_hash (HashToken (sc_value c))) (t_tokens (w_db w)) = false ->
  exists id p, paste_of id (w_db w) = None /\ paste_of id (w_db w1) = Some p
    /\ forall q2 r2 (w2 : World C), removal_token q2 r2 = Some (sc_value c) -> r_id r2 = id -> calm w2 -> w_db w2 = w_db w1 ->
         (forall e, p_expires p = Some e -> Unix (w_clock w2) < Unix e) ->
         let '(reply2, _, w3) := handleRemoveSubmit site q2 r2 w2 in
         says_removed (rp_answer reply2) = true /\ paste_of id (w_db w3) = None.
Proof.
  intros Hc Hl Hf Hd. unfold handleWebCreate. rewrite Hf, Hd. rewrite String.eqb_refl. cbn [negb orb].
  rewrite bind_run. unfold CreateFromForm. pose proof (create_cases h r w) as Hcr. destruct (createFromRequest h r w) as [[resp|[st m]] w0];
    [|intros [= <- <-]; discriminate].
  destruct Hcr as (q0 & r0 & q' & e & p & _ & _ & _ & Hreq & Hnone & _ & Hps & _ & Htok & Hrow). cbv zeta in Hrow.
  set (k := match cr_expires resp with Some _ => now | None => mret 0 end). assert (Hk : w_db (k w0).2 = w_db w0) by (unfold k; by destruct (cr_expires resp)).
  rewrite bind_run. destruct (k w0) as [t w0']. cbn [snd] in Hk. cbn [mret M_ret]. intros [= <- <-] [= <-] Hex. cbn [rp_cookies owner_cookie sc_value] in *.
  assert (Hne : cr_owner_token resp <> "") by (destruct Htok as [[_ Hn]|(raw & -> & _)]; [done|discriminate]).
  destruct Hrow as [[_ Hbad]|(row & Ht & _ & Hh & Hty & Hid & Hrev & Hexp)]; [fold (HashToken (cr_owner_token resp)) in Hbad; by rewrite Hbad in Hex|].
  exists (cr_id resp), p. split; [done|].
  assert (Hp : paste_of (cr_id resp) (w_db w0') = Some p).
  { rewrite Hk. unfold paste_of in *. rewrite Hps, first_app, Hnone. cbn. unfold has_id. by rewrite (proj1 Hreq), String.eqb_refl. }
  split; [done|]. intros q2 r2 w2 Hrt Hr2 Hc2 Hdb He. rewrite <- Hr2 in *.
  apply (site_operator_not_needed site q2 r2 w2 (cr_owner_token resp)); try done; [|by rewrite Hdb, Hp].
  eapply (verify_new_row _ _ (w_db w) row); try done; [by rewrite Hdb, Hk|]. intros e' Hx. rewrite Hexp in Hx. destruct e as [e|]; [|done].
  injection Hx as <-. apply He. apply Hreq.
Qed.
End managing.

(** ** Removal and the cache *)

Section stale.
Context `{Unicode} `{JsonLaws} `{Net} `{UrlParser} `{PublicSuffix}.
Context (site : Site).

Lemma still_removal q r : still (handleRemoveSubmit site q r).
Proof.
  unfold handleRemoveSubmit, removed, VerifyAPIToken, DeletePaste, query, exec.
  repeat match goal with
  | |- still (let _ := _ in _) => cbv zeta
  | |- still (_ ≫= _) => apply still_bind; [|intros ?]
  | |- still (sql _) => apply still_sql
  | |- still now => apply still_now
  | |- still (match ?x with _ => _ end) => destruct x
  | |- still _ => by intros w Ht
  end.
Qed.

(** The form removes a paste from the database only: while it is in the read
    cache it can still be read. *)
Lemma web_removal_leaves_cache (r rm : Request) (q : HttpReq) (p : Paste) (pre : string) (ttl : Z) (w : World memoryCache) :
  calm w -> w_ticks w = [] -> w_cache w = Some (newMemoryCache pre ttl) -> loaded site "remove.html" = true ->
  paste_of (r_id r) (w_db w) = Some p -> p_expires p = None -> p_burn p <= 0 ->
  in_int64 (p_visibility p) -> in_int64 (p_burn p) -> in_int64 (p_views p) -> r_id rm = r_id r ->
  let '(_, w1) := GetRawPaste r w in
  let '(reply, _, w2) := handleRemoveSubmit site q rm w1 in
  says_removed (rp_answer reply) = true -> paste_of (r_id r) (w_db w2) = None /\ (GetRawPaste r w2).1 = raw_response (json_view p).
Proof.
  intros Hc Ht Hca Hl Hp He Hb Hi1 Hi2 Hi3 Hid. pose proof (raw_read_caches r p pre ttl w Hc Ht Hca Hp He Hb) as Hr.
  destruct (GetRawPaste r w) as [resp1 w1]. destruct Hr as (_ & Hc1 & Ht1 & Hk1 & _ & c & Hca1 & Hent).
  pose proof (removal_spec site q rm w1 Hl) as Hs. pose proof (frame_removal site q rm w1) as Hf. pose proof (still_removal q rm w1 Ht1) as [_ Hk].
  destruct (handleRemoveSubmit site q rm w1) as [[reply log] w2]. cbn [snd] in *. intros Hsay.
  assert (Hps : t_pastes (w_db w2) = keep (fun p => negb (has_id (r_id rm) p)) (t_pastes (w_db w1))).
  { destruct (removal_token q rm) as [[|ch token]|]; [by destruct Hs as (_ & _ & _ & ?); congruence| |by destruct Hs as (_ & _ & _ & ?); congruence].
    destruct Hs as [(_ & _ & _ & Hs)|(_ & _ & Hs & _)]; [by rewrite Hsay in Hs; destruct Hs|congruence]. }
  split; [unfold paste_of; rewrite Hps, <- Hid; apply paste_of_removed|].
  apply (raw_read_hit r p c (w_clock w)); try done; [congruence|]. rewrite Hk, Hk1. unfold pasteCacheTTL, Minute, Second. lia.
Qed.

(** A failure of the database counts as a wrong token: the browser drops a good one. *)
Lemma fault_drops_cookie (q : HttpReq) (r : Request) (w : World memoryCache) (token : string) :
  removal_token q r = Some token -> token <> "" -> site_operator site (Sha256.Sum256 (bytes token)) = false -> hd false (w_faults w) = true ->
  rp_cookies (handleRemoveSubmit site q r w).1.1 = [owner_cookie q "" (-1)].
Proof.
  intros Et Hne Hop Hf. unfold handleRemoveSubmit. rewrite Et. destruct token as [|c token]; [done|].
  unfold site_operator in Hop. rewrite Hop, bind_run. unfold VerifyAPIToken. rewrite bind_now, bind_run. unfold query, sql. cbn [w_faults advance]. rewrite Hf. done.
Qed.
End stale.

(** ** What is shown inline *)

Section inline.
Context `{Net}.

Definition active_types : list string :=
  ["text/html"; "application/xhtml+xml"; "image/svg+xml"; "text/xml"; "application/xml"; "application/javascript"; "text/javascript"].

(** The media type that is declared, if it can be parsed. *)
Definition media_type (p : Paste) : option string := fst <$> ParseMediaType (p_content_type p).

Lemma binaryB64_decodes p : is_binary (p_content_type p) = true ->
  exists l, Base64.DecodeString (binaryB64 (p_content p)) = Some l /\ raw_body p = of_bytes l.
Proof.
  intros Hb. unfold binaryB64, raw_body. rewrite Hb. destruct (Base64.DecodeString (p_content p)) as [l|] eqn:E; [by exists l|].
  exists (bytes (p_content p)). split; [apply base64_roundtrip, bytes_range|]. by rewrite of_bytes_bytes.
Qed.

(** C16 — a picture is shown inline only if its declared type parses, is an image and
    is none that a browser would execute; a player only for audio and video, or for a
    type that does not parse. What they are given decodes to the bytes that a raw read
    serves; and a type a browser would execute is offered for download. *)
Theorem inline_is_inert (p : Paste) :
  let c := classifyPasteContent p in
  match shown c with
  | ShownImage => exists mt, media_type p = Some mt /\ p_content_type p <> "" /\ Strings.HasPrefix mt "image/" = true /\ ~ In mt active_types
      /\ ImageDataURI c = "data:" ++ mt ++ ";base64," ++ binaryB64 (p_content p)
  | ShownPlayer => (Strings.HasPrefix (FileContentType c) "audio/" = true \/ Strings.HasPrefix (FileContentType c) "video/" = true)
      /\ ~ In (FileContentType c) active_types /\ (media_type p = Some (FileContentType c) \/ media_type p = None /\ FileContentType c = p_content_type p)
      /\ MediaDataURI c = "data:" ++ FileContentType c ++ ";base64," ++ binaryB64 (p_content p)
  | ShownDownload => p_content_type p <> ""
  | ShownText => p_content_type p = "" \/ exists mt, media_type p = Some mt /\ ~ In mt active_types /\ (mt = "" \/ Strings.HasPrefix mt "text/" = true)
  end
  /\ (shown c = ShownImage \/ shown c = ShownPlayer -> is_binary (p_content_type p) = true ->
      exists l, Base64.DecodeString (binaryB64 (p_content p)) = Some l /\ raw_body p = of_bytes l).
Proof.
  cbv zeta. split; [|intros _; apply binaryB64_decodes]. unfold classifyPasteContent, media_type.
  assert (Hact : forall s, existsb (String.eqb s) active_types = true /\ In s active_types \/ existsb (String.eqb s) active_types = false /\ ~ In s active_types).
  { intros s. destruct (existsb (String.eqb s) active_types) eqn:E; [left; split; [done|]; by apply existsb_exists in E as (x & Hx & ->%String.eqb_eq)|right; split; [done|]]. intros Hin. apply not_true_iff_false in E.
    apply E, existsb_exists. exists s. split; [done|apply String.eqb_refl]. }
  assert (Hmedia : forall s pre, (pre = "audio/" \/ pre = "video/") -> Strings.HasPrefix s pre = true -> ~ In s active_types).
  { intros s pre [->| ->] Hp Hin; cbn in Hin; repeat destruct Hin as [<-|Hin]; try done. }
  destruct (String.eqb_spec (p_content_type p) "") as [E|E]; [cbn; by left|].
  destruct (ParseMediaType (p_content_type p)) as [[mt params]|] eqn:Em; cbn [fmap option_fmap option_map fst].
  - fold active_types. cbn [orb]. unfold shown. cbn [IsImage IsAudio IsVideo IsActiveContent IsBinary FileContentType ImageDataURI MediaDataURI].
    destruct (Hact mt) as [[Ha Hin]|[Ha Hn]]; rewrite Ha; cbn [negb andb].
    + rewrite andb_false_r. destruct (Strings.HasPrefix mt "audio/") eqn:E1; [destruct (Hmedia mt "audio/" (or_introl eq_refl) E1 Hin)|].
      destruct (Strings.HasPrefix mt "video/") eqn:E2; [destruct (Hmedia mt "video/" (or_intror eq_refl) E2 Hin)|]. cbn. exact E.
    + rewrite andb_true_r. destruct (Strings.HasPrefix mt "image/") eqn:E0; [exists mt; by split_and!|].
      destruct (Strings.HasPrefix mt "audio/") eqn:E1; [cbn; split_and!; auto|]. destruct (Strings.HasPrefix mt "video/") eqn:E2; [cbn; split_and!; auto|].
      cbn [orb negb]. destruct (String.eqb_spec mt "") as [->|Hmt]; cbn; [right; exists ""; auto|].
      destruct (Strings.HasPrefix mt "text/") eqn:E3; cbn; [right; exists mt; auto|done].
  - unfold shown. cbn [orb negb IsImage IsAudio IsVideo IsActiveContent IsBinary FileContentType MediaDataURI]. rewrite !andb_false_r. cbn [orb].
    destruct (Strings.HasPrefix (p_content_type p) "audio/") eqn:E1.
    { cbn -[active_types In]. split_and!; [by left|by eapply (Hmedia _ "audio/"); [left|]|by right|done]. }
    destruct (Strings.HasPrefix (p_content_type p) "video/") eqn:E2; [|exact E].
    cbn -[active_types In]. split_and!; [by right|by eapply (Hmedia _ "video/"); [right|]|by right|done].
Qed.

(** A type that does not parse is to be offered for download only, as one that a
    browser may execute; with the prefix of audio it is played. *)
Lemma unparseable_audio_plays p : ParseMediaType (p_content_type p) = None -> Strings.HasPrefix (p_content_type p) "audio/" = true ->
  IsActiveContent (classifyPasteContent p) = true /\ shown (classifyPasteContent p) = ShownPlayer.
Proof.
  intros Em Ea. unfold classifyPasteContent. destruct (String.eqb_spec (p_content_type p) "") as [E|E]; [by rewrite E in Ea|]. rewrite Em. split; [done|].
  unfold shown. cbn. rewrite Ea, andb_false_r. done.
Qed.
End inline.

(** ** Names of attachments *)

Lemma unescape_PathEscape s : unescape_path (PathEscape s) = Some s.
Proof. induction s as [|c s IH]; [done|]. cbn [PathEscape]. destruct c as [[] [] [] [] [] [] [] []]; exact (f_equal (option_map (String _)) IH). Qed.

(** Neither a control character nor a quote, a backslash or a slash. *)
Definition name_byte (c : ascii) : bool := negb (bad_name_rune (byte c)).

Lemma cleaned_name name : Strings.forall_byte name_byte (StringsU.Map (fun r => Some (if bad_name_rune r then 95 else r)) name) = true.
Proof.
  apply Map_every.
  - intros r r' Hr [= <-]. unfold name_byte, bad_name_rune. destruct ((r <? 32) || (r =? 127) || (r =? 34) || (r =? 92) || (r =? 47)) eqn:E;
      [split; [unfold scalar; lia|done]|]. split; [done|]. intros Hlt. unfold scalar in Hr. rewrite byte_chr by lia. by rewrite E.
  - intros b Hb. unfold name_byte, bad_name_rune. rewrite byte_chr by lia. bsplit. lia.
Qed.

(** whatever the title of a paste, the name under which it is downloaded has at
    most 200 bytes and none that could end the quoted name in the header or name a
    directory; the encoded name beside it decodes to the same; and the body is that of a
    raw read, sent as an attachment. *)
Theorem attachment_named (id : string) (p : Paste) :
  Strings.forall_byte name_byte id = true -> id <> "" -> strlen id <= 200 ->
  exists f, f <> "" /\ strlen f <= 200 /\ Strings.forall_byte name_byte f = true /\ unescape_path (PathEscape f) = Some f
    /\ In ("Content-Disposition", "attachment; filename=" ++ quote ++ f ++ quote ++ "; filename*=UTF-8''" ++ PathEscape f) (headers (download id p))
    /\ In ("X-Content-Type-Options", "nosniff") (headers (download id p)) /\ body (download id p) = BText (raw_body p).
Proof.
  intros Hid Hne Hlen. unfold download. set (title := if _ || _ then id else _). exists (sanitizeAttachmentFilename title id).
  enough (sanitizeAttachmentFilename title id <> "" /\ strlen (sanitizeAttachmentFilename title id) <= 200
          /\ Strings.forall_byte name_byte (sanitizeAttachmentFilename title id) = true) as (K1 & K2 & K3).
  { split_and!; [done..|apply unescape_PathEscape|right; by left|right; right; by left|done]. }
  unfold sanitizeAttachmentFilename. pose proof (TrimSpace_every name_byte _ (cleaned_name title)) as Hc.
  set (cleaned := StringsU.TrimSpace _) in *. clearbody cleaned. destruct (200 <? strlen cleaned) eqn:E.
  - destruct (String.eqb_spec (Strings.take 200 cleaned) "") as [Et|Et]; [by split_and!|]. split_and!; [done| |by apply forall_byte_substring].
    unfold strlen, Strings.take. pose proof (substring_short 0 200 cleaned). lia.
  - destruct (String.eqb_spec cleaned "") as [Et|Et]; by split_and!; [..|lia|].
Qed.

(** ** Witnesses *)

#[local] Instance no_urls : UrlParser := {| url_parse := fun _ => None |}.
#[local] Instance no_suffix : PublicSuffix := {| etld_plus_one := fun _ => None |}.

Definition some_site : Site :=
  {| SiteTitle := "Pastes"; Theme := "dark"; apiVersion := "v1"; st_proxy := some_config; st_operatorTokenHash := zero_hash; loaded := fun _ => true |}.

(** A browser with a cookie. *)
Definition browser (cookie : option string) : HttpReq :=
  {| q_method := "POST"; q_path := "/pastes"; q_route := "/pastes"; q_query := fun _ => ""; q_proto := "HTTP/1.1"; q_tls_version := 0; q_rawpath := "";
     q_rawquery := ""; q_host := "example.org"; q_remote := "9.9.9.9:1"; q_tls := true; q_header := fun k => if String.eqb k "Accept" then "text/html" else "";
     q_cookie := fun k => if String.eqb k ownerTokenCookieName then cookie else None; q_form := fun _ => ""; q_peer := None;
     q_allowlisted := false; q_csrf := ""; q_txt := false |}.

Definition web_form : Request :=
  with_header "Content-Type" "application/x-www-form-urlencoded" (with_form [("content", "hello")] plain_request).

Lemma web_removal_needs_token_witness :
  loaded some_site "remove.html" = true
  /\ let '(reply, log, w') := handleRemoveSubmit some_site (browser (Some seven_token)) (with_id seven_id plain_request) after_upload in
     says_removed (rp_answer reply) = true
     /\ t_pastes (w_db w') = keep (fun q => negb (has_id seven_id q)) (t_pastes (w_db after_upload)) /\ t_pastes (w_db after_upload) <> t_pastes (w_db w').
Proof.
  split; [reflexivity|].
  pose proof (web_removal_needs_token some_site (browser (Some seven_token)) (with_id seven_id plain_request) after_upload eq_refl) as P.
  assert (Hs : says_removed (rp_answer (handleRemoveSubmit some_site (browser (Some seven_token)) (with_id seven_id plain_request) after_upload).1.1) = true) by (vm_compute; reflexivity).
  assert (Hd : t_pastes (w_db after_upload) <> t_pastes (w_db (handleRemoveSubmit some_site (browser (Some seven_token)) (with_id seven_id plain_request) after_upload).2)) by (vm_compute; discriminate).
  destruct (handleRemoveSubmit some_site (browser (Some seven_token)) (with_id seven_id plain_request) after_upload) as [[reply log] w']. cbn [fst snd] in *.
  change (removal_token (browser (Some seven_token)) (with_id seven_id plain_request)) with (Some seven_token) in P. cbv beta iota zeta in P.
  destruct P as [(_ & _ & _ & P)|(_ & _ & P & _)]; rewrite Hs in P; [|discriminate P]. split; [exact Hs|]. split; [exact (proj2 P)|exact Hd].
Defined.

Lemma web_created_removable_witness :
  exists id p, paste_of id (w_db (site empty_db)) = None
    /\ paste_of id (w_db (handleWebCreate plain_handler some_site (browser None) web_form (site empty_db)).2) = Some p
    /\ let '(reply2, _, w3) := handleRemoveSubmit some_site (browser (Some seven_token)) (with_id id plain_request)
         (handleWebCreate plain_handler some_site (browser None) web_form (site empty_db)).2 in
       says_removed (rp_answer reply2) = true /\ paste_of id (w_db w3) = None.
Proof.
  assert (Hc : rp_cookies (handleWebCreate plain_handler some_site (browser None) web_form (site empty_db)).1 = [owner_cookie (browser None) seven_token (730 * 24 * 60 * 60)])
    by (vm_compute; reflexivity).
  destruct (web_created_removable plain_handler some_site (browser None) web_form (site empty_db) (owner_cookie (browser None) seven_token (730 * 24 * 60 * 60))
    (handleWebCreate plain_handler some_site (browser None) web_form (site empty_db)).1 (handleWebCreate plain_handler some_site (browser None) web_form (site empty_db)).2
    eq_refl eq_refl eq_refl eq_refl (surjective_pairing _) Hc) as (id & p & K1 & K2 & K3).
  - vm_compute. reflexivity.
  - exists id, p. split; [exact K1|]. split; [exact K2|]. apply K3; [reflexivity|reflexivity|vm_compute; reflexivity|reflexivity|].
    intros e He. exfalso.
    assert (Hall : forallb (fun x => negb (is_some (p_expires x))) (t_pastes (w_db (handleWebCreate plain_handler some_site (browser None) web_form (site empty_db)).2)) = true)
      by (vm_compute; reflexivity).
    destruct (first_Some _ _ _ K2) as [Hin _]. apply list_elem_of_In in Hin. rewrite forallb_forall in Hall. specialize (Hall p Hin). rewrite He in Hall. discriminate.
Defined.

(** An SVG that claims to be a picture is offered for download, a PNG is shown. *)
Definition typed (ct content : string) : Paste :=
  {| p_id := "a"; p_title := "../a" ++ quote ++ ".png"; p_content := content; p_content_type := ct; p_language := "text"; p_visibility := 0; p_is_link := false;
     p_expires := None; p_burn := 0; p_hash := ""; p_views := 0; p_created := 0; p_updated := 0 |}.

Lemma inline_is_inert_witness :
  shown (classifyPasteContent (typed "image/svg+xml" "AAAA")) = ShownDownload
  /\ shown (classifyPasteContent (typed "image/png" "AAAA")) = ShownImage
  /\ exists l, Base64.DecodeString (binaryB64 "AAAA") = Some l /\ raw_body (typed "image/png" "AAAA") = of_bytes l.
Proof.
  assert (Hs : shown (classifyPasteContent (typed "image/png" "AAAA")) = ShownImage) by (vm_compute; reflexivity).
  split; [vm_compute; reflexivity|]. split; [exact Hs|]. destruct (inline_is_inert (typed "image/png" "AAAA")) as [_ P]. apply P; [left; exact Hs|reflexivity].
Defined.

Lemma attachment_named_witness :
  exists f, f <> "" /\ strlen f <= 200 /\ Strings.forall_byte name_byte f = true /\ unescape_path (PathEscape f) = Some f
    /\ In ("Content-Disposition", "attachment; filename=" ++ quote ++ f ++ quote ++ "; filename*=UTF-8''" ++ PathEscape f) (headers (download "a" (typed "image/png" "AAAA"))).
Proof.
  destruct (attachment_named "a" (typed "image/png" "AAAA")) as (f & K1 & K2 & K3 & K4 & K5 & _); [reflexivity|discriminate|vm_compute; discriminate|].
  exists f. split; [exact K1|]. split; [exact K2|]. split; [exact K3|]. split; [exact K4|exact K5].
Defined.
