(* ===== verification/Mail.v ===== *)
(** * Mail (src/src/common/email/email.go)

    Templates, messages and what is handed to the SMTP server, whose session is the
    parameter [smtp]. The order in which a map of variables is iterated is not
    specified: [shuffle] is any order. *)

From S2P Require Import Prelude GoStr GoTime GoCrypto Http.
From Stdlib Require Import Ascii.

Record Mailer := {
  m_Enabled : bool; m_Host : string; m_FromName : string; m_FromEmail : string; m_ReplyTo : string;
  appName : string; appURL : string; m_fqdn : string; onionAddress : string; i2pAddress : string;
  (** The custom template, when a directory is configured and has it, and the embedded one. *)
  custom : string -> option string; embedded : string -> option string;
}.

Definition Enabled (m : Mailer) : bool := m_Enabled m && negb (String.eqb (m_Host m) "").

(** ** Headers *)

Definition crlf : string := String "013" newline.
Definition quoted (s : string) : string := String "034" s ++ String "034" "".

Definition sanitizeHeader (v : string) : string :=
  StringsU.Map (fun r => if (r =? 13) || (r =? 10) then None else if (r <? 32) && negb (r =? 9) then None else Some r) v.

Definition resolveFrom (m : Mailer) : string * string :=
  (if String.eqb (m_FromName m) "" then appName m else m_FromName m,
   if String.eqb (m_FromEmail m) "" then "no-reply@" ++ m_fqdn m else m_FromEmail m).

(** The lines that both kinds of messages begin with. *)
Definition address_lines (from : string * string) (to subject replyTo : string) : list string :=
  (["From: " +:+ sanitizeHeader from.1 +:+ " <" +:+ sanitizeHeader from.2 +:+ ">"; "To: " +:+ sanitizeHeader to; "Subject: " +:+ sanitizeHeader subject]
   ++ (if String.eqb (sanitizeHeader replyTo) "" then [] else ["Reply-To: " +:+ sanitizeHeader replyTo]) ++ ["MIME-Version: 1.0"])%list.

Definition message (lines : list string) (body : string) : string := String.concat "" ((fun l => l ++ crlf) <$> lines) ++ crlf ++ body.

Definition buildMessage (from : string * string) (to subject body replyTo : string) : string :=
  message (address_lines from to subject replyTo ++ ["Content-Type: text/plain; charset=utf-8"])%list body.

(** ** Attachments *)

Fixpoint lines_of (fuel n : nat) (s : string) : list string :=
  match fuel with
  | O => []
  | S fuel => if String.eqb s "" then [] else Strings.take n s :: lines_of fuel n (Strings.drop n s)
  end.
Definition wrapped (s : string) : string := String.concat "" ((fun l => l ++ crlf) <$> lines_of (String.length s) 76 s).

(** A part as mime/multipart writes it. *)
Definition part (boundary : string) (head : list string) (body : string) : string := "--" ++ boundary ++ crlf ++ message head body.

Definition attachment_name (filename : string) : string := Strings.ReplaceByte (sanitizeHeader filename) "034" "".

Definition buildMultipartMessage (boundary : string) (from : string * string) (to subject body replyTo filename : string) (data : list Z) : string :=
  message (address_lines from to subject replyTo ++ ["Content-Type: multipart/mixed; boundary=" +:+ quoted boundary])%list
    (part boundary ["Content-Type: text/plain; charset=utf-8"] body ++ crlf
     ++ part boundary ["Content-Disposition: attachment; filename=" ++ quoted (attachment_name filename); "Content-Transfer-Encoding: base64";
                       "Content-Type: application/octet-stream"] (wrapped (Base64.EncodeToString data)) ++ crlf
     ++ "--" ++ boundary ++ "--" ++ crlf).

(** ** Templates *)

Class Shuffle := { shuffle : list (string * string) -> list (string * string); shuffle_perm : forall l, shuffle l ≡ₚ l }.

Definition substitute (s : string) (var : string * string) : string := Strings.Replace [("{" ++ var.1 ++ "}", var.2)] s.

Definition globals (m : Mailer) (t : Z) : list (string * string) :=
  let url a := if String.eqb a "" then "" else "http://" ++ a in
  [("app_name", appName m); ("app_url", appURL m); ("fqdn", m_fqdn m);
   ("timestamp", FormatDate UTC t ++ " " ++ FormatClock UTC t ++ " UTC"); ("year", Strconv.pad 4 (Year_ UTC t));
   ("onion_address", onionAddress m); ("onion_url", url (onionAddress m)); ("i2p_address", i2pAddress m); ("i2p_url", url (i2pAddress m));
   ("notification_reply_to", m_ReplyTo m)].

Definition loadTemplate (m : Mailer) (name : string) : result string :=
  match custom m name, embedded m name with
  | Some text, _ | None, Some text => Ok text
  | None, None => Err ("email: no template " ++ name ++ " (embedded or custom)")
  end.

Definition renderTemplate `{Shuffle} (m : Mailer) (t : Z) (name : string) (vars : list (string * string)) : result string :=
  match loadTemplate m name with
  | Err e => Err e
  | Ok raw => Ok (foldl substitute (foldl substitute raw (shuffle (globals m t))) (shuffle vars))
  end.

Fixpoint after_separator (lines : list string) : option (list string) :=
  match lines with [] => None | l :: lines => if String.eqb (StringsU.TrimSpace l) "---" then Some lines else after_separator lines end.

Definition parseTemplate (text : string) : option (string * string) :=
  let lines := Strings.Split text "010" in
  if (length lines <? 3)%nat then None
  else
    let first := hd "" lines in
    if negb (Strings.HasPrefix first "Subject: ") then None
    else
      body ← after_separator lines;
      Some (StringsU.TrimSpace (Strings.TrimPrefix first "Subject: "), StringsU.TrimSpace (Strings.Join body newline)).

(** ** Sending *)

Section sending.
Context `{Shuffle}.
(** The session with the server, for the sender, the recipient and the message. *)
Context (smtp : string -> string -> string -> result unit).

Definition Render (m : Mailer) (t : Z) (name : string) (vars : list (string * string)) : result (string * string) :=
  match renderTemplate m t name vars with
  | Err e => Err ("email: render " ++ name ++ ": " ++ e)
  | Ok raw => match parseTemplate raw with Some x => Ok x | None => Err ("email: template " ++ name ++ " missing Subject: line") end
  end.

Definition SendRawMessage (m : Mailer) (to subject body : string) : result unit :=
  if negb (Enabled m) then Ok tt else smtp (resolveFrom m).2 to (buildMessage (resolveFrom m) to subject body (m_ReplyTo m)).

Definition Send (m : Mailer) (t : Z) (to name : string) (vars : list (string * string)) : result unit :=
  if negb (Enabled m) then Ok tt
  else match Render m t name vars with Err e => Err e | Ok (subject, body) => SendRawMessage m to subject body end.

Definition SendWithAttachment (m : Mailer) (boundary to subject body filename : string) (data : list Z) : result unit :=
  if negb (Enabled m) then Ok tt
  else smtp (resolveFrom m).2 to (buildMultipartMessage boundary (resolveFrom m) to subject body (m_ReplyTo m) filename data).
End sending.

(** ** Finding a server *)

Definition smtp_ports : list Z := [587; 465; 25].

Definition smtp_candidates (gateway global fqdn : string) : list (string * Z) :=
  let at_ports host := (fun p => (host, p)) <$> smtp_ports in
  let named := negb (String.eqb fqdn "") && negb (String.eqb fqdn "localhost") in
  (at_ports "127.0.0.1" ++ at_ports "172.17.0.1"
   ++ (if String.eqb gateway "" then [] else at_ports gateway)
   ++ (if named then at_ports fqdn else [])
   ++ (if String.eqb global "" then [] else at_ports global)
   ++ (if named then at_ports ("mail." +:+ fqdn) ++ at_ports ("smtp." +:+ fqdn) else []))%list.

(** [reachable]: whether a connection to the server can be made. *)
Definition AutoDetect (reachable : string * Z -> bool) (gateway global fqdn : string) : option (string * Z) :=
  first reachable (smtp_candidates gateway global fqdn).
