(* ===== verification/MailProofs.v ===== *)
(** * Mail: headers that cannot be forged, attachments that come back *)

From S2P Require Import Prelude GoStr GoStrProofs Utf8Proofs GoTime GoCrypto Http Mail.
From Stdlib Require Import Ascii.

(** ** Reading a message *)

(** What stands before the first line break, and after it. A line ends with a carriage
    return and a line feed, or with either of them alone: net/smtp makes a line break of
    each bare line feed, and servers differ about bare carriage returns. *)
Fixpoint cut_line (s : string) : string * option string :=
  match s with
  | "" => ("", None)
  | String c r =>
      if Ascii.eqb c "013" then ("", Some (if Strings.HasPrefix r newline then Strings.drop 1 r else r))
      else if Ascii.eqb c "010" then ("", Some r)
      else let '(l, rest) := cut_line r in (String c l, rest)
  end.

(** The header lines of a message and its body, as a receiver splits them. *)
Fixpoint read_message (fuel : nat) (s : string) : list string * option string :=
  match fuel with
  | O => ([], None)
  | S fuel =>
      match cut_line s with
      | ("", Some body) => ([], Some body)
      | (l, Some rest) => let '(ls, body) := read_message fuel rest in (l :: ls, body)
      | (l, None) => ([l], None)
      end
  end.

Definition no_break (c : ascii) : bool := negb (Ascii.eqb c "013") && negb (Ascii.eqb c "010").
Definition one_line (s : string) : bool := Strings.forall_byte no_break s.

Lemma cut_line_crlf l s : one_line l = true -> cut_line (l ++ crlf ++ s) = (l, Some s).
Proof.
  unfold one_line. induction l as [|c l IH]; cbn [Strings.forall_byte].
  - intros _. cbn [String.append crlf newline cut_line]. cbn [Ascii.eqb Bool.eqb andb]. rewrite drop_1. by destruct s.
  - intros [Hc Hl]%andb_true_iff. unfold no_break in Hc. apply andb_true_iff in Hc as [H1 H2]. apply negb_true_iff in H1, H2.
    cbn [String.append cut_line]. rewrite H1, H2. by rewrite IH.
Qed.

Lemma read_message_lines lines body : Forall (fun l => one_line l = true /\ l <> "") lines ->
  forall fuel, (length lines < fuel)%nat -> read_message fuel (message lines body) = (lines, Some body).
Proof.
  unfold message. induction 1 as [|l lines [Hl Hne] _ IH]; intros [|fuel] Hf; cbn [length] in Hf; try lia.
  - cbn [fmap list_fmap String.concat read_message]. by rewrite (cut_line_crlf "" body).
  - cbn [fmap list_fmap]. rewrite concat_cons, <- !string_app_assoc. cbn [read_message]. rewrite cut_line_crlf by done.
    destruct l as [|c l]; [done|]. by rewrite IH by lia.
Qed.

(** ** Headers *)

Lemma one_line_app a b : one_line (a ++ b) = one_line a && one_line b.
Proof. apply forall_byte_app. Qed.

Lemma sanitizeHeader_line v : one_line (sanitizeHeader v) = true.
Proof.
  apply Map_every.
  - intros r r' Hr. destruct ((r =? 13) || (r =? 10)) eqn:E; [done|]. destruct (_ && _); [done|]. intros [= <-]. split; [done|]. intros Hlt.
    unfold scalar in Hr. unfold no_break. apply andb_true_iff. split; apply negb_true_iff, Ascii.eqb_neq; intros Hc; apply (f_equal byte) in Hc;
      rewrite byte_chr in Hc by lia; vm_compute in Hc; subst; vm_compute in E; done.
  - intros b Hb. unfold no_break. apply andb_true_iff. split; apply negb_true_iff, Ascii.eqb_neq; intros Hc; apply (f_equal byte) in Hc;
      rewrite byte_chr in Hc by lia; vm_compute in Hc; subst; lia.
Qed.

Lemma address_lines_good from to subject replyTo : Forall (fun l => one_line l = true /\ l <> "") (address_lines from to subject replyTo).
Proof.
  unfold address_lines. repeat (apply Forall_app; split); try destruct (String.eqb _ _); repeat constructor; try done;
    rewrite ?one_line_app, ?sanitizeHeader_line; done.
Qed.

Lemma attachment_name_good f : one_line (attachment_name f) = true /\ Strings.IndexByte (attachment_name f) "034" = None.
Proof.
  unfold attachment_name. pose proof (sanitizeHeader_line f) as H. revert H. generalize (sanitizeHeader f). clear f. intros s. unfold one_line.
  induction s as [|c s IH]; [done|]. cbn [Strings.forall_byte Strings.ReplaceByte]. intros [Hc Hs]%andb_true_iff. destruct (IH Hs) as [K1 K2].
  destruct (Ascii.eqb c "034") eqn:E; cbn [String.append]; [done|]. cbn [Strings.forall_byte Strings.IndexByte]. by rewrite Hc, K1, E, K2.
Qed.

(** The characters of a value that are kept: the tab and those from the space on. *)
Definition kept (v x : string) : Prop := fst <$> Utf8.runes x = keep (fun r => (32 <=? r) || (r =? 9)) (fst <$> Utf8.runes v).

Lemma sanitizeHeader_kept v : kept v (sanitizeHeader v).
Proof.
  unfold kept, sanitizeHeader, StringsU.Map. pose proof (runes_scalar v) as Hs.
  assert (E : omap (fun p => (fun r => if (r =? 13) || (r =? 10) then None else if (r <? 32) && negb (r =? 9) then None else Some r) (fst p)) (Utf8.runes v)
              = keep (fun r => (32 <=? r) || (r =? 9)) (fst <$> Utf8.runes v)).
  { clear Hs. generalize (Utf8.runes v). intros l. induction l as [|[r b] l IH]; [done|]. cbn [omap list_omap fmap list_fmap fst]. rewrite keep_cons.
    change (list_omap _ _ _ l) with (omap (fun p => (fun r => if (r =? 13) || (r =? 10) then None else if (r <? 32) && negb (r =? 9) then None else Some r) (fst p)) l).
    rewrite IH. change (list_fmap _ _ fst l) with (fst <$> l).
    destruct (r =? 13) eqn:E1, (r =? 10) eqn:E2, (r <? 32) eqn:E3, (32 <=? r) eqn:E4, (r =? 9) eqn:E5; cbn [orb andb negb]; try done; exfalso; b2p; lia. }
  rewrite E. apply runes_of_runes_fst. apply Forall_forall. intros r [Hr _]%keep_elem. by rewrite Forall_forall in Hs; apply Hs.
Qed.

(** C19 — whatever a visitor writes into a name, an address or a subject, a reader who
    ends a line at every carriage return and line feed finds the header lines of the
    program and no other, with the characters of the values that are not control
    characters, and then the body unchanged; in both kinds of messages, and in the parts
    of one with an attachment (for a boundary of one line), where the name of the file
    does not end its quotes. *)
Theorem mail_headers_fixed (from : string * string) (to subject body replyTo boundary filename : string) (data : list Z) :
  one_line boundary = true ->
  let addresses := (["From: " +:+ sanitizeHeader from.1 +:+ " <" +:+ sanitizeHeader from.2 +:+ ">"; "To: " +:+ sanitizeHeader to;
                     "Subject: " +:+ sanitizeHeader subject]
                    ++ (if decide (sanitizeHeader replyTo = "") then [] else ["Reply-To: " +:+ sanitizeHeader replyTo]) ++ ["MIME-Version: 1.0"])%list in
  let delimiter := "--" +:+ boundary +:+ crlf in
  (forall v, kept v (sanitizeHeader v)) /\ Strings.IndexByte (attachment_name filename) "034" = None
  /\ read_message 8 (buildMessage from to subject body replyTo) = ((addresses ++ ["Content-Type: text/plain; charset=utf-8"])%list, Some body)
  /\ exists text file,
       read_message 8 (buildMultipartMessage boundary from to subject body replyTo filename data)
       = ((addresses ++ ["Content-Type: multipart/mixed; boundary=" +:+ quoted boundary])%list,
          Some (delimiter +:+ text +:+ crlf +:+ delimiter +:+ file +:+ crlf +:+ "--" +:+ boundary +:+ "--" +:+ crlf))
       /\ (forall rest, read_message 4 (text +:+ rest) = (["Content-Type: text/plain; charset=utf-8"], Some (body +:+ rest)))
       /\ (forall rest, read_message 4 (file +:+ rest)
            = (["Content-Disposition: attachment; filename=" +:+ quoted (attachment_name filename); "Content-Transfer-Encoding: base64";
                "Content-Type: application/octet-stream"], Some (wrapped (Base64.EncodeToString data) +:+ rest))).
Proof.
  intros Hbl addresses delimiter. assert (Ea : addresses = address_lines from to subject replyTo).
  { unfold addresses, address_lines. destruct (decide _) as [E|E]; destruct (String.eqb_spec (sanitizeHeader replyTo) ""); done. }
  clearbody addresses. subst addresses.
  assert (Hlen : (length (address_lines from to subject replyTo) <= 5)%nat) by (unfold address_lines; destruct (String.eqb _ _); cbn; lia).
  destruct (attachment_name_good filename) as [Hn1 Hn2].
  split; [apply sanitizeHeader_kept|]. split; [done|]. split.
  { apply read_message_lines; [apply Forall_app; split; [apply address_lines_good|by repeat constructor]|]. rewrite length_app. cbn [length]. lia. }
  exists (message ["Content-Type: text/plain; charset=utf-8"] body), (message ["Content-Disposition: attachment; filename=" +:+ quoted (attachment_name filename);
    "Content-Transfer-Encoding: base64"; "Content-Type: application/octet-stream"] (wrapped (Base64.EncodeToString data))).
  assert (Hmsg : forall lines b rest, message lines b +:+ rest = message lines (b +:+ rest)) by (intros; unfold message; by rewrite <- !string_app_assoc).
  split; [|split].
  - unfold buildMultipartMessage. rewrite read_message_lines.
    + unfold part, delimiter. by rewrite <- !string_app_assoc.
    + apply Forall_app; split; [apply address_lines_good|]. repeat constructor; [|done].
      unfold quoted. rewrite !one_line_app. cbn [one_line Strings.forall_byte String.append]. unfold one_line in *. by rewrite ?forall_byte_app, Hbl.
    + rewrite length_app. cbn [length]. lia.
  - intros rest. rewrite Hmsg. apply read_message_lines; [by repeat constructor|cbn; lia].
  - intros rest. rewrite Hmsg. apply read_message_lines; [|cbn; lia]. apply Forall_cons; split; [|by repeat constructor]. split; [|done].
    unfold quoted. rewrite !one_line_app. cbn [one_line Strings.forall_byte String.append]. unfold one_line in *. by rewrite ?forall_byte_app, Hn1.
Qed.

Lemma mail_headers_fixed_witness :
  read_message 8 (buildMessage ("Site", "a@b.c") "x@y.z" ("hi" ++ newline ++ "Bcc: all@b.c") "body" "")
    = (["From: Site <a@b.c>"; "To: x@y.z"; "Subject: hiBcc: all@b.c"; "MIME-Version: 1.0"; "Content-Type: text/plain; charset=utf-8"], Some "body").
Proof.
  destruct (mail_headers_fixed ("Site", "a@b.c") "x@y.z" ("hi" ++ newline ++ "Bcc: all@b.c") "body" "" "frontier" "report.enc" [1; 2; 3] eq_refl) as (_ & _ & H & _).
  rewrite H. vm_compute. reflexivity.
Defined.

(** ** Attachments *)

Lemma strip_app a b : Base64.strip (a ++ b) = Base64.strip a ++ Base64.strip b.
Proof. induction a as [|c a IH]; cbn; [done|]. destruct (_ || _); cbn; by rewrite IH. Qed.

Lemma strip_lines l : Base64.strip (String.concat "" ((fun s => s ++ crlf) <$> l)) = Base64.strip (String.concat "" l).
Proof.
  induction l as [|s l IH]; [done|]. cbn [fmap list_fmap]. rewrite !concat_cons, !strip_app.
  change (list_fmap string string (fun s => s ++ crlf) l) with ((fun s => s ++ crlf) <$> l). rewrite IH. cbn [Base64.strip crlf newline].
  by rewrite string_app_nil_r.
Qed.

Lemma concat_lines n : forall fuel s, (0 < n)%nat -> (String.length s <= fuel)%nat -> String.concat "" (lines_of fuel n s) = s.
Proof.
  induction fuel as [|fuel IH]; intros s Hn Hs; [by destruct s; cbn in Hs; [|lia]|]. cbn [lines_of].
  destruct (String.eqb_spec s "") as [->|Hne]; [done|]. rewrite concat_cons, IH; [apply take_drop|done|].
  destruct s as [|c s]; [done|]. unfold Strings.drop. destruct n as [|n]; [lia|]. cbn [String.substring String.length Nat.sub] in *.
  pose proof (substring_short n (String.length s - n) s). lia.
Qed.

Lemma lines_short n : forall fuel s, Forall (fun l => (String.length l <= n)%nat) (lines_of fuel n s).
Proof.
  induction fuel as [|fuel IH]; intros s; cbn [lines_of]; [done|]. destruct (String.eqb s ""); constructor; [|apply IH].
  unfold Strings.take. apply substring_short.
Qed.

(** an attachment comes back whole: what a receiver decodes from the wrapped text is
    the data, and no line of it is longer than 76 characters. *)
Theorem attachment_returned (data : list Z) : Forall is_byte data ->
  Base64.DecodeString (wrapped (Base64.EncodeToString data)) = Some data
  /\ Forall (fun l => (String.length l <= 76)%nat) (lines_of (String.length (Base64.EncodeToString data)) 76 (Base64.EncodeToString data)).
Proof.
  intros Hd. split; [|apply lines_short]. rewrite <- (base64_roundtrip data Hd). unfold wrapped, Base64.DecodeString. by rewrite strip_lines, concat_lines by lia.
Qed.

Lemma attachment_returned_witness :
  Forall is_byte (repeat 255 60) /\ Base64.DecodeString (wrapped (Base64.EncodeToString (repeat 255 60))) = Some (repeat 255 60).
Proof.
  assert (H : Forall is_byte (repeat 255 60)) by (repeat constructor; lia). split; [exact H|]. by destruct (attachment_returned _ H).
Defined.

(** ** What templates do not promise *)

Section templates.
Definition in_order : Shuffle := {| shuffle l := l; shuffle_perm l := reflexivity l |}.
Definition backwards : Shuffle := {| shuffle l := rev l; shuffle_perm l := Permutation_sym (Permutation_rev l) |}.

Definition mailer (text : string) : Mailer :=
  {| m_Enabled := true; m_Host := "mail"; m_FromName := ""; m_FromEmail := ""; m_ReplyTo := ""; appName := "Paste"; appURL := "https://p"; m_fqdn := "p";
     onionAddress := ""; i2pAddress := ""; custom _ := None; embedded _ := Some text |}.

(** A value that names another variable is replaced or not as the map happens to be
    iterated. *)
Lemma substitution_depends_on_order :
  let vars := [("name", "{message}"); ("message", "hello")] in
  @renderTemplate in_order (mailer "{name}") 0 "contact" vars = Ok "hello"
  /\ @renderTemplate backwards (mailer "{name}") 0 "contact" vars = Ok "{message}".
Proof. vm_compute. split; reflexivity. Qed.

(** A variable of the caller with the name of a global one is never used: the global is
    replaced first. *)
Lemma globals_shadow `{Shuffle} m t name value text : loadTemplate m name = Ok text ->
  renderTemplate m t name [("timestamp", value)] = Ok (substitute (foldl substitute text (shuffle (globals m t))) ("timestamp", value)).
Proof.
  intros E. unfold renderTemplate. rewrite E. enough (shuffle [("timestamp", value)] = [("timestamp", value)]) as -> by done.
  apply Permutation_singleton_r, shuffle_perm.
Qed.

Lemma acknowledgement_is_dated_when_rendered :
  @renderTemplate in_order (mailer "Received: {timestamp}") 0 "security_report_ack" [("timestamp", "2024-05-01T10:00:00Z")]
    = Ok "Received: 0001-01-01 00:00:00 UTC".
Proof. vm_compute. reflexivity. Qed.

(** The rendered text is split, not the template: a subject with a line break and a
    separator chooses where the body begins. *)
Lemma subject_chooses_the_body :
  @Render in_order (mailer ("Subject: Contact form: {subject}" ++ newline ++ "---" ++ newline ++ "CONTACT FORM SUBMISSION")) 0 "contact"
      [("subject", "x" ++ newline ++ "---" ++ newline ++ "From: the administrator")]
    = Ok ("Contact form: x", "From: the administrator" ++ newline ++ "---" ++ newline ++ "CONTACT FORM SUBMISSION").
Proof. vm_compute. reflexivity. Qed.
End templates.
