(* ===== verification/Reports.v ===== *)
(** * Security reports and the contact form (src/src/server/security_report.go,
      security_pages.go, server.go, pgp_keypair.go)

    A submission is validated, sealed, stored and announced; its researcher follows it
    with a token. What leaves the server besides the answer is a list of effects. OpenPGP
    is an interface, as are the network a researcher's key is fetched from and the SMTP
    session. A form is what [PostFormValue] answers, or [None] when it is malformed. *)

From S2P Require Import Prelude GoStr GoNet GoTime GoCrypto ConfigText AuditLog Model Cache World Database Http Proxy Csrf Guards Paste Mail Pages.
From Stdlib Require Import Ascii.

(** ** Keys of researchers *)

Class OpenPGP := {
  FingerprintFromPublic : string -> result string;
  pgp_encrypt : string -> string -> result string;
  pgp_decrypt : string -> string -> result string;
}.

Definition maxResearcherKeyBytes : Z := Z.shiftl 1 20.
Definition pgpPublicKeyHeader : string := "-----BEGIN PGP PUBLIC KEY BLOCK-----".

(** The nil address has no bytes. *)
Definition isPublicIP (ip : IP) : bool :=
  negb (Nat.eqb (length ip) 0)
  && negb (IsLoopback ip || IsPrivate ip || IsUnspecified ip || IsLinkLocalUnicast ip || IsLinkLocalMulticast ip || IsMulticast ip).

(** What a server answers to a request. *)
Inductive Hop := Redirected (url : string) | Answered (status : Z) (body : string) | Broken.

(** [resolve]: the addresses, with ports, at which a URL is dialled, in their order:
    those of its host, or those of the proxy that the environment names for it. *)
Record Network := { resolve : string -> list string; connects : string -> bool; respond : string -> string -> Hop }.

(** [dialer.Control]. *)
Definition control (address : string) : bool :=
  match SplitHostPort address with
  | None => false
  | Some (host, _) => match ParseIP host with Some ip => isPublicIP ip | None => false end
  end.

Definition dial (net : Network) (url : string) : option string := first (fun a => control a && connects net a) (resolve net url).

Section fetch.
Context `{UrlParser} `{OpenPGP}.

Definition is_https (url : string) : bool := match url_parse url with Some u => String.eqb (u_scheme u) "https" | None => false end.

(** The requests made, each with its address, and what the last one is answered.
    [more] redirections are still followed. *)
Fixpoint do_get (net : Network) (more : nat) (url : string) : list (string * string) * result (Z * string) :=
  match dial net url with
  | None => ([], Err "fetch researcher key")
  | Some a =>
      match respond net a url with
      | Broken => ([(url, a)], Err "fetch researcher key")
      | Answered status body => ([(url, a)], Ok (status, body))
      | Redirected next =>
          if negb (is_https next) then ([(url, a)], Err "redirect to non-https blocked")
          else match more with
               | O => ([(url, a)], Err "too many redirects")
               | S more => let '(made, r) := do_get net more next in ((url, a) :: made, r)
               end
      end
  end.

Definition limited (body : string) : string :=
  if strlen body <=? maxResearcherKeyBytes then body else Strings.take (Z.to_nat maxResearcherKeyBytes) body.

Definition checked_key (key : string) : result string := match FingerprintFromPublic key with Ok _ => Ok key | Err _ => Err "researcher key invalid" end.

Definition fetchResearcherPubKey (net : Network) (src : string) : list (string * string) * result string :=
  let src := StringsU.TrimSpace src in
  if String.eqb src "" then ([], Err "no researcher key supplied")
  else if Strings.Contains src pgpPublicKeyHeader then ([], checked_key src)
  else match url_parse src with
       | None => ([], Err "parse researcher key url")
       | Some u =>
           if negb (String.eqb (u_scheme u) "https") then ([], Err "researcher key url must be https")
           else
             let '(made, r) := do_get net 2 src in
             (made,
              match r with
              | Err e => Err e
              | Ok (status, body) =>
                  if negb (status =? 200) then Err "fetch researcher key: status"
                  else
                    let key := limited body in
                    if negb (Strings.Contains key pgpPublicKeyHeader) then Err "fetched researcher key is not an armored public key"
                    else checked_key key
              end)
       end.
End fetch.

(** ** Forms *)

Definition defaultDisclosureDays : Z := 90.
Definition securityComponents : list string := ["api"; "frontend"; "cli"; "paste"; "storage"; "config"; "scheduler"; "email"; "other"].
Definition validSeverities : list string := ["Critical"; "High"; "Medium"; "Low"; "Informational"].
Definition validCreditPrefs : list string := ["name"; "handle"; "no"; "anonymous"].

Definition label_char (r : Z) : option ascii :=
  if Utf8.in_rng 97 122 r || Utf8.in_rng 48 57 r || (r =? 45) || (r =? 95) || (r =? 47) || (r =? 46) then Some (chr r)
  else if r =? 32 then Some "-"%char else None.

(** At most [room] characters. *)
Fixpoint label_text (room : nat) (rs : list Z) : string :=
  match room, rs with
  | S room', r :: rs => match label_char r with Some c => String c (label_text room' rs) | None => label_text room rs end
  | _, _ => ""
  end.

Definition sanitizeComponent `{Unicode} (s : string) : string :=
  let s := StringsU.TrimSpace (StringsU.ToLower s) in
  let out := Strings.Trim (label_text 64 (fst <$> Utf8.runes s)) "-" in
  if String.eqb out "" then "unspecified" else out.

Record ReportForm := {
  f_name : string; f_email : string; f_gpg : string; f_component : string; f_componentOther : string; f_endpoint : string; f_severity : string;
  f_summary : string; f_steps : string; f_impact : string; f_suggestedFix : string; f_cveRequested : bool; f_creditPref : string;
  f_creditName : string; f_agreement : bool; f_disclosureDays : Z;
}.

Definition disclosure_days (v : string) : Z :=
  let v := StringsU.TrimSpace v in
  if String.eqb v "" then defaultDisclosureDays
  else match Strconv.Atoi v with
       | (n, None) => if (1 <=? n) && (n <=? 365) then n else defaultDisclosureDays
       | _ => defaultDisclosureDays
       end.

Definition read_form `{Unicode} (form : string -> string) : ReportForm :=
  let get k := StringsU.TrimSpace (form k) in
  {| f_name := get "name"; f_email := get "email"; f_gpg := get "researcher_gpg"; f_component := get "component";
     f_componentOther := get "component_other"; f_endpoint := get "endpoint"; f_severity := get "severity"; f_summary := get "summary";
     f_steps := get "steps"; f_impact := get "impact"; f_suggestedFix := get "suggested_fix"; f_cveRequested := IsTruthy (form "cve_requested");
     f_creditPref := get "credit_preference"; f_creditName := get "credit_name"; f_agreement := IsTruthy (form "agreement");
     f_disclosureDays := disclosure_days (form "disclosure_days") |}.

Definition any_empty (l : list string) : bool := existsb (fun s => String.eqb s "") l.
Definition blanks : string := " " ++ String "009" (String "013" newline).
Definition valid_address (s : string) : bool := Strings.Contains s "@" && negb (Strings.ContainsAny s blanks).

(** Why a submission is refused. *)
Definition form_problem (f : ReportForm) : option string :=
  if any_empty [f_name f; f_email f; f_component f; f_severity f; f_summary f; f_steps f; f_impact f; f_creditPref f]
  then Some "Please complete all required fields."
  else if negb (valid_address (f_email f)) then Some "Please enter a valid email address."
  else if negb (existsb (String.eqb (f_severity f)) validSeverities) then Some "Please choose a valid severity."
  else if negb (existsb (String.eqb (f_creditPref f)) validCreditPrefs) then Some "Please choose a valid credit preference."
  else if negb (f_agreement f) then Some "You must agree to coordinated disclosure to submit a report."
  else None.

Definition component_label (f : ReportForm) : string :=
  if String.eqb (f_component f) "other" && negb (String.eqb (f_componentOther f) "") then f_componentOther f else f_component f.

(** ** The text of a report *)

Record reportMeta := { rm_trackingID : string; rm_timestamp : string; rm_userAgent : string; rm_remoteIP : string; rm_appVersion : string; rm_commitHash : string }.

Definition yes_no (b : bool) : string := if b then "yes" else "no".
Definition line (l : list string) : string := String.concat "" l ++ newline.
Definition optional (s : string) (l : list string) : string := if String.eqb s "" then "" else line l.

Definition buildReportBody (m : reportMeta) (f : ReportForm) : string :=
  String.concat ""
    [line ["Tracking ID: "; rm_trackingID m]; line ["Received: "; rm_timestamp m; newline];
     line ["Reporter: "; f_name f; " <"; f_email f; ">"];
     optional (f_gpg f) ["Reporter PGP: "; f_gpg f];
     line ["Credit preference: "; f_creditPref f; if String.eqb (f_creditName f) "" then "" else " (" ++ f_creditName f ++ ")"; newline];
     line ["Severity (self-assessed): "; f_severity f]; line ["Affected component: "; component_label f];
     optional (f_endpoint f) ["Affected endpoint: "; f_endpoint f];
     line ["CVE requested: "; yes_no (f_cveRequested f)];
     line ["Requested disclosure window: "; Strconv.Itoa (f_disclosureDays f); " days"; newline];
     line ["Summary:"; newline; f_summary f; newline]; line ["Steps to reproduce:"; newline; f_steps f; newline];
     line ["Impact:"; newline; f_impact f; newline];
     optional (f_suggestedFix f) ["Suggested fix:"; newline; f_suggestedFix f; newline];
     line ["-- triage metadata --"]; line ["app_version: "; rm_appVersion m]; line ["commit_hash: "; rm_commitHash m];
     line ["request_user_agent: "; rm_userAgent m]; line ["request_ip: "; rm_remoteIP m]].

(** ** Sealing *)

(** The parts of the server these handlers read, as the configuration gives them:
    [encryptionKey] is [cfg.EncryptionKey()], [projectKey] what [projectPGPPublicKey]
    reads, the addresses those of the methods named like them, [generalWebhooks] whether
    the general role has targets. [dbLocation] is the location of the times the driver
    scans. *)
Record Desk := {
  site : Site; mail : Mailer; network : Network; csrfSecret : list Z; installSecret : list Z; local : Location; dbLocation : Location;
  FormEnabled : bool; Captcha : string; SuccessMessage : string;
  encryptionKey : result (list Z); projectKey : string; publishKey : bool;
  SecurityReportEmail : string; GeneralEmail : string; generalWebhooks : bool;
  torContact : string; GeneralEmailPublic : string; AbuseEmailPublic : string; SecurityEmail : string;
  Expires : string; ReportURL : string; PreferredLanguages : string;
  version : string; commitID : string;
}.

(** What is done besides answering: lines of security.log, audit entries, webhooks, and
    messages handed to the mail server. *)
Inductive Effect :=
  | SecurityLog (event : string) (fields : list string)
  | Audited (e : AuditLog.Entry)
  | Notified (role event subject body severity : string)
  | Mailed (to subject body : string)
  | MailedFile (to subject body filename : string) (data : list Z).

Section world.
Context {C : Type}.

Definition randomHex (n : nat) : M C (result string) :=
  b ← rand_read ((n + 1) / 2);
  mret (match b with Ok b => Ok (Strings.take n (Hex.EncodeToString b)) | Err e => Err e end).

Section sealing.
Context `{AEAD} `{OpenPGP}.

(** [secretbox.Seal] with its nonce. *)
Definition box_seal (key body : list Z) : M C (result (list Z)) :=
  nonce ← (if Nat.eqb (length key) 32 then rand_read nonce_size else mret (Err "")); mret (Seal nonce key body).

(** The sealed body and the label of the method. *)
Definition encryptSecurityReport (pub body : string) (aesKey : list Z) : M C (result (string * string)) :=
  match (if String.eqb pub "" then Err "" else pgp_encrypt pub body) with
  | Ok msg => mret (Ok (msg, "pgp"))
  | Err _ => sealed ← box_seal aesKey (bytes body); mret (match sealed with Ok l => Ok (of_bytes l, "aes-256-gcm") | Err e => Err e end)
  end.

(** [keys]: what reading the current and the rotated private key gives. *)
Definition decryptSecurityReport (keys : list (result string)) (rec : SecurityReport) (aesKey : list Z) : result string :=
  if String.eqb (sr_enc_method rec) "pgp" then
    match first is_ok ((fun k => match k with Ok priv => pgp_decrypt priv (sr_body rec) | Err e => Err e end) <$> keys) with
    | Some r => r
    | None => Err ("pgp: no private key could decrypt report " ++ sr_tracking rec)
    end
  else match Open aesKey (bytes (sr_body rec)) with Ok l => Ok (of_bytes l) | Err e => Err e end.
End sealing.

Section handlers.
Context `{AEAD} `{OpenPGP} `{Unicode} `{JsonText} `{Net} `{UrlParser} `{PublicSuffix} `{Shuffle}.
Context (smtp : string -> string -> string -> result unit) (d : Desk).

Definition desk_url (q : HttpReq) : string := site_url (site d) q.

Definition mailer (q : HttpReq) : Mailer :=
  {| m_Enabled := m_Enabled (mail d); m_Host := m_Host (mail d); m_FromName := m_FromName (mail d); m_FromEmail := m_FromEmail (mail d);
     m_ReplyTo := m_ReplyTo (mail d); appName := SiteTitle (site d); appURL := desk_url q; m_fqdn := m_fqdn (mail d);
     onionAddress := ""; i2pAddress := ""; custom := custom (mail d); embedded := embedded (mail d) |}.

(** [auditLog] fills in who made the request. *)
Definition audit_entry (q : HttpReq) (event severity result : string) (target : option string) (details : list (string * json)) : Effect :=
  Audited {| en_ID := ""; en_Time := ""; en_Event := event; en_Category := ""; en_Severity := severity;
             en_Actor := {| a_IP := clientIP q; a_UserAgent := q_header q "User-Agent" |};
             en_Target := (fun id => {| t_Type := "security_report"; t_ID := id |}) <$> target;
             en_Details := details; en_Result := result; en_Reason := "" |}.

(** ** Messages about a report *)

Record securityEmailCtx := { ec_trackingID : string; ec_timestamp : string; ec_encMethod : string; ec_statusToken : string; ec_sealed : string }.

Definition crlfs (l : list string) : string := String.concat "" ((fun s => s ++ crlf) <$> l).

Definition cover (c : securityEmailCtx) (f : ReportForm) : string :=
  crlfs ["SECURITY REPORT RECEIVED"; ""; "Received: " ++ ec_timestamp c; "Site: " ++ SiteTitle (site d) ++ " (" ++ m_fqdn (mail d) ++ ")"; "";
         "Tracking ID: " ++ ec_trackingID c; "Severity (researcher self-assessment): " ++ f_severity f;
         "Affected component: " ++ component_label f; "CVE requested: " ++ yes_no (f_cveRequested f);
         "Requested disclosure window: " ++ Strconv.Itoa (f_disclosureDays f) ++ " days"; ""].

(** The notification of the maintainer; its failure is only logged. *)
Definition maintainer_mail (c : securityEmailCtx) (f : ReportForm) : list Effect :=
  let to := StringsU.TrimSpace (SecurityReportEmail d) in
  let subject := "[Security] " ++ f_severity f ++ ": " ++ f_summary f in
  if String.eqb to "" then []
  else if String.eqb (ec_encMethod c) "pgp" then
    [Mailed to subject (cover c f ++ crlfs ["The full encrypted report follows. Decrypt it with the project PGP private key."; ""; ec_sealed c])]
  else
    [MailedFile to subject
       (cover c f ++ crlfs ["No PGP key is configured, so the full report is attached as an"; "AES-256-GCM encrypted file. Decrypt it with the server encryption";
                              "key (server.security.encryption_key)."])
       (ec_trackingID c ++ ".enc") (bytes (ec_sealed c))].

Definition ack_vars (q : HttpReq) (c : securityEmailCtx) : list (string * string) :=
  [("timestamp", ec_timestamp c); ("tracking_id", ec_trackingID c);
   ("status_url", desk_url q ++ "/server/security/report/" ++ ec_trackingID c ++ "?token=" ++ ec_statusToken c)].

(** [m.Send] of a mailer that is enabled. *)
Definition mail_template (m : Mailer) (to name : string) (vars : list (string * string)) : M C (result unit * list Effect) :=
  t ← now;
  mret (Send smtp m t to name vars, match Render m t name vars with Ok (subject, body) => [Mailed to subject body] | Err _ => [] end).

(** The acknowledgment under the researcher's key: the message, if one was made, and
    whether it was accepted. *)
Definition sealed_ack (q : HttpReq) (c : securityEmailCtx) (f : ReportForm) : M C (list Effect * bool) :=
  if String.eqb (StringsU.TrimSpace (f_gpg f)) "" then mret ([], false)
  else match (fetchResearcherPubKey (network d) (f_gpg f)).2 with
       | Err _ => mret ([], false)
       | Ok pub =>
           t ← now;
           mret (match Render (mailer q) t "security_report_ack" (ack_vars q c) with
                 | Err _ => ([], false)
                 | Ok (subject, body) =>
                     match pgp_encrypt pub body with
                     | Err _ => ([], false)
                     | Ok armored => ([Mailed (f_email f) subject armored], is_ok (SendRawMessage smtp (mailer q) (f_email f) subject armored))
                     end
                 end)
       end.

Definition sendSecurityReportEmails (q : HttpReq) (c : securityEmailCtx) (f : ReportForm) : M C (list Effect) :=
  if negb (Enabled (mailer q)) then mret []
  else
    ack ← sealed_ack q c f;
    if (ack.2 : bool) then mret (maintainer_mail c f ++ ack.1)%list
    else plain ← mail_template (mailer q) (f_email f) "security_report_ack" (ack_vars q c); mret (maintainer_mail c f ++ ack.1 ++ plain.2)%list.

(** ** The contact page *)

Definition overlay_request (q : HttpReq) : bool :=
  negb (String.eqb (torRequestOnion (st_proxy (site d)) q) "") || negb (String.eqb (i2pRequestB32 (st_proxy (site d)) q) "").
Definition disclosed (q : HttpReq) (address : string) : string := if overlay_request q then StringsU.TrimSpace (torContact d) else address.
Definition publicContactEmail (q : HttpReq) : string := disclosed q (GeneralEmailPublic d).
Definition publicAbuseEmail (q : HttpReq) : string := disclosed q (AbuseEmailPublic d).
Definition publicSecurityEmail (q : HttpReq) : string := disclosed q (SecurityEmail d).

Definition security_id_now : M C string :=
  if Nat.eqb (length (installSecret d)) 0 then mret "" else t ← now; mret (currentSecurityID (installSecret d) t).
Definition security_id_valid (id : string) : M C bool :=
  if String.eqb id "" || Nat.eqb (length (installSecret d)) 0 then mret false else t ← now; mret (validSecurityID (installSecret d) id t).

Definition captcha_data : M C Data :=
  b ← rand_read 2;
  match b with
  | Ok [b0; b1] =>
      t ← now;
      let c := generateSimpleCaptcha (csrfSecret d) b0 b1 t in
      mret {["CaptchaQuestion" := VStr (Question c); "CaptchaToken" := VStr (Token c)]}
  | _ => mret (∅ : Data)
  end.

Definition contactData (q : HttpReq) : M C Data :=
  let base : Data :=
    <["Contact" := VStr (publicContactEmail q)]> (<["Abuse" := VStr (publicAbuseEmail q)]> (<["BaseURL" := VStr (desk_url q)]>
      (<["FormEnabled" := VBool (FormEnabled d)]> (<["CaptchaType" := VStr (Captcha d)]> (pageData (site d)))))) in
  cap ← (if FormEnabled d && String.eqb (Captcha d) "simple" then captcha_data else mret (∅ : Data));
  valid ← (if FormEnabled d then security_id_valid (StringsU.TrimSpace (q_query q "security_id")) else mret false);
  if (valid : bool) then
    id ← security_id_now;
    mret (<["SecurityMode" := VBool true]> (<["SecurityID" := VStr id]> (<["Components" := VStrs securityComponents]>
            (<["FormDisclosureDays" := VInt defaultDisclosureDays]> (cap ∪ base)))))
  else mret (cap ∪ base).

Definition handleContact (q : HttpReq) : M C Answer :=
  data ← contactData q;
  let contact := publicContactEmail q in
  mret (listing_answer (site d) q "contact.html" (if String.eqb contact "" then "" else "Contact: " ++ contact ++ newline) data).

(** [w.WriteHeader(status)] and the page with an error. *)
Definition contact_error (data : Data) (status : Z) (msg : string) : Answer :=
  renderTemplate (site d) (Some status) "contact.html" (<["ContactError" := VStr msg]> data).

(** A form of the page with the built-in captcha passes when the answer is right. *)
Definition captcha_passed (form : string -> string) : M C bool :=
  if String.eqb (Captcha d) "simple" then t ← now; mret (validateSimpleCaptcha (csrfSecret d) (form "captcha_token") (form "captcha") t) else mret true.
Definition captcha_wrong : string := "Captcha answer was incorrect. Please try again.".

(** ** Submission *)

Definition form_data (f : ReportForm) : Data :=
  {["FormName" := VStr (f_name f); "FormEmail" := VStr (f_email f); "FormGPG" := VStr (f_gpg f); "FormComponentOther" := VStr (f_componentOther f);
    "FormEndpoint" := VStr (f_endpoint f); "FormSummary" := VStr (f_summary f); "FormSteps" := VStr (f_steps f); "FormImpact" := VStr (f_impact f);
    "FormSuggestedFix" := VStr (f_suggestedFix f); "FormDisclosureDays" := VInt (f_disclosureDays f); "FormCreditName" := VStr (f_creditName f)]}.
Definition cleared : list string :=
  ["FormName"; "FormEmail"; "FormGPG"; "FormComponentOther"; "FormEndpoint"; "FormSummary"; "FormSteps"; "FormImpact"; "FormSuggestedFix"; "FormCreditName"].

(** The row that is stored. *)
Definition report_row (id hash : string) (f : ReportForm) (sealed : string * string) : SecurityReport :=
  {| sr_tracking := id; sr_status := ""; sr_severity := f_severity f; sr_component := sanitizeComponent (component_label f);
     sr_body := sealed.1; sr_enc_method := sealed.2; sr_credit_pref := f_creditPref f;
     sr_credit_name := if String.eqb (f_creditPref f) "anonymous" || String.eqb (f_creditPref f) "no" then "" else f_creditName f;
     sr_token_hash := hash; sr_comment := ""; sr_days := f_disclosureDays f; sr_created := zero_time; sr_updated := zero_time;
     sr_disclosed := None; sr_token_used := None |}.

(** The webhook, the line and the entry that say a report was received. *)
Definition announced (q : HttpReq) (id : string) (f : ReportForm) : list Effect :=
  let component := sanitizeComponent (component_label f) in
  [Notified "admin" "admin.security_report_received" ("Security report received: " ++ id)
     ("A new security report was received. Severity: " ++ f_severity f ++ "; component: " ++ component
      ++ ". Decrypt the at-rest report to read the full submission.") (f_severity f);
   SecurityLog "security.report_received" ["tracking_id"; id; "severity"; f_severity f; "component"; component];
   audit_entry q "security.report_received" SeverityWarn "" (Some id) [("severity", JStr (f_severity f)); ("component", JStr component)]].

Definition report_meta (q : HttpReq) (id : string) (t : Z) : reportMeta :=
  {| rm_trackingID := id; rm_timestamp := RFC3339 (local d) t; rm_userAgent := q_header q "User-Agent"; rm_remoteIP := clientIP q;
     rm_appVersion := version d; rm_commitHash := commitID d |}.

(** Identifiers, sealing and storing: what was stored with the token, or why it was not. *)
Definition store_report (q : HttpReq) (f : ReportForm) : M C (securityEmailCtx + (Z * string)) :=
  match encryptionKey d with
  | Err _ => mret (inr (503, "Security reporting is temporarily unavailable. Please email the security contact directly."))
  | Ok key =>
      id ← randomHex 16;
      match id with
      | Err _ => mret (inr (500, "Could not process your report. Please try again."))
      | Ok id =>
          let id := "sec_" ++ id in
          token ← randomHex 32;
          match token with
          | Err _ => mret (inr (500, "Could not process your report. Please try again."))
          | Ok token =>
              t ← now;
              sealed ← encryptSecurityReport (projectKey d) (buildReportBody (report_meta q id t) f) key;
              match sealed with
              | Err _ => mret (inr (500, "Could not securely store your report. Please try again."))
              | Ok sealed =>
                  stored ← CreateSecurityReport (report_row id (Hex.EncodeToString (Sha256.Sum256 (bytes token))) f sealed);
                  mret (match stored with
                        | Err _ => inr (500, "Could not record your report. Please try again.")
                        | Ok _ => inl {| ec_trackingID := id; ec_timestamp := RFC3339 (local d) t; ec_encMethod := sealed.2; ec_statusToken := token;
                                         ec_sealed := sealed.1 |}
                        end)
              end
          end
      end
  end.

Definition report_answer (q : HttpReq) (id : string) (data : Data) : Answer :=
  if existsb (String.eqb (detectClientType q)) ["json"; "text"] then
    Plain (writeJSON 200 (JObj [("ok", JBool true); ("data", JObj [("tracking_id", JStr id)])]))
  else
    renderTemplate (site d) None "contact.html"
      (foldr delete (<["ContactSuccess" := VStr ("Thank you — your security report was received and encrypted. Your tracking ID is " ++ id
                                                   ++ ". Check your email for confirmation.")]> data) cleared).

Definition handleSecurityReport (q : HttpReq) (form : string -> string) : M C (Answer * list Effect) :=
  data ← contactData q;
  sid ← security_id_now;
  let f := read_form form in
  let data := form_data f ∪ (<["SecurityMode" := VBool true]> (<["SecurityID" := VStr sid]> (<["Components" := VStrs securityComponents]> data))) in
  match form_problem f with
  | Some msg => mret (contact_error data 400 msg, [])
  | None =>
      passed ← captcha_passed form;
      if negb passed then mret (contact_error data 400 captcha_wrong, [])
      else
        stored ← store_report q f;
        match stored with
        | inr (status, msg) => mret (contact_error data status msg, [])
        | inl c =>
            mails ← sendSecurityReportEmails q c f;
            mret (report_answer q (ec_trackingID c) data, (mails ++ announced q (ec_trackingID c) f)%list)
        end
  end.
End handlers.
End world.
