(* ===== verification/ReportsProofs.v ===== *)
(** * Reports: where keys are fetched, what is stored in the clear, what can be read back *)

From S2P Require Import Prelude GoStr GoStrProofs Utf8Proofs GoNet GoTime GoCrypto ConfigText ConfigInstances AuditLog Model Cache World Database DatabaseProofs Http Proxy ProxyProofs Csrf Guards Paste Instances Mail Pages Reports.
From Stdlib Require Import Ascii.

(** ** Addresses *)

Lemma land_255 b : is_byte b -> Z.land b 255 = b.
Proof. intros Hb. change 255 with (Z.ones 8). rewrite Z.land_ones by lia. unfold is_byte in Hb. apply Z.mod_small. lia. Qed.

Lemma private_nets_value :
  (fun n => (net_ip n, net_mask n)) <$> privateNets =
  [([127; 0; 0; 0], [255; 0; 0; 0]); (replicate 15 0 ++ [1], replicate 16 255)%list; ([10; 0; 0; 0], [255; 0; 0; 0]);
   ([172; 16; 0; 0], [255; 240; 0; 0]); ([192; 168; 0; 0], [255; 255; 0; 0]); ((252 :: replicate 15 0)%list, (254 :: replicate 15 0)%list);
   ([169; 254; 0; 0], [255; 255; 0; 0]); ((254 :: 128 :: replicate 14 0)%list, (255 :: 192 :: replicate 14 0)%list)].
Proof. vm_compute. reflexivity. Qed.

(** The bytes that membership compares. *)
Definition effective (ip : IP) : IP := default ip (To4 ip).

Lemma effective_cases ip n : length (effective ip) = n -> (n = 4%nat \/ n = 16%nat) ->
  (n = 4%nat /\ To4 ip = Some (effective ip)) \/ (n = 16%nat /\ To4 ip = None /\ effective ip = ip).
Proof.
  unfold effective, To4. intros Hl Hn. destruct (Nat.eqb (length ip) 4) eqn:E4; [apply Nat.eqb_eq in E4; left; cbn in *; split; [congruence|done]|].
  apply Nat.eqb_neq in E4. destruct (_ && _) eqn:E16; cbn in *.
  - bsplit. apply Nat.eqb_eq in H. left. split; [|done]. rewrite length_drop in Hl. lia.
  - right. destruct Hn as [->| ->]; [lia|]. done.
Qed.

Lemma effective_bytes ip : Forall is_byte ip -> Forall is_byte (effective ip).
Proof. unfold effective, To4. intros Hb. repeat case_match; try done. by apply Forall_drop. Qed.

Lemma Contains_spec n ip nn m : network_number n = (nn, m) -> Contains n ip = true ->
  length (effective ip) = length nn /\ mask_bytes (effective ip) m = mask_bytes nn m.
Proof.
  intros E. unfold Contains. rewrite E. fold (effective ip). intros [Hl He]%andb_true_iff. apply Nat.eqb_eq in Hl. by apply bool_decide_eq_true in He.
Qed.

(** No address that passes belongs to a network whose peers are trusted. *)
Lemma public_not_trusted ip : Forall is_byte ip -> isPublicIP ip = true -> existsb (fun n => Contains n ip) privateNets = false.
Proof.
  intros Hb Hp. destruct (existsb _ _) eqn:E; [|done]. apply existsb_exists in E as (n & Hn & Hc).
  apply (List.in_map (fun n => (net_ip n, net_mask n))) in Hn. change (List.map ?f ?l) with (f <$> l) in Hn. rewrite private_nets_value in Hn.
  pose proof (effective_bytes ip Hb) as He. unfold isPublicIP in Hp. apply andb_true_iff in Hp as [_ Hp]. apply negb_true_iff in Hp.
  destruct n as [nip nmask]. cbn [net_ip net_mask] in Hn.
  destruct Hn as [Hn|[Hn|[Hn|[Hn|[Hn|[Hn|[Hn|[Hn|[]]]]]]]]]; injection Hn as <- <-;
    (eapply Contains_spec in Hc as [Hl Hm]; [|vm_compute; reflexivity]); cbn [length] in Hl;
    (destruct (effective_cases _ _ Hl) as [[? Ht]|(? & Ht & Hs)]; [auto| |]; try discriminate);
    try rewrite Hs in *; unfold IsLoopback, IsPrivate, IsLinkLocalUnicast in Hp; rewrite Ht in Hp; unfold byte_at in Hp;
    rewrite !orb_false_iff in Hp; destruct Hp as (((((? & ?) & ?) & ?) & ?) & ?);
    repeat (match goal with E : length ?l = S _ |- _ => destruct l; [discriminate|]; cbn [length] in E; apply Nat.succ_inj in E end);
    match goal with E : length ?l = 0%nat |- _ => apply nil_length_inv in E; subst l end;
    repeat match goal with F : Forall is_byte (_ :: _) |- _ => apply Forall_cons in F as [? F] end;
    (match type of Hm with _ = ?rhs => let v := eval vm_compute in rhs in change rhs with v in Hm end);
    unfold mask_bytes in Hm; cbn [zip_with] in Hm; injection Hm as; rewrite ?land_255 in * by done; cbn [nth] in *;
    cbn [length Nat.eqb andb] in *;
    first [rewrite ?andb_false_iff, ?Z.eqb_neq in *; lia | subst; match goal with B : bool_decide _ = false |- _ => vm_compute in B; discriminate B end].
Qed.

(** Addresses that are not routable pass all the same: shared space, the rest of
    0.0.0.0/8, documentation, the reserved block, the broadcast address, and private
    addresses embedded for NAT64. *)
Lemma unroutable_addresses_pass :
  forallb (fun s => match ParseIP s with Some ip => isPublicIP ip | None => false end)
    ["100.64.0.1"; "0.1.2.3"; "192.0.2.1"; "198.18.0.1"; "240.0.0.1"; "255.255.255.255"; "64:ff9b::a00:1"; "2002:a00:1::"; "2001:db8::1"] = true.
Proof. vm_compute. reflexivity. Qed.

Section fetching.
Context `{UrlParser} `{OpenPGP}.
Implicit Types (net : Network).

(** A request to an address of the URL that is no one's inside. *)
Definition contained net (made : string * string) : Prop :=
  is_https made.1 = true /\ In made.2 (resolve net made.1)
  /\ exists host port ip, SplitHostPort made.2 = Some (host, port) /\ ParseIP host = Some ip /\ isPublicIP ip = true.

Lemma dial_contained net url a : is_https url = true -> dial net url = Some a -> contained net (url, a).
Proof.
  intros Hu [Hin Ha]%first_Some. split; [done|]. split; [by apply list_elem_of_In|]. apply andb_true_iff in Ha as [Ha _]. unfold control in Ha.
  cbn [snd]. destruct (SplitHostPort a) as [[host port]|]; [|done]. destruct (ParseIP host) as [ip|] eqn:E; [|done]. by exists host, port, ip.
Qed.

Lemma do_get_contained net : forall more url, is_https url = true ->
  Forall (contained net) (do_get net more url).1 /\ (length (do_get net more url).1 <= S more)%nat
  /\ (is_ok (do_get net more url).2 = true -> (do_get net more url).1 <> []).
Proof.
  induction more as [|more IH]; intros url Hu; cbn [do_get]; destruct (dial net url) as [a|] eqn:Ed; try (repeat split; [constructor|cbn; lia|done]).
  all: pose proof (dial_contained net url a Hu Ed) as Hc; destruct (respond net a url) as [next|status body|];
    try (repeat split; [by apply Forall_singleton|cbn; lia|done]).
  all: destruct (is_https next) eqn:Hn; cbn [negb]; try (repeat split; [by apply Forall_singleton|cbn; lia|done]).
  destruct (IH next Hn) as (H1 & H2 & _). destruct (do_get net more next) as [made r]. cbn in *. repeat split; [by constructor|lia|done].
Qed.

Lemma limited_bound body : strlen (limited body) <= maxResearcherKeyBytes.
Proof.
  unfold limited. destruct (strlen body <=? maxResearcherKeyBytes) eqn:E; [lia|]. unfold strlen, Strings.take.
  assert (0 <= maxResearcherKeyBytes) by (vm_compute; discriminate). pose proof (substring_short 0 (Z.to_nat maxResearcherKeyBytes) body). lia.
Qed.

Lemma checked_key_spec key k : checked_key key = Ok k -> k = key /\ is_ok (FingerprintFromPublic key) = true.
Proof. unfold checked_key. destruct (FingerprintFromPublic key); [|done]. by intros [= ->]. Qed.

(** C17 — whatever a researcher enters for a key, and however the servers answer, at most
    three requests are made, each to an https URL and to an address that is not of a
    network the server trusts; a key that is used is an armored block that parses, and
    one that was fetched is at most a megabyte. *)
Theorem researcher_key_contained net src :
  let '(made, r) := fetchResearcherPubKey net src in
  Forall (contained net) made /\ (length made <= 3)%nat
  /\ (forall url a host port ip, In (url, a) made -> SplitHostPort a = Some (host, port) -> ParseIP host = Some ip -> Forall is_byte ip ->
       existsb (fun n => Contains n ip) privateNets = false)
  /\ (forall key, r = Ok key -> Strings.Contains key pgpPublicKeyHeader = true /\ is_ok (FingerprintFromPublic key) = true
        /\ (made = [] -> key = StringsU.TrimSpace src) /\ (made <> [] -> strlen key <= maxResearcherKeyBytes)).
Proof.
  assert (Hshape : forall made, Forall (contained net) made -> forall url a host port ip, In (url, a) made -> SplitHostPort a = Some (host, port) ->
            ParseIP host = Some ip -> Forall is_byte ip -> existsb (fun n => Contains n ip) privateNets = false).
  { intros made Hm url a host port ip Hin Es Ep Hb. rewrite Forall_forall in Hm. apply list_elem_of_In in Hin. apply Hm in Hin as (_ & _ & h' & p' & ip' & E1 & E2 & E3).
    cbn [snd] in E1. rewrite Es in E1. injection E1 as <- <-. rewrite Ep in E2. injection E2 as <-. by apply public_not_trusted. }
  unfold fetchResearcherPubKey. set (s := StringsU.TrimSpace src). clearbody s.
  destruct (String.eqb s ""); [by repeat split; [constructor|cbn; lia|..]|].
  destruct (Strings.Contains s pgpPublicKeyHeader) eqn:Eh.
  { split; [constructor|]. split; [cbn; lia|]. split; [done|]. intros key [-> Hf]%checked_key_spec. done. }
  destruct (url_parse s) as [u|] eqn:Eu; [|by repeat split; [constructor|cbn; lia|..]].
  destruct (String.eqb (u_scheme u) "https") eqn:Es; cbn [negb]; [|by repeat split; [constructor|cbn; lia|..]].
  destruct (do_get_contained net 2 s) as (Hc & Hl & Hn); [by unfold is_https; rewrite Eu|].
  destruct (do_get net 2 s) as [made r]. cbn [fst snd] in *. split; [done|]. split; [done|]. split; [by apply Hshape|]. intros key.
  destruct r as [[status body]|e]; [|done]. destruct (negb (status =? 200)); [done|].
  destruct (Strings.Contains (limited body) pgpPublicKeyHeader) eqn:Eb; [|done]. cbn [negb]. intros [-> Hf]%checked_key_spec.
  repeat split; [done..| |]; [intros ->; by destruct Hn|intros _; apply limited_bound].
Qed.
End fetching.

(** ** Labels *)

Definition label_byte (c : ascii) : bool :=
  Utf8.in_rng 97 122 (byte c) || Utf8.in_rng 48 57 (byte c) || Strings.in_set "-_/." c.

Lemma label_char_byte r c : label_char r = Some c -> label_byte c = true.
Proof.
  unfold label_char. intros E. destruct (_ || _) eqn:Er in E; [injection E as <-|destruct (r =? 32); [injection E as <-; done|done]].
  assert (Hr : 0 <= r < 128) by (unfold Utf8.in_rng in Er; lia). unfold label_byte. rewrite byte_chr by lia.
  unfold Utf8.in_rng in *. repeat (apply orb_true_iff in Er as [Er|Er]); try lia.
  all: apply Z.eqb_eq in Er; subst r; reflexivity.
Qed.

Lemma label_text_spec : forall rs room, Strings.forall_byte label_byte (label_text room rs) = true /\ (String.length (label_text room rs) <= room)%nat.
Proof.
  induction rs as [|r rs IH]; intros [|room]; cbn [label_text]; try (split; [done|cbn; lia]).
  destruct (label_char r) as [c|] eqn:E; [|apply IH]. cbn [Strings.forall_byte String.length]. rewrite (label_char_byte _ _ E). destruct (IH room). split; [done|lia].
Qed.

Lemma TrimLeft_spec cut s : exists p, s = p ++ Strings.TrimLeft s cut.
Proof. induction s as [|c s (p & IH)]; [by exists ""|]. cbn [Strings.TrimLeft]. destruct (Strings.in_set cut c); [exists (String c p); cbn; by f_equal|by exists ""]. Qed.

Lemma Trim_inside cut s : exists p q, s = p ++ Strings.Trim s cut ++ q.
Proof.
  destruct (TrimLeft_spec cut s) as [p Hp]. destruct (TrimRight_spec (Strings.TrimLeft s cut) cut) as (q & Hq & _). exists p, q.
  unfold Strings.Trim. by rewrite <- Hq.
Qed.

(** the component kept in the clear is a short label: one to sixty-four characters,
    lower-case letters, digits and -_/. only, whatever was entered. *)
Theorem component_is_label `{Unicode} (s : string) :
  Strings.forall_byte label_byte (sanitizeComponent s) = true /\ 1 <= strlen (sanitizeComponent s) <= 64.
Proof.
  unfold sanitizeComponent. set (l := label_text 64 _). destruct (label_text_spec (fst <$> Utf8.runes (StringsU.TrimSpace (StringsU.ToLower s))) 64) as [Hl Hn].
  fold l in Hl, Hn. clearbody l. destruct (Trim_inside "-" l) as (p & q & E). set (t := Strings.Trim l "-") in *. clearbody t. subst l.
  rewrite !forall_byte_app in Hl. bsplit. rewrite !string_app_length in Hn.
  destruct (String.eqb_spec t "") as [->|Hne]; [by split|]. split; [done|]. destruct t; [done|]. unfold strlen. cbn [String.length] in *. lia.
Qed.

(** What is typed for another component is kept, names and addresses included. *)
Lemma component_keeps_names : @sanitizeComponent ascii_unicode "Jane Doe jane.doe/example.org" = "jane-doe-jane.doe/example.org".
Proof. vm_compute. reflexivity. Qed.

(** ** Storing *)

Section storing.
Context {C : Type} `{AEAD} `{OpenPGP} `{Unicode} `{JsonText} `{Net} `{UrlParser} `{PublicSuffix} `{Shuffle}.
Context (smtp : string -> string -> string -> result unit) (d : Desk).
Implicit Types (w : World C) (f : ReportForm) (q : HttpReq).

(** Computations that leave the database as it is. *)
Definition quiet {A} (m : M C A) : Prop := forall w, w_db (m w).2 = w_db w.

Lemma quiet_ret {A} (a : A) : quiet (mret a).
Proof. done. Qed.
Lemma quiet_bind {A B} (m : M C A) (k : A -> M C B) : quiet m -> (forall a, quiet (k a)) -> quiet (m ≫= k).
Proof. intros Hm Hk w. rewrite bind_run. specialize (Hm w). destruct (m w) as [a w']. cbn in Hm. by rewrite Hk. Qed.
Lemma quiet_now : quiet now.
Proof. done. Qed.
Lemma quiet_rand n : quiet (rand_read n).
Proof. intros w. unfold rand_read. by case_bool_decide. Qed.

Ltac quiet_tac :=
  repeat match goal with
  | |- quiet (mret _) => apply quiet_ret
  | |- quiet (_ ≫= _) => apply quiet_bind; [|intros ?]
  | |- quiet now => apply quiet_now
  | |- quiet (rand_read _) => apply quiet_rand
  | |- quiet (match ?x with _ => _ end) => destruct x
  | |- _ => solve [auto]
  end.

Lemma quiet_contactData q : quiet (contactData d q).
Proof. unfold contactData, captcha_data, security_id_valid, security_id_now. quiet_tac. Qed.
Lemma quiet_id : quiet (security_id_now d).
Proof. unfold security_id_now. quiet_tac. Qed.
Lemma quiet_captcha form : quiet (captcha_passed d form).
Proof. unfold captcha_passed. quiet_tac. Qed.
Lemma quiet_mails q c f : quiet (sendSecurityReportEmails smtp d q c f).
Proof. unfold sendSecurityReportEmails, sealed_ack, mail_template. quiet_tac. Qed.
Lemma quiet_seal pub body key : quiet (encryptSecurityReport pub body key).
Proof. unfold encryptSecurityReport, box_seal. quiet_tac. Qed.

(** The world goes on alike whatever the answer to the captcha. *)
Lemma captcha_world form w : (captcha_passed d form w).2 = if String.eqb (Captcha d) "simple" then advance w else w.
Proof. unfold captcha_passed. by destruct (String.eqb _ _). Qed.

(** Where the random bytes of a submission come from. *)
Definition id_of w : string := "sec_" ++ Strings.take 16 (Hex.EncodeToString (take 8 (w_rand w))).
Definition token_of_world w : string := Strings.take 32 (Hex.EncodeToString (take 16 (drop 8 (w_rand w)))).
Definition after_ids w : World C := set_rand (drop 16 (drop 8 (w_rand w))) (set_rand (drop 8 (w_rand w)) w).
Definition report_text q f w : string := buildReportBody (report_meta d q (id_of w) (w_clock w)) f.

Lemma store_report_run q f w c w' : store_report d q f w = (inl c, w') ->
  exists key w1, encryptionKey d = Ok key
  /\ encryptSecurityReport (C:=C) (projectKey d) (report_text q f w) key (advance (after_ids w)) = (Ok (ec_sealed c, ec_encMethod c), w1)
  /\ ec_trackingID c = id_of w /\ ec_statusToken c = token_of_world w /\ ec_timestamp c = RFC3339 (local d) (w_clock w)
  /\ (24 <= length (w_rand w))%nat
  /\ first (has_tracking (id_of w)) (t_reports (w_db w)) = None
  /\ w_db w' = with_reports (t_reports (w_db w) ++
       [stamp_report (w_clock w1) (report_row (id_of w) (Hex.EncodeToString (Sha256.Sum256 (bytes (token_of_world w)))) f (ec_sealed c, ec_encMethod c))])%list (w_db w).
Proof.
  unfold store_report. destruct (encryptionKey d) as [key|e]; [|done]. unfold randomHex. rewrite !bind_run. unfold rand_read at 1.
  change ((16 + 1) / 2)%nat with 8%nat. case_bool_decide as H8; [|done]. cbn [mret M_ret]. rewrite !bind_run. unfold rand_read at 1.
  change ((32 + 1) / 2)%nat with 16%nat. cbn [w_rand set_rand]. case_bool_decide as H16; [|done]. cbn [mret M_ret]. rewrite bind_now, bind_run.
  change (w_clock (set_rand _ (set_rand _ w))) with (w_clock w). fold (id_of w). fold (report_text q f w).
  fold (after_ids w). pose proof (quiet_seal (projectKey d) (report_text q f w) key (advance (after_ids w))) as Hq.
  destruct (encryptSecurityReport _ _ _ _) as [[[sealed method]|e] w1] eqn:Es; [|done]. cbn in Hq.
  rewrite bind_run. unfold CreateSecurityReport. rewrite bind_now. fold (token_of_world w).
  set (row := stamp_report (w_clock w1) _). set (g := fun d0 : DBState => _).
  destruct (sql_cases g (advance w1)) as [(w2 & E2 & Hw2)|(w2 & E2 & Hw2)]; rewrite E2; [done|]. subst g. cbn beta in *.
  change (w_db (advance w1)) with (w_db w1) in *. rewrite Hq in *. cbn [sr_tracking report_row] in *.
  destruct (existsb (has_tracking (id_of w)) (t_reports (w_db w))) eqn:Ee; cbn [fst snd] in *; [done|].
  intros [= <- <-]. exists key, w1. cbn [ec_sealed ec_encMethod ec_trackingID ec_statusToken ec_timestamp fst snd].
  rewrite length_drop in H16. repeat split; [done|lia| |done].
  apply first_None. intros r Hr. destruct (has_tracking (id_of w) r) eqn:Er; [|done]. apply list_elem_of_In in Hr.
  rewrite <- Ee. symmetry. apply existsb_exists. eauto.
Qed.

Lemma stored_found id hash f sealed t l : first (has_tracking id) l = None ->
  first (has_tracking id) (l ++ [stamp_report t (report_row id hash f sealed)])%list = Some (stamp_report t (report_row id hash f sealed)).
Proof. intros E. rewrite first_app, E. cbn. unfold has_tracking. cbn. by rewrite String.eqb_refl. Qed.

Lemma store_report_fails q f w x w' : store_report d q f w = (inr x, w') -> w_db w' = w_db w.
Proof.
  unfold store_report. destruct (encryptionKey d) as [key|e]; [|by intros [= _ <-]]. unfold randomHex. rewrite !bind_run. unfold rand_read at 1.
  case_bool_decide; [|by intros [= _ <-]]. cbn [mret M_ret]. rewrite !bind_run. unfold rand_read at 1.
  case_bool_decide; [|by intros [= _ <-]]. cbn [mret M_ret]. rewrite bind_now, bind_run.
  match goal with |- context [encryptSecurityReport ?a ?b ?k ?w] => pose proof (quiet_seal a b k w) as Hq; destruct (encryptSecurityReport a b k w) as [[[sealed method]|e] w1] end;
    cbn in Hq; [|by intros [= _ <-]].
  rewrite bind_run. unfold CreateSecurityReport. rewrite bind_now. set (g := fun d0 : DBState => _).
  destruct (sql_cases g (advance w1)) as [(w2 & E2 & Hw2)|(w2 & E2 & Hw2)]; rewrite E2; subst g; cbn beta in *;
    [by intros [= _ <-]; rewrite Hw2|]. destruct (existsb _ _); cbn [fst snd] in *; [by intros [= _ <-]; rewrite Hw2|done].
Qed.
Lemma seal_clock pub body key w : w_clock (encryptSecurityReport (C:=C) pub body key w).2 = w_clock w.
Proof.
  unfold encryptSecurityReport, box_seal. destruct (if String.eqb pub "" then _ else _); [done|]. rewrite !bind_run.
  destruct (Nat.eqb _ _); [|done]. unfold rand_read. by case_bool_decide.
Qed.

(** The world when a submission is stored; it does not depend on what is submitted. *)
Definition entry q w : World C :=
  let w := (security_id_now d (contactData d q w).2).2 in if String.eqb (Captcha d) "simple" then advance w else w.

Lemma entry_db q w : w_db (entry q w) = w_db w.
Proof. unfold entry. pose proof (quiet_id (contactData d q w).2) as H7. rewrite quiet_contactData in H7. by destruct (String.eqb _ _). Qed.

(** A submission is refused, or stored and announced. *)
Lemma report_cases q form w a e w' : handleSecurityReport smtp d q form w = ((a, e), w') ->
  (w_db w' = w_db w /\ e = [])
  \/ exists c w1 mails, form_problem (read_form form) = None /\ store_report d q (read_form form) (entry q w) = (inl c, w1)
     /\ sendSecurityReportEmails smtp d q c (read_form form) w1 = (mails, w') /\ w_db w' = w_db w1
     /\ e = (mails ++ announced q (ec_trackingID c) (read_form form))%list
     /\ exists data, a = report_answer d q (ec_trackingID c) data.
Proof.
  unfold handleSecurityReport. rewrite !bind_run. pose proof (entry_db q w) as He. unfold entry in He |- *.
  pose proof (quiet_contactData q w) as Hq. destruct (contactData d q w) as [data w1]. cbn [snd] in *. rewrite bind_run.
  pose proof (quiet_id w1) as Hi. destruct (security_id_now d w1) as [sid w2]. cbn [snd] in *.
  destruct (form_problem (read_form form)) as [msg|] eqn:Ep; [intros [= <- <- <-]; left; split; [congruence|done]|].
  rewrite bind_run. pose proof (captcha_world form w2) as Hw. destruct (captcha_passed d form w2) as [passed w3]. cbn [snd] in Hw. rewrite <- Hw in He |- *.
  destruct passed; cbn [negb]; [|intros [= <- <- <-]; left; by split].
  rewrite bind_run. destruct (store_report d q (read_form form) w3) as [[c|[status msg]] w4] eqn:Es.
  - rewrite bind_run. pose proof (quiet_mails q c (read_form form) w4) as Hm. destruct (sendSecurityReportEmails smtp d q c (read_form form) w4) as [mails w5] eqn:Em.
    cbn in Hm. intros [= <- <- <-]. right. exists c, w4, mails. repeat split; [done..|]. by eexists.
  - intros [= <- <- <-]. left. apply store_report_fails in Es. split; [congruence|done].
Qed.

(** ** What is stored in the clear *)

Definition public_part f : string * string * string * string * Z :=
  (f_severity f, sanitizeComponent (component_label f), f_creditPref f,
   (if String.eqb (f_creditPref f) "anonymous" || String.eqb (f_creditPref f) "no" then "" else f_creditName f), f_disclosureDays f).

Definition redact (r : SecurityReport) : SecurityReport :=
  {| sr_tracking := sr_tracking r; sr_status := sr_status r; sr_severity := sr_severity r; sr_component := sr_component r; sr_body := ""; sr_enc_method := "";
     sr_credit_pref := sr_credit_pref r; sr_credit_name := sr_credit_name r; sr_token_hash := sr_token_hash r; sr_comment := sr_comment r;
     sr_days := sr_days r; sr_created := sr_created r; sr_updated := sr_updated r; sr_disclosed := sr_disclosed r; sr_token_used := sr_token_used r |}.
Definition redacted (db : DBState) : DBState := with_reports (redact <$> t_reports db) db.

Definition is_mail (e : Effect) : bool := match e with Mailed _ _ _ | MailedFile _ _ _ _ _ => true | _ => false end.

Definition only_mail (l : list Effect) : Prop := Forall (fun e => is_mail e = true) l.

Lemma only_mail_maintainer c f : only_mail (maintainer_mail d c f).
Proof. unfold maintainer_mail. repeat case_match; by repeat constructor. Qed.
Lemma only_mail_template m to name vars w : only_mail (mail_template smtp m to name vars w).1.2.
Proof. unfold mail_template. rewrite bind_now. cbn. destruct (Render _ _ _ _) as [[]|]; by repeat constructor. Qed.
Lemma only_mail_ack q c f w : only_mail (sealed_ack smtp d q c f w).1.1.
Proof.
  unfold sealed_ack. destruct (String.eqb _ _); [constructor|]. destruct (fetchResearcherPubKey _ _).2; [|constructor]. rewrite bind_now. cbn.
  destruct (Render _ _ _ _) as [[]|]; [|constructor]. destruct (pgp_encrypt _ _); by repeat constructor.
Qed.

Lemma only_mail_sent q c f w : only_mail (sendSecurityReportEmails smtp d q c f w).1.
Proof.
  unfold sendSecurityReportEmails. destruct (negb _); [constructor|]. rewrite bind_run.
  pose proof (only_mail_ack q c f w) as Ha. destruct (sealed_ack smtp d q c f w) as [[sealed ok] w1]. cbn [fst snd] in *.
  destruct ok; [apply Forall_app; split; [apply only_mail_maintainer|done]|]. rewrite bind_run.
  pose proof (only_mail_template (mailer d q) (f_email f) "security_report_ack" (ack_vars d q c) w1) as Hp.
  destruct (mail_template _ _ _ _ _ w1) as [plain w2]. cbn [fst snd mret M_ret] in *. apply Forall_app; split; [apply only_mail_maintainer|]. by apply Forall_app.
Qed.

Lemma without_mail l : only_mail l -> keep (fun e => negb (is_mail e)) l = [].
Proof. intros Hl. apply keep_none. unfold only_mail in Hl. rewrite Forall_forall in Hl. intros x Hx. by rewrite (Hl x Hx). Qed.

(** C9 — two submissions that have their severity, label, credit and window in common
    leave the same database but for the sealed bodies, and the same webhooks, log lines
    and audit entries: no other table, column or channel but mail depends on the name,
    the address, the endpoint, the summary, the steps, the impact or the fix. A body is
    what sealing the text of the report gave. *)
Theorem report_metadata_only q form1 form2 w a1 e1 w1 a2 e2 w2 :
  public_part (read_form form1) = public_part (read_form form2) ->
  handleSecurityReport smtp d q form1 w = ((a1, e1), w1) -> handleSecurityReport smtp d q form2 w = ((a2, e2), w2) ->
  t_reports (w_db w1) <> t_reports (w_db w) -> t_reports (w_db w2) <> t_reports (w_db w) ->
  redacted (w_db w1) = redacted (w_db w2)
  /\ keep (fun e => negb (is_mail e)) e1 = keep (fun e => negb (is_mail e)) e2
  /\ exists row key w3, last (t_reports (w_db w1)) = Some row /\ encryptionKey d = Ok key
       /\ (encryptSecurityReport (projectKey d) (report_text q (read_form form1) (entry q w)) key w3).1 = Ok (sr_body row, sr_enc_method row).
Proof.
  intros Hp H1' H2' N1 N2.
  apply report_cases in H1' as [[E _]|(c1 & v1 & m1 & _ & S1 & M1 & D1 & -> & _)]; [by rewrite E in N1|].
  apply report_cases in H2' as [[E _]|(c2 & v2 & m2 & _ & S2 & M2 & D2 & -> & _)]; [by rewrite E in N2|].
  pose proof (only_mail_sent q c1 (read_form form1) v1) as O1. rewrite M1 in O1. pose proof (only_mail_sent q c2 (read_form form2) v2) as O2. rewrite M2 in O2.
  apply store_report_run in S1 as (key1 & x1 & K1 & X1 & I1 & _ & _ & _ & _ & R1). apply store_report_run in S2 as (key2 & x2 & K2 & X2 & I2 & _ & _ & _ & _ & R2).
  pose proof (seal_clock (projectKey d) (report_text q (read_form form1) (entry q w)) key1 (advance (after_ids (entry q w)))) as T1. rewrite X1 in T1. cbn [snd] in T1.
  pose proof (seal_clock (projectKey d) (report_text q (read_form form2) (entry q w)) key2 (advance (after_ids (entry q w)))) as T2. rewrite X2 in T2. cbn [snd] in T2.
  rewrite D1, D2, R1, R2, T1, T2.
  set (f1 := read_form form1) in *. set (f2 := read_form form2) in *. clearbody f1 f2. injection Hp as P1 P2 P3 P4 P5. split_and!.
  - unfold redacted. cbn [t_reports with_reports]. rewrite !fmap_app. cbn [fmap list_fmap]. unfold redact, stamp_report, report_row.
    cbn [sr_tracking sr_status sr_severity sr_component sr_credit_pref sr_credit_name sr_token_hash sr_comment sr_days sr_created sr_updated sr_disclosed sr_token_used].
    by rewrite P1, P2, P4, P3, P5.
  - rewrite !keep_app, (without_mail m1 O1), (without_mail m2 O2). unfold announced. by rewrite I1, I2, P1, P2.
  - eexists _, key1, _. split; [cbn [t_reports with_reports]; apply last_snoc|]. split; [done|]. by rewrite X1.
Qed.
(** The summary goes to the maintainer in the subject, which is not encrypted. *)
Lemma summary_in_subject c f : StringsU.TrimSpace (SecurityReportEmail d) <> "" ->
  exists to subject e, maintainer_mail d c f = [e] /\ subject = "[Security] " ++ f_severity f ++ ": " ++ f_summary f
    /\ match e with Mailed t s _ => (t, s) | MailedFile t s _ _ _ => (t, s) | _ => ("", "") end = (to, subject).
Proof.
  intros Ht. unfold maintainer_mail. destruct (String.eqb_spec (StringsU.TrimSpace (SecurityReportEmail d)) "") as [|_]; [done|].
  destruct (String.eqb (ec_encMethod c) "pgp"); by eexists _, _, _.
Qed.

(** ** What can be read back *)

(** Random bytes stay bytes. *)
Definition tidy {A} (m : M C A) : Prop := forall w, Forall is_byte (w_rand w) -> Forall is_byte (w_rand (m w).2).

Lemma tidy_ret {A} (a : A) : tidy (mret a).
Proof. by intros w. Qed.
Lemma tidy_bind {A B} (m : M C A) (k : A -> M C B) : tidy m -> (forall a, tidy (k a)) -> tidy (m ≫= k).
Proof. intros Hm Hk w Hw. rewrite bind_run. apply Hm in Hw. destruct (m w) as [a w']. by apply Hk. Qed.
Lemma tidy_now : tidy now.
Proof. by intros w. Qed.
Lemma tidy_rand n : tidy (rand_read n).
Proof. intros w Hw. unfold rand_read. case_bool_decide; [|done]. cbn. by apply Forall_drop. Qed.

Ltac tidy_tac :=
  repeat match goal with
  | |- tidy (mret _) => apply tidy_ret
  | |- tidy (_ ≫= _) => apply tidy_bind; [|intros ?]
  | |- tidy now => apply tidy_now
  | |- tidy (rand_read _) => apply tidy_rand
  | |- tidy (match ?x with _ => _ end) => destruct x
  end.

Lemma entry_tidy q w : Forall is_byte (w_rand w) -> Forall is_byte (w_rand (entry q w)).
Proof.
  intros Hw. unfold entry. assert (H1' : tidy (contactData d q)) by (unfold contactData, captcha_data, security_id_valid, security_id_now; tidy_tac).
  assert (H2' : tidy (security_id_now d)) by (unfold security_id_now; tidy_tac). apply H1', H2' in Hw. by destruct (String.eqb _ _).
Qed.

(** Some private key that is read opens what the public one sealed, and those before it
    open nothing. *)
Definition opens (keys : list (result string)) (pub : string) : Prop :=
  forall body m, pgp_encrypt pub body = Ok m -> exists before priv after,
    keys = (before ++ Ok priv :: after)%list /\ pgp_decrypt priv m = Ok body
    /\ Forall (fun k => match k with Ok p => is_ok (pgp_decrypt p m) = false | Err _ => True end) before.

Lemma report_decrypts `{!AEADLaws} keys pub body key w sealed method w' rec :
  opens keys pub -> Forall is_byte (w_rand w) ->
  encryptSecurityReport (C:=C) pub body key w = (Ok (sealed, method), w') -> sr_body rec = sealed -> sr_enc_method rec = method ->
  decryptSecurityReport keys rec key = Ok body.
Proof.
  intros Ho Hr. unfold encryptSecurityReport, decryptSecurityReport. intros E Eb Em. rewrite Eb, Em. clear Eb Em.
  destruct (if String.eqb pub "" then Err "" else pgp_encrypt pub body) as [m|e] eqn:Ep.
  - injection E as <- <- _. change (String.eqb "pgp" "pgp") with true. cbn iota. destruct (String.eqb pub ""); [done|].
    destruct (Ho _ _ Ep) as (before & priv & after & -> & Hd & Hb). rewrite fmap_app, first_app.
    assert (Hn : first is_ok ((fun k => match k with Ok p => pgp_decrypt p m | Err e => Err e end) <$> before) = None).
    { apply first_None. intros x (k & -> & Hk)%list_elem_of_fmap. rewrite Forall_forall in Hb. specialize (Hb k Hk). by destruct k. }
    rewrite Hn. cbn [fmap list_fmap first]. by rewrite Hd.
  - rewrite !bind_run in E. unfold box_seal in E. rewrite bind_run in E.
    destruct (Nat.eqb (length key) 32) eqn:Ek; [|].
    + unfold rand_read in E. case_bool_decide as Hl; cbn in E; [|unfold Seal in E; by rewrite Ek in E].
      change 12%nat with nonce_size in E. destruct (Seal (Ok (take nonce_size (w_rand w))) key (bytes body)) as [l|e'] eqn:Es; [|done]. injection E as <- <- _.
      change (String.eqb "aes-256-gcm" "pgp") with false. cbn [is_ok]. rewrite bytes_of_bytes.
      * rewrite (Open_Seal (take nonce_size (w_rand w)) key (bytes body) l); [by rewrite of_bytes_bytes| |done]. rewrite length_take. unfold nonce_size in *. lia.
      * unfold Seal in Es. rewrite Ek in Es. cbn in Es. injection Es as <-. apply Forall_app. split; [by apply Forall_take|apply gcm_seal_bytes].
    + unfold Seal in E. cbn in E. by rewrite Ek in E.
Qed.

(** C10 — a report that was stored is found under its identifier, and what decrypting
    its body gives, with the project's keys or the server's, is the whole report as it
    was submitted: also when the key it was sealed with has been rotated. *)
Theorem report_recoverable `{!AEADLaws} q form w a e w' keys key :
  handleSecurityReport smtp d q form w = ((a, e), w') -> t_reports (w_db w') <> t_reports (w_db w) ->
  opens keys (projectKey d) -> encryptionKey d = Ok key -> Forall is_byte (w_rand w) ->
  exists row, first (has_tracking (id_of (entry q w))) (t_reports (w_db w')) = Some row
    /\ sr_status row = SecStatusReceived
    /\ decryptSecurityReport keys row key = Ok (report_text q (read_form form) (entry q w)).
Proof.
  intros H' N Ho Hk Hr. apply report_cases in H' as [[E _]|(c & v & m & _ & S1 & _ & D1 & _ & _)]; [by rewrite E in N|].
  apply store_report_run in S1 as (key1 & x1 & K1 & X1 & _ & _ & _ & _ & F1 & R1). rewrite K1 in Hk. injection Hk as ->.
  rewrite D1, R1. cbn [t_reports with_reports]. rewrite (stored_found _ _ _ _ _ _ F1). eexists. split; [done|]. split; [done|].
  eapply report_decrypts; [done| |exact X1|done|done]. cbn. do 2 apply Forall_drop. by apply entry_tidy.
Qed.
End storing.

(** ** Witnesses *)

#[local] Instance scheme_urls : UrlParser :=
  {| url_parse := fun s => if Strings.HasPrefix s "https://" then Some {| u_scheme := "https"; u_host := ""; u_hostname := ""; u_path := "" |} else None |}.

(** Messages that carry the name of their key. *)
#[export] Instance named_keys : OpenPGP :=
  {| FingerprintFromPublic := fun key => Ok key; pgp_encrypt := fun pub body => Ok (pub ++ ":" ++ body);
     pgp_decrypt := fun priv m => if Strings.HasPrefix m (priv ++ ":") then Ok (Strings.TrimPrefix m (priv ++ ":")) else Err "wrong key" |}.
#[export] Instance as_listed : Shuffle := {| shuffle l := l; shuffle_perm l := reflexivity l |}.

Definition quiet_site : Site :=
  {| SiteTitle := "Pastes"; Theme := "dark"; apiVersion := "v1"; st_proxy := some_config; st_operatorTokenHash := []; loaded := fun _ => true |}.

Definition some_mail : Mailer :=
  {| m_Enabled := true; m_Host := "mail"; m_FromName := ""; m_FromEmail := ""; m_ReplyTo := ""; appName := ""; appURL := ""; m_fqdn := "p.org";
     onionAddress := ""; i2pAddress := ""; custom := fun _ => None;
     embedded := fun _ => Some ("Subject: Received" ++ newline ++ "---" ++ newline ++ "{status_url}") |}.

(** A server that redirects once, to an address inside. *)
Definition tempting : Network :=
  {| resolve := fun url => if String.eqb url "https://a/key" then ["9.9.9.9:443"] else ["10.0.0.1:443"; "8.8.8.8:443"]; connects := fun _ => true;
     respond := fun _ url => if String.eqb url "https://a/key" then Redirected "https://inside/key" else Answered 200 pgpPublicKeyHeader |}.

Definition some_desk : Desk :=
  {| site := quiet_site; mail := some_mail; network := tempting; csrfSecret := [1]; installSecret := []; local := UTC; dbLocation := UTC;
     FormEnabled := true; Captcha := ""; SuccessMessage := "Thanks"; encryptionKey := Ok (repeat 1 32); projectKey := "KEY"; publishKey := true;
     SecurityReportEmail := "sec@p.org"; GeneralEmail := "hi@p.org"; generalWebhooks := false; torContact := ""; GeneralEmailPublic := "";
     AbuseEmailPublic := ""; SecurityEmail := "sec@p.org"; Expires := ""; ReportURL := ""; PreferredLanguages := "en"; version := "1"; commitID := "c" |}.

Definition visitor (client : string) (query : string -> string) : HttpReq :=
  {| q_method := "POST"; q_path := "/server/contact"; q_route := "/server/contact"; q_query := query; q_proto := "HTTP/1.1"; q_tls_version := 0; q_rawpath := "";
     q_rawquery := ""; q_host := "p.org"; q_remote := "9.9.9.9:1"; q_tls := true; q_header := fun k => if String.eqb k "Accept" then client else "";
     q_cookie := fun _ => None; q_form := fun _ => ""; q_peer := None; q_allowlisted := false; q_csrf := ""; q_txt := false |}.

Definition some_form (name summary : string) (k : string) : string :=
  default "x" (snd <$> first (fun kv => String.eqb kv.1 k)
    [("name", name); ("email", "a@b.c"); ("researcher_gpg", ""); ("component", "api"); ("component_other", ""); ("severity", "High"); ("summary", summary);
     ("credit_preference", "anonymous"); ("agreement", "yes"); ("disclosure_days", "30")]).

Definition no_smtp (from to msg : string) : result unit := Err "smtp".

Definition submit (name summary : string) : (Answer * list Effect) * World noopCache :=
  handleSecurityReport no_smtp some_desk (visitor "text/html" (fun _ => "")) (some_form name summary) (sample_world empty_db).

Lemma submit_stores name summary : length (t_reports (w_db (submit name summary).2)) = 1%nat -> t_reports (w_db (submit name summary).2) <> t_reports (w_db (sample_world empty_db)).
Proof. intros El E. rewrite E in El. discriminate El. Qed.

Lemma component_is_label_witness : 1 <= strlen (@sanitizeComponent ascii_unicode "<b> API </b>") <= 64.
Proof. apply component_is_label. Defined.

Lemma researcher_key_contained_witness :
  (fetchResearcherPubKey tempting " https://a/key ").1 = [("https://a/key", "9.9.9.9:443"); ("https://inside/key", "8.8.8.8:443")]
  /\ Forall (contained tempting) (fetchResearcherPubKey tempting " https://a/key ").1.
Proof.
  split; [vm_compute; reflexivity|]. pose proof (researcher_key_contained tempting " https://a/key ") as P.
  destruct (fetchResearcherPubKey tempting " https://a/key ") as [made r]. apply P.
Defined.

Lemma report_metadata_only_witness :
  redacted (w_db (submit "Jane" "overflow").2) = redacted (w_db (submit "John" "injection").2) /\ w_db (submit "Jane" "overflow").2 <> w_db (submit "John" "injection").2.
Proof.
  assert (N1 : length (t_reports (w_db (submit "Jane" "overflow").2)) = 1%nat) by (vm_compute; reflexivity).
  assert (N2 : length (t_reports (w_db (submit "John" "injection").2)) = 1%nat) by (vm_compute; reflexivity).
  split; [|intros E; apply (f_equal (fun d => sr_body <$> t_reports d)) in E; vm_compute in E; discriminate E].
  apply submit_stores in N1. apply submit_stores in N2. unfold submit in *.
  destruct (handleSecurityReport no_smtp some_desk (visitor "text/html" (fun _ => "")) (some_form "Jane" "overflow") (sample_world empty_db)) as [[a1 e1] w1] eqn:E1.
  destruct (handleSecurityReport no_smtp some_desk (visitor "text/html" (fun _ => "")) (some_form "John" "injection") (sample_world empty_db)) as [[a2 e2] w2] eqn:E2.
  cbn [snd] in *. refine (proj1 (report_metadata_only no_smtp some_desk _ _ _ _ _ _ _ _ _ _ _ E1 E2 N1 N2)). vm_compute. reflexivity.
Defined.

Lemma named_opens : opens [Err "absent"; Ok "KEY"] "KEY".
Proof.
  intros body m [= <-]. exists [Err "absent"], "KEY", []. split; [done|]. split; [|by repeat constructor].
  cbn [pgp_decrypt named_keys]. unfold Strings.TrimPrefix. pose proof (drop_app "KEY:" body) as E. cbn in E |- *. rewrite E. by destruct body.
Qed.

Lemma report_recoverable_witness :
  exists row, t_reports (w_db (submit "Jane" "overflow").2) = [row] /\ Strings.Contains (sr_body row) "overflow" = true
    /\ decryptSecurityReport [Err "absent"; Ok "KEY"] row (repeat 1 32)
       = Ok (report_text some_desk (visitor "text/html" (fun _ => "")) (read_form (some_form "Jane" "overflow")) (sample_world empty_db)).
Proof.
  assert (N1 : length (t_reports (w_db (submit "Jane" "overflow").2)) = 1%nat) by (vm_compute; reflexivity).
  apply submit_stores in N1. unfold submit in *.
  destruct (handleSecurityReport no_smtp some_desk (visitor "text/html" (fun _ => "")) (some_form "Jane" "overflow") (sample_world empty_db)) as [[a1 e1] w1] eqn:E1.
  cbn [snd] in *. destruct (report_recoverable no_smtp some_desk _ _ _ _ _ _ _ (repeat 1 32) E1 N1 named_opens eq_refl) as (row & Hf & _ & Hd);
    [by repeat constructor|]. exists row.
  assert (Hl : exists r, t_reports (w_db w1) = [r] /\ Strings.Contains (sr_body r) "overflow" = true).
  { replace w1 with (submit "Jane" "overflow").2 by (unfold submit; by rewrite E1). eexists. split; vm_compute; reflexivity. }
  destruct Hl as (r & Er & Hr). rewrite Er in Hf |- *. assert (r = row) as ->; [|by split_and!].
  cbn in Hf. destruct (has_tracking _ r); [by injection Hf|done].
Defined.
