(* ===== verification/Disclosure.v ===== *)
(** * Pages around security reports (src/src/server/security_pages.go, and the contact
      form and the project key in server.go and pgp_keypair.go)

    What a researcher sees of a report with a token, who is acknowledged, the policy
    pages, and the contact form, which leads to a report when it carries a valid
    identifier. *)

From S2P Require Import Prelude GoStr GoTime GoCrypto ConfigText AuditLog Model Cache World Database Http Proxy Csrf Guards Paste Mail Pages Reports.
From Stdlib Require Import Ascii.

Definition securityClosedGrace : Z := 30 * 24 * Hour.

Definition SecStatusTriaged : string := "Triaged".
Definition SecStatusConfirmed : string := "Confirmed".
Definition SecStatusPatching : string := "Patching".
Definition SecStatusWontFix : string := "Won't Fix".

Definition securityStatusStages : list string := [SecStatusReceived; SecStatusTriaged; SecStatusConfirmed; SecStatusPatching; SecStatusDisclosed].

(** ** Acknowledgments *)

(** [anon]: the anonymous researchers so far. *)
Fixpoint ack_entries (loc : Location) (anon : Z) (reports : list SecurityReport) : list ackEntry :=
  match reports with
  | [] => []
  | r :: reports =>
      let display := StringsU.TrimSpace (sr_credit_name r) in
      let hidden := String.eqb (sr_credit_pref r) "anonymous" || String.eqb display "" in
      let anon := if hidden then anon + 1 else anon in
      {| Year := match sr_disclosed r with Some t => Year_ loc t | None => 0 end;
         Display := if hidden then "Anonymous Researcher #" ++ Strconv.Itoa anon else display;
         ack_Severity := sr_severity r; Component := sr_component r |} :: ack_entries loc anon reports
  end.
Definition buildAckEntries (loc : Location) (reports : list SecurityReport) : list ackEntry := ack_entries loc 0 reports.

(** ** Dates *)

Definition sameUTCDate (a b : Z) : bool := bool_decide ((Year_ UTC a, Month_ UTC a, Day_ UTC a) = (Year_ UTC b, Month_ UTC b, Day_ UTC b)).

Definition securityReportClosedAt (rep : SecurityReport) : option Z :=
  if String.eqb (sr_status rep) SecStatusDisclosed then Some (default (sr_updated rep) (sr_disclosed rep))
  else if String.eqb (sr_status rep) SecStatusWontFix then Some (sr_updated rep)
  else None.

(** [t.AddDate(0, 0, days)] and [t.AddDate(1, 0, 0)]. *)
Definition AddDays (loc : Location) (t days : Z) : Z := of_unix (date_unix loc (wall loc t + days * 86400 - unix_epoch)) + t mod Second.
Definition AddYear (loc : Location) (t : Z) : Z :=
  of_unix (date_unix loc (day_number (Year_ loc t + 1) (Month_ loc t) (Day_ loc t) * 86400 + wall loc t mod 86400 - unix_epoch)) + t mod Second.

Definition long_months : list string :=
  ["January"; "February"; "March"; "April"; "May"; "June"; "July"; "August"; "September"; "October"; "November"; "December"].
(** [January 2, 2006]. *)
Definition long_date (loc : Location) (t : Z) : string :=
  nth (Z.to_nat (Month_ loc t - 1)) long_months "" ++ " " ++ Strconv.Itoa (Day_ loc t) ++ ", " ++ FormatYear loc t.

Section disclosure.
Context {C : Type} `{AEAD} `{OpenPGP} `{Unicode} `{JsonText} `{Net} `{UrlParser} `{PublicSuffix} `{Shuffle}.
Context (smtp : string -> string -> string -> result unit) (d : Desk).

Definition with_base (q : HttpReq) : Data := <["BaseURL" := VStr (desk_url d q)]> (pageData (site d)).

(** ** The project key *)

(** [keyFile]: what reading the file gives. *)
Definition handlePGPKey (keyFile : option string) : Response :=
  let absent := http_Error "404 page not found" 404 in
  if negb (publishKey d) then absent
  else match keyFile with
       | None | Some "" => absent
       | Some body => {| status := 200; headers := [("Content-Type", "application/pgp-keys; charset=utf-8"); ("Cache-Control", "public, max-age=3600")];
                         body := BText body |}
       end.
Definition hasPGPKey (keyFile : option string) : bool := publishKey d && match keyFile with Some body => 0 <? strlen body | None => false end.

(** ** Policy pages *)

Definition handleSecurityOverview (keyFile : option string) (q : HttpReq) : M C Answer :=
  let expires := StringsU.TrimSpace (Expires d) in
  expires ← (if String.eqb expires "" then t ← now; mret (RFC3339 UTC (AddYear (local d) t)) else mret expires);
  id ← security_id_now d;
  let form := if String.eqb id "" then "" else Strings.TrimRight (desk_url d q) "/" ++ "/server/contact?security_id=" ++ id in
  mret (listing_answer (site d) q "security_overview.html" ("Security: report vulnerabilities via " ++ ReportURL d ++ newline)
    (<["ReportURL" := VStr (ReportURL d)]> (<["ReportFormURL" := VStr form]> (<["SecurityEmail" := VStr (publicSecurityEmail d q)]>
      (<["HasPGPKey" := VBool (hasPGPKey keyFile)]> (<["Expires" := VStr expires]>
        (<["PreferredLanguages" := VStr (PreferredLanguages d)]> (with_base q)))))))).

Definition handleSecurityPolicy (keyFile : option string) (q : HttpReq) : Answer :=
  listing_answer (site d) q "security_policy.html"
    ("Security policy: coordinated disclosure within " ++ Strconv.Itoa defaultDisclosureDays ++ " days." ++ newline)
    (<["DisclosureDays" := VInt defaultDisclosureDays]> (<["SecurityEmail" := VStr (publicSecurityEmail d q)]>
      (<["HasPGPKey" := VBool (hasPGPKey keyFile)]> (with_base q)))).

Definition handleSecurityThanks (q : HttpReq) : M C Answer :=
  reports ← ListDisclosedSecurityReports;
  mret (match reports with
        | Err _ => renderErrorPage (site d) q 500 "Could not load acknowledgments."
        | Ok reports =>
            let entries := buildAckEntries (dbLocation d) reports in
            listing_answer (site d) q "security_thanks.html" ("Security acknowledgments: " ++ Strconv.Itoa (Z.of_nat (length entries)) ++ " researcher(s)." ++ newline)
              (<["Entries" := VAcks entries]> (with_base q))
        end).

(** ** The status of a report *)

Definition reportStatusPageData (q : HttpReq) (rep : SecurityReport) : Data :=
  let expected := AddDays (dbLocation d) (sr_created rep) (sr_days rep) in
  let data : Data :=
    {["TrackingID" := VStr (sr_tracking rep); "Status" := VStr (sr_status rep); "Severity" := VStr (sr_severity rep);
      "Component" := VStr (sr_component rep); "Comment" := VStr (StringsU.TrimSpace (sr_comment rep));
      "ReceivedAt" := VStr (long_date (local d) (sr_created rep)); "UpdatedAt" := VStr (long_date (local d) (sr_updated rep));
      "ExpectedDate" := VStr (long_date (local d) expected); "Stages" := VStrs securityStatusStages; "CurrentStage" := VStr (sr_status rep);
      "SecurityEmail" := VStr (publicSecurityEmail d q)]} ∪ with_base q in
  match sr_disclosed rep with Some t => <["DisclosedAt" := VStr (FormatDate UTC t)]> data | None => data end.

Definition report_not_found (q : HttpReq) : Answer := renderErrorPage (site d) q 404 "Report not found.".

Definition status_page (written : option Z) (data : Data) : Answer := renderTemplate (site d) written "security_report_status.html" data.

(** Access to the status page, as the two logs record it. *)
Definition status_event (q : HttpReq) (event severity result : string) (id : string) (fields : list string) (details : list (string * json)) : list Effect :=
  [SecurityLog event ("tracking_id" :: id :: fields); audit_entry q event severity result (Some id) details].

Definition handleSecurityReportStatus (q : HttpReq) (tracking_id : string) : M C (Answer * list Effect) :=
  let trackingID := StringsU.TrimSpace tracking_id in
  let token := StringsU.TrimSpace (q_query q "token") in
  if String.eqb trackingID "" || String.eqb token "" then mret (report_not_found q, [])
  else
    rep ← GetSecurityReport trackingID;
    match rep with
    | Err _ => mret (renderErrorPage (site d) q 500 "Could not load the report status.", [])
    | Ok None => mret (report_not_found q, [])
    | Ok (Some rep) =>
        let supplied := Hex.EncodeToString (Sha256.Sum256 (bytes token)) in
        if negb (String.eqb supplied (sr_token_hash rep)) then
          mret (report_not_found q, status_event q "security.status_token_invalid" SeverityWarn ResultFailure trackingID ["ip"; clientIP q] [])
        else
          t ← now;
          if match securityReportClosedAt rep with Some closedAt => closedAt + securityClosedGrace <? t | None => false end
          then mret (renderErrorPage (site d) q 410 "This report is closed and its status link has expired.", [])
          else if match sr_token_used rep with Some used => sameUTCDate used t | None => false end then
            mret (status_page (Some 429) (<["RateLimited" := VBool true]> (reportStatusPageData q rep)),
                  status_event q "security.status_token_reused" SeverityWarn ResultFailure trackingID ["ip"; clientIP q] [])
          else
            _ ← MarkSecurityReportTokenUsed trackingID t;
            mret (status_page None (reportStatusPageData q rep),
                  status_event q "security.status_viewed" SeverityInfo "" trackingID ["status"; sr_status rep] [("status", JStr (sr_status rep))])
    end.

(** ** The contact form *)

Definition contact_vars (name from subject message : string) : list (string * string) :=
  [("name", name); ("email", from); ("subject", subject); ("message", message)].

Definition contact_form (name from subject message : string) : Data :=
  {["FormName" := VStr name; "FormEmail" := VStr from; "FormSubject" := VStr subject; "FormMessage" := VStr message]}.

(** A message to the general contact. [warned]: what was logged before. *)
Definition general_message (q : HttpReq) (form : string -> string) (data : Data) (warned : list Effect) : M C (Answer * list Effect) :=
  let get k := StringsU.TrimSpace (form k) in
  let name := get "name" in let from := get "email" in let subject := get "subject" in let message := get "message" in
  let shown := contact_form name from subject message ∪ data in
  if any_empty [name; from; subject; message] then mret (contact_error d shown 400 "All fields are required.", warned)
  else if negb (valid_address from) then mret (contact_error d shown 400 "Please enter a valid email address.", warned)
  else
    passed ← captcha_passed d form;
    if negb passed then mret (contact_error d shown 400 captcha_wrong, warned)
    else
      let to := StringsU.TrimSpace (GeneralEmail d) in
      let emailReady := negb (String.eqb to "") && Enabled (mailer d q) in
      if negb emailReady && negb (generalWebhooks d) then
        mret (contact_error d shown 503 "The contact form is currently unavailable. Please try again later.", warned)
      else
        let hook := Notified "general" "general.contact_submitted" ("Contact form: " ++ subject)
                      ("From: " ++ name ++ " <" ++ from ++ ">" ++ newline ++ newline ++ message) "info" in
        let thanked := renderTemplate (site d) None "contact.html"
                         (foldr delete (<["ContactSuccess" := VStr (SuccessMessage d)]> shown) ["FormName"; "FormEmail"; "FormSubject"; "FormMessage"]) in
        if emailReady then
          sent ← mail_template smtp (mailer d q) to "contact" (contact_vars name from subject message);
          mret (match sent with
                | (Err _, mails) => (contact_error d shown 502 "Failed to send your message. Please try again later.", (warned ++ hook :: mails)%list)
                | (Ok _, mails) => (thanked, (warned ++ hook :: mails)%list)
                end)
        else mret (thanked, (warned ++ [hook])%list).

Definition handleContactPost (q : HttpReq) (form : option (string -> string)) : M C (Answer * list Effect) :=
  data ← contactData d q;
  if negb (FormEnabled d) then mret (renderTemplate (site d) (Some 404) "contact.html" data, [])
  else
    match form with
    | None => mret (contact_error d data 400 "Invalid form submission.", [])
    | Some form =>
        let asked := StringsU.TrimSpace (q_query q "security_id") in
        let supplied := if String.eqb asked "" then StringsU.TrimSpace (form "security_id") else asked in
        valid ← security_id_valid d supplied;
        if (valid : bool) then handleSecurityReport smtp d q form
        else
          let warned :=
            if String.eqb supplied "" then []
            else [SecurityLog "security.security_id_invalid" ["ip"; clientIP q; "ua"; q_header q "User-Agent"; "supplied_id"; supplied];
                  audit_entry q "security.security_id_invalid" SeverityWarn ResultFailure None []] in
          general_message q form data warned
    end.
End disclosure.
