(* ===== verification/DisclosureProofs.v ===== *)
(** * Status links, acknowledgments, and what the contact form lets out *)

From S2P Require Import Prelude GoStr GoStrProofs GoTextProofs GoNet GoTime GoCrypto ConfigText AuditLog Model Cache World Database DatabaseProofs Http Proxy ProxyProofs Csrf Guards Paste Instances Mail Pages Reports ReportsProofs Disclosure.
From Stdlib Require Import Ascii.

(** ** The status page *)

Section status.
Context {C : Type} `{AEAD} `{OpenPGP} `{Unicode} `{JsonText} `{Net} `{UrlParser} `{PublicSuffix} `{Shuffle}.
Context (smtp : string -> string -> string -> result unit) (d : Desk).
Context (Hloaded : loaded (site d) "security_report_status.html" = true).
Implicit Types (w : World C) (q : HttpReq).

(** The status of an answer that is the status page, with its data. *)
Definition status_shown (a : Answer) : option (Z * Data) :=
  match a with Page s t data => if String.eqb t "security_report_status.html" then Some (s, data) else None | _ => None end.

Definition token_hash q : string := Hex.EncodeToString (Sha256.Sum256 (bytes (StringsU.TrimSpace (q_query q "token")))).

Definition used_today (rep : SecurityReport) (t : Z) : bool := match sr_token_used rep with Some u => sameUTCDate u t | None => false end.
Definition link_expired (rep : SecurityReport) (t : Z) : bool := match securityReportClosedAt rep with Some c => c + securityClosedGrace <? t | None => false end.

Lemma error_page_shows q s m : status_shown (renderErrorPage (site d) q s m) = None.
Proof. unfold renderErrorPage. by repeat case_match. Qed.

Lemma status_page_shows written data : status_shown (status_page d written data) = Some (default 200 written, data).
Proof. unfold status_page, renderTemplate. by rewrite Hloaded. Qed.

(** The report that a request's link opens. *)
Definition linked q (id : string) (db : DBState) : option SecurityReport :=
  if String.eqb (StringsU.TrimSpace id) "" || String.eqb (StringsU.TrimSpace (q_query q "token")) "" then None
  else match first (has_tracking (StringsU.TrimSpace id)) (t_reports db) with
       | Some rep => if String.eqb (token_hash q) (sr_token_hash rep) then Some rep else None
       | None => None
       end.

Definition mark (id : string) (t : Z) (db : DBState) : DBState := with_reports (upd (has_tracking (StringsU.TrimSpace id)) (set_token_used t) (t_reports db)) db.

(** Without failures of the database the page is a function of the report the link
    opens and of the time. *)
Lemma status_run q id w : calm w ->
  let '((a, _), w') := handleSecurityReportStatus d q id w in
  calm w' /\
  match linked q id (w_db w) with
  | None => a = report_not_found d q /\ w_db w' = w_db w
  | Some rep =>
      if link_expired rep (w_clock w) then a = renderErrorPage (site d) q 410 "This report is closed and its status link has expired." /\ w_db w' = w_db w
      else if used_today rep (w_clock w) then
        a = status_page d (Some 429) (<["RateLimited" := VBool true]> (reportStatusPageData d q rep)) /\ w_db w' = w_db w
      else a = status_page d None (reportStatusPageData d q rep) /\ w_db w' = mark id (w_clock w) (w_db w)
  end.
Proof.
  intros Hc. unfold handleSecurityReportStatus, linked. destruct (_ || _); [done|]. rewrite bind_run. unfold GetSecurityReport. rewrite query_calm by done.
  destruct (first _ _) as [rep|]; [|done]. fold (token_hash q). destruct (String.eqb (token_hash q) (sr_token_hash rep)); cbn [negb]; [|done].
  rewrite bind_now. fold (link_expired rep (w_clock w)). destruct (link_expired rep (w_clock w)); [done|].
  fold (used_today rep (w_clock w)). destruct (used_today rep (w_clock w)); [done|].
  rewrite bind_run. unfold MarkSecurityReportTokenUsed. rewrite exec_calm by done. done.
Qed.

(** C12 — the status page is shown only for the token of the report; a wrong token and an
    unknown report are answered alike, whatever the database holds; a link of a report
    closed for thirty days shows nothing. *)
Theorem status_page_guarded q id w : calm w ->
  let '((a, _), w') := handleSecurityReportStatus d q id w in
  match status_shown a with
  | Some (s, data) =>
      exists rep, linked q id (w_db w) = Some rep /\ link_expired rep (w_clock w) = false
      /\ sr_token_hash rep = token_hash q /\ sr_tracking rep = StringsU.TrimSpace id
      /\ s = (if used_today rep (w_clock w) then 429 else 200)
  | None => w_db w' = w_db w /\ (linked q id (w_db w) = None -> a = report_not_found d q)
  end.
Proof.
  intros Hc. pose proof (status_run q id w Hc) as Hr. destruct (handleSecurityReportStatus d q id w) as [[a e] w']. destruct Hr as [_ Hr].
  destruct (linked q id (w_db w)) as [rep|] eqn:El; [|destruct Hr as [-> ->]; unfold report_not_found; by rewrite error_page_shows].
  assert (Hl : sr_token_hash rep = token_hash q /\ sr_tracking rep = StringsU.TrimSpace id).
  { unfold linked in El. destruct (_ || _); [done|]. destruct (first _ _) as [r|] eqn:Ef; [|done]. destruct (String.eqb_spec (token_hash q) (sr_token_hash r)); [|done].
    injection El as ->. split; [done|]. apply first_Some in Ef as [_ Ef]. by apply String.eqb_eq in Ef. }
  destruct (link_expired rep (w_clock w)) eqn:Ex; [destruct Hr as [-> ->]; rewrite error_page_shows; by split|].
  destruct (used_today rep (w_clock w)) eqn:Eu; destruct Hr as [-> _]; rewrite status_page_shows; cbn [default]; exists rep; rewrite Eu; destruct Hl; by repeat split.
Qed.

(** Opening the link marks its report. *)
Lemma linked_mark q q2 id db rep t : linked q id db = Some rep -> q_query q2 "token" = q_query q "token" ->
  linked q2 id (mark id t db) = Some (set_token_used t rep).
Proof.
  unfold linked, mark, token_hash. intros E ->. destruct (_ || _); [done|]. cbn [t_reports with_reports]. rewrite first_upd by done.
  destruct (first _ _) as [r|] eqn:Ef; [|done]. apply first_Some in Ef as [_ Ef]. cbn [fmap option_map option_fmap]. rewrite Ef. cbn [set_token_used sr_token_hash].
  destruct (String.eqb _ _); [|done]. by injection E as ->.
Qed.

Lemma marked_data q q2 rep t : publicSecurityEmail d q2 = publicSecurityEmail d q -> desk_url d q2 = desk_url d q ->
  reportStatusPageData d q2 (set_token_used t rep) = reportStatusPageData d q rep.
Proof. intros E1 E2. unfold reportStatusPageData, with_base. by rewrite E1, E2. Qed.

(** a link opens once a day: after the page was shown with 200, the next request
    with the link on the same day of UTC is answered 429, or 410 when the report has been
    closed for too long in the meantime. The page it is answered 429 with has the data
    of the first one, and the notice. *)
Theorem status_once_a_day q id w data : calm w ->
  status_shown (handleSecurityReportStatus d q id w).1.1 = Some (200, data) ->
  forall q2 w2, calm w2 -> w_db w2 = w_db (handleSecurityReportStatus d q id w).2 -> sameUTCDate (w_clock w) (w_clock w2) = true ->
    q_query q2 "token" = q_query q "token" -> publicSecurityEmail d q2 = publicSecurityEmail d q -> desk_url d q2 = desk_url d q ->
    let '((a, _), w3) := handleSecurityReportStatus d q2 id w2 in
    w_db w3 = w_db w2 /\
    (status_shown a = Some (429, <["RateLimited" := VBool true]> data)
     \/ a = renderErrorPage (site d) q2 410 "This report is closed and its status link has expired.").
Proof.
  intros Hc Hs q2 w2 Hc2 Hdb Hday Hq He Hu. pose proof (status_run q id w Hc) as Hr. destruct (handleSecurityReportStatus d q id w) as [[a e] w'].
  cbn [fst snd] in *. destruct Hr as [_ Hr]. destruct (linked q id (w_db w)) as [rep|] eqn:El;
    [|destruct Hr as [-> _]; unfold report_not_found in Hs; by rewrite error_page_shows in Hs].
  destruct (link_expired rep (w_clock w)); [destruct Hr as [-> _]; by rewrite error_page_shows in Hs|].
  destruct (used_today rep (w_clock w)); destruct Hr as [-> Hw]; rewrite status_page_shows in Hs; cbn [default] in Hs; [done|]. injection Hs as <-.
  pose proof (status_run q2 id w2 Hc2) as Hr. destruct (handleSecurityReportStatus d q2 id w2) as [[a2 e2] w3]. destruct Hr as [_ Hr].
  rewrite Hdb, Hw, (linked_mark q q2 id _ rep _ El Hq) in Hr. unfold used_today in Hr. cbn [sr_token_used set_token_used] in Hr. rewrite Hday in Hr.
  rewrite Hdb, Hw. destruct (link_expired _ _); destruct Hr as [-> ->]; (split; [done|]); [by right|left].
  rewrite status_page_shows, (marked_data q q2) by done. done.
Qed.
(** A view whose mark the database refuses is shown all the same, and not counted. *)
Lemma unmarked_view_shown q id w rep : w_faults w = [false; true] -> linked q id (w_db w) = Some rep -> link_expired rep (w_clock w) = false ->
  used_today rep (w_clock w) = false ->
  let '((a, _), w') := handleSecurityReportStatus d q id w in status_shown a = Some (200, reportStatusPageData d q rep) /\ w_db w' = w_db w.
Proof.
  intros Hf Hl Hx Hu. unfold handleSecurityReportStatus. unfold linked in Hl. destruct (_ || _); [done|]. rewrite bind_run. unfold GetSecurityReport, query, sql.
  rewrite Hf. cbn [hd tl]. destruct (first _ _) as [r|]; [|done]. cbn [w_db set_faults set_db]. fold (token_hash q) in *.
  destruct (String.eqb (token_hash q) (sr_token_hash r)); cbn [negb]; [|done]. injection Hl as ->.
  rewrite bind_now. cbn [w_clock set_faults set_db]. fold (link_expired rep (w_clock w)). rewrite Hx. fold (used_today rep (w_clock w)). rewrite Hu.
  rewrite bind_run. unfold MarkSecurityReportTokenUsed, exec, sql. cbn [w_faults advance set_faults set_db hd tl]. cbn [fst snd mret M_ret]. rewrite status_page_shows. done.
Qed.

(** ** From a submission to its status page *)

Lemma take_all s : Strings.take (String.length s) s = s.
Proof. unfold Strings.take. induction s as [|c s IH]; cbn; [done|]. by rewrite IH. Qed.

Lemma id_of_hex (w : World C) : (24 <= length (w_rand w))%nat -> id_of w = "sec_" ++ Hex.EncodeToString (take 8 (w_rand w)).
Proof.
  intros Hl. unfold id_of. pose proof (take_all (Hex.EncodeToString (take 8 (w_rand w)))) as E. rewrite hex_length, length_take_le in E by lia.
  change (2 * 8)%nat with 16%nat in E. by rewrite E.
Qed.

Lemma token_hex (w : World C) : (24 <= length (w_rand w))%nat -> token_of_world w = Hex.EncodeToString (take 16 (drop 8 (w_rand w))).
Proof.
  intros Hl. unfold token_of_world. pose proof (take_all (Hex.EncodeToString (take 16 (drop 8 (w_rand w))))) as E.
  rewrite hex_length, length_take_le in E by (rewrite length_drop; lia). change (2 * 16)%nat with 32%nat in E. by rewrite E.
Qed.

Lemma id_trimmed (w : World C) : Forall is_byte (w_rand w) -> (24 <= length (w_rand w))%nat -> StringsU.TrimSpace (id_of w) = id_of w.
Proof.
  intros Hb Hl. rewrite id_of_hex by done. apply (TrimSpace_before_hex "ec_" "s"); [done..| |]; [by apply Forall_take|].
  intros E. apply (f_equal length) in E. rewrite length_take_le in E by lia. discriminate E.
Qed.

Lemma token_trimmed (w : World C) : Forall is_byte (w_rand w) -> (24 <= length (w_rand w))%nat ->
  StringsU.TrimSpace (token_of_world w) = token_of_world w /\ token_of_world w <> "".
Proof.
  intros Hb Hl. rewrite token_hex by done.
  assert (Hn : take 16 (drop 8 (w_rand w)) <> []) by (intros E; apply (f_equal length) in E; rewrite length_take_le in E by (rewrite length_drop; lia); discriminate E).
  split; [|intros E; apply (f_equal String.length) in E; rewrite hex_length in E; destruct (take 16 (drop 8 (w_rand w))); [done|cbn in E; lia]].
  apply hex_trim; [by apply Forall_take, Forall_drop|done].
Qed.

(** C11 — the link that a researcher is sent opens the page of the stored report: for any
    later request that carries the token while the database is as it was left, the
    answer is the page with the state Received. *)
Theorem report_link_opens q form w a e w' :
  handleSecurityReport smtp d q form w = ((a, e), w') -> t_reports (w_db w') <> t_reports (w_db w) -> Forall is_byte (w_rand w) ->
  let id := id_of (entry d q w) in let token := token_of_world (entry d q w) in
  (exists data, a = report_answer d q id data)
  /\ (exists c w1, e = ((sendSecurityReportEmails smtp d q c (read_form form) w1).1 ++ announced q id (read_form form))%list
        /\ In ("status_url", desk_url d q ++ "/server/security/report/" ++ id ++ "?token=" ++ token) (ack_vars d q c))
  /\ forall q2 w2, calm w2 -> w_db w2 = w_db w' -> q_query q2 "token" = token ->
       exists data, status_shown (handleSecurityReportStatus d q2 id w2).1.1 = Some (200, data) /\ data !! "Status" = Some (VStr SecStatusReceived).
Proof.
  intros H' N Hr. apply report_cases in H' as [[E _]|(c & v & m & _ & S1 & M1 & D1 & -> & data0 & Ha)]; [by rewrite E in N|].
  apply store_report_run in S1 as (key1 & x1 & _ & _ & I1 & J1 & _ & L1 & F1 & R1).
  split; [exists data0; by rewrite <- I1|]. split; [exists c, v; rewrite M1, I1; split; [done|]; rewrite <- I1, <- J1; cbn; auto|].
  intros q2 w2 Hc Hw Hq. pose proof (status_run q2 (id_of (entry d q w)) w2 Hc) as Hs. destruct (handleSecurityReportStatus d q2 (id_of (entry d q w)) w2) as [[a2 e2] w3].
  destruct Hs as [_ Hs]. pose proof (entry_tidy d q w Hr) as Ht. destruct (token_trimmed _ Ht L1) as [Et Hne].
  unfold linked, token_hash in Hs. rewrite Hq, Et, (id_trimmed _ Ht L1), Hw, D1, R1 in Hs. cbn [t_reports with_reports] in Hs.
  rewrite (stored_found _ _ _ _ _ _ F1) in Hs. cbn [sr_token_hash stamp_report report_row] in Hs. rewrite String.eqb_refl in Hs.
  destruct (String.eqb_spec (token_of_world (entry d q w)) "") as [|_]; [done|]. change (String.eqb (id_of (entry d q w)) "") with false in Hs. cbn [orb] in Hs.
  destruct Hs as [-> _]. cbn [fst]. rewrite status_page_shows. eexists. split; [done|]. reflexivity.
Qed.
End status.

(** ** Acknowledgments *)

Definition hidden_credit (r : SecurityReport) : bool := String.eqb (sr_credit_pref r) "anonymous" || String.eqb (StringsU.TrimSpace (sr_credit_name r)) "".

Definition ack_row (loc : Location) (n : nat) (r : SecurityReport) : ackEntry :=
  {| Year := match sr_disclosed r with Some t => Year_ loc t | None => 0 end;
     Display := if hidden_credit r then "Anonymous Researcher #" ++ Strconv.Itoa (Z.of_nat n) else StringsU.TrimSpace (sr_credit_name r);
     ack_Severity := sr_severity r; Component := sr_component r |}.

Lemma ack_entries_spec loc : forall reports k,
  ack_entries loc (Z.of_nat k) reports
  = imap (fun i r => ack_row loc (k + length (keep hidden_credit (take (S i) reports)))%nat r) reports.
Proof.
  induction reports as [|r reports IH]; intros k; [done|]. cbn [ack_entries imap]. fold (hidden_credit r). f_equal.
  - unfold ack_row. cbn [take]. rewrite keep_cons. destruct (hidden_credit r); [|done]. rewrite take_0. cbn [keep length]. repeat f_equal. change (length (keep hidden_credit [])) with 0%nat. lia.
  - replace (if hidden_credit r then Z.of_nat k + 1 else Z.of_nat k) with (Z.of_nat (if hidden_credit r then S k else k)) by (destruct (hidden_credit r); lia).
    rewrite IH. apply imap_ext. intros i x _. unfold compose. change (take (S (S i)) (r :: reports)) with (r :: take (S i) reports).
    rewrite (keep_cons hidden_credit r). f_equal. destruct (hidden_credit r); cbn [length]; lia.
Qed.

(** Reports that differ, if at all, in what only an anonymous researcher's entry could tell. *)
Definition alike (r1 r2 : SecurityReport) : Prop :=
  r1 = r2 \/ (sr_credit_pref r1 = "anonymous" /\ sr_credit_pref r2 = "anonymous" /\ sr_severity r1 = sr_severity r2
               /\ sr_component r1 = sr_component r2 /\ sr_disclosed r1 = sr_disclosed r2).

(** the acknowledgments list each report once, in the order given: a researcher who
    asked to stay anonymous, or gave no name, appears as a number only, the numbers count
    up from one, and the rows do not depend on anything else about the anonymous. *)
Theorem acknowledgements_numbered loc reports :
  (forall i, buildAckEntries loc reports !! i = ack_row loc (length (keep hidden_credit (take (S i) reports))) <$> reports !! i)
  /\ (forall reports2, Forall2 alike reports reports2 -> buildAckEntries loc reports2 = buildAckEntries loc reports).
Proof.
  split; [intros i; unfold buildAckEntries; change 0 with (Z.of_nat 0); rewrite ack_entries_spec, list_lookup_imap; by destruct (reports !! i)|].
  unfold buildAckEntries. generalize 0. intros n reports2 Ha. revert n. induction Ha as [|r1 r2 l1 l2 Hr _ IH]; intros n; [done|]. cbn [ack_entries].
  destruct Hr as [->|(E1 & E2 & E3 & E4 & E5)]; [by rewrite IH|]. by rewrite E1, E2, E3, E4, E5, IH.
Qed.

Lemma acknowledgements_numbered_witness :
  Forall2 alike [report_row "sec_1" "" (read_form (some_form "Jane" "x")) ("", "")] [report_row "sec_2" "h" (read_form (some_form "John" "y")) ("b", "pgp")]
  /\ buildAckEntries UTC [report_row "sec_2" "h" (read_form (some_form "John" "y")) ("b", "pgp")]
     = buildAckEntries UTC [report_row "sec_1" "" (read_form (some_form "Jane" "x")) ("", "")].
Proof.
  assert (H : Forall2 alike [report_row "sec_1" "" (read_form (some_form "Jane" "x")) ("", "")] [report_row "sec_2" "h" (read_form (some_form "John" "y")) ("b", "pgp")])
    by (repeat constructor; right; vm_compute; auto).
  split; [exact H|]. exact (proj2 (acknowledgements_numbered UTC _) _ H).
Defined.

(** The numbers are not tied to the researchers: the next report that is disclosed is
    listed first and renumbers those before it. *)
Lemma acknowledgements_renumbered loc r1 r2 : hidden_credit r1 = true -> hidden_credit r2 = true ->
  (Display <$> buildAckEntries loc [r1]) = ["Anonymous Researcher #1"]
  /\ (Display <$> buildAckEntries loc [r2; r1]) = ["Anonymous Researcher #1"; "Anonymous Researcher #2"].
Proof.
  intros E1 E2. unfold buildAckEntries, ack_entries. fold (hidden_credit r1). fold (hidden_credit r2). rewrite E1, E2. split; reflexivity.
Qed.

(** ** What the contact form lets out *)

Section contact.
Context {C : Type} `{AEAD} `{OpenPGP} `{Unicode} `{JsonText} `{Net} `{UrlParser} `{PublicSuffix} `{Shuffle}.
Context (smtp : string -> string -> string -> result unit) (d : Desk).
Implicit Types (w : World C) (q : HttpReq).

(** Mail and webhooks. *)
Definition goes_out (e : Effect) : bool := match e with SecurityLog _ _ | Audited _ => false | _ => true end.

Definition required (form : string -> string) (keys : list string) : Prop := Forall (fun k => StringsU.TrimSpace (form k) <> "") keys.

Lemma any_empty_false l : any_empty l = false -> Forall (fun s => s <> "") l.
Proof.
  unfold any_empty. induction l as [|s l IH]; [by constructor|]. cbn. intros [Hs Hl]%orb_false_iff. constructor; [by apply String.eqb_neq in Hs|auto].
Qed.

Lemma captcha_passed_true form w : (captcha_passed d form w).1 = true -> Captcha d = "simple" ->
  exists t, validateSimpleCaptcha (csrfSecret d) (form "captcha_token") (form "captcha") t = true.
Proof. unfold captcha_passed. intros Hp E. rewrite E in Hp. change (String.eqb "simple" "simple") with true in Hp. cbv iota in Hp. rewrite bind_now in Hp. exists (w_clock w). exact Hp. Qed.

(** What must hold of a form before anything goes out. *)
Definition screened (form : string -> string) : Prop :=
  required form ["name"; "email"] /\ valid_address (StringsU.TrimSpace (form "email")) = true
  /\ (Captcha d = "simple" -> exists t, validateSimpleCaptcha (csrfSecret d) (form "captcha_token") (form "captcha") t = true).

Lemma report_screened q form w : existsb goes_out (handleSecurityReport smtp d q form w).1.2 = true -> screened form.
Proof.
  unfold handleSecurityReport. rewrite bind_run. destruct (contactData d q w) as [data w1]. rewrite bind_run. destruct (security_id_now d w1) as [sid w2].
  destruct (form_problem (read_form form)) as [msg|] eqn:Ep; [done|]. rewrite bind_run.
  pose proof (captcha_passed_true form w2) as Hc. destruct (captcha_passed d form w2) as [passed w3]. cbn [fst] in Hc. destruct passed; cbn [negb]; [|done].
  intros _. unfold form_problem in Ep. destruct (any_empty _) eqn:Ee; [done|]. apply any_empty_false in Ee.
  destruct (valid_address (f_email (read_form form))) eqn:Ev; [|done]. split; [|split; [exact Ev|auto]].
  apply Forall_cons in Ee as [E1 [E2 _]%Forall_cons]. by repeat constructor.
Qed.

Lemma message_screened q form data warned w : existsb goes_out warned = false ->
  existsb goes_out (general_message smtp d q form data warned w).1.2 = true -> screened form.
Proof.
  intros Hw. unfold general_message. destruct (any_empty _) eqn:Ee; [by cbn; rewrite Hw|]. apply any_empty_false in Ee.
  destruct (valid_address _) eqn:Ev; [|by cbn; rewrite Hw]. cbn [negb]. rewrite bind_run.
  pose proof (captcha_passed_true form w) as Hc. destruct (captcha_passed d form w) as [passed w3]. cbn [fst] in Hc. destruct passed; cbn [negb]; [|by cbn; rewrite Hw].
  intros _. split; [|split; [exact Ev|auto]]. apply Forall_cons in Ee as [E1 [E2 _]%Forall_cons]. by repeat constructor.
Qed.

(** C18 — nothing goes out by mail or webhook for a post of the contact page unless the
    form is enabled and well-formed, names a sender with an address that has an @ and no
    blanks, and answers the built-in captcha where it is asked; whether it is a message
    or a security report. *)
Theorem contact_screened q form w :
  existsb goes_out (handleContactPost smtp d q form w).1.2 = true -> FormEnabled d = true /\ exists f, form = Some f /\ screened f.
Proof.
  unfold handleContactPost. rewrite bind_run. destruct (contactData d q w) as [data w1]. destruct (FormEnabled d); cbn [negb]; [|done].
  destruct form as [form|]; [|done]. rewrite bind_run. destruct (security_id_valid d _ w1) as [valid w2]. intros Ho. split; [done|]. exists form. split; [done|].
  destruct valid; [by apply report_screened in Ho|]. apply message_screened in Ho; [done|]. by destruct (String.eqb _ _).
Qed.
End contact.

(** ** Witnesses *)

#[local] Instance no_urls : UrlParser := {| url_parse := fun _ => None |}.
#[local] Instance no_suffix : PublicSuffix := {| etld_plus_one := fun _ => None |}.
#[local] Instance no_cipher : AEAD := {| gcm_seal := fun _ _ p => p; gcm_open := fun _ _ p => Some p |}.

Definition submitted : (Answer * list Effect) * World noopCache :=
  handleSecurityReport no_smtp some_desk (visitor "text/html" (fun _ => "")) (some_form "Jane" "overflow") (sample_world empty_db).

Definition link_id : string := "sec_0707070707070707".
Definition follow (token : string) : HttpReq := visitor "text/html" (fun k => if String.eqb k "token" then token else "").
Definition good_link : HttpReq := follow "07070707070707070707070707070707".

Lemma submitted_calm : calm submitted.2.
Proof. vm_compute. reflexivity. Qed.

Lemma status_page_guarded_witness :
  linked good_link link_id (w_db submitted.2) <> None
  /\ (handleSecurityReportStatus some_desk (follow "guess") link_id submitted.2).1.1 = report_not_found some_desk (follow "guess").
Proof.
  split; [vm_compute; discriminate|]. pose proof (status_page_guarded some_desk eq_refl (follow "guess") link_id submitted.2 submitted_calm) as P.
  assert (Hs : status_shown (handleSecurityReportStatus some_desk (follow "guess") link_id submitted.2).1.1 = None) by (vm_compute; reflexivity).
  assert (Hl : linked (follow "guess") link_id (w_db submitted.2) = None) by (vm_compute; reflexivity).
  destruct (handleSecurityReportStatus some_desk (follow "guess") link_id submitted.2) as [[a e] w']. cbn [fst] in *. rewrite Hs in P. by apply P.
Defined.

Lemma status_once_a_day_witness :
  let viewed := handleSecurityReportStatus some_desk good_link link_id submitted.2 in
  exists data, status_shown viewed.1.1 = Some (200, data)
  /\ status_shown (handleSecurityReportStatus some_desk good_link link_id viewed.2).1.1 = Some (429, <["RateLimited" := VBool true]> data).
Proof.
  cbv zeta. assert (Hf : fst <$> status_shown (handleSecurityReportStatus some_desk good_link link_id submitted.2).1.1 = Some 200) by (vm_compute; reflexivity).
  destruct (status_shown (handleSecurityReportStatus some_desk good_link link_id submitted.2).1.1) as [[s data]|] eqn:Hs; [|discriminate Hf].
  injection Hf as ->. exists data. split; [reflexivity|].
  set (viewed := handleSecurityReportStatus some_desk good_link link_id submitted.2).
  assert (Hc : calm viewed.2) by (vm_compute; reflexivity). assert (Hd : sameUTCDate (w_clock submitted.2) (w_clock viewed.2) = true) by (vm_compute; reflexivity).
  pose proof (status_once_a_day some_desk eq_refl good_link link_id submitted.2 data submitted_calm Hs good_link viewed.2 Hc eq_refl Hd eq_refl eq_refl eq_refl) as P.
  assert (H2 : is_some (status_shown (handleSecurityReportStatus some_desk good_link link_id viewed.2).1.1) = true) by (vm_compute; reflexivity).
  destruct (handleSecurityReportStatus some_desk good_link link_id viewed.2) as [[a e] w3]. cbn [fst] in *.
  destruct P as [_ [P|P]]; [exact P|]. rewrite P, error_page_shows in H2. discriminate H2.
Defined.

Lemma report_link_opens_witness :
  exists data, status_shown (handleSecurityReportStatus some_desk good_link link_id submitted.2).1.1 = Some (200, data)
    /\ data !! "Status" = Some (VStr SecStatusReceived).
Proof.
  assert (N : t_reports (w_db submitted.2) <> t_reports (w_db (sample_world empty_db))).
  { intros E. apply (f_equal length) in E. vm_compute in E. discriminate E. }
  pose proof submitted_calm as Hc. unfold submitted in *.
  destruct (handleSecurityReport no_smtp some_desk (visitor "text/html" (fun _ => "")) (some_form "Jane" "overflow") (sample_world empty_db)) as [[a e] w'] eqn:E.
  cbn [snd] in *. destruct (report_link_opens no_smtp some_desk eq_refl _ _ _ _ _ _ E N) as (_ & _ & P); [by repeat constructor|].
  apply (P good_link w' Hc eq_refl). vm_compute. reflexivity.
Defined.

Lemma contact_screened_witness :
  existsb goes_out (handleContactPost no_smtp some_desk good_link (Some (some_form "Jane" "x")) (sample_world empty_db)).1.2 = true
  /\ screened some_desk (some_form "Jane" "x").
Proof.
  assert (H : existsb goes_out (handleContactPost no_smtp some_desk good_link (Some (some_form "Jane" "x")) (sample_world empty_db)).1.2 = true)
    by (vm_compute; reflexivity).
  split; [exact H|]. destruct (contact_screened no_smtp some_desk good_link (Some (some_form "Jane" "x")) (sample_world empty_db) H) as (_ & f & [= <-] & Hs). exact Hs.
Defined.
