(* ===== verification/AuditProofs.v ===== *)
(** * What the audit log promises *)

From S2P Require Import Prelude GoStr GoStrProofs GoTime CronProofs GoCrypto Http Headers Instances FileSys RotateProofs ConfigStore ConfigStoreProofs Backup BackupProofs AuditLog.
From Stdlib Require Import Ascii.

(** ** Identifiers sort by time *)

(** The number that digits denote. *)
Fixpoint value (base : Z) (l : list Z) : Z :=
  match l with [] => 0 | x :: l => x * base ^ Z.of_nat (length l) + value base l end.

Definition digits_below (base : Z) (l : list Z) : Prop := Forall (fun x => 0 <= x < base) l.

Lemma value_bounds base l : 0 < base -> digits_below base l -> 0 <= value base l < base ^ Z.of_nat (length l).
Proof.
  intros Hb. induction 1 as [|x l Hx Hl IH]; [cbn; lia|]. cbn [value length]. rewrite Nat2Z.inj_succ, Z.pow_succ_r by lia.
  pose proof (Z.pow_pos_nonneg base (Z.of_nat (length l)) Hb ltac:(lia)). nia.
Qed.

Lemma value_inj base l l' : 0 < base -> digits_below base l -> digits_below base l' -> length l = length l' -> value base l = value base l' -> l = l'.
Proof.
  intros Hb Hl. revert l'. induction Hl as [|x l Hx Hl IH]; intros [|y l'] Hl' Hn E; try done. apply Forall_cons in Hl' as [Hy Hl']. cbn [length] in Hn.
  injection Hn as Hn. cbn [value] in E. rewrite <- Hn in E. pose proof (value_bounds base l Hb Hl) as B1. pose proof (value_bounds base l' Hb Hl') as B2. rewrite <- Hn in B2.
  set (q := base ^ Z.of_nat (length l)) in *. assert (x = y) as -> by nia. f_equal. apply IH; [done..|nia].
Qed.

Definition alphabet_order : bool :=
  forallb (fun x => forallb (fun y => implb (Nat.ltb x y) (match Ascii.compare (crockford_char (Z.of_nat x)) (crockford_char (Z.of_nat y)) with Lt => true | _ => false end)) (seq 0 32)) (seq 0 32).

Lemma crockford_lt x y : 0 <= x < y -> y < 32 -> Ascii.compare (crockford_char x) (crockford_char y) = Lt.
Proof.
  intros Hx Hy. assert (H : alphabet_order = true) by (vm_compute; reflexivity). unfold alphabet_order in H. rewrite forallb_forall in H.
  specialize (H (Z.to_nat x) ltac:(apply in_seq; lia)). rewrite forallb_forall in H. specialize (H (Z.to_nat y) ltac:(apply in_seq; lia)).
  rewrite !Z2Nat.id in H by lia. rewrite (proj2 (Nat.ltb_lt _ _)) in H by lia. cbn [implb] in H. by destruct (Ascii.compare _ _).
Qed.

Definition crockford_text (l : list Z) : string := String.string_of_list_ascii (crockford_char <$> l).

Lemma Ascii_compare_refl c : Ascii.compare c c = Eq.
Proof. unfold Ascii.compare. apply N.compare_refl. Qed.

Lemma crockford_order l : forall l', digits_below 32 l -> digits_below 32 l' -> length l = length l' -> value 32 l < value 32 l' ->
  String.ltb (crockford_text l) (crockford_text l') = true.
Proof.
  induction l as [|x l IH]; intros [|y l'] Hl Hl' Hn Hv; try done. apply Forall_cons in Hl as [Hx Hl], Hl' as [Hy Hl']. injection Hn as Hn. cbn [value] in Hv.
  pose proof (value_bounds 32 l ltac:(lia) Hl) as B1. pose proof (value_bounds 32 l' ltac:(lia) Hl') as B2. rewrite <- Hn in *.
  set (q := 32 ^ Z.of_nat (length l)) in *. unfold String.ltb, crockford_text. cbn [fmap list_fmap String.string_of_list_ascii String.compare].
  destruct (Z.lt_trichotomy x y) as [Hxy|[->|Hxy]].
  - by rewrite crockford_lt by lia.
  - rewrite Ascii_compare_refl. apply (IH l' Hl Hl' Hn). lia.
  - exfalso. nia.
Qed.

(** *** The bits of the characters *)

Definition bitz (x k : Z) : Z := Z.land (Z.shiftr x k) 1.

Lemma land_1 y : Z.land y 1 = y mod 2.
Proof. apply (Z.land_ones y 1). lia. Qed.
Lemma bitz_01 x k : bitz x k = 0 \/ bitz x k = 1.
Proof. unfold bitz. rewrite land_1. pose proof (Z.mod_pos_bound (Z.shiftr x k) 2 ltac:(lia)). lia. Qed.

Lemma byte_bits x : 0 <= x < 256 ->
  x = 128 * bitz x 7 + 64 * bitz x 6 + 32 * bitz x 5 + 16 * bitz x 4 + 8 * bitz x 3 + 4 * bitz x 2 + 2 * bitz x 1 + bitz x 0.
Proof.
  intros Hx. assert (H : forallb (fun n => let x := Z.of_nat n in
    x =? 128 * bitz x 7 + 64 * bitz x 6 + 32 * bitz x 5 + 16 * bitz x 4 + 8 * bitz x 3 + 4 * bitz x 2 + 2 * bitz x 1 + bitz x 0) (seq 0 256) = true) by (vm_compute; reflexivity).
  rewrite forallb_forall in H. specialize (H (Z.to_nat x) ltac:(apply in_seq; lia)). cbv zeta in H. rewrite Z2Nat.id in H by lia. by apply Z.eqb_eq in H.
Qed.

(** The byte and the shift that a bit of a character comes from. *)
Definition bit_source (i b : nat) : option (nat * Z) :=
  let p := Z.of_nat i * 5 + Z.of_nat b - 2 in if 0 <=? p then Some (Z.to_nat (p / 8), 7 - p mod 8) else None.
Definition bit_of (id : list Z) (o : option (nat * Z)) : Z := match o with Some (k, s) => bitz (nth k id 0) s | None => 0 end.

Lemma bit_at_source id i b : bit_at id i b = bit_of id (bit_source i b).
Proof. unfold bit_at, bit_of, bit_source. cbv zeta. by destruct (0 <=? _). Qed.
Lemma bit_of_01 id o : bit_of id o = 0 \/ bit_of id o = 1.
Proof. destruct o as [[k s]|]; [apply bitz_01 | by left]. Qed.

Lemma lor_bit v b : b = 0 \/ b = 1 -> Z.lor (Z.shiftl v 1) b = 2 * v + b.
Proof.
  intros Hb. rewrite Z.shiftl_mul_pow2 by lia. change (2 ^ 1) with 2. destruct Hb as [-> | ->]; [rewrite Z.lor_0_r; lia|].
  rewrite (Z.mul_comm v). pose proof (Z.add_lor_land (2 * v) 1) as E. assert (L : Z.land (2 * v) 1 = 0).
  { rewrite land_1, Z.mul_comm. apply Z.mod_mul. lia. }
  lia.
Qed.

Lemma group_bits id i : group id i = 16 * bit_of id (bit_source i 0) + 8 * bit_of id (bit_source i 1) + 4 * bit_of id (bit_source i 2) + 2 * bit_of id (bit_source i 3) + bit_of id (bit_source i 4).
Proof. unfold group. cbn [foldl]. rewrite !bit_at_source, !lor_bit by apply bit_of_01. lia. Qed.

Lemma group_below id i : 0 <= group id i < 32.
Proof.
  rewrite group_bits. pose proof (bit_of_01 id (bit_source i 0)). pose proof (bit_of_01 id (bit_source i 1)). pose proof (bit_of_01 id (bit_source i 2)).
  pose proof (bit_of_01 id (bit_source i 3)). pose proof (bit_of_01 id (bit_source i 4)). lia.
Qed.

Definition groups (id : list Z) : list Z := group id <$> seq 0 26.

Lemma groups_below id : digits_below 32 (groups id).
Proof. unfold digits_below, groups. apply Forall_fmap, Forall_true. intros i. apply group_below. Qed.

(** The characters are the digits of the same number. *)
Lemma groups_value id : length id = 16%nat -> digits_below 256 id -> value 32 (groups id) = value 256 id.
Proof.
  intros Hn Hb. do 16 (destruct id as [|? id]; [done|]). destruct id; [|done]. unfold digits_below in Hb. repeat (apply Forall_cons in Hb as [? Hb]).
  unfold groups. cbn [seq fmap list_fmap value length]. rewrite !group_bits.
  repeat match goal with |- context [bit_source ?i ?b] => let r := eval vm_compute in (bit_source i b) in change (bit_source i b) with r end.
  cbn [bit_of nth]. repeat match goal with H : 0 <= ?x < 256 |- _ => pose proof (byte_bits x H); clear H end.
  repeat match goal with |- context [bitz ?x ?k] => let z := fresh "z" in set (z := bitz x k) in *; clearbody z end.
  repeat match goal with |- context [?b ^ Z.of_nat ?n] => let r := eval vm_compute in (b ^ Z.of_nat n) in change (b ^ Z.of_nat n) with r end. lia.
Qed.

Lemma encode_text id : encodeCrockford id = crockford_text (groups id).
Proof. unfold encodeCrockford, crockford_text, groups. by rewrite <- list_fmap_compose. Qed.

Lemma value_app base a b : value base (a ++ b) = value base a * base ^ Z.of_nat (length b) + value base b.
Proof.
  induction a as [|x a IH]; [done|]. cbn [app value]. rewrite IH, length_app, Nat2Z.inj_add, Z.pow_add_r by lia. ring.
Qed.

Lemma low_byte ms k : 0 <= k -> Z.land (Z.shiftr ms k) 255 = ms / 2 ^ k mod 256.
Proof. intros Hk. rewrite Z.shiftr_div_pow2 by done. by apply (Z.land_ones _ 8). Qed.

Lemma ms_bytes_value ms : 0 <= ms < 2 ^ 48 -> value 256 (ms_bytes ms) = ms /\ digits_below 256 (ms_bytes ms).
Proof.
  intros Hm. unfold ms_bytes. cbn [fmap list_fmap]. rewrite !low_byte by lia. split.
  - cbn [value length]. repeat match goal with |- context [?b ^ Z.of_nat ?n] => let r := eval vm_compute in (b ^ Z.of_nat n) in change (b ^ Z.of_nat n) with r end.
    change (2 ^ 40) with 1099511627776. change (2 ^ 32) with 4294967296. change (2 ^ 24) with 16777216. change (2 ^ 16) with 65536. change (2 ^ 8) with 256.
    change (2 ^ 0) with 1. change (2 ^ 48) with 281474976710656 in Hm. rewrite Z.div_1_r. Z.to_euclidean_division_equations. lia.
  - unfold digits_below. repeat constructor; apply Z.mod_pos_bound; lia.
Qed.

(** What a ULID is: the digits of the milliseconds and the random bytes. *)
Lemma newULID_digits t r : 0 <= UnixMilli t < 2 ^ 48 -> length r = 10%nat -> Forall is_byte r ->
  exists l, newULID t (Ok r) = Ok (crockford_text l) /\ digits_below 32 l /\ length l = 26%nat /\ value 32 l = UnixMilli t * 256 ^ 10 + value 256 r.
Proof.
  intros Ht Hn Hr. unfold newULID. rewrite encode_text. unfold wrapu64. rewrite Z.mod_small by lia. destruct (ms_bytes_value _ Ht) as [Hv Hb].
  eexists. split; [done|]. split; [apply groups_below|]. split; [by unfold groups; rewrite length_fmap|].
  rewrite groups_value; [|by rewrite length_app, Hn|by apply Forall_app]. by rewrite value_app, Hv, Hn.
Qed.

(** Identifiers sort by the millisecond of their entry and are never the same for
    different milliseconds or different random bytes, up to the year 10889. *)
Theorem ulids_sort (t t' : Z) (r r' : list Z) : 0 <= UnixMilli t < 2 ^ 48 -> 0 <= UnixMilli t' < 2 ^ 48 ->
  length r = 10%nat -> length r' = 10%nat -> Forall is_byte r -> Forall is_byte r' ->
  exists s s', newULID t (Ok r) = Ok s /\ newULID t' (Ok r') = Ok s' /\ (UnixMilli t < UnixMilli t' -> String.ltb s s' = true)
               /\ (s = s' -> UnixMilli t = UnixMilli t' /\ r = r').
Proof.
  intros Ht Ht' Hn Hn' Hr Hr'. destruct (newULID_digits t r Ht Hn Hr) as (l & E & Hl & Ll & Vl). destruct (newULID_digits t' r' Ht' Hn' Hr') as (l' & E' & Hl' & Ll' & Vl').
  pose proof (value_bounds 256 r ltac:(lia) Hr) as B. pose proof (value_bounds 256 r' ltac:(lia) Hr') as B'. rewrite Hn in B. rewrite Hn' in B'.
  change (256 ^ Z.of_nat 10) with (256 ^ 10) in B, B'. exists (crockford_text l), (crockford_text l'). split; [done|]. split; [done|]. split.
  - intros Hlt. apply crockford_order; [done..|congruence|]. rewrite Vl, Vl'. set (q := 256 ^ 10) in *. nia.
  - intros Es. assert (Ev : value 32 l = value 32 l').
    { assert (Hirr : forall s, String.ltb s s = false).
      { intros s. unfold String.ltb. assert (Ec : String.compare s s = Eq) by (induction s as [|c s IHs]; [done|]; cbn; by rewrite Ascii_compare_refl). by rewrite Ec. }
      destruct (Z.lt_trichotomy (value 32 l) (value 32 l')) as [Hlt|[Hlt|Hlt]]; [exfalso|done|exfalso].
      - apply crockford_order in Hlt; [|done..|congruence]. rewrite Es in Hlt. by rewrite Hirr in Hlt.
      - apply crockford_order in Hlt; [|done..|congruence]. rewrite Es in Hlt. by rewrite Hirr in Hlt. }
    rewrite Vl, Vl' in Ev. set (q := 256 ^ 10) in *. assert (UnixMilli t = UnixMilli t') as Em by nia. split; [done|].
    apply (value_inj 256); [lia|done|done|congruence|]. rewrite Em in Ev. lia.
Qed.

Theorem ulids_sort_witness :
  0 <= UnixMilli (of_unix 1700000000) < 2 ^ 48
  /\ exists s s', newULID (of_unix 1700000000) (Ok (replicate 10 255)) = Ok s /\ newULID (of_unix 1700000001) (Ok (replicate 10 0)) = Ok s' /\ String.ltb s s' = true.
Proof.
  split; [vm_compute; split; [discriminate|reflexivity]|].
  destruct (ulids_sort (of_unix 1700000000) (of_unix 1700000001) (replicate 10 255) (replicate 10 0)) as (s & s' & K1 & K2 & K3 & _);
    [vm_compute; split; [discriminate|reflexivity].. | reflexivity | reflexivity | apply Forall_replicate; unfold is_byte; lia | apply Forall_replicate; unfold is_byte; lia |].
  exists s, s'. split; [exact K1|]. split; [exact K2|]. apply K3. vm_compute. reflexivity.
Defined.

(** ** What is recorded *)










(** *** The definitions meet this *)

















Section trail.
Context `{JsonText}.
Variables (c : AuditConfig) (Hon : Enabled (Some c) = true).


End trail.

(** The text of a JSON value is one line. *)
Class JsonLine `{JsonText} := render_line : forall j, Strings.IndexByte (render j) "010" = None.
#[export] Instance tree_json_line : JsonLine.
Proof.
  intros j. cbn [render tree_json]. generalize (countable.encode (to_tree (sanitize j))). intros p. induction p as [p IH|p IH|]; [cbn; by rewrite IH..|done].
Qed.










(** ** Masked addresses *)

Lemma fields_by_plain sep s : forall cur, Strings.any sep s = false -> cur ++ s <> "" -> fields_by sep cur s = [cur ++ s].
Proof.
  induction s as [|c s IH]; intros cur Hs Hne; cbn [fields_by].
  - rewrite string_app_nil_r in *. by apply String.eqb_neq in Hne as ->.
  - cbn [Strings.any] in Hs. apply orb_false_iff in Hs as [Hc Hs]. rewrite Hc, IH; [|done|by destruct cur]. by rewrite <- string_app_assoc.
Qed.

Lemma index_self s : String.index 0 s s = Some 0%nat.
Proof.
  destruct s as [|c s]; [done|]. cbn [String.index]. assert (E : String.prefix (String c s) (String c s) = true) by (pose proof (HasPrefix_app (String c s) "") as E; by rewrite string_app_nil_r in E).
  by rewrite E.
Qed.

(** An address that stands alone is masked as documented. *)
Lemma mask_address local domain : local <> "" -> Strings.IndexByte local "@" = None -> Strings.any separator (local ++ "@" ++ domain) = false ->
  Strings.Contains domain "." = true ->
  maskEmails (local ++ "@" ++ domain) = (if Nat.eqb (String.length local) 1 then "*@" else Strings.take 1 local ++ "***@") ++ domain.
Proof.
  intros Hl Ha Hs Hd. change ("@" ++ domain) with (String "@" domain) in *. unfold maskEmails.
  assert (E1 : String.eqb (local ++ String "@" domain) "" = false) by by destruct local.
  assert (E2 : Strings.Contains (local ++ String "@" domain) "@" = true).
  { unfold Strings.Contains. by rewrite index_byte, IndexByte_cut. }
  rewrite E1, E2. cbn [negb orb]. rewrite fields_by_plain by (done || by destruct local). cbn [foldl].
  change ("" ++ (local ++ String "@" domain)) with (local ++ String "@" domain).
  assert (E3 : masked (local ++ String "@" domain) = Some ((if Nat.eqb (String.length local) 1 then "*@" else Strings.take 1 local ++ "***@") ++ domain)).
  { unfold masked. rewrite IndexByte_cut by done. destruct local as [|c local]; [done|]. cbn [String.length].
    assert (E4 : Strings.drop (S (S (String.length local))) (String c local ++ String "@" domain) = domain).
    { replace (S (S (String.length local))) with (String.length (String c local) + 1)%nat by (cbn; lia). rewrite drop_app_n. apply drop_1. }
    rewrite E4, Hd. assert (E5 : String.eqb domain "" = false) by by destruct domain. rewrite E5. cbn [negb orb].
    destruct (Nat.eqb (S (String.length local)) 1); [done|]. f_equal. by destruct local. }
  rewrite E3. unfold replace_first. rewrite index_self. cbn [Nat.add].
  pose proof (drop_app (local ++ String "@" domain) "") as E6. rewrite string_app_nil_r in E6. rewrite E6.
  assert (E7 : forall x, Strings.take 0 x = "") by by destruct x. rewrite E7. apply string_app_nil_r.
Qed.

(** Only the first address of a token is masked, and the first occurrence of an address
    in the text, which may be a part of another token. *)
Lemma mask_incomplete : maskEmails "jane@x.com/bob@y.org" = "j***@x.com/bob@y.org" /\ maskEmails "@jane@x.com jane@x.com" = "@j***@x.com jane@x.com".
Proof. by vm_compute. Qed.
