(* ===== verification/SchedulerSpec.v ===== *)
(** * What the scheduler guarantees

    One run per task at a time, the retry policy, what a restart restores and
    catches up with, and what it forgets. *)

From S2P Require Import Prelude GoStr GoTime Cron Model Cache World Database DatabaseProofs CronProofs Scheduler.

(** ** Values of computations *)

(** The result satisfies [Q], whatever the world does. *)
Definition yields {C A} (m : M C A) (Q : A -> Prop) : Prop := forall w, Q (m w).1.

(** A scheduler that results, satisfies [P]. *)
Definition if_done {A} (P : A -> Prop) (r : run A) : Prop :=
  match r with Done s => P s | _ => True end.

Section yields.
Context {C : Type}.

Lemma yields_ret {A} (a : A) (Q : A -> Prop) : Q a -> yields (C := C) (mret a) Q.
Proof. by intros H w. Qed.

Lemma yields_bind {A B} (m : M C A) (f : A -> M C B) (P : A -> Prop) (Q : B -> Prop) :
  yields m P -> (forall a, P a -> yields (f a) Q) -> yields (m ≫= f) Q.
Proof. intros Hm Hf w. rewrite bind_run. specialize (Hm w). destruct (m w) as [a w']. by apply Hf. Qed.

(** The value of the first computation does not matter. *)
Lemma yields_seq {A B} (m : M C A) (f : A -> M C B) (Q : B -> Prop) :
  (forall a, yields (f a) Q) -> yields (m ≫= f) Q.
Proof. intros Hf. apply (yields_bind _ _ (fun _ => True)); [by intros w | auto]. Qed.

Lemma yields_each (P : Scheduler -> Prop) (f : nat -> Scheduler -> M C (run Scheduler)) l s :
  P s -> (forall i s, P s -> yields (f i s) (if_done P)) -> yields (each f l s) (if_done P).
Proof.
  intros Hs Hf. revert s Hs. induction l as [|i l IH]; intros s Hs; cbn [each]; [by apply yields_ret|].
  apply (yields_bind _ _ (if_done P)); [by apply Hf|]. intros [s'| |]; [apply IH | |]; by intros ? || apply yields_ret.
Qed.
End yields.

(** ** Runs in flight *)

Definition in_flight (s : Scheduler) (i : nat) : nat := length (keep (fun r => Nat.eqb (fst r) i) (flight s)).

Definition is_running (s : Scheduler) (i : nat) : bool := opt_bool running (entries s !! i).

(** The map of tasks points to distinct entries; an entry has one run in flight
    if it is marked as running, and none otherwise. *)
Record sched_ok (s : Scheduler) : Prop := {
  ok_ptr : forall id i, tasks s !! id = Some i -> is_Some (entries s !! i);
  ok_inj : forall id1 id2 i, tasks s !! id1 = Some i -> tasks s !! id2 = Some i -> id1 = id2;
  ok_runs : forall i, in_flight s i = if is_running s i then 1%nat else 0%nat;
}.

Lemma is_running_alter f i j s :
  is_running (upd_entry i f s) j = if decide (i = j) then opt_bool (fun e => running (f e)) (entries s !! i)
                                   else is_running s j.
Proof.
  unfold is_running, upd_entry. cbn. case_decide as E; [subst; rewrite list_lookup_alter_eq; by destruct (_ !! _)|].
  by rewrite list_lookup_alter_ne.
Qed.

(** Updates of an entry that leave its flag alone. *)
Lemma upd_ok i f s :
  sched_ok s -> (forall e, entries s !! i = Some e -> running (f e) = running e) -> sched_ok (upd_entry i f s).
Proof.
  intros [Hp Hi Hr] Hf. split; [|exact Hi|].
  - intros id j Hj%Hp. unfold upd_entry. cbn. destruct (decide (i = j)) as [->|];
      [rewrite list_lookup_alter_eq; by apply fmap_is_Some | by rewrite list_lookup_alter_ne].
  - intros j. change (in_flight (upd_entry i f s) j) with (in_flight s j). rewrite Hr, is_running_alter.
    case_decide as E; [subst j|done]. unfold is_running. destruct (entries s !! i) as [e|] eqn:Ee; [|done].
    cbn. by rewrite Hf.
Qed.

Lemma in_flight_app s l i :
  in_flight (with_flight (flight s ++ l) s) i = (in_flight s i + length (keep (fun r => Nat.eqb (fst r) i) l))%nat.
Proof. unfold in_flight. cbn. by rewrite keep_app, length_app. Qed.

(** Changing the phase of a run. *)
Lemma phase_ok s k i ph ph' :
  flight s !! k = Some (i, ph) -> sched_ok s -> sched_ok (with_flight (<[k := (i, ph')]> (flight s)) s).
Proof.
  intros Hk [Hp Hi Hr]. split; [exact Hp|exact Hi|]. intros j. etransitivity; [|exact (Hr j)].
  unfold in_flight. cbn [flight with_flight]. revert k Hk. induction (flight s) as [|r l IH]; intros k Hk; [done|].
  destruct k as [|k]; cbn in Hk.
  - injection Hk as ->. cbn [list_insert insert]. rewrite !keep_cons. cbn. by destruct (Nat.eqb i j).
  - change (<[S k := (i, ph')]> (r :: l)) with (r :: <[k := (i, ph')]> l). rewrite !keep_cons.
    destruct (Nat.eqb (fst r) j); cbn; auto.
Qed.

Lemma add_task_ok id name sched enabled s : sched_ok s -> sched_ok (add_task id name sched enabled s).
Proof.
  intros [Hp Hi Hr]. unfold add_task.
  assert (Hlt : forall k i, tasks s !! k = Some i -> (i < length (entries s))%nat)
    by (intros k i [e He]%Hp; by eapply lookup_lt_Some).
  split; cbn.
  - intros k i. rewrite lookup_insert. case_decide; subst.
    + intros [= <-]. rewrite lookup_app_r, Nat.sub_diag by lia. by eexists.
    + intros Hk. rewrite lookup_app_l by eauto. eauto.
  - intros k1 k2 i. rewrite !lookup_insert. repeat case_decide; subst; eauto.
    + intros [= <-] Hk%Hlt. lia.
    + intros Hk%Hlt [= <-]. lia.
  - intros i. etransitivity; [exact (Hr i)|]. unfold is_running. cbn.
    destruct (decide (i < length (entries s))%nat) as [Hlt'|Hge]; [by rewrite lookup_app_l|].
    rewrite (lookup_ge_None_2 (entries s)) by lia. rewrite lookup_app_r by lia.
    destruct (i - length (entries s))%nat as [|[|m]] eqn:E; cbn; done.
Qed.

Lemma end_run_ok k s : sched_ok s -> sched_ok (end_run k s).
Proof.
  intros Hok. pose proof Hok as [Hp Hi Hr]. unfold end_run. destruct (flight s !! k) as [[i [| |]]|] eqn:Ek; try done.
  assert (Hin : forall j, in_flight s j
                = (in_flight (with_flight (delete k (flight s)) s) j + if decide (i = j) then 1 else 0)%nat).
  { intros j. unfold in_flight. cbn [flight with_flight].
    rewrite <- (take_drop_middle _ _ _ Ek) at 1. rewrite delete_take_drop, !keep_app, keep_cons, !length_app. cbn [fst].
    case_decide as E; [subst j; rewrite Nat.eqb_refl | rewrite (proj2 (Nat.eqb_neq _ _) E)]; cbn; lia. }
  split.
  - intros id j Hj%Hp. cbn. destruct (decide (i = j)) as [->|];
      [rewrite list_lookup_alter_eq; by apply fmap_is_Some | by rewrite list_lookup_alter_ne].
  - exact Hi.
  - intros j. specialize (Hin j). specialize (Hr j). fold (upd_entry i (set_running false) s).
    change (is_running (with_flight _ _) j) with (is_running (upd_entry i (set_running false) s) j).
    change (in_flight (with_flight _ (upd_entry _ _ _)) j) with (in_flight (with_flight (delete k (flight s)) s) j).
    rewrite is_running_alter. case_decide as E; [|lia]. subst j.
    rewrite Hr in Hin. unfold is_running in Hin. destruct (entries s !! i) as [e|]; cbn in *; [destruct (running e)|]; lia.
Qed.

Lemma mark_all_running l s j :
  is_running (foldr (fun i s => upd_entry i (set_running true) s) s l) j
  = is_running s j || (bool_decide (j ∈ l) && bool_decide (is_Some (entries s !! j))).
Proof.
  induction l as [|i l IH]; cbn [foldr]; [rewrite bool_decide_false by set_solver; by rewrite orb_false_r|].
  set (s' := foldr _ _ _) in *.
  assert (He : is_Some (entries s' !! j) <-> is_Some (entries s !! j)).
  { unfold s'. clear. induction l as [|k l IH]; [done|]. cbn [foldr upd_entry with_entries entries].
    rewrite list_lookup_alter. case_decide; subst; rewrite ?fmap_is_Some; exact IH. }
  rewrite is_running_alter. destruct (decide (i = j)) as [E|E].
  - subst j. rewrite (bool_decide_true (i ∈ i :: l)) by set_solver. cbn.
    destruct (entries s' !! i) eqn:Es; cbn.
    + rewrite bool_decide_true by (by apply He). by rewrite orb_true_r.
    + rewrite bool_decide_false by (by rewrite <- He; intros [??]). unfold is_running.
      destruct (entries s !! i); [|done]. destruct (proj2 He) as [??]; [by eexists | done].
  - rewrite IH. f_equal. f_equal. apply bool_decide_ext. set_solver.
Qed.

(** Starting runs of distinct entries that have none. *)
Lemma launch_ok l s :
  sched_ok s -> NoDup l -> (forall i, i ∈ l -> is_Some (entries s !! i) /\ is_running s i = false) ->
  sched_ok (launch l s).
Proof.
  intros [Hp Hi Hr] Hnd Hl. unfold launch.
  set (s' := foldr _ _ _).
  assert (Hs : tasks s' = tasks s /\ flight s' = flight s
               /\ forall i, is_Some (entries s' !! i) <-> is_Some (entries s !! i)).
  { unfold s'. clear. induction l as [|k l IH]; [done|]. destruct IH as (IH1 & IH2 & IH3).
    cbn [foldr upd_entry with_entries entries tasks flight]. split; [done|]. split; [done|]. intros i.
    rewrite list_lookup_alter, <- IH3. case_decide; subst; by rewrite ?fmap_is_Some. }
  destruct Hs as (Ht & Hf & He). split.
  - intros id i. cbn. rewrite Ht. intros Hk%Hp. by apply He.
  - cbn. rewrite Ht. exact Hi.
  - intros i. change (is_running (with_flight _ _) i) with (is_running s' i).
    rewrite in_flight_app. unfold s' at 2. rewrite mark_all_running.
    change (in_flight s' i) with (length (keep (fun r => Nat.eqb (fst r) i) (flight s'))). rewrite Hf.
    fold (in_flight s i). rewrite Hr.
    assert (Hc : length (keep (fun r => Nat.eqb (fst r) i) ((fun j => (j, Spawned)) <$> l))
                 = if bool_decide (i ∈ l) then 1%nat else 0%nat).
    { clear - Hnd. induction Hnd as [|j l Hj Hnd IH]; [done|]. rewrite fmap_cons, keep_cons. cbn [fst].
      destruct (Nat.eqb_spec j i) as [->|E]; cbn [length].
      - rewrite IH. rewrite (bool_decide_false (i ∈ l)) by done. by rewrite bool_decide_true by set_solver.
      - rewrite IH, (bool_decide_ext (i ∈ j :: l) (i ∈ l)); [done | set_solver]. }
    rewrite Hc. case_bool_decide as Hil; [|by rewrite orb_false_r; destruct (is_running s i)].
    destruct (Hl i Hil) as [Hsome ->]. by rewrite bool_decide_true.
Qed.

Lemma pick_elem p s i :
  i ∈ pick p s <-> exists id e, tasks s !! id = Some i /\ entries s !! i = Some e /\ p e = true.
Proof.
  unfold pick. rewrite list_elem_of_omap. split.
  - intros ([id j] & Hin & Hj). apply elem_of_map_to_list in Hin. cbn in Hj.
    destruct (entries s !! j) as [e|] eqn:Ee; [|done]. cbn in Hj. destruct (p e) eqn:Ep; [|done].
    injection Hj as <-. eauto.
  - intros (id & e & Ht & He & Hp). exists (id, i). split; [by apply elem_of_map_to_list|]. cbn. by rewrite He; cbn; rewrite Hp.
Qed.

Lemma pick_nodup p s : sched_ok s -> NoDup (pick p s).
Proof.
  intros [_ Hi _]. unfold pick.
  assert (Hm : forall kv, kv ∈ map_to_list (tasks s) -> tasks s !! fst kv = Some (snd kv))
    by (intros [] ?; by apply elem_of_map_to_list).
  pose proof (NoDup_map_to_list (tasks s)) as Hnd. induction Hnd as [|[id i] l Hx Hnd IH]; [constructor|].
  cbn. destruct (entries s !! i ≫= _) as [j|] eqn:E; [|apply IH; set_solver].
  assert (j = i) as -> by (destruct (entries s !! i); [cbn in E; case_match; congruence | done]).
  constructor; [|apply IH; set_solver]. rewrite list_elem_of_omap. intros ([id' i'] & Hin & Hi').
  assert (i = i') as <- by (cbn in Hi'; destruct (entries s !! i'); [cbn in Hi'; case_match; congruence | done]).
  apply Hx. rewrite (Hi id id' i); [done | apply (Hm (id, i)); set_solver | apply (Hm (id', i)); set_solver].
Qed.

Section invariant.
Context {C : Type} (fuel : nat) (loc : Location).

Lemma tick_ok (s : Scheduler) : sched_ok s -> yields (C := C) (tick s) sched_ok.
Proof.
  intros Hok w. cbn. apply launch_ok; [done | by apply pick_nodup |]. intros i (id & e & Ht & He & Hd)%pick_elem.
  unfold is_running. rewrite He. split; [by eexists|]. unfold due in Hd. cbn. by b2p.
Qed.

Lemma RunNow_ok id (s : Scheduler) : sched_ok s -> sched_ok (RunNow id s).2.
Proof.
  intros Hok. unfold RunNow. destruct (tasks s !! id) as [i|] eqn:E; [|done].
  destruct (opt_bool running (entries s !! i)) eqn:Er; [done|]. apply launch_ok; [done | apply NoDup_singleton |].
  intros j ->%list_elem_of_singleton. split; [by eapply ok_ptr | done].
Qed.

Lemma begin_ok k (s : Scheduler) : sched_ok s -> yields (C := C) (begin_run k s) sched_ok.
Proof.
  intros Hok w. unfold begin_run. destruct (flight s !! k) as [[i [| |]]|] eqn:E; try done.
  rewrite bind_now. by apply (phase_ok s k i Spawned).
Qed.

Lemma complete_running e start finished err e' will :
  complete fuel loc e start finished err = Done (e', will) -> running e' = running e.
Proof.
  intros H. apply run_bind_done in H as ([[next attempt] b] & _ & [= <- <-]). done.
Qed.

Lemma finish_ok k err (s : Scheduler) : sched_ok s -> yields (C := C) (finish_run fuel loc k err s) (if_done sched_ok).
Proof.
  intros Hok. unfold finish_run. destruct (flight s !! k) as [[i [|start|]]|] eqn:E; try by apply yields_ret.
  destruct (entries s !! i) as [e|] eqn:Ee; [|by apply yields_ret]. apply yields_seq. intros t.
  destruct (complete _ _ e start t err) as [[e' will]| |] eqn:Ec; try by apply yields_ret.
  apply yields_seq. intros _. apply yields_ret. cbv zeta.
  assert (Hu : sched_ok (upd_entry i (fun _ => e') s)).
  { apply upd_ok; [done|]. intros e0 He0. apply complete_running in Ec. congruence. }
  cbn [if_done]. destruct (notifier _); [|by apply (phase_ok _ k i (Executing start))].
  apply (phase_ok (with_told _ _) k i (Executing start)); [exact E|]. by destruct Hu.
Qed.

Lemma replace_ok i e e' s : sched_ok s -> entries s !! i = Some e -> running e' = running e ->
  sched_ok (upd_entry i (fun _ => e') s).
Proof. intros Hok He Hr. apply upd_ok; [done|]. congruence. Qed.

Lemma Enable_ok id (s : Scheduler) : sched_ok s -> yields (C := C) (EnableTask fuel loc id s) (if_done sched_ok).
Proof.
  intros Hok. unfold EnableTask. destruct (tasks s !! id) as [i|]; cbn; [|by apply yields_ret].
  destruct (entries s !! i) as [e|] eqn:Ee; cbn; [|by apply yields_ret]. apply yields_seq. intros t.
  destruct (next_of fuel loc e t); [|by apply yields_ret..]. apply yields_seq. intros _. apply yields_ret. cbn.
  by apply (replace_ok i e).
Qed.

Lemma Disable_ok id (s : Scheduler) : sched_ok s -> yields (C := C) (DisableTask id s) sched_ok.
Proof.
  intros Hok. unfold DisableTask. destruct (tasks s !! id) as [i|]; cbn; [|by apply yields_ret].
  destruct (entries s !! i) as [e|] eqn:Ee; cbn; [|by apply yields_ret]. apply yields_seq. intros _. apply yields_ret.
  by apply (replace_ok i e).
Qed.

Lemma mark_ok (s : Scheduler) : sched_ok s -> yields (C := C) (markInterrupted s) (if_done sched_ok).
Proof.
  intros Hok. apply yields_seq. intros t. apply yields_each; [done|]. clear s Hok. intros i s Hok. unfold mark_entry.
  destruct (entries s !! i) as [e|] eqn:Ee; [|by apply yields_ret]. destruct (running e) eqn:Er; [|by apply yields_ret].
  apply yields_seq. intros _. apply yields_ret. by apply (replace_ok i e).
Qed.

(** What starting up keeps: no run in flight. *)
Definition quiet (s : Scheduler) : Prop := sched_ok s /\ flight s = [].

Lemma load_quiet (s : Scheduler) : quiet s -> yields (C := C) (loadState fuel loc s) (if_done quiet).
Proof.
  intros Hq. unfold loadState. destruct (negb (has_db s)).
  - apply yields_seq. intros t. apply yields_each; [done|]. clear s Hq. intros i s [Hok Hf]. apply yields_ret.
    destruct (entries s !! i) as [e|] eqn:Ee; [|done]. cbn. destruct (next_of fuel loc e t); [|done..]. cbn.
    split; [by apply upd_ok | done].
  - apply yields_seq. intros st. apply yields_seq. intros t. apply yields_each; [done|]. clear s Hq. intros i s [Hok Hf].
    unfold load_entry. destruct (entries s !! i) as [e|] eqn:Ee; [|by apply yields_ret].
    destruct (restart_entry _ _ _ _ _) as [e'| |] eqn:Er; try by apply yields_ret.
    apply yields_seq. intros _. apply yields_ret. split; [|done]. apply (replace_ok i e); [done..|].
    unfold restart_entry in Er. apply run_bind_done in Er as (n & _ & [= <-]). by destruct (first _ _).
Qed.

Lemma add_quiet id name sched enabled s : quiet s -> quiet (add_task id name sched enabled s).
Proof. intros [Hok Hf]. split; [by apply add_task_ok | done]. Qed.

Lemma retry_ok id on base m s : sched_ok s -> sched_ok (SetRetry id on base m s).
Proof. intros Hok. unfold SetRetry. destruct (tasks s !! id); [by apply upd_ok | done]. Qed.

Lemma Start_ok (s : Scheduler) : quiet s -> yields (C := C) (Start fuel loc s) (if_done sched_ok).
Proof.
  intros [Hok Hf]. unfold Start. destruct (sched_running s); [by apply yields_ret|].
  apply (yields_bind _ _ (if_done quiet)).
  { apply load_quiet. split; [|done]. by destruct Hok. }
  intros [s'| |]; [|intros _; by apply yields_ret..]. intros [Hok' Hf']. intros w. cbn.
  apply launch_ok; [done | by apply pick_nodup |]. intros i (id & e & Ht & He & _)%pick_elem. split; [by eexists|].
  pose proof (ok_runs s' Hok' i) as Hr. unfold in_flight in Hr. rewrite Hf' in Hr. cbn in Hr.
  by destruct (is_running s' i).
Qed.
(** Events that start no run, and events other than [Start]. *)
Definition starts_no_run (e : event) : bool := match e with ETick | ERunNow _ | EStart => false | _ => true end.
Definition no_start (e : event) : bool := match e with EStart => false | _ => true end.

Lemma react_ok e s : sched_ok s -> no_start e = true -> yields (C := C) (react fuel loc e s) (if_done sched_ok).
Proof.
  intros Hok He. destruct e; cbn [react]; try done; try (by apply yields_ret).
  - apply yields_ret. by apply add_task_ok.
  - apply yields_ret. by apply retry_ok.
  - by apply Enable_ok.
  - eapply yields_bind; [by apply Disable_ok|]. intros s' Hs'. by apply yields_ret.
  - apply yields_ret. unfold Stop. destruct (sched_running s); [by destruct Hok | done].
  - by apply mark_ok.
  - eapply yields_bind; [by apply tick_ok|]. intros s' Hs'. by apply yields_ret.
  - apply yields_ret. by apply RunNow_ok.
  - eapply yields_bind; [by apply begin_ok|]. intros s' Hs'. by apply yields_ret.
  - by apply finish_ok.
  - apply yields_ret. by apply end_run_ok.
Qed.

Lemma no_flight e s w :
  flight s = [] -> starts_no_run e = true -> if_done (fun s' => flight s' = []) (react (C := C) fuel loc e s w).1.
Proof.
  intros Hf He. revert w. change (yields (react (C := C) fuel loc e s) (if_done (fun s' => flight s' = []))).
  destruct e; cbn [react]; try done; try (by apply yields_ret).
  - apply yields_ret. cbn. unfold SetRetry. by destruct (tasks s !! id).
  - unfold EnableTask. destruct (tasks s !! id ≫= _) as [[i e]|]; [|by apply yields_ret]. apply yields_seq. intros t.
    destruct (next_of fuel loc e t); [|by apply yields_ret..]. apply yields_seq. intros _. by apply yields_ret.
  - unfold DisableTask. destruct (tasks s !! id ≫= _) as [[i e]|]; [|by intros w].
    apply (yields_bind _ _ (fun s' => flight s' = [])); [|intros; by apply yields_ret].
    apply yields_seq. intros _. by apply yields_ret.
  - apply yields_ret. unfold Stop. by destruct (sched_running s).
  - apply yields_seq. intros t. apply yields_each; [done|]. clear s Hf. intros i s Hf. unfold mark_entry.
    destruct (entries s !! i) as [e|]; [|by apply yields_ret]. destruct (running e); [|by apply yields_ret].
    apply yields_seq. intros _. by apply yields_ret.
  - unfold begin_run. rewrite Hf. by intros w.
  - unfold finish_run. rewrite Hf. by apply yields_ret.
  - apply yields_ret. unfold end_run. by rewrite Hf.
Qed.

Lemma react_quiet e s : quiet s -> starts_no_run e = true -> yields (C := C) (react fuel loc e s) (if_done quiet).
Proof.
  intros [Hok Hf] He w. pose proof (no_flight e s w Hf He) as H1.
  assert (H2 : if_done sched_ok (react fuel loc e s w).1) by (apply react_ok; [done | by destruct e]).
  by destruct (react fuel loc e s w).1.
Qed.

Lemma react_all_app l1 l2 s w :
  react_all (C := C) fuel loc (l1 ++ l2) s w
  = (react_all fuel loc l1 s ≫= fun r => match r with
                                         | Done s' => react_all fuel loc l2 s'
                                         | Panicked => mret Panicked
                                         | OutOfFuel => mret OutOfFuel
                                         end) w.
Proof.
  revert s w. induction l1 as [|e l1 IH]; intros s w; [done|]. cbn [app react_all]. rewrite !bind_run.
  destruct (react fuel loc e s w) as [[s'| |] w']; [|done..]. by rewrite IH, bind_run.
Qed.

Lemma react_all_ok (P : Scheduler -> Prop) (f : event -> bool) l s :
  (forall e s, P s -> f e = true -> yields (C := C) (react fuel loc e s) (if_done P)) ->
  P s -> Forall (fun e => f e = true) l -> yields (C := C) (react_all fuel loc l s) (if_done P).
Proof.
  intros Hf. revert s. induction l as [|e l IH]; intros s Hs Hl; cbn [react_all]; [by apply yields_ret|].
  inversion_clear Hl. apply (yields_bind _ _ (if_done P)); [by apply Hf|].
  intros [s'| |]; [by intros ?; apply IH | intros _; by apply yields_ret..].
Qed.
Lemma New_quiet db l : quiet (Scheduler.New db l).
Proof.
  split; [|done]. split; cbn; [intros id i; by rewrite lookup_empty | intros id1 id2 i; by rewrite lookup_empty | done].
Qed.

Lemma start_all_ok db setup l :
  Forall (fun e => starts_no_run e = true) setup -> Forall (fun e => no_start e = true) l ->
  yields (C := C) (react_all fuel loc (setup ++ EStart :: l) (Scheduler.New db loc)) (if_done sched_ok).
Proof.
  intros H1 H2 w. rewrite react_all_app. revert w.
  apply (yields_bind _ _ (if_done quiet)).
  - apply (react_all_ok quiet starts_no_run); [exact react_quiet | apply New_quiet | exact H1].
  - intros [s| |] Hs; [|by apply yields_ret..]. cbn [react_all].
    apply (yields_bind _ _ (if_done sched_ok)); [by apply Start_ok|].
    intros [s'| |] Hs'; [|by apply yields_ret..]. by apply (react_all_ok sched_ok no_start); [exact react_ok|..].
Qed.

(** ** In a zone of fixed offset every reaction returns *)

Definition returns {A} (r : run A) : Prop := exists a, r = Done a.

Section returns.
Context (Hnext : forall e t, returns (next_of fuel loc e t)).

Lemma each_returns (f : nat -> Scheduler -> M C (run Scheduler)) l s :
  (forall i s, yields (f i s) returns) -> yields (each f l s) returns.
Proof.
  intros Hf. revert s. induction l as [|i l IH]; intros s; cbn [each]; [apply yields_ret; by eexists|].
  apply (yields_bind _ _ returns); [by apply Hf|]. intros r [s' ->]. apply IH.
Qed.

Lemma done_returns (s : Scheduler) : yields (C := C) (mret (Done s)) returns.
Proof. apply yields_ret. by eexists. Qed.

Lemma complete_returns e start t err : returns (complete fuel loc e start t err).
Proof.
  destruct (Hnext e t) as [n Hn]. unfold complete, after_run.
  destruct err; [case_match|]; rewrite ?Hn; by eexists.
Qed.

Lemma restart_returns t st e : returns (restart_entry fuel loc t st e).
Proof.
  unfold restart_entry. match goal with |- context [next_of _ _ ?e ?u] => destruct (Hnext e u) as [n ->] end.
  by eexists.
Qed.

Lemma react_returns e s : yields (C := C) (react fuel loc e s) returns.
Proof.
  destruct e; cbn [react]; try (by apply done_returns); try (by apply yields_seq; intros ?; apply done_returns).
  - unfold EnableTask. destruct (tasks s !! id ≫= _) as [[i e]|]; [|by apply done_returns]. apply yields_seq. intros t.
    destruct (Hnext e t) as [n ->]. apply yields_seq. intros _. by apply done_returns.
  - unfold Start. destruct (sched_running s); [by apply done_returns|].
    apply (yields_bind _ _ returns); [|intros r [s' ->]; apply yields_seq; intros ?; by apply done_returns].
    unfold loadState. destruct (negb _); repeat (apply yields_seq; intros ?); apply each_returns; intros i s'.
    + apply yields_ret. destruct (entries s' !! i) as [e|]; [|by eexists]. destruct (Hnext e a) as [n ->]. by eexists.
    + unfold load_entry. destruct (entries s' !! i) as [e|]; [|by apply done_returns].
      match goal with |- context [restart_entry _ _ ?t ?st ?e] => destruct (restart_returns t st e) as [e' ->] end.
      apply yields_seq. intros _. by apply done_returns.
  - apply yields_seq. intros t. apply each_returns. intros i s'. unfold mark_entry.
    destruct (entries s' !! i) as [e|]; [|by apply done_returns]. destruct (running e); [|by apply done_returns].
    apply yields_seq. intros _. by apply done_returns.
  - unfold finish_run. destruct (flight s !! k) as [[i [|start|]]|]; try by apply done_returns.
    destruct (entries s !! i) as [e|]; [|by apply done_returns]. apply yields_seq. intros t.
    destruct (complete_returns e start t err) as [[e' b] ->]. apply yields_seq. intros _. by apply done_returns.
Qed.

Lemma react_all_returns l s : yields (C := C) (react_all fuel loc l s) returns.
Proof.
  revert s. induction l as [|e l IH]; intros s; cbn [react_all]; [by apply done_returns|].
  apply (yields_bind _ _ returns); [by apply react_returns|]. intros r [s' ->]. apply IH.
Qed.
End returns.
End invariant.

(** C33 — One run per task at a time: whatever tasks are registered, enabled and
    disabled before the scheduler starts, and however ticks, manual runs,
    settings, a stop, and the critical sections of the runs follow each other
    after it, an entry never has two runs in flight, and it is marked as running
    exactly while it has one.  In a zone of fixed offset every such sequence of
    reactions returns. *)
Theorem one_run_at_a_time {C} (fuel : nat) (loc : Location) (db : bool) (setup l : list event) (w : World C) :
  Forall (fun e => starts_no_run e = true) setup -> Forall (fun e => no_start e = true) l ->
  let r := (react_all fuel loc (setup ++ EStart :: l) (Scheduler.New db loc) w).1 in
  (forall s, r = Done s ->
     forall i, (in_flight s i <= 1)%nat /\ (is_running s i = true <-> in_flight s i = 1%nat))
  /\ (forall o, loc = fixed_zone (60 * o) -> search_minutes < Z.of_nat fuel -> exists s, r = Done s).
Proof.
  intros H1 H2. cbv zeta. split.
  - intros s Hs i. pose proof (start_all_ok fuel loc db setup l H1 H2 w) as Hok. rewrite Hs in Hok.
    rewrite (ok_runs s Hok i). by destruct (is_running s i); split; try lia; split.
  - intros o -> Hf. apply react_all_returns. intros e t. by apply Next_done.
Qed.

(** ** Retries *)

Section retries.
Context (fuel : nat) (loc : Location).

(** The runs of an entry one after the other: start, end and error of each. *)
Fixpoint complete_all (e : taskEntry) (l : list (Z * Z * option string)) : run taskEntry :=
  match l with
  | [] => Done e
  | (start, finished, err) :: l => r ← complete fuel loc e start finished err; complete_all (fst r) l
  end.

Definition failed (r : Z * Z * option string) : bool := match snd r with Some _ => true | None => false end.
Definition count (f : Z * Z * option string -> bool) (l : list (Z * Z * option string)) : Z := Z.of_nat (length (keep f l)).

(** The number of failures since the last success. *)
Fixpoint streak (n : Z) (l : list (Z * Z * option string)) : Z :=
  match l with [] => n | r :: l => streak (if failed r then n + 1 else 0) l end.

Lemma streak_snoc n l r : streak n (l ++ [r]) = if failed r then streak n l + 1 else 0.
Proof. revert n. induction l as [|x l IH]; intros n; [done|]. apply IH. Qed.

Lemma streak_pos n l : 0 <= n -> 0 <= streak n l.
Proof. revert n. induction l as [|x l IH]; intros n Hn; [done|]. apply IH. destruct (failed x); lia. Qed.

Lemma count_snoc f l r : count f (l ++ [r]) = count f l + if f r then 1 else 0.
Proof. unfold count. rewrite keep_app, length_app, keep_cons. destruct (f r); cbn; lia. Qed.

Lemma complete_all_snoc e l r e' :
  complete_all e (l ++ [r]) = Done e' <->
  exists e1 will, complete_all e l = Done e1 /\ complete fuel loc e1 (fst (fst r)) (snd (fst r)) (snd r) = Done (e', will).
Proof.
  destruct r as [[s f] err]. cbn [fst snd]. revert e. induction l as [|[[s0 f0] err0] l IH]; intros e; cbn [app complete_all].
  - rewrite run_bind_done. split.
    + intros ([e1 will] & H1 & [= <-]). eauto.
    + intros (e1 & will & [= <-] & H2). exists (e', will). done.
  - rewrite run_bind_done. split.
    + intros ([e1 w1] & H1 & H2). apply IH in H2 as (e2 & w2 & H2 & H3). exists e2, w2. split; [|done].
      apply run_bind_done. by exists (e1, w1).
    + intros (e2 & w2 & H & H3). apply run_bind_done in H as ([e1 w1] & H1 & H2). exists (e1, w1).
      split; [done|]. apply IH. eauto.
Qed.

(** What no run changes. *)
Definition policy (e : taskEntry) : Schedule * bool * Z * Z := (e_schedule e, retryOnFail e, retryMax e, retryBase e).

Lemma complete_policy e start finished err e' will :
  complete fuel loc e start finished err = Done (e', will) -> policy e' = policy e.
Proof. intros H. apply run_bind_done in H as ([[next attempt] b] & _ & [= <- <-]). done. Qed.

(** One step of the retry policy. *)
Lemma complete_step e start finished err e' will :
  retryOnFail e = true -> complete fuel loc e start finished err = Done (e', will) ->
  lastRun e' = start /\ lastStatus e' = run_status err
  /\ runCount e' = runCount e + (if failed (start, finished, err) then 0 else 1)
  /\ failCount e' = failCount e + (if failed (start, finished, err) then 1 else 0)
  /\ (if failed (start, finished, err) && (retryAttempt e <? retryMax e) then
        nextRun e' = finished + wrap64 (Z.shiftl (retryBase e) (retryAttempt e)) /\ retryAttempt e' = retryAttempt e + 1
      else next_of fuel loc e finished = Done (nextRun e') /\ retryAttempt e' = 0).
Proof.
  intros Hr H. apply run_bind_done in H as ([[next attempt] b] & H & [= <- <-]). cbn.
  unfold after_run, failed in *. cbn [snd] in *. rewrite Hr in H. destruct err as [m|]; cbn [andb] in *.
  - destruct (retryAttempt e <? retryMax e); [injection H as <- <- <-; repeat split; lia|].
    apply run_bind_done in H as (n & Hn & [= <- <- <-]). repeat split; [lia..|done].
  - apply run_bind_done in H as (n & Hn & [= <- <- <-]). repeat split; [lia..|done].
Qed.

Lemma attempt_streak e l e' :
  retryOnFail e = true -> 0 < retryMax e -> retryAttempt e = 0 -> complete_all e l = Done e' ->
  policy e' = policy e /\ retryAttempt e' = streak 0 l mod (retryMax e + 1)
  /\ runCount e' = runCount e + count (fun r => negb (failed r)) l /\ failCount e' = failCount e + count failed l.
Proof.
  intros Hr Hm Ha. revert e'. induction l as [|r l IH] using rev_ind; intros e' H.
  - injection H as <-. unfold count. cbn. rewrite Ha, Z.mod_0_l by lia. repeat split; lia.
  - apply complete_all_snoc in H as (e1 & will & H1 & H2). destruct (IH e1 H1) as (Hp & Hat & Hrc & Hfc).
    pose proof Hp as Hp'. unfold policy in Hp'. injection Hp' as Es Er Em Eb.
    destruct r as [[s f] err]. cbn [fst snd] in H2. pose proof (complete_policy _ _ _ _ _ _ H2) as Hp2.
    apply complete_step in H2 as (_ & _ & H2 & H3 & H4); [|congruence].
    rewrite streak_snoc, !count_snoc. split; [congruence|]. rewrite Hat, Em in H4.
    pose proof (streak_pos 0 l ltac:(lia)) as Hs. revert H2 H3 H4.
    destruct (failed (s, f, err)); cbn [negb andb]; intros H2 H3 H4; (split; [|lia]).
    + set (q := streak 0 l) in *. set (n := retryMax e + 1) in *.
      pose proof (Z.mod_pos_bound q n ltac:(lia)). pose proof (Z.div_mod q n ltac:(lia)).
      destruct (Z.ltb_spec (q mod n) (retryMax e)).
      * destruct H4 as [_ ->]. rewrite (Z.mod_unique (q + 1) n (q / n) (q mod n + 1)); lia.
      * destruct H4 as [_ ->]. rewrite (Z.mod_unique (q + 1) n (q / n + 1) 0); lia.
    + destruct H4 as [_ ->]. by rewrite Z.mod_0_l by lia.
Qed.

(** The retry policy: after any sequence of runs of a task with retries,
    of which the last [n] failed, the attempt is [n] modulo one more than the
    maximum.  When it is not zero the next run is due [base * 2^(attempt-1)]
    after the end of the last one, otherwise at the next activation of the
    schedule; and the counters have counted the successes and the failures. *)
Theorem retry_policy (e e' : taskEntry) (l : list (Z * Z * option string)) (start finished : Z) (err : option string) :
  retryOnFail e = true -> 0 < retryMax e -> 0 < retryBase e -> retryBase e * 2 ^ retryMax e <= max_int64 ->
  retryAttempt e = 0 ->
  let all := (l ++ [(start, finished, err)])%list in
  complete_all e all = Done e' ->
  let k := streak 0 all mod (retryMax e + 1) in
  retryAttempt e' = k /\ lastRun e' = start /\ lastStatus e' = run_status err
  /\ (if k =? 0 then next_of fuel loc e finished = Done (nextRun e')
      else nextRun e' = finished + retryBase e * 2 ^ (k - 1))
  /\ runCount e' = runCount e + count (fun r => negb (failed r)) all
  /\ failCount e' = failCount e + count failed all.
Proof.
  intros Hr Hm Hb Hfit Ha all H k. pose proof (attempt_streak e all e' Hr Hm Ha H) as (_ & Hat & Hrc & Hfc).
  fold k in Hat. apply complete_all_snoc in H as (e1 & will & H1 & H2). cbn [fst snd] in H2.
  pose proof (attempt_streak e l e1 Hr Hm Ha H1) as (Hp & Hat1 & _). injection Hp as Es Er Em Eb.
  apply complete_step in H2 as (Hl & Hst & _ & _ & H2); [|congruence].
  split; [done|]. split; [done|]. split; [done|]. split; [|done].
  pose proof (Z.mod_pos_bound (streak 0 l) (retryMax e + 1) ltac:(lia)) as Hbound.
  unfold next_of in H2. rewrite Em, Es, Eb in H2. rewrite Hat in H2.
  destruct (failed (start, finished, err) && (retryAttempt e1 <? retryMax e)).
  - destruct H2 as [Hn Hk]. destruct (Z.eqb_spec k 0); [lia|].
    rewrite Hn, Z.shiftl_mul_pow2 by lia. replace (k - 1) with (retryAttempt e1) by lia.
    rewrite wrap64_id; [done|].
    assert (2 ^ retryAttempt e1 <= 2 ^ retryMax e) by (apply Z.pow_le_mono_r; lia).
    assert (0 < 2 ^ retryAttempt e1) by (apply Z.pow_pos_nonneg; lia).
    unfold in_int64, min_int64. nia.
  - destruct H2 as [Hn Hk]. by rewrite Hk.
Qed.
End retries.

(** ** Restarting *)

Lemma mark_all_entry l s i :
  entries (foldr (fun i s => upd_entry i (set_running true) s) s l) !! i
  = (if bool_decide (i ∈ l) then set_running true else id) <$> entries s !! i.
Proof.
  induction l as [|j l IH]; cbn [foldr].
  { rewrite bool_decide_false by set_solver. by destruct (entries s !! i). }
  unfold upd_entry at 1. cbn [entries with_entries]. rewrite list_lookup_alter. destruct (decide (j = i)) as [->|Hj].
  - rewrite IH, (bool_decide_true (i ∈ i :: l)) by set_solver. destruct (entries s !! i); [|done]. cbn.
    by case_bool_decide.
  - rewrite IH. by rewrite (bool_decide_ext (i ∈ j :: l) (i ∈ l)) by set_solver.
Qed.

Lemma exec_clock {C A} (f : DBState -> A * DBState) (w : World C) :
  w_clock (exec f w).2 = w_clock w /\ w_ticks (exec f w).2 = w_ticks w.
Proof. unfold exec, sql. destruct (hd false (w_faults w)); [done|]. cbn. by destruct (f (w_db w)). Qed.

(** The stored row of a task, as [loadState] indexes it. *)
Lemma stored_state id (l : list TaskRow) :
  NoDup (tr_id <$> l) ->
  first (fun st => String.eqb (TaskID st) id) (rev (scanTaskState <$> merge_sort id_le l))
  = scanTaskState <$> first (has_task id) l.
Proof.
  intros Hnd. assert (Hp : Permutation (rev (scanTaskState <$> merge_sort id_le l)) (scanTaskState <$> l)).
  { rewrite <- Permutation_rev. by rewrite merge_sort_Permutation. }
  destruct (first (has_task id) l) as [r|] eqn:E; cbn.
  - apply first_Some in E as [Hin Hid]. unfold has_task in Hid. b2p.
    apply (first_unique TaskID).
    + rewrite Hp, <- list_fmap_compose. exact Hnd.
    + rewrite Hp. apply list_elem_of_fmap. eauto.
    + cbn. by apply String.eqb_eq.
    + intros y Hy. b2p. cbn. congruence.
  - pose proof (proj1 (first_None _ _) E) as Hno. apply first_None. intros st Hst. rewrite Hp in Hst.
    apply list_elem_of_fmap in Hst as (r & -> & Hr). exact (Hno r Hr).
Qed.

Section restart.
Context {C : Type} (fuel : nat) (loc : Location).

(** What [loadState] leaves alone. *)
Definition same_frame (s s' : Scheduler) : Prop :=
  tasks s' = tasks s /\ flight s' = flight s /\ catchUpWindow s' = catchUpWindow s.

Lemma load_each t stored l s s' (w w' : World C) :
  NoDup l -> each (load_entry fuel loc t stored) l s w = (Done s', w') ->
  same_frame s s' /\ w_clock w' = w_clock w
  /\ (forall i, i ∉ l -> entries s' !! i = entries s !! i)
  /\ forall i e, i ∈ l -> entries s !! i = Some e ->
       exists e', restart_entry fuel loc t (first (fun st => String.eqb (TaskID st) (e_id e)) (rev stored)) e = Done e'
                  /\ entries s' !! i = Some e'.
Proof.
  intros Hnd. revert s w. induction Hnd as [|j l Hj Hnd IH]; intros s w H; cbn [each] in H.
  { injection H as <- <-. by repeat split; set_solver. }
  rewrite bind_run in H. unfold load_entry at 1 in H.
  destruct (entries s !! j) as [e0|] eqn:E0; cbn in H.
  - destruct (restart_entry _ _ _ _ e0) as [e1| |] eqn:E1; cbn in H; try done.
    rewrite bind_run in H. pose proof (exec_clock (C := C)
      (fun d => (tt, with_tasks (upsert_task (task_row (toTaskState e1)) (t_tasks d)) d)) w) as [Hc _].
    unfold UpsertSchedulerTask in H. destruct (exec _ w) as [u w1]. cbn [mret M_ret fst snd] in H, Hc.
    apply IH in H as ((H1 & H2 & H3) & H4 & H5 & H6). split; [done|]. split; [congruence|]. split.
    + intros i Hi. rewrite H5 by set_solver. cbn. apply list_lookup_alter_ne. set_solver.
    + intros i e [->|Hi]%elem_of_cons He.
      * rewrite E0 in He. injection He as <-. exists e1. split; [done|]. rewrite H5 by done. cbn.
        by rewrite list_lookup_alter_eq, E0.
      * apply H6; [done|]. cbn. rewrite list_lookup_alter_ne by (intros ->; done). done.
  - apply IH in H as (H1 & H2 & H3 & H4). split; [done|]. split; [done|]. split.
    + intros i Hi. apply H3. set_solver.
    + intros i e [->|Hi]%elem_of_cons He; [congruence | by apply H4].
Qed.

Lemma indices_spec s :
  sched_ok s -> NoDup (indices s) /\ forall j, j ∈ indices s <-> exists k, tasks s !! k = Some j.
Proof.
  intros [_ Hi _]. unfold indices. split.
  - apply NoDup_fmap_2_strong; [|apply NoDup_map_to_list].
    intros [k1 j1] [k2 j2] H1%elem_of_map_to_list H2%elem_of_map_to_list Heq. cbn in Heq. subst. by rewrite (Hi k1 k2 j2).
  - intros j. rewrite list_elem_of_fmap. split.
    + intros ([k j'] & -> & Hk%elem_of_map_to_list). eauto.
    + intros [k Hk]. exists (k, j). by rewrite elem_of_map_to_list.
Qed.

(** [Start] as the load of the entries and the launch of the missed ones. *)
Lemma Start_steps s s' (w w' : World C) :
  quiet s -> has_db s = true -> sched_running s = false -> calm w -> Start fuel loc s w = (Done s', w') ->
  let stored := scanTaskState <$> merge_sort id_le (t_tasks (w_db w)) in
  exists s1 w1, each (load_entry fuel loc (w_clock w) stored) (indices s) (set_active_loop true s) (advance w) = (Done s1, w1)
    /\ quiet s1 /\ s' = launch (pick (missed (w_clock w1) (catchUpWindow s1)) s1) s1.
Proof.
  intros Hq Hdb Hrun Hcalm H. cbv zeta. unfold Start in H. rewrite Hrun, bind_run in H.
  assert (Hl : loadState fuel loc (set_active_loop true s) w
               = each (load_entry fuel loc (w_clock w) (scanTaskState <$> merge_sort id_le (t_tasks (w_db w))))
                   (indices s) (set_active_loop true s) (advance w)).
  { unfold loadState. cbn [has_db set_active_loop]. rewrite Hdb. cbn [negb]. rewrite bind_run.
    unfold ListSchedulerTasks. rewrite query_calm by done. done. }
  assert (Hq' : quiet (set_active_loop true s)) by (destruct Hq as [[] ?]; by split).
  pose proof (load_quiet (C := C) fuel loc _ Hq' w) as Hquiet. rewrite Hl in H, Hquiet.
  destruct (each _ _ _ _) as [[s1| |] w1]; cbn in H; try done.
  injection H as Hs _. exists s1, w1. split; [done|]. split; [exact Hquiet | exact (eq_sym Hs)].
Qed.

Lemma launch_spec l s i :
  flight (launch l s) = (flight s ++ ((fun j => (j, Spawned)) <$> l))%list
  /\ entries (launch l s) !! i = (if bool_decide (i ∈ l) then set_running true else id) <$> entries s !! i
  /\ ((i, Spawned) ∈ ((fun j => (j, Spawned)) <$> l) <-> i ∈ l).
Proof.
  unfold launch. cbn [entries flight with_flight]. rewrite mark_all_entry. split; [|split; [done|]].
  - f_equal. induction l; [done|]. done.
  - rewrite list_elem_of_fmap. split; [intros (j & [= ->] & ?); done | eauto].
Qed.

(** The entry of a registered task after the load. *)
Lemma reload_spec s s' (w w' : World C) id i e :
  quiet s -> NoDup (tr_id <$> t_tasks (w_db w)) ->
  each (load_entry fuel loc (w_clock w) (scanTaskState <$> merge_sort id_le (t_tasks (w_db w)))) (indices s)
    (set_active_loop true s) (advance w) = (Done s', w') ->
  tasks s !! id = Some i -> entries s !! i = Some e ->
  tasks s' = tasks s /\ catchUpWindow s' = catchUpWindow s /\ w_clock w' = w_clock (advance w)
  /\ exists e', entries s' !! i = Some e' /\ e_enabled e' = e_enabled e
      /\ match first (has_task (e_id e)) (t_tasks (w_db w)) with
         | Some row =>
             lastRun e' = default zero_time (tr_last_run row) /\ lastStatus e' = tr_last_status row
             /\ lastError e' = tr_last_error row /\ runCount e' = tr_run_count row /\ failCount e' = tr_fail_count row
             /\ next_of fuel loc e (if IsZero (lastRun e') then w_clock w else lastRun e') = Done (nextRun e')
         | None => next_of fuel loc e (w_clock w) = Done (nextRun e') /\ lastStatus e' = lastStatus e
         end.
Proof.
  intros [Hok _] Hnd H Hid He. destruct (indices_spec s Hok) as [Hind Hindex].
  apply load_each in H as ((Ht & _ & Hw) & Hclock & _ & Hload); [|exact Hind].
  destruct (Hload i e) as (e1 & Hre & He1); [by apply Hindex; eauto | done |].
  rewrite stored_state in Hre by done. split; [done|]. split; [done|]. split; [done|]. exists e1. split; [done|].
  unfold restart_entry in Hre. apply run_bind_done in Hre as (n & Hn & [= <-]).
  destruct (first (has_task (e_id e)) _) as [row|]; (split; [done|]); cbn in Hn |- *; [|by split].
  repeat split. by destruct (IsZero _).
Qed.

(** Starting again: every registered task gets back the last run, status,
    error and counters of its stored row, its next run is computed from the
    stored last run (from now if it never ran), and it is run at once if and only
    if it is enabled and that next run lies within the catch-up window.  Whether it
    is enabled comes from its registration, not from the stored row. *)
Theorem restart_catches_up s s' (w w' : World C) id i e :
  quiet s -> has_db s = true -> sched_running s = false -> calm w -> NoDup (tr_id <$> t_tasks (w_db w)) ->
  Start fuel loc s w = (Done s', w') -> tasks s !! id = Some i -> entries s !! i = Some e ->
  exists e', entries s' !! i = Some e'
    /\ e_enabled e' = e_enabled e
    /\ match first (has_task (e_id e)) (t_tasks (w_db w)) with
       | Some row =>
           lastRun e' = default zero_time (tr_last_run row) /\ lastStatus e' = tr_last_status row
           /\ lastError e' = tr_last_error row /\ runCount e' = tr_run_count row /\ failCount e' = tr_fail_count row
           /\ next_of fuel loc e (if IsZero (lastRun e') then w_clock w else lastRun e') = Done (nextRun e')
       | None => next_of fuel loc e (w_clock w) = Done (nextRun e') /\ lastStatus e' = lastStatus e
       end
    /\ ((i, Spawned) ∈ flight s' <-> missed (w_clock (advance w)) (catchUpWindow s) e' = true)
    /\ (running e' = true <-> (i, Spawned) ∈ flight s').
Proof.
  intros Hq Hdb Hrun Hcalm Hnd H Hid He.
  destruct (Start_steps s s' w w' Hq Hdb Hrun Hcalm H) as (s1 & w1 & Hl & Hq1 & ->).
  destruct (reload_spec s s1 w w1 id i e Hq Hnd Hl Hid He) as (Ht & Hw & Hclock & e1 & He1 & Hen & Hspec).
  set (l := pick _ s1). assert (Hpick : i ∈ l <-> missed (w_clock (advance w)) (catchUpWindow s) e1 = true).
  { unfold l. rewrite pick_elem, Hw, Hclock, Ht. split; [intros (k & e2 & _ & H2 & H3); congruence | eauto 6]. }
  destruct Hq1 as [Hok1 Hf1]. destruct (launch_spec l s1 i) as (-> & -> & Hin). rewrite Hf1, He1. cbn [app].
  pose proof (ok_runs s1 Hok1 i) as Hr. unfold in_flight, is_running in Hr. rewrite Hf1, He1 in Hr. cbn in Hr.
  eexists. split; [reflexivity|]. rewrite Hin.
  case_bool_decide as Hil; cbn [set_running]; (split; [exact Hen|]); (split; [exact Hspec|]); (split; [exact Hpick|]).
  - by split.
  - destruct (running e1) eqn:Er; [done|]. unfold Datatypes.id. rewrite Er. by split.
Qed.
End restart.

(** ** Interrupted tasks *)

(** The status and the next run a row already has. *)
Definition row_keeps (id status : string) (next : Z) (d : DBState) : Prop :=
  exists row, first (has_task id) (t_tasks d) = Some row /\ tr_last_status row = status /\ tr_next_run row = Some next.

Lemma upsert_keeps id status next r d :
  status <> "" -> row_keeps id status next d -> row_keeps id status next (with_tasks (upsert_task r (t_tasks d)) d).
Proof.
  intros Hs (row & Hrow & Hst & Hn). unfold row_keeps, upsert_task. cbn [t_tasks with_tasks].
  destruct (existsb _ _); [|exists row; by rewrite first_app, Hrow].
  rewrite first_upd by done. rewrite Hrow. cbn. destruct (has_task (tr_id r) row) eqn:E; [|by exists row].
  eexists. split; [done|]. unfold merge_task, coalesce_str, coalesce. cbn. rewrite Hst, Hn.
  by destruct (String.eqb_spec status "").
Qed.

Lemma safe_each {C} (I : DBState -> Prop) (f : nat -> Scheduler -> M C (run Scheduler)) l s :
  (forall i s, safe I (f i s) (fun _ => True)) -> safe I (each f l s) (fun _ => True).
Proof.
  intros Hf. revert s. induction l as [|i l IH]; intros s; cbn [each]; [by apply safe_ret|].
  apply (safe_bind I _ _ (fun _ => True)); [apply Hf|]. intros [s'| |] _; [apply IH | by apply safe_ret..].
Qed.

(** The mark that [Stop] leaves on a task it had to interrupt does not reach
    the database: a stored row keeps its status and its next run, whatever the
    tasks and the failing statements are. *)
Theorem interruption_not_stored {C} (s : Scheduler) (w : World C) id status next :
  status <> "" -> row_keeps id status next (w_db w) ->
  row_keeps id status next (w_db (markInterrupted s w).2).
Proof.
  intros Hs Hw. assert (Hm : safe (C := C) (row_keeps id status next) (markInterrupted s) (fun _ => True)).
  { unfold markInterrupted. safe_step. apply safe_each. intros i s'. unfold mark_entry.
    repeat (safe_step; try done). apply (safe_bind _ _ _ (fun _ => True)); [|intros; by apply safe_ret].
    unfold persistState, UpsertSchedulerTask. repeat (safe_step; try done). by apply upsert_keeps. }
  by apply Hm.
Qed.

(** ** Witnesses *)

(** The clock starts on 1 January 2024 and moves by a second at every reading. *)
Definition start_of_2024 : Z := of_unix 1704067200.
Definition sample_site (rows : list TaskRow) : World noopCache :=
  {| w_db := with_tasks rows empty_db; w_cache := None; w_clock := start_of_2024; w_ticks := repeat (Z.to_N Second) 20;
     w_rand := []; w_faults := []; w_metrics := no_metrics |}.
Definition every_10m : Schedule := SInterval "@every 10m" (10 * Minute).

(** The task ran half an hour ago; its row says it is disabled. *)
Definition sample_row : TaskRow :=
  {| tr_id := "expire-pastes"; tr_name := "Expire Pastes"; tr_schedule := "@every 10m";
     tr_last_run := Some (start_of_2024 - 30 * Minute); tr_last_status := "success"; tr_last_error := "";
     tr_next_run := Some (start_of_2024 - 20 * Minute); tr_run_count := 7; tr_fail_count := 1; tr_enabled := 0 |}.

Definition sample_setup : list event := [EAdd "expire-pastes" "Expire Pastes" every_10m true].
Definition sample_events : list event := [ETick; ERunNow "expire-pastes"; EBegin 0; ETick; EFinish 0 (Some "busy"); ERunNow "expire-pastes"].

Definition after_events : run Scheduler :=
  (react_all 1 UTC (sample_setup ++ EStart :: sample_events) (Scheduler.New true UTC) (sample_site [sample_row])).1.

Lemma one_run_at_a_time_witness :
  exists s, after_events = Done s /\ flight s = [(0%nat, Finished)]
    /\ (in_flight s 0 <= 1)%nat /\ (is_running s 0 = true <-> in_flight s 0 = 1%nat).
Proof.
  eexists. split; [vm_compute; reflexivity|]. split; [reflexivity|].
  pose proof (one_run_at_a_time 1 UTC true sample_setup sample_events (sample_site [sample_row])
    ltac:(repeat constructor) ltac:(repeat constructor)) as [H _]. cbv zeta in H.
  apply (H _ ltac:(vm_compute; reflexivity) 0%nat).
Defined.

Definition sample_entry : taskEntry :=
  set_policy true Hour 3 (new_entry "blocklist_update" "Blocklist Update" (SInterval "@every 24h" (24 * Hour)) true).

(** Five failures in a row: three retries, back to the schedule, one retry. *)
Definition sample_failures (t : Z) : list (Z * Z * option string) := repeat (t, t + Second, Some "timeout") 4.

Lemma retry_policy_witness :
  exists e', complete_all 1 UTC sample_entry (sample_failures 0 ++ [(Hour, 2 * Hour, Some "timeout")]) = Done e'
    /\ retryAttempt e' = 1 /\ nextRun e' = 2 * Hour + Hour * 2 ^ 0 /\ failCount e' = 5.
Proof.
  destruct (complete_all _ _ _ _) as [e'| |] eqn:E; [|vm_compute in E; discriminate..].
  pose proof (retry_policy 1 UTC sample_entry e' (sample_failures 0) Hour (2 * Hour) (Some "timeout") eq_refl
    ltac:(reflexivity) ltac:(reflexivity) ltac:(vm_compute; discriminate) eq_refl E) as H.
  replace (streak 0 _ mod _) with 1 in H by (vm_compute; reflexivity).
  destruct H as (H1 & _ & _ & H2 & _ & H3). exists e'. split; [done|]. split; [exact H1|]. split; [exact H2|exact H3].
Defined.

Definition restarted : Scheduler := add_task "expire-pastes" "Expire Pastes" every_10m true (Scheduler.New true UTC).

Lemma restart_catches_up_witness :
  exists s' w' e', Start 1 UTC restarted (sample_site [sample_row]) = (Done s', w')
    /\ entries s' !! 0%nat = Some e' /\ e_enabled e' = true /\ runCount e' = 7
    /\ nextRun e' = start_of_2024 - 20 * Minute /\ (0%nat, Spawned) ∈ flight s'.
Proof.
  destruct (Start 1 UTC restarted (sample_site [sample_row])) as [[s'| |] w'] eqn:E; [|vm_compute in E; discriminate..].
  destruct (restart_catches_up 1 UTC restarted s' (sample_site [sample_row]) w' "expire-pastes" 0%nat
    (new_entry "expire-pastes" "Expire Pastes" every_10m true)) as (e' & H1 & H2 & H3 & H4 & _);
    [apply add_quiet, New_quiet | done | done | done | apply NoDup_singleton | exact E | done | done |].
  exists s', w', e'. split; [done|]. split; [exact H1|]. split; [exact H2|].
  cbn in H3. destruct H3 as (Hl & _ & _ & Hr & _ & Hn). split; [exact Hr|].
  rewrite Hl in Hn. injection Hn as Hn. split; [rewrite <- Hn; reflexivity|].
  apply H4. unfold missed. rewrite H2, <- Hn. reflexivity.
Defined.

Lemma interruption_not_stored_witness :
  row_keeps "expire-pastes" "success" (start_of_2024 - 20 * Minute)
    (w_db (markInterrupted (launch [0%nat] restarted) (sample_site [sample_row])).2).
Proof. apply interruption_not_stored; [discriminate | exists sample_row; done]. Defined.
