(* ===== verification/Operator.v ===== *)
(** * Sensitive operations (src/src/maintenance/authorize.go, data.go, compliance.go)

    Who may set up, restore, change the mode or touch the records of a person; the export
    and the deletion of what belongs to a token; the summary of the compliance rules. The
    terminal, the user database and the file of the database are arguments. *)

From S2P Require Import Prelude GoStr GoTime GoCrypto ConfigText AuditLog Model Cache World Database Http.
From Stdlib Require Import Ascii.

(** ** Authorization *)

(** [os.Stat] of the file of the database. *)
Inductive FileState := Absent | Unreadable | Present.

(** [pastes] and [tokens] are the answers of the two counts. *)
Definition no_table (e : string) : bool := Strings.Contains e "no such table".
Definition databaseEmpty (dbPath : string) (file : FileState) (pastes tokens : result Z) : result bool :=
  if String.eqb (StringsU.TrimSpace dbPath) "" then Ok true
  else match file with
       | Absent => Ok true
       | Unreadable => Err "stat database"
       | Present =>
           match pastes with
           | Err e => if no_table e then Ok true else Err "count pastes"
           | Ok p =>
               match tokens with
               | Err e => if no_table e then Ok (p =? 0) else Err "count api tokens"
               | Ok t => Ok ((p =? 0) && (t =? 0))
               end
           end
       end.

(** Standard input: a terminal, whose password reading is [secret], or not; [typed] is
    what can be read from it, and [None] a reading error. *)
Record Input := { secret : option (result string); typed : option string }.

(** [ReadString('\n')]: the line with its end, and whether there was an error. *)
Definition read_line (text : option string) : string * bool :=
  match text with
  | None => ("", true)
  | Some s => match Strings.IndexByte s "010" with Some i => (Strings.take (S i) s, false) | None => (s, true) end
  end.

Record authorizer := {
  isRoot : bool; currentUser : result string; ServiceUser : string; serverToken : string; dbEmpty : result bool; stdin : Input;
}.

Section authorization.
Context `{Unicode} (a : authorizer).

Definition first_run : bool := match dbEmpty a with Ok empty => empty | Err _ => false end.

Definition isServiceUser : bool :=
  match currentUser a with
  | Err _ => false
  | Ok name => String.eqb (match Strings.LastIndexByte name "\" with Some i => Strings.drop (S i) name | None => name end) (ServiceUser a)
  end.

Definition readSecret : result string :=
  match secret (stdin a) with
  | Some pw => pw
  | None => let '(line, failed) := read_line (typed (stdin a)) in
            if failed && String.eqb line "" then Err "EOF" else Ok (Strings.TrimRight line (String "013" newline))
  end.

Definition requireOperatorToken : result unit :=
  let token := StringsU.TrimSpace (serverToken a) in
  if String.eqb token "" then Err "operator token not configured — run as root instead"
  else match readSecret with
       | Err e => Err ("read operator token: " ++ e)
       | Ok entered =>
           if bool_decide (Sha256.Sum256 (bytes token) = Sha256.Sum256 (bytes (StringsU.TrimSpace entered))) then Ok tt
           else Err "operator token mismatch — authorization rejected"
       end.

Definition confirm : bool :=
  let '(line, failed) := read_line (typed (stdin a)) in
  if failed && String.eqb (StringsU.TrimSpace line) "" then false else IsTruthy (StringsU.TrimSpace line).

Definition authorizeSetup : result unit :=
  if first_run then Ok tt
  else if isRoot a then if confirm then Ok tt else Err "setup cancelled"
  else Err "setup already completed".

Definition authorizeRestore : result unit :=
  if first_run then Ok tt
  else if isRoot a then if confirm then Ok tt else Err "restore cancelled"
  else if isServiceUser then requireOperatorToken
  else Err "restore requires administrator authorization: run as root or provide the operator token".

Definition authorizeMode : result unit :=
  if isRoot a then Ok tt
  else if isServiceUser then requireOperatorToken
  else Err "mode change requires administrator authorization: run as root or provide the operator token".

Definition authorizeDataOp : result unit :=
  if isRoot a then Ok tt
  else if isServiceUser then requireOperatorToken
  else Err "data operations require administrator authorization: run as root or provide the operator token".
End authorization.

(** [newAuthorizer] of a configuration with this path and token. *)
Definition newAuthorizer (cfgPath cfgToken defaultPath service : string) (file : FileState) (pastes tokens : result Z) (root : bool)
    (user : result string) (input : Input) : authorizer :=
  let path := StringsU.TrimSpace cfgPath in
  {| isRoot := root; currentUser := user; ServiceUser := service; serverToken := cfgToken;
     dbEmpty := databaseEmpty (if String.eqb path "" then defaultPath else path) file pastes tokens; stdin := input |}.

(** ** The records of a person *)

Definition data_entry (event : string) (details : list (string * json)) : Entry :=
  {| en_ID := ""; en_Time := ""; en_Event := event; en_Category := ""; en_Severity := SeverityInfo; en_Actor := {| a_IP := ""; a_UserAgent := "" |};
     en_Target := None; en_Details := details; en_Result := ResultSuccess; en_Reason := "" |}.

Section data.
Context {C : Type} `{JsonText}.
(** [json.MarshalIndent] of a value. *)
Context (indent : json -> string).

Definition export_record (t : Z) (rec : APITokenRecord) (paste : option Paste) : json :=
  JObj ([("requested_at", JStr (time_text t)); ("token_prefix", JStr (rec_TokenPrefix rec)); ("resource_type", JStr (rec_ResourceType rec));
         ("resource_id", JStr (rec_ResourceID rec)); ("token_created_at", JStr (time_text (rec_CreatedAt rec)))]
        ++ time_field "token_expires_at" (rec_ExpiresAt rec) ++ match paste with Some p => [("paste", paste_json p)] | None => [] end)%list.

(** The answer is what is printed; the list, what is written to the audit log. A paste
    that is gone is the JSON null, as [omitempty] keeps a nil pointer in an interface. *)
Definition runDataExport (prefix : string) : M C (result string * list Entry) :=
  let requested := data_entry "compliance.data_export_requested" [("token_prefix", JStr prefix)] in
  rec ← GetAPITokenByPrefix prefix;
  match rec with
  | Err e => mret (Err ("data export: " ++ e), [requested])
  | Ok rec =>
      t ← now;
      paste ← (if String.eqb (rec_ResourceType rec) "paste" then GetPasteByID (rec_ResourceID rec) else mret (Err ""));
      let out := match paste with
                 | Ok (Some p) => export_record t rec (Some p)
                 | Ok None => match export_record t rec None with JObj l => JObj (l ++ [("paste", JNull)])%list | j => j end
                 | Err _ => export_record t rec None
                 end in
      mret (Ok (indent out),
            [requested; data_entry "compliance.data_export_completed" [("token_prefix", JStr prefix); ("file_size", JInt (strlen (indent out)))]])
  end.

Definition delete_resource (ty id : string) : M C (result unit) := if String.eqb ty "paste" then DeletePaste id else mret (Ok tt).

Definition runDataDelete (prefix : string) : M C (result unit * list Entry) :=
  let requested := data_entry "compliance.data_deletion_requested" [("token_prefix", JStr prefix)] in
  rec ← GetAPITokenByPrefix prefix;
  match rec with
  | Err e => mret (Err ("data delete: " ++ e), [requested])
  | Ok rec =>
      del ← delete_resource (rec_ResourceType rec) (rec_ResourceID rec);
      match del with
      | Err e => mret (Err ("data delete: delete paste: " ++ e), [requested])
      | Ok _ =>
          rev ← RevokeAPIToken prefix "compliance data deletion";
          match rev with
          | Err e => mret (Err ("data delete: revoke token: " ++ e), [requested])
          | Ok _ => mret (Ok tt, [requested; data_entry "compliance.data_deletion_completed" [("token_prefix", JStr prefix)]])
          end
      end
  end.

(** The actions of [RunData] once the configuration and the database are open. *)
Definition RunData (action prefix : string) : M C (result string * list Entry) :=
  let prefix := StringsU.TrimSpace prefix in
  if String.eqb prefix "" then mret (Err ("data: " ++ action ++ " requires a token prefix (see --maintenance token list)"), [])
  else if String.eqb action "export" then runDataExport prefix
  else if String.eqb action "delete" then
    res ← runDataDelete prefix;
    mret (match res.1 with Ok _ => Ok ("data: deleted resource for token prefix " ++ prefix) | Err e => Err e end, res.2)
  else mret (Err ("data: unknown action " ++ action ++ " (want export|delete)"), []).
End data.

(** ** Compliance *)

Record standardRequirement := {
  name : string; retentionYears : Z; breachNotifyHours : Z; sessionTimeoutMins : Z; rightToErasure : bool; dataPortability : bool;
}.

Definition requirement (name : string) (years hours mins : Z) (erasure portability : bool) : standardRequirement :=
  {| name := name; retentionYears := years; breachNotifyHours := hours; sessionTimeoutMins := mins; rightToErasure := erasure; dataPortability := portability |}.

Definition quantifiedRequirements : list standardRequirement :=
  [requirement "GDPR" 1 72 0 true true; requirement "CCPA" 1 0 0 true true; requirement "HIPAA" 6 (60 * 24) 15 false false;
   requirement "SOC2" 1 0 0 false false; requirement "PCI-DSS" 1 0 15 false false; requirement "ISO27001" 3 0 0 false false].

Definition standards : list string := ["GDPR"; "CCPA"; "HIPAA"; "SOC2"; "PCI-DSS"; "ISO27001"; "FedRAMP"; "LGPD"; "PIPEDA"; "APPI"; "PDPA"].

(** The two loops: the greatest value, and the least of the positive ones. *)
Definition greatest (l : list Z) : Z := foldl (fun m x => if m <? x then x else m) 0 l.
Definition least_positive (l : list Z) : Z := foldl (fun m x => if x <=? 0 then m else if (m =? 0) || (x <? m) then x else m) 0 l.

Definition strictestRetention (reqs : list standardRequirement) : Z := greatest (retentionYears <$> reqs).
Definition strictestBreachNotification (reqs : list standardRequirement) : Z := least_positive (breachNotifyHours <$> reqs).
Definition strictestSessionTimeout (reqs : list standardRequirement) : Z := least_positive (sessionTimeoutMins <$> reqs).
Definition anyRightToErasure (reqs : list standardRequirement) : bool := existsb rightToErasure reqs.
Definition anyDataPortability (reqs : list standardRequirement) : bool := existsb dataPortability reqs.

Definition active_requirements (enabled : string -> bool) : list standardRequirement :=
  omap (fun n => if enabled n then first (fun r => String.eqb (name r) n) quantifiedRequirements else None) standards.

Definition padded (n : nat) (s : string) : string := s ++ Strings.Repeat " " (n - String.length s).
Definition go_bool (b : bool) : string := if b then "true" else "false".

(** The lines that are printed. *)
Definition compliance_report (enabled : string -> bool) : list string :=
  let active := active_requirements enabled in
  ("Compliance Standards:" :: ((fun n => "  " +:+ padded 9 n +:+ " " +:+ (if enabled n then "enabled" else "disabled")) <$> standards)
   ++ match active with
      | [] => []
      | _ =>
          [""; "Resolved Requirements (strictest wins where standards overlap):";
           "  Audit log retention: " +:+ Strconv.Itoa (strictestRetention active) +:+ " year(s)"]
          ++ (if 0 <? strictestBreachNotification active then ["  Breach notification: within " +:+ Strconv.Itoa (strictestBreachNotification active) +:+ " hour(s)"] else [])
          ++ (if 0 <? strictestSessionTimeout active then ["  Session timeout: " +:+ Strconv.Itoa (strictestSessionTimeout active) +:+ " minute(s)"] else [])
          ++ ["  Right to erasure: " +:+ go_bool (anyRightToErasure active); "  Data portability: " +:+ go_bool (anyDataPortability active)]
      end)%list.

(** [RunCompliance] of a configuration that loads. *)
Definition RunCompliance (action : string) (enabled : string -> bool) : result (list string * list Entry) :=
  if negb (String.eqb action "report") then Err ("compliance: unknown action " ++ action ++ " (want report)")
  else Ok (compliance_report enabled, [data_entry "compliance.report_generated" [("report_type", JStr "cli_summary")]]).
