(* ===== verification/OperatorProofs.v ===== *)
(** * Sensitive operations: who is let in, what an erasure leaves, the strictest rule *)

From S2P Require Import Prelude GoStr GoStrProofs GoTime GoCrypto ConfigText AuditLog Model Cache World Database DatabaseProofs Http PasteProofs PasteSpec Instances Operator.
From Stdlib Require Import Ascii.

(** ** Authorization *)

Section authorization.
Context `{Unicode}.
Implicit Types (a : authorizer).

(** What is read of a text up to its first newline. *)
Definition first_line (text : option string) (line : string) : Prop :=
  (exists l rest, text = Some (l ++ newline ++ rest) /\ Strings.IndexByte l "010" = None /\ line = l ++ newline)
  \/ (text = Some line /\ Strings.IndexByte line "010" = None).

Lemma first_line_cut l rest : Strings.IndexByte l "010" = None -> read_line (Some (l ++ newline ++ rest)) = (l ++ newline, false).
Proof.
  intros Hi. unfold read_line. change (l ++ newline ++ rest) with (l ++ String "010" rest). rewrite IndexByte_cut by done. f_equal.
  change (String "010" rest) with (newline ++ rest). rewrite string_app_assoc.
  replace (S (String.length l)) with (String.length (l ++ newline)) by (rewrite string_app_length; cbn; lia). apply take_app.
Qed.

Lemma read_line_spec text line failed : read_line text = (line, failed) <->
  (text = None /\ line = "" /\ failed = true)
  \/ (text = Some line /\ Strings.IndexByte line "010" = None /\ failed = true)
  \/ (exists l rest, text = Some (l ++ newline ++ rest) /\ Strings.IndexByte l "010" = None /\ line = l ++ newline /\ failed = false).
Proof.
  split.
  - destruct text as [s|]; [|intros [= <- <-]; by left]. destruct (cut_first s "010") as [E|(l & rest & -> & Hi & _)].
    + unfold read_line. rewrite E. intros [= <- <-]. right. by left.
    + change (l ++ String "010" rest) with (l ++ newline ++ rest). rewrite first_line_cut by done. intros [= <- <-]. right. right. by exists l, rest.
  - intros [(-> & -> & ->)|[(-> & Hi & ->)|(l & rest & -> & Hi & -> & ->)]]; [done| |by apply first_line_cut].
    unfold read_line. by rewrite Hi.
Qed.

Lemma read_first text line : first_line text line <-> exists failed, read_line text = (line, failed) /\ text <> None.
Proof.
  split.
  - intros [(l & rest & -> & Hi & ->)|[-> Hi]]; eexists; (split; [apply read_line_spec|done]); [right; right; by exists l, rest|right; by left].
  - intros (failed & [(? & _)|[(Et & Hi & _)|(l & rest & Et & Hi & El & _)]]%read_line_spec & Hne); [done|by right|left; by exists l, rest].
Qed.

(** What was entered for a secret: the password of a terminal, or else the first line,
    without its end, of an input that has one. *)
Definition entered (i : Input) (s : string) : Prop :=
  secret i = Some (Ok s)
  \/ (secret i = None /\ exists line, first_line (typed i) line /\ line <> "" /\ s = Strings.TrimRight line (String "013" newline)).

Lemma readSecret_iff a s : readSecret a = Ok s <-> entered (stdin a) s.
Proof.
  unfold readSecret, entered. destruct (secret (stdin a)) as [[pw|e]|].
  - split; [intros [= ->]; by left|]. by intros [[= ->]|[? _]].
  - split; [done|]. by intros [?|[? _]].
  - destruct (read_line (typed (stdin a))) as [line failed] eqn:E. split.
    + destruct (failed && String.eqb line "") eqn:Ef; [done|]. intros [= <-]. right. split; [done|]. exists line.
      split; [|split; [|done]].
      * apply read_first. exists failed. split; [done|]. intros Et. rewrite Et in E. by injection E as <- <-.
      * intros ->. apply read_line_spec in E as [(_ & _ & ->)|[(_ & _ & ->)|(l & ? & _ & _ & El & _)]]; [done..|]. by destruct l.
    + intros [?|(_ & x & Hx & Hne & ->)]; [done|]. apply read_first in Hx as (f & Hf & _). rewrite E in Hf. injection Hf as -> ->.
      apply String.eqb_neq in Hne. by rewrite Hne, andb_false_r.
Qed.

(** The operator's token is configured, and what was entered has its hash. *)
Definition proves_operator (token : string) (i : Input) : Prop :=
  StringsU.TrimSpace token <> "" /\ exists s, entered i s
  /\ Sha256.Sum256 (bytes (StringsU.TrimSpace s)) = Sha256.Sum256 (bytes (StringsU.TrimSpace token)).

Lemma requireOperatorToken_spec a : requireOperatorToken a = Ok tt <-> proves_operator (serverToken a) (stdin a).
Proof.
  unfold requireOperatorToken, proves_operator. destruct (String.eqb_spec (StringsU.TrimSpace (serverToken a)) "") as [E|E]; [split; [done|by intros []]|].
  destruct (readSecret a) as [x|e] eqn:Er.
  - case_bool_decide as Hs; split; try done.
    + intros _. split; [done|]. exists x. by rewrite <- readSecret_iff.
    + intros (_ & y & Hy%readSecret_iff & Hx). rewrite Er in Hy. injection Hy as ->. by destruct Hs.
  - split; [done|]. intros (_ & y & Hy%readSecret_iff & Hx). congruence.
Qed.

(** The words that mean yes. *)
Definition yes (s : string) : Prop :=
  StringsU.TrimSpace (StringsU.ToLower s) ∈
  ["1"; "y"; "t"; "yes"; "true"; "on"; "ok"; "enable"; "enabled"; "yep"; "yup"; "yeah"; "aye"; "si"; "oui"; "da"; "hai";
   "affirmative"; "accept"; "allow"; "grant"; "sure"; "totally"].

(** The first line that is typed means yes. *)
Definition confirms (i : Input) : Prop := exists line, first_line (typed i) line /\ yes (StringsU.TrimSpace line).

Lemma IsTruthy_iff s : IsTruthy s = true <-> yes s.
Proof.
  unfold IsTruthy, token_of, yes. rewrite existsb_exists. split.
  - intros (x & Hx & ->%String.eqb_eq). by apply list_elem_of_In.
  - intros Hx. eexists. split; [by apply list_elem_of_In|]. apply String.eqb_refl.
Qed.

Lemma confirm_iff a : confirm a = true <-> confirms (stdin a).
Proof.
  unfold confirm, confirms. destruct (read_line (typed (stdin a))) as [line failed] eqn:E. split.
  - destruct (failed && _) eqn:Ef; [done|]. intros Hy%IsTruthy_iff. exists line. split; [|done].
    apply read_first. exists failed. split; [done|]. intros Et. rewrite Et in E. by injection E as <- <-.
  - intros (x & Hx & Hy). apply read_first in Hx as (f & Hf & _). rewrite E in Hf. injection Hf as -> ->.
    destruct (String.eqb_spec (StringsU.TrimSpace x) "") as [Ex|]; [|rewrite andb_false_r; by apply IsTruthy_iff].
    exfalso. rewrite Ex in Hy. unfold yes in Hy. change (StringsU.TrimSpace (StringsU.ToLower "")) with "" in Hy.
    repeat (apply elem_of_cons in Hy as [Hy|Hy]; [done|]). by apply elem_of_nil in Hy.
Qed.

(** The process runs as this account, perhaps of a domain. *)
Definition runs_as (user : result string) (account : string) : Prop :=
  exists name, user = Ok name /\ Strings.IndexByte account "\" = None /\ (name = account \/ exists domain, name = domain ++ "\" ++ account).

Lemma isServiceUser_iff a : isServiceUser a = true <-> runs_as (currentUser a) (ServiceUser a).
Proof.
  unfold isServiceUser, runs_as. destruct (currentUser a) as [name|e]; [|split; [done|by intros (? & ? & _)]].
  rewrite String.eqb_eq. destruct (cut_last name "\") as [[E ->]|(x & y & -> & Hy & ->)].
  - split; [intros <-; exists name; auto|]. intros (n & [= <-] & _ & [Hn|[d ->]]); [done|]. by apply IndexByte_has in E.
  - rewrite drop_past. split.
    + intros <-. eexists. split; [done|]. split; [done|]. right. by exists x.
    + intros (n & [= <-] & Hs & [Hn|[d Hn]]); [rewrite <- Hn in Hs; by apply IndexByte_has in Hs|].
      pose proof (LastIndexByte_cut x y "\" Hy) as E1. pose proof (LastIndexByte_cut d (ServiceUser a) "\" Hs) as E2.
      change ("\" ++ ServiceUser a) with (String "\" (ServiceUser a)) in Hn. rewrite Hn in E1. rewrite E1 in E2. injection E2 as E2.
      rewrite <- (drop_past x y "\"), Hn, E2. apply drop_past.
Qed.

(** The database has nothing to protect: there is none, or it has no table of pastes, or
    no paste and no token (or no table of tokens). *)
Definition untouched (path : string) (file : FileState) (pastes tokens : result Z) : Prop :=
  StringsU.TrimSpace path = "" \/ file = Absent
  \/ (file = Present /\ ((exists e, pastes = Err e /\ occurs "no such table" e)
                        \/ (pastes = Ok 0 /\ (tokens = Ok 0 \/ exists e, tokens = Err e /\ occurs "no such table" e)))).

Lemma first_run_iff path file pastes tokens : databaseEmpty path file pastes tokens = Ok true <-> untouched path file pastes tokens.
Proof.
  unfold databaseEmpty, untouched, no_table. destruct (String.eqb_spec (StringsU.TrimSpace path) ""); [tauto|].
  destruct file; [tauto|split; [done|by intros [?|[?|[? _]]]]|]. destruct pastes as [p|e].
  - split.
    + intros Hr. right. right. split; [done|]. right. destruct tokens as [t|e].
      * injection Hr as [Ep Et]%andb_true_iff. apply Z.eqb_eq in Ep as ->, Et as ->. auto.
      * destruct (Strings.Contains e "no such table") eqn:E; [|done]. apply Contains_iff in E. injection Hr as Ep%Z.eqb_eq. subst p. eauto.
    + intros [?|[?|(_ & [(e & ? & _)|([= ->] & [->|(e & -> & E%Contains_iff)])])]]; [done..|]. by rewrite E.
  - split.
    + destruct (Strings.Contains e "no such table") eqn:E; [|done]. intros _. right. right. split; [done|]. left. exists e. by rewrite <- Contains_iff.
    + intros [?|[?|(_ & [(e' & [= <-] & E%Contains_iff)|(? & _)])]]; [done..| |done]. by rewrite E.
Qed.

(** The path of the database: the configured one, or the default. *)
Definition database_path (cfgPath defaultPath : string) : string :=
  if decide (StringsU.TrimSpace cfgPath = "") then defaultPath else StringsU.TrimSpace cfgPath.

(** C20 — who may do what, for the authorizer of a configuration.  While the database has
    nothing to protect (it is absent, or has no table of pastes, or no pastes and no
    tokens) anyone may set up and restore.  Otherwise setting up takes root, who types a
    word that means yes; restoring takes the same, or the service account (with or without
    a domain) and the operator's token, entered at the terminal or as the first line of the
    input; and changing the mode or touching the records of a person takes root, or the
    service account and the token.  Nobody passes by a token that is not configured. *)
Theorem operations_authorized cfgPath token defaultPath service file pastes tokens root user i :
  let a := newAuthorizer cfgPath token defaultPath service file pastes tokens root user i in
  let free := untouched (database_path cfgPath defaultPath) file pastes tokens in
  let by_service := runs_as user service /\ proves_operator token i in
  (authorizeSetup a = Ok tt <-> free \/ (root = true /\ confirms i))
  /\ (authorizeRestore a = Ok tt <-> free \/ (root = true /\ confirms i) \/ (root = false /\ by_service))
  /\ (authorizeMode a = Ok tt <-> root = true \/ by_service)
  /\ (authorizeDataOp a = Ok tt <-> root = true \/ by_service).
Proof.
  cbv zeta. set (a := newAuthorizer _ _ _ _ _ _ _ _ _ _).
  assert (Hf : first_run a = true <-> untouched (database_path cfgPath defaultPath) file pastes tokens).
  { rewrite <- first_run_iff. unfold first_run, a, newAuthorizer, database_path. cbn [dbEmpty].
    destruct (decide (StringsU.TrimSpace cfgPath = "")) as [E|E]; destruct (String.eqb_spec (StringsU.TrimSpace cfgPath) ""); try done;
      destruct (databaseEmpty _ _ _ _) as [[]|]; split; congruence. }
  pose proof (confirm_iff a) as Hc. pose proof (isServiceUser_iff a) as Hu. pose proof (requireOperatorToken_spec a) as Ht. cbn in Hc, Hu, Ht.
  rewrite <- Hf, <- Hc, <- Hu, <- Ht. unfold authorizeSetup, authorizeRestore, authorizeMode, authorizeDataOp. cbn [isRoot newAuthorizer a].
  destruct (first_run a), root, (confirm a), (isServiceUser a); split_and!; split; intros; destruct_or?; destruct_and?; try done; auto 10.
Qed.

Lemma first_run_without_pastes tokens : databaseEmpty "/data/paste.db" Present (Err "SQL logic error: no such table: pastes (1)") tokens = Ok true.
Proof. vm_compute. reflexivity. Qed.
End authorization.

(** ** Erasure *)

Section data.
Context {C : Type} `{CacheDriver C} `{JsonText}.
Implicit Types (w : World C).

Lemma revoke_all prefix t reason l : first (revocable prefix) (upd (revocable prefix) (set_revoked t reason) l) = None.
Proof.
  apply first_None. intros x Hx. apply upd_elem in Hx as (y & Hy & ->). destruct (revocable prefix y) eqn:E; [|done].
  unfold revocable, set_revoked. cbn. by destruct (String.eqb _ _).
Qed.
Lemma revoke_only prefix t reason l :
  keep (fun k => negb (String.eqb (tk_prefix k) prefix)) (upd (revocable prefix) (set_revoked t reason) l) = keep (fun k => negb (String.eqb (tk_prefix k) prefix)) l.
Proof.
  induction l as [|k l IH]; [done|]. change (upd ?p ?f (k :: l)) with ((if p k then f k else k) :: upd p f l). rewrite !keep_cons, IH.
  destruct (revocable prefix k) eqn:E; [|done]. unfold revocable in E. apply andb_true_iff in E as [E _]. cbn [tk_prefix set_revoked]. by rewrite E.
Qed.

Lemma others_kept id other (l : list Paste) : other <> id -> first (has_id other) (keep (fun q => negb (has_id id q)) l) = first (has_id other) l.
Proof.
  intros Hne. apply first_keep_sub. intros p Hp. apply has_id_iff in Hp as <-. apply negb_true_iff. unfold has_id. by apply String.eqb_neq.
Qed.

(** The database without a paste. *)
Definition without_paste (id : string) (d : DBState) : DBState := with_pastes (keep (fun q => negb (has_id id q)) (t_pastes d)) d.

(** A resource is deleted, or a failure leaves everything, whatever statements fail. *)
Lemma delete_resource_spec ty id w :
  let '(r, w') := delete_resource (C:=C) ty id w in
  (calm w -> calm w')
  /\ match r with
     | Ok _ => (ty = "paste" /\ paste_of id (w_db w) <> None /\ w_db w' = without_paste id (w_db w)) \/ (ty <> "paste" /\ w_db w' = w_db w)
     | Err _ => w_db w' = w_db w /\ ty = "paste" /\ (calm w -> paste_of id (w_db w) = None)
     end.
Proof.
  unfold delete_resource. destruct (String.eqb_spec ty "paste") as [->|Hne]; [|cbn; auto].
  pose proof (DeletePaste_cases id w) as Hd. pose proof (steady_DeletePaste id w) as [_ Hst]. destruct (DeletePaste id w) as [[u|e] w']; destruct Hd as [_ Hd];
    (split; [exact Hst|]); [left|]; destruct Hd; auto.
Qed.

(** The paste of a deletion is gone and the others stay. *)
Lemma without_paste_spec id d : paste_of id (without_paste id d) = None
  /\ (forall other, other <> id -> paste_of other (without_paste id d) = paste_of other d) /\ t_tokens (without_paste id d) = t_tokens d.
Proof. split; [apply paste_of_removed|]. split; [|done]. intros other Hne. by apply others_kept. Qed.

Lemma token_by_prefix prefix w : exists w', w_db w' = w_db w /\ (calm w -> calm w')
  /\ ((exists e, GetAPITokenByPrefix prefix w = (Err e, w') /\ (first (revocable prefix) (t_tokens (w_db w)) = None -> calm w -> e = "token not found or revoked"))
      \/ exists row, first (revocable prefix) (t_tokens (w_db w)) = Some row /\ GetAPITokenByPrefix prefix w = (Ok (token_record row), w')).
Proof.
  unfold GetAPITokenByPrefix. pose proof (steady_query (fun d => first (revocable prefix) (t_tokens d)) w) as [_ Hst].
  destruct (query_cases (fun d => first (revocable prefix) (t_tokens d)) w) as (w' & Hd & Hq). exists w'. split; [done|].
  rewrite bind_run. destruct Hq as [E|E]; rewrite E in *; cbn [snd] in Hst.
  - split; [done|]. left. eexists. split; [done|]. intros _ Hc. by rewrite query_calm in E.
  - split; [done|]. destruct (first (revocable prefix) (t_tokens (w_db w))) as [row|]; [right; by exists row|left]. by eexists.
Qed.

(** The revocation of the tokens with a prefix, of which one is there. *)
Lemma revoke_tokens prefix reason row w : first (revocable prefix) (t_tokens (w_db w)) = Some row ->
  let '(r, w') := RevokeAPIToken (C:=C) prefix reason w in
  (calm w -> is_ok r = true) /\ match r with
  | Ok _ => exists t, w_db w' = with_tokens (upd (revocable prefix) (set_revoked t reason) (t_tokens (w_db w))) (w_db w)
  | Err _ => w_db w' = w_db w
  end.
Proof.
  intros Ef. unfold RevokeAPIToken. rewrite bind_now, bind_run. set (f := fun d => _).
  assert (Hk : length (keep (revocable prefix) (t_tokens (w_db w))) <> 0%nat).
  { intros E. apply nil_length_inv in E. apply first_Some in Ef as [Hin Hr]. assert (Hx : row ∈ keep (revocable prefix) (t_tokens (w_db w))) by (by apply keep_elem).
    rewrite E in Hx. by apply elem_of_nil in Hx. }
  destruct (exec_cases f (advance w)) as [(w1 & E & Hd)|(w1 & E & Hd)]; rewrite E.
  - split; [|exact Hd]. intros Hc. by rewrite exec_calm in E.
  - unfold f in *. cbn [fst snd w_db advance] in *. destruct (Z.of_nat _ =? 0) eqn:Ez; [apply Z.eqb_eq in Ez; lia|]. split; [done|]. by eexists.
Qed.

(** C21 — erasing what belongs to a token, whatever statements fail.  On success the
    token was there; its paste, if it is a paste's, is gone; every token with the prefix
    is revoked, no other paste and no other token is touched, and asking again fails and
    changes nothing.  On failure nothing has changed, or it is the revocation that failed
    (which it does only when a statement fails): the paste is gone, and nothing else is
    changed, so that the token is still valid.  The log tells of the request either way,
    and of its completion only on success. *)
Theorem erasure_complete prefix w :
  let '((r, log), w') := runDataDelete prefix w in
  let requested := data_entry "compliance.data_deletion_requested" [("token_prefix", JStr prefix)] in
  match r with
  | Ok _ => log = [requested; data_entry "compliance.data_deletion_completed" [("token_prefix", JStr prefix)]]
      /\ exists row, first (revocable prefix) (t_tokens (w_db w)) = Some row
      /\ (tk_type row = "paste" -> paste_of (tk_resource row) (w_db w) <> None /\ paste_of (tk_resource row) (w_db w') = None)
      /\ (forall id, tk_type row <> "paste" \/ id <> tk_resource row -> paste_of id (w_db w') = paste_of id (w_db w))
      /\ first (revocable prefix) (t_tokens (w_db w')) = None
      /\ keep (fun t => negb (String.eqb (tk_prefix t) prefix)) (t_tokens (w_db w')) = keep (fun t => negb (String.eqb (tk_prefix t) prefix)) (t_tokens (w_db w))
      /\ is_ok (runDataDelete prefix w').1.1 = false /\ w_db (runDataDelete prefix w').2 = w_db w'
  | Err e => log = [requested]
      /\ (w_db w' = w_db w
          \/ (~ calm w /\ exists row cause, first (revocable prefix) (t_tokens (w_db w)) = Some row /\ tk_type row = "paste"
               /\ paste_of (tk_resource row) (w_db w) <> None /\ w_db w' = without_paste (tk_resource row) (w_db w)
               /\ e = "data delete: revoke token: " ++ cause))
  end.
Proof.
  unfold runDataDelete at 1. rewrite bind_run. destruct (token_by_prefix prefix w) as (w1 & Hd1 & Hc1 & [(e & E & _)|(row & Ef & E)]); rewrite E; [cbn; auto|].
  rewrite bind_run. cbn [rec_ResourceType rec_ResourceID token_record].
  pose proof (delete_resource_spec (tk_type row) (tk_resource row) w1) as Hd. destruct (delete_resource (tk_type row) (tk_resource row) w1) as [[u|e] w2];
    destruct Hd as (Hc2 & Hd); [|cbn; split; [done|]; left; destruct Hd as [Hd _]; congruence].
  assert (Ht : t_tokens (w_db w2) = t_tokens (w_db w)) by (destruct Hd as [(_ & _ & ->)|[_ ->]]; by rewrite Hd1).
  rewrite bind_run. pose proof (revoke_tokens prefix "compliance data deletion" row w2 ltac:(by rewrite Ht)) as Hr.
  destruct (RevokeAPIToken prefix _ w2) as [[v|e] w3]; destruct Hr as [Hc3 Hr]; cbn [mret M_ret].
  - destruct Hr as [t Hr]. rewrite Ht in Hr. split; [done|]. exists row. split; [done|].
    assert (Hps : forall id, paste_of id (w_db w3) = paste_of id (w_db w2)) by (intros id; unfold paste_of; by rewrite Hr).
    assert (Hn : first (revocable prefix) (t_tokens (w_db w3)) = None) by (rewrite Hr; apply revoke_all).
    split; [|split]; [..|split_and!].
    + intros Hp. rewrite Hps. destruct Hd as [(_ & Hne & ->)|[? _]]; [|done]. rewrite Hd1 in *. split; [done|]. apply without_paste_spec.
    + intros id Hid. rewrite Hps. destruct Hd as [(Hty & _ & ->)|[_ ->]]; rewrite Hd1; [|done]. destruct Hid; [done|]. by apply without_paste_spec.
    + exact Hn.
    + rewrite Hr. apply revoke_only.
    + unfold runDataDelete. rewrite bind_run. destruct (token_by_prefix prefix w3) as (w4 & _ & _ & [(e & E4 & _)|(row' & Ef' & _)]); [by rewrite E4|congruence].
    + unfold runDataDelete. rewrite bind_run. destruct (token_by_prefix prefix w3) as (w4 & Hd4 & _ & [(e & E4 & _)|(row' & Ef' & _)]); [by rewrite E4|congruence].
  - split; [done|]. destruct Hd as [(Hty & Hne & Hw)|[_ Hw]]; [right|left; congruence]. split; [intros Hc; by specialize (Hc3 (Hc2 (Hc1 Hc)))|].
    exists row, e. rewrite Hr, Hw, Hd1 in *. done.
Qed.

(** The token of a paste that is gone already cannot be erased: the request fails before
    the token is revoked. *)
Lemma orphan_token_stays prefix w row : first (revocable prefix) (t_tokens (w_db w)) = Some row -> tk_type row = "paste" ->
  paste_of (tk_resource row) (w_db w) = None ->
  let '((r, _), w') := runDataDelete prefix w in is_ok r = false /\ w_db w' = w_db w.
Proof.
  intros Hf Hty Hp. unfold runDataDelete. rewrite bind_run. destruct (token_by_prefix prefix w) as (w1 & Hd1 & _ & [(e & E & _)|(row' & Ef & E)]); rewrite E; [done|].
  rewrite Hf in Ef. injection Ef as <-. rewrite bind_run. cbn [rec_ResourceType rec_ResourceID token_record].
  pose proof (delete_resource_spec (tk_type row) (tk_resource row) w1) as Hd. destruct (delete_resource (tk_type row) (tk_resource row) w1) as [[u|e] w2];
    destruct Hd as (_ & Hd); [|cbn; split; [done|]; destruct Hd as [Hd _]; congruence].
  destruct Hd as [(_ & Hd & _)|[? _]]; [by rewrite Hd1 in Hd|done].
Qed.
End data.

(** ** Compliance *)

Lemma greatest_from l : forall m, foldl (fun m x => if m <? x then x else m) m l = foldr Z.max m l.
Proof.
  induction l as [|x l IH]; intros m; cbn; [done|]. rewrite IH. replace (if m <? x then x else m) with (Z.max m x) by (destruct (m <? x) eqn:E; lia).
  clear IH. induction l as [|y l IH]; cbn; lia.
Qed.

Lemma least_from l : forall m, 0 <= m ->
  let r := foldl (fun m x => if x <=? 0 then m else if (m =? 0) || (x <? m) then x else m) m l in
  0 <= r /\ (r = 0 <-> m = 0 /\ Forall (fun x => x <= 0) l) /\ (r <> 0 -> (In r l \/ r = m) /\ (0 < m -> r <= m) /\ Forall (fun x => 0 < x -> r <= x) l).
Proof.
  induction l as [|x l IH]; intros m Hm; cbn.
  - split; [done|]. split; [split; [by intros ->|by intros [-> _]]|]. intros _. split; [auto|]. split; [lia|done].
  - destruct (x <=? 0) eqn:Ex.
    + destruct (IH m Hm) as (H1 & H2 & H3). split; [done|]. split.
      * rewrite H2. rewrite Forall_cons. intuition lia.
      * intros Hr. destruct (H3 Hr) as (A & B & D). split; [intuition|]. split; [done|]. constructor; [lia|done].
    + set (m' := if (m =? 0) || (x <? m) then x else m). assert (Hm' : 0 < m' /\ m' <= x /\ (0 < m -> m' <= m) /\ (m' = x \/ m' = m)) by (unfold m'; destruct ((m =? 0) || (x <? m)) eqn:E; lia).
      destruct (IH m') as (H1 & H2 & H3); [lia|]. split; [done|]. split.
      * rewrite H2. rewrite Forall_cons. intuition lia.
      * intros Hr. destruct (H3 Hr) as (A & B & D). split; [|split].
        -- destruct A as [A|A]; [auto|]. destruct Hm' as (_ & _ & _ & [E|E]); [left; left; congruence|right; congruence].
        -- intros. destruct Hm' as (? & ? & ? & _). specialize (B ltac:(lia)). specialize (H5 ltac:(lia)). lia.
        -- constructor; [specialize (B ltac:(lia)); lia|done].
Qed.

(** the strictest requirement wins: the retention is the greatest of the standards
    that are enabled, and a limit is the least of those that name one, or none if none
    does; whatever the set and the order. *)
Theorem strictest_wins reqs :
  strictestRetention reqs = foldr Z.max 0 (retentionYears <$> reqs)
  /\ forall (limit : standardRequirement -> Z), let r := least_positive (limit <$> reqs) in
     (r = 0 <-> Forall (fun s => limit s <= 0) reqs)
     /\ (r <> 0 -> 0 < r /\ (exists s, s ∈ reqs /\ limit s = r) /\ Forall (fun s => 0 < limit s -> r <= limit s) reqs).
Proof.
  split; [apply greatest_from|]. intros limit. destruct (least_from (limit <$> reqs) 0 ltac:(lia)) as (H1 & H2 & H3). cbn in H1, H2, H3 |- *.
  fold (least_positive (limit <$> reqs)) in *. set (r := least_positive (limit <$> reqs)) in *. clearbody r. rewrite Forall_fmap in H2. split; [rewrite H2; intuition|].
  intros Hr. destruct (H3 Hr) as (A & _ & D). rewrite Forall_fmap in D. split; [lia|]. split; [|done].
  destruct A as [A|A]; [|done]. apply list_elem_of_In, list_elem_of_fmap in A as (s & -> & Hs). eauto.
Qed.

(** ** Witness *)

Lemma erasure_complete_witness :
  (runDataDelete "tok_hhhhhhhh" after_upload).1.1 = Ok tt
  /\ paste_of seven_id (w_db after_upload) <> None /\ paste_of seven_id (w_db (runDataDelete "tok_hhhhhhhh" after_upload).2) = None.
Proof.
  pose proof (erasure_complete "tok_hhhhhhhh" after_upload) as P.
  assert (Hr : (runDataDelete "tok_hhhhhhhh" after_upload).1.1 = Ok tt) by (vm_compute; reflexivity).
  assert (Hf : (fun r => (tk_type r, tk_resource r)) <$> first (revocable "tok_hhhhhhhh") (t_tokens (w_db after_upload)) = Some ("paste", seven_id)) by (vm_compute; reflexivity).
  split; [exact Hr|]. destruct (runDataDelete "tok_hhhhhhhh" after_upload) as [[r log] w']. cbn [fst snd] in *. subst r.
  destruct P as (_ & row & E & Hp & _). rewrite E in Hf. cbn in Hf. injection Hf as Ht Hi. rewrite Hi in Hp. exact (Hp Ht).
Defined.

(** When the third statement fails the paste is gone and the token is not revoked; and no
    later erasure revokes it, since the paste is no longer there to be deleted. *)
Definition unlucky : World memoryCache := set_faults [false; false; true] after_upload.
Example half_erased :
  let '((r, log), w') := runDataDelete "tok_hhhhhhhh" unlucky in
  r = Err ("data delete: revoke token: " ++ driver_error) /\ paste_of seven_id (w_db unlucky) <> None /\ paste_of seven_id (w_db w') = None
  /\ t_tokens (w_db w') = t_tokens (w_db unlucky)
  /\ is_ok (runDataDelete "tok_hhhhhhhh" w').1.1 = false /\ t_tokens (w_db (runDataDelete "tok_hhhhhhhh" w').2) = t_tokens (w_db unlucky).
Proof. vm_compute. split_and!; try reflexivity. discriminate. Qed.
