(* ===== verification/Keys.v ===== *)
(** * The project's OpenPGP keypair (src/src/maintenance/pgp.go, src/src/server/pgp_keypair.go,
      src/src/pgp, src/src/database/security_keypair.go)

    Two key files, the parked key of the last rotation, the record of the last private
    export, and one row of metadata. Keys themselves are an interface; so are the
    terminal, the keyservers and the address of the host. The white space that
    [json.MarshalIndent] adds is left out. *)

From S2P Require Import Prelude GoStr GoTime GoCrypto Http Operator FileSys ConfigStore AuditLog Backup ConfigText.
From Stdlib Require Import Ascii.

Definition keypairValidity : Z := 2 * 365 * 24 * Hour.
Definition rotatedKeyGrace : Z := 30 * 24 * Hour.

(** [pgp.Keypair]. *)
Record Keypair := { PublicArmored : string; PrivateArmored : string; kp_Fingerprint : string; kp_CreatedAt : Z; kp_ExpiresAt : Z }.

(** ProtonMail/go-crypto: a new entity with its armored keys, and what is read from an
    armored key. [hkdf] is golang.org/x/crypto/hkdf with the label of the code. *)
Class KeyTool := {
  new_entity : string -> string -> Z -> result (string * string * string);
  fingerprint_of : string -> result string;
  IdentityOf : string -> result string;
  PublicFromPrivate : string -> result string;
  SignPublicKey : string -> string -> result string;
  KeyLifetime : string -> result (Z * option Z);
  hkdf : list Z -> list Z;
}.

(** ** State *)

(** The row; the times a key was published at, by keyserver. *)
Record SecurityKeypair := {
  Fingerprint : string; sk_CreatedAt : Z; sk_ExpiresAt : Z; LastRotatedAt : option Z; KeyserversPublished : gmap string Z; Revoked : bool;
}.

(** [db_faults]: which statements of the database fail. *)
Record Keyring := { disk : Disk; row : option SecurityKeypair; db_faults : list bool }.

Definition K (A : Type) : Type := Keyring -> A * Keyring.
#[export] Instance K_ret : MRet K := fun A a s => (a, s).
#[export] Instance K_bind : MBind K := fun A B f m s => let '(a, s') := m s in f a s'.

Definition on_disk {A} (m : D A) : K A := fun s =>
  let '(a, d) := m (disk s) in (a, {| disk := d; row := row s; db_faults := db_faults s |}).

Definition statement {A} (f : option SecurityKeypair -> A * option SecurityKeypair) : K (result A) := fun s =>
  if hd false (db_faults s) then (Err "driver error", {| disk := disk s; row := row s; db_faults := tl (db_faults s) |})
  else let '(a, r) := f (row s) in (Ok a, {| disk := disk s; row := r; db_faults := tl (db_faults s) |}).

Definition GetSecurityKeypair : K (result (option SecurityKeypair)) := statement (fun r => (r, r)).
Definition UpsertSecurityKeypair (kp : SecurityKeypair) : K (result unit) := statement (fun _ => (tt, Some kp)).

(** Run the second computation when the first succeeds. *)
Definition and_then {A B} (m : K (result A)) (f : A -> K (result B)) : K (result B) :=
  r ← m; match r with Ok a => f a | Err e => mret (Err e) end.

Section keys.
Context `{KeyTool} `{AEAD} `{Unicode} `{JsonText}.
(** The directory of the configuration, the installation secret, the title of the site
    and the address of the contact. *)
Context (configDir : string) (installSecret : list Z) (title email : string).

Definition in_security (file : string) : string := FJoin [configDir; "security"; file].
Definition pubPath : string := in_security "pgp.pub.asc".
Definition privPath : string := in_security "pgp.priv.asc.enc".
Definition rotatedPath : string := in_security "pgp.priv.asc.enc.old".
Definition keyserversStatePath : string := in_security "keyservers.state".
Definition exportStatePath : string := in_security "private_export.state".

(** ** Keys *)

Definition WrapKey : result (list Z) := match installSecret with [] => Err "pgp: installation_secret unavailable" | _ => Ok (hkdf installSecret) end.

Definition Identity (appName email : string) : string :=
  StringsU.TrimSpace (StringsU.TrimSpace appName ++ " Security") ++ " <" ++ StringsU.TrimSpace email ++ ">".

Definition Generate (now : Z) : result Keypair :=
  if String.eqb (StringsU.TrimSpace email) "" then Err "pgp: security contact email is required"
  else match new_entity (StringsU.TrimSpace title ++ " Security") email now with
       | Err e => Err ("pgp: generate entity: " ++ e)
       | Ok (pub, priv, fp) => Ok {| PublicArmored := pub; PrivateArmored := priv; kp_Fingerprint := fp; kp_CreatedAt := now; kp_ExpiresAt := now + keypairValidity |}
       end.

(** ** Files *)

(** [nonce] is what the random source gives. *)
Definition writePrivateKey (nonce : result (list Z)) (armored : string) : K (result unit) :=
  match WrapKey with
  | Err e => mret (Err e)
  | Ok key =>
      match Seal nonce key (bytes armored) with
      | Err e => mret (Err ("pgp: seal private key: " ++ e))
      | Ok sealed => and_then (on_disk MkdirAll) (fun _ => on_disk (WriteFile privPath (of_bytes sealed)))
      end
  end.

Definition readPrivateKey (path : string) : K (result string) :=
  and_then (on_disk (ReadFile path)) (fun sealed =>
    match WrapKey with
    | Err e => mret (Err e)
    | Ok key => mret (match Open key (bytes sealed) with Ok plain => Ok (of_bytes plain) | Err e => Err ("pgp: open private key: " ++ e) end)
    end).

Definition installKeypair (nonce : result (list Z)) (kp : Keypair) (rotated : bool) : K (result unit) :=
  and_then (on_disk MkdirAll) (fun _ =>
  and_then (on_disk (WriteFile pubPath (PublicArmored kp))) (fun _ =>
  and_then (writePrivateKey nonce (PrivateArmored kp)) (fun _ =>
  UpsertSecurityKeypair {| Fingerprint := kp_Fingerprint kp; sk_CreatedAt := kp_CreatedAt kp; sk_ExpiresAt := kp_ExpiresAt kp;
                           LastRotatedAt := if rotated then Some (kp_CreatedAt kp) else None; KeyserversPublished := ∅; Revoked := false |}))).

(** ** Keyservers *)

(** [post ks k]: whether attempt [k] at keyserver [ks] is accepted. There are five,
    after pauses of one, two, four and eight seconds. *)
Fixpoint submit (post : string -> nat -> bool) (ks : string) (attempt more : nat) : bool :=
  match more with O => false | S more => if post ks attempt then true else submit post ks (S attempt) more end.
Definition submitKeyserver (post : string -> nat -> bool) (ks : string) : bool := submit post ks 0 5.

Definition mergeKeyservers (prior fresh : gmap string Z) : gmap string Z := fresh ∪ prior.

Definition set_published (p : gmap string Z) (m : SecurityKeypair) : SecurityKeypair :=
  {| Fingerprint := Fingerprint m; sk_CreatedAt := sk_CreatedAt m; sk_ExpiresAt := sk_ExpiresAt m; LastRotatedAt := LastRotatedAt m;
     KeyserversPublished := p; Revoked := Revoked m |}.

Fixpoint publish_to (post : string -> nat -> bool) (keyservers : list string) (done_ : gmap string Z) : K (gmap string Z) :=
  match keyservers with
  | [] => mret done_
  | ks :: keyservers =>
      let ks := StringsU.TrimSpace ks in
      if String.eqb ks "" then publish_to post keyservers done_
      else if submitKeyserver post ks then t ← on_disk now; publish_to post keyservers (<[ks := t]> done_)
      else publish_to post keyservers done_
  end.

Definition published_text (p : gmap string Z) : string :=
  render (JArr ((fun kv => JObj [("url", JStr kv.1); ("published_at", JStr (time_text kv.2))]) <$> map_to_list p)).

Definition publishAll (post : string -> nat -> bool) (keyservers : list string) : K unit :=
  published ← publish_to post keyservers ∅;
  if bool_decide (published = ∅) then mret tt
  else
    _ ← and_then (on_disk MkdirAll) (fun _ => on_disk (WriteFile keyserversStatePath (published_text published)));
    meta ← GetSecurityKeypair;
    match meta with
    | Ok (Some m) => _ ← UpsertSecurityKeypair (set_published (mergeKeyservers (KeyserversPublished m) published) m); mret tt
    | _ => mret tt
    end.

(** ** The operator *)

(** The token of the configuration, whether the process is root's, what is typed for a
    password and what else is typed, and the address of the host. *)
Record Operating := { op_token : string; op_root : bool; op_password : result string; op_typed : option string; outboundIP : string }.

Definition authorize (o : Operating) (reason : string) : result unit :=
  let token := StringsU.TrimSpace (op_token o) in
  if String.eqb token "" then
    if op_root o then Ok tt else Err ("pgp: cannot authorize " ++ reason ++ " — operator token not configured and not running as root")
  else match op_password o with
       | Err e => Err ("pgp: read operator token: " ++ e)
       | Ok pw => if String.eqb (StringsU.TrimSpace pw) token then Ok tt else Err "pgp: operator token mismatch"
       end.

Definition promptReason (o : Operating) : result string :=
  let '(line, failed) := read_line (op_typed o) in
  if failed then Err "pgp: read reason"
  else let reason := StringsU.TrimSpace line in if String.eqb reason "" then Err "pgp: a reason is required" else Ok reason.

Definition confirm (o : Operating) (want : string) : bool :=
  let '(line, failed) := read_line (op_typed o) in if failed then false else String.eqb (StringsU.TrimSpace line) want.

Definition key_entry (o : Operating) (event severity fp : string) (details : list (string * json)) (reason : string) : Entry :=
  {| en_ID := ""; en_Time := ""; en_Event := event; en_Category := ""; en_Severity := severity;
     en_Actor := {| a_IP := outboundIP o; a_UserAgent := "" |}; en_Target := Some {| t_Type := "pgp_keypair"; t_ID := fp |};
     en_Details := details; en_Result := ""; en_Reason := reason |}.

(** The actions; an error, or the entry for the audit log. *)

Definition key_present (meta : option SecurityKeypair) : bool := match meta with Some m => negb (Revoked m) | None => false end.

Definition generate (o : Operating) (nonce : result (list Z)) (post : string -> nat -> bool) (keyservers : list string) : K (result Entry) :=
  and_then GetSecurityKeypair (fun meta =>
    stat ← on_disk (Stat pubPath);
    if is_ok stat && key_present meta then mret (Err "pgp generate: a keypair already exists")
    else
      t ← on_disk now;
      match Generate t with
      | Err e => mret (Err ("pgp generate: " ++ e))
      | Ok kp =>
          and_then (installKeypair nonce kp false) (fun _ =>
            _ ← publishAll post keyservers; mret (Ok (key_entry o "security.keypair_generated" SeverityInfo (kp_Fingerprint kp) [] "")))
      end).

(** The key that is outgoing signs the new one, if it can be read; then it is parked. *)
Definition rotate (o : Operating) (nonce : result (list Z)) (post : string -> nat -> bool) (keyservers : list string) : K (result Entry) :=
  and_then GetSecurityKeypair (fun prev =>
    match prev with
    | Some m =>
        if Revoked m then mret (Err "pgp rotate: no active keypair to rotate; run 'pgp generate' first")
        else
          t ← on_disk now;
          match Generate t with
          | Err e => mret (Err ("pgp rotate: " ++ e))
          | Ok kp =>
              old ← readPrivateKey privPath;
              let pub := match old with
                         | Ok priv => match SignPublicKey priv (PublicArmored kp) with Ok signed => signed | Err _ => PublicArmored kp end
                         | Err _ => PublicArmored kp
                         end in
              let kp := {| PublicArmored := pub; PrivateArmored := PrivateArmored kp; kp_Fingerprint := kp_Fingerprint kp;
                           kp_CreatedAt := kp_CreatedAt kp; kp_ExpiresAt := kp_ExpiresAt kp |} in
              stat ← on_disk (Stat privPath);
              and_then (if is_ok stat then on_disk (Rename privPath rotatedPath) else mret (Ok tt)) (fun _ =>
              and_then (installKeypair nonce kp true) (fun _ =>
                _ ← publishAll post keyservers;
                mret (Ok (key_entry o "security.keypair_rotated" SeverityWarn (kp_Fingerprint kp) [("previous_fingerprint", JStr (Fingerprint m))] ""))))
          end
    | None => mret (Err "pgp rotate: no active keypair to rotate; run 'pgp generate' first")
    end).

Definition publish (post : string -> nat -> bool) (keyservers : list string) : K (result unit) :=
  pub ← on_disk (ReadFile pubPath);
  match pub with
  | Ok "" | Err _ => mret (Err "pgp publish: no public key found; run 'pgp generate' first")
  | Ok _ => _ ← publishAll post keyservers; mret (Ok tt)
  end.

(** What is printed; [None] where a path is given. *)
Definition exportPublic (path : string) : K (result (option string)) :=
  pub ← on_disk (ReadFile pubPath);
  match pub with
  | Err _ => mret (Err "pgp export public: no public key found; run 'pgp generate' first")
  | Ok pub =>
      if String.eqb (StringsU.TrimSpace path) "" then mret (Ok (Some pub))
      else and_then (on_disk MkdirAll) (fun _ => and_then (on_disk (WriteFile path pub)) (fun _ => mret (Ok None)))
  end.

(** The last export that is recorded. *)
Definition lastPrivateExport : K (option Z) :=
  text ← on_disk (ReadFile exportStatePath);
  mret (match text with
        | Err _ => None
        | Ok text =>
            match parse text with
            | Some (JObj l) => match as_time (field "last_export" l) with Some t => if IsZero t then None else Some t | None => None end
            | _ => None
            end
        end).
Definition recordPrivateExport (t : Z) : K (result unit) :=
  and_then (on_disk MkdirAll) (fun _ => on_disk (WriteFile exportStatePath (render (JObj [("last_export", JStr (time_text t))])))).

Definition exportPrivate (o : Operating) (path : string) : K (result Entry) :=
  if String.eqb (StringsU.TrimSpace path) "" then mret (Err "pgp export private: destination path required")
  else
    last ← lastPrivateExport;
    limited ← (match last with Some last => t ← on_disk now; mret (t - last <? Hour) | None => mret false end);
    if (limited : bool) then mret (Err "pgp export private: rate-limited")
    else match authorize o "export the private key" with
         | Err e => mret (Err e)
         | Ok _ =>
             match promptReason o with
             | Err e => mret (Err e)
             | Ok reason =>
                 and_then (readPrivateKey privPath) (fun priv =>
                 and_then (on_disk MkdirAll) (fun _ =>
                 and_then (on_disk (WriteFile path priv)) (fun _ =>
                   t ← on_disk now;
                   _ ← recordPrivateExport t;
                   let fp := match fingerprint_of priv with Ok fp => fp | Err _ => "" end in
                   mret (Ok (key_entry o "security.private_key_exported" SeverityCritical fp [("path", JStr path)] reason)))))
             end
         end.

(** [file]: the path, and [raw], what reading it gives. *)
Definition importKey (o : Operating) (nonce : result (list Z)) (file : string) (raw : result string) : K (result Entry) :=
  if String.eqb (StringsU.TrimSpace file) "" then mret (Err "pgp import: source file path required")
  else match raw with
       | Err e => mret (Err ("pgp import: read: " ++ e))
       | Ok armored =>
           match IdentityOf armored, PublicFromPrivate armored, fingerprint_of armored with
           | Ok ident, Ok pub, Ok fp =>
               match authorize o "import a private key" with
               | Err e => mret (Err e)
               | Ok _ =>
                   if negb (String.eqb ident (Identity title email)) && negb (confirm o "yes") then mret (Err "pgp import: aborted (identity mismatch)")
                   else
                     and_then (writePrivateKey nonce armored) (fun _ =>
                     and_then (on_disk (WriteFile pubPath pub)) (fun _ =>
                       let '(created, expires) := match KeyLifetime armored with Ok x => x | Err _ => (zero_time, None) end in
                       created ← (if IsZero created then on_disk now else mret created);
                       let expires := match expires with Some e => if IsZero e then created + keypairValidity else e | None => created + keypairValidity end in
                       and_then (UpsertSecurityKeypair {| Fingerprint := fp; sk_CreatedAt := created; sk_ExpiresAt := expires; LastRotatedAt := None;
                                                          KeyserversPublished := ∅; Revoked := false |}) (fun _ =>
                         mret (Ok (key_entry o "security.private_key_imported" SeverityWarn fp [("identity", JStr ident); ("source", JStr file)] "")))))
               end
           | Err e, _, _ => mret (Err ("pgp import: invalid key: " ++ e))
           | _, Err e, _ => mret (Err ("pgp import: key has no private material: " ++ e))
           | _, _, Err e => mret (Err ("pgp import: read fingerprint: " ++ e))
           end
       end.

Fixpoint remove_all (paths : list string) : K unit :=
  match paths with [] => mret tt | p :: paths => _ ← on_disk (Remove p); remove_all paths end.

(** [save]: what saving the configuration without publishing gives. *)
Definition delete_keys (o : Operating) (save : result unit) : K (result Entry) :=
  and_then GetSecurityKeypair (fun meta =>
    match authorize o "delete the keypair" with
    | Err e => mret (Err e)
    | Ok _ =>
        if negb (confirm o "delete") then mret (Err "pgp delete: aborted")
        else
          _ ← remove_all [pubPath; privPath; rotatedPath; keyserversStatePath];
          match save with
          | Err e => mret (Err ("pgp delete: disable publishing in config: " ++ e))
          | Ok _ =>
              _ ← (match meta with
                   | Some m => UpsertSecurityKeypair {| Fingerprint := Fingerprint m; sk_CreatedAt := sk_CreatedAt m; sk_ExpiresAt := sk_ExpiresAt m;
                                 LastRotatedAt := LastRotatedAt m; KeyserversPublished := KeyserversPublished m; Revoked := true |}
                   | None => mret (Ok tt)
                   end);
              mret (Ok (key_entry o "security.keypair_deleted" SeverityCritical (match meta with Some m => Fingerprint m | None => "" end) [] ""))
          end
    end).

(** ** When the server starts *)

(** [publishing]: whether the key is to be published. The submission to the keyservers
    goes on in the background and is not part of this. *)
Definition ensureSecurityKeypair (publishing : bool) (nonce : result (list Z)) : K unit :=
  if negb publishing then mret tt
  else
    meta ← GetSecurityKeypair;
    match meta with
    | Err _ => mret tt
    | Ok meta =>
        stat ← on_disk (Stat pubPath);
        if key_present meta && is_ok stat then mret tt
        else
          t ← on_disk now;
          match Generate t with Err _ => mret tt | Ok kp => _ ← installKeypair nonce kp false; mret tt end
    end.

Definition pruneRotatedKey : K unit :=
  stat ← on_disk (Stat rotatedPath);
  match stat with
  | Err _ => mret tt
  | Ok info => t ← on_disk now; if rotatedKeyGrace <? t - i_mtime info then _ ← on_disk (Remove rotatedPath); mret tt else mret tt
  end.
End keys.
