(* ===== verification/KeysProofs.v ===== *)
(** * What the keypair promises

    A rotation keeps every report readable whatever fails after the outgoing key was
    looked for; the private key leaves only with authority and a reason, at most once an
    hour; and where the grace period of a rotated key does not hold. *)

From S2P Require Import Prelude GoStr GoStrProofs GoTime GoCrypto Model World Database Http JsonProofs Instances ConfigInstances Mail Pages Reports ReportsProofs RotateProofs Operator FileSys ConfigStore ConfigStoreProofs AuditLog Backup BackupProofs Retention RetentionProofs ConfigText OperatorProofs Keys.
From Stdlib Require Import Ascii.

(** ** Computations on the keyring *)

Lemma bind_K {A B} (m : K A) (f : A -> K B) s : (m ≫= f) s = let '(a, s') := m s in f a s'.
Proof. done. Qed.

(** Only files whose name is [ok] change. *)
Definition changes (ok : string -> Prop) {A} (m : K A) : Prop := forall s, only ok (disk s) (disk (m s).2).

Section changing.
Context (ok : string -> Prop).

Lemma changes_ret {A} (a : A) : changes ok (mret (M := K) a).
Proof. intros s. apply only_refl. Qed.
Lemma changes_bind {A B} (m : K A) (f : A -> K B) : changes ok m -> (forall a, changes ok (f a)) -> changes ok (m ≫= f).
Proof. intros Hm Hf s. rewrite bind_K. specialize (Hm s). destruct (m s) as [a s1]. eapply only_trans; [exact Hm | apply Hf]. Qed.
Lemma changes_then {A B} (m : K (result A)) (f : A -> K (result B)) : changes ok m -> (forall a, changes ok (f a)) -> changes ok (and_then m f).
Proof. intros Hm Hf. apply changes_bind; [done|]. intros [a|e]; [apply Hf | apply changes_ret]. Qed.
Lemma changes_disk {A} (m : D A) : keeps ok m -> changes ok (on_disk m).
Proof. intros Hm s. specialize (Hm (disk s)). unfold on_disk. by destruct (m (disk s)). Qed.
Lemma changes_statement {A} (f : option SecurityKeypair -> A * option SecurityKeypair) : changes ok (statement f).
Proof. intros s. unfold statement. destruct (hd false (db_faults s)); [apply only_refl|]. destruct (f (row s)). apply only_refl. Qed.
Lemma keeps_clock : keeps ok now.
Proof. intros d. unfold now. by intros Hs Ha. Qed.
End changing.
Lemma keeps_Remove p : keeps (eq p) (Remove p).
Proof. intros d. apply Remove_only. Qed.

Create HintDb changes discriminated.
#[export] Hint Resolve changes_ret changes_bind changes_then changes_statement : changes.
#[export] Hint Extern 2 (changes _ (on_disk _)) => apply changes_disk : changes.
#[export] Hint Resolve keeps_clock keeps_ReadFile keeps_Stat keeps_MkdirAll : changes.
#[export] Hint Extern 2 (keeps _ (WriteFile _ _)) => eapply keeps_weaken; [|apply keeps_WriteFile]; intros ? <- : changes.
#[export] Hint Extern 2 (keeps _ (Remove _)) => eapply keeps_weaken; [|apply keeps_Remove]; intros ? <- : changes.
#[export] Hint Extern 1 (changes _ (if ?b then _ else _)) => destruct b : changes.
#[export] Hint Extern 1 (changes _ (match ?x with _ => _ end)) => destruct x : changes.
#[export] Hint Extern 5 (_ ∈ _) => set_solver : changes.
#[export] Hint Extern 5 (_ = _ \/ _) => tauto : changes.
Ltac changing := eauto 20 with changes.

(** What a statement answers leaves the disk alone; a disk call leaves the row alone. *)
Lemma disk_statement {A} (f : option SecurityKeypair -> A * option SecurityKeypair) s : disk (statement f s).2 = disk s.
Proof. unfold statement. destruct (hd false (db_faults s)); [done|]. by destruct (f (row s)). Qed.

Section keyring.
Context `{KeyTool} `{AEAD} `{Unicode} `{JsonText} (configDir : string) (installSecret : list Z) (title email : string).
Abbreviation pub := (pubPath configDir).
Abbreviation priv := (privPath configDir).
Abbreviation parked := (rotatedPath configDir).
Abbreviation published := (keyserversStatePath configDir).
Abbreviation exported := (exportStatePath configDir).
Abbreviation Generate := (Generate title email).
Abbreviation installKeypair := (installKeypair configDir installSecret).
Abbreviation publishAll := (publishAll configDir).
Abbreviation rotate := (rotate configDir installSecret title email).

Lemma changes_publish_to ok post ks : forall d, changes ok (publish_to post ks d).
Proof. induction ks as [|k ks IH]; intros d; cbn [publish_to]; changing. Qed.
Lemma changes_publishAll post ks : changes (eq published) (publishAll post ks).
Proof.
  unfold publishAll. apply changes_bind; [apply changes_publish_to|]. intros p. destruct (bool_decide _); [changing|].
  apply changes_bind; [changing|]. intros _. apply changes_bind; [apply changes_statement|]. changing.
Qed.
Definition key_files (q : string) : Prop := q = pub \/ q = priv.
Lemma changes_writePrivateKey nonce a : changes (eq priv) (writePrivateKey configDir installSecret nonce a).
Proof. unfold writePrivateKey. changing. Qed.
Lemma changes_weaken (ok ok' : string -> Prop) {A} (m : K A) : (forall q, ok q -> ok' q) -> changes ok m -> changes ok' m.
Proof. intros Hok Hm s. by eapply only_weaken. Qed.
Lemma changes_install nonce kp r : changes key_files (installKeypair nonce kp r).
Proof.
  unfold installKeypair. apply changes_then; [changing|]. intros _. apply changes_then; [unfold key_files; changing|]. intros _.
  apply changes_then; [|intros; apply changes_statement]. eapply changes_weaken; [|apply changes_writePrivateKey]. unfold key_files. intros q <-. by right.
Qed.

(** The key that the file at a path gives. *)
Definition key_at (d : Disk) (path : string) : result string :=
  match text_at d path with
  | None => Err not_exist
  | Some t => match WrapKey installSecret with
              | Err e => Err e
              | Ok key => match Open key (bytes t) with Ok plain => Ok (of_bytes plain) | Err e => Err ("pgp: open private key: " ++ e) end
              end
  end.

(** A rotation stops before anything has changed, or parks the outgoing key and goes on
    to install the new one. *)
Definition parks (s s1 : Keyring) : Prop :=
  sound (disk s1) /\ apart (disk s1)
  /\ (forall q, q <> priv -> q <> parked -> file_at (disk s1) q = file_at (disk s) q)
  /\ match file_at (disk s) priv with Some f => file_at (disk s1) parked = Some f | None => file_at (disk s1) parked = file_at (disk s) parked end.

Definition installs o nonce post ks (kp : Keypair) (old : string) : K (result Entry) :=
  and_then (installKeypair nonce kp true) (fun _ =>
    _ ← publishAll post ks;
    mret (Ok (key_entry o "security.keypair_rotated" SeverityWarn (kp_Fingerprint kp) [("previous_fingerprint", JStr old)] ""))).

Lemma readPrivateKey_key path s k s1 : readPrivateKey installSecret path s = (Ok k, s1) -> key_at (disk s) path = Ok k.
Proof.
  intros E2. unfold readPrivateKey in E2. unfold and_then in E2. rewrite bind_K in E2. destruct (on_disk (ReadFile path) s) as [[t|e] s2] eqn:E1; [|done].
  unfold key_at, text_at. unfold on_disk, ReadFile, sys in E1. destruct (hd false _); [done|]. change (file_at (set_faults _ (disk s)) path) with (file_at (disk s) path) in E1.
  destruct (file_at (disk s) path) as [f|]; [|done]. cbn. destruct (text_of (i_data f)) as [u|]; [|done]. injection E1 as -> _.
  destruct (WrapKey installSecret); [|done]. by injection E2 as ->.
Qed.

(** The public key [pub'] is the new one [pub], or the new one signed by the private key
    that was there. *)
Definition signed_public (s : Keyring) (pub_new pub' : string) : Prop :=
  pub' = pub_new \/ exists old, key_at (disk s) priv = Ok old /\ SignPublicKey old pub_new = Ok pub'.

Lemma readPrivateKey_run path s : exists r,
  readPrivateKey installSecret path s = (r, {| disk := set_faults (tl (d_faults (disk s))) (disk s); row := row s; db_faults := db_faults s |}).
Proof.
  unfold readPrivateKey, and_then. rewrite bind_K. unfold on_disk, ReadFile, sys. destruct (hd false (d_faults (disk s))); [by eexists|].
  change (file_at (set_faults _ (disk s)) path) with (file_at (disk s) path). destruct (file_at (disk s) path) as [f|]; [|by eexists].
  destruct (text_of (i_data f)); [|by eexists]. destruct (WrapKey installSecret); by eexists.
Qed.

Lemma rotate_run o nonce post ks s : priv <> parked -> sound (disk s) -> apart (disk s) -> nth 1 (d_faults (disk s)) false = false ->
  ((exists e, (rotate o nonce post ks s).1 = Err e) /\ forall q, file_at (disk (rotate o nonce post ks s).2) q = file_at (disk s) q)
  \/ exists m kp kp' s1, Generate (d_clock (disk s)) = Ok kp /\ PrivateArmored kp' = PrivateArmored kp /\ kp_Fingerprint kp' = kp_Fingerprint kp
       /\ kp_CreatedAt kp' = d_clock (disk s) /\ signed_public s (PublicArmored kp) (PublicArmored kp')
       /\ row s = Some m /\ Revoked m = false /\ parks s s1
       /\ rotate o nonce post ks s = installs o nonce post ks kp' (Fingerprint m) s1.
Proof.
  intros Hp Hs Ha Hf. destruct (rotate o nonce post ks s) as [r s'] eqn:E. cbn [fst snd]. unfold Keys.rotate in E.
  unfold and_then at 1 in E. rewrite bind_K in E. unfold GetSecurityKeypair, statement at 1 in E.
  destruct (hd false (db_faults s)); [injection E as <- <-; left; by split; [eexists|]|].
  destruct (row s) as [m|] eqn:Em; [|injection E as <- <-; left; by split; [eexists|]].
  destruct (Revoked m) eqn:Er; [injection E as <- <-; left; by split; [eexists|]|].
  rewrite bind_K in E. unfold on_disk at 1, now at 1 in E. cbn [disk row db_faults] in E.
  destruct (Generate (d_clock (disk s))) as [kp|e] eqn:Eg; [|injection E as <- <-; left; by split; [eexists|]].
  rewrite bind_K in E. destruct (readPrivateKey_run priv {| disk := (now (disk s)).2; row := Some m; db_faults := tl (db_faults s) |}) as [old Eo].
  cbn [disk row db_faults] in Eo. unfold now in Eo. cbn [snd d_faults] in Eo. rewrite Eo in E. set (kp' := {| PublicArmored := _ |}) in E.
  assert (Hsig : signed_public s (PublicArmored kp) (PublicArmored kp')).
  { unfold kp'. cbn [PublicArmored]. destruct old as [old|e]; [|by left]. apply readPrivateKey_key in Eo.
    destruct (SignPublicKey old (PublicArmored kp)) as [pub'|e] eqn:Es; [right; by exists old|by left]. }
  clear Eo.
  rewrite bind_K in E. unfold on_disk at 1, Stat at 1, sys at 1 in E. cbn [disk set_faults d_faults] in E.
  assert (hd false (tl (d_faults (disk s))) = false) as Hf' by (by destruct (d_faults (disk s)) as [|? [|? ?]]).
  rewrite Hf' in E. change (file_at _ priv) with (file_at (disk s) priv) in E. cbn [row db_faults] in E.
  match type of E with and_then _ _ ?x = _ => set (s2 := x) in E end.
  assert (Hd : forall q, file_at (disk s2) q = file_at (disk s) q) by done. assert (Hs2 : sound (disk s2)) by done. assert (Ha2 : apart (disk s2)) by done.
  assert (Eg' : kp_CreatedAt kp = d_clock (disk s)).
  { unfold Keys.Generate in Eg. destruct (String.eqb _ _); [done|]. destruct (new_entity _ _ _) as [[[p pv] fp]|]; [|done]. by injection Eg as <-. }
  clearbody s2. unfold and_then at 1 in E. rewrite bind_K in E.
  destruct (file_at (disk s) priv) as [f|] eqn:Ef; cbn [is_ok] in E.
  - unfold on_disk at 1 in E. destruct (Rename priv parked (disk s2)) as [u d3] eqn:E3.
    apply Rename_result in E3 as (K1 & K2 & Hs3 & Ha3); [|done..].
    destruct u as [u|e]; cbn [is_ok] in K2; [|injection E as <- <-; left; split; [by eexists | intros q; cbn [disk]; by rewrite K2]].
    right. exists m, kp, kp', {| disk := d3; row := row s2; db_faults := db_faults s2 |}. split_and!; [done..| |by rewrite <- E].
    unfold parks. cbn [disk]. rewrite Ef. split_and!; [done..| |by rewrite (proj1 K2), Hd, Ef]. intros q N1 N2. by rewrite K1, Hd.
  - right. exists m, kp, kp', s2. split_and!; [done..| |by rewrite <- E]. unfold parks. split_and!; [done..| |by rewrite Ef, Hd]. intros. by apply Hd.
Qed.

(** A file that was written has the text. *)
Lemma WriteFile_done path text d u d' : sound d -> WriteFile path text d = (Ok u, d') -> text_at d' path = Some text.
Proof.
  intros Hs. unfold WriteFile, then_, mbind, D_bind. unfold OpenTrunc, sys. destruct (hd false (d_faults d)); [done|].
  change (names (set_faults _ d)) with (names d).
  assert (forall i t d1, names d1 !! path = Some i -> inodes d1 !! i = Some {| i_data := Plain []; i_mtime := t |} ->
            (let '(a, d2) := WriteString i text d1 in match a with Ok _ => Close | Err e => mret (Err e) end d2) = (Ok u, d') -> text_at d' path = Some text) as Hw.
  { intros i t d1 Hn Hi. unfold WriteString, sys. destruct (hd false (d_faults d1)); [done|]. unfold Close, sys.
    destruct (hd false (d_faults _)); [done|]. intros [= _ <-]. unfold text_at, file_at. cbn [names inodes set_inodes set_faults].
    rewrite Hn. cbn. rewrite list_lookup_alter_eq, Hi. done. }
  destruct (names d !! path) as [i|] eqn:E.
  - apply (Hw i (d_clock (set_faults (tl (d_faults d)) d))); [done|]. cbn [inodes set_inodes set_faults]. apply list_lookup_insert_eq. by apply (Hs path).
  - apply (Hw _ (d_clock (set_faults (tl (d_faults d)) d))); cbn [names inodes set_names set_inodes set_faults]; [apply lookup_insert_eq|].
    by rewrite lookup_app_r, Nat.sub_diag by lia.
Qed.

(** Publishing notes where the key went, and changes nothing else of the row. *)
Definition noted (a b : option SecurityKeypair) : Prop := exists p, b = (set_published p <$> a).
Lemma noted_same a : noted a a.
Proof. destruct a as [m|]; [|by exists ∅]. exists (KeyserversPublished m). by destruct m. Qed.
Lemma publish_to_row post ks : forall done_ s, row (publish_to post ks done_ s).2 = row s.
Proof.
  induction ks as [|k ks IH]; intros done_ s; [done|]. cbn [publish_to]. destruct (String.eqb _ ""); [done|].
  destruct (submitKeyserver _ _); [|done]. rewrite bind_K. unfold on_disk. destruct (now (disk s)). by rewrite IH.
Qed.
Lemma publishAll_noted post ks s : noted (row s) (row (publishAll post ks s).2).
Proof.
  unfold Keys.publishAll. rewrite bind_K. pose proof (publish_to_row post ks ∅ s) as Er. destruct (publish_to post ks ∅ s) as [p s1]. cbn [snd] in Er.
  destruct (bool_decide _); [rewrite <- Er; apply noted_same|]. rewrite bind_K. unfold and_then, on_disk. rewrite bind_K.
  destruct (MkdirAll (disk s1)) as [[u|e] d1]; cbn [disk row db_faults];
    [destruct (WriteFile published (published_text p) d1) as [u2 d2] | cbv beta iota delta [mret K_ret]].
  all: rewrite bind_K; unfold GetSecurityKeypair, statement; cbn [disk row db_faults]; destruct (hd false (db_faults s1)); [rewrite <- Er; apply noted_same|];
    rewrite Er; destruct (row s) as [m|] eqn:Em; [|by exists ∅];
    rewrite bind_K; unfold UpsertSecurityKeypair, statement; cbn [disk row db_faults]; destruct (hd false (tl (db_faults s1))); [apply noted_same | by eexists].
Qed.

Definition fresh_nonce (nonce : result (list Z)) : Prop := forall n, nonce = Ok n -> length n = nonce_size /\ Forall is_byte n.

Lemma and_then_ok {A B} (m : K (result A)) (f : A -> K (result B)) s b s' : and_then m f s = (Ok b, s') ->
  exists a s1, m s = (Ok a, s1) /\ f a s1 = (Ok b, s').
Proof. unfold and_then. rewrite bind_K. destruct (m s) as [[a|e] s1]; [|done]. eauto. Qed.

Lemma on_disk_ok {A} (m : D (result A)) s a s' : on_disk m s = (Ok a, s') -> exists d, m (disk s) = (Ok a, d) /\ s' = {| disk := d; row := row s; db_faults := db_faults s |}.
Proof. unfold on_disk. destruct (m (disk s)) as [x d] eqn:E. intros [= -> <-]. eauto. Qed.

(** The private key is written so that it can be read. *)
Lemma writePrivateKey_done `{!AEADLaws} nonce armored s u s' : sound (disk s) -> fresh_nonce nonce ->
  writePrivateKey configDir installSecret nonce armored s = (Ok u, s') -> key_at (disk s') priv = Ok armored /\ row s' = row s.
Proof.
  intros Hs Hn. unfold writePrivateKey, key_at. destruct (WrapKey installSecret) as [key|e]; [|done].
  destruct (Seal nonce key (bytes armored)) as [sealed|e] eqn:E; [|done]. intros (v & s1 & E1 & E2)%and_then_ok.
  apply on_disk_ok in E1 as (d1 & E1 & ->), E2 as (d2 & E2 & ->). cbn [disk row] in *.
  assert (sound d1) as Hs1 by (unfold MkdirAll, sys in E1; destruct (hd false _); [done|]; by injection E1 as _ <-).
  rewrite (WriteFile_done _ _ _ _ _ Hs1 E2). split; [|done]. destruct nonce as [n|e]; [|by unfold Seal in E; destruct (negb _)].
  destruct (Hn n eq_refl) as [Hl Hb]. rewrite bytes_of_bytes; [by rewrite (Open_Seal _ _ _ _ Hl E), of_bytes_bytes|].
  unfold Seal in E. destruct (negb _); [done|]. injection E as <-. apply Forall_app. split; [done|]. apply gcm_seal_bytes.
Qed.

Lemma install_done `{!AEADLaws} nonce kp r s u s' : pub <> priv -> sound (disk s) -> apart (disk s) -> fresh_nonce nonce ->
  installKeypair nonce kp r s = (Ok u, s') ->
  sound (disk s') /\ apart (disk s') /\ text_at (disk s') pub = Some (PublicArmored kp) /\ key_at (disk s') priv = Ok (PrivateArmored kp)
  /\ row s' = Some {| Fingerprint := kp_Fingerprint kp; sk_CreatedAt := kp_CreatedAt kp; sk_ExpiresAt := kp_ExpiresAt kp;
                      LastRotatedAt := if r then Some (kp_CreatedAt kp) else None; KeyserversPublished := ∅; Revoked := false |}.
Proof.
  intros Hp Hs Ha Hn (v & s1 & E1 & (v2 & s2 & E2 & (v3 & s3 & E3 & E4)%and_then_ok)%and_then_ok)%and_then_ok.
  pose proof (changes_disk (fun _ => False) MkdirAll (keeps_MkdirAll _) s Hs Ha) as (Hs1 & Ha1 & _). rewrite E1 in Hs1, Ha1. cbn [snd] in Hs1, Ha1.
  pose proof (changes_disk (eq pub) _ (keeps_WriteFile pub (PublicArmored kp)) s1 Hs1 Ha1) as (Hs2 & Ha2 & _). rewrite E2 in Hs2, Ha2. cbn [snd] in Hs2, Ha2.
  apply on_disk_ok in E2 as (d2 & E2 & ->). apply WriteFile_done in E2; [|done]. cbn [disk] in Hs2, Ha2.
  pose proof (changes_writePrivateKey nonce (PrivateArmored kp) {| disk := d2; row := row s1; db_faults := db_faults s1 |} Hs2 Ha2) as (Hs3 & Ha3 & Ho). rewrite E3 in Hs3, Ha3, Ho. cbn [snd disk] in Hs3, Ha3, Ho.
  apply writePrivateKey_done in E3 as [Ek _]; [|done..]. unfold UpsertSecurityKeypair, statement in E4. destruct (hd false (db_faults s3)); [done|].
  injection E4 as _ <-. cbn [disk row]. split_and!; [done..| |done|done]. unfold text_at. rewrite Ho by (intros E; by apply Hp). exact E2.
Qed.

Definition installed (q : string) : Prop := key_files q \/ q = published.
Lemma not_installed q : q <> pub -> q <> priv -> q <> published -> ~ installed q.
Proof. unfold installed, key_files. intros N1 N2 N3 [[E|E]|E]; congruence. Qed.
Lemma changes_installs o nonce post ks kp old : changes installed (installs o nonce post ks kp old).
Proof.
  unfold installs. apply changes_then; [eapply changes_weaken; [|apply changes_install]; by left|]. intros _. apply changes_bind; [|changing].
  eapply changes_weaken; [|apply changes_publishAll]. intros q <-. by right.
Qed.

Section reports.
Context `{OpenPGP}.

(** The keys that the server tries, the current and the parked one. *)
Definition server_keys (d : Disk) : list (result string) := [key_at d priv; key_at d parked].

(** Whatever key opens the body, it gives this text: OpenPGP authenticates what it
    decrypts. *)
Definition one_text (body plain : string) : Prop := forall key p, pgp_decrypt key body = Ok p -> p = plain.

Lemma decrypts_with keys key rec plain aes : Ok key ∈ keys -> sr_enc_method rec = "pgp" -> pgp_decrypt key (sr_body rec) = Ok plain ->
  one_text (sr_body rec) plain -> decryptSecurityReport keys rec aes = Ok plain.
Proof.
  intros Hk Hm Hd Ht. unfold decryptSecurityReport. rewrite Hm. cbv iota beta delta [String.eqb Ascii.eqb Bool.eqb]. set (l := fmap _ keys).
  assert (Ok plain ∈ l) as Hl by (apply list_elem_of_fmap; exists (Ok key); split; [by rewrite Hd|done]).
  destruct (first is_ok l) as [[p|e]|] eqn:E.
  - apply first_Some in E as [([k|e] & Ep & _)%list_elem_of_fmap _]; [|done]. by rewrite (Ht k p).
  - by apply first_Some in E as [_ E].
  - by rewrite first_None in E; specialize (E _ Hl).
Qed.

Lemma Generate_entity t kp : Generate t = Ok kp -> exists public private,
  new_entity (StringsU.TrimSpace title ++ " Security") email t = Ok (public, private, kp_Fingerprint kp)
  /\ PublicArmored kp = public /\ PrivateArmored kp = private.
Proof.
  unfold Keys.Generate. destruct (String.eqb _ _); [done|]. destruct (new_entity _ _ _) as [[[p pv] fp]|]; [|done]. intros [= <-]. by exists p, pv.
Qed.

(** C13 — a rotation keeps every report readable: whatever fails after the outgoing key
    was looked for, a report that the current private key opened is still opened by the
    server, with the new key or the parked one (for a report whose body every key that
    opens it opens to the same text). When it succeeds, a new entity has been made; the
    private key that the server reads is its private key; the public key file holds its
    public key, as it is or signed by the outgoing private key; and the row says so. No
    file changes but the three key files and the record of the keyservers. *)
Theorem rotation_keeps_reports `{!AEADLaws} o nonce post ks s :
  NoDup [pub; priv; parked; published] -> sound (disk s) -> apart (disk s) -> nth 1 (d_faults (disk s)) false = false -> fresh_nonce nonce ->
  let '(r, s') := rotate o nonce post ks s in
  let t := d_clock (disk s) in
  (forall key rec plain aes, key_at (disk s) priv = Ok key -> sr_enc_method rec = "pgp" -> pgp_decrypt key (sr_body rec) = Ok plain ->
     one_text (sr_body rec) plain -> decryptSecurityReport (server_keys (disk s')) rec aes = Ok plain)
  /\ (is_ok r = true -> exists public private fp written,
        new_entity (StringsU.TrimSpace title ++ " Security") email t = Ok (public, private, fp)
        /\ text_at (disk s') pub = Some written
        /\ (written = public \/ exists old, key_at (disk s) priv = Ok old /\ SignPublicKey old public = Ok written)
        /\ key_at (disk s') priv = Ok private
        /\ exists m, row s' = Some m /\ Fingerprint m = fp /\ LastRotatedAt m = Some t /\ Revoked m = false)
  /\ (forall q, q ∉ [pub; priv; parked; published] -> file_at (disk s') q = file_at (disk s) q).
Proof.
  intros Hp Hs Ha Hf Hn. apply NoDup_cons in Hp as [P1 [P2 [P3 _]%NoDup_cons]%NoDup_cons].
  apply not_elem_of_cons in P1 as [N1 [N2 [N3 _]%not_elem_of_cons]%not_elem_of_cons], P2 as [N4 [N5 _]%not_elem_of_cons], P3 as [N6 _].
  pose proof (rotate_run o nonce post ks s) as Hr. destruct (rotate o nonce post ks s) as [r s']. cbn [fst snd] in Hr.
  destruct Hr as [[[e ->] Hq]|(m & kp & kp' & s1 & Eg & K1 & K2 & K3 & Hsig & Em & Er & (Hs1 & Ha1 & Ho & Hk) & E)]; [done..| |].
  { split; [|split; [done|by intros q _]]. intros key rec plain aes Hkey Hm Hd Ht. apply (decrypts_with _ key); [|done..].
    unfold server_keys, key_at, text_at. rewrite !Hq. unfold key_at, text_at in Hkey. rewrite Hkey. apply list_elem_of_In. by left. }
  pose proof (changes_installs o nonce post ks kp' (Fingerprint m) s1 Hs1 Ha1) as (Hs' & Ha' & Ho'). rewrite <- E in Hs', Ha', Ho'. cbn [snd] in Hs', Ha', Ho'.
  split; [|split].
  - intros key rec plain aes Hkey Hm Hd Ht. apply (decrypts_with _ key); [|done..]. apply list_elem_of_In. right. left. rewrite <- Hkey. unfold key_at, text_at.
    rewrite Ho' by (apply not_installed; congruence). unfold key_at, text_at in Hkey. destruct (file_at (disk s) priv); [by rewrite Hk|done].
  - intros Hok. destruct r as [en|]; [|done]. symmetry in E. apply and_then_ok in E as (u & s2 & E1 & E2).
    apply install_done in E1 as (Hs2 & Ha2 & Et & Ek & Erow); [|done..].
    pose proof (changes_publishAll post ks s2 Hs2 Ha2) as (_ & _ & Hpub). pose proof (publishAll_noted post ks s2) as [p Hp].
    rewrite bind_K in E2. destruct (publishAll post ks s2) as [v s3]. injection E2 as _ <-. cbn [snd] in Hpub, Hp.
    destruct (Generate_entity _ _ Eg) as (public & private & En & E1 & E2'). exists public, private, (kp_Fingerprint kp), (PublicArmored kp').
    split; [done|]. split; [unfold text_at in *; by rewrite Hpub by congruence|]. split; [rewrite <- E1; exact Hsig|]. rewrite <- E2', <- K1, <- Ek.
    split; [unfold key_at, text_at; by rewrite Hpub by congruence|]. rewrite Erow in Hp. eexists. split; [exact Hp|]. cbn. by rewrite K2, K3.
  - intros q [M1 [M2 [M3 [M4 _]%not_elem_of_cons]%not_elem_of_cons]%not_elem_of_cons]%not_elem_of_cons. rewrite Ho', Ho; [done..|by apply not_installed].
Qed.
End reports.

(** The parked key is the file of the outgoing one, time of writing included. So the
    thirty days of its grace are counted from when it was made, not from when it was
    rotated out: a key that is older than that is removed at the next start. *)
Theorem grace_counted_from_writing o nonce post ks s f s2 :
  NoDup [pub; priv; parked; published] -> sound (disk s) -> apart (disk s) -> nth 1 (d_faults (disk s)) false = false ->
  file_at (disk s) priv = Some f -> is_ok (rotate o nonce post ks s).1 = true ->
  calm (disk s2) -> file_at (disk s2) parked = file_at (disk (rotate o nonce post ks s).2) parked ->
  file_at (disk (pruneRotatedKey configDir s2).2) parked = if rotatedKeyGrace <? d_clock (disk s2) - i_mtime f then None else Some f.
Proof.
  intros Hp Hs Ha Hf Ef Hok Hc E2. apply NoDup_cons in Hp as [P1 [P2 [P3 _]%NoDup_cons]%NoDup_cons].
  apply not_elem_of_cons in P1 as [N1 [N2 _]%not_elem_of_cons], P2 as [N4 _], P3 as [N6 _].
  destruct (rotate_run o nonce post ks s N4 Hs Ha Hf) as [[[e He] _]|(m & kp & kp' & s1 & _ & _ & _ & _ & _ & _ & _ & (Hs1 & Ha1 & _ & Hk) & E)]; [by rewrite He in Hok|].
  rewrite Ef in Hk. rewrite E in E2. destruct (changes_installs o nonce post ks kp' (Fingerprint m) s1 Hs1 Ha1) as (_ & _ & Ho).
  rewrite Ho, Hk in E2 by (apply not_installed; congruence). unfold pruneRotatedKey. rewrite bind_K. unfold on_disk at 1, Stat. rewrite sys_calm, E2 by done.
  rewrite bind_K. unfold on_disk at 1, now. cbn [disk row db_faults d_clock].
  destruct (rotatedKeyGrace <? d_clock (disk s2) - i_mtime f); [|exact E2]. rewrite bind_K. unfold on_disk, Remove. rewrite sys_calm by done. cbn [disk names].
  unfold file_at in E2 |- *. destruct (names (disk s2) !! parked) eqn:En; [|done]. 
  cbv iota beta delta [mret K_ret]. cbn [snd disk names set_names]. by rewrite lookup_delete_eq.
Qed.

(** ** The private key leaves *)

Abbreviation exportPrivate := (exportPrivate configDir installSecret).

Lemma readPrivateKey_ok path s k s1 : readPrivateKey installSecret path s = (Ok k, s1) -> key_at (disk s) path = Ok k /\ forall q, file_at (disk s1) q = file_at (disk s) q.
Proof.
  destruct (readPrivateKey_run path s) as [r E]. intros E2. assert (forall q, file_at (disk s1) q = file_at (disk s) q) as Hq by (rewrite E in E2; by injection E2 as _ <-).
  split; [|done]. unfold readPrivateKey in E2. apply and_then_ok in E2 as (t & s2 & E1 & E2). apply on_disk_ok in E1 as (d & E1 & ->).
  unfold key_at, text_at. unfold ReadFile, sys in E1. destruct (hd false _); [done|]. change (file_at (set_faults _ (disk s)) path) with (file_at (disk s) path) in E1.
  destruct (file_at (disk s) path) as [f|]; [|done]. cbn. destruct (text_of (i_data f)) as [u|]; [|done]. injection E1 as -> _.
  destruct (WrapKey installSecret); [|done]. by injection E2 as ->.
Qed.

Lemma changes_none {A} (m : K A) s : sound (disk s) -> apart (disk s) -> changes (fun _ => False) m ->
  sound (disk (m s).2) /\ apart (disk (m s).2) /\ forall q, file_at (disk (m s).2) q = file_at (disk s) q.
Proof. intros Hs Ha Hm. destruct (Hm s Hs Ha) as (H1' & H2' & H3'). split_and!; [done..|]. intros q. apply H3'. tauto. Qed.

(** The operator shows authority: what is entered is the token of the configuration, or
    there is no token and the process is root's. *)
Definition shows_authority (o : Operating) : Prop :=
  (StringsU.TrimSpace (op_token o) = "" /\ op_root o = true)
  \/ (StringsU.TrimSpace (op_token o) <> "" /\ exists pw, op_password o = Ok pw /\ StringsU.TrimSpace pw = StringsU.TrimSpace (op_token o)).

(** The operator types a line that is not blank. *)
Definition gives_reason (o : Operating) (reason : string) : Prop :=
  exists line rest, op_typed o = Some (line ++ newline ++ rest) /\ Strings.IndexByte line "010" = None
    /\ reason = StringsU.TrimSpace (line ++ newline) /\ reason <> "".

(** The time that the record of exports tells. *)
Definition recorded_export (d : Disk) (t : Z) : Prop :=
  exists text l, text_at d exported = Some text /\ parse text = Some (JObj l) /\ as_time (field "last_export" l) = Some t /\ IsZero t = false.

Lemma authorize_iff o what : authorize o what = Ok tt <-> shows_authority o.
Proof.
  unfold authorize, shows_authority. cbv zeta. destruct (String.eqb_spec (StringsU.TrimSpace (op_token o)) "") as [E|E].
  - destruct (op_root o); split; auto; intros H3; try done. destruct H3 as [[_ ?]|[? _]]; done.
  - destruct (op_password o) as [pw|e].
    + destruct (String.eqb_spec (StringsU.TrimSpace pw) (StringsU.TrimSpace (op_token o))) as [Ep|Ep]; split; auto; [eauto 6|done|].
      intros [[? _]|(_ & x & [= <-] & ?)]; done.
    + split; [done|]. by intros [[? _]|(_ & x & ? & _)].
Qed.

Lemma promptReason_iff o reason : promptReason o = Ok reason <-> gives_reason o reason.
Proof.
  unfold promptReason, gives_reason. destruct (read_line (op_typed o)) as [line failed] eqn:E. split.
  - destruct failed; [done|]. destruct (String.eqb_spec (StringsU.TrimSpace line) ""); [done|]. intros [= <-].
    apply read_line_spec in E as [(_ & _ & ?)|[(_ & _ & ?)|(l & rest & Et & Hi & -> & _)]]; [done..|]. by exists l, rest.
  - intros (l & rest & Et & Hi & -> & Hne). rewrite Et, first_line_cut in E by done. injection E as <- <-. apply String.eqb_neq in Hne. by rewrite Hne.
Qed.

(** What is found of the last export. *)
Lemma lastPrivateExport_run s : hd false (d_faults (disk s)) = false -> forall t, recorded_export (disk s) t ->
  (lastPrivateExport configDir s).1 = Some t /\ d_clock (disk (lastPrivateExport configDir s).2) = d_clock (disk s).
Proof.
  intros Hf t (text & l & Ht & Hp & Hl & Hz). unfold lastPrivateExport. rewrite bind_K. unfold on_disk, ReadFile, sys. rewrite Hf.
  change (file_at (set_faults _ (disk s)) exported) with (file_at (disk s) exported). unfold text_at in Ht.
  destruct (file_at (disk s) exported) as [f|]; [|done]. cbn in Ht. rewrite Ht. cbv beta iota delta [mret K_ret]. cbn [fst snd disk].
  by rewrite Hp, Hl, Hz.
Qed.

(** The end of an export, from the reading of the key on. *)
Lemma export_written o path reason s2 s' e : sound (disk s2) -> apart (disk s2) ->
  and_then (readPrivateKey installSecret priv) (fun key =>
    and_then (on_disk MkdirAll) (fun _ => and_then (on_disk (WriteFile path key)) (fun _ =>
      t ← on_disk now; _ ← recordPrivateExport configDir t;
      mret (Ok (key_entry o "security.private_key_exported" SeverityCritical (match fingerprint_of key with Ok fp => fp | Err _ => "" end) [("path", JStr path)] reason))))) s2
  = (Ok e, s') ->
  en_Reason e = reason /\ en_Event e = "security.private_key_exported" /\ en_Severity e = SeverityCritical /\ en_Details e = [("path", JStr path)]
  /\ (path <> exported -> exists key, key_at (disk s2) priv = Ok key /\ text_at (disk s') path = Some key).
Proof.
  intros Hs2 Ha2 (key & s3 & K1 & (v & s4 & K2 & (w & s5 & K3 & K4)%and_then_ok)%and_then_ok)%and_then_ok.
  rewrite bind_K in K4. destruct (on_disk now s5) as [t s6] eqn:K5. rewrite bind_K in K4. destruct (recordPrivateExport configDir t s6) as [z s7] eqn:K6.
  injection K4 as <- <-. split_and!; [done..|]. intros Hne. exists key.
  assert (changes (fun _ => False) (readPrivateKey installSecret priv)) as Hread by (unfold readPrivateKey; changing).
  destruct (Hread s2 Hs2 Ha2) as (Hs3 & Ha3 & _). rewrite K1 in Hs3, Ha3. cbn [snd] in Hs3, Ha3.
  split; [by apply readPrivateKey_ok in K1 as [K1 _]|].
  destruct (changes_disk (fun _ => False) _ (keeps_MkdirAll _) s3 Hs3 Ha3) as (Hs4 & Ha4 & _). rewrite K2 in Hs4, Ha4. cbn [snd] in Hs4, Ha4.
  assert (changes (fun q => q = path) (on_disk (WriteFile path key))) as Hw by changing.
  destruct (Hw s4 Hs4 Ha4) as (Hs5 & Ha5 & _). rewrite K3 in Hs5, Ha5. cbn [snd] in Hs5, Ha5.
  apply on_disk_ok in K3 as (d5 & K3 & ->). apply WriteFile_done in K3; [|done].
  injection K5 as _ <-. assert (changes (eq exported) (recordPrivateExport configDir t)) as Hrec by (unfold recordPrivateExport; changing).
  match type of K6 with _ ?s6 = _ => destruct (Hrec s6 Hs5 Ha5) as (_ & _ & Hq) end. rewrite K6 in Hq. cbn [snd] in Hq.
  unfold text_at. rewrite Hq by congruence. exact K3.
Qed.

(** C14 — the private key is written out only for an operator who shows authority (the
    token of the configuration, or root's account where there is none) and types a reason,
    and, when the record of exports can be read, not within an hour of the export that it
    tells; the entry for the audit log names the path and the reason, and what is written
    is the private key. Without authority, or without a reason, or within the hour, the
    request fails and no file changes; otherwise only the file that was named and the
    record of exports do. *)
Theorem private_export_guarded o path s : sound (disk s) -> apart (disk s) ->
  let '(r, s') := exportPrivate o path s in
  let within_the_hour := hd false (d_faults (disk s)) = false /\ exists t, recorded_export (disk s) t /\ d_clock (disk s) - t < 60 * 60 * 1000000000 in
  (forall e, r = Ok e -> shows_authority o /\ ~ within_the_hour
     /\ gives_reason o (en_Reason e)
     /\ en_Event e = "security.private_key_exported" /\ en_Severity e = SeverityCritical /\ en_Details e = [("path", JStr path)]
     /\ (path <> exported -> exists key, key_at (disk s) priv = Ok key /\ text_at (disk s') path = Some key))
  /\ (~ shows_authority o \/ (forall reason, ~ gives_reason o reason) \/ within_the_hour ->
        is_ok r = false /\ forall q, file_at (disk s') q = file_at (disk s) q)
  /\ (forall q, q <> path -> q <> exported -> file_at (disk s') q = file_at (disk s) q).
Proof.
  intros Hs Ha. destruct (exportPrivate o path s) as [r s'] eqn:E. unfold Keys.exportPrivate in E. cbv zeta.
  set (soon := hd false (d_faults (disk s)) = false /\ _).
  assert (Hearly : forall m s1, (Err m, s1) = (r, s') -> (forall q, file_at (disk s1) q = file_at (disk s) q) ->
    (forall e, r = Ok e -> shows_authority o /\ ~ soon /\ gives_reason o (en_Reason e)
       /\ en_Event e = "security.private_key_exported" /\ en_Severity e = SeverityCritical /\ en_Details e = [("path", JStr path)]
       /\ (path <> exported -> exists key, key_at (disk s) priv = Ok key /\ text_at (disk s') path = Some key))
    /\ (~ shows_authority o \/ (forall reason, ~ gives_reason o reason) \/ soon -> is_ok r = false /\ forall q, file_at (disk s') q = file_at (disk s) q)
    /\ (forall q, q <> path -> q <> exported -> file_at (disk s') q = file_at (disk s) q)) by (by intros m s1 [= <- <-] Hq).
  destruct (String.eqb (StringsU.TrimSpace path) ""); [by eapply Hearly|].
  rewrite bind_K in E. destruct (changes_none (lastPrivateExport configDir) s Hs Ha) as (Hs1 & Ha1 & E1); [unfold lastPrivateExport; changing|].
  assert (Hlast : soon -> exists t, (lastPrivateExport configDir s).1 = Some t /\ d_clock (disk (lastPrivateExport configDir s).2) - t < Hour).
  { intros (Hf & t & Ht & Hlt). exists t. destruct (lastPrivateExport_run s Hf t Ht) as [-> ->]. split; [done|exact Hlt]. }
  destruct (lastPrivateExport configDir s) as [last s1]. cbn [fst snd] in *. rewrite bind_K in E.
  match type of E with context [let '(a, s') := ?m s1 in _] => destruct (changes_none m s1 Hs1 Ha1) as (Hs2 & Ha2 & E2); [changing|];
    assert (Hlim : soon -> (m s1).1 = true); [|destruct (m s1) as [limited s2]] end.
  { intros (t & -> & Hlt)%Hlast. rewrite bind_K. unfold on_disk, now. cbn. by apply Z.ltb_lt. }
  cbn [fst snd] in *. assert (E12 : forall q, file_at (disk s2) q = file_at (disk s) q) by (intros q; by rewrite E2, E1). clear E1 E2 Hlast.
  destruct limited; [by eapply Hearly|].
  destruct (authorize o "export the private key") as [u|e] eqn:Eauth; [|by eapply Hearly].
  destruct (promptReason o) as [reason|e] eqn:Er; [|by eapply Hearly]. clear Hearly.
  assert (Hauth : shows_authority o) by (rewrite <- (authorize_iff o "export the private key"); by destruct u).
  apply promptReason_iff in Er. assert (Hno : ~ soon) by (intros Hx; by specialize (Hlim Hx)).
  match type of E with ?m s2 = _ => assert (changes (fun q => q = path \/ q = exported) m) as Hm end.
  { repeat first [apply changes_then; [|intros ?] | apply changes_bind; [|intros ?] | changing]; unfold readPrivateKey, recordPrivateExport; changing. }
  destruct (Hm s2 Hs2 Ha2) as (_ & _ & Ho). rewrite E in Ho. cbn [snd] in Ho.
  split; [|split; [by intros [?|[Hx|?]]; [|destruct (Hx _ Er)|]|intros q M1 M2; by rewrite Ho, E12 by tauto]].
  intros e ->. destruct (export_written o path reason s2 s' e Hs2 Ha2 E) as (H1' & H2' & H3' & H4' & H5').
  split; [done|]. split; [done|]. split; [by rewrite H1'|]. split; [done|]. split; [done|]. split; [done|].
  intros Hne. destruct (H5' Hne) as (key & Hk & Ht). exists key. split; [|done]. unfold key_at, text_at in *. by rewrite <- E12.
Qed.
End keyring.

(** ** A keyring *)

(** Keys that are named after the instant they were made at. *)
#[local] Instance dated_keys : KeyTool :=
  {| new_entity := fun _ _ t => Ok ("PUB" ++ Strconv.Itoa t, "KEY" ++ Strconv.Itoa t, "FP" ++ Strconv.Itoa t);
     fingerprint_of := fun key => Ok key; IdentityOf := fun key => Ok ("Paste Security <s@example.org>"); PublicFromPrivate := fun key => Ok ("PUB of " ++ key);
     SignPublicKey := fun key pub => Ok (pub ++ " signed by " ++ key); KeyLifetime := fun _ => Err "";
     hkdf := fun _ => repeat 1 32 |}.

Definition box_nonce : result (list Z) := Ok (repeat 3 12).
Definition operator : Operating :=
  {| op_token := "token"; op_root := false; op_password := Ok "token"; op_typed := Some ("audit" ++ newline); outboundIP := "192.0.2.1" |}.
Definition at_day (d : Z) (s : Keyring) : Keyring :=
  {| disk := {| names := names (disk s); inodes := inodes (disk s); d_clock := d * 24 * Hour; d_ticks := []; d_faults := [] |};
     row := row s; db_faults := [] |}.
Definition empty_ring : Keyring := {| disk := no_files []; row := None; db_faults := [] |}.
Definition no_server (ks : string) (n : nat) : bool := false.

Definition made (day : Z) (s : Keyring) : Keyring :=
  (generate "/etc/paste" [1] "Paste" "s@example.org" operator box_nonce no_server [] (at_day day s)).2.
Definition rotated_on (day : Z) (s : Keyring) : Keyring :=
  (rotate "/etc/paste" [1] "Paste" "s@example.org" operator box_nonce no_server [] (at_day day s)).2.
Definition pruned_on (day : Z) (s : Keyring) : Keyring := (pruneRotatedKey "/etc/paste" (at_day day s)).2.
Definition keys_of (s : Keyring) : list (result string) := server_keys "/etc/paste" [1] (disk s).

Definition key_of_day (d : Z) : string := "KEY" ++ Strconv.Itoa (d * 24 * Hour).

Example first_key : keys_of (made 1 empty_ring) = [Ok (key_of_day 1); Err not_exist].
Proof. vm_compute. reflexivity. Qed.

(** A rotation parks the key; a second one leaves no place for the first. *)
Example second_rotation_drops_the_first :
  keys_of (rotated_on 2 (made 1 empty_ring)) = [Ok (key_of_day 2); Ok (key_of_day 1)]
  /\ keys_of (rotated_on 3 (rotated_on 2 (made 1 empty_ring))) = [Ok (key_of_day 3); Ok (key_of_day 2)].
Proof. split; vm_compute; reflexivity. Qed.

(** A key of forty days is parked, and gone at the next start of the same day. *)
Example parked_key_gone_at_once :
  keys_of (rotated_on 41 (made 1 empty_ring)) = [Ok (key_of_day 41); Ok (key_of_day 1)]
  /\ keys_of (pruned_on 41 (rotated_on 41 (made 1 empty_ring))) = [Ok (key_of_day 41); Err not_exist].
Proof. split; vm_compute; reflexivity. Qed.

(** An import replaces the private key without parking it. *)
Example import_drops_the_key :
  keys_of (importKey "/etc/paste" [1] "Paste" "s@example.org" operator box_nonce "/tmp/key" (Ok "OTHER") (at_day 2 (made 1 empty_ring))).2
  = [Ok "OTHER"; Err not_exist].
Proof. vm_compute. reflexivity. Qed.

(** When the configuration cannot be saved, a deletion has removed the files and leaves
    the row as it was, and publishing on: the next start makes a new keypair. *)
Definition half_deleted : result Entry * Keyring :=
  delete_keys "/etc/paste" {| op_token := "token"; op_root := false; op_password := Ok "token"; op_typed := Some ("delete" ++ newline); outboundIP := "" |}
    (Err "disk full") (at_day 2 (made 1 empty_ring)).
Example deletion_undone_by_start :
  is_ok half_deleted.1 = false /\ keys_of half_deleted.2 = [Err not_exist; Err not_exist] /\ (Revoked <$> row half_deleted.2) = Some false
  /\ keys_of (ensureSecurityKeypair "/etc/paste" [1] "Paste" "s@example.org" true box_nonce (at_day 3 half_deleted.2)).2 = [Ok (key_of_day 3); Err not_exist].
Proof. split_and!; vm_compute; reflexivity. Qed.

Lemma at_day_files day s : sound (disk s) /\ apart (disk s) -> sound (disk (at_day day s)) /\ apart (disk (at_day day s)).
Proof. done. Qed.
Lemma made_files day : sound (disk (made day empty_ring)) /\ apart (disk (made day empty_ring)).
Proof.
  assert (changes (fun _ => True) (generate "/etc/paste" [1] "Paste" "s@example.org" operator box_nonce no_server [])) as Hg.
  { unfold generate. apply changes_then; [unfold GetSecurityKeypair; changing|]. intros meta. apply changes_bind; [changing|]. intros st.
    destruct (_ && _); [changing|]. apply changes_bind; [changing|]. intros t. destruct (Generate _ _ t); [|changing].
    apply changes_then; [eapply changes_weaken; [|apply changes_install]; done|]. intros _. apply changes_bind; [|changing].
    eapply changes_weaken; [|apply changes_publishAll]; done. }
  destruct (Hg (at_day day empty_ring)) as (Hs & Ha & _); [apply (no_files_sound [])|intros p q i Hp; apply (no_files_sound [] p i) in Hp; cbn in Hp; lia|by split].
Qed.

Definition not_colon (c : ascii) : bool := negb (Ascii.eqb c ":").
Lemma one_colon a : forall b k t, Strings.forall_byte not_colon a = true -> Strings.forall_byte not_colon b = true -> a ++ ":" ++ b = (k ++ ":") ++ t -> t = b.
Proof.
  induction a as [|c a IH]; intros b k t Ha Hb E.
  - destruct k as [|d k]; [by injection E|]. injection E as <- ->. rewrite !forall_byte_app in Hb. cbn in Hb. by destruct (Strings.forall_byte not_colon k).
  - cbn in Ha. bsplit. destruct k as [|d k]; [by injection E as -> _|]. injection E as _ E. by apply (IH b k t).
Qed.
Lemma sealed_note : one_text "KEY86400000000000:secret" "secret".
Proof.
  intros key p. cbn [pgp_decrypt named_keys]. destruct (Strings.HasPrefix _ _) eqn:Hp; [|done]. intros [= <-].
  pose proof Hp as [t Et]%HasPrefix_split. unfold Strings.TrimPrefix. rewrite Hp, Et, drop_app.
  by apply (one_colon "KEY86400000000000" "secret" key t).
Qed.

Lemma rotation_keeps_reports_witness :
  let s := at_day 2 (made 1 empty_ring) in let s' := rotated_on 2 (made 1 empty_ring) in
  let rec := report_row "sec_1" "" (read_form (fun _ => "")) ("KEY86400000000000:secret", "pgp") in
  key_at [1] (disk s) (privPath "/etc/paste") = Ok "KEY86400000000000"
  /\ decryptSecurityReport (server_keys "/etc/paste" [1] (disk s')) rec [] = Ok "secret".
Proof.
  intros s s' rec. assert (key_at [1] (disk s) (privPath "/etc/paste") = Ok "KEY86400000000000") as Hk by (vm_compute; reflexivity).
  split; [exact Hk|]. destruct (at_day_files 2 _ (made_files 1)) as [Hs Ha].
  pose proof (rotation_keeps_reports "/etc/paste" [1] "Paste" "s@example.org" operator box_nonce no_server [] s) as P.
  change s' with (rotate "/etc/paste" [1] "Paste" "s@example.org" operator box_nonce no_server [] s).2.
  destruct (rotate "/etc/paste" [1] "Paste" "s@example.org" operator box_nonce no_server [] s) as [r s2].
  destruct P as [P _]; [by apply (bool_decide_unpack _); vm_compute|exact Hs|exact Ha|done|by intros n [= <-]; split; [|repeat constructor]|].
  exact (P _ rec "secret" [] Hk eq_refl eq_refl sealed_note).
Defined.

Lemma private_export_guarded_witness :
  let '(r, s') := exportPrivate "/etc/paste" [1] operator "/root/key" (at_day 2 (made 1 empty_ring)) in
  is_ok r = true /\ text_at (disk s') "/root/key" = Some (key_of_day 1) /\ forall q, q <> "/root/key" -> q <> exportStatePath "/etc/paste" ->
    file_at (disk s') q = file_at (disk (at_day 2 (made 1 empty_ring))) q.
Proof.
  destruct (at_day_files 2 _ (made_files 1)) as [Hs Ha]. pose proof (private_export_guarded "/etc/paste" [1] operator "/root/key" (at_day 2 (made 1 empty_ring)) Hs Ha) as P.
  assert (is_ok (exportPrivate "/etc/paste" [1] operator "/root/key" (at_day 2 (made 1 empty_ring))).1 = true) as Hr by (vm_compute; reflexivity).
  assert (text_at (disk (exportPrivate "/etc/paste" [1] operator "/root/key" (at_day 2 (made 1 empty_ring))).2) "/root/key" = Some (key_of_day 1)) as Ht by (vm_compute; reflexivity).
  destruct (exportPrivate "/etc/paste" [1] operator "/root/key" (at_day 2 (made 1 empty_ring))) as [r s']. cbn [fst snd] in *. split; [done|]. split; [done|]. apply P.
Defined.
